(* ===== verification/_CoqProject ===== *)
-Q . S2P
Prelude.v
KdsCommand.v
CuInfo.v
IpLayout.v
CuCore.v
CuHls.v
CuFa.v
CircLog.v
XrtCu.v
XrtCuSched.v
KdsHwctx.v
KdsSched.v
KdsRefs.v
KdsDispatch.v
KdsRace.v
KdsConfig.v
KdsThreads.v
KdsFaMem.v
KdsLife.v
KdsFini.v
KdsSysfs.v
Xgq.v
XgqRing.v
XgqLink.v
XgqAlloc.v
XgqGroup.v
XoclXgq.v
CuXgq.v
XgqCus.v
XrtXclbin.v
ErtCu.v
ErtCuProof.v
ErtCtrl.v
ErtCtrlSpec.v
ErtCtrlProof.v
XoclErtCtrl.v
XoclRefs.v
XoclKds.v
XoclConfig.v
XoclUpdate.v
XoclExec.v
XoclExecProof.v
XoclStart.v
XoclIcap.v
XoclCtx.v
XoclCtxProof.v
CmdQueue.v
CmdQueueProof.v
ErtUser.v
ErtUserProof.v
ErtUserRun.v
