(* ===== verification/Prelude.v ===== *)
(** * Verification of the kernel driver scheduler (KDS) of XRT

    The sources are under [src/runtime_src/core/common/drv] of the repository
    (with headers in [drv/include] and [core/include]): the C code shared by
    the xocl and zocl Linux drivers that takes command packets from user space,
    selects a compute unit (CU), queues, starts, polls, completes and aborts
    commands, and keeps the bookkeeping of clients and contexts.

    ** Parts and files

    - [Prelude]: record update, machine integers, error numbers, C arrays,
      counting, tactics and the hint database [xrt].
    - [KdsCommand]: packets ([ert.h]) and commands ([kds_command.h]), the
      conversions of [kds_core.c] between them, CU masks, and the conversion to
      XGQ entries ([xgq_execbuf.c]).
    - [CuInfo], [IpLayout]: the description of a CU, sizes, and the parser of
      the IP layout section ([kds_ip_layout2cu_info]).
    - [CuCore]: the interface [xcu_funcs] between the CU scheduler and a CU
      implementation; its laws are the class [XcuLaws].
    - [CuHls], [CuFa]: two implementations ([cu_hls.c], [fast_adapter.c]) over
      abstract registers ([Mmio]), each with its instance of [XcuLaws].
    - [CircLog]: the debug log ring of a CU.
    - [XrtCu], [XrtCuSched]: the queues and loops of [xrt_cu.c], and the
      theorems about them, proved for every implementation of [XcuLaws].
    - [KdsHwctx]: clients, contexts, per-context statistics ([kds_hwctx.c]).
    - [KdsSched]: the scheduler state ([kds_core.h]) and the operations of
      [kds_core.c] on it.
    - [KdsRefs], [KdsDispatch], [KdsRace]: theorems about opening and closing
      contexts, about the fate of a submitted command, and about the race
      between the two.
    - [KdsConfig]: configuration of the scheduler: polling rounds, starting and
      stopping CU threads, command memory of fast adapters; [KdsThreads] and
      [KdsFaMem] have the theorems.
    - [KdsLife]: initialisation, creation and release of clients, live clients,
      synchronous submission, user managed CUs; [KdsFini] shows what the release
      of a client leaves behind.
    - [KdsSysfs]: the statistics shown to user space.
    - [Xgq]: the ring pair of [core/include/xgq_impl.h] that carries commands
      between host and device; [XgqRing] has the lemmas on one ring, [XgqLink]
      the client and server interleaved on shared memory and their
      specification, [XgqAlloc] sizing, allocation, attachment and the
      theorems, [XgqGroup] a group of queues in one memory.
    - [XoclXgq]: the clients (CUs) that share an XGQ in the xocl driver
      ([xocl_xgq.c]).
    - [CuXgq]: the third implementation of the CU interface ([cu_xgq.c]), a
      client of [XoclXgq]; [XgqCus] runs several such CUs and the device on one
      queue.
    - [ErtCu]: the firmware at the other end of an XGQ ([ert/scheduler]): the
      handler of one CU queue; [ErtCuProof] has the theorems.
    - [ErtCtrl]: its control queue ([xgq_ctrl.c]), the control commands and the
      main loop ([sched.c]); [ErtCtrlSpec] is the protocol in which a host
      configures the firmware, as a state machine, with a lemma per command;
      [ErtCtrlProof] has the theorems.
    - [XoclErtCtrl]: the host end of the control queue ([ert_ctrl.c]); [XoclRefs]
      shows how it counts the users of the CU queues.
    - [XoclKds]: how the xocl driver configures the CUs of an xclbin
      ([xocl_kds.c], and the device table of [xocl_subdev.c]).
    - [XoclConfig], [XoclUpdate]: driver and firmware on one memory: a control
      command as a remote procedure call, and a whole configuration.
    - [XoclExec]: the command buffers of the xocl driver ([xocl_kds.c], [ert.h]):
      from the ioctl to the submission, and the notification that writes the
      result back; [XoclExecProof] has the lemmas on the references to buffers,
      [XoclStart] a start command from the buffer to the CU and back, and the
      theorems.
    - [XoclIcap]: the locks on the loaded bitstreams ([icap.c]).
    - [XoclCtx]: contexts and clients of the xocl driver ([xocl_kds.c],
      [xocl_hwctx.c]); [XoclCtxProof] has the theorems.
    - [CmdQueue]: the slots in which commands for a firmware without XGQ are
      written ([command_queue.c], interface [xrt_ert.h]); [CmdQueueProof] has
      the invariant of the slots.
    - [ErtUser]: the scheduler on top of it ([ert_user.c]); [ErtUserProof] states
      what it relies on as the class [QueueLaws], with the instance for
      [CmdQueue], and has the lemmas on each operation, [ErtUserRun] runs its
      thread against submitters, aborts and reports and has the theorems.
    - [XrtXclbin]: the parser of bitstream headers and the access to the
      sections of an xclbin file ([xrt_xclbin.c]).

    ** Modelling

    State is a record per C struct and is passed explicitly.  A CU is passed by
    value in [XrtCu] and lives in a heap keyed by its address in [KdsSched];
    a list element is designated by its position.  [None] is undefined
    behaviour of the C code (NULL dereference, access outside an array,
    division by zero); error numbers are negative results.  Integers are [Z]
    and are brought back to their width where the C code can leave it.  What
    other threads or the hardware do at a sleep, a wait or a register access
    is an argument (a function, or a list of functions for a loop), so a
    theorem holds for every behaviour its hypotheses admit.  [now] is the clock.

    Loops that are not structural take fuel: [drain] gets one more than the
    number of submitted commands and [process_rq_loop] one more than the run
    queue, and theorems [xrt_cu_process_queues_ok] and [xrt_cu_intr_round_ok]
    show that this is always enough; the waiting loops recurse on the list of
    what happens in each sleep.

    ** What is shown

    - CU scheduler: commands are neither lost nor duplicated in any
      interleaving of the CU thread, submitters, aborts and timers; without
      aborts a CU is a FIFO queue; every round terminates; credits bound the
      number of started commands.
    - KDS: a submitted command has exactly one fate; the selected CU is the
      least used one in mask and context; CU and client reference counts agree
      after every open and close; exclusive reservation has one holder; a close
      does not overtake a submission.
    - Configuration: CU threads start all or none; fast adapters get disjoint
      command memory; the release of a client gives up every reservation.
    - XGQ: allocation and attachment agree on the rings, and any interleaving of
      client and server behaves as two bounded FIFO channels; CUs that share
      a queue get back exactly their own commands whatever the device writes,
      and the theorems about one CU hold for each CU on a shared queue.
    - Queue groups: the queues of a group do not disturb each other, each is a
      pair of bounded channels of its own.
    - Firmware: every command taken from a CU queue is running, in hand or
      answered; a start packet reaches the registers of the CU as it would
      without the firmware.  The control commands implement the configuration
      protocol; after it every CU has a handler on a queue of the group; the
      endless main loop keeps the types of the state in every round.
    - Driver and firmware: commands sent over the control queue are answered as
      the configuration protocol says; configuring an xclbin leaves every CU
      with a device whose queue is the one the firmware serves it from; the
      users of a shared queue are counted.
    - Command buffers: a start command reaches the least used CU it offers as
      the application wrote it and its result is written back to its buffer; in
      any sequence of requests and completions the driver holds a buffer exactly
      as often as commands are pending on it.
    - Contexts: the bitstream of a slot is locked while a hardware context uses
      it; closing a CU undoes opening it.
    - Legacy scheduler: a command has a slot of its own, which holds its packet,
      from submission to completion; no command is lost or duplicated between
      submission and notification; the thread does not sleep over work.
    - Data: packet validation makes the conversions safe; masks, IP layout
      sorting, register and descriptor writes, log ring contents; sections of
      an xclbin are copied exactly or refused.
    - Defects found are theorems or examples as well; their names say so.

    ** Not modelled

    Locking (each operation is atomic as the locks make it, except where
    [KdsRace] splits it), memory allocation beyond its success or failure,
    logging to the kernel log, reordering of writes to shared memory (the flag
    that guards against it is modelled), the mapping of the command queue into
    the host's address space (it is taken to be the identity), the
    configuration of legacy firmware without XGQ in [xocl_kds.c], the rest of
    [icap.c] (download, clocks), the other device drivers around KDS, and the
    C++ user space. *)
From Stdlib Require Export ZArith Lia Sorted.
From stdpp Require Export base numbers gmap tactics list.

Open Scope Z_scope.

(** ** Record update

    [r <| f := v |>] is [r] with field [f] replaced by [v] and
    [r <| f ::= g |>] is [r] with [g] applied to field [f].  A record type
    opts in with an instance of [Eta] giving its eta expansion; the setter of
    a field is computed from that expansion. *)

Class Eta (R : Type) := eta : R -> R.

Class Setter {R T : Type} (proj : R -> T) := upd : (T -> T) -> R -> R.
Arguments upd {R T} proj {_} f r.

Ltac derive_setter :=
  match goal with
  | |- @Setter ?R ?T ?proj =>
      let f := fresh "f" in
      let r := fresh "r" in
      refine (fun (f : T -> T) (r : R) => _);
      let e := constr:(@eta R _ r) in
      let b := eval cbv [eta] in e in
      let b := (match b with
                | ?h r => let h' := eval red in h in eval cbv beta in (h' r)
                | _ => b
                end) in
      let g := eval pattern (proj r) in b in
      match g with
      | ?k (proj r) => let res := eval cbv beta in (k (f (proj r))) in exact res
      end
  end.

#[global] Hint Extern 1 (Setter _) => derive_setter : typeclass_instances.

Declare Scope upd_scope.
Open Scope upd_scope.
Notation "r <| f := v |>" := (upd f (fun _ => v) r)
  (at level 12, f at next level, v at level 60, left associativity,
   format "r  <| f  :=  v |>") : upd_scope.
Notation "r <| f ::= g |>" := (upd f g r)
  (at level 12, f at next level, g at level 60, left associativity,
   format "r  <| f  ::=  g |>") : upd_scope.

(** ** Machine integers

    A C integer is a [Z]; an arithmetic result is brought back to its width
    where the C code may leave it. *)

Definition u8 (z : Z) : Z := z mod 2 ^ 8.
Definition u16 (z : Z) : Z := z mod 2 ^ 16.
Definition u32 (z : Z) : Z := z mod 2 ^ 32.
Definition u64 (z : Z) : Z := z mod 2 ^ 64.

(** Two's complement reading of the low [w] bits. *)
Definition signed (w : Z) (z : Z) : Z :=
  let m := z mod 2 ^ w in if m <? 2 ^ (w - 1) then m else m - 2 ^ w.
Definition s8 (z : Z) : Z := signed 8 z.
Definition s32 (z : Z) : Z := signed 32 z.

#[global] Arguments u8 : simpl never.
#[global] Arguments u16 : simpl never.
#[global] Arguments u32 : simpl never.
#[global] Arguments u64 : simpl never.
#[global] Arguments signed : simpl never.
#[global] Arguments s8 : simpl never.
#[global] Arguments s32 : simpl never.

(** C truth values: [0] is false, anything else is true. *)
Definition z2b (z : Z) : bool := negb (z =? 0).
Definition b2z (b : bool) : Z := if b then 1 else 0.

Lemma u32_range z : 0 <= u32 z < 2 ^ 32.
Proof. apply Z.mod_pos_bound. lia. Qed.

Lemma u64_range z : 0 <= u64 z < 2 ^ 64.
Proof. apply Z.mod_pos_bound. lia. Qed.

Lemma u8_small z : 0 <= z < 2 ^ 8 -> u8 z = z.
Proof. apply Z.mod_small. Qed.

Lemma u32_small z : 0 <= z < 2 ^ 32 -> u32 z = z.
Proof. apply Z.mod_small. Qed.

Lemma u64_small z : 0 <= z < 2 ^ 64 -> u64 z = z.
Proof. apply Z.mod_small. Qed.

Lemma u32_u32 z : u32 (u32 z) = u32 z.
Proof. apply u32_small, u32_range. Qed.

Lemma signed_small w z : 0 < w -> 0 <= z < 2 ^ (w - 1) -> signed w z = z.
Proof.
  intros Hw Hz. unfold signed.
  assert (2 ^ w = 2 * 2 ^ (w - 1)) as E.
  { rewrite <- Z.pow_succ_r by lia. f_equal. lia. }
  rewrite Z.mod_small by lia. destruct (Z.ltb_spec z (2 ^ (w - 1))); lia.
Qed.

Lemma s8_small z : 0 <= z < 128 -> s8 z = z.
Proof. intros. apply signed_small; simpl; lia. Qed.

Lemma s32_small z : 0 <= z < 2 ^ 31 -> s32 z = z.
Proof. intros. apply signed_small; [lia|]. exact H. Qed.

(** Adding one below the top never wraps. *)
Lemma u32_succ z : 0 <= z < 2 ^ 32 - 1 -> u32 (z + 1) = z + 1.
Proof. intros. apply u32_small. lia. Qed.

(** ** Linux error numbers *)

Definition ENOENT : Z := 2.
Definition E2BIG : Z := 7.
Definition EAGAIN : Z := 11.
Definition ENOMEM : Z := 12.
Definition EFAULT : Z := 14.
Definition EBUSY : Z := 16.
Definition EEXIST : Z := 17.
Definition ENODEV : Z := 19.
Definition EINVAL : Z := 22.
Definition ENOSPC : Z := 28.
Definition EDEADLK : Z := 35.
Definition ENOSYS : Z := 38.
Definition ENODATA : Z := 61.
Definition EPROTO : Z := 71.
Definition EOPNOTSUPP : Z := 95.
Definition EADDRNOTAVAIL : Z := 99.
Definition ETIMEDOUT : Z := 110.
Definition ERESTARTSYS : Z := 512.
Definition ENOTSUPP : Z := 524.

(** ** C arrays

    A C array is a list; [aget] and [aset] index it with a C integer.  Both
    are used below a bounds check of the code; where the code has none the
    checked accessors [aget_chk] and [aset_chk] are used, whose [None] is an
    access outside the array. *)

Section Arrays.
Context {A : Type}.
Implicit Types (l : list A) (i j : Z) (d v : A).

Definition aget d l i : A := default d (l !! Z.to_nat i).
Definition aset l i v : list A := <[Z.to_nat i := v]> l.

Definition in_arr l i : bool := (0 <=? i) && (i <? Z.of_nat (length l)).

Definition aget_chk d l i : option A :=
  if in_arr l i then Some (aget d l i) else None.
Definition aset_chk l i v : option (list A) :=
  if in_arr l i then Some (aset l i v) else None.

Lemma length_aset l i v : length (aset l i v) = length l.
Proof. apply length_insert. Qed.

Lemma aget_aset_eq d l i v :
  0 <= i < Z.of_nat (length l) -> aget d (aset l i v) i = v.
Proof.
  intros. unfold aget, aset. rewrite list_lookup_insert_eq by lia. done.
Qed.

Lemma aget_aset_ne d l i j v :
  0 <= i -> 0 <= j -> i <> j -> aget d (aset l i v) j = aget d l j.
Proof.
  intros. unfold aget, aset. rewrite list_lookup_insert_ne by lia. done.
Qed.

Lemma aset_aset l i v w : aset (aset l i v) i w = aset l i w.
Proof. apply list_insert_insert_eq. Qed.

Lemma aset_aget d l i :
  0 <= i < Z.of_nat (length l) -> aset l i (aget d l i) = l.
Proof.
  intros. unfold aset, aget. apply list_insert_id.
  destruct (lookup_lt_is_Some_2 l (Z.to_nat i)) as [x E]; [lia|].
  by rewrite E.
Qed.

Lemma in_arr_true l i : in_arr l i = true <-> 0 <= i < Z.of_nat (length l).
Proof. unfold in_arr. lia. Qed.

Lemma aget_replicate d n i v :
  0 <= i < Z.of_nat n -> aget d (replicate n v) i = v.
Proof. intros. unfold aget. rewrite lookup_replicate_2 by lia. done. Qed.
End Arrays.

(** [memcpy] of [n] words between word buffers; [None] when it leaves one. *)
Definition copy_out {A} (src : list A) (off n : Z) : option (list A) :=
  if (0 <=? off) && (0 <=? n) && (off + n <=? Z.of_nat (length src))
  then Some (take (Z.to_nat n) (drop (Z.to_nat off) src)) else None.

Definition copy_in {A} (dst : list A) (off : Z) (ws : list A) : option (list A) :=
  if (0 <=? off) && (off + Z.of_nat (length ws) <=? Z.of_nat (length dst))
  then Some (take (Z.to_nat off) dst ++ ws ++
             drop (Z.to_nat off + length ws) dst)
  else None.

Lemma copy_out_ok {A} (src : list A) off n :
  0 <= off -> 0 <= n -> off + n <= Z.of_nat (length src) ->
  copy_out src off n = Some (take (Z.to_nat n) (drop (Z.to_nat off) src)).
Proof.
  intros. unfold copy_out.
  replace ((0 <=? off) && (0 <=? n) && _) with true by lia. done.
Qed.

Lemma copy_out_length {A} (src : list A) off n ws :
  copy_out src off n = Some ws -> Z.of_nat (length ws) = n.
Proof.
  unfold copy_out. intros H.
  destruct ((0 <=? off) && (0 <=? n) && (off + n <=? Z.of_nat (length src))) eqn:E;
    [|done].
  inversion H; subst. rewrite length_take, length_drop. lia.
Qed.

Lemma copy_in_ok {A} (dst : list A) off ws :
  0 <= off -> off + Z.of_nat (length ws) <= Z.of_nat (length dst) ->
  copy_in dst off ws =
  Some (take (Z.to_nat off) dst ++ ws ++ drop (Z.to_nat off + length ws) dst).
Proof.
  intros. unfold copy_in. replace ((0 <=? off) && _) with true by lia. done.
Qed.

Lemma copy_in_overflow {A} (dst : list A) off ws :
  Z.of_nat (length dst) < off + Z.of_nat (length ws) -> copy_in dst off ws = None.
Proof.
  intros. unfold copy_in.
  replace ((0 <=? off) && (off + Z.of_nat (length ws) <=? Z.of_nat (length dst)))
    with false by lia. done.
Qed.

(** ** Counting *)

Fixpoint countb {A} (p : A -> bool) (l : list A) : nat :=
  match l with
  | [] => 0
  | x :: l => (if p x then 1 else 0) + countb p l
  end.

Section Count.
Context {A : Type} (p : A -> bool).

Lemma countb_app l k : countb p (l ++ k) = (countb p l + countb p k)%nat.
Proof. induction l as [|x l IH]; simpl; [done|]. rewrite IH. lia. Qed.

Lemma countb_le l : (countb p l <= length l)%nat.
Proof. induction l as [|x l IH]; simpl; [lia|]. destruct (p x); lia. Qed.

Lemma countb_ext (q : A -> bool) l :
  (forall x, x ∈ l -> p x = q x) -> countb p l = countb q l.
Proof.
  induction l as [|x l IH]; intros H; simpl; [done|].
  rewrite (H x), IH; [done| |set_solver]. intros. apply H. set_solver.
Qed.

Lemma countb_zero l : countb p l = 0%nat <-> forall x, x ∈ l -> p x = false.
Proof.
  induction l as [|x l IH]; simpl; [set_solver|].
  destruct (p x) eqn:E; split; intros H.
  - lia.
  - specialize (H x). rewrite E in H. set_solver.
  - intros y Hy. apply elem_of_cons in Hy as [->|Hy]; [done|].
    apply IH; [lia|done].
  - apply IH. set_solver.
Qed.

Lemma countb_pos l x : x ∈ l -> p x = true -> (0 < countb p l)%nat.
Proof.
  intros Hin Hp. destruct (countb p l) eqn:E; [|lia].
  apply countb_zero with (x := x) in E; [congruence|done].
Qed.

(** Replacing one element changes the count by its contribution. *)
Lemma countb_insert l i x y :
  l !! i = Some x ->
  Z.of_nat (countb p (<[i:=y]> l)) =
  Z.of_nat (countb p l) - b2z (p x) + b2z (p y).
Proof.
  revert i. induction l as [|z l IH]; intros [|i] H; simpl in *; try done.
  - inversion H; subst. unfold b2z. destruct (p x), (p y); lia.
  - specialize (IH _ H). lia.
Qed.
End Count.

(** Filtering the image of a function, up to a change of function. *)
Lemma filter_fmap_rel {A B} (P : B -> Prop) (Q : A -> Prop)
  `{forall x, Decision (P x)} `{forall x, Decision (Q x)} (f g : A -> B) l :
  Forall (fun k => (P (f k) <-> Q k) /\ f k = g k) l ->
  filter P (f <$> l) = g <$> filter Q l.
Proof.
  induction 1 as [|k l [HPQ Hfg] Hl IH]; [done|].
  rewrite fmap_cons, !filter_cons, IH, Hfg in *.
  repeat case_decide; naive_solver.
Qed.

Lemma Forall_filter_sub {A} (R P : A -> Prop) `{forall x, Decision (P x)} l :
  Forall R l -> Forall R (filter P l).
Proof.
  induction 1; [constructor|]. rewrite filter_cons. case_decide; [by constructor|done].
Qed.

Lemma StronglySorted_filter {A} (R : A -> A -> Prop) (P : A -> Prop)
  `{forall x, Decision (P x)} l :
  StronglySorted R l -> StronglySorted R (filter P l).
Proof.
  induction 1 as [|x l Hl IH Hx]; [constructor|]. rewrite filter_cons.
  case_decide; [|done]. constructor; [done|].
  apply Forall_forall. intros y Hy. apply list_elem_of_filter in Hy as [_ Hy].
  by eapply Forall_forall in Hx.
Qed.

Lemma StronglySorted_seqZ m n : StronglySorted Z.lt (seqZ m n).
Proof.
  destruct (Z.le_gt_cases n 0) as [Hn|Hn]; [rewrite seqZ_nil by lia; constructor|].
  rewrite <- (Z2Nat.id n) by lia. clear Hn. generalize (Z.to_nat n). clear n.
  intros n. revert m. induction n as [|n IH]; intros m; [constructor|].
  rewrite seqZ_cons by lia. replace (Z.pred (Z.of_nat (S n))) with (Z.of_nat n) by lia.
  constructor; [apply IH|]. apply Forall_seqZ. lia.
Qed.

(** ** Tactics *)

(** Split on the condition of the first [if] or the scrutinee of the first
    [match] in the goal, keeping the equation. *)
Ltac case_match_eq :=
  match goal with
  | |- context [match ?x with _ => _ end] => destruct x eqn:?
  end.

(** Expose the field updates and simplify. *)
Ltac rsimpl := cbv [upd] in *; cbn in *.

(** Push one projection through one field update, everywhere.  Unlike
    [rsimpl] this never expands a record, so it also suits large ones. *)
Ltac rproj_step t p q f r :=
  first [ unify p q; change t with (f (p r)); cbv beta
        | change t with (p r) ].
Ltac rproj_step_in t p q f r H :=
  first [ unify p q; change t with (f (p r)) in H; cbv beta in H
        | change t with (p r) in H ].
Ltac rproj :=
  repeat match goal with
  | |- context [?p (@upd ?R ?T ?q ?S ?f ?r)] => rproj_step (p (@upd R T q S f r)) p q f r
  | H : context [?p (@upd ?R ?T ?q ?S ?f ?r)] |- _ =>
      rproj_step_in (p (@upd R T q S f r)) p q f r H
  end.

(** Turn boolean tests on integers into propositions and finish with [lia]. *)
Ltac blia := unfold z2b, b2z in *; lia.

Create HintDb xrt.
Create Rewrite HintDb xrt.
#[export] Hint Resolve u32_range u64_range : xrt.
#[export] Hint Rewrite @length_aset @aset_aset : xrt.
