(* ===== verification/KdsCommand.v ===== *)
(** * Execbuf packets and KDS commands

    The user-space ERT packet ([ert.h]), the driver-side command
    ([kds_command.h]), the conversions between them in the "User space execbuf
    command related functions" of [kds_core.c] and in [xgq_execbuf.c], and the
    expansion of a CU mask into CU indices. *)
From S2P Require Import Prelude.

(** ** [kds_command.h] *)

Definition REGMAP : Z := 0.
Definition KEY_VAL : Z := 1.
Definition XGQ_CMD : Z := 2.

Inductive kds_opcode :=
| OP_NONE | OP_CONFIG | OP_START | OP_ABORT | OP_CONFIG_SK | OP_START_SK
| OP_CLK_CALIB | OP_VALIDATE | OP_GET_STAT.

Inductive kds_status :=
| KDS_NEW | KDS_QUEUED | KDS_RUNNING | KDS_COMPLETED | KDS_ERROR | KDS_ABORT
| KDS_TIMEOUT | KDS_SKCRASHED | KDS_STAT_MAX.

#[export] Instance kds_opcode_eq_dec : EqDecision kds_opcode.
Proof. solve_decision. Defined.
#[export] Instance kds_status_eq_dec : EqDecision kds_status.
Proof. solve_decision. Defined.

Definition status_ix (s : kds_status) : Z :=
  match s with
  | KDS_NEW => 0 | KDS_QUEUED => 1 | KDS_RUNNING => 2 | KDS_COMPLETED => 3
  | KDS_ERROR => 4 | KDS_ABORT => 5 | KDS_TIMEOUT => 6 | KDS_SKCRASHED => 7
  | KDS_STAT_MAX => 8
  end.

Definition NO_INDEX : Z := -1.

(** [type] of a command: [enum kds_type] of [kds_core.h]. *)
Definition KDS_CU : Z := 0.
Definition KDS_SCU : Z := 1.
Definition KDS_ERT : Z := 2.

(** A command.  [xcmd_id] and [xcmd_client] are the addresses of the command
    and of the client it belongs to; [xcmd_info] is the payload buffer, a list
    of words whose length is the allocated size ([None] is the NULL pointer);
    [xcmd_isize] is in bytes. *)
Record kds_command := mk_kds_command {
  xcmd_id : Z;
  xcmd_client : Z;
  xcmd_status : kds_status;
  xcmd_rcode : Z;
  xcmd_cu_idx : Z;
  xcmd_hw_ctx_id : Z;
  xcmd_type : Z;
  xcmd_opcode : kds_opcode;
  xcmd_payload_alloc : bool;
  xcmd_payload_type : Z;
  xcmd_info : option (list Z);
  xcmd_isize : Z;
  xcmd_timestamp_enabled : bool;
  xcmd_timestamp : list Z;
  xcmd_cu_mask : list Z;
  xcmd_num_mask : Z;
  xcmd_exec_bo_handle : Z;
}.

#[export] Instance eta_kds_command : Eta kds_command := fun r =>
  mk_kds_command (xcmd_id r) (xcmd_client r) (xcmd_status r) (xcmd_rcode r)
    (xcmd_cu_idx r) (xcmd_hw_ctx_id r) (xcmd_type r) (xcmd_opcode r)
    (xcmd_payload_alloc r) (xcmd_payload_type r) (xcmd_info r) (xcmd_isize r)
    (xcmd_timestamp_enabled r) (xcmd_timestamp r) (xcmd_cu_mask r)
    (xcmd_num_mask r) (xcmd_exec_bo_handle r).

(** ** ERT packets ([ert.h])

    A packet is its header word and the words that follow it.  The bit fields
    of the header are read and written in place. *)

Record ert_packet := mk_ert_packet { ert_header : Z; ert_words : list Z }.

#[export] Instance eta_ert_packet : Eta ert_packet := fun r =>
  mk_ert_packet (ert_header r) (ert_words r).

Definition field (h lo w : Z) : Z := Z.land (Z.shiftr h lo) (Z.ones w).
Definition set_field (h lo w v : Z) : Z :=
  Z.lor (Z.ldiff h (Z.shiftl (Z.ones w) lo)) (Z.shiftl (Z.land v (Z.ones w)) lo).

Definition ert_state (p : ert_packet) : Z := field (ert_header p) 0 4.
Definition ert_stat_enabled (p : ert_packet) : Z := field (ert_header p) 4 1.
Definition ert_extra_cu_masks (p : ert_packet) : Z := field (ert_header p) 10 2.
Definition ert_count (p : ert_packet) : Z := field (ert_header p) 12 11.
Definition ert_opcode (p : ert_packet) : Z := field (ert_header p) 23 5.
Definition ert_type (p : ert_packet) : Z := field (ert_header p) 28 4.

Definition set_ert_type (v : Z) (p : ert_packet) : ert_packet :=
  p <| ert_header ::= fun h => set_field h 28 4 v |>.

(** [enum ert_cmd_type] *)
Definition ERT_CTRL : Z := 2.
Definition ERT_CU : Z := 3.
Definition ERT_SCU : Z := 4.

(** [enum ert_cmd_opcode] *)
Definition ERT_START_CU : Z := 0.
Definition ERT_CONFIGURE : Z := 2.
Definition ERT_EXIT : Z := 3.
Definition ERT_ABORT : Z := 4.
Definition ERT_EXEC_WRITE : Z := 5.
Definition ERT_CU_STAT : Z := 6.
Definition ERT_START_COPYBO : Z := 7.
Definition ERT_SK_CONFIG : Z := 8.
Definition ERT_SK_START : Z := 9.
Definition ERT_INIT_CU : Z := 11.
Definition ERT_START_FA : Z := 12.
Definition ERT_CLK_CALIB : Z := 13.
Definition ERT_MB_VALIDATE : Z := 14.
Definition ERT_START_KEY_VAL : Z := 15.
Definition ERT_ACCESS_TEST_C : Z := 16.
Definition ERT_START_DPU : Z := 18.
Definition ERT_CMD_CHAIN : Z := 19.
Definition ERT_START_NPU : Z := 20.
Definition ERT_START_NPU_PREEMPT : Z := 21.

(** [ert_start_kernel_cmd]: word 0 after the header is the CU mask, [data]
    starts at word 1. *)
Definition kecmd_data_off : Z := 1.

(** [ert_configure_cmd]: slot_size, num_cus, cu_shift, cu_base_addr, features
    and then [data]; [kds_30] is bit 8 of the features word. *)
Definition cfg_num_cus (p : ert_packet) : Z := aget 0 (ert_words p) 1.
Definition cfg_features_off : Z := 4.
Definition cfg_data_off : Z := 5.

Definition ert_valid_opcode (p : ert_packet) : bool :=
  let op := ert_opcode p in
  let count := ert_count p in
  let extra := ert_extra_cu_masks p in
  let w i := aget 0 (ert_words p) i in
  if op =? ERT_START_CU then extra + 1 + 4 <=? count
  else if op =? ERT_START_DPU then 1 + extra + 4 <=? count
  else if op =? ERT_CMD_CHAIN then count =? u64 (w 0 * 8 + 24) / 4
  else if op =? ERT_START_NPU then 1 + extra + 4 <=? count
  else if op =? ERT_START_NPU_PREEMPT then 1 + extra + 10 <=? count
  else if op =? ERT_START_KEY_VAL then extra + 1 <=? count
  else if op =? ERT_EXEC_WRITE then extra + 1 + 6 <=? count
  else if op =? ERT_START_FA then extra + 1 <=? count
  else if op =? ERT_SK_START then extra + 1 + 1 <=? count
  else if op =? ERT_CONFIGURE then u32 (5 + w 1) <=? count
  else if op =? ERT_START_COPYBO then count =? 16
  else if op =? ERT_INIT_CU then extra + 9 + 4 <=? count
  else if op =? ERT_SK_CONFIG then count =? u64 (28 * w 0) / 4 + 1
  else (op =? ERT_CLK_CALIB) || (op =? ERT_MB_VALIDATE)
       || (op =? ERT_ACCESS_TEST_C) || (op =? ERT_CU_STAT)
       || (op =? ERT_EXIT) || (op =? ERT_ABORT).

(** ** Allocation ([kds_alloc_command])

    [size] is in bytes and the payload buffer is kept in words, rounded up.
    [alloc] says for each of the two [kzalloc] calls whether it succeeds. *)
Definition kds_alloc_command (alloc : bool * bool) (id client size : Z)
  : option kds_command :=
  let xcmd := mk_kds_command id client KDS_NEW 0 NO_INDEX 0 0 OP_NONE false 0
                None 0 false (replicate 8 0) (replicate 4 0) 0 0 in
  if negb alloc.1 then None
  else if size =? 0 then Some xcmd
  else if negb alloc.2 then None
  else Some (xcmd <| xcmd_info := Some (replicate (Z.to_nat ((size + 3) / 4)) 0) |>
                  <| xcmd_isize := size |>
                  <| xcmd_payload_alloc := true |>).

(** The buffers [kds_free_command] returns to the allocator. *)
Inductive freed := FreedInfo (id : Z) | FreedCmd (id : Z).

Definition kds_free_command (xcmd : option kds_command) : list freed :=
  match xcmd with
  | None => []
  | Some c => (if xcmd_payload_alloc c then [FreedInfo (xcmd_id c)] else [])
              ++ [FreedCmd (xcmd_id c)]
  end.

(** [set_xcmd_timestamp]; [now] is the clock reading. *)
Definition set_xcmd_timestamp (now : Z) (xcmd : kds_command) (s : kds_status)
  : kds_command :=
  if negb (xcmd_timestamp_enabled xcmd) then xcmd
  else xcmd <| xcmd_timestamp ::= fun ts => aset ts (status_ix s) now |>.

(** ** Packet to command *)

(** Copy [n] words of the packet, from word [off] after the header, to the
    payload buffer.  [None] is an access outside one of the two buffers. *)
Definition copy_payload (p : ert_packet) (xcmd : kds_command) (off n : Z)
  : option kds_command :=
  info ← xcmd_info xcmd;
  ws ← copy_out (ert_words p) off n;
  info' ← copy_in info 0 ws;
  Some (xcmd <| xcmd_info := Some info' |>).

(** The part the start conversions share: time stamp, CU masks, their number. *)
Definition start_common (now : Z) (op : kds_opcode) (p : ert_packet)
  (xcmd : kds_command) : option kds_command :=
  let xcmd := xcmd <| xcmd_opcode := op |> in
  let xcmd := if z2b (ert_stat_enabled p)
              then set_xcmd_timestamp now (xcmd <| xcmd_timestamp_enabled := true |>) KDS_NEW
              else xcmd in
  m0 ← aget_chk 0 (ert_words p) 0;
  masks ← copy_out (ert_words p) kecmd_data_off (ert_extra_cu_masks p);
  cu_mask ← copy_in (aset (xcmd_cu_mask xcmd) 0 m0) 1 masks;
  Some (xcmd <| xcmd_cu_mask := cu_mask |>
             <| xcmd_num_mask := 1 + ert_extra_cu_masks p |>).

(** The payload: [count - num_mask - skip] words (in [u32] arithmetic) from
    [data[skip + extra_cu_masks]] on. *)
Definition start_payload (skip : Z) (p : ert_packet) (xcmd : kds_command)
  : option kds_command :=
  let words := u32 (ert_count p - xcmd_num_mask xcmd - skip) in
  copy_payload p (xcmd <| xcmd_isize := words * 4 |>)
    (kecmd_data_off + (skip + ert_extra_cu_masks p)) words.

Definition start_skrnl_ecmd2xcmd (now : Z) (p : ert_packet) (xcmd : kds_command)
  : option (ert_packet * kds_command) :=
  xcmd ← start_common now OP_START_SK p xcmd;
  xcmd ← start_payload 0 p xcmd;
  Some (set_ert_type ERT_SCU p, xcmd).

Definition start_krnl_ecmd2xcmd (now : Z) (p : ert_packet) (xcmd : kds_command)
  : option (ert_packet * kds_command) :=
  xcmd ← start_common now OP_START p xcmd;
  xcmd ← start_payload 4 p xcmd;
  Some (set_ert_type ERT_CU p, xcmd <| xcmd_payload_type := REGMAP |>).

Definition start_krnl_kv_ecmd2xcmd (now : Z) (p : ert_packet) (xcmd : kds_command)
  : option (ert_packet * kds_command) :=
  xcmd ← start_common now OP_START p xcmd;
  xcmd ← start_payload 0 p xcmd;
  Some (set_ert_type ERT_CU p, xcmd <| xcmd_payload_type := KEY_VAL |>).

Definition start_fa_ecmd2xcmd (now : Z) (p : ert_packet) (xcmd : kds_command)
  : option (ert_packet * kds_command) :=
  xcmd ← start_common now OP_START p xcmd;
  xcmd ← start_payload 0 p xcmd;
  Some (set_ert_type ERT_CTRL p, xcmd).

(** Clear the low byte of [n] words from word [off]. *)
Fixpoint clear_low_byte (ws : list Z) (off : Z) (n : nat) : option (list Z) :=
  match n with
  | O => Some ws
  | S n => w ← aget_chk 0 ws off;
           ws' ← aset_chk ws off (Z.ldiff w 255);
           clear_low_byte ws' (off + 1) n
  end.

Definition cfg_ecmd2xcmd (p : ert_packet) (xcmd : kds_command)
  : option (ert_packet * kds_command) :=
  feat ← aget_chk 0 (ert_words p) cfg_features_off;
  ws ← aset_chk (ert_words p) cfg_features_off (Z.lor feat (2 ^ 8));
  let p := p <| ert_words := ws |> in
  let num_cus := cfg_num_cus p in
  let xcmd := xcmd <| xcmd_opcode := OP_CONFIG |> <| xcmd_isize := num_cus * 4 |> in
  if Z.of_nat (length ws) <? num_cus then None
  else ws ← clear_low_byte (ert_words p) cfg_data_off (Z.to_nat num_cus);
       let p := p <| ert_words := ws |> in
       xcmd ← copy_payload p xcmd cfg_data_off num_cus;
       Some (p, xcmd).

(** [exec_bo_handle] is a 64-bit field: its low word is word 1 of the packet. *)
Definition abort_ecmd2xcmd (p : ert_packet) (xcmd : kds_command) : option kds_command :=
  let xcmd := xcmd <| xcmd_opcode := OP_ABORT |> in
  h ← aget_chk 0 (ert_words p) 1;
  info ← xcmd_info xcmd;
  info' ← aset_chk info 0 h;
  Some (xcmd <| xcmd_info := Some info' |>).

(** ** CU masks ([cu_mask_to_cu_idx]) *)

(** The inner loop on one mask word; [j] is the bit position.  A [u32] mask is
    exhausted after at most 32 iterations ([mask_loop_spec]). *)
Fixpoint mask_loop (fuel : nat) (i j mask : Z) (cus : list Z) : list Z :=
  match fuel with
  | O => cus
  | S fuel =>
      if negb (0 <? mask) then cus
      else if Z.land mask 1 =? 0
           then mask_loop fuel i (j + 1) (Z.shiftr mask 1) cus
           else mask_loop fuel i (j + 1) (Z.shiftr mask 1) (cus ++ [u8 (i * 32 + j)])
  end.

Definition cu_mask_to_cu_idx (xcmd : kds_command) : list Z :=
  foldl (fun cus i =>
           let mask := aget 0 (xcmd_cu_mask xcmd) i in
           if mask =? 0 then cus else mask_loop 32 i 0 mask cus)
        [] (seqZ 0 (xcmd_num_mask xcmd)).

(** ** KDS status and ERT state ([kds_ert_table.h]) *)

Inductive ert_cmd_state :=
| ERT_CMD_STATE_NEW | ERT_CMD_STATE_QUEUED | ERT_CMD_STATE_RUNNING
| ERT_CMD_STATE_COMPLETED | ERT_CMD_STATE_ERROR | ERT_CMD_STATE_ABORT
| ERT_CMD_STATE_SUBMITTED | ERT_CMD_STATE_TIMEOUT | ERT_CMD_STATE_NORESPONSE
| ERT_CMD_STATE_SKERROR | ERT_CMD_STATE_SKCRASHED | ERT_CMD_STATE_MAX.

Definition kds_ert_table (s : kds_status) : ert_cmd_state :=
  match s with
  | KDS_NEW => ERT_CMD_STATE_NEW
  | KDS_QUEUED => ERT_CMD_STATE_QUEUED
  | KDS_RUNNING => ERT_CMD_STATE_RUNNING
  | KDS_COMPLETED => ERT_CMD_STATE_COMPLETED
  | KDS_ERROR => ERT_CMD_STATE_ERROR
  | KDS_ABORT => ERT_CMD_STATE_ABORT
  | KDS_TIMEOUT => ERT_CMD_STATE_TIMEOUT
  | KDS_SKCRASHED => ERT_CMD_STATE_SKCRASHED
  | KDS_STAT_MAX => ERT_CMD_STATE_MAX
  end.

(** The table has no entry for [ERT_CMD_STATE_SUBMITTED]: C initialises it to
    zero, which is [KDS_NEW]. *)
Definition ert_kds_table (s : ert_cmd_state) : kds_status :=
  match s with
  | ERT_CMD_STATE_NEW => KDS_NEW
  | ERT_CMD_STATE_QUEUED => KDS_QUEUED
  | ERT_CMD_STATE_RUNNING => KDS_RUNNING
  | ERT_CMD_STATE_COMPLETED => KDS_COMPLETED
  | ERT_CMD_STATE_ERROR => KDS_ERROR
  | ERT_CMD_STATE_ABORT => KDS_ABORT
  | ERT_CMD_STATE_SUBMITTED => KDS_NEW
  | ERT_CMD_STATE_TIMEOUT => KDS_TIMEOUT
  | ERT_CMD_STATE_NORESPONSE => KDS_TIMEOUT
  | ERT_CMD_STATE_SKERROR => KDS_ERROR
  | ERT_CMD_STATE_SKCRASHED => KDS_SKCRASHED
  | ERT_CMD_STATE_MAX => KDS_STAT_MAX
  end.

(** ** XGQ submission entries ([xgq_execbuf.c])

    The entry is built in the payload buffer of the command: two header words
    and then the payload.  [opcode] is bits 15-0 of word 0, [count] bits 30-16
    and [state] bit 31; [cu_domain] is bits 31-28 of word 1. *)

Definition XGQ_CMD_OP_START_CUIDX : Z := 0x100.
Definition XGQ_CMD_OP_START_CUIDX_KV : Z := 0x102.
Definition XGQ_CMD_OP_CLOCK_CALIB : Z := 0x10c.
Definition XGQ_CMD_OP_ACCESS_VALID : Z := 0x10d.
Definition XGQ_CMD_OP_DATA_INTEGRITY : Z := 0x10e.

Definition DOMAIN_PL : Z := 0.
Definition DOMAIN_PS : Z := 1.

Definition xgq_hdr_opcode (buf : list Z) : Z := field (aget 0 buf 0) 0 16.
Definition xgq_hdr_count (buf : list Z) : Z := field (aget 0 buf 0) 16 15.
Definition xgq_hdr_state (buf : list Z) : Z := field (aget 0 buf 0) 31 1.
Definition xgq_hdr_cu_domain (buf : list Z) : Z := field (aget 0 buf 1) 28 4.

(** Write opcode, state and count of the header. *)
Definition xgq_put_hdr (op count : Z) (buf : list Z) : option (list Z) :=
  h ← aget_chk 0 buf 0;
  aset_chk buf 0 (set_field (set_field (set_field h 0 16 op) 31 1 1) 16 15 count).

Definition xgq_put_domain (d : Z) (buf : list Z) : option (list Z) :=
  h ← aget_chk 0 buf 1; aset_chk buf 1 (set_field h 28 4 d).

(** [payload_size] is an [int]; a [memcpy] of a negative size is out of any
    buffer. *)
Definition xgq_exec_convert_start_cu_cmd (buf : list Z) (p : ert_packet)
  : option (list Z * Z) :=
  let num_mask := 1 + ert_extra_cu_masks p in
  let payload_size := s32 ((ert_count p - num_mask - 4) * 4) in
  ws ← copy_out (ert_words p) (kecmd_data_off + 4 + ert_extra_cu_masks p)
         (payload_size / 4);
  buf ← copy_in buf 2 ws;
  buf ← xgq_put_hdr XGQ_CMD_OP_START_CUIDX payload_size buf;
  buf ← xgq_put_domain DOMAIN_PL buf;
  Some (buf, 8 + payload_size).

Definition xgq_exec_convert_start_scu_cmd (buf : list Z) (p : ert_packet)
  : option (list Z * Z) :=
  let num_mask := 1 + ert_extra_cu_masks p in
  let payload_size := s32 ((ert_count p - num_mask) * 4) in
  ws ← copy_out (ert_words p) (kecmd_data_off + ert_extra_cu_masks p)
         (payload_size / 4);
  buf ← copy_in buf 2 ws;
  buf ← xgq_put_hdr XGQ_CMD_OP_START_CUIDX payload_size buf;
  buf ← xgq_put_domain DOMAIN_PS buf;
  Some (buf, 8 + payload_size).

Definition xgq_exec_convert_start_kv_cu_cmd (buf : list Z) (p : ert_packet)
  : option (list Z * Z) :=
  let num_mask := 1 + ert_extra_cu_masks p in
  let payload_size := s32 ((ert_count p - num_mask) * 4) in
  ws ← copy_out (ert_words p) (kecmd_data_off + ert_extra_cu_masks p)
         (payload_size / 4);
  buf ← copy_in buf 2 ws;
  buf ← xgq_put_hdr XGQ_CMD_OP_START_CUIDX_KV payload_size buf;
  Some (buf, 8 + payload_size).

Definition xgq_exec_convert_clock_calib_cmd (buf : list Z) (p : ert_packet)
  : option (list Z * Z) :=
  buf ← xgq_put_hdr XGQ_CMD_OP_CLOCK_CALIB (ert_count p * 4) buf;
  Some (buf, 8 + xgq_hdr_count buf).

Definition xgq_exec_convert_accessible_cmd (buf : list Z) (p : ert_packet)
  : option (list Z * Z) :=
  buf ← xgq_put_hdr XGQ_CMD_OP_ACCESS_VALID (ert_count p * 4) buf;
  Some (buf, 8 + xgq_hdr_count buf).

Definition xgq_exec_convert_data_integrity_cmd (buf : list Z) (p : ert_packet)
  : option (list Z * Z) :=
  buf ← xgq_put_hdr XGQ_CMD_OP_DATA_INTEGRITY (ert_count p * 4) buf;
  Some (buf, 16).

(** ** Lemmas: bit fields *)

Lemma field_range h lo w : 0 <= w -> 0 <= field h lo w < 2 ^ w.
Proof.
  intros. unfold field. rewrite Z.land_ones by lia. apply Z.mod_pos_bound. lia.
Qed.

Lemma field_set_same h lo w v :
  0 <= lo -> 0 <= w -> field (set_field h lo w v) lo w = v mod 2 ^ w.
Proof.
  intros. unfold field, set_field. rewrite <- Z.land_ones by lia.
  apply Z.bits_inj'. intros n Hn.
  rewrite !Z.land_spec, Z.shiftr_spec, Z.lor_spec, Z.ldiff_spec by lia.
  rewrite !Z.shiftl_spec, Z.land_spec by lia.
  replace (n + lo - lo) with n by lia.
  destruct (Z.testbit (Z.ones w) n); rewrite ?andb_false_r, ?andb_true_r; done.
Qed.

(** Two fields that do not overlap are independent. *)
Lemma field_set_other h lo w v lo' w' :
  0 <= lo -> 0 <= w -> 0 <= lo' -> 0 <= w' ->
  lo' + w' <= lo \/ lo + w <= lo' ->
  field (set_field h lo w v) lo' w' = field h lo' w'.
Proof.
  intros. unfold field, set_field.
  apply Z.bits_inj'. intros n Hn.
  rewrite !Z.land_spec, !Z.shiftr_spec, Z.lor_spec, Z.ldiff_spec by lia.
  destruct (Z.ltb_spec n w').
  - assert (forall x, Z.testbit (Z.shiftl (Z.land x (Z.ones w)) lo) (n + lo') = false) as E.
    { intros x. rewrite Z.shiftl_spec by lia. destruct (Z.ltb_spec (n + lo') lo).
      - by rewrite (Z.testbit_neg_r _ (n + lo' - lo)) by lia.
      - rewrite Z.land_spec, Z.ones_spec_high by lia. by rewrite andb_false_r. }
    pose proof (E (Z.ones w)) as E1. rewrite Z.land_diag in E1.
    rewrite E, E1. by rewrite andb_true_r, orb_false_r.
  - rewrite (Z.ones_spec_high w' n) by lia. by rewrite !andb_false_r.
Qed.

Lemma ert_count_range p : 0 <= ert_count p < 2048.
Proof. apply (field_range _ 12 11). lia. Qed.

Lemma ert_extra_range p : 0 <= ert_extra_cu_masks p < 4.
Proof. apply (field_range _ 10 2). lia. Qed.

(** ** The CU mask loop computes the set bits, in increasing order *)

Definition bits_below (n : Z) (m : Z) : list Z :=
  filter (fun k => Z.testbit m k = true) (seqZ 0 n).

Lemma bits_below_S n m :
  0 <= n ->
  bits_below (n + 1) m =
  (if Z.testbit m 0 then [0] else []) ++ (Z.succ <$> bits_below n (Z.shiftr m 1)).
Proof.
  intros Hn. unfold bits_below.
  rewrite seqZ_cons by lia. replace (Z.pred (n + 1)) with n by lia.
  change (Z.succ 0) with (1 + 0).
  rewrite <- (fmap_add_seqZ 1 0 n), filter_cons.
  rewrite (filter_fmap_rel _ (fun k => Z.testbit (Z.shiftr m 1) k = true) _ Z.succ).
  - destruct (Z.testbit m 0); case_decide; done.
  - apply Forall_seqZ. intros k Hk. rewrite Z.shiftr_spec, (Z.add_comm 1) by lia. done.
Qed.

Lemma mask_loop_spec fuel i j m cus :
  0 <= m < 2 ^ Z.of_nat fuel ->
  mask_loop fuel i j m cus =
  cus ++ ((fun k => u8 (i * 32 + (j + k))) <$> bits_below (Z.of_nat fuel) m).
Proof.
  revert j m cus. induction fuel as [|fuel IH]; intros j m cus Hm.
  - simpl. by rewrite app_nil_r.
  - rewrite Nat2Z.inj_succ, <- Z.add_1_r, bits_below_S by lia.
    assert (0 <= Z.shiftr m 1 < 2 ^ Z.of_nat fuel) as Hs.
    { rewrite Nat2Z.inj_succ, Z.pow_succ_r in Hm by lia.
      rewrite Z.shiftr_div_pow2 by lia. change (2 ^ 1) with 2.
      split; [apply Z.div_pos; lia | apply Z.div_lt_upper_bound; [done|apply Hm]]. }
    cbn [mask_loop]. rewrite fmap_app, <- list_fmap_compose.
    assert ((fun k => u8 (i * 32 + (j + k))) ∘ Z.succ <$> bits_below (Z.of_nat fuel) (Z.shiftr m 1)
      = (fun k => u8 (i * 32 + (j + 1 + k))) <$> bits_below (Z.of_nat fuel) (Z.shiftr m 1)) as ->.
    { apply list_fmap_ext. intros ? k _. simpl. f_equal. lia. }
    destruct (Z.ltb_spec 0 m) as [Hpos|Hz]; cbn [negb].
    + rewrite Z.bit0_odd. change (Z.land m 1) with (Z.land m (Z.ones 1)).
      rewrite Z.land_ones by lia. change (2 ^ 1) with 2. rewrite Zmod_odd.
      destruct (Z.odd m) eqn:E; cbn [Z.eqb]; rewrite IH by done; [|done].
      rewrite <- app_assoc. simpl. by rewrite Z.add_0_r.
    + assert (m = 0) as -> by lia. rewrite Z.shiftr_0_l. simpl.
      rewrite <- (app_nil_r cus) at 1. f_equal. unfold bits_below.
      generalize (seqZ 0 (Z.of_nat fuel)). intros l.
      induction l as [|x l IHl]; [done|]. rewrite filter_cons.
      rewrite Z.testbit_0_l. case_decide; done.
Qed.

(** The masks of a command as one bit vector. *)
Definition mask_bit (masks : list Z) (c : Z) : bool :=
  Z.testbit (aget 0 masks (c / 32)) (c mod 32).

Definition marked_cus (masks : list Z) (n : Z) : list Z :=
  filter (fun c => mask_bit masks c = true) (seqZ 0 (32 * n)).

Definition masks_wf (masks : list Z) : Prop :=
  length masks = 4%nat /\ Forall (fun m => 0 <= m < 2 ^ 32) masks.

Lemma masks_wf_aget masks i : masks_wf masks -> 0 <= aget 0 masks i < 2 ^ 32.
Proof.
  intros [_ H]. unfold aget. destruct (masks !! Z.to_nat i) eqn:E; simpl; [|lia].
  by eapply Forall_lookup_1 in H.
Qed.

Lemma seqZ_add m n k :
  0 <= n -> 0 <= k -> seqZ m (n + k) = seqZ m n ++ seqZ (m + n) k.
Proof. intros. by apply seqZ_app. Qed.

Lemma marked_cus_S masks n :
  0 <= n < 4 ->
  marked_cus masks (n + 1) =
  marked_cus masks n ++
  ((fun k => u8 (n * 32 + (0 + k))) <$> bits_below 32 (aget 0 masks n)).
Proof.
  intros Hn. unfold marked_cus, bits_below.
  replace (32 * (n + 1)) with (32 * n + 32) by lia.
  rewrite seqZ_add, filter_app by lia. f_equal.
  replace (0 + 32 * n) with (32 * n + 0) by lia.
  rewrite <- (fmap_add_seqZ (32 * n) 0 32).
  apply filter_fmap_rel, Forall_seqZ. intros k Hk. unfold mask_bit.
  rewrite Z.add_comm, Z.mul_comm, Z_div_plus, Z_mod_plus, Z.div_small, Z.mod_small by lia.
  rewrite u8_small by lia. split; [done|lia].
Qed.

Lemma cu_mask_to_cu_idx_marked xcmd :
  masks_wf (xcmd_cu_mask xcmd) -> 0 <= xcmd_num_mask xcmd <= 4 ->
  cu_mask_to_cu_idx xcmd = marked_cus (xcmd_cu_mask xcmd) (xcmd_num_mask xcmd).
Proof.
  intros Hwf. unfold cu_mask_to_cu_idx.
  generalize (xcmd_num_mask xcmd). intros n Hn.
  destruct Hn as [Hn0 Hn4]. revert Hn4. pattern n.
  apply natlike_ind; [done| |done].
  intros k Hk IH Hle. rewrite <- Z.add_1_r, (seqZ_add 0 k 1), foldl_app by lia.
  rewrite IH, marked_cus_S by lia. change (seqZ (0 + k) 1) with [0 + k]. cbn [foldl].
  rewrite Z.add_0_l.
  pose proof (masks_wf_aget _ k Hwf) as Hr.
  destruct (Z.eqb_spec (aget 0 (xcmd_cu_mask xcmd) k) 0) as [E|E].
  - rewrite E. by rewrite app_nil_r.
  - rewrite (mask_loop_spec 32) by done. done.
Qed.

(** ** Conversion of a validated start packet *)

(** What a start conversion delivers: the opcode, the CU masks and their
    number, the payload words after the masks and [skip] further words, and
    the packet with only its type field rewritten. *)
Definition started (p : ert_packet) (op : kds_opcode) (skip ty : Z)
  (p' : ert_packet) (x : kds_command) : Prop :=
  let masks := 1 + ert_extra_cu_masks p in
  let n := ert_count p - masks - skip in
  xcmd_opcode x = op /\ xcmd_num_mask x = masks /\
  take (Z.to_nat masks) (xcmd_cu_mask x) = take (Z.to_nat masks) (ert_words p) /\
  xcmd_isize x = 4 * n /\
  (exists info, xcmd_info x = Some info /\
     take (Z.to_nat n) info =
     take (Z.to_nat n) (drop (Z.to_nat (masks + skip)) (ert_words p))) /\
  ert_type p' = ty /\ ert_count p' = ert_count p /\
  ert_opcode p' = ert_opcode p /\ ert_words p' = ert_words p.

Lemma start_common_ok now op p xcmd :
  length (xcmd_cu_mask xcmd) = 4%nat ->
  1 + ert_extra_cu_masks p <= Z.of_nat (length (ert_words p)) ->
  exists x, start_common now op p xcmd = Some x /\
    xcmd_opcode x = op /\ xcmd_num_mask x = 1 + ert_extra_cu_masks p /\
    take (Z.to_nat (1 + ert_extra_cu_masks p)) (xcmd_cu_mask x) =
      take (Z.to_nat (1 + ert_extra_cu_masks p)) (ert_words p) /\
    xcmd_info x = xcmd_info xcmd.
Proof.
  intros Hm Hw. pose proof (ert_extra_range p) as Hx. unfold start_common.
  set (xt := if z2b (ert_stat_enabled p) then _ else _).
  assert (xcmd_opcode xt = op /\ xcmd_cu_mask xt = xcmd_cu_mask xcmd /\
          xcmd_info xt = xcmd_info xcmd) as (E1 & E2 & E3).
  { subst xt. unfold set_xcmd_timestamp. destruct (z2b _); done. }
  rewrite E2. clearbody xt.
  destruct (ert_words p) as [|m0 ws] eqn:Ews; simpl in Hw; [lia|].
  unfold aget_chk. assert (in_arr (m0 :: ws) 0 = true) as -> by (apply in_arr_true; cbn [length]; lia).
  simpl. unfold kecmd_data_off. rewrite copy_out_ok by (simpl; lia). simpl.
  destruct (xcmd_cu_mask xcmd) as [|a cm] eqn:Ecm; [done|].
  rewrite copy_in_ok; [|lia|].
  - simpl. eexists. split; [reflexivity|]. rsimpl. split_and!; try done.
    replace (Z.to_nat (1 + ert_extra_cu_masks p)) with (S (Z.to_nat (ert_extra_cu_masks p))) by lia.
    simpl. f_equal. rewrite drop_0.
    rewrite take_app_le by (rewrite length_take; lia). by rewrite take_take, Nat.min_id.
  - rewrite length_take, length_drop, length_aset. cbn [length] in *. lia.
Qed.

Lemma copy_payload_ok p xcmd info off n :
  xcmd_info xcmd = Some info -> 0 <= off -> 0 <= n ->
  off + n <= Z.of_nat (length (ert_words p)) -> n <= Z.of_nat (length info) ->
  exists info', copy_payload p xcmd off n = Some (xcmd <| xcmd_info := Some info' |>) /\
    take (Z.to_nat n) info' = take (Z.to_nat n) (drop (Z.to_nat off) (ert_words p)) /\
    length info' = length info.
Proof.
  intros Hi Ho Hn Hs Hd. unfold copy_payload. rewrite Hi. simpl.
  rewrite copy_out_ok by done. simpl.
  assert (length (take (Z.to_nat n) (drop (Z.to_nat off) (ert_words p))) = Z.to_nat n) as L.
  { rewrite length_take, length_drop. lia. }
  rewrite copy_in_ok by (rewrite ?L; lia). simpl.
  eexists. split; [reflexivity|]. rewrite L. split.
  - by rewrite take_app_le, take_take, Nat.min_id by lia.
  - rewrite length_app, L, length_drop. lia.
Qed.

Lemma ert_type_set p v : ert_type (set_ert_type v p) = v mod 16.
Proof. unfold ert_type, set_ert_type. rsimpl. apply field_set_same; lia. Qed.

Lemma ert_count_set p v : ert_count (set_ert_type v p) = ert_count p.
Proof. unfold ert_count, set_ert_type. rsimpl. apply field_set_other; lia. Qed.

Lemma ert_opcode_set p v : ert_opcode (set_ert_type v p) = ert_opcode p.
Proof. unfold ert_opcode, set_ert_type. rsimpl. apply field_set_other; lia. Qed.

Lemma kds_alloc_command_ok id client size xcmd :
  0 < size -> kds_alloc_command (true, true) id client (size * 4) = Some xcmd ->
  length (xcmd_cu_mask xcmd) = 4%nat /\
  xcmd_info xcmd = Some (replicate (Z.to_nat size) 0) /\
  xcmd_isize xcmd = size * 4 /\ xcmd_status xcmd = KDS_NEW.
Proof.
  intros Hs. unfold kds_alloc_command. simpl.
  assert ((size * 4 =? 0) = false) as -> by lia. intros [= <-]. rsimpl.
  replace ((size * 4 + 3) / 4) with size; [done|].
  apply Z.div_unique with 3; lia.
Qed.

(** The common part of the four start conversions. *)
Lemma start_conv_ok now op skip ty p id client xcmd :
  0 <= skip -> 0 <= ty < 16 ->
  ert_extra_cu_masks p + 1 + skip <= ert_count p ->
  ert_count p <= Z.of_nat (length (ert_words p)) ->
  kds_alloc_command (true, true) id client (ert_count p * 4) = Some xcmd ->
  exists x0 x, start_common now op p xcmd = Some x0 /\
    start_payload skip p x0 = Some x /\ started p op skip ty (set_ert_type ty p) x.
Proof.
  intros Hsk Hty Hv Hlen Ha.
  pose proof (ert_extra_range p) as Hx. pose proof (ert_count_range p) as Hc.
  apply kds_alloc_command_ok in Ha as (Hm & Hi & _ & _); [|lia].
  destruct (start_common_ok now op p xcmd Hm) as (x0 & -> & Hop & Hnm & Hms & Hinf); [lia|].
  exists x0. unfold start_payload. rewrite Hnm, u32_small by lia.
  set (n := ert_count p - (1 + ert_extra_cu_masks p) - skip).
  destruct (copy_payload_ok p (x0 <| xcmd_isize := n * 4 |>)
              (replicate (Z.to_nat (ert_count p)) 0)
              (kecmd_data_off + (skip + ert_extra_cu_masks p)) n)
    as (info' & -> & Ht & _); try (unfold kecmd_data_off, n; lia).
  - rsimpl. congruence.
  - rewrite length_replicate. lia.
  - eexists. do 2 (split; [reflexivity|]).
    unfold started. rsimpl. split_and!; try done; try lia.
    + exists info'. split; [done|]. fold n. rewrite Ht. do 2 f_equal.
      unfold kecmd_data_off. lia.
    + rewrite ert_type_set, Z.mod_small; lia.
    + apply ert_count_set.
    + apply ert_opcode_set.
Qed.

Lemma valid_start_cu p : ert_opcode p = ERT_START_CU -> ert_valid_opcode p = true ->
  ert_extra_cu_masks p + 1 + 4 <= ert_count p.
Proof. intros E. unfold ert_valid_opcode. rewrite E. cbn. lia. Qed.

Lemma valid_start_one p :
  ert_opcode p = ERT_START_KEY_VAL \/ ert_opcode p = ERT_START_FA \/
  ert_opcode p = ERT_SK_START -> ert_valid_opcode p = true ->
  ert_extra_cu_masks p + 1 + 0 <= ert_count p.
Proof. intros [E|[E|E]]; unfold ert_valid_opcode; rewrite E; cbn; lia. Qed.

(** For every packet accepted by [ert_valid_opcode] whose payload is
    present, each start conversion, run on a command allocated with the
    packet's own count (as [xocl_command_ioctl] does), stays inside both
    buffers and delivers exactly the CU masks and the payload of the packet:
    [start_krnl_ecmd2xcmd] skips the four control registers, the other three
    copy everything after the masks.  The packet keeps its words, count and
    opcode and gets the type of its handler. *)
Theorem start_ecmd2xcmd_ok now id client p xcmd :
  ert_valid_opcode p = true ->
  ert_count p <= Z.of_nat (length (ert_words p)) ->
  kds_alloc_command (true, true) id client (ert_count p * 4) = Some xcmd ->
  (ert_opcode p = ERT_START_CU -> exists p' x,
     start_krnl_ecmd2xcmd now p xcmd = Some (p', x) /\
     started p OP_START 4 ERT_CU p' x /\ xcmd_payload_type x = REGMAP) /\
  (ert_opcode p = ERT_START_KEY_VAL -> exists p' x,
     start_krnl_kv_ecmd2xcmd now p xcmd = Some (p', x) /\
     started p OP_START 0 ERT_CU p' x /\ xcmd_payload_type x = KEY_VAL) /\
  (ert_opcode p = ERT_START_FA -> exists p' x,
     start_fa_ecmd2xcmd now p xcmd = Some (p', x) /\
     started p OP_START 0 ERT_CTRL p' x) /\
  (ert_opcode p = ERT_SK_START -> exists p' x,
     start_skrnl_ecmd2xcmd now p xcmd = Some (p', x) /\
     started p OP_START_SK 0 ERT_SCU p' x).
Proof.
  intros Hv Hlen Ha. split_and!; intros Hop.
  - destruct (start_conv_ok now OP_START 4 ERT_CU p id client xcmd) as (x0 & x & E1 & E2 & S);
      try done; [by apply valid_start_cu|].
    unfold start_krnl_ecmd2xcmd. rewrite E1. simpl. rewrite E2. eexists _, _. by split_and!.
  - destruct (start_conv_ok now OP_START 0 ERT_CU p id client xcmd) as (x0 & x & E1 & E2 & S);
      try done; [apply valid_start_one; tauto|].
    unfold start_krnl_kv_ecmd2xcmd. rewrite E1. simpl. rewrite E2. eexists _, _. by split_and!.
  - destruct (start_conv_ok now OP_START 0 ERT_CTRL p id client xcmd) as (x0 & x & E1 & E2 & S);
      try done; [apply valid_start_one; tauto|].
    unfold start_fa_ecmd2xcmd. rewrite E1. simpl. rewrite E2. eexists _, _. by split_and!.
  - destruct (start_conv_ok now OP_START_SK 0 ERT_SCU p id client xcmd) as (x0 & x & E1 & E2 & S);
      try done; [apply valid_start_one; tauto|].
    unfold start_skrnl_ecmd2xcmd. rewrite E1. simpl. rewrite E2. eexists _, _. by split_and!.
Qed.

(** A start-CU packet with one extra mask and two register words. *)
Definition demo_start_cu : ert_packet :=
  mk_ert_packet (set_field (set_field (set_field 1 4 1 1) 10 2 1) 12 11 8)
    [0x5; 0x1; 0; 0; 0; 0; 0xaa; 0xbb].

Lemma start_ecmd2xcmd_ok_witness :
  exists xcmd p' x, kds_alloc_command (true, true) 1 2 32 = Some xcmd /\
    start_krnl_ecmd2xcmd 77 demo_start_cu xcmd = Some (p', x) /\
    started demo_start_cu OP_START 4 ERT_CU p' x.
Proof.
  destruct (kds_alloc_command (true, true) 1 2 32) as [xcmd|] eqn:E; [|discriminate E].
  destruct (start_ecmd2xcmd_ok 77 1 2 demo_start_cu xcmd) as [H _];
    [reflexivity | vm_compute; discriminate | exact E |].
  destruct (H eq_refl) as (p' & x & H1 & H2 & _). exists xcmd, p', x. done.
Defined.

(** [cu_mask_to_cu_idx] lists, in increasing order and without
    repetition, exactly the CUs whose bit is set in the first [num_mask] mask
    words, at most 128 of them. *)
Theorem cu_mask_to_cu_idx_correct xcmd :
  masks_wf (xcmd_cu_mask xcmd) -> 0 <= xcmd_num_mask xcmd <= 4 ->
  StronglySorted Z.lt (cu_mask_to_cu_idx xcmd) /\
  (forall c, c ∈ cu_mask_to_cu_idx xcmd <->
     0 <= c < 32 * xcmd_num_mask xcmd /\ mask_bit (xcmd_cu_mask xcmd) c = true) /\
  (length (cu_mask_to_cu_idx xcmd) <= 128)%nat.
Proof.
  intros Hwf Hn. rewrite cu_mask_to_cu_idx_marked by done. unfold marked_cus.
  split_and!.
  - apply StronglySorted_filter, StronglySorted_seqZ.
  - intros c. rewrite list_elem_of_filter, elem_of_seqZ. intuition lia.
  - etransitivity; [apply length_filter|]. rewrite length_seqZ. lia.
Qed.

Lemma cu_mask_to_cu_idx_correct_witness :
  exists x, cu_mask_to_cu_idx x = [0; 2; 33; 127] /\
    StronglySorted Z.lt (cu_mask_to_cu_idx x).
Proof.
  destruct (kds_alloc_command (true, true) 1 2 32) as [xcmd|] eqn:E; [|discriminate E].
  exists (xcmd <| xcmd_cu_mask := [5; 2; 0; 2 ^ 31] |> <| xcmd_num_mask := 4 |>).
  split; [by vm_compute|].
  apply cu_mask_to_cu_idx_correct; [|done].
  split; [done|]. repeat constructor; done.
Defined.

(** ** XGQ entries *)

Lemma xgq_put_hdr_ok op count buf :
  (0 < length buf)%nat -> 0 <= op < 2 ^ 16 -> 0 <= count < 2 ^ 15 ->
  exists buf', xgq_put_hdr op count buf = Some buf' /\
    xgq_hdr_opcode buf' = op /\ xgq_hdr_count buf' = count /\ xgq_hdr_state buf' = 1 /\
    length buf' = length buf /\ drop 1 buf' = drop 1 buf.
Proof.
  intros Hl Ho Hc. destruct buf as [|h buf]; [simpl in Hl; lia|].
  unfold xgq_put_hdr, aget_chk, aset_chk.
  assert (in_arr (h :: buf) 0 = true) as -> by (apply in_arr_true; cbn [length]; lia).
  simpl. eexists. split; [reflexivity|].
  unfold xgq_hdr_opcode, xgq_hdr_count, xgq_hdr_state, aget, aset. simpl.
  rewrite field_set_same, !(field_set_other _ 16 15) by lia.
  rewrite field_set_same, (field_set_other _ 31 1), field_set_same by lia.
  rewrite !Z.mod_small by lia. done.
Qed.

Lemma xgq_put_domain_ok d buf :
  (1 < length buf)%nat -> 0 <= d < 16 ->
  exists buf', xgq_put_domain d buf = Some buf' /\
    xgq_hdr_cu_domain buf' = d /\ take 1 buf' = take 1 buf /\
    drop 2 buf' = drop 2 buf /\ length buf' = length buf.
Proof.
  intros Hl Hd. destruct buf as [|h0 [|h1 buf]]; simpl in Hl; try lia.
  unfold xgq_put_domain, aget_chk, aset_chk.
  assert (in_arr (h0 :: h1 :: buf) 1 = true) as -> by (apply in_arr_true; cbn [length]; lia).
  simpl. eexists. split; [reflexivity|].
  unfold xgq_hdr_cu_domain, aget, aset. simpl. change (Pos.to_nat 1) with 1%nat. simpl.
  rewrite field_set_same, Z.mod_small by lia. done.
Qed.

Lemma payload_size_s32 n : 0 <= n < 2048 -> s32 (n * 4) = n * 4.
Proof. intros. apply s32_small. lia. Qed.

Lemma xgq_start_cu_entry p buf :
  ert_opcode p = ERT_START_CU -> ert_valid_opcode p = true ->
  ert_count p <= Z.of_nat (length (ert_words p)) ->
  Z.of_nat (length buf) = ert_count p ->
  let n := ert_count p - ert_extra_cu_masks p - 5 in
  exists buf', xgq_exec_convert_start_cu_cmd buf p = Some (buf', 8 + 4 * n) /\
    xgq_hdr_opcode buf' = XGQ_CMD_OP_START_CUIDX /\ xgq_hdr_state buf' = 1 /\
    xgq_hdr_count buf' = 4 * n /\ xgq_hdr_cu_domain buf' = DOMAIN_PL /\
    take (Z.to_nat n) (drop 2 buf') =
      take (Z.to_nat n) (drop (Z.to_nat (5 + ert_extra_cu_masks p)) (ert_words p)) /\
    length buf' = length buf.
Proof.
  intros Hop Hv Hlen Hbuf n. apply valid_start_cu in Hv; [|done].
  pose proof (ert_extra_range p) as Hx. pose proof (ert_count_range p) as Hc.
  unfold xgq_exec_convert_start_cu_cmd. cbv zeta.
  replace (ert_count p - (1 + ert_extra_cu_masks p) - 4) with n by (subst n; lia).
  rewrite payload_size_s32, Z.div_mul by (subst n; lia).
  set (ws := take (Z.to_nat n) (drop (Z.to_nat (5 + ert_extra_cu_masks p)) (ert_words p))).
  rewrite copy_out_ok by (unfold kecmd_data_off; subst n; lia).
  replace (Z.to_nat (kecmd_data_off + 4 + ert_extra_cu_masks p))
    with (Z.to_nat (5 + ert_extra_cu_masks p)) by (unfold kecmd_data_off; lia).
  fold ws. cbn [mbind option_bind].
  assert (length ws = Z.to_nat n) as Lw.
  { subst ws. rewrite length_take, length_drop. subst n. lia. }
  rewrite copy_in_ok by (rewrite ?Lw; subst n; lia). cbn [mbind option_bind].
  set (b0 := take (Z.to_nat 2) buf ++ _).
  assert (length b0 = length buf) as L0.
  { subst b0. rewrite !length_app, length_take, length_drop, Lw. subst n. lia. }
  destruct (xgq_put_hdr_ok XGQ_CMD_OP_START_CUIDX (n * 4) b0)
    as (b1 & -> & O1 & C1 & S1 & L1 & D1); [lia|done|subst n; lia|].
  destruct (xgq_put_domain_ok DOMAIN_PL b1)
    as (b2 & E2 & M2 & T2 & D2 & L2); [lia|done|].
  cbn [mbind option_bind]. rewrite E2. cbn [mbind option_bind].
  exists b2. rewrite Z.mul_comm. split; [done|].
  assert (aget 0 b2 0 = aget 0 b1 0) as Hw0.
  { unfold aget. change (Z.to_nat 0) with 0%nat.
    rewrite <- (lookup_take_lt b2 1 0), T2, lookup_take_lt by lia. done. }
  unfold xgq_hdr_opcode, xgq_hdr_state, xgq_hdr_count in *. rewrite Hw0.
  split_and!; try done; [lia| |lia].
  rewrite D2. change 2%nat with (1 + 1)%nat. rewrite <- drop_drop, D1, drop_drop.
  subst b0. rewrite drop_app_ge; rewrite length_take; [|lia].
  replace (1 + 1 - _)%nat with 0%nat by lia. rewrite drop_0.
  rewrite take_app_le by lia. subst ws. by rewrite take_take, Nat.min_id.
Qed.

(** On a validated start-CU packet and a buffer of [count] words,
    [xgq_exec_convert_start_cu_cmd] builds a complete XGQ entry inside the
    buffer: the header reads back as a new START_CUIDX entry of the PL domain
    whose count is the payload size in bytes, the payload is the packet's
    register map, and the returned size is header plus payload. *)
Theorem xgq_exec_convert_start_cu_cmd_ok p buf :
  ert_opcode p = ERT_START_CU -> ert_valid_opcode p = true ->
  ert_count p <= Z.of_nat (length (ert_words p)) ->
  Z.of_nat (length buf) = ert_count p ->
  let n := ert_count p - ert_extra_cu_masks p - 5 in
  exists buf', xgq_exec_convert_start_cu_cmd buf p = Some (buf', 8 + 4 * n) /\
    xgq_hdr_opcode buf' = XGQ_CMD_OP_START_CUIDX /\ xgq_hdr_state buf' = 1 /\
    xgq_hdr_count buf' = 4 * n /\ xgq_hdr_cu_domain buf' = DOMAIN_PL /\
    take (Z.to_nat n) (drop 2 buf') =
      take (Z.to_nat n) (drop (Z.to_nat (5 + ert_extra_cu_masks p)) (ert_words p)) /\
    length buf' = length buf.
Proof. apply xgq_start_cu_entry. Qed.

Lemma xgq_exec_convert_start_cu_cmd_ok_witness :
  exists buf', xgq_exec_convert_start_cu_cmd (replicate 8 0) demo_start_cu
               = Some (buf', 8 + 4 * (8 - 1 - 5)) /\ xgq_hdr_count buf' = 4 * (8 - 1 - 5).
Proof.
  destruct (xgq_exec_convert_start_cu_cmd_ok demo_start_cu (replicate 8 0))
    as (b & H1 & _ & _ & H2 & _); try reflexivity.
  exists b. done.
Defined.

(** The key-value and PS-kernel conversions write a two-word header and
    [count - 1] payload words into the command's buffer of [count] words when
    the packet has no extra CU mask: for every such validated packet they
    write outside the buffer. *)
Theorem xgq_exec_convert_kv_scu_overflow p buf :
  ert_opcode p = ERT_START_KEY_VAL \/ ert_opcode p = ERT_SK_START ->
  ert_valid_opcode p = true -> ert_extra_cu_masks p = 0 ->
  Z.of_nat (length buf) = ert_count p ->
  xgq_exec_convert_start_kv_cu_cmd buf p = None /\
  xgq_exec_convert_start_scu_cmd buf p = None.
Proof.
  intros Hop Hv Hx Hbuf. apply valid_start_one in Hv; [|tauto].
  pose proof (ert_count_range p) as Hc.
  unfold xgq_exec_convert_start_kv_cu_cmd, xgq_exec_convert_start_scu_cmd.
  rewrite Hx, payload_size_s32, Z.div_mul by lia.
  destruct (copy_out _ _ _) as [ws|] eqn:E; [|done].
  apply copy_out_length in E. simpl.
  rewrite copy_in_overflow by lia. done.
Qed.

Definition demo_kv : ert_packet :=
  mk_ert_packet (set_field (set_field 1 12 11 3) 23 5 ERT_START_KEY_VAL) [1; 0x10; 7].

Lemma xgq_exec_convert_kv_scu_overflow_witness :
  ert_valid_opcode demo_kv = true /\
  xgq_exec_convert_start_kv_cu_cmd (replicate 3 0) demo_kv = None.
Proof.
  split; [reflexivity|].
  apply (xgq_exec_convert_kv_scu_overflow demo_kv (replicate 3 0)); auto.
Defined.

(** [ert_valid_opcode] accepts every abort packet, also one with an empty
    payload; the command allocated for it has a NULL payload buffer and
    [abort_ecmd2xcmd] writes through it. *)
Theorem abort_ecmd2xcmd_null p id client xcmd :
  ert_opcode p = ERT_ABORT -> ert_count p = 0 ->
  kds_alloc_command (true, true) id client (ert_count p * 4) = Some xcmd ->
  ert_valid_opcode p = true /\ xcmd_info xcmd = None /\ abort_ecmd2xcmd p xcmd = None.
Proof.
  intros Hop Hc. rewrite Hc. unfold kds_alloc_command. simpl. intros [= <-].
  split_and!; [|done|].
  - unfold ert_valid_opcode. by rewrite Hop.
  - unfold abort_ecmd2xcmd. rsimpl. by destruct (aget_chk _ _ _).
Qed.

Lemma abort_ecmd2xcmd_null_witness :
  exists xcmd, abort_ecmd2xcmd (mk_ert_packet (set_field 1 23 5 ERT_ABORT) [0; 9; 0]) xcmd = None.
Proof.
  destruct (kds_alloc_command (true, true) 1 2 0) as [xcmd|] eqn:E; [|discriminate E].
  exists xcmd. eapply (abort_ecmd2xcmd_null _ 1 2 xcmd); [reflexivity|reflexivity|exact E].
Defined.
