(* ===== verification/CuInfo.v ===== *)
(** * Compute unit descriptions

    The static description of a compute unit ([struct xrt_cu_info] and
    [struct xrt_cu_arg] of [xrt_cu.h]) and the sizes derived from it in
    [xrt_cu.c]: the register map size and the fast-adapter descriptor size. *)
From S2P Require Import Prelude.

Definition M2M_CU_ID : Z := 128.

(** [enum xcu_model] *)
Definition XCU_HLS : Z := 0.
Definition XCU_ACC : Z := 1.
Definition XCU_FA : Z := 2.
Definition XCU_XGQ : Z := 3.
Definition XCU_AUTO : Z := 4.

(** [enum CU_PROTOCOL] *)
Definition CTRL_HS : Z := 0.
Definition CTRL_CHAIN : Z := 1.
Definition CTRL_NONE : Z := 2.
Definition CTRL_ME : Z := 3.
Definition CTRL_ACC : Z := 4.
Definition CTRL_FA : Z := 5.

(** Names are C strings: their bytes without the terminating NUL. *)
Record xrt_cu_arg := mk_xrt_cu_arg {
  arg_name : list Z; arg_offset : Z; arg_size : Z; arg_dir : Z }.

Record xrt_cu_info := mk_xrt_cu_info {
  info_model : Z;
  info_slot_idx : Z;
  info_cu_idx : Z;
  info_inst_idx : Z;
  info_addr : Z;
  info_size : Z;
  info_protocol : Z;
  info_intr_id : Z;
  info_is_m2m : Z;
  info_num_res : Z;
  info_intr_enable : bool;
  info_sw_reset : bool;
  info_args : list xrt_cu_arg;
  info_iname : list Z;
  info_kname : list Z;
  info_cu_domain : Z;
  info_uuid : list Z;
}.

#[export] Instance eta_xrt_cu_info : Eta xrt_cu_info := fun r =>
  mk_xrt_cu_info (info_model r) (info_slot_idx r) (info_cu_idx r)
    (info_inst_idx r) (info_addr r) (info_size r) (info_protocol r)
    (info_intr_id r) (info_is_m2m r) (info_num_res r) (info_intr_enable r)
    (info_sw_reset r) (info_args r) (info_iname r) (info_kname r)
    (info_cu_domain r) (info_uuid r).

(** [memset(&info, 0, sizeof(info))] *)
Definition info_zero : xrt_cu_info :=
  mk_xrt_cu_info 0 0 0 0 0 0 0 0 0 0 false false [] [] [] 0 (replicate 16 0).

Definition info_num_args (i : xrt_cu_info) : Z := Z.of_nat (length (info_args i)).

(** ** [round_up_to_next_power2] *)

Definition smear (v k : Z) : Z := Z.lor v (Z.shiftr v k).

Definition round_up_to_next_power2 (size : Z) : Z :=
  let v := u32 (size - 1) in
  let v := smear v 1 in
  let v := smear v 2 in
  let v := smear v 4 in
  let v := smear v 8 in
  let v := smear v 16 in
  u32 (v + 1).

(** ** Sizes ([xrt_cu.c]) *)

(** "nextDescriptorAddr" *)
Definition next_desc_name : list Z :=
  [110; 101; 120; 116; 68; 101; 115; 99; 114; 105; 112; 116; 111; 114; 65; 100; 100; 114].

Definition sizeof_descriptor : Z := 20.
Definition sizeof_descEntry : Z := 8.

Definition cu_fa_get_desc_size (info : xrt_cu_info) : Z :=
  let size := foldl (fun size a =>
      if bool_decide (arg_name a = next_desc_name) || (arg_size a =? 0) then size
      else u32 (size + (sizeof_descEntry + arg_size a)))
    sizeof_descriptor (info_args info) in
  round_up_to_next_power2 size.

(** [xrt_is_fa]: the verdict and, for a fast-adapter CU, the descriptor size. *)
Definition xrt_is_fa (info : xrt_cu_info) : option Z :=
  if info_model info =? XCU_FA then Some (cu_fa_get_desc_size info) else None.

(** [max_off] and [size] are [int]s read from [u32] fields. *)
Definition xrt_cu_regmap_size (info : xrt_cu_info) : Z :=
  if info_num_args info =? 0 then s32 (info_size info)
  else
    let '(max_off, max_off_idx) :=
      foldl (fun '(mo, mi) '(i, a) =>
               if u32 mo <? arg_offset a then (s32 (arg_offset a), i) else (mo, mi))
            (0, 0) (zip (seqZ 0 (info_num_args info)) (info_args info)) in
    s32 (max_off + aget 0 (arg_size <$> info_args info) max_off_idx).

(** ** Lemmas: smearing the top bit down gives a block of ones *)

Lemma existsb_seqZ_app (f : Z -> bool) m n k :
  0 <= n -> 0 <= k ->
  existsb f (seqZ m (n + k)) = existsb f (seqZ m n) || existsb f (seqZ (m + n) k).
Proof. intros. rewrite seqZ_app by lia. apply existsb_app. Qed.

(** [w] has bit [n] exactly when [v] has a bit in [n .. n + k - 1]. *)
Definition smeared (v w k : Z) : Prop :=
  forall n, 0 <= n ->
    Z.testbit w n = existsb (fun i => Z.testbit v (n + i)) (seqZ 0 k).

Lemma smear_double v w k : 0 < k -> smeared v w k -> smeared v (smear w k) (k + k).
Proof.
  intros Hk H n Hn. unfold smear.
  rewrite Z.lor_spec, Z.shiftr_spec, !H by lia.
  rewrite existsb_seqZ_app by lia. f_equal.
  replace (0 + k) with (k + 0) by lia. rewrite <- fmap_add_seqZ.
  induction (seqZ 0 k) as [|i l IH]; [done|]. simpl. rewrite IH.
  by replace (n + (k + i)) with (n + k + i) by lia.
Qed.

Lemma smeared_ones v w :
  0 < v < 2 ^ 32 -> smeared v w 32 -> 0 <= w -> w = Z.ones (Z.log2 v + 1).
Proof.
  intros Hv H Hw. pose proof (Z.log2_nonneg v).
  assert (Z.log2 v < 32) as Hl by (apply Z.log2_lt_pow2; lia).
  apply Z.bits_inj'. intros n Hn. rewrite H by done.
  rewrite Z.testbit_ones_nonneg by lia.
  destruct (Z.ltb_spec n (Z.log2 v + 1)).
  - apply existsb_exists. exists (Z.log2 v - n).
    rewrite <- list_elem_of_In, elem_of_seqZ. split; [lia|].
    replace (n + (Z.log2 v - n)) with (Z.log2 v) by lia. apply Z.bit_log2. lia.
  - destruct (existsb _ _) eqn:E; [|done]. apply existsb_exists in E as (i & Hi & Hb).
    rewrite <- list_elem_of_In, elem_of_seqZ in Hi.
    rewrite Z.bits_above_log2 in Hb by lia. done.
Qed.

Lemma smear_nonneg v k : 0 <= v -> 0 <= smear v k.
Proof. intros. apply Z.lor_nonneg. split; [done|]. by apply Z.shiftr_nonneg. Qed.

Lemma smear_all v :
  0 < v < 2 ^ 32 ->
  smear (smear (smear (smear (smear v 1) 2) 4) 8) 16 = Z.ones (Z.log2 v + 1).
Proof.
  intros Hv. apply smeared_ones; [done| |].
  - apply (smear_double v _ 16); [lia|]. apply (smear_double v _ 8); [lia|].
    apply (smear_double v _ 4); [lia|]. apply (smear_double v _ 2); [lia|].
    apply (smear_double v _ 1); [lia|]. intros n Hn. simpl.
    by rewrite Z.add_0_r, orb_false_r.
  - repeat apply smear_nonneg. lia.
Qed.

Lemma round_up_pow2 size :
  1 <= size <= 2 ^ 31 -> round_up_to_next_power2 size = 2 ^ Z.log2_up size.
Proof.
  intros Hs. unfold round_up_to_next_power2. rewrite (u32_small (size - 1)) by lia.
  destruct (Z.eqb_spec size 1) as [->|Hne]; [done|].
  rewrite smear_all by lia.
  assert (Z.log2 (size - 1) < 31)
    by (apply Z.log2_lt_pow2; [lia|]; change (2^31) with 2147483648 in *; lia).
  pose proof (Z.log2_nonneg (size - 1)).
  rewrite Z.ones_equiv, <- Z.sub_1_r, Z.sub_add. rewrite u32_small.
  - unfold Z.log2_up. destruct (Z.compare_spec 1 size) as [Hc|Hc|Hc]; [lia| |lia].
    by rewrite Z.sub_1_r.
  - split; [apply Z.pow_nonneg; lia|]. apply Z.pow_lt_mono_r; lia.
Qed.

Lemma le_pow2_log2_up size : 1 <= size -> size <= 2 ^ Z.log2_up size.
Proof.
  intros Hs. destruct (Z.eqb_spec size 1) as [->|Hne]; [done|]. apply Z.log2_up_spec. lia.
Qed.

(** For a size in [1 .. 2^31], [round_up_to_next_power2] is the least
    power of two that is at least the size; for 0 it is 0. *)
Theorem round_up_to_next_power2_correct size :
  1 <= size <= 2 ^ 31 ->
  round_up_to_next_power2 size = 2 ^ Z.log2_up size /\
  size <= round_up_to_next_power2 size /\
  (forall k, 0 <= k -> size <= 2 ^ k -> round_up_to_next_power2 size <= 2 ^ k) /\
  round_up_to_next_power2 0 = 0.
Proof.
  intros Hs. rewrite round_up_pow2 by done. split_and!; [done| |..].
  - apply le_pow2_log2_up. lia.
  - intros k Hk Hle. apply Z.pow_le_mono_r; [lia|].
    apply Z.log2_up_le_pow2; lia.
  - done.
Qed.

Lemma round_up_to_next_power2_correct_witness :
  round_up_to_next_power2 100 = 2 ^ Z.log2_up 100 /\ round_up_to_next_power2 100 = 128.
Proof.
  split; [apply (round_up_to_next_power2_correct 100); lia | reflexivity].
Defined.
