(* ===== verification/IpLayout.v ===== *)
(** * CU indexing from the ip_layout section

    [kds_ip_layout2cu_info] and [kds_ip_layout2scu_info] of [kds_core.c]: the
    insertion sort that gives every PL compute unit of an xclbin its index.

    The caller's array is a list whose length is the number of elements it was
    allocated with; an access outside it, or through a NULL name, is [None]. *)
From S2P Require Import Prelude CuInfo.

Definition IP_KERNEL : Z := 1.
Definition IP_PS_KERNEL : Z := 7.
Definition IP_INT_ENABLE_MASK : Z := 0x0001.
Definition IP_INTERRUPT_ID_MASK : Z := 0x00FE.
Definition IP_INTERRUPT_ID_SHIFT : Z := 1.
Definition IP_CONTROL_MASK : Z := 0xFF00.
Definition IP_CONTROL_SHIFT : Z := 8.

Record ip_data := mk_ip_data {
  m_type : Z; properties : Z; m_base_address : Z; m_name : list Z }.

(** ** C strings *)

(** The bytes up to the terminating NUL, as [strncpy] into a 64-byte buffer
    whose last byte is then cleared leaves them. *)
Fixpoint cstr (l : list Z) : list Z :=
  match l with
  | [] => []
  | c :: l => if c =? 0 then [] else c :: cstr l
  end.

Definition strncpy64 (l : list Z) : list Z := cstr (take 63 l).

(** One [strsep] on ":" (code 58): the token and the rest ([None] is NULL). *)
Fixpoint strsep_colon (l : list Z) : list Z * option (list Z) :=
  match l with
  | [] => ([], None)
  | c :: l => if c =? 58 then ([], Some l)
              else let '(tok, rest) := strsep_colon l in (c :: tok, rest)
  end.

(** Kernel and instance name of an IP; the second [strsep] returns NULL when
    the name holds no colon. *)
Definition ip_names (name : list Z) : option (list Z * list Z) :=
  let '(kname, rest) := strsep_colon (strncpy64 name) in
  rest ← rest;
  let '(iname, _) := strsep_colon rest in
  Some (strncpy64 kname, strncpy64 iname).

(** ** PL kernels *)

Definition ip_selected (ip : ip_data) : bool :=
  (m_type ip =? IP_KERNEL) && negb (u64 (Z.lnot (m_base_address ip)) =? 0).

Definition ip_cu_info (ip : ip_data) : option xrt_cu_info :=
  names ← ip_names (m_name ip);
  Some (info_zero
    <| info_kname := names.1 |>
    <| info_iname := names.2 |>
    <| info_addr := m_base_address ip |>
    <| info_intr_enable := z2b (Z.land (properties ip) IP_INT_ENABLE_MASK) |>
    <| info_protocol := Z.shiftr (Z.land (properties ip) IP_CONTROL_MASK) IP_CONTROL_SHIFT |>
    <| info_intr_id := Z.shiftr (Z.land (properties ip) IP_INTERRUPT_ID_MASK)
                         IP_INTERRUPT_ID_SHIFT |>).

Definition put_cu_info (cus : list xrt_cu_info) (j : nat) (x : xrt_cu_info)
  : option (list xrt_cu_info) :=
  aset_chk cus (Z.of_nat j) (x <| info_cu_idx := Z.of_nat j |>).

(** The insertion loop, [j] counting down; the flag says whether [num_cus] is
    incremented. *)
Fixpoint ip_insert (info : xrt_cu_info) (cus : list xrt_cu_info) (j : nat)
  : option (list xrt_cu_info * bool) :=
  match j with
  | O => cus ← put_cu_info cus O info; Some (cus, true)
  | S j' =>
      prev ← aget_chk info_zero cus (Z.of_nat j');
      if info_intr_id prev <? info_intr_id info
      then cus ← put_cu_info cus j info; Some (cus, true)
      else if info_intr_id info <? info_intr_id prev
      then cus ← put_cu_info cus j prev; ip_insert info cus j'
      else if info_addr prev <? info_addr info
      then cus ← put_cu_info cus j info; Some (cus, true)
      else if info_addr info <? info_addr prev
      then cus ← put_cu_info cus j prev; ip_insert info cus j'
      else Some (cus, false)
  end.

(** One iteration of the outer loop. *)
Definition ip_layout_step (ip : ip_data) (cus : list xrt_cu_info) (num_cus : nat)
  : option (list xrt_cu_info * nat) :=
  if negb (ip_selected ip) then Some (cus, num_cus)
  else info ← ip_cu_info ip;
       r ← ip_insert info cus num_cus;
       Some (r.1, if r.2 : bool then S num_cus else num_cus).

Fixpoint ip_layout_loop (ips : list ip_data) (cus : list xrt_cu_info) (num_cus : nat)
  : option (list xrt_cu_info * nat) :=
  match ips with
  | [] => Some (cus, num_cus)
  | ip :: ips => r ← ip_layout_step ip cus num_cus; ip_layout_loop ips r.1 r.2
  end.

Definition kds_ip_layout2cu_info (ips : list ip_data) (cus : list xrt_cu_info)
  : option (list xrt_cu_info * nat) := ip_layout_loop ips cus 0.

(** ** PS kernels *)

Definition ip_scu_info (ip : ip_data) : option xrt_cu_info :=
  names ← ip_names (m_name ip);
  Some (info_zero <| info_kname := names.1 |> <| info_iname := names.2 |>
    <| info_addr := 0 |> <| info_intr_enable := false |>
    <| info_protocol := CTRL_HS |> <| info_intr_id := 0 |>).

Fixpoint ip_scu_loop (ips : list ip_data) (cus : list xrt_cu_info) (num_cus : nat)
  : option (list xrt_cu_info * nat) :=
  match ips with
  | [] => Some (cus, num_cus)
  | ip :: ips =>
      if negb (m_type ip =? IP_PS_KERNEL) then ip_scu_loop ips cus num_cus
      else info ← ip_scu_info ip;
           cus ← put_cu_info cus num_cus info;
           ip_scu_loop ips cus (S num_cus)
  end.

Definition kds_ip_layout2scu_info (ips : list ip_data) (cus : list xrt_cu_info)
  : option (list xrt_cu_info * nat) := ip_scu_loop ips cus 0.

(** ** The order, and the sorted array as a specification *)

(** Interrupt id first, then address. *)
Definition ip_lt (a b : xrt_cu_info) : Prop :=
  info_intr_id a < info_intr_id b \/
  (info_intr_id a = info_intr_id b /\ info_addr a < info_addr b).

#[export] Instance ip_lt_dec a b : Decision (ip_lt a b).
Proof. unfold ip_lt. apply _. Defined.

Definition ip_key (a : xrt_cu_info) : Z * Z := (info_intr_id a, info_addr a).

Lemma ip_lt_trans a b c : ip_lt a b -> ip_lt b c -> ip_lt a c.
Proof. unfold ip_lt. lia. Qed.

Lemma ip_lt_asym a b : ip_lt a b -> ip_lt b a -> False.
Proof. unfold ip_lt. lia. Qed.

Lemma ip_lt_total a b : ip_key a <> ip_key b -> ip_lt a b \/ ip_lt b a.
Proof.
  unfold ip_lt, ip_key. intros H.
  destruct (Z.lt_trichotomy (info_intr_id a) (info_intr_id b)) as [|[E|]]; [lia| |lia].
  destruct (Z.lt_trichotomy (info_addr a) (info_addr b)) as [|[E'|]]; [lia| |lia].
  congruence.
Qed.

Definition set_idx (i : nat) (x : xrt_cu_info) : xrt_cu_info :=
  x <| info_cu_idx := Z.of_nat i |>.
Definition reindex (l : list xrt_cu_info) : list xrt_cu_info := imap set_idx l.
Definition sorted_insert (x : xrt_cu_info) (l : list xrt_cu_info) :=
  filter (fun y => ip_lt y x) l ++ x :: filter (fun y => ip_lt x y) l.

Lemma reindex_snoc l x : reindex (l ++ [x]) = reindex l ++ [set_idx (length l) x].
Proof. unfold reindex. rewrite imap_app. simpl. by rewrite Nat.add_0_r. Qed.

Lemma length_reindex l : length (reindex l) = length l.
Proof. apply length_imap. Qed.

Lemma set_idx_idem i j x : set_idx i (set_idx j x) = set_idx i x.
Proof. done. Qed.

Lemma reindex_idem l : reindex (reindex l) = reindex l.
Proof.
  induction l as [|x l IH] using rev_ind; [done|].
  by rewrite !reindex_snoc, length_reindex, set_idx_idem, IH.
Qed.

Lemma reindex_strip l : set_idx 0 <$> reindex l = set_idx 0 <$> l.
Proof.
  induction l as [|x l IH] using rev_ind; [done|].
  by rewrite reindex_snoc, !fmap_app, IH.
Qed.

Lemma ip_key_set_idx i x : ip_key (set_idx i x) = ip_key x.
Proof. done. Qed.

Lemma reindex_keys l : ip_key <$> reindex l = ip_key <$> l.
Proof.
  induction l as [|x l IH] using rev_ind; [done|].
  by rewrite reindex_snoc, !fmap_app, IH.
Qed.

Lemma StronglySorted_snoc {A} (R : A -> A -> Prop) l x :
  StronglySorted R (l ++ [x]) <-> StronglySorted R l /\ Forall (fun y => R y x) l.
Proof.
  induction l as [|y l IH]; simpl.
  - split; [|repeat constructor]. intros _. split; constructor.
  - split.
    + intros H. inversion H as [|? ? H1 H2]; subst. apply IH in H1 as [? ?].
      apply Forall_app in H2 as [? H2]. apply Forall_cons in H2 as [? _].
      split; constructor; done.
    + intros [H1 H2]. inversion H1; subst. apply Forall_cons in H2 as [? ?].
      constructor; [by apply IH|]. apply Forall_app. split; [done|]. by apply Forall_singleton.
Qed.

Lemma StronglySorted_reindex l :
  StronglySorted ip_lt l -> StronglySorted ip_lt (reindex l).
Proof.
  induction l as [|x l IH] using rev_ind; [done|]. rewrite reindex_snoc.
  rewrite !StronglySorted_snoc. intros [H1 H2]. split; [auto|].
  apply Forall_forall. intros y Hy. apply elem_of_lookup_imap in Hy as (i & z & -> & Hz).
  change (ip_lt z x). apply list_elem_of_lookup_2 in Hz. by eapply Forall_forall in H2.
Qed.

Lemma filter_all {A} (P : A -> Prop) `{forall x, Decision (P x)} l :
  Forall P l -> filter P l = l.
Proof. induction 1; [done|]. rewrite filter_cons. case_decide; [by f_equal|done]. Qed.

Lemma filter_none {A} (P : A -> Prop) `{forall x, Decision (P x)} l :
  Forall (fun x => ~ P x) l -> filter P l = [].
Proof. induction 1; [done|]. rewrite filter_cons. by case_decide. Qed.

Lemma sorted_insert_snoc_lt x l y :
  StronglySorted ip_lt (l ++ [y]) -> ip_lt y x ->
  sorted_insert x (l ++ [y]) = l ++ [y; x].
Proof.
  intros Hs Hy. unfold sorted_insert.
  assert (Forall (fun z => ip_lt z x) (l ++ [y])) as HF.
  { apply Forall_app. split; [|by apply Forall_singleton].
    apply StronglySorted_snoc in Hs as [_ Hs].
    eapply Forall_impl; [exact Hs|]. intros z Hz. exact (ip_lt_trans _ _ _ Hz ltac:(eassumption)). }
  rewrite filter_all by done. rewrite filter_none; [by rewrite <- app_assoc|].
  eapply Forall_impl; [exact HF|]. intros z Hz Hz'. exact (ip_lt_asym _ _ Hz Hz').
Qed.

Lemma sorted_insert_snoc_gt x l y :
  ip_lt x y -> sorted_insert x (l ++ [y]) = sorted_insert x l ++ [y].
Proof.
  intros Hy. unfold sorted_insert. rewrite !filter_app.
  rewrite (filter_none (fun z => ip_lt z x) [y])
    by (apply Forall_singleton; intros Hy'; exact (ip_lt_asym _ _ Hy Hy')).
  rewrite (filter_all (fun z => ip_lt x z) [y]) by (by apply Forall_singleton).
  by rewrite app_nil_r, <- app_assoc.
Qed.

Lemma sorted_insert_perm x l :
  ip_key x ∉ ip_key <$> l -> sorted_insert x l ≡ₚ x :: l.
Proof.
  intros Hx. unfold sorted_insert. rewrite <- Permutation_middle. constructor.
  induction l as [|y l IH]; [done|]. rewrite fmap_cons, not_elem_of_cons in Hx.
  destruct Hx as [Hxy Hx]. specialize (IH Hx). rewrite !filter_cons.
  destruct (ip_lt_total x y Hxy) as [H|H].
  - assert (~ ip_lt y x) by (intros H'; exact (ip_lt_asym _ _ H H')).
    do 2 (case_decide; [|try done]); [done|]. by rewrite <- Permutation_middle, IH.
  - assert (~ ip_lt x y) by (intros H'; exact (ip_lt_asym _ _ H H')).
    do 2 (case_decide; [try done|]); try done. simpl. by rewrite IH.
Qed.

Lemma sorted_insert_sorted x l :
  StronglySorted ip_lt l -> ip_key x ∉ ip_key <$> l ->
  StronglySorted ip_lt (sorted_insert x l).
Proof.
  induction l as [|y l IH] using rev_ind; intros Hs Hx; [repeat constructor|].
  rewrite fmap_app, not_elem_of_app in Hx. destruct Hx as [Hx Hxy].
  destruct (ip_lt_total x y) as [H|H]; [intros E; apply Hxy; rewrite E; left|..].
  - rewrite sorted_insert_snoc_gt by done. apply StronglySorted_snoc in Hs as [Hs Hl].
    apply StronglySorted_snoc. split; [auto|].
    apply Forall_forall. intros z Hz. rewrite sorted_insert_perm in Hz by done.
    apply elem_of_cons in Hz as [->|Hz]; [done|]. by eapply Forall_forall in Hl.
  - rewrite sorted_insert_snoc_lt by done. change [y; x] with ([y] ++ [x]).
    rewrite app_assoc. apply StronglySorted_snoc. split; [done|].
    apply Forall_app. split; [|by apply Forall_singleton].
    apply StronglySorted_snoc in Hs as [_ Hs].
    eapply Forall_impl; [exact Hs|]. intros z Hz. exact (ip_lt_trans _ _ _ Hz ltac:(eassumption)).
Qed.

(** ** The loops implement the specification *)

Lemma put_cu_info_app l x0 rest x :
  put_cu_info (l ++ x0 :: rest) (length l) x = Some (l ++ set_idx (length l) x :: rest).
Proof.
  unfold put_cu_info, aset_chk.
  replace (in_arr _ _) with true
    by (symmetry; apply in_arr_true; rewrite length_app; cbn [length]; lia).
  unfold aset. rewrite Nat2Z.id, insert_app_r_alt by lia. by rewrite Nat.sub_diag.
Qed.

Lemma aget_chk_app d (l : list xrt_cu_info) y rest :
  aget_chk d (l ++ y :: rest) (Z.of_nat (length l)) = Some y.
Proof.
  unfold aget_chk.
  replace (in_arr _ _) with true
    by (symmetry; apply in_arr_true; rewrite length_app; cbn [length]; lia).
  unfold aget. rewrite Nat2Z.id, lookup_app_r by lia. by rewrite Nat.sub_diag.
Qed.

Lemma ip_insert_spec info l x0 rest :
  StronglySorted ip_lt l -> ip_key info ∉ ip_key <$> l -> reindex l = l ->
  ip_insert info (l ++ x0 :: rest) (length l) =
  Some (reindex (sorted_insert info l) ++ rest, true).
Proof.
  revert x0 rest. induction l as [|y l IH] using rev_ind; intros x0 rest Hs Hx Hr.
  - pose proof (put_cu_info_app [] x0 rest info) as Hp. cbn [length app] in *.
    cbn [ip_insert]. rewrite Hp. done.
  - rewrite fmap_app, not_elem_of_app in Hx. destruct Hx as [Hx Hxy].
    assert (ip_key info <> ip_key y) as Hne by (intros E; apply Hxy; rewrite E; left).
    pose proof (put_cu_info_app (l ++ [y]) x0 rest) as Hput.
    rewrite length_app, Nat.add_1_r in *. cbn [length] in *. rewrite <- !app_assoc in *.
    cbn [app] in *. cbn [ip_insert]. rewrite aget_chk_app.
    cbn [mbind option_bind]. rewrite !Hput. cbn [mbind option_bind].
    assert (Hr' := Hr). rewrite reindex_snoc in Hr'. apply app_inj_tail in Hr' as [Hl Hy].
    assert (ip_lt y info ->
      reindex (sorted_insert info (l ++ [y])) ++ rest =
      (l ++ [y]) ++ set_idx (S (length l)) info :: rest) as Hlast.
    { intros Hlt. rewrite sorted_insert_snoc_lt by done.
      change [y; info] with ([y] ++ [info]). rewrite app_assoc, reindex_snoc, Hr.
      rewrite length_app, Nat.add_1_r. by rewrite <- !app_assoc. }
    assert (ip_lt info y ->
      ip_insert info ((l ++ [y]) ++ set_idx (S (length l)) y :: rest) (length l) =
      Some (reindex (sorted_insert info (l ++ [y])) ++ rest, true)) as Hstep.
    { intros Hlt. rewrite sorted_insert_snoc_gt, reindex_snoc by done.
      rewrite <- !app_assoc. cbn [app]. apply StronglySorted_snoc in Hs as [Hs _].
      rewrite IH by done. do 3 f_equal. unfold sorted_insert.
      pose proof (Permutation_length (sorted_insert_perm info l Hx)) as L.
      unfold sorted_insert in L. rewrite L. done. }
    unfold ip_lt in Hlast, Hstep. unfold ip_key in Hne.
    repeat case_match; try (by rewrite Hlast by lia); try (apply Hstep; lia).
    exfalso. apply Hne. f_equal; lia.
Qed.

(** The infos of the selected IPs, in layout order; [None] when a name has no
    colon. *)
Definition ip_infos (ips : list ip_data) : option (list xrt_cu_info) :=
  mapM ip_cu_info (filter (fun ip => ip_selected ip = true) ips).

Lemma ip_layout_loop_spec ips infos l rest :
  ip_infos ips = Some infos ->
  NoDup (ip_key <$> (l ++ infos)) -> (length infos <= length rest)%nat ->
  StronglySorted ip_lt l -> reindex l = l ->
  exists l', ip_layout_loop ips (l ++ rest) (length l) =
      Some (l' ++ drop (length infos) rest, length l') /\
    StronglySorted ip_lt l' /\ reindex l' = l' /\
    set_idx 0 <$> l' ≡ₚ set_idx 0 <$> (l ++ infos).
Proof.
  revert infos l rest. induction ips as [|ip ips IH]; intros infos l rest Hi Hd Hlen Hs Hr.
  - injection Hi as <-. exists l. rewrite app_nil_r, drop_0. done.
  - unfold ip_infos in Hi. rewrite filter_cons in Hi. cbn [ip_layout_loop].
    unfold ip_layout_step. destruct (ip_selected ip); cbn [negb].
    + rewrite decide_True in Hi by done. cbn [mapM] in Hi.
      destruct (ip_cu_info ip) as [info|] eqn:E; [|done]. cbn [mbind option_bind] in Hi |- *.
      fold (ip_infos ips) in Hi. destruct (ip_infos ips) as [infos'|] eqn:E'; [|done].
      injection Hi as <-.
      destruct rest as [|x0 rest]; [cbn [length] in Hlen; lia|].
      assert (ip_key info ∉ ip_key <$> l) as Hx.
      { rewrite fmap_app, fmap_cons in Hd. apply NoDup_app in Hd as (_ & Hd & _).
        intros Hin. apply (Hd _ Hin). left. }
      rewrite ip_insert_spec by done. cbn [mbind option_bind fst snd].
      pose proof (sorted_insert_perm info l Hx) as HP.
      assert (S (length l) = length (reindex (sorted_insert info l))) as ->.
      { rewrite length_reindex. by rewrite HP. }
      destruct (IH infos' (reindex (sorted_insert info l)) rest) as (l' & -> & H1 & H2 & H3).
      * done.
      * rewrite fmap_app, reindex_keys, <- fmap_app. rewrite HP.
        cbn [app]. by rewrite Permutation_middle.
      * cbn [length] in Hlen. lia.
      * by apply StronglySorted_reindex, sorted_insert_sorted.
      * apply reindex_idem.
      * exists l'. split_and!; try done. rewrite H3, !fmap_app, reindex_strip, HP.
        rewrite !fmap_cons. cbn [app]. by rewrite Permutation_middle.
    + rewrite decide_False in Hi by done. cbn [mbind option_bind fst snd].
      by apply IH.
Qed.

(** C32. When the selected IPs have well-formed names and pairwise distinct
    (interrupt id, address) keys and the caller's array has room for them,
    [kds_ip_layout2cu_info] returns their number and leaves in the first
    entries exactly their descriptions, strictly sorted by interrupt id and
    then address, each carrying its position as CU index; the entries behind
    are untouched. *)
Theorem kds_ip_layout2cu_info_sorted ips infos cus :
  ip_infos ips = Some infos -> NoDup (ip_key <$> infos) ->
  (length infos <= length cus)%nat ->
  exists l, kds_ip_layout2cu_info ips cus =
      Some (l ++ drop (length infos) cus, length l) /\
    length l = length infos /\ StronglySorted ip_lt l /\
    (forall i x, l !! i = Some x -> info_cu_idx x = Z.of_nat i) /\
    set_idx 0 <$> l ≡ₚ set_idx 0 <$> infos.
Proof.
  intros Hi Hd Hlen.
  destruct (ip_layout_loop_spec ips infos [] cus) as (l & E & H1 & H2 & H3);
    try done; [constructor|].
  exists l. split_and!; try done.
  - apply Permutation_length in H3. by rewrite !length_fmap in H3.
  - intros i x Hx. rewrite <- H2 in Hx. unfold reindex in Hx.
    rewrite list_lookup_imap in Hx. apply fmap_Some in Hx as (y & _ & ->). done.
Qed.

Definition demo_ip (ty props addr : Z) : ip_data :=
  mk_ip_data ty props addr [107; 58; 97; 0].

Lemma kds_ip_layout2cu_info_sorted_witness :
  exists l, kds_ip_layout2cu_info
      [demo_ip 1 4 10; demo_ip 0 0 1; demo_ip 1 2 30; demo_ip 1 2 20; demo_ip 1 0 (2 ^ 64 - 1)]
      (replicate 4 info_zero) = Some (l ++ [info_zero], length l) /\
    StronglySorted ip_lt l /\ info_addr <$> l = [20; 30; 10] /\ info_cu_idx <$> l = [0; 1; 2].
Proof.
  edestruct (kds_ip_layout2cu_info_sorted
      [demo_ip 1 4 10; demo_ip 0 0 1; demo_ip 1 2 30; demo_ip 1 2 20; demo_ip 1 0 (2 ^ 64 - 1)])
    as (l & E & _ & Hs & _).
  - vm_compute. reflexivity.
  - apply (bool_decide_unpack _). vm_compute. exact I.
  - instantiate (1 := replicate 4 info_zero). simpl. lia.
  - exists l. split; [exact E|]. split; [exact Hs|].
    vm_compute in E. injection E as E. apply (f_equal (take (length l))) in E.
    destruct l as [|? [|? [|? [|? ?]]]]; simplify_eq/=. done.
Defined.

(** A duplicated IP that meets two larger entries on its way down has already
    shifted them when it is dropped: the largest CU is lost and its neighbour
    appears twice. *)
Example kds_ip_layout2cu_info_duplicate :
  option_map (fun r => (info_addr <$> r.1, r.2))
  (kds_ip_layout2cu_info [demo_ip 1 0 1; demo_ip 1 0 2; demo_ip 1 0 3; demo_ip 1 0 1]
     (replicate 4 info_zero)) = Some ([1; 2; 2; 3], 3%nat).
Proof. reflexivity. Qed.

(** PS kernels keep their layout order; the index is the position. *)
Lemma ip_scu_loop_spec ips infos l rest :
  mapM ip_scu_info (filter (fun ip => (m_type ip =? IP_PS_KERNEL) = true) ips) = Some infos ->
  (length infos <= length rest)%nat -> reindex l = l ->
  ip_scu_loop ips (l ++ rest) (length l) =
  Some (reindex (l ++ infos) ++ drop (length infos) rest, length (l ++ infos)).
Proof.
  revert infos l rest. induction ips as [|ip ips IH]; intros infos l rest Hi Hlen Hr.
  - injection Hi as <-. rewrite app_nil_r, Hr. done.
  - rewrite filter_cons in Hi. cbn [ip_scu_loop].
    destruct (m_type ip =? IP_PS_KERNEL); cbn [negb].
    + rewrite decide_True in Hi by done. cbn [mapM] in Hi.
      destruct (ip_scu_info ip) as [info|]; [|done]. cbn [mbind option_bind] in Hi |- *.
      destruct (mapM _ _) as [infos'|] eqn:E'; [|done]. injection Hi as <-.
      destruct rest as [|x0 rest]; [cbn [length] in Hlen; lia|].
      rewrite put_cu_info_app. cbn [mbind option_bind].
      pose proof (IH infos' (l ++ [set_idx (length l) info]) rest eq_refl) as H.
      rewrite length_app, <- app_assoc, Nat.add_1_r in H. cbn [app] in H. rewrite H.
      * f_equal. f_equal; [|rewrite !length_app; cbn [length]; lia].
        f_equal. rewrite <- app_assoc. unfold reindex. rewrite !imap_app. done.
      * cbn [length] in Hlen. lia.
      * by rewrite reindex_snoc, Hr, set_idx_idem.
    + rewrite decide_False in Hi by done. by apply IH.
Qed.

(** [kds_ip_layout2scu_info] fills the array with the PS kernels in layout
    order, each with its position as index, and returns their number. *)
Theorem kds_ip_layout2scu_info_ok ips infos cus :
  mapM ip_scu_info (filter (fun ip => (m_type ip =? IP_PS_KERNEL) = true) ips) = Some infos ->
  (length infos <= length cus)%nat ->
  kds_ip_layout2scu_info ips cus =
  Some (reindex infos ++ drop (length infos) cus, length infos).
Proof. intros Hi Hlen. by apply (ip_scu_loop_spec ips infos [] cus). Qed.

Lemma kds_ip_layout2scu_info_ok_witness :
  exists infos, length infos = 2%nat /\
    kds_ip_layout2scu_info [demo_ip 7 0 0; demo_ip 1 0 0; demo_ip 7 0 1]
      (replicate 3 info_zero) =
    Some (reindex infos ++ drop (length infos) (replicate 3 info_zero), length infos).
Proof.
  eexists. split; cycle 1.
  - apply kds_ip_layout2scu_info_ok; [vm_compute; reflexivity|simpl; lia].
  - reflexivity.
Defined.
