(* ===== verification/CuCore.v ===== *)
(** * The interface between the CU scheduler and a CU implementation

    [struct xcu_funcs] of [xrt_cu.h] as a record of operations, what the
    scheduler in [xrt_cu.c] relies on as the class [XcuLaws], and the register
    access layer as the class [Mmio].

    An implementation owns two lists of commands: [submitted] (running on the
    hardware) and [completed] (waiting for [get_complete]). *)
From S2P Require Import Prelude KdsCommand.

(** ** Memory-mapped registers

    [ioread32] may change the device (clear-on-read bits). *)
Class Mmio (H : Type) := {
  ioread32 : H -> Z -> Z * H;
  iowrite32 : H -> Z -> Z -> H;
}.

(** A sequence of register writes, in order. *)
Definition io_writes {H} `{Mmio H} (h : H) (ws : list (Z * Z)) : H :=
  foldl (fun h w => iowrite32 h w.1 w.2) h ws.

(** Plain memory: a device whose registers hold what was last written. *)
#[export] Instance mmio_mem : Mmio (gmap Z Z) := {
  ioread32 m a := (default 0 (m !! a), m);
  iowrite32 m a v := <[a := v]> m;
}.

(** ** Status bits ([xrt_cu.h]) *)

Definition CU_AP_START : Z := 0x1.
Definition CU_AP_DONE : Z := 0x2.
Definition CU_AP_IDLE : Z := 0x4.
Definition CU_AP_READY : Z := 0x8.
Definition CU_AP_CONTINUE : Z := 0x10.
Definition CU_AP_SW_RESET : Z := 0x100.
Definition CU_AP_CRASHED : Z := 0xFFFFFFFF.

Definition CU_INTR_DONE : Z := 0x1.
Definition CU_INTR_READY : Z := 0x2.

Record xcu_status := mk_xcu_status {
  num_done : Z; num_ready : Z; new_status : Z; st_rcode : Z }.

#[export] Instance eta_xcu_status : Eta xcu_status := fun r =>
  mk_xcu_status (num_done r) (num_ready r) (new_status r) (st_rcode r).

Definition status_zero : xcu_status := mk_xcu_status 0 0 0 0.

(** ** [struct xcu_funcs]

    [C] is the implementation's private data together with the device behind
    it.  [submit_config], [get_complete] and [abort] may be NULL.  The [None]
    of a call is an access outside an array or a payload buffer, or an answer
    of the device that is outside the model. *)
Record xcu_funcs (C : Type) := mk_xcu_funcs {
  alloc_credit : C -> Z * C;
  free_credit : C -> Z -> C;
  peek_credit : C -> Z;
  configure : C -> list Z -> Z -> Z -> option (Z * C);
  start : C -> C;
  check : C -> xcu_status -> bool -> option (xcu_status * C);
  submit_config : option (C -> kds_command -> option (Z * C));
  get_complete : option (C -> option (option kds_command * C));
  abort : option (C -> (kds_command -> bool) -> option (Z * C));
  reset : C -> C;
  reset_done : C -> bool * C;
  enable_intr : C -> Z -> C;
  disable_intr : C -> Z -> C;
  clear_intr : C -> Z * C;
}.
Arguments alloc_credit {C}. Arguments free_credit {C}. Arguments peek_credit {C}.
Arguments configure {C}. Arguments start {C}. Arguments check {C}.
Arguments submit_config {C}. Arguments get_complete {C}. Arguments abort {C}.
Arguments reset {C}. Arguments reset_done {C}.
Arguments enable_intr {C}. Arguments disable_intr {C}. Arguments clear_intr {C}.

(** ** Commands inside an implementation *)

Definition set_status (s : kds_status) (x : kds_command) : kds_command :=
  x <| xcmd_status := s |>.

(** [moves sub comp rep c c']: from [c] to [c'] the oldest commands of [sub] have
    gone to the tail of [comp], completed or with a status that the device
    reports. *)
Definition moves {C} (sub comp : C -> list kds_command) (rep : kds_status -> Prop) (c c' : C)
  : Prop :=
  exists fin fin', sub c = fin ++ sub c' /\ comp c' = comp c ++ fin' /\
    xcmd_id <$> fin' = xcmd_id <$> fin /\
    Forall (fun x => xcmd_status x = KDS_COMPLETED \/ rep (xcmd_status x)) fin'.

Lemma moves_completed {C} (sub comp : C -> list kds_command) rep c c' fin :
  sub c = fin ++ sub c' -> comp c' = comp c ++ (set_status KDS_COMPLETED <$> fin) ->
  moves sub comp rep c c'.
Proof.
  intros E1 E2. exists fin, (set_status KDS_COMPLETED <$> fin). split_and!; try done.
  - by rewrite <- list_fmap_compose.
  - apply Forall_fmap, Forall_true. by left.
Qed.

Lemma moves_refl {C} (sub comp : C -> list kds_command) rep c c' :
  sub c' = sub c -> comp c' = comp c -> moves sub comp rep c c'.
Proof. intros E1 E2. exists [], []. rewrite app_nil_r. by split_and!. Qed.

Lemma moves_trans {C} (sub comp : C -> list kds_command) rep a b c :
  moves sub comp rep a b -> moves sub comp rep b c -> moves sub comp rep a c.
Proof.
  intros (f1 & g1 & E1 & E2 & I1 & R1) (f2 & g2 & E3 & E4 & I2 & R2).
  exists (f1 ++ f2), (g1 ++ g2). rewrite E1, E3, E4, E2, !fmap_app, I1, I2, <- !app_assoc.
  split_and!; try done. by apply Forall_app.
Qed.

(** What the scheduler relies on.  [cmd_ok] is the shape of command the
    implementation can be given, [core_ok] its invariant; [credit_ok] bounds its
    credit counter, and is nowhere true when the credits are not limited.  The
    command kept in [submitted] may differ from the one given in what the
    implementation writes into its payload. *)
Class XcuLaws {C : Type} (f : xcu_funcs C) := {
  submitted : C -> list kds_command;
  completed : C -> list kds_command;
  cmd_ok : kds_command -> Prop;
  core_ok : C -> Prop;
  reported : kds_status -> Prop;
  credit_ok : C -> Prop;
  max_credit : C -> Z;

  law_alloc c : exists r c', alloc_credit f c = (r, c') /\
    submitted c' = submitted c /\ completed c' = completed c /\ (core_ok c -> core_ok c') /\
    (credit_ok c -> credit_ok c' /\ r = peek_credit f c /\ 0 <= r /\
       peek_credit f c' = Z.max 0 (r - 1) /\ max_credit c' = max_credit c);
  law_free c n :
    submitted (free_credit f c n) = submitted c /\
    completed (free_credit f c n) = completed c /\
    (core_ok c -> core_ok (free_credit f c n)) /\
    (credit_ok c -> 0 <= n < 2 ^ 30 ->
       credit_ok (free_credit f c n) /\
       peek_credit f (free_credit f c n) = Z.min (max_credit c) (peek_credit f c + n));
  law_submit : exists sub, submit_config f = Some sub /\
    forall c x, core_ok c -> cmd_ok x ->
      exists r c' x', sub c x = Some (r, c') /\ core_ok c' /\
        completed c' = completed c /\ xcmd_id x' = xcmd_id x /\
        submitted c' = (if r =? 0 then submitted c ++ [x'] else submitted c) /\
        peek_credit f c' = peek_credit f c /\ (credit_ok c -> credit_ok c');
  law_timestamp x ts : cmd_ok x -> cmd_ok (x <| xcmd_timestamp := ts |>);
  law_start c :
    submitted (start f c) = submitted c /\ completed (start f c) = completed c /\
    (core_ok c -> core_ok (start f c)) /\
    peek_credit f (start f c) = peek_credit f c /\ (credit_ok c -> credit_ok (start f c));
  law_check c s force s' c' :
    core_ok c -> check f c s force = Some (s', c') ->
    moves submitted completed reported c c' /\ core_ok c';
  law_get : exists get, get_complete f = Some get /\
    forall c, core_ok c ->
      match completed c with
      | [] => get c = Some (None, c)
      | x :: xs => exists c', get c = Some (Some x, c') /\ core_ok c' /\
                   submitted c' = submitted c /\ completed c' = xs
      end;
  law_abort : exists ab, abort f = Some ab /\
    forall c m, core_ok c ->
      exists r c', ab c m = Some (r, c') /\ core_ok c' /\
        submitted c' = filter (fun x => m x = false) (submitted c) /\
        completed c' = completed c ++
          (set_status KDS_TIMEOUT <$> filter (fun x => m x = true) (submitted c));
  law_intr c t :
    (submitted (enable_intr f c t) = submitted c /\
     completed (enable_intr f c t) = completed c /\
     (core_ok c -> core_ok (enable_intr f c t))) /\
    (submitted (disable_intr f c t) = submitted c /\
     completed (disable_intr f c t) = completed c /\
     (core_ok c -> core_ok (disable_intr f c t)) /\
     peek_credit f (disable_intr f c t) = peek_credit f c /\
     (credit_ok c -> credit_ok (disable_intr f c t)));
}.

(** The answers of the device are always understood. *)
Class XcuChecks {C : Type} (f : xcu_funcs C) {L : XcuLaws f} :=
  law_check_total c s force : core_ok c -> is_Some (check f c s force).

(** ** The list walks both implementations share *)

(** [list_for_each_entry_safe] over [submitted], moving the matching commands
    to the tail of [completed] with status [KDS_TIMEOUT]. *)
Fixpoint abort_walk (m : kds_command -> bool) (sub comp : list kds_command)
  : list kds_command * list kds_command :=
  match sub with
  | [] => ([], comp)
  | x :: sub =>
      if m x then abort_walk m sub (comp ++ [set_status KDS_TIMEOUT x])
      else let '(s, c) := abort_walk m sub comp in (x :: s, c)
  end.

Lemma abort_walk_spec m sub comp :
  abort_walk m sub comp =
  (filter (fun x => m x = false) sub,
   comp ++ (set_status KDS_TIMEOUT <$> filter (fun x => m x = true) sub)).
Proof.
  revert comp. induction sub as [|x sub IH]; intros comp; simpl.
  - by rewrite app_nil_r.
  - rewrite !filter_cons. destruct (m x).
    + rewrite decide_False, decide_True, IH by done. by rewrite <- app_assoc.
    + by rewrite IH.
Qed.

(** Reading back a block of register writes from plain memory. *)
Lemma io_writes_mem_other (m : gmap Z Z) ws a :
  a ∉ ws.*1 -> io_writes m ws !! a = m !! a.
Proof.
  revert m. induction ws as [|[b v] ws IH]; intros m Ha; [done|].
  rewrite fmap_cons, not_elem_of_cons in Ha. destruct Ha as [Hne Ha].
  change (io_writes (<[b:=v]> m) ws !! a = m !! a).
  rewrite IH by done. by rewrite lookup_insert_ne.
Qed.

Lemma io_writes_mem_in (m : gmap Z Z) ws a v :
  NoDup ws.*1 -> (a, v) ∈ ws -> io_writes m ws !! a = Some v.
Proof.
  revert m. induction ws as [|[b w] ws IH]; intros m Hd Hin; [by apply elem_of_nil in Hin|].
  rewrite fmap_cons in Hd. apply NoDup_cons in Hd as [Hb Hd].
  apply elem_of_cons in Hin as [[= -> ->]|Hin]; [|by apply (IH (<[b:=w]> m))].
  change (io_writes (<[b:=w]> m) ws !! b = Some w).
  rewrite io_writes_mem_other by done. by rewrite lookup_insert_eq.
Qed.
