(* ===== verification/CuHls.v ===== *)
(** * HLS compute units

    [cu_hls.c]: the implementation of [xcu_funcs] for compute units with the
    HLS control protocols ap_ctrl_hs and ap_ctrl_chain.  The device behind the
    register window is the type [H]; [kds_echo] is the module parameter. *)
From S2P Require Import Prelude KdsCommand CuInfo CuCore.

Definition CTRL : Z := 0x0.
Definition GIE : Z := 0x4.
Definition IER : Z := 0x8.
Definition ISR : Z := 0xC.
Definition ARGS : Z := 0x10.

Record xrt_cu_hls (H : Type) := mk_xrt_cu_hls {
  hls_hw : H;
  hls_vaddr : Z;
  hls_max_credits : Z;
  hls_credits : Z;
  hls_run_cnts : Z;
  hls_ctrl_chain : bool;
  hls_sw_reset : bool;
  hls_done : Z;
  hls_submitted : list kds_command;
  hls_completed : list kds_command;
}.
Arguments mk_xrt_cu_hls {H}. Arguments hls_hw {H}. Arguments hls_vaddr {H}.
Arguments hls_max_credits {H}. Arguments hls_credits {H}. Arguments hls_run_cnts {H}.
Arguments hls_ctrl_chain {H}. Arguments hls_sw_reset {H}. Arguments hls_done {H}.
Arguments hls_submitted {H}. Arguments hls_completed {H}.

#[export] Instance eta_xrt_cu_hls H : Eta (xrt_cu_hls H) := fun r =>
  mk_xrt_cu_hls (hls_hw r) (hls_vaddr r) (hls_max_credits r) (hls_credits r)
    (hls_run_cnts r) (hls_ctrl_chain r) (hls_sw_reset r) (hls_done r)
    (hls_submitted r) (hls_completed r).

Section Hls.
Context {H : Type} `{Mmio H} (kds_echo : bool).
#[local] Abbreviation hls := (xrt_cu_hls H).

Definition cu_read32 (cu : hls) (reg : Z) : Z * hls :=
  let '(v, hw) := ioread32 (hls_hw cu) (hls_vaddr cu + reg) in
  (v, cu <| hls_hw := hw |>).

Definition cu_write32 (cu : hls) (reg val : Z) : hls :=
  cu <| hls_hw := iowrite32 (hls_hw cu) (hls_vaddr cu + reg) val |>.

Definition cu_move_to_complete (cu : hls) (status : kds_status) : hls :=
  match hls_submitted cu with
  | [] => cu
  | xcmd :: sub =>
      cu <| hls_run_cnts := s32 (hls_run_cnts cu - 1) |>
         <| hls_submitted := sub |>
         <| hls_completed := hls_completed cu ++ [set_status status xcmd] |>
  end.

Definition cu_hls_alloc_credit (cu : hls) : Z * hls :=
  if z2b (hls_credits cu)
  then (hls_credits cu, cu <| hls_credits := hls_credits cu - 1 |>)
  else (0, cu).

Definition cu_hls_free_credit (cu : hls) (count : Z) : hls :=
  let cu := cu <| hls_credits := s32 (hls_credits cu + count) |> in
  if hls_max_credits cu <? hls_credits cu
  then cu <| hls_credits := hls_max_credits cu |> else cu.

Definition cu_hls_peek_credit (cu : hls) : Z := hls_credits cu.

(** [for (i = 0; i < num_reg; ++i) cu_write32(ARGS + i * 4, data[i])] from
    index [i] on. *)
Fixpoint write_regmap (cu : hls) (data : list Z) (i : Z) (n : nat) : option hls :=
  match n with
  | O => Some cu
  | S n => v ← aget_chk 0 data i;
           write_regmap (cu_write32 cu (u32 (ARGS + i * 4)) v) data (i + 1) n
  end.

(** [for (i = 0; i < num_reg; i += 2) cu_write32(data[i], data[i + 1])]; the
    fuel [num_reg] bounds the number of iterations. *)
Fixpoint write_pairs (cu : hls) (data : list Z) (i num_reg : Z) (fuel : nat) : option hls :=
  match fuel with
  | O => Some cu
  | S fuel =>
      if i <? num_reg
      then off ← aget_chk 0 data i;
           v ← aget_chk 0 data (i + 1);
           write_pairs (cu_write32 cu off v) data (i + 2) num_reg fuel
      else Some cu
  end.

(** [sizeof(struct) - sizeof(hdr) - sizeof(data)] is 0 for both entries. *)
Definition cu_hls_xgq_start (cu : hls) (data : list Z) : option hls :=
  let num_reg := xgq_hdr_count data / 4 in
  write_regmap cu (drop 2 data) 0 (Z.to_nat num_reg).

Definition cu_hls_xgq_start_kv (cu : hls) (data : list Z) : option hls :=
  let num_reg := xgq_hdr_count data / 4 in
  write_pairs cu (drop 2 data) 0 num_reg (Z.to_nat num_reg).

Definition cu_hls_configure (cu : hls) (data : list Z) (sz type : Z) : option (Z * hls) :=
  if kds_echo then Some (0, cu)
  else
    let num_reg := sz / 4 in
    if type =? REGMAP then
      cu ← write_regmap cu data 0 (Z.to_nat num_reg); Some (0, cu)
    else if type =? KEY_VAL then
      cu ← write_pairs cu data 0 num_reg (Z.to_nat num_reg); Some (0, cu)
    else if type =? XGQ_CMD then
      _ ← aget_chk 0 data 0;
      if xgq_hdr_opcode data =? XGQ_CMD_OP_START_CUIDX
      then cu ← cu_hls_xgq_start cu data; Some (0, cu)
      else if xgq_hdr_opcode data =? XGQ_CMD_OP_START_CUIDX_KV
      then cu ← cu_hls_xgq_start_kv cu data; Some (0, cu)
      else Some (- EINVAL, cu)
    else Some (0, cu).

Definition cu_hls_start (cu : hls) : hls :=
  let cu := cu <| hls_run_cnts := s32 (hls_run_cnts cu + 1) |> in
  if kds_echo then cu else cu_write32 cu CTRL CU_AP_START.

Definition has_bit (r b : Z) : bool := z2b (Z.land r b).

Definition cu_hls_ctrl_hs_check (cu : hls) (status : xcu_status) (force : bool)
  : xcu_status * hls :=
  if negb force && negb (z2b (hls_run_cnts cu)) then (status, cu)
  else
    let '(ctrl_reg, cu) := cu_read32 cu CTRL in
    let '(done_reg, ready_reg, cu) :=
      if has_bit ctrl_reg CU_AP_DONE
      then (1, 1, cu_move_to_complete cu KDS_COMPLETED) else (0, 0, cu) in
    (status <| num_done := done_reg |> <| num_ready := ready_reg |>
            <| new_status := ctrl_reg |>, cu).

Definition cu_hls_ctrl_chain_check (cu : hls) (status : xcu_status) (force : bool)
  : xcu_status * hls :=
  let used_credit := u32 (hls_max_credits cu - hls_credits cu) in
  if negb force && negb (z2b used_credit) && negb (z2b (hls_run_cnts cu))
  then (status, cu)
  else
    let done_reg := hls_done cu in
    let cu := cu <| hls_done := 0 |> in
    let '(ctrl_reg, cu) := cu_read32 cu CTRL in
    let ready_reg := b2z (z2b used_credit && negb (has_bit ctrl_reg CU_AP_START)) in
    let '(done_reg, cu) :=
      if has_bit ctrl_reg CU_AP_DONE
      then (u32 (done_reg + 1), cu_write32 cu CTRL CU_AP_CONTINUE) else (done_reg, cu) in
    let cu := Nat.iter (Z.to_nat done_reg)
                (fun cu => cu_move_to_complete cu KDS_COMPLETED) cu in
    (status <| num_done := done_reg |> <| num_ready := ready_reg |>
            <| new_status := ctrl_reg |>, cu).

Definition cu_hls_check (cu : hls) (status : xcu_status) (force : bool)
  : xcu_status * hls :=
  if kds_echo then
    (status <| num_done := 1 |> <| num_ready := 1 |> <| new_status := CU_AP_IDLE |>,
     cu_move_to_complete cu KDS_COMPLETED)
  else if hls_ctrl_chain cu then cu_hls_ctrl_chain_check cu status force
  else cu_hls_ctrl_hs_check cu status force.

Definition cu_hls_enable_intr (cu : hls) (intr_type : Z) : hls :=
  cu_write32 (cu_write32 cu GIE 1) IER intr_type.

Definition cu_hls_disable_intr (cu : hls) (intr_type : Z) : hls :=
  let '(orig, cu) := cu_read32 cu IER in
  let new := Z.ldiff orig intr_type in
  cu_write32 (cu_write32 cu GIE 0) IER new.

Definition cu_hls_clear_intr (cu : hls) : Z * hls :=
  if hls_max_credits cu =? 1 then
    let '(isr, cu) := cu_read32 cu ISR in
    let cu :=
      if hls_ctrl_chain cu && has_bit isr CU_INTR_DONE then
        let '(ctrl_reg, cu) := cu_read32 cu CTRL in
        if has_bit ctrl_reg CU_AP_DONE
        then cu_write32 (cu <| hls_done := u32 (hls_done cu + 1) |>) CTRL CU_AP_CONTINUE
        else cu
      else cu in
    (isr, cu_write32 cu ISR isr)
  else cu_read32 cu ISR.

Definition cu_hls_reset (cu : hls) : hls := cu_write32 cu CTRL CU_AP_SW_RESET.

Definition cu_hls_reset_done (cu : hls) : bool * hls :=
  let '(ctrl_reg, cu) := cu_read32 cu CTRL in
  (negb (has_bit ctrl_reg CU_AP_SW_RESET), cu).

Definition cu_hls_submit_config (cu : hls) (xcmd : kds_command) : option (Z * hls) :=
  r ← cu_hls_configure cu (default [] (xcmd_info xcmd)) (xcmd_isize xcmd)
        (xcmd_payload_type xcmd);
  let '(ret, cu) := r in
  if z2b ret then Some (ret, cu)
  else Some (ret, cu <| hls_submitted := hls_submitted cu ++ [xcmd] |>).

Definition cu_hls_get_complete (cu : hls) : option kds_command * hls :=
  match hls_completed cu with
  | [] => (None, cu)
  | xcmd :: comp => (Some xcmd, cu <| hls_completed := comp |>)
  end.

(** The [do ... while (time > 0)] of the abort: returns the final [time].
    [time] drops by 1000 from 10,000,000 in each round, so 10,000 rounds
    exhaust it. *)
Fixpoint reset_wait (cu : hls) (time : Z) (fuel : nat) : Z * hls :=
  match fuel with
  | O => (time, cu)
  | S fuel =>
      let time := time - 1000 in
      let '(d, cu) := cu_hls_reset_done cu in
      if d : bool then (time, cu)
      else if 0 <? time then reset_wait cu time fuel else (time, cu)
  end.

Definition cu_hls_abort (cu : hls) (m : kds_command -> bool) : Z * hls :=
  let '(ret, cu) :=
    if hls_sw_reset cu then
      let '(time, cu) := reset_wait (cu_hls_reset cu) 10000000 (Z.to_nat 10000) in
      if 0 <=? time then (0, cu <| hls_credits := hls_max_credits cu |>) else (- EBUSY, cu)
    else (- EBUSY, cu) in
  let '(sub, comp) := abort_walk m (hls_submitted cu) (hls_completed cu) in
  (ret, cu <| hls_submitted := sub |> <| hls_completed := comp |>).

Definition xrt_cu_hls_funcs : xcu_funcs hls := {|
  alloc_credit := cu_hls_alloc_credit;
  free_credit := cu_hls_free_credit;
  peek_credit := cu_hls_peek_credit;
  configure := cu_hls_configure;
  start := cu_hls_start;
  check cu s force := Some (cu_hls_check cu s force);
  enable_intr := cu_hls_enable_intr;
  disable_intr := cu_hls_disable_intr;
  clear_intr := cu_hls_clear_intr;
  reset := cu_hls_reset;
  reset_done := cu_hls_reset_done;
  submit_config := Some cu_hls_submit_config;
  get_complete := Some (fun cu => Some (cu_hls_get_complete cu));
  abort := Some (fun cu m => Some (cu_hls_abort cu m)) |}.

(** The core built by [xrt_cu_hls_init]; [vaddr] is the result of [ioremap]. *)
Definition hls_core_init (hw : H) (vaddr : Z) (info : xrt_cu_info) : hls :=
  mk_xrt_cu_hls hw vaddr 1 1 0 (info_protocol info =? CTRL_CHAIN)
    (info_sw_reset info) 0 [] [].

(** ** Register accesses leave the rest of the core alone *)

Definition same_soft (a b : hls) : Prop :=
  hls_vaddr a = hls_vaddr b /\ hls_max_credits a = hls_max_credits b /\
  hls_credits a = hls_credits b /\ hls_run_cnts a = hls_run_cnts b /\
  hls_ctrl_chain a = hls_ctrl_chain b /\ hls_sw_reset a = hls_sw_reset b /\
  hls_submitted a = hls_submitted b /\ hls_completed a = hls_completed b.

#[local] Instance same_soft_equiv : Equivalence same_soft.
Proof.
  unfold same_soft. split; red; intros; intuition congruence.
Qed.

Lemma cu_read32_soft cu reg v cu' : cu_read32 cu reg = (v, cu') -> same_soft cu' cu.
Proof. unfold cu_read32. case_match. intros [= <- <-]. done. Qed.

Lemma cu_write32_soft cu reg v : same_soft (cu_write32 cu reg v) cu.
Proof. done. Qed.

Lemma write_regmap_soft cu data i n cu' :
  write_regmap cu data i n = Some cu' -> same_soft cu' cu.
Proof.
  revert cu i. induction n as [|n IH]; intros cu i; simpl; [by intros [= ->]|].
  destruct (aget_chk 0 data i); [|done]. simpl. intros E. apply IH in E.
  by rewrite E.
Qed.

Lemma write_pairs_soft cu data i num n cu' :
  write_pairs cu data i num n = Some cu' -> same_soft cu' cu.
Proof.
  revert cu i. induction n as [|n IH]; intros cu i; simpl; [by intros [= ->]|].
  destruct (i <? num); [|by intros [= ->]].
  destruct (aget_chk 0 data i); [|done]. cbn [mbind option_bind].
  destruct (aget_chk 0 data (i + 1)); [|done]. cbn [mbind option_bind].
  intros E. apply IH in E. by rewrite E.
Qed.

Lemma cu_hls_configure_soft cu data sz ty r cu' :
  cu_hls_configure cu data sz ty = Some (r, cu') -> same_soft cu' cu.
Proof.
  unfold cu_hls_configure, cu_hls_xgq_start, cu_hls_xgq_start_kv.
  destruct kds_echo; [by intros [= <- <-]|].
  assert (forall o, (c ← o; Some (0, c)) = Some (r, cu') -> o = Some cu') as Hb.
  { intros [c|]; cbn; [by intros [= _ ->]|done]. }
  destruct (ty =? REGMAP); [intros E%Hb; by eapply write_regmap_soft|].
  destruct (ty =? KEY_VAL); [intros E%Hb; by eapply write_pairs_soft|].
  destruct (ty =? XGQ_CMD); [|by intros [= _ ->]].
  destruct (aget_chk 0 data 0); cbn [mbind option_bind]; [|done].
  destruct (_ =? XGQ_CMD_OP_START_CUIDX); [intros E%Hb; by eapply write_regmap_soft|].
  destruct (_ =? XGQ_CMD_OP_START_CUIDX_KV); [intros E%Hb; by eapply write_pairs_soft|].
  by intros [= _ ->].
Qed.

(** ** Payloads that stay inside their buffer *)

Definition even_up (n : Z) : Z := n + n mod 2.

Definition hls_payload_ok (xcmd : kds_command) : bool :=
  let data := default [] (xcmd_info xcmd) in
  let len := Z.of_nat (length data) in
  let ty := xcmd_payload_type xcmd in
  if ty =? REGMAP then xcmd_isize xcmd / 4 <=? len
  else if ty =? KEY_VAL then even_up (xcmd_isize xcmd / 4) <=? len
  else if ty =? XGQ_CMD then
    (1 <=? len) &&
    (if xgq_hdr_opcode data =? XGQ_CMD_OP_START_CUIDX
     then xgq_hdr_count data / 4 <=? Z.max 0 (len - 2)
     else if xgq_hdr_opcode data =? XGQ_CMD_OP_START_CUIDX_KV
     then even_up (xgq_hdr_count data / 4) <=? Z.max 0 (len - 2) else true)
  else true.

(** The register writes of the two formats. *)
Definition regmap_writes (vaddr : Z) (data : list Z) (n : Z) : list (Z * Z) :=
  (fun k => (vaddr + (ARGS + 4 * k), aget 0 data k)) <$> seqZ 0 n.

Fixpoint pair_writes (vaddr : Z) (data : list Z) : list (Z * Z) :=
  match data with
  | off :: v :: data => (vaddr + off, v) :: pair_writes vaddr data
  | _ => []
  end.

Lemma aget_chk_ok {A} (d : A) l i :
  0 <= i < Z.of_nat (length l) -> aget_chk d l i = Some (aget d l i).
Proof.
  intros Hi. unfold aget_chk. by rewrite (proj2 (in_arr_true l i) Hi).
Qed.

Lemma write_regmap_spec cu data i n :
  0 <= i -> i + Z.of_nat n <= Z.of_nat (length data) ->
  ARGS + 4 * (i + Z.of_nat n) <= 2 ^ 32 ->
  write_regmap cu data i n =
  Some (cu <| hls_hw := io_writes (hls_hw cu)
     ((fun k => (hls_vaddr cu + (ARGS + 4 * k), aget 0 data k)) <$> seqZ i (Z.of_nat n)) |>).
Proof.
  revert cu i. induction n as [|n IH]; intros cu i Hi Hl Hw; [by destruct cu|].
  cbn [write_regmap]. rewrite aget_chk_ok by lia. cbn [mbind option_bind].
  rewrite IH by lia. f_equal. rewrite (seqZ_cons i) by lia.
  replace (Z.pred (Z.of_nat (S n))) with (Z.of_nat n) by lia.
  unfold cu_write32. rsimpl. unfold io_writes. cbn [foldl fst snd fmap list_fmap].
  rewrite u32_small by (unfold ARGS in *; lia).
  replace (i * 4) with (4 * i) by lia. done.
Qed.

Lemma write_regmap_total cu data i n :
  0 <= i -> i + Z.of_nat n <= Z.of_nat (length data) ->
  is_Some (write_regmap cu data i n).
Proof.
  revert cu i. induction n as [|n IH]; intros cu i Hi Hl; [by eexists|].
  cbn [write_regmap]. rewrite aget_chk_ok by lia. cbn [mbind option_bind].
  apply IH; lia.
Qed.

Lemma write_pairs_total cu data i num fuel :
  0 <= i -> i + even_up (num - i) <= Z.of_nat (length data) ->
  is_Some (write_pairs cu data i num fuel).
Proof.
  revert cu i. induction fuel as [|fuel IH]; intros cu i Hi Hl; [by eexists|].
  cbn [write_pairs]. destruct (Z.ltb_spec i num); [|by eexists].
  unfold even_up in *. pose proof (Z.mod_pos_bound (num - i) 2 ltac:(lia)).
  assert (i + 2 <= Z.of_nat (length data)).
  { destruct (Z.eqb_spec (num - i) 1) as [E|E]; [rewrite E in Hl; change (1 mod 2) with 1 in Hl; lia|lia]. }
  rewrite !aget_chk_ok by lia. cbn [mbind option_bind]. apply IH; [lia|].
  replace (num - (i + 2)) with ((num - i) + (-1) * 2) by lia.
  rewrite Z.mod_add by lia. lia.
Qed.

Lemma aget_drop d (data : list Z) i k :
  0 <= i -> 0 <= k -> aget d (drop (Z.to_nat i) data) k = aget d data (i + k).
Proof. intros. unfold aget. rewrite lookup_drop. do 2 f_equal. lia. Qed.

(** [write_pairs] on an even number of words writes the pairs in order. *)
Lemma write_pairs_spec cu data i k fuel :
  0 <= i -> (k <= fuel)%nat -> i + 2 * Z.of_nat k <= Z.of_nat (length data) ->
  write_pairs cu data i (i + 2 * Z.of_nat k) fuel =
  Some (cu <| hls_hw := io_writes (hls_hw cu)
     (pair_writes (hls_vaddr cu) (take (2 * k) (drop (Z.to_nat i) data))) |>).
Proof.
  revert cu i k. induction fuel as [|fuel IH]; intros cu i k Hi Hf Hl.
  - assert (k = 0%nat) as -> by lia. by destruct cu.
  - cbn [write_pairs]. destruct k as [|k].
    + destruct (Z.ltb_spec i (i + 2 * Z.of_nat 0)); [lia|]. by destruct cu.
    + destruct (Z.ltb_spec i (i + 2 * Z.of_nat (S k))); [|lia].
      rewrite !aget_chk_ok by lia. cbn [mbind option_bind].
      replace (i + 2 * Z.of_nat (S k)) with (i + 2 + 2 * Z.of_nat k) by lia.
      rewrite IH by lia. f_equal.
      destruct (lookup_lt_is_Some_2 data (Z.to_nat i)) as [a Ea]; [lia|].
      destruct (lookup_lt_is_Some_2 data (S (Z.to_nat i))) as [b Eb]; [lia|].
      rewrite (drop_S data a (Z.to_nat i)), (drop_S data b (S (Z.to_nat i))) by done.
      replace (2 * S k)%nat with (S (S (2 * k)))%nat by lia.
      cbn [take pair_writes]. unfold aget.
      replace (Z.to_nat (i + 1)) with (S (Z.to_nat i)) by lia.
      replace (Z.to_nat (i + 2)) with (S (S (Z.to_nat i))) by lia.
      rewrite Ea, Eb. done.
Qed.

Lemma cu_hls_configure_total cu xcmd :
  hls_payload_ok xcmd = true ->
  is_Some (cu_hls_configure cu (default [] (xcmd_info xcmd)) (xcmd_isize xcmd)
             (xcmd_payload_type xcmd)).
Proof.
  unfold hls_payload_ok, cu_hls_configure, cu_hls_xgq_start, cu_hls_xgq_start_kv.
  set (data := default [] (xcmd_info xcmd)). intros Hok.
  assert (forall (o : option hls), is_Some o -> is_Some (cu ← o; Some (0, cu))) as Hb.
  { intros o [x ->]. by eexists. }
  assert (length (drop 2 data) = length data - 2)%nat as Ld by apply length_drop.
  destruct kds_echo; [by eexists|].
  destruct (_ =? REGMAP).
  - apply Hb, write_regmap_total; lia.
  - destruct (_ =? KEY_VAL).
    + apply Hb, write_pairs_total; [lia|]. rewrite Z.sub_0_r. lia.
    + destruct (_ =? XGQ_CMD); [|by eexists].
      apply andb_prop in Hok as [H1 H2]. rewrite aget_chk_ok by lia. cbn [mbind option_bind].
      destruct (_ =? XGQ_CMD_OP_START_CUIDX); [apply Hb, write_regmap_total; lia|].
      destruct (_ =? XGQ_CMD_OP_START_CUIDX_KV); [|by eexists].
      apply Hb, write_pairs_total; [lia|]. rewrite Z.sub_0_r. lia.
Qed.

(** ** The interface laws *)

Definition hls_ok (cu : hls) : Prop :=
  0 <= hls_credits cu <= hls_max_credits cu /\ hls_max_credits cu <= 2 ^ 30.

Lemma same_soft_ok a b : same_soft a b -> hls_ok b -> hls_ok a.
Proof. unfold same_soft, hls_ok. intuition lia. Qed.

Lemma hls_law_alloc c : exists r c', cu_hls_alloc_credit c = (r, c') /\
  hls_submitted c' = hls_submitted c /\ hls_completed c' = hls_completed c /\
  (hls_ok c -> hls_ok c' /\ r = hls_credits c /\ 0 <= r /\
     hls_credits c' = Z.max 0 (r - 1) /\ hls_max_credits c' = hls_max_credits c).
Proof.
  unfold cu_hls_alloc_credit, hls_ok, z2b.
  destruct (Z.eqb_spec (hls_credits c) 0); eexists _, _; split; try reflexivity; rsimpl;
    split_and!; try done; lia.
Qed.

Lemma hls_law_free c n :
  hls_submitted (cu_hls_free_credit c n) = hls_submitted c /\
  hls_completed (cu_hls_free_credit c n) = hls_completed c /\
  (hls_ok c -> 0 <= n < 2 ^ 30 ->
     hls_ok (cu_hls_free_credit c n) /\
     hls_credits (cu_hls_free_credit c n) = Z.min (hls_max_credits c) (hls_credits c + n)).
Proof.
  unfold cu_hls_free_credit. rsimpl. split_and!; [by case_match|by case_match|].
  intros Hok Hn. unfold hls_ok in *. rewrite s32_small by lia.
  destruct (Z.ltb_spec (hls_max_credits c) (hls_credits c + n)); rsimpl; lia.
Qed.

Lemma hls_law_submit c x : hls_payload_ok x = true ->
  exists r c', cu_hls_submit_config c x = Some (r, c') /\
    hls_completed c' = hls_completed c /\
    hls_submitted c' = (if r =? 0 then hls_submitted c ++ [x] else hls_submitted c) /\
    hls_credits c' = hls_credits c /\ (hls_ok c -> hls_ok c').
Proof.
  intros Hx. destruct (cu_hls_configure_total c x Hx) as [[r c'] E].
  pose proof (cu_hls_configure_soft _ _ _ _ _ _ E) as S.
  unfold cu_hls_submit_config. rewrite E. cbn [mbind option_bind]. unfold z2b.
  exists r. pose proof (same_soft_ok _ _ S) as Hok. unfold same_soft in S.
  destruct (r =? 0); eexists; (split; [reflexivity|]); rsimpl;
    split_and!; try done; try intuition congruence.
Qed.

Lemma hls_law_start c :
  hls_submitted (cu_hls_start c) = hls_submitted c /\
  hls_completed (cu_hls_start c) = hls_completed c /\
  hls_credits (cu_hls_start c) = hls_credits c /\ (hls_ok c -> hls_ok (cu_hls_start c)).
Proof. unfold cu_hls_start, hls_ok. by destruct kds_echo. Qed.

(** [c'] is [c] with the first commands of [submitted] completed. *)
Definition completes (c c' : hls) : Prop := exists fin,
  hls_submitted c = fin ++ hls_submitted c' /\
  hls_completed c' = hls_completed c ++ (set_status KDS_COMPLETED <$> fin).

Lemma completes_soft c d : same_soft d c -> completes c d.
Proof.
  unfold same_soft. intros S. exists []. rewrite app_nil_r. simpl. intuition congruence.
Qed.

Lemma completes_move c : completes c (cu_move_to_complete c KDS_COMPLETED).
Proof.
  unfold cu_move_to_complete. destruct (hls_submitted c) as [|x sub] eqn:E.
  - by apply completes_soft.
  - exists [x]. rsimpl. by rewrite E.
Qed.

#[local] Instance completes_preorder : PreOrder completes.
Proof.
  split.
  - intros c. by apply completes_soft.
  - intros a b c (f1 & E1 & E2) (f2 & E3 & E4). exists (f1 ++ f2).
    rewrite E1, E3, E4, E2, fmap_app. by rewrite <- !app_assoc.
Qed.

Lemma completes_iter n c :
  completes c (Nat.iter n (fun c => cu_move_to_complete c KDS_COMPLETED) c).
Proof. induction n as [|n IH]; [done|]. simpl. etransitivity; [exact IH|apply completes_move]. Qed.

Lemma hls_law_check c s force :
  exists s' c' fin, cu_hls_check c s force = (s', c') /\
    hls_submitted c = fin ++ hls_submitted c' /\
    hls_completed c' = hls_completed c ++ (set_status KDS_COMPLETED <$> fin).
Proof.
  assert (completes c (cu_hls_check c s force).2) as (fin & E1 & E2);
    [|destruct (cu_hls_check c s force) as [s' c'] eqn:E; by exists s', c', fin].
  unfold cu_hls_check, cu_hls_ctrl_chain_check, cu_hls_ctrl_hs_check.
  destruct kds_echo; [apply completes_move|].
  destruct (hls_ctrl_chain c).
  - case_match_eq; [done|].
    destruct (cu_read32 (c <| hls_done := 0 |>) CTRL) as [v d] eqn:R.
    apply cu_read32_soft in R.
    assert (completes c d) as Hd by (apply completes_soft; by rewrite R).
    destruct (has_bit v CU_AP_DONE); simpl; (etransitivity; [|apply completes_iter]);
      [|done]. etransitivity; [exact Hd|]. by apply completes_soft.
  - case_match_eq; [done|].
    destruct (cu_read32 c CTRL) as [v d] eqn:R. apply cu_read32_soft in R.
    destruct (has_bit v CU_AP_DONE); simpl; [|by apply completes_soft].
    rewrite <- completes_move. by apply completes_soft.
Qed.

Lemma reset_wait_soft cu time fuel t cu' :
  reset_wait cu time fuel = (t, cu') -> same_soft cu' cu.
Proof.
  revert cu time. induction fuel as [|fuel IH]; intros cu time; simpl; [by intros [= <- <-]|].
  unfold cu_hls_reset_done. destruct (cu_read32 cu CTRL) as [v d] eqn:R.
  apply cu_read32_soft in R. repeat case_match; intros E; simplify_eq; try done.
  apply IH in E. by rewrite E.
Qed.

Lemma hls_law_abort c m :
  exists r c', cu_hls_abort c m = (r, c') /\
    hls_submitted c' = filter (fun x => m x = false) (hls_submitted c) /\
    hls_completed c' = hls_completed c ++
      (set_status KDS_TIMEOUT <$> filter (fun x => m x = true) (hls_submitted c)).
Proof.
  unfold cu_hls_abort.
  destruct (hls_sw_reset c).
  - destruct (reset_wait _ _ _) as [t d] eqn:R. apply reset_wait_soft in R.
    destruct R as (_ & _ & _ & _ & _ & _ & E1 & E2).
    destruct (0 <=? t); eexists _, _; rewrite abort_walk_spec;
      (split; [reflexivity|]); rsimpl; rewrite E1, E2; done.
  - rewrite abort_walk_spec. eexists _, _. by split.
Qed.

Lemma hls_law_intr c t :
  same_soft (cu_hls_enable_intr c t) c /\ same_soft (cu_hls_disable_intr c t) c.
Proof.
  split; [done|]. unfold cu_hls_disable_intr.
  destruct (cu_read32 c IER) as [v d] eqn:R. by apply cu_read32_soft in R.
Qed.

#[export] Program Instance hls_laws : XcuLaws xrt_cu_hls_funcs := {|
  submitted := hls_submitted;
  completed := hls_completed;
  cmd_ok x := hls_payload_ok x = true;
  core_ok _ := True;
  reported _ := False;
  credit_ok := hls_ok;
  max_credit := hls_max_credits;
  law_timestamp x ts Hx := Hx |}.
Next Obligation. intros c. destruct (hls_law_alloc c) as (r & c' & E & H1 & H2 & H3). by exists r, c'. Qed.
Next Obligation. intros c n. destruct (hls_law_free c n) as (H1 & H2 & H3). done. Qed.
Next Obligation.
  eexists. split; [reflexivity|]. intros c x _ Hx.
  destruct (hls_law_submit c x Hx) as (r & c' & E & H1 & H2 & H3 & H4). by exists r, c', x.
Qed.
Next Obligation. intros c. destruct (hls_law_start c) as (H1 & H2 & H3 & H4). done. Qed.
Next Obligation.
  intros c s force s' c' _ [= E]. split; [|done].
  destruct (hls_law_check c s force) as (s1 & c1 & fin & E' & H1 & H2).
  rewrite E' in E. injection E as -> ->. by eapply moves_completed.
Qed.
Next Obligation.
  eexists. split; [reflexivity|]. intros c _. simpl. unfold cu_hls_get_complete.
  destruct (hls_completed c); [done|]. eexists. by split.
Qed.
Next Obligation.
  eexists. split; [reflexivity|]. intros c m _. destruct (hls_law_abort c m) as (r & c' & -> & H1 & H2).
  by exists r, c'.
Qed.
Next Obligation.
  intros c t. destruct (hls_law_intr c t) as [H1 H2]. simpl.
  pose proof (same_soft_ok _ _ H2). unfold same_soft in *. unfold cu_hls_peek_credit. tauto.
Qed.

#[export] Instance hls_checks : XcuChecks xrt_cu_hls_funcs.
Proof. intros c s force _. by eexists. Qed.

(** [write_regmap] only looks at the first [n] words. *)
Lemma write_regmap_take cu data n :
  (n <= length data)%nat -> ARGS + 4 * Z.of_nat n <= 2 ^ 32 ->
  write_regmap cu data 0 n =
  Some (cu <| hls_hw := io_writes (hls_hw cu)
                (regmap_writes (hls_vaddr cu) (take n data) (Z.of_nat n)) |>).
Proof.
  intros Hl Hw. rewrite write_regmap_spec by lia.
  assert (((fun k => (hls_vaddr cu + (ARGS + 4 * k), aget 0 data k)) <$> seqZ 0 (Z.of_nat n)) =
          regmap_writes (hls_vaddr cu) (take n data) (Z.of_nat n)) as ->; [|done].
  apply list_fmap_ext. intros i k Hk. apply lookup_seqZ in Hk as [-> ?].
  f_equal. unfold aget. rewrite lookup_take_lt by lia. done.
Qed.

(** The reset loop stops at a non-negative [time] when the fuel matches it. *)
Lemma reset_wait_time cu fuel :
  0 <= (reset_wait cu (1000 * Z.of_nat fuel) fuel).1.
Proof.
  revert cu. induction fuel as [|fuel IH]; intros cu; [done|]. cbn [reset_wait].
  replace (1000 * Z.of_nat (S fuel) - 1000) with (1000 * Z.of_nat fuel) by lia.
  destruct (cu_hls_reset_done cu) as [d cu']. destruct d; [cbn [fst]; lia|].
  destruct (0 <? _); [apply IH|cbn [fst]; lia].
Qed.

(** Every CU with software reset reports a successful abort, whatever the
    device answers: also when the reset bit never clears within the ten
    seconds.  Without software reset the abort reports [-EBUSY].  The aborted
    commands stay counted in [run_cnts]. *)
Theorem cu_hls_abort_result cu m :
  (cu_hls_abort cu m).1 = (if hls_sw_reset cu then 0 else - EBUSY) /\
  hls_run_cnts (cu_hls_abort cu m).2 = hls_run_cnts cu /\
  hls_credits (cu_hls_abort cu m).2 =
    (if hls_sw_reset cu then hls_max_credits cu else hls_credits cu).
Proof.
  unfold cu_hls_abort. destruct (hls_sw_reset cu).
  - pose proof (reset_wait_time (cu_hls_reset cu) (Z.to_nat 10000)) as Ht.
    change (1000 * Z.of_nat (Z.to_nat 10000)) with 10000000 in Ht.
    destruct (reset_wait _ _ _) as [t d] eqn:R. apply reset_wait_soft in R.
    destruct R as (_ & E1 & _ & E2 & _). cbn [fst] in Ht.
    destruct (Z.leb_spec 0 t); [|lia]. rewrite abort_walk_spec. rsimpl. done.
  - by rewrite abort_walk_spec.
Qed.
End Hls.

(** A validated start-CU packet configures an HLS CU identically through
    both submission paths: copied to a register-map command
    ([start_krnl_ecmd2xcmd]) or converted to an XGQ entry
    ([xgq_exec_convert_start_cu_cmd]), the device receives exactly the packet's
    argument words, in order, from register 0x10 on. *)
Theorem cu_hls_config_paths_agree {H} `{Mmio H} (cu : xrt_cu_hls H) now id client p xcmd buf :
  ert_opcode p = ERT_START_CU -> ert_valid_opcode p = true ->
  ert_count p <= Z.of_nat (length (ert_words p)) ->
  kds_alloc_command (true, true) id client (ert_count p * 4) = Some xcmd ->
  Z.of_nat (length buf) = ert_count p ->
  let n := ert_count p - ert_extra_cu_masks p - 5 in
  let regs := take (Z.to_nat n) (drop (Z.to_nat (5 + ert_extra_cu_masks p)) (ert_words p)) in
  let cu' := cu <| hls_hw := io_writes (hls_hw cu) (regmap_writes (hls_vaddr cu) regs n) |> in
  (exists p' x, start_krnl_ecmd2xcmd now p xcmd = Some (p', x) /\
     cu_hls_configure false cu (default [] (xcmd_info x)) (xcmd_isize x)
       (xcmd_payload_type x) = Some (0, cu')) /\
  (exists buf' sz, xgq_exec_convert_start_cu_cmd buf p = Some (buf', sz) /\
     cu_hls_configure false cu buf' sz XGQ_CMD = Some (0, cu')).
Proof.
  intros Hop Hv Hlen Ha Hbuf n regs cu'.
  pose proof (ert_count_range p) as Hc. pose proof (ert_extra_range p) as Hx.
  pose proof (valid_start_cu p Hop Hv) as Hv'.
  assert (length regs = Z.to_nat n) as Lr.
  { subst regs. rewrite length_take, length_drop. lia. }
  assert (forall data, take (Z.to_nat n) data = regs ->
    write_regmap cu data 0 (Z.to_nat n) = Some cu') as Hw.
  { intros data E. assert (Z.to_nat n <= length data)%nat.
    { apply (f_equal length) in E. rewrite length_take in E. lia. }
    rewrite write_regmap_take by (unfold ARGS; lia).
    rewrite E, Z2Nat.id by lia. done. }
  split.
  - destruct (start_conv_ok now OP_START 4 ERT_CU p id client xcmd) as (x0 & x & E1 & E2 & S);
      [lia|done|lia|done|done|].
    unfold start_krnl_ecmd2xcmd. rewrite E1. cbn [mbind option_bind]. rewrite E2.
    eexists _, _. split; [reflexivity|].
    destruct S as (_ & _ & _ & Hsz & (info & Hi & Ht) & _).
    unfold cu_hls_configure. rsimpl. rewrite Hsz, Hi. cbn [default].
    replace (4 * _ / 4) with n; cycle 1.
    { rewrite Z.mul_comm, Z.div_mul by lia. subst n. lia. }
    rewrite Hw; [done|]. replace n with (ert_count p - (1 + ert_extra_cu_masks p) - 4) by lia.
    simpl. rewrite Ht. subst regs. f_equal; [|f_equal]; lia.
  - destruct (xgq_start_cu_entry p buf) as (buf' & E & Ho & _ & Hcnt & _ & Ht & Hl); try done.
    eexists _, _. split; [exact E|].
    unfold cu_hls_configure, cu_hls_xgq_start. cbn [Z.eqb XGQ_CMD REGMAP KEY_VAL Pos.eqb].
    rewrite aget_chk_ok by lia. cbn [mbind option_bind]. rewrite Ho, Hcnt.
    cbn [Z.eqb XGQ_CMD_OP_START_CUIDX Pos.eqb].
    replace (4 * _ / 4) with n by (rewrite Z.mul_comm, Z.div_mul; lia).
    rewrite Hw; [done|]. exact Ht.
Qed.

Lemma cu_hls_config_paths_agree_witness :
  exists xcmd buf' cu',
    kds_alloc_command (true, true) 1 2 32 = Some xcmd /\
    xgq_exec_convert_start_cu_cmd (replicate 8 0) demo_start_cu = Some (buf', 16) /\
    cu_hls_configure false (hls_core_init (∅ : gmap Z Z) 0 info_zero) buf' 16 XGQ_CMD
      = Some (0, cu') /\
    hls_hw cu' = io_writes ∅ [(0x10, 0xaa); (0x14, 0xbb)].
Proof.
  destruct (kds_alloc_command (true, true) 1 2 32) as [xcmd|] eqn:E; [|discriminate E].
  destruct (cu_hls_config_paths_agree (hls_core_init (∅ : gmap Z Z) 0 info_zero)
    0 1 2 demo_start_cu xcmd (replicate 8 0)) as [_ (buf' & sz & E1 & E2)];
    try reflexivity; [exact E|].
  assert (sz = 16) as -> by (vm_compute in E1; congruence).
  eexists xcmd, buf', _. do 2 (split; [done|]). split; [exact E2|].
  reflexivity.
Defined.

(** On a register file, a register-map payload of [sz / 4] words inside
    its buffer ends up, word for word, in the registers from 0x10 on; every
    other register and the software state of the CU are unchanged. *)
Theorem cu_hls_configure_regmap_mem (cu : xrt_cu_hls (gmap Z Z)) data sz :
  0 <= sz -> sz / 4 <= Z.of_nat (length data) -> sz < 2 ^ 31 ->
  exists cu', cu_hls_configure false cu data sz REGMAP = Some (0, cu') /\
    (forall i, 0 <= i < sz / 4 ->
       hls_hw cu' !! (hls_vaddr cu + (ARGS + 4 * i)) = Some (aget 0 data i)) /\
    (forall a, (forall i, 0 <= i < sz / 4 -> a <> hls_vaddr cu + (ARGS + 4 * i)) ->
       hls_hw cu' !! a = hls_hw cu !! a) /\
    same_soft cu' cu.
Proof.
  intros Hsz Hl Hb. pose proof (Z.div_pos sz 4 Hsz ltac:(lia)) as Hn.
  assert (4 * (sz / 4) <= sz) as Hle by (apply Z.mul_div_le; lia).
  unfold cu_hls_configure. cbn [REGMAP Z.eqb].
  rewrite write_regmap_spec by (unfold ARGS; lia). cbn [mbind option_bind].
  eexists. split; [reflexivity|]. rsimpl. rewrite Z2Nat.id by done.
  set (ws := _ <$> seqZ 0 (sz / 4)).
  assert (NoDup ws.*1) as Hd.
  { subst ws. rewrite <- list_fmap_compose. apply NoDup_fmap_2; [|apply NoDup_seqZ].
    intros a b. cbn. lia. }
  split_and!; [| |done].
  - intros i Hi. apply io_writes_mem_in; [done|]. subst ws. apply list_elem_of_fmap.
    exists i. split; [done|]. apply elem_of_seqZ. lia.
  - intros a Ha. apply io_writes_mem_other. subst ws. rewrite <- list_fmap_compose.
    intros Hin. apply list_elem_of_fmap in Hin as (i & -> & Hi).
    apply elem_of_seqZ in Hi. by apply (Ha i); [lia|].
Qed.

Lemma cu_hls_configure_regmap_mem_witness :
  exists cu', cu_hls_configure false (hls_core_init (∅ : gmap Z Z) 0x1000 info_zero)
                [7; 8; 9] 8 REGMAP = Some (0, cu') /\
    hls_hw cu' !! (0x1000 + (0x10 + 4 * 1)) = Some 8.
Proof.
  destruct (cu_hls_configure_regmap_mem (hls_core_init (∅ : gmap Z Z) 0x1000 info_zero)
    [7; 8; 9] 8) as (cu' & E & Hin & _); [lia|vm_compute; discriminate|lia|].
  exists cu'. split; [exact E|]. apply (Hin 1). vm_compute. split; [discriminate|reflexivity].
Defined.

(** ** A device with the register behaviour documented in [cu_hls.c]

    "Bit 4: ap_continue(Read/Set). Self clear": under ap_ctrl_chain it
    releases ap_done.  "Toggle on set": writing the interrupt status register
    flips the written bits. *)
Record hls_dev := mk_hls_dev { dev_ctrl : Z; dev_isr : Z; dev_regs : gmap Z Z }.

#[export] Instance hls_dev_mmio : Mmio hls_dev := {
  ioread32 d a :=
    if a =? CTRL then (dev_ctrl d, d)
    else if a =? ISR then (dev_isr d, d)
    else (default 0 (dev_regs d !! a), d);
  iowrite32 d a v :=
    if a =? CTRL then
      let c := Z.lor (dev_ctrl d) (Z.land v 0x101) in
      mk_hls_dev (if has_bit v CU_AP_CONTINUE then Z.ldiff c CU_AP_DONE else c)
        (dev_isr d) (dev_regs d)
    else if a =? ISR then mk_hls_dev (dev_ctrl d) (Z.lxor (dev_isr d) v) (dev_regs d)
    else mk_hls_dev (dev_ctrl d) (dev_isr d) (<[a := v]> (dev_regs d));
}.

Lemma has_bit_ldiff c : has_bit (Z.ldiff (Z.lor c 0) CU_AP_DONE) CU_AP_DONE = false.
Proof.
  unfold has_bit, z2b. rewrite Z.lor_0_r.
  assert (Z.land (Z.ldiff c CU_AP_DONE) CU_AP_DONE = 0) as ->; [|done].
  apply Z.bits_inj'. intros n Hn. rewrite Z.land_spec, Z.ldiff_spec, Z.bits_0.
  destruct (Z.testbit c n), (Z.testbit CU_AP_DONE n); done.
Qed.

(** Resolve the register decoding and simplify. *)
Ltac dev_step :=
  do 3 (cbn -[has_bit u32 Z.lxor Z.ldiff Z.lor Z.land Nat.iter Z.to_nat z2b cu_hls_check];
        change (0 + ISR =? CTRL) with false; change (0 + ISR =? ISR) with true;
        change (0 + CTRL =? CTRL) with true).

(** For an ap_ctrl_chain CU on that device, acknowledging an interrupt
    returns the pending interrupts and clears them all, and a task that is
    done when its interrupt is acknowledged is counted exactly once: the next
    status check reports it together with the tasks acknowledged before, and
    finds the done bit released. *)
Theorem cu_hls_clear_intr_chain (cu : xrt_cu_hls hls_dev) s :
  hls_vaddr cu = 0 -> hls_max_credits cu = 1 -> hls_ctrl_chain cu = true ->
  has_bit (dev_isr (hls_hw cu)) CU_INTR_DONE = true ->
  has_bit (dev_ctrl (hls_hw cu)) CU_AP_DONE = true ->
  0 <= hls_done cu < 2 ^ 31 ->
  exists cu', cu_hls_clear_intr cu = (dev_isr (hls_hw cu), cu') /\
    dev_isr (hls_hw cu') = 0 /\
    hls_done cu' = hls_done cu + 1 /\
    has_bit (dev_ctrl (hls_hw cu')) CU_AP_DONE = false /\
    num_done (cu_hls_check false cu' s true).1 = hls_done cu + 1 /\
    hls_done (cu_hls_check false cu' s true).2 = 0.
Proof.
  intros Hva Hmax Hch Hisr Hctrl Hd.
  destruct cu as [[ctrl isr regs] va mx cr rc ch sr dn sub comp].
  cbn [hls_hw hls_vaddr hls_max_credits hls_ctrl_chain hls_done dev_isr dev_ctrl] in *. subst.
  unfold cu_hls_clear_intr, cu_read32, cu_write32, upd.
  dev_step. rewrite Hisr. dev_step. rewrite Hctrl. dev_step.
  change (has_bit CU_AP_CONTINUE CU_AP_CONTINUE) with true. dev_step.
  rewrite u32_small by lia. eexists. split; [reflexivity|]. dev_step.
  change (Z.land CU_AP_CONTINUE 257) with 0.
  rewrite Z.lxor_nilpotent, has_bit_ldiff. do 3 (split; [done|]).
  unfold cu_hls_check, cu_hls_ctrl_chain_check, cu_read32, upd.
  dev_step. rewrite has_bit_ldiff. dev_step. split; [done|].
  set (cu0 := mk_xrt_cu_hls _ _ _ _ _ _ _ 0 _ _).
  assert (forall n, hls_done (Nat.iter n (fun c => cu_move_to_complete c KDS_COMPLETED) cu0) = 0)
    as Hz; [|apply Hz].
  induction n as [|n IH]; [done|]. simpl. unfold cu_move_to_complete at 1.
  by destruct (hls_submitted _).
Qed.

Lemma cu_hls_clear_intr_chain_witness :
  exists cu', cu_hls_clear_intr
      (hls_core_init (mk_hls_dev 0x2 0x3 ∅) 0 (info_zero <| info_protocol := CTRL_CHAIN |>))
      = (0x3, cu') /\ dev_isr (hls_hw cu') = 0.
Proof.
  destruct (cu_hls_clear_intr_chain
      (hls_core_init (mk_hls_dev 0x2 0x3 ∅) 0 (info_zero <| info_protocol := CTRL_CHAIN |>))
      status_zero) as (cu' & E & Hi & _); try reflexivity.
  - split; [discriminate|reflexivity].
  - exists cu'. split; [exact E|exact Hi].
Defined.
