(* ===== verification/CuFa.v ===== *)
(** * Fast-adapter compute units

    [fast_adapter.c] and the fast-adapter configuration of [xrt_cu.c]: CUs that
    take descriptors from a ring of slots in command memory and count finished
    tasks in a 32-bit register.  The device type [H] holds both the register
    window at [fa_vaddr] and the command memory at [fa_cmdmem] (0 is NULL). *)
From S2P Require Import Prelude KdsCommand CuInfo CuCore.

Definition FA_MSWR : Z := 0x0.
Definition FA_LSWR : Z := 0x4.
Definition FA_ISR : Z := 0x8.
Definition FA_IER : Z := 0xC.
Definition FA_SR : Z := 0x10.
Definition FA_TCR : Z := 0x14.
Definition FA_FDR : Z := 0x1C.

Record xrt_cu_fa (H : Type) := mk_xrt_cu_fa {
  fa_hw : H;
  fa_vaddr : Z;
  fa_cmdmem : Z;
  fa_paddr : Z;
  fa_slot_sz : Z;
  fa_num_slots : Z;
  fa_head_slot : Z;
  fa_desc_msw : Z;
  fa_task_cnt : Z;
  fa_max_credits : Z;
  fa_credits : Z;
  fa_run_cnts : Z;
  fa_check_count : Z;
  fa_submitted : list kds_command;
  fa_completed : list kds_command;
}.
Arguments mk_xrt_cu_fa {H}. Arguments fa_hw {H}. Arguments fa_vaddr {H}.
Arguments fa_cmdmem {H}. Arguments fa_paddr {H}. Arguments fa_slot_sz {H}.
Arguments fa_num_slots {H}. Arguments fa_head_slot {H}. Arguments fa_desc_msw {H}.
Arguments fa_task_cnt {H}. Arguments fa_max_credits {H}. Arguments fa_credits {H}.
Arguments fa_run_cnts {H}. Arguments fa_check_count {H}.
Arguments fa_submitted {H}. Arguments fa_completed {H}.

#[export] Instance eta_xrt_cu_fa H : Eta (xrt_cu_fa H) := fun r =>
  mk_xrt_cu_fa (fa_hw r) (fa_vaddr r) (fa_cmdmem r) (fa_paddr r) (fa_slot_sz r)
    (fa_num_slots r) (fa_head_slot r) (fa_desc_msw r) (fa_task_cnt r)
    (fa_max_credits r) (fa_credits r) (fa_run_cnts r) (fa_check_count r)
    (fa_submitted r) (fa_completed r).

Section Fa.
Context {H : Type} `{Mmio H} (kds_echo : bool).
#[local] Abbreviation fa := (xrt_cu_fa H).

Definition fa_read32 (cu : fa) (reg : Z) : Z * fa :=
  let '(v, hw) := ioread32 (fa_hw cu) (fa_vaddr cu + reg) in
  (v, cu <| fa_hw := hw |>).

Definition fa_write32 (cu : fa) (reg val : Z) : fa :=
  cu <| fa_hw := iowrite32 (fa_hw cu) (fa_vaddr cu + reg) val |>.

Definition fa_move_to_complete (cu : fa) (status : kds_status) : fa :=
  match fa_submitted cu with
  | [] => cu
  | xcmd :: sub =>
      cu <| fa_submitted := sub |>
         <| fa_completed := fa_completed cu ++ [set_status status xcmd] |>
  end.

Definition cu_fa_alloc_credit (cu : fa) : Z * fa :=
  if z2b (fa_credits cu)
  then (fa_credits cu, cu <| fa_credits := fa_credits cu - 1 |>)
  else (0, cu).

(** [num_slots < max_credits] compares a [u32] with an [int]: unsigned. *)
Definition fa_credit_limit (cu : fa) : Z :=
  if fa_num_slots cu <? u32 (fa_max_credits cu)
  then s32 (fa_num_slots cu) else fa_max_credits cu.

Definition cu_fa_free_credit (cu : fa) (count : Z) : fa :=
  let cu := cu <| fa_credits := s32 (fa_credits cu + count) |> in
  let max_credits := fa_credit_limit cu in
  if max_credits <? fa_credits cu then cu <| fa_credits := max_credits |> else cu.

Definition cu_fa_peek_credit (cu : fa) : Z := fa_credits cu.

(** The descriptor words from 1 on, then (after [wmb]) word 0.  Payload sizes
    are whole words. *)
Definition cu_fa_configure (cu : fa) (data : list Z) (sz type : Z) : option (Z * fa) :=
  let slot := fa_cmdmem cu + fa_head_slot cu in
  if kds_echo || (fa_cmdmem cu =? 0) then Some (0, cu)
  else if sz <? 4 then None
  else ws ← copy_out data 1 ((sz - 4) / 4);
       d0 ← aget_chk 0 data 0;
       let hw := io_writes (fa_hw cu)
                   (zip ((fun i => slot + 4 * i) <$> seqZ 1 ((sz - 4) / 4)) ws) in
       Some (0, cu <| fa_hw := iowrite32 hw slot d0 |>).

(** Move to the next descriptor slot. *)
Definition next_slot (slot_sz num_slots head_slot : Z) : Z :=
  let head_slot := u32 (head_slot + slot_sz) in
  if head_slot =? u32 (slot_sz * num_slots) then 0 else head_slot.

Definition cu_fa_start (cu : fa) : fa :=
  let desc_msw := u32 (Z.shiftr (fa_paddr cu) 32) in
  let desc_lsw := u32 (fa_paddr cu) in
  let cu := cu <| fa_run_cnts := s32 (fa_run_cnts cu + 1) |> in
  if kds_echo || (fa_cmdmem cu =? 0) then cu
  else
    let cu := if negb (desc_msw =? fa_desc_msw cu)
              then fa_write32 cu FA_MSWR desc_msw <| fa_desc_msw := desc_msw |> else cu in
    let cu := fa_write32 cu FA_LSWR (u32 (desc_lsw + fa_head_slot cu)) in
    cu <| fa_head_slot := next_slot (fa_slot_sz cu) (fa_num_slots cu) (fa_head_slot cu) |>.

Definition cu_fa_check (cu : fa) (status : xcu_status) (force : bool) : xcu_status * fa :=
  if kds_echo || (fa_cmdmem cu =? 0) then
    (status <| num_done := 1 |> <| num_ready := 1 |>,
     cu <| fa_run_cnts := s32 (fa_run_cnts cu - 1) |>)
  else if negb force && negb (z2b (fa_run_cnts cu)) then (status, cu)
  else
    let cu := cu <| fa_check_count := u64 (fa_check_count cu + 1) |> in
    let '(task_count, cu) := fa_read32 cu FA_TCR in
    let done := u32 (task_count - fa_task_cnt cu) in
    let cu := cu <| fa_task_cnt := task_count |>
                 <| fa_run_cnts := s32 (fa_run_cnts cu - done) |> in
    let cu := Nat.iter (Z.to_nat done) (fun cu => fa_move_to_complete cu KDS_COMPLETED) cu in
    (status <| num_done := done |> <| num_ready := done |>, cu).

Definition cu_fa_enable_intr (cu : fa) (intr_type : Z) : fa := fa_write32 cu FA_IER 1.
Definition cu_fa_disable_intr (cu : fa) (intr_type : Z) : fa := fa_write32 cu FA_IER 0.
Definition cu_fa_clear_intr (cu : fa) : Z * fa := fa_read32 cu FA_ISR.
Definition cu_fa_reset (cu : fa) : fa := cu.
Definition cu_fa_reset_done (cu : fa) : bool * fa := (true, cu).

Definition cu_fa_submit_config (cu : fa) (xcmd : kds_command) : option (Z * fa) :=
  r ← cu_fa_configure cu (default [] (xcmd_info xcmd)) (xcmd_isize xcmd)
        (xcmd_payload_type xcmd);
  let '(ret, cu) := r in
  if z2b ret then Some (ret, cu)
  else Some (ret, cu <| fa_submitted := fa_submitted cu ++ [xcmd] |>).

Definition cu_fa_get_complete (cu : fa) : option kds_command * fa :=
  match fa_completed cu with
  | [] => (None, cu)
  | xcmd :: comp => (Some xcmd, cu <| fa_completed := comp |>)
  end.

Definition cu_fa_abort (cu : fa) (m : kds_command -> bool) : Z * fa :=
  let '(sub, comp) := abort_walk m (fa_submitted cu) (fa_completed cu) in
  (- EBUSY, cu <| fa_submitted := sub |> <| fa_completed := comp |>).

Definition xrt_cu_fa_funcs : xcu_funcs fa := {|
  alloc_credit := cu_fa_alloc_credit;
  free_credit := cu_fa_free_credit;
  peek_credit := cu_fa_peek_credit;
  configure := cu_fa_configure;
  start := cu_fa_start;
  check cu s force := Some (cu_fa_check cu s force);
  enable_intr := cu_fa_enable_intr;
  disable_intr := cu_fa_disable_intr;
  clear_intr := cu_fa_clear_intr;
  reset := cu_fa_reset;
  reset_done := cu_fa_reset_done;
  submit_config := Some cu_fa_submit_config;
  get_complete := Some (fun cu => Some (cu_fa_get_complete cu));
  abort := Some (fun cu m => Some (cu_fa_abort cu m)) |}.

(** The core built by [xrt_cu_fa_init] from the freshly mapped registers. *)
Definition fa_core_init (hw : H) (vaddr : Z) : fa :=
  let cu := mk_xrt_cu_fa hw vaddr 0 0 0 0 0 0 0 0 0 0 0 [] [] in
  let cu := fa_write32 cu FA_SR 0 in
  let '(depth, cu) := fa_read32 cu FA_FDR in
  let cu := cu <| fa_max_credits := s32 depth |> in
  let '(cnt, cu) := fa_read32 cu FA_TCR in
  let cu := cu <| fa_task_cnt := cnt |> in
  let '(msw, cu) := fa_read32 cu FA_MSWR in
  let cu := cu <| fa_desc_msw := msw |> in
  cu <| fa_credits := fa_max_credits cu |> <| fa_run_cnts := 0 |>.

(** [xrt_fa_cfg_update] *)
Definition xrt_fa_cfg_update (info : xrt_cu_info) (cu : fa)
  (bar dev vaddr num_slots : Z) : Z * fa :=
  if bar =? 0 then
    (0, cu <| fa_cmdmem := 0 |> <| fa_paddr := 0 |> <| fa_slot_sz := 0 |>
           <| fa_num_slots := 0 |>)
  else
    let cu := cu <| fa_cmdmem := vaddr |> <| fa_paddr := dev |>
                 <| fa_slot_sz := cu_fa_get_desc_size info |>
                 <| fa_num_slots := num_slots |> in
    (0, cu <| fa_credits := fa_credit_limit cu |>).

(** ** Lemmas *)

Definition fa_lists (a b : fa) : Prop :=
  fa_submitted a = fa_submitted b /\ fa_completed a = fa_completed b.

(** The slot words a configuration writes. *)
Definition fa_payload_ok (xcmd : kds_command) : bool :=
  (4 <=? xcmd_isize xcmd) &&
  (xcmd_isize xcmd / 4 <=? Z.of_nat (length (default [] (xcmd_info xcmd)))).

Definition fa_ok (cu : fa) : Prop :=
  0 <= fa_num_slots cu < 2 ^ 30 /\ 0 <= fa_max_credits cu < 2 ^ 30 /\
  0 <= fa_credits cu <= Z.min (fa_num_slots cu) (fa_max_credits cu).

Lemma fa_credit_limit_min cu :
  0 <= fa_num_slots cu < 2 ^ 30 -> 0 <= fa_max_credits cu < 2 ^ 30 ->
  fa_credit_limit cu = Z.min (fa_num_slots cu) (fa_max_credits cu).
Proof.
  intros H1 H2. unfold fa_credit_limit. rewrite u32_small, s32_small by lia.
  destruct (Z.ltb_spec (fa_num_slots cu) (fa_max_credits cu)); lia.
Qed.

Lemma fa_law_alloc c : exists r c', cu_fa_alloc_credit c = (r, c') /\
  fa_submitted c' = fa_submitted c /\ fa_completed c' = fa_completed c /\
  (fa_ok c -> fa_ok c' /\ r = fa_credits c /\ 0 <= r /\
     fa_credits c' = Z.max 0 (r - 1) /\ fa_credit_limit c' = fa_credit_limit c).
Proof.
  unfold cu_fa_alloc_credit, fa_ok, z2b.
  destruct (Z.eqb_spec (fa_credits c) 0); eexists _, _; split; try reflexivity; rsimpl;
    split_and!; try done; intros; split_and!; try done; lia.
Qed.

Lemma fa_law_free c n :
  fa_submitted (cu_fa_free_credit c n) = fa_submitted c /\
  fa_completed (cu_fa_free_credit c n) = fa_completed c /\
  (fa_ok c -> 0 <= n < 2 ^ 30 ->
     fa_ok (cu_fa_free_credit c n) /\
     fa_credits (cu_fa_free_credit c n) = Z.min (fa_credit_limit c) (fa_credits c + n)).
Proof.
  unfold cu_fa_free_credit. split_and!; [by case_match|by case_match|].
  intros Hok Hn. unfold fa_ok in *.
  rewrite (s32_small (fa_credits c + n)) by lia.
  change (fa_credit_limit (c <| fa_credits := fa_credits c + n |>)) with (fa_credit_limit c).
  rewrite fa_credit_limit_min by tauto. rsimpl.
  destruct (Z.ltb_spec (Z.min (fa_num_slots c) (fa_max_credits c)) (fa_credits c + n));
    rsimpl; lia.
Qed.

Lemma fa_configure_total c data sz ty :
  4 <= sz -> sz / 4 <= Z.of_nat (length data) ->
  exists hw, cu_fa_configure c data sz ty = Some (0, c <| fa_hw := hw |>).
Proof.
  intros Hsz Hl. unfold cu_fa_configure.
  destruct (kds_echo || _); [exists (fa_hw c); by destruct c|].
  destruct (Z.ltb_spec sz 4); [lia|].
  replace ((sz - 4) / 4) with (sz / 4 - 1)
    by (replace (sz - 4) with (sz + (-1) * 4) by lia; rewrite Z.div_add; lia).
  assert (1 <= sz / 4) by (apply Z.div_le_lower_bound; lia).
  rewrite copy_out_ok by lia. unfold aget_chk.
  rewrite (proj2 (in_arr_true data 0)) by lia. cbn [mbind option_bind]. by eexists.
Qed.

Lemma fa_law_submit c x : fa_payload_ok x = true ->
  exists r c', cu_fa_submit_config c x = Some (r, c') /\
    fa_completed c' = fa_completed c /\
    fa_submitted c' = (if r =? 0 then fa_submitted c ++ [x] else fa_submitted c) /\
    fa_credits c' = fa_credits c /\ (fa_ok c -> fa_ok c').
Proof.
  unfold fa_payload_ok. intros Hx.
  destruct (fa_configure_total c (default [] (xcmd_info x)) (xcmd_isize x)
    (xcmd_payload_type x)) as [hw E]; [lia|lia|].
  unfold cu_fa_submit_config. rewrite E. cbn [mbind option_bind z2b Z.eqb negb].
  eexists _, _. split; [reflexivity|]. done.
Qed.

Lemma fa_law_start c :
  fa_submitted (cu_fa_start c) = fa_submitted c /\
  fa_completed (cu_fa_start c) = fa_completed c /\
  fa_credits (cu_fa_start c) = fa_credits c /\ (fa_ok c -> fa_ok (cu_fa_start c)).
Proof.
  unfold cu_fa_start, fa_ok. destruct (kds_echo || _); [done|]. by repeat case_match.
Qed.

Lemma fa_move_iter n c :
  let k := Nat.min n (length (fa_submitted c)) in
  Nat.iter n (fun c => fa_move_to_complete c KDS_COMPLETED) c =
  c <| fa_submitted := drop k (fa_submitted c) |>
    <| fa_completed := fa_completed c ++
         (set_status KDS_COMPLETED <$> take k (fa_submitted c)) |>.
Proof.
  cbv zeta. revert c. induction n as [|n IH]; intros c.
  - destruct c. rsimpl. by rewrite drop_0, app_nil_r.
  - rewrite Nat.iter_succ_r, IH. unfold fa_move_to_complete at 1 2 3 4 5 6.
    destruct c as [? ? ? ? ? ? ? ? ? ? ? ? ? [|x sub] comp]; rsimpl.
    + by rewrite Nat.min_0_r.
    + by rewrite <- app_assoc.
Qed.

Lemma fa_law_check c s force :
  exists s' c' fin, cu_fa_check c s force = (s', c') /\
    fa_submitted c = fin ++ fa_submitted c' /\
    fa_completed c' = fa_completed c ++ (set_status KDS_COMPLETED <$> fin).
Proof.
  unfold cu_fa_check.
  destruct (kds_echo || _); [eexists _, _, []; rewrite app_nil_r; by split|].
  destruct (negb force && _); [eexists _, _, []; rewrite app_nil_r; by split|].
  unfold fa_read32. destruct (ioread32 _ _) as [v hw]. rewrite fa_move_iter.
  set (n := Nat.min _ _). eexists _, _, (take n (fa_submitted c)). split; [reflexivity|].
  split; [symmetry; apply take_drop|reflexivity].
Qed.

#[export] Program Instance fa_laws : XcuLaws xrt_cu_fa_funcs := {|
  submitted := fa_submitted;
  completed := fa_completed;
  cmd_ok x := fa_payload_ok x = true;
  core_ok _ := True;
  reported _ := False;
  credit_ok := fa_ok;
  max_credit := fa_credit_limit;
  law_timestamp x ts Hx := Hx |}.
Next Obligation. intros c. destruct (fa_law_alloc c) as (r & c' & E & H1 & H2 & H3). by exists r, c'. Qed.
Next Obligation. intros c n. destruct (fa_law_free c n) as (H1 & H2 & H3). done. Qed.
Next Obligation.
  eexists. split; [reflexivity|]. intros c x _ Hx.
  destruct (fa_law_submit c x Hx) as (r & c' & E & H1 & H2 & H3 & H4). by exists r, c', x.
Qed.
Next Obligation. intros c. destruct (fa_law_start c) as (H1 & H2 & H3 & H4). done. Qed.
Next Obligation.
  intros c s force s' c' _ [= E]. split; [|done].
  destruct (fa_law_check c s force) as (s1 & c1 & fin & E' & H1 & H2).
  rewrite E' in E. injection E as -> ->. by eapply moves_completed.
Qed.
Next Obligation.
  eexists. split; [reflexivity|]. intros c _. simpl. unfold cu_fa_get_complete.
  destruct (fa_completed c); [done|]. eexists. by split.
Qed.
Next Obligation.
  eexists. split; [reflexivity|]. intros c m _. unfold cu_fa_abort.
  rewrite abort_walk_spec. eexists _, _. by split.
Qed.
Next Obligation. done. Qed.

#[export] Instance fa_checks : XcuChecks xrt_cu_fa_funcs.
Proof. intros c s force _. by eexists. Qed.
End Fa.

(** When the task counter has advanced by [k] tasks since the last check,
    modulo 2^32, the check reports exactly [k] finished tasks and as many
    returned credits, also when the register wrapped around in between, and
    moves the [k] oldest submitted commands (or all, if fewer) to the completed
    list in submission order. *)
Theorem cu_fa_check_task_count {H} `{Mmio H} (cu : xrt_cu_fa H) s force k hw :
  fa_cmdmem cu <> 0 -> force = true \/ fa_run_cnts cu <> 0 ->
  0 <= k < 2 ^ 32 -> 0 <= fa_task_cnt cu < 2 ^ 32 ->
  ioread32 (fa_hw cu) (fa_vaddr cu + FA_TCR) = (u32 (fa_task_cnt cu + k), hw) ->
  let n := Nat.min (Z.to_nat k) (length (fa_submitted cu)) in
  exists s' cu', cu_fa_check false cu s force = (s', cu') /\
    num_done s' = k /\ num_ready s' = k /\
    fa_task_cnt cu' = u32 (fa_task_cnt cu + k) /\
    fa_run_cnts cu' = s32 (fa_run_cnts cu - k) /\
    fa_submitted cu' = drop n (fa_submitted cu) /\
    fa_completed cu' =
      fa_completed cu ++ (set_status KDS_COMPLETED <$> take n (fa_submitted cu)).
Proof.
  intros Hmem Hrun Hk Ht Hrd n. unfold cu_fa_check.
  assert (false || (fa_cmdmem cu =? 0) = false) as -> by (simpl; lia).
  assert (negb force && negb (z2b (fa_run_cnts cu)) = false) as ->
    by (unfold z2b; destruct Hrun as [->|]; [done|]; destruct force; [done|]; lia).
  unfold fa_read32. rsimpl. rewrite Hrd.
  assert (u32 (u32 (fa_task_cnt cu + k) - fa_task_cnt cu) = k) as E.
  { unfold u32. rewrite Zminus_mod_idemp_l.
    replace (fa_task_cnt cu + k - fa_task_cnt cu) with k by lia. by apply Z.mod_small. }
  rewrite fa_move_iter. eexists _, _. split; [reflexivity|]. rsimpl. rewrite E. done.
Qed.

(** A demonstration device: a fixed task counter. *)
Definition tcr_dev (v : Z) : gmap Z Z := <[FA_TCR := v]> ∅.
Definition demo_fa (tcr task_cnt : Z) : xrt_cu_fa (gmap Z Z) :=
  mk_xrt_cu_fa (tcr_dev tcr) 0 0x10000 0x2_0000_0000 64 4 0 0 task_cnt 8 4 2 0 [] [].

Lemma cu_fa_check_task_count_witness :
  exists s' cu', cu_fa_check false (demo_fa 1 (2 ^ 32 - 1)) status_zero false = (s', cu') /\
    num_done s' = 2.
Proof.
  destruct (cu_fa_check_task_count (demo_fa 1 (2 ^ 32 - 1)) status_zero false 2
    (tcr_dev 1)) as (s' & cu' & E & Hd & _);
    [discriminate|right; discriminate|lia|cbn; lia|reflexivity|].
  exists s', cu'. split; [exact E|exact Hd].
Defined.

Section Ring.
Context {H : Type} `{Mmio H}.
Implicit Type cu : xrt_cu_fa H.

(** The slot geometry: a power of two never matters, only that the ring fits
    in 32 bits. *)
Definition fa_ring_ok cu : Prop :=
  fa_cmdmem cu <> 0 /\ 0 < fa_slot_sz cu /\ 0 < fa_num_slots cu /\
  fa_slot_sz cu * fa_num_slots cu < 2 ^ 32.

Lemma cu_fa_start_geom cu :
  fa_cmdmem (cu_fa_start false cu) = fa_cmdmem cu /\
  fa_slot_sz (cu_fa_start false cu) = fa_slot_sz cu /\
  fa_num_slots (cu_fa_start false cu) = fa_num_slots cu.
Proof. unfold cu_fa_start. by repeat case_match. Qed.

Lemma cu_fa_start_head cu :
  fa_cmdmem cu <> 0 ->
  fa_head_slot (cu_fa_start false cu) =
  next_slot (fa_slot_sz cu) (fa_num_slots cu) (fa_head_slot cu).
Proof.
  intros Hm. unfold cu_fa_start.
  assert (false || (fa_cmdmem cu =? 0) = false) as E by (simpl; lia).
  change (fa_cmdmem (cu <| fa_run_cnts := s32 (fa_run_cnts cu + 1) |>)) with (fa_cmdmem cu).
  rewrite E. cbv zeta. match goal with |- context [if ?b then _ else _] => destruct b end;
    reflexivity.
Qed.

Lemma cu_fa_start_step cu n :
  fa_ring_ok cu -> 0 <= n < fa_num_slots cu ->
  fa_head_slot cu = fa_slot_sz cu * n ->
  fa_head_slot (cu_fa_start false cu) = fa_slot_sz cu * ((n + 1) mod fa_num_slots cu).
Proof.
  intros (Hm & Hs & Hn & Hr) Hi Hh. rewrite cu_fa_start_head, Hh by done. unfold next_slot. cbv zeta.
  rewrite !u32_small by nia.
  destruct (Z.eqb_spec (fa_slot_sz cu * n + fa_slot_sz cu) (fa_slot_sz cu * fa_num_slots cu)).
  - assert (n + 1 = fa_num_slots cu) as -> by nia. rewrite Z.mod_same; lia.
  - rewrite Z.mod_small by nia. lia.
Qed.

Lemma cu_fa_start_iter cu n :
  fa_ring_ok cu -> fa_head_slot cu = 0 ->
  let cu' := Nat.iter n (cu_fa_start false) cu in
  fa_ring_ok cu' /\ fa_slot_sz cu' = fa_slot_sz cu /\ fa_num_slots cu' = fa_num_slots cu /\
  fa_head_slot cu' = fa_slot_sz cu * (Z.of_nat n mod fa_num_slots cu).
Proof.
  intros Hr Hh. induction n as [|n (IH1 & IH2 & IH3 & IH4)].
  - change (Nat.iter 0 (cu_fa_start false) cu) with cu.
    split; [exact Hr|]. do 2 (split; [reflexivity|]).
    rewrite Hh, Z.mod_0_l; [lia|]. destruct Hr; lia.
  - cbv zeta. rewrite Nat.iter_succ.
    destruct (cu_fa_start_geom (Nat.iter n (cu_fa_start false) cu)) as (G1 & G2 & G3).
    rewrite G2, G3, IH2, IH3. split; [|do 2 (split; [reflexivity|])].
    + unfold fa_ring_ok in *. rewrite G1, G2, G3. done.
    + assert (0 < fa_num_slots cu) by (destruct Hr; lia).
      pose proof (Z.mod_pos_bound (Z.of_nat n) (fa_num_slots cu) ltac:(lia)).
      rewrite (cu_fa_start_step _ (Z.of_nat n mod fa_num_slots cu)).
      * rewrite IH2, IH3, Zplus_mod_idemp_l. do 2 f_equal. lia.
      * done.
      * by rewrite IH3.
      * by rewrite IH4, IH2.
Qed.
End Ring.

(** The descriptor slots form a ring: from slot 0, the [n]-th start uses
    slot [n mod num_slots], always inside the command memory, and two starts
    fewer than [num_slots] apart never use the same slot.  Since credits never
    exceed the number of slots, no descriptor in flight is overwritten. *)
Theorem cu_fa_start_ring {H} `{Mmio H} (cu : xrt_cu_fa H) n m :
  fa_ring_ok cu -> fa_head_slot cu = 0 ->
  let head k := fa_head_slot (Nat.iter k (cu_fa_start false) cu) in
  head n = fa_slot_sz cu * (Z.of_nat n mod fa_num_slots cu) /\
  0 <= head n /\ head n + fa_slot_sz cu <= fa_slot_sz cu * fa_num_slots cu /\
  ((n < m)%nat -> Z.of_nat (m - n) < fa_num_slots cu -> head n <> head m).
Proof.
  intros Hr Hh head. subst head. cbv beta.
  destruct (cu_fa_start_iter cu n Hr Hh) as (_ & _ & _ & ->).
  destruct (cu_fa_start_iter cu m Hr Hh) as (_ & _ & _ & ->).
  destruct Hr as (_ & Hs & Hn & _).
  pose proof (Z.mod_pos_bound (Z.of_nat n) (fa_num_slots cu) Hn).
  split_and!; try done; try nia.
  intros Hlt Hd E. apply Z.mul_reg_l in E; [|lia].
  assert (Z.of_nat (m - n) mod fa_num_slots cu = 0) as E0.
  { replace (Z.of_nat (m - n)) with (Z.of_nat m - Z.of_nat n) by lia.
    rewrite Zminus_mod, E, Z.sub_diag. by apply Z.mod_0_l; lia. }
  rewrite Z.mod_small in E0; lia.
Qed.

Lemma cu_fa_start_ring_witness :
  fa_head_slot (Nat.iter 6 (cu_fa_start false) (demo_fa 0 0)) = 64 * (6 mod 4).
Proof.
  apply (cu_fa_start_ring (demo_fa 0 0) 6 7); [|reflexivity].
  unfold fa_ring_ok. cbn. lia.
Defined.

(** In command memory, configuring writes the whole descriptor into the
    head slot and, when it fits in the slot, nothing outside of it; the
    descriptor's status word is written last. *)
Theorem cu_fa_configure_mem (cu : xrt_cu_fa (gmap Z Z)) data sz ty :
  fa_cmdmem cu <> 0 -> 4 <= sz -> sz / 4 <= Z.of_nat (length data) ->
  let slot := fa_cmdmem cu + fa_head_slot cu in
  exists hw, cu_fa_configure false cu data sz ty =
      Some (0, cu <| fa_hw := iowrite32 hw slot (aget 0 data 0) |>) /\
    hw !! slot = fa_hw cu !! slot /\
    (forall i, 1 <= i < sz / 4 -> hw !! (slot + 4 * i) = Some (aget 0 data i)) /\
    (sz <= fa_slot_sz cu -> forall a, a < slot \/ slot + fa_slot_sz cu <= a ->
       hw !! a = fa_hw cu !! a).
Proof.
  intros Hm Hsz Hl slot. unfold cu_fa_configure.
  assert (false || (fa_cmdmem cu =? 0) = false) as -> by (simpl; lia).
  destruct (Z.ltb_spec sz 4); [lia|].
  assert ((sz - 4) / 4 = sz / 4 - 1) as ->
    by (replace (sz - 4) with (sz + (-1) * 4) by lia; rewrite Z.div_add; lia).
  assert (1 <= sz / 4) by (apply Z.div_le_lower_bound; lia).
  assert (4 * (sz / 4) <= sz) by (apply Z.mul_div_le; lia).
  set (n := sz / 4 - 1). rewrite copy_out_ok by lia. unfold aget_chk.
  rewrite (proj2 (in_arr_true data 0)) by lia. cbn [mbind option_bind]. fold slot.
  set (ws := zip _ _). eexists. split; [reflexivity|].
  assert (ws.*1 = (fun i => slot + 4 * i) <$> seqZ 1 n) as Hfst.
  { subst ws. apply fst_zip. rewrite length_fmap, length_seqZ, length_take, length_drop. lia. }
  assert (NoDup ws.*1) as Hd.
  { rewrite Hfst. apply NoDup_fmap_2; [|apply NoDup_seqZ]. intros a b. lia. }
  assert (forall a, (forall i, 1 <= i <= n -> a <> slot + 4 * i) ->
                    io_writes (fa_hw cu) ws !! a = fa_hw cu !! a) as Hout.
  { intros a Ha. apply io_writes_mem_other. rewrite Hfst. intros Hin.
    apply list_elem_of_fmap in Hin as (i & -> & Hi). apply elem_of_seqZ in Hi.
    by apply (Ha i); [lia|]. }
  split_and!.
  - apply Hout. intros i Hi. lia.
  - intros i Hi. apply io_writes_mem_in; [done|]. subst ws.
    apply list_elem_of_lookup. exists (Z.to_nat (i - 1)).
    rewrite lookup_zip_with, list_lookup_fmap, lookup_seqZ_lt by lia. simpl.
    rewrite lookup_take_lt, lookup_drop by lia.
    replace (Z.to_nat 1 + Z.to_nat (i - 1))%nat with (Z.to_nat i) by lia.
    unfold aget. destruct (lookup_lt_is_Some_2 data (Z.to_nat i)) as [x E]; [lia|].
    rewrite E. simpl. do 2 f_equal. lia.
  - intros Hfit a Ha. apply Hout. intros i Hi. lia.
Qed.

Lemma cu_fa_configure_mem_witness :
  exists hw, cu_fa_configure false (demo_fa 0 0) [1; 22; 33] 12 0 =
      Some (0, demo_fa 0 0 <| fa_hw := iowrite32 hw 0x10000 1 |>) /\
    hw !! (0x10000 + 4 * 2) = Some 33.
Proof.
  destruct (cu_fa_configure_mem (demo_fa 0 0) [1; 22; 33] 12 0) as (hw & E & _ & Hi & _);
    [discriminate|lia|vm_compute; discriminate|].
  exists hw. split; [exact E|]. apply (Hi 2). vm_compute. split; [discriminate|reflexivity].
Defined.

(** In echo mode (or without command memory) the check reports a finished
    task but never completes a command. *)
Example cu_fa_check_echo_stuck {H} `{Mmio H} (cu : xrt_cu_fa H) s force :
  num_done (cu_fa_check true cu s force).1 = 1 /\
  fa_submitted (cu_fa_check true cu s force).2 = fa_submitted cu /\
  fa_completed (cu_fa_check true cu s force).2 = fa_completed cu.
Proof. done. Qed.
