(* ===== verification/CircLog.v ===== *)
(** * The CU event log

    [xrt_cu_circ_produce] and [xrt_cu_circ_consume_all] of [xrt_cu.c]: a byte
    ring of [CIRC_BUF_SIZE] bytes holding 16-byte records, overwriting the
    oldest record when full. *)
From S2P Require Import Prelude.

Definition CIRC_BUF_SIZE : Z := 2 * 4096.
Definition sizeof_log : Z := 16.

Definition CU_LOG_STAGE_RQ : Z := 1.
Definition CU_LOG_STAGE_ISR : Z := 2.
Definition CU_LOG_STAGE_SQ : Z := 3.
Definition CU_LOG_STAGE_CQ : Z := 4.

Record circ_buf := mk_circ_buf { crc_buf : list Z; crc_head : Z; crc_tail : Z }.

#[export] Instance eta_circ_buf : Eta circ_buf := fun r =>
  mk_circ_buf (crc_buf r) (crc_head r) (crc_tail r).

(** [linux/circ_buf.h] *)
Definition CIRC_CNT (head tail size : Z) : Z := Z.land (u64 (head - tail)) (size - 1).
Definition CIRC_SPACE (head tail size : Z) : Z := CIRC_CNT tail (head + 1) size.
Definition CIRC_CNT_TO_END (head tail size : Z) : Z :=
  let e := size - tail in
  let n := Z.land (u64 (head + e)) (size - 1) in
  if n <? e then n else e.

(** [n] little-endian bytes. *)
Fixpoint le_bytes (n : nat) (v : Z) : list Z :=
  match n with O => [] | S n => v mod 256 :: le_bytes n (v / 256) end.

(** [struct xrt_cu_log]: [stage:32], [cmd_id:32], [ts]. *)
Definition log_item (stage cmd ts : Z) : list Z :=
  le_bytes 4 stage ++ le_bytes 4 cmd ++ le_bytes 8 ts.

(** [item] is written at [head] before the indices move.  [now] is the clock. *)
Definition circ_produce (now stage cmd : Z) (b : circ_buf) : circ_buf :=
  let head := crc_head b in
  let tail := crc_tail b in
  let h := Z.to_nat head in
  let buf := take h (crc_buf b) ++ log_item stage cmd now ++ drop (h + 16) (crc_buf b) in
  let tail := if CIRC_SPACE head tail CIRC_BUF_SIZE <? sizeof_log
              then let t := tail + sizeof_log in if CIRC_BUF_SIZE <=? t then 0 else t
              else tail in
  let head := head + sizeof_log in
  let head := if CIRC_BUF_SIZE <=? head then 0 else head in
  mk_circ_buf buf head tail.

(** The bytes copied to the reader and the new state. *)
Definition circ_consume_all (b : circ_buf) (size : Z) : list Z * circ_buf :=
  let head := crc_head b in
  let tail := crc_tail b in
  let cnt := CIRC_CNT head tail CIRC_BUF_SIZE in
  let cnt_to_end := CIRC_CNT_TO_END head tail CIRC_BUF_SIZE in
  let nread := if size <? cnt then size else cnt in
  let from := drop (Z.to_nat tail) (crc_buf b) in
  if nread <=? cnt_to_end
  then (take (Z.to_nat nread) from, b <| crc_tail := tail + nread |>)
  else (take (Z.to_nat cnt_to_end) from ++ take (Z.to_nat (nread - cnt_to_end)) (crc_buf b),
        b <| crc_tail := nread - cnt_to_end |>).

(** ** The log as a queue of bytes *)

(** What is stored, oldest byte first. *)
Definition circ_contents (b : circ_buf) : list Z :=
  let t := Z.to_nat (crc_tail b) in
  let h := Z.to_nat (crc_head b) in
  if (t <=? h)%nat then take (h - t) (drop t (crc_buf b))
  else drop t (crc_buf b) ++ take h (crc_buf b).

Definition circ_ok (b : circ_buf) : Prop :=
  Z.of_nat (length (crc_buf b)) = CIRC_BUF_SIZE /\
  (exists k, crc_head b = 16 * k /\ 0 <= k < 512) /\
  (exists k, crc_tail b = 16 * k /\ 0 <= k < 512).

Lemma land_size x : Z.land (u64 x) (CIRC_BUF_SIZE - 1) = x mod CIRC_BUF_SIZE.
Proof.
  change (CIRC_BUF_SIZE - 1) with (Z.ones 13). rewrite Z.land_ones by lia.
  unfold u64. change (2 ^ 13) with CIRC_BUF_SIZE.
  apply Z.mod_mod_divide. exists (2 ^ 51). reflexivity.
Qed.

Lemma length_le_bytes n v : length (le_bytes n v) = n.
Proof. revert v. induction n; intros; simpl; auto. Qed.

Lemma length_log_item s c t : length (log_item s c t) = 16%nat.
Proof. unfold log_item. by rewrite !length_app, !length_le_bytes. Qed.

Lemma circ_cnt_mod h t :
  0 <= h < CIRC_BUF_SIZE -> 0 <= t < CIRC_BUF_SIZE ->
  CIRC_CNT h t CIRC_BUF_SIZE = if t <=? h then h - t else h - t + CIRC_BUF_SIZE.
Proof.
  intros Hh Ht. unfold CIRC_CNT. rewrite land_size. destruct (Z.leb_spec t h).
  - apply Z.mod_small. lia.
  - rewrite <- (Z.mod_add _ 1), Z.mod_small; lia.
Qed.

Lemma circ_cnt_length b :
  circ_ok b ->
  CIRC_CNT (crc_head b) (crc_tail b) CIRC_BUF_SIZE = Z.of_nat (length (circ_contents b)).
Proof.
  intros (Hl & (h & Hh & ?) & (t & Ht & ?)).
  change CIRC_BUF_SIZE with 8192 in *.
  rewrite circ_cnt_mod by (change CIRC_BUF_SIZE with 8192; lia).
  change CIRC_BUF_SIZE with 8192.
  unfold circ_contents. destruct (Z.leb_spec (crc_tail b) (crc_head b)).
  - destruct (Nat.leb_spec (Z.to_nat (crc_tail b)) (Z.to_nat (crc_head b))); [|lia].
    rewrite length_take, length_drop. lia.
  - destruct (Nat.leb_spec (Z.to_nat (crc_tail b)) (Z.to_nat (crc_head b))); [lia|].
    rewrite length_app, length_take, length_drop. lia.
Qed.

Lemma circ_space_full h t :
  0 <= h < 512 -> 0 <= t < 512 ->
  (CIRC_SPACE (16 * h) (16 * t) CIRC_BUF_SIZE <? sizeof_log) =
  ((h + 1 =? t) || (h + 1 =? t + 512)).
Proof.
  intros Hh Ht. unfold CIRC_SPACE, CIRC_CNT. rewrite land_size.
  change CIRC_BUF_SIZE with 8192. unfold sizeof_log.
  destruct (Z.leb_spec (h + 1) t).
  - rewrite Z.mod_small by lia. destruct (Z.eqb_spec (h + 1) t); lia.
  - rewrite <- (Z.mod_add _ 1), Z.mod_small by lia.
    destruct (Z.eqb_spec (h + 1) (t + 512)); lia.
Qed.

Section Produce.
Context (buf item : list Z) (h : nat).
Hypotheses (Hbuf : (h + 16 <= length buf)%nat) (Hitem : length item = 16%nat).

Let buf' := take h buf ++ item ++ drop (h + 16) buf.

Lemma length_put : length buf' = length buf.
Proof. subst buf'. rewrite !length_app, length_take, length_drop, Hitem. lia. Qed.

Lemma put_take : take (h + 16) buf' = take h buf ++ item.
Proof.
  subst buf'. rewrite app_assoc, take_app_length'; [done|].
  rewrite length_app, length_take, Hitem. lia.
Qed.

Lemma put_drop_after t : (h + 16 <= t)%nat -> drop t buf' = drop t buf.
Proof.
  intros Ht. subst buf'. rewrite app_assoc, drop_app_ge;
    rewrite length_app, length_take, Hitem; [|lia].
  rewrite drop_drop. f_equal. lia.
Qed.

Lemma put_take_drop t :
  (t <= h)%nat -> take (h + 16 - t) (drop t buf') = take (h - t) (drop t buf) ++ item.
Proof.
  intros Ht. rewrite take_drop_commute.
  replace (t + (h + 16 - t))%nat with (h + 16)%nat by lia.
  rewrite put_take, drop_app_le by (rewrite length_take; lia).
  rewrite take_drop_commute. by replace (t + (h - t))%nat with h by lia.
Qed.
End Produce.

(** The stored bytes after writing a record at head position [h] (in records),
    by the position of the tail [t]. *)
Lemma circ_contents_put buf item h t :
  Z.of_nat (length buf) = 8192 -> length item = 16%nat ->
  0 <= h < 512 -> 0 <= t < 512 ->
  let hn := Z.to_nat (16 * h) in
  let buf' := take hn buf ++ item ++ drop (hn + 16) buf in
  let c := circ_contents (mk_circ_buf buf (16 * h) (16 * t)) in
  let full := (h + 1 =? t) || (h + 1 =? t + 512) in
  circ_contents (mk_circ_buf buf'
    (if 8192 <=? 16 * h + 16 then 0 else 16 * h + 16)
    (if full then if 8192 <=? 16 * t + 16 then 0 else 16 * t + 16 else 16 * t)) =
  (if full then drop 16 c else c) ++ item.
Proof.
  intros Hl Li Hh Ht hn buf'. unfold circ_contents. cbn [crc_buf crc_head crc_tail]. cbv zeta.
  fold hn.
  assert (hn + 16 <= length buf)%nat as Hb by lia.
  pose proof (length_put buf item hn Hb Li) as Lp.
  pose proof (put_take buf item hn Hb Li) as Pt.
  pose proof (put_drop_after buf item hn Hb Li) as Pd.
  pose proof (put_take_drop buf item hn Hb Li) as Ptd. fold buf' in Lp, Pt, Pd, Ptd.
  assert (Z.to_nat (16 * t) = 16 * Z.to_nat t)%nat as Et by lia.
  destruct (Z.leb_spec 8192 (16 * h + 16)).
  - destruct (Z.eqb_spec t 0) as [->|Hne].
    + replace ((h + 1 =? 0) || (h + 1 =? 0 + 512)) with true by lia.
      change (8192 <=? 16 * 0 + 16) with false. cbn -[take drop Z.to_nat].
      rewrite app_nil_r, Nat.sub_0_r.
      change (drop (Z.to_nat 0) buf) with buf.
      rewrite <- (take_ge buf' (hn + 16)), Pt by lia.
      rewrite drop_app_le; [done|]. rewrite length_take. lia.
    + replace ((h + 1 =? t) || (h + 1 =? t + 512)) with false by lia.
      destruct (Nat.leb_spec (Z.to_nat (16 * t)) (Z.to_nat 0)); [lia|].
      destruct (Nat.leb_spec (Z.to_nat (16 * t)) hn); [|lia].
      rewrite <- Ptd, app_nil_r by lia. rewrite take_ge; [done|]. rewrite length_drop. lia.
  - replace (h + 1 =? t + 512) with false by lia. rewrite orb_false_r.
    replace (Z.to_nat (16 * h + 16)) with (hn + 16)%nat by lia.
    destruct (Z.eqb_spec (h + 1) t) as [Heq|Hne].
    + destruct (Nat.leb_spec (Z.to_nat (16 * t)) hn); [lia|].
      destruct (Z.leb_spec 8192 (16 * t + 16)).
      * change (Z.to_nat 0) with 0%nat. cbn [Nat.leb]. rewrite Nat.sub_0_r, drop_0, Pt.
        rewrite drop_app_length'; [done|]. rewrite length_drop. lia.
      * destruct (Nat.leb_spec (Z.to_nat (16 * t + 16)) (hn + 16)); [lia|].
        rewrite Pd, Pt, app_assoc by lia. f_equal.
        rewrite drop_app_le by (rewrite length_drop; lia). rewrite drop_drop.
        do 2 f_equal. lia.
    + destruct (Nat.leb_spec (Z.to_nat (16 * t)) (hn + 16)).
      * destruct (Nat.leb_spec (Z.to_nat (16 * t)) hn); [|lia]. apply Ptd. lia.
      * destruct (Nat.leb_spec (Z.to_nat (16 * t)) hn); [lia|].
        rewrite Pd, Pt, app_assoc by lia. done.
Qed.

(** From a well-formed log, producing a record keeps it well formed and
    appends the 16 bytes of the record to the stored bytes; when 511 records
    are stored the oldest one is dropped. *)
Theorem circ_produce_fifo now stage cmd b :
  circ_ok b ->
  let b' := circ_produce now stage cmd b in
  let c := circ_contents b in
  circ_ok b' /\
  circ_contents b' =
    (if Z.of_nat (length c) =? 511 * 16 then drop 16 c else c) ++ log_item stage cmd now.
Proof.
  intros Hok. cbv zeta. pose proof (circ_cnt_length b Hok) as Hcnt. revert Hcnt.
  destruct Hok as (Hl & (h & Hh & Hh') & (t & Ht & Ht')). destruct b as [buf head tail].
  cbn [crc_buf crc_head crc_tail] in *. subst head tail.
  rewrite circ_cnt_mod by (change CIRC_BUF_SIZE with 8192; lia).
  intros Hcnt. unfold circ_produce.
  cbn [crc_buf crc_head crc_tail]. rewrite circ_space_full by lia.
  pose proof (length_log_item stage cmd now) as Li. set (item := log_item stage cmd now) in *.
  change CIRC_BUF_SIZE with 8192 in *. unfold sizeof_log.
  pose proof (length_put buf item (Z.to_nat (16 * h)) ltac:(lia) Li) as Lp.
  split.
  - split_and!; cbn [crc_buf crc_head crc_tail]; [by rewrite Lp| |].
    + destruct (Z.leb_spec 8192 (16 * h + 16)); [exists 0; lia|exists (h + 1); lia].
    + destruct ((h + 1 =? t) || _); [|exists t; lia].
      destruct (Z.leb_spec 8192 (16 * t + 16)); [exists 0; lia|exists (t + 1); lia].
  - set (c := circ_contents (mk_circ_buf buf (16 * h) (16 * t))) in *.
    assert ((Z.of_nat (length c) =? 511 * 16) = ((h + 1 =? t) || (h + 1 =? t + 512))) as ->.
    { rewrite <- Hcnt. destruct (Z.leb_spec (16 * t) (16 * h)); lia. }
    by apply circ_contents_put.
Qed.

Definition circ_init : circ_buf := mk_circ_buf (replicate (Z.to_nat CIRC_BUF_SIZE) 0) 0 0.

Lemma circ_init_ok : circ_ok circ_init.
Proof.
  split_and!; [|exists 0; cbn; lia..]. unfold circ_init. cbn [crc_buf].
  rewrite length_replicate. reflexivity.
Qed.

Lemma circ_produce_fifo_witness :
  circ_contents (circ_produce 7 CU_LOG_STAGE_RQ 9 circ_init) = log_item CU_LOG_STAGE_RQ 9 7.
Proof.
  destruct (circ_produce_fifo 7 CU_LOG_STAGE_RQ 9 circ_init circ_init_ok) as [_ ->].
  reflexivity.
Defined.

Lemma circ_cnt_to_end_eq h t :
  0 <= h < 8192 -> 0 <= t < 8192 ->
  CIRC_CNT_TO_END h t CIRC_BUF_SIZE = if t <=? h then h - t else 8192 - t.
Proof.
  intros Hh Ht. unfold CIRC_CNT_TO_END. rewrite land_size. change CIRC_BUF_SIZE with 8192.
  destruct (Z.leb_spec t h).
  - rewrite <- (Z.mod_add _ (-1)), Z.mod_small by lia.
    destruct (Z.ltb_spec (h + (8192 - t) + -1 * 8192) (8192 - t)); lia.
  - rewrite Z.mod_small by lia. destruct (Z.ltb_spec (h + (8192 - t)) (8192 - t)); lia.
Qed.

(** Reading the log returns the oldest [size] stored bytes (all of them
    when fewer are stored), in order, and leaves exactly the others. *)
Theorem circ_consume_all_fifo b size :
  circ_ok b -> 0 <= size ->
  let c := circ_contents b in
  (circ_consume_all b size).1 = take (Z.to_nat size) c /\
  circ_contents (circ_consume_all b size).2 = drop (Z.to_nat size) c.
Proof.
  intros Hok Hs c. pose proof (circ_cnt_length b Hok) as Hc. fold c in Hc.
  assert (take (Z.to_nat size) c =
          take (Z.to_nat (Z.min size (Z.of_nat (length c)))) c) as ->.
  { destruct (Z.min_spec size (Z.of_nat (length c))) as [[_ ->]|[? ->]]; [done|].
    rewrite !take_ge by lia. done. }
  assert (drop (Z.to_nat size) c =
          drop (Z.to_nat (Z.min size (Z.of_nat (length c)))) c) as ->.
  { destruct (Z.min_spec size (Z.of_nat (length c))) as [[_ ->]|[? ->]]; [done|].
    rewrite !drop_ge by lia. done. }
  unfold circ_consume_all. rewrite Hc.
  replace (if size <? _ then size else _) with (Z.min size (Z.of_nat (length c)))
    by (destruct (Z.ltb_spec size (Z.of_nat (length c))); lia).
  assert (0 <= Z.min size (Z.of_nat (length c)) <= Z.of_nat (length c)) as Hn by lia.
  revert Hn. generalize (Z.min size (Z.of_nat (length c))). clear size Hs. intros n Hn.
  destruct Hok as (Hl & (h & Hh & ?) & (t & Ht & ?)). change CIRC_BUF_SIZE with 8192 in *.
  rewrite circ_cnt_to_end_eq by lia. destruct b as [buf head tail].
  cbn [crc_buf crc_head crc_tail] in *. subst c. unfold circ_contents in *. rsimpl.
  destruct (Z.leb_spec tail head).
  - destruct (Nat.leb_spec (Z.to_nat tail) (Z.to_nat head)); [|lia].
    rewrite length_take, length_drop in *.
    destruct (Z.leb_spec n (head - tail)); [|lia]. rsimpl.
    destruct (Nat.leb_spec (Z.to_nat (tail + n)) (Z.to_nat head)); [|lia].
    rewrite take_take, Nat.min_l by lia. split; [done|].
    rewrite skipn_firstn_comm, drop_drop. f_equal; [lia|f_equal; lia].
  - destruct (Nat.leb_spec (Z.to_nat tail) (Z.to_nat head)); [lia|].
    rewrite length_app, length_take, length_drop in *.
    destruct (Z.leb_spec n (8192 - tail)); rsimpl.
    + destruct (Nat.leb_spec (Z.to_nat (tail + n)) (Z.to_nat head)); [lia|].
      rewrite take_app_le, drop_app_le by (rewrite length_drop; lia).
      split; [done|]. rewrite drop_drop. do 2 f_equal. lia.
    + destruct (Nat.leb_spec (Z.to_nat (n - (8192 - tail))) (Z.to_nat head)); [|lia].
      rewrite take_app_ge, drop_app_ge by (rewrite length_drop; lia). rewrite length_drop.
      rewrite (take_ge (drop _ _)) by (rewrite length_drop; lia).
      rewrite take_take, skipn_firstn_comm.
      replace (Z.to_nat n - (length buf - Z.to_nat tail))%nat
        with (Z.to_nat (n - (8192 - tail))) by lia.
      split; [|done]. do 2 f_equal. lia.
Qed.

Lemma circ_consume_all_fifo_witness :
  (circ_consume_all (circ_produce 7 CU_LOG_STAGE_SQ 9 circ_init) 8).1 =
  take 8 (circ_contents (circ_produce 7 CU_LOG_STAGE_SQ 9 circ_init)).
Proof.
  apply (circ_consume_all_fifo (circ_produce 7 CU_LOG_STAGE_SQ 9 circ_init) 8); [|lia].
  split_and!; [reflexivity|exists 1; split; [reflexivity|lia]|exists 0; split; [reflexivity|lia]].
Defined.

(** Reading up to the end of the ring leaves the tail at [CIRC_BUF_SIZE]
    instead of 0.  When the ring then fills up, dropping the oldest record
    resets the tail to 0, where the head is about to be: the log appears empty
    although 512 records were produced since the read. *)
Example circ_tail_lost :
  let fill b := Nat.iter 512 (circ_produce 7 CU_LOG_STAGE_CQ 9) b in
  let b1 := (circ_consume_all (fill circ_init) CIRC_BUF_SIZE).2 in
  crc_tail b1 = CIRC_BUF_SIZE /\ circ_contents (fill b1) = [].
Proof. vm_compute. split; reflexivity. Qed.
