(* ===== verification/XrtCu.v ===== *)
(** * The CU command scheduler

    [xrt_cu.c]: the queues of a compute unit and the functions that move
    commands through them, over any implementation of [xcu_funcs].

      xrt_cu_submit -> pq -> rq -> (submitted -> completed) -> cq -> notify/free
                                    inside the implementation

    Queues hold the commands themselves.  A command is shared by pointer
    between the queues and the implementation's lists; the time stamp that
    [process_rq] sets right after starting a command is therefore part of the
    command handed to [submit_config].  [now] is the clock reading of a call.
    [None] is a NULL dereference, [list_first_entry] of an empty list, or an
    access outside a payload buffer. *)
From S2P Require Import Prelude KdsCommand CuInfo CuCore CircLog.

Definition CU_EXEC_DEFAULT_TTL : Z := 10.
Definition CU_DEFAULT_POLL_THRESHOLD : Z := 300.
Definition XCU_IDLE : Z := 0.
Definition XCU_BUSY : Z := 1.

Record xrt_cu_stats := mk_xrt_cu_stats {
  stats_tick : Z; stats_enabled : Z; last_ts_status : Z; max_sq_length : Z;
  sq_total : Z; sq_count : Z; idle : Z;
  last_timestamp : Z; last_read_idle_start : Z; last_idle_total : Z;
  usage_prev : Z; usage_curr : Z;
  idle_total : Z; idle_start : Z; idle_end : Z;
}.

#[export] Instance eta_xrt_cu_stats : Eta xrt_cu_stats := fun r =>
  mk_xrt_cu_stats (stats_tick r) (stats_enabled r) (last_ts_status r) (max_sq_length r)
    (sq_total r) (sq_count r) (idle r) (last_timestamp r) (last_read_idle_start r)
    (last_idle_total r) (usage_prev r) (usage_curr r) (idle_total r) (idle_start r)
    (idle_end r).

Record xrt_cu (C : Type) := mk_xrt_cu {
  cu_info : xrt_cu_info;
  cu_xcr_start : Z;
  cu_xcr_end : Z;
  cu_pq : list kds_command;
  cu_num_pq : Z;
  cu_hpq : list kds_command;
  cu_num_hpq : Z;
  cu_comp : Z;
  cu_rq : list kds_command;
  cu_num_rq : Z;
  cu_num_sq : Z;
  cu_cq : list kds_command;
  cu_num_cq : Z;
  cu_sem : Z;
  cu_sem_cu : Z;
  cu_core : C;
  cu_stop : Z;
  cu_bad_state : bool;
  cu_done_cnt : Z;
  cu_ready_cnt : Z;
  cu_status : Z;
  cu_rcode : Z;
  cu_busy_threshold : Z;
  cu_interval_min : Z;
  cu_interval_max : Z;
  cu_events : list Z;
  cu_tick : Z;
  cu_start_tick : Z;
  cu_force_intr : bool;
  cu_stats : xrt_cu_stats;
  cu_thread : bool;
  cu_poll_count : Z;
  cu_poll_threshold : Z;
  cu_interrupt_used : bool;
  cu_sleep_cnt : Z;
  cu_max_running : Z;
  cu_is_ucu : bool;
  cu_ucu_event : Z;
  cu_debug : bool;
  cu_crc : circ_buf;
}.
Arguments mk_xrt_cu {C}. Arguments cu_info {C}. Arguments cu_xcr_start {C}.
Arguments cu_xcr_end {C}. Arguments cu_pq {C}. Arguments cu_num_pq {C}.
Arguments cu_hpq {C}. Arguments cu_num_hpq {C}. Arguments cu_comp {C}.
Arguments cu_rq {C}. Arguments cu_num_rq {C}. Arguments cu_num_sq {C}.
Arguments cu_cq {C}. Arguments cu_num_cq {C}. Arguments cu_sem {C}.
Arguments cu_sem_cu {C}. Arguments cu_core {C}. Arguments cu_stop {C}.
Arguments cu_bad_state {C}. Arguments cu_done_cnt {C}. Arguments cu_ready_cnt {C}.
Arguments cu_status {C}. Arguments cu_rcode {C}. Arguments cu_busy_threshold {C}.
Arguments cu_interval_min {C}. Arguments cu_interval_max {C}. Arguments cu_events {C}.
Arguments cu_tick {C}. Arguments cu_start_tick {C}. Arguments cu_force_intr {C}.
Arguments cu_stats {C}. Arguments cu_thread {C}. Arguments cu_poll_count {C}.
Arguments cu_poll_threshold {C}. Arguments cu_interrupt_used {C}.
Arguments cu_sleep_cnt {C}. Arguments cu_max_running {C}. Arguments cu_is_ucu {C}.
Arguments cu_ucu_event {C}. Arguments cu_debug {C}.
Arguments cu_crc {C}.

#[export] Instance eta_xrt_cu C : Eta (xrt_cu C) := fun r =>
  mk_xrt_cu (cu_info r) (cu_xcr_start r) (cu_xcr_end r) (cu_pq r) (cu_num_pq r)
    (cu_hpq r) (cu_num_hpq r) (cu_comp r) (cu_rq r) (cu_num_rq r) (cu_num_sq r)
    (cu_cq r) (cu_num_cq r) (cu_sem r) (cu_sem_cu r) (cu_core r) (cu_stop r)
    (cu_bad_state r) (cu_done_cnt r) (cu_ready_cnt r) (cu_status r) (cu_rcode r)
    (cu_busy_threshold r) (cu_interval_min r) (cu_interval_max r) (cu_events r)
    (cu_tick r) (cu_start_tick r) (cu_force_intr r) (cu_stats r) (cu_thread r)
    (cu_poll_count r) (cu_poll_threshold r) (cu_interrupt_used r) (cu_sleep_cnt r)
    (cu_max_running r) (cu_is_ucu r) (cu_ucu_event r) (cu_debug r) (cu_crc r).

(** What the CU does to the outside: the callbacks of a command, and the end
    of a high priority command with the status its submitter reads. *)
Inductive cu_event :=
| EvNotify (xcmd : kds_command) (status : kds_status)
| EvFree (id : Z)
| EvHpqDone (xcmd : kds_command).

(** Abort conditions. *)
Definition abort_client (client : Z) (xcmd : kds_command) : bool := xcmd_client xcmd =? client.
Definition abort_handle (handle : Z) (xcmd : kds_command) : bool :=
  xcmd_exec_bo_handle xcmd =? handle.

Section XrtCu.
Context {C : Type} (funcs : xcu_funcs C) (now : Z).
#[local] Abbreviation cu := (xrt_cu C).

(** ** Calls into the implementation ([xrt_cu.h]) *)

Definition on_core (g : C -> C) (xcu : cu) : cu := xcu <| cu_core ::= g |>.

Definition xrt_cu_enable_intr (xcu : cu) (t : Z) : cu :=
  on_core (fun c => enable_intr funcs c t) xcu.
Definition xrt_cu_disable_intr (xcu : cu) (t : Z) : cu :=
  on_core (fun c => disable_intr funcs c t) xcu.
Definition xrt_cu_start (xcu : cu) : cu := on_core (start funcs) xcu.
Definition xrt_cu_put_credit (xcu : cu) (n : Z) : cu :=
  on_core (fun c => free_credit funcs c n) xcu.
Definition xrt_cu_get_credit (xcu : cu) : Z * cu :=
  let '(r, c) := alloc_credit funcs (cu_core xcu) in (r, xcu <| cu_core := c |>).
Definition xrt_cu_peek_credit (xcu : cu) : Z := peek_credit funcs (cu_core xcu).
Definition is_zero_credit (xcu : cu) : bool := xrt_cu_peek_credit xcu =? 0.

Definition xrt_cu_submit_config (xcu : cu) (xcmd : kds_command) : option (Z * cu) :=
  match submit_config funcs with
  | None => Some (- EINVAL, xcu)
  | Some f => r ← f (cu_core xcu) xcmd; Some (r.1, xcu <| cu_core := r.2 |>)
  end.

Definition xrt_cu_get_complete (xcu : cu) : option (option kds_command * cu) :=
  match get_complete funcs with
  | None => Some (None, xcu)
  | Some f => r ← f (cu_core xcu); Some (r.1, xcu <| cu_core := r.2 |>)
  end.

Definition xrt_cu_cmd_abort (xcu : cu) (m : kds_command -> bool) : option (Z * cu) :=
  match abort funcs with
  | None => Some (- EINVAL, xcu)
  | Some f => r ← f (cu_core xcu) m; Some (r.1, xcu <| cu_core := r.2 |>)
  end.

Definition xrt_cu_check_gen (xcu : cu) (force : bool) : option cu :=
  r ← check funcs (cu_core xcu) status_zero force;
  let '(s, c) := r in
  Some (xcu <| cu_core := c |>
      <| cu_done_cnt := u32 (cu_done_cnt xcu + num_done s) |>
      <| cu_ready_cnt := u32 (cu_ready_cnt xcu + num_ready s) |>
      <| cu_status := if negb (cu_status xcu =? CU_AP_CRASHED) then new_status s
                      else cu_status xcu |>
      <| cu_rcode := st_rcode s |>).
Definition xrt_cu_check (xcu : cu) : option cu := xrt_cu_check_gen xcu false.
Definition xrt_cu_check_force (xcu : cu) : option cu := xrt_cu_check_gen xcu true.

(** ** Log, timers, statistics *)

Definition xrt_cu_circ_produce (xcu : cu) (stage cmd : Z) : cu :=
  if negb (cu_debug xcu) then xcu
  else xcu <| cu_crc ::= circ_produce now stage (u32 cmd) |>.

Definition cu_timer (xcu : cu) : cu := xcu <| cu_tick := u32 (cu_tick xcu + 1) |>.

Definition on_stats (g : xrt_cu_stats -> xrt_cu_stats) (xcu : cu) : cu :=
  xcu <| cu_stats ::= g |>.

Definition xrt_cu_incr_sq_count (xcu : cu) : cu :=
  if negb (z2b (stats_enabled (cu_stats xcu))) then xcu
  else on_stats (fun s => s <| sq_total := u32 (sq_total s + cu_num_sq xcu) |>
                            <| sq_count := u32 (sq_count s + 1) |>) xcu.

Definition cu_stats_timer (xcu : cu) : cu :=
  if negb (z2b (stats_enabled (cu_stats xcu))) then xcu
  else xrt_cu_incr_sq_count
         (on_stats (fun s => s <| stats_tick := u32 (stats_tick s + 1) |>) xcu).

Definition xrt_cu_switch_to_interrupt (xcu : cu) : cu :=
  xrt_cu_enable_intr xcu (Z.lor CU_INTR_DONE CU_INTR_READY) <| cu_interrupt_used := true |>.

Definition xrt_cu_switch_to_poll (xcu : cu) : cu :=
  xrt_cu_disable_intr xcu (Z.lor CU_INTR_DONE CU_INTR_READY) <| cu_interrupt_used := false |>.

Definition first_event_client_or_null (xcu : cu) : option Z := head (cu_events xcu).

Definition xrt_cu_init_ecmd_and_sq_count (xcu : cu) : cu :=
  on_stats (fun s => s <| sq_total := 0 |> <| sq_count := 0 |>
                       <| usage_curr := 0 |> <| usage_prev := 0 |>) xcu.

Definition xrt_cu_incr_ecmd_count (xcu : cu) : cu :=
  if negb (z2b (stats_enabled (cu_stats xcu))) then xcu
  else on_stats (fun s => s <| usage_curr := u64 (usage_curr s + 1) |>) xcu.

Definition xrt_cu_reset_sq_count (xcu : cu) : cu :=
  on_stats (fun s => s <| sq_total := 0 |> <| sq_count := 0 |>) xcu.

Definition xrt_cu_idle_start (xcu : cu) : cu :=
  if negb (z2b (stats_enabled (cu_stats xcu))) then xcu
  else if (0 <? cu_num_sq xcu) || (0 <? cu_num_rq xcu) || (0 <? cu_num_pq xcu) then xcu
  else on_stats (fun s => s <| idle_start := now |> <| idle := 1 |>) xcu.

Definition xrt_cu_idle_end (xcu : cu) : cu :=
  if negb (z2b (stats_enabled (cu_stats xcu))) then xcu
  else if (cu_num_pq xcu =? 0) && (cu_num_sq xcu =? 0) && (cu_num_rq xcu =? 0) then xcu
  else on_stats (fun s =>
         if z2b (idle s)
         then s <| idle_end := now |>
                <| idle_total := u64 (idle_total s + (now - idle_start s)) |>
                <| idle := 0 |>
         else s) xcu.

(** ** Completed queue *)

(** [while (xcu->num_cq)]; [n] is the value of [num_cq] on entry. *)
Fixpoint process_cq_loop (n : nat) (xcu : cu) : option (list cu_event * cu) :=
  match n with
  | O => Some ([], xcu)
  | S n =>
      match cu_cq xcu with
      | [] => None
      | xcmd :: cq =>
          let xcmd := set_xcmd_timestamp now xcmd (xcmd_status xcmd) in
          let xcu := xrt_cu_circ_produce xcu CU_LOG_STAGE_CQ (xcmd_id xcmd) in
          let xcu := xcu <| cu_bad_state := bool_decide (xcmd_status xcmd = KDS_SKCRASHED) |> in
          let xcu := xrt_cu_incr_ecmd_count xcu in
          let xcu := xcu <| cu_cq := cq |> <| cu_num_cq := u32 (cu_num_cq xcu - 1) |> in
          r ← process_cq_loop n xcu;
          Some (EvNotify xcmd (xcmd_status xcmd) :: EvFree (xcmd_id xcmd) :: r.1, r.2)
      end
  end.

Definition process_cq (xcu : cu) : option (list cu_event * cu) :=
  process_cq_loop (Z.to_nat (cu_num_cq xcu)) xcu.

(** ** Submitted queue *)

(** The [while (xcmd)] loops on [xrt_cu_get_complete]; [log] says whether the
    stage is logged.  [num_sq] commands are inside the implementation, so the
    fuel [S num_sq] reaches the final NULL ([drain_ok]). *)
Fixpoint drain (log : bool) (fuel : nat) (xcu : cu) : option cu :=
  match fuel with
  | O => None
  | S fuel =>
      r ← xrt_cu_get_complete xcu;
      match r with
      | (None, xcu) => Some xcu
      | (Some xcmd, xcu) =>
          let xcu := if log then xrt_cu_circ_produce xcu CU_LOG_STAGE_SQ (xcmd_id xcmd)
                     else xcu in
          drain log fuel
            (xcu <| cu_cq := cu_cq xcu ++ [xcmd] |>
                 <| cu_num_cq := u32 (cu_num_cq xcu + 1) |>
                 <| cu_num_sq := u32 (cu_num_sq xcu - 1) |>)
      end
  end.

Definition drain_fuel (xcu : cu) : nat := S (Z.to_nat (cu_num_sq xcu)).

Definition process_sq_inner (xcu : cu) : option cu :=
  let xcu := if z2b (cu_ready_cnt xcu)
             then xrt_cu_put_credit xcu (cu_ready_cnt xcu) <| cu_ready_cnt := 0 |>
             else xcu in
  if negb (z2b (cu_num_sq xcu)) then Some xcu
  else
    xcu ←
      match first_event_client_or_null xcu with
      | None => Some xcu
      | Some ev_client =>
          let tick := cu_tick xcu in
          if cu_start_tick xcu =? 0 then Some (xcu <| cu_start_tick := tick |>)
          else if u32 (tick - cu_start_tick xcu) <? CU_EXEC_DEFAULT_TTL then Some xcu
          else
            a ← xrt_cu_cmd_abort xcu (abort_client ev_client);
            let '(r, xcu) := a in
            let xcu := if z2b r then xcu <| cu_bad_state := true |> else xcu in
            Some (xcu <| cu_start_tick := 0 |>)
      end;
    xcu ← drain true (drain_fuel xcu) xcu;
    Some (xrt_cu_idle_start xcu).

Definition process_sq (xcu : cu) : option cu :=
  if negb (z2b (cu_num_sq xcu)) && negb (is_zero_credit xcu) then Some xcu
  else xcu ← xrt_cu_check xcu; process_sq_inner xcu.

(** ** Run queue *)

(** [list_for_each_entry_safe] over [rq] when a client is closing. *)
Fixpoint rq_abort_walk (ev_client : Z) (bad : bool) (rq cq : list kds_command)
  (num_rq num_cq : Z) : list kds_command * list kds_command * Z * Z :=
  match rq with
  | [] => ([], cq, num_rq, num_cq)
  | x :: rq =>
      if negb (ev_client =? xcmd_client x) && negb bad
      then let '(rq', cq', nr, nc) := rq_abort_walk ev_client bad rq cq num_rq num_cq in
           (x :: rq', cq', nr, nc)
      else rq_abort_walk ev_client bad rq (cq ++ [set_status KDS_ABORT x])
             (u32 (num_rq - 1)) (u32 (num_cq + 1))
  end.

Definition process_rq (xcu : cu) : option (bool * cu) :=
  if negb (z2b (cu_num_rq xcu)) then Some (false, xcu)
  else
    match first_event_client_or_null xcu with
    | Some ev_client =>
        let '(rq, cq, nr, nc) :=
          rq_abort_walk ev_client (cu_bad_state xcu) (cu_rq xcu) (cu_cq xcu)
            (cu_num_rq xcu) (cu_num_cq xcu) in
        Some (false, xcu <| cu_rq := rq |> <| cu_cq := cq |>
                         <| cu_num_rq := nr |> <| cu_num_cq := nc |>)
    | None =>
        match cu_rq xcu with
        | [] => None
        | xcmd :: rq =>
            let '(credit, xcu) := xrt_cu_get_credit xcu in
            if negb (z2b credit) then Some (false, xcu)
            else
              r ← xrt_cu_submit_config xcu (set_xcmd_timestamp now xcmd KDS_RUNNING);
              let '(ret, xcu) := r in
              if z2b ret then Some (false, xrt_cu_put_credit xcu 1)
              else
                let xcu := xrt_cu_start xcu in
                let xcu :=
                  if cu_thread xcu then
                    let xcu := xcu <| cu_poll_count := 0 |> in
                    if negb (cu_force_intr xcu) && cu_interrupt_used xcu
                    then xrt_cu_switch_to_poll xcu else xcu
                  else xcu in
                let xcu := xrt_cu_circ_produce xcu CU_LOG_STAGE_RQ (xcmd_id xcmd) in
                let xcu := xcu <| cu_rq := rq |>
                               <| cu_num_sq := u32 (cu_num_sq xcu + 1) |>
                               <| cu_num_rq := u32 (cu_num_rq xcu - 1) |> in
                let xcu := if max_sq_length (cu_stats xcu) <? cu_num_sq xcu
                           then on_stats (fun s => s <| max_sq_length := cu_num_sq xcu |>) xcu
                           else xcu in
                Some (true, xcu)
        end
    end.

(** ** Pending queue *)

Definition process_pq (xcu : cu) : cu :=
  if negb (z2b (cu_num_pq xcu)) then xcu
  else
    let xcu := xrt_cu_idle_end xcu in
    let xcu := xcu <| cu_rq := cu_rq xcu ++ cu_pq xcu |> <| cu_pq := [] |>
                   <| cu_num_rq := u32 (cu_num_rq xcu + cu_num_pq xcu) |>
                   <| cu_num_pq := 0 |> in
    if cu_max_running xcu <? cu_num_rq xcu
    then xcu <| cu_max_running := cu_num_rq xcu |> else xcu.

(** ** High priority queue *)

(** Split a queue at the first command that satisfies [m]. *)
Fixpoint find_split (m : kds_command -> bool) (q : list kds_command)
  : option (list kds_command * kds_command * list kds_command) :=
  match q with
  | [] => None
  | x :: q => if m x then Some ([], x, q)
              else r ← find_split m q; Some (x :: r.1.1, r.1.2, r.2)
  end.

(** Returns the abort command with its final status. *)
Definition try_abort_cmd (xcu : cu) (abort_cmd : kds_command) : option (kds_command * cu) :=
  info ← xcmd_info abort_cmd;
  handle ← aget_chk 0 info 0;
  match find_split (abort_handle handle) (cu_rq xcu) with
  | Some (before, xcmd, after) =>
      Some (set_status KDS_COMPLETED abort_cmd,
            xcu <| cu_rq := before ++ after |>
                <| cu_cq := cu_cq xcu ++ [set_status KDS_ABORT xcmd] |>
                <| cu_num_cq := u32 (cu_num_cq xcu + 1) |>
                <| cu_num_rq := u32 (cu_num_rq xcu - 1) |>)
  | None =>
      if negb (z2b (cu_num_sq xcu)) then Some (abort_cmd, xcu)
      else
        a ← xrt_cu_cmd_abort xcu (abort_handle handle);
        let '(r, xcu) := a in
        let '(abort_cmd, xcu) :=
          if z2b r then (set_status KDS_TIMEOUT abort_cmd, xcu <| cu_bad_state := true |>)
          else (set_status KDS_COMPLETED abort_cmd, xcu) in
        xcu ← drain false (drain_fuel xcu) xcu;
        Some (abort_cmd, xcu)
  end.

Fixpoint hpq_walk (hpq : list kds_command) (xcu : cu) : option (list cu_event * cu) :=
  match hpq with
  | [] => Some ([], xcu)
  | xcmd :: hpq =>
      r ← (if bool_decide (xcmd_opcode xcmd = OP_ABORT)
           then try_abort_cmd xcu xcmd else Some (xcmd, xcu));
      let '(xcmd, xcu) := r in
      r ← hpq_walk hpq (xcu <| cu_hpq := hpq |> <| cu_num_hpq := u32 (cu_num_hpq xcu - 1) |>);
      Some (EvHpqDone xcmd :: r.1, r.2)
  end.

Definition process_hpq (xcu : cu) : option (list cu_event * cu) :=
  if negb (z2b (cu_num_hpq xcu)) then Some ([], xcu)
  else r ← hpq_walk (cu_hpq xcu) xcu;
       Some (r.1, r.2 <| cu_comp ::= fun n => n + 1 |>).

(** ** The two scheduling loops *)

(** [while (process_rq(xcu))]: every round that continues takes one command
    off the run queue, so [S num_rq] rounds are enough ([process_rq_loop_ok]). *)
Fixpoint process_rq_loop (fuel : nat) (xcu : cu) : option cu :=
  match fuel with
  | O => None
  | S fuel => r ← process_rq xcu;
              let '(go, xcu) := r in
              if go : bool then process_rq_loop fuel xcu else Some xcu
  end.

Definition rq_fuel (xcu : cu) : nat := S (Z.to_nat (cu_num_rq xcu)).

Definition xrt_cu_process_queues (xcu : cu) : option (Z * list cu_event * cu) :=
  let xcu := process_pq xcu in
  xcu ← process_rq_loop (rq_fuel xcu) xcu;
  r ← process_cq xcu;
  let '(ev1, xcu) := r in
  xcu ← process_sq xcu;
  r ← process_hpq xcu;
  let '(ev2, xcu) := r in
  Some (if z2b (cu_num_rq xcu) || z2b (cu_num_sq xcu) || z2b (cu_num_cq xcu)
        then XCU_BUSY else XCU_IDLE, ev1 ++ ev2, xcu).

(** One round of the interrupt thread's [while (!xcu->stop)].  [slept_cu] and
    [slept] are what the rest of the system does while the thread sleeps on
    [sem_cu] and on [sem]. *)
Definition xrt_cu_intr_round (slept_cu slept : cu -> cu) (xcu : cu)
  : option (list cu_event * cu) :=
  r ← process_rq xcu;
  let '(go, xcu) := r in
  if go : bool then Some ([], xcu)
  else
    r ← process_cq xcu;
    let '(ev1, xcu) := r in
    xcu ← (if z2b (cu_num_sq xcu) || is_zero_credit xcu then
             if negb (cu_interrupt_used xcu) then
               xcu ← process_sq xcu;
               let xcu := xcu <| cu_poll_count := u32 (cu_poll_count xcu + 1) |> in
               Some (if cu_poll_threshold xcu <=? cu_poll_count xcu
                     then xrt_cu_switch_to_interrupt xcu else xcu)
             else
               xcu ← xrt_cu_check xcu;
               xcu ← (if negb (z2b (cu_done_cnt xcu)) || negb (z2b (cu_ready_cnt xcu))
                      then xrt_cu_check
                             (slept_cu (xcu <| cu_sleep_cnt := u32 (cu_sleep_cnt xcu + 1) |>))
                      else Some xcu);
               process_sq_inner xcu
           else Some xcu);
    r ← process_hpq xcu;
    let '(ev2, xcu) := r in
    if z2b (cu_num_rq xcu) then Some (ev1 ++ ev2, xcu)
    else
      xcu ←
        (if negb (z2b (cu_num_sq xcu)) && negb (z2b (cu_num_cq xcu))
         then xcu ← (if negb (z2b (cu_num_pq xcu)) then xrt_cu_check_force xcu else Some xcu);
              Some (slept xcu)
         else Some xcu);
      Some (ev1 ++ ev2, process_pq xcu).

(** What the thread does before and after its loop. *)
Definition xrt_cu_intr_enter (xcu : cu) : cu :=
  let xcu := xcu <| cu_interrupt_used := false |> in
  if cu_force_intr xcu
  then xrt_cu_switch_to_interrupt (xcu <| cu_interrupt_used := true |>) else xcu.

Definition xrt_cu_intr_exit (ret : Z) (xcu : cu) : Z * cu :=
  let xcu := xrt_cu_disable_intr xcu (Z.lor CU_INTR_DONE CU_INTR_READY) in
  (if cu_bad_state xcu then - EBUSY else ret, xcu).

(** ** Operations of the other threads *)

Definition xrt_cu_submit (xcu : cu) (xcmd : kds_command) : cu :=
  let xcu := xcu <| cu_pq := cu_pq xcu ++ [xcmd] |>
                 <| cu_num_pq := u32 (cu_num_pq xcu + 1) |> in
  let first_command := cu_num_pq xcu =? 1 in
  if first_command then xcu <| cu_sem ::= fun n => n + 1 |> else xcu.

(** The part of [xrt_cu_hpq_submit] before it waits for [comp]. *)
Definition xrt_cu_hpq_submit (xcu : cu) (xcmd : kds_command) : cu :=
  if info_protocol (cu_info xcu) =? CTRL_NONE then xcu
  else xcu <| cu_hpq := cu_hpq xcu ++ [xcmd] |>
           <| cu_num_hpq := u32 (cu_num_hpq xcu + 1) |>
           <| cu_sem ::= fun n => n + 1 |>.

(** [wait_for_completion]: proceeds when the count is positive. *)
Definition wait_for_completion (xcu : cu) : option cu :=
  if 0 <? cu_comp xcu then Some (xcu <| cu_comp ::= fun n => n - 1 |>) else None.

Definition xrt_cu_abort (xcu : cu) (client : Z) : cu :=
  if bool_decide (client ∈ cu_events xcu) then xcu
  else xcu <| cu_events := cu_events xcu ++ [client] |>.

(** Remove the first occurrence. *)
Fixpoint remove_first (c : Z) (l : list Z) : list Z :=
  match l with
  | [] => []
  | x :: l => if x =? c then l else x :: remove_first c l
  end.

Definition xrt_cu_abort_done (xcu : cu) (client : Z) : bool * cu :=
  let xcu := xcu <| cu_events := remove_first client (cu_events xcu) |> in
  (cu_bad_state xcu, xcu).

Definition xrt_cu_get_protocol (xcu : cu) : Z := info_protocol (cu_info xcu).
Definition xrt_cu_get_status (xcu : cu) : Z := cu_status xcu.

Definition xrt_cu_intr_supported (xcu : cu) : bool :=
  if info_model (cu_info xcu) =? XCU_XGQ then true
  else if negb (info_intr_enable (cu_info xcu)) then false
  else if xrt_cu_get_protocol xcu =? CTRL_NONE then false
  else true.

(** [ok] says whether [kthread_run] succeeds.  [err] is [IS_ERR], i.e. 1. *)
Definition xrt_cu_start_thread (ok : bool) (xcu : cu) : Z * cu :=
  if cu_thread xcu then (0, xcu)
  else
    let xcu := xcu <| cu_stop := 0 |> <| cu_sem := 0 |> <| cu_sem_cu := 0 |>
                   <| cu_tick := 0 |> in
    if ok then (0, xcu <| cu_thread := true |>) else (1, xcu <| cu_thread := false |>).

(** [kthread_stop] returns when the thread has left its loop; [stopped] is
    what it did meanwhile. *)
Definition xrt_cu_stop_thread (stopped : cu -> cu) (xcu : cu) : cu :=
  if negb (cu_thread xcu) then xcu
  else
    let xcu := xcu <| cu_stop := 1 |> <| cu_sem_cu ::= fun n => n + 1 |>
                   <| cu_sem ::= fun n => n + 1 |> in
    stopped xcu <| cu_thread := false |> <| cu_sem := 0 |> <| cu_sem_cu := 0 |>.

Definition xrt_cu_cfg_update (stopped : cu -> cu) (ok : bool) (xcu : cu) (intr : Z)
  : Z * cu :=
  if negb (xrt_cu_intr_supported xcu) then (- ENOSYS, xcu)
  else
    let xcu := xrt_cu_stop_thread stopped xcu in
    if negb (z2b intr) then (0, xcu) else xrt_cu_start_thread ok xcu.

(** The CU is [kzalloc]ed before it is initialised. *)
Definition xrt_cu_init (xcu : cu) : Z * cu :=
  if bool_decide (info_iname (cu_info xcu) = []) then (0, xcu)
  else
    let xcu := xcu <| cu_pq := [] |> <| cu_rq := [] |> <| cu_cq := [] |>
                   <| cu_events := [] |> <| cu_sem := 0 |> <| cu_sem_cu := 0 |>
                   <| cu_hpq := [] |> <| cu_comp := 0 |>
                   <| cu_crc ::= fun b => mk_circ_buf (crc_buf b) 0 0 |> in
    let xcu := xrt_cu_init_ecmd_and_sq_count xcu in
    (0, xcu <| cu_tick := 0 |> <| cu_start_tick := 0 |> <| cu_thread := false |>
            <| cu_poll_threshold := CU_DEFAULT_POLL_THRESHOLD |>
            <| cu_interrupt_used := false |>).

Definition xrt_cu_fini (stopped : cu -> cu) (xcu : cu) : cu :=
  if bool_decide (info_iname (cu_info xcu) = []) then xcu
  else
    let xcu := xcu <| cu_stop := 1 |> <| cu_sem_cu ::= fun n => n + 1 |>
                   <| cu_sem ::= fun n => n + 1 |> in
    if cu_thread xcu then stopped xcu else xcu.
End XrtCu.

(** A freshly allocated (zeroed) CU with the given description and core. *)
Definition xrt_cu_alloc {C} (info : xrt_cu_info) (core : C) : xrt_cu C :=
  mk_xrt_cu info 0 0 [] 0 [] 0 0 [] 0 0 [] 0 0 0 core 0 false 0 0 0 0 0 0 0 [] 0 0 false
    (mk_xrt_cu_stats 0 0 0 0 0 0 0 0 0 0 0 0 0 0 0) false 0 0 false 0 0 false 0 false circ_init.
