(* ===== verification/XrtCuSched.v ===== *)
(** * Correctness of the CU command scheduler

    Theorems about the queues of [XrtCu], proved once for every implementation
    that satisfies [XcuLaws]: the counters agree with the queues, no command is
    lost or duplicated, commands leave in the order they came unless aborted,
    and the loops terminate. *)
From S2P Require Import Prelude KdsCommand CuInfo CuCore CircLog XrtCu CuHls CuFa.

Definition ids (q : list kds_command) : list Z := xcmd_id <$> q.

(** The commands whose host was notified, and the freed ones. *)
Definition notified (ev : list cu_event) : list Z :=
  omap (fun e => match e with EvNotify x _ => Some (xcmd_id x) | _ => None end) ev.
Definition freed_ids (ev : list cu_event) : list Z :=
  omap (fun e => match e with EvFree i => Some i | _ => None end) ev.

(** The high priority commands that were answered. *)
Definition hpq_done (ev : list cu_event) : list Z :=
  omap (fun e => match e with EvHpqDone x => Some (xcmd_id x) | _ => None end) ev.

#[local] Arguments upd : simpl never.

(** Split on the first conditional of the goal. *)
Ltac case_if := match goal with |- context [if ?b then _ else _] => destruct b eqn:? end.

Section Sched.
Context {C : Type} (funcs : xcu_funcs C) {L : XcuLaws funcs}.
#[local] Abbreviation cu := (xrt_cu C).
Implicit Types (xcu : cu) (ev : list cu_event).

(** Statuses a host may be notified with. *)
Definition final_status (s : kds_status) : Prop :=
  s = KDS_COMPLETED \/ s = KDS_ABORT \/ s = KDS_TIMEOUT \/ reported s.

(** All commands in the CU, the next to be notified first. *)
Definition flight xcu : list kds_command :=
  cu_cq xcu ++ completed (cu_core xcu) ++ submitted (cu_core xcu) ++ cu_rq xcu ++ cu_pq xcu.

Definition hpq_ok (x : kds_command) : Prop :=
  exists w info, xcmd_info x = Some (w :: info).

Record cu_wf xcu : Prop := {
  wf_pq : cu_num_pq xcu = Z.of_nat (length (cu_pq xcu));
  wf_rq : cu_num_rq xcu = Z.of_nat (length (cu_rq xcu));
  wf_cq : cu_num_cq xcu = Z.of_nat (length (cu_cq xcu));
  wf_hpq : cu_num_hpq xcu = Z.of_nat (length (cu_hpq xcu));
  wf_sq : cu_num_sq xcu = Z.of_nat (length (completed (cu_core xcu)) +
                                    length (submitted (cu_core xcu)));
  wf_max : Z.of_nat (length (flight xcu)) < 2 ^ 32;
  wf_hmax : Z.of_nat (length (cu_hpq xcu)) < 2 ^ 32;
  wf_cmds : Forall cmd_ok (cu_rq xcu ++ cu_pq xcu);
  wf_hcmds : Forall hpq_ok (cu_hpq xcu);
  wf_final : Forall (fun x => final_status (xcmd_status x))
               (cu_cq xcu ++ completed (cu_core xcu));
  wf_core : core_ok (cu_core xcu);
}.

(** [flow xcu ev xcu']: going from [xcu] to [xcu'] with events [ev], every
    command is notified or still in flight, each notified one is freed, and
    without abort requests the order is kept. *)
Record flow xcu ev xcu' : Prop := {
  flow_perm : ids (flight xcu) ≡ₚ notified ev ++ ids (flight xcu');
  flow_fifo : cu_events xcu = [] -> cu_hpq xcu = [] ->
              ids (flight xcu) = notified ev ++ ids (flight xcu');
  flow_freed : freed_ids ev = notified ev;
  flow_events : cu_events xcu' = cu_events xcu;
  flow_hpq : cu_hpq xcu = [] -> cu_hpq xcu' = [];
  flow_final : forall x s, EvNotify x s ∈ ev -> final_status s /\ xcmd_status x = s;
  flow_wf : cu_wf xcu';
}.

Lemma notified_app e1 e2 : notified (e1 ++ e2) = notified e1 ++ notified e2.
Proof. apply omap_app. Qed.
Lemma freed_app e1 e2 : freed_ids (e1 ++ e2) = freed_ids e1 ++ freed_ids e2.
Proof. apply omap_app. Qed.

Lemma flow_trans x e1 y e2 z : flow x e1 y -> flow y e2 z -> flow x (e1 ++ e2) z.
Proof.
  intros [P1 F1 R1 E1 H1 N1 W1] [P2 F2 R2 E2 H2 N2 W2]. split.
  - by rewrite P1, P2, notified_app, app_assoc.
  - intros He Hh. rewrite F1, F2, notified_app, app_assoc by (rewrite ?E1; auto). done.
  - by rewrite freed_app, notified_app, R1, R2.
  - congruence.
  - auto.
  - intros a s Ha. apply elem_of_app in Ha as [Ha|Ha]; eauto.
  - done.
Qed.

(** Steps without callbacks. *)
Lemma flow_silent x y :
  ids (flight x) = ids (flight y) -> cu_events y = cu_events x ->
  (cu_hpq x = [] -> cu_hpq y = []) -> cu_wf y -> flow x [] y.
Proof. intros E1 E2 E3 W. split; simpl; try done; [by rewrite E1|set_solver]. Qed.

Lemma flow_silent_perm x y :
  ids (flight x) ≡ₚ ids (flight y) -> cu_events x <> [] \/ cu_hpq x <> [] ->
  cu_events y = cu_events x -> (cu_hpq x = [] -> cu_hpq y = []) -> cu_wf y -> flow x [] y.
Proof.
  intros E1 Hne E2 E3 W. split; simpl; try done; [|set_solver].
  intros H1 H2. destruct Hne; done.
Qed.

(** The fields the invariant depends on. *)
Definition same_flow (a b : cu) : Prop :=
  cu_pq a = cu_pq b /\ cu_num_pq a = cu_num_pq b /\
  cu_rq a = cu_rq b /\ cu_num_rq a = cu_num_rq b /\
  cu_cq a = cu_cq b /\ cu_num_cq a = cu_num_cq b /\
  cu_hpq a = cu_hpq b /\ cu_num_hpq a = cu_num_hpq b /\
  cu_num_sq a = cu_num_sq b /\ cu_events a = cu_events b /\
  completed (cu_core a) = completed (cu_core b) /\
  submitted (cu_core a) = submitted (cu_core b) /\
  (core_ok (cu_core b) -> core_ok (cu_core a)).

Lemma same_flow_wf a b : same_flow b a -> cu_wf a -> cu_wf b.
Proof.
  intros (E1&E2&E3&E4&E5&E6&E7&E8&E9&E10&E11&E12&E13) [? ? ? ? ? ? ? ? ? ? ?].
  split; unfold flight in *; try congruence. auto.
Qed.

Lemma same_flow_flow a b : same_flow b a -> cu_wf a -> flow a [] b.
Proof.
  intros HS HW. pose proof (same_flow_wf _ _ HS HW).
  destruct HS as (E1&E2&E3&E4&E5&E6&E7&E8&E9&E10&E11&E12&E13).
  split; unfold flight in *; simpl; try congruence.
  - by rewrite E1, E3, E5, E11, E12.
  - set_solver.
Qed.

#[local] Instance same_flow_preorder : PreOrder same_flow.
Proof. split; red; unfold same_flow; intros; intuition congruence. Qed.

(** Operations on fields the invariant does not look at. *)
Lemma circ_produce_same now stage cmd xcu :
  same_flow (xrt_cu_circ_produce now xcu stage cmd) xcu.
Proof. unfold xrt_cu_circ_produce. by destruct (cu_debug xcu). Qed.

Lemma on_stats_same g xcu : same_flow (on_stats g xcu) xcu.
Proof. done. Qed.

Lemma incr_ecmd_same xcu : same_flow (xrt_cu_incr_ecmd_count xcu) xcu.
Proof. unfold xrt_cu_incr_ecmd_count. by case_match. Qed.

Lemma idle_start_same now xcu : same_flow (xrt_cu_idle_start now xcu) xcu.
Proof. unfold xrt_cu_idle_start. by repeat case_match. Qed.

Lemma idle_end_same now xcu : same_flow (xrt_cu_idle_end now xcu) xcu.
Proof. unfold xrt_cu_idle_end. by repeat case_match. Qed.

Lemma on_core_same g xcu :
  submitted (g (cu_core xcu)) = submitted (cu_core xcu) ->
  completed (g (cu_core xcu)) = completed (cu_core xcu) ->
  (core_ok (cu_core xcu) -> core_ok (g (cu_core xcu))) ->
  same_flow (on_core g xcu) xcu.
Proof. unfold same_flow, on_core. rproj. done. Qed.

Lemma put_credit_same n xcu : same_flow (xrt_cu_put_credit funcs xcu n) xcu.
Proof. apply on_core_same; apply (law_free (cu_core xcu) n). Qed.

Lemma enable_intr_same t xcu : same_flow (xrt_cu_enable_intr funcs xcu t) xcu.
Proof. apply on_core_same; apply (law_intr (cu_core xcu) t). Qed.

Lemma disable_intr_same t xcu : same_flow (xrt_cu_disable_intr funcs xcu t) xcu.
Proof. apply on_core_same; apply (law_intr (cu_core xcu) t). Qed.

Lemma start_same xcu : same_flow (xrt_cu_start funcs xcu) xcu.
Proof. apply on_core_same; apply (law_start (cu_core xcu)). Qed.

Lemma ids_set_status s q : ids (set_status s <$> q) = ids q.
Proof. unfold ids. rewrite <- list_fmap_compose. done. Qed.

Lemma ids_app p q : ids (p ++ q) = ids p ++ ids q.
Proof. apply fmap_app. Qed.

Lemma length_ids q : length (ids q) = length q.
Proof. apply length_fmap. Qed.

(** Keeping the identifiers keeps the number of commands in flight. *)
Lemma flight_length xcu xcu' :
  ids (flight xcu) ≡ₚ ids (flight xcu') -> length (flight xcu') = length (flight xcu).
Proof. intros P. apply Permutation_length in P. by rewrite !length_ids in P. Qed.

Lemma flight_parts xcu :
  length (flight xcu) =
  (length (cu_cq xcu) + length (completed (cu_core xcu)) +
   length (submitted (cu_core xcu)) + length (cu_rq xcu) + length (cu_pq xcu))%nat.
Proof. unfold flight. rewrite !length_app. lia. Qed.

Lemma Forall_final s q : final_status s ->
  Forall (fun x => final_status (xcmd_status x)) (set_status s <$> q).
Proof. intros Hs. apply Forall_fmap, Forall_true. done. Qed.

(** ** Status check *)

(** The core completes some commands, by itself or at a check. *)
Lemma moves_flow xcu c' :
  cu_wf xcu -> moves submitted completed reported (cu_core xcu) c' -> core_ok c' ->
  flow xcu [] (xcu <| cu_core := c' |>).
Proof.
  intros W (fin & fin' & E1 & E2 & Hi & Hr) Hc. set (xcu' := xcu <| cu_core := c' |>).
  assert (ids (flight xcu) = ids (flight xcu')) as Hids.
  { subst xcu'. unfold flight. rproj. rewrite E1, E2, !ids_app. unfold ids. rewrite Hi.
    by rewrite <- !app_assoc. }
  pose proof (f_equal length Hi) as Hl. rewrite !length_fmap in Hl.
  apply flow_silent; [done..|].
  destruct W. split; subst xcu'; rproj; try done.
  - rewrite wf_sq0, E1, E2, !length_app. lia.
  - rewrite (flight_length xcu) by (by rewrite Hids). done.
  - rewrite E2, app_assoc. apply Forall_app. split; [done|].
    eapply Forall_impl; [exact Hr|]. unfold final_status. simpl. tauto.
Qed.

Lemma check_flow force xcu xcu' :
  cu_wf xcu -> xrt_cu_check_gen funcs xcu force = Some xcu' -> flow xcu [] xcu'.
Proof.
  intros W E. unfold xrt_cu_check_gen in E. apply bind_Some in E as ([s c'] & Ec & E). simplify_eq.
  apply law_check in Ec as [Hm Hc]; [|apply W].
  pose proof (moves_flow xcu c' W Hm Hc) as F. apply (flow_trans _ [] _ [] _ F).
  by apply same_flow_flow; [|apply F].
Qed.

Lemma check_total {T : XcuChecks funcs} force xcu :
  cu_wf xcu -> exists xcu', xrt_cu_check_gen funcs xcu force = Some xcu'.
Proof.
  intros W. unfold xrt_cu_check_gen.
  destruct (law_check_total (cu_core xcu) status_zero force (wf_core _ W)) as [[s c] ->]. by eexists.
Qed.

(** ** Draining the completed commands *)

Lemma drain_ok now log fuel xcu :
  cu_wf xcu -> (length (completed (cu_core xcu)) < fuel)%nat ->
  exists xcu', drain funcs now log fuel xcu = Some xcu' /\ flow xcu [] xcu' /\
    completed (cu_core xcu') = [] /\ submitted (cu_core xcu') = submitted (cu_core xcu) /\
    cu_rq xcu' = cu_rq xcu /\ cu_pq xcu' = cu_pq xcu /\
    cu_cq xcu' = cu_cq xcu ++ completed (cu_core xcu) /\
    cu_bad_state xcu' = cu_bad_state xcu /\
    cu_hpq xcu' = cu_hpq xcu /\ cu_num_hpq xcu' = cu_num_hpq xcu.
Proof.
  revert xcu. induction fuel as [|fuel IH]; intros xcu W Hf; [lia|]. cbn [drain].
  unfold xrt_cu_get_complete. destruct law_get as (get & -> & Hget).
  specialize (Hget (cu_core xcu) (wf_core _ W)).
  destruct (completed (cu_core xcu)) as [|x xs] eqn:Ec.
  - rewrite Hget. cbn [mbind option_bind fst snd]. eexists. split; [reflexivity|]. rproj.
    split; [apply same_flow_flow; [done|done]|]. by rewrite Ec, app_nil_r.
  - destruct Hget as (c' & -> & Hcore & Es & Ecs). cbn [mbind option_bind fst snd].
    set (xcu0 := if log then _ else _).
    assert (same_flow xcu0 (xcu <| cu_core := c' |>)) as S0.
    { subst xcu0. destruct log; [apply circ_produce_same|done]. }
    assert (cu_bad_state xcu0 = cu_bad_state xcu) as B0.
    { subst xcu0. destruct log; [|done]. unfold xrt_cu_circ_produce. by destruct (cu_debug _). }
    clearbody xcu0.
    destruct S0 as (P1&P2&P3&P4&P5&P6&P7&P8&P9&P10&P11&P12&P13). rproj.
    set (xcu1 := upd cu_num_sq _ _).
    assert (ids (flight xcu) = ids (flight xcu1)) as Hids.
    { subst xcu1. unfold flight. rproj.
      rewrite Ec, P1, P3, P5, P11, P12, Es, Ecs, !ids_app. simpl.
      by rewrite <- !app_assoc. }
    pose proof (flight_parts xcu) as Hpar. pose proof (wf_max _ W) as Hmax.
    pose proof (wf_sq _ W) as Hsq. pose proof (wf_cq _ W) as Hcq.
    rewrite Ec in Hsq, Hpar. cbn [length] in Hsq, Hpar.
    assert (cu_wf xcu1) as W1.
    { destruct W. split; subst xcu1; rproj; try congruence; try done; try solve [auto].
      - rewrite P5, P6, u32_small, length_app by lia. cbn [length]. lia.
      - rewrite P9, P11, P12, Es, Ecs, u32_small by lia. lia.
      - rewrite (flight_length xcu) by (by rewrite Hids). done.
      - rewrite P5, P11, Ecs, <- app_assoc. simpl. by rewrite <- Ec. }
    destruct (IH xcu1 W1) as (xcu' & E & F & G1 & G2 & G3 & G4 & G5 & G6 & G7 & G8).
    { subst xcu1. rproj. rewrite P11, Ecs. cbn [length] in Hf. lia. }
    exists xcu'. split; [exact E|]. split.
    { apply (flow_trans _ [] xcu1 []); [|done].
      split; subst xcu1; simpl; try done; try congruence; [by rewrite Hids|set_solver]. }
    subst xcu1. rproj. rewrite G5, P5, P11, Ecs, <- app_assoc.
    split_and!; try congruence. done.
Qed.

Lemma drain_fuel_ok xcu :
  cu_wf xcu -> (length (completed (cu_core xcu)) < drain_fuel xcu)%nat.
Proof. intros W. unfold drain_fuel. rewrite (wf_sq _ W). lia. Qed.

(** ** Completed queue *)

Lemma process_cq_ok now xcu :
  cu_wf xcu ->
  exists ev xcu', process_cq now xcu = Some (ev, xcu') /\ flow xcu ev xcu' /\
    cu_cq xcu' = [] /\ notified ev = ids (cu_cq xcu) /\
    cu_bad_state xcu' = match last (cu_cq xcu) with
                        | Some x => bool_decide (xcmd_status x = KDS_SKCRASHED)
                        | None => cu_bad_state xcu
                        end.
Proof.
  intros W. unfold process_cq. rewrite (wf_cq _ W), Nat2Z.id.
  remember (cu_cq xcu) as cq eqn:Ecq. revert xcu W Ecq.
  induction cq as [|x cq IH]; intros xcu W Ecq; cbn [length process_cq_loop].
  - eexists _, _. split; [reflexivity|]. split; [by apply same_flow_flow|]. by rewrite <- Ecq.
  - rewrite <- Ecq.
    set (x' := set_xcmd_timestamp now x (xcmd_status x)).
    assert (xcmd_id x' = xcmd_id x /\ xcmd_status x' = xcmd_status x) as [Hid Hst].
    { subst x'. unfold set_xcmd_timestamp. by destruct (xcmd_timestamp_enabled x). }
    set (xa := xrt_cu_incr_ecmd_count _).
    assert (same_flow xa xcu /\
            cu_bad_state xa = bool_decide (xcmd_status x' = KDS_SKCRASHED)) as [S0 Hb].
    { subst xa. split.
      - etransitivity; [apply incr_ecmd_same|].
        etransitivity; [|apply circ_produce_same with (stage := CU_LOG_STAGE_CQ)
                           (cmd := xcmd_id x') (now := now)]. done.
      - unfold xrt_cu_incr_ecmd_count. case_if; reflexivity. }
    clearbody xa. destruct S0 as (P1&P2&P3&P4&P5&P6&P7&P8&P9&P10&P11&P12&P13).
    set (xb := upd cu_num_cq _ _).
    pose proof (flight_parts xcu) as Hpar. pose proof (wf_max _ W) as Hmax.
    rewrite <- Ecq in Hpar. cbn [length] in Hpar.
    assert (flight xcu = x :: flight xb) as Hfl.
    { subst xb. unfold flight. rproj. rewrite <- Ecq, P1, P3, P11, P12. done. }
    assert (cu_wf xb) as Wb.
    { destruct W. split; subst xb; rproj; try congruence; try done; try solve [auto].
      - rewrite P6, wf_cq0, <- Ecq, u32_small by (cbn [length]; lia). cbn [length]. lia.
      - rewrite Hfl in wf_max0. cbn [length] in wf_max0. unfold flight in *. rproj. lia.
      - rewrite P11. rewrite <- Ecq in wf_final0. by apply Forall_cons in wf_final0 as [_ ?]. }
    destruct (IH xb Wb) as (ev & xc & E & F & Hc & Hn & Hbad); [done|].
    rewrite E. cbn [mbind option_bind fst snd]. eexists _, _. split; [reflexivity|].
    split; [|split_and!].
    + apply (flow_trans _ [EvNotify x' (xcmd_status x'); EvFree (xcmd_id x')] xb ev); [|done].
      split; simpl; rewrite ?Hfl, ?Hid; try done.
      * intros Hh. congruence.
      * intros y s Hy. apply list_elem_of_In in Hy. simpl in Hy.
        destruct Hy as [[= <- <-]|[Hy|[]]]; [|discriminate]. split; [|done].
        rewrite Hst. pose proof (wf_final _ W) as Hf. rewrite <- Ecq in Hf.
        by apply Forall_cons in Hf as [? _].
    + done.
    + simpl. by rewrite Hn, Hid.
    + rewrite Hbad. destruct cq as [|y cq].
      * cbn [last]. subst xb. rproj. by rewrite Hb, Hst.
      * change (last (x :: y :: cq)) with (last (y :: cq)).
        destruct (last (y :: cq)) eqn:El; [done|]. by apply last_None in El.
Qed.

(** ** Pending queue *)

Lemma process_pq_flow now xcu : cu_wf xcu -> flow xcu [] (process_pq now xcu).
Proof.
  intros W. unfold process_pq. destruct (z2b (cu_num_pq xcu)); cbn [negb];
    [|by apply same_flow_flow].
  pose proof (idle_end_same now xcu) as S0. set (xa := xrt_cu_idle_end now xcu) in *.
  clearbody xa. destruct S0 as (P1&P2&P3&P4&P5&P6&P7&P8&P9&P10&P11&P12&P13).
  set (xb := upd cu_num_pq _ _).
  assert (flight xcu = flight xb) as Hfl.
  { subst xb. unfold flight. rproj. by rewrite P1, P3, P5, P11, P12, app_nil_r. }
  assert (cu_wf xb) as Wb.
  { pose proof (flight_parts xcu). destruct W. split; subst xb; rproj; try congruence; try done; try solve [auto].
    - rewrite P1, P2, P3, P4, length_app, u32_small by lia. lia.
    - by rewrite P1, P3, app_nil_r. }
  apply (flow_trans _ [] xb []).
  - split; simpl; try done; [by rewrite Hfl|by rewrite Hfl|..].
    + subst xb. rproj. congruence.
    + set_solver.
  - destruct (cu_max_running xb <? cu_num_rq xb); by apply same_flow_flow.
Qed.

(** ** Run queue *)

(** The commands the walk aborts. *)
Definition rq_aborted (ev_client : Z) (bad : bool) (x : kds_command) : bool :=
  negb (negb (ev_client =? xcmd_client x) && negb bad).

Lemma rq_abort_walk_spec ev_client bad rq cq nr nc :
  let gone := filter (fun x => rq_aborted ev_client bad x = true) rq in
  Z.of_nat (length rq) <= nr -> 0 <= nc -> nr + nc < 2 ^ 32 ->
  rq_abort_walk ev_client bad rq cq nr nc =
  (filter (fun x => rq_aborted ev_client bad x = false) rq,
   cq ++ (set_status KDS_ABORT <$> gone),
   nr - Z.of_nat (length gone), nc + Z.of_nat (length gone)).
Proof.
  cbv zeta. revert cq nr nc.
  induction rq as [|x rq IH]; intros cq nr nc Hr Hc Hb.
  - cbn. by rewrite app_nil_r, Z.sub_0_r, Z.add_0_r.
  - cbn [length] in Hr. cbn [rq_abort_walk]. rewrite !filter_cons.
    assert (rq_aborted ev_client bad x =
            negb (negb (ev_client =? xcmd_client x) && negb bad)) as -> by done.
    destruct (negb (ev_client =? xcmd_client x) && negb bad).
    + rewrite decide_True, decide_False, IH by (done || lia). done.
    + rewrite decide_False, decide_True by done.
      rewrite !u32_small, IH, <- app_assoc by lia. cbn [length fmap list_fmap app].
      f_equal; [f_equal|]; lia.
Qed.

Lemma filter_split_perm (m : kds_command -> bool) q :
  q ≡ₚ filter (fun x => m x = true) q ++ filter (fun x => m x = false) q.
Proof.
  induction q as [|x q IH]; [done|]. rewrite !filter_cons. destruct (m x); simpl.
  - by rewrite <- IH.
  - rewrite <- Permutation_middle. by rewrite <- IH.
Qed.

Lemma process_rq_ok now xcu :
  cu_wf xcu ->
  exists go xcu', process_rq funcs now xcu = Some (go, xcu') /\ flow xcu [] xcu' /\
    cu_bad_state xcu' = cu_bad_state xcu /\
    (go = true -> cu_num_rq xcu' = cu_num_rq xcu - 1 /\ 0 < cu_num_rq xcu).
Proof.
  intros W. unfold process_rq. pose proof (flight_parts xcu) as Hpar.
  pose proof (wf_max _ W) as Hmax. pose proof (wf_rq _ W) as Hrq. pose proof (wf_cq _ W) as Hcq.
  pose proof (wf_sq _ W) as Hsq.
  destruct (z2b (cu_num_rq xcu)) eqn:Ez; cbn [negb];
    [|eexists _, _; split; [reflexivity|]; split; [by apply same_flow_flow|done]].
  unfold first_event_client_or_null. destruct (cu_events xcu) as [|ev_client evs] eqn:Eev; cbn [head].
  - destruct (cu_rq xcu) as [|x rq] eqn:Erq; [unfold z2b in Ez; cbn [length] in *; lia|].
    unfold xrt_cu_get_credit.
    destruct (law_alloc (cu_core xcu)) as (r & c1 & -> & Es1 & Ec1 & Hk1 & _).
    specialize (Hk1 (wf_core _ W)).
    destruct (z2b r); cbn [negb];
      [|eexists _, _; split; [reflexivity|]; split; [by apply same_flow_flow|done]].
    unfold xrt_cu_submit_config. destruct law_submit as (sub & -> & Hsub).
    set (x' := set_xcmd_timestamp now x KDS_RUNNING).
    assert (cmd_ok x') as Hx'.
    { pose proof (wf_cmds _ W) as Hf. rewrite Erq in Hf. apply Forall_cons in Hf as [Hf _].
      subst x'. unfold set_xcmd_timestamp. destruct (xcmd_timestamp_enabled x); [|done].
      cbn [negb]. by apply law_timestamp. }
    assert (xcmd_id x' = xcmd_id x) as Hid.
    { subst x'. unfold set_xcmd_timestamp. by destruct (xcmd_timestamp_enabled x). }
    rproj. destruct (Hsub c1 x' Hk1 Hx') as (ret & c2 & x2 & -> & Hk2 & Ec2 & Hid2 & Es2 & _).
    cbn [mbind option_bind fst snd]. unfold z2b at 1.
    destruct (Z.eqb_spec ret 0) as [->|Hne]; cbn [negb]; cycle 1.
    { eexists _, _. split; [reflexivity|]. split; [|done]. apply same_flow_flow; [|done].
      etransitivity; [apply put_credit_same|]. unfold same_flow. rproj. split_and!; congruence. }
    set (xa := xrt_cu_circ_produce _ _ _ _).
    assert (same_flow xa (xcu <| cu_core := c2 |>) /\ cu_bad_state xa = cu_bad_state xcu) as [S0 B0].
    { subst xa. split.
      - etransitivity; [apply circ_produce_same|].
        etransitivity; [|etransitivity; [apply start_same|done]].
        case_match; [|done]. case_match; [|done].
        unfold xrt_cu_switch_to_poll.
        etransitivity; [|apply (disable_intr_same (Z.lor CU_INTR_DONE CU_INTR_READY))]. done.
      - unfold xrt_cu_circ_produce. by repeat case_match. }
    clearbody xa. destruct S0 as (P1&P2&P3&P4&P5&P6&P7&P8&P9&P10&P11&P12&P13).
    rproj. set (xb := if _ <? _ then _ else _).
    set (xc := upd cu_num_rq _ _) in xb.
    cbn [length] in *.
    assert (ids (flight xcu) = ids (flight xc)) as Hfl.
    { subst xc. unfold flight. rproj.
      rewrite Erq, P1, P5, P11, P12, Ec2, Es2, Es1, Ec1, !ids_app. cbn.
      rewrite Hid2, Hid, <- !app_assoc. done. }
    assert (flow xcu [] xc) as Fc.
    { apply flow_silent; [exact Hfl|by subst xc; rproj|by subst xc; rproj; rewrite P7|].
      subst xc.
      destruct W. split; rproj; try congruence; try done; try solve [auto].
      - rewrite P4, u32_small; lia.
      - rewrite P9, P11, P12, Ec2, Es2, Es1, Ec1, u32_small by lia. rewrite length_app. cbn. lia.
      - rewrite (flight_length xcu) by (by rewrite Hfl). done.
      - rewrite Erq in wf_cmds0. apply Forall_cons in wf_cmds0 as [_ ?]. by rewrite P1. }
    eexists true, xb. split; [reflexivity|].
    assert (same_flow xb xc /\ cu_bad_state xb = cu_bad_state xc) as [Sb Bb]
      by (subst xb; by case_match).
    split; [|split].
    + apply (flow_trans _ [] xc []); [done|]. apply same_flow_flow; [done|]. apply Fc.
    + rewrite Bb. subst xc. rproj. done.
    + intros _. destruct Sb as (_&_&_&Hn&_). rewrite Hn. subst xc. rproj.
      rewrite P4, u32_small by lia. lia.
  - rewrite rq_abort_walk_spec by lia.
    set (m := rq_aborted ev_client (cu_bad_state xcu)).
    eexists _, _. split; [reflexivity|]. split; [|done].
    set (xb := upd cu_num_cq _ _).
    pose proof (filter_split_perm m (cu_rq xcu)) as HP.
    pose proof (Permutation_length HP) as HPl. rewrite length_app in HPl.
    assert (ids (flight xcu) ≡ₚ ids (flight xb)) as Hfl.
    { subst xb. unfold flight. rproj. rewrite !ids_app, ids_set_status.
      rewrite (fmap_Permutation xcmd_id _ _ HP : ids _ ≡ₚ ids _), ids_app. solve_Permutation. }
    apply flow_silent_perm; [done|left; congruence|done|done|].
    subst xb. destruct W. split; rproj; try done.
    + fold m. lia.
    + rewrite length_app, length_fmap. fold m. lia.
    + rewrite (flight_length xcu) by done. done.
    + apply Forall_app in wf_cmds0 as [H1 H2]. apply Forall_app. split; [|done].
      by apply Forall_filter_sub.
    + rewrite <- app_assoc. apply Forall_app in wf_final0 as [H1 H2].
      rewrite !Forall_app. split_and!; try done. apply Forall_final. right. by left.
Qed.

Lemma process_rq_loop_ok now fuel xcu :
  cu_wf xcu -> (Z.to_nat (cu_num_rq xcu) < fuel)%nat ->
  exists xcu', process_rq_loop funcs now fuel xcu = Some xcu' /\ flow xcu [] xcu' /\
    cu_bad_state xcu' = cu_bad_state xcu.
Proof.
  revert xcu. induction fuel as [|fuel IH]; intros xcu W Hf; [lia|]. cbn [process_rq_loop].
  destruct (process_rq_ok now xcu W) as (go & xa & -> & F & B & Hgo). cbn [mbind option_bind].
  destruct go; [|eexists; split; [reflexivity|done]].
  destruct (Hgo eq_refl) as [Hn Hp].
  destruct (IH xa (flow_wf _ _ _ F)) as (xb & E & F' & B'); [lia|].
  exists xb. split; [exact E|]. split; [|congruence].
  apply (flow_trans _ [] xa [] _ F F').
Qed.

(** ** Submitted queue *)

(** An abort inside the implementation moves commands from [submitted] to
    [completed]; with an abort request pending the order is not promised. *)
Lemma cmd_abort_flow m xcu :
  cu_wf xcu -> cu_events xcu <> [] \/ cu_hpq xcu <> [] ->
  exists r xcu', xrt_cu_cmd_abort funcs xcu m = Some (r, xcu') /\ flow xcu [] xcu' /\
    cu_hpq xcu' = cu_hpq xcu /\ cu_num_hpq xcu' = cu_num_hpq xcu /\
    cu_bad_state xcu' = cu_bad_state xcu /\
    completed (cu_core xcu') = completed (cu_core xcu) ++
      (set_status KDS_TIMEOUT <$> filter (fun x => m x = true) (submitted (cu_core xcu))) /\
    cu_cq xcu' = cu_cq xcu.
Proof.
  intros W Hne. unfold xrt_cu_cmd_abort. destruct law_abort as (ab & -> & Hab).
  destruct (Hab (cu_core xcu) m (wf_core _ W)) as (r & c' & -> & Hk & Es & Ec). cbn [mbind option_bind fst snd].
  exists r, (xcu <| cu_core := c' |>). split; [done|]. rproj.
  pose proof (filter_split_perm m (submitted (cu_core xcu))) as HP.
  assert (ids (flight xcu) ≡ₚ ids (flight (xcu <| cu_core := c' |>))) as Hfl.
  { unfold flight. rproj. rewrite Es, Ec, !ids_app, ids_set_status.
    rewrite (fmap_Permutation xcmd_id _ _ HP : ids _ ≡ₚ ids _), ids_app. solve_Permutation. }
  split; [|done]. apply flow_silent_perm; [done|done|done|done|].
  apply Permutation_length in HP. rewrite length_app in HP.
  destruct W. split; rproj; try done.
  - rewrite wf_sq0, Es, Ec, length_app, length_fmap. lia.
  - rewrite (flight_length xcu) by done. done.
  - rewrite Ec, app_assoc. apply Forall_app. split; [done|]. apply Forall_final. right. right. by left.
Qed.

Lemma process_sq_inner_ok now xcu :
  cu_wf xcu ->
  exists xcu', process_sq_inner funcs now xcu = Some xcu' /\ flow xcu [] xcu'.
Proof.
  intros W. unfold process_sq_inner.
  set (xa := if z2b (cu_ready_cnt xcu) then _ else xcu).
  assert (flow xcu [] xa) as Fa.
  { apply same_flow_flow; [|done]. subst xa. destruct (z2b (cu_ready_cnt xcu)); [|done].
    etransitivity; [|apply (put_credit_same (cu_ready_cnt xcu))]. done. }
  clearbody xa. destruct (negb (z2b (cu_num_sq xa))); [by exists xa|].
  set (mid := match first_event_client_or_null xa with Some _ => _ | None => Some xa end).
  pose proof (flow_wf _ _ _ Fa) as Wa.
  assert (exists xb, mid = Some xb /\ flow xa [] xb) as (xb & -> & Fb).
  { subst mid. unfold first_event_client_or_null.
    destruct (cu_events xa) as [|ev evs] eqn:Eev; cbn [head];
      [eexists; split; [reflexivity|]; by apply same_flow_flow|].
    case_if; [eexists; split; [reflexivity|]; by apply same_flow_flow|].
    case_if; [eexists; split; [reflexivity|]; by apply same_flow_flow|].
    destruct (cmd_abort_flow (abort_client ev) xa Wa) as (r & xc & -> & Fc & _);
      [left; congruence|]. cbn [mbind option_bind]. eexists. split; [reflexivity|].
    apply (flow_trans _ [] xc []); [done|]. apply same_flow_flow; [|apply Fc]. by case_if. }
  cbn [mbind option_bind]. pose proof (flow_wf _ _ _ Fb) as Wb.
  destruct (drain_ok now true (drain_fuel xb) xb Wb (drain_fuel_ok xb Wb)) as (xc & -> & Fc & _).
  cbn [mbind option_bind]. eexists. split; [reflexivity|].
  apply (flow_trans _ [] xa [] _ Fa), (flow_trans _ [] xb [] _ Fb), (flow_trans _ [] xc [] _ Fc).
  apply same_flow_flow; [apply idle_start_same|apply Fc].
Qed.

Lemma process_sq_ok {T : XcuChecks funcs} now xcu :
  cu_wf xcu -> exists xcu', process_sq funcs now xcu = Some xcu' /\ flow xcu [] xcu'.
Proof.
  intros W. unfold process_sq. case_if; [eexists; split; [reflexivity|by apply same_flow_flow]|].
  destruct (check_total false xcu W) as [xa Ea]. pose proof (check_flow false xcu xa W Ea) as Fa.
  unfold xrt_cu_check. rewrite Ea. cbn [mbind option_bind].
  destruct (process_sq_inner_ok now xa) as (xb & -> & Fb); [apply Fa|].
  exists xb. split; [done|]. apply (flow_trans _ [] _ [] _ Fa Fb).
Qed.

(** ** High priority queue *)

Lemma find_split_spec m q :
  match find_split m q with
  | Some (before, x, after) => q = before ++ x :: after /\ m x = true
  | None => Forall (fun x => m x = false) q
  end.
Proof.
  induction q as [|x q IH]; simpl; [constructor|]. destruct (m x) eqn:E; [done|].
  destruct (find_split m q) as [[[before y] after]|]; simpl; [|by constructor].
  destruct IH as [-> ?]. done.
Qed.

Lemma try_abort_cmd_ok now xcu x :
  cu_wf xcu -> hpq_ok x -> cu_hpq xcu <> [] ->
  exists x' xcu', try_abort_cmd funcs now xcu x = Some (x', xcu') /\ flow xcu [] xcu' /\
    cu_hpq xcu' = cu_hpq xcu /\ cu_num_hpq xcu' = cu_num_hpq xcu /\ xcmd_id x' = xcmd_id x.
Proof.
  intros W (w & info & Hi) Hne. unfold try_abort_cmd. rewrite Hi. cbn [mbind option_bind].
  rewrite aget_chk_ok by (cbn [length]; lia). cbn [mbind option_bind].
  set (h := aget 0 (w :: info) 0).
  pose proof (find_split_spec (abort_handle h) (cu_rq xcu)) as Hs.
  destruct (find_split _ _) as [[[before y] after]|].
  - destruct Hs as [Erq _]. eexists _, _. split; [reflexivity|].
    set (xb := upd cu_num_rq _ _). split; [|done].
    assert (ids (flight xcu) ≡ₚ ids (flight xb)) as Hfl.
    { subst xb. unfold flight. rproj. rewrite Erq, !ids_app. cbn.
      solve_Permutation. }
    apply flow_silent_perm; [done|by right|done|done|].
    pose proof (flight_parts xcu) as Hpar. rewrite Erq, length_app in Hpar. cbn [length] in Hpar.
    subst xb. destruct W. rewrite Erq in *. rewrite length_app in *. cbn [length] in *.
    split; rproj; try done.
    + rewrite length_app, u32_small by lia. lia.
    + rewrite length_app, u32_small by lia. cbn [length]. lia.
    + rewrite (flight_length xcu) by done. done.
    + rewrite !Forall_app, Forall_cons in *. tauto.
    + rewrite !Forall_app in *. split_and!; try tauto. apply Forall_singleton. right. by left.
  - case_if; [eexists _, _; split; [reflexivity|]; split; [by apply same_flow_flow|done]|].
    destruct (cmd_abort_flow (abort_handle h) xcu W (or_intror Hne))
      as (r & xa & -> & Fa & Hh & Hn & _). cbn [mbind option_bind].
    set (pr := if z2b r then _ else _).
    assert (exists x' xb, pr = (x', xb) /\ same_flow xb xa /\ xcmd_id x' = xcmd_id x)
      as (x' & xb & -> & Sb & Hid) by (subst pr; destruct (z2b r); by eexists _, _).
    assert (flow xa [] xb) as Fb by (apply same_flow_flow; [done|apply Fa]).
    pose proof (flow_wf _ _ _ Fb) as Wb.
    destruct (drain_ok now false (drain_fuel xb) xb Wb (drain_fuel_ok xb Wb))
      as (xc & -> & Fc & _ & _ & _ & _ & _ & _ & Hh' & Hn').
    destruct Sb as (_&_&_&_&_&_&Sh&Snh&_).
    eexists _, _. split; [reflexivity|]. split_and!; [|congruence..].
    apply (flow_trans _ [] xa [] _ Fa), (flow_trans _ [] xb [] _ Fb Fc).
Qed.

Lemma hpq_walk_ok now hpq xcu :
  cu_wf xcu -> cu_hpq xcu = hpq ->
  exists ev xcu', hpq_walk funcs now hpq xcu = Some (ev, xcu') /\ flow xcu ev xcu' /\
    cu_hpq xcu' = [] /\
    ids hpq = hpq_done ev.
Proof.
  revert xcu. induction hpq as [|x hpq IH]; intros xcu W Eh; cbn [hpq_walk].
  - eexists _, _. split; [reflexivity|]. split; [by apply same_flow_flow|done].
  - assert (exists x' xa, (if bool_decide (xcmd_opcode x = OP_ABORT)
             then try_abort_cmd funcs now xcu x else Some (x, xcu)) = Some (x', xa) /\
             flow xcu [] xa /\ cu_hpq xa = x :: hpq /\
             cu_num_hpq xa = cu_num_hpq xcu /\ xcmd_id x' = xcmd_id x)
      as (x' & xa & -> & Fa & Eha & Hna & Hid).
    { pose proof (wf_hcmds _ W) as Hh. rewrite Eh in Hh. apply Forall_cons in Hh as [Hx _].
      case_bool_decide.
      - destruct (try_abort_cmd_ok now xcu x W Hx) as (x' & xa & E & Fa & H1 & H2 & H3);
          [congruence|]. exists x', xa. rewrite Eh in H1. done.
      - exists x, xcu. split_and!; try done. by apply same_flow_flow. }
    cbn [mbind option_bind]. set (xb := upd cu_num_hpq _ _).
    assert (flow xa [] xb) as Fb.
    { pose proof (flow_wf _ _ _ Fa) as [].
      apply flow_silent; [done|done|intros E; congruence|]. subst xb. rewrite Eha in *.
      cbn [length] in *. split; rproj; try done; try lia.
      - rewrite u32_small; lia.
      - by apply Forall_cons in wf_hcmds0 as [_ ?]. }
    destruct (IH xb) as (ev & xc & -> & Fc & Hh & Hd); [apply Fb|done|].
    cbn [mbind option_bind fst snd]. eexists _, _. split; [reflexivity|]. split; [|split].
    + apply (flow_trans _ [] xa (EvHpqDone x' :: ev) _ Fa),
        (flow_trans _ [] xb (EvHpqDone x' :: ev) _ Fb).
      apply (flow_trans _ [EvHpqDone x'] xb ev); [|done].
      destruct (same_flow_flow xb xb) as [A1 A2 A3 A4 A5 A6 A7]; [done|apply Fb|].
      split; try done. intros y s Hy. apply list_elem_of_In in Hy.
      by destruct Hy as [Hy|[]].
    + done.
    + change (xcmd_id x :: ids hpq = xcmd_id x' :: hpq_done ev). by rewrite Hd, Hid.
Qed.

Lemma process_hpq_ok now xcu :
  cu_wf xcu ->
  exists ev xcu', process_hpq funcs now xcu = Some (ev, xcu') /\ flow xcu ev xcu' /\
    cu_hpq xcu' = [].
Proof.
  intros W. unfold process_hpq. pose proof (wf_hpq _ W) as Hh.
  destruct (z2b (cu_num_hpq xcu)) eqn:Ez; cbn [negb].
  - destruct (hpq_walk_ok now (cu_hpq xcu) xcu W eq_refl) as (ev & xa & -> & Fa & Ha & _).
    cbn [mbind option_bind fst snd]. eexists _, _. split; [reflexivity|]. split; [|done].
    rewrite <- (app_nil_r ev). apply (flow_trans _ ev xa []); [done|].
    apply same_flow_flow; [done|apply Fa].
  - eexists _, _. split; [reflexivity|]. split; [by apply same_flow_flow|].
    destruct (cu_hpq xcu); [done|]. unfold z2b in Ez. cbn [length] in Hh. lia.
Qed.

(** ** The scheduling rounds *)

Lemma process_queues_ok {T : XcuChecks funcs} now xcu :
  cu_wf xcu ->
  exists r ev xcu', xrt_cu_process_queues funcs now xcu = Some (r, ev, xcu') /\
    flow xcu ev xcu' /\ r = if (length (flight xcu') =? length (cu_pq xcu'))%nat
                            then XCU_IDLE else XCU_BUSY.
Proof.
  intros W. unfold xrt_cu_process_queues.
  pose proof (process_pq_flow now xcu W) as F0. set (x0 := process_pq now xcu) in *.
  pose proof (flow_wf _ _ _ F0) as W0.
  destruct (process_rq_loop_ok now (rq_fuel x0) x0 W0) as (x1 & -> & F1 & _);
    [unfold rq_fuel; lia|]. cbn [mbind option_bind].
  destruct (process_cq_ok now x1 (flow_wf _ _ _ F1)) as (e2 & x2 & -> & F2 & _).
  cbn [mbind option_bind].
  destruct (process_sq_ok now x2 (flow_wf _ _ _ F2)) as (x3 & -> & F3).
  cbn [mbind option_bind].
  destruct (process_hpq_ok now x3 (flow_wf _ _ _ F3)) as (e4 & x4 & -> & F4 & _).
  cbn [mbind option_bind]. eexists _, _, _. split; [reflexivity|]. split.
  - apply (flow_trans _ [] x0 (e2 ++ e4) _ F0), (flow_trans _ [] x1 (e2 ++ e4) _ F1).
    apply (flow_trans _ e2 x2 e4 _ F2), (flow_trans _ [] x3 e4 _ F3 F4).
  - pose proof (flow_wf _ _ _ F4) as []. rewrite flight_parts. unfold z2b.
    destruct (Nat.eqb_spec (length (cu_cq x4) + length (completed (cu_core x4)) +
      length (submitted (cu_core x4)) + length (cu_rq x4) + length (cu_pq x4))%nat
      (length (cu_pq x4))); destruct (negb _ || negb _ || negb _) eqn:E; try done; lia.
Qed.

(** ** Interleavings

    The CU thread, the client threads, the timers, the interrupt handler and
    the hardware act on a CU in any order.  One action is one call of the
    functions above; [step_device] is a change of the core from outside that may
    complete commands, and everything that leaves the queues alone (timers,
    clock, mode switches, semaphores, hardware progress) is [step_other]. *)
Inductive cu_action :=
| ASubmit (xcmd : kds_command)
| AHpq (xcmd : kds_command)
| AAbort (client : Z)
| AAbortDone (client : Z)
| AThread (ev : list cu_event).

Inductive cu_step : cu -> cu_action -> cu -> Prop :=
| step_submit xcu x :
    cmd_ok x -> Z.of_nat (length (flight xcu)) + 1 < 2 ^ 32 ->
    cu_step xcu (ASubmit x) (xrt_cu_submit xcu x)
| step_hpq_submit xcu x :
    hpq_ok x -> Z.of_nat (length (cu_hpq xcu)) + 1 < 2 ^ 32 ->
    cu_step xcu (AHpq x) (xrt_cu_hpq_submit xcu x)
| step_abort xcu c : cu_step xcu (AAbort c) (xrt_cu_abort xcu c)
| step_abort_done xcu c : cu_step xcu (AAbortDone c) (xrt_cu_abort_done xcu c).2
| step_pq now xcu : cu_step xcu (AThread []) (process_pq now xcu)
| step_rq now xcu go xcu' :
    process_rq funcs now xcu = Some (go, xcu') -> cu_step xcu (AThread []) xcu'
| step_cq now xcu ev xcu' :
    process_cq now xcu = Some (ev, xcu') -> cu_step xcu (AThread ev) xcu'
| step_check force xcu xcu' :
    xrt_cu_check_gen funcs xcu force = Some xcu' -> cu_step xcu (AThread []) xcu'
| step_device xcu c' :
    moves submitted completed reported (cu_core xcu) c' -> core_ok c' ->
    cu_step xcu (AThread []) (xcu <| cu_core := c' |>)
| step_sq now xcu xcu' :
    process_sq_inner funcs now xcu = Some xcu' -> cu_step xcu (AThread []) xcu'
| step_hpq now xcu ev xcu' :
    process_hpq funcs now xcu = Some (ev, xcu') -> cu_step xcu (AThread ev) xcu'
| step_other xcu xcu' : same_flow xcu' xcu -> cu_step xcu (AThread []) xcu'.

Inductive cu_trace : cu -> list cu_action -> cu -> Prop :=
| trace_nil xcu : cu_trace xcu [] xcu
| trace_cons xcu a xcu1 acts xcu2 :
    cu_step xcu a xcu1 -> cu_trace xcu1 acts xcu2 -> cu_trace xcu (a :: acts) xcu2.

Definition act_in (a : cu_action) : list Z :=
  match a with ASubmit x => [xcmd_id x] | _ => [] end.
Definition act_ev (a : cu_action) : list cu_event :=
  match a with AThread ev => ev | _ => [] end.
(** Commands handed to the CU, and the callbacks it made, over a trace. *)
Definition submitted_ids (acts : list cu_action) : list Z := acts ≫= act_in.
Definition trace_events (acts : list cu_action) : list cu_event := acts ≫= act_ev.
(** No client closes and nothing is aborted. *)
Definition abort_free (acts : list cu_action) : Prop :=
  Forall (fun a => match a with AAbort _ | AHpq _ => False | _ => True end) acts.

Lemma submit_wf xcu x :
  cu_wf xcu -> cmd_ok x -> Z.of_nat (length (flight xcu)) + 1 < 2 ^ 32 ->
  cu_wf (xrt_cu_submit xcu x) /\ flight (xrt_cu_submit xcu x) = flight xcu ++ [x] /\
  cu_events (xrt_cu_submit xcu x) = cu_events xcu /\ cu_hpq (xrt_cu_submit xcu x) = cu_hpq xcu.
Proof.
  intros W Hx Hm. pose proof (flight_parts xcu) as Hp. unfold xrt_cu_submit.
  set (xa := upd cu_num_pq _ _).
  assert (flight xa = flight xcu ++ [x]) as Hfl.
  { subst xa. unfold flight. rproj. by rewrite <- !app_assoc. }
  assert (cu_wf xa) as Wa.
  { destruct W. split; try (subst xa; rproj; done).
    - subst xa. rproj. rewrite wf_pq0, u32_small, length_app by lia. cbn [length]. lia.
    - rewrite Hfl, length_app. cbn [length]. lia.
    - subst xa. rproj. rewrite app_assoc. apply Forall_app. split; [done|].
      by apply Forall_singleton. }
  destruct (cu_num_pq xa =? 1); split_and!; try done.
  by apply (same_flow_wf xa).
Qed.

Lemma abort_done_events c l : l = [] -> remove_first c l = [].
Proof. by intros ->. Qed.

(** One action: the invariant, and the commands before and after. *)
Lemma cu_step_ok xcu a xcu' :
  cu_step xcu a xcu' -> cu_wf xcu ->
  cu_wf xcu' /\
  act_in a ++ ids (flight xcu) ≡ₚ notified (act_ev a) ++ ids (flight xcu') /\
  freed_ids (act_ev a) = notified (act_ev a) /\
  (forall x s, EvNotify x s ∈ act_ev a -> final_status s /\ xcmd_status x = s) /\
  (cu_events xcu = [] -> cu_hpq xcu = [] -> abort_free [a] ->
     cu_events xcu' = [] /\ cu_hpq xcu' = [] /\
     ids (flight xcu) ++ act_in a = notified (act_ev a) ++ ids (flight xcu')).
Proof.
  intros Hst W.
  assert (forall ev y, flow xcu ev y -> a = AThread ev ->
    cu_wf y /\ act_in a ++ ids (flight xcu) ≡ₚ notified (act_ev a) ++ ids (flight y) /\
    freed_ids (act_ev a) = notified (act_ev a) /\
    (forall x s, EvNotify x s ∈ act_ev a -> final_status s /\ xcmd_status x = s) /\
    (cu_events xcu = [] -> cu_hpq xcu = [] -> abort_free [a] ->
     cu_events y = [] /\ cu_hpq y = [] /\
     ids (flight xcu) ++ act_in a = notified (act_ev a) ++ ids (flight y))) as Hflow.
  { intros ev y [P F R E Hh N Wy] ->. cbn [act_in act_ev app]. rewrite app_nil_r.
    split_and!; try done. intros He Hhp _. rewrite E. auto. }
  destruct Hst.
  - destruct (submit_wf xcu x) as (W' & Hfl & He & Hh); [done..|].
    cbn [act_in act_ev notified freed_ids omap list_omap app]. rewrite Hfl, He, Hh, ids_app.
    split_and!; try done; [|set_solver]. by rewrite Permutation_app_comm.
  - unfold xrt_cu_hpq_submit. cbn [act_in act_ev notified freed_ids omap list_omap app].
    destruct (_ =? CTRL_NONE).
    + split_and!; try done; [set_solver|]. intros. split_and!; try done. by rewrite app_nil_r.
    + split_and!; try done; [|set_solver|].
      * destruct W. split; rproj; try done.
        -- rewrite length_app, u32_small by lia. cbn [length]. lia.
        -- rewrite length_app. cbn [length]. lia.
        -- apply Forall_app. split; [done|]. by apply Forall_singleton.
      * intros _ _ Ha. by apply Forall_cons in Ha as [[] _].
  - unfold xrt_cu_abort. cbn [act_in act_ev notified freed_ids omap list_omap app].
    split_and!; try done; [|by case_bool_decide|set_solver|].
    + case_bool_decide; [done|]. destruct W. by split.
    + intros _ _ Ha. by apply Forall_cons in Ha as [[] _].
  - cbn [act_in act_ev notified freed_ids omap list_omap app]. rewrite app_nil_r.
    split_and!; try done; [destruct W; by split|set_solver|].
    intros He Hh _. unfold xrt_cu_abort_done. cbn [snd]. rproj. by rewrite He.
  - by apply (Hflow []); [apply process_pq_flow|].
  - destruct (process_rq_ok now xcu W) as (g & y & E & F & _). simplify_eq. by apply (Hflow []).
  - destruct (process_cq_ok now xcu W) as (e & y & E & F & _). simplify_eq. by eapply Hflow.
  - by apply (Hflow []); [eapply check_flow|].
  - by apply (Hflow []); [apply moves_flow|].
  - destruct (process_sq_inner_ok now xcu W) as (y & E & F). simplify_eq. by apply (Hflow []).
  - destruct (process_hpq_ok now xcu W) as (e & y & E & F & _). simplify_eq. by eapply Hflow.
  - by apply (Hflow []); [apply same_flow_flow|].
Qed.

Lemma cu_trace_ok xcu acts xcu' :
  cu_trace xcu acts xcu' -> cu_wf xcu ->
  cu_wf xcu' /\
  submitted_ids acts ++ ids (flight xcu) ≡ₚ
    notified (trace_events acts) ++ ids (flight xcu') /\
  freed_ids (trace_events acts) = notified (trace_events acts) /\
  (forall x s, EvNotify x s ∈ trace_events acts -> final_status s /\ xcmd_status x = s).
Proof.
  induction 1 as [xcu|xcu a x1 acts x2 Hs _ IH]; intros W.
  - split_and!; try done. set_solver.
  - destruct (cu_step_ok _ _ _ Hs W) as (W1 & P1 & R1 & N1 & _).
    destruct (IH W1) as (W2 & P2 & R2 & N2).
    unfold submitted_ids, trace_events in *. rewrite !bind_cons.
    rewrite notified_app, freed_app, R1, R2.
    split_and!; try done.
    + rewrite <- app_assoc, (Permutation_app_comm (act_in a)), <- app_assoc.
      rewrite (Permutation_app_comm (ids (flight xcu))), P1.
      rewrite (Permutation_app_comm (notified (act_ev a))), app_assoc, P2. solve_Permutation.
    + intros x s Hx. apply elem_of_app in Hx as [Hx|Hx]; eauto.
Qed.

Lemma cu_trace_fifo xcu acts xcu' :
  cu_trace xcu acts xcu' -> cu_wf xcu -> cu_events xcu = [] -> cu_hpq xcu = [] ->
  abort_free acts ->
  ids (flight xcu) ++ submitted_ids acts =
  notified (trace_events acts) ++ ids (flight xcu').
Proof.
  induction 1 as [xcu|xcu a x1 acts x2 Hs _ IH]; intros W He Hh Ha.
  - simpl. by rewrite app_nil_r.
  - apply Forall_cons in Ha as [Ha Has].
    destruct (cu_step_ok _ _ _ Hs W) as (W1 & _ & _ & _ & Hf).
    destruct Hf as (He1 & Hh1 & E1); [done|done|by apply Forall_singleton|].
    unfold submitted_ids, trace_events in *. rewrite !bind_cons, notified_app.
    rewrite app_assoc, E1, <- app_assoc, IH by done. by rewrite app_assoc.
Qed.

(** ** The thread's round as a trace *)

Lemma trace_app x a1 y a2 z : cu_trace x a1 y -> cu_trace y a2 z -> cu_trace x (a1 ++ a2) z.
Proof. induction 1; [done|]. intros. econstructor; eauto. Qed.

Lemma trace_one x a y : cu_step x a y -> cu_trace x [a] y.
Proof. intros. econstructor; [done|constructor]. Qed.

Lemma trace_same x y : same_flow y x -> cu_trace x [AThread []] y.
Proof. intros. by apply trace_one, step_other. Qed.

(** [reaches x ev y]: some interleaving leads from [x] to [y] with thread
    events [ev]. *)
Definition reaches (x : cu) (ev : list cu_event) (y : cu) : Prop :=
  exists acts, cu_trace x acts y /\ trace_events acts = ev.

Lemma reaches_trans x e1 y e2 z : reaches x e1 y -> reaches y e2 z -> reaches x (e1 ++ e2) z.
Proof.
  intros (a1 & T1 & <-) (a2 & T2 & <-). exists (a1 ++ a2). split; [by eapply trace_app|].
  unfold trace_events. by rewrite bind_app.
Qed.

Lemma reaches_step x ev y : cu_step x (AThread ev) y -> reaches x ev y.
Proof.
  intros Hs. exists [AThread ev]. split; [by apply trace_one|].
  unfold trace_events. simpl. by rewrite app_nil_r.
Qed.

Lemma reaches_same x y : same_flow y x -> reaches x [] y.
Proof. intros. by apply reaches_step, step_other. Qed.

Lemma reaches_wf x ev y : reaches x ev y -> cu_wf x -> cu_wf y.
Proof. intros (acts & T & _) W. by apply (cu_trace_ok _ _ _ T W). Qed.

Lemma check_reaches {T : XcuChecks funcs} force x : cu_wf x ->
  exists y, xrt_cu_check_gen funcs x force = Some y /\ reaches x [] y.
Proof.
  intros W. destruct (check_total force x W) as [y E]. exists y. split; [done|].
  by eapply reaches_step, step_check.
Qed.

(** What the rest of the system may do while the thread sleeps. *)
Definition env_ok (f : cu -> cu) : Prop := forall x, reaches x [] (f x).

Lemma intr_round_reaches {T : XcuChecks funcs} now slept_cu slept xcu :
  env_ok slept_cu -> env_ok slept -> cu_wf xcu ->
  exists ev xcu', xrt_cu_intr_round funcs now slept_cu slept xcu = Some (ev, xcu') /\
    reaches xcu ev xcu'.
Proof.
  intros H1 H2 W. unfold xrt_cu_intr_round.
  destruct (process_rq_ok now xcu W) as (go & x1 & E1 & F1 & _).
  assert (reaches xcu [] x1) as R1 by (apply reaches_step; by eapply step_rq).
  rewrite E1. cbn [mbind option_bind]. destruct go; [by eexists _, _|].
  destruct (process_cq_ok now x1 (flow_wf _ _ _ F1)) as (e2 & x2 & E2 & F2 & _).
  assert (reaches x1 e2 x2) as R2 by (apply reaches_step; by eapply step_cq).
  rewrite E2. cbn [mbind option_bind]. pose proof (flow_wf _ _ _ F2) as W2.
  set (mid := if z2b (cu_num_sq x2) || _ then _ else _).
  assert (exists x3, mid = Some x3 /\ reaches x2 [] x3) as (x3 & -> & R3).
  { subst mid. case_if; [|eexists; split; [done|by apply reaches_same]]. case_if.
    - unfold process_sq. case_if; cbn [mbind option_bind].
      + eexists. split; [reflexivity|]. apply reaches_same. case_if; [|done].
        etransitivity; [|apply (enable_intr_same (Z.lor CU_INTR_DONE CU_INTR_READY))]. done.
      + destruct (check_total false x2 W2) as [xc Ec]. pose proof (check_flow false x2 xc W2 Ec) as Fc.
        unfold xrt_cu_check. rewrite Ec. cbn [mbind option_bind].
        destruct (process_sq_inner_ok now xc) as (x3 & E3 & F3); [apply Fc|].
        rewrite E3. cbn [mbind option_bind]. eexists. split; [reflexivity|].
        apply (reaches_trans _ [] xc []); [by eapply reaches_step, step_check|].
        apply (reaches_trans _ [] x3 []); [apply reaches_step; by eapply step_sq|].
        apply reaches_same. case_if; [|done].
        etransitivity; [|apply (enable_intr_same (Z.lor CU_INTR_DONE CU_INTR_READY))]. done.
    - unfold xrt_cu_check. destruct (check_reaches false x2 W2) as (xa & -> & Ra). cbn [mbind option_bind].
      pose proof (reaches_wf _ _ _ Ra W2) as Wa.
      match goal with |- context [if ?b then ?e else Some xa] => set (again := if b then e else Some xa) end.
      assert (exists xc, again = Some xc /\ reaches x2 [] xc) as (xc & -> & Rc).
      { subst again. case_if; [|by eexists]. set (xd := upd cu_sleep_cnt _ _).
        assert (reaches x2 [] (slept_cu xd)) as Rd.
        { apply (reaches_trans _ [] xa [] _ Ra), (reaches_trans _ [] xd []); [by apply reaches_same|].
          apply H1. }
        destruct (check_reaches false (slept_cu xd) (reaches_wf _ _ _ Rd W2)) as (xe & -> & Re).
        eexists. split; [reflexivity|]. apply (reaches_trans _ [] _ [] _ Rd Re). }
      cbn [mbind option_bind].
      pose proof (reaches_wf _ _ _ Rc W2) as Wc.
      destruct (process_sq_inner_ok now xc Wc) as (x3 & E3 & F3). exists x3. split; [done|].
      apply (reaches_trans _ [] xc [] _ Rc). apply reaches_step; by eapply step_sq. }
  cbn [mbind option_bind]. pose proof (reaches_wf _ _ _ R3 W2) as W3.
  destruct (process_hpq_ok now x3 W3) as (e4 & x4 & E4 & F4 & _).
  assert (reaches x3 e4 x4) as R4 by (apply reaches_step; by eapply step_hpq).
  rewrite E4. cbn [mbind option_bind].
  assert (reaches xcu (e2 ++ e4) x4) as R.
  { apply (reaches_trans _ [] x1 (e2 ++ e4) _ R1), (reaches_trans _ e2 x2 e4 _ R2).
    apply (reaches_trans _ [] x3 e4 _ R3 R4). }
  case_if; [by eexists _, _|]. pose proof (flow_wf _ _ _ F4) as W4.
  match goal with |- context [mbind _ (if ?b then ?e else Some x4)] =>
    assert (exists x5, (if b then e else Some x4) = Some x5 /\ reaches x4 [] x5) as (x5 & -> & R5) end.
  { case_if; [|eexists; split; [done|by apply reaches_same]].
    case_if; [|eexists; split; [reflexivity|apply H2]].
    unfold xrt_cu_check_force. destruct (check_reaches true x4 W4) as (xe & -> & Re). eexists. split; [reflexivity|].
    apply (reaches_trans _ [] xe [] _ Re), H2. }
  cbn [mbind option_bind]. eexists _, _. split; [reflexivity|].
  rewrite <- (app_nil_r (e2 ++ e4)). apply (reaches_trans _ (e2 ++ e4) x4 [] _ R).
  apply (reaches_trans _ [] x5 [] _ R5). apply reaches_step, step_pq.
Qed.

(** ** Credits *)

Lemma process_rq_credit now xcu go xcu' :
  process_rq funcs now xcu = Some (go, xcu') -> cu_wf xcu -> credit_ok (cu_core xcu) ->
  credit_ok (cu_core xcu') /\
  xrt_cu_peek_credit funcs xcu' + Z.of_nat (length (submitted (cu_core xcu'))) <=
  xrt_cu_peek_credit funcs xcu + Z.of_nat (length (submitted (cu_core xcu))).
Proof.
  intros E W Hc. unfold process_rq in E. unfold xrt_cu_peek_credit.
  destruct (z2b (cu_num_rq xcu)); cbn [negb] in E; [|by simplify_eq].
  destruct (first_event_client_or_null xcu) as [ev|].
  { destruct (rq_abort_walk _ _ _ _ _ _) as [[[? ?] ?] ?]. by simplify_eq. }
  destruct (cu_rq xcu) as [|x rq] eqn:Erq; [done|].
  unfold xrt_cu_get_credit in E.
  destruct (law_alloc (cu_core xcu)) as (r & c1 & Ea & Es1 & Ec1 & Hk1 & Hal). rewrite Ea in E.
  destruct (Hal Hc) as (Hc1 & Hr & Hr0 & Hp1 & Hm1).
  destruct (z2b r) eqn:Ez; cbn [negb] in E; [|simplify_eq; rproj; split; [done|];
    unfold z2b in Ez; rewrite Es1; lia].
  unfold xrt_cu_submit_config in E. destruct law_submit as (sub & Esub & Hsub).
  rewrite Esub in E. rproj.
  assert (cmd_ok (set_xcmd_timestamp now x KDS_RUNNING)) as Hx.
  { pose proof (wf_cmds _ W) as Hf. rewrite Erq in Hf. apply Forall_cons in Hf as [Hf _].
    unfold set_xcmd_timestamp. destruct (xcmd_timestamp_enabled x); [|done].
    cbn [negb]. by apply law_timestamp. }
  destruct (Hsub c1 _ (Hk1 (wf_core _ W)) Hx) as (ret & c2 & x2 & Er & _ & Ec2 & _ & Es2 & Hp2 & Hc2).
  rewrite Er in E. cbn [mbind option_bind fst snd] in E. unfold z2b in Ez, E.
  destruct (Z.eqb_spec ret 0) as [->|Hne]; cbn [negb] in E.
  - injection E as <- <-.
    destruct (law_start c2) as (Ss & _ & _ & Ps & Hs).
    match goal with |- context [xrt_cu_circ_produce now ?y _ _] => set (xt := y) end.
    assert (credit_ok (cu_core xt) /\ peek_credit funcs (cu_core xt) = peek_credit funcs c2 /\
            submitted (cu_core xt) = submitted c2) as (G1 & G2 & G3).
    { subst xt. unfold xrt_cu_start, on_core.
      destruct (law_intr (start funcs c2) (Z.lor CU_INTR_DONE CU_INTR_READY)) as [_ (I1&_&_&I2&I3)].
      case_if; [|rproj; auto]. case_if; [|rproj; auto].
      unfold xrt_cu_switch_to_poll, xrt_cu_disable_intr, on_core. rproj.
      split_and!; [auto|congruence|congruence]. }
    clearbody xt. unfold on_stats, xrt_cu_circ_produce.
    assert (forall y : cu, cu_core y = cu_core xt ->
      credit_ok (cu_core y) /\
      peek_credit funcs (cu_core y) + Z.of_nat (length (submitted (cu_core y))) <=
      peek_credit funcs (cu_core xcu) + Z.of_nat (length (submitted (cu_core xcu)))) as Hy.
    { intros y ->. split; [done|]. rewrite G2, G3, Hp2, Es2, Es1, length_app. cbn [length]. lia. }
    apply Hy. case_if; case_if; rproj; reflexivity.
  - injection E as <- <-. unfold xrt_cu_put_credit, on_core. rproj.
    destruct (law_free c2 1) as (Sf & _ & _ & Hf). destruct (Hf (Hc2 Hc1)) as [Hok Hpf]; [lia|].
    split; [done|]. rewrite Hpf, Sf, Es2, Es1. destruct (Z.eqb_spec ret 0); lia.
Qed.

Lemma process_rq_loop_credit now fuel xcu xcu' :
  process_rq_loop funcs now fuel xcu = Some xcu' -> cu_wf xcu -> credit_ok (cu_core xcu) ->
  credit_ok (cu_core xcu') /\
  xrt_cu_peek_credit funcs xcu' + Z.of_nat (length (submitted (cu_core xcu'))) <=
  xrt_cu_peek_credit funcs xcu + Z.of_nat (length (submitted (cu_core xcu))).
Proof.
  revert xcu. induction fuel as [|fuel IH]; intros xcu E W Hc; [done|].
  cbn [process_rq_loop] in E.
  destruct (process_rq_ok now xcu W) as (go & xa & Ea & F & _). rewrite Ea in E.
  cbn [mbind option_bind] in E. destruct (process_rq_credit now xcu go xa Ea W Hc) as [H1 H2].
  destruct go; [|by simplify_eq].
  destruct (IH xa E (flow_wf _ _ _ F) H1) as [H3 H4]. split; [done|lia].
Qed.

(** ** The completion of high priority commands *)

Lemma drain_comp now log fuel xcu xcu' :
  drain funcs now log fuel xcu = Some xcu' -> cu_comp xcu' = cu_comp xcu.
Proof.
  revert xcu. induction fuel as [|fuel IH]; intros xcu E; [done|]. cbn [drain] in E.
  unfold xrt_cu_get_complete in E.
  destruct (get_complete funcs) as [get|]; [|by injection E as <-].
  destruct (get (cu_core xcu)) as [[[x|] c]|]; [|by injection E as <-|done].
  cbn [mbind option_bind fst snd] in E.
  apply IH in E. rewrite E. rproj. destruct log; [|done].
  unfold xrt_cu_circ_produce. by case_if.
Qed.

Lemma cmd_abort_comp m xcu r xcu' :
  xrt_cu_cmd_abort funcs xcu m = Some (r, xcu') -> cu_comp xcu' = cu_comp xcu.
Proof.
  unfold xrt_cu_cmd_abort. destruct (abort funcs) as [ab|]; [|by intros; simplify_eq].
  destruct (ab (cu_core xcu) m) as [[r1 c1]|]; [|done]. cbn [mbind option_bind fst snd].
  by intros; simplify_eq.
Qed.

Lemma try_abort_comp now xcu x x' xcu' :
  try_abort_cmd funcs now xcu x = Some (x', xcu') -> cu_comp xcu' = cu_comp xcu.
Proof.
  unfold try_abort_cmd. intros E. apply bind_Some in E as (info & _ & E).
  apply bind_Some in E as (h & _ & E).
  destruct (find_split _ _) as [[[? ?] ?]|]; [by simplify_eq|].
  destruct (negb (z2b (cu_num_sq xcu))); [by simplify_eq|].
  apply bind_Some in E as ([r xa] & Ea & E). apply cmd_abort_comp in Ea. destruct (z2b r);
    apply bind_Some in E as (xb & Eb & E); simplify_eq; apply drain_comp in Eb;
    rewrite Eb; done.
Qed.

Lemma hpq_walk_comp now hpq xcu ev xcu' :
  hpq_walk funcs now hpq xcu = Some (ev, xcu') -> cu_comp xcu' = cu_comp xcu.
Proof.
  revert xcu ev. induction hpq as [|x hpq IH]; intros xcu ev E; cbn [hpq_walk] in E;
    [by simplify_eq|].
  apply bind_Some in E as ([x' xa] & Ea & E). apply bind_Some in E as ([e xb] & Eb & E).
  simplify_eq. apply IH in Eb. cbn [snd] in *. rewrite Eb. rproj.
  case_bool_decide; [by apply try_abort_comp in Ea|by simplify_eq].
Qed.
End Sched.

(** C1. Whatever the order in which clients, the CU thread, timers and the
    hardware act, starting from a CU without commands: the counters always
    agree with the queues; the submitted commands are, each exactly once, either
    notified to their host or still in flight; exactly the notified commands are
    freed, in the same order; and a host is only ever told COMPLETED, ABORT,
    TIMEOUT or a status the device has reported. *)
Theorem cu_commands_conserved {C} (funcs : xcu_funcs C) {L : XcuLaws funcs} xcu acts xcu' :
  cu_wf funcs xcu -> flight funcs xcu = [] -> cu_trace funcs xcu acts xcu' ->
  cu_wf funcs xcu' /\
  submitted_ids acts ≡ₚ notified (trace_events acts) ++ ids (flight funcs xcu') /\
  freed_ids (trace_events acts) = notified (trace_events acts) /\
  (NoDup (submitted_ids acts) -> NoDup (notified (trace_events acts))) /\
  (forall x s, EvNotify x s ∈ trace_events acts -> final_status funcs s /\ xcmd_status x = s).
Proof.
  intros W Hf T. destruct (cu_trace_ok funcs _ _ _ T W) as (W' & P & R & N).
  rewrite Hf in P. cbn [ids fmap list_fmap] in P. rewrite app_nil_r in P.
  split_and!; try done. rewrite P. intros Hd. by apply NoDup_app in Hd as [? _].
Qed.

(** C2. As long as nothing is aborted, a CU is a queue: the notified commands
    are a prefix of the submitted ones, in submission order, and the rest is in
    flight in that same order. *)
Theorem cu_commands_fifo {C} (funcs : xcu_funcs C) {L : XcuLaws funcs} xcu acts xcu' :
  cu_wf funcs xcu -> flight funcs xcu = [] -> cu_events xcu = [] -> cu_hpq xcu = [] ->
  cu_trace funcs xcu acts xcu' -> abort_free acts ->
  submitted_ids acts = notified (trace_events acts) ++ ids (flight funcs xcu').
Proof.
  intros W Hf He Hh T Ha. pose proof (cu_trace_fifo funcs _ _ _ T W He Hh Ha) as E.
  by rewrite Hf in E.
Qed.

(** C30. One call of [xrt_cu_process_queues] always returns: its inner loops
    terminate and never run off an empty queue.  It keeps the invariant, loses
    no command, notifies in order when nothing is aborted, and reports idle
    exactly when no command but newly pending ones is left. *)
Theorem xrt_cu_process_queues_ok {C} (funcs : xcu_funcs C) {L : XcuLaws funcs}
  {T : XcuChecks funcs} now xcu :
  cu_wf funcs xcu ->
  exists r ev xcu', xrt_cu_process_queues funcs now xcu = Some (r, ev, xcu') /\
    flow funcs xcu ev xcu' /\
    r = if (length (flight funcs xcu') =? length (cu_pq xcu'))%nat then XCU_IDLE else XCU_BUSY.
Proof. by apply process_queues_ok. Qed.

(** One round of the interrupt-mode CU thread always returns and is an
    interleaving of the scheduler's actions with whatever happens while it
    sleeps, so all trace theorems apply to the thread. *)
Theorem xrt_cu_intr_round_ok {C} (funcs : xcu_funcs C) {L : XcuLaws funcs}
  {T : XcuChecks funcs} now slept_cu slept xcu :
  env_ok funcs slept_cu -> env_ok funcs slept -> cu_wf funcs xcu ->
  exists ev xcu', xrt_cu_intr_round funcs now slept_cu slept xcu = Some (ev, xcu') /\
    reaches funcs xcu ev xcu' /\ cu_wf funcs xcu'.
Proof.
  intros H1 H2 W.
  destruct (intr_round_reaches funcs now slept_cu slept xcu H1 H2 W) as (ev & x' & E & R).
  exists ev, x'. split_and!; try done. by apply (reaches_wf funcs _ _ _ R).
Qed.

(** The submit loop never starts more commands than the implementation
    has credits, and a failed configuration gives its credit back. *)
Theorem process_rq_loop_credits {C} (funcs : xcu_funcs C) {L : XcuLaws funcs} now xcu :
  cu_wf funcs xcu -> credit_ok (cu_core xcu) ->
  exists xcu', process_rq_loop funcs now (rq_fuel xcu) xcu = Some xcu' /\
    credit_ok (cu_core xcu') /\
    xrt_cu_peek_credit funcs xcu' + Z.of_nat (length (submitted (cu_core xcu'))) <=
    xrt_cu_peek_credit funcs xcu + Z.of_nat (length (submitted (cu_core xcu))).
Proof.
  intros W Hc.
  destruct (process_rq_loop_ok funcs now (rq_fuel xcu) xcu W) as (x' & E & _ & _);
    [unfold rq_fuel; lia|].
  exists x'. split; [done|]. by eapply process_rq_loop_credit.
Qed.

(** When the device reports no crashes, notifying hosts erases the bad state: when [process_cq] has had
    anything to notify, the CU is no longer marked bad, even if an abort had
    just failed, and [xrt_cu_abort_done] reports a healthy CU. *)
Theorem process_cq_clears_bad_state {C} (funcs : xcu_funcs C) {L : XcuLaws funcs}
  now xcu client :
  ~ reported KDS_SKCRASHED -> cu_wf funcs xcu -> cu_cq xcu <> [] ->
  exists ev xcu', process_cq now xcu = Some (ev, xcu') /\
    (xrt_cu_abort_done xcu' client).1 = false.
Proof.
  intros Hr W Hne. destruct (process_cq_ok funcs now xcu W) as (ev & x' & E & _ & _ & _ & Hb).
  exists ev, x'. split; [done|].
  change ((xrt_cu_abort_done x' client).1) with (cu_bad_state x'). rewrite Hb.
  destruct (last (cu_cq xcu)) as [y|] eqn:El; [|by apply last_None in El].
  apply bool_decide_eq_false. intros Hs. apply last_Some in El as [l El].
  pose proof (wf_final _ _ W) as Hf. rewrite El, !Forall_app, Forall_singleton in Hf.
  destruct Hf as [[_ [Hf|[Hf|[Hf|Hf]]]] _]; congruence.
Qed.

(** [process_hpq] answers every queued high priority command but signals
    the completion only once: with two or more submitters waiting, all but one
    keep waiting. *)
Theorem process_hpq_single_completion {C} (funcs : xcu_funcs C) {L : XcuLaws funcs} now xcu :
  cu_wf funcs xcu -> cu_hpq xcu <> [] ->
  exists ev xcu', process_hpq funcs now xcu = Some (ev, xcu') /\
    hpq_done ev = ids (cu_hpq xcu) /\ cu_hpq xcu' = [] /\
    cu_comp xcu' = cu_comp xcu + 1.
Proof.
  intros W Hne. unfold process_hpq.
  assert (z2b (cu_num_hpq xcu) = true) as ->.
  { rewrite (wf_hpq _ _ W). destruct (cu_hpq xcu) as [|y l]; [done|]. done. }
  destruct (hpq_walk_ok funcs now (cu_hpq xcu) xcu W eq_refl) as (ev & xa & E & _ & Hh & Hd).
  cbn [negb]. rewrite E. cbn [mbind option_bind fst snd]. eexists _, _. split; [reflexivity|].
  rproj. rewrite (hpq_walk_comp funcs now _ _ _ _ E). done.
Qed.

(** ** Instances of the theorems *)

(** An HLS CU in echo mode, without log buffer. *)
Definition demo_hls := xrt_cu_hls_funcs (H := gmap Z Z) true.
Definition demo_cu : xrt_cu (xrt_cu_hls (gmap Z Z)) :=
  xrt_cu_alloc info_zero (hls_core_init ∅ 0 info_zero) <| cu_crc := mk_circ_buf [] 0 0 |>.
Definition demo_cmd (id : Z) : kds_command :=
  mk_kds_command id 7 KDS_NEW 0 0 0 KDS_CU OP_START true REGMAP (Some [id]) 4 false
    [] [] 0 id.
Definition demo_abort (id : Z) : kds_command := demo_cmd id <| xcmd_opcode := OP_ABORT |>.

Lemma demo_cu_wf : cu_wf demo_hls demo_cu.
Proof. split; try reflexivity; constructor. Qed.

(** Two commands; the first one runs to its notification. *)
Lemma demo_trace : exists acts xcu',
  cu_trace demo_hls demo_cu acts xcu' /\ abort_free acts /\
  submitted_ids acts = [1; 2] /\ notified (trace_events acts) = [1].
Proof.
  eexists _, _. split.
  - eapply trace_cons; [apply (step_submit _ _ (demo_cmd 1)); reflexivity|].
    eapply trace_cons; [apply (step_submit _ _ (demo_cmd 2)); reflexivity|].
    eapply trace_cons; [apply (step_pq _ 0)|].
    eapply trace_cons; [eapply (step_rq _ 0); vm_compute; reflexivity|].
    eapply trace_cons; [eapply (step_check _ false); reflexivity|].
    eapply trace_cons; [eapply (step_sq _ 0); vm_compute; reflexivity|].
    eapply trace_cons; [eapply (step_cq _ 0); vm_compute; reflexivity|].
    apply trace_nil.
  - split; [repeat constructor|]. split; reflexivity.
Qed.

Lemma cu_commands_conserved_witness :
  exists acts xcu', cu_trace demo_hls demo_cu acts xcu' /\ cu_wf demo_hls xcu' /\
    [1; 2] ≡ₚ [1] ++ ids (flight demo_hls xcu').
Proof.
  destruct demo_trace as (acts & xcu' & T & _ & Hs & Hn). exists acts, xcu'.
  destruct (cu_commands_conserved demo_hls demo_cu acts xcu' demo_cu_wf eq_refl T)
    as (W & P & _). rewrite Hs, Hn in P. auto.
Defined.

Lemma cu_commands_fifo_witness :
  exists acts xcu', cu_trace demo_hls demo_cu acts xcu' /\ ids (flight demo_hls xcu') = [2].
Proof.
  destruct demo_trace as (acts & xcu' & T & Ha & Hs & Hn). exists acts, xcu'.
  pose proof (cu_commands_fifo demo_hls demo_cu acts xcu' demo_cu_wf eq_refl eq_refl eq_refl
    T Ha) as E. rewrite Hs, Hn in E. split; [exact T|]. by injection E as ->.
Defined.

Lemma xrt_cu_process_queues_ok_witness :
  exists r ev xcu', xrt_cu_process_queues demo_hls 0 demo_cu = Some (r, ev, xcu') /\ r = XCU_IDLE.
Proof.
  destruct (xrt_cu_process_queues_ok demo_hls 0 demo_cu demo_cu_wf) as (r & ev & x & E & _ & Hr).
  exists r, ev, x. split; [exact E|]. vm_compute in E. injection E as <- _ _. reflexivity.
Defined.

Lemma xrt_cu_intr_round_ok_witness :
  exists ev xcu', xrt_cu_intr_round demo_hls 0 id cu_timer demo_cu = Some (ev, xcu') /\
    cu_wf demo_hls xcu'.
Proof.
  destruct (xrt_cu_intr_round_ok demo_hls 0 id cu_timer demo_cu) as (ev & x & E & _ & W).
  - intros x. by apply reaches_same.
  - intros x. by apply reaches_same.
  - apply demo_cu_wf.
  - exists ev, x. split; [exact E|exact W].
Defined.

Lemma process_rq_loop_credits_witness :
  exists xcu', process_rq_loop demo_hls 0 (rq_fuel demo_cu) demo_cu = Some xcu' /\
    credit_ok (f := demo_hls) (cu_core xcu').
Proof.
  destruct (process_rq_loop_credits demo_hls 0 demo_cu demo_cu_wf) as (x & E & H & _).
  - vm_compute. repeat split; discriminate.
  - exists x. split; [exact E|exact H].
Defined.

(** A CU whose abort failed, with the timed-out command still to be notified. *)
Definition demo_bad : xrt_cu (xrt_cu_hls (gmap Z Z)) :=
  demo_cu <| cu_bad_state := true |> <| cu_cq := [set_status KDS_TIMEOUT (demo_cmd 1)] |>
          <| cu_num_cq := 1 |>.

Lemma process_cq_clears_bad_state_witness :
  cu_bad_state demo_bad = true /\
  exists ev xcu', process_cq 0 demo_bad = Some (ev, xcu') /\
    (xrt_cu_abort_done xcu' 7).1 = false.
Proof.
  split; [reflexivity|].
  apply (process_cq_clears_bad_state demo_hls 0 demo_bad 7); [exact (fun H => H)| |discriminate].
  split; try reflexivity; [constructor|constructor|].
  apply Forall_singleton. right. right. by left.
Defined.

Definition demo_two_aborts : xrt_cu (xrt_cu_hls (gmap Z Z)) :=
  xrt_cu_hpq_submit (xrt_cu_hpq_submit demo_cu (demo_abort 8)) (demo_abort 9).

Lemma process_hpq_single_completion_witness :
  exists ev xcu', process_hpq demo_hls 0 demo_two_aborts = Some (ev, xcu') /\
    hpq_done ev = [8; 9] /\ cu_comp xcu' = 1 /\
    (x ← wait_for_completion xcu'; wait_for_completion x) = None.
Proof.
  destruct (process_hpq_single_completion demo_hls 0 demo_two_aborts)
    as (ev & x & E & Hd & _ & Hc).
  - split; try reflexivity; repeat constructor; eexists _, _; reflexivity.
  - discriminate.
  - exists ev, x. split; [exact E|]. split; [exact Hd|]. change (cu_comp x = 1) in Hc.
    split; [exact Hc|]. unfold wait_for_completion. rewrite Hc.
    cbn -[upd]. rproj. rewrite Hc. reflexivity.
Defined.
