(* ===== verification/KdsHwctx.v ===== *)
(** * Clients and their contexts

    [kds_client.h], [kds_hwctx.h] and the list operations of [kds_hwctx.c]: a
    client owns hardware contexts, a context owns CU contexts, and a hardware
    context counts the commands submitted and completed per CU.

    A pointer to a list element is its position in the list.  Per-CPU counters
    are kept as their sum, which is all the code ever reads. *)
From S2P Require Import Prelude.

Definition MAX_CUS : nat := 128.

Record client_stats := mk_client_stats {
  s_cnt : list Z; c_cnt : list Z; scu_s_cnt : list Z; scu_c_cnt : list Z }.

#[export] Instance eta_client_stats : Eta client_stats := fun r =>
  mk_client_stats (s_cnt r) (c_cnt r) (scu_s_cnt r) (scu_c_cnt r).

Definition stats_zero : client_stats :=
  let z := replicate MAX_CUS 0 in mk_client_stats z z z z.

(** [struct kds_client_cu_ctx]; [cc_slot] is [ctx->slot_idx] (legacy) and
    [cc_hw_ctx] is [hw_ctx->hw_ctx_idx]. *)
Record kds_client_cu_ctx := mk_cu_ctx {
  cc_cu_idx : Z; cc_cu_domain : Z; cc_flags : Z; cc_ref_cnt : Z;
  cc_slot : Z; cc_hw_ctx : Z }.

#[export] Instance eta_cu_ctx : Eta kds_client_cu_ctx := fun r =>
  mk_cu_ctx (cc_cu_idx r) (cc_cu_domain r) (cc_flags r) (cc_ref_cnt r)
    (cc_slot r) (cc_hw_ctx r).

Record kds_client_cu_info := mk_cu_info {
  ci_cu_idx : Z; ci_cu_domain : Z; ci_flags : Z; ci_ctx : Z }.

Record kds_client_ctx := mk_client_ctx {
  ctx_slot_idx : Z; ctx_cu_ctx_list : list kds_client_cu_ctx }.

#[export] Instance eta_client_ctx : Eta kds_client_ctx := fun r =>
  mk_client_ctx (ctx_slot_idx r) (ctx_cu_ctx_list r).

Record kds_client_hw_ctx := mk_hw_ctx {
  hw_ctx_idx : Z;
  hw_xclbin_id : Z;
  hw_slot_idx : Z;
  hw_cu_ctx_list : list kds_client_cu_ctx;
  hw_graph_ctx_list : list Z;
  hw_stats : client_stats;
}.

#[export] Instance eta_hw_ctx : Eta kds_client_hw_ctx := fun r =>
  mk_hw_ctx (hw_ctx_idx r) (hw_xclbin_id r) (hw_slot_idx r) (hw_cu_ctx_list r)
    (hw_graph_ctx_list r) (hw_stats r).

(** [struct kds_client_cu_refcnt] *)
Record cu_refcnt := mk_cu_refcnt { r_cu_refs : list Z; r_scu_refs : list Z }.

#[export] Instance eta_cu_refcnt : Eta cu_refcnt := fun r =>
  mk_cu_refcnt (r_cu_refs r) (r_scu_refs r).

(** [struct kds_client]; [cl_addr] is its address and [cl_ctx_list] the
    contexts of the multi-slot platforms. *)
Record kds_client := mk_client {
  cl_addr : Z;
  cl_pid : Z;
  cl_ctx : option kds_client_ctx;
  cl_ctx_list : list kds_client_ctx;
  cl_hw_ctx_list : list kds_client_hw_ctx;
  cl_next_hw_ctx_id : Z;
  cl_refcnt : option cu_refcnt;
}.

#[export] Instance eta_client : Eta kds_client := fun r =>
  mk_client (cl_addr r) (cl_pid r) (cl_ctx r) (cl_ctx_list r) (cl_hw_ctx_list r)
    (cl_next_hw_ctx_id r) (cl_refcnt r).

(** ** Command statistics of a hardware context *)

(** The four counters, selected by name. *)
Inductive stat_field := S_CNT | C_CNT | SCU_S_CNT | SCU_C_CNT.

#[export] Instance stat_field_eq_dec : EqDecision stat_field.
Proof. solve_decision. Defined.

Definition stat_get (f : stat_field) (s : client_stats) : list Z :=
  match f with
  | S_CNT => s_cnt s | C_CNT => c_cnt s | SCU_S_CNT => scu_s_cnt s | SCU_C_CNT => scu_c_cnt s
  end.
Definition stat_put (f : stat_field) (l : list Z) (s : client_stats) : client_stats :=
  match f with
  | S_CNT => s <| s_cnt := l |> | C_CNT => s <| c_cnt := l |>
  | SCU_S_CNT => s <| scu_s_cnt := l |> | SCU_C_CNT => s <| scu_c_cnt := l |>
  end.

(** The macro keeps the value of the last context with the given id. *)
Definition client_stat_read (c : kds_client) (hw_ctx : Z) (f : stat_field) (i : Z) : Z :=
  foldl (fun res h => if hw_ctx_idx h =? hw_ctx then aget 0 (stat_get f (hw_stats h)) i else res)
    0 (cl_hw_ctx_list c).

Definition stat_add (f : stat_field) (i d : Z) (s : client_stats) : client_stats :=
  stat_put f (aset (stat_get f s) i (u64 (aget 0 (stat_get f s) i + d))) s.

Definition client_stat_add (c : kds_client) (hw_ctx : Z) (f : stat_field) (i d : Z)
  : kds_client :=
  c <| cl_hw_ctx_list ::= fmap (fun h =>
        if hw_ctx_idx h =? hw_ctx then h <| hw_stats ::= stat_add f i d |> else h) |>.

Definition client_stat_inc c hw_ctx f i := client_stat_add c hw_ctx f i 1.
Definition client_stat_dec c hw_ctx f i := client_stat_add c hw_ctx f i (-1).

(** ** CU contexts *)

Definition cu_ctx_match (info : kds_client_cu_info) (cc : kds_client_cu_ctx) : bool :=
  (cc_cu_idx cc =? ci_cu_idx info) && (cc_cu_domain cc =? ci_cu_domain info).

(** Position of the first matching context. *)
Fixpoint find_pos {A} (p : A -> bool) (l : list A) : option nat :=
  match l with
  | [] => None
  | x :: l => if p x then Some 0%nat else S <$> find_pos p l
  end.

(** [kds_get_cu_ctx] and [kds_get_cu_hw_ctx]: [inl] is an error pointer. *)
Definition kds_get_cu_ctx (ctx : option kds_client_ctx) (info : kds_client_cu_info)
  : Z + option nat :=
  match ctx with
  | None => inl (- EINVAL)
  | Some ctx => inr (find_pos (cu_ctx_match info) (ctx_cu_ctx_list ctx))
  end.

Definition kds_get_cu_hw_ctx (hw : option kds_client_hw_ctx) (info : kds_client_cu_info)
  : Z + option nat :=
  match hw with
  | None => inl (- EINVAL)
  | Some hw => inr (find_pos (cu_ctx_match info) (hw_cu_ctx_list hw))
  end.

(** [kds_initialize_cu_ctx]: [cu_ctx->ctx] is the client's own context. *)
Definition kds_initialize_cu_ctx (c : kds_client) (info : kds_client_cu_info)
  : kds_client_cu_ctx :=
  mk_cu_ctx (ci_cu_idx info) (ci_cu_domain info) (ci_flags info) 0
    (default 0 (ctx_slot_idx <$> cl_ctx c)) 0.

Definition kds_initialize_cu_hw_ctx (info : kds_client_cu_info) : kds_client_cu_ctx :=
  mk_cu_ctx (ci_cu_idx info) (ci_cu_domain info) (ci_flags info) 0 0 (ci_ctx info).

(** Returns the position of the context (or NULL) and the updated list.
    [alloc] says whether [vzalloc] succeeds. *)
Definition kds_alloc_cu_ctx (alloc : bool) (c : kds_client) (ctx : option kds_client_ctx)
  (info : kds_client_cu_info) : option nat * option kds_client_ctx :=
  match kds_get_cu_ctx ctx info with
  | inl _ => (None, ctx)
  | inr (Some p) => (Some p, ctx)
  | inr None =>
      if negb alloc then (None, ctx)
      else match ctx with
           | None => (None, ctx)
           | Some x =>
               (Some (length (ctx_cu_ctx_list x)),
                Some (x <| ctx_cu_ctx_list := ctx_cu_ctx_list x ++
                                              [kds_initialize_cu_ctx c info] |>))
           end
  end.

Definition kds_alloc_cu_hw_ctx (alloc : bool) (hw : option kds_client_hw_ctx)
  (info : kds_client_cu_info) : option nat * option kds_client_hw_ctx :=
  match kds_get_cu_hw_ctx hw info with
  | inl _ => (None, hw)
  | inr (Some p) => (Some p, hw)
  | inr None =>
      if negb alloc then (None, hw)
      else match hw with
           | None => (None, hw)
           | Some h =>
               (Some (length (hw_cu_ctx_list h)),
                Some (h <| hw_cu_ctx_list := hw_cu_ctx_list h ++
                                             [kds_initialize_cu_hw_ctx info] |>))
           end
  end.

(** [kds_free_cu_ctx] on the context at position [p] ([None] is NULL). *)
Definition kds_free_cu_ctx (l : list kds_client_cu_ctx) (p : option nat)
  : Z * list kds_client_cu_ctx :=
  match p with
  | None => (- EINVAL, l)
  | Some p =>
      match l !! p with
      | None => (0, l)
      | Some cc => if cc_ref_cnt cc =? 0 then (0, delete p l) else (0, l)
      end
  end.

(** ** Hardware contexts *)

Definition kds_get_hw_ctx_by_id (c : kds_client) (hw_ctx_id : Z) : option nat :=
  find_pos (fun h => hw_ctx_idx h =? hw_ctx_id) (cl_hw_ctx_list c).

(** The result is the position of the new context; [alloc] says for each of
    the two allocations whether it succeeds. *)
Definition kds_alloc_hw_ctx (alloc : bool * bool) (c : kds_client) (xclbin_id slot_id : Z)
  : option nat * kds_client :=
  if negb alloc.1 then (None, c)
  else if negb alloc.2 then (None, c)
  else
    let h := mk_hw_ctx (cl_next_hw_ctx_id c) xclbin_id slot_id [] [] stats_zero in
    (Some (length (cl_hw_ctx_list c)),
     c <| cl_hw_ctx_list := cl_hw_ctx_list c ++ [h] |>
       <| cl_next_hw_ctx_id := u32 (cl_next_hw_ctx_id c + 1) |>).

Definition kds_free_hw_ctx (c : kds_client) (p : option nat) : Z * kds_client :=
  match p with
  | None => (- EINVAL, c)
  | Some p =>
      match cl_hw_ctx_list c !! p with
      | None => (0, c)
      | Some h =>
          if negb (bool_decide (hw_cu_ctx_list h = [])) then (- EINVAL, c)
          else if negb (bool_decide (hw_graph_ctx_list h = [])) then (- EINVAL, c)
          else (0, c <| cl_hw_ctx_list := delete p (cl_hw_ctx_list c) |>)
      end
  end.

(** ** Lemmas *)

Lemma find_pos_Some {A} (p : A -> bool) l i :
  find_pos p l = Some i -> exists x, l !! i = Some x /\ p x = true.
Proof.
  revert i. induction l as [|x l IH]; intros i; simpl; [done|].
  destruct (p x) eqn:E; [intros [= <-]; eauto|].
  destruct (find_pos p l) as [j|]; [|done]. simpl. intros [= <-]. by apply IH.
Qed.

Lemma find_pos_None {A} (p : A -> bool) l :
  find_pos p l = None <-> Forall (fun x => p x = false) l.
Proof.
  induction l as [|x l IH]; simpl; [done|]. rewrite Forall_cons.
  destruct (p x); [split; [done|intros [? _]; done]|].
  destruct (find_pos p l); simpl; rewrite <- IH; split; try done; by intros [_ ?].
Qed.

Lemma find_pos_app {A} (p : A -> bool) l x :
  find_pos p l = None -> p x = true -> find_pos p (l ++ [x]) = Some (length l).
Proof.
  intros Hl Hx. induction l as [|y l IH]; simpl in *; [by rewrite Hx|].
  destruct (p y); [done|]. destruct (find_pos p l); [done|]. by rewrite IH.
Qed.

(** Keys of the CU contexts of one context. *)
Definition cc_key (cc : kds_client_cu_ctx) : Z * Z := (cc_cu_idx cc, cc_cu_domain cc).

Lemma cu_ctx_match_key info cc :
  cu_ctx_match info cc = true <-> cc_key cc = (ci_cu_idx info, ci_cu_domain info).
Proof. unfold cu_ctx_match, cc_key. split; [intros; f_equal; lia|]. intros [= -> ->]. lia. Qed.

(** The hardware context ids of a client are distinct and below the next id. *)
Definition hw_ids_ok (c : kds_client) : Prop :=
  NoDup (hw_ctx_idx <$> cl_hw_ctx_list c) /\
  Forall (fun h => 0 <= hw_ctx_idx h < cl_next_hw_ctx_id c) (cl_hw_ctx_list c).

Lemma stat_get_put f g l s :
  stat_get f (stat_put g l s) = if decide (f = g) then l else stat_get f s.
Proof. by destruct f, g. Qed.

(** Get or create an entry of a CU context list. *)
Lemma find_or_append info cc l :
  NoDup (cc_key <$> l) -> cu_ctx_match info cc = true ->
  find_pos (cu_ctx_match info) l = None -> NoDup (cc_key <$> (l ++ [cc])).
Proof.
  intros Hd Hm Hf. rewrite fmap_app. apply NoDup_app. split_and!; [done| |apply NoDup_singleton].
  intros k Hk Hk'. apply list_elem_of_singleton in Hk' as ->.
  apply list_elem_of_fmap in Hk as (x & Ex & Hx).
  apply find_pos_None in Hf. eapply Forall_forall in Hf; [|exact Hx].
  apply cu_ctx_match_key in Hm. rewrite Ex in Hm. apply cu_ctx_match_key in Hm. congruence.
Qed.

(** Opening a CU context is get-or-create: on a context list without
    duplicate (index, domain) keys, [kds_alloc_cu_hw_ctx] returns the existing
    entry, or appends one entry with the requested key and reference count 0;
    either way no entry moves, the keys stay distinct, and asking again finds
    the same entry. *)
Theorem kds_alloc_cu_hw_ctx_ok h info :
  NoDup (cc_key <$> hw_cu_ctx_list h) ->
  exists p h', kds_alloc_cu_hw_ctx true (Some h) info = (Some p, Some h') /\
    NoDup (cc_key <$> hw_cu_ctx_list h') /\
    hw_cu_ctx_list h `prefix_of` hw_cu_ctx_list h' /\
    (exists cc, hw_cu_ctx_list h' !! p = Some cc /\
       cc_key cc = (ci_cu_idx info, ci_cu_domain info) /\
       (hw_cu_ctx_list h' <> hw_cu_ctx_list h -> cc_ref_cnt cc = 0 /\ cc_hw_ctx cc = ci_ctx info)) /\
    kds_alloc_cu_hw_ctx true (Some h') info = (Some p, Some h').
Proof.
  intros Hd. unfold kds_alloc_cu_hw_ctx. cbn [kds_get_cu_hw_ctx negb].
  set (cc := kds_initialize_cu_hw_ctx info).
  assert (cu_ctx_match info cc = true) as Hcc by (apply cu_ctx_match_key; done).
  destruct (find_pos (cu_ctx_match info) (hw_cu_ctx_list h)) as [p|] eqn:Ef.
  - exists p, h. rewrite Ef. split_and!; try done.
    apply find_pos_Some in Ef as (x & Hx & Hm). apply cu_ctx_match_key in Hm.
    exists x. by split_and!.
  - eexists _, _. split; [reflexivity|]. rsimpl.
    split_and!; [by apply (find_or_append info)|by apply prefix_app_r| |].
    + exists cc. split_and!; [|done|done]. by rewrite lookup_app_r, Nat.sub_diag by lia.
    + by rewrite find_pos_app.
Qed.

Definition demo_hw : kds_client_hw_ctx :=
  mk_hw_ctx 3 0 0 [mk_cu_ctx 0 0 0 2 0 3; mk_cu_ctx 1 0 0 1 0 3] [] stats_zero.

Lemma kds_alloc_cu_hw_ctx_ok_witness :
  exists p h', kds_alloc_cu_hw_ctx true (Some demo_hw) (mk_cu_info 5 1 0 3) = (Some p, Some h') /\
    NoDup (cc_key <$> hw_cu_ctx_list h').
Proof.
  destruct (kds_alloc_cu_hw_ctx_ok demo_hw (mk_cu_info 5 1 0 3)) as (p & h' & E & Hd & _).
  - apply (bool_decide_unpack _). vm_compute. exact I.
  - exists p, h'. split; [exact E|exact Hd].
Defined.

(** Hardware context ids stay unique per client: allocation hands out the
    next id, below which all live ids are, and freeing removes only a context
    without open CU or graph contexts.  (Ids are 32 bits: fewer than 2^32
    contexts are ever created by one client.) *)
Theorem kds_hw_ctx_ids_unique c xclbin slot p :
  hw_ids_ok c -> 0 <= cl_next_hw_ctx_id c < 2 ^ 32 - 1 ->
  (exists q c', kds_alloc_hw_ctx (true, true) c xclbin slot = (Some q, c') /\
     hw_ids_ok c' /\ kds_get_hw_ctx_by_id c' (cl_next_hw_ctx_id c) = Some q) /\
  hw_ids_ok (kds_free_hw_ctx c p).2 /\
  (forall h q, p = Some q -> cl_hw_ctx_list c !! q = Some h ->
     hw_cu_ctx_list h <> [] \/ hw_graph_ctx_list h <> [] ->
     kds_free_hw_ctx c p = (- EINVAL, c)).
Proof.
  intros [Hd Hb] Hn. split_and!.
  - unfold kds_alloc_hw_ctx. cbn [fst snd negb]. eexists _, _. split; [reflexivity|].
    unfold hw_ids_ok, kds_get_hw_ctx_by_id. rsimpl. rewrite u32_succ by lia. split_and!.
    + rewrite fmap_app. apply NoDup_app. split_and!; [done| |apply NoDup_singleton].
      intros k Hk Hk'. apply list_elem_of_singleton in Hk' as ->.
      apply list_elem_of_fmap in Hk as (x & Ex & Hx).
      eapply Forall_forall in Hb; [|exact Hx]. simpl in Ex. lia.
    + apply Forall_app. split.
      * eapply Forall_impl; [exact Hb|]. intros h Hh. simpl in *. lia.
      * apply Forall_singleton. simpl. lia.
    + apply find_pos_app; [|simpl; lia]. apply find_pos_None.
      eapply Forall_impl; [exact Hb|]. intros h Hh. simpl in *. lia.
  - unfold kds_free_hw_ctx. destruct p as [p|]; [|done].
    destruct (cl_hw_ctx_list c !! p) as [h|]; [|done].
    do 2 (case_match; [done|]). unfold hw_ids_ok. rsimpl. split.
    + eapply sublist_NoDup; [exact Hd|apply fmap_sublist, sublist_delete].
    + by apply Forall_delete.
  - intros h q -> Hq Hne. unfold kds_free_hw_ctx. rewrite Hq.
    destruct Hne as [Hne|Hne].
    + by rewrite bool_decide_false.
    + by destruct (bool_decide (hw_cu_ctx_list h = [])); [rewrite bool_decide_false|].
Qed.

Definition demo_client : kds_client :=
  mk_client 0x100 42 None [] [demo_hw] 4
    (Some (mk_cu_refcnt (replicate MAX_CUS 0) (replicate MAX_CUS 0))).

Lemma kds_hw_ctx_ids_unique_witness :
  exists q c', kds_alloc_hw_ctx (true, true) demo_client 0 0 = (Some q, c') /\ hw_ids_ok c'.
Proof.
  destruct (kds_hw_ctx_ids_unique demo_client 0 0 None) as [(q & c' & E & Hok & _) _].
  - split; [apply (bool_decide_unpack _); vm_compute; exact I|].
    apply Forall_singleton. cbn. lia.
  - cbn. lia.
  - exists q, c'. split; [exact E|exact Hok].
Defined.
