(* ===== verification/KdsSched.v ===== *)
(** * The kernel driver scheduler

    [kds_core.h] and the scheduling part of [kds_core.c]: CU management,
    reference counts, selection of a CU, dispatch of commands, contexts and
    clients.

    CU objects live in a heap [kds_heap] keyed by address; the CU table holds
    addresses ([None] is NULL).  A client is passed by value and returned
    updated, or designated by its position in the client list.  [None] results
    are accesses outside an array or through NULL. *)
From S2P Require Import Prelude KdsCommand CuInfo CuCore XrtCu KdsHwctx.

Definition DOMAIN_VIRT : Z := 0xFFFF.
Definition CU_CTX_PROP_MASK : Z := 0x0F.
Definition CU_CTX_SHARED : Z := 0x00.
Definition CU_CTX_EXCLUSIVE : Z := 0x01.
Definition CU_EXCLU_MASK : Z := 0x80000000.
Definition DEFAULT_HW_CTX_ID : Z := 0.

Definition get_domain (idx : Z) : Z := Z.shiftr (Z.land idx 0xFFFF0000) 16.
Definition get_domain_idx (idx : Z) : Z := Z.land idx 0x0000FFFF.
Definition set_domain (domain idx : Z) : Z := Z.shiftl domain 16 + idx.

Record kds_cu_mgmt := mk_cu_mgmt {
  m_xcus : list (option Z);
  m_num_cus : Z;
  m_num_cdma : Z;
  m_cu_intr : list Z;
  m_cu_refs : list Z;
  m_usage : list Z;
  m_rw_shared : bool;
}.

#[export] Instance eta_cu_mgmt : Eta kds_cu_mgmt := fun r =>
  mk_cu_mgmt (m_xcus r) (m_num_cus r) (m_num_cdma r) (m_cu_intr r) (m_cu_refs r)
    (m_usage r) (m_rw_shared r).

(** [struct cmdmem_info]; [cm_bo] is the presence of a buffer object. *)
Record cmdmem_info := mk_cmdmem {
  cm_bo : bool; cm_bar_paddr : Z; cm_dev_paddr : Z; cm_vaddr : Z; cm_size : Z }.

(** The optional operations of a remote scheduler (ERT sub-device). *)
Record kds_ert := mk_kds_ert { ert_has_abort_sync : bool }.

Record kds_sched (C : Type) := mk_kds_sched {
  kds_heap : gmap Z (xrt_cu C);
  kds_clients : list kds_client;
  kds_num_client : Z;
  kds_bad_state : bool;
  kds_cu_mgmt_ : kds_cu_mgmt;
  kds_scu_mgmt : kds_cu_mgmt;
  kds_ert_ : option kds_ert;
  kds_xgq_enable : bool;
  kds_cu_intr_cap : Z;
  kds_cmdmem : cmdmem_info;
  kds_ini_disable : bool;
  kds_ert_disable : bool;
  kds_force_polling : bool;
  kds_cu_intr : Z;
  kds_timestamp_set : bool;
  kds_polling_thread : bool;
  kds_alive_cus : list Z;
  kds_polling_start : Z;
  kds_polling_stop : Z;
  kds_interval : Z;
}.
Arguments mk_kds_sched {C}. Arguments kds_heap {C}. Arguments kds_clients {C}.
Arguments kds_num_client {C}. Arguments kds_bad_state {C}. Arguments kds_cu_mgmt_ {C}.
Arguments kds_scu_mgmt {C}. Arguments kds_ert_ {C}. Arguments kds_xgq_enable {C}.
Arguments kds_cu_intr_cap {C}. Arguments kds_cmdmem {C}. Arguments kds_ini_disable {C}.
Arguments kds_ert_disable {C}. Arguments kds_force_polling {C}. Arguments kds_cu_intr {C}.
Arguments kds_timestamp_set {C}. Arguments kds_polling_thread {C}.
Arguments kds_alive_cus {C}. Arguments kds_polling_start {C}.
Arguments kds_polling_stop {C}. Arguments kds_interval {C}.

#[export] Instance eta_kds_sched C : Eta (kds_sched C) := fun r =>
  mk_kds_sched (kds_heap r) (kds_clients r) (kds_num_client r) (kds_bad_state r)
    (kds_cu_mgmt_ r) (kds_scu_mgmt r) (kds_ert_ r) (kds_xgq_enable r)
    (kds_cu_intr_cap r) (kds_cmdmem r) (kds_ini_disable r) (kds_ert_disable r)
    (kds_force_polling r) (kds_cu_intr r) (kds_timestamp_set r) (kds_polling_thread r)
    (kds_alive_cus r) (kds_polling_start r) (kds_polling_stop r) (kds_interval r).

(** ** Reference counts of a client *)

Definition kds_client_domain_refcnt (c : kds_client) (domain : Z) : option (list Z) :=
  r ← cl_refcnt c;
  if domain =? DOMAIN_PL then Some (r_cu_refs r)
  else if domain =? DOMAIN_PS then Some (r_scu_refs r)
  else None.

Definition put_domain_refcnt (c : kds_client) (domain : Z) (refs : list Z) : kds_client :=
  c <| cl_refcnt ::= fmap (fun r =>
        if domain =? DOMAIN_PL then r <| r_cu_refs := refs |>
        else if domain =? DOMAIN_PS then r <| r_scu_refs := refs |> else r) |>.

Definition kds_test_refcnt (c : kds_client) (domain idx : Z) : Z :=
  match kds_client_domain_refcnt c domain with
  | None => - EINVAL
  | Some refs => b2z (0 <? aget 0 refs idx)
  end.

(** [prev] is an [int]. *)
Definition kds_test_and_refcnt_incr (c : kds_client) (domain cu_idx : Z) : Z * kds_client :=
  match kds_client_domain_refcnt c domain with
  | None => (- EINVAL, c)
  | Some refs =>
      (s32 (aget 0 refs cu_idx),
       put_domain_refcnt c domain (aset refs cu_idx (u32 (aget 0 refs cu_idx + 1))))
  end.

Definition kds_test_and_refcnt_decr (c : kds_client) (domain cu_idx : Z) : Z * kds_client :=
  match kds_client_domain_refcnt c domain with
  | None => (- EINVAL, c)
  | Some refs =>
      let prev := s32 (aget 0 refs cu_idx) in
      (prev, if 0 <? prev
             then put_domain_refcnt c domain (aset refs cu_idx (u32 (aget 0 refs cu_idx - 1)))
             else c)
  end.

Definition kds_client_set_cu_refs_zero (c : kds_client) (domain : Z) : Z * kds_client :=
  match kds_client_domain_refcnt c domain with
  | None => (- EINVAL, c)
  | Some _ => (0, put_domain_refcnt c domain (replicate MAX_CUS 0))
  end.

Section Kds.
Context {C : Type}.
#[local] Abbreviation sched := (kds_sched C).

Definition get_mgmt (kds : sched) (domain : Z) : kds_cu_mgmt :=
  if domain =? DOMAIN_PL then kds_cu_mgmt_ kds else kds_scu_mgmt kds.
Definition put_mgmt (kds : sched) (domain : Z) (m : kds_cu_mgmt) : sched :=
  if domain =? DOMAIN_PL then kds <| kds_cu_mgmt_ := m |> else kds <| kds_scu_mgmt := m |>.

(** [cu_mgmt->xcus[i]], dereferenced. *)
Definition get_xcu (kds : sched) (m : kds_cu_mgmt) (i : Z) : option (xrt_cu C) :=
  p ← aget None (m_xcus m) i; kds_heap kds !! p.

Definition xcu_set (m : kds_cu_mgmt) (i : Z) : bool :=
  bool_decide (is_Some (aget None (m_xcus m) i)).

(** Replace the CU at [xcus[i]]. *)
Definition upd_xcu (kds : sched) (m : kds_cu_mgmt) (i : Z) (f : xrt_cu C -> xrt_cu C) : sched :=
  match aget None (m_xcus m) i with
  | None => kds
  | Some p => kds <| kds_heap ::= alter f p |>
  end.

(** ** Selecting a CU ([acquire_cu_idx])

    The client's counter is read a second time "before it go": [between] is
    what the other threads do to the client between the two reads (a close may
    drop its count).  Results: the index or error, the CU management with its
    usage counter, the client with its statistics, and the command. *)

(** The marked CUs that are open in the client's context; [None] on error. *)
Fixpoint valid_cus (c : kds_client) (domain : Z) (marked : list Z) : option (list Z) :=
  match marked with
  | [] => Some []
  | i :: marked =>
      let cu_set := kds_test_refcnt c domain i in
      if cu_set <? 0 then None
      else r ← valid_cus c domain marked;
           Some (if z2b cu_set then i :: r else r)
  end.

(** The search for the minimum usage. *)
Definition min_usage (m : kds_cu_mgmt) (first : Z) (rest : list Z) : Z :=
  foldl (fun index i => if aget 0 (m_usage m) i <? aget 0 (m_usage m) index then i else index)
    first rest.

Definition sub_field (domain : Z) : stat_field :=
  if domain =? DOMAIN_PL then S_CNT else SCU_S_CNT.
Definition comp_field (domain : Z) : stat_field :=
  if domain =? DOMAIN_PL then C_CNT else SCU_C_CNT.

(** The CU chosen before the final checks: [inl] an error. *)
Definition choose_cu (m : kds_cu_mgmt) (c : kds_client) (domain : Z) (xcmd : kds_command)
  : Z + Z :=
  let user_cus := cu_mask_to_cu_idx xcmd in
  if m_num_cus m <? Z.of_nat (length user_cus) then inl (- EINVAL)
  else match valid_cus c domain user_cus with
       | None => inl (- EINVAL)
       | Some [] => inl (- EINVAL)
       | Some [i] => inr (s8 i)
       | Some (i :: rest) => inr (s8 (min_usage m i rest))
       end.

Definition acquire_cu_idx (kds : sched) (m : kds_cu_mgmt) (c : kds_client) (domain : Z)
  (xcmd : kds_command) (between : kds_client -> kds_client)
  : option (Z * kds_cu_mgmt * kds_client * kds_command) :=
  match choose_cu m c domain xcmd with
  | inl e => Some (e, m, c, xcmd)
  | inr index =>
      xcu ← get_xcu kds m index;
      if xrt_cu_get_protocol xcu =? CTRL_NONE then Some (- EINVAL, m, c, xcmd)
      else if cu_is_ucu xcu then Some (- EBUSY, m, c, xcmd)
      else
        let m := m <| m_usage := aset (m_usage m) index (u64 (aget 0 (m_usage m) index + 1)) |> in
        let c := client_stat_inc (between c) (xcmd_hw_ctx_id xcmd) (sub_field domain) index in
        let cu_set := kds_test_refcnt c domain index in
        if cu_set <? 0 then Some (- EINVAL, m, c, xcmd)
        else
          let xcmd := xcmd <| xcmd_cu_idx := index |> in
          if cu_set =? 0
          then Some (- EAGAIN, m, client_stat_dec c (xcmd_hw_ctx_id xcmd) (sub_field domain) index,
                     xcmd)
          else Some (index, m, c, xcmd)
  end.

(** The [do ... while (cu_idx == -EAGAIN)] loop.  [closes] is what the other
    threads do to the client in each round.  A round that answers [-EAGAIN]
    needs a close in between, so the list of closes bounds the number of
    rounds; after it nothing changes any more ([acquire_loop_total]). *)
Fixpoint acquire_loop (kds : sched) (m : kds_cu_mgmt) (c : kds_client) (domain : Z)
  (xcmd : kds_command) (closes : list (kds_client -> kds_client))
  : option (Z * kds_cu_mgmt * kds_client * kds_command) :=
  match closes with
  | [] => acquire_cu_idx kds m c domain xcmd id
  | f :: closes =>
      r ← acquire_cu_idx kds m c domain xcmd f;
      let '(ret, m, c, xcmd) := r in
      if ret =? - EAGAIN then acquire_loop kds m c domain xcmd closes
      else Some (ret, m, c, xcmd)
  end.

(** ** Dispatch *)

(** Effects of a submission: the command's callbacks and the hand-over to the
    remote scheduler. *)
Inductive kds_event :=
| KNotify (id : Z) (status : kds_status)
| KFree (id : Z)
| KErtSubmit (xcmd : kds_command).

Definition notify_free (xcmd : kds_command) (s : kds_status) : list kds_event :=
  [KNotify (xcmd_id xcmd) s; KFree (xcmd_id xcmd)].

(** [kds_cu_dispatch]; the time stamp set after the submission is part of the
    submitted command, which the CU shares by pointer. *)
Definition kds_cu_dispatch (now : Z) (kds : sched) (c : kds_client) (domain : Z)
  (xcmd : kds_command) (closes : list (kds_client -> kds_client))
  : option (Z * sched * kds_client) :=
  r ← acquire_loop kds (get_mgmt kds domain) c domain xcmd closes;
  let '(cu_idx, m, c, xcmd) := r in
  let kds := put_mgmt kds domain m in
  if cu_idx <? 0 then Some (cu_idx, kds, c)
  else _ ← get_xcu kds m cu_idx;
       Some (0, upd_xcu kds m cu_idx
                  (fun x => xrt_cu_submit x (set_xcmd_timestamp now xcmd KDS_QUEUED)), c).

(** [kds_cu_abort_cmd] over the CUs of [idxs].  [answer i] is what the thread
    of CU [i] makes of the abort command until [xrt_cu_hpq_submit] returns. *)
Fixpoint abort_broadcast (answer : Z -> sched -> kds_command -> sched * kds_command)
  (kds : sched) (domain : Z) (xcmd : kds_command) (idxs : list Z)
  : list kds_event * sched :=
  match idxs with
  | [] => (notify_free xcmd KDS_ERROR, kds)
  | i :: idxs =>
      match get_xcu kds (get_mgmt kds domain) i with
      | None => abort_broadcast answer kds domain xcmd idxs
      | Some xcu =>
          let '(kds, xcmd) :=
            if xrt_cu_get_protocol xcu =? CTRL_NONE then (kds, xcmd)
            else answer i (upd_xcu kds (get_mgmt kds domain) i
                             (fun x => xrt_cu_hpq_submit x xcmd)) xcmd in
          if bool_decide (xcmd_status xcmd = KDS_NEW)
          then abort_broadcast answer kds domain xcmd idxs
          else
            let kds := if bool_decide (xcmd_status xcmd = KDS_TIMEOUT)
                       then kds <| kds_bad_state := true |> else kds in
            (notify_free xcmd (xcmd_status xcmd), kds)
      end
  end.

Definition kds_cu_abort_cmd answer (kds : sched) (domain : Z) (xcmd : kds_command)
  : list kds_event * sched :=
  abort_broadcast answer kds domain xcmd (seqZ 0 (Z.of_nat MAX_CUS)).

Definition kds_submit_cu answer (now : Z) (kds : sched) (c : kds_client) (domain : Z)
  (xcmd : kds_command) (closes : list (kds_client -> kds_client))
  : option (Z * list kds_event * sched * kds_client) :=
  match xcmd_opcode xcmd with
  | OP_START | OP_START_SK =>
      r ← kds_cu_dispatch now kds c domain xcmd closes;
      let '(ret, kds, c) := r in
      let kds := if (ret =? 0) && (kds_ert_disable kds || kds_xgq_enable kds)
                 then kds <| kds_polling_start := 1 |> else kds in
      Some (ret, [], kds, c)
  | OP_CONFIG | OP_GET_STAT => Some (0, notify_free xcmd KDS_COMPLETED, kds, c)
  | OP_ABORT => let '(ev, kds) := kds_cu_abort_cmd answer kds domain xcmd in
                Some (0, ev, kds, c)
  | _ => Some (- EINVAL, [], kds, c)
  end.

(** [kds_scu_config]: reset the usage of the soft CUs of each image, given as
    (first CU, number of CUs). *)
Definition kds_scu_config (m : kds_cu_mgmt) (images : list (Z * Z)) : option kds_cu_mgmt :=
  usage ← foldl (fun u i => u ← u; aset_chk u i 0) (Some (m_usage m))
            (images ≫= fun '(first, n) => (fun j => u32 (j + first)) <$> seqZ 0 n);
  Some (m <| m_usage := usage |>).

Definition kds_submit_ert (now : Z) (kds : sched) (c : kds_client) (xcmd : kds_command)
  (closes : list (kds_client -> kds_client)) (images : list (Z * Z))
  : option (Z * list kds_event * sched * kds_client) :=
  let go kds c xcmd :=
    Some (0, [KErtSubmit (set_xcmd_timestamp now xcmd KDS_QUEUED)], kds, c) in
  match xcmd_opcode xcmd with
  | OP_START =>
      r ← acquire_loop kds (kds_cu_mgmt_ kds) c DOMAIN_PL xcmd closes;
      let '(cu_idx, m, c, xcmd) := r in
      let kds := kds <| kds_cu_mgmt_ := m |> in
      if cu_idx <? 0 then Some (cu_idx, [], kds, c) else go kds c xcmd
  | OP_CONFIG_SK =>
      m ← kds_scu_config (kds_scu_mgmt kds) images;
      go (kds <| kds_scu_mgmt := m |>) c xcmd
  | OP_GET_STAT =>
      if m_num_cus (kds_scu_mgmt kds) =? 0
      then Some (0, notify_free xcmd KDS_COMPLETED, kds, c) else go kds c xcmd
  | OP_CONFIG | OP_START_SK | OP_CLK_CALIB | OP_VALIDATE => go kds c xcmd
  | _ => Some (- EINVAL, [], kds, c)
  end.

Definition kds_add_command answer (now : Z) (kds : sched) (c : kds_client)
  (xcmd : kds_command) (closes : list (kds_client -> kds_client)) (images : list (Z * Z))
  : option (Z * list kds_event * sched * kds_client) :=
  r ← (if xcmd_type xcmd =? KDS_CU then kds_submit_cu answer now kds c DOMAIN_PL xcmd closes
       else if xcmd_type xcmd =? KDS_SCU then kds_submit_cu answer now kds c DOMAIN_PS xcmd closes
       else if xcmd_type xcmd =? KDS_ERT then kds_submit_ert now kds c xcmd closes images
       else Some (- EINVAL, [], kds, c));
  let '(err, ev, kds, c) := r in
  Some (err, if z2b err then ev ++ notify_free xcmd KDS_ERROR else ev, kds, c).

(** ** CU contexts *)

Definition kds_add_cu_context (kds : sched) (c : kds_client) (cc : kds_client_cu_ctx)
  : Z * sched * kds_client :=
  let cu_idx := cc_cu_idx cc in
  let domain := cc_cu_domain cc in
  let m := get_mgmt kds domain in
  if (Z.of_nat MAX_CUS <=? cu_idx) || negb (xcu_set m cu_idx) then (- EINVAL, kds, c)
  else
    let '(cu_set, c) := kds_test_and_refcnt_incr c domain cu_idx in
    if cu_set <? 0 then (cu_set, kds, c)
    else
      let prop := Z.land (cc_flags cc) CU_CTX_PROP_MASK in
      let shared := negb (prop =? CU_CTX_EXCLUSIVE) in
      let refs := aget 0 (m_cu_refs m) cu_idx in
      let err ret :=
        let '(r, c) := kds_test_and_refcnt_decr c domain cu_idx in
        (if r <? 0 then - EINVAL else ret, kds, c) in
      if z2b (Z.land refs CU_EXCLU_MASK) then err (- EBUSY)
      else if negb shared && z2b refs then err (- EBUSY)
      else
        let refs' := if negb shared then Z.lor refs CU_EXCLU_MASK
                     else if cu_set =? 0 then u32 (refs + 1) else refs in
        (0, put_mgmt kds domain (m <| m_cu_refs := aset (m_cu_refs m) cu_idx refs' |>), c).

(** Commands of the client still outstanding on a CU of a context. *)
Definition outstanding (c : kds_client) (hw_ctx domain cu_idx : Z) : bool :=
  negb (client_stat_read c hw_ctx (sub_field domain) cu_idx =?
        client_stat_read c hw_ctx (comp_field domain) cu_idx).

(** Closing a context waits for its outstanding commands.  [rounds] is what the
    other threads do in each sleep of the waiting loop, and [ert_call] the
    effect of the remote scheduler's [abort] or [abort_sync] operation. *)
Definition env_step : Type := sched * kds_client -> sched * kds_client.

(** [do { msleep } while (submitted != completed)]; [None]: still waiting. *)
Fixpoint wait_completed (rounds : list env_step) (hw_ctx domain cu_idx : Z)
  (s : sched * kds_client) : option (sched * kds_client) :=
  match rounds with
  | [] => None
  | f :: rounds =>
      let s := f s in
      if outstanding s.2 hw_ctx domain cu_idx
      then wait_completed rounds hw_ctx domain cu_idx s else Some s
  end.

(** The same with a limit on the number of sleeps. *)
Fixpoint wait_bounded (wait : nat) (rounds : list env_step) (hw_ctx domain cu_idx : Z)
  (s : sched * kds_client) : sched * kds_client :=
  match wait, rounds with
  | S wait, f :: rounds =>
      let s := f s in
      if outstanding s.2 hw_ctx domain cu_idx
      then wait_bounded wait rounds hw_ctx domain cu_idx s else s
  | _, _ => s
  end.

(** [ert_bad] is the result of the remote scheduler's [abort_done]. *)
Definition wait_outstanding (rounds : list env_step) (ert_call : env_step)
  (ert_bad : bool) (kds : sched) (c : kds_client) (hw_ctx domain cu_idx : Z)
  : option (sched * kds_client) :=
  let set_bad (bad : bool) (kds : sched) :=
    if bad then kds <| kds_bad_state := true |> else kds in
  if negb (outstanding c hw_ctx domain cu_idx) then Some (kds, c)
  else if kds_ert_disable kds || kds_xgq_enable kds then
    let kds := upd_xcu kds (get_mgmt kds domain) cu_idx (fun x => xrt_cu_abort x (cl_addr c)) in
    s ← wait_completed rounds hw_ctx domain cu_idx (kds, c);
    let '(kds, c) := s in
    xcu ← get_xcu kds (get_mgmt kds domain) cu_idx;
    let bad_state := (xrt_cu_abort_done xcu (cl_addr c)).1 in
    let kds := upd_xcu kds (get_mgmt kds domain) cu_idx
                 (fun x => (xrt_cu_abort_done x (cl_addr c)).2) in
    Some (set_bad bad_state kds, c)
  else
    ert ← kds_ert_ kds;
    if negb (ert_has_abort_sync ert) then
      s ← wait_completed rounds hw_ctx domain cu_idx (ert_call (kds, c));
      let '(kds, c) := s in
      Some (set_bad ert_bad kds, c)
    else
      let s := wait_bounded 10 rounds hw_ctx domain cu_idx (kds, c) in
      Some (if outstanding s.2 hw_ctx domain cu_idx then ert_call s else s).

Definition kds_del_cu_context (rounds : list env_step) (ert_call : env_step)
  (ert_bad : bool) (kds : sched) (c : kds_client) (cc : kds_client_cu_ctx)
  : option (Z * sched * kds_client) :=
  let cu_idx := cc_cu_idx cc in
  let domain := cc_cu_domain cc in
  if (Z.of_nat MAX_CUS <=? cu_idx) || negb (xcu_set (get_mgmt kds domain) cu_idx)
  then Some (- EINVAL, kds, c)
  else
    let '(cu_set, c) := kds_test_and_refcnt_decr c domain cu_idx in
    if cu_set <? 0 then Some (- EINVAL, kds, c)
    else if cu_set =? 0 then Some (- EINVAL, kds, c)
    else
      r ← wait_outstanding rounds ert_call ert_bad kds c (cc_hw_ctx cc) domain cu_idx;
      let '(kds, c) := r in
      let m := get_mgmt kds domain in
      let refs := aget 0 (m_cu_refs m) cu_idx in
      let refs' := if z2b (Z.land refs CU_EXCLU_MASK) then 0
                   else if cu_set =? 1 then u32 (refs - 1) else refs in
      Some (0, put_mgmt kds domain (m <| m_cu_refs := aset (m_cu_refs m) cu_idx refs' |>), c).

(** The m2m CU of the virtual domain. *)
Definition virt_cu (kds : sched) : Z :=
  m_num_cus (kds_cu_mgmt_ kds) - m_num_cdma (kds_cu_mgmt_ kds).

Definition add_virt_ref (kds : sched) (d : Z) : sched :=
  let m := kds_cu_mgmt_ kds in
  let i := virt_cu kds in
  kds <| kds_cu_mgmt_ := m <| m_cu_refs := aset (m_cu_refs m) i
                                             (u32 (aget 0 (m_cu_refs m) i + d)) |> |>.

(** Returns the updated context too: its [ref_cnt] changes. *)
Definition kds_add_context (kds : sched) (c : kds_client) (cc : kds_client_cu_ctx)
  : Z * sched * kds_client * kds_client_cu_ctx :=
  let domain := cc_cu_domain cc in
  let shared := negb (cc_flags cc =? CU_CTX_EXCLUSIVE) in
  let done kds c := (0, kds, c, cc <| cc_ref_cnt := u32 (cc_ref_cnt cc + 1) |>) in
  if domain =? DOMAIN_VIRT then
    if negb shared then (- EINVAL, kds, c, cc)
    else if z2b (m_num_cdma (kds_cu_mgmt_ kds)) && (cc_ref_cnt cc =? 0) then
      let '(r, c) := kds_test_and_refcnt_incr c DOMAIN_PL (virt_cu kds) in
      if r <? 0 then (- EINVAL, kds, c, cc) else done (add_virt_ref kds 1) c
    else done kds c
  else if (domain =? DOMAIN_PL) || (domain =? DOMAIN_PS) then
    let '(r, kds, c) := kds_add_cu_context kds c cc in
    if z2b r then (- EINVAL, kds, c, cc) else done kds c
  else (- EINVAL, kds, c, cc).

Definition kds_del_context (rounds : list env_step) (ert_call : env_step) (ert_bad : bool)
  (kds : sched) (c : kds_client) (cc : kds_client_cu_ctx)
  : option (Z * sched * kds_client * kds_client_cu_ctx) :=
  let domain := cc_cu_domain cc in
  if cc_ref_cnt cc =? 0 then Some (- EINVAL, kds, c, cc)
  else
    let cc := cc <| cc_ref_cnt := cc_ref_cnt cc - 1 |> in
    if z2b (cc_ref_cnt cc) then Some (0, kds, c, cc)
    else if domain =? DOMAIN_VIRT then
      if z2b (m_num_cdma (kds_cu_mgmt_ kds)) && (cc_ref_cnt cc =? 0) then
        let '(r, c) := kds_test_and_refcnt_decr c DOMAIN_PL (virt_cu kds) in
        if r <? 0 then Some (- EINVAL, kds, c, cc)
        else
          let '(r, c) := kds_test_and_refcnt_decr c DOMAIN_PL (virt_cu kds) in
          if r =? 0 then Some (- EINVAL, kds, c, cc)
          else Some (0, add_virt_ref kds (-1), c, cc)
      else Some (0, kds, c, cc)
    else if (domain =? DOMAIN_PL) || (domain =? DOMAIN_PS) then
      r ← kds_del_cu_context rounds ert_call ert_bad kds c cc;
      let '(r, kds, c) := r in
      Some (if z2b r then - EINVAL else 0, kds, c, cc)
    else Some (- EINVAL, kds, c, cc).

(** ** The CU table *)

(** [insert_cu] and [_kds_add_cu]; [p] is the address of the CU. *)
Definition insert_cu (m : kds_cu_mgmt) (i p intr_id : Z) : kds_cu_mgmt :=
  let m := m <| m_xcus := aset (m_xcus m) i (Some p) |> in
  if intr_id =? M2M_CU_ID then m <| m_num_cdma ::= fun n => n + 1 |> else m.

(** First index from [i] on whose entry satisfies [p]. *)
Fixpoint first_index {A} (p : A -> bool) (l : list A) (i : Z) : option Z :=
  match l with
  | [] => None
  | x :: l => if p x then Some i else first_index p l (i + 1)
  end.

Definition kds_add_cu_ (kds : sched) (domain p : Z) : option (Z * sched) :=
  let m := get_mgmt kds domain in
  if Z.of_nat MAX_CUS <=? m_num_cus m then Some (- ENOMEM, kds)
  else
    match first_index (fun x => bool_decide (x = None)) (m_xcus m) 0 with
    | None => Some (0, kds)
    | Some i =>
        xcu ← kds_heap kds !! p;
        let m := insert_cu m i p (info_intr_id (cu_info xcu)) in
        let m := m <| m_num_cus ::= fun n => n + 1 |> in
        Some (0, put_mgmt kds domain m <| kds_alive_cus ::= fun l => l ++ [p] |>)
    end.

Definition kds_del_cu_ (kds : sched) (domain p : Z) : option (Z * sched) :=
  let m := get_mgmt kds domain in
  if m_num_cus m =? 0 then Some (- EINVAL, kds)
  else
    let kds :=
      match first_index (fun x => bool_decide (x = Some p)) (m_xcus m) 0 with
      | None => kds
      | Some i =>
          put_mgmt kds domain
            (m <| m_xcus := aset (m_xcus m) i None |>
               <| m_cu_intr := aset (m_cu_intr m) i 0 |>
               <| m_num_cus ::= fun n => n - 1 |>
               <| m_usage := aset (m_usage m) i 0 |>)
            <| kds_alive_cus ::= remove_first p |>
      end in
    xcu ← kds_heap kds !! p;
    let kds := if info_intr_id (cu_info xcu) =? M2M_CU_ID
               then put_mgmt kds domain (get_mgmt kds domain <| m_num_cdma ::= fun n => n - 1 |>)
               else kds in
    Some (0, kds).

Definition kds_add_cu (kds : sched) (p : Z) := kds_add_cu_ kds DOMAIN_PL p.
Definition kds_del_cu (kds : sched) (p : Z) := kds_del_cu_ kds DOMAIN_PL p.
Definition kds_add_scu (kds : sched) (p : Z) := kds_add_cu_ kds DOMAIN_PS p.
Definition kds_del_scu (kds : sched) (p : Z) := kds_del_cu_ kds DOMAIN_PS p.

Definition get_cu_by_addr (kds : sched) (m : kds_cu_mgmt) (addr : Z) : Z :=
  default (Z.of_nat MAX_CUS)
    (first_index (fun i => match get_xcu kds m i with
                           | Some x => info_addr (cu_info x) =? addr
                           | None => false
                           end) (seqZ 0 (Z.of_nat MAX_CUS)) 0).

Definition kds_get_cu_total (kds : sched) : Z := m_num_cus (kds_cu_mgmt_ kds).
Definition kds_get_cu_addr (kds : sched) (idx : Z) : option Z :=
  xcu ← get_xcu kds (kds_cu_mgmt_ kds) idx; Some (u32 (info_addr (cu_info xcu))).
Definition kds_get_cu_proto (kds : sched) (idx : Z) : option Z :=
  xcu ← get_xcu kds (kds_cu_mgmt_ kds) idx; Some (info_protocol (cu_info xcu)).

(** [idx] is an [int] compared with [MAX_CUS] only from above. *)
Definition kds_map_cu_addr (kds : sched) (c : kds_client) (idx : Z) : option (Z + Z) :=
  let m := kds_cu_mgmt_ kds in
  if Z.of_nat MAX_CUS <=? idx then Some (inl (- EINVAL))
  else if idx <? 0 then None
  else if negb (xcu_set m idx) then Some (inl (- EINVAL))
  else if negb (z2b (kds_test_refcnt c DOMAIN_PL idx)) then Some (inl (- EINVAL))
  else
    xcu ← get_xcu kds m idx;
    if negb (z2b (cu_xcr_start xcu)) &&
       (negb (m_rw_shared m) && negb (z2b (Z.land (aget 0 (m_cu_refs m) idx) CU_EXCLU_MASK)))
    then Some (inl (- EINVAL))
    else addr ← kds_get_cu_addr kds idx; Some (inr addr).

(** [start + size] is [u32] arithmetic, compared with a [size_t]. *)
Definition kds_set_cu_read_range (kds : sched) (cu_idx st size : Z) : option (Z * sched) :=
  let m := kds_cu_mgmt_ kds in
  if Z.of_nat MAX_CUS <=? cu_idx then Some (- EINVAL, kds)
  else if z2b (size mod 4) then Some (- EINVAL, kds)
  else if st <? 0x10 then Some (- EINVAL, kds)
  else
    xcu ← get_xcu kds m cu_idx;
    if info_size (cu_info xcu) <? u32 (st + size) then Some (- EINVAL, kds)
    else if z2b (Z.land (aget 0 (m_cu_refs m) cu_idx) CU_EXCLU_MASK)
    then Some (- EINVAL, kds)
    else Some (0, upd_xcu kds m cu_idx (fun x =>
                x <| cu_xcr_start := st |> <| cu_xcr_end := u32 (st + size - 1) |>)).

Definition kds_get_max_regmap_size (kds : sched) : Z :=
  foldl (fun mx i => match get_xcu kds (kds_cu_mgmt_ kds) i with
                     | None => mx
                     | Some x => Z.max mx (xrt_cu_regmap_size (cu_info x))
                     end) 0 (seqZ 0 (Z.of_nat MAX_CUS)).
End Kds.
