(* ===== verification/KdsRefs.v ===== *)
(** * Reference counting and exclusivity of CU contexts

    The reference count of a CU ([cu_refs]) and the per-client counts agree
    after every open and close of a CU context; an exclusive reservation has
    exactly one holder. *)
From S2P Require Import Prelude KdsCommand CuInfo CuCore CircLog XrtCu KdsHwctx KdsSched.

#[local] Arguments upd : simpl never.

(** ** Lemmas on the client's counters *)

Definition cl_ref (d i : Z) (c : kds_client) : Z :=
  match kds_client_domain_refcnt c d with
  | None => 0
  | Some refs => aget 0 refs i
  end.

Definition holds (d i : Z) (c : kds_client) : bool := 0 <? cl_ref d i c.

(** A live client: both counter arrays present and in range. *)
Definition client_ok (c : kds_client) : Prop :=
  exists r, cl_refcnt c = Some r /\
    length (r_cu_refs r) = MAX_CUS /\ length (r_scu_refs r) = MAX_CUS /\
    Forall (fun z => 0 <= z < 2 ^ 31 - 1) (r_cu_refs r) /\
    Forall (fun z => 0 <= z < 2 ^ 31 - 1) (r_scu_refs r).

Definition hw_domain (d : Z) : Prop := d = DOMAIN_PL \/ d = DOMAIN_PS.
Definition cu_range (i : Z) : Prop := 0 <= i < Z.of_nat MAX_CUS.

Lemma client_refcnt c d :
  client_ok c -> hw_domain d ->
  exists refs, kds_client_domain_refcnt c d = Some refs /\ length refs = MAX_CUS /\
    Forall (fun z => 0 <= z < 2 ^ 31 - 1) refs.
Proof.
  intros (r & Hr & L1 & L2 & F1 & F2) [->| ->]; unfold kds_client_domain_refcnt; rewrite Hr;
    cbn; eauto.
Qed.

Lemma aget_Forall (P : Z -> Prop) l i :
  Forall P l -> 0 <= i < Z.of_nat (length l) -> P (aget 0 l i).
Proof.
  intros HF Hi. unfold aget. destruct (lookup_lt_is_Some_2 l (Z.to_nat i)) as [x E]; [lia|].
  rewrite E. simpl. by eapply Forall_lookup in HF.
Qed.

Lemma cl_ref_range c d i :
  client_ok c -> hw_domain d -> cu_range i -> 0 <= cl_ref d i c < 2 ^ 31 - 1.
Proof.
  intros Hc Hd Hi. destruct (client_refcnt c d Hc Hd) as (refs & E & L & F).
  unfold cl_ref. rewrite E. apply (aget_Forall _ _ _ F). unfold cu_range in Hi. lia.
Qed.

Lemma put_get_refcnt c d d' refs :
  client_ok c -> hw_domain d -> hw_domain d' ->
  kds_client_domain_refcnt (put_domain_refcnt c d refs) d' =
  if d =? d' then Some refs else kds_client_domain_refcnt c d'.
Proof.
  intros (r & Hr & _) Hd Hd'. unfold kds_client_domain_refcnt, put_domain_refcnt. rproj.
  rewrite Hr. destruct Hd as [->| ->], Hd' as [->| ->]; done.
Qed.

(** Writing one counter. *)
Lemma cl_ref_put c d i v d' i' refs :
  client_ok c -> hw_domain d -> hw_domain d' -> cu_range i -> cu_range i' ->
  kds_client_domain_refcnt c d = Some refs ->
  cl_ref d' i' (put_domain_refcnt c d (aset refs i v)) =
  if (d =? d') && (i =? i') then v else cl_ref d' i' c.
Proof.
  intros Hc Hd Hd' Hi Hi' E. unfold cl_ref. rewrite put_get_refcnt by done.
  destruct (client_refcnt c d Hc Hd) as (refs' & E' & L & _). simplify_eq.
  unfold cu_range in *. destruct (Z.eqb_spec d d') as [->|]; cbn [andb]; [|done].
  rewrite E. destruct (Z.eqb_spec i i') as [->|Hne].
  - rewrite aget_aset_eq; lia.
  - rewrite aget_aset_ne; lia.
Qed.

Lemma put_client_ok c d i v refs :
  client_ok c -> hw_domain d -> kds_client_domain_refcnt c d = Some refs ->
  0 <= v < 2 ^ 31 - 1 -> client_ok (put_domain_refcnt c d (aset refs i v)).
Proof.
  intros (r & Hr & L1 & L2 & F1 & F2) Hd E Hv.
  assert (forall l, Forall (fun z => 0 <= z < 2 ^ 31 - 1) l ->
                    Forall (fun z => 0 <= z < 2 ^ 31 - 1) (aset l i v)) as Hset.
  { intros l HF. unfold aset. by apply Forall_insert. }
  unfold kds_client_domain_refcnt in E. rewrite Hr in E. cbn [mbind option_bind] in E.
  unfold client_ok, put_domain_refcnt. rproj. rewrite Hr.
  destruct Hd as [->| ->]; cbn in E |- *; simplify_eq; eexists; (split; [reflexivity|]); rproj;
    rewrite ?length_aset; auto.
Qed.

Lemma refcnt_incr_ok c d i :
  client_ok c -> hw_domain d -> cu_range i -> cl_ref d i c + 1 < 2 ^ 31 - 1 ->
  exists c', kds_test_and_refcnt_incr c d i = (cl_ref d i c, c') /\ client_ok c' /\
    (forall d' i', hw_domain d' -> cu_range i' ->
       cl_ref d' i' c' = if (d =? d') && (i =? i') then cl_ref d i c + 1 else cl_ref d' i' c).
Proof.
  intros Hc Hd Hi Hb. pose proof (cl_ref_range c d i Hc Hd Hi) as Hr.
  destruct (client_refcnt c d Hc Hd) as (refs & E & L & F).
  unfold kds_test_and_refcnt_incr. rewrite E.
  assert (aget 0 refs i = cl_ref d i c) as -> by (unfold cl_ref; by rewrite E).
  rewrite s32_small, u32_small by lia. eexists. split; [reflexivity|]. split.
  - apply put_client_ok; [done|done|done|lia].
  - intros d' i' Hd' Hi'. by apply cl_ref_put.
Qed.

Lemma refcnt_decr_ok c d i :
  client_ok c -> hw_domain d -> cu_range i ->
  exists c', kds_test_and_refcnt_decr c d i = (cl_ref d i c, c') /\ client_ok c' /\
    (forall d' i', hw_domain d' -> cu_range i' ->
       cl_ref d' i' c' = if (d =? d') && (i =? i') then Z.max 0 (cl_ref d i c - 1)
                         else cl_ref d' i' c).
Proof.
  intros Hc Hd Hi. pose proof (cl_ref_range c d i Hc Hd Hi) as Hr.
  destruct (client_refcnt c d Hc Hd) as (refs & E & L & F).
  unfold kds_test_and_refcnt_decr. rewrite E.
  assert (aget 0 refs i = cl_ref d i c) as -> by (unfold cl_ref; by rewrite E).
  rewrite s32_small by lia. eexists. split; [reflexivity|].
  destruct (Z.ltb_spec 0 (cl_ref d i c)).
  - rewrite u32_small by lia. split; [apply put_client_ok; [done..|lia]|].
    intros d' i' Hd' Hi'. rewrite (cl_ref_put c d i _ d' i' refs) by done.
    case_match; [lia|done].
  - split; [done|]. intros d' i' Hd' Hi'.
    destruct ((d =? d') && (i =? i')) eqn:Eq; [|done].
    assert (d = d' /\ i = i') as [<- <-] by lia. lia.
Qed.

Lemma refcnt_decr_zero c d i c1 :
  kds_test_and_refcnt_decr c d i = (0, c1) -> c1 = c.
Proof.
  unfold kds_test_and_refcnt_decr. destruct (kds_client_domain_refcnt c d) as [refs|]; [|congruence].
  intros H. injection H as H1 H2. rewrite H1 in H2. cbn in H2. congruence.
Qed.

Lemma client_ok_refcnt c c' : cl_refcnt c' = cl_refcnt c -> client_ok c -> client_ok c'.
Proof. unfold client_ok. by intros ->. Qed.

(** An increment undone by a decrement. *)
Lemma refcnt_incr_decr c d i :
  client_ok c -> hw_domain d -> cu_range i -> cl_ref d i c + 1 < 2 ^ 31 - 1 ->
  exists c1, kds_test_and_refcnt_incr c d i = (cl_ref d i c, c1) /\
    kds_test_and_refcnt_decr c1 d i = (cl_ref d i c + 1, c).
Proof.
  intros Hc Hd Hi Hb. pose proof (cl_ref_range c d i Hc Hd Hi) as Hr.
  destruct (client_refcnt c d Hc Hd) as (refs & E & L & F).
  assert (aget 0 refs i = cl_ref d i c) as Ea by (unfold cl_ref; by rewrite E).
  unfold kds_test_and_refcnt_incr. rewrite E, Ea. rewrite s32_small, u32_small by lia.
  eexists. split; [reflexivity|]. unfold kds_test_and_refcnt_decr.
  rewrite put_get_refcnt by done. rewrite Z.eqb_refl.
  unfold cu_range in Hi. rewrite aget_aset_eq by lia. rewrite s32_small by lia. f_equal.
  destruct (Z.ltb_spec 0 (cl_ref d i c + 1)); [|lia]. rewrite u32_small by lia.
  rewrite aset_aset. replace (cl_ref d i c + 1 - 1) with (aget 0 refs i) by lia.
  rewrite aset_aget by lia. destruct Hc as (r & Hcr & _).
  unfold kds_client_domain_refcnt in E. rewrite Hcr in E. destruct c as [a b x y z w rc].
  cbn in Hcr. subst rc. destruct r as [r1 r2].
  destruct Hd as [->| ->]; cbn in E; simplify_eq; reflexivity.
Qed.

(** ** The invariant *)

Section Refs.
Context {C : Type}.
Implicit Types (kds : kds_sched C).

Definition cu_ref kds (d i : Z) : Z := aget 0 (m_cu_refs (get_mgmt kds d)) i.
Definition holders (cs : list kds_client) (d i : Z) : Z := Z.of_nat (countb (holds d i) cs).

Definition cu_ref_ok kds (cs : list kds_client) (d i : Z) : Prop :=
  (cu_ref kds d i = CU_EXCLU_MASK /\ holders cs d i = 1 /\
   Forall (fun c => cl_ref d i c <= 1) cs) \/
  cu_ref kds d i = holders cs d i.

Record refs_inv kds : Prop := {
  inv_clients : Forall client_ok (kds_clients kds);
  inv_few : Z.of_nat (length (kds_clients kds)) < 2 ^ 31 - 1;
  inv_len : forall d, hw_domain d -> length (m_cu_refs (get_mgmt kds d)) = MAX_CUS;
  inv_refs : forall d i, hw_domain d -> cu_range i -> cu_ref_ok kds (kds_clients kds) d i;
}.

(** The client at position [ci] after an operation on it. *)
Definition with_client kds (ci : nat) (c : kds_client) : kds_sched C :=
  kds <| kds_clients := <[ci := c]> (kds_clients kds) |>.

Lemma get_put_mgmt kds d d' m :
  hw_domain d -> hw_domain d' ->
  get_mgmt (put_mgmt kds d m) d' = if d =? d' then m else get_mgmt kds d'.
Proof. unfold get_mgmt, put_mgmt. intros [->| ->] [->| ->]; done. Qed.

Lemma clients_put_mgmt kds d m : kds_clients (put_mgmt kds d m) = kds_clients kds.
Proof. unfold put_mgmt. by case_match. Qed.

Lemma holders_insert cs ci c c' d i :
  cs !! ci = Some c ->
  holders (<[ci := c']> cs) d i = holders cs d i - b2z (holds d i c) + b2z (holds d i c').
Proof. intros Hci. unfold holders. by apply countb_insert. Qed.

Lemma holders_le cs d i : holders cs d i <= Z.of_nat (length cs).
Proof. unfold holders. pose proof (countb_le (holds d i) cs). lia. Qed.

(** Changing one client's count on one CU, and that CU's count. *)
Lemma refs_inv_step kds d i r' ci c c' :
  refs_inv kds -> hw_domain d -> cu_range i -> kds_clients kds !! ci = Some c ->
  client_ok c' ->
  (forall d' i', hw_domain d' -> cu_range i' -> ~ (d = d' /\ i = i') ->
     cl_ref d' i' c' = cl_ref d' i' c) ->
  let m := get_mgmt kds d in
  let kds' := put_mgmt kds d (m <| m_cu_refs := aset (m_cu_refs m) i r' |>) in
  (cu_ref_ok kds' (<[ci := c']> (kds_clients kds)) d i) ->
  refs_inv (with_client kds' ci c').
Proof.
  intros [Ic If Il Ir] Hd Hi Hci Hok Hsame m kds' Hnew.
  assert (kds_clients (with_client kds' ci c') = <[ci := c']> (kds_clients kds)) as Ecs.
  { unfold with_client. rproj. subst kds'. by rewrite clients_put_mgmt. }
  assert (forall d', get_mgmt (with_client kds' ci c') d' = get_mgmt kds' d') as Eg.
  { intros d'. unfold get_mgmt, with_client. by case_match. }
  split.
  - rewrite Ecs. by apply Forall_insert.
  - by rewrite Ecs, length_insert.
  - intros d' Hd'. rewrite Eg. subst kds'. rewrite get_put_mgmt by done.
    destruct (Z.eqb_spec d d') as [<-|]; [|by apply Il]. rproj. rewrite length_aset. by apply Il.
  - intros d' i' Hd' Hi'. rewrite Ecs.
    destruct (decide (d = d' /\ i = i')) as [[<- <-]|Hne].
    { unfold cu_ref_ok, cu_ref in *. by rewrite Eg. }
    assert (cu_ref (with_client kds' ci c') d' i' = cu_ref kds d' i') as Er.
    { unfold cu_ref. rewrite Eg. subst kds'. rewrite get_put_mgmt by done.
      destruct (Z.eqb_spec d d') as [<-|]; [|done]. rproj. unfold cu_range in *.
      apply aget_aset_ne; lia || naive_solver. }
    unfold cu_ref_ok. rewrite Er, (holders_insert _ _ c) by done.
    assert (holds d' i' c' = holds d' i' c) as -> by (unfold holds; by rewrite Hsame).
    rewrite Z.sub_add. destruct (Ir d' i' Hd' Hi') as [(E1 & E2 & E3)|E]; [left|by right].
    split_and!; try done. apply Forall_insert; [done|]. rewrite Hsame by done.
    by eapply Forall_lookup in E3.
Qed.

Lemma land_exclu r : 0 <= r < 2 ^ 31 -> Z.land r CU_EXCLU_MASK = 0.
Proof.
  intros Hr. apply Z.bits_inj'. intros n Hn. rewrite Z.land_spec, Z.bits_0.
  change CU_EXCLU_MASK with (2 ^ 31). destruct (Z.eqb_spec n 31) as [->|Hne].
  - assert (Z.testbit r 31 = false) as ->; [|done].
    destruct (Z.eqb_spec r 0) as [->|]; [done|].
    apply Z.bits_above_log2; [lia|]. apply Z.log2_lt_pow2; [lia|]. lia.
  - rewrite Z.pow2_bits_false by lia. by rewrite andb_false_r.
Qed.

Lemma cu_ref_ok_range kds cs d i :
  Z.of_nat (length cs) < 2 ^ 31 - 1 -> cu_ref_ok kds cs d i ->
  (z2b (Z.land (cu_ref kds d i) CU_EXCLU_MASK) = true /\ cu_ref kds d i = CU_EXCLU_MASK /\
   holders cs d i = 1 /\ Forall (fun c => cl_ref d i c <= 1) cs) \/
  (z2b (Z.land (cu_ref kds d i) CU_EXCLU_MASK) = false /\ cu_ref kds d i = holders cs d i).
Proof.
  intros Hl [(E1 & E2 & E3)|E]; [left|right].
  - by rewrite E1.
  - pose proof (holders_le cs d i). rewrite E, land_exclu; [done|]. unfold holders in *. lia.
Qed.

(** A holder other than [ci] makes the count positive without it. *)
Lemma holders_pos cs ci c d i :
  cs !! ci = Some c -> holds d i c = true -> 0 < holders cs d i.
Proof.
  intros Hci Hh. unfold holders.
  assert (0 < countb (holds d i) cs)%nat; [|lia].
  eapply countb_pos; [by eapply list_elem_of_lookup_2|done].
Qed.

(** ** Opening a CU context *)

Definition is_exclusive (cc : kds_client_cu_ctx) : bool :=
  Z.land (cc_flags cc) CU_CTX_PROP_MASK =? CU_CTX_EXCLUSIVE.

(** What an open returns, decided by the table and the count alone. *)
Definition add_result kds (cc : kds_client_cu_ctx) : Z :=
  let d := cc_cu_domain cc in
  let i := cc_cu_idx cc in
  if (Z.of_nat MAX_CUS <=? i) || negb (xcu_set (get_mgmt kds d) i) then - EINVAL
  else if z2b (Z.land (cu_ref kds d i) CU_EXCLU_MASK) then - EBUSY
  else if is_exclusive cc && z2b (cu_ref kds d i) then - EBUSY else 0.

Lemma add_cu_context_eq kds c cc :
  client_ok c -> hw_domain (cc_cu_domain cc) -> 0 <= cc_cu_idx cc ->
  cl_ref (cc_cu_domain cc) (cc_cu_idx cc) c + 1 < 2 ^ 31 - 1 ->
  let d := cc_cu_domain cc in let i := cc_cu_idx cc in let m := get_mgmt kds d in
  (add_result kds cc <> 0 /\ kds_add_cu_context kds c cc = (add_result kds cc, kds, c)) \/
  (add_result kds cc = 0 /\ cu_range i /\ exists c1,
     kds_test_and_refcnt_incr c d i = (cl_ref d i c, c1) /\
     kds_add_cu_context kds c cc =
       (0, put_mgmt kds d (m <| m_cu_refs := aset (m_cu_refs m) i
          (if is_exclusive cc then Z.lor (cu_ref kds d i) CU_EXCLU_MASK
           else if cl_ref d i c =? 0 then u32 (cu_ref kds d i + 1) else cu_ref kds d i) |>), c1)).
Proof.
  intros Hc Hd Hi Hb d i m. unfold add_result, kds_add_cu_context. fold d i m.
  destruct ((Z.of_nat MAX_CUS <=? i) || negb (xcu_set m i)) eqn:E0; [by left|].
  assert (cu_range i) as Hr by (unfold cu_range; lia).
  destruct (refcnt_incr_decr c d i Hc Hd Hr Hb) as (c1 & E1 & E2). rewrite E1.
  pose proof (cl_ref_range c d i Hc Hd Hr) as Hrng.
  destruct (Z.ltb_spec (cl_ref d i c) 0); [lia|].
  change (aget 0 (m_cu_refs m) i) with (cu_ref kds d i). rewrite negb_involutive.
  fold (is_exclusive cc). rewrite E2.
  destruct (Z.ltb_spec (cl_ref d i c + 1) 0); [lia|].
  destruct (z2b (Z.land (cu_ref kds d i) CU_EXCLU_MASK)); [by left|].
  destruct (is_exclusive cc && z2b (cu_ref kds d i)); [by left|].
  right. split; [done|]. split; [done|]. by exists c1.
Qed.

Lemma add_result_0 kds cc :
  add_result kds cc = 0 ->
  z2b (Z.land (cu_ref kds (cc_cu_domain cc) (cc_cu_idx cc)) CU_EXCLU_MASK) = false /\
  (is_exclusive cc = true -> cu_ref kds (cc_cu_domain cc) (cc_cu_idx cc) = 0).
Proof.
  unfold add_result. generalize (cu_ref kds (cc_cu_domain cc) (cc_cu_idx cc)). intros r.
  destruct (_ || _); [discriminate|]. destruct (z2b (Z.land r CU_EXCLU_MASK)); [discriminate|].
  intros H. split; [done|]. intros Hx. rewrite Hx in H. unfold z2b in H.
  destruct (Z.eqb_spec r 0); [done|discriminate].
Qed.

(** The count written by an open. *)
Definition open_refs (excl : bool) (own r : Z) : Z :=
  if excl then Z.lor r CU_EXCLU_MASK else if own =? 0 then u32 (r + 1) else r.

Lemma holders_0 cs d i : holders cs d i = 0 -> Forall (fun c => holds d i c = false) cs.
Proof.
  unfold holders. intros H. apply Forall_forall. intros c Hc.
  apply (countb_zero (holds d i) cs); [lia|done].
Qed.

(** The count of the CU after an open, against the holders. *)
Lemma open_refs_ok kds cs (ci : nat) c c1 d i (excl : bool) :
  Z.of_nat (length cs) < 2 ^ 31 - 1 -> cs !! ci = Some c ->
  0 <= cl_ref d i c -> cl_ref d i c1 = cl_ref d i c + 1 ->
  cu_ref kds d i = open_refs excl (cl_ref d i c) (holders cs d i) ->
  (excl = true -> holders cs d i = 0) ->
  cu_ref_ok kds (<[ci := c1]> cs) d i /\
  (excl = true -> cu_ref kds d i = CU_EXCLU_MASK /\ holders (<[ci := c1]> cs) d i = 1).
Proof.
  intros Hl Hci Hge H1 Hr Hx. pose proof (holders_le cs d i) as Hle.
  assert (0 <= holders cs d i) by (unfold holders; lia).
  assert (holds d i c1 = true) as Hh1 by (unfold holds; lia).
  unfold cu_ref_ok. rewrite Hr, (holders_insert cs ci c c1) by done. rewrite Hh1.
  unfold open_refs. destruct excl.
  - specialize (Hx eq_refl). pose proof (holders_0 _ _ _ Hx) as HF. rewrite Hx.
    assert (holds d i c = false) as Hc by (by eapply Forall_lookup in HF).
    rewrite Hc. split; [left|done]. split_and!; [done..|].
    unfold holds in Hc. apply Forall_insert; [|lia].
    eapply Forall_impl; [exact HF|]. unfold holds. intros. cbn beta in *. lia.
  - split; [right|done]. unfold holds. destruct (Z.eqb_spec (cl_ref d i c) 0) as [E|E].
    + rewrite E. rewrite u32_small by lia. cbn [b2z Z.ltb Z.compare]. lia.
    + destruct (Z.ltb_spec 0 (cl_ref d i c)); cbn [b2z]; lia.
Qed.

(** Reading back a written count. *)
Lemma cu_ref_put kds d i r :
  refs_inv kds -> hw_domain d -> cu_range i ->
  let m := get_mgmt kds d in
  cu_ref (put_mgmt kds d (m <| m_cu_refs := aset (m_cu_refs m) i r |>)) d i = r.
Proof.
  intros Inv Hd Hr m. unfold cu_ref. rewrite get_put_mgmt, Z.eqb_refl by done. rproj.
  unfold cu_range in Hr. rewrite aget_aset_eq; [done|]. unfold m. rewrite (inv_len _ Inv d Hd). lia.
Qed.

Lemma clients_with kds d m ci c :
  kds_clients (with_client (put_mgmt kds d m) ci c) = <[ci := c]> (kds_clients kds).
Proof. unfold with_client. rproj. by rewrite clients_put_mgmt. Qed.

Lemma with_client_id kds ci c :
  refs_inv kds -> kds_clients kds !! ci = Some c -> refs_inv (with_client kds ci c).
Proof.
  intros Inv Hci. unfold with_client. rewrite list_insert_id by done. destruct Inv. by split.
Qed.
(** ** Closing a CU context *)

Lemma refs_inv_frame kds kds' :
  kds_clients kds' = kds_clients kds -> (forall d, get_mgmt kds' d = get_mgmt kds d) ->
  refs_inv kds -> refs_inv kds'.
Proof.
  intros Ec Em [Ic If Il Ir]. split; rewrite ?Ec; try done.
  - intros d Hd. rewrite Em. by apply Il.
  - intros d i Hd Hi. unfold cu_ref_ok, cu_ref. rewrite Em. by apply Ir.
Qed.

(** The invariant only looks at the counters of the clients. *)
Lemma refs_inv_refcnt kds kds' :
  cl_refcnt <$> kds_clients kds' = cl_refcnt <$> kds_clients kds ->
  (forall d, get_mgmt kds' d = get_mgmt kds d) -> refs_inv kds -> refs_inv kds'.
Proof.
  intros Ec Em [Ic If Il Ir].
  assert (forall (Q : kds_client -> Prop) cs cs',
    (forall c c', cl_refcnt c' = cl_refcnt c -> Q c -> Q c') ->
    cl_refcnt <$> cs' = cl_refcnt <$> cs -> Forall Q cs -> Forall Q cs') as HQ.
  { intros Q cs cs' Hq. revert cs. induction cs' as [|c' cs' IH]; intros [|c cs] E HF; try done.
    injection E as E1 E2. apply Forall_cons in HF as [H1 H2]. constructor; eauto. }
  assert (forall d i cs cs', cl_refcnt <$> cs' = cl_refcnt <$> cs ->
    holders cs' d i = holders cs d i) as Hh.
  { intros d i cs cs'. unfold holders. revert cs.
    induction cs' as [|c' cs' IH]; intros [|c cs] E; try done. injection E as E1 E2.
    cbn [countb]. unfold holds, cl_ref, kds_client_domain_refcnt in *. rewrite E1.
    rewrite !Nat2Z.inj_add. by rewrite (IH cs E2). }
  split.
  - eapply HQ; [|exact Ec|exact Ic]. intros. by eapply client_ok_refcnt.
  - apply (f_equal length) in Ec. rewrite !length_fmap in Ec. lia.
  - intros d Hd. rewrite Em. by apply Il.
  - intros d i Hd Hi. unfold cu_ref_ok, cu_ref. rewrite Em, (Hh d i _ _ Ec).
    destruct (Ir d i Hd Hi) as [(E1 & E2 & E3)|E]; [left|by right]. split_and!; [done..|].
    eapply HQ; [|exact Ec|exact E3]. intros c c' E. unfold cl_ref, kds_client_domain_refcnt.
    by rewrite E.
Qed.

Lemma upd_xcu_frame kds m i f :
  kds_clients (upd_xcu kds m i f) = kds_clients kds /\
  (forall d, get_mgmt (upd_xcu kds m i f) d = get_mgmt kds d).
Proof.
  unfold upd_xcu. destruct (aget None (m_xcus m) i) as [p|]; [|done]. rproj.
  split; [done|]. intros d. unfold get_mgmt. by destruct (d =? DOMAIN_PL).
Qed.

Lemma set_bad_frame kds (b : bool) :
  let kds' := if b then kds <| kds_bad_state := true |> else kds in
  kds_clients kds' = kds_clients kds /\ (forall d, get_mgmt kds' d = get_mgmt kds d).
Proof.
  destruct b; [|done]. cbv zeta. rproj. split; [done|]. intros d. unfold get_mgmt.
  by destruct (d =? DOMAIN_PL).
Qed.

(** A scheduler that can wait: local, or with a remote scheduler. *)
Definition sched_ready kds : Prop :=
  kds_ert_disable kds || kds_xgq_enable kds = true \/ is_Some (kds_ert_ kds).

(** The CUs of [P] are in the table. *)
Definition present (P : Z -> Z -> Prop) kds : Prop :=
  forall d i, P d i -> is_Some (get_xcu kds (get_mgmt kds d) i).

(** The closing client [c1] has already dropped its count, while the CU's count
    is still that of the list, where the client at [ci] is [c]. *)
Definition closing (P : Z -> Z -> Prop) (ci : nat) (c c1 : kds_client)
  (s : kds_sched C * kds_client) : Prop :=
  refs_inv s.1 /\ kds_clients s.1 !! ci = Some c /\ cl_refcnt s.2 = cl_refcnt c1 /\
  present P s.1 /\ sched_ready s.1.

(** What the other threads may do during one sleep: run commands, open and
    close contexts of other clients. *)
Definition ctx_env_ok (P : Z -> Z -> Prop) (f : env_step (C := C)) : Prop :=
  forall ci c c1 s, closing P ci c c1 s -> closing P ci c c1 (f s).

Lemma closing_frame P ci c c1 kds kds' c2 :
  kds_clients kds' = kds_clients kds -> (forall d, get_mgmt kds' d = get_mgmt kds d) ->
  (forall m i, is_Some (get_xcu kds m i) -> is_Some (get_xcu kds' m i)) ->
  (sched_ready kds -> sched_ready kds') ->
  closing P ci c c1 (kds, c2) -> closing P ci c c1 (kds', c2).
Proof.
  intros Ec Em Hx Hsr (Inv & Hci & Hr & Hp & Hrdy). unfold closing. cbn [fst snd] in *.
  rewrite Ec. split_and!; try done; [by eapply refs_inv_frame| |by apply Hsr].
  intros d i Hdi. rewrite Em. apply Hx. by apply Hp.
Qed.

Lemma get_xcu_upd kds m i f m' i' :
  is_Some (get_xcu kds m' i') -> is_Some (get_xcu (upd_xcu kds m i f) m' i').
Proof.
  unfold get_xcu, upd_xcu. destruct (aget None (m_xcus m) i) as [p|]; [|done].
  destruct (aget None (m_xcus m') i') as [q|]; [|done].
  cbn [mbind option_bind]. rproj. intros [x Hx]. destruct (decide (p = q)) as [<-|Hne].
  - rewrite lookup_alter_eq, Hx. by eexists.
  - rewrite lookup_alter_ne by done. by eexists.
Qed.

Lemma closing_upd P ci c c1 kds c2 m i f :
  closing P ci c c1 (kds, c2) -> closing P ci c c1 (upd_xcu kds m i f, c2).
Proof.
  intros Hcl. destruct (upd_xcu_frame kds m i f) as [E1 E2].
  eapply closing_frame; [done..| | |done]; [intros; by apply get_xcu_upd|].
  unfold upd_xcu, sched_ready. by destruct (aget None (m_xcus m) i).
Qed.

Lemma closing_bad P ci c c1 kds c2 (b : bool) :
  closing P ci c c1 (kds, c2) ->
  closing P ci c c1 (if b then kds <| kds_bad_state := true |> else kds, c2).
Proof.
  intros Hcl. destruct (set_bad_frame kds b) as [E1 E2].
  eapply closing_frame; [done..| | |done]; by destruct b.
Qed.

Lemma wait_completed_ok P rounds last hw d i ci c c1 s :
  Forall (ctx_env_ok P) (rounds ++ [last]) ->
  (forall s, outstanding (last s).2 hw d i = false) ->
  closing P ci c c1 s ->
  exists s', wait_completed (rounds ++ [last]) hw d i s = Some s' /\
    outstanding s'.2 hw d i = false /\ closing P ci c c1 s'.
Proof.
  intros HF Hlast. revert s. induction rounds as [|f rounds IH]; intros s Hs;
    cbn [app] in *; apply Forall_cons in HF as [Hf HF]; cbn [wait_completed].
  - rewrite Hlast. eexists. split; [done|]. split; [apply Hlast|]. by apply Hf.
  - destruct (outstanding (f s).2 hw d i) eqn:E; [|eexists; split; [done|]; auto].
    apply IH; [done|]. by apply Hf.
Qed.

Lemma wait_bounded_ok P n rounds hw d i ci c c1 s :
  Forall (ctx_env_ok P) rounds -> closing P ci c c1 s ->
  closing P ci c c1 (wait_bounded n rounds hw d i s).
Proof.
  intros HF. revert n s. induction HF as [|f rounds Hf HF IH]; intros [|n] s Hs;
    cbn [wait_bounded]; try done.
  destruct (outstanding (f s).2 hw d i); [apply IH|]; by apply Hf.
Qed.

Lemma wait_outstanding_ok P rounds last ert_call ert_bad kds c hw d i ci c0 :
  P d i ->
  Forall (ctx_env_ok P) (rounds ++ [last]) -> ctx_env_ok P ert_call ->
  (forall s, outstanding (last s).2 hw d i = false) ->
  closing P ci c0 c (kds, c) ->
  exists kds' c', wait_outstanding (rounds ++ [last]) ert_call ert_bad kds c hw d i =
    Some (kds', c') /\ closing P ci c0 c (kds', c').
Proof.
  intros HP HF He Hlast Hcl. unfold wait_outstanding.
  destruct (outstanding c hw d i) eqn:Eo; cbn [negb]; [|by eexists _, _].
  destruct (kds_ert_disable kds || kds_xgq_enable kds) eqn:El.
  - edestruct (wait_completed_ok P rounds last hw d i ci c0 c) as ([k2 c2] & -> & _ & H2);
      [done..|by apply closing_upd|]. cbn [mbind option_bind].
    assert (is_Some (get_xcu k2 (get_mgmt k2 d) i)) as [x Hx] by (by apply H2).
    rewrite Hx. cbn [mbind option_bind]. eexists _, _. split; [reflexivity|].
    apply closing_bad. by apply closing_upd.
  - assert (sched_ready kds) as [|[e ->]] by apply Hcl; [congruence|]. cbn [mbind option_bind].
    destruct (ert_has_abort_sync e); cbn [negb].
    + destruct (wait_bounded 10 (rounds ++ [last]) hw d i (kds, c)) as [k2 c2] eqn:E2.
      pose proof (wait_bounded_ok P 10 _ hw d i ci c0 c _ HF Hcl) as H2. rewrite E2 in H2.
      cbn [snd]. destruct (outstanding c2 hw d i).
      * destruct (ert_call (k2, c2)) as [k3 c3] eqn:E3. eexists _, _. split; [done|].
        rewrite <- E3. by apply He.
      * by eexists _, _.
    + edestruct (wait_completed_ok P rounds last hw d i ci c0 c) as ([k2 c2] & -> & _ & H2);
        [done..|by apply He|]. cbn [mbind option_bind]. eexists _, _. split; [done|].
      by apply closing_bad.
Qed.

(** What a close returns. *)
Definition del_result kds (c : kds_client) (cc : kds_client_cu_ctx) : Z :=
  let d := cc_cu_domain cc in
  let i := cc_cu_idx cc in
  if (Z.of_nat MAX_CUS <=? i) || negb (xcu_set (get_mgmt kds d) i) then - EINVAL
  else if cl_ref d i c =? 0 then - EINVAL else 0.

Definition close_refs (own r : Z) : Z :=
  if z2b (Z.land r CU_EXCLU_MASK) then 0 else if own =? 1 then u32 (r - 1) else r.

(** The count of the CU after a close, against the holders. *)
Lemma close_refs_ok kds kds' (ci : nat) c c1 d i :
  refs_inv kds -> hw_domain d -> cu_range i -> kds_clients kds !! ci = Some c ->
  0 < cl_ref d i c -> cl_ref d i c1 = cl_ref d i c - 1 ->
  cu_ref kds' d i = close_refs (cl_ref d i c) (cu_ref kds d i) ->
  cu_ref kds' d i = holders (<[ci := c1]> (kds_clients kds)) d i.
Proof.
  intros Inv Hd Hi Hci Hpos H1 Hr. rewrite Hr.
  rewrite (holders_insert _ ci c c1) by done.
  assert (holds d i c = true) as Hh by (unfold holds; lia).
  pose proof (inv_few _ Inv) as Hfew. pose proof (holders_le (kds_clients kds) d i).
  pose proof (holders_pos _ ci c d i Hci Hh). rewrite Hh. unfold close_refs.
  destruct (cu_ref_ok_range kds _ d i Hfew (inv_refs _ Inv d i Hd Hi))
    as [(Hx & Hex & Hone & HF)|[Hx Hcnt]]; rewrite Hx.
  - assert (cl_ref d i c <= 1) by (by eapply Forall_lookup in Hci; [|exact HF]).
    unfold holds. rewrite H1. destruct (Z.ltb_spec 0 (cl_ref d i c - 1)); cbn [b2z]; lia.
  - rewrite Hcnt. unfold holds. rewrite H1.
    destruct (Z.eqb_spec (cl_ref d i c) 1) as [E|E].
    + rewrite E, u32_small by lia. change (0 <? 1 - 1) with false. cbn [b2z]. lia.
    + destruct (Z.ltb_spec 0 (cl_ref d i c - 1)); cbn [b2z]; lia.
Qed.
End Refs.


(** C19. Opening a CU context: the call fails exactly when the CU does not
    exist, is exclusively reserved, or is requested exclusively while in use;
    then nothing changes.  Otherwise it succeeds, the invariant between the
    CU's count and the clients' counts is kept, the client's own count grows by
    one, and after an exclusive open the client is the only holder. *)
Theorem kds_add_cu_context_ok {C} (kds : kds_sched C) ci c cc :
  refs_inv kds -> kds_clients kds !! ci = Some c ->
  hw_domain (cc_cu_domain cc) -> 0 <= cc_cu_idx cc ->
  cl_ref (cc_cu_domain cc) (cc_cu_idx cc) c + 1 < 2 ^ 31 - 1 ->
  exists kds' c', kds_add_cu_context kds c cc = (add_result kds cc, kds', c') /\
    (add_result kds cc <> 0 -> kds' = kds /\ c' = c) /\
    refs_inv (with_client kds' ci c') /\
    (add_result kds cc = 0 ->
       let d := cc_cu_domain cc in let i := cc_cu_idx cc in
       cl_ref d i c' = cl_ref d i c + 1 /\
       (is_exclusive cc = true ->
          cu_ref kds' d i = CU_EXCLU_MASK /\
          holders (kds_clients (with_client kds' ci c')) d i = 1)).
Proof.
  intros Inv Hci Hd Hi Hb.
  assert (client_ok c) as Hc by (by eapply Forall_lookup in Hci; [|apply Inv]).
  destruct (add_cu_context_eq kds c cc Hc Hd Hi Hb) as [[Hne E]|(Hz & Hr & c1 & E1 & E)].
  { exists kds, c. rewrite E. split_and!; try done. by apply with_client_id. }
  rewrite E. eexists _, c1. rewrite Hz. split; [reflexivity|]. split; [done|].
  destruct (add_result_0 kds cc Hz) as [Hnx Hx0].
  set (d := cc_cu_domain cc) in *. set (i := cc_cu_idx cc) in *.
  destruct (refcnt_incr_ok c d i Hc Hd Hr Hb) as (c1' & E1' & Hc1 & Href).
  assert (c1' = c1) as -> by congruence.
  assert (cl_ref d i c1 = cl_ref d i c + 1) as Hown by (by rewrite Href, !Z.eqb_refl).
  pose proof (inv_few _ Inv) as Hfew.
  destruct (cu_ref_ok_range kds _ d i Hfew (inv_refs _ Inv d i Hd Hr))
    as [(Hx & _)|[_ Hcnt]]; [congruence|].
  rewrite Hcnt in Hx0 |- *. fold (open_refs (is_exclusive cc) (cl_ref d i c)
    (holders (kds_clients kds) d i)). set (r' := open_refs _ _ _).
  destruct (open_refs_ok (put_mgmt kds d (get_mgmt kds d <| m_cu_refs :=
              aset (m_cu_refs (get_mgmt kds d)) i r' |>))
              (kds_clients kds) ci c c1 d i (is_exclusive cc)) as [Hok Hex]; try done.
  { by apply cl_ref_range. }
  { by apply cu_ref_put. }
  rewrite clients_with. split; [|by auto].
  apply (refs_inv_step kds d i r' ci c c1); try done.
  intros d' i' Hd' Hi' Hn. rewrite Href by done.
  destruct ((d =? d') && (i =? i')) eqn:Eq; [|done]. exfalso. apply Hn. lia.
Qed.

Lemma get_xcu_put_refs {C} (kds : kds_sched C) d r d' i' :
  get_xcu (put_mgmt kds d (get_mgmt kds d <| m_cu_refs := r |>))
    (get_mgmt (put_mgmt kds d (get_mgmt kds d <| m_cu_refs := r |>)) d') i' =
  get_xcu kds (get_mgmt kds d') i'.
Proof. unfold get_xcu, put_mgmt, get_mgmt. by destruct (d =? DOMAIN_PL), (d' =? DOMAIN_PL). Qed.

Lemma del_result_range {C} (kds : kds_sched C) c cc :
  0 <= cc_cu_idx cc -> del_result kds c cc = 0 -> cu_range (cc_cu_idx cc).
Proof.
  intros Hi. unfold del_result, cu_range. destruct (Z.leb_spec (Z.of_nat MAX_CUS) (cc_cu_idx cc)); [done|lia].
Qed.

Lemma del_cu_context_step {C} P (kds : kds_sched C) ci c cc rounds last ert_call ert_bad :
  let d := cc_cu_domain cc in let i := cc_cu_idx cc in
  refs_inv kds -> kds_clients kds !! ci = Some c -> hw_domain d -> 0 <= i ->
  sched_ready kds -> present P kds -> (xcu_set (get_mgmt kds d) i = true -> P d i) ->
  Forall (ctx_env_ok P) (rounds ++ [last]) -> ctx_env_ok P ert_call ->
  (forall s, outstanding (last s).2 (cc_hw_ctx cc) d i = false) ->
  exists kds' c',
    kds_del_cu_context (rounds ++ [last]) ert_call ert_bad kds c cc =
      Some (del_result kds c cc, kds', c') /\
    refs_inv (with_client kds' ci c') /\
    (del_result kds c cc <> 0 -> kds' = kds /\ c' = c) /\
    (del_result kds c cc = 0 ->
       (forall d' i', hw_domain d' -> cu_range i' ->
          cl_ref d' i' c' = if (d =? d') && (i =? i') then cl_ref d i c - 1 else cl_ref d' i' c) /\
       cu_ref kds' d i = holders (kds_clients (with_client kds' ci c')) d i) /\
    present P kds' /\ sched_ready kds' /\ client_ok c' /\ kds_clients kds' !! ci = Some c.
Proof.
  intros d i Inv Hci Hd Hi Hrdy Hpr HP HF He Hlast.
  assert (client_ok c) as Hc by (by eapply Forall_lookup in Hci; [|apply Inv]).
  unfold kds_del_cu_context, del_result. fold d i.
  destruct ((Z.of_nat MAX_CUS <=? i) || negb (xcu_set (get_mgmt kds d) i)) eqn:E0.
  { exists kds, c. split_and!; try done. by apply with_client_id. }
  assert (cu_range i) as Hr by (unfold cu_range; lia).
  destruct (refcnt_decr_ok c d i Hc Hd Hr) as (c1 & E1 & Hc1 & Href). rewrite E1.
  pose proof (cl_ref_range c d i Hc Hd Hr) as Hrng.
  destruct (Z.ltb_spec (cl_ref d i c) 0); [lia|].
  destruct (Z.eqb_spec (cl_ref d i c) 0) as [Ez|Ez].
  { assert (c1 = c) as -> by (apply (refcnt_decr_zero c d i); congruence).
    exists kds, c. split_and!; try done. by apply with_client_id. }
  edestruct (wait_outstanding_ok P rounds last ert_call ert_bad kds c1 (cc_hw_ctx cc) d i ci c)
    as (k2 & c2 & -> & (Inv2 & Hci2 & Hrc & Hpr2 & Hrdy2)); [|done..| |].
  { apply HP. destruct (xcu_set (get_mgmt kds d) i); [done|]. lia. }
  { by split_and!. }
  cbn [mbind option_bind fst snd] in *. fold (cu_ref k2 d i).
  fold (close_refs (cl_ref d i c) (cu_ref k2 d i)). set (r' := close_refs _ _).
  eexists _, c2. split; [reflexivity|].
  assert (forall d' i', cl_ref d' i' c2 = cl_ref d' i' c1) as Hsame.
  { intros. unfold cl_ref, kds_client_domain_refcnt. by rewrite Hrc. }
  assert (forall d' i', hw_domain d' -> cu_range i' ->
    cl_ref d' i' c2 = if (d =? d') && (i =? i') then cl_ref d i c - 1 else cl_ref d' i' c) as Hown.
  { intros d' i' Hd' Hi'. rewrite Hsame, Href by done. destruct (_ && _); [lia|done]. }
  rewrite clients_with. set (k3 := put_mgmt k2 d _).
  assert (cu_ref k3 d i = holders (<[ci:=c2]> (kds_clients k2)) d i) as Hok3.
  { eapply (close_refs_ok k2 k3 ci c c2); try done; [lia| |by apply cu_ref_put].
    rewrite Hown by done. by rewrite !Z.eqb_refl. }
  split; [|split; [done|split; [by auto|split; [|split; [|split; [by eapply client_ok_refcnt|]]]]]].
  4: { unfold k3. by rewrite clients_put_mgmt. }
  3: { unfold k3, put_mgmt, sched_ready. by destruct (d =? DOMAIN_PL). }
  2: { intros d' i' Hdi. unfold k3. rewrite get_xcu_put_refs. by apply Hpr2. }
  - apply (refs_inv_step k2 d i r' ci c c2); try done; [by eapply client_ok_refcnt| |by right].
    intros d' i' Hd' Hi' Hn. rewrite Hown by done.
    destruct ((d =? d') && (i =? i')) eqn:Eq; [|done]. exfalso. apply Hn. lia.
Qed.


(** ** Two flows that lose a count *)

Lemma outstanding_hw c c' hw d i :
  cl_hw_ctx_list c' = cl_hw_ctx_list c -> outstanding c' hw d i = outstanding c hw d i.
Proof. intros E. unfold outstanding, client_stat_read. by rewrite E. Qed.

Lemma refcnt_incr_hw c d i : cl_hw_ctx_list (kds_test_and_refcnt_incr c d i).2 = cl_hw_ctx_list c.
Proof. unfold kds_test_and_refcnt_incr. by destruct (kds_client_domain_refcnt c d). Qed.

Lemma refcnt_decr_hw c d i : cl_hw_ctx_list (kds_test_and_refcnt_decr c d i).2 = cl_hw_ctx_list c.
Proof.
  unfold kds_test_and_refcnt_decr. destruct (kds_client_domain_refcnt c d); [|done].
  by destruct (0 <? _).
Qed.

Lemma cu_ref_put' {C} (kds : kds_sched C) d i r :
  hw_domain d -> 0 <= i < Z.of_nat (length (m_cu_refs (get_mgmt kds d))) ->
  let m := get_mgmt kds d in
  cu_ref (put_mgmt kds d (m <| m_cu_refs := aset (m_cu_refs m) i r |>)) d i = r.
Proof.
  intros Hd Hr m. unfold cu_ref. rewrite get_put_mgmt, Z.eqb_refl by done. rproj.
  by rewrite aget_aset_eq.
Qed.

(** A context of the virtual domain cannot be closed: after an open that
    made the client's first reservation of the memory-to-memory CU, the close
    decrements the client's count twice, returns [-EINVAL], and the CU keeps
    the extra count. *)
Theorem kds_virt_context_leak {C} (kds : kds_sched C) c cc rounds ert_call ert_bad :
  client_ok c -> cc_cu_domain cc = DOMAIN_VIRT -> cc_flags cc = CU_CTX_SHARED ->
  cc_ref_cnt cc = 0 -> m_num_cdma (kds_cu_mgmt_ kds) <> 0 -> cu_range (virt_cu kds) ->
  length (m_cu_refs (kds_cu_mgmt_ kds)) = MAX_CUS -> cl_ref DOMAIN_PL (virt_cu kds) c = 0 ->
  exists kds1 c1 cc1 c2 cc2,
    kds_add_context kds c cc = (0, kds1, c1, cc1) /\
    cu_ref kds1 DOMAIN_PL (virt_cu kds) = u32 (cu_ref kds DOMAIN_PL (virt_cu kds) + 1) /\
    kds_del_context rounds ert_call ert_bad kds1 c1 cc1 = Some (- EINVAL, kds1, c2, cc2) /\
    cl_ref DOMAIN_PL (virt_cu kds) c2 = 0 /\ cc_ref_cnt cc2 = 0.
Proof.
  intros Hc Hdom Hf Href Hcd Hv Hlen H0. assert (hw_domain DOMAIN_PL) as Hd by by left.
  destruct (refcnt_incr_ok c DOMAIN_PL (virt_cu kds) Hc Hd Hv) as (c1 & E1 & Hc1 & R1); [lia|].
  destruct (refcnt_decr_ok c1 DOMAIN_PL (virt_cu kds) Hc1 Hd Hv) as (c2 & E2 & Hc2 & R2).
  assert (cl_ref DOMAIN_PL (virt_cu kds) c1 = 1) as H1.
  { rewrite R1 by done. rewrite !Z.eqb_refl. cbn [andb]. lia. }
  assert (cl_ref DOMAIN_PL (virt_cu kds) c2 = 0) as H2.
  { rewrite R2 by done. rewrite !Z.eqb_refl. cbn [andb]. lia. }
  destruct (refcnt_decr_ok c2 DOMAIN_PL (virt_cu kds) Hc2 Hd Hv) as (c3 & E3 & _ & _).
  rewrite H2 in E3. assert (c3 = c2) as -> by (by apply (refcnt_decr_zero _ _ _ _ E3)).
  assert (z2b (m_num_cdma (kds_cu_mgmt_ kds)) = true) as Hz by (unfold z2b; lia).
  eexists (add_virt_ref kds 1), c1, (cc <| cc_ref_cnt := u32 (cc_ref_cnt cc + 1) |>), c2, _. split_and!.
  - unfold kds_add_context. rewrite Hdom, Hf, Href, E1, H0, Hz. reflexivity.
  - unfold cu_ref, get_mgmt, add_virt_ref. cbn [Z.eqb DOMAIN_PL]. rproj.
    unfold cu_range in Hv. by rewrite aget_aset_eq by lia.
  - unfold kds_del_context. rproj. rewrite Href. cbn [Z.add].
    change (u32 1 =? 0) with false. cbv iota. change (u32 1 - 1) with 0.
    change (z2b 0) with false. cbv iota. rewrite Hdom, Z.eqb_refl.
    assert (virt_cu (add_virt_ref kds 1) = virt_cu kds) as -> by done.
    assert (m_num_cdma (kds_cu_mgmt_ (add_virt_ref kds 1)) = m_num_cdma (kds_cu_mgmt_ kds))
      as -> by done.
    rewrite Hz, E2, H1. cbn [andb Z.eqb Z.ltb Z.compare]. rewrite E3. reflexivity.
  - done.
  - by rproj.
Qed.

Lemma hw_domain_tests d :
  hw_domain d -> (d =? DOMAIN_VIRT) = false /\ (d =? DOMAIN_PL) || (d =? DOMAIN_PS) = true.
Proof. by intros [->| ->]. Qed.

Section Reopen.
Context {C : Type}.
Implicit Types (kds : kds_sched C).

(** A shared open of a free or shared CU. *)
Lemma shared_open kds c cc d i :
  d = cc_cu_domain cc -> i = cc_cu_idx cc ->
  client_ok c -> hw_domain d -> cu_range i -> xcu_set (get_mgmt kds d) i = true ->
  cc_flags cc = CU_CTX_SHARED -> cl_ref d i c + 1 < 2 ^ 31 - 1 -> 0 <= cu_ref kds d i < 2 ^ 31 ->
  length (m_cu_refs (get_mgmt kds d)) = MAX_CUS ->
  exists kds' c', kds_add_context kds c cc =
      (0, kds', c', cc <| cc_ref_cnt := u32 (cc_ref_cnt cc + 1) |>) /\
    client_ok c' /\ cl_ref d i c' = cl_ref d i c + 1 /\
    cl_hw_ctx_list c' = cl_hw_ctx_list c /\
    xcu_set (get_mgmt kds' d) i = true /\ length (m_cu_refs (get_mgmt kds' d)) = MAX_CUS /\
    cu_ref kds' d i = open_refs false (cl_ref d i c) (cu_ref kds d i).
Proof.
  intros Ed Ei Hc Hd Hi Hx Hf Hb Hr Hl.
  assert (is_exclusive cc = false) as Hne by (unfold is_exclusive; by rewrite Hf).
  assert (add_result kds cc = 0) as Hz.
  { unfold add_result. rewrite <- Ed, <- Ei. unfold cu_range in Hi. rewrite Hx, Hne, land_exclu by done.
    destruct (Z.leb_spec (Z.of_nat MAX_CUS) i); [lia|]. done. }
  destruct (add_cu_context_eq kds c cc) as [[? _]|(_ & _ & c1 & E1 & E)];
    rewrite <- ?Ed, <- ?Ei; try done; [unfold cu_range in Hi; lia|].
  destruct (refcnt_incr_ok c d i Hc Hd Hi Hb) as (c1' & E1' & Hc1 & Href).
  cbv zeta in E1, E. rewrite <- Ed, <- Ei in E1, E.
  assert (c1' = c1) as -> by congruence. rewrite Hne in E.
  destruct (hw_domain_tests d Hd) as [T1 T2].
  unfold kds_add_context. rewrite <- Ed, E, T1, T2. eexists _, c1. split; [reflexivity|].
  unfold cu_range in Hi. rewrite cu_ref_put' by (done || lia).
  rewrite get_put_mgmt, Z.eqb_refl by done. rproj. rewrite length_aset.
  split_and!; try done.
  - by rewrite Href, !Z.eqb_refl by done.
  - pose proof (refcnt_incr_hw c d i) as Hh. by rewrite E1 in Hh.
Qed.
End Reopen.

(** Opening a context twice and closing it twice leaks a reservation:
    [kds_add_context] counts every open in the client's counters, but
    [kds_del_context] only undoes the last close, so the client keeps one
    count and the CU stays reserved although no context is open. *)
Theorem kds_reopen_context_leak {C} (kds : kds_sched C) c cc rounds ert_call ert_bad :
  let d := cc_cu_domain cc in let i := cc_cu_idx cc in
  client_ok c -> hw_domain d -> cu_range i -> xcu_set (get_mgmt kds d) i = true ->
  cc_flags cc = CU_CTX_SHARED -> cc_ref_cnt cc = 0 -> cl_ref d i c = 0 ->
  0 <= cu_ref kds d i < 2 ^ 31 - 1 -> length (m_cu_refs (get_mgmt kds d)) = MAX_CUS ->
  outstanding c (cc_hw_ctx cc) d i = false ->
  exists k1 c1 cc1 k2 c2 cc2 cc3 k4 c4 cc4,
    kds_add_context kds c cc = (0, k1, c1, cc1) /\
    kds_add_context k1 c1 cc1 = (0, k2, c2, cc2) /\
    kds_del_context rounds ert_call ert_bad k2 c2 cc2 = Some (0, k2, c2, cc3) /\
    kds_del_context rounds ert_call ert_bad k2 c2 cc3 = Some (0, k4, c4, cc4) /\
    cc_ref_cnt cc4 = 0 /\ cl_ref d i c4 = 1 /\ cu_ref k4 d i = cu_ref kds d i + 1.
Proof.
  intros d i Hc Hd Hi Hx Hf H0 Hr0 Hrng Hl Ho.
  destruct (shared_open kds c cc d i) as (k1 & c1 & E1 & Hc1 & R1 & Hw1 & X1 & L1 & F1);
    try done; [lia..|].
  unfold open_refs in F1. rewrite Hr0 in F1. cbn [Z.eqb] in F1. rewrite u32_small in F1 by lia.
  rewrite H0 in E1. change (u32 (0 + 1)) with 1 in E1.
  destruct (shared_open k1 c1 (cc <| cc_ref_cnt := 1 |>) d i)
    as (k2 & c2 & E2 & Hc2 & R2 & Hw2 & X2 & L2 & F2); rproj; try done; [lia..|].
  rewrite R1, Hr0, F1 in *. cbn [Z.add] in R2. change (0 + 1) with 1 in F2.
  change (open_refs false 1 (cu_ref kds d i + 1)) with (cu_ref kds d i + 1) in F2.
  change (u32 (1 + 1)) with 2 in E2.
  destruct (refcnt_decr_ok c2 d i Hc2 Hd Hi) as (c4 & E4 & _ & R4). rewrite R2 in E4.
  assert (outstanding c4 (cc_hw_ctx cc) d i = false) as Ho4.
  { rewrite <- Ho. apply outstanding_hw. pose proof (refcnt_decr_hw c2 d i) as Hh.
    rewrite E4 in Hh. cbn [snd] in Hh. congruence. }
  eexists k1, c1, _, k2, c2, _, (cc <| cc_ref_cnt := 1 |>), _, c4, (cc <| cc_ref_cnt := 0 |>).
  split; [exact E1|]. split; [exact E2|]. split; [reflexivity|].
  unfold cu_range in Hi. split.
  - unfold kds_del_context, kds_del_cu_context, wait_outstanding. rproj. fold d i.
    cbn [Z.eqb Z.sub Z.add Z.pos_sub Z.opp]. change (z2b 0) with false. cbv iota.
    destruct (hw_domain_tests d Hd) as [T1 T2].
    rewrite T1, T2, X2, E4, Ho4. destruct (Z.leb_spec (Z.of_nat MAX_CUS) i); [lia|].
    cbn [orb negb Z.ltb Z.eqb Z.compare Pos.eqb mbind option_bind]. fold (cu_ref k2 d i).
    rewrite F2, land_exclu by lia. change (z2b 0) with false. cbv iota.
    reflexivity.
  - rewrite cu_ref_put' by (done || lia). rproj. split_and!; try done.
    rewrite R4, !Z.eqb_refl, R2 by done. done.
Qed.

(** ** Instances of the theorems *)

(** One memory-to-memory CU in slot 0 of both tables, two clients that hold
    nothing; the local scheduler is active. *)
Definition demo_refs : cu_refcnt := mk_cu_refcnt (replicate MAX_CUS 0) (replicate MAX_CUS 0).
Definition demo_client (addr : Z) : kds_client := mk_client addr addr None [] [] 0 (Some demo_refs).
Definition demo_mgmt : kds_cu_mgmt :=
  mk_cu_mgmt (Some 100 :: replicate 127 None) 1 1 (replicate MAX_CUS 0) (replicate MAX_CUS 0)
    (replicate MAX_CUS 0) false.
Definition demo_kds : kds_sched unit :=
  mk_kds_sched {[ 100 := xrt_cu_alloc info_zero tt <| cu_crc := mk_circ_buf [] 0 0 |> ]}
    [demo_client 7; demo_client 8] 2 false demo_mgmt demo_mgmt None false 0
    (mk_cmdmem false 0 0 0 0) false true false 0 false false [100] 0 0 0.
Definition demo_ctx : kds_client_cu_ctx := mk_cu_ctx 0 DOMAIN_PL CU_CTX_EXCLUSIVE 0 0 0.
Definition demo_shared : kds_client_cu_ctx := mk_cu_ctx 0 DOMAIN_PL CU_CTX_SHARED 0 0 0.

Lemma demo_client_ok addr : client_ok (demo_client addr).
Proof.
  exists demo_refs. unfold demo_refs. cbn [r_cu_refs r_scu_refs].
  split_and!; [done|done|done|apply Forall_replicate; lia..].
Qed.

Lemma demo_cl_ref addr d i : hw_domain d -> cl_ref d i (demo_client addr) = 0.
Proof.
  intros [->| ->]; unfold cl_ref, aget; cbn -[MAX_CUS replicate lookup];
    destruct (replicate MAX_CUS 0 !! Z.to_nat i) eqn:E; try done;
    by apply lookup_replicate in E as [-> _].
Qed.

Lemma demo_refs_inv : refs_inv demo_kds.
Proof.
  split.
  - repeat constructor; apply demo_client_ok.
  - cbn [kds_clients demo_kds length]. lia.
  - intros d [->| ->]; done.
  - intros d i Hd Hi. right. unfold holders. cbn [kds_clients demo_kds countb]. unfold holds.
    rewrite !demo_cl_ref by done. unfold cu_ref.
    assert (m_cu_refs (get_mgmt demo_kds d) = replicate MAX_CUS 0) as ->.
    { by destruct Hd as [->| ->]. }
    rewrite aget_replicate by done. done.
Qed.

Lemma kds_add_cu_context_ok_witness :
  exists kds' c', kds_add_cu_context demo_kds (demo_client 7) demo_ctx = (0, kds', c') /\
    cu_ref kds' DOMAIN_PL 0 = CU_EXCLU_MASK.
Proof.
  destruct (kds_add_cu_context_ok demo_kds 0 (demo_client 7) demo_ctx demo_refs_inv eq_refl)
    as (kds' & c' & E & _ & _ & H); [by left|done|by rewrite demo_cl_ref by (by left)|].
  exists kds', c'. split; [exact E|]. apply H; reflexivity.
Defined.

Lemma demo_env_ok P : ctx_env_ok (C := unit) P id.
Proof. by intros ci c c1 s H. Qed.

(** The round in which the last command of the client completes. *)
Definition demo_drain : env_step (C := unit) := fun s => (s.1, s.2 <| cl_hw_ctx_list := [] |>).

Lemma demo_drain_ok P : ctx_env_ok P demo_drain.
Proof. intros ci c c1 s H. exact H. Qed.

(** A client that holds CU 0, beside one that does not. *)
Definition demo_held : kds_sched unit :=
  (kds_add_cu_context demo_kds (demo_client 7) demo_shared).1.2.
Definition demo_holder : kds_client :=
  (kds_add_cu_context demo_kds (demo_client 7) demo_shared).2.

Lemma demo_held_inv : refs_inv (with_client demo_held 0 demo_holder).
Proof.
  destruct (add_cu_context_eq demo_kds (demo_client 7) demo_shared) as [[H _]|H];
    [apply demo_client_ok|by left|done|by rewrite demo_cl_ref by (by left)|
     by exfalso; apply H|].
  destruct H as (_ & Hr & c1 & E1 & E). unfold demo_held, demo_holder. rewrite E. cbn [fst snd].
  destruct (refcnt_incr_ok (demo_client 7) DOMAIN_PL 0) as (c1' & E1' & Hc1 & Href);
    [apply demo_client_ok|by left|done|by rewrite demo_cl_ref by (by left)|].
  cbn [demo_shared cc_cu_domain cc_cu_idx] in *.
  assert (c1' = c1) as -> by congruence.
  eapply refs_inv_step; [apply demo_refs_inv|by left|done|reflexivity|done| |].
  - intros d' i' Hd' Hi' Hn. rewrite Href by done.
    destruct ((DOMAIN_PL =? d') && (0 =? i')) eqn:Eq; [|done]. exfalso. apply Hn. lia.
  - eapply (open_refs_ok _ _ _ (demo_client 7) c1 DOMAIN_PL 0 false); try done.
    + rewrite (Href DOMAIN_PL 0 (or_introl eq_refl) Hr). reflexivity.
Qed.


Lemma kds_virt_context_leak_witness :
  exists kds1 c1 cc1 c2 cc2,
    kds_add_context demo_kds (demo_client 7) (mk_cu_ctx 0 DOMAIN_VIRT CU_CTX_SHARED 0 0 0) =
      (0, kds1, c1, cc1) /\
    kds_del_context [] id false kds1 c1 cc1 = Some (- EINVAL, kds1, c2, cc2).
Proof.
  destruct (kds_virt_context_leak demo_kds (demo_client 7)
              (mk_cu_ctx 0 DOMAIN_VIRT CU_CTX_SHARED 0 0 0) [] id false)
    as (k & c1 & cc1 & c2 & cc2 & E1 & _ & E2 & _); try done; [apply demo_client_ok|].
  by exists k, c1, cc1, c2, cc2.
Defined.

Lemma kds_reopen_context_leak_witness :
  exists k4 c4 cc4, cl_ref DOMAIN_PL 0 c4 = 1 /\ cu_ref (C := unit) k4 DOMAIN_PL 0 = 1 /\
    cc_ref_cnt cc4 = 0.
Proof.
  destruct (kds_reopen_context_leak demo_kds (demo_client 7) demo_shared [] id false)
    as (k1 & c1 & cc1 & k2 & c2 & cc2 & cc3 & k4 & c4 & cc4 & _ & _ & _ & _ & E1 & E2 & E3);
    try done; [apply demo_client_ok|by left|].
  by exists k4, c4, cc4.
Defined.
