(* ===== verification/KdsDispatch.v ===== *)
(** * Selection of a CU and the fate of a command

    Theorems on [acquire_cu_idx], [kds_cu_dispatch] and [kds_add_command]: the
    CU chosen for a command, and that a submitted command is answered, queued
    or handed over exactly once. *)
From S2P Require Import Prelude KdsCommand CuInfo CuCore CircLog XrtCu KdsHwctx KdsSched KdsRefs.

#[local] Arguments upd : simpl never.

(** ** The choice *)

(** CU [i] is marked by the command and open in the client's context. *)
Definition candidate (c : kds_client) (d : Z) (xcmd : kds_command) (i : Z) : Prop :=
  0 <= i < 32 * xcmd_num_mask xcmd /\ mask_bit (xcmd_cu_mask xcmd) i = true /\
  0 < cl_ref d i c.

Definition usage_of (m : kds_cu_mgmt) (i : Z) : Z := aget 0 (m_usage m) i.

Lemma test_refcnt_spec c d i :
  client_ok c -> hw_domain d -> kds_test_refcnt c d i = b2z (0 <? cl_ref d i c).
Proof.
  intros Hc Hd. destruct (client_refcnt c d Hc Hd) as (refs & E & _).
  unfold kds_test_refcnt, cl_ref. by rewrite E.
Qed.

Lemma valid_cus_filter c d marked :
  client_ok c -> hw_domain d ->
  valid_cus c d marked = Some (filter (fun i => 0 < cl_ref d i c) marked).
Proof.
  intros Hc Hd. induction marked as [|i marked IH]; [done|]. cbn [valid_cus].
  rewrite IH, test_refcnt_spec, filter_cons by done.
  destruct (Z.ltb_spec 0 (cl_ref d i c)); cbn [b2z Z.ltb Z.compare mbind option_bind];
    case_decide; try lia; done.
Qed.

(** The search keeps the first of the least used. *)
Lemma min_usage_spec m rest : forall first,
  StronglySorted Z.lt (first :: rest) ->
  let r := min_usage m first rest in
  r ∈ first :: rest /\
  (forall j, j ∈ first :: rest ->
     usage_of m r <= usage_of m j /\ (j < r -> usage_of m r < usage_of m j)).
Proof.
  induction rest as [|x rest IH]; intros first Hs; cbv zeta in *; unfold min_usage; cbn [foldl].
  { split; [set_solver|]. intros j Hj. apply list_elem_of_singleton in Hj as ->. lia. }
  change (foldl _ _ rest)
    with (min_usage m (if usage_of m x <? usage_of m first then x else first) rest).
  apply StronglySorted_inv in Hs as [Hs Hf]. apply Forall_cons in Hf as [Hfx Hf].
  destruct (Z.ltb_spec (usage_of m x) (usage_of m first)) as [Hu|Hu].
  - destruct (IH x Hs) as [Hin Hmin]. split; [by right|]. intros j Hj.
    apply elem_of_cons in Hj as [->|Hj]; [|by apply Hmin].
    destruct (Hmin x); [by left|]. lia.
  - apply StronglySorted_inv in Hs as [Hs _].
    destruct (IH first) as [Hin Hmin]; [by constructor|]. split.
    { apply elem_of_cons in Hin as [->|Hin]; [by left|by do 2 right]. }
    intros j Hj. destruct (Hmin first) as [H1 H2]; [by left|].
    apply elem_of_cons in Hj as [->|Hj]; [by split|].
    apply elem_of_cons in Hj as [->|Hj]; [|apply Hmin; by right]. split; [lia|]. intros Hlt.
    specialize (H2 ltac:(lia)). lia.
Qed.

Lemma mask_lt_128 xcmd i :
  xcmd_num_mask xcmd <= 4 -> 0 <= i < 32 * xcmd_num_mask xcmd -> s8 i = i.
Proof. intros. apply s8_small. lia. Qed.

(** The candidates, in the order the code lists them. *)
Lemma candidates_list c d xcmd :
  client_ok c -> hw_domain d -> masks_wf (xcmd_cu_mask xcmd) -> 0 <= xcmd_num_mask xcmd <= 4 ->
  exists l, valid_cus c d (cu_mask_to_cu_idx xcmd) = Some l /\ StronglySorted Z.lt l /\
    forall i, i ∈ l <-> candidate c d xcmd i.
Proof.
  intros Hc Hd Hm Hn. eexists. split; [by apply valid_cus_filter|].
  rewrite cu_mask_to_cu_idx_marked by done. split.
  - apply StronglySorted_filter. apply StronglySorted_filter, StronglySorted_seqZ.
  - intros i. unfold candidate, marked_cus. rewrite !list_elem_of_filter, elem_of_seqZ.
    intuition lia.
Qed.

(** What [choose_cu] answers, in terms of the candidates. *)
Lemma choose_cu_cases m c d xcmd :
  client_ok c -> hw_domain d -> masks_wf (xcmd_cu_mask xcmd) -> 0 <= xcmd_num_mask xcmd <= 4 ->
  match choose_cu m c d xcmd with
  | inl e => e = - EINVAL /\
      (m_num_cus m < Z.of_nat (length (cu_mask_to_cu_idx xcmd)) \/
       forall i, ~ candidate c d xcmd i)
  | inr i => candidate c d xcmd i /\
      forall j, candidate c d xcmd j ->
        usage_of m i <= usage_of m j /\ (j < i -> usage_of m i < usage_of m j)
  end.
Proof.
  intros Hc Hd Hm Hn. unfold choose_cu.
  destruct (Z.ltb_spec (m_num_cus m) (Z.of_nat (length (cu_mask_to_cu_idx xcmd)))); [by auto|].
  destruct (candidates_list c d xcmd Hc Hd Hm Hn) as (l & -> & Hs & Hl).
  destruct l as [|i [|k l]].
  - split; [done|]. right. intros i Hi%Hl. set_solver.
  - assert (candidate c d xcmd i) as Hi by (apply Hl; set_solver).
    rewrite (mask_lt_128 xcmd) by (apply Hn || apply Hi). split; [done|].
    intros j Hj%Hl%list_elem_of_singleton. subst. lia.
  - destruct (min_usage_spec m (k :: l) i Hs) as [Hin Hmin].
    set (r := min_usage m i (k :: l)) in *.
    apply Hl in Hin. rewrite (mask_lt_128 xcmd) by (apply Hn || apply Hin).
    split; [done|]. intros j Hj%Hl. by apply Hmin.
Qed.

(** ** Acquiring the CU *)

Section Acquire.
Context {C : Type}.
Implicit Types (kds : kds_sched C) (m : kds_cu_mgmt).

(** Every CU the client holds is in the table. *)
Definition held_present kds m (c : kds_client) (d : Z) : Prop :=
  forall i, cu_range i -> 0 < cl_ref d i c -> is_Some (get_xcu kds m i).

(** A well-formed command mask. *)
Definition cmd_ok (xcmd : kds_command) : Prop :=
  masks_wf (xcmd_cu_mask xcmd) /\ 0 <= xcmd_num_mask xcmd <= 4.

(** The CU takes commands from this queue. *)
Definition schedulable kds m (i : Z) : Prop :=
  exists xcu, get_xcu kds m i = Some xcu /\
    xrt_cu_get_protocol xcu <> CTRL_NONE /\ cu_is_ucu xcu = false.

Definition bump_usage m (i : Z) : kds_cu_mgmt :=
  m <| m_usage := aset (m_usage m) i (u64 (usage_of m i + 1)) |>.

(** [i] is chosen: a candidate, the lowest numbered of the least used. *)
Definition least_used m (c : kds_client) (d : Z) (xcmd : kds_command) (i : Z) : Prop :=
  candidate c d xcmd i /\
  forall j, candidate c d xcmd j ->
    usage_of m i <= usage_of m j /\ (j < i -> usage_of m i < usage_of m j).

Lemma candidate_range c d xcmd i : cmd_ok xcmd -> candidate c d xcmd i -> cu_range i.
Proof. intros [_ Hn] [Hi _]. unfold cu_range, MAX_CUS. lia. Qed.

(** What other threads may do to the client between two checks: close
    contexts, which only lowers its counts. *)
Definition close_ok (f : kds_client -> kds_client) : Prop :=
  forall c, client_ok c -> client_ok (f c) /\ forall d i, cl_ref d i (f c) <= cl_ref d i c.

Lemma client_stat_add_refcnt c hw f i z : cl_refcnt (client_stat_add c hw f i z) = cl_refcnt c.
Proof. reflexivity. Qed.

Lemma cl_ref_refcnt c c' d i : cl_refcnt c' = cl_refcnt c -> cl_ref d i c' = cl_ref d i c.
Proof. intros E. unfold cl_ref, kds_client_domain_refcnt. by rewrite E. Qed.

(** One call: an error that leaves everything unchanged, or a chosen CU, whose
    use is then decided by the recheck. *)
Lemma acquire_cu_idx_cases kds m c d xcmd between :
  client_ok c -> close_ok between -> hw_domain d -> cmd_ok xcmd -> held_present kds m c d ->
  (exists e, (e = - EINVAL \/ e = - EBUSY) /\
     (e = - EINVAL -> m_num_cus m < Z.of_nat (length (cu_mask_to_cu_idx xcmd)) \/
        (forall i, ~ candidate c d xcmd i) \/
        exists i, least_used m c d xcmd i /\ ~ schedulable kds m i) /\
     acquire_cu_idx kds m c d xcmd between = Some (e, m, c, xcmd)) \/
  (exists i, choose_cu m c d xcmd = inr i /\ least_used m c d xcmd i /\ schedulable kds m i /\
     let c1 := client_stat_inc (between c) (xcmd_hw_ctx_id xcmd) (sub_field d) i in
     let x1 := xcmd <| xcmd_cu_idx := i |> in
     acquire_cu_idx kds m c d xcmd between =
       Some (if cl_ref d i (between c) =? 0
             then (- EAGAIN, bump_usage m i,
                   client_stat_dec c1 (xcmd_hw_ctx_id xcmd) (sub_field d) i, x1)
             else (i, bump_usage m i, c1, x1))).
Proof.
  intros Hc Hb Hd [Hm Hn] Hp. pose proof (choose_cu_cases m c d xcmd Hc Hd Hm Hn) as Hch.
  unfold acquire_cu_idx. destruct (choose_cu m c d xcmd) as [e|i].
  { left. exists e. destruct Hch as [-> Hch]. split; [by left|]. split; [|done]. intros _.
    destruct Hch as [H|H]; auto. }
  assert (is_Some (get_xcu kds m i)) as [xcu Hx].
  { apply Hp; [by eapply candidate_range; [|apply Hch]|apply Hch]. }
  rewrite Hx. cbn [mbind option_bind].
  destruct (Z.eqb_spec (xrt_cu_get_protocol xcu) CTRL_NONE) as [Ep|Ep].
  { left. exists (- EINVAL). split; [by left|]. split; [|done]. intros _. do 2 right.
    exists i. split; [exact Hch|]. intros (x & Hx' & Hne & _). congruence. }
  destruct (cu_is_ucu xcu) eqn:Eu.
  { left. exists (- EBUSY). split; [by right|]. done. }
  right. exists i. split; [done|]. split; [exact Hch|]. split; [by exists xcu|].
  unfold bump_usage, usage_of. set (c1 := client_stat_inc _ _ _ _).
  assert (client_ok (between c)) as Hc1 by (by apply Hb).
  rewrite test_refcnt_spec by (done || (by eapply client_ok_refcnt; [|exact Hc1])).
  rewrite (cl_ref_refcnt (between c) c1) by done.
  pose proof (cl_ref_range (between c) d i Hc1 Hd
                (candidate_range c d xcmd i (conj Hm Hn) (proj1 Hch))).
  destruct (Z.ltb_spec 0 (cl_ref d i (between c))), (Z.eqb_spec (cl_ref d i (between c)) 0);
    try lia; done.
Qed.

Lemma cl_ref_stat_add c hw f j z d i : cl_ref d i (client_stat_add c hw f j z) = cl_ref d i c.
Proof. reflexivity. Qed.

Lemma held_present_le kds m m' c c' d :
  m_xcus m' = m_xcus m -> (forall i, cl_ref d i c' <= cl_ref d i c) ->
  held_present kds m c d -> held_present kds m' c' d.
Proof.
  intros Em Hle Hp i Hi Hr. unfold get_xcu. rewrite Em. apply Hp; [done|].
  specialize (Hle i). lia.
Qed.
End Acquire.

(** The result of acquiring a CU in state [kds]; [c] is the client before. *)
Record acquired {C} (kds : kds_sched C) (m : kds_cu_mgmt) (xcmd : kds_command)
  (r : Z) (m' : kds_cu_mgmt) (x' : kds_command) : Prop := {
  acq_xcus : m_xcus m' = m_xcus m;
  acq_cmd : exists i, x' = xcmd <| xcmd_cu_idx := i |>;
  acq_err : r < 0 -> r = - EINVAL \/ r = - EBUSY;
  acq_ok : 0 <= r -> cu_range r /\ xcmd_cu_idx x' = r /\ schedulable kds m r;
}.

Lemma cmd_id_upd xcmd : xcmd = xcmd <| xcmd_cu_idx := xcmd_cu_idx xcmd |>.
Proof. by destruct xcmd. Qed.

Section Loop.
Context {C : Type} (kds : kds_sched C) (d : Z) (Hd : hw_domain d).

(** One call gives a result, or [-EAGAIN] after a close. *)
Lemma acquire_step m c xcmd between :
  client_ok c -> close_ok between -> cmd_ok xcmd -> held_present kds m c d ->
  exists r m' c' x', acquire_cu_idx kds m c d xcmd between = Some (r, m', c', x') /\
    m_xcus m' = m_xcus m /\ (exists i, x' = xcmd <| xcmd_cu_idx := i |>) /\
    client_ok c' /\ (forall i, cl_ref d i c' <= cl_ref d i c) /\
    ((r = - EAGAIN /\ between <> id) \/ acquired kds m xcmd r m' x').
Proof.
  intros Hc Hb Hx Hp.
  destruct (acquire_cu_idx_cases kds m c d xcmd between Hc Hb Hd Hx Hp)
    as [(e & He & _ & E)|(i & _ & [Hcand _] & Hs & E)]; rewrite E.
  - eexists _, _, _, _. split; [done|]. assert (e < 0) by (destruct He; subst; done).
    split_and!; try done; [exists (xcmd_cu_idx xcmd); apply cmd_id_upd|]. right.
    split; [done|exists (xcmd_cu_idx xcmd); apply cmd_id_upd|done|lia].
  - destruct (Hb c Hc) as [Hcb Hle].
    destruct (Z.eqb_spec (cl_ref d i (between c)) 0) as [E0|E0];
      eexists _, _, _, _; (split; [reflexivity|]).
    + split_and!; [done|by exists i|by eapply client_ok_refcnt; [|exact Hcb]| |].
      * intros j. unfold client_stat_inc, client_stat_dec. rewrite !cl_ref_stat_add. apply Hle.
      * left. split; [done|]. intros ->. destruct Hcand as (_ & _ & Hpos). unfold id in E0. lia.
    + split_and!; [done|by exists i|by eapply client_ok_refcnt; [|exact Hcb]| |].
      * intros j. unfold client_stat_inc, client_stat_dec. rewrite !cl_ref_stat_add. apply Hle.
      * right. pose proof (candidate_range _ _ _ _ Hx Hcand) as Hr.
        split; [done|by exists i|unfold cu_range in Hr; lia|]. by intros _.
Qed.

Lemma close_ok_id : close_ok id.
Proof. intros c Hc. split; [done|]. intros. unfold id. lia. Qed.

Lemma acquire_loop_total closes : forall m c xcmd,
  client_ok c -> cmd_ok xcmd -> held_present kds m c d -> Forall close_ok closes ->
  exists r m' c' x', acquire_loop kds m c d xcmd closes = Some (r, m', c', x') /\
    acquired kds m xcmd r m' x'.
Proof.
  induction closes as [|f closes IH]; intros m c xcmd Hc Hx Hp HF; cbn [acquire_loop].
  - destruct (acquire_step m c xcmd id Hc close_ok_id Hx Hp)
      as (r & m' & c' & x' & E & _ & _ & _ & _ & [[_ H]|H]); [done|]. by exists r, m', c', x'.
  - apply Forall_cons in HF as [Hf HF].
    destruct (acquire_step m c xcmd f Hc Hf Hx Hp)
      as (r & m' & c' & x' & -> & Em & [i Hi] & Hc' & Hle & H). cbn [mbind option_bind].
    destruct (Z.eqb_spec r (- EAGAIN)) as [->|Hne].
    + destruct (IH m' c' x') as (r2 & m2 & c2 & x2 & E2 & [A1 [j A2] A3 A4]); try done.
      { by subst x'. }
      { by eapply held_present_le. }
      exists r2, m2, c2, x2. split; [done|]. split; [congruence| |done|].
      * exists j. by rewrite A2, Hi.
      * intros H0. destruct (A4 H0) as (R1 & R2 & x & R3 & R4). split_and!; try done.
        exists x. split; [|done]. unfold get_xcu in *. by rewrite <- Em.
    + destruct H as [[H _]|H]; [done|]. by exists r, m', c', x'.
Qed.
End Loop.

(** ** Dispatch *)

Section Fate.
Context {C : Type}.
Implicit Types (kds : kds_sched C).

(** The command is appended to the pending queue of one schedulable CU, the
    one recorded in the command; all other CUs are untouched. *)
Definition queued kds kds' (d : Z) (xcmd : kds_command) : Prop :=
  exists i p xcu x',
    aget None (m_xcus (get_mgmt kds d)) i = Some p /\ kds_heap kds !! p = Some xcu /\
    schedulable kds (get_mgmt kds d) i /\
    kds_heap kds' = <[p := xrt_cu_submit xcu x']> (kds_heap kds) /\
    xcmd_id x' = xcmd_id xcmd /\ xcmd_info x' = xcmd_info xcmd /\ xcmd_cu_idx x' = i.

Lemma heap_put_mgmt kds d m : kds_heap (put_mgmt kds d m) = kds_heap kds.
Proof. unfold put_mgmt. by destruct (d =? DOMAIN_PL). Qed.

Lemma alter_insert_eq (h : gmap Z (xrt_cu C)) p f x :
  h !! p = Some x -> alter f p h = <[p := f x]> h.
Proof.
  intros Hp. apply map_eq. intros q. destruct (decide (q = p)) as [->|Hne].
  - by rewrite lookup_alter_eq, lookup_insert_eq, Hp.
  - by rewrite lookup_alter_ne, lookup_insert_ne.
Qed.

Lemma timestamp_fields now x s :
  xcmd_id (set_xcmd_timestamp now x s) = xcmd_id x /\
  xcmd_info (set_xcmd_timestamp now x s) = xcmd_info x /\
  xcmd_cu_idx (set_xcmd_timestamp now x s) = xcmd_cu_idx x.
Proof. unfold set_xcmd_timestamp. by destruct (negb _). Qed.

Lemma kds_cu_dispatch_fate now kds c d xcmd closes :
  client_ok c -> hw_domain d -> cmd_ok xcmd -> held_present kds (get_mgmt kds d) c d ->
  Forall close_ok closes ->
  exists ret kds' c', kds_cu_dispatch now kds c d xcmd closes = Some (ret, kds', c') /\
    ((ret = 0 /\ queued kds kds' d xcmd) \/
     ((ret = - EINVAL \/ ret = - EBUSY) /\ kds_heap kds' = kds_heap kds)).
Proof.
  intros Hc Hd Hx Hp HF.
  destruct (acquire_loop_total kds d Hd closes _ c xcmd Hc Hx Hp HF)
    as (r & m' & c' & x' & E & [A1 [j A2] A3 A4]).
  unfold kds_cu_dispatch. rewrite E. cbn [mbind option_bind].
  destruct (Z.ltb_spec r 0) as [Hr|Hr].
  { eexists _, _, _. split; [done|]. right. split; [by apply A3|]. apply heap_put_mgmt. }
  destruct (A4 Hr) as (Hrng & Hidx & xcu & Hget & Hsch).
  assert (get_xcu (put_mgmt kds d m') m' r = Some xcu) as ->.
  { unfold get_xcu in *. by rewrite A1, heap_put_mgmt. }
  cbn [mbind option_bind]. eexists _, _, _. split; [done|]. left. split; [done|].
  unfold get_xcu in Hget. destruct (aget None (m_xcus (get_mgmt kds d)) r) as [p|] eqn:Ep; [|done].
  cbn [mbind option_bind] in Hget.
  exists r, p, xcu, (set_xcmd_timestamp now x' KDS_QUEUED).
  destruct (timestamp_fields now x' KDS_QUEUED) as (T1 & T2 & T3). rewrite T1, T2, T3, A2.
  rproj. split_and!; try done.
  - exists xcu. unfold get_xcu. by rewrite Ep.
  - unfold upd_xcu. rewrite A1, Ep. rproj. by rewrite heap_put_mgmt, (alter_insert_eq _ _ _ xcu).
  - rewrite <- Hidx, A2. by rproj.
Qed.

(** ** The fate of a command *)

(** What [kds_add_command] made of a command: answered (notified and freed
    once), handed to the remote scheduler, or queued on a CU. *)
Inductive fate kds kds' (xcmd : kds_command) : Z -> list kds_event -> Prop :=
| fate_error err : err <> 0 -> kds_heap kds' = kds_heap kds ->
    fate kds kds' xcmd err (notify_free xcmd KDS_ERROR)
| fate_answered s :
    fate kds kds' xcmd 0 (notify_free xcmd s)
| fate_remote x' : xcmd_id x' = xcmd_id xcmd -> xcmd_info x' = xcmd_info xcmd ->
    kds_heap kds' = kds_heap kds -> fate kds kds' xcmd 0 [KErtSubmit x']
| fate_queued d : hw_domain d -> queued kds kds' d xcmd -> fate kds kds' xcmd 0 [].

(** The CU threads answer an abort command by setting its status. *)
Definition answers_ok (answer : Z -> kds_sched C -> kds_command -> kds_sched C * kds_command)
  : Prop := forall i k x, exists s, (answer i k x).2 = set_status s x.

Lemma notify_free_status xcmd s s' : notify_free (set_status s xcmd) s' = notify_free xcmd s'.
Proof. reflexivity. Qed.

Lemma abort_broadcast_fate answer d idxs : answers_ok answer -> forall kds xcmd,
  exists s, (abort_broadcast answer kds d xcmd idxs).1 = notify_free xcmd s.
Proof.
  intros Ha. induction idxs as [|i idxs IH]; intros kds xcmd; cbn [abort_broadcast].
  { by exists KDS_ERROR. }
  destruct (get_xcu kds (get_mgmt kds d) i) as [xcu|]; [|apply IH].
  destruct (xrt_cu_get_protocol xcu =? CTRL_NONE).
  - destruct (bool_decide _); [apply IH|]. by eexists.
  - destruct (Ha i (upd_xcu kds (get_mgmt kds d) i (fun x => xrt_cu_hpq_submit x xcmd)) xcmd)
      as [s Hs].
    destruct (answer i _ xcmd) as [k x]. cbn [snd] in Hs. subst x.
    destruct (bool_decide _).
    + destruct (IH k (set_status s xcmd)) as [s' Hs']. exists s'. by rewrite Hs'.
    + by eexists.
Qed.

Lemma kds_cu_abort_cmd_fate answer d kds xcmd :
  answers_ok answer -> exists s, (kds_cu_abort_cmd answer kds d xcmd).1 = notify_free xcmd s.
Proof. intros Ha. unfold kds_cu_abort_cmd. by apply abort_broadcast_fate. Qed.

(** Outcome of the submission functions, before the error callback. *)
Definition submitted kds kds' (xcmd : kds_command) (err : Z) (ev : list kds_event) : Prop :=
  (err <> 0 /\ ev = [] /\ kds_heap kds' = kds_heap kds) \/ (err = 0 /\ fate kds kds' xcmd 0 ev).

Lemma queued_heap kds k1 k2 d xcmd :
  kds_heap k2 = kds_heap k1 -> queued kds k1 d xcmd -> queued kds k2 d xcmd.
Proof. unfold queued. by intros ->. Qed.

Lemma kds_submit_cu_fate answer now kds c d xcmd closes :
  client_ok c -> hw_domain d -> cmd_ok xcmd -> held_present kds (get_mgmt kds d) c d ->
  Forall close_ok closes -> answers_ok answer ->
  exists err ev kds' c', kds_submit_cu answer now kds c d xcmd closes =
    Some (err, ev, kds', c') /\ submitted kds kds' xcmd err ev.
Proof.
  intros Hc Hd Hx Hp HF Ha.
  assert (forall e, e <> 0 -> submitted kds kds xcmd e []) as Herr by (intros; by left).
  assert (forall s, submitted kds kds xcmd 0 (notify_free xcmd s)) as Hans.
  { intros s. right. split; [done|]. constructor. }
  unfold kds_submit_cu.
  match goal with |- context [match _ with OP_START => ?t | _ => _ end] => set (disp := t) end.
  assert (exists err ev kds' c', disp = Some (err, ev, kds', c') /\ submitted kds kds' xcmd err ev)
    as Hdisp.
  { subst disp. destruct (kds_cu_dispatch_fate now kds c d xcmd closes Hc Hd Hx Hp HF)
      as (ret & k1 & c1 & -> & [[-> Hq]|[He Hh]]); cbn [mbind option_bind];
      eexists _, _, _, _; (split; [reflexivity|]).
    - right. split; [done|]. apply (fate_queued _ _ _ d Hd).
      eapply queued_heap; [|exact Hq]. by destruct (_ && _).
    - left. by destruct He as [-> | ->]. }
  destruct (xcmd_opcode xcmd); try exact Hdisp;
    try (eexists _, _, _, _; split; [reflexivity|]; apply Herr || apply Hans; done).
  destruct (kds_cu_abort_cmd_fate answer d kds xcmd Ha) as [s Hs].
  destruct (kds_cu_abort_cmd answer kds d xcmd) as [ev k1]. cbn [fst] in Hs. subst ev.
  eexists _, _, _, _. split; [reflexivity|]. right. split; [done|]. constructor.
Qed.

(** The soft CUs named by a configuration command exist in the table. *)
Definition images_ok (m : kds_cu_mgmt) (images : list (Z * Z)) : Prop :=
  Forall (fun im => forall j, 0 <= j < im.2 ->
            u32 (j + im.1) < Z.of_nat (length (m_usage m))) images.

Lemma kds_scu_config_ok m images :
  images_ok m images -> exists m', kds_scu_config m images = Some m'.
Proof.
  intros HF. unfold kds_scu_config.
  assert (Forall (fun i => 0 <= i < Z.of_nat (length (m_usage m)))
    (images ≫= fun '(first, n) => (fun j => u32 (j + first)) <$> seqZ 0 n)) as HI.
  { apply Forall_forall. intros i Hi. apply list_elem_of_bind in Hi as ([f n] & Hi & Him).
    apply list_elem_of_fmap in Hi as (j & -> & Hj). apply elem_of_seqZ in Hj.
    eapply Forall_forall in Him; [|exact HF]. cbn [fst snd] in Him.
    specialize (Him j ltac:(lia)). pose proof (u32_range (j + f)). lia. }
  assert (forall l u, length u = length (m_usage m) ->
    Forall (fun i => 0 <= i < Z.of_nat (length (m_usage m))) l ->
    is_Some (foldl (fun u i => u ← u; aset_chk u i 0) (Some u) l)) as Hfold.
  { induction l as [|i l IH]; intros u Hu Hl; [by eexists|].
    apply Forall_cons in Hl as [Hi Hl]. cbn [foldl mbind option_bind]. unfold aset_chk at 2.
    assert (in_arr u i = true) as -> by (apply in_arr_true; lia).
    apply IH; [by rewrite length_aset|done]. }
  destruct (Hfold _ (m_usage m) eq_refl HI) as [u ->]. by eexists.
Qed.

Lemma kds_submit_ert_fate now kds c xcmd closes images :
  client_ok c -> cmd_ok xcmd -> held_present kds (kds_cu_mgmt_ kds) c DOMAIN_PL ->
  Forall close_ok closes -> images_ok (kds_scu_mgmt kds) images ->
  exists err ev kds' c', kds_submit_ert now kds c xcmd closes images =
    Some (err, ev, kds', c') /\ submitted kds kds' xcmd err ev.
Proof.
  intros Hc Hx Hp HF Him.
  assert (forall k x', kds_heap k = kds_heap kds -> (exists i, x' = xcmd <| xcmd_cu_idx := i |>) ->
    submitted kds k xcmd 0 [KErtSubmit (set_xcmd_timestamp now x' KDS_QUEUED)]) as Hgo.
  { intros k x' Hk [i Hx']. right. split; [done|].
    destruct (timestamp_fields now x' KDS_QUEUED) as (T1 & T2 & _).
    constructor; [rewrite T1|rewrite T2|done]; by rewrite Hx'. }
  assert (exists i, xcmd = xcmd <| xcmd_cu_idx := i |>) as Hself.
  { exists (xcmd_cu_idx xcmd). apply cmd_id_upd. }
  unfold kds_submit_ert. destruct (xcmd_opcode xcmd);
    try (eexists _, _, _, _; split; [reflexivity|]; by apply Hgo || by left).
  - destruct (acquire_loop_total kds DOMAIN_PL (or_introl eq_refl) closes _ c xcmd Hc Hx Hp HF)
      as (r & m' & c' & x' & -> & [_ A2 A3 _]). cbn [mbind option_bind].
    destruct (Z.ltb_spec r 0).
    + eexists _, _, _, _. split; [reflexivity|]. left. split; [lia|done].
    + eexists _, _, _, _. split; [reflexivity|]. by apply Hgo.
  - destruct (kds_scu_config_ok (kds_scu_mgmt kds) images Him) as [m ->].
    cbn [mbind option_bind]. eexists _, _, _, _. split; [reflexivity|]. by apply Hgo.
  - destruct (m_num_cus (kds_scu_mgmt kds) =? 0); eexists _, _, _, _; (split; [reflexivity|]).
    + right. split; [done|]. constructor.
    + by apply Hgo.
Qed.
End Fate.



(** ** Instances of the theorems *)

Definition held_presentb {C} (kds : kds_sched C) m c d : bool :=
  forallb (fun i => implb (0 <? cl_ref d i c) (bool_decide (is_Some (get_xcu kds m i))))
    (seqZ 0 (Z.of_nat MAX_CUS)).

Lemma held_presentb_ok {C} (kds : kds_sched C) m c d :
  held_presentb kds m c d = true -> held_present kds m c d.
Proof.
  intros H i Hi Hr. unfold held_presentb in H. rewrite forallb_forall in H.
  assert (In i (seqZ 0 (Z.of_nat MAX_CUS))) as Hin.
  { apply list_elem_of_In, elem_of_seqZ. unfold cu_range in Hi. lia. }
  specialize (H i Hin). destruct (Z.ltb_spec 0 (cl_ref d i c)); [|lia].
  by apply bool_decide_eq_true in H.
Qed.

Definition demo_start : kds_command :=
  mk_kds_command 5 7 KDS_NEW 0 0 0 KDS_CU OP_START true REGMAP (Some [0]) 4 false [] [1; 0; 0; 0] 1 9.

Lemma demo_start_ok : cmd_ok demo_start.
Proof. split; [|done]. split; [done|]. repeat constructor; done. Qed.

Lemma demo_holder_ok : client_ok demo_holder.
Proof.
  pose proof (inv_clients _ demo_held_inv) as HF. by apply (Forall_lookup_1 _ _ 0%nat _ HF).
Qed.


