(* ===== verification/KdsRace.v ===== *)
(** * Submitting a command against closing its context

    [acquire_cu_idx] counts the submission and then reads the client's CU
    count; [kds_del_cu_context] drops the CU count and then reads the
    submission counters.  The atomic accesses of the two threads (and of the
    CU thread that completes the command) are interleaved freely here. *)
From S2P Require Import Prelude KdsCommand CuInfo CuCore XrtCu KdsHwctx KdsSched KdsRefs KdsDispatch.

#[local] Arguments upd : simpl never.

(** ** The counters *)

Section Counters.
Context (hw i : Z).

Definition has_hw (c : kds_client) : Prop :=
  Exists (fun h => hw_ctx_idx h = hw) (cl_hw_ctx_list c) /\
  Forall (fun h => forall f, length (stat_get f (hw_stats h)) = MAX_CUS) (cl_hw_ctx_list c).

(** Reading back a counter through the list of contexts. *)
Lemma stat_fold (g : client_stats -> Z) (k : client_stats -> client_stats) (z : Z -> Z) l :
  Forall (fun h => g (k (hw_stats h)) = z (g (hw_stats h))) l ->
  Exists (fun h => hw_ctx_idx h = hw) l -> forall r r',
  foldl (fun res h => if hw_ctx_idx h =? hw then g (hw_stats h) else res) r
    ((fun h => if hw_ctx_idx h =? hw then h <| hw_stats ::= k |> else h) <$> l) =
  z (foldl (fun res h => if hw_ctx_idx h =? hw then g (hw_stats h) else res) r' l).
Proof.
  intros HF HE.
  assert (forall l, Forall (fun h => g (k (hw_stats h)) = z (g (hw_stats h))) l ->
    forall r r', r = z r' ->
    foldl (fun res h => if hw_ctx_idx h =? hw then g (hw_stats h) else res) r
      ((fun h => if hw_ctx_idx h =? hw then h <| hw_stats ::= k |> else h) <$> l) =
    z (foldl (fun res h => if hw_ctx_idx h =? hw then g (hw_stats h) else res) r' l)) as Hz.
  { induction 1 as [|h l' Hh Hl IH]; intros r r' Hr; [done|]. rewrite fmap_cons. cbn [foldl].
    apply IH. destruct (hw_ctx_idx h =? hw) eqn:E; rproj; rewrite E; done. }
  revert HE. induction HF as [|h l Hh Hl IH]; intros HE r r'; [by apply Exists_nil in HE|].
  rewrite fmap_cons. cbn [foldl]. destruct (hw_ctx_idx h =? hw) eqn:E.
  - apply Hz; [done|]. rproj. by rewrite E.
  - rewrite E. apply Exists_cons in HE as [HE|HE]; [lia|]. by apply IH.
Qed.

Lemma client_stat_read_add c f g z :
  has_hw c -> cu_range i ->
  client_stat_read (client_stat_add c hw f i z) hw g i =
  if decide (f = g) then u64 (client_stat_read c hw g i + z) else client_stat_read c hw g i.
Proof.
  intros [HE HF] Hi. unfold client_stat_read, client_stat_add. rproj.
  rewrite (stat_fold (fun s => aget 0 (stat_get g s) i) (stat_add f i z)
             (fun v => if decide (f = g) then u64 (v + z) else v) _) with (r' := 0);
    [done| |done].
  eapply Forall_impl; [exact HF|]. cbn beta. intros h Hl. unfold stat_add.
  rewrite stat_get_put. destruct (decide (f = g)) as [<-|Hfg]; [|by rewrite decide_False].
  rewrite decide_True by done.
  unfold cu_range in Hi. rewrite aget_aset_eq; [done|]. rewrite Hl. lia.
Qed.

Lemma has_hw_add c f z : has_hw c -> has_hw (client_stat_add c hw f i z).
Proof.
  intros [HE HF]. unfold has_hw, client_stat_add. rproj. split.
  - apply Exists_fmap. eapply Exists_impl; [exact HE|]. cbn beta. intros h Hh.
    unfold compose. destruct (hw_ctx_idx h =? hw); by rproj.
  - apply Forall_fmap. eapply Forall_impl; [exact HF|]. cbn beta. intros h Hl g. unfold compose.
    destruct (hw_ctx_idx h =? hw); [|apply Hl]. rproj. unfold stat_add.
    rewrite stat_get_put. case_decide; [rewrite length_aset|]; apply Hl.
Qed.
End Counters.

(** ** The threads *)

(** Where the submitting thread is in [acquire_cu_idx] and after it. *)
Inductive sub_pc :=
| SChosen       (** the CU is chosen, nothing counted *)
| SCounted      (** the submission is counted, the recheck comes next *)
| SQueued       (** the recheck passed: the command goes to the CU *)
| SRetry        (** the recheck failed: [-EAGAIN] *)
| SCompleted.   (** the CU thread has counted the completion *)

(** Where the closing thread is in [kds_del_cu_context]. *)
Inductive close_pc :=
| KStart        (** before the count is dropped *)
| KDropped      (** count dropped; reads the counters next, again and again *)
| KPassed.      (** no outstanding command was seen: the context is closed *)

Record race := mk_race { rc_client : kds_client; rc_sub : sub_pc; rc_close : close_pc }.

#[export] Instance eta_race : Eta race := fun r =>
  mk_race (rc_client r) (rc_sub r) (rc_close r).

Section Race.
Context (hw d i : Z) (Hd : hw_domain d) (Hi : cu_range i).

Inductive race_step : race -> race -> Prop :=
| race_count c k :
    race_step (mk_race c SChosen k)
      (mk_race (client_stat_inc c hw (sub_field d) i) SCounted k)
| race_recheck_ok c k :
    0 < kds_test_refcnt c d i ->
    race_step (mk_race c SCounted k) (mk_race c SQueued k)
| race_recheck_fail c k :
    kds_test_refcnt c d i = 0 ->
    race_step (mk_race c SCounted k)
      (mk_race (client_stat_dec c hw (sub_field d) i) SRetry k)
| race_complete c k :
    race_step (mk_race c SQueued k)
      (mk_race (client_stat_inc c hw (comp_field d) i) SCompleted k)
| race_drop c s :
    race_step (mk_race c s KStart)
      (mk_race (kds_test_and_refcnt_decr c d i).2 s KDropped)
| race_wait c s :
    outstanding c hw d i = true ->
    race_step (mk_race c s KDropped) (mk_race c s KDropped)
| race_pass c s :
    outstanding c hw d i = false ->
    race_step (mk_race c s KDropped) (mk_race c s KPassed).

(** A submission of this command is counted and not completed. *)
Definition in_flight (s : sub_pc) : bool :=
  match s with SCounted | SQueued => true | _ => false end.

Definition sub_cnt c := client_stat_read c hw (sub_field d) i.
Definition comp_cnt c := client_stat_read c hw (comp_field d) i.

Record race_inv (r : race) : Prop := {
  ri_ok : client_ok (rc_client r);
  ri_hw : has_hw hw (rc_client r);
  ri_ref : cl_ref d i (rc_client r) = match rc_close r with KStart => 1 | _ => 0 end;
  ri_cnt : u64 (sub_cnt (rc_client r) - comp_cnt (rc_client r)) = b2z (in_flight (rc_sub r));
  ri_pass : rc_close r = KPassed -> rc_sub r <> SQueued;
}.

Lemma fields_differ : sub_field d <> comp_field d.
Proof. by destruct Hd as [->| ->]. Qed.

Lemma counts_sub c z :
  has_hw hw c ->
  u64 (sub_cnt (client_stat_add c hw (sub_field d) i z) -
       comp_cnt (client_stat_add c hw (sub_field d) i z)) = u64 (sub_cnt c - comp_cnt c + z).
Proof.
  intros H. unfold sub_cnt, comp_cnt. rewrite !client_stat_read_add by done.
  rewrite decide_True, decide_False by (done || apply fields_differ).
  unfold u64. rewrite Zminus_mod_idemp_l. f_equal. lia.
Qed.

Lemma counts_comp c z :
  has_hw hw c ->
  u64 (sub_cnt (client_stat_add c hw (comp_field d) i z) -
       comp_cnt (client_stat_add c hw (comp_field d) i z)) = u64 (sub_cnt c - comp_cnt c - z).
Proof.
  intros H. unfold sub_cnt, comp_cnt. rewrite !client_stat_read_add by done.
  pose proof fields_differ as Hf. rewrite decide_False, decide_True by (done || congruence).
  unfold u64. rewrite Zminus_mod_idemp_r. f_equal. lia.
Qed.

Lemma u64_step a b z : u64 a = b -> u64 (a + z) = u64 (b + z).
Proof. intros <-. unfold u64. by rewrite Zplus_mod_idemp_l. Qed.

Lemma not_outstanding c : outstanding c hw d i = false -> u64 (sub_cnt c - comp_cnt c) = 0.
Proof.
  unfold outstanding. fold (sub_cnt c) (comp_cnt c). intros H.
  assert (sub_cnt c = comp_cnt c) as -> by lia. by rewrite Z.sub_diag.
Qed.

Lemma race_step_inv r r' : race_inv r -> race_step r r' -> race_inv r'.
Proof.
  intros [I1 I2 I3 I4 I5] Hs. destruct Hs as [c k|c k Ht|c k Ht|c k|c s|c s Ho|c s Ho];
    cbn [rc_client rc_sub rc_close in_flight] in *.
  - split; cbn [rc_client rc_sub rc_close in_flight]; try done; [by apply has_hw_add|].
    unfold client_stat_inc. rewrite counts_sub by done. by rewrite (u64_step _ _ _ I4).
  - rewrite test_refcnt_spec, I3 in Ht by done. split; try done.
    cbn [rc_close rc_sub]. intros ->. done.
  - split; cbn [rc_client rc_sub rc_close in_flight]; try done; [by apply has_hw_add|].
    unfold client_stat_dec. rewrite counts_sub by done. by rewrite (u64_step _ _ _ I4).
  - split; cbn [rc_client rc_sub rc_close in_flight]; try done; [by apply has_hw_add|].
    unfold client_stat_inc. rewrite counts_comp by done. rewrite <- Z.add_opp_r.
    by rewrite (u64_step _ _ _ I4).
  - destruct (refcnt_decr_ok c d i I1 Hd Hi) as (c' & E & Hc' & Href).
    pose proof (refcnt_decr_hw c d i) as Eh. rewrite E in *. cbn [snd] in *.
    split; cbn [rc_client rc_sub rc_close in_flight]; try done.
    + unfold has_hw. by rewrite Eh.
    + by rewrite Href, !Z.eqb_refl, I3.
    + unfold sub_cnt, comp_cnt, client_stat_read in *. by rewrite Eh.
  - by split.
  - split; cbn [rc_client rc_sub rc_close in_flight] in *; try done. intros _ ->.
    rewrite (not_outstanding c Ho) in I4. done.
Qed.

Lemma race_reach_inv r r' : race_inv r -> rtc race_step r r' -> race_inv r'.
Proof. intros H Hr. induction Hr as [|r1 r2 r3 H1 _ IH]; [done|]. eauto using race_step_inv. Qed.
End Race.


(** The close wins: the submission is counted too late and is taken back. *)
Definition race_client : kds_client :=
  demo_holder <| cl_hw_ctx_list := [mk_hw_ctx 0 0 0 [] [] stats_zero] |>.

Definition race_end : race :=
  mk_race (client_stat_dec
             (client_stat_inc (kds_test_and_refcnt_decr race_client DOMAIN_PL 0).2 0 S_CNT 0)
             0 S_CNT 0) SRetry KPassed.

Lemma race_run : rtc (race_step 0 DOMAIN_PL 0) (mk_race race_client SChosen KStart) race_end.
Proof.
  eapply rtc_l; [apply race_drop|]. eapply rtc_l; [apply race_pass; vm_compute; reflexivity|].
  eapply rtc_l; [apply race_count|]. eapply rtc_l; [|apply rtc_refl].
  apply race_recheck_fail. vm_compute. reflexivity.
Qed.

