(* ===== verification/KdsConfig.v ===== *)
(** * Configuration and polling of the scheduler

    The parts of [kds_core.c] around the scheduling proper: the polling thread,
    the remote scheduler, fast-adapter command memory, starting and stopping
    CU threads.  The life cycle of the scheduler and of its clients and the
    user-managed CUs are in [KdsLife]. *)
From S2P Require Import Prelude KdsCommand CuInfo CuCore CuFa CuHls CircLog XrtCu KdsHwctx KdsSched.

Definition KDS_SETTING (v : Z) : Z := Z.land v 0x7FFFFFFF.
Definition MAX_SLOT : Z := 32.

(** ** Cores of both kinds *)

Inductive cu_kind (H : Type) :=
| CoreHls (core : xrt_cu_hls H)
| CoreFa (core : xrt_cu_fa H).
Arguments CoreHls {H}. Arguments CoreFa {H}.

(** The effect of [xrt_fa_cfg_update] on a core; [None] when the core is not
    that of a fast adapter. *)
Class FaCore (C : Type) :=
  fa_cfg : xrt_cu_info -> C -> Z -> Z -> Z -> Z -> option (Z * C).

#[export] Instance fa_core_kind H : FaCore (cu_kind H) := fun info c bar dev vaddr n =>
  match c with
  | CoreHls _ => None
  | CoreFa c => let '(r, c) := xrt_fa_cfg_update info c bar dev vaddr n in Some (r, CoreFa c)
  end.

Section Config.
Context {C : Type}.
#[local] Abbreviation sched := (kds_sched C).
#[local] Abbreviation cu := (xrt_cu C).

(** ** Polling thread *)

Definition kds_wake_up_poll (kds : sched) : Z * sched :=
  if z2b (kds_polling_start kds) then (1, kds <| kds_polling_start := 0 |>)
  else if z2b (kds_polling_stop kds) then (1, kds) else (0, kds).

(** The walk over [alive_cus]: the number of busy CUs. *)
Fixpoint poll_cus (funcs : xcu_funcs C) (now : Z) (ps : list Z) (kds : sched)
  : option (Z * list cu_event * sched) :=
  match ps with
  | [] => Some (0, [], kds)
  | p :: ps =>
      xcu ← kds_heap kds !! p;
      if cu_thread xcu then poll_cus funcs now ps kds
      else
        r ← xrt_cu_process_queues funcs now xcu;
        let '(st, ev, xcu) := r in
        r ← poll_cus funcs now ps (kds <| kds_heap ::= insert p xcu |>);
        let '(busy, ev', kds) := r in
        Some (b2z (st =? XCU_BUSY) + busy, ev ++ ev', kds)
  end.

(** One iteration of the thread's loop.  [slept] is what the others do until
    the wait ends. *)
Definition kds_polling_round (funcs : xcu_funcs C) (now : Z) (slept : sched -> sched)
  (kds : sched) : option (list cu_event * sched) :=
  r ← poll_cus funcs now (kds_alive_cus kds) kds;
  let '(busy_cnt, ev, kds) := r in
  if z2b busy_cnt then Some (ev, kds)
  else Some (ev, (kds_wake_up_poll (slept kds)).2).

(** ** Remote scheduler *)

Definition kds_init_ert (kds : sched) (ert : kds_ert) : Z * sched :=
  (0, kds <| kds_ert_ := Some ert |> <| kds_ert_disable := false |>).

Definition kds_fini_ert (kds : sched) : Z * sched :=
  (0, kds <| kds_ert_disable := true |> <| kds_ert_ := None |>).

(** [stopped] is what the polling thread does until it has ended. *)
Definition kds_reset (stopped : sched -> sched) (kds : sched) : sched :=
  let kds := kds <| kds_bad_state := false |> <| kds_ini_disable := false |>
                 <| kds_timestamp_set := false |> in
  let kds := match kds_ert_ kds with
             | None => kds <| kds_ert_disable := true |>
             | Some _ => kds
             end in
  if kds_polling_thread kds
  then stopped (kds <| kds_polling_stop := 1 |>) <| kds_polling_thread := false |>
  else kds.

(** ** The CU table as a list of entries *)

(** [xcus[i]]: its address and the CU; the outer [None] is a dangling entry. *)
Definition xcu_at (kds : sched) (m : kds_cu_mgmt) (i : Z) : option (option (Z * cu)) :=
  match aget None (m_xcus m) i with
  | None => Some None
  | Some p => x ← kds_heap kds !! p; Some (Some (p, x))
  end.

Definition put_xcu (kds : sched) (p : Z) (x : cu) : sched := kds <| kds_heap ::= insert p x |>.

Definition all_cus : list Z := seqZ 0 (Z.of_nat MAX_CUS).

(** ** Command memory of the fast adapters *)

Fixpoint fa_release `{FaCore C} (idxs : list Z) (total_sz : Z) (kds : sched)
  : option (Z * sched) :=
  match idxs with
  | [] => Some (total_sz, kds)
  | i :: idxs =>
      e ← xcu_at kds (kds_cu_mgmt_ kds) i;
      match e with
      | None => fa_release idxs total_sz kds
      | Some (p, x) =>
          match xrt_is_fa (cu_info x) with
          | None => fa_release idxs total_sz kds
          | Some size =>
              r ← fa_cfg (cu_info x) (cu_core x) 0 0 0 0;
              fa_release idxs (u32 (total_sz + size)) (put_xcu kds p (x <| cu_core := r.2 |>))
          end
      end
  end.

Fixpoint fa_assign `{FaCore C} (idxs : list Z) (bar_addr dev_addr vaddr num_slots : Z)
  (kds : sched) : option (Z * sched) :=
  match idxs with
  | [] => Some (0, kds)
  | i :: idxs =>
      e ← xcu_at kds (kds_cu_mgmt_ kds) i;
      match e with
      | None => fa_assign idxs bar_addr dev_addr vaddr num_slots kds
      | Some (p, x) =>
          match xrt_is_fa (cu_info x) with
          | None => fa_assign idxs bar_addr dev_addr vaddr num_slots kds
          | Some size =>
              r ← fa_cfg (cu_info x) (cu_core x) bar_addr dev_addr vaddr num_slots;
              let kds := put_xcu kds p (x <| cu_core := r.2 |>) in
              if z2b r.1 then Some (r.1, kds)
              else fa_assign idxs (u64 (bar_addr + u64 (size * num_slots)))
                     (u64 (dev_addr + u64 (size * num_slots)))
                     (u64 (vaddr + u64 (size * num_slots))) num_slots kds
          end
      end
  end.

(** The division by a total size of 0 is undefined. *)
Definition kds_fa_assign_cmdmem `{FaCore C} (kds : sched) : option (Z * sched) :=
  r ← fa_release all_cus 0 kds;
  let '(total_sz, kds) := r in
  let total_sz := round_up_to_next_power2 total_sz in
  let mem := kds_cmdmem kds in
  if cm_size mem <? total_sz then Some (- EINVAL, kds)
  else if total_sz =? 0 then None
  else
    let num_slots := cm_size mem / total_sz in
    fa_assign all_cus (cm_bar_paddr mem) (cm_dev_paddr mem) (cm_vaddr mem) num_slots kds.

(** ** CU threads *)

(** [stopped] is what a CU thread does until it has ended, [ok i] whether the
    thread of CU [i] can be created. *)
Fixpoint stop_cus (stopped : cu -> cu) (domain : Z) (idxs : list Z) (kds : sched)
  : option sched :=
  match idxs with
  | [] => Some kds
  | i :: idxs =>
      let m := get_mgmt kds domain in
      e ← xcu_at kds m i;
      match e with
      | None => stop_cus stopped domain idxs kds
      | Some (p, x) =>
          let kds := put_xcu kds p (xrt_cu_stop_thread stopped x) in
          stop_cus stopped domain idxs
            (put_mgmt kds domain (m <| m_cu_intr := aset (m_cu_intr m) i 0 |>))
      end
  end.

Definition kds_stop_all_cu_threads (stopped : cu -> cu) (kds : sched) (domain : Z)
  : option sched := stop_cus stopped domain all_cus kds.

(** The start loop: [inl] the state in which a thread could not be created. *)
Fixpoint start_cus (ok : Z -> bool) (domain : Z) (idxs : list Z) (kds : sched)
  : option (sched + sched) :=
  match idxs with
  | [] => Some (inr kds)
  | i :: idxs =>
      let m := get_mgmt kds domain in
      e ← xcu_at kds m i;
      match e with
      | None => start_cus ok domain idxs kds
      | Some (p, x) =>
          if aget 0 (m_cu_intr m) i =? 1 then start_cus ok domain idxs kds
          else
            let '(err, x) := xrt_cu_start_thread (ok i) x in
            let kds := put_xcu kds p x in
            if z2b err then Some (inl kds)
            else start_cus ok domain idxs
                   (put_mgmt kds domain (m <| m_cu_intr := aset (m_cu_intr m) i 1 |>))
      end
  end.

Definition kds_start_all_cu_threads (ok : Z -> bool) (stopped : cu -> cu) (kds : sched)
  (domain : Z) : option (Z * sched) :=
  r ← start_cus ok domain all_cus kds;
  match r with
  | inr kds => Some (0, kds)
  | inl kds => kds ← kds_stop_all_cu_threads stopped kds domain; Some (- EINVAL, kds)
  end.

(** ** Configuration update *)

(** The [run_polling] label of both update functions; [poll_ok] says whether
    the polling thread can be created.  A failure returns [IS_ERR], 1. *)
Definition run_polling (poll_ok : bool) (ret : Z) (kds : sched) : Z * sched :=
  let kds := kds <| kds_polling_stop := 0 |> in
  if poll_ok then (ret, kds <| kds_polling_thread := true |>)
  else (1, kds <| kds_polling_thread := false |>).

(** Do all CUs of the table satisfy [p]? *)
Fixpoint cus_all (p : cu -> bool) (m : kds_cu_mgmt) (idxs : list Z) (kds : sched) : option bool :=
  match idxs with
  | [] => Some true
  | i :: idxs =>
      e ← xcu_at kds m i;
      match e with
      | None => cus_all p m idxs kds
      | Some (_, x) => if p x then cus_all p m idxs kds else Some false
      end
  end.

(** The interrupt loop of the legacy update. *)
Fixpoint cfg_cus (ok : Z -> bool) (stopped : cu -> cu) (idxs : list Z) (ret : Z) (kds : sched)
  : option (Z * sched) :=
  match idxs with
  | [] => Some (ret, kds)
  | i :: idxs =>
      let m := kds_cu_mgmt_ kds in
      let setting := KDS_SETTING (kds_cu_intr kds) in
      e ← xcu_at kds m i;
      match e with
      | None => cfg_cus ok stopped idxs ret kds
      | Some (p, x) =>
          if aget 0 (m_cu_intr m) i =? setting then cfg_cus ok stopped idxs ret kds
          else
            let '(ret, x) := xrt_cu_cfg_update stopped (ok i) x setting in
            let kds := put_xcu kds p x in
            if ret =? 0 then
              cfg_cus ok stopped idxs ret
                (kds <| kds_cu_mgmt_ := m <| m_cu_intr := aset (m_cu_intr m) i setting |> |>)
            else if ret =? - ENOSYS then
              cfg_cus ok stopped idxs 0
                (kds <| kds_cu_mgmt_ := m <| m_cu_intr := aset (m_cu_intr m) i 0 |> |>)
            else cfg_cus ok stopped idxs ret kds
      end
  end.

Definition kds_cfg_legacy_update `{FaCore C} (ok : Z -> bool) (stopped : cu -> cu)
  (poll_ok : bool) (kds : sched) : option (Z * sched) :=
  let finish ret (kds : sched) :=
    if kds_polling_thread kds then (ret, kds)
    else if negb (z2b (KDS_SETTING (kds_cu_intr kds))) || z2b (m_num_cus (kds_scu_mgmt kds))
    then run_polling poll_ok ret kds
    else (ret, kds) in
  r ← (if cm_bo (kds_cmdmem kds)
       then r ← kds_fa_assign_cmdmem kds;
            Some (r.1, if z2b r.1 then r.2 else r.2 <| kds_ert_disable := true |>)
       else Some (0, kds));
  let '(ret, kds) := r in
  if z2b ret then Some (- EINVAL, kds)
  else if negb (z2b (kds_cu_intr_cap kds)) then Some (finish 0 kds)
  else
    all_intr ← cus_all (fun x => info_intr_enable (cu_info x)) (kds_cu_mgmt_ kds) all_cus kds;
    if negb all_intr then Some (finish 0 (kds <| kds_cu_intr := 0 |>))
    else
      r ← cfg_cus ok stopped all_cus 0 kds;
      Some (finish r.1 r.2).

(** [okp] and [oks]: the thread creations of the two domains. *)
Definition kds_cfg_xgq_update (okp oks : Z -> bool) (stopped : cu -> cu) (poll_ok : bool)
  (kds : sched) : option (Z * sched) :=
  let polling ret (kds : sched) :=
    if kds_polling_thread kds then (ret, kds) else run_polling poll_ok ret kds in
  if kds_force_polling kds then Some (polling 0 kds)
  else
    all_intr ← cus_all xrt_cu_intr_supported (kds_cu_mgmt_ kds) all_cus kds;
    if negb all_intr then Some (- ENOSYS, kds)
    else
      r ← kds_start_all_cu_threads okp stopped kds DOMAIN_PL;
      let '(ret, kds) := r in
      if z2b ret then Some (polling ret kds)
      else
        r ← kds_start_all_cu_threads oks stopped kds DOMAIN_PS;
        let '(ret, kds) := r in
        if z2b ret
        then kds ← kds_stop_all_cu_threads stopped kds DOMAIN_PL; Some (polling ret kds)
        else Some (0, kds).

Definition kds_cfg_update `{FaCore C} (okp oks : Z -> bool) (stopped : cu -> cu)
  (poll_ok : bool) (kds : sched) : option (Z * sched) :=
  if kds_xgq_enable kds then kds_cfg_xgq_update okp oks stopped poll_ok kds
  else kds_cfg_legacy_update okp stopped poll_ok kds.

(** [irq] is the [configure_irq] operation; a NULL one is called regardless. *)
Fixpoint irq_cus (irq : option (cu -> bool -> cu)) (enable : bool) (idxs : list Z) (kds : sched)
  : option sched :=
  match idxs with
  | [] => Some kds
  | i :: idxs =>
      e ← xcu_at kds (kds_cu_mgmt_ kds) i;
      match e with
      | None => irq_cus irq enable idxs kds
      | Some (p, x) =>
          if negb (info_intr_enable (cu_info x)) then irq_cus irq enable idxs kds
          else f ← irq; irq_cus irq enable idxs (put_xcu kds p (f x enable))
      end
  end.

Definition kds_cus_irq_enable irq (kds : sched) (enable : bool) : option sched :=
  irq_cus irq enable all_cus kds.

Definition is_bad_state (kds : sched) : bool := kds_bad_state kds.
End Config.
