(* ===== verification/KdsThreads.v ===== *)
(** * Starting and stopping the CU threads is all or nothing

    Theorems on [kds_start_all_cu_threads], [kds_stop_all_cu_threads] and
    [kds_cfg_xgq_update]. *)
From S2P Require Import Prelude KdsCommand CuInfo CuCore CircLog XrtCu KdsHwctx KdsSched KdsConfig KdsRefs KdsDispatch.

#[local] Arguments upd : simpl never.

Section Threads.
Context {C : Type}.
Implicit Types (kds k : kds_sched C).

(** No dangling entry, and an interrupt record per CU. *)
Definition table_ok kds (d : Z) : Prop :=
  length (m_cu_intr (get_mgmt kds d)) = MAX_CUS /\
  forall i p, cu_range i -> aget None (m_xcus (get_mgmt kds d)) i = Some p ->
    is_Some (kds_heap kds !! p).

Definition in_table kds (d p : Z) : Prop :=
  exists i, cu_range i /\ aget None (m_xcus (get_mgmt kds d)) i = Some p.

(** What the loops leave alone: both tables, the other domain, and the CUs
    outside the table. *)
Record frame kds k (d : Z) : Prop := {
  fr_other : forall d', hw_domain d' -> d' <> d -> get_mgmt k d' = get_mgmt kds d';
  fr_xcus : m_xcus (get_mgmt k d) = m_xcus (get_mgmt kds d);
  fr_len : length (m_cu_intr (get_mgmt k d)) = length (m_cu_intr (get_mgmt kds d));
  fr_heap : forall p, ~ in_table kds d p -> kds_heap k !! p = kds_heap kds !! p;
  fr_dom : forall p, is_Some (kds_heap kds !! p) -> is_Some (kds_heap k !! p);
  fr_poll : kds_polling_thread k = kds_polling_thread kds;
}.

Lemma frame_refl kds d : frame kds kds d.
Proof. by split. Qed.

Lemma frame_trans k1 k2 k3 d : frame k1 k2 d -> frame k2 k3 d -> frame k1 k3 d.
Proof.
  intros [A1 A2 A3 A4 A5 A6] [B1 B2 B3 B4 B5 B6]. split; try congruence; auto.
  - intros d' Hd Hne. by rewrite B1, A1.
  - intros p Hp. rewrite B4, A4; [done|done|]. intros (i & Hi & E). apply Hp. exists i.
    split; [done|]. by rewrite <- A2.
Qed.

(** One entry of the table rewritten: CU [x'] and record [v]. *)
Definition put_entry kds (d i p : Z) (x' : xrt_cu C) (v : Z) : kds_sched C :=
  put_mgmt (put_xcu kds p x') d
    (get_mgmt kds d <| m_cu_intr := aset (m_cu_intr (get_mgmt kds d)) i v |>).

Lemma put_entry_get kds d i p x' v d' :
  hw_domain d -> hw_domain d' ->
  get_mgmt (put_entry kds d i p x' v) d' =
  if d =? d' then get_mgmt kds d <| m_cu_intr := aset (m_cu_intr (get_mgmt kds d)) i v |>
  else get_mgmt kds d'.
Proof. intros Hd Hd'. unfold put_entry. rewrite get_put_mgmt by done. by destruct (d =? d'). Qed.

Lemma put_entry_heap kds d i p x' v : kds_heap (put_entry kds d i p x' v) = <[p := x']> (kds_heap kds).
Proof. unfold put_entry. rewrite heap_put_mgmt. by rproj. Qed.

Lemma put_entry_frame kds d i p x' v :
  hw_domain d -> cu_range i -> aget None (m_xcus (get_mgmt kds d)) i = Some p ->
  frame kds (put_entry kds d i p x' v) d.
Proof.
  intros Hd Hi Hp. split.
  - intros d' Hd' Hne. rewrite put_entry_get by done. destruct (Z.eqb_spec d d'); [congruence|done].
  - by rewrite put_entry_get, Z.eqb_refl.
  - rewrite put_entry_get, Z.eqb_refl by done. rproj. apply length_aset.
  - intros q Hq. rewrite put_entry_heap, lookup_insert_ne; [done|]. intros ->. apply Hq. by exists i.
  - intros q Hq. rewrite put_entry_heap. destruct (decide (p = q)) as [->|Hne].
    + rewrite lookup_insert_eq. by eexists.
    + by rewrite lookup_insert_ne.
  - unfold put_entry, put_mgmt, put_xcu. by destruct (d =? DOMAIN_PL).
Qed.

Lemma put_xcu_frame kds d i p x' :
  cu_range i -> aget None (m_xcus (get_mgmt kds d)) i = Some p -> frame kds (put_xcu kds p x') d.
Proof.
  intros Hi Hp. assert (forall d', get_mgmt (put_xcu kds p x') d' = get_mgmt kds d') as E.
  { intros d'. unfold get_mgmt, put_xcu. by destruct (d' =? DOMAIN_PL). }
  split; rewrite ?E; try done; unfold put_xcu.
  - intros q Hq. rproj. rewrite lookup_insert_ne; [done|]. intros ->. apply Hq. by exists i.
  - intros q Hq. rproj. destruct (decide (p = q)) as [->|Hne].
    + rewrite lookup_insert_eq. by eexists.
    + by rewrite lookup_insert_ne.
Qed.

Lemma table_ok_frame kds k d : frame kds k d -> table_ok kds d -> table_ok k d.
Proof.
  intros [A1 A2 A3 A4 A5 A6] [T1 T2]. split; [congruence|]. intros i p Hi E. rewrite A2 in E. eauto.
Qed.

Lemma in_table_frame kds k d p : frame kds k d -> in_table k d p <-> in_table kds d p.
Proof. intros [_ A2 _ _ _ _]. unfold in_table. by rewrite A2. Qed.

Lemma xcu_at_ok kds d i :
  table_ok kds d -> cu_range i ->
  (xcu_at kds (get_mgmt kds d) i = Some None /\ aget None (m_xcus (get_mgmt kds d)) i = None) \/
  (exists p x, xcu_at kds (get_mgmt kds d) i = Some (Some (p, x)) /\
     aget None (m_xcus (get_mgmt kds d)) i = Some p /\ kds_heap kds !! p = Some x).
Proof.
  intros [_ T] Hi. unfold xcu_at. destruct (aget None (m_xcus (get_mgmt kds d)) i) as [p|] eqn:E;
    [right|by left]. destruct (T i p Hi E) as [x Hx]. rewrite Hx. by exists p, x.
Qed.

(** ** One entry *)

(** The thread state [b], recorded as [v], of CU [i]. *)
Definition in_state (b : bool) (v : Z) kds (d i : Z) : Prop :=
  forall p, aget None (m_xcus (get_mgmt kds d)) i = Some p ->
    (exists x, kds_heap kds !! p = Some x /\ cu_thread x = b) /\
    aget 0 (m_cu_intr (get_mgmt kds d)) i = v.

(** Bringing one entry to a state keeps the entries in that state there. *)
Lemma put_in_state kds d i p x' b v j :
  hw_domain d -> cu_range i -> cu_range j -> length (m_cu_intr (get_mgmt kds d)) = MAX_CUS ->
  aget None (m_xcus (get_mgmt kds d)) i = Some p -> cu_thread x' = b ->
  j = i \/ in_state b v kds d j -> in_state b v (put_entry kds d i p x' v) d j.
Proof.
  intros Hd Hi Hj Hl Hp Hx' Hor q. rewrite put_entry_get, Z.eqb_refl, put_entry_heap by done. rproj.
  unfold cu_range in *. intros Hq. destruct (decide (i = j)) as [<-|Hne].
  - rewrite Hp in Hq. injection Hq as <-. rewrite lookup_insert_eq, aget_aset_eq by lia. eauto.
  - rewrite aget_aset_ne by lia. destruct Hor as [->|Hst]; [done|].
    destruct (Hst q Hq) as [Hx Hv]. split; [|done].
    destruct (decide (p = q)) as [->|Hpq]; [rewrite lookup_insert_eq; eauto|].
    by rewrite lookup_insert_ne.
Qed.

Lemma stop_thread_false f (x : xrt_cu C) : cu_thread (xrt_cu_stop_thread f x) = false.
Proof.
  unfold xrt_cu_stop_thread. destruct (cu_thread x) eqn:E; cbn [negb]; [by rproj|done].
Qed.

Lemma start_thread_ok ok (x : xrt_cu C) :
  ((xrt_cu_start_thread ok x).1 = 0 /\ cu_thread (xrt_cu_start_thread ok x).2 = true) \/
  (xrt_cu_start_thread ok x).1 = 1.
Proof.
  unfold xrt_cu_start_thread. destruct (cu_thread x) eqn:E; [by left|].
  destruct ok; [|by right]. left. cbn [fst snd]. by rproj.
Qed.

(** ** The loops *)

Lemma stop_cus_ok f d idxs : hw_domain d -> Forall cu_range idxs -> forall kds,
  table_ok kds d ->
  exists k, stop_cus f d idxs kds = Some k /\ frame kds k d /\
    (forall j, cu_range j -> j ∈ idxs \/ in_state false 0 kds d j -> in_state false 0 k d j).
Proof.
  intros Hd HF. induction HF as [|i idxs Hi HF IH]; intros kds T; cbn [stop_cus].
  { exists kds. split; [done|]. split; [apply frame_refl|]. intros j Hj [H|H]; [set_solver|done]. }
  destruct (xcu_at_ok kds d i T Hi) as [[-> En]|(p & x & -> & Ep & Ex)]; cbn [mbind option_bind].
  - destruct (IH kds T) as (k & E & Fr & Hk). exists k. split; [done|]. split; [done|].
    intros j Hj Hor. apply Hk; [done|]. destruct Hor as [[->|Hin]%elem_of_cons|H]; auto.
    right. intros p Hp. congruence.
  - fold (put_entry kds d i p (xrt_cu_stop_thread f x) 0).
    pose proof (put_entry_frame kds d i p (xrt_cu_stop_thread f x) 0 Hd Hi Ep) as Fr1.
    destruct (IH _ (table_ok_frame _ _ _ Fr1 T)) as (k & E & Fr & Hk).
    exists k. split; [done|]. split; [by eapply frame_trans|].
    intros j Hj Hor. apply Hk; [done|]. rewrite elem_of_cons in Hor.
    destruct Hor as [[Hji|Hin]|H]; auto; right; apply put_in_state; auto using stop_thread_false;
      apply T.
Qed.

Lemma start_cus_ok ok d idxs : hw_domain d -> Forall cu_range idxs -> forall kds,
  table_ok kds d -> (forall i, i ∈ idxs -> aget 0 (m_cu_intr (get_mgmt kds d)) i = 1 ->
                               in_state true 1 kds d i) -> NoDup idxs ->
  exists r, start_cus ok d idxs kds = Some r /\
    match r with
    | inl k => frame kds k d
    | inr k => frame kds k d /\
        (forall j, cu_range j -> j ∈ idxs \/ in_state true 1 kds d j -> in_state true 1 k d j)
    end.
Proof.
  intros Hd HF. induction HF as [|i idxs Hi HF IH]; intros kds T Ho Hnd; cbn [start_cus].
  { eexists. split; [done|]. split; [apply frame_refl|]. intros j Hj [H|H]; [set_solver|done]. }
  apply NoDup_cons in Hnd as [Hni Hnd].
  assert (forall r,
    match r with
    | inl k => frame kds k d
    | inr k => frame kds k d /\
        (forall j, cu_range j -> j ∈ idxs \/ in_state true 1 kds d j -> in_state true 1 k d j)
    end -> in_state true 1 kds d i ->
    match r with
    | inl k => frame kds k d
    | inr k => frame kds k d /\
        (forall j, cu_range j -> j ∈ i :: idxs \/ in_state true 1 kds d j -> in_state true 1 k d j)
    end) as Hskip.
  { intros [k|k]; [done|]. intros [Fr Hk] Hst. split; [done|]. intros j Hj Hor.
    apply Hk; [done|]. destruct Hor as [[->|Hin]%elem_of_cons|H]; auto. }
  destruct (xcu_at_ok kds d i T Hi) as [[-> En]|(p & x & -> & Ep & Ex)]; cbn [mbind option_bind].
  { destruct (IH kds T) as (r & E & Hr); [intros; apply Ho; set_solver|done|].
    exists r. split; [done|]. apply Hskip; [done|]. intros p Hp. congruence. }
  destruct (Z.eqb_spec (aget 0 (m_cu_intr (get_mgmt kds d)) i) 1) as [E1|E1].
  { destruct (IH kds T) as (r & E & Hr); [intros; apply Ho; set_solver|done|].
    exists r. split; [done|]. apply Hskip; [done|]. apply Ho; [set_solver|done]. }
  pose proof (start_thread_ok (ok i) x) as Hst.
  destruct (xrt_cu_start_thread (ok i) x) as [err x']. cbn [fst snd] in Hst.
  destruct Hst as [[-> Hx']| ->].
  2: { eexists. split; [reflexivity|]. by eapply put_xcu_frame. }
  cbn [z2b Z.eqb negb]. fold (put_entry kds d i p x' 1).
  pose proof (put_entry_frame kds d i p x' 1 Hd Hi Ep) as Fr1.
  assert (forall j, cu_range j -> j = i \/ in_state true 1 kds d j ->
            in_state true 1 (put_entry kds d i p x' 1) d j) as Hput.
  { intros j Hj Hor. apply put_in_state; try done. apply T. }
  destruct (IH _ (table_ok_frame _ _ _ Fr1 T)) as (r & E & Hr); [|done|].
  { intros j Hj Hone. apply Hput; [by eapply Forall_forall in HF|]. right.
    apply Ho; [set_solver|]. rewrite put_entry_get, Z.eqb_refl in Hone by done. revert Hone. rproj.
    assert (cu_range j) as Hrj by (by eapply Forall_forall in HF). unfold cu_range in *.
    rewrite aget_aset_ne by (lia || set_solver). done. }
  exists r. split; [done|]. destruct r as [k|k]; [by eapply frame_trans|].
  destruct Hr as [Fr Hk]. split; [by eapply frame_trans|]. intros j Hj Hor. apply Hk; [done|].
  rewrite elem_of_cons in Hor. destruct Hor as [[Hji|Hin]|H]; auto.
Qed.

(** ** Both domains *)

Definition no_threads kds : Prop := forall p x, kds_heap kds !! p = Some x -> cu_thread x = false.

Lemma all_cus_range : Forall cu_range all_cus.
Proof. apply Forall_seqZ. unfold cu_range. lia. Qed.

Lemma elem_all_cus i : cu_range i -> i ∈ all_cus.
Proof. intros Hi. apply elem_of_seqZ. unfold cu_range in Hi. lia. Qed.

Lemma NoDup_all_cus : NoDup all_cus.
Proof. apply NoDup_seqZ. Qed.

(** Starting all threads of a domain: all run, or the state before the stop
    loop is one in which only CUs of the table were touched. *)
Lemma start_all_ok ok f kds d :
  hw_domain d -> table_ok kds d ->
  (forall i, cu_range i -> aget 0 (m_cu_intr (get_mgmt kds d)) i <> 1) ->
  exists ret k, kds_start_all_cu_threads ok f kds d = Some (ret, k) /\ frame kds k d /\
    ((ret = 0 /\ forall i, cu_range i -> in_state true 1 k d i) \/
     (ret = - EINVAL /\ forall i, cu_range i -> in_state false 0 k d i)).
Proof.
  intros Hd T Ho. unfold kds_start_all_cu_threads.
  destruct (start_cus_ok ok d all_cus Hd all_cus_range kds T) as (r & -> & Hr).
  { intros i Hi Hone. apply elem_of_seqZ in Hi. exfalso. eapply Ho; [|exact Hone].
    unfold cu_range. lia. }
  { apply NoDup_all_cus. }
  cbn [mbind option_bind]. destruct r as [k|k].
  - unfold kds_stop_all_cu_threads.
    destruct (stop_cus_ok f d all_cus Hd all_cus_range k) as (k2 & -> & Fr2 & Hk);
      [by eapply table_ok_frame|]. cbn [mbind option_bind]. eexists _, _. split; [reflexivity|].
    split; [by eapply frame_trans|]. right. split; [done|]. intros i Hi. apply Hk; [done|].
    left. by apply elem_all_cus.
  - destruct Hr as [Fr Hk]. eexists _, _. split; [reflexivity|]. split; [done|]. left.
    split; [done|]. intros i Hi. apply Hk; [done|]. left. by apply elem_all_cus.
Qed.

#[local] Instance in_table_dec kds d p : Decision (in_table kds d p).
Proof.
  destruct (decide (Some p ∈ aget None (m_xcus (get_mgmt kds d)) <$> all_cus)) as [H|H];
    [left|right].
  - apply list_elem_of_fmap in H as (i & E & Hi). apply elem_of_seqZ in Hi.
    exists i. unfold cu_range. split; [lia|done].
  - intros (i & Hi & E). apply H, list_elem_of_fmap. exists i. by split; [|apply elem_all_cus].
Defined.

(** A stopped domain, with the rest of the heap from a thread-free state. *)
Lemma stopped_no_threads kds k d :
  frame kds k d -> (forall i, cu_range i -> in_state false 0 k d i) ->
  (forall p x, ~ in_table kds d p -> kds_heap kds !! p = Some x -> cu_thread x = false) ->
  no_threads k.
Proof.
  intros Fr Hk Hn p x Hx. destruct (decide (in_table kds d p)) as [Hin|Hin].
  - destruct Hin as (i & Hi & E). rewrite <- (fr_xcus _ _ _ Fr) in E.
    destruct (Hk i Hi p E) as [(y & Hy & Hf) _]. congruence.
  - rewrite (fr_heap _ _ _ Fr p Hin) in Hx. eauto.
Qed.

Lemma stopped_no_threads_outside kds k1 k2 p x :
  no_threads kds -> frame kds k1 DOMAIN_PL -> frame k1 k2 DOMAIN_PS ->
  (forall i, cu_range i -> in_state false 0 k2 DOMAIN_PS i) ->
  ~ in_table k1 DOMAIN_PL p -> kds_heap k2 !! p = Some x -> cu_thread x = false.
Proof.
  intros Hn Fr1 Fr2 Hk Hin Hx. destruct (decide (in_table k1 DOMAIN_PS p)) as [(i & Hi & E)|Hps].
  - rewrite <- (fr_xcus _ _ _ Fr2) in E. destruct (Hk i Hi p E) as [(y & Hy & Hf) _]. congruence.
  - rewrite (fr_heap _ _ _ Fr2 p Hps) in Hx. rewrite in_table_frame in Hin by done.
    rewrite (fr_heap _ _ _ Fr1 p Hin) in Hx. eauto.
Qed.

(** Running CUs keep running when the other domain is started. *)
Lemma running_other kds k d d' i :
  hw_domain d -> d <> d' -> frame kds k d' ->
  (forall i, cu_range i -> in_state true 1 k d' i) ->
  cu_range i -> in_state true 1 kds d i -> in_state true 1 k d i.
Proof.
  intros Hd Hne Fr Hall Hi Hst p Hp. rewrite (fr_other _ _ _ Fr d Hd Hne) in *.
  destruct (Hst p Hp) as [(x & Hx & Ht) Hv]. split; [|done].
  destruct (decide (in_table kds d' p)) as [(j & Hj & E)|Hin].
  - rewrite <- (fr_xcus _ _ _ Fr) in E. by destruct (Hall j Hj p E).
  - exists x. by rewrite (fr_heap _ _ _ Fr p Hin).
Qed.

Lemma cus_all_total p kds idxs :
  table_ok kds DOMAIN_PL -> Forall cu_range idxs ->
  exists b, cus_all p (kds_cu_mgmt_ kds) idxs kds = Some b.
Proof.
  intros T HF. induction HF as [|i idxs Hi HF [b IH]]; cbn [cus_all]; [by eexists|].
  change (kds_cu_mgmt_ kds) with (get_mgmt kds DOMAIN_PL) in *.
  destruct (xcu_at_ok kds DOMAIN_PL i T Hi) as [[-> _]|(q & x & -> & _)]; cbn [mbind option_bind];
    [by exists b|]. destruct (p x); by eexists.
Qed.

Lemma no_threads_run_polling pok ret k :
  no_threads k -> ret <> 0 ->
  let r := if kds_polling_thread k then (ret, k) else run_polling pok ret k in
  r.1 <> 0 /\ no_threads r.2 /\ (kds_polling_thread r.2 = true \/ r.1 = 1).
Proof.
  intros Hn Hr. destruct (kds_polling_thread k) eqn:E; cbv zeta; cbn [fst snd]; [by auto|].
  unfold run_polling. destruct pok; cbn [fst snd]; (split; [done|]); (split; [|by auto]);
    intros p x Hx; revert Hx; rproj; apply Hn.
Qed.
End Threads.


(** A device with one CU that supports interrupts. *)
Definition demo_intr : kds_sched unit :=
  demo_kds <| kds_heap := {[ 100 := xrt_cu_alloc (info_zero <| info_intr_enable := true |>) tt
                                      <| cu_crc := mk_circ_buf [] 0 0 |> ]} |>.

Lemma demo_intr_tables d : hw_domain d -> table_ok demo_intr d /\
  forall i, cu_range i -> aget 0 (m_cu_intr (get_mgmt demo_intr d)) i <> 1.
Proof.
  intros Hd. assert (get_mgmt demo_intr d = demo_mgmt) as E by (by destruct Hd as [->| ->]).
  unfold table_ok. rewrite E. split; [split; [done|]|].
  - intros i p Hi Hp. unfold demo_mgmt, aget in Hp. cbn [m_xcus] in Hp.
    destruct (Z.to_nat i) as [|n]; [injection Hp as <-; vm_compute; by eexists|].
    cbn [lookup list_lookup] in Hp. destruct (replicate 127 None !! n) as [o|] eqn:En; [|done].
    apply lookup_replicate in En as [-> _]. done.
  - intros i Hi. cbn [demo_mgmt m_cu_intr]. by rewrite aget_replicate.
Qed.

