(* ===== verification/KdsFaMem.v ===== *)
(** * Command memory of the fast adapters

    [kds_fa_assign_cmdmem] divides the command memory between the fast-adapter
    CUs: the parts are disjoint, lie inside the memory and hold the same number
    of descriptor slots. *)
From S2P Require Import Prelude KdsCommand CuInfo CuCore CuHls CuFa CircLog XrtCu KdsHwctx KdsSched KdsRefs KdsConfig.

#[local] Arguments upd : simpl never.

Definition sum_sizes (l : list (Z * Z)) : Z := foldr (fun e acc => e.2 + acc) 0 l.

Lemma sum_sizes_app l k : sum_sizes (l ++ k) = sum_sizes l + sum_sizes k.
Proof. unfold sum_sizes. induction l as [|e l IH]; cbn [app foldr]; [done|]. rewrite IH. lia. Qed.

Lemma sum_sizes_nonneg l : Forall (fun e => 0 <= e.2) l -> 0 <= sum_sizes l.
Proof. unfold sum_sizes. induction 1; cbn [foldr]; lia. Qed.

Section FaMem.
Context {H : Type}.
#[local] Abbreviation sched := (kds_sched (cu_kind H)).
Implicit Types (kds k : sched).

(** The fast-adapter CU in slot [i] of the table: address and slot size. *)
Definition fa_at kds (i : Z) : option (Z * Z) :=
  p ← aget None (m_xcus (kds_cu_mgmt_ kds)) i;
  x ← kds_heap kds !! p;
  sz ← xrt_is_fa (cu_info x);
  Some (p, sz).

Definition fa_list kds (idxs : list Z) : list (Z * Z) := omap (fa_at kds) idxs.

(** No dangling entry; a fast-adapter CU has a fast-adapter core. *)
Definition fa_table_ok kds : Prop :=
  (forall i p, cu_range i -> aget None (m_xcus (kds_cu_mgmt_ kds)) i = Some p ->
     is_Some (kds_heap kds !! p)) /\
  (forall p x, kds_heap kds !! p = Some x -> is_Some (xrt_is_fa (cu_info x)) ->
     exists c, cu_core x = CoreFa c).

(** Only cores of fast adapters changed. *)
Record same_shape kds k : Prop := {
  ss_mgmt : kds_cu_mgmt_ k = kds_cu_mgmt_ kds;
  ss_mem : kds_cmdmem k = kds_cmdmem kds;
  ss_info : forall p, cu_info <$> kds_heap k !! p = cu_info <$> kds_heap kds !! p;
  ss_ok : fa_table_ok kds -> fa_table_ok k;
}.

Lemma same_shape_refl kds : same_shape kds kds.
Proof. by split. Qed.

Lemma same_shape_trans k1 k2 k3 : same_shape k1 k2 -> same_shape k2 k3 -> same_shape k1 k3.
Proof. intros [A1 A2 A3 A4] [B1 B2 B3 B4]. split; try congruence; auto. Qed.

Lemma fa_at_shape kds k i : same_shape kds k -> fa_at k i = fa_at kds i.
Proof.
  intros [E _ Hi _]. unfold fa_at. rewrite E. destruct (aget None _ i) as [p|]; [|done].
  cbn [mbind option_bind]. specialize (Hi p).
  destruct (kds_heap k !! p) as [x|], (kds_heap kds !! p) as [y|]; try done.
  cbn in Hi |- *. by injection Hi as ->.
Qed.

Lemma fa_list_shape kds k idxs : same_shape kds k -> fa_list k idxs = fa_list kds idxs.
Proof.
  intros Hs. unfold fa_list. induction idxs as [|i idxs IH]; [done|]. cbn.
  by rewrite (fa_at_shape kds k), IH.
Qed.

Lemma put_core_shape kds p x c0 c :
  kds_heap kds !! p = Some x -> cu_core x = CoreFa c0 ->
  same_shape kds (put_xcu kds p (x <| cu_core := CoreFa c |>)).
Proof.
  intros Hx Hc. unfold put_xcu. split; try (by rproj).
  - intros q. rproj. destruct (decide (p = q)) as [<-|Hne].
    + rewrite lookup_insert_eq, Hx. cbn. by rproj.
    + by rewrite lookup_insert_ne.
  - intros [T1 T2]. split.
    + intros i q Hi. rproj. intros Hq. destruct (decide (p = q)) as [<-|Hne].
      * rewrite lookup_insert_eq. by eexists.
      * rewrite lookup_insert_ne by done. eauto.
    + intros q y. rproj. destruct (decide (p = q)) as [<-|Hne].
      * rewrite lookup_insert_eq. intros [= <-]. rproj. eauto.
      * rewrite lookup_insert_ne by done. eauto.
Qed.

(** What the walks see in slot [i]. *)
Lemma fa_at_cases kds i :
  fa_table_ok kds -> cu_range i ->
  (fa_at kds i = None /\
   (xcu_at kds (kds_cu_mgmt_ kds) i = Some None \/
    exists p x, xcu_at kds (kds_cu_mgmt_ kds) i = Some (Some (p, x)) /\ xrt_is_fa (cu_info x) = None)) \/
  (exists p x sz c, fa_at kds i = Some (p, sz) /\ kds_heap kds !! p = Some x /\
     xcu_at kds (kds_cu_mgmt_ kds) i = Some (Some (p, x)) /\
     xrt_is_fa (cu_info x) = Some sz /\ cu_core x = CoreFa c).
Proof.
  intros [T1 T2] Hi. unfold fa_at, xcu_at.
  destruct (aget None (m_xcus (kds_cu_mgmt_ kds)) i) as [p|] eqn:E; cbn [mbind option_bind];
    [|by auto]. destruct (T1 i p Hi E) as [x Hx]. rewrite Hx. cbn [mbind option_bind].
  destruct (xrt_is_fa (cu_info x)) as [sz|] eqn:Ef; cbn [mbind option_bind].
  - destruct (T2 p x Hx) as [c Hc]; [by rewrite Ef|]. right. by exists p, x, sz, c.
  - left. split; [done|]. right. by exists p, x.
Qed.

Lemma is_fa_size info sz : xrt_is_fa info = Some sz ->
  sz = cu_fa_get_desc_size info /\ 0 <= sz < 2 ^ 32.
Proof.
  unfold xrt_is_fa. destruct (_ =? _); [|done]. intros [= <-]. split; [done|]. apply u32_range.
Qed.

Lemma fa_list_nonneg kds idxs : Forall (fun e => 0 <= e.2) (fa_list kds idxs).
Proof.
  apply Forall_forall. intros [p sz] Hin. apply list_elem_of_omap in Hin as (i & _ & E).
  unfold fa_at in E. destruct (aget None _ i); [|done]. cbn [mbind option_bind] in E.
  destruct (kds_heap kds !! z) as [x|]; [|done]. cbn [mbind option_bind] in E.
  destruct (xrt_is_fa (cu_info x)) as [s|] eqn:Ef; [|done]. injection E as <- <-.
  apply is_fa_size in Ef. cbn. lia.
Qed.

Lemma fa_cfg_fa info (c : xrt_cu_fa H) b d v n :
  fa_cfg info (CoreFa c) b d v n = Some (0, CoreFa (xrt_fa_cfg_update info c b d v n).2).
Proof. unfold fa_cfg, fa_core_kind, xrt_fa_cfg_update. by destruct (b =? 0). Qed.

Lemma fa_update_fields info (c : xrt_cu_fa H) b d v n :
  b <> 0 ->
  let c' := (xrt_fa_cfg_update info c b d v n).2 in
  fa_paddr c' = d /\ fa_cmdmem c' = v /\ fa_slot_sz c' = cu_fa_get_desc_size info /\
  fa_num_slots c' = n.
Proof.
  intros Hb. unfold xrt_fa_cfg_update. destruct (Z.eqb_spec b 0); [done|]. cbn [snd].
  split_and!; reflexivity.
Qed.

(** The release walk adds up the sizes. *)
Lemma fa_release_ok idxs : Forall cu_range idxs -> forall t kds,
  fa_table_ok kds -> 0 <= t -> t + sum_sizes (fa_list kds idxs) < 2 ^ 32 ->
  exists k, fa_release idxs t kds = Some (t + sum_sizes (fa_list kds idxs), k) /\ same_shape kds k.
Proof.
  intros HF. induction HF as [|i idxs Hi HF IH]; intros t kds T Ht Hb; cbn [fa_release].
  { exists kds. split; [f_equal; f_equal; cbn; lia|apply same_shape_refl]. }
  unfold fa_list in *. cbn [omap list_omap] in *.
  destruct (fa_at_cases kds i T Hi) as [[En Hx]|(p & x & sz & c & En & Hx & -> & Ef & Hc)];
    rewrite En in *.
  - destruct Hx as [-> |(p & x & -> & Ef)]; cbn [mbind option_bind]; rewrite ?Ef; by apply IH.
  - cbn [mbind option_bind]. rewrite Ef, Hc, fa_cfg_fa. cbn [mbind option_bind snd].
    set (c' := (xrt_fa_cfg_update (cu_info x) c 0 0 0 0).2).
    pose proof (put_core_shape kds p x c c' Hx Hc) as Hs.
    pose proof (sum_sizes_nonneg _ (fa_list_nonneg kds idxs)) as Hnn. unfold fa_list in Hnn.
    apply is_fa_size in Ef as [_ Hsz]. unfold sum_sizes in Hb, Hnn. cbn [foldr snd] in Hb.
    fold (sum_sizes (omap (fa_at kds) idxs)) in Hb, Hnn.
    rewrite u32_small by lia.
    assert (omap (fa_at (put_xcu kds p (x <| cu_core := CoreFa c' |>))) idxs = omap (fa_at kds) idxs)
      as El by (apply (fa_list_shape _ _ idxs Hs)).
    destruct (IH (t + sz) _ (ss_ok _ _ Hs T)) as (k & E & Hk); [lia|rewrite El; lia|].
    exists k. rewrite E, El. split; [|by eapply same_shape_trans].
    f_equal. f_equal. unfold sum_sizes. cbn [foldr snd]. lia.
Qed.

(** The core of the CU at [p] after the assignment of a part at [dev]. *)
Definition assigned k (p sz dev vaddr n : Z) : Prop :=
  exists x c, kds_heap k !! p = Some x /\ cu_core x = CoreFa c /\
    fa_paddr c = dev /\ fa_cmdmem c = vaddr /\ fa_slot_sz c = sz /\ fa_num_slots c = n.

Lemma assigned_put k p sz dev vaddr n q y :
  p <> q -> assigned k p sz dev vaddr n -> assigned (put_xcu k q y) p sz dev vaddr n.
Proof.
  intros Hne (x & c & Hx & Hr). exists x, c. split; [|done]. unfold put_xcu. rproj.
  by rewrite lookup_insert_ne.
Qed.

(** The assignment walk, with [off] bytes already given away. *)
Lemma fa_assign_ok n idxs : 0 <= n -> Forall cu_range idxs -> forall bar dev vaddr kds,
  fa_table_ok kds -> NoDup (fa_list kds idxs).*1 ->
  0 < bar -> 0 <= dev -> 0 <= vaddr ->
  bar + n * sum_sizes (fa_list kds idxs) < 2 ^ 64 ->
  dev + n * sum_sizes (fa_list kds idxs) < 2 ^ 64 ->
  vaddr + n * sum_sizes (fa_list kds idxs) < 2 ^ 64 ->
  exists k, fa_assign idxs bar dev vaddr n kds = Some (0, k) /\ same_shape kds k /\
    (forall p, p ∉ (fa_list kds idxs).*1 -> kds_heap k !! p = kds_heap kds !! p) /\
    (forall j p sz, fa_list kds idxs !! j = Some (p, sz) ->
       let off := n * sum_sizes (take j (fa_list kds idxs)) in
       assigned k p sz (dev + off) (vaddr + off) n).
Proof.
  intros Hn HF. induction HF as [|i idxs Hi HF IH];
    intros bar dev vaddr kds T Hnd Hb Hd Hv Hb1 Hb2 Hb3; cbn [fa_assign].
  { exists kds. split; [done|]. split; [apply same_shape_refl|]. split; [done|].
    intros j p sz Hj. by destruct j. }
  unfold fa_list in *. cbn [omap list_omap] in *.
  destruct (fa_at_cases kds i T Hi) as [[En Hx]|(p & x & sz & c & En & Hx & -> & Ef & Hc)];
    rewrite En in *.
  { destruct Hx as [-> |(p & x & -> & Ef)]; cbn [mbind option_bind]; rewrite ?Ef; by apply IH. }
  cbn [mbind option_bind]. rewrite Ef, Hc, fa_cfg_fa. cbn [mbind option_bind fst snd].
  set (c' := (xrt_fa_cfg_update (cu_info x) c bar dev vaddr n).2).
  set (k1 := put_xcu kds p (x <| cu_core := CoreFa c' |>)).
  assert (same_shape kds k1) as Hs by (by apply (put_core_shape kds p x c c')).
  assert (omap (fa_at k1) idxs = omap (fa_at kds) idxs) as El by (apply (fa_list_shape _ _ idxs Hs)).
  pose proof (sum_sizes_nonneg _ (fa_list_nonneg kds idxs)) as Hnn. unfold fa_list in Hnn.
  apply is_fa_size in Ef as [Edesc Hsz].
  set (l := omap (fa_at kds) idxs) in *.
  assert (sum_sizes ((p, sz) :: l) = sz + sum_sizes l) as Esum by done.
  rewrite Esum in *. assert (0 <= sz * n /\ 0 <= n * sum_sizes l) as [Hm1 Hm2].
  { split; apply Z.mul_nonneg_nonneg; lia. }
  rewrite Z.mul_add_distr_l, (Z.mul_comm n sz) in *. rewrite (u64_small (sz * n)) by lia.
  rewrite !u64_small by lia.
  cbn [fmap list_fmap fst] in Hnd. apply NoDup_cons in Hnd as [Hpl Hnd].
  destruct (IH (bar + sz * n) (dev + sz * n) (vaddr + sz * n) k1) as (k & E & Hk & Hout & Has);
    rewrite ?El; try done; [by apply Hs|lia..|].
  rewrite El in Hout, Has. exists k. split; [exact E|]. split; [by eapply same_shape_trans|].
  split.
  - intros q Hq. cbn [fmap list_fmap fst] in Hq. rewrite not_elem_of_cons in Hq.
    rewrite Hout by apply Hq. unfold k1, put_xcu. rproj. by rewrite lookup_insert_ne by naive_solver.
  - intros [|j] q s Hj; cbn [lookup list_lookup] in Hj.
    + injection Hj as <- <-. exists (x <| cu_core := CoreFa c' |>), c'. rewrite Hout by done.
      unfold k1, put_xcu. rproj. rewrite lookup_insert_eq. split; [done|]. split; [done|].
      cbn [take]. change (sum_sizes []) with 0. rewrite Z.mul_0_r, !Z.add_0_r.
      subst sz. apply fa_update_fields. lia.
    + specialize (Has j q s Hj). cbv zeta in Has |- *. cbn [take].
      change (sum_sizes ((p, sz) :: take j l)) with (sz + sum_sizes (take j l)).
      replace (dev + n * (sz + sum_sizes (take j l))) with (dev + sz * n + n * sum_sizes (take j l)) by lia.
      replace (vaddr + n * (sz + sum_sizes (take j l))) with (vaddr + sz * n + n * sum_sizes (take j l)) by lia.
      done.
Qed.
End FaMem.

(** Everything the assignment relies on. *)
Record fa_ready {H} (kds : kds_sched (cu_kind H)) : Prop := {
  fr_table : fa_table_ok kds;
  fr_distinct : NoDup (fa_list kds all_cus).*1;
  fr_some : 1 <= sum_sizes (fa_list kds all_cus) <= 2 ^ 31;
  fr_mem : 0 < cm_bar_paddr (kds_cmdmem kds) /\ 0 <= cm_dev_paddr (kds_cmdmem kds) /\
           0 <= cm_vaddr (kds_cmdmem kds);
  fr_bar_end : cm_bar_paddr (kds_cmdmem kds) + cm_size (kds_cmdmem kds) < 2 ^ 64;
  fr_dev_end : cm_dev_paddr (kds_cmdmem kds) + cm_size (kds_cmdmem kds) < 2 ^ 64;
  fr_va_end : cm_vaddr (kds_cmdmem kds) + cm_size (kds_cmdmem kds) < 2 ^ 64;
}.

(** C23. Command memory of the fast adapters: when the memory is smaller than
    one slot for every CU (rounded up to a power of two) the assignment is
    refused; otherwise it succeeds, every fast-adapter CU gets the same
    positive number of slots of its own descriptor size, each part lies
    inside the memory, and the parts of different CUs do not overlap. *)
Theorem kds_fa_assign_cmdmem_disjoint {H} (kds : kds_sched (cu_kind H)) :
  fa_ready kds ->
  let mem := kds_cmdmem kds in
  let l := fa_list kds all_cus in
  let need := 2 ^ Z.log2_up (sum_sizes l) in
  exists ret kds', kds_fa_assign_cmdmem kds = Some (ret, kds') /\
    (cm_size mem < need -> ret = - EINVAL) /\
    (need <= cm_size mem -> ret = 0 /\ exists n base, 0 < n /\
       (forall j p sz, l !! j = Some (p, sz) ->
          assigned kds' p sz (cm_dev_paddr mem + base j) (cm_vaddr mem + base j) n /\
          0 <= base j /\ base j + n * sz <= cm_size mem) /\
       (forall j j' p sz e, (j < j')%nat -> l !! j = Some (p, sz) -> l !! j' = Some e ->
          base j + n * sz <= base j')).
Proof.
  intros [T Hnd Hsum (Hm1 & Hm2 & Hm3) Hb Hd Hv] mem l need. unfold kds_fa_assign_cmdmem.
  assert (Forall cu_range all_cus) as Hall.
  { apply Forall_seqZ. unfold cu_range. lia. }
  destruct (fa_release_ok all_cus Hall 0 kds T) as (k & -> & Hs); [lia|lia|].
  cbn [mbind option_bind]. rewrite Z.add_0_l. fold l. rewrite round_up_pow2 by (unfold l; lia).
  rewrite (ss_mem _ _ Hs). fold mem need.
  destruct (Z.ltb_spec (cm_size mem) need) as [Hlt|Hge].
  { eexists _, _. split; [done|]. split; [done|]. lia. }
  assert (1 <= need) as Hneed by (pose proof (le_pow2_log2_up (sum_sizes l)); unfold l in *; lia).
  destruct (Z.eqb_spec need 0) as [Hz|_]; [lia|]. set (n := cm_size mem / need).
  assert (1 <= n /\ n * need <= cm_size mem) as [Hn1 Hn2].
  { split; [apply Z.div_le_lower_bound; lia|]. rewrite Z.mul_comm. apply Z.mul_div_le. lia. }
  assert (n * sum_sizes l <= cm_size mem) as Htot.
  { pose proof (le_pow2_log2_up (sum_sizes l) ltac:(unfold l; lia)).
    transitivity (n * need); [apply Z.mul_le_mono_nonneg_l; lia|done]. }
  assert (fa_list k all_cus = l) as El by (by apply fa_list_shape).
  destruct (fa_assign_ok n all_cus ltac:(lia) Hall (cm_bar_paddr mem) (cm_dev_paddr mem)
              (cm_vaddr mem) k (ss_ok _ _ Hs T)) as (k' & -> & _ & _ & Has);
    rewrite ?El; try done; [unfold mem in *; lia..|].
  rewrite El in Has. exists 0, k'. split; [done|]. split; [lia|]. intros _. split; [done|].
  assert (forall j, sum_sizes l = sum_sizes (take j l) + sum_sizes (drop j l)) as Hsplit.
  { intros j. by rewrite <- sum_sizes_app, take_drop. }
  assert (forall j, 0 <= sum_sizes (take j l) /\ 0 <= sum_sizes (drop j l)) as Hpos.
  { intros j. pose proof (fa_list_nonneg kds all_cus) as HF. fold l in HF.
    split; apply sum_sizes_nonneg; [by apply Forall_take|by apply Forall_drop]. }
  assert (forall j j' p sz, (j < j')%nat -> l !! j = Some (p, sz) ->
            sum_sizes (take j l) + sz <= sum_sizes (take j' l)) as Hstep.
  { intros j j' p sz Hjj Hj. rewrite <- (take_drop j (take j' l)), sum_sizes_app, take_take.
    rewrite Nat.min_l by lia. rewrite (drop_S _ (p, sz) j) by (rewrite lookup_take_lt; done || lia).
    change (sum_sizes ((p, sz) :: drop (S j) (take j' l)))
      with (sz + sum_sizes (drop (S j) (take j' l))).
    pose proof (fa_list_nonneg kds all_cus) as HF. fold l in HF.
    pose proof (sum_sizes_nonneg (drop (S j) (take j' l))
                  ltac:(apply Forall_drop; by apply Forall_take)). lia. }
  exists n, (fun j => n * sum_sizes (take j l)). split; [lia|]. split.
  - intros j p sz Hj. split; [by apply Has|]. destruct (Hpos j) as [H1 _]. split; [by apply Z.mul_nonneg_nonneg; lia|].
    pose proof (Hstep j (length l) p sz ltac:(by eapply lookup_lt_Some) Hj) as Hle.
    rewrite firstn_all, (Z.mul_le_mono_pos_l _ _ n) in Hle by lia. lia.
  - intros j j' p sz e Hjj Hj _. pose proof (Hstep j j' p sz Hjj Hj) as Hle.
    rewrite (Z.mul_le_mono_pos_l _ _ n) in Hle by lia. lia.
Qed.

(** A command buffer without any fast-adapter CU: the total size is 0,
    0 rounded up is 0, and the number of slots is a division by zero. *)
Theorem kds_fa_assign_cmdmem_no_fa {H} (kds : kds_sched (cu_kind H)) :
  fa_table_ok kds -> fa_list kds all_cus = [] -> 0 <= cm_size (kds_cmdmem kds) ->
  kds_fa_assign_cmdmem kds = None.
Proof.
  intros T Hl Hs. unfold kds_fa_assign_cmdmem.
  assert (Forall cu_range all_cus) as Hall.
  { apply Forall_seqZ. unfold cu_range. lia. }
  destruct (fa_release_ok all_cus Hall 0 kds T) as (k & -> & Hsh); [lia|by rewrite Hl|].
  rewrite Hl. cbn [mbind option_bind]. change (round_up_to_next_power2 _) with 0.
  rewrite (ss_mem _ _ Hsh). destruct (Z.ltb_spec (cm_size (kds_cmdmem kds)) 0); [lia|done].
Qed.

(** ** Instances *)

Definition fa_cu : xrt_cu (cu_kind (gmap Z Z)) :=
  xrt_cu_alloc (info_zero <| info_model := XCU_FA |>) (CoreFa (demo_fa 0 0))
    <| cu_crc := mk_circ_buf [] 0 0 |>.
Definition fa_mem : cmdmem_info := mk_cmdmem true 0x1000 0x8000 0x4000 0x1000.
Definition fa_demo (cus : list (option Z)) : kds_sched (cu_kind (gmap Z Z)) :=
  mk_kds_sched (<[ 100 := fa_cu ]> {[ 200 := fa_cu ]}) [] 0 false
    (demo_mgmt <| m_xcus := cus |>) demo_mgmt None false 0 fa_mem false true false 0 false false
    [] 0 0 0.

Lemma fa_demo_table cus :
  (forall i, cu_range i -> aget None cus i = None \/ aget None cus i = Some 100 \/
                           aget None cus i = Some 200) -> fa_table_ok (fa_demo cus).
Proof.
  intros Hc. split.
  - intros i p Hi. change (m_xcus (kds_cu_mgmt_ (fa_demo cus))) with cus. intros Hp.
    destruct (Hc i Hi) as [E|[E|E]]; rewrite E in Hp; simplify_eq; vm_compute; by eexists.
  - intros p x Hx _. unfold fa_demo in Hx. cbn [kds_heap] in Hx.
    exists (demo_fa 0 0). rewrite lookup_insert_Some, lookup_singleton_Some in Hx.
    by destruct Hx as [[_ <-]|(_ & _ & <-)].
Qed.

Definition two_fa : list (option Z) := Some 100 :: Some 200 :: replicate 126 None.

Lemma two_fa_cases i :
  aget None two_fa i = None \/ aget None two_fa i = Some 100 \/ aget None two_fa i = Some 200.
Proof.
  unfold aget, two_fa. destruct (Z.to_nat i) as [|[|n]]; [auto..|].
  cbn [lookup list_lookup]. left. destruct (replicate 126 None !! n) as [o|] eqn:E; [|done].
  by apply lookup_replicate in E as [-> _].
Qed.

Lemma kds_fa_assign_cmdmem_disjoint_witness :
  exists kds' n, kds_fa_assign_cmdmem (fa_demo two_fa) = Some (0, kds') /\ 0 < n /\
    assigned kds' 100 32 0x8000 0x4000 n.
Proof.
  destruct (kds_fa_assign_cmdmem_disjoint (fa_demo two_fa)) as (r & k & E & _ & Hok).
  { split; [apply fa_demo_table; intros i _; apply two_fa_cases
           |apply (bool_decide_unpack _); vm_compute; exact I
           |vm_compute; split; discriminate
           |vm_compute; split_and!; (reflexivity || discriminate)
           |vm_compute; reflexivity..]. }
  destruct Hok as (-> & n & base & Hn & Has & _); [vm_compute; discriminate|].
  exists k, n. split; [exact E|]. split; [done|].
  destruct (Has 0%nat 100 32) as (Ha & Hb & _); [vm_compute; reflexivity|].
  assert (base 0%nat = 0) as Eb.
  { destruct Ha as (x & c & Hx & Hc & Hp & _). revert Hx Hc.
    apply (f_equal (fun o => o ≫= fun s => kds_heap s.2 !! 100)) in E. cbn [mbind option_bind snd] in E.
    intros Hx Hc. rewrite Hx in E. vm_compute in E. injection E as <-. cbn in Hc.
    injection Hc as <-. cbn in Hp. lia. }
  rewrite Eb in Ha. exact Ha.
Defined.

Lemma kds_fa_assign_cmdmem_no_fa_witness :
  kds_fa_assign_cmdmem (fa_demo (replicate MAX_CUS None)) = None.
Proof.
  apply (kds_fa_assign_cmdmem_no_fa (fa_demo (replicate MAX_CUS None))).
  - apply fa_demo_table. intros i Hi. left. by apply aget_replicate.
  - vm_compute. reflexivity.
  - vm_compute. discriminate.
Defined.
