(* ===== verification/KdsLife.v ===== *)
(** * Life cycle of the scheduler, of clients and of user-managed CUs

    [kds_init_sched], [kds_init_client], [kds_fini_client] and the functions
    they call, the count of live clients, [kds_submit_cmd_and_wait] and the
    file operations of a user-managed CU. *)
From S2P Require Import Prelude KdsCommand CuInfo CuCore CircLog XrtCu KdsHwctx KdsSched.

Section Life.
Context {C : Type}.
#[local] Abbreviation sched := (kds_sched C).
#[local] Abbreviation cu := (xrt_cu C).

(** ** The scheduler *)

Definition null_table : list (option Z) := replicate MAX_CUS None.

(** [alloc] says for each of the two per-CPU allocations whether it succeeds;
    a fresh allocation is zeroed. *)
Definition kds_init_sched (alloc : bool * bool) (kds : sched) : Z * sched :=
  let zero := replicate MAX_CUS 0 in
  let kds := kds <| kds_cu_mgmt_ ::= fun m => m <| m_xcus := null_table |> |>
                 <| kds_scu_mgmt ::= fun m => m <| m_xcus := null_table |> |> in
  if negb alloc.1 then (- ENOMEM, kds)
  else
    let kds := kds <| kds_cu_mgmt_ ::= fun m => m <| m_usage := zero |> |> in
    if negb alloc.2 then (- ENOMEM, kds)
    else
      let kds := kds <| kds_scu_mgmt ::= fun m => m <| m_usage := zero |> |> in
      (0, kds <| kds_clients := [] |> <| kds_alive_cus := [] |>
              <| kds_num_client := 0 |> <| kds_bad_state := false |>
              <| kds_ert_disable := true |> <| kds_ini_disable := false |>
              <| kds_timestamp_set := false |>).

(** ** Clients *)

(** [pid] is the current process; the client is appended to the list. *)
Definition kds_init_client (alloc : bool) (pid : Z) (kds : sched) (c : kds_client)
  : Z * sched * kds_client :=
  if negb alloc then (- ENOMEM, kds, c <| cl_refcnt := None |>)
  else
    let zero := replicate MAX_CUS 0 in
    let c := c <| cl_refcnt := Some (mk_cu_refcnt zero zero) |> <| cl_pid := pid |> in
    (0, kds <| kds_clients := kds_clients kds ++ [c] |>
            <| kds_num_client := kds_num_client kds + 1 |>, c).

Context (rounds : list (env_step (C := C))) (ert_call : env_step (C := C)) (ert_bad : bool).
Context (ci : nat).

(** The client is an element of the list of clients (position [ci]); [sync]
    makes the list show an update of the client. *)
Definition sync (kds : sched) (c : kds_client) : sched :=
  kds <| kds_clients := <[ci := c]> (kds_clients kds) |>.

(** [while (cu_ctx->ref_cnt) kds_del_context(...)]; every call takes one off
    the count, so [ref_cnt] rounds are enough. *)
Fixpoint close_ctx (fuel : nat) (kds : sched) (c : kds_client) (cc : kds_client_cu_ctx)
  : option (sched * kds_client * kds_client_cu_ctx) :=
  if cc_ref_cnt cc =? 0 then Some (kds, c, cc)
  else match fuel with
       | O => None
       | S fuel =>
           r ← kds_del_context rounds ert_call ert_bad kds c cc;
           let '(_, kds, c, cc) := r in
           close_ctx fuel (sync kds c) c cc
       end.

(** The walk over a list of CU contexts that closes and frees each of them. *)
Fixpoint close_ctxs (l : list kds_client_cu_ctx) (kds : sched) (c : kds_client)
  : option (sched * kds_client) :=
  match l with
  | [] => Some (kds, c)
  | cc :: l =>
      r ← close_ctx (Z.to_nat (cc_ref_cnt cc)) kds c cc;
      let '(kds, c, _) := r in
      close_ctxs l kds c
  end.

(** [_kds_fini_client] on the client's own context. *)
Definition fini_ctx (kds : sched) (c : kds_client) : option (sched * kds_client) :=
  match cl_ctx c with
  | None => Some (kds, c)
  | Some ctx =>
      r ← close_ctxs (ctx_cu_ctx_list ctx) kds c;
      Some (r.1, r.2 <| cl_ctx := Some (ctx <| ctx_cu_ctx_list := [] |>) |>)
  end.

(** [_kds_fini_client] on each context of the list. *)
Fixpoint fini_ctx_list (l : list kds_client_ctx) (kds : sched) (c : kds_client)
  : option (sched * kds_client) :=
  match l with
  | [] => Some (kds, c)
  | ctx :: l => r ← close_ctxs (ctx_cu_ctx_list ctx) kds c; fini_ctx_list l r.1 r.2
  end.

(** [kds_fini_hw_ctx_client]; the emptied list is written at the end of
    [kds_fini_client]. *)
Definition kds_fini_hw_ctx_client (kds : sched) (c : kds_client) (h : kds_client_hw_ctx)
  : option (sched * kds_client) := close_ctxs (hw_cu_ctx_list h) kds c.

Fixpoint fini_hw_ctx_list (l : list kds_client_hw_ctx) (kds : sched) (c : kds_client)
  : option (sched * kds_client) :=
  match l with
  | [] => Some (kds, c)
  | h :: l => r ← kds_fini_hw_ctx_client kds c h; fini_hw_ctx_list l r.1 r.2
  end.

Definition empty_hw_ctxs (c : kds_client) : kds_client :=
  c <| cl_hw_ctx_list ::= fmap (fun h => h <| hw_cu_ctx_list := [] |>) |>.

Definition kds_fini_client (kds : sched) (c : kds_client) : option (sched * kds_client) :=
  r ← (if bool_decide (is_Some (cl_ctx c)) || negb (bool_decide (cl_ctx_list c = []))
       then
         r ← fini_ctx kds c;
         let '(kds, c) := r in
         r ← fini_ctx_list (cl_ctx_list c) kds c;
         let '(kds, c) := r in
         let c := c <| cl_ctx_list ::= fmap (fun x => x <| ctx_cu_ctx_list := [] |>) |> in
         Some (kds, match kds_get_hw_ctx_by_id c DEFAULT_HW_CTX_ID with
                    | Some p => (kds_free_hw_ctx c (Some p)).2
                    | None => c
                    end)
       else Some (kds, c));
  let '(kds, c) := r in
  r ← fini_hw_ctx_list (cl_hw_ctx_list c) kds c;
  let '(kds, c) := r in
  let c := empty_hw_ctxs c in
  let c := (kds_client_set_cu_refs_zero c DOMAIN_PS).2 in
  let c := (kds_client_set_cu_refs_zero c DOMAIN_PL).2 in
  let c := c <| cl_refcnt := None |> in
  Some (kds <| kds_clients ::= delete ci |> <| kds_num_client := kds_num_client kds - 1 |>, c).
End Life.

(** ** Live clients *)

Section Live.
Context {C : Type}.
#[local] Abbreviation sched := (kds_sched C).
#[local] Abbreviation cu := (xrt_cu C).

Definition legacy_live (c : kds_client) : bool :=
  match cl_ctx c with
  | None => false
  | Some ctx => negb (bool_decide (ctx_cu_ctx_list ctx = []))
  end.

Definition hw_live (h : kds_client_hw_ctx) : bool := negb (bool_decide (hw_cu_ctx_list h = [])).

(** The counting walk. *)
Definition count_live (count : Z) (c : kds_client) : Z :=
  let count := if legacy_live c then u32 (count + 1) else count in
  foldl (fun count h => if hw_live h then u32 (count + 1) else count) count (cl_hw_ctx_list c).

(** The collecting walk: [pl[i] = pid; i++], [None] outside the array. *)
Definition collect_one (pid : Z) (st : option (list Z * Z)) : option (list Z * Z) :=
  st ← st; pl ← aset_chk st.1 st.2 pid; Some (pl, u32 (st.2 + 1)).

Definition collect_live (st : option (list Z * Z)) (c : kds_client) : option (list Z * Z) :=
  let st := if legacy_live c then collect_one (cl_pid c) st else st in
  foldl (fun st h => if hw_live h then collect_one (cl_pid c) st else st) st (cl_hw_ctx_list c).

(** [plist]: the caller wants the list; [alloc]: [vmalloc] succeeds.  A result
    [None] inside leaves [*plist] unset. *)
Definition kds_live_clients_nolock (plist alloc : bool) (kds : sched)
  : option (Z * option (list Z)) :=
  let count := foldl count_live 0 (kds_clients kds) in
  if (count =? 0) || negb plist then Some (count, None)
  else if negb alloc then Some (count, None)
  else
    r ← foldl collect_live (Some (replicate (Z.to_nat count) 0, 0)) (kds_clients kds);
    Some (count, Some r.1).

Definition kds_live_clients (plist alloc : bool) (kds : sched) : option (Z * option (list Z)) :=
  kds_live_clients_nolock plist alloc kds.

(** [parsed] is the result of [kstrtou32] and the value it leaves in
    [enable]; only [-EINVAL] is tested.  [echo] is the new value, if set. *)
Definition store_kds_echo (kds : sched) (parsed : Z * Z) (count : Z) : option (Z * option Z) :=
  r ← kds_live_clients false false kds;
  if 0 <? r.1 then Some (- EBUSY, None)
  else if (parsed.1 =? - EINVAL) || (1 <? parsed.2) then Some (- EINVAL, None)
  else Some (count, Some parsed.2).

(** ** Submitting a configuration command *)

(** [in_time] says whether the completion arrives within ten seconds, [abort]
    is the remote scheduler's [abort_sync] until the completion arrives; a
    missing operation is called through NULL. *)
Definition kds_submit_cmd_and_wait answer (now : Z) (in_time : bool)
  (abort : option (sched -> sched)) (kds : sched) (c : kds_client) (xcmd : kds_command)
  closes images : option (Z * list kds_event * sched * kds_client) :=
  r ← kds_add_command answer now kds c xcmd closes images;
  let '(ret, ev, kds, c) := r in
  if z2b ret then Some (ret, ev, kds, c)
  else if in_time then Some (0, ev, kds, c)
  else f ← abort; Some (0, ev, f kds, c).

(** ** User-managed CUs *)

(** [irq x on] is the [user_manage_irq] operation, [None] when it is NULL;
    [fd] the result of [anon_inode_getfd]; [between] is what the other threads
    do to the client around the marking of the CU. *)
Definition kds_open_ucu (between : kds_client -> kds_client) (alloc : bool * bool) (irq : option (cu -> bool -> Z * cu)) (fd : Z)
  (kds : sched) (c : kds_client) (cu_idx : Z) : option (Z * sched * kds_client) :=
  let m := kds_cu_mgmt_ kds in
  if (Z.of_nat MAX_CUS <=? cu_idx) || negb (xcu_set m cu_idx) then Some (- EINVAL, kds, c)
  else if kds_test_refcnt c DOMAIN_PL cu_idx <? 0 then Some (- EINVAL, kds, c)
  else if negb (z2b (kds_test_refcnt c DOMAIN_PL cu_idx)) then Some (- EINVAL, kds, c)
  else if negb (z2b (Z.land (aget 0 (m_cu_refs m) cu_idx) CU_EXCLU_MASK))
  then Some (- EINVAL, kds, c)
  else
    let c := c <| cl_next_hw_ctx_id := 0 |> in
    let '(p, c) := kds_alloc_hw_ctx alloc c 0 0 in
    match p with
    | None => Some (- EINVAL, kds, c)
    | Some p =>
        h ← cl_hw_ctx_list c !! p;
        let busy := z2b (client_stat_read c (hw_ctx_idx h) S_CNT cu_idx) in
        let c := between c in
        let mark b kds := upd_xcu kds m cu_idx (fun x => x <| cu_is_ucu := b |>) in
        let kds := if negb busy then mark true kds else kds in
        if negb busy && z2b (client_stat_read c (hw_ctx_idx h) S_CNT cu_idx)
        then Some (- EBUSY, mark false kds, c)
        else match irq with
        | None => Some (- EOPNOTSUPP, kds, c)
        | Some f =>
            xcu ← get_xcu kds m cu_idx;
            let kds := upd_xcu kds m cu_idx (fun x => (f x true).2) in
            if z2b (f xcu true).1 then Some (- EINVAL, kds, c)
            else Some (fd, upd_xcu kds m cu_idx (fun x => x <| cu_ucu_event := 0 |>), c)
        end
    end.

Definition kds_ucu_release (irq : cu -> bool -> Z * cu) (xcu : cu) : Z * cu :=
  (0, (irq xcu false).2 <| cu_is_ucu := false |>).

Definition POLLIN : Z := 1.

Definition kds_ucu_poll (xcu : cu) : Z := if 0 <? cu_ucu_event xcu then POLLIN else 0.

(** [interrupted] is the result of the wait; the events are delivered to
    [copy_to_user], which may fail after they have been taken. *)
Definition kds_ucu_read (interrupted : Z) (copy_ok : bool) (count : Z) (xcu : cu)
  : Z * option Z * cu :=
  if negb (count =? 4) then (- EINVAL, None, xcu)
  else if z2b interrupted then (interrupted, None, xcu)
  else
    let events := cu_ucu_event xcu in
    let xcu := xcu <| cu_ucu_event := 0 |> in
    if negb copy_ok then (- EFAULT, None, xcu) else (4, Some events, xcu).

Definition kds_ucu_write (irq : option (cu -> Z -> cu)) (enable : option Z) (count : Z) (xcu : cu)
  : Z * cu :=
  if negb (count =? 4) then (- EINVAL, xcu)
  else match enable with
       | None => (- EFAULT, xcu)
       | Some enable =>
           match irq with
           | None => (- EOPNOTSUPP, xcu)
           | Some f => (4, f xcu enable)
           end
       end.
End Live.
