(* ===== verification/KdsFini.v ===== *)
(** * A departing client gives everything back

    When every context of the client was opened once, [kds_fini_client] leaves
    the CU counts equal to the holders among the remaining clients. *)
From S2P Require Import Prelude KdsCommand CuInfo CuCore CircLog XrtCu KdsHwctx KdsSched KdsRefs KdsLife.

#[local] Arguments upd : simpl never.

Definition ctx_key (cc : kds_client_cu_ctx) : Z * Z := (cc_cu_domain cc, cc_cu_idx cc).

(** Number of contexts of the list on CU [i] of domain [d]. *)
Definition opens (d i : Z) (l : list kds_client_cu_ctx) : Z :=
  Z.of_nat (countb (fun cc => (cc_cu_domain cc =? d) && (cc_cu_idx cc =? i)) l).

(** A context opened once, on a CU of the table. *)
Definition ctx_open (cc : kds_client_cu_ctx) : Prop :=
  hw_domain (cc_cu_domain cc) /\ cu_range (cc_cu_idx cc) /\ cc_ref_cnt cc = 1.

Section Fini.
Context {C : Type} (P : Z -> Z -> Prop).
Context (rounds : list (env_step (C := C))) (last ert_call : env_step (C := C)) (ert_bad : bool).
Context (Hrounds : Forall (ctx_env_ok P) (rounds ++ [last])) (Hcall : ctx_env_ok P ert_call).
Context (Hlast : forall hw d i s, outstanding (last s).2 hw d i = false).
Context (ci : nat).
Implicit Types (kds k : kds_sched C).

Record fini_inv (l : list kds_client_cu_ctx) kds (c : kds_client) : Prop := {
  fi_refs : refs_inv kds;
  fi_ci : kds_clients kds !! ci = Some c;
  fi_ready : sched_ready kds;
  fi_present : present P kds;
  fi_open : Forall ctx_open l;
  fi_keys : forall cc, cc ∈ l -> P (cc_cu_domain cc) (cc_cu_idx cc);
  fi_cnt : forall d i, hw_domain d -> cu_range i -> cl_ref d i c = opens d i l;
}.

Lemma opens_cons d i cc l :
  opens d i (cc :: l) = b2z ((cc_cu_domain cc =? d) && (cc_cu_idx cc =? i)) + opens d i l.
Proof. unfold opens. cbn [countb]. destruct (_ && _); cbn [b2z]; lia. Qed.

Lemma present_set kds d i : present P kds -> P d i -> xcu_set (get_mgmt kds d) i = true.
Proof.
  intros Hp HP. apply bool_decide_eq_true. destruct (Hp d i HP) as [x Hx]. unfold get_xcu in Hx.
  by destruct (aget None _ i).
Qed.

Lemma del_result_open kds c cc :
  cu_range (cc_cu_idx cc) -> xcu_set (get_mgmt kds (cc_cu_domain cc)) (cc_cu_idx cc) = true ->
  0 < cl_ref (cc_cu_domain cc) (cc_cu_idx cc) c -> del_result kds c cc = 0.
Proof.
  intros Hi Hs Hr. unfold del_result. rewrite Hs. unfold cu_range in Hi.
  destruct (Z.leb_spec (Z.of_nat MAX_CUS) (cc_cu_idx cc)); [lia|].
  destruct (Z.eqb_spec (cl_ref (cc_cu_domain cc) (cc_cu_idx cc) c) 0); [lia|done].
Qed.

(** Closing the first context of the list. *)
Lemma close_one cc l kds c :
  fini_inv (cc :: l) kds c ->
  exists k c' cc', close_ctx (rounds ++ [last]) ert_call ert_bad ci (Z.to_nat (cc_ref_cnt cc)) kds c cc =
    Some (k, c', cc') /\ fini_inv l k c'.
Proof.
  intros [I1 I2 I3 I4 I5 I6 I7]. apply Forall_cons in I5 as [(Hd & Hi & Hone) Hl].
  assert (P (cc_cu_domain cc) (cc_cu_idx cc)) as HP by (apply I6; set_solver).
  set (cc0 := cc <| cc_ref_cnt := 0 |>).
  destruct (del_cu_context_step P kds ci c cc0 rounds last ert_call ert_bad)
    as (k & c' & E & Hinv & _ & Heq & Hpr & Hrdy & Hok & Hci); try done.
  { unfold cu_range in Hi. apply Hi. }
  assert (del_result kds c cc0 = 0) as Hz.
  { apply del_result_open; [done|by apply present_set|]. change (cc_cu_domain cc0) with (cc_cu_domain cc).
    change (cc_cu_idx cc0) with (cc_cu_idx cc). rewrite I7, opens_cons, !Z.eqb_refl by done.
    cbn [b2z andb]. unfold opens. lia. }
  rewrite Hz in E. destruct (Heq Hz) as [Hown _]. rewrite Hone.
  exists (sync ci k c'), c', cc0. split.
  - change (Z.to_nat 1) with 1%nat. cbn [close_ctx]. rewrite Hone. cbn [Z.eqb].
    unfold kds_del_context. rewrite Hone. change (1 =? 0) with false. change (1 - 1) with 0.
    cbv iota zeta. fold cc0. change (z2b (cc_ref_cnt cc0)) with false. cbv iota.
    destruct (hw_domain_tests _ Hd) as [-> ->]. rewrite E. cbn [mbind option_bind].
    change (z2b 0) with false. cbv iota. change (cc_ref_cnt cc0 =? 0) with true. reflexivity.
  - assert (ci < length (kds_clients k))%nat as Hlen by (by eapply lookup_lt_Some).
    split; try done.
    + unfold sync. rproj. by rewrite list_lookup_insert_eq.
    + intros cc1 Hcc. apply I6. set_solver.
    + intros d i Hdd Hii. rewrite Hown by done. change (cc_cu_domain cc0) with (cc_cu_domain cc).
      change (cc_cu_idx cc0) with (cc_cu_idx cc). rewrite !I7 by done. rewrite !opens_cons, !Z.eqb_refl.
      destruct ((cc_cu_domain cc =? d) && (cc_cu_idx cc =? i)) eqn:Eq; cbn [andb b2z]; [|lia].
      assert (cc_cu_domain cc = d /\ cc_cu_idx cc = i) as [-> ->] by lia. lia.
Qed.

Lemma close_ctxs_ok l l' kds c :
  fini_inv (l ++ l') kds c ->
  exists k c', close_ctxs (rounds ++ [last]) ert_call ert_bad ci l kds c = Some (k, c') /\
    fini_inv l' k c'.
Proof.
  revert kds c. induction l as [|cc l IH]; intros kds c Hinv; cbn [close_ctxs app] in *.
  { by exists kds, c. }
  destruct (close_one cc _ kds c Hinv) as (k & c' & cc' & -> & Hinv').
  cbn [mbind option_bind]. by apply IH.
Qed.

Lemma fini_hw_ctx_list_ok hs kds c :
  fini_inv (hs ≫= hw_cu_ctx_list) kds c ->
  exists k c', fini_hw_ctx_list (rounds ++ [last]) ert_call ert_bad ci hs kds c = Some (k, c') /\
    fini_inv [] k c'.
Proof.
  revert kds c. induction hs as [|h hs IH]; intros kds c Hinv; cbn [fini_hw_ctx_list].
  { by exists kds, c. }
  cbn [mbind list_bind] in Hinv. unfold kds_fini_hw_ctx_client.
  destruct (close_ctxs_ok _ _ kds c Hinv) as (k & c' & -> & Hinv'). cbn [mbind option_bind].
  by apply IH.
Qed.

Lemma countb_delete {A} (p : A -> bool) (l : list A) j x :
  l !! j = Some x -> p x = false -> countb p (delete j l) = countb p l.
Proof.
  revert j. induction l as [|y l IH]; intros [|j] Hj Hp; cbn in *; try done.
  - injection Hj as ->. by rewrite Hp.
  - f_equal. by apply (IH j).
Qed.

(** Removing a client that holds nothing. *)
Lemma refs_inv_delete kds c n :
  refs_inv kds -> kds_clients kds !! ci = Some c ->
  (forall d i, hw_domain d -> cu_range i -> cl_ref d i c = 0) ->
  refs_inv (kds <| kds_clients ::= delete ci |> <| kds_num_client := n |>).
Proof.
  intros [Ic If Il Ir] Hci Hz.
  set (k := kds <| kds_clients ::= delete ci |> <| kds_num_client := n |>).
  assert (kds_clients k = delete ci (kds_clients kds)) as Ek by (unfold k; by rproj).
  assert (forall d, get_mgmt k d = get_mgmt kds d) as Eg.
  { intros d. unfold k, get_mgmt. by destruct (d =? DOMAIN_PL). }
  split.
  - rewrite Ek. by apply Forall_delete.
  - rewrite Ek. pose proof (length_delete (kds_clients kds) ci ltac:(by eexists)). lia.
  - intros d Hd. rewrite Eg. by apply Il.
  - intros d i Hd Hi. unfold cu_ref_ok, cu_ref. rewrite Eg, Ek.
    assert (holders (delete ci (kds_clients kds)) d i = holders (kds_clients kds) d i) as ->.
    { unfold holders. rewrite (countb_delete _ _ ci c); [done|done|]. unfold holds. by rewrite Hz. }
    destruct (Ir d i Hd Hi) as [(E1 & E2 & E3)|E]; [left|by right].
    split_and!; [done..|]. by apply Forall_delete.
Qed.
End Fini.


(** One client with one context on CU 0, the other client idle. *)
Definition fini_client : kds_client :=
  demo_holder <| cl_hw_ctx_list := [mk_hw_ctx 0 0 0 [demo_shared <| cc_ref_cnt := 1 |>] [] stats_zero] |>.
Definition fini_kds : kds_sched unit := with_client demo_held 0 fini_client.
Definition on_cu0 (d i : Z) : Prop := d = DOMAIN_PL /\ i = 0.

Lemma fini_client_ref d i :
  hw_domain d -> cu_range i ->
  cl_ref d i fini_client = b2z ((DOMAIN_PL =? d) && (0 =? i)).
Proof.
  intros Hd Hi. destruct (refcnt_incr_ok (demo_client 7) DOMAIN_PL 0) as (c1 & E & _ & Href);
    [apply demo_client_ok|by left|done|by rewrite demo_cl_ref by (by left)|].
  assert (cl_refcnt fini_client = cl_refcnt c1) as Er.
  { change c1 with ((0, c1).2). rewrite <- (demo_cl_ref 7 DOMAIN_PL 0) by (by left). rewrite <- E.
    vm_compute. reflexivity. }
  unfold cl_ref, kds_client_domain_refcnt. rewrite Er.
  fold (kds_client_domain_refcnt c1 d). fold (cl_ref d i c1).
  rewrite Href, !demo_cl_ref by (done || by left). by destruct (_ && _).
Qed.

Lemma fini_demo_inv :
  fini_inv on_cu0 0 (cl_hw_ctx_list fini_client ≫= hw_cu_ctx_list) fini_kds fini_client.
Proof.
  split.
  - apply (refs_inv_refcnt (with_client demo_held 0 demo_holder)); [done..|]. apply demo_held_inv.
  - reflexivity.
  - by left.
  - intros d i [-> ->]. vm_compute. by eexists.
  - apply Forall_singleton. split; [by left|done].
  - intros cc Hcc. apply list_elem_of_singleton in Hcc as ->. done.
  - intros d i Hd Hi. rewrite fini_client_ref by done.
    change (cl_hw_ctx_list fini_client ≫= hw_cu_ctx_list) with [demo_shared <| cc_ref_cnt := 1 |>].
    rewrite opens_cons. symmetry. apply Z.add_0_r.
Qed.

