(* ===== verification/KdsSysfs.v ===== *)
(** * Statistics shown to user space

    The formatting functions of [kds_core.c] and [kds_hwctx.c].  Text is a list
    of character codes; a result is the text written to the buffer, whose
    length is the value the C function returns. *)
From Stdlib Require Import String Ascii.
From S2P Require Import Prelude KdsCommand CuInfo CuCore CircLog XrtCu KdsHwctx KdsSched KdsConfig KdsRefs.

Open Scope Z_scope.
Open Scope list_scope.

Definition PAGE_SIZE : Z := 4096.
Definition MAX_CU_STAT_LINE_LENGTH : Z := 128.

(** ** Formatting *)

(** Digits of a non-negative number in a base; 64 digits are enough for every
    64-bit number. *)
Fixpoint digits (fuel : nat) (base n : Z) (acc : list Z) : list Z :=
  match fuel with
  | O => acc
  | S fuel =>
      let d := n mod base in
      let acc := (if d <? 10 then 48 + d else 87 + d) :: acc in
      if n / base =? 0 then acc else digits fuel base (n / base) acc
  end.

Definition fmt_u (n : Z) : list Z := digits 64 10 n [].
Definition fmt_x (n : Z) : list Z := digits 64 16 n [].
Definition fmt_d (n : Z) : list Z := if n <? 0 then 45 :: fmt_u (- n) else fmt_u n.

Definition txt (s : string) : list Z :=
  (fun a => Z.of_N (N_of_ascii a)) <$> list_ascii_of_string s.
Arguments txt s%_string_scope.

(** [scnprintf] of an expanded text into [size] bytes: at most [size - 1]
    characters and a terminator. *)
Definition scnprintf (size : Z) (text : list Z) : list Z := take (Z.to_nat (size - 1)) text.

Definition comma : list Z := [44].
Definition colon : list Z := [58].
Definition newline : list Z := [10].
Definition hex_prefix : list Z := [48; 120].

(** ** One line per CU *)

Section Sysfs.
Context {C : Type}.
#[local] Abbreviation sched := (kds_sched C).
#[local] Abbreviation cu := (xrt_cu C).

Definition kds_create_cu_string (xcu : cu) (slot idx usage_count type : Z) : list Z :=
  let names := info_kname (cu_info xcu) ++ colon ++ info_iname (cu_info xcu) in
  if type =? KDS_CU then
    scnprintf MAX_CU_STAT_LINE_LENGTH
      (fmt_d slot ++ comma ++ fmt_d (set_domain DOMAIN_PL idx) ++ comma ++ names ++ comma ++
       hex_prefix ++ fmt_x (info_addr (cu_info xcu)) ++ comma ++
       hex_prefix ++ fmt_x (cu_status xcu) ++ comma ++ fmt_u usage_count ++ newline)
  else if type =? KDS_SCU then
    scnprintf MAX_CU_STAT_LINE_LENGTH
      (fmt_d slot ++ comma ++ fmt_d (set_domain DOMAIN_PS idx) ++ comma ++ names ++ comma ++
       hex_prefix ++ fmt_x (cu_status xcu) ++ comma ++ fmt_u usage_count ++ newline)
  else [].

(** The lines of a table, slot by slot. *)
Definition cu_lines (kds : sched) (m : kds_cu_mgmt) (type : Z) : list (list Z) :=
  j ← seqZ 0 MAX_SLOT; i ← all_cus;
  match get_xcu kds m i with
  | None => []
  | Some xcu =>
      if negb (info_slot_idx (cu_info xcu) =? j) then []
      else [kds_create_cu_string xcu j i (aget 0 (m_usage m) i) type]
  end.

(** The common tail of the walks: skip what lies before the offset, stop when
    the buffer cannot hold the line. *)
Fixpoint emit (buf_size offset : Z) (lines : list (list Z)) (all_cu_sz : Z) (buf : list Z)
  : list Z :=
  match lines with
  | [] => buf
  | line :: lines =>
      let cu_sz := Z.of_nat (length line) in
      let sz := Z.of_nat (length buf) in
      let all_cu_sz := all_cu_sz + cu_sz in
      if offset <? all_cu_sz then
        if buf_size <? sz + cu_sz then buf
        else emit buf_size offset lines all_cu_sz (buf ++ scnprintf (buf_size - sz) line)
      else emit buf_size offset lines all_cu_sz buf
  end.

Definition kds_populate_cu_buf (kds : sched) (m : kds_cu_mgmt) (buf_size offset type : Z)
  : list Z := emit buf_size offset (cu_lines kds m type) 0 [].

Definition show_kds_custat_raw (kds : sched) (buf_size offset : Z) : list Z :=
  kds_populate_cu_buf kds (kds_cu_mgmt_ kds) buf_size offset KDS_CU.
Definition show_kds_scustat_raw (kds : sched) (buf_size offset : Z) : list Z :=
  kds_populate_cu_buf kds (kds_scu_mgmt kds) buf_size offset KDS_SCU.

(** ** Contexts *)

(** What the walk does for one context: nothing, a line, or ([None]) an access
    outside the table, which is indexed before the domain is looked at. *)
Definition ctx_item (kds : sched) (m : kds_cu_mgmt) (domain type : Z)
  (id : kds_client_cu_ctx -> Z) (cc : kds_client_cu_ctx) : list (option (list Z)) :=
  match aget_chk None (m_xcus m) (cc_cu_idx cc) with
  | None => [None]
  | Some None => []
  | Some (Some p) =>
      if negb (cc_cu_domain cc =? domain) then []
      else match kds_heap kds !! p with
           | None => [None]
           | Some xcu => [Some (kds_create_cu_string xcu (id cc) (cc_cu_idx cc)
                                  (aget 0 (m_usage m) (cc_cu_idx cc)) type)]
           end
  end.

(** [emit] over such items. *)
Fixpoint emit_items (buf_size offset : Z) (items : list (option (list Z))) (all_cu_sz : Z)
  (buf : list Z) : option (list Z) :=
  match items with
  | [] => Some buf
  | None :: _ => None
  | Some line :: items =>
      let cu_sz := Z.of_nat (length line) in
      let sz := Z.of_nat (length buf) in
      let all_cu_sz := all_cu_sz + cu_sz in
      if offset <? all_cu_sz then
        if buf_size <? sz + cu_sz then Some buf
        else emit_items buf_size offset items all_cu_sz (buf ++ scnprintf (buf_size - sz) line)
      else emit_items buf_size offset items all_cu_sz buf
  end.

(** The walk over the hardware contexts skips clients without a legacy
    context. *)
Definition show_kds_cuctx_stat_raw (kds : sched) (buf_size offset domain : Z)
  : option (list Z) :=
  let m := get_mgmt kds domain in
  let type := if domain =? DOMAIN_PL then KDS_CU else KDS_SCU in
  let legacy := c ← kds_clients kds;
    match cl_ctx c with
    | None => []
    | Some ctx => ctx_cu_ctx_list ctx ≫= ctx_item kds m domain type cc_slot
    end in
  let hw := c ← kds_clients kds;
    match cl_ctx c with
    | None => []
    | Some _ => h ← cl_hw_ctx_list c; hw_cu_ctx_list h ≫= ctx_item kds m domain type cc_hw_ctx
    end in
  emit_items buf_size offset (legacy ++ hw) 0 [].

(** ** The summary page *)

Definition page_add (buf text : list Z) : list Z :=
  buf ++ scnprintf (PAGE_SIZE - Z.of_nat (length buf)) text.

(** One line of the summary; [~CU_EXCLU_MASK] clears the top bit. *)
Definition stat_line (label : list Z) (m : kds_cu_mgmt) (i : Z) : list Z :=
  let refs := aget 0 (m_cu_refs m) i in
  label ++ fmt_d i ++ txt "] usage(" ++ fmt_u (aget 0 (m_usage m) i) ++ txt ") shared(" ++
  fmt_d (b2z (negb (z2b (Z.land refs CU_EXCLU_MASK)))) ++ txt ") refcnt(" ++
  fmt_d (Z.land refs 0x7FFFFFFF) ++ txt ") intr(" ++
  (if z2b (aget 0 (m_cu_intr m) i) then txt "enable" else txt "disable") ++ txt ")" ++ newline.

Definition stat_lines (label : list Z) (m : kds_cu_mgmt) (buf : list Z) : list Z :=
  foldl (fun buf i => if xcu_set m i then page_add buf (stat_line label m i) else buf) buf all_cus.

Definition show_kds_stat (kds : sched) : list Z :=
  let m := kds_cu_mgmt_ kds in
  let buf := page_add [] (txt "CU to host interrupt capability: " ++
                          fmt_d (kds_cu_intr_cap kds) ++ newline) in
  let buf := page_add buf (txt "Interrupt mode: " ++
               (if z2b (KDS_SETTING (kds_cu_intr kds)) then txt "cu" else txt "ert") ++ newline) in
  let buf := page_add buf (txt "Number of CUs: " ++ fmt_d (m_num_cus m) ++ newline) in
  let buf := stat_lines (txt "  CU[") m buf in
  let m := kds_scu_mgmt kds in
  let buf := page_add buf (txt "Number of SCUs: " ++ fmt_d (m_num_cus m) ++ newline) in
  stat_lines (txt "  SCU[") m buf.
End Sysfs.

(** ** Lemmas *)

Lemma length_scnprintf size text :
  (length (scnprintf size text) <= Z.to_nat (size - 1))%nat.
Proof. unfold scnprintf. rewrite length_take. lia. Qed.

(** A line that leaves room for the terminator is written whole. *)
Lemma scnprintf_fits size text : Z.of_nat (length text) < size -> scnprintf size text = text.
Proof. intros Hl. unfold scnprintf. apply take_ge. lia. Qed.

(** The lines from the offset on that fit one after the other. *)
Fixpoint fitting (room : Z) (lines : list (list Z)) : list (list Z) :=
  match lines with
  | [] => []
  | l :: lines =>
      if Z.of_nat (length l) <? room
      then l :: fitting (room - Z.of_nat (length l)) lines else []
  end.

(** No line ends exactly at the end of the buffer. *)
Fixpoint no_exact (room : Z) (lines : list (list Z)) : Prop :=
  match lines with
  | [] => True
  | l :: lines => Z.of_nat (length l) <> room /\
      (Z.of_nat (length l) < room -> no_exact (room - Z.of_nat (length l)) lines)
  end.

Lemma emit_rest bs off lines : forall all buf,
  off <= all -> Forall (fun l => l <> []) lines ->
  no_exact (bs - Z.of_nat (length buf)) lines ->
  emit bs off lines all buf = buf ++ concat (fitting (bs - Z.of_nat (length buf)) lines).
Proof.
  induction lines as [|l lines IH]; intros all buf Hall HF Hex; cbn [emit fitting concat].
  { by rewrite app_nil_r. }
  apply Forall_cons in HF as [Hl HF]. destruct Hex as [Hne Hex].
  assert (0 < Z.of_nat (length l)) by (destruct l; cbn in *; [done|lia]).
  destruct (Z.ltb_spec off (all + Z.of_nat (length l))); [|lia].
  destruct (Z.ltb_spec bs (Z.of_nat (length buf) + Z.of_nat (length l))) as [Hb|Hb].
  - destruct (Z.ltb_spec (Z.of_nat (length l)) (bs - Z.of_nat (length buf))); [lia|].
    by rewrite app_nil_r.
  - destruct (Z.ltb_spec (Z.of_nat (length l)) (bs - Z.of_nat (length buf))) as [Hlt|]; [|lia].
    rewrite scnprintf_fits by lia.
    assert (bs - Z.of_nat (length (buf ++ l)) = bs - Z.of_nat (length buf) - Z.of_nat (length l)) as El.
    { rewrite length_app. lia. }
    rewrite IH; [|lia|done|rewrite El; auto]. rewrite El. cbn [concat]. by rewrite app_assoc.
Qed.

(** Skipping the lines before the offset. *)
Lemma emit_skip bs pre lines : forall off all buf,
  off = all + Z.of_nat (length (concat pre)) ->
  emit bs off (pre ++ lines) all buf = emit bs off lines off buf.
Proof.
  induction pre as [|l pre IH]; intros off all buf Hoff; cbn [app concat] in *.
  { cbn in Hoff. by replace all with off by lia. }
  cbn [emit]. rewrite length_app in Hoff.
  destruct (Z.ltb_spec off (all + Z.of_nat (length l))); [lia|]. apply IH. lia.
Qed.

Lemma fitting_prefix room lines : exists n, fitting room lines = take n lines.
Proof.
  revert room. induction lines as [|l lines IH]; intros room; cbn [fitting]; [by exists 0%nat|].
  destruct (_ <? room); [|by exists 0%nat]. destruct (IH (room - Z.of_nat (length l))) as [n ->].
  by exists (S n).
Qed.

Lemma fitting_size room lines : 0 < room -> Z.of_nat (length (concat (fitting room lines))) < room.
Proof.
  revert room. induction lines as [|l lines IH]; intros room Hr; cbn [fitting]; [done|].
  destruct (Z.ltb_spec (Z.of_nat (length l)) room); [|done]. cbn [concat]. rewrite length_app.
  specialize (IH (room - Z.of_nat (length l)) ltac:(lia)). lia.
Qed.


(** ** Reading the file page by page *)

(** A reader that asks again from where the last read ended, until a read
    returns nothing. *)
Fixpoint read_pages (page : Z -> list Z) (fuel : nat) (offset : Z) : list Z :=
  match fuel with
  | O => []
  | S fuel =>
      match page offset with
      | [] => []
      | p => p ++ read_pages page fuel (offset + Z.of_nat (length p))
      end
  end.

Lemma digits_nonempty f b n acc : exists c l, digits (S f) b n acc = c :: l.
Proof.
  revert n acc. induction f as [|f IH]; intros n acc.
  - cbn [digits]. destruct (_ =? 0); by eexists _, _.
  - change (digits (S (S f)) b n acc) with
      (let acc' := (if n mod b <? 10 then 48 + n mod b else 87 + n mod b) :: acc in
       if n / b =? 0 then acc' else digits (S f) b (n / b) acc').
    cbv zeta. destruct (_ =? 0); [by eexists _, _|apply IH].
Qed.

Lemma kds_create_cu_string_nonempty {C} (xcu : xrt_cu C) slot idx usage type :
  type = KDS_CU \/ type = KDS_SCU -> kds_create_cu_string xcu slot idx usage type <> [].
Proof.
  assert (forall s r, exists c l, fmt_d s ++ r = c :: l) as Hd.
  { intros s r. unfold fmt_d. destruct (s <? 0); [by eexists _, _|].
    unfold fmt_u. destruct (digits_nonempty 63 10 s []) as (c & l & ->). by eexists _, _. }
  unfold kds_create_cu_string, MAX_CU_STAT_LINE_LENGTH, scnprintf.
  intros [-> | ->]; cbn [Z.eqb KDS_CU KDS_SCU Pos.eqb].
  all: match goal with |- take _ (fmt_d ?s ++ ?r) <> [] =>
         destruct (Hd s r) as (c & l & ->) end; done.
Qed.

Lemma cu_lines_nonempty {C} (kds : kds_sched C) m type :
  type = KDS_CU \/ type = KDS_SCU -> Forall (fun l => l <> []) (cu_lines kds m type).
Proof.
  intros Ht. apply Forall_forall. intros l. unfold cu_lines.
  rewrite list_elem_of_bind. intros (j & Hl & _).
  rewrite list_elem_of_bind in Hl. destruct Hl as (i & Hl & _).
  destruct (get_xcu kds m i) as [xcu|]; [|by apply not_elem_of_nil in Hl].
  destruct (negb _); [by apply not_elem_of_nil in Hl|].
  apply list_elem_of_singleton in Hl as ->. by apply kds_create_cu_string_nonempty.
Qed.

Lemma fitting_progress room l lines :
  Z.of_nat (length l) < room -> exists n, fitting room (l :: lines) = take (S n) (l :: lines).
Proof.
  intros Hl. cbn [fitting]. destruct (Z.ltb_spec (Z.of_nat (length l)) room); [|lia].
  destruct (fitting_prefix (room - Z.of_nat (length l)) lines) as [n ->]. by exists n.
Qed.

Section Paging.
Context (bs : Z) (lines : list (list Z)).
Hypothesis Hne : Forall (fun l => l <> []) lines.
Hypothesis Hlen : Forall (fun l => Z.of_nat (length l) < bs) lines.
Hypothesis Hexact : forall k, no_exact bs (drop k lines).

Lemma emit_page k :
  emit bs (Z.of_nat (length (concat (take k lines)))) lines 0 [] =
  concat (fitting bs (drop k lines)).
Proof.
  rewrite <- (take_drop k lines) at 2.
  rewrite (emit_skip _ (take k lines)) by lia.
  rewrite emit_rest; cbn [length app].
  - by rewrite Z.sub_0_r.
  - lia.
  - by apply Forall_drop.
  - rewrite Z.sub_0_r. apply Hexact.
Qed.

Lemma read_pages_from fuel k :
  (length lines - k < fuel)%nat ->
  read_pages (fun off => emit bs off lines 0 []) fuel (Z.of_nat (length (concat (take k lines)))) =
  concat (drop k lines).
Proof.
  revert k. induction fuel as [|fuel IH]; intros k Hf; [lia|].
  cbn [read_pages]. rewrite emit_page.
  destruct (drop k lines) as [|l rest] eqn:Hd; [done|].
  assert (l ∈ lines) as Hin.
  { rewrite <- (take_drop k lines), Hd. set_solver. }
  rewrite Forall_forall in Hne, Hlen.
  destruct (fitting_progress bs l rest (Hlen _ Hin)) as [n ->].
  assert (k < length lines)%nat as Hk.
  { destruct (decide (k < length lines)%nat); [done|]. rewrite drop_ge in Hd by lia. done. }
  assert (concat (take (S n) (l :: rest)) <> []) as Hp.
  { cbn [take concat]. specialize (Hne _ Hin). by destruct l. }
  rewrite <- Hd in *. set (p := concat (take (S n) (drop k lines))) in *.
  assert (Z.of_nat (length (concat (take k lines))) + Z.of_nat (length p) =
          Z.of_nat (length (concat (take (k + S n) lines)))) as E.
  { subst p. rewrite <- (take_drop k (take (k + S n) lines)), take_take, concat_app, length_app.
    rewrite Nat.min_l by lia. rewrite skipn_firstn_comm. replace (k + S n - k)%nat with (S n) by lia. lia. }
  destruct p as [|c p'] eqn:Ep; [done|]. rewrite E, IH by lia. rewrite <- Ep. subst p.
  rewrite <- (take_drop (S n) (drop k lines)) at 2. rewrite drop_drop, concat_app.
  by rewrite Nat.add_comm.
Qed.
End Paging.

(** Reading the CU statistics page by page, each read asking from where
    the previous one ended, returns every line exactly once and in slot order,
    and the reader sees the end of the file; this for a buffer larger than a
    line that no line fills to its last byte. *)
Theorem kds_populate_cu_buf_pages {C} (kds : kds_sched C) m type bs fuel :
  type = KDS_CU \/ type = KDS_SCU ->
  Forall (fun l => Z.of_nat (length l) < bs) (cu_lines kds m type) ->
  (forall k, no_exact bs (drop k (cu_lines kds m type))) ->
  (length (cu_lines kds m type) < fuel)%nat ->
  read_pages (fun off => kds_populate_cu_buf kds m bs off type) fuel 0 =
    concat (cu_lines kds m type) /\
  (forall k, Z.of_nat (length (kds_populate_cu_buf kds m bs
     (Z.of_nat (length (concat (take k (cu_lines kds m type))))) type)) <= Z.max 0 (bs - 1)).
Proof.
  intros Ht Hlen Hex Hf. pose proof (cu_lines_nonempty kds m type Ht) as Hne. split.
  - apply (read_pages_from bs (cu_lines kds m type) Hne Hlen Hex fuel 0). lia.
  - intros k. unfold kds_populate_cu_buf. rewrite emit_page by done.
    destruct (drop k (cu_lines kds m type)) as [|l rest] eqn:E; [cbn; lia|].
    assert (l ∈ cu_lines kds m type) as Hin.
    { rewrite <- (take_drop k (cu_lines kds m type)), E. set_solver. }
    rewrite Forall_forall in Hlen. specialize (Hlen _ Hin).
    pose proof (fitting_size bs (l :: rest) ltac:(lia)). lia.
Qed.

(** The hypothesis on exact fills is needed: the line that fills the buffer to
    its last byte loses its newline and the next read repeats it. *)
Example emit_exact_fill :
  read_pages (fun off => emit 4 off [[49; 10]; [50; 10]] 0 []) 4 0 = [49; 10; 50; 50; 10].
Proof. reflexivity. Qed.

(** Two CUs in different slots of the device. *)
Definition demo_stat : kds_sched unit :=
  let cu s := xrt_cu_alloc (info_zero <| info_slot_idx := s |>) tt <| cu_crc := mk_circ_buf [] 0 0 |> in
  demo_kds <| kds_heap := <[100 := cu 1]> {[ 200 := cu 0 ]} |>
           <| kds_cu_mgmt_ := demo_mgmt <| m_xcus := Some 100 :: Some 200 :: replicate 126 None |>
                                        <| m_num_cus := 2 |> |>.

Lemma kds_populate_cu_buf_pages_witness :
  length (cu_lines demo_stat (kds_cu_mgmt_ demo_stat) KDS_CU) = 2%nat /\
  read_pages (fun off => show_kds_custat_raw demo_stat 24 off) 3 0 =
    concat (cu_lines demo_stat (kds_cu_mgmt_ demo_stat) KDS_CU).
Proof.
  assert (cu_lines demo_stat (kds_cu_mgmt_ demo_stat) KDS_CU =
    [txt "0,1,:,0x0,0x0,0" ++ newline; txt "1,0,:,0x0,0x0,0" ++ newline]) as E by (vm_compute; reflexivity).
  split; [by rewrite E|].
  apply (kds_populate_cu_buf_pages demo_stat (kds_cu_mgmt_ demo_stat) KDS_CU 24 3); rewrite ?E.
  - by left.
  - repeat constructor.
  - intros [|[|k]]; [vm_compute; repeat split; done..|]. cbn [drop]. by destruct k.
  - cbn; lia.
Defined.
