(* ===== verification/Xgq.v ===== *)
(** * The XGQ rings

    [core/include/xgq_impl.h]: a pair of ring buffers in memory shared by a
    client and a server.  The submission ring (SQ) carries commands from client
    to server, the completion ring (CQ) carries answers back.  Each side keeps a
    local copy of both ring pointers and exchanges them through shared words.

    The header is compiled once per platform; what its macros select is a
    [xgq_build].  Shared memory is a map from word addresses to words, accessed
    by [ioread32] and [iowrite32] ([xgq_xocl_plat.h]; the handle is not used by
    any platform). *)
From S2P Require Import Prelude.

(** ** Platform *)

Abbreviation shared := (gmap Z Z).

Definition ioread32 (m : shared) (addr : Z) : Z := default 0 (m !! addr).
Definition iowrite32 (m : shared) (addr val : Z) : shared := <[addr := u32 val]> m.

Definition xgq_mem_write32 (m : shared) (addr val : Z) : shared := iowrite32 m addr val.
Definition xgq_reg_write32 (m : shared) (addr val : Z) : shared := iowrite32 m addr val.
Definition xgq_mem_read32 (m : shared) (addr : Z) : Z := ioread32 m addr.
Definition xgq_reg_read32 (m : shared) (addr : Z) : Z := ioread32 m addr.

(** What the platform header defines. *)
Record xgq_build := mk_build {
  XGQ_SERVER : bool;
  XGQ_MEM_REG_ACCESS_DIFFER : bool;
  BRAM_COLLISION_WORKAROUND : bool;
  XGQ_OUT_OF_ORDER_WRITE : bool;
}.

Definition xgq_read32 (b : xgq_build) (m : shared) (addr : Z) (is_mem : bool) : Z :=
  if XGQ_MEM_REG_ACCESS_DIFFER b
  then (if is_mem then xgq_mem_read32 m addr else xgq_reg_read32 m addr)
  else xgq_reg_read32 m addr.
Definition xgq_write32 (b : xgq_build) (m : shared) (addr val : Z) (is_mem : bool) : shared :=
  if XGQ_MEM_REG_ACCESS_DIFFER b
  then (if is_mem then xgq_mem_write32 m addr val else xgq_reg_write32 m addr val)
  else xgq_reg_write32 m addr val.

(** The loop of [xgq_double_read32]: [reads k] is what the [k]-th read returns,
    [odd] the parity of [i]; [None]: still reading. *)
Fixpoint double_read (fuel : nat) (reads : nat -> Z) (k : nat) (odd : bool) (v0 v1 : Z)
  : option Z :=
  if v0 =? v1 then Some v0
  else match fuel with
       | O => None
       | S fuel =>
           if odd then double_read fuel reads (S k) false v0 (reads k)
           else double_read fuel reads (S k) true (reads k) v1
       end.

Definition xgq_double_read32 (fuel : nat) (reads : nat -> Z) : option Z :=
  double_read fuel reads 1 false (u32 (reads 0%nat - 1)) (reads 0%nat).

(** ** Data *)

Definition XGQ_ALLOC_MAGIC : Z := 0x5847513F.
Definition XGQ_MAJOR : Z := 1.
Definition XGQ_MINOR : Z := 0.
Definition XGQ_MIN_NUM_SLOTS : Z := 2.
Definition XGQ_VERSION : Z := Z.shiftl XGQ_MAJOR 16 + XGQ_MINOR.
Definition GET_XGQ_MAJOR (version : Z) : Z := Z.shiftr version 16.
Definition XGQ_DOUBLE_READ : Z := Z.shiftl 1 1.
Definition XGQ_IN_MEM_PROD : Z := Z.shiftl 1 2.
Definition XGQ_INTR_ENABLE_OFFSET : Z := 12.
Definition XGQ_ENTRY_NEW_FLAG_MASK : Z := 0x80000000.

Record xgq_header := mk_xgq_header {
  xh_magic : Z;
  xh_version : Z;
  xh_slot_num : Z;
  xh_sq_offset : Z;
  xh_sq_slot_size : Z;
  xh_cq_offset : Z;
  xh_sq_consumed : Z;
  xh_cq_consumed : Z;
  xh_flags : Z;
  xh_sq_produced : Z;
  xh_cq_produced : Z;
}.

(** The header as the words it occupies, and back. *)
Definition hdr_words (h : xgq_header) : list Z :=
  [xh_magic h; xh_version h; xh_slot_num h; xh_sq_offset h; xh_sq_slot_size h; xh_cq_offset h;
   xh_sq_consumed h; xh_cq_consumed h; xh_flags h; xh_sq_produced h; xh_cq_produced h].
Definition words_hdr (w : list Z) : xgq_header :=
  let f i := nth i w 0 in
  mk_xgq_header (f 0%nat) (f 1%nat) (f 2%nat) (f 3%nat) (f 4%nat) (f 5%nat) (f 6%nat) (f 7%nat)
    (f 8%nat) (f 9%nat) (f 10%nat).

(** [sizeof] and [offsetof]. *)
Definition sizeof_header : Z := 44.
Definition sizeof_com_entry : Z := 16.
Definition off_sq_consumed : Z := 24.
Definition off_cq_consumed : Z := 28.
Definition off_sq_produced : Z := 36.
Definition off_cq_produced : Z := 40.

Record xgq_ring := mk_xgq_ring {
  xr_slot_num : Z;
  xr_slot_sz : Z;
  xr_produced : Z;
  xr_consumed : Z;
  xr_produced_addr : Z;
  xr_consumed_addr : Z;
  xr_slot_addr : Z;
}.
#[export] Instance eta_xgq_ring : Eta xgq_ring := fun r =>
  mk_xgq_ring (xr_slot_num r) (xr_slot_sz r) (xr_produced r) (xr_consumed r)
    (xr_produced_addr r) (xr_consumed_addr r) (xr_slot_addr r).

Record xgq := mk_xgq {
  xq_header_addr : Z;
  xq_flags : Z;
  xq_sq : xgq_ring;
  xq_cq : xgq_ring;
}.
#[export] Instance eta_xgq : Eta xgq := fun q =>
  mk_xgq (xq_header_addr q) (xq_flags q) (xq_sq q) (xq_cq q).

Definition XGQ_NEED_DOUBLE_READ (flags : Z) : bool := z2b (Z.land flags XGQ_DOUBLE_READ).
Definition XGQ_IS_IN_MEM_PROD (flags : Z) : bool := z2b (Z.land flags XGQ_IN_MEM_PROD).

(** ** Rings *)

Definition xgq_ring_len (nslots slotsz : Z) : Z :=
  u64 (sizeof_header + nslots * (slotsz + sizeof_com_entry)).

Fixpoint xgq_copy_to_ring (m : shared) (buf : list Z) (tgt : Z) : shared :=
  match buf with
  | [] => m
  | w :: buf => xgq_copy_to_ring (xgq_mem_write32 m tgt w) buf (u64 (tgt + 4))
  end.

Fixpoint xgq_copy_from_ring (m : shared) (src : Z) (words : nat) : list Z :=
  match words with
  | O => []
  | S n => xgq_mem_read32 m src :: xgq_copy_from_ring m (u64 (src + 4)) n
  end.

Definition xgq_init_ring (produced consumed slots slot_num slot_size : Z) : xgq_ring :=
  mk_xgq_ring (u32 slot_num) slot_size 0 0 produced consumed slots.

Definition xgq_ring_full (r : xgq_ring) : bool :=
  xr_slot_num r <=? u32 (xr_produced r - xr_consumed r).
Definition xgq_ring_empty (r : xgq_ring) : bool := xr_produced r =? xr_consumed r.

(** A read of a shared pointer, doubled where the build or the queue asks for
    it.  Nothing else runs between the two reads of a call here, so two reads
    end the loop ([double_read_stable]). *)
Definition read_ptr (b : xgq_build) (flags : Z) (m : shared) (addr : Z) (is_mem : bool)
  (single : Z) : option Z :=
  if BRAM_COLLISION_WORKAROUND b || XGQ_NEED_DOUBLE_READ flags
  then xgq_double_read32 1 (fun _ => xgq_read32 b m addr is_mem)
  else Some single.

Definition xgq_ring_read_produced (b : xgq_build) (flags : Z) (m : shared) (r : xgq_ring)
  : option xgq_ring :=
  v ← read_ptr b flags m (xr_produced_addr r) (XGQ_IS_IN_MEM_PROD flags)
        (xgq_read32 b m (xr_produced_addr r) (XGQ_IS_IN_MEM_PROD flags));
  Some (r <| xr_produced := v |>).

Definition xgq_ring_write_produced (b : xgq_build) (flags : Z) (m : shared) (r : xgq_ring)
  : shared := xgq_write32 b m (xr_produced_addr r) (xr_produced r) (XGQ_IS_IN_MEM_PROD flags).

Definition xgq_ring_read_consumed (b : xgq_build) (flags : Z) (m : shared) (r : xgq_ring)
  : option xgq_ring :=
  v ← read_ptr b flags m (xr_consumed_addr r) true (xgq_mem_read32 m (xr_consumed_addr r));
  Some (r <| xr_consumed := v |>).

Definition xgq_ring_write_consumed (m : shared) (r : xgq_ring) : shared :=
  xgq_mem_write32 m (xr_consumed_addr r) (xr_consumed r).

(** 32-bit products, 64-bit sums. *)
Definition xgq_ring_slot_ptr_produced (r : xgq_ring) : Z :=
  u64 (xr_slot_addr r + u32 (xr_slot_sz r * Z.land (xr_produced r) (u32 (xr_slot_num r - 1)))).
Definition xgq_ring_slot_ptr_consumed (r : xgq_ring) : Z :=
  u64 (xr_slot_addr r + u32 (xr_slot_sz r * Z.land (xr_consumed r) (u32 (xr_slot_num r - 1)))).

(** ** Queue operations *)

(** The ring a side produces on, and the one it consumes from. *)
Definition prod_ring (b : xgq_build) (q : xgq) : xgq_ring :=
  if XGQ_SERVER b then xq_cq q else xq_sq q.
Definition cons_ring (b : xgq_build) (q : xgq) : xgq_ring :=
  if XGQ_SERVER b then xq_sq q else xq_cq q.
Definition set_prod_ring (b : xgq_build) (q : xgq) (r : xgq_ring) : xgq :=
  if XGQ_SERVER b then q <| xq_cq := r |> else q <| xq_sq := r |>.
Definition set_cons_ring (b : xgq_build) (q : xgq) (r : xgq_ring) : xgq :=
  if XGQ_SERVER b then q <| xq_sq := r |> else q <| xq_cq := r |>.

Definition xgq_can_produce (b : xgq_build) (m : shared) (q : xgq) : option (bool * xgq) :=
  if negb (xgq_ring_full (prod_ring b q)) then Some (true, q)
  else
    r ← xgq_ring_read_consumed b (xq_flags q) m (prod_ring b q);
    Some (negb (xgq_ring_full r), set_prod_ring b q r).

Definition xgq_can_consume (b : xgq_build) (m : shared) (q : xgq) : option (bool * xgq) :=
  if negb (xgq_ring_empty (cons_ring b q)) then Some (true, q)
  else
    r ← xgq_ring_read_produced b (xq_flags q) m (cons_ring b q);
    Some (negb (xgq_ring_empty r), set_cons_ring b q r).

(** Result: error number, slot address, the queue. *)
Definition xgq_produce (b : xgq_build) (m : shared) (q : xgq) : option (Z * option Z * xgq) :=
  c ← xgq_can_produce b m q;
  let '(ok, q) := c in
  if negb ok then Some (- ENOSPC, None, q)
  else
    let r := prod_ring b q in
    Some (0, Some (xgq_ring_slot_ptr_produced r),
          set_prod_ring b q (r <| xr_produced := u32 (xr_produced r + 1) |>)).

(** With out-of-order writes the slot is polled for the flag of a new entry,
    which is then cleared; [None]: the flag is not there yet. *)
Definition wait_new_flag (m : shared) (addr : Z) : option shared :=
  let val := xgq_mem_read32 m addr in
  if z2b (Z.land val XGQ_ENTRY_NEW_FLAG_MASK)
  then Some (xgq_mem_write32 m addr (Z.land val (2 ^ 32 - 1 - XGQ_ENTRY_NEW_FLAG_MASK)))
  else None.

Definition xgq_consume (b : xgq_build) (m : shared) (q : xgq)
  : option (Z * option Z * xgq * shared) :=
  c ← xgq_can_consume b m q;
  let '(ok, q) := c in
  if negb ok then Some (- ENOENT, None, q, m)
  else
    let r := cons_ring b q in
    let slot := xgq_ring_slot_ptr_consumed r in
    let q := set_cons_ring b q (r <| xr_consumed := u32 (xr_consumed r + 1) |>) in
    m ← (if XGQ_OUT_OF_ORDER_WRITE b then wait_new_flag m slot else Some m);
    Some (0, Some slot, q, m).

Definition xgq_notify_peer_produced (b : xgq_build) (m : shared) (q : xgq) : shared :=
  xgq_ring_write_produced b (xq_flags q) m (prod_ring b q).
Definition xgq_notify_peer_consumed (b : xgq_build) (m : shared) (q : xgq) : shared :=
  xgq_ring_write_consumed m (cons_ring b q).

(** ** Allocation and attachment *)

Definition xgq_fast_forward (b : xgq_build) (flags : Z) (m : shared) (r : xgq_ring)
  : option xgq_ring :=
  r ← xgq_ring_read_produced b flags m r; xgq_ring_read_consumed b flags m r.

Definition xgq_soft_reset (b : xgq_build) (flags : Z) (m : shared) (r : xgq_ring)
  : option (xgq_ring * shared) :=
  r ← xgq_ring_read_produced b flags m r;
  let r := r <| xr_consumed := xr_produced r |> in
  Some (r, xgq_ring_write_consumed m r).

(** The addresses of the producer pointers, and the interrupt enable write
    through the register [en] when they are registers. *)
Definition producer_addrs (flags : Z) (m : shared) (ring_addr sq_produced cq_produced en : Z)
  : Z * Z * shared :=
  if XGQ_IS_IN_MEM_PROD flags
  then (u64 (ring_addr + off_sq_produced), u64 (ring_addr + off_cq_produced), m)
  else (sq_produced, cq_produced, xgq_reg_write32 m (u64 (en + XGQ_INTR_ENABLE_OFFSET)) 1).

Definition xgq_init (b : xgq_build) (flags : Z) (m : shared)
  (ring_addr n_slots slot_size sq_produced cq_produced : Z) : option (xgq * shared) :=
  let flags := u32 flags in
  let flags := if BRAM_COLLISION_WORKAROUND b then Z.lor flags XGQ_DOUBLE_READ else flags in
  let '(sqprod, cqprod, m) :=
    producer_addrs flags m ring_addr sq_produced cq_produced cq_produced in
  let sq := xgq_init_ring sqprod (u64 (ring_addr + off_sq_consumed))
              (u64 (ring_addr + sizeof_header)) n_slots slot_size in
  let cq := xgq_init_ring cqprod (u64 (ring_addr + off_cq_consumed))
              (u64 (ring_addr + sizeof_header + n_slots * slot_size)) n_slots sizeof_com_entry in
  let hdr := mk_xgq_header 0 XGQ_VERSION (u32 n_slots) (u32 (xr_slot_addr sq - ring_addr))
               slot_size (u32 (xr_slot_addr cq - ring_addr)) 0 0 flags 0 0 in
  let m := xgq_copy_to_ring m (hdr_words hdr) ring_addr in
  s ← xgq_soft_reset b flags m sq;
  let '(sq, m) := s in
  c ← xgq_soft_reset b flags m cq;
  let '(cq, m) := c in
  let m := xgq_copy_to_ring m [XGQ_ALLOC_MAGIC] ring_addr in
  Some (mk_xgq ring_addr flags sq cq, m).

Definition total_len (numslots : Z) (slot_size : list Z) : Z :=
  foldl (fun len s => u32 (len + xgq_ring_len numslots s)) 0 slot_size.

(** [numslots] doubles below [2^31], so 31 rounds end the loop
    ([num_slots_loop_ok]). *)
Fixpoint num_slots_loop (fuel : nat) (rlen : Z) (slot_size : list Z) (total numslots : Z)
  : option Z :=
  if (total <=? rlen) && (numslots <? 2 ^ 31) then
    match fuel with
    | O => None
    | S fuel =>
        let numslots := u32 (Z.shiftl numslots 1) in
        num_slots_loop fuel rlen slot_size (total_len numslots slot_size) numslots
    end
  else Some numslots.

Definition xgq_alloc_num_slots (rlen : Z) (slot_size : list Z) : option Z :=
  n ← num_slots_loop 31 rlen slot_size 0 1; Some (Z.shiftr n 1).

(** Result: error number, and on success the queue, the memory and the ring
    length used. *)
Definition xgq_alloc (b : xgq_build) (flags : Z) (m : shared)
  (ring_addr ring_len slot_size sq_produced cq_produced : Z)
  : option (Z + xgq * shared * Z) :=
  if z2b (slot_size mod 4) then Some (inl (- EINVAL))
  else
    n ← xgq_alloc_num_slots ring_len [slot_size];
    let numslots := u32 n in
    if numslots <? XGQ_MIN_NUM_SLOTS then Some (inl (- E2BIG))
    else
      r ← xgq_init b flags m ring_addr numslots slot_size sq_produced cq_produced;
      Some (inr (r.1, r.2, xgq_ring_len numslots slot_size)).

Fixpoint group_init (b : xgq_build) (flags : Z) (m : shared) (raddr numslots : Z)
  (slot_size : list Z) : option (list xgq * shared * Z) :=
  match slot_size with
  | [] => Some ([], m, raddr)
  | s :: slot_size =>
      r ← xgq_init b flags m raddr numslots s 0 0;
      g ← group_init b flags r.2 (u64 (raddr + xgq_ring_len numslots s)) numslots slot_size;
      Some (r.1 :: g.1.1, g.1.2, g.2)
  end.

Definition xgq_group_alloc (b : xgq_build) (flags : Z) (m : shared) (ring_addr ring_len : Z)
  (a_slot_size : list Z) (max_slots : Z) : option (Z + list xgq * shared * Z) :=
  let flags := Z.lor flags XGQ_IN_MEM_PROD in
  if existsb (fun s => z2b (s mod 4)) a_slot_size then Some (inl (- EINVAL))
  else
    n ← xgq_alloc_num_slots ring_len a_slot_size;
    let numslots := u32 n in
    if numslots <? XGQ_MIN_NUM_SLOTS then Some (inl (- E2BIG))
    else
      let numslots := if z2b max_slots && (max_slots <? numslots) then max_slots else numslots in
      g ← group_init b flags m ring_addr numslots a_slot_size;
      Some (inr (g.1.1, g.1.2, u64 (g.2 - ring_addr))).

Definition xgq_attach (b : xgq_build) (flags : Z) (m : shared)
  (ring_addr sq_produced cq_produced : Z) : option (Z + xgq * shared) :=
  if negb (xgq_mem_read32 m ring_addr =? XGQ_ALLOC_MAGIC) then Some (inl (- EAGAIN))
  else
    let hdr := words_hdr (xgq_copy_from_ring m ring_addr 11) in
    let nslots := xh_slot_num hdr in
    if negb (GET_XGQ_MAJOR (xh_version hdr) =? XGQ_MAJOR) then Some (inl (- EOPNOTSUPP))
    else if (nslots <? XGQ_MIN_NUM_SLOTS) || z2b (Z.land nslots (nslots - 1))
    then Some (inl (- EPROTO))
    else
      let flags := Z.lor (Z.lor (u32 flags) (Z.land (xh_flags hdr) XGQ_DOUBLE_READ))
                         (Z.land (xh_flags hdr) XGQ_IN_MEM_PROD) in
      let '(sqprod, cqprod, m) :=
        producer_addrs flags m ring_addr sq_produced cq_produced sq_produced in
      let sq := xgq_init_ring sqprod (u64 (ring_addr + off_sq_consumed))
                  (u64 (ring_addr + xh_sq_offset hdr)) (xh_slot_num hdr) (xh_sq_slot_size hdr) in
      let cq := xgq_init_ring cqprod (u64 (ring_addr + off_cq_consumed))
                  (u64 (ring_addr + xh_cq_offset hdr)) (xh_slot_num hdr) sizeof_com_entry in
      sq ← xgq_fast_forward b flags m sq;
      cq ← xgq_fast_forward b flags m cq;
      Some (inr (mk_xgq ring_addr flags sq cq, m)).
