(* ===== verification/XgqRing.v ===== *)
(** * XGQ: one ring

    Lemmas about shared memory and about the operations of [Xgq] on one of the
    two rings, seen from the side that produces and from the side that
    consumes.  [inv] relates the four copies of the two ring pointers and the
    slots to the list of entries sent so far; the pointers wrap at 32 bits, the
    ghost counts do not. *)
From S2P Require Import Prelude Xgq.

(** ** Shared memory *)

Lemma ioread_write_eq m a v : ioread32 (iowrite32 m a v) a = u32 v.
Proof. unfold ioread32, iowrite32. by rewrite lookup_insert_eq. Qed.

Lemma ioread_write_ne m a a' v : a <> a' -> ioread32 (iowrite32 m a v) a' = ioread32 m a'.
Proof. intros. unfold ioread32, iowrite32. by rewrite lookup_insert_ne. Qed.

Lemma xgq_read32_eq b m a is_mem : xgq_read32 b m a is_mem = ioread32 m a.
Proof. unfold xgq_read32. by destruct (XGQ_MEM_REG_ACCESS_DIFFER b), is_mem. Qed.

Lemma xgq_write32_eq b m a v is_mem : xgq_write32 b m a v is_mem = iowrite32 m a v.
Proof. unfold xgq_write32. by destruct (XGQ_MEM_REG_ACCESS_DIFFER b), is_mem. Qed.

(** Word [a] is one of the [n] words from [base]. *)
Definition in_words (base : Z) (n : nat) (a : Z) : Prop :=
  exists j, 0 <= j < Z.of_nat n /\ a = base + 4 * j.

Lemma copy_to_outside buf : forall m tgt a,
  0 <= tgt -> tgt + 4 * Z.of_nat (length buf) <= 2 ^ 64 ->
  ~ in_words tgt (length buf) a -> ioread32 (xgq_copy_to_ring m buf tgt) a = ioread32 m a.
Proof.
  induction buf as [|w buf IH]; intros m tgt a Ht Hl Hout; cbn [xgq_copy_to_ring length] in *; [done|].
  assert (tgt <> a) as Hne by (intros ->; apply Hout; exists 0; lia).
  destruct buf as [|w' buf]; [by apply ioread_write_ne|].
  cbn [length] in Hl. rewrite u64_small by lia. rewrite IH.
  - by apply ioread_write_ne.
  - lia.
  - cbn [length]. lia.
  - intros (j & Hj & ->). apply Hout. exists (j + 1). cbn [length] in *. lia.
Qed.

Lemma copy_from_ext n : forall m1 m2 src,
  0 <= src -> src + 4 * Z.of_nat n <= 2 ^ 64 ->
  (forall a, in_words src n a -> ioread32 m1 a = ioread32 m2 a) ->
  xgq_copy_from_ring m1 src n = xgq_copy_from_ring m2 src n.
Proof.
  induction n as [|n IH]; intros m1 m2 src Hs Hl He; cbn [xgq_copy_from_ring]; [done|].
  f_equal; [apply He; exists 0; lia|].
  destruct n as [|n]; [done|]. rewrite u64_small by lia. apply IH; [lia|lia|].
  intros a (j & Hj & ->). apply He. exists (j + 1). lia.
Qed.

Lemma copy_to_from buf : forall m tgt,
  0 <= tgt -> tgt + 4 * Z.of_nat (length buf) <= 2 ^ 64 ->
  xgq_copy_from_ring (xgq_copy_to_ring m buf tgt) tgt (length buf) = u32 <$> buf.
Proof.
  induction buf as [|w buf IH]; intros m tgt Ht Hl; cbn [xgq_copy_to_ring length xgq_copy_from_ring] in *;
    [done|].
  rewrite fmap_cons. destruct buf as [|w' buf].
  { cbn. f_equal. apply ioread_write_eq. }
  cbn [length] in Hl. rewrite u64_small by lia. f_equal.
  - unfold xgq_mem_read32. rewrite copy_to_outside.
    + apply ioread_write_eq.
    + lia.
    + cbn [length]. lia.
    + intros (j & Hj & E). lia.
  - apply IH; cbn [length]; lia.
Qed.

Lemma length_copy_from m n : forall src, length (xgq_copy_from_ring m src n) = n.
Proof. induction n as [|n IH]; intros src; cbn [xgq_copy_from_ring length]; [done|]. by rewrite IH. Qed.

Lemma take_copy_from m k : forall n src, (k <= n)%nat ->
  take k (xgq_copy_from_ring m src n) = xgq_copy_from_ring m src k.
Proof.
  induction k as [|k IH]; intros [|n] src Hk; try done; [lia|].
  cbn [xgq_copy_from_ring take]. f_equal. apply IH. lia.
Qed.

Lemma fmap_u32_id l : Forall (fun w => 0 <= w < 2 ^ 32) l -> u32 <$> l = l.
Proof. induction 1 as [|w l Hw _ IH]; [done|]. rewrite fmap_cons, IH, u32_small; [done|lia]. Qed.

(** ** Double reads *)

Lemma double_read_stable (v : Z) : 0 <= v < 2 ^ 32 -> xgq_double_read32 1 (fun _ => v) = Some v.
Proof.
  intros Hv. unfold xgq_double_read32. cbn [double_read].
  assert (u32 (v - 1) =? v = false) as ->.
  { apply Z.eqb_neq. unfold u32. destruct (decide (v = 0)) as [->|]; [done|].
    rewrite Z.mod_small by lia. lia. }
  by rewrite Z.eqb_refl.
Qed.

Lemma double_read_S fuel reads k odd v0 v1 :
  double_read (S fuel) reads k odd v0 v1 =
  if v0 =? v1 then Some v0
  else if odd then double_read fuel reads (S k) false v0 (reads k)
       else double_read fuel reads (S k) true (reads k) v1.
Proof. done. Qed.

(** The last two reads are the two values compared. *)
Lemma double_read_sound fuel reads : forall k (odd : bool) v0 v1 v,
  (if odd then v0 else v1) = reads k -> double_read fuel reads (S k) odd v0 v1 = Some v ->
  v = reads k /\ v0 = v1 \/ exists j, (k <= j)%nat /\ reads j = v /\ reads (S j) = v.
Proof.
  induction fuel as [|fuel IH]; intros k odd v0 v1 v Hlast Hd.
  { cbn [double_read] in Hd. destruct (Z.eqb_spec v0 v1) as [->|]; [|done]. injection Hd as <-.
    left. by destruct odd. }
  rewrite double_read_S in Hd.
  destruct (Z.eqb_spec v0 v1) as [->|Hne]; [injection Hd as <-; left; by destruct odd|].
  right. destruct odd; subst.
  - apply IH in Hd; [|done]. destruct Hd as [[-> E]|(j & Hj & H)]; [|exists j; split; [lia|done]].
    exists k. split; [lia|]. split; [|done]. by rewrite <- E.
  - apply IH in Hd; [|done]. destruct Hd as [[-> E]|(j & Hj & H)]; [|exists j; split; [lia|done]].
    exists k. split; [lia|]. split; [|done]. by rewrite E.
Qed.

Lemma double_read_complete fuel reads : forall k (odd : bool) v0 v1 j,
  (if odd then v0 else v1) = reads k -> (k <= j)%nat -> (j - k < fuel)%nat ->
  reads j = reads (S j) -> is_Some (double_read fuel reads (S k) odd v0 v1).
Proof.
  induction fuel as [|fuel IH]; intros k odd v0 v1 j Hlast Hkj Hf Hj; [lia|].
  rewrite double_read_S. destruct (Z.eqb_spec v0 v1); [by eexists|].
  destruct (decide (j = k)) as [->|].
  - destruct odd; subst; destruct fuel; cbn [double_read].
    all: replace (_ =? _) with true by lia; by eexists.
  - destruct odd; (eapply (IH (S k) _ _ _ j); [done|lia|lia|done]).
Qed.

Lemma read_ptr_ok b flags m a is_mem :
  0 <= ioread32 m a < 2 ^ 32 -> read_ptr b flags m a is_mem (ioread32 m a) = Some (ioread32 m a).
Proof.
  intros Hv. unfold read_ptr. destruct (_ || _); [|done].
  rewrite xgq_read32_eq. by apply double_read_stable.
Qed.

(** ** Geometry of a ring *)

Record geom := mk_geom {
  g_log : Z;
  g_sz : Z;
  g_prod : Z;
  g_cons : Z;
  g_slots : Z;
  g_base : Z;   (** value of the pointers at the start *)
}.
Definition g_n (g : geom) : Z := 2 ^ g_log g.
Definition g_words (g : geom) : nat := Z.to_nat (g_sz g / 4).

Definition slot_at (g : geom) (k : Z) : Z := g_slots g + g_sz g * ((g_base g + k) mod g_n g).

Definition in_slots (g : geom) (a : Z) : Prop := in_words (g_slots g) (Z.to_nat (g_n g * (g_sz g / 4))) a.
Definition in_ring (g : geom) (a : Z) : Prop := a = g_prod g \/ a = g_cons g \/ in_slots g a.

Record geom_ok (g : geom) : Prop := {
  gk_log : 1 <= g_log g <= 31;
  gk_sz : 4 <= g_sz g /\ g_sz g mod 4 = 0;
  gk_size : g_n g * g_sz g < 2 ^ 32;
  gk_addr : 0 <= g_slots g /\ g_slots g + g_n g * g_sz g <= 2 ^ 64;
  gk_ptrs : g_prod g <> g_cons g;
  gk_prod : ~ in_slots g (g_prod g);
  gk_cons : ~ in_slots g (g_cons g);
}.

(** A side's copy of the ring has this geometry. *)
Record has_geom (g : geom) (r : xgq_ring) : Prop := {
  hg_n : xr_slot_num r = g_n g;
  hg_sz : xr_slot_sz r = g_sz g;
  hg_prod : xr_produced_addr r = g_prod g;
  hg_cons : xr_consumed_addr r = g_cons g;
  hg_slots : xr_slot_addr r = g_slots g;
}.

Lemma u32_sub a b : u32 (u32 a - u32 b) = u32 (a - b).
Proof. unfold u32. symmetry. apply Zminus_mod. Qed.

Lemma u32_add1 a : u32 (u32 a + 1) = u32 (a + 1).
Proof. unfold u32. apply Zplus_mod_idemp_l. Qed.

Lemma u32_inj a b : u32 a = u32 b -> - 2 ^ 32 < a - b < 2 ^ 32 -> a = b.
Proof.
  intros E Hab. assert (u32 (a - b) = 0) as E0.
  { rewrite <- u32_sub, E, Z.sub_diag. done. }
  unfold u32 in E0. apply Z.mod_divide in E0 as [q Hq]; lia.
Qed.

Section Geometry.
Context (g : geom) (Hg : geom_ok g).

Lemma g_n_bounds : 2 <= g_n g <= 2 ^ 31.
Proof.
  destruct (gk_log _ Hg). unfold g_n. split.
  - change 2 with (2 ^ 1) at 1. apply Z.pow_le_mono_r; lia.
  - apply Z.pow_le_mono_r; lia.
Qed.

Lemma g_sz_words : g_sz g = 4 * Z.of_nat (g_words g).
Proof. destruct (gk_sz _ Hg). unfold g_words. rewrite Z2Nat.id; [|apply Z.div_pos; lia].
  apply Z.div_exact in H0; lia. Qed.

(** Masking a wrapped pointer gives the slot of the unwrapped one. *)
Lemma slot_mask r k : has_geom g r -> Z.land (u32 k) (u32 (xr_slot_num r - 1)) = k mod g_n g.
Proof.
  intros Hr. rewrite (hg_n _ _ Hr). pose proof g_n_bounds. pose proof (gk_log _ Hg).
  rewrite (u32_small (g_n g - 1)) by lia.
  replace (g_n g - 1) with (Z.ones (g_log g)) by (rewrite Z.ones_equiv; unfold g_n; lia).
  rewrite Z.land_ones by lia. fold (g_n g). unfold u32.
  assert (2 ^ 32 = g_n g * 2 ^ (32 - g_log g)) as E.
  { unfold g_n. rewrite <- Z.pow_add_r by lia. f_equal. lia. }
  rewrite E. rewrite Z.rem_mul_r by lia.
  rewrite Z.mul_comm, Z.mod_add by lia. by rewrite Z.mod_mod by lia.
Qed.

Lemma slot_index_bounds k : 0 <= (g_base g + k) mod g_n g < g_n g.
Proof. pose proof g_n_bounds. apply Z.mod_pos_bound. lia. Qed.

Lemma slot_ptr r k : has_geom g r ->
  u64 (xr_slot_addr r + u32 (xr_slot_sz r * Z.land (u32 (g_base g + k)) (u32 (xr_slot_num r - 1)))) =
  slot_at g k.
Proof.
  intros Hr. rewrite slot_mask by done. rewrite (hg_sz _ _ Hr), (hg_slots _ _ Hr).
  pose proof (slot_index_bounds k). destruct (gk_sz _ Hg), (gk_addr _ Hg). pose proof (gk_size _ Hg).
  rewrite u32_small by nia. rewrite u64_small by nia. done.
Qed.

Lemma slot_at_bounds k : 0 <= slot_at g k /\ slot_at g k + g_sz g <= 2 ^ 64.
Proof.
  pose proof (slot_index_bounds k). destruct (gk_addr _ Hg), (gk_sz _ Hg). unfold slot_at. split; nia.
Qed.

Lemma slot_words_in k j : 0 <= j < Z.of_nat (g_words g) -> in_slots g (slot_at g k + 4 * j).
Proof.
  intros Hj. pose proof (slot_index_bounds k). pose proof g_sz_words as E.
  assert (g_sz g / 4 = Z.of_nat (g_words g)) as Ew by (rewrite E; rewrite Z.mul_comm; apply Z.div_mul; lia).
  exists (Z.of_nat (g_words g) * ((g_base g + k) mod g_n g) + j). rewrite Ew. unfold slot_at.
  split; [|rewrite E; lia]. rewrite Z2Nat.id by nia. nia.
Qed.

Lemma slot_at_ne k k' : k <> k' -> - g_n g < k - k' < g_n g ->
  forall a, in_words (slot_at g k) (g_words g) a -> ~ in_words (slot_at g k') (g_words g) a.
Proof.
  intros Hne Hd a (j & Hj & ->) (j' & Hj' & E). pose proof g_n_bounds.
  unfold slot_at in E. pose proof g_sz_words as Es. pose proof (slot_index_bounds k). pose proof (slot_index_bounds k').
  assert ((g_base g + k) mod g_n g = (g_base g + k') mod g_n g) as Em.
  { set (i := (g_base g + k) mod g_n g) in *. set (i' := (g_base g + k') mod g_n g) in *.
    rewrite Es in E. destruct (Z.lt_trichotomy i i') as [|[|]]; [nia|done|nia]. }
  assert ((k - k') mod g_n g = 0) as E0.
  { replace (k - k') with ((g_base g + k) - (g_base g + k')) by lia.
    by rewrite Zminus_mod, Em, Z.sub_diag. }
  apply Z.mod_divide in E0; [|lia]. destruct E0 as [q Hq].
  destruct (decide (q = 0)) as [->|]; nia.
Qed.

Lemma in_words_le base n n' a : (n <= n')%nat -> in_words base n a -> in_words base n' a.
Proof. intros Hn (j & Hj & ->). exists j. lia. Qed.
End Geometry.

(** ** Entries *)

(** An entry fits its slot; where the consumer polls for the flag of a new
    entry ([ooo]) the producer has set it. *)
Record entry_ok (g : geom) (ooo : bool) (e : list Z) : Prop := {
  eo_len : (0 < length e <= g_words g)%nat;
  eo_words : Forall (fun w => 0 <= w < 2 ^ 32) e;
  eo_flag : ooo = true -> Z.testbit (hd 0 e) 31 = true;
}.

(** What the consumer finds: the flag is cleared when it polls for it. *)
Definition deliver (ooo : bool) (e : list Z) : list Z :=
  match e with
  | w :: e' => if ooo then Z.land w (2 ^ 32 - 1 - XGQ_ENTRY_NEW_FLAG_MASK) :: e' else e
  | [] => []
  end.

(** ** Invariant of a ring *)

(** Ghost state: the entries sent and five counts of entries: published by the
    producer, known to the consumer, consumed, acknowledged by the consumer,
    known to the producer to be consumed. *)
Record ghost := mk_ghost {
  gh_sent : list (list Z);
  gh_pub : Z;
  gh_view : Z;
  gh_recv : Z;
  gh_ack : Z;
  gh_seen : Z;
}.
#[export] Instance eta_ghost : Eta ghost := fun x =>
  mk_ghost (gh_sent x) (gh_pub x) (gh_view x) (gh_recv x) (gh_ack x) (gh_seen x).

Definition num_sent (x : ghost) : Z := Z.of_nat (length (gh_sent x)).

Record inv (g : geom) (ooo : bool) (x : ghost) (m : shared) (rp rc : xgq_ring) : Prop := {
  iv_rp : has_geom g rp;
  iv_rc : has_geom g rc;
  iv_order : 0 <= gh_seen x <= gh_ack x /\ gh_ack x <= gh_recv x <= gh_view x /\
             gh_view x <= gh_pub x <= num_sent x /\ num_sent x <= gh_seen x + g_n g;
  iv_produced : xr_produced rp = u32 (g_base g + num_sent x);
  iv_seen : xr_consumed rp = u32 (g_base g + gh_seen x);
  iv_pub : ioread32 m (g_prod g) = u32 (g_base g + gh_pub x);
  iv_ack : ioread32 m (g_cons g) = u32 (g_base g + gh_ack x);
  iv_view : xr_produced rc = u32 (g_base g + gh_view x);
  iv_consumed : xr_consumed rc = u32 (g_base g + gh_recv x);
  iv_slots : forall k e, gh_sent x !! k = Some e -> gh_recv x <= Z.of_nat k ->
               xgq_copy_from_ring m (slot_at g (Z.of_nat k)) (length e) = e;
  iv_entries : Forall (entry_ok g ooo) (gh_sent x);
}.

Section Ring.
Context (g : geom) (Hg : geom_ok g) (ooo : bool).
#[local] Abbreviation Inv := (inv g ooo).

(** An entry is unchanged when the slots are. *)
Lemma slots_frame x m m' rp rc k e :
  Inv x m rp rc -> gh_sent x !! k = Some e ->
  (forall a, in_slots g a -> ioread32 m' a = ioread32 m a) ->
  xgq_copy_from_ring m' (slot_at g (Z.of_nat k)) (length e) =
  xgq_copy_from_ring m (slot_at g (Z.of_nat k)) (length e).
Proof.
  intros H Hk Hf. assert (entry_ok g ooo e) as He by (eapply Forall_lookup_1; [apply H|done]).
  destruct (slot_at_bounds g Hg (Z.of_nat k)). pose proof (g_sz_words g Hg). pose proof (eo_len _ _ _ He).
  apply copy_from_ext; [lia|lia|]. intros a (j & Hj & ->). apply Hf, slot_words_in; [done|]. lia.
Qed.

(** Only the ring's own words matter. *)
Lemma inv_frame x m m' rp rc :
  Inv x m rp rc -> (forall a, in_ring g a -> ioread32 m' a = ioread32 m a) -> Inv x m' rp rc.
Proof.
  intros H Hf. split; try apply H.
  - rewrite Hf; [apply H|by left].
  - rewrite Hf; [apply H|by right; left].
  - intros k e Hk Hr. rewrite <- (iv_slots _ _ _ _ _ _ H k e Hk Hr) at 2.
    eapply slots_frame; [exact H|done|]. intros a Ha. apply Hf. by right; right.
Qed.

Lemma full_spec x m rp rc : Inv x m rp rc -> xgq_ring_full rp = (gh_seen x + g_n g <=? num_sent x).
Proof.
  intros H. unfold xgq_ring_full. rewrite (iv_produced _ _ _ _ _ _ H), (iv_seen _ _ _ _ _ _ H), u32_sub.
  rewrite (hg_n _ _ (iv_rp _ _ _ _ _ _ H)). pose proof (iv_order _ _ _ _ _ _ H). pose proof (g_n_bounds g Hg).
  rewrite u32_small by lia. lia.
Qed.

Lemma empty_spec x m rp rc : Inv x m rp rc -> xgq_ring_empty rc = (gh_view x =? gh_recv x).
Proof.
  intros H. unfold xgq_ring_empty. rewrite (iv_view _ _ _ _ _ _ H), (iv_consumed _ _ _ _ _ _ H).
  pose proof (iv_order _ _ _ _ _ _ H). pose proof (g_n_bounds g Hg).
  destruct (Z.eqb_spec (gh_view x) (gh_recv x)) as [->|Hne]; [apply Z.eqb_refl|].
  apply Z.eqb_neq. intros E. apply u32_inj in E; lia.
Qed.

(** Refreshing the producer's copy of the consumed pointer. *)
Lemma read_consumed_ok b flags x m rp rc : Inv x m rp rc ->
  exists rp', xgq_ring_read_consumed b flags m rp = Some rp' /\
    Inv (x <| gh_seen := gh_ack x |>) m rp' rc.
Proof.
  intros H. unfold xgq_ring_read_consumed, xgq_mem_read32.
  rewrite (hg_cons _ _ (iv_rp _ _ _ _ _ _ H)), read_ptr_ok
    by (rewrite (iv_ack _ _ _ _ _ _ H); apply u32_range).
  cbn [mbind option_bind]. eexists. split; [reflexivity|]. destruct H, iv_rp0.
  split; rproj; try done. unfold num_sent in *. rproj. lia.
Qed.

Lemma read_produced_ok b flags x m rp rc : Inv x m rp rc ->
  exists rc', xgq_ring_read_produced b flags m rc = Some rc' /\
    Inv (x <| gh_view := gh_pub x |>) m rp rc'.
Proof.
  intros H. unfold xgq_ring_read_produced. rewrite xgq_read32_eq.
  rewrite (hg_prod _ _ (iv_rc _ _ _ _ _ _ H)), read_ptr_ok
    by (rewrite (iv_pub _ _ _ _ _ _ H); apply u32_range).
  cbn [mbind option_bind]. eexists. split; [reflexivity|]. destruct H, iv_rc0.
  split; rproj; try done. unfold num_sent in *. rproj. lia.
Qed.

(** The counts a specification sees. *)
Definition same_counts (x x' : ghost) : Prop :=
  gh_sent x' = gh_sent x /\ gh_pub x' = gh_pub x /\ gh_recv x' = gh_recv x /\ gh_ack x' = gh_ack x.

Lemma prod_set b q r : prod_ring b (set_prod_ring b q r) = r.
Proof. unfold prod_ring, set_prod_ring. by destruct (XGQ_SERVER b). Qed.
Lemma cons_set_prod b q r : cons_ring b (set_prod_ring b q r) = cons_ring b q.
Proof. unfold cons_ring, set_prod_ring. by destruct (XGQ_SERVER b). Qed.
Lemma cons_set b q r : cons_ring b (set_cons_ring b q r) = r.
Proof. unfold cons_ring, set_cons_ring. by destruct (XGQ_SERVER b). Qed.
Lemma prod_set_cons b q r : prod_ring b (set_cons_ring b q r) = prod_ring b q.
Proof. unfold prod_ring, set_cons_ring. by destruct (XGQ_SERVER b). Qed.

Lemma can_produce_ok b m q x rc : Inv x m (prod_ring b q) rc ->
  exists q' x', xgq_can_produce b m q = Some (num_sent x <? gh_seen x' + g_n g, q') /\
    cons_ring b q' = cons_ring b q /\ same_counts x x' /\ Inv x' m (prod_ring b q') rc /\
    (num_sent x = gh_seen x' + g_n g -> gh_seen x' = gh_ack x).
Proof.
  intros H. unfold xgq_can_produce. rewrite (full_spec _ _ _ _ H).
  destruct (Z.leb_spec (gh_seen x + g_n g) (num_sent x)) as [Hf|Hf]; cbn [negb].
  - destruct (read_consumed_ok b (xq_flags q) _ _ _ _ H) as (r & -> & H').
    cbn [mbind option_bind]. eexists _, _. rewrite (full_spec _ _ _ _ H'), prod_set, cons_set_prod.
    split; [|split; [done|split; [|split; [exact H'|done]]]].
    + unfold num_sent. rproj. f_equal. f_equal. lia.
    + done.
  - exists q, x. split; [f_equal; f_equal; lia|]. repeat (split; [done|]). lia.
Qed.

Lemma can_consume_ok b m q x rp : Inv x m rp (cons_ring b q) ->
  exists q' x', xgq_can_consume b m q = Some (gh_recv x <? gh_view x', q') /\
    prod_ring b q' = prod_ring b q /\ same_counts x x' /\ Inv x' m rp (cons_ring b q') /\
    (gh_recv x = gh_view x' -> gh_view x' = gh_pub x).
Proof.
  intros H. unfold xgq_can_consume. rewrite (empty_spec _ _ _ _ H).
  pose proof (iv_order _ _ _ _ _ _ H).
  destruct (Z.eqb_spec (gh_view x) (gh_recv x)) as [He|He]; cbn [negb].
  - destruct (read_produced_ok b (xq_flags q) _ _ _ _ H) as (r & -> & H').
    cbn [mbind option_bind]. eexists _, _. rewrite (empty_spec _ _ _ _ H'), cons_set, prod_set_cons.
    split; [|split; [done|split; [|split; [exact H'|done]]]].
    + rproj. f_equal. f_equal. lia.
    + done.
  - exists q, x. split; [f_equal; f_equal; lia|]. repeat (split; [done|]). lia.
Qed.

(** Writing an entry into the slot of the next index. *)
Lemma fill_ok x m rp rc e :
  Inv x m rp rc -> num_sent x < gh_seen x + g_n g -> entry_ok g ooo e ->
  Inv (x <| gh_sent := gh_sent x ++ [e] |>) (xgq_copy_to_ring m e (slot_at g (num_sent x)))
      (rp <| xr_produced := u32 (xr_produced rp + 1) |>) rc.
Proof.
  intros H Hroom He. destruct (slot_at_bounds g Hg (num_sent x)) as [Hs1 Hs2].
  pose proof (g_sz_words g Hg) as Hw. pose proof (eo_len _ _ _ He) as Hl.
  assert (forall a, ~ in_slots g a ->
    ioread32 (xgq_copy_to_ring m e (slot_at g (num_sent x))) a = ioread32 m a) as Hout.
  { intros a Ha. apply copy_to_outside; [lia|lia|]. intros (j & Hj & ->). apply Ha, slot_words_in; [done|lia]. }
  assert (num_sent (x <| gh_sent := gh_sent x ++ [e] |>) = num_sent x + 1) as En.
  { unfold num_sent. rproj. rewrite length_app. cbn [length]. lia. }
  pose proof (iv_order _ _ _ _ _ _ H) as Ho.
  split; rewrite ?En; rproj; try apply H.
  - destruct (iv_rp _ _ _ _ _ _ H). by split.
  - lia.
  - rewrite (iv_produced _ _ _ _ _ _ H), u32_add1. f_equal. lia.
  - rewrite Hout by apply Hg. apply H.
  - rewrite Hout by apply Hg. apply H.
  - intros k e' Hk Hr. destruct (decide (k = length (gh_sent x))) as [->|Hne].
    + rewrite lookup_app_r, Nat.sub_diag in Hk by lia. injection Hk as <-.
      fold (num_sent x). rewrite copy_to_from by lia. apply fmap_u32_id, He.
    + assert (k < length (gh_sent x))%nat as Hlt.
      { apply lookup_lt_Some in Hk. rewrite length_app in Hk. cbn [length] in Hk. lia. }
      rewrite lookup_app_l in Hk by done. rewrite <- (iv_slots _ _ _ _ _ _ H k e' Hk Hr) at 2.
      assert (entry_ok g ooo e') as He' by (eapply Forall_lookup_1; [apply H|done]).
      destruct (slot_at_bounds g Hg (Z.of_nat k)). pose proof (eo_len _ _ _ He').
      apply copy_from_ext; [lia|lia|]. intros a Ha. apply copy_to_outside; [lia|lia|]. intros Ha'.
      eapply (slot_at_ne g Hg (Z.of_nat k) (num_sent x)); [..|eapply in_words_le; [|exact Ha']].
      * unfold num_sent. lia.
      * unfold num_sent in *. lia.
      * eapply in_words_le; [|exact Ha]. lia.
      * lia.
  - apply Forall_app. split; [apply H|]. by constructor.
Qed.

(** The entry the consumer is about to read. *)
Lemma next_entry x m rp rc : Inv x m rp rc -> gh_recv x < gh_view x ->
  exists e, gh_sent x !! Z.to_nat (gh_recv x) = Some e /\ entry_ok g ooo e /\
    xgq_copy_from_ring m (slot_at g (gh_recv x)) (length e) = e.
Proof.
  intros H Hlt. pose proof (iv_order _ _ _ _ _ _ H) as Ho.
  destruct (lookup_lt_is_Some_2 (gh_sent x) (Z.to_nat (gh_recv x))) as [e He];
    [unfold num_sent in Ho; lia|].
  exists e. split; [done|]. split; [eapply Forall_lookup_1; [apply H|done]|].
  rewrite <- (Z2Nat.id (gh_recv x)) at 1 by lia. apply (iv_slots _ _ _ _ _ _ H); [done|lia].
Qed.

Lemma recv_step x m m' rp rc :
  Inv x m rp rc -> gh_recv x < gh_view x ->
  (forall a, ~ in_words (slot_at g (gh_recv x)) (g_words g) a -> ioread32 m' a = ioread32 m a) ->
  Inv (x <| gh_recv := gh_recv x + 1 |>) m' rp (rc <| xr_consumed := u32 (xr_consumed rc + 1) |>).
Proof.
  intros H Hlt Hf. pose proof (iv_order _ _ _ _ _ _ H) as Ho.
  assert (forall a, ~ in_slots g a -> ioread32 m' a = ioread32 m a) as Hout.
  { intros a Ha. apply Hf. intros (j & Hj & ->). by apply Ha, slot_words_in. }
  split; rproj; try apply H; unfold num_sent in *; rproj.
  - destruct (iv_rc _ _ _ _ _ _ H). by split.
  - lia.
  - rewrite Hout by apply Hg. apply H.
  - rewrite Hout by apply Hg. apply H.
  - rewrite (iv_consumed _ _ _ _ _ _ H), u32_add1. f_equal. lia.
  - intros k e Hk Hr. rewrite <- (iv_slots _ _ _ _ _ _ H k e Hk) at 2 by lia.
    assert (entry_ok g ooo e) as He by (eapply Forall_lookup_1; [apply H|done]).
    destruct (slot_at_bounds g Hg (Z.of_nat k)). pose proof (eo_len _ _ _ He).
    pose proof (g_sz_words g Hg). apply lookup_lt_Some in Hk.
    apply copy_from_ext; [lia|lia|]. intros a Ha. apply Hf.
    apply (slot_at_ne g Hg (Z.of_nat k)); [lia|lia|]. eapply in_words_le; [|exact Ha]. lia.
Qed.

Lemma flag_land w : z2b (Z.land w XGQ_ENTRY_NEW_FLAG_MASK) = Z.testbit w 31.
Proof.
  change XGQ_ENTRY_NEW_FLAG_MASK with (2 ^ 31). unfold z2b.
  destruct (Z.testbit w 31) eqn:E.
  - apply negb_true_iff, Z.eqb_neq. intros H0.
    assert (Z.testbit (Z.land w (2 ^ 31)) 31 = false) as H1 by (rewrite H0; apply Z.bits_0).
    rewrite Z.land_spec, E, Z.pow2_bits_true in H1; [done|lia].
  - apply negb_false_iff, Z.eqb_eq. apply Z.bits_inj_0. intros n. rewrite Z.land_spec.
    destruct (decide (n = 31)) as [->|Hn]; [by rewrite E|].
    rewrite Z.pow2_bits_false by lia. by rewrite andb_false_r.
Qed.

Lemma mask_range w : 0 <= w < 2 ^ 32 -> 0 <= Z.land w (2 ^ 32 - 1 - XGQ_ENTRY_NEW_FLAG_MASK) < 2 ^ 32.
Proof.
  intros Hw. change (2 ^ 32 - 1 - XGQ_ENTRY_NEW_FLAG_MASK) with (Z.ones 31).
  rewrite Z.land_ones by lia. pose proof (Z.mod_pos_bound w (2 ^ 31)). lia.
Qed.

(** The slot after the flag has been waited for, and what it then holds. *)
Lemma slot_ready x m rp rc b :
  XGQ_OUT_OF_ORDER_WRITE b = ooo -> Inv x m rp rc -> gh_recv x < gh_view x ->
  exists e m', gh_sent x !! Z.to_nat (gh_recv x) = Some e /\
    (if XGQ_OUT_OF_ORDER_WRITE b then wait_new_flag m (slot_at g (gh_recv x)) else Some m) = Some m' /\
    take (length e) (xgq_copy_from_ring m' (slot_at g (gh_recv x)) (g_words g)) = deliver ooo e /\
    (forall a, ~ in_words (slot_at g (gh_recv x)) (g_words g) a -> ioread32 m' a = ioread32 m a).
Proof.
  intros -> H Hlt. destruct (next_entry _ _ _ _ H Hlt) as (e & He & Hok & Hr).
  exists e. destruct (eo_len _ _ _ Hok) as [Hl1 Hl2]. destruct e as [|w e]; [cbn in Hl1; lia|].
  destruct (slot_at_bounds g Hg (gh_recv x)). pose proof (g_sz_words g Hg).
  setoid_rewrite take_copy_from; [|done..].
  destruct ooo eqn:Eo; [|exists m; unfold deliver; done].
  cbn [length xgq_copy_from_ring] in Hr. injection Hr as Hw Hr. unfold wait_new_flag, xgq_mem_read32 in *.
  rewrite Hw, flag_land. pose proof (eo_flag _ _ _ Hok eq_refl) as Hflag. cbn [hd] in Hflag. rewrite Hflag.
  eexists. split; [done|]. split; [reflexivity|]. pose proof (eo_words _ _ _ Hok) as HF.
  apply Forall_cons in HF as [Hw0 _]. cbn [length] in *. split.
  - cbn [xgq_copy_from_ring deliver]. unfold xgq_mem_read32, xgq_mem_write32.
    rewrite ioread_write_eq, u32_small by (by apply mask_range). f_equal. rewrite <- Hr at 2.
    destruct e as [|w' e]; [done|]. cbn [length] in *. rewrite u64_small by lia.
    apply copy_from_ext; [lia|cbn [length]; lia|].
    intros a (j & Hj & ->). apply ioread_write_ne. lia.
  - intros a Ha. apply ioread_write_ne. intros <-. apply Ha. exists 0. lia.
Qed.

(** Publishing and acknowledging. *)
Lemma publish_ok b flags x m rp rc : Inv x m rp rc ->
  Inv (x <| gh_pub := num_sent x |>) (xgq_ring_write_produced b flags m rp) rp rc /\
  forall a, a <> g_prod g -> ioread32 (xgq_ring_write_produced b flags m rp) a = ioread32 m a.
Proof.
  intros H. unfold xgq_ring_write_produced. rewrite xgq_write32_eq, (hg_prod _ _ (iv_rp _ _ _ _ _ _ H)).
  assert (forall a, a <> g_prod g ->
    ioread32 (iowrite32 m (g_prod g) (xr_produced rp)) a = ioread32 m a) as Hf
    by (intros; by apply ioread_write_ne).
  split; [|done]. pose proof (iv_order _ _ _ _ _ _ H) as Ho.
  split; rproj; try apply H; unfold num_sent in *; rproj.
  - lia.
  - rewrite ioread_write_eq, (iv_produced _ _ _ _ _ _ H), u32_u32. done.
  - rewrite Hf; [apply H|]. apply not_eq_sym, Hg.
  - intros k e Hk Hr. rewrite <- (iv_slots _ _ _ _ _ _ H k e Hk Hr) at 2.
    by eapply slots_frame; [exact H|done|intros a Ha; apply Hf; intros ->; by apply (gk_prod _ Hg)].
Qed.

Lemma acknowledge_ok x m rp rc : Inv x m rp rc ->
  Inv (x <| gh_ack := gh_recv x |>) (xgq_ring_write_consumed m rc) rp rc /\
  forall a, a <> g_cons g -> ioread32 (xgq_ring_write_consumed m rc) a = ioread32 m a.
Proof.
  intros H. unfold xgq_ring_write_consumed, xgq_mem_write32. rewrite (hg_cons _ _ (iv_rc _ _ _ _ _ _ H)).
  assert (forall a, a <> g_cons g ->
    ioread32 (iowrite32 m (g_cons g) (xr_consumed rc)) a = ioread32 m a) as Hf
    by (intros; by apply ioread_write_ne).
  split; [|done]. pose proof (iv_order _ _ _ _ _ _ H) as Ho.
  split; rproj; try apply H; unfold num_sent in *; rproj.
  - lia.
  - rewrite Hf; [apply H|]. apply Hg.
  - rewrite ioread_write_eq, (iv_consumed _ _ _ _ _ _ H), u32_u32. done.
  - intros k e Hk Hr. rewrite <- (iv_slots _ _ _ _ _ _ H k e Hk Hr) at 2.
    by eapply slots_frame; [exact H|done|intros a Ha; apply Hf; intros ->; by apply (gk_cons _ Hg)].
Qed.
End Ring.

(** The double read returns only a value that two consecutive reads have
    returned, and it ends as soon as two consecutive reads agree. *)
Theorem xgq_double_read32_agrees reads fuel :
  (forall k, 0 <= reads k < 2 ^ 32) ->
  (forall v, xgq_double_read32 fuel reads = Some v -> exists j, reads j = v /\ reads (S j) = v) /\
  (forall j, (j < fuel)%nat -> reads j = reads (S j) -> is_Some (xgq_double_read32 fuel reads)).
Proof.
  intros Hr. unfold xgq_double_read32. split.
  - intros v Hv. apply double_read_sound in Hv; [|done].
    destruct Hv as [[_ E]|(j & _ & Hj)]; [|by exists j].
    exfalso. specialize (Hr 0%nat). unfold u32 in E.
    destruct (decide (reads 0%nat = 0)) as [E0|]; [by rewrite E0 in E|].
    rewrite Z.mod_small in E by lia. lia.
  - intros j Hj E. eapply (double_read_complete fuel reads 0 false _ _ j); [done|lia|lia|done].
Qed.

(** A torn read between two good ones. *)
Definition torn (k : nat) : Z := if (k =? 1)%nat then 0xFFFF else 5.

Lemma xgq_double_read32_agrees_witness : is_Some (xgq_double_read32 3 torn).
Proof.
  apply (proj2 (xgq_double_read32_agrees torn 3
    ltac:(intros k; unfold torn; destruct (k =? 1)%nat; lia)) 2%nat); [lia|reflexivity].
Defined.
