(* ===== verification/XgqLink.v ===== *)
(** * XGQ: client and server

    Client and server interleave calls of the XGQ interface on shared memory.
    A call accesses at most one shared pointer, so an interleaving of calls is
    an interleaving of the shared accesses.  The specification is a pair of
    channels of bounded capacity; [xgq_refines_channels] shows that every
    execution of the implementation is one of the specification and that no
    call gets stuck; [xgq_alloc_attach] that allocation and attachment
    establish what it needs. *)
From stdpp Require Import functions.
From S2P Require Import Prelude Xgq XgqRing.

(** ** Specification: a channel *)

Record chan := mk_chan {
  ch_sent : list (list Z);   (** entries written by the producer *)
  ch_pub : Z;                (** how many of them are published *)
  ch_recv : Z;               (** how many have been received *)
  ch_ack : Z;                (** how many of those are acknowledged *)
}.
#[export] Instance eta_chan : Eta chan := fun c =>
  mk_chan (ch_sent c) (ch_pub c) (ch_recv c) (ch_ack c).

Inductive chan_event :=
| Sent (e : list Z) | Full | Published | Received (w : list Z) | Empty | Acknowledged.

(** [n] is the capacity; a producer is refused exactly when [n] entries are
    unacknowledged, a consumer exactly when it has received all that is
    published, and entries arrive in the order sent. *)
Inductive chan_step (n : Z) (ooo : bool) (c : chan) : chan_event -> chan -> Prop :=
| chan_sent e :
    Z.of_nat (length (ch_sent c)) < ch_ack c + n ->
    chan_step n ooo c (Sent e) (c <| ch_sent := ch_sent c ++ [e] |>)
| chan_full : Z.of_nat (length (ch_sent c)) = ch_ack c + n -> chan_step n ooo c Full c
| chan_published :
    chan_step n ooo c Published (c <| ch_pub := Z.of_nat (length (ch_sent c)) |>)
| chan_received e w :
    ch_recv c < ch_pub c -> ch_sent c !! Z.to_nat (ch_recv c) = Some e ->
    take (length e) w = deliver ooo e ->
    chan_step n ooo c (Received w) (c <| ch_recv := ch_recv c + 1 |>)
| chan_empty : ch_recv c = ch_pub c -> chan_step n ooo c Empty c
| chan_acknowledged : chan_step n ooo c Acknowledged (c <| ch_ack := ch_recv c |>).

Inductive dir := SQ | CQ.
#[export] Instance dir_eq_dec : EqDecision dir.
Proof. solve_decision. Defined.

(** Runs of the two channels. *)
Inductive chans_run (n : dir -> Z) (ooo : dir -> bool)
  : (dir -> chan) -> list (dir * chan_event) -> (dir -> chan) -> Prop :=
| run_nil C : chans_run n ooo C [] C
| run_cons C d ev C1 tr C2 :
    chan_step (n d) (ooo d) (C d) ev (C1 d) -> (forall d', d' <> d -> C1 d' = C d') ->
    chans_run n ooo C1 tr C2 -> chans_run n ooo C ((d, ev) :: tr) C2.

(** ** Implementation: two queues on one memory *)

Record link := mk_link {
  lk_mem : shared;
  lk_client : xgq;
  lk_server : xgq;
}.
#[export] Instance eta_link : Eta link := fun l => mk_link (lk_mem l) (lk_client l) (lk_server l).

(** A side's use of the interface. *)
Inductive op :=
| OSend (d : dir) (e : list Z)   (** [xgq_produce] and filling the slot *)
| OPublish (d : dir)             (** [xgq_notify_peer_produced] *)
| ORecv (d : dir)                (** [xgq_consume] and reading the slot *)
| OAck (d : dir).                (** [xgq_notify_peer_consumed] *)
Definition op_dir (o : op) : dir :=
  match o with OSend d _ | OPublish d | ORecv d | OAck d => d end.

Section Link.
Context (client server : xgq_build).
Hypothesis Hclient : XGQ_SERVER client = false.
Hypothesis Hserver : XGQ_SERVER server = true.

Definition producer_build (d : dir) : xgq_build :=
  match d with SQ => client | CQ => server end.
Definition consumer_build (d : dir) : xgq_build :=
  match d with SQ => server | CQ => client end.
Definition producer (d : dir) (l : link) : xgq :=
  match d with SQ => lk_client l | CQ => lk_server l end.
Definition consumer (d : dir) (l : link) : xgq :=
  match d with SQ => lk_server l | CQ => lk_client l end.
Definition set_producer (d : dir) (l : link) (q : xgq) : link :=
  match d with SQ => l <| lk_client := q |> | CQ => l <| lk_server := q |> end.
Definition set_consumer (d : dir) (l : link) (q : xgq) : link :=
  match d with SQ => l <| lk_server := q |> | CQ => l <| lk_client := q |> end.

Definition run_op (l : link) (o : op) : option (chan_event * link) :=
  match o with
  | OSend d e =>
      r ← xgq_produce (producer_build d) (lk_mem l) (producer d l);
      let '(_, slot, q) := r in
      let l := set_producer d l q in
      match slot with
      | None => Some (Full, l)
      | Some a => Some (Sent e, l <| lk_mem := xgq_copy_to_ring (lk_mem l) e a |>)
      end
  | OPublish d =>
      Some (Published,
            l <| lk_mem := xgq_notify_peer_produced (producer_build d) (lk_mem l) (producer d l) |>)
  | ORecv d =>
      r ← xgq_consume (consumer_build d) (lk_mem l) (consumer d l);
      let '(_, slot, q, m) := r in
      let l := set_consumer d l q <| lk_mem := m |> in
      match slot with
      | None => Some (Empty, l)
      | Some a =>
          let words := Z.to_nat (xr_slot_sz (cons_ring (consumer_build d) q) / 4) in
          Some (Received (xgq_copy_from_ring m a words), l)
      end
  | OAck d =>
      Some (Acknowledged,
            l <| lk_mem := xgq_notify_peer_consumed (consumer_build d) (lk_mem l) (consumer d l) |>)
  end.

Fixpoint run_ops (l : link) (ops : list op) : option (list (dir * chan_event) * link) :=
  match ops with
  | [] => Some ([], l)
  | o :: ops =>
      r ← run_op l o;
      s ← run_ops r.2 ops;
      Some ((op_dir o, r.1) :: s.1, s.2)
  end.

(** ** Simulation *)

Definition rp (d : dir) (l : link) : xgq_ring := prod_ring (producer_build d) (producer d l).
Definition rc (d : dir) (l : link) : xgq_ring := cons_ring (consumer_build d) (consumer d l).
Definition ooo (d : dir) : bool := XGQ_OUT_OF_ORDER_WRITE (consumer_build d).

Context (G : dir -> geom).

Record geoms_ok : Prop := {
  go_each : forall d, geom_ok (G d);
  go_disjoint : forall d d' a, d <> d' -> in_ring (G d) a -> ~ in_ring (G d') a;
}.
Hypothesis HG : geoms_ok.

Definition link_inv (X : dir -> ghost) (l : link) : Prop :=
  forall d, inv (G d) (ooo d) (X d) (lk_mem l) (rp d l) (rc d l).

(** Memory outside the ring of [d] is unchanged. *)
Definition mem_frame (d : dir) (l l' : link) : Prop :=
  forall a, ~ in_ring (G d) a -> ioread32 (lk_mem l') a = ioread32 (lk_mem l) a.

(** What a call on the rings of [d] may change. *)
Lemma link_inv_step X l l' d x :
  link_inv X l -> inv (G d) (ooo d) x (lk_mem l') (rp d l') (rc d l') ->
  (forall d', d' <> d -> rp d' l' = rp d' l /\ rc d' l' = rc d' l) ->
  mem_frame d l l' -> link_inv (<[d := x]> X) l' /\ mem_frame d l l'.
Proof.
  intros H Hd Hr Hm. split; [|done]. intros d'. destruct (decide (d' = d)) as [->|Hne]; [by rewrite fn_lookup_insert|].
  rewrite fn_lookup_insert_ne by done. destruct (Hr d' Hne) as [-> ->].
  eapply inv_frame; [apply HG|apply H|]. intros a Ha. apply Hm.
  by apply (go_disjoint HG d').
Qed.

Lemma rp_set_producer d l q : rp d (set_producer d l q) = prod_ring (producer_build d) q.
Proof. by destruct d. Qed.
Lemma rc_set_producer d l q : rc d (set_producer d l q) = rc d l.
Proof. by destruct d. Qed.
Lemma rc_set_consumer d l q : rc d (set_consumer d l q) = cons_ring (consumer_build d) q.
Proof. by destruct d. Qed.
Lemma rp_set_consumer d l q : rp d (set_consumer d l q) = rp d l.
Proof. by destruct d. Qed.

Lemma set_producer_other d l q :
  cons_ring (producer_build d) q = cons_ring (producer_build d) (producer d l) ->
  forall d', d' <> d -> rp d' (set_producer d l q) = rp d' l /\ rc d' (set_producer d l q) = rc d' l.
Proof. intros E d' Hne. by destruct d, d'. Qed.

Lemma set_consumer_other d l q :
  prod_ring (consumer_build d) q = prod_ring (consumer_build d) (consumer d l) ->
  forall d', d' <> d -> rp d' (set_consumer d l q) = rp d' l /\ rc d' (set_consumer d l q) = rc d' l.
Proof. intros E d' Hne. by destruct d, d'. Qed.

Definition abs (x : ghost) : chan := mk_chan (gh_sent x) (gh_pub x) (gh_recv x) (gh_ack x).

Lemma abs_same x x' : same_counts x x' -> abs x' = abs x.
Proof. unfold abs. by intros (-> & -> & -> & ->). Qed.

Definition op_ok (o : op) : Prop :=
  match o with OSend d e => entry_ok (G d) (ooo d) e | _ => True end.

#[local] Abbreviation simulated l o X :=
  (exists ev l' x, run_op l o = Some (ev, l') /\ (link_inv (<[op_dir o := x]> X) l' /\ mem_frame (op_dir o) l l') /\
     chan_step (g_n (G (op_dir o))) (ooo (op_dir o)) (abs (X (op_dir o))) ev (abs x)).

Lemma send_simulated X l d e : link_inv X l -> op_ok (OSend d e) -> simulated l (OSend d e) X.
Proof.
  intros H He. cbn [op_ok op_dir] in *. pose proof (go_each HG d) as Hg.
  destruct (can_produce_ok _ Hg _ (producer_build d) _ _ _ _ (H d))
    as (q & x & Hc & Ec & Hs & Hi & Hex).
  cbn [run_op]. unfold xgq_produce. rewrite Hc. cbn [mbind option_bind].
  pose proof (iv_order _ _ _ _ _ _ Hi) as Ho. rewrite <- (abs_same _ _ Hs) in *.
  assert (num_sent (X d) = num_sent x) as En by (unfold num_sent; by rewrite (proj1 Hs)).
  rewrite En in *. destruct (Z.ltb_spec (num_sent x) (gh_seen x + g_n (G d))) as [Hlt|Hge]; cbn [negb].
  - eexists _, _, (x <| gh_sent := gh_sent x ++ [e] |>). split; [reflexivity|]. split.
    + eapply (link_inv_step X l); [done|..].
      * rproj. replace (rp d _) with (prod_ring (producer_build d) q <| xr_produced :=
          u32 (xr_produced (prod_ring (producer_build d) q) + 1) |>) by
          (symmetry; etransitivity; [apply rp_set_producer|apply prod_set]).
        replace (rc d _) with (rc d l) by (symmetry; apply rc_set_producer).
        unfold xgq_ring_slot_ptr_produced. rewrite (iv_produced _ _ _ _ _ _ Hi).
        rewrite slot_ptr; [|done|apply Hi]. rewrite <- (iv_produced _ _ _ _ _ _ Hi).
        replace (lk_mem (set_producer d l _)) with (lk_mem l) by (by destruct d).
        by apply fill_ok.
      * intros d' Hne. apply (set_producer_other d l); [|done]. by rewrite cons_set_prod.
      * intros a Ha. rproj. unfold xgq_ring_slot_ptr_produced. rewrite (iv_produced _ _ _ _ _ _ Hi).
        rewrite slot_ptr; [|done|apply Hi]. destruct (slot_at_bounds _ Hg (num_sent x)).
        pose proof (g_sz_words _ Hg). pose proof (eo_len _ _ _ He).
        rewrite copy_to_outside; [by destruct d|lia|lia|].
        intros (j & Hj & ->). apply Ha. right. right. apply slot_words_in; [done|lia].
    + apply (chan_sent _ _ (abs x)). cbn [abs ch_sent ch_ack]. fold (num_sent x). lia.
  - eexists _, _, x. split; [reflexivity|]. assert (num_sent x = gh_seen x + g_n (G d)) as Ef by lia.
    split; [|constructor; cbn [abs ch_sent ch_ack]; fold (num_sent x); destruct Hs as (_ & _ & _ & ->);
             rewrite <- (Hex Ef); lia].
    eapply (link_inv_step X l); [done|..].
    + rewrite rp_set_producer, rc_set_producer. replace (lk_mem (set_producer d l q)) with (lk_mem l)
        by (by destruct d). done.
    + by apply set_producer_other.
    + intros a _. by destruct d.
Qed.

Lemma publish_simulated X l d : link_inv X l -> simulated l (OPublish d) X.
Proof.
  intros H. pose proof (go_each HG d) as Hg. cbn [op_dir run_op].
  destruct (publish_ok _ Hg _ (producer_build d) (xq_flags (producer d l)) _ _ _ _ (H d)) as [Hi Hf].
  eexists _, _, (X d <| gh_pub := num_sent (X d) |>). split; [reflexivity|].
  split; [|apply (chan_published _ _ (abs (X d)))].
  eapply (link_inv_step X l _ d); [done|exact Hi|by intros [] ?; destruct d|].
  intros a Ha. apply Hf. intros ->. apply Ha. by left.
Qed.

Lemma ack_simulated X l d : link_inv X l -> simulated l (OAck d) X.
Proof.
  intros H. pose proof (go_each HG d) as Hg. cbn [op_dir run_op].
  destruct (acknowledge_ok _ Hg _ _ _ _ _ (H d)) as [Hi Hf].
  eexists _, _, (X d <| gh_ack := gh_recv (X d) |>). split; [reflexivity|].
  split; [|apply (chan_acknowledged _ _ (abs (X d)))].
  eapply (link_inv_step X l _ d); [done|exact Hi|by intros [] ?; destruct d|].
  intros a Ha. apply Hf. intros ->. apply Ha. by right; left.
Qed.

Lemma recv_simulated X l d : link_inv X l -> simulated l (ORecv d) X.
Proof.
  intros H. pose proof (go_each HG d) as Hg. cbn [op_dir run_op].
  destruct (can_consume_ok _ Hg _ (consumer_build d) _ _ _ _ (H d))
    as (q & x & Hc & Ep & Hs & Hi & Hex).
  unfold xgq_consume. rewrite Hc. cbn [mbind option_bind]. rewrite <- (abs_same _ _ Hs) in *.
  pose proof (iv_order _ _ _ _ _ _ Hi) as Ho.
  assert (gh_recv (X d) = gh_recv x) as Er by (symmetry; apply Hs). rewrite Er in *.
  destruct (Z.ltb_spec (gh_recv x) (gh_view x)) as [Hlt|Hge]; cbn [negb].
  - unfold xgq_ring_slot_ptr_consumed. rewrite (iv_consumed _ _ _ _ _ _ Hi).
    rewrite slot_ptr; [|done|apply Hi].
    destruct (slot_ready _ Hg _ _ _ _ _ (consumer_build d) eq_refl Hi Hlt) as (e & m' & He & -> & Hw & Hf).
    cbn [mbind option_bind]. eexists _, _, (x <| gh_recv := gh_recv x + 1 |>). split; [reflexivity|].
    rewrite <- (iv_consumed _ _ _ _ _ _ Hi). split.
    + eapply (link_inv_step X l); [done|..].
      * rproj. replace (rp d _) with (rp d l) by (symmetry; apply rp_set_consumer).
        replace (rc d _) with (cons_ring (consumer_build d) q <| xr_consumed :=
          u32 (xr_consumed (cons_ring (consumer_build d) q) + 1) |>) by
          (symmetry; etransitivity; [apply rc_set_consumer|apply cons_set]).
        by eapply recv_step.
      * intros d' Hne. apply (set_consumer_other d l); [|done]. by rewrite prod_set_cons.
      * intros a Ha. rproj. apply Hf. intros (j & Hj & ->). apply Ha. right. right. by apply slot_words_in.
    + rewrite cons_set. rproj. rewrite (hg_sz _ _ (iv_rc _ _ _ _ _ _ Hi)).
      apply (chan_received _ _ (abs x) e); [cbn [abs ch_recv ch_pub]; lia|done|exact Hw].
  - eexists _, _, x. split; [reflexivity|]. assert (gh_recv x = gh_view x) as Ef by lia.
    split; [|constructor; cbn [abs ch_recv ch_pub]; destruct Hs as (_ & -> & _); rewrite <- (Hex Ef); lia].
    eapply (link_inv_step X l); [done|..].
    + rproj. replace (rp d _) with (rp d l) by (symmetry; apply rp_set_consumer).
      replace (rc d _) with (cons_ring (consumer_build d) q) by (symmetry; apply rc_set_consumer). done.
    + intros d' Hne. by apply (set_consumer_other d l).
    + intros a _. by rproj.
Qed.

Lemma op_simulated X l o : link_inv X l -> op_ok o -> simulated l o X.
Proof.
  destruct o as [d e|d|d|d]; intros H He;
    [by apply send_simulated|by apply publish_simulated|by apply recv_simulated|by apply ack_simulated].
Qed.

Lemma ops_simulated ops : forall X l, link_inv X l -> Forall op_ok ops ->
  exists tr l' X', run_ops l ops = Some (tr, l') /\ link_inv X' l' /\
    chans_run (fun d => g_n (G d)) ooo (fun d => abs (X d)) tr (fun d => abs (X' d)).
Proof.
  induction ops as [|o ops IH]; intros X l H HF.
  { exists [], l, X. split; [done|]. split; [done|]. constructor. }
  apply Forall_cons in HF as [Ho HF].
  destruct (op_simulated X l o H Ho) as (ev & l1 & x & E1 & [H1 _] & S1).
  destruct (IH _ l1 H1 HF) as (tr & l' & X' & E2 & H2 & S2).
  exists ((op_dir o, ev) :: tr), l', X'. cbn [run_ops]. rewrite E1. cbn [mbind option_bind fst snd].
  rewrite E2. split; [done|]. split; [done|]. eapply run_cons; [| |exact S2].
  - cbn beta. by rewrite fn_lookup_insert.
  - intros d' Hne. cbn beta. by rewrite fn_lookup_insert_ne.
Qed.
End Link.

(** ** What a run of the channels means *)

Definition sents (d : dir) (tr : list (dir * chan_event)) : list (list Z) :=
  omap (fun x => match x with (d', Sent e) => if decide (d = d') then Some e else None | _ => None end) tr.
Definition recvs (d : dir) (tr : list (dir * chan_event)) : list (list Z) :=
  omap (fun x => match x with (d', Received w) => if decide (d = d') then Some w else None | _ => None end) tr.

Definition chan_wf (n : Z) (c : chan) : Prop :=
  0 <= ch_ack c <= ch_recv c /\ ch_recv c <= ch_pub c <= Z.of_nat (length (ch_sent c)) /\
  Z.of_nat (length (ch_sent c)) <= ch_ack c + n.

Lemma chan_step_wf n ooo c ev c' : chan_step n ooo c ev c' -> chan_wf n c -> chan_wf n c'.
Proof. destruct 1; unfold chan_wf; rproj; rewrite ?length_app; cbn [length]; lia. Qed.

(** The words received, against the entries sent. *)
Definition arrives (ooo : bool) (w e : list Z) : Prop := take (length e) w = deliver ooo e.

Lemma chans_run_fifo n ooo C tr C' d :
  chans_run n ooo C tr C' -> chan_wf (n d) (C d) ->
  chan_wf (n d) (C' d) /\ ch_sent (C' d) = ch_sent (C d) ++ sents d tr /\
  ch_recv (C' d) = ch_recv (C d) + Z.of_nat (length (recvs d tr)) /\
  Forall2 (arrives (ooo d)) (recvs d tr)
    (take (length (recvs d tr)) (drop (Z.to_nat (ch_recv (C d))) (ch_sent (C' d)))).
Proof.
  induction 1 as [C|C d' ev C1 tr C2 Hstep Hother Hrun IH]; intros Hwf.
  { rewrite app_nil_r. cbn [recvs omap list_omap length take]. split; [done|]. split; [done|].
    split; [lia|]. constructor. }
  destruct (decide (d = d')) as [<-|Hne].
  2: { destruct IH as (IH1 & IH2 & IH3 & IH4); [by rewrite Hother|]. rewrite Hother in * by done.
       assert (sents d ((d', ev) :: tr) = sents d tr /\ recvs d ((d', ev) :: tr) = recvs d tr) as [-> ->].
       { unfold sents, recvs. cbn [omap list_omap]. destruct ev; by rewrite ?decide_False. }
       done. }
  destruct (IH (chan_step_wf _ _ _ _ _ Hstep Hwf)) as (IH1 & IH2 & IH3 & IH4). split; [done|].
  unfold sents, recvs in *. cbn [omap list_omap] in *.
  inversion Hstep as [e ? He E|? He E|He E|e w ? Hl ? He E|? He E|He E]; subst ev; rewrite <- E in *.
  all: rewrite ?decide_True by done; rproj; try done.
  - rewrite <- app_assoc in IH2. cbn [app] in IH2. done.
  - cbn [length]. split; [done|]. split; [lia|]. destruct Hwf as (W1 & W2 & W3).
    assert (drop (Z.to_nat (ch_recv (C d))) (ch_sent (C2 d)) =
            e :: drop (Z.to_nat (ch_recv (C d) + 1)) (ch_sent (C2 d))) as ->.
    { rewrite IH2. replace (Z.to_nat (ch_recv (C d) + 1)) with (S (Z.to_nat (ch_recv (C d)))) by lia.
      apply drop_S. apply lookup_app_l_Some. done. }
    constructor; [done|exact IH4].
Qed.

Lemma chans_run_ext n n' ooo C tr C' :
  (forall d, n d = n' d) -> chans_run n ooo C tr C' -> chans_run n' ooo C tr C'.
Proof. intros Hn. induction 1; econstructor; eauto. by rewrite <- Hn. Qed.
