(* ===== verification/XgqAlloc.v ===== *)
(** * XGQ: sizing, allocation and attachment

    [xgq_alloc_num_slots] finds the largest power of two that fits; the queue a
    server attaches to is the one the client has allocated, and both start in
    the state the simulation of [XgqLink] needs. *)
From stdpp Require Import functions.
From S2P Require Import Prelude Xgq XgqRing XgqLink.

(** ** Number of slots *)

(** Bytes needed for [n] slots on every queue, without wrapping. *)
Definition len_sum (n : Z) (slot_size : list Z) : Z :=
  foldr (fun s acc => sizeof_header + n * (s + sizeof_com_entry) + acc) 0 slot_size.

Lemma len_sum_nonneg n ss : 0 <= n -> Forall (fun s => 0 <= s) ss -> 0 <= len_sum n ss.
Proof.
  intros Hn. induction 1 as [|s ss Hs _ IH]; cbn [len_sum foldr]; [done|].
  fold (len_sum n ss). unfold sizeof_header, sizeof_com_entry. nia.
Qed.

Lemma total_len_sum n ss :
  0 <= n -> Forall (fun s => 0 <= s) ss -> len_sum n ss < 2 ^ 32 -> total_len n ss = len_sum n ss.
Proof.
  intros Hn HF Hlt. unfold total_len.
  assert (forall ss acc, Forall (fun s => 0 <= s) ss -> 0 <= acc -> acc + len_sum n ss < 2 ^ 32 ->
    foldl (fun len s => u32 (len + xgq_ring_len n s)) acc ss = acc + len_sum n ss) as H.
  { clear HF Hlt ss. intros ss. induction ss as [|s ss IH]; intros acc HF Ha Hlt; cbn [foldl].
    { cbn. lia. }
    apply Forall_cons in HF as [Hs HF]. pose proof (len_sum_nonneg n ss Hn HF).
    cbn [len_sum foldr] in *. fold (len_sum n ss) in *. unfold xgq_ring_len.
    unfold sizeof_header, sizeof_com_entry in *.
    rewrite u64_small by nia. rewrite u32_small by nia. rewrite IH; [lia|done|nia|lia]. }
  by rewrite H.
Qed.

Lemma len_sum_double n ss : 0 <= n -> Forall (fun s => 0 <= s) ss ->
  len_sum (2 * n) ss <= 2 * len_sum n ss.
Proof.
  intros Hn. induction 1 as [|s ss Hs _ IH]; cbn [len_sum foldr]; [lia|].
  fold (len_sum n ss) (len_sum (2 * n) ss). unfold sizeof_header, sizeof_com_entry. nia.
Qed.

Lemma len_sum_mono n n' ss : 0 <= n <= n' -> Forall (fun s => 0 <= s) ss ->
  len_sum n ss <= len_sum n' ss.
Proof.
  intros Hn. induction 1 as [|s ss Hs _ IH]; cbn [len_sum foldr]; [lia|].
  fold (len_sum n ss) (len_sum n' ss). unfold sizeof_header, sizeof_com_entry. nia.
Qed.

Lemma pow2_double i : 0 <= i < 31 -> u32 (Z.shiftl (2 ^ i) 1) = 2 ^ (i + 1) /\ 2 ^ (i + 1) = 2 * 2 ^ i.
Proof.
  intros Hi. assert (2 ^ (i + 1) = 2 * 2 ^ i) as E by (rewrite <- Z.pow_succ_r by lia; f_equal; lia).
  split; [|done]. rewrite Z.shiftl_mul_pow2 by lia. rewrite u32_small; [lia|].
  assert (2 ^ (i + 1) <= 2 ^ 31) by (apply Z.pow_le_mono_r; lia).
  assert (0 < 2 ^ i) by (apply Z.pow_pos_nonneg; lia). lia.
Qed.

(** The loop from [2^i] slots stops within the remaining rounds at the first
    power of two that does not fit. *)
Lemma num_slots_loop_ok rlen ss (Hss : Forall (fun s => 0 <= s) ss) :
  ss <> [] -> 0 <= rlen < 2 ^ 31 -> len_sum 2 ss < 2 ^ 32 ->
  forall fuel i, 1 <= i -> i + Z.of_nat fuel = 31 ->
  (1 < i -> len_sum (2 ^ (i - 1)) ss <= rlen) ->
  exists j, i <= j <= 31 /\
    num_slots_loop fuel rlen ss (total_len (2 ^ i) ss) (2 ^ i) = Some (2 ^ j) /\
    (1 < j -> len_sum (2 ^ (j - 1)) ss <= rlen) /\ rlen < len_sum (2 ^ j) ss.
Proof.
  intros Hne Hr H2 fuel. induction fuel as [|fuel IH]; intros i Hi Hf Hprev.
  all: assert (len_sum (2 ^ i) ss < 2 ^ 32) as Hsmall.
  1,3: destruct (decide (i = 1)) as [->|]; [done|];
    pose proof (len_sum_double (2 ^ (i - 1)) ss ltac:(lia) Hss) as Hd;
    rewrite <- Z.pow_succ_r in Hd by lia; replace (Z.succ (i - 1)) with i in Hd by lia; lia.
  all: assert (0 < 2 ^ i) by (apply Z.pow_pos_nonneg; lia).
  - assert (i = 31) as -> by lia. exists 31. split; [lia|]. cbn [num_slots_loop].
    replace (2 ^ 31 <? 2 ^ 31) with false by done. rewrite andb_false_r. split; [done|]. split; [done|].
    destruct ss as [|s ss]; [done|]. apply Forall_cons in Hss as [Hs Hss].
    pose proof (len_sum_nonneg (2 ^ 31) ss ltac:(lia) Hss). cbn [len_sum foldr]. fold (len_sum (2 ^ 31) ss).
    unfold sizeof_header, sizeof_com_entry. nia.
  - cbn [num_slots_loop]. rewrite total_len_sum by (done || lia).
    assert (2 ^ i <? 2 ^ 31 = true) as -> by (apply Z.ltb_lt, Z.pow_lt_mono_r; lia).
    rewrite andb_true_r. destruct (Z.leb_spec (len_sum (2 ^ i) ss) rlen) as [Hle|Hgt].
    + destruct (pow2_double i) as [-> _]; [lia|].
      destruct (IH (i + 1)) as (j & Hj & E & H1 & H3); [lia|lia|by replace (i + 1 - 1) with i by lia|].
      exists j. split; [lia|]. done.
    + exists i. split; [lia|]. done.
Qed.

Lemma num_slots_loop_S fuel rlen ss total n :
  num_slots_loop (S fuel) rlen ss total n =
  if (total <=? rlen) && (n <? 2 ^ 31)
  then let n := u32 (Z.shiftl n 1) in num_slots_loop fuel rlen ss (total_len n ss) n else Some n.
Proof. done. Qed.

Lemma num_slots_spec rlen ss :
  ss <> [] -> Forall (fun s => 0 <= s) ss -> 0 <= rlen < 2 ^ 31 -> len_sum 2 ss < 2 ^ 32 ->
  exists k, 0 <= k <= 30 /\ xgq_alloc_num_slots rlen ss = Some (2 ^ k) /\
    (1 <= k -> len_sum (2 ^ k) ss <= rlen) /\ rlen < len_sum (2 ^ (k + 1)) ss.
Proof.
  intros Hne Hss Hr H2.
  destruct (num_slots_loop_ok rlen ss Hss Hne Hr H2 30 1) as (j & Hj & E & H1 & H3); [lia|lia|lia|].
  exists (j - 1). split; [lia|]. unfold xgq_alloc_num_slots. rewrite (num_slots_loop_S 30).
  replace ((0 <=? rlen) && (1 <? 2 ^ 31)) with true by (destruct (Z.leb_spec 0 rlen); [done|lia]).
  cbv zeta. change (u32 (Z.shiftl 1 1)) with (2 ^ 1). rewrite E.
  cbn [mbind option_bind]. split; [|split].
  - f_equal. rewrite Z.shiftr_div_pow2 by lia. rewrite <- (Z.pow_sub_r 2 j 1) by lia. done.
  - intros. apply H1. lia.
  - by replace (j - 1 + 1) with j by lia.
Qed.

(** For a memory below 2 GiB and slots of which two fit 32-bit sizes, the
    number of slots computed for a group of queues is the largest power of two
    for which all rings fit (1 when not even two slots fit), and the loop
    ends. *)
Theorem xgq_alloc_num_slots_largest rlen ss :
  ss <> [] -> Forall (fun s => 0 <= s) ss -> 0 <= rlen < 2 ^ 31 -> len_sum 2 ss < 2 ^ 32 ->
  exists k, 0 <= k <= 30 /\ xgq_alloc_num_slots rlen ss = Some (2 ^ k) /\
    (1 <= k -> len_sum (2 ^ k) ss <= rlen) /\ rlen < len_sum (2 ^ (k + 1)) ss.
Proof. apply num_slots_spec. Qed.

Lemma xgq_alloc_num_slots_largest_witness :
  exists k, xgq_alloc_num_slots 4096 [512; 256] = Some (2 ^ k) /\
    (1 <= k -> len_sum (2 ^ k) [512; 256] <= 4096) /\ 4096 < len_sum (2 ^ (k + 1)) [512; 256].
Proof.
  destruct (xgq_alloc_num_slots_largest 4096 [512; 256]) as (k & _ & H);
    [done|repeat constructor; lia|lia|reflexivity|]. by exists k.
Defined.

(** ** Memory of 32-bit words *)

Definition words_ok (m : shared) : Prop := forall a, 0 <= ioread32 m a < 2 ^ 32.

Lemma words_ok_write m a v : words_ok m -> words_ok (iowrite32 m a v).
Proof.
  intros H a'. destruct (decide (a = a')) as [<-|Hne].
  - rewrite ioread_write_eq. apply u32_range.
  - by rewrite ioread_write_ne.
Qed.

Lemma words_ok_copy buf : forall m tgt, words_ok m -> words_ok (xgq_copy_to_ring m buf tgt).
Proof.
  induction buf as [|w buf IH]; intros m tgt H; [done|]. cbn [xgq_copy_to_ring].
  by apply IH, words_ok_write.
Qed.

Lemma copy_from_nth n : forall m src j, 0 <= src -> src + 4 * Z.of_nat n <= 2 ^ 64 -> (j < n)%nat ->
  nth j (xgq_copy_from_ring m src n) 0 = ioread32 m (src + 4 * Z.of_nat j).
Proof.
  induction n as [|n IH]; intros m src j Hs Hl Hj; [lia|]. cbn [xgq_copy_from_ring].
  destruct j as [|j]; cbn [nth]; [unfold xgq_mem_read32; f_equal; lia|].
  rewrite u64_small by lia. rewrite IH by lia. f_equal. lia.
Qed.

Lemma copy_to_nth buf m tgt j :
  0 <= tgt -> tgt + 4 * Z.of_nat (length buf) <= 2 ^ 64 -> (j < length buf)%nat ->
  ioread32 (xgq_copy_to_ring m buf tgt) (tgt + 4 * Z.of_nat j) = u32 (nth j buf 0).
Proof.
  intros Ht Hl Hj. rewrite <- (copy_from_nth (length buf)) by done.
  rewrite copy_to_from by done. change 0 with (u32 0) at 1. apply map_nth.
Qed.

(** ** Layout of a queue in memory *)

Section Layout.
Context (ra k sz : Z).
#[local] Abbreviation n := (2 ^ k).
Definition ring_end : Z := ra + sizeof_header + n * (sz + sizeof_com_entry).

Record layout_ok : Prop := {
  ly_k : 1 <= k <= 30;
  ly_sz : 4 <= sz /\ sz mod 4 = 0;
  ly_addr : 0 <= ra /\ ring_end <= 2 ^ 64;
  ly_len : ring_end - ra < 2 ^ 32;
}.

(** Producer pointers in registers are outside the ring, and so are the
    interrupt enable registers. *)
Record registers_ok (sqp cqp : Z) : Prop := {
  rg_ne : sqp <> cqp;
  rg_out : forall p, p ∈ [sqp; cqp; u64 (sqp + XGQ_INTR_ENABLE_OFFSET); u64 (cqp + XGQ_INTR_ENABLE_OFFSET)] ->
             p < ra \/ ring_end <= p;
  rg_intr : forall p, p ∈ [u64 (sqp + XGQ_INTR_ENABLE_OFFSET); u64 (cqp + XGQ_INTR_ENABLE_OFFSET)] ->
             p <> sqp /\ p <> cqp;
}.

Definition queue_geom (sqp cqp bs bc : Z) (d : dir) : geom :=
  match d with
  | SQ => mk_geom k sz sqp (ra + off_sq_consumed) (ra + sizeof_header) bs
  | CQ => mk_geom k sizeof_com_entry cqp (ra + off_cq_consumed) (ra + sizeof_header + n * sz) bc
  end.

(** Pointers that meet neither each other, nor the slots. *)
Definition pointers_ok (sqp cqp : Z) : Prop :=
  sqp <> cqp /\ forall p, p ∈ [sqp; cqp] ->
    p <> ra + off_sq_consumed /\ p <> ra + off_cq_consumed /\
    (p < ra + sizeof_header \/ ring_end <= p).

Context (HL : layout_ok).

Lemma n_pos : 2 <= n <= 2 ^ 30.
Proof.
  destruct (ly_k HL). split; [change 2 with (2 ^ 1) at 1|]; apply Z.pow_le_mono_r; lia.
Qed.

Lemma slots_range sqp cqp bs bc d a : in_slots (queue_geom sqp cqp bs bc d) a ->
  match d with
  | SQ => ra + sizeof_header <= a < ra + sizeof_header + n * sz
  | CQ => ra + sizeof_header + n * sz <= a < ring_end
  end.
Proof.
  pose proof n_pos. destruct (ly_sz HL) as [H4 Hm]. pose proof (Z.div_mod sz 4 ltac:(lia)) as Hd.
  intros (j & Hj & ->). unfold ring_end, sizeof_header, sizeof_com_entry in *.
  destruct d; unfold queue_geom, g_n in *; cbn [g_log g_sz g_slots] in *;
    unfold sizeof_header, sizeof_com_entry in *.
  - rewrite Z2Nat.id in Hj by nia. nia.
  - change (16 / 4) with 4 in Hj. lia.
Qed.

Lemma queue_geoms_ok sqp cqp bs bc : pointers_ok sqp cqp -> geoms_ok (queue_geom sqp cqp bs bc).
Proof.
  intros [Hne Hp]. pose proof n_pos. destruct (ly_k HL), (ly_sz HL), (ly_addr HL). pose proof (ly_len HL).
  assert (In_ne : forall d a p, in_slots (queue_geom sqp cqp bs bc d) a -> p ∈ [sqp; cqp] -> a <> p).
  { intros d a p Ha Hin ->. apply slots_range in Ha. specialize (Hp p Hin).
    unfold ring_end, sizeof_header, sizeof_com_entry in *. destruct d; nia. }
  assert (In_cons : forall d a, in_slots (queue_geom sqp cqp bs bc d) a -> a <> ra + off_sq_consumed /\ a <> ra + off_cq_consumed).
  { intros d a Ha. apply slots_range in Ha.
    unfold ring_end, sizeof_header, sizeof_com_entry, off_sq_consumed, off_cq_consumed in *. destruct d; nia. }
  destruct (Hp sqp) as (Hs1 & Hs2 & _); [set_solver|]. destruct (Hp cqp) as (Hc1 & Hc2 & _); [set_solver|].
  split.
  - intros d. split.
    + destruct d; cbn; lia.
    + destruct d; [done|]. cbn. by split.
    + unfold ring_end, sizeof_header, sizeof_com_entry in *. destruct d; unfold g_n; cbn; unfold sizeof_com_entry; nia.
    + unfold ring_end, sizeof_header, sizeof_com_entry in *. destruct d; unfold g_n; cbn;
        unfold sizeof_header, sizeof_com_entry; nia.
    + by destruct d.
    + intros Ha. eapply In_ne; [exact Ha| |reflexivity]. destruct d; cbn; set_solver.
    + intros Ha. apply In_cons in Ha as [? ?]. by destruct d.
  - intros d d' a Hd Ha Ha'. destruct (Hp sqp) as (_ & _ & Hs3); [set_solver|].
    destruct (Hp cqp) as (_ & _ & Hc3); [set_solver|].
    assert (forall d a, in_ring (queue_geom sqp cqp bs bc d) a ->
      match d with
      | SQ => a = sqp \/ a = ra + 24 \/ ra + 44 <= a < ra + 44 + n * sz
      | CQ => a = cqp \/ a = ra + 28 \/ ra + 44 + n * sz <= a < ring_end
      end) as Hcases.
    { intros d0 a0 [->|[->|H0']]; [by destruct d0; left|by destruct d0; right; left|].
      apply slots_range in H0'. destruct d0; right; right; exact H0'. }
    apply Hcases in Ha, Ha'. clear Hcases In_ne In_cons Hp.
    assert (0 <= n * sz /\ ring_end = ra + 44 + n * sz + 16 * n) as [Hw He].
    { unfold ring_end, sizeof_header, sizeof_com_entry. nia. }
    unfold off_sq_consumed, off_cq_consumed, sizeof_header in *. rewrite He in *.
    generalize dependent (n * sz). intros w **. destruct d, d'; try done; lia.
Qed.

(** ** Initialisation *)

(** Where the producer pointers are. *)
Definition eff_sq (F sqp : Z) : Z := if XGQ_IS_IN_MEM_PROD F then ra + off_sq_produced else sqp.
Definition eff_cq (F cqp : Z) : Z := if XGQ_IS_IN_MEM_PROD F then ra + off_cq_produced else cqp.

Definition producers_ok (F sqp cqp : Z) : Prop :=
  XGQ_IS_IN_MEM_PROD F = false -> registers_ok sqp cqp.

Lemma eff_pointers_ok F sqp cqp :
  producers_ok F sqp cqp -> pointers_ok (eff_sq F sqp) (eff_cq F cqp) /\
    eff_sq F sqp <> ra /\ eff_cq F cqp <> ra.
Proof.
  intros Hr. unfold eff_sq, eff_cq, pointers_ok, producers_ok in *. pose proof n_pos. destruct (ly_sz HL).
  unfold ring_end, sizeof_header, sizeof_com_entry, off_sq_produced, off_cq_produced, off_sq_consumed,
    off_cq_consumed in *.
  destruct (XGQ_IS_IN_MEM_PROD F).
  - split; [split; [lia|]|lia]. intros p [->|[->|[]%elem_of_nil]%elem_of_cons]%elem_of_cons; lia.
  - specialize (Hr eq_refl). pose proof (rg_out _ _ Hr sqp ltac:(set_solver)) as Hs.
    pose proof (rg_out _ _ Hr cqp ltac:(set_solver)) as Hc.
    unfold ring_end, sizeof_header, sizeof_com_entry in *.
    split; [split; [apply Hr|]|nia]. intros p [->|[->|[]%elem_of_nil]%elem_of_cons]%elem_of_cons; nia.
Qed.

Lemma producer_addrs_ok F m sqp cqp en :
  producers_ok F sqp cqp -> en ∈ [sqp; cqp] -> words_ok m ->
  exists m', producer_addrs F m ra sqp cqp en = (eff_sq F sqp, eff_cq F cqp, m') /\ words_ok m' /\
    (XGQ_IS_IN_MEM_PROD F = true -> m' = m) /\ forall a, (ra <= a < ring_end \/ a ∈ [eff_sq F sqp; eff_cq F cqp]) -> ioread32 m' a = ioread32 m a.
Proof.
  intros Hr Hen Hm. unfold producer_addrs, eff_sq, eff_cq, producers_ok in *.
  destruct (XGQ_IS_IN_MEM_PROD F) eqn:EF.
  - exists m. destruct (ly_addr HL). pose proof n_pos. destruct (ly_sz HL).
    unfold ring_end, sizeof_header, sizeof_com_entry, off_sq_produced, off_cq_produced in *.
    rewrite !u64_small by nia. done.
  - specialize (Hr eq_refl). eexists. split; [reflexivity|].
    split; [by apply words_ok_write|]. split; [done|]. intros a Ha. apply ioread_write_ne. intros <-.
    assert (u64 (en + XGQ_INTR_ENABLE_OFFSET) ∈
      [u64 (sqp + XGQ_INTR_ENABLE_OFFSET); u64 (cqp + XGQ_INTR_ENABLE_OFFSET)]) as Hin
      by (apply elem_of_cons in Hen as [->|Hen]; [|apply list_elem_of_singleton in Hen as ->]; set_solver).
    pose proof (rg_out _ _ Hr _ (list_elem_of_further _ _ _ (list_elem_of_further _ _ _ Hin))).
    pose proof (rg_intr _ _ Hr _ Hin). destruct Ha as [Ha|Ha]; [lia|]. set_solver.
Qed.

(** A side's copy of the ring of [d] at the start. *)
Definition start_ring (d : dir) (esq ecq v : Z) : xgq_ring :=
  let g := queue_geom esq ecq 0 0 d in
  mk_xgq_ring n (g_sz g) v v (g_prod g) (g_cons g) (g_slots g).

(** Memory of an initialised queue. *)
Record queue_mem (F esq ecq vs vc : Z) (m : shared) : Prop := {
  qm_header : forall j, (j < 9)%nat -> ioread32 m (ra + 4 * Z.of_nat j) =
    nth j [XGQ_ALLOC_MAGIC; XGQ_VERSION; n; sizeof_header; sz; sizeof_header + n * sz; vs; vc; F] 0;
  qm_sq : ioread32 m esq = vs;
  qm_cq : ioread32 m ecq = vc;
  qm_words : words_ok m;
}.

Lemma soft_reset_ok b F m r : words_ok m ->
  let v := ioread32 m (xr_produced_addr r) in
  xgq_soft_reset b F m r =
    Some (r <| xr_produced := v |> <| xr_consumed := v |>, iowrite32 m (xr_consumed_addr r) v).
Proof.
  intros Hm. cbv zeta. unfold xgq_soft_reset, xgq_ring_read_produced.
  rewrite xgq_read32_eq, read_ptr_ok by apply Hm. done.
Qed.

Definition init_flags (b : xgq_build) (flags : Z) : Z :=
  if BRAM_COLLISION_WORKAROUND b then Z.lor (u32 flags) XGQ_DOUBLE_READ else u32 flags.

Lemma init_flags_range b flags : 0 <= init_flags b flags < 2 ^ 32.
Proof.
  unfold init_flags. pose proof (u32_range flags). destruct (BRAM_COLLISION_WORKAROUND b); [|done].
  split; [apply Z.lor_nonneg; split; [lia|done]|].
  assert (Z.lor (u32 flags) XGQ_DOUBLE_READ = u32 (Z.lor (u32 flags) XGQ_DOUBLE_READ)) as ->.
  { unfold u32. rewrite <- !Z.land_ones by lia. rewrite Z.land_lor_distr_l.
    rewrite <- Z.land_assoc, Z.land_diag. done. }
  apply u32_range.
Qed.

Lemma init_ok b flags m sqp cqp :
  words_ok m -> let F := init_flags b flags in producers_ok F sqp cqp ->
  exists vs vc m', xgq_init b flags m ra n sz sqp cqp =
      Some (mk_xgq ra F (start_ring SQ (eff_sq F sqp) (eff_cq F cqp) vs)
                        (start_ring CQ (eff_sq F sqp) (eff_cq F cqp) vc), m') /\
    queue_mem F (eff_sq F sqp) (eff_cq F cqp) vs vc m'.
Proof.
  intros Hm F Hp. unfold xgq_init. fold (init_flags b flags). fold F.
  destruct (producer_addrs_ok F m sqp cqp cqp Hp ltac:(set_solver) Hm) as (m0 & -> & Hm0 & _ & _).
  destruct (eff_pointers_ok F sqp cqp Hp) as [[Hne Hpt] [Hsr Hcr]].
  pose proof (init_flags_range b flags) as HF. fold F in HF. clearbody F.
  set (es := eff_sq F sqp) in *. set (ec := eff_cq F cqp) in *. clearbody es ec.
  destruct (Hpt es) as (Hs1 & Hs2 & _); [set_solver|]. destruct (Hpt ec) as (Hc1 & Hc2 & _); [set_solver|].
  pose proof n_pos. destruct (ly_addr HL), (ly_sz HL). pose proof (ly_len HL).
  unfold ring_end, xgq_init_ring in *. cbn [xr_slot_addr].
  assert (0 <= n * sz) by nia.
  unfold sizeof_header, sizeof_com_entry, off_sq_consumed, off_cq_consumed in *.
  rewrite (u64_small (ra + 24)), (u64_small (ra + 28)), (u64_small (ra + 44)),
    (u64_small (ra + 44 + n * sz)), !(u32_small n) by nia.
  replace (ra + 44 - ra) with 44 by lia. replace (ra + 44 + n * sz - ra) with (44 + n * sz) by lia.
  rewrite (u32_small (44 + n * sz)) by nia. change (u32 44) with 44.
  set (h := hdr_words _). set (m2 := xgq_copy_to_ring m0 h ra).
  assert (words_ok m2) as Hm2 by (by apply words_ok_copy).
  assert (forall j, (j < 11)%nat -> ioread32 m2 (ra + 4 * Z.of_nat j) = u32 (nth j h 0)) as Hh.
  { intros j Hj. apply copy_to_nth; [lia|cbn [length h hdr_words]; nia|done]. }
  rewrite soft_reset_ok by done. cbn [mbind option_bind xr_produced_addr xr_consumed_addr].
  rewrite soft_reset_ok by (by apply words_ok_write).
  cbn [mbind option_bind xr_produced_addr xr_consumed_addr]. cbn [xgq_copy_to_ring].
  eexists (ioread32 m2 es), (ioread32 m2 ec), _.
  rewrite (ioread_write_ne _ (ra + 24) ec) by done. split; [reflexivity|].
  unfold xgq_mem_write32. split.
  - intros j Hj. destruct j as [|[|[|[|[|[|[|[|[|j]]]]]]]]]; [..|lia].
    all: cbn [nth]; rewrite ?(ioread_write_ne _ ra) by lia; rewrite ?(ioread_write_ne _ (ra + 28)) by lia;
      rewrite ?(ioread_write_ne _ (ra + 24)) by lia.
    all: try (rewrite Hh by lia; cbn [nth h hdr_words xh_version xh_slot_num xh_sq_offset xh_sq_slot_size
      xh_cq_offset xh_flags]; rewrite ?u32_small by nia; done).
    + replace (ra + 4 * Z.of_nat 0) with ra by lia. by rewrite ioread_write_eq.
    + replace (ra + 4 * Z.of_nat 6) with (ra + 24) by lia. rewrite ioread_write_eq. apply u32_small, Hm2.
    + replace (ra + 4 * Z.of_nat 7) with (ra + 28) by lia. rewrite ioread_write_eq. apply u32_small, Hm2.
  - by rewrite !ioread_write_ne.
  - by rewrite !ioread_write_ne.
  - by do 3 apply words_ok_write.
Qed.

(** ** Attachment *)

(** The flags the server takes over from the header. *)
Lemma attach_in_mem f fs :
  XGQ_IS_IN_MEM_PROD fs = false ->
  XGQ_IS_IN_MEM_PROD (Z.lor (Z.lor fs (Z.land f XGQ_DOUBLE_READ)) (Z.land f XGQ_IN_MEM_PROD)) =
  XGQ_IS_IN_MEM_PROD f.
Proof.
  unfold XGQ_IS_IN_MEM_PROD. intros H. rewrite !Z.land_lor_distr_l.
  assert (Z.land fs XGQ_IN_MEM_PROD = 0) as -> by (unfold z2b in H; lia).
  rewrite <- !Z.land_assoc. change (Z.land XGQ_DOUBLE_READ XGQ_IN_MEM_PROD) with 0.
  rewrite Z.land_0_r, Z.lor_0_l. by rewrite Z.land_diag.
Qed.

Lemma fast_forward_ok b F m r : words_ok m ->
  xgq_fast_forward b F m r = Some (r <| xr_produced := ioread32 m (xr_produced_addr r) |>
                                     <| xr_consumed := ioread32 m (xr_consumed_addr r) |>).
Proof.
  intros Hm. unfold xgq_fast_forward, xgq_ring_read_produced, xgq_ring_read_consumed, xgq_mem_read32.
  rewrite xgq_read32_eq, read_ptr_ok by apply Hm. cbn [mbind option_bind]. rproj.
  by rewrite read_ptr_ok by apply Hm.
Qed.

Lemma queue_mem_frame F es ec vs vc m m' :
  queue_mem F es ec vs vc m -> words_ok m' ->
  (forall a, (ra <= a < ring_end \/ a ∈ [es; ec]) -> ioread32 m' a = ioread32 m a) ->
  queue_mem F es ec vs vc m'.
Proof.
  intros H Hw Hf. pose proof n_pos. destruct (ly_sz HL).
  split; [|rewrite Hf; [apply H|set_solver]..|done].
  intros j Hj. rewrite Hf; [by apply H|]. left. unfold ring_end, sizeof_header, sizeof_com_entry. nia.
Qed.

Lemma attach_ok b fs m F sqp cqp vs vc :
  XGQ_IS_IN_MEM_PROD (u32 fs) = false -> producers_ok F sqp cqp ->
  queue_mem F (eff_sq F sqp) (eff_cq F cqp) vs vc m ->
  exists F' m', xgq_attach b fs m ra sqp cqp =
      Some (inr (mk_xgq ra F' (start_ring SQ (eff_sq F sqp) (eff_cq F cqp) vs)
                              (start_ring CQ (eff_sq F sqp) (eff_cq F cqp) vc), m')) /\
    queue_mem F (eff_sq F sqp) (eff_cq F cqp) vs vc m' /\ (XGQ_IS_IN_MEM_PROD F = true -> m' = m).
Proof.
  intros Hfs Hp Hq. pose proof n_pos. destruct (ly_addr HL), (ly_sz HL), (ly_k HL). pose proof (ly_len HL).
  assert (0 <= n * sz) by nia. unfold ring_end, sizeof_header, sizeof_com_entry in *.
  unfold xgq_attach. pose proof (qm_header _ _ _ _ _ _ Hq) as Hh.
  pose proof (Hh 0%nat ltac:(lia)) as H0'. replace (ra + 4 * Z.of_nat 0) with ra in H0' by lia.
  unfold xgq_mem_read32. rewrite H0'. cbn [nth]. rewrite Z.eqb_refl. cbn [negb].
  unfold words_hdr. cbn [xh_slot_num xh_version xh_flags xh_sq_offset xh_sq_slot_size xh_cq_offset].
  rewrite !copy_from_nth by (lia || nia).
  rewrite (Hh 1%nat), (Hh 2%nat), (Hh 3%nat), (Hh 4%nat), (Hh 5%nat), (Hh 8%nat) by lia. cbn [nth].
  change (GET_XGQ_MAJOR XGQ_VERSION =? XGQ_MAJOR) with true. cbn [negb].
  assert (Z.land n (n - 1) = 0) as ->.
  { replace (n - 1) with (Z.ones k) by (rewrite Z.ones_equiv; lia). rewrite Z.land_ones by lia.
    apply Z.mod_same. lia. }
  replace (n <? XGQ_MIN_NUM_SLOTS) with false by (unfold XGQ_MIN_NUM_SLOTS; lia). cbn [orb z2b Z.eqb negb].
  set (F' := Z.lor (Z.lor (u32 fs) _) _).
  assert (XGQ_IS_IN_MEM_PROD F' = XGQ_IS_IN_MEM_PROD F) as EF by (by apply attach_in_mem).
  destruct (producer_addrs_ok F' m sqp cqp sqp) as (m' & -> & Hm' & Hsame & Hf);
    [unfold producers_ok in *; by rewrite EF|set_solver|apply Hq|].
  assert (eff_sq F' sqp = eff_sq F sqp /\ eff_cq F' cqp = eff_cq F cqp) as [Es Ec]
    by (unfold eff_sq, eff_cq; by rewrite EF). rewrite Es, Ec in *.
  assert (queue_mem F (eff_sq F sqp) (eff_cq F cqp) vs vc m') as Hq' by (by eapply queue_mem_frame).
  pose proof (qm_header _ _ _ _ _ _ Hq' 6%nat ltac:(lia)) as Hw6. pose proof (qm_header _ _ _ _ _ _ Hq' 7%nat ltac:(lia)) as Hw7.
  unfold xgq_init_ring, off_sq_consumed, off_cq_consumed.
  rewrite (u64_small (ra + 24)), (u64_small (ra + 28)), (u64_small (ra + sizeof_header)),
    (u64_small (ra + (sizeof_header + n * sz))), !(u32_small n) by (unfold sizeof_header; nia).
  rewrite !fast_forward_ok by done. cbn [mbind option_bind xr_produced_addr xr_consumed_addr].
  rewrite (qm_sq _ _ _ _ _ _ Hq'), (qm_cq _ _ _ _ _ _ Hq').
  replace (ra + 4 * Z.of_nat 6) with (ra + 24) in Hw6 by lia.
  replace (ra + 4 * Z.of_nat 7) with (ra + 28) in Hw7 by lia. cbn [nth] in Hw6, Hw7. rewrite Hw6, Hw7.
  rewrite EF in Hsame. exists F', m'. split; [|done]. unfold start_ring, queue_geom. cbn [g_sz g_prod g_cons g_slots].
  by rewrite Z.add_assoc.
Qed.

(** Both sides then start from the empty channels. *)
Definition ghost0 : ghost := mk_ghost [] 0 0 0 0 0.

Lemma start_link_inv client server F0 F F' es ec vs vc m :
  XGQ_SERVER client = false -> XGQ_SERVER server = true -> queue_mem F0 es ec vs vc m ->
  link_inv client server (queue_geom es ec vs vc) (fun _ => ghost0)
    (mk_link m (mk_xgq ra F (start_ring SQ es ec vs) (start_ring CQ es ec vc))
               (mk_xgq ra F' (start_ring SQ es ec vs) (start_ring CQ es ec vc))).
Proof.
  intros Hc Hs Hq d. pose proof n_pos.
  assert (u32 (vs + 0) = vs /\ u32 (vc + 0) = vc) as [Es Ec].
  { rewrite !Z.add_0_r. rewrite <- (qm_sq _ _ _ _ _ _ Hq), <- (qm_cq _ _ _ _ _ _ Hq).
    split; apply u32_small, Hq. }
  pose proof (qm_header _ _ _ _ _ _ Hq 6%nat ltac:(lia)) as Hw6. pose proof (qm_header _ _ _ _ _ _ Hq 7%nat ltac:(lia)) as Hw7.
  replace (ra + 4 * Z.of_nat 6) with (ra + 24) in Hw6 by lia.
  replace (ra + 4 * Z.of_nat 7) with (ra + 28) in Hw7 by lia. cbn [nth] in Hw6, Hw7.
  unfold rp, rc, prod_ring, cons_ring, producer_build, consumer_build, producer, consumer.
  destruct d; cbn [lk_client lk_server lk_mem]; rewrite Hc, Hs; cbn [xq_sq xq_cq].
  all: split; try done; cbn; unfold g_n; cbn; rewrite ?Es, ?Ec; try done; try apply Hq.
  all: change (num_sent ghost0) with 0; lia.
Qed.
End Layout.

(** ** Allocation, attachment and use *)

(** An entry that fits a slot of [sz] bytes and, where the consumer polls for
    the flag of a new entry, carries it. *)
Definition ops_ok (client server : xgq_build) (sz : Z) : list op -> Prop :=
  Forall (fun o => match o with
                   | OSend SQ e => entry_ok (mk_geom 1 sz 0 0 0 0) (XGQ_OUT_OF_ORDER_WRITE server) e
                   | OSend CQ e => entry_ok (mk_geom 1 sizeof_com_entry 0 0 0 0)
                                     (XGQ_OUT_OF_ORDER_WRITE client) e
                   | _ => True
                   end).

Definition chan0 : chan := mk_chan [] 0 0 0.

(** What allocation needs: word-sized slots of which two fit, a region below
    2 GiB inside the address space, and producer registers, when used, outside
    the region. *)
Record alloc_args (allocator : xgq_build) (flags ra rlen sz sqp cqp : Z) (m : shared) : Prop := {
  aa_sz : 4 <= sz /\ len_sum 2 [sz] < 2 ^ 32;
  aa_len : 0 <= rlen < 2 ^ 31;
  aa_addr : 0 <= ra /\ ra + rlen <= 2 ^ 64;
  aa_words : words_ok m;
  aa_regs : XGQ_IS_IN_MEM_PROD (init_flags allocator flags) = false ->
    sqp <> cqp /\
    (forall p, p ∈ [sqp; cqp; u64 (sqp + XGQ_INTR_ENABLE_OFFSET); u64 (cqp + XGQ_INTR_ENABLE_OFFSET)] ->
       p < ra \/ ra + rlen <= p) /\
    (forall p, p ∈ [u64 (sqp + XGQ_INTR_ENABLE_OFFSET); u64 (cqp + XGQ_INTR_ENABLE_OFFSET)] ->
       p <> sqp /\ p <> cqp);
}.

Section Use.
Context (allocator attacher : xgq_build) (flags fs ra rlen sz sqp cqp : Z) (m : shared).
Context (HA : alloc_args allocator flags ra rlen sz sqp cqp m).
#[local] Abbreviation F := (init_flags allocator flags).

Lemma alloc_inv q m1 len :
  xgq_alloc allocator flags m ra rlen sz sqp cqp = Some (inr (q, m1, len)) ->
  exists k vs vc, layout_ok ra k sz /\ producers_ok ra k sz F sqp cqp /\
    len = ring_end ra k sz - ra /\ len <= rlen /\
    q = mk_xgq ra F (start_ring ra k sz SQ (eff_sq ra F sqp) (eff_cq ra F cqp) vs)
                    (start_ring ra k sz CQ (eff_sq ra F sqp) (eff_cq ra F cqp) vc) /\
    queue_mem ra k sz F (eff_sq ra F sqp) (eff_cq ra F cqp) vs vc m1.
Proof.
  intros Hal. unfold xgq_alloc in Hal. destruct (aa_sz _ _ _ _ _ _ _ _ HA) as [Hsz H2].
  pose proof (aa_len _ _ _ _ _ _ _ _ HA) as Hlen. destruct (aa_addr _ _ _ _ _ _ _ _ HA) as [Ha1 Ha2].
  destruct (z2b (sz mod 4)) eqn:Em; [done|].
  destruct (num_slots_spec rlen [sz]) as (k & Hk & E & Hfit & _);
    [done|repeat constructor; lia|done|done|].
  rewrite E in Hal. cbn [mbind option_bind] in Hal.
  assert (0 < 2 ^ k <= 2 ^ 30) by (split; [apply Z.pow_pos_nonneg|apply Z.pow_le_mono_r]; lia).
  rewrite u32_small in Hal by lia.
  destruct (Z.ltb_spec (2 ^ k) XGQ_MIN_NUM_SLOTS) as [|Hn]; [done|]. unfold XGQ_MIN_NUM_SLOTS in Hn.
  assert (1 <= k) as Hk1 by (destruct (decide (k = 0)) as [->|]; [done|lia]). specialize (Hfit Hk1).
  assert (len_sum (2 ^ k) [sz] = ring_end ra k sz - ra) as El by (unfold ring_end; cbn; lia).
  assert (layout_ok ra k sz) as HL.
  { split; [lia| |lia|lia]. split; [lia|]. unfold z2b in Em. lia. }
  assert (producers_ok ra k sz F sqp cqp) as Hp.
  { intros HF. destruct (aa_regs _ _ _ _ _ _ _ _ HA HF) as (R1 & R2 & R3). split; [done| |done].
    intros p Hin. destruct (R2 p Hin); [by left|right; lia]. }
  destruct (init_ok ra k sz HL allocator flags m sqp cqp (aa_words _ _ _ _ _ _ _ _ HA) Hp)
    as (vs & vc & m' & Ei & Hq).
  rewrite Ei in Hal. cbn [mbind option_bind fst snd] in Hal. injection Hal as <- <- <-.
  exists k, vs, vc. split; [done|]. split; [done|]. unfold xgq_ring_len.
  assert (u64 (sizeof_header + 2 ^ k * (sz + sizeof_com_entry)) = ring_end ra k sz - ra) as ->.
  { rewrite u64_small; [unfold ring_end; lia|]. unfold ring_end in El. split; [|lia].
    unfold sizeof_header, sizeof_com_entry. nia. }
  split; [done|]. split; [lia|]. done.
Qed.

(** The side that attaches to a queue the other has allocated gets the
    same two rings: sizes, addresses and pointers; and the allocation reports a
    length that covers the rings and fits the region. *)
Theorem xgq_alloc_attach q m1 len :
  XGQ_IS_IN_MEM_PROD (u32 fs) = false ->
  xgq_alloc allocator flags m ra rlen sz sqp cqp = Some (inr (q, m1, len)) ->
  xr_slot_addr (xq_sq q) = ra + sizeof_header /\
  xr_slot_addr (xq_cq q) = xr_slot_addr (xq_sq q) + xr_slot_num (xq_sq q) * sz /\
  xr_slot_addr (xq_cq q) + xr_slot_num (xq_cq q) * sizeof_com_entry = ra + len /\ len <= rlen /\
  exists qs m2, xgq_attach attacher fs m1 ra sqp cqp = Some (inr (qs, m2)) /\
    xq_sq qs = xq_sq q /\ xq_cq qs = xq_cq q.
Proof.
  intros Hfs Hal. destruct (alloc_inv q m1 len Hal) as (k & vs & vc & HL & Hp & -> & Hle & -> & Hq).
  cbn [xq_sq xq_cq start_ring queue_geom xr_slot_addr xr_slot_num g_slots].
  split; [done|]. split; [done|]. split; [unfold ring_end; cbn; lia|]. split; [done|].
  destruct (attach_ok ra k sz HL attacher fs m1 F sqp cqp vs vc Hfs Hp Hq) as (F' & m2 & E & _).
  eexists _, _. split; [exact E|]. done.
Qed.

End Use.

Section Run.
Context (client server : xgq_build) (by_server : bool).
Context (flags fs ra rlen sz sqp cqp : Z) (m : shared).
Definition allocator : xgq_build := if by_server then server else client.
Definition attacher : xgq_build := if by_server then client else server.
(** The two sides: [q] of the one that has allocated, [qs] of the other. *)
Definition both (m : shared) (q qs : xgq) : link :=
  if by_server then mk_link m qs q else mk_link m q qs.
Context (HA : alloc_args allocator flags ra rlen sz sqp cqp m).
#[local] Abbreviation F := (init_flags allocator flags).

(** The operations from the state after attachment are simulated. *)
Lemma use_simulated q m1 len qs m2 ops :
  XGQ_SERVER client = false -> XGQ_SERVER server = true -> XGQ_IS_IN_MEM_PROD (u32 fs) = false ->
  xgq_alloc allocator flags m ra rlen sz sqp cqp = Some (inr (q, m1, len)) ->
  xgq_attach attacher fs m1 ra sqp cqp = Some (inr (qs, m2)) -> ops_ok client server sz ops ->
  exists tr l' C, run_ops client server (both m2 q qs) ops = Some (tr, l') /\
    chans_run (fun _ => xr_slot_num (xq_sq q)) (ooo client server) (fun _ => chan0) tr C /\
    2 <= xr_slot_num (xq_sq q).
Proof.
  intros Hc Hs Hfs Hal Hat Hops.
  destruct (alloc_inv allocator flags ra rlen sz sqp cqp m HA q m1 len Hal) as (k & vs & vc & HL & Hp & _ & _ & -> & Hq).
  destruct (attach_ok ra k sz HL attacher fs m1 F sqp cqp vs vc Hfs Hp Hq) as (F' & m2' & E & Hq' & _).
  rewrite E in Hat. injection Hat as <- <-.
  destruct (eff_pointers_ok ra k sz HL F sqp cqp Hp) as [Hpt _].
  set (G := queue_geom ra k sz (eff_sq ra F sqp) (eff_cq ra F cqp) vs vc).
  assert (Forall (op_ok client server G) ops) as Hok.
  { eapply Forall_impl; [exact Hops|]. intros [[] e| | |] Ho; try done; destruct Ho; by split. }
  assert (link_inv client server G (fun _ => ghost0)
    (both m2' (mk_xgq ra F (start_ring ra k sz SQ (eff_sq ra F sqp) (eff_cq ra F cqp) vs)
                           (start_ring ra k sz CQ (eff_sq ra F sqp) (eff_cq ra F cqp) vc))
              (mk_xgq ra F' (start_ring ra k sz SQ (eff_sq ra F sqp) (eff_cq ra F cqp) vs)
                            (start_ring ra k sz CQ (eff_sq ra F sqp) (eff_cq ra F cqp) vc)))) as Hinit.
  { unfold both. pose proof (fun F1 F2 => start_link_inv ra k sz HL client server F F1 F2 _ _ vs vc m2' Hc Hs Hq') as Hst.
    destruct by_server; apply Hst. }
  destruct (ops_simulated client server G
    (queue_geoms_ok ra k sz HL _ _ vs vc Hpt) ops _ _
    Hinit Hok) as (tr & l' & X' & Hrun & _ & Hch).
  exists tr, l', (fun d => abs (X' d)). split; [exact Hrun|].
  split; [|cbn [xq_sq start_ring xr_slot_num]; apply (n_pos ra k sz HL)].
  eapply chans_run_ext; [|exact Hch]. by intros [].
Qed.
End Run.

(** C24. After one side has allocated the queue and the other has attached, whatever calls client and server make
    and in whatever order, no call gets stuck and the two rings behave as two
    FIFO channels whose capacity is the number of slots: a producer is refused
    exactly when that many entries are unacknowledged, a consumer exactly when
    it has consumed all that is published.  The 32-bit pointers may wrap. *)
Theorem xgq_refines_channels client server by_server flags fs ra rlen sz sqp cqp m q m1 len qs m2 ops :
  alloc_args (allocator client server by_server) flags ra rlen sz sqp cqp m ->
  XGQ_SERVER client = false -> XGQ_SERVER server = true -> XGQ_IS_IN_MEM_PROD (u32 fs) = false ->
  xgq_alloc (allocator client server by_server) flags m ra rlen sz sqp cqp = Some (inr (q, m1, len)) ->
  xgq_attach (attacher client server by_server) fs m1 ra sqp cqp = Some (inr (qs, m2)) -> ops_ok client server sz ops ->
  exists tr l' C, run_ops client server (both by_server m2 q qs) ops = Some (tr, l') /\
    chans_run (fun _ => xr_slot_num (xq_sq q)) (ooo client server) (fun _ => chan0) tr C.
Proof.
  intros HA Hc Hs Hfs Hal Hat Hops.
  destruct (use_simulated client server by_server flags fs ra rlen sz sqp cqp m HA q m1 len qs m2 ops
    Hc Hs Hfs Hal Hat Hops) as (tr & l' & C & H1 & H2 & _). by exists tr, l', C.
Qed.

(** C26. In every such execution and for both rings, the entries consumed are a
    prefix of the entries produced, in order and unchanged (but for the flag of
    a new entry, cleared where the consumer polls for it), and never more than
    the ring's slots are in flight. *)
Theorem xgq_fifo client server by_server flags fs ra rlen sz sqp cqp m q m1 len qs m2 ops tr l' d :
  alloc_args (allocator client server by_server) flags ra rlen sz sqp cqp m ->
  XGQ_SERVER client = false -> XGQ_SERVER server = true -> XGQ_IS_IN_MEM_PROD (u32 fs) = false ->
  xgq_alloc (allocator client server by_server) flags m ra rlen sz sqp cqp = Some (inr (q, m1, len)) ->
  xgq_attach (attacher client server by_server) fs m1 ra sqp cqp = Some (inr (qs, m2)) -> ops_ok client server sz ops ->
  run_ops client server (both by_server m2 q qs) ops = Some (tr, l') ->
  Forall2 (arrives (ooo client server d)) (recvs d tr) (take (length (recvs d tr)) (sents d tr)) /\
  Z.of_nat (length (recvs d tr)) <= Z.of_nat (length (sents d tr)) <=
    Z.of_nat (length (recvs d tr)) + xr_slot_num (xq_sq q).
Proof.
  intros HA Hc Hs Hfs Hal Hat Hops Hrun.
  destruct (use_simulated client server by_server flags fs ra rlen sz sqp cqp m HA q m1 len qs m2 ops
    Hc Hs Hfs Hal Hat Hops) as (tr' & l0 & C & H1 & H2 & Hn).
  rewrite H1 in Hrun. injection Hrun as -> ->.
  destruct (chans_run_fifo _ _ _ _ _ d H2) as (W & E1 & E2 & HF).
  { unfold chan_wf. cbn. lia. }
  cbn [ch_sent ch_recv chan0 app Z.to_nat drop] in *. rewrite E1 in *. split; [exact HF|].
  unfold chan_wf in W. rewrite E1 in W. lia.
Qed.

(** ** Instances *)

(** The client of the xocl driver and the server of the embedded processor,
    which reads twice and polls for new entries; pointers in memory. *)
Definition demo_client_build : xgq_build := mk_build false false false false.
Definition demo_server_build : xgq_build := mk_build true false true true.

Lemma demo_alloc_args : alloc_args demo_server_build XGQ_IN_MEM_PROD 0x1000 4096 512 0 0 ∅.
Proof.
  split; [by split|lia|lia| |].
  - intros a. unfold ioread32. rewrite lookup_empty. cbn. lia.
  - intros H. discriminate H.
Qed.

(** A command, its answer, and a read of the then empty ring. *)
Definition demo_ops : list op :=
  [OSend SQ [0x80000001; 7]; ORecv SQ; OPublish SQ; ORecv SQ; OAck SQ;
   OSend CQ [5; 0; 0; 0]; OPublish CQ; ORecv CQ; OAck CQ; ORecv SQ].

Lemma demo_ops_ok : ops_ok demo_client_build demo_server_build 512 demo_ops.
Proof.
  repeat constructor; try done; vm_compute; try done; lia.
Qed.

Lemma demo_queues : exists q m1 len qs m2,
  xgq_alloc demo_server_build XGQ_IN_MEM_PROD ∅ 0x1000 4096 512 0 0 = Some (inr (q, m1, len)) /\
  xgq_attach demo_client_build 0 m1 0x1000 0 0 = Some (inr (qs, m2)) /\ xr_slot_num (xq_sq q) = 4.
Proof.
  assert (match xgq_alloc demo_server_build XGQ_IN_MEM_PROD ∅ 0x1000 4096 512 0 0 with
          | Some (inr (q, m1, _)) =>
              match xgq_attach demo_client_build 0 m1 0x1000 0 0 with
              | Some (inr _) => xr_slot_num (xq_sq q) =? 4
              | _ => false
              end
          | _ => false
          end = true) as E by (vm_compute; reflexivity).
  destruct (xgq_alloc _ _ _ _ _ _ _ _) as [[|[[q m1] len]]|]; [done| |done].
  destruct (xgq_attach _ _ _ _ _ _) as [[|[qs m2]]|] eqn:Ea; [done| |done].
  exists q, m1, len, qs, m2. split; [done|]. split; [done|]. by apply Z.eqb_eq.
Qed.

Lemma xgq_alloc_attach_witness : exists q m1 len qs m2,
  xgq_alloc demo_server_build XGQ_IN_MEM_PROD ∅ 0x1000 4096 512 0 0 = Some (inr (q, m1, len)) /\
  xgq_attach demo_client_build 0 m1 0x1000 0 0 = Some (inr (qs, m2)) /\ xq_sq qs = xq_sq q.
Proof.
  destruct demo_queues as (q & m1 & len & _ & _ & Hal & _).
  destruct (xgq_alloc_attach demo_server_build demo_client_build XGQ_IN_MEM_PROD 0 0x1000 4096 512 0 0 ∅
    demo_alloc_args q m1 len eq_refl Hal) as (_ & _ & _ & _ & qs & m2 & Hat & E & _).
  by exists q, m1, len, qs, m2.
Defined.

Lemma xgq_refines_channels_witness : exists l tr l' C,
  run_ops demo_client_build demo_server_build l demo_ops = Some (tr, l') /\
  chans_run (fun _ => 4) (ooo demo_client_build demo_server_build) (fun _ => chan0) tr C.
Proof.
  destruct demo_queues as (q & m1 & len & qs & m2 & Hal & Hat & Hn). rewrite <- Hn.
  exists (both true m2 q qs).
  exact (xgq_refines_channels demo_client_build demo_server_build true _ 0 _ _ _ _ _ _ _ _ _ _ _ demo_ops demo_alloc_args eq_refl eq_refl
    eq_refl Hal Hat demo_ops_ok).
Defined.

Lemma xgq_fifo_witness : exists l tr l',
  run_ops demo_client_build demo_server_build l demo_ops = Some (tr, l') /\
  Forall2 (arrives true) (recvs SQ tr) (take (length (recvs SQ tr)) (sents SQ tr)).
Proof.
  destruct demo_queues as (q & m1 & len & qs & m2 & Hal & Hat & Hn).
  destruct (use_simulated demo_client_build demo_server_build true _ 0 _ _ _ _ _ _ demo_alloc_args q m1 len qs m2 demo_ops eq_refl eq_refl
    eq_refl Hal Hat demo_ops_ok) as (tr & l' & _ & Hrun & _).
  exists (both true m2 q qs), tr, l'. split; [exact Hrun|].
  apply (xgq_fifo demo_client_build demo_server_build true _ 0 _ _ _ _ _ _ _ _ _ _ _ demo_ops tr l' SQ demo_alloc_args eq_refl eq_refl
    eq_refl Hal Hat demo_ops_ok Hrun).
Defined.

(** ** Limits of the sizing *)

(** The total is summed in 32 bits while the region length is 64 bits wide: a
    region of 4 GiB is always taken to be large enough. *)
Example xgq_alloc_num_slots_overflow :
  xgq_alloc_num_slots (2 ^ 32) [512] = Some (2 ^ 30) /\ 2 ^ 32 < len_sum (2 ^ 30) [512].
Proof. vm_compute. split; reflexivity. Qed.

(** A limit that is not a power of two is taken as the number of slots of a
    group, and a server refuses such a queue. *)
Example xgq_group_alloc_bad_limit :
  match xgq_group_alloc demo_server_build 0 ∅ 0x1000 4096 [512] 3 with
  | Some (inr (_, m1, _)) => xgq_attach demo_client_build 0 m1 0x1000 0 0
  | _ => None
  end = Some (inl (- EPROTO)).
Proof. vm_compute. reflexivity. Qed.
