(* ===== verification/XgqGroup.v ===== *)
(** * XGQ: a group of queues

    [xgq_group_alloc] lays several queues out one after the other in a region,
    all with the same number of slots and with their pointers in memory.  Each
    of them is as [xgq_alloc] would have left it: the set-up of a later queue
    does not touch an earlier one. *)
From stdpp Require Import functions.
From S2P Require Import Prelude Xgq XgqRing XgqLink XgqAlloc.

(** Where queue [i] starts. *)
Definition group_at (ra n : Z) (sizes : list Z) (i : nat) : Z := ra + len_sum n (take i sizes).

(** A slot size for which a ring can be laid out. *)
Definition slot_ok (s : Z) : Prop := 4 <= s /\ s mod 4 = 0.

Lemma slots_nonneg sizes : Forall slot_ok sizes -> Forall (fun s => 0 <= s) sizes.
Proof. intros HF. eapply Forall_impl; [exact HF|]. intros s [? _]. lia. Qed.

Lemma len_sum_cons n s sizes :
  len_sum n (s :: sizes) = sizeof_header + n * (s + sizeof_com_entry) + len_sum n sizes.
Proof. done. Qed.

Lemma ring_end_len ra k sz : ring_end ra k sz = ra + len_sum (2 ^ k) [sz].
Proof. unfold ring_end. cbn. lia. Qed.

Lemma len_sum_app n l l' : len_sum n (l ++ l') = len_sum n l + len_sum n l'.
Proof. induction l as [|s l IH]; [done|]. cbn [app]. rewrite !len_sum_cons, IH. lia. Qed.

Lemma group_at_S ra n sizes i s : sizes !! i = Some s ->
  group_at ra n sizes (S i) = group_at ra n sizes i + len_sum n [s].
Proof. intros E. unfold group_at. rewrite (take_S_r _ _ _ E), len_sum_app. lia. Qed.

Lemma group_at_mono ra n sizes i j : 0 <= n -> Forall slot_ok sizes -> (i <= j)%nat ->
  group_at ra n sizes i <= group_at ra n sizes j.
Proof.
  intros Hn HF Hij. unfold group_at. replace (take i sizes) with (take i (take j sizes))
    by (rewrite take_take; f_equal; lia).
  rewrite <- (take_drop i (take j sizes)) at 2. rewrite len_sum_app.
  enough (0 <= len_sum n (drop i (take j sizes))) by lia.
  apply len_sum_nonneg; [done|]. by apply Forall_drop, Forall_take, slots_nonneg.
Qed.

Lemma group_at_bounds ra n sizes i s : 0 <= n -> Forall slot_ok sizes -> sizes !! i = Some s ->
  ra <= group_at ra n sizes i /\ group_at ra n sizes i + len_sum n [s] <= ra + len_sum n sizes.
Proof.
  intros Hn HF E. rewrite <- (group_at_S _ _ _ _ _ E). split.
  - pose proof (group_at_mono ra n sizes 0 i Hn HF ltac:(lia)) as Hm.
    replace (group_at ra n sizes 0) with ra in Hm; [done|]. unfold group_at. rewrite take_0. cbn. lia.
  - pose proof (group_at_mono ra n sizes (S i) (length sizes) Hn HF) as Hm.
    apply lookup_lt_Some in E. specialize (Hm ltac:(lia)).
    unfold group_at at 2 in Hm. rewrite take_ge in Hm by lia. lia.
Qed.

(** Two queues of a group do not overlap. *)
Lemma group_disjoint ra n sizes i j s : 0 <= n -> Forall slot_ok sizes -> (i < j)%nat ->
  sizes !! i = Some s -> group_at ra n sizes i + len_sum n [s] <= group_at ra n sizes j.
Proof.
  intros Hn HF Hij E. rewrite <- (group_at_S _ _ _ _ _ E). by apply group_at_mono.
Qed.

(** ** Initialisation *)

(** Setting up a queue with its pointers in memory writes inside the ring. *)
Lemma init_frame ra k sz b flags m q m' :
  layout_ok ra k sz -> words_ok m -> XGQ_IS_IN_MEM_PROD (init_flags b flags) = true ->
  xgq_init b flags m ra (2 ^ k) sz 0 0 = Some (q, m') ->
  forall a, a < ra \/ ring_end ra k sz <= a -> ioread32 m' a = ioread32 m a.
Proof.
  intros HL Hm HF E a Ha. pose proof (n_pos ra k sz HL). destruct (ly_addr _ _ _ HL), (ly_sz _ _ _ HL).
  unfold xgq_init in E. fold (init_flags b flags) in E. unfold producer_addrs in E. rewrite HF in E.
  set (h := hdr_words _) in E. assert (length h = 11%nat) as Hh by done. clearbody h.
  rewrite soft_reset_ok in E by (by apply words_ok_copy).
  cbn [mbind option_bind xr_produced_addr xr_consumed_addr xgq_init_ring] in E.
  rewrite soft_reset_ok in E by (by apply words_ok_write, words_ok_copy).
  cbn [mbind option_bind xr_consumed_addr xgq_copy_to_ring] in E.
  apply Some_inj, (f_equal snd) in E. cbn [snd] in E. subst m'.
  unfold ring_end, sizeof_header, sizeof_com_entry, off_sq_consumed, off_cq_consumed, xgq_mem_write32 in *.
  rewrite (u64_small (ra + 24)), (u64_small (ra + 28)) by nia.
  cbn [xgq_init_ring xr_consumed_addr]. rewrite !ioread_write_ne by nia. apply copy_to_outside; [rewrite ?Hh; nia..|].
  intros (j & Hj & ->). rewrite Hh in Hj. nia.
Qed.

(** The queue at [ra]: as both sides see it at the start, and its memory. *)
Definition fresh_queue (ra k sz F : Z) (q : xgq) (m : shared) : Prop :=
  exists vs vc, q = mk_xgq ra F (start_ring ra k sz SQ (eff_sq ra F 0) (eff_cq ra F 0) vs)
                             (start_ring ra k sz CQ (eff_sq ra F 0) (eff_cq ra F 0) vc) /\
    queue_mem ra k sz F (eff_sq ra F 0) (eff_cq ra F 0) vs vc m.

Lemma fresh_queue_frame ra k sz F q m m' : layout_ok ra k sz -> XGQ_IS_IN_MEM_PROD F = true ->
  fresh_queue ra k sz F q m -> words_ok m' ->
  (forall a, ra <= a < ring_end ra k sz -> ioread32 m' a = ioread32 m a) -> fresh_queue ra k sz F q m'.
Proof.
  intros HL HF (vs & vc & -> & Hq) Hw Hf. exists vs, vc. split; [done|].
  eapply queue_mem_frame; [done|exact Hq|done|]. intros a [Ha|Ha]; [by apply Hf|]. apply Hf.
  pose proof (n_pos ra k sz HL). destruct (ly_sz _ _ _ HL).
  unfold eff_sq, eff_cq, ring_end, sizeof_header, sizeof_com_entry, off_sq_produced, off_cq_produced in *.
  rewrite HF in Ha. apply elem_of_cons in Ha as [->|Ha]; [nia|]. apply list_elem_of_singleton in Ha as ->. nia.
Qed.

Section Group.
Context (b : xgq_build) (flags k : Z).
#[local] Abbreviation F := (init_flags b flags).
Context (HF : XGQ_IS_IN_MEM_PROD F = true) (Hk : 1 <= k <= 30).
#[local] Abbreviation n := (2 ^ k).

Lemma group_layout ra sizes i s : 0 <= ra -> Forall slot_ok sizes -> len_sum n sizes < 2 ^ 32 ->
  ra + len_sum n sizes <= 2 ^ 64 -> sizes !! i = Some s -> layout_ok (group_at ra n sizes i) k s.
Proof.
  intros Hra Hs Hl Ha E. assert (0 <= n) by (apply Z.pow_nonneg; lia).
  destruct (group_at_bounds ra n sizes i s) as [H1 H2]; [done..|].
  pose proof (proj1 (Forall_lookup _ _) Hs i s E) as [? ?].
  rewrite <- ring_end_len in H2. split; [done..|lia|].
  rewrite ring_end_len in H2 |- *. lia.
Qed.

Lemma group_init_ok sizes : forall m ra, words_ok m -> Forall slot_ok sizes -> 0 <= ra ->
  len_sum n sizes < 2 ^ 32 -> ra + len_sum n sizes < 2 ^ 64 ->
  exists qs m', group_init b flags m ra n sizes = Some (qs, m', ra + len_sum n sizes) /\
    length qs = length sizes /\ words_ok m' /\
    (forall a, a < ra \/ ra + len_sum n sizes <= a -> ioread32 m' a = ioread32 m a) /\
    (forall i s, sizes !! i = Some s -> exists q, qs !! i = Some q /\
       fresh_queue (group_at ra n sizes i) k s F q m').
Proof.
  assert (2 <= n) as Hn by (change 2 with (2 ^ 1) at 1; apply Z.pow_le_mono_r; lia).
  induction sizes as [|s sizes IH]; intros m ra Hm Hs Hra Hl Ha.
  { exists [], m. split; [cbn; by rewrite Z.add_0_r|]. split_and!; done. }
  pose proof (group_layout ra (s :: sizes) 0 s Hra Hs Hl ltac:(lia) eq_refl) as HL.
  unfold group_at in HL at 1. cbn [take] in HL. rewrite Z.add_0_r in HL.
  apply Forall_cons in Hs as [Hs0 Hs]. rewrite len_sum_cons in Hl, Ha.
  pose proof (len_sum_nonneg n sizes ltac:(lia) (slots_nonneg _ Hs)) as Hpos.
  assert (producers_ok ra k s F 0 0) as Hp by (intros Hx; by rewrite HF in Hx).
  destruct (init_ok ra k s HL b flags m 0 0 Hm Hp) as (vs & vc & m1 & E & Hq).
  pose proof (init_frame ra k s b flags m _ m1 HL Hm HF E) as Hfr.
  set (len := sizeof_header + n * (s + sizeof_com_entry)) in *.
  assert (0 < len) as Hlen by (unfold len, sizeof_header, sizeof_com_entry; destruct Hs0; nia).
  destruct (IH m1 (ra + len)) as (qs & m' & E' & Hlq & Hw & Hfr' & Hqs); [apply Hq|done|lia..|].
  eexists (_ :: qs), m'. cbn [group_init]. rewrite E. cbn [mbind option_bind fst snd].
  unfold xgq_ring_len. fold len. rewrite (u64_small len), (u64_small (ra + len)) by lia. rewrite E'. cbn [mbind option_bind fst snd].
  rewrite len_sum_cons. fold len. rewrite Z.add_assoc. split; [reflexivity|].
  split; [cbn; by rewrite Hlq|]. split; [done|].
  assert (ring_end ra k s = ra + len) as Er by (unfold ring_end, len; lia).
  split. { intros a Hout. rewrite Hfr' by lia. apply Hfr. lia. }
  intros [|i] s' Ei; cbn [lookup list_lookup] in Ei |- *.
  - injection Ei as <-. unfold group_at. cbn [take]. rewrite Z.add_0_r. eexists. split; [reflexivity|].
    eapply fresh_queue_frame; [done|done|by exists vs, vc|done|].
    intros a Hin. apply Hfr'. lia.
  - destruct (Hqs i s' Ei) as (q & Eq & Hfq). exists q. split; [exact Eq|].
    replace (group_at ra n (s :: sizes) (S i)) with (group_at (ra + len) n sizes i); [done|].
    unfold group_at. cbn [take]. rewrite len_sum_cons. unfold len. lia.
Qed.
End Group.

(** ** Allocation *)

(** What the allocation of a group needs: at least one queue, slots of which two
    per queue fit a 32-bit size, a region below 2 GiB inside the address space,
    and a limit that is a power of two (or none). *)
Record group_args (ra rlen : Z) (sizes : list Z) (max_slots : Z) (m : shared) : Prop := {
  ga_ne : sizes <> [];
  ga_sz : Forall (fun s => 4 <= s) sizes /\ len_sum 2 sizes < 2 ^ 32;
  ga_len : 0 <= rlen < 2 ^ 31;
  ga_addr : 0 <= ra /\ ra + rlen < 2 ^ 64;
  ga_max : max_slots = 0 \/ exists j, 1 <= j <= 30 /\ max_slots = 2 ^ j;
  ga_words : words_ok m;
}.

Lemma group_flags b flags : XGQ_IS_IN_MEM_PROD (init_flags b (Z.lor flags XGQ_IN_MEM_PROD)) = true.
Proof.
  unfold XGQ_IS_IN_MEM_PROD, init_flags. set (f := u32 (Z.lor flags XGQ_IN_MEM_PROD)).
  assert (Z.testbit f 2 = true) as Hf.
  { unfold f, u32. rewrite Z.mod_pow2_bits_low by lia. rewrite Z.lor_spec.
    change (Z.testbit XGQ_IN_MEM_PROD 2) with true. apply orb_true_r. }
  assert (forall x, Z.testbit x 2 = true -> z2b (Z.land x XGQ_IN_MEM_PROD) = true) as Hb.
  { intros x Hx. unfold z2b. destruct (Z.eqb_spec (Z.land x XGQ_IN_MEM_PROD) 0) as [E|]; [|done].
    assert (Z.testbit (Z.land x XGQ_IN_MEM_PROD) 2 = true) as Hl by (by rewrite Z.land_spec, Hx).
    by rewrite E in Hl. }
  destruct (BRAM_COLLISION_WORKAROUND b); apply Hb; [|done]. by rewrite Z.lor_spec, Hf.
Qed.

Lemma group_alloc_ok b flags m ra rlen sizes max_slots :
  group_args ra rlen sizes max_slots m ->
  let F := init_flags b (Z.lor flags XGQ_IN_MEM_PROD) in
  exists r, xgq_group_alloc b flags m ra rlen sizes max_slots = Some r /\
  match r with
  | inl err => err = - EINVAL /\ ~ Forall slot_ok sizes \/
      err = - E2BIG /\ Forall slot_ok sizes /\ rlen < len_sum 2 sizes
  | inr (qs, m', len) => exists k, 1 <= k <= 30 /\ Forall slot_ok sizes /\ len = len_sum (2 ^ k) sizes /\
      (max_slots = 0 \/ 2 ^ k <= max_slots) /\ (max_slots = 2 ^ k \/ rlen < len_sum (2 ^ (k + 1)) sizes) /\
      len <= rlen /\ length qs = length sizes /\ words_ok m' /\
      (forall a, a < ra \/ ra + len <= a -> ioread32 m' a = ioread32 m a) /\
      (forall i s, sizes !! i = Some s -> exists q, qs !! i = Some q /\
         fresh_queue (group_at ra (2 ^ k) sizes i) k s F q m')
  end.
Proof.
  intros HA F. destruct (ga_sz _ _ _ _ _ HA) as [H4 H2]. destruct (ga_addr _ _ _ _ _ HA) as [Hra Hrl].
  pose proof (ga_len _ _ _ _ _ HA) as Hlen. unfold xgq_group_alloc.
  destruct (existsb _ sizes) eqn:Em.
  { eexists. split; [reflexivity|]. left. split; [done|]. intros HF. apply existsb_exists in Em as (s & Hin & Hm).
    apply list_elem_of_In in Hin. pose proof (proj1 (Forall_forall _ _) HF s Hin) as [_ Hm0].
    rewrite Hm0 in Hm. done. }
  assert (Forall slot_ok sizes) as Hs.
  { apply Forall_forall. intros s Hin. split; [by apply (proj1 (Forall_forall _ _) H4)|].
    destruct (z2b (s mod 4)) eqn:Ez; [|unfold z2b in Ez; lia].
    enough (existsb (fun s => z2b (s mod 4)) sizes = true) by congruence.
    apply existsb_exists. exists s. split; [by apply list_elem_of_In|done]. }
  destruct (num_slots_spec rlen sizes (ga_ne _ _ _ _ _ HA) (slots_nonneg _ Hs) Hlen H2)
    as (k & Hk & En & Hfit & Hmax).
  rewrite En. cbn [mbind option_bind].
  assert (0 < 2 ^ k <= 2 ^ 30) as Hp by (split; [apply Z.pow_pos_nonneg|apply Z.pow_le_mono_r]; lia).
  rewrite u32_small by lia.
  destruct (Z.ltb_spec (2 ^ k) XGQ_MIN_NUM_SLOTS) as [Hlt|Hge]; unfold XGQ_MIN_NUM_SLOTS in *.
  { eexists. split; [reflexivity|]. right. split; [done|]. split; [done|].
    destruct (decide (k = 0)) as [->|]; [done|]. assert (2 ^ 1 <= 2 ^ k) by (apply Z.pow_le_mono_r; lia). lia. }
  assert (1 <= k) as Hk1 by (destruct (decide (k = 0)) as [->|]; [done|lia]). specialize (Hfit Hk1).
  assert (exists k', 1 <= k' <= k /\ (max_slots = 0 \/ 2 ^ k' <= max_slots) /\ (max_slots = 2 ^ k' \/ k' = k) /\
    (if z2b max_slots && (max_slots <? 2 ^ k) then max_slots else 2 ^ k) = 2 ^ k') as (k' & Hk' & Hmx & Hor & Ek).
  { destruct (ga_max _ _ _ _ _ HA) as [->|(j & Hj & ->)]; [exists k; split_and!; [lia|lia|by left|by right|done]|].
    destruct (Z.ltb_spec (2 ^ j) (2 ^ k)) as [Hlt|?];
      [|rewrite andb_false_r; exists k; split_and!; [lia|lia|by right|by right|done]].
    exists j. apply Z.pow_lt_mono_r_iff in Hlt; [|lia..]. split; [lia|]. split; [by right|]. split; [by left|].
    assert (0 < 2 ^ j) by (apply Z.pow_pos_nonneg; lia). unfold z2b.
    by replace (2 ^ j =? 0) with false by lia. }
  rewrite Ek.
  assert (len_sum (2 ^ k') sizes <= rlen) as Hfit'.
  { etransitivity; [apply (len_sum_mono (2 ^ k') (2 ^ k)); [|by apply slots_nonneg]|done].
    split; [apply Z.pow_nonneg; lia|apply Z.pow_le_mono_r; lia]. }
  destruct (group_init_ok b (Z.lor flags XGQ_IN_MEM_PROD) k' (group_flags b flags) ltac:(lia) sizes m ra)
    as (qs & m' & Ei & Hl & Hw & Hfr & Hq); [apply HA|done|done|lia|lia|].
  rewrite Ei. cbn [mbind option_bind fst snd].
  assert (0 <= len_sum (2 ^ k') sizes) by (apply len_sum_nonneg; [apply Z.pow_nonneg; lia|by apply slots_nonneg]).
  replace (ra + len_sum (2 ^ k') sizes - ra) with (len_sum (2 ^ k') sizes) by lia.
  rewrite u64_small by lia. eexists. split; [reflexivity|]. exists k'. split_and!; try done; try lia. destruct Hor as [?| ->]; [by left|by right].
Qed.

(** ** Several queues in use *)

(** Client and server ends of the queues on one memory. *)
Record links := mk_links { ls_mem : shared; ls_ends : list (xgq * xgq) }.

Definition link_of (L : links) (e : xgq * xgq) : link := mk_link (ls_mem L) e.1 e.2.

Section Links.
Context (client server : xgq_build).

(** A call on queue [i]. *)
Definition run_at (L : links) (i : nat) (o : op) : option (chan_event * links) :=
  e ← ls_ends L !! i;
  r ← run_op client server (link_of L e) o;
  Some (r.1, mk_links (lk_mem r.2) (<[i := (lk_client r.2, lk_server r.2)]> (ls_ends L))).

Fixpoint run_all (L : links) (ops : list (nat * op)) : option (list (nat * (dir * chan_event)) * links) :=
  match ops with
  | [] => Some ([], L)
  | (i, o) :: ops =>
      r ← run_at L i o;
      s ← run_all r.2 ops;
      Some ((i, (op_dir o, r.1)) :: s.1, s.2)
  end.

(** What happened on queue [i]. *)
Definition on_queue (i : nat) (tr : list (nat * (dir * chan_event))) : list (dir * chan_event) :=
  (filter (fun x => x.1 = i) tr).*2.

Context (G : nat -> dir -> geom) (N : nat).
Hypothesis HG : forall i, (i < N)%nat -> geoms_ok (G i).
Hypothesis Hdisj : forall i j d d' a, (i < N)%nat -> (j < N)%nat -> i <> j ->
  in_ring (G i d) a -> ~ in_ring (G j d') a.

Definition links_inv (X : nat -> dir -> ghost) (L : links) : Prop :=
  length (ls_ends L) = N /\
  forall i e, ls_ends L !! i = Some e -> link_inv client server (G i) (X i) (link_of L e).

Lemma at_simulated X L i o : links_inv X L -> (i < N)%nat -> op_ok client server (G i) o ->
  exists ev L' x, run_at L i o = Some (ev, L') /\ links_inv (<[i := <[op_dir o := x]> (X i)]> X) L' /\
    chan_step (g_n (G i (op_dir o))) (ooo client server (op_dir o)) (abs (X i (op_dir o))) ev (abs x).
Proof.
  intros [Hl H] Hi Ho. destruct (lookup_lt_is_Some_2 (ls_ends L) i) as [e Ee]; [lia|].
  destruct (op_simulated client server (G i) (HG i Hi) (X i) (link_of L e) o (H i e Ee) Ho)
    as (ev & l' & x & Er & [Hl' Hm] & Hc).
  unfold run_at. rewrite Ee. cbn [mbind option_bind]. rewrite Er. cbn [mbind option_bind fst snd].
  eexists _, _, x. split; [reflexivity|]. split; [|exact Hc]. split; [cbn; by rewrite length_insert|].
  intros j e' Ej. cbn [ls_ends] in Ej. destruct (decide (j = i)) as [->|Hne].
  - rewrite list_lookup_insert_eq in Ej by lia. injection Ej as <-. rewrite fn_lookup_insert.
    unfold link_of. cbn [ls_mem fst snd]. by destruct l'.
  - rewrite list_lookup_insert_ne in Ej by done. rewrite fn_lookup_insert_ne by done.
    assert (j < N)%nat as Hj by (apply lookup_lt_Some in Ej; lia).
    intros d. eapply (inv_frame (G j d) (go_each _ (HG j Hj) d)); [apply (H j e' Ej)|].
    intros a Ha. apply Hm. by apply (Hdisj j i d).
Qed.

Lemma all_simulated ops : forall X L, links_inv X L ->
  Forall (fun x => (x.1 < N)%nat /\ op_ok client server (G x.1) x.2) ops ->
  exists tr L' X', run_all L ops = Some (tr, L') /\ links_inv X' L' /\
    forall i, chans_run (fun d => g_n (G i d)) (ooo client server) (fun d => abs (X i d)) (on_queue i tr)
                (fun d => abs (X' i d)).
Proof.
  induction ops as [|[i o] ops IH]; intros X L H HF.
  { exists [], L, X. split; [done|]. split; [done|]. intros i. constructor. }
  apply Forall_cons in HF as [[Hi Ho] HF]. cbn [fst snd] in *.
  destruct (at_simulated X L i o H Hi Ho) as (ev & L1 & x & E1 & H1 & S1).
  destruct (IH _ L1 H1 HF) as (tr & L' & X' & E2 & H2 & S2).
  eexists (_ :: tr), L', X'. cbn [run_all]. rewrite E1. cbn [mbind option_bind fst snd]. rewrite E2.
  split; [reflexivity|]. split; [done|]. intros j. specialize (S2 j). unfold on_queue.
  destruct (decide (i = j)) as [<-|Hne].
  - rewrite filter_cons_True by done. rewrite fn_lookup_insert in S2. cbn [fmap list_fmap snd].
    eapply run_cons; [| |exact S2].
    + cbn beta. by rewrite fn_lookup_insert.
    + intros d' Hd. cbn beta. by rewrite fn_lookup_insert_ne.
  - rewrite filter_cons_False by done. by rewrite fn_lookup_insert_ne in S2.
Qed.
End Links.

(** ** From allocation to use *)

(** Attaching to a queue whose pointers are in memory changes nothing. *)
Lemma attach_fresh ra k sz F q m b fs : layout_ok ra k sz -> XGQ_IS_IN_MEM_PROD F = true ->
  XGQ_IS_IN_MEM_PROD (u32 fs) = false -> fresh_queue ra k sz F q m ->
  exists q', xgq_attach b fs m ra 0 0 = Some (inr (q', m)) /\ xq_sq q' = xq_sq q /\ xq_cq q' = xq_cq q.
Proof.
  intros HL HF Hfs (vs & vc & -> & Hq). assert (producers_ok ra k sz F 0 0) as Hp by (intros Hx; congruence).
  destruct (attach_ok ra k sz HL b fs m F 0 0 vs vc Hfs Hp Hq) as (F' & m' & E & _ & Hm).
  rewrite (Hm HF) in E. by eexists.
Qed.

(** A queue of the group with the other end attached. *)
Definition attached (b : xgq_build) (fs : Z) (m : shared) (q q' : xgq) : Prop :=
  xgq_attach b fs m (xq_header_addr q) 0 0 = Some (inr (q', m)).

(** The geometry of a queue with pointers in memory, from one of its ends. *)
Definition geom_of (k : Z) (q : xgq) : dir -> geom :=
  let ra := xq_header_addr q in
  queue_geom ra k (xr_slot_sz (xq_sq q)) (ra + off_sq_produced) (ra + off_cq_produced)
    (xr_produced (xq_sq q)) (xr_produced (xq_cq q)).

Lemma fresh_link ra k sz F q q' m client server fs : layout_ok ra k sz -> XGQ_IS_IN_MEM_PROD F = true ->
  XGQ_SERVER client = false -> XGQ_SERVER server = true -> XGQ_IS_IN_MEM_PROD (u32 fs) = false ->
  fresh_queue ra k sz F q m -> attached client fs m q q' ->
  geoms_ok (geom_of k q) /\ link_inv client server (geom_of k q) (fun _ => ghost0) (mk_link m q' q).
Proof.
  intros HL HF Hc Hs Hfs (vs & vc & -> & Hq) Ha. unfold attached in Ha. cbn [xq_header_addr] in Ha.
  assert (producers_ok ra k sz F 0 0) as Hp by (intros Hx; congruence).
  destruct (attach_ok ra k sz HL client fs m F 0 0 vs vc Hfs Hp Hq) as (F' & m' & E & _ & Hm).
  rewrite E, (Hm HF) in Ha. injection Ha as <-.
  destruct (eff_pointers_ok ra k sz HL F 0 0 Hp) as [Hpt _].
  assert (eff_sq ra F 0 = ra + off_sq_produced /\ eff_cq ra F 0 = ra + off_cq_produced) as [Es Ec]
    by (unfold eff_sq, eff_cq; by rewrite HF).
  unfold geom_of, start_ring. cbn [xq_header_addr xq_sq xq_cq xr_slot_sz xr_produced queue_geom g_sz].
  rewrite <- Es, <- Ec. split; [by apply queue_geoms_ok|]. by eapply start_link_inv.
Qed.

(** The words of its rings are in the region of the queue. *)
Lemma in_ring_region ra k sz F q m d a : layout_ok ra k sz -> fresh_queue ra k sz F q m ->
  in_ring (geom_of k q d) a -> ra <= a < ring_end ra k sz.
Proof.
  intros HL (vs & vc & -> & _) Ha. pose proof (n_pos ra k sz HL). destruct (ly_sz _ _ _ HL).
  assert (ra + sizeof_header <= ring_end ra k sz) by (unfold ring_end, sizeof_header, sizeof_com_entry in *; nia).
  destruct Ha as [->|[->|Ha]].
  - destruct d; cbn; unfold sizeof_header, off_sq_produced, off_cq_produced in *; lia.
  - destruct d; cbn; unfold sizeof_header, off_sq_consumed, off_cq_consumed in *; lia.
  - apply (slots_range ra k sz HL) in Ha. unfold ring_end, sizeof_header, sizeof_com_entry in *.
    destruct d; nia.
Qed.

(** Calls on existing queues with entries that fit. *)
Definition group_ops_ok (client server : xgq_build) (sizes : list Z) : list (nat * op) -> Prop :=
  Forall (fun x => exists s, sizes !! x.1 = Some s /\ ops_ok client server s [x.2]).

(** Queues laid out one after the other, as the allocation leaves them. *)
Record group_mem (k ra : Z) (sizes : list Z) (F : Z) (qs : list xgq) (m : shared) : Prop := {
  gm_k : 1 <= k <= 30;
  gm_ra : 0 <= ra /\ ra + len_sum (2 ^ k) sizes <= 2 ^ 64;
  gm_sizes : Forall slot_ok sizes /\ len_sum (2 ^ k) sizes < 2 ^ 32;
  gm_flags : XGQ_IS_IN_MEM_PROD F = true;
  gm_len : length qs = length sizes;
  gm_queue : forall i s, sizes !! i = Some s -> exists q, qs !! i = Some q /\
               fresh_queue (group_at ra (2 ^ k) sizes i) k s F q m;
}.

Section Use.
Context (client server : xgq_build) (fs : Z).
Context (Hc : XGQ_SERVER client = false) (Hs : XGQ_SERVER server = true).
Context (Hfs : XGQ_IS_IN_MEM_PROD (u32 fs) = false).
Context (k ra : Z) (sizes : list Z) (F : Z) (qs : list xgq) (m : shared).
Context (HM : group_mem k ra sizes F qs m).

Lemma group_queue i q : qs !! i = Some q -> exists s, sizes !! i = Some s /\
  layout_ok (group_at ra (2 ^ k) sizes i) k s /\ fresh_queue (group_at ra (2 ^ k) sizes i) k s F q m.
Proof.
  intros Eq. destruct HM as [Hk [Hra Hend] [HS Hl] _ Hlen Hq].
  destruct (lookup_lt_is_Some_2 sizes i) as [s Es]; [apply lookup_lt_Some in Eq; lia|].
  destruct (Hq i s Es) as (q' & Eq' & Hfr). rewrite Eq in Eq'. injection Eq' as <-.
  exists s. split; [done|]. split; [by apply group_layout|done].
Qed.

Lemma group_rings_disjoint i j q q' d d' a : i <> j -> qs !! i = Some q -> qs !! j = Some q' ->
  in_ring (geom_of k q d) a -> ~ in_ring (geom_of k q' d') a.
Proof.
  intros Hne Ei Ej Ha Ha'. destruct (group_queue i q Ei) as (s & Es & HL & Hf).
  destruct (group_queue j q' Ej) as (s' & Es' & HL' & Hf').
  apply (in_ring_region _ _ _ _ _ _ _ _ HL Hf) in Ha. apply (in_ring_region _ _ _ _ _ _ _ _ HL' Hf') in Ha'.
  rewrite ring_end_len in Ha, Ha'. destruct HM as [Hk _ [HS _] _ _ _].
  assert (0 <= 2 ^ k) as Hn by (apply Z.pow_nonneg; lia).
  destruct (decide (i < j)%nat).
  - pose proof (group_disjoint ra _ sizes i j s Hn HS ltac:(done) Es). lia.
  - pose proof (group_disjoint ra _ sizes j i s' Hn HS ltac:(lia) Es'). lia.
Qed.

Lemma group_simulated qc ops :
  Forall2 (attached client fs m) qs qc -> group_ops_ok client server sizes ops ->
  exists tr L', run_all client server (mk_links m (zip qc qs)) ops = Some (tr, L') /\
    forall i, exists C, chans_run (fun _ => 2 ^ k) (ooo client server) (fun _ => chan0) (on_queue i tr) C.
Proof.
  intros Hatt Hops. pose proof (Forall2_length _ _ _ Hatt) as Hlc.
  set (G := fun i => geom_of k (default (mk_xgq 0 0 (mk_xgq_ring 0 0 0 0 0 0 0) (mk_xgq_ring 0 0 0 0 0 0 0)) (qs !! i))).
  destruct (all_simulated client server G (length qs)) with (ops := ops) (X := fun (_ : nat) (_ : dir) => ghost0)
    (L := mk_links m (zip qc qs)) as (tr & L' & X' & E & _ & Hch).
  - intros i Hi. destruct (lookup_lt_is_Some_2 qs i Hi) as [q Eq]. unfold G. rewrite Eq. cbn [default].
    destruct (group_queue i q Eq) as (s & _ & HL & Hf). destruct (Forall2_lookup_l _ _ _ _ _ Hatt Eq) as (q' & _ & Ha).
    exact (proj1 (fresh_link _ k s F q q' m client server fs HL (gm_flags _ _ _ _ _ _ HM) Hc Hs Hfs Hf Ha)).
  - intros i j d d' a Hi Hj Hne. destruct (lookup_lt_is_Some_2 qs i Hi) as [q Eq].
    destruct (lookup_lt_is_Some_2 qs j Hj) as [q' Eq']. unfold G. rewrite Eq, Eq'.
    by apply (group_rings_disjoint i j).
  - split; [cbn; rewrite length_zip; lia|]. intros i [q' q] Ee. apply lookup_zip_with_Some in Ee as (? & ? & [= <- <-] & Eq' & Eq).
    unfold G. rewrite Eq. cbn [default]. destruct (group_queue i q Eq) as (s & _ & HL & Hf).
    pose proof (Forall2_lookup_lr _ _ _ _ _ _ Hatt Eq Eq') as Ha.
    exact (proj2 (fresh_link _ k s F q q' m client server fs HL (gm_flags _ _ _ _ _ _ HM) Hc Hs Hfs Hf Ha)).
  - eapply Forall_impl; [exact Hops|]. intros [i o] (s & Es & Ho). cbn [fst snd] in *.
    destruct (gm_queue _ _ _ _ _ _ HM i s Es) as (q & Eq & vs & vc & -> & _).
    split; [by eapply lookup_lt_Some|]. unfold G. rewrite Eq. apply (Forall_inv (l := [])) in Ho.
    destruct o as [[] e| | |]; try done; destruct Ho as [H1 H2 H3]; by split.
  - exists tr, L'. split; [exact E|]. intros i. exists (fun d => abs (X' i d)). eapply chans_run_ext; [|apply Hch].
    intros d. by destruct d.
Qed.
End Use.

Lemma alloc_group_mem b flags m ra rlen sizes max_slots qs m' len :
  group_args ra rlen sizes max_slots m ->
  xgq_group_alloc b flags m ra rlen sizes max_slots = Some (inr (qs, m', len)) ->
  exists k, group_mem k ra sizes (init_flags b (Z.lor flags XGQ_IN_MEM_PROD)) qs m' /\
    len = len_sum (2 ^ k) sizes /\ len <= rlen /\ words_ok m' /\
    (max_slots = 0 \/ 2 ^ k <= max_slots) /\ (max_slots = 2 ^ k \/ rlen < len_sum (2 ^ (k + 1)) sizes) /\
    (forall a, a < ra \/ ra + len <= a -> ioread32 m' a = ioread32 m a).
Proof.
  intros HA E. destruct (group_alloc_ok b flags _ _ _ _ _ HA) as (r & E' & Hr).
  rewrite E in E'. injection E' as <-. destruct Hr as (k & Hk & HS & -> & Hm1 & Hm2 & Hle & Hl & Hw & Hfr & Hq).
  pose proof (ga_len _ _ _ _ _ HA). destruct (ga_addr _ _ _ _ _ HA).
  exists k. split; [|done]. split; [done|lia|split; [done|lia]|apply group_flags|done|done].
Qed.

Lemma group_attached k ra sizes F qs m client fs : group_mem k ra sizes F qs m ->
  XGQ_IS_IN_MEM_PROD (u32 fs) = false -> exists qc, Forall2 (attached client fs m) qs qc.
Proof.
  intros HM Hfs.
  assert (forall i q, qs !! i = Some q -> exists q', attached client fs m q q') as Hex.
  { intros i q Eq. destruct (group_queue k ra sizes F qs m HM i q Eq) as (s & _ & HL & Hf).
    destruct (attach_fresh _ k s F q m client fs HL (gm_flags _ _ _ _ _ _ HM) Hfs Hf) as (q' & E & _).
    exists q'. unfold attached. destruct Hf as (vs & vc & -> & _). exact E. }
  clear HM. induction qs as [|q qs IH]; [by exists []|].
  destruct (Hex 0%nat q eq_refl) as [q' Hq]. destruct IH as [qc Hqc]; [intros i; apply (Hex (S i))|].
  exists (q' :: qc). by constructor.
Qed.

(** C25. A region divided into queues by one allocation: the other side can
    attach to every queue, the rings fit the region, and then, whatever calls
    both sides make on all queues in whatever order, no call gets stuck and each
    queue by itself behaves as two FIFO channels from empty; the traffic of one
    queue is invisible on the others. *)
Theorem xgq_group_refines_channels client server flags fs ra rlen sizes max_slots m qs m1 len :
  group_args ra rlen sizes max_slots m ->
  XGQ_SERVER client = false -> XGQ_SERVER server = true -> XGQ_IS_IN_MEM_PROD (u32 fs) = false ->
  xgq_group_alloc server flags m ra rlen sizes max_slots = Some (inr (qs, m1, len)) ->
  exists k qc, 1 <= k /\ len = len_sum (2 ^ k) sizes /\ len <= rlen /\ length qs = length sizes /\
    Forall2 (attached client fs m1) qs qc /\
    forall ops, group_ops_ok client server sizes ops ->
      exists tr L', run_all client server (mk_links m1 (zip qc qs)) ops = Some (tr, L') /\
        forall i, exists C,
          chans_run (fun _ => 2 ^ k) (ooo client server) (fun _ => chan0) (on_queue i tr) C.
Proof.
  intros HA Hc Hs Hfs E. destruct (alloc_group_mem _ _ _ _ _ _ _ _ _ _ HA E) as (k & HM & El & Hle & _).
  destruct (group_attached k ra sizes _ qs m1 client fs HM Hfs) as [qc Hqc].
  exists k, qc. split; [apply HM|]. split; [done|]. split; [done|]. split; [apply HM|]. split; [done|].
  intros ops Hops. by apply (group_simulated client server fs Hc Hs Hfs k ra sizes _ qs m1 HM).
Qed.

Lemma demo_group_args : group_args 0x190800 0xf800 [512; 256; 64] 128 ∅.
Proof.
  split; [done|split; [repeat constructor; lia|reflexivity]|lia|lia|right; exists 7; split; [lia|done]|].
  intros a. unfold ioread32. rewrite lookup_empty. cbn. lia.
Qed.

(** Commands on two queues at the same time. *)
Definition demo_group_ops : list (nat * op) :=
  [(0%nat, OSend SQ [1; 2]); (2%nat, OSend SQ [3]); (2%nat, OPublish SQ); (0%nat, OPublish SQ);
   (2%nat, ORecv SQ); (0%nat, ORecv SQ); (0%nat, OAck SQ)].

Lemma xgq_group_refines_channels_witness : exists qs m1 len k qc tr L',
  xgq_group_alloc (mk_build true false true false) 0 ∅ 0x190800 0xf800 [512; 256; 64] 128 =
    Some (inr (qs, m1, len)) /\
  run_all (mk_build false false false false) (mk_build true false true false) (mk_links m1 (zip qc qs))
    demo_group_ops = Some (tr, L') /\
  exists C, chans_run (fun _ => 2 ^ k) (ooo (mk_build false false false false) (mk_build true false true false))
              (fun _ => chan0) (on_queue 2 tr) C.
Proof.
  destruct (xgq_group_alloc (mk_build true false true false) 0 ∅ 0x190800 0xf800 [512; 256; 64] 128)
    as [[err|[[qs m1] len]]|] eqn:E; [vm_compute in E; discriminate E| |vm_compute in E; discriminate E].
  destruct (xgq_group_refines_channels (mk_build false false false false) (mk_build true false true false) 0 0
    _ _ _ _ _ qs m1 len demo_group_args eq_refl eq_refl eq_refl E)
    as (k & qc & _ & _ & _ & _ & _ & Hrun).
  destruct (Hrun demo_group_ops) as (tr & L' & Er & Hch).
  { repeat constructor; cbn; eexists; (split; [reflexivity|]); repeat constructor; try done; cbn; lia. }
  exists qs, m1, len, k, qc, tr, L'. split; [reflexivity|]. split; [exact Er|].
  exact (Hch 2%nat).
Defined.
