(* ===== verification/XoclXgq.v ===== *)
(** * Clients of an XGQ

    [xocl_xgq.c]: the CUs of a device share one XGQ.  Each is a client with a
    list of submitted and one of completed commands; the low bits of a
    command's CID carry the client's index, by which a completion entry finds
    its client.

    The state is the CID counter (a static variable), the shared memory and the
    queue.  [None] is an access outside an array or a NULL payload. *)
From S2P Require Import Prelude KdsCommand CuCore Xgq XgqAlloc.

Definition CLIENT_ID_BITS : Z := 7.
Definition MAX_CLIENTS : Z := Z.shiftl 1 CLIENT_ID_BITS.
Definition CLIENT_ID_MASK : Z := MAX_CLIENTS - 1.
Definition XGQ_PROT_NEED_RESP : Z := Z.shiftl 1 0.

(** The build of [xgq_xocl_plat.h]: a client without workarounds. *)
Definition xocl_build : xgq_build := mk_build false false false false.

Record xocl_xgq_client := mk_xclient {
  xxc_client : Z;
  xxc_submitted : list kds_command;
  xxc_num_submit : Z;
  xxc_completed : list kds_command;
  xxc_num_complete : Z;
  xxc_prot : Z;
  xxc_notify_sem : Z;
  xxc_is_used : bool;
}.
#[export] Instance eta_xclient : Eta xocl_xgq_client := fun c =>
  mk_xclient (xxc_client c) (xxc_submitted c) (xxc_num_submit c) (xxc_completed c)
    (xxc_num_complete c) (xxc_prot c) (xxc_notify_sem c) (xxc_is_used c).
Definition xclient0 : xocl_xgq_client := mk_xclient 0 [] 0 [] 0 0 0 false.

Record xocl_xgq := mk_xocl_xgq {
  xx_xgq : xgq;
  xx_id : Z;
  xx_ref_cnt : Z;
  xx_addr : Z;
  xx_clients : list xocl_xgq_client;
  xx_num_client : Z;
  xx_sq_prod_int : option Z;
}.
#[export] Instance eta_xocl_xgq : Eta xocl_xgq := fun x =>
  mk_xocl_xgq (xx_xgq x) (xx_id x) (xx_ref_cnt x) (xx_addr x) (xx_clients x) (xx_num_client x)
    (xx_sq_prod_int x).

Record xworld := mk_xworld {
  xocl_xgq_cid : Z;
  xw_mem : shared;
  xw_xgq : xocl_xgq;
}.
#[export] Instance eta_xworld : Eta xworld := fun w =>
  mk_xworld (xocl_xgq_cid w) (xw_mem w) (xw_xgq w).

Definition get_client (w : xworld) (id : Z) : option xocl_xgq_client :=
  aget_chk xclient0 (xx_clients (xw_xgq w)) id.
Definition put_client (w : xworld) (id : Z) (c : xocl_xgq_client) : xworld :=
  w <| xw_xgq ::= fun x => x <| xx_clients ::= fun l => aset l id c |> |>.
Definition put_queue (w : xworld) (q : xgq) : xworld :=
  w <| xw_xgq ::= fun x => x <| xx_xgq := q |> |>.

(** ** Submission *)

(** [words] words of [src]. *)
Definition xocl_xgq_write_queue (m : shared) (dst : Z) (src : list Z) (words : Z) : option shared :=
  ws ← copy_out src 0 words; Some (xgq_copy_to_ring m ws dst).
Definition xocl_xgq_read_queue (m : shared) (src : Z) (words : nat) : list Z :=
  xgq_copy_from_ring m src words.

Definition xocl_xgq_trigger_sq_intr (w : xworld) : xworld :=
  match xx_sq_prod_int (xw_xgq w) with
  | None => w
  | Some reg => w <| xw_mem := xgq_reg_write32 (xw_mem w) reg (Z.shiftl 1 (xx_id (xw_xgq w))) |>
  end.

(** CID of the next command of client [id]; the field is 16 bits wide. *)
Definition make_cid (counter id : Z) : Z := u16 (Z.shiftl counter CLIENT_ID_BITS + id).

Definition xgq_hdr_cid (buf : list Z) : Z := field (aget 0 buf 1) 0 16.
Definition put_cid (cid : Z) (buf : list Z) : option (list Z) :=
  h ← aget_chk 0 buf 1; aset_chk buf 1 (set_field h 0 16 cid).

(** The command comes back too: its CID changes even when the ring is full. *)
Definition xocl_xgq_set_command (w : xworld) (client_id : Z) (xcmd : kds_command)
  : option (Z * xworld * kds_command) :=
  c ← get_client w client_id;
  info ← xcmd_info xcmd;
  info ← put_cid (make_cid (xocl_xgq_cid w) client_id) info;
  let xcmd := xcmd <| xcmd_info := Some info |> in
  let w := w <| xocl_xgq_cid := u16 (xocl_xgq_cid w + 1) |> in
  p ← xgq_produce xocl_build (xw_mem w) (xx_xgq (xw_xgq w));
  let '(ret, slot, q) := p in
  let w := put_queue w q in
  match slot with
  | None => Some (ret, w, xcmd)
  | Some addr =>
      m ← xocl_xgq_write_queue (xw_mem w) addr info (xcmd_isize xcmd / 4);
      let w := w <| xw_mem := m |> in
      let c := c <| xxc_submitted := xxc_submitted c ++ [xcmd] |>
                 <| xxc_num_submit := s32 (xxc_num_submit c + 1) |> in
      Some (0, put_client w client_id c, xcmd)
  end.

Definition xocl_xgq_notify (w : xworld) : xworld :=
  xocl_xgq_trigger_sq_intr
    (w <| xw_mem := xgq_notify_peer_produced xocl_build (xw_mem w) (xx_xgq (xw_xgq w)) |>).

(** ** Completion *)

(** Value of [enum kds_status]; its bound is no status of a command. *)
Definition status_of (z : Z) : option kds_status :=
  list_find (fun s => status_ix s = z)
    [KDS_NEW; KDS_QUEUED; KDS_RUNNING; KDS_COMPLETED; KDS_ERROR; KDS_ABORT; KDS_TIMEOUT;
     KDS_SKCRASHED] ≫= fun r => Some r.2.

(** Offsets of [struct xgq_com_queue_entry]. *)
Definition resp_result : Z := 4.
Definition resp_rcode : Z := 12.

(** Result: error number, the status stored through the pointer.  A status
    outside the enumeration is outside the model. *)
Definition xocl_xgq_handle_resp (w : xworld) (client_id resp_addr : Z)
  : option (Z * option kds_status * xworld) :=
  c ← get_client w client_id;
  match xxc_submitted c with
  | [] => Some (- EINVAL, None, w)
  | xcmd :: rest =>
      xcmd ← (if z2b (Z.land (xxc_prot c) XGQ_PROT_NEED_RESP) then
                let rcode := hd 0 (xocl_xgq_read_queue (xw_mem w) (u64 (resp_addr + resp_rcode)) 1) in
                let result := hd 0 (xocl_xgq_read_queue (xw_mem w) (u64 (resp_addr + resp_result)) 1) in
                s ← status_of result;
                Some (xcmd <| xcmd_rcode := rcode |> <| xcmd_status := s |>)
              else Some (xcmd <| xcmd_status := KDS_COMPLETED |>));
      let c := c <| xxc_submitted := rest |> <| xxc_completed := xxc_completed c ++ [xcmd] |>
                 <| xxc_num_submit := s32 (xxc_num_submit c - 1) |>
                 <| xxc_num_complete := s32 (xxc_num_complete c + 1) |> in
      Some (0, Some (xcmd_status xcmd), put_client w client_id c)
  end.

(** The client an entry belongs to; the header is read only when there are
    several clients. *)
Definition resp_target (w : xworld) (client_id addr : Z) : Z :=
  if 1 <? xx_num_client (xw_xgq w)
  then Z.land (field (hd 0 (xocl_xgq_read_queue (xw_mem w) addr 1)) 0 16) CLIENT_ID_MASK
  else client_id.

Definition xocl_xgq_check_response (w : xworld) (client_id : Z)
  : option (Z * option kds_status * xworld) :=
  p ← xgq_consume xocl_build (xw_mem w) (xx_xgq (xw_xgq w));
  let '(ret, slot, q, m) := p in
  let w := put_queue w q <| xw_mem := m |> in
  match slot with
  | None => Some (ret, None, w)
  | Some addr =>
      let target_id := resp_target w client_id addr in
      h ← xocl_xgq_handle_resp w target_id addr;
      let '(ret, status, w) := h in
      if z2b ret then Some (ret, status, w)
      else
        let w := w <| xw_mem := xgq_notify_peer_consumed xocl_build (xw_mem w) (xx_xgq (xw_xgq w)) |> in
        Some (if negb (client_id =? target_id) then - ENOENT else 0, status, w)
  end.

Definition xocl_xgq_get_command (w : xworld) (client_id : Z) : option (option kds_command * xworld) :=
  c ← get_client w client_id;
  match xxc_completed c with
  | [] => Some (None, w)
  | xcmd :: rest =>
      Some (Some xcmd, put_client w client_id
        (c <| xxc_completed := rest |> <| xxc_num_complete := s32 (xxc_num_complete c - 1) |>))
  end.

Definition xocl_xgq_abort (w : xworld) (client_id : Z) (m : kds_command -> bool)
  : option (Z * xworld) :=
  c ← get_client w client_id;
  let '(sub, comp) := abort_walk m (xxc_submitted c) (xxc_completed c) in
  let moved := Z.of_nat (length (xxc_submitted c)) - Z.of_nat (length sub) in
  let c := c <| xxc_submitted := sub |> <| xxc_completed := comp |>
             <| xxc_num_submit := s32 (xxc_num_submit c - moved) |>
             <| xxc_num_complete := s32 (xxc_num_complete c + moved) |> in
  Some (if moved =? 0 then 0 else - EBUSY, put_client w client_id c).

(** ** Clients *)

(** Index of the first unused entry below [num_client]. *)
Definition first_unused (x : xocl_xgq) : option nat :=
  list_find (fun c => xxc_is_used c = false) (take (Z.to_nat (xx_num_client x)) (xx_clients x))
    ≫= fun r => Some r.1.

(** Whether any client is in use; [false]: the queue is freed. *)
Definition xocl_xgq_detach (w : xworld) (client_id : Z) : option (bool * xworld) :=
  c ← get_client w client_id;
  let w := put_client w client_id (c <| xxc_is_used := false |>) in
  Some (existsb xxc_is_used (take (Z.to_nat (xx_num_client (xw_xgq w))) (xx_clients (xw_xgq w))), w).

Definition xgq_get_next_available_entry (x : xocl_xgq) : Z * xocl_xgq :=
  let '(c_id, x) := match first_unused x with
                    | Some i => (Z.of_nat i, x)
                    | None => (xx_num_client x, x <| xx_num_client := u32 (xx_num_client x + 1) |>)
                    end in
  (if MAX_CLIENTS <=? xx_num_client x then - EINVAL else c_id, x).

(** Result: error number and the index stored through the pointer. *)
Definition xocl_xgq_attach (w : xworld) (client sem prot : Z) : Z * option Z * xworld :=
  if MAX_CLIENTS <=? xx_num_client (xw_xgq w) then (- ENOMEM, None, w)
  else
    let '(id, x) := xgq_get_next_available_entry (xw_xgq w) in
    let w := w <| xw_xgq := x |> in
    if id =? - EINVAL then (- EINVAL, Some id, w)
    else (0, Some id, put_client w id (mk_xclient client [] 0 [] 0 prot sem true)).

(** The semaphores raised. *)
Definition xgq_isr (x : xocl_xgq) : list Z :=
  xxc_notify_sem <$> filter (fun c => xxc_is_used c = true)
    (take (Z.to_nat (xx_num_client x)) (xx_clients x)).

Definition xocl_get_xgq_id (x : option xocl_xgq) : Z :=
  match x with Some x => xx_id x | None => - EINVAL end.
Definition xocl_incr_xgq_ref_cnt (x : option xocl_xgq) : Z * option xocl_xgq :=
  match x with
  | Some x => (s32 (xx_ref_cnt x + 1), Some (x <| xx_ref_cnt := s32 (xx_ref_cnt x + 1) |>))
  | None => (- EINVAL, None)
  end.
Definition xocl_decr_xgq_ref_cnt (x : option xocl_xgq) : Z * option xocl_xgq :=
  match x with
  | Some x => (s32 (xx_ref_cnt x - 1), Some (x <| xx_ref_cnt := s32 (xx_ref_cnt x - 1) |>))
  | None => (- EINVAL, None)
  end.

Record xocl_xgq_info := mk_xgq_info {
  xi_id : Z;
  xi_addr : Z;
  xi_sq_prod : Z;
  xi_sq_prod_int : option Z;
  xi_cq_prod : Z;
}.

(** [alloc]: whether the allocation succeeds. *)
Definition xocl_xgq_init (alloc : bool) (m : shared) (info : xocl_xgq_info)
  : option (Z + xocl_xgq * shared) :=
  if negb alloc then Some (inl (- ENOMEM))
  else
    r ← xgq_attach xocl_build 0 m (xi_addr info) (xi_sq_prod info) (xi_cq_prod info);
    match r with
    | inl _ => Some (inl (- ENODEV))
    | inr (q, m) =>
        Some (inr (mk_xocl_xgq q (xi_id info) 0 (xi_addr info)
                     (replicate (Z.to_nat MAX_CLIENTS) xclient0) 0 (xi_sq_prod_int info), m))
    end.

(** ** Executions *)

(** Calls of the CU threads on the queue, and whatever the device does to the
    shared memory. *)
Inductive xop :=
| XSet (id : Z) (xcmd : kds_command)
| XNotify
| XCheck (id : Z)
| XGet (id : Z)
| XAbort (id : Z) (m : kds_command -> bool)
| XDevice (f : shared -> shared).

Inductive xevent := Submitted (id cmd : Z) | Returned (id cmd : Z).

Definition xstep (w : xworld) (o : xop) : option (list xevent * xworld) :=
  match o with
  | XSet id xcmd =>
      r ← xocl_xgq_set_command w id xcmd;
      let '(ret, w, xcmd) := r in
      Some (if ret =? 0 then [Submitted id (xcmd_id xcmd)] else [], w)
  | XNotify => Some ([], xocl_xgq_notify w)
  | XCheck id => r ← xocl_xgq_check_response w id; Some ([], r.2)
  | XGet id =>
      r ← xocl_xgq_get_command w id;
      Some (match r.1 with Some x => [Returned id (xcmd_id x)] | None => [] end, r.2)
  | XAbort id m => r ← xocl_xgq_abort w id m; Some ([], r.2)
  | XDevice f => Some ([], w <| xw_mem := f (xw_mem w) |>)
  end.

Fixpoint xrun (w : xworld) (ops : list xop) : option (list xevent * xworld) :=
  match ops with
  | [] => Some ([], w)
  | o :: ops => r ← xstep w o; s ← xrun r.2 ops; Some (r.1 ++ s.1, s.2)
  end.

Definition submitted_by (id : Z) (evs : list xevent) : list Z :=
  omap (fun e => match e with Submitted i c => if i =? id then Some c else None | _ => None end) evs.
Definition returned_to (id : Z) (evs : list xevent) : list Z :=
  omap (fun e => match e with Returned i c => if i =? id then Some c else None | _ => None end) evs.

(** The commands a client has in the queue, the completed ones first. *)
Definition in_queue (w : xworld) (id : Z) : list Z :=
  match get_client w id with
  | Some c => (xcmd_id <$> xxc_completed c) ++ (xcmd_id <$> xxc_submitted c)
  | None => []
  end.

(** ** Lemmas *)

Lemma get_put_eq w id c c' : get_client w id = Some c -> get_client (put_client w id c') id = Some c'.
Proof.
  unfold get_client, put_client, aget_chk. rproj. unfold in_arr. rewrite length_aset.
  destruct ((0 <=? id) && (id <? _)) eqn:E; [|done]. intros _. rewrite aget_aset_eq by lia. done.
Qed.

Lemma get_put_ne w id id' c' : 0 <= id -> id <> id' ->
  get_client (put_client w id c') id' = get_client w id'.
Proof.
  intros H0 Hne. unfold get_client, put_client, aget_chk. rproj. unfold in_arr. rewrite length_aset.
  destruct ((0 <=? id') && _) eqn:E; [|done]. rewrite aget_aset_ne by lia. done.
Qed.

Lemma get_client_range w id c : get_client w id = Some c -> 0 <= id.
Proof. unfold get_client, aget_chk, in_arr. destruct ((0 <=? id) && _) eqn:E; [lia|done]. Qed.

(** Replacing a client changes its own commands only. *)
Lemma in_queue_put w id c c' id' : get_client w id = Some c ->
  in_queue (put_client w id c') id' =
  if id' =? id then (xcmd_id <$> xxc_completed c') ++ (xcmd_id <$> xxc_submitted c')
  else in_queue w id'.
Proof.
  intros Hc. unfold in_queue. destruct (Z.eqb_spec id' id) as [->|Hne].
  - by rewrite (get_put_eq _ _ _ _ Hc).
  - by rewrite get_put_ne by (eauto using get_client_range).
Qed.

Lemma in_queue_self w id c : get_client w id = Some c ->
  in_queue w id = (xcmd_id <$> xxc_completed c) ++ (xcmd_id <$> xxc_submitted c).
Proof. intros Hc. unfold in_queue. by rewrite Hc. Qed.

(** Results with the same clients have the same commands. *)
Lemma in_queue_ext w w' id : xx_clients (xw_xgq w') = xx_clients (xw_xgq w) ->
  in_queue w' id = in_queue w id.
Proof. intros E. unfold in_queue, get_client. by rewrite E. Qed.

Lemma set_command_flow w id xcmd ret w' xcmd' :
  xocl_xgq_set_command w id xcmd = Some (ret, w', xcmd') ->
  xcmd_id xcmd' = xcmd_id xcmd /\ forall id',
  in_queue w' id' = in_queue w id' ++
    (if (ret =? 0) && (id =? id') then [xcmd_id xcmd] else []).
Proof.
  unfold xocl_xgq_set_command. intros H.
  destruct (get_client w id) as [c|] eqn:Hc; [|done]. destruct (xcmd_info xcmd) as [info|]; [|done].
  cbn [mbind option_bind] in H. destruct (put_cid _ _) as [info'|]; [|done]. cbn [mbind option_bind] in H.
  destruct (xgq_produce _ _ _) as [[[r slot] q]|] eqn:Hp; [|done]. cbn [mbind option_bind] in H.
  assert (match slot with None => r = - ENOSPC | Some _ => True end) as Hr.
  { unfold xgq_produce in Hp. destruct (xgq_can_produce _ _ _) as [[[] q']|]; [| |done];
      cbn [mbind option_bind negb] in Hp; by injection Hp as <- <- <-. }
  destruct slot as [addr|].
  - destruct (xocl_xgq_write_queue _ _ _ _) as [m|]; [|done]. cbn [mbind option_bind] in H.
    injection H as <- <- <-. split; [done|]. intros id'.
    rewrite (in_queue_put _ _ c) by done. rewrite Z.eqb_refl, (Z.eqb_sym id'). cbn [andb].
    rproj. destruct (Z.eqb_spec id id') as [<-|Hne].
    + rewrite (in_queue_self w id c Hc), fmap_app. cbn [fmap list_fmap]. rproj. by rewrite app_assoc.
    + rewrite app_nil_r. by apply in_queue_ext.
  - injection H as <- <- <-. split; [done|]. intros id'. rewrite Hr. cbn [andb Z.eqb Z.opp ENOSPC].
    rewrite app_nil_r. by apply in_queue_ext.
Qed.

Lemma handle_resp_flow w id addr ret st w' :
  xocl_xgq_handle_resp w id addr = Some (ret, st, w') -> forall id', in_queue w' id' = in_queue w id'.
Proof.
  unfold xocl_xgq_handle_resp. intros H id'. destruct (get_client w id) as [c|] eqn:Hc; [|done].
  cbn [mbind option_bind] in H. destruct (xxc_submitted c) as [|x rest] eqn:Es; [by injection H as <- <- <-|].
  match type of H with context [mbind _ ?e] => destruct e as [x'|] eqn:Ex; [|done] end.
  cbn [mbind option_bind] in H. injection H as <- <- <-.
  assert (xcmd_id x' = xcmd_id x) as Ei.
  { destruct (z2b _); [|by injection Ex as <-]. destruct (status_of _); [|done].
    cbn [mbind option_bind] in Ex. by injection Ex as <-. }
  rewrite (in_queue_put _ _ c) by done. rproj. destruct (Z.eqb_spec id' id) as [->|]; [|done].
  rewrite (in_queue_self w id c Hc), Es, fmap_app. cbn [fmap list_fmap]. rewrite Ei. by rewrite <- app_assoc.
Qed.

Lemma check_response_flow w id ret st w' :
  xocl_xgq_check_response w id = Some (ret, st, w') -> forall id', in_queue w' id' = in_queue w id'.
Proof.
  unfold xocl_xgq_check_response. intros H id'.
  destruct (xgq_consume _ _ _) as [[[[r slot] q] m]|]; [|done]. cbn [mbind option_bind] in H.
  destruct slot as [addr|]; [|injection H as <- <- <-; by apply in_queue_ext].
  destruct (xocl_xgq_handle_resp _ _ _) as [[[r' s'] w1]|] eqn:Hh; [|done]. cbn [mbind option_bind] in H.
  assert (in_queue w1 id' = in_queue w id') as E1.
  { rewrite (handle_resp_flow _ _ _ _ _ _ Hh). by apply in_queue_ext. }
  rewrite <- E1. destruct (z2b r'); injection H as <- <- <-; [done|]. by apply in_queue_ext.
Qed.

Lemma get_command_flow w id r w' :
  xocl_xgq_get_command w id = Some (r, w') -> forall id',
  in_queue w id' = (match r with Some x => if id =? id' then [xcmd_id x] else [] | None => [] end) ++
    in_queue w' id'.
Proof.
  unfold xocl_xgq_get_command. intros H id'. destruct (get_client w id) as [c|] eqn:Hc; [|done].
  cbn [mbind option_bind] in H. destruct (xxc_completed c) as [|x rest] eqn:Es; [by injection H as <- <-|].
  injection H as <- <-. rewrite (in_queue_put _ _ c) by done. rproj. rewrite (Z.eqb_sym id id').
  destruct (Z.eqb_spec id' id) as [->|]; [|done].
  rewrite (in_queue_self w id c Hc), Es. by rewrite fmap_cons.
Qed.

Lemma abort_flow w id m r w' :
  xocl_xgq_abort w id m = Some (r, w') -> forall id', in_queue w' id' ≡ₚ in_queue w id'.
Proof.
  unfold xocl_xgq_abort. intros H id'. destruct (get_client w id) as [c|] eqn:Hc; [|done].
  cbn [mbind option_bind] in H. rewrite abort_walk_spec in H. injection H as _ <-.
  rewrite (in_queue_put _ _ c) by done. rproj. destruct (Z.eqb_spec id' id) as [->|]; [|done].
  rewrite (in_queue_self w id c Hc), fmap_app, <- app_assoc. apply Permutation_app_head.
  rewrite <- list_fmap_compose. rewrite (list_fmap_ext (xcmd_id ∘ set_status KDS_TIMEOUT) xcmd_id) by done.
  rewrite <- fmap_app. apply fmap_Permutation. induction (xxc_submitted c) as [|x l IH]; [done|].
  rewrite !filter_cons. destruct (m x).
  - rewrite decide_True, decide_False by done. cbn [app]. by rewrite IH.
  - rewrite decide_False, decide_True by done. rewrite <- Permutation_middle. by rewrite IH.
Qed.

Definition is_abort (o : xop) : bool := match o with XAbort _ _ => true | _ => false end.

(** One step, for one client: what it had plus what it submits is what it gets
    back plus what it has then. *)
Lemma xstep_flow w o evs w' id : xstep w o = Some (evs, w') ->
  in_queue w id ++ submitted_by id evs ≡ₚ returned_to id evs ++ in_queue w' id /\
  (is_abort o = false -> in_queue w id ++ submitted_by id evs = returned_to id evs ++ in_queue w' id).
Proof.
  intros H. assert (forall l l' : list Z, l = l' -> l ≡ₚ l' /\ (is_abort o = false -> l = l')) as Heq
    by (intros l l' ->; done).
  destruct o as [i x| |i|i|i m|f]; cbn [xstep] in H.
  - apply Heq. destruct (xocl_xgq_set_command w i x) as [[[ret w1] x']|] eqn:Hs; [|done].
    cbn [mbind option_bind] in H. injection H as <- <-. destruct (set_command_flow _ _ _ _ _ _ Hs) as [-> ->].
    destruct (ret =? 0); cbn [andb submitted_by returned_to omap list_omap app]; destruct (i =? id);
      by rewrite ?app_nil_r.
  - apply Heq. injection H as <- <-. cbn [submitted_by returned_to omap list_omap app]. rewrite app_nil_r.
    symmetry. apply in_queue_ext. unfold xocl_xgq_notify, xocl_xgq_trigger_sq_intr. rproj.
    by destruct (xx_sq_prod_int (xw_xgq w)).
  - apply Heq. destruct (xocl_xgq_check_response w i) as [[[r s] w1]|] eqn:Hs; [|done].
    cbn [mbind option_bind snd] in H. injection H as <- <-.
    cbn [submitted_by returned_to omap list_omap app]. rewrite app_nil_r.
    symmetry. by eapply check_response_flow.
  - apply Heq. destruct (xocl_xgq_get_command w i) as [[r w1]|] eqn:Hs; [|done].
    cbn [mbind option_bind fst snd] in H. injection H as <- <-. rewrite (get_command_flow _ _ _ _ Hs id).
    destruct r as [x|]; cbn [submitted_by returned_to omap list_omap app]; [|by rewrite app_nil_r].
    destruct (i =? id); by rewrite ?app_nil_r.
  - split; [|done]. destruct (xocl_xgq_abort w i m) as [[r w1]|] eqn:Hs; [|done].
    cbn [mbind option_bind snd] in H. injection H as <- <-.
    cbn [submitted_by returned_to omap list_omap app]. rewrite app_nil_r.
    symmetry. by eapply abort_flow.
  - apply Heq. injection H as <- <-. cbn [submitted_by returned_to omap list_omap app]. rewrite app_nil_r.
    by apply in_queue_ext.
Qed.

Lemma submitted_by_app id e1 e2 : submitted_by id (e1 ++ e2) = submitted_by id e1 ++ submitted_by id e2.
Proof. apply omap_app. Qed.
Lemma returned_to_app id e1 e2 : returned_to id (e1 ++ e2) = returned_to id e1 ++ returned_to id e2.
Proof. apply omap_app. Qed.

Lemma xrun_flow ops : forall w evs w' id, xrun w ops = Some (evs, w') ->
  in_queue w id ++ submitted_by id evs ≡ₚ returned_to id evs ++ in_queue w' id /\
  (Forall (fun o => is_abort o = false) ops ->
   in_queue w id ++ submitted_by id evs = returned_to id evs ++ in_queue w' id).
Proof.
  induction ops as [|o ops IH]; intros w evs w' id H; cbn [xrun] in H.
  { injection H as <- <-. cbn. by rewrite app_nil_r. }
  destruct (xstep w o) as [[e1 w1]|] eqn:Hs; [|done]. cbn [mbind option_bind fst snd] in H.
  destruct (xrun w1 ops) as [[e2 w2]|] eqn:Hr; [|done]. cbn [mbind option_bind fst snd] in H.
  injection H as <- <-. destruct (xstep_flow _ _ _ _ id Hs) as [P1 E1]. destruct (IH _ _ _ id Hr) as [P2 E2].
  rewrite submitted_by_app, returned_to_app. split.
  - rewrite app_assoc, P1, <- !app_assoc. by apply Permutation_app_head.
  - intros HF. apply Forall_cons in HF as [Ho HF]. rewrite app_assoc, E1, <- !app_assoc by done.
    f_equal. by apply E2.
Qed.

(** C28. Commands on a shared XGQ: whatever the CU threads call and whatever the
    device writes into the shared memory, a client gets back exactly the
    commands it has submitted, those in the queue excepted, and none of another
    client; without aborts in the order of submission. *)
Theorem xocl_xgq_clients_isolated w ops evs w' id :
  in_queue w id = [] -> xrun w ops = Some (evs, w') ->
  submitted_by id evs ≡ₚ returned_to id evs ++ in_queue w' id /\
  (Forall (fun o => is_abort o = false) ops ->
   submitted_by id evs = returned_to id evs ++ in_queue w' id).
Proof. intros Hq Hr. destruct (xrun_flow ops w evs w' id Hr) as [P E]. by rewrite Hq in P, E. Qed.

(** ** Routing *)

Lemma cid_low_bits counter id : 0 <= id < MAX_CLIENTS ->
  Z.land (make_cid counter id) CLIENT_ID_MASK = id.
Proof.
  intros Hid. change MAX_CLIENTS with (2 ^ 7) in Hid. unfold make_cid, CLIENT_ID_BITS.
  change CLIENT_ID_MASK with (Z.ones 7). rewrite Z.land_ones by lia. unfold u16.
  change (2 ^ 16) with (2 ^ 7 * 2 ^ 9). rewrite Z.rem_mul_r by lia.
  rewrite (Z.mul_comm (2 ^ 7) (_ mod _)), Z.mod_add, Z.mod_mod by lia.
  rewrite Z.shiftl_mul_pow2, Z.add_comm, Z.mod_add by lia. by apply Z.mod_small.
Qed.

(** C34. The completion entry of a command finds the client that has submitted
    it: an entry that echoes the CID a submission has put into the command is
    attributed to the submitting client, whichever client asks. *)
Theorem xocl_xgq_response_routed w id xcmd ret w1 xcmd1 info w2 asking addr :
  0 <= id < MAX_CLIENTS ->
  xocl_xgq_set_command w id xcmd = Some (ret, w1, xcmd1) -> xcmd_info xcmd1 = Some info ->
  1 < xx_num_client (xw_xgq w2) ->
  field (xgq_mem_read32 (xw_mem w2) addr) 0 16 = xgq_hdr_cid info ->
  resp_target w2 asking addr = id.
Proof.
  intros Hid Hset Hinfo Hn Hcid. unfold resp_target.
  destruct (Z.ltb_spec 1 (xx_num_client (xw_xgq w2))); [|lia].
  unfold xocl_xgq_read_queue. cbn [xgq_copy_from_ring hd]. rewrite Hcid.
  unfold xocl_xgq_set_command in Hset. destruct (get_client w id) as [c|]; [|done].
  destruct (xcmd_info xcmd) as [info0|]; [|done]. cbn [mbind option_bind] in Hset.
  destruct (put_cid _ info0) as [info'|] eqn:Hput; [|done]. cbn [mbind option_bind] in Hset.
  assert (xcmd_info xcmd1 = Some info') as E.
  { destruct (xgq_produce _ _ _) as [[[r [a|]] q]|]; [| |done]; cbn [mbind option_bind] in Hset.
    - destruct (xocl_xgq_write_queue _ _ _ _); [|done]. cbn [mbind option_bind] in Hset.
      by injection Hset as _ _ <-.
    - by injection Hset as _ _ <-. }
  rewrite Hinfo in E. injection E as ->. unfold put_cid in Hput.
  destruct (aget_chk 0 info0 1) as [h|] eqn:Eg; [|done]. cbn [mbind option_bind] in Hput.
  unfold aset_chk in Hput. destruct (in_arr info0 1) eqn:Ea; [|done]. injection Hput as <-.
  apply in_arr_true in Ea. unfold xgq_hdr_cid. rewrite aget_aset_eq by done.
  rewrite field_set_same by lia. rewrite <- (cid_low_bits (xocl_xgq_cid w) id Hid) at 2.
  unfold make_cid, u16. by rewrite Z.mod_mod by lia.
Qed.

(** ** Instances *)

(** A queue allocated by the device, with two clients. *)
Definition demo_world : option xworld :=
  r ← xgq_alloc demo_server_build XGQ_IN_MEM_PROD ∅ 0x1000 4096 512 0 0;
  match r with
  | inl _ => None
  | inr (_, m1, _) =>
      i ← xocl_xgq_init true m1 (mk_xgq_info 0 0x1000 0 None 0);
      match i with
      | inl _ => None
      | inr (x, m2) =>
          let w := (xocl_xgq_attach (mk_xworld 0 m2 x) 100 1 0).2 in
          Some (xocl_xgq_attach w 200 2 0).2
      end
  end.

Definition demo_xcmd (id : Z) : kds_command :=
  mk_kds_command id 7 KDS_NEW 0 NO_INDEX 0 KDS_CU OP_START true XGQ_CMD (Some [0; 0; 5]) 12 false [] [] 0 0.

(** The device answers the second command first. *)
Definition demo_answers (m : shared) : shared :=
  let cq := 0x1000 + sizeof_header + 4 * 512 in
  let m := xgq_copy_to_ring m [make_cid 1 1; 0; 0; 0] cq in
  let m := xgq_copy_to_ring m [make_cid 0 0; 0; 0; 0] (cq + sizeof_com_entry) in
  xgq_mem_write32 m (0x1000 + off_cq_produced) 2.

Definition demo_xops : list xop :=
  [XSet 0 (demo_xcmd 1); XSet 1 (demo_xcmd 2); XNotify; XDevice demo_answers;
   XCheck 0; XCheck 0; XGet 0; XGet 1].

Lemma demo_xrun : exists w evs w', xrun w demo_xops = Some (evs, w') /\ in_queue w 0 = [] /\
  submitted_by 0 evs = [1] /\ returned_to 0 evs = [1] /\ returned_to 1 evs = [2].
Proof.
  assert (match demo_world with
          | Some w => match xrun w demo_xops with
                      | Some (evs, _) => bool_decide (in_queue w 0 = [] /\ submitted_by 0 evs = [1] /\
                          returned_to 0 evs = [1] /\ returned_to 1 evs = [2])
                      | None => false
                      end
          | None => false
          end = true) as E by (vm_compute; reflexivity).
  destruct demo_world as [w|]; [|done]. destruct (xrun w demo_xops) as [[evs w']|] eqn:Hr; [|done].
  apply bool_decide_eq_true in E. by exists w, evs, w'.
Qed.

Lemma xocl_xgq_clients_isolated_witness : exists w evs w',
  xrun w demo_xops = Some (evs, w') /\ submitted_by 0 evs = returned_to 0 evs ++ in_queue w' 0.
Proof.
  destruct demo_xrun as (w & evs & w' & Hr & Hq & _). exists w, evs, w'. split; [exact Hr|].
  apply (xocl_xgq_clients_isolated w demo_xops evs w' 0 Hq Hr). repeat constructor.
Defined.

Lemma demo_set : exists w ret w1 xcmd1 info,
  xocl_xgq_set_command w 1 (demo_xcmd 2) = Some (ret, w1, xcmd1) /\ xcmd_info xcmd1 = Some info /\
  xx_num_client (xw_xgq w1) = 2.
Proof.
  assert (match demo_world with
          | Some w => match xocl_xgq_set_command w 1 (demo_xcmd 2) with
                      | Some (_, w1, x) => bool_decide (is_Some (xcmd_info x)) &&
                                           (xx_num_client (xw_xgq w1) =? 2)
                      | None => false
                      end
          | None => false
          end = true) as E by (vm_compute; reflexivity).
  destruct demo_world as [w|]; [|done].
  destruct (xocl_xgq_set_command w 1 (demo_xcmd 2)) as [[[ret w1] x]|] eqn:Hs; [|done].
  apply andb_true_iff in E as [Ei En]. apply bool_decide_eq_true in Ei as [info Ei].
  exists w, ret, w1, x, info. by rewrite Z.eqb_eq in En.
Qed.

Lemma xocl_xgq_response_routed_witness : exists w2, resp_target w2 0 0x2000 = 1.
Proof.
  destruct demo_set as (w & ret & w1 & x & info & Hs & Hi & Hn).
  set (w2 := w1 <| xw_mem := xgq_mem_write32 (xw_mem w1) 0x2000 (xgq_hdr_cid info) |>).
  exists w2. apply (xocl_xgq_response_routed w 1 (demo_xcmd 2) ret w1 x info w2 0 0x2000).
  - done.
  - exact Hs.
  - exact Hi.
  - subst w2. rproj. lia.
  - subst w2. rproj. unfold xgq_mem_read32, xgq_mem_write32. rewrite XgqRing.ioread_write_eq.
    unfold xgq_hdr_cid, field. rewrite !Z.shiftr_0_r. unfold u32. rewrite <- Z.land_ones by lia.
    rewrite <- !Z.land_assoc. done.
Defined.

(** ** Limits *)

Fixpoint attach_n (n : nat) (w : xworld) : list Z * xworld :=
  match n with
  | O => ([], w)
  | S n => let '(r, _, w) := xocl_xgq_attach w 0 0 0 in let '(rs, w) := attach_n n w in (r :: rs, w)
  end.
Definition empty_world : xworld :=
  let r := mk_xgq_ring 2 16 0 0 0 0 0 in
  mk_xworld 0 ∅ (mk_xocl_xgq (mk_xgq 0 0 r r) 0 0 0 (replicate (Z.to_nat MAX_CLIENTS) xclient0) 0 None).

(** The 128th client is refused, and the refusal uses up the last index: from
    then on nobody can attach, also after others have left. *)
Example xocl_xgq_attach_exhausted :
  let '(rs, w) := attach_n 128 empty_world in
  rs = replicate 127 0 ++ [- EINVAL] /\
  match xocl_xgq_detach w 5 with
  | Some (_, w) => (xocl_xgq_attach w 0 0 0).1.1 = - ENOMEM
  | None => False
  end.
Proof. vm_compute. split; reflexivity. Qed.

(** After the abort of a command its late answer completes the next one. *)
Example xocl_xgq_abort_shifts_answers :
  let w := put_client empty_world 0 (mk_xclient 0 [demo_xcmd 1; demo_xcmd 2] 2 [] 0 0 0 true) in
  match xocl_xgq_abort w 0 (fun x => xcmd_id x =? 1) with
  | Some (r, w) =>
      r = - EBUSY /\
      match xocl_xgq_handle_resp w 0 0x2000 with
      | Some (0, Some KDS_COMPLETED, w) =>
          (fun c => (fun x => (xcmd_id x, xcmd_status x)) <$> xxc_completed c) <$> get_client w 0 =
          Some [(1, KDS_TIMEOUT); (2, KDS_COMPLETED)]
      | _ => False
      end
  | None => False
  end.
Proof. vm_compute. split; reflexivity. Qed.
