(* ===== verification/CuXgq.v ===== *)
(** * XGQ CU

    [cu_xgq.c]: the implementation of [xcu_funcs] for a CU behind an XGQ, as a
    client of [XoclXgq].  The core holds the queue it shares with other CUs; what
    they and the device do to the queue between two calls is a change of the
    core from outside ([step_device] of [XrtCuSched]). *)
From S2P Require Import Prelude KdsCommand CuInfo CuCore Xgq XoclXgq CircLog XrtCu.

Record xrt_cu_xgq := mk_xrt_cu_xgq {
  cx_vaddr : Z;
  cx_max_credits : Z;
  cx_credits : Z;
  cx_run_cnts : Z;
  cx_done : Z;
  cx_ready : Z;
  cx_xgq : xworld;
  cx_xgq_client_id : Z;
  cx_cu_idx : Z;
  cx_cu_domain : Z;
}.
#[export] Instance eta_xrt_cu_xgq : Eta xrt_cu_xgq := fun c =>
  mk_xrt_cu_xgq (cx_vaddr c) (cx_max_credits c) (cx_credits c) (cx_run_cnts c) (cx_done c)
    (cx_ready c) (cx_xgq c) (cx_xgq_client_id c) (cx_cu_idx c) (cx_cu_domain c).

(** ** Operations *)

Definition cu_xgq_alloc_credit (core : xrt_cu_xgq) : Z * xrt_cu_xgq := (1, core).
Definition cu_xgq_free_credit (core : xrt_cu_xgq) (count : Z) : xrt_cu_xgq := core.
Definition cu_xgq_peek_credit (core : xrt_cu_xgq) : Z := 1.
Definition cu_xgq_configure (core : xrt_cu_xgq) (data : list Z) (sz type : Z)
  : option (Z * xrt_cu_xgq) := Some (0, core).
Definition cu_xgq_start (core : xrt_cu_xgq) : xrt_cu_xgq :=
  core <| cx_xgq ::= xocl_xgq_notify |>.

(** [while (!xocl_xgq_check_response(...))].  A round that continues completes a
    command of the client, so one more round than it has submitted commands is
    enough ([check_responses_ok]). *)
Fixpoint check_responses (fuel : nat) (w : xworld) (id cu_status : Z) : option (Z * xworld) :=
  match fuel with
  | O => None
  | S fuel =>
      r ← xocl_xgq_check_response w id;
      let '(ret, st, w) := r in
      let cu_status := match st with Some s => status_ix s | None => cu_status end in
      if ret =? 0 then check_responses fuel w id cu_status else Some (cu_status, w)
  end.

(** The commands of a client. *)
Definition sub_of (w : xworld) (id : Z) : list kds_command :=
  match get_client w id with Some c => xxc_submitted c | None => [] end.
Definition comp_of (w : xworld) (id : Z) : list kds_command :=
  match get_client w id with Some c => xxc_completed c | None => [] end.

Definition cu_xgq_check (core : xrt_cu_xgq) (status : xcu_status) (force : bool)
  : option (xcu_status * xrt_cu_xgq) :=
  let id := cx_xgq_client_id core in
  let status := status <| num_ready := 1 |> in
  r ← check_responses (S (length (sub_of (cx_xgq core) id))) (cx_xgq core) id CU_AP_IDLE;
  let '(cu_status, w) := r in
  Some (status <| new_status := if cu_status =? status_ix KDS_SKCRASHED then CU_AP_CRASHED
                                else CU_AP_IDLE |>, core <| cx_xgq := w |>).

Definition cu_xgq_enable_intr (core : xrt_cu_xgq) (intr_type : Z) : xrt_cu_xgq := core.
Definition cu_xgq_disable_intr (core : xrt_cu_xgq) (intr_type : Z) : xrt_cu_xgq := core.
Definition cu_xgq_clear_intr (core : xrt_cu_xgq) : Z * xrt_cu_xgq := (0, core).
Definition cu_xgq_reset (core : xrt_cu_xgq) : xrt_cu_xgq := core.
Definition cu_xgq_reset_done (core : xrt_cu_xgq) : bool * xrt_cu_xgq := (true, core).

(** Fields [cu_idx] and [cu_domain] of the header. *)
Definition put_cu (cu_idx cu_domain : Z) (buf : list Z) : option (list Z) :=
  h ← aget_chk 0 buf 1; aset_chk buf 1 (set_field (set_field h 16 12 cu_idx) 28 4 cu_domain).

(** When the queue is full the command keeps the fields written into its
    header; the next attempt writes them again. *)
Definition cu_xgq_submit_config (core : xrt_cu_xgq) (xcmd : kds_command)
  : option (Z * xrt_cu_xgq) :=
  info ← xcmd_info xcmd;
  info ← put_cu (cx_cu_idx core) (cx_cu_domain core) info;
  r ← xocl_xgq_set_command (cx_xgq core) (cx_xgq_client_id core) (xcmd <| xcmd_info := Some info |>);
  let '(ret, w, _) := r in
  Some (ret, core <| cx_xgq := w |>).

Definition cu_xgq_get_complete (core : xrt_cu_xgq) : option (option kds_command * xrt_cu_xgq) :=
  r ← xocl_xgq_get_command (cx_xgq core) (cx_xgq_client_id core);
  Some (r.1, core <| cx_xgq := r.2 |>).

Definition cu_xgq_abort (core : xrt_cu_xgq) (m : kds_command -> bool) : option (Z * xrt_cu_xgq) :=
  r ← xocl_xgq_abort (cx_xgq core) (cx_xgq_client_id core) m;
  Some (r.1, core <| cx_xgq := r.2 |>).

Definition xrt_cu_xgq_funcs : xcu_funcs xrt_cu_xgq := {|
  alloc_credit := cu_xgq_alloc_credit;
  free_credit := cu_xgq_free_credit;
  peek_credit := cu_xgq_peek_credit;
  configure := cu_xgq_configure;
  start := cu_xgq_start;
  check := cu_xgq_check;
  enable_intr := cu_xgq_enable_intr;
  disable_intr := cu_xgq_disable_intr;
  clear_intr := cu_xgq_clear_intr;
  reset := cu_xgq_reset;
  reset_done := cu_xgq_reset_done;
  submit_config := Some cu_xgq_submit_config;
  get_complete := Some cu_xgq_get_complete;
  abort := Some cu_xgq_abort |}.

(** [w] is the queue of the description, [ptr] the address of the core and [sem]
    that of the semaphore of the CU; [alloc] says whether the allocation of the
    core succeeds. *)
Definition xrt_cu_xgq_init (alloc : bool) (w : xworld) (ptr sem : Z) (slow_path : bool)
  (stopped : xrt_cu xrt_cu_xgq -> xrt_cu xrt_cu_xgq) (xcu : xrt_cu xrt_cu_xgq)
  : Z * xrt_cu xrt_cu_xgq :=
  if negb alloc then (- ENOMEM, xcu)
  else
    let prot := if slow_path then XGQ_PROT_NEED_RESP else 0 in
    let core := mk_xrt_cu_xgq 0 1 1 0 0 0 w 0 (info_cu_idx (cu_info xcu)) (info_cu_domain (cu_info xcu)) in
    let xcu := xcu <| cu_core := core |> <| cu_busy_threshold := 2 |> <| cu_interval_min := 2 |>
                   <| cu_interval_max := 5 |> <| cu_status := 0x4 |> in
    let '(err, xcu) := xrt_cu_init xcu in
    if z2b err then (err, xcu)
    else
      let '(err, id, w) := xocl_xgq_attach w ptr sem prot in
      let xcu := xcu <| cu_core ::= fun core =>
                   core <| cx_xgq := w |> <| cx_xgq_client_id := default 0 id |> |> in
      if z2b err then (err, xrt_cu_fini stopped xcu) else (0, xcu).

Definition xrt_cu_xgq_fini (stopped : xrt_cu xrt_cu_xgq -> xrt_cu xrt_cu_xgq)
  (xcu : xrt_cu xrt_cu_xgq) : option (bool * xrt_cu xrt_cu_xgq) :=
  let xcu := xrt_cu_fini stopped xcu in
  let core := cu_core xcu in
  r ← xocl_xgq_detach (cx_xgq core) (cx_xgq_client_id core);
  Some (r.1, xcu <| cu_core := core <| cx_xgq := r.2 |> |>).

(** ** Calls on the queue, client by client *)

(** Reading a pointer of a ring twice from a memory at rest succeeds. *)
Lemma read_ptr_total b flags m a is_mem v : is_Some (read_ptr b flags m a is_mem v).
Proof.
  unfold read_ptr. destruct (_ || _); [|done]. unfold xgq_double_read32. cbn [double_read].
  destruct (_ =? _); [done|]. by rewrite Z.eqb_refl.
Qed.

Lemma produce_total m q : is_Some (xgq_produce xocl_build m q).
Proof.
  unfold xgq_produce, xgq_can_produce. destruct (negb _); [by eexists|].
  unfold xgq_ring_read_consumed.
  match goal with |- context [read_ptr ?b ?f ?m ?a ?i ?v] =>
    destruct (read_ptr_total b f m a i v) as [r ->] end.
  cbn [mbind option_bind]. by destruct (negb _); eexists.
Qed.

Lemma produce_none m q ret q' : xgq_produce xocl_build m q = Some (ret, None, q') -> ret <> 0.
Proof.
  unfold xgq_produce. intros H. apply bind_Some in H as ([[] q1] & _ & H); [discriminate H|].
  by injection H as <- _.
Qed.

Lemma consume_total m q : is_Some (xgq_consume xocl_build m q).
Proof.
  unfold xgq_consume, xgq_can_consume. destruct (negb _); [by eexists|].
  unfold xgq_ring_read_produced.
  match goal with |- context [read_ptr ?b ?f ?m ?a ?i ?v] =>
    destruct (read_ptr_total b f m a i v) as [r ->] end.
  cbn [mbind option_bind]. by destruct (negb _); eexists.
Qed.

Lemma consume_none m q ret q' m' : xgq_consume xocl_build m q = Some (ret, None, q', m') -> ret <> 0.
Proof.
  unfold xgq_consume. intros H. apply bind_Some in H as ([[] q1] & _ & H); [discriminate H|].
  by injection H as <- _ _.
Qed.

Lemma put_cid_ok cid info : 2 <= Z.of_nat (length info) ->
  exists info', put_cid cid info = Some info' /\ length info' = length info.
Proof.
  intros H. unfold put_cid, aget_chk, aset_chk. rewrite (proj2 (in_arr_true info 1)) by lia.
  eexists. split; [reflexivity|]. apply length_aset.
Qed.

(** The laws hold for queues on which every client takes [KDS_COMPLETED] for an
    answer ([fast]) and for queues with clients that read the status the device
    reports. *)
Section Laws.
Context (fast : bool).

Definition fast_client (c : xocl_xgq_client) : Prop :=
  fast = true -> z2b (Z.land (xxc_prot c) XGQ_PROT_NEED_RESP) = false.

Definition world_ok (w : xworld) : Prop :=
  Z.of_nat (length (xx_clients (xw_xgq w))) = MAX_CLIENTS /\
  Forall fast_client (xx_clients (xw_xgq w)).

(** The statuses that clients read from the queue. *)
Definition xgq_reported (s : kds_status) : Prop := fast = false.

Definition client_moves (id : Z) (w w' : xworld) : Prop :=
  moves (fun w => sub_of w id) (fun w => comp_of w id) xgq_reported w w'.

(** The same commands. *)
Definition same_client (id : Z) (w w' : xworld) : Prop :=
  sub_of w' id = sub_of w id /\ comp_of w' id = comp_of w id.

Lemma same_client_moves id w w' : same_client id w w' -> client_moves id w w'.
Proof. intros [H1 H2]. by apply moves_refl. Qed.

Lemma same_clients id w w' :
  xx_clients (xw_xgq w') = xx_clients (xw_xgq w) -> same_client id w w'.
Proof. intros E. unfold same_client, sub_of, comp_of, get_client. by rewrite E. Qed.

Lemma world_ok_clients w w' :
  xx_clients (xw_xgq w') = xx_clients (xw_xgq w) -> world_ok w -> world_ok w'.
Proof. unfold world_ok. by intros ->. Qed.

Lemma get_client_ok w id : world_ok w -> 0 <= id < MAX_CLIENTS ->
  exists c, get_client w id = Some c /\ fast_client c.
Proof.
  intros [Hl Hf] Hid. unfold get_client, aget_chk, aget. rewrite (proj2 (in_arr_true _ _)) by lia.
  eexists. split; [reflexivity|]. destruct (_ !! _) eqn:E; [|by intros _].
  by eapply Forall_lookup_1 in Hf.
Qed.

Lemma get_client_fast w id c : world_ok w -> get_client w id = Some c -> fast_client c.
Proof.
  intros [_ Hf]. unfold get_client, aget_chk, aget. destruct (in_arr _ _); [|done]. intros [= <-].
  destruct (_ !! _) eqn:E; [|by intros _]. by eapply Forall_lookup_1 in Hf.
Qed.

Lemma put_xclient_ok w id c : world_ok w -> fast_client c -> world_ok (put_client w id c).
Proof.
  intros [Hl Hf] Hc. unfold world_ok, put_client. rproj. rewrite length_aset. split; [done|].
  unfold aset. by apply Forall_insert.
Qed.

Lemma view_put w id c c' id' : get_client w id = Some c ->
  sub_of (put_client w id c') id' = (if id' =? id then xxc_submitted c' else sub_of w id') /\
  comp_of (put_client w id c') id' = (if id' =? id then xxc_completed c' else comp_of w id').
Proof.
  intros Hc. unfold sub_of, comp_of. destruct (Z.eqb_spec id' id) as [->|Hne].
  - by rewrite (get_put_eq _ _ _ _ Hc).
  - by rewrite get_put_ne by (eauto using get_client_range).
Qed.

(** The commands a client can be given: the header and the words that are sent are
    in the payload. *)
Definition xgq_cmd_ok (x : kds_command) : Prop :=
  match xcmd_info x with
  | Some info => 2 <= Z.of_nat (length info) /\ 0 <= xcmd_isize x / 4 <= Z.of_nat (length info)
  | None => False
  end.

Lemma set_command_total w id x : world_ok w -> 0 <= id < MAX_CLIENTS -> xgq_cmd_ok x ->
  is_Some (xocl_xgq_set_command w id x).
Proof.
  intros Hw Hid Hx. destruct (get_client_ok w id Hw Hid) as (c & Hc & Hf).
  unfold xocl_xgq_set_command. rewrite Hc. cbn [mbind option_bind]. unfold xgq_cmd_ok in Hx.
  destruct (xcmd_info x) as [info|]; [|done]. destruct Hx as [Hl Hs].
  cbn [mbind option_bind]. destruct (put_cid_ok (make_cid (xocl_xgq_cid w) id) info Hl) as (info' & -> & Hl').
  cbn [mbind option_bind]. rproj.
  destruct (produce_total (xw_mem w) (xx_xgq (xw_xgq w))) as [[[ret slot] q] ->].
  cbn [mbind option_bind]. destruct slot as [addr|]; [|by eexists].
  unfold xocl_xgq_write_queue. rewrite copy_out_ok by (rproj; lia). by eexists.
Qed.

(** A submission that succeeds is at the tail of the client's commands; other
    clients do not notice. *)
Lemma set_command_view w id x ret w' x' : world_ok w ->
  xocl_xgq_set_command w id x = Some (ret, w', x') ->
  world_ok w' /\ xcmd_id x' = xcmd_id x /\
  sub_of w' id = (if ret =? 0 then sub_of w id ++ [x'] else sub_of w id) /\
  comp_of w' id = comp_of w id /\ forall id', id' <> id -> same_client id' w w'.
Proof.
  intros Hw H. unfold xocl_xgq_set_command in H.
  apply bind_Some in H as (c & Hc & H). apply bind_Some in H as (info & _ & H).
  apply bind_Some in H as (info' & _ & H). apply bind_Some in H as ([[r slot] q] & Hp & H).
  pose proof (get_client_fast w id c Hw Hc) as Hf. destruct slot as [addr|].
  - apply bind_Some in H as (m & _ & H). injection H as <- <- <-.
    set (w1 := _ <| xw_mem := m |>). assert (get_client w1 id = Some c) as Hc1 by exact Hc.
    set (c' := upd xxc_num_submit _ _). split_and!.
    + apply put_xclient_ok; [by apply (world_ok_clients w)|exact Hf].
    + done.
    + rewrite (proj1 (view_put w1 id c c' id Hc1)), Z.eqb_refl. subst c'. rproj. unfold sub_of. by rewrite Hc.
    + rewrite (proj2 (view_put w1 id c c' id Hc1)), Z.eqb_refl. subst c'. rproj. unfold comp_of. by rewrite Hc.
    + intros i Hne. unfold same_client. destruct (view_put w1 id c c' i Hc1) as [-> ->].
      by rewrite (proj2 (Z.eqb_neq _ _) Hne).
  - injection H as <- <- <-. apply produce_none in Hp. rewrite (proj2 (Z.eqb_neq _ _) Hp). by split_and!.
Qed.

Lemma notify_clients w : xx_clients (xw_xgq (xocl_xgq_notify w)) = xx_clients (xw_xgq w).
Proof. unfold xocl_xgq_notify, xocl_xgq_trigger_sq_intr. rproj. by destruct (xx_sq_prod_int _). Qed.

(** An answer completes the oldest command of the client it is for. *)
Lemma handle_resp_view w id addr ret st w' : world_ok w -> 
  xocl_xgq_handle_resp w id addr = Some (ret, st, w') ->
  world_ok w' /\ (forall id', client_moves id' w w') /\
  (ret = 0 -> length (sub_of w id) = S (length (sub_of w' id))).
Proof.
  intros Hw. unfold xocl_xgq_handle_resp. intros H. destruct (get_client w id) as [c|] eqn:Hc; [|done].
  cbn [mbind option_bind] in H. destruct (xxc_submitted c) as [|x rest] eqn:Es.
  { injection H as <- <- <-. split_and!; [done| |done]. intros id'. by apply same_client_moves. }
  match type of H with context [mbind _ ?e] => destruct e as [x'|] eqn:Ex; [|done] end.
  cbn [mbind option_bind] in H. injection H as <- <- <-.
  pose proof (get_client_fast w id c Hw Hc) as Hf.
  assert (xcmd_id x' = xcmd_id x /\ (xcmd_status x' = KDS_COMPLETED \/ xgq_reported (xcmd_status x')))
    as [Ei Hst].
  { unfold fast_client in Hf. unfold xgq_reported. destruct fast; [rewrite Hf in Ex by done; by simplify_eq; auto|].
    split; [|by right]. destruct (z2b _); [|by simplify_eq]. apply bind_Some in Ex as (s & _ & Ex). by simplify_eq. }
  set (c' := upd xxc_num_complete _ _).
  split_and!.
  - apply put_xclient_ok; [done|exact Hf].
  - intros i. pose proof (view_put w id c c' i Hc) as [E1 E2].
    destruct (decide (i = id)) as [->|Hne].
    + rewrite Z.eqb_refl in E1, E2. exists [x], [x']. rewrite E1, E2. subst c'. rproj.
      unfold sub_of, comp_of. rewrite Hc, Es. split_and!; try done; [cbn; by rewrite Ei|by apply Forall_singleton].
    + rewrite (proj2 (Z.eqb_neq _ _) Hne) in E1, E2. by apply same_client_moves.
  - intros _. rewrite (proj1 (view_put w id c c' id Hc)), Z.eqb_refl. subst c'. rproj.
    unfold sub_of. by rewrite Hc, Es.
Qed.

Lemma check_response_view w id ret st w' : world_ok w ->
  xocl_xgq_check_response w id = Some (ret, st, w') ->
  world_ok w' /\ (forall id', client_moves id' w w') /\
  (ret = 0 -> length (sub_of w id) = S (length (sub_of w' id))).
Proof.
  intros Hw. unfold xocl_xgq_check_response. intros H. apply bind_Some in H as ([[[r slot] q] m] & Hp & H).
  assert (slot = None -> r <> 0) as Hr by (by intros ->; eapply consume_none).
  set (w1 := _ <| xw_mem := m |>) in H.
  assert (world_ok w1) as Hw1 by (by apply (world_ok_clients w)).
  destruct slot as [addr|].
  2:{ injection H as <- <- <-. split_and!; [done| |by intros ->; destruct Hr].
      intros id'. by apply same_client_moves, same_clients. }
  apply bind_Some in H as ([[r' s'] w2] & Hh & H).
  apply handle_resp_view in Hh as (Hw2 & Hm & Hlen); [|done].
  assert (forall id', client_moves id' w w2) as Hm'.
  { intros id'. eapply moves_trans; [|apply Hm]. by apply same_client_moves, same_clients. }
  destruct (Z.eqb_spec r' 0) as [->|Hne].
  2:{ assert (z2b r' = true) as E by blia. rewrite E in H. injection H as <- <- <-. by split_and!. }
  injection H as <- <- <-. split_and!; [by apply (world_ok_clients w2)| |].
  - intros id'. eapply moves_trans; [apply Hm'|]. by apply same_client_moves, same_clients.
  - destruct (Z.eqb_spec id (resp_target w1 id addr)) as [E|]; [|done].
    rewrite <- E in Hlen. intros _. by apply Hlen.
Qed.

(** With answers that are not read from the queue a check always succeeds. *)
Lemma check_response_total w id : fast = true -> world_ok w -> 0 <= id < MAX_CLIENTS ->
  is_Some (xocl_xgq_check_response w id).
Proof.
  intros Hfast Hw Hid. unfold xocl_xgq_check_response.
  destruct (consume_total (xw_mem w) (xx_xgq (xw_xgq w))) as [[[[r slot] q] m] ->]. cbn [mbind option_bind].
  set (w1 := _ <| xw_mem := m |>). destruct slot as [addr|]; [|by eexists].
  assert (0 <= resp_target w1 id addr < MAX_CLIENTS) as Ht.
  { unfold resp_target. destruct (_ <? _); [|done]. change CLIENT_ID_MASK with (Z.ones 7).
    rewrite Z.land_ones by lia. change MAX_CLIENTS with (2 ^ 7). apply Z.mod_pos_bound. lia. }
  destruct (get_client_ok w1 _ (world_ok_clients w w1 eq_refl Hw) Ht) as (c & Hc & Hf).
  unfold xocl_xgq_handle_resp. rewrite Hc. cbn [mbind option_bind].
  destruct (xxc_submitted c); [by eexists|]. rewrite Hf by done. by eexists.
Qed.

Lemma check_responses_view fuel : forall w id st st' w', world_ok w ->
  check_responses fuel w id st = Some (st', w') ->
  world_ok w' /\ forall id', client_moves id' w w'.
Proof.
  induction fuel as [|fuel IH]; intros w id st st' w' Hw H; [done|]. cbn [check_responses] in H.
  apply bind_Some in H as ([[ret s] w1] & Hc & H). apply check_response_view in Hc as (Hw1 & Hm & _); [|done].
  destruct (ret =? 0); [|by injection H as <- <-]. apply IH in H as [Hw' Hm']; [|done].
  split; [done|]. intros i. eapply moves_trans; [apply Hm|apply Hm'].
Qed.

(** The loop ends: each round but the last completes a command of the client. *)
Lemma check_responses_ok fuel : forall w id st, fast = true -> world_ok w -> 0 <= id < MAX_CLIENTS ->
  (length (sub_of w id) < fuel)%nat -> is_Some (check_responses fuel w id st).
Proof.
  induction fuel as [|fuel IH]; intros w id st Hfast Hw Hid Hl; [lia|]. cbn [check_responses].
  destruct (check_response_total w id Hfast Hw Hid) as [[[ret s] w1] E]. rewrite E. cbn [mbind option_bind].
  apply check_response_view in E as (Hw1 & _ & Hlen); [|done].
  destruct (Z.eqb_spec ret 0) as [->|]; [|by eexists]. apply IH; try done. specialize (Hlen eq_refl). lia.
Qed.

Lemma get_command_view w id : world_ok w -> 0 <= id < MAX_CLIENTS ->
  match comp_of w id with
  | [] => xocl_xgq_get_command w id = Some (None, w)
  | x :: xs => exists w', xocl_xgq_get_command w id = Some (Some x, w') /\ world_ok w' /\
      sub_of w' id = sub_of w id /\ comp_of w' id = xs /\
      forall id', id' <> id -> same_client id' w w'
  end.
Proof.
  intros Hw Hid. destruct (get_client_ok w id Hw Hid) as (c & Hc & Hf).
  unfold comp_of at 1, xocl_xgq_get_command. rewrite Hc. cbn [mbind option_bind].
  destruct (xxc_completed c) as [|x xs] eqn:Ec; [done|]. set (c' := upd xxc_num_complete _ _).
  eexists. split; [reflexivity|].
  split; [apply put_xclient_ok; [done|exact Hf]|].
  rewrite (proj1 (view_put w id c c' id Hc)), (proj2 (view_put w id c c' id Hc)), Z.eqb_refl.
  split_and!; [unfold sub_of; by rewrite Hc|done|].
  intros i Hne. unfold same_client. destruct (view_put w id c c' i Hc) as [-> ->].
  by rewrite (proj2 (Z.eqb_neq _ _) Hne).
Qed.

Lemma abort_view w id m : world_ok w -> 0 <= id < MAX_CLIENTS ->
  exists r w', xocl_xgq_abort w id m = Some (r, w') /\ world_ok w' /\
    sub_of w' id = filter (fun x => m x = false) (sub_of w id) /\
    comp_of w' id = comp_of w id ++
      (set_status KDS_TIMEOUT <$> filter (fun x => m x = true) (sub_of w id)) /\
    forall id', id' <> id -> same_client id' w w'.
Proof.
  intros Hw Hid. destruct (get_client_ok w id Hw Hid) as (c & Hc & Hf).
  unfold xocl_xgq_abort. rewrite Hc. cbn [mbind option_bind]. rewrite abort_walk_spec.
  set (c' := upd xxc_num_complete _ _). eexists _, _. split; [reflexivity|].
  split; [apply put_xclient_ok; [done|exact Hf]|].
  rewrite (proj1 (view_put w id c c' id Hc)), (proj2 (view_put w id c c' id Hc)), Z.eqb_refl.
  split_and!; [unfold sub_of; by rewrite Hc|unfold sub_of, comp_of; by rewrite Hc|].
  intros i Hne. unfold same_client. destruct (view_put w id c c' i Hc) as [-> ->].
  by rewrite (proj2 (Z.eqb_neq _ _) Hne).
Qed.

(** ** The laws of a CU implementation *)

Definition xgq_core_ok (c : xrt_cu_xgq) : Prop :=
  world_ok (cx_xgq c) /\ 0 <= cx_xgq_client_id c < MAX_CLIENTS.

Lemma put_cu_ok idx dom info : 2 <= Z.of_nat (length info) ->
  exists info', put_cu idx dom info = Some info' /\ length info' = length info.
Proof.
  intros H. unfold put_cu, aget_chk, aset_chk. rewrite (proj2 (in_arr_true info 1)) by lia.
  eexists. split; [reflexivity|]. apply length_aset.
Qed.

Lemma submit_config_total c x : xgq_core_ok c -> xgq_cmd_ok x ->
  is_Some (cu_xgq_submit_config c x).
Proof.
  intros [Hw Hid] Hx. unfold cu_xgq_submit_config. unfold xgq_cmd_ok in Hx.
  destruct (xcmd_info x) as [info|] eqn:Ei; [|done]. destruct Hx as [Hl Hs]. cbn [mbind option_bind].
  destruct (put_cu_ok (cx_cu_idx c) (cx_cu_domain c) info Hl) as (info' & -> & Hl'). cbn [mbind option_bind].
  destruct (set_command_total (cx_xgq c) (cx_xgq_client_id c) (x <| xcmd_info := Some info' |>) Hw Hid)
    as [[[ret w'] x'] ->].
  { unfold xgq_cmd_ok. rproj. cbv iota. by rewrite Hl'. }
  by eexists.
Qed.

(** ** One client and the others

    [others c c']: an operation of the CU with core [c] that ends in [c'] keeps the
    invariant and the identity of the client; the other clients at most have
    commands completed. *)
Definition others (c c' : xrt_cu_xgq) : Prop :=
  xgq_core_ok c -> xgq_core_ok c' /\ cx_xgq_client_id c' = cx_xgq_client_id c /\
  forall i, i <> cx_xgq_client_id c -> client_moves i (cx_xgq c) (cx_xgq c').

#[export] Instance others_preorder : PreOrder others.
Proof.
  split.
  - intros c Hc. split_and!; [done..|]. intros i _. by apply same_client_moves.
  - intros a b c H1 H2 Ha. destruct (H1 Ha) as (Hb & I1 & M1). destruct (H2 Hb) as (Hc & I2 & M2).
    split_and!; [done|congruence|]. intros i Hi. eapply moves_trans; [by apply M1|apply M2; congruence].
Qed.

Lemma others_world c w' :
  (world_ok (cx_xgq c) -> world_ok w' /\
   forall i, i <> cx_xgq_client_id c -> client_moves i (cx_xgq c) w') ->
  others c (c <| cx_xgq := w' |>).
Proof. intros H [Hw Hid]. destruct (H Hw) as [Hw' Hm]. by split_and!. Qed.

Lemma start_others c : others c (cu_xgq_start c).
Proof.
  apply (others_world c (xocl_xgq_notify (cx_xgq c))). intros Hw.
  split; [by apply (world_ok_clients (cx_xgq c)); [apply notify_clients|]|].
  intros i _. apply same_client_moves, same_clients, notify_clients.
Qed.

Lemma submit_config_view c x r c' : cu_xgq_submit_config c x = Some (r, c') ->
  others c c' /\ (xgq_core_ok c -> exists x', xcmd_id x' = xcmd_id x /\
    comp_of (cx_xgq c') (cx_xgq_client_id c') = comp_of (cx_xgq c) (cx_xgq_client_id c) /\
    sub_of (cx_xgq c') (cx_xgq_client_id c') =
      (if r =? 0 then sub_of (cx_xgq c) (cx_xgq_client_id c) ++ [x']
       else sub_of (cx_xgq c) (cx_xgq_client_id c))).
Proof.
  unfold cu_xgq_submit_config. intros H. apply bind_Some in H as (info & _ & H).
  apply bind_Some in H as (info' & _ & H). apply bind_Some in H as ([[ret w'] x'] & Hs & H).
  injection H as <- <-. split.
  - apply others_world. intros Hw. apply set_command_view in Hs as (Hw' & _ & _ & _ & Ho); [|done].
    split; [done|]. intros i Hi. by apply same_client_moves, Ho.
  - intros [Hw Hid]. apply set_command_view in Hs as (Hw' & Hi & Hsub & Hcomp & _); [|done].
    exists x'. rproj. by split_and!.
Qed.

Lemma check_others c s force s' c' : cu_xgq_check c s force = Some (s', c') ->
  others c c' /\ (xgq_core_ok c ->
    client_moves (cx_xgq_client_id c) (cx_xgq c) (cx_xgq c')).
Proof.
  unfold cu_xgq_check. intros H. apply bind_Some in H as ([st w'] & Hr & H). injection H as <- <-. split.
  - apply others_world. intros Hw. apply check_responses_view in Hr as [Hw' Hm]; [|done]. by split.
  - intros [Hw Hid]. apply check_responses_view in Hr as [Hw' Hm]; [|done]. rproj. apply Hm.
Qed.

Lemma get_complete_others c r c' : cu_xgq_get_complete c = Some (r, c') -> others c c'.
Proof.
  unfold cu_xgq_get_complete. intros H Hc. apply bind_Some in H as ([r1 w'] & Hg & H).
  injection H as <- <-. pose proof Hc as [_ Hid]. revert Hc. apply others_world. intros Hw.
  pose proof (get_command_view _ _ Hw Hid) as V. destruct (comp_of _ _).
  - rewrite V in Hg. injection Hg as <- <-. split; [done|]. intros i _. by apply same_client_moves.
  - destruct V as (w1 & E & Hw1 & _ & _ & Ho). rewrite E in Hg. injection Hg as <- <-.
    split; [done|]. intros i Hi. by apply same_client_moves, Ho.
Qed.

Lemma abort_others c m r c' : cu_xgq_abort c m = Some (r, c') -> others c c'.
Proof.
  unfold cu_xgq_abort. intros H Hc. apply bind_Some in H as ([r1 w'] & Hg & H).
  injection H as <- <-. pose proof Hc as [_ Hid]. revert Hc. apply others_world. intros Hw.
  destruct (abort_view _ _ m Hw Hid) as (r2 & w2 & E & Hw2 & _ & _ & Ho).
  rewrite E in Hg. injection Hg as <- <-. split; [done|]. intros i Hi. by apply same_client_moves, Ho.
Qed.

#[export] Program Instance xgq_laws : XcuLaws xrt_cu_xgq_funcs := {|
  submitted c := sub_of (cx_xgq c) (cx_xgq_client_id c);
  completed c := comp_of (cx_xgq c) (cx_xgq_client_id c);
  cmd_ok := xgq_cmd_ok;
  core_ok := xgq_core_ok;
  reported := xgq_reported;
  credit_ok _ := False;
  max_credit _ := 1 |}.
Next Obligation. intros c. exists 1, c. by split_and!. Qed.
Next Obligation. intros c n. by split_and!. Qed.
Next Obligation.
  eexists. split; [reflexivity|]. intros c x Hc Hx.
  destruct (submit_config_total c x Hc Hx) as [[r c'] E]. destruct (submit_config_view c x r c' E) as [Ho Hv].
  destruct (Hv Hc) as (x' & H1 & H2 & H3). destruct (Ho Hc) as [H4 _]. by exists r, c', x'.
Qed.
Next Obligation. done. Qed.
Next Obligation.
  intros c. simpl. pose proof (start_others c) as Ho. unfold cu_xgq_start in *. rproj.
  destruct (same_clients (cx_xgq_client_id c) (cx_xgq c) (xocl_xgq_notify (cx_xgq c)) (notify_clients _))
    as [-> ->].
  split_and!; try done. intros Hc. apply (Ho Hc).
Qed.
Next Obligation.
  intros c s force s' c' Hc H. destruct (check_others c s force s' c' H) as [Ho Hm].
  destruct (Ho Hc) as (Hc' & Hid & _). split; [|done]. destruct (Hm Hc) as (fin & fin' & H1 & H2 & H3 & H4).
  exists fin, fin'. simpl. by rewrite Hid.
Qed.
Next Obligation.
  eexists. split; [reflexivity|]. intros c [Hw Hid]. cbv beta. unfold cu_xgq_get_complete.
  pose proof (get_command_view _ _ Hw Hid) as Hg. destruct (comp_of _ _).
  - rewrite Hg. cbn [mbind option_bind fst snd]. by destruct c.
  - destruct Hg as (w' & -> & Hw' & Hs & Hc' & _). cbn [mbind option_bind fst snd].
    eexists. split; [reflexivity|]. rproj. by split_and!.
Qed.
Next Obligation.
  eexists. split; [reflexivity|]. intros c m [Hw Hid]. cbv beta. unfold cu_xgq_abort.
  destruct (abort_view _ _ m Hw Hid) as (r & w' & -> & Hw' & Hs & Hc' & _).
  cbn [mbind option_bind fst snd]. eexists _, _. split; [reflexivity|]. rproj. by split_and!.
Qed.
Next Obligation. done. Qed.
End Laws.

(** No crash is seen when the statuses are not read. *)
Lemma check_response_status w id ret st w' : world_ok true w ->
  xocl_xgq_check_response w id = Some (ret, st, w') -> st = None \/ st = Some KDS_COMPLETED.
Proof.
  intros Hw H. unfold xocl_xgq_check_response in H. apply bind_Some in H as ([[[r slot] q] m] & _ & H).
  destruct slot as [addr|]; [|injection H as <- <- <-; by left].
  apply bind_Some in H as ([[r' s'] w2] & Hh & H).
  assert (s' = None \/ s' = Some KDS_COMPLETED) as Hs.
  { unfold xocl_xgq_handle_resp in Hh. apply bind_Some in Hh as (c & Hc & Hh).
    eapply (get_client_fast true) in Hc; [|by apply (world_ok_clients true w)].
    destruct (xxc_submitted c); [injection Hh as <- <- <-; by left|].
    rewrite Hc in Hh by done. injection Hh as <- <- <-. by right. }
  by destruct (z2b r'); injection H as <- <- <-.
Qed.

Lemma check_responses_fast fuel : forall w id st st' w', world_ok true w ->
  check_responses fuel w id st = Some (st', w') -> st <> status_ix KDS_SKCRASHED ->
  st' <> status_ix KDS_SKCRASHED.
Proof.
  induction fuel as [|fuel IH]; intros w id st st' w' Hw H Hst; [done|]. cbn [check_responses] in H.
  apply bind_Some in H as ([[ret s] w1] & Hc & H). pose proof (check_response_status _ _ _ _ _ Hw Hc) as Hs.
  apply (check_response_view true) in Hc as (Hw1 & _); [|done].
  destruct (ret =? 0); [eapply IH; [exact Hw1|exact H|]|injection H as <- <-];
    by destruct Hs as [-> | ->].
Qed.

#[export] Instance xgq_checks : @XcuChecks _ xrt_cu_xgq_funcs (xgq_laws true).
Proof.
  intros c s force [Hw Hid]. simpl. unfold cu_xgq_check.
  destruct (check_responses_ok true (S (length (sub_of (cx_xgq c) (cx_xgq_client_id c)))) (cx_xgq c)
    (cx_xgq_client_id c) CU_AP_IDLE eq_refl Hw Hid) as [[st w] ->]; [lia|]. by eexists.
Qed.


(** A queue with 128 clients, of which the first has two commands on the device;
    the device has answered once. *)
Definition demo_core : xrt_cu_xgq :=
  let r := mk_xgq_ring 2 16 0 0 0x100 0x104 0x200 in
  let w := mk_xworld 0 (<[0x100 := 1]> ∅)
             (mk_xocl_xgq (mk_xgq 0 0 r r) 0 0 0 (replicate (Z.to_nat MAX_CLIENTS) xclient0) 1 None) in
  mk_xrt_cu_xgq 0 1 1 0 0 0
    (put_client w 0 (mk_xclient 0 [demo_xcmd 1; demo_xcmd 2] 2 [] 0 0 0 true)) 0 0 0.

Lemma demo_core_ok : xgq_core_ok true demo_core.
Proof.
  split; [split; [reflexivity|]|change MAX_CLIENTS with 128; cbn; lia].
  repeat (constructor; [intros _; reflexivity|]). constructor.
Qed.

