(* ===== verification/XgqCus.v ===== *)
(** * Several CUs on one XGQ

    The CUs of [CuXgq] that share a queue, each with its own thread and clients,
    and the device, in any order.  Seen from one CU, what the others and the
    device do is a change of its core from outside, so that the theorems about
    one CU ([XrtCuSched]) hold for each of them. *)
From S2P Require Import Prelude KdsCommand CuInfo CuCore CircLog XrtCu XrtCuSched Xgq XoclXgq CuXgq.

(** ** What a CU does to its core

    [R] holds from the core before each call of the implementation to the core
    after it; then it holds from the core before each step of the CU to the core
    after it. *)
Class CoreFrame {C} (funcs : xcu_funcs C) (R : C -> C -> Prop) := {
  frame_preorder : PreOrder R;
  frame_alloc c : R c (alloc_credit funcs c).2;
  frame_free c n : R c (free_credit funcs c n);
  frame_start c : R c (start funcs c);
  frame_intr c t : R c (disable_intr funcs c t);
  frame_submit sub c x r c' : submit_config funcs = Some sub -> sub c x = Some (r, c') -> R c c';
  frame_check c s force s' c' : check funcs c s force = Some (s', c') -> R c c';
  frame_get get c r c' : get_complete funcs = Some get -> get c = Some (r, c') -> R c c';
  frame_abort ab c m r c' : abort funcs = Some ab -> ab c m = Some (r, c') -> R c c';
}.
#[export] Existing Instance frame_preorder.

Section Frame.
Context {C : Type} (funcs : xcu_funcs C) (R : C -> C -> Prop) {F : CoreFrame funcs R}.
#[local] Abbreviation cu := (xrt_cu C).
#[local] Abbreviation RC := (fun x y : cu => R (cu_core x) (cu_core y)).
Implicit Types (x y : cu).

Lemma circ_produce_core now x stage cmd : cu_core (xrt_cu_circ_produce now x stage cmd) = cu_core x.
Proof. unfold xrt_cu_circ_produce. by case_if. Qed.

Lemma pq_core now x : cu_core (process_pq now x) = cu_core x.
Proof. unfold process_pq, xrt_cu_idle_end. by repeat case_if. Qed.

Lemma cq_core now x ev y : process_cq now x = Some (ev, y) -> cu_core y = cu_core x.
Proof.
  unfold process_cq. generalize (Z.to_nat (cu_num_cq x)) as n. intros n. revert x ev.
  induction n as [|n IH]; intros x ev H; cbn [process_cq_loop] in H; [by simplify_eq|].
  destruct (cu_cq x) as [|c cq]; [done|]. apply bind_Some in H as ([e z] & Hr & H). injection H as _ <-.
  apply IH in Hr. rewrite Hr. rproj. unfold xrt_cu_incr_ecmd_count, on_stats.
  case_if; rproj; apply circ_produce_core.
Qed.

Lemma check_frame force x y : xrt_cu_check_gen funcs x force = Some y -> RC x y.
Proof.
  unfold xrt_cu_check_gen. intros H. apply bind_Some in H as ([s c] & Hc & H). simplify_eq. rproj.
  by eapply frame_check.
Qed.

Lemma drain_frame now log fuel : forall x y, drain funcs now log fuel x = Some y -> RC x y.
Proof.
  induction fuel as [|fuel IH]; intros x y H; [done|]. cbn [drain] in H.
  apply bind_Some in H as ([r z] & Hg & H). unfold xrt_cu_get_complete in Hg.
  assert (RC x z) as Hxz.
  { destruct (get_complete funcs) as [get|] eqn:Eg; [|by injection Hg as <- <-].
    apply bind_Some in Hg as ([r1 c1] & Hc & Hg). injection Hg as <- <-. rproj. by eapply frame_get. }
  destruct r as [xcmd|]; [|by injection H as <-]. apply IH in H. rproj.
  etransitivity; [exact Hxz|]. destruct log; [|exact H]. by rewrite circ_produce_core in H.
Qed.

Lemma cmd_abort_frame m x r y : xrt_cu_cmd_abort funcs x m = Some (r, y) -> RC x y.
Proof.
  unfold xrt_cu_cmd_abort. intros H. destruct (abort funcs) as [ab|] eqn:Ea; [|by injection H as <- <-].
  apply bind_Some in H as ([r1 c1] & Hc & H). injection H as <- <-. rproj. by eapply frame_abort.
Qed.

Lemma sq_frame now x y : process_sq_inner funcs now x = Some y -> RC x y.
Proof.
  unfold process_sq_inner. intros H. set (xa := if z2b (cu_ready_cnt x) then _ else x) in H.
  assert (RC x xa) as Ha.
  { subst xa. case_if; [|done]. unfold xrt_cu_put_credit, on_core. rproj. apply frame_free. }
  clearbody xa. destruct (negb _); [by injection H as <-|]. apply bind_Some in H as (xb & Hb & H).
  apply bind_Some in H as (xc & Hc & H). injection H as <-. apply drain_frame in Hc.
  assert (RC xa xb) as Hab.
  { destruct (first_event_client_or_null xa) as [ev|]; [|by injection Hb as <-].
    destruct (_ =? 0); [by injection Hb as <-|]. destruct (_ <? _); [by injection Hb as <-|].
    apply bind_Some in Hb as ([r xd] & Hd & Hb). injection Hb as <-. apply cmd_abort_frame in Hd. rproj.
    by case_if. }
  assert (cu_core (xrt_cu_idle_start now xc) = cu_core xc) as ->
    by (unfold xrt_cu_idle_start; by repeat case_if).
  etransitivity; [exact Ha|]. etransitivity; [exact Hab|exact Hc].
Qed.

Lemma rq_frame now x go y : process_rq funcs now x = Some (go, y) -> RC x y.
Proof.
  unfold process_rq. intros H. destruct (negb _); [by injection H as <- <-|].
  destruct (first_event_client_or_null x).
  { destruct (rq_abort_walk _ _ _ _ _ _) as [[[? ?] ?] ?]. by injection H as <- <-. }
  destruct (cu_rq x) as [|xcmd rq]; [done|]. unfold xrt_cu_get_credit in H.
  pose proof (frame_alloc (R := R) (funcs := funcs) (cu_core x)) as Ha.
  destruct (alloc_credit funcs (cu_core x)) as [credit c1]. cbn [snd] in Ha.
  destruct (negb _); [by injection H as <- <-|]. apply bind_Some in H as ([ret xa] & Hs & H).
  assert (R (cu_core x) (cu_core xa)) as Hxa.
  { unfold xrt_cu_submit_config in Hs. destruct (submit_config funcs) as [sub|] eqn:Es;
      [|by injection Hs as <- <-].
    apply bind_Some in Hs as ([r c2] & Hc & Hs). injection Hs as <- <-. rproj.
    etransitivity; [exact Ha|]. by eapply frame_submit. }
  etransitivity; [exact Hxa|]. destruct (z2b ret).
  { injection H as <- <-. unfold xrt_cu_put_credit, on_core. rproj. apply frame_free. }
  injection H as <- <-. match goal with |- context [xrt_cu_circ_produce now ?z _ _] => set (xs := z) end.
  assert (R (cu_core xa) (cu_core xs)) as Hs'.
  { etransitivity; [apply frame_start|]. subst xs. unfold xrt_cu_start, on_core. case_if; [|done].
    case_if; [|done]. unfold xrt_cu_switch_to_poll, xrt_cu_disable_intr, on_core. rproj. apply frame_intr. }
  clearbody xs. etransitivity; [exact Hs'|]. unfold on_stats. by case_if; rproj; rewrite circ_produce_core.
Qed.

Lemma try_abort_frame now x cmd cmd' y : try_abort_cmd funcs now x cmd = Some (cmd', y) -> RC x y.
Proof.
  unfold try_abort_cmd. intros H. apply bind_Some in H as (info & _ & H).
  apply bind_Some in H as (h & _ & H). destruct (find_split _ _) as [[[? ?] ?]|]; [by injection H as <- <-|].
  destruct (negb _); [by injection H as <- <-|]. apply bind_Some in H as ([r xa] & Ha & H).
  apply cmd_abort_frame in Ha. etransitivity; [exact Ha|].
  destruct (z2b r); apply bind_Some in H as (xb & Hb & H); injection H as <- <-;
    by apply drain_frame in Hb.
Qed.

Lemma hpq_walk_frame now hpq : forall x ev y, hpq_walk funcs now hpq x = Some (ev, y) -> RC x y.
Proof.
  induction hpq as [|cmd hpq IH]; intros x ev y H; cbn [hpq_walk] in H; [by injection H as <- <-|].
  apply bind_Some in H as ([cmd' xa] & Ha & H). apply bind_Some in H as ([e z] & Hw & H).
  injection H as _ <-. apply IH in Hw. rproj. etransitivity; [|exact Hw].
  case_bool_decide; [by apply try_abort_frame in Ha|by injection Ha as <- <-].
Qed.

Lemma hpq_frame now x ev y : process_hpq funcs now x = Some (ev, y) -> RC x y.
Proof.
  unfold process_hpq. intros H. destruct (negb _); [by injection H as <- <-|].
  apply bind_Some in H as ([e z] & Hw & H). injection H as <- <-. by apply hpq_walk_frame in Hw.
Qed.
End Frame.

(** ** Steps of one CU

    The actions of [cu_step] that a CU, its clients and timers do themselves. *)
Section Own.
Context {C : Type} (funcs : xcu_funcs C) {L : XcuLaws funcs}.

Inductive own_step : xrt_cu C -> cu_action -> xrt_cu C -> Prop :=
| own_submit xcu x :
    cmd_ok x -> Z.of_nat (length (flight funcs xcu)) + 1 < 2 ^ 32 ->
    own_step xcu (ASubmit x) (xrt_cu_submit xcu x)
| own_hpq_submit xcu x :
    hpq_ok x -> Z.of_nat (length (cu_hpq xcu)) + 1 < 2 ^ 32 ->
    own_step xcu (AHpq x) (xrt_cu_hpq_submit xcu x)
| own_abort xcu c : own_step xcu (AAbort c) (xrt_cu_abort xcu c)
| own_abort_done xcu c : own_step xcu (AAbortDone c) (xrt_cu_abort_done xcu c).2
| own_pq now xcu : own_step xcu (AThread []) (process_pq now xcu)
| own_rq now xcu go xcu' :
    process_rq funcs now xcu = Some (go, xcu') -> own_step xcu (AThread []) xcu'
| own_cq now xcu ev xcu' :
    process_cq now xcu = Some (ev, xcu') -> own_step xcu (AThread ev) xcu'
| own_check force xcu xcu' :
    xrt_cu_check_gen funcs xcu force = Some xcu' -> own_step xcu (AThread []) xcu'
| own_sq now xcu xcu' :
    process_sq_inner funcs now xcu = Some xcu' -> own_step xcu (AThread []) xcu'
| own_hpq now xcu ev xcu' :
    process_hpq funcs now xcu = Some (ev, xcu') -> own_step xcu (AThread ev) xcu'
| own_local xcu xcu' :
    same_flow funcs xcu' xcu -> cu_core xcu' = cu_core xcu -> own_step xcu (AThread []) xcu'.

Lemma own_cu_step x a y : own_step x a y -> cu_step funcs x a y.
Proof. destruct 1; by econstructor. Qed.

Lemma own_frame R {F : CoreFrame funcs R} x a y : own_step x a y -> R (cu_core x) (cu_core y).
Proof.
  destruct 1.
  - unfold xrt_cu_submit. by case_if.
  - unfold xrt_cu_hpq_submit. by case_if.
  - unfold xrt_cu_abort. by case_if.
  - done.
  - by rewrite pq_core.
  - by eapply rq_frame.
  - by match goal with H : process_cq _ _ = _ |- _ => apply cq_core in H as -> end.
  - by eapply check_frame.
  - by eapply sq_frame.
  - by eapply hpq_frame.
  - by match goal with E : cu_core _ = _ |- _ => rewrite E end.
Qed.
End Own.

#[export] Instance xgq_frame fast : CoreFrame xrt_cu_xgq_funcs (others fast).
Proof.
  split; try done.
  - apply others_preorder.
  - apply start_others.
  - intros sub c x r c' [= <-] H. by apply (submit_config_view fast) in H as [H _].
  - intros c s force s' c' H. by apply (check_others fast) in H as [H _].
  - intros get c r c' [= <-] H. by apply (get_complete_others fast) in H.
  - intros ab c m r c' [= <-] H. by apply (abort_others fast) in H.
Qed.

(** ** The system *)

Record xgq_sys := mk_sys {
  sys_xgq : xworld;
  sys_cus : list (xrt_cu xrt_cu_xgq);
}.

Inductive sys_action := SysCu (j : nat) (a : cu_action) | SysDevice.

Section System.
Context (fast : bool).
#[local] Abbreviation laws := (xgq_laws fast).
#[local] Abbreviation xcu := (xrt_cu xrt_cu_xgq).
#[local] Abbreviation trace := (cu_trace xrt_cu_xgq_funcs (L := laws)).
#[local] Abbreviation wf := (cu_wf xrt_cu_xgq_funcs (L := laws)).
Implicit Types (x y : xcu) (s : xgq_sys).

Definition client_of x : Z := cx_xgq_client_id (cu_core x).
Definition world_of x : xworld := cx_xgq (cu_core x).
Definition with_world (w : xworld) x : xcu := x <| cu_core ::= fun c => c <| cx_xgq := w |> |>.

(** A CU acts on the queue it shares with the others; the device does anything
    to the shared memory. *)
Inductive sys_step : xgq_sys -> sys_action -> xgq_sys -> Prop :=
| sys_cu s j x a y :
    sys_cus s !! j = Some x -> own_step xrt_cu_xgq_funcs (L := laws) x a y ->
    sys_step s (SysCu j a) (mk_sys (world_of y) (<[j := y]> (with_world (world_of y) <$> sys_cus s)))
| sys_device s f w :
    w = sys_xgq s <| xw_mem ::= f |> ->
    sys_step s SysDevice (mk_sys w (with_world w <$> sys_cus s)).

Inductive sys_trace : xgq_sys -> list sys_action -> xgq_sys -> Prop :=
| sys_nil s : sys_trace s [] s
| sys_cons s a s1 acts s2 : sys_step s a s1 -> sys_trace s1 acts s2 -> sys_trace s (a :: acts) s2.

(** What CU [j] does in a trace. *)
Definition cu_acts (j : nat) (acts : list sys_action) : list cu_action :=
  omap (fun a => match a with SysCu k a => if decide (k = j) then Some a else None | SysDevice => None end)
    acts.

(** Every CU is well formed and sees the shared queue, each as another client. *)
Definition sys_ok s : Prop :=
  (forall j x, sys_cus s !! j = Some x -> wf x /\ world_of x = sys_xgq s) /\
  (forall j k x y, sys_cus s !! j = Some x -> sys_cus s !! k = Some y -> client_of x = client_of y -> j = k).

(** ** One CU in the system *)

(** A change of the queue that completes commands of a client at most is a step
    of its CU. *)
Lemma world_step x w' :
  wf x -> world_ok fast w' -> client_moves fast (client_of x) (world_of x) w' ->
  cu_step xrt_cu_xgq_funcs (L := laws) x (AThread []) (with_world w' x).
Proof.
  intros W Hw (fin & fin' & H1 & H2 & H3 & H4).
  pose proof (wf_core _ _ W) as [_ Hid].
  apply (step_device xrt_cu_xgq_funcs (L := laws) x (cu_core x <| cx_xgq := w' |>)).
  - by exists fin, fin'.
  - by split.
Qed.

Lemma step_wf x a y : cu_step xrt_cu_xgq_funcs (L := laws) x a y -> wf x -> wf y.
Proof. intros H W. by apply (cu_step_ok xrt_cu_xgq_funcs x a y H W). Qed.

(** The step of a CU as the others see it. *)
Lemma own_others x a y z :
  own_step xrt_cu_xgq_funcs (L := laws) x a y -> wf x -> wf z -> world_of x = world_of z ->
  client_of x <> client_of z ->
  cu_step xrt_cu_xgq_funcs (L := laws) z (AThread []) (with_world (world_of y) z).
Proof.
  intros Ho Wx Wz Hw Hne. apply (own_frame _ (others fast)) in Ho.
  destruct (Ho (wf_core _ _ Wx)) as ([Hy _] & Hid & Hm). apply world_step; [done|done|].
  specialize (Hm (client_of z)). fold (client_of x) in Hm. rewrite <- Hw. by apply Hm.
Qed.

(** The action of the system for CU [j]. *)
Definition act_of (j : nat) (a : sys_action) : cu_action :=
  match a with SysCu k a => if decide (k = j) then a else AThread [] | SysDevice => AThread [] end.

Lemma with_world_ok x w : world_of (with_world w x) = w /\ client_of (with_world w x) = client_of x.
Proof. done. Qed.

(** Moving every CU but the one that acts to the new queue keeps the system in
    order. *)
Lemma sys_ok_moved s w (cus : list xcu) :
  sys_ok s -> length cus = length (sys_cus s) ->
  (forall j x y, sys_cus s !! j = Some x -> cus !! j = Some y ->
    wf y /\ world_of y = w /\ client_of y = client_of x) ->
  sys_ok (mk_sys w cus).
Proof.
  intros [H1 H2] Hl H. cbn [sys_cus sys_xgq].
  assert (forall j y, cus !! j = Some y -> exists x, sys_cus s !! j = Some x) as Hx.
  { intros j y Hy. apply lookup_lt_is_Some. rewrite <- Hl. by eapply lookup_lt_Some. }
  split; cbn [sys_cus sys_xgq].
  - intros j y Hy. destruct (Hx j y Hy) as [x Hj]. by destruct (H j x y Hj Hy) as (? & ? & _).
  - intros j k y z Hy Hz E. destruct (Hx j y Hy) as [x Hj]. destruct (Hx k z Hz) as [v Hk].
    destruct (H j x y Hj Hy) as (_ & _ & E1). destruct (H k v z Hk Hz) as (_ & _ & E2).
    apply (H2 j k x v Hj Hk). congruence.
Qed.

Lemma sys_step_cu s a s' : sys_step s a s' -> sys_ok s ->
  sys_ok s' /\ forall j x, sys_cus s !! j = Some x ->
    exists y, sys_cus s' !! j = Some y /\ cu_step xrt_cu_xgq_funcs (L := laws) x (act_of j a) y.
Proof.
  intros H Hok. assert (forall j x, sys_cus s !! j = Some x ->
    exists y, sys_cus s' !! j = Some y /\ cu_step xrt_cu_xgq_funcs (L := laws) x (act_of j a) y /\
      world_of y = sys_xgq s' /\ client_of y = client_of x) as Hstep.
  { destruct Hok as [H1 H2]. destruct H as [s j x a y Hj Ho|s f w Hw]; cbn [sys_cus sys_xgq act_of];
      intros k z Hk; destruct (H1 k z Hk) as [Wz Ez].
    - destruct (H1 j x Hj) as [Wx Ex]. destruct (decide (j = k)) as [->|Hne].
      + exists y. rewrite Hj in Hk. injection Hk as <-. rewrite list_lookup_insert_eq.
        2:{ rewrite length_fmap. by eapply lookup_lt_Some. }
        split_and!; [done|by apply own_cu_step|done|].
        apply (own_frame _ (others fast)) in Ho. by destruct (Ho (wf_core _ _ Wx)) as (_ & ? & _).
      + exists (with_world (world_of y) z). rewrite list_lookup_insert_ne, list_lookup_fmap, Hk by done.
        split_and!; [done| |done|done]. apply (own_others x a y z); [done..|congruence|].
        intros E. by apply Hne, (H2 j k x z).
    - exists (with_world w z). rewrite list_lookup_fmap, Hk. split_and!; [done| |done|done].
      pose proof (wf_core _ _ Wz) as [Hwz _]. fold (world_of z) in Hwz.
      assert (xx_clients (xw_xgq w) = xx_clients (xw_xgq (world_of z))) as E by (by rewrite Hw, Ez).
      apply world_step; [done|by apply (world_ok_clients fast (world_of z))|].
      by apply same_client_moves, same_clients. }
  split; [|intros j x Hj; destruct (Hstep j x Hj) as (y & ? & ? & _); by exists y].
  destruct s' as [w cus]. apply (sys_ok_moved s); [done| |].
  - inversion H; subst; by rewrite ?length_insert, ?length_fmap.
  - intros j x y Hx Hy. destruct (Hstep j x Hx) as (y' & Hy' & Hs & Hw & Hc). cbn [sys_cus] in Hy'.
    rewrite Hy in Hy'. injection Hy' as <-. split_and!; [|done|done].
    eapply step_wf; [exact Hs|]. by apply (proj1 Hok j x).
Qed.

(** A trace of the system is a trace of each CU. *)
Lemma sys_trace_cu s acts s' : sys_trace s acts s' -> sys_ok s ->
  sys_ok s' /\ forall j x, sys_cus s !! j = Some x ->
    exists y, sys_cus s' !! j = Some y /\ trace x (act_of j <$> acts) y.
Proof.
  induction 1 as [s|s a s1 acts s2 Hs _ IH]; intros Hok.
  - split; [done|]. intros j x Hj. exists x. split; [done|constructor].
  - destruct (sys_step_cu _ _ _ Hs Hok) as [Hok1 H1]. destruct (IH Hok1) as [Hok2 H2].
    split; [done|]. intros j x Hj. destruct (H1 j x Hj) as (y & Hy & Hst).
    destruct (H2 j y Hy) as (z & Hz & Ht). exists z. split; [done|]. by econstructor.
Qed.

(** The actions that are not those of the CU have no effect outside. *)
Lemma act_of_acts j acts :
  submitted_ids (act_of j <$> acts) = submitted_ids (cu_acts j acts) /\
  trace_events (act_of j <$> acts) = trace_events (cu_acts j acts) /\
  (abort_free (cu_acts j acts) -> abort_free (act_of j <$> acts)).
Proof.
  unfold submitted_ids, trace_events, abort_free. induction acts as [|a acts (E1 & E2 & E3)]; [done|].
  rewrite fmap_cons, !bind_cons. unfold cu_acts. cbn [omap list_omap]. fold (cu_acts j acts).
  destruct a as [k a|]; cbn [act_of]; [destruct (decide (k = j))|]; rewrite ?bind_cons, E1, E2;
    split_and!; try done; intros Ha.
  - apply Forall_cons in Ha as [Ha Hs]. apply Forall_cons. auto.
  - apply Forall_cons. auto.
  - apply Forall_cons. auto.
Qed.
End System.

(** C3. CUs that share an XGQ: whatever the threads and clients of all CUs and
    the device do, in any order, for every CU on the queue the commands given
    to it are, each exactly once, either notified or still in flight in it, and
    the counters of its queues are right; as long as nothing is aborted on that
    CU, it notifies in the order of submission, also while commands are aborted
    on other CUs of the queue. *)
Theorem xgq_cus_conserved fast s acts s' j x :
  sys_ok fast s -> sys_trace fast s acts s' -> sys_cus s !! j = Some x ->
  flight xrt_cu_xgq_funcs (L := xgq_laws fast) x = [] ->
  exists y, sys_cus s' !! j = Some y /\ cu_wf xrt_cu_xgq_funcs (L := xgq_laws fast) y /\
    submitted_ids (cu_acts j acts) ≡ₚ notified (trace_events (cu_acts j acts)) ++
      ids (flight xrt_cu_xgq_funcs (L := xgq_laws fast) y) /\
    freed_ids (trace_events (cu_acts j acts)) = notified (trace_events (cu_acts j acts)) /\
    (cu_events x = [] -> cu_hpq x = [] -> abort_free (cu_acts j acts) ->
     submitted_ids (cu_acts j acts) = notified (trace_events (cu_acts j acts)) ++
       ids (flight xrt_cu_xgq_funcs (L := xgq_laws fast) y)).
Proof.
  intros Hok Ht Hj Hfl. destruct (sys_trace_cu fast s acts s' Ht Hok) as [_ Hcu].
  destruct (Hcu j x Hj) as (y & Hy & T). exists y. destruct (proj1 Hok j x Hj) as [W _].
  destruct (act_of_acts j acts) as (E1 & E2 & E3).
  destruct (cu_trace_ok xrt_cu_xgq_funcs _ _ _ T W) as (Wy & P & R & _).
  rewrite E1, E2, Hfl, app_nil_r in P. rewrite E2 in R. split_and!; try done.
  intros He Hh Ha. pose proof (cu_trace_fifo xrt_cu_xgq_funcs _ _ _ T W He Hh (E3 Ha)) as Hq.
  by rewrite E1, E2, Hfl in Hq.
Qed.

(** ** Instance: two CUs on a queue allocated by the device *)

Definition demo_queue : xworld := Eval vm_compute in default empty_world demo_world.

Definition demo_xcu (idx : Z) : xrt_cu xrt_cu_xgq :=
  xrt_cu_alloc info_zero (mk_xrt_cu_xgq 0 1 1 0 0 0 demo_queue idx idx 0)
    <| cu_crc := mk_circ_buf [] 0 0 |>.

Definition demo_sys : xgq_sys := mk_sys demo_queue [demo_xcu 0; demo_xcu 1].

Lemma demo_xcu_wf idx : 0 <= idx < 2 -> cu_wf xrt_cu_xgq_funcs (L := xgq_laws true) (demo_xcu idx).
Proof.
  intros Hi. assert (idx = 0 \/ idx = 1) as Hc by lia.
  assert (core_ok (XcuLaws := xgq_laws true) (cu_core (demo_xcu idx))) as Hok.
  { split; [split; [reflexivity|]|change MAX_CLIENTS with 128; cbn; lia].
    repeat (constructor; [intros _; reflexivity|]). constructor. }
  destruct Hc as [-> | ->]; split; try exact Hok; try reflexivity; constructor.
Qed.

Lemma demo_sys_ok : sys_ok true demo_sys.
Proof.
  split.
  - intros [|[|j]] x [= <-]; (split; [apply demo_xcu_wf; lia|reflexivity]).
  - intros [|[|j]] [|[|k]] x y [= <-] [= <-]; done.
Qed.

Lemma demo_xcmd_ok id : xgq_cmd_ok (demo_xcmd id).
Proof. unfold xgq_cmd_ok, demo_xcmd. cbn [xcmd_info xcmd_isize length]. change (12 / 4) with 3. lia. Qed.

(** Both CUs submit a command; the device answers; CU 0 takes the answer for the
    other CU too and notifies its own command. *)
Lemma demo_sys_trace : exists acts s', sys_trace true demo_sys acts s' /\
  submitted_ids (cu_acts 0 acts) = [1] /\ notified (trace_events (cu_acts 0 acts)) = [1] /\
  submitted_ids (cu_acts 1 acts) = [2] /\ notified (trace_events (cu_acts 1 acts)) = [].
Proof.
  eexists _, _. split.
  - eapply sys_cons; [eapply (sys_cu _ _ 0); [reflexivity|apply (own_submit _ _ (demo_xcmd 1)); [apply demo_xcmd_ok|reflexivity]]|].
    eapply sys_cons; [eapply (sys_cu _ _ 1); [reflexivity|apply (own_submit _ _ (demo_xcmd 2)); [apply demo_xcmd_ok|reflexivity]]|].
    eapply sys_cons; [eapply (sys_cu _ _ 0); [reflexivity|apply (own_pq _ 0)]|].
    eapply sys_cons; [eapply (sys_cu _ _ 1); [reflexivity|apply (own_pq _ 0)]|].
    eapply sys_cons; [eapply (sys_cu _ _ 0); [reflexivity|eapply (own_rq _ 0); vm_compute; reflexivity]|].
    eapply sys_cons; [eapply (sys_cu _ _ 1); [reflexivity|eapply (own_rq _ 0); vm_compute; reflexivity]|].
    eapply sys_cons; [apply (sys_device _ _ demo_answers); reflexivity|].
    eapply sys_cons; [eapply (sys_cu _ _ 0); [reflexivity|eapply (own_check _ false); vm_compute; reflexivity]|].
    eapply sys_cons; [eapply (sys_cu _ _ 0); [reflexivity|eapply (own_check _ false); vm_compute; reflexivity]|].
    eapply sys_cons; [eapply (sys_cu _ _ 0); [reflexivity|eapply (own_sq _ 0); vm_compute; reflexivity]|].
    eapply sys_cons; [eapply (sys_cu _ _ 0); [reflexivity|eapply (own_cq _ 0); vm_compute; reflexivity]|].
    apply sys_nil.
  - split_and!; reflexivity.
Qed.

Lemma xgq_cus_conserved_witness : exists acts s' y,
  sys_trace true demo_sys acts s' /\ sys_cus s' !! 0%nat = Some y /\
  ids (flight xrt_cu_xgq_funcs (L := xgq_laws true) y) = [].
Proof.
  destruct demo_sys_trace as (acts & s' & T & Hs & Hn & _).
  destruct (xgq_cus_conserved true demo_sys acts s' 0 (demo_xcu 0) demo_sys_ok T eq_refl eq_refl)
    as (y & Hy & _ & P & _). exists acts, s', y. split; [exact T|]. split; [exact Hy|].
  rewrite Hs, Hn in P. apply Permutation_length in P. rewrite length_app in P. cbn [length] in P.
  apply length_zero_iff_nil. lia.
Defined.
