(* ===== verification/XrtXclbin.v ===== *)
(** * xclbin container and bitstream header

    [xrt_xclbin.c]: the parser of the header of a bitstream, and the access to
    the sections of an xclbin file.  A byte buffer is a list of values below
    256; [None] is an access outside it or through NULL.  A section header is
    designated by its index in [m_sections]. *)
From S2P Require Import Prelude.

(** ** Bitstream header *)

Definition XHI_EVEN_MAGIC_BYTE : Z := 0x0f.
Definition XHI_ODD_MAGIC_BYTE : Z := 0xf0.
Definition XHI_BIT_HEADER_FAILURE : Z := -1.

(** The pointers are [None] until a name is stored. *)
Record XHwIcap_Bit_Header := mk_bit_header {
  HeaderLength : Z;
  BitstreamLength : Z;
  DesignName : option (list Z);
  PartName : option (list Z);
  Date : option (list Z);
  Time : option (list Z);
  MagicLength : Z;
}.
#[export] Instance eta_bit_header : Eta XHwIcap_Bit_Header := fun h =>
  mk_bit_header (HeaderLength h) (BitstreamLength h) (DesignName h) (PartName h) (Date h) (Time h)
    (MagicLength h).

(** [data[index]]. *)
Definition byte_at (data : list Z) (index : Z) : option Z := aget_chk 0 data index.

(** Two bytes, high byte first. *)
Definition half_at (data : list Z) (index : Z) : option Z :=
  a ← byte_at data index; b ← byte_at data (index + 1); Some (Z.lor (Z.shiftl a 8) b).

(** The loop over the magic bytes: [n] bytes to go, [i] done; [inl]: a wrong
    byte. *)
Fixpoint magic_loop (data : list Z) (n : nat) (i index : Z) : option (unit + Z) :=
  match n with
  | O => Some (inr index)
  | S n =>
      tmp ← byte_at data index;
      if ((i mod 2 =? 0) && negb (tmp =? XHI_EVEN_MAGIC_BYTE)) ||
         ((i mod 2 =? 1) && negb (tmp =? XHI_ODD_MAGIC_BYTE))
      then Some (inl ())
      else magic_loop data n (i + 1) (index + 1)
  end.

(** A tagged name: the tag, a length and that many bytes of which the last is
    the terminator.  [alloc]: whether [vmalloc] succeeds; a write through NULL
    and the byte before an empty name are outside. *)
Inductive name_result :=
| BadTag
| Unterminated (name : list Z)
| Name (name : list Z) (index : Z).

Definition parse_name (data : list Z) (tag : Z) (alloc : bool) (index : Z) : option name_result :=
  tmp ← byte_at data index;
  if negb (tmp =? tag) then Some BadTag
  else
    len ← half_at data (index + 1);
    if negb alloc then None
    else
      name ← copy_out data (index + 3) len;
      c ← aget_chk 0 name (len - 1);
      if negb (c =? 0) then Some (Unterminated name) else Some (Name name (index + 3 + len)).

(** Result: return value and header; [alloc] for the four names. *)
Definition xrt_xclbin_parse_header (data : list Z) (alloc : bool * bool * bool * bool)
  (header : XHwIcap_Bit_Header) : option (Z * XHwIcap_Bit_Header) :=
  let '(alloc1, alloc2, alloc3, alloc4) := alloc in
  let h := header <| HeaderLength := u32 XHI_BIT_HEADER_FAILURE |> in
  ml ← half_at data 0;
  let h := h <| MagicLength := ml |> in
  m ← magic_loop data (Z.to_nat (u32 (ml - 1))) 0 2;
  match m with
  | inl _ => Some (-1, h)
  | inr index =>
      _ ← byte_at data index;
      one ← half_at data (index + 1);
      if negb (one =? 1) then Some (-1, h)
      else
        r ← parse_name data 97 alloc1 (index + 3);
        match r with
        | BadTag => Some (-1, h)
        | Unterminated s => Some (-1, h <| DesignName := Some s |>)
        | Name s index =>
            let h := h <| DesignName := Some s |> in
            r ← parse_name data 98 alloc2 index;
            match r with
            | BadTag => Some (-1, h)
            | Unterminated s => Some (-1, h <| PartName := Some s |>)
            | Name s index =>
                let h := h <| PartName := Some s |> in
                r ← parse_name data 99 alloc3 index;
                match r with
                | BadTag => Some (-1, h)
                | Unterminated s => Some (-1, h <| Date := Some s |>)
                | Name s index =>
                    let h := h <| Date := Some s |> in
                    r ← parse_name data 100 alloc4 index;
                    match r with
                    | BadTag => Some (-1, h)
                    | Unterminated s => Some (-1, h <| Time := Some s |>)
                    | Name s index =>
                        let h := h <| Time := Some s |> in
                        tmp ← byte_at data index;
                        if negb (tmp =? 101) then Some (-1, h)
                        else
                          hi ← half_at data (index + 1);
                          lo ← half_at data (index + 3);
                          Some (0, h <| BitstreamLength := Z.lor (Z.shiftl hi 16) lo |>
                                     <| HeaderLength := index + 5 |>)
                    end
                end
            end
        end
  end.

(** ** Sections *)

Definition XCLBIN_MAX_NUM_SECTION : Z := 0x10000.

Record axlf_section_header := mk_section {
  m_sectionKind : Z;
  m_sectionOffset : Z;
  m_sectionSize : Z;
}.

(** The fields the parser looks at, the array of section headers, and the bytes
    of the file, which [get_section] copies from. *)
Record axlf := mk_axlf {
  m_numSections : Z;
  m_length : Z;
  m_sections : list axlf_section_header;
  ax_bytes : list Z;
}.

Definition section0 : axlf_section_header := mk_section 0 0 0.
Definition section_at (x : axlf) (i : Z) : option axlf_section_header :=
  aget_chk section0 (m_sections x) i.

Definition xrt_xclbin_check_section_hdr (h : axlf_section_header) (xclbin_len : Z) : Z :=
  let e := u64 (m_sectionOffset h + m_sectionSize h) in
  if (e <? m_sectionOffset h) || (xclbin_len <? e) then - EINVAL else 0.

(** The search loop; [n] sections to go.  The inner option is the pointer
    returned. *)
Fixpoint find_section (x : axlf) (kind : Z) (n : nat) (i : Z) : option (option Z) :=
  match n with
  | O => Some None
  | S n =>
      s ← section_at x i;
      if m_sectionKind s =? kind
      then Some (if z2b (xrt_xclbin_check_section_hdr s (m_length x)) then None else Some i)
      else find_section x kind n (i + 1)
  end.

Definition xrt_xclbin_get_section_hdr (x : axlf) (kind : Z) : option (option Z) :=
  if XCLBIN_MAX_NUM_SECTION <? m_numSections x then Some None
  else find_section x kind (Z.to_nat (m_numSections x)) 0.

(** Error number, or offset and size. *)
Definition xrt_xclbin_section_info (x : axlf) (kind : Z) : option (Z + Z * Z) :=
  r ← xrt_xclbin_get_section_hdr x kind;
  match r with
  | None => Some (inl (- EINVAL))
  | Some i =>
      s ← section_at x i;
      let err := xrt_xclbin_check_section_hdr s (m_length x) in
      if z2b err then Some (inl err) else Some (inr (m_sectionOffset s, m_sectionSize s))
  end.

(** The loop of the iteration: [cur] is the section passed in, [match_] and
    [found] the local variables. *)
Fixpoint next_section (x : axlf) (kind : Z) (cur : option Z) (n : nat) (i : Z) (match_ : bool)
  (found : Z) : option (option Z) :=
  match n with
  | O => Some (if found <? 0 then None else Some found)
  | S n =>
      s ← section_at x i;
      if m_sectionKind s =? kind then
        if match_ then Some (Some i)
        else if bool_decide (cur = Some i) then next_section x kind cur n (i + 1) true (-1)
        else next_section x kind cur n (i + 1) match_ (if found <? 0 then i else found)
      else next_section x kind cur n (i + 1) match_ found
  end.

Definition xrt_xclbin_get_section_hdr_next (x : axlf) (kind : Z) (cur : option Z)
  : option (option Z) := next_section x kind cur (Z.to_nat (m_numSections x)) 0 false (-1).

Fixpoint count_sections (x : axlf) (kind : Z) (n : nat) (i cnt : Z) : option Z :=
  match n with
  | O => Some cnt
  | S n =>
      s ← section_at x i;
      count_sections x kind n (i + 1) (if m_sectionKind s =? kind then cnt + 1 else cnt)
  end.

Definition xrt_xclbin_get_section_num (x : axlf) (kind : Z) : option Z :=
  count_sections x kind (Z.to_nat (m_numSections x)) 0 0.

(** Error number, or the bytes copied; [alloc]: whether [vmalloc] succeeds. *)
Definition xrt_xclbin_get_section (x : axlf) (kind : Z) (alloc : bool) : option (Z + list Z) :=
  r ← xrt_xclbin_section_info x kind;
  match r with
  | inl err => Some (inl err)
  | inr (offset, size) =>
      if negb alloc then Some (inl (- ENOMEM))
      else data ← copy_out (ax_bytes x) offset size; Some (inr data)
  end.

(** ** Encoding of a bitstream header *)

Definition be16 (n : Z) : list Z := [n / 256; n mod 256].
Definition be32 (n : Z) : list Z := be16 (n / 65536) ++ be16 (n mod 65536).

Fixpoint magic_bytes (n : nat) (i : Z) : list Z :=
  match n with
  | O => []
  | S n => (if i mod 2 =? 0 then XHI_EVEN_MAGIC_BYTE else XHI_ODD_MAGIC_BYTE) :: magic_bytes n (i + 1)
  end.

Definition enc_name (tag : Z) (s : list Z) : list Z := tag :: be16 (Z.of_nat (length s)) ++ s.

(** [n] magic bytes and one byte after them, which is not looked at. *)
Definition enc_header (n : nat) (pad : Z) (design part date time : list Z) (blen : Z) : list Z :=
  be16 (Z.of_nat n + 1) ++ magic_bytes n 0 ++ [pad; 0; 1] ++ enc_name 97 design ++
  enc_name 98 part ++ enc_name 99 date ++ enc_name 100 time ++ [101] ++ be32 blen.

(** A name as it is stored: with its terminator. *)
Definition name_ok (s : list Z) : Prop :=
  0 < Z.of_nat (length s) < 65536 /\ last s = Some 0.

(** ** Lemmas on the parser *)

Lemma byte_at_app pre x rest k : k = Z.of_nat (length pre) -> byte_at (pre ++ x :: rest) k = Some x.
Proof.
  intros ->. unfold byte_at, aget_chk, aget.
  assert (in_arr (pre ++ x :: rest) (Z.of_nat (length pre)) = true) as ->
    by (apply in_arr_true; rewrite length_app; cbn [length]; lia).
  rewrite Nat2Z.id, list_lookup_middle by done. done.
Qed.

(** Bytes put together. *)
Lemma shiftl_lor a b w : 0 <= w -> 0 <= b < 2 ^ w -> Z.lor (Z.shiftl a w) b = a * 2 ^ w + b.
Proof.
  intros Hw Hb. rewrite <- Z.shiftl_mul_pow2 by lia.
  rewrite <- Z.add_lor_land. rewrite <- (Z.add_0_r (Z.lor _ _)) at 1. f_equal. symmetry.
  apply Z.bits_inj_0. intros j. rewrite Z.land_spec.
  destruct (Z.ltb_spec j 0); [by rewrite Z.testbit_neg_r|].
  destruct (Z.ltb_spec j w); [by rewrite Z.shiftl_spec_low by lia|].
  replace (Z.testbit b j) with false; [by rewrite andb_false_r|]. symmetry.
  destruct (decide (b = 0)) as [->|]; [apply Z.bits_0|].
  apply Z.bits_above_log2; [lia|]. assert (Z.log2 b < w) by (apply Z.log2_lt_pow2; lia). lia.
Qed.

Lemma half_at_app pre n rest k : k = Z.of_nat (length pre) -> 0 <= n < 65536 ->
  half_at (pre ++ be16 n ++ rest) k = Some n.
Proof.
  intros Hk Hn. unfold half_at, be16. cbn [app]. rewrite (byte_at_app pre (n / 256) _ k Hk). cbn [mbind option_bind].
  replace (pre ++ n / 256 :: n mod 256 :: rest) with ((pre ++ [n / 256]) ++ n mod 256 :: rest)
    by (by rewrite <- app_assoc).
  rewrite byte_at_app by (rewrite length_app; cbn [length]; lia). cbn [mbind option_bind]. f_equal.
  rewrite shiftl_lor by (change (2 ^ 8) with 256; pose proof (Z.mod_pos_bound n 256); lia). change (2 ^ 8) with 256. pose proof (Z.div_mod n 256). lia.
Qed.

Lemma copy_out_app {A} (pre s rest : list A) k n :
  k = Z.of_nat (length pre) -> n = Z.of_nat (length s) -> copy_out (pre ++ s ++ rest) k n = Some s.
Proof.
  intros -> ->. rewrite copy_out_ok; [|lia|lia|rewrite !length_app; lia].
  rewrite !Nat2Z.id, drop_app_length, take_app_length. done.
Qed.

Lemma magic_loop_bytes n : forall pre i rest k, 0 <= i -> k = Z.of_nat (length pre) ->
  magic_loop (pre ++ magic_bytes n i ++ rest) n i k = Some (inr (k + Z.of_nat n)).
Proof.
  induction n as [|n IH]; intros pre i rest k Hi Hk; cbn [magic_loop magic_bytes app].
  { f_equal. f_equal. lia. }
  rewrite byte_at_app by done. cbn [mbind option_bind].
  assert (i mod 2 = 0 \/ i mod 2 = 1) as Hm by (pose proof (Z.mod_pos_bound i 2); lia).
  match goal with |- (if ?b then _ else _) = _ => assert (b = false) as -> end.
  { destruct Hm as [-> | ->]; reflexivity. }
  match goal with |- magic_loop (pre ++ ?x :: ?l) _ _ _ = _ =>
    replace (pre ++ x :: l) with ((pre ++ [x]) ++ l) by (by rewrite <- app_assoc) end.
  rewrite IH; [f_equal; f_equal; lia|lia|rewrite length_app; cbn [length]; lia].
Qed.

Lemma parse_name_enc pre tag s rest k : k = Z.of_nat (length pre) -> name_ok s ->
  parse_name (pre ++ enc_name tag s ++ rest) tag true k = Some (Name s (k + 3 + Z.of_nat (length s))).
Proof.
  intros Hk [Hl Hlast]. unfold parse_name, enc_name. cbn [app]. rewrite byte_at_app by done.
  cbn [mbind option_bind]. rewrite Z.eqb_refl. cbn [negb]. rewrite <- app_assoc.
  replace (pre ++ tag :: be16 (Z.of_nat (length s)) ++ s ++ rest)
    with ((pre ++ [tag]) ++ be16 (Z.of_nat (length s)) ++ s ++ rest) by (by rewrite <- app_assoc).
  rewrite half_at_app by (rewrite ?length_app; cbn [length]; lia). cbn [mbind option_bind].
  rewrite (app_assoc (pre ++ [tag])).
  rewrite copy_out_app by (rewrite ?length_app; cbn [length be16]; lia). cbn [mbind option_bind].
  unfold aget_chk, aget. assert (in_arr s (Z.of_nat (length s) - 1) = true) as -> by (apply in_arr_true; lia).
  rewrite last_lookup in Hlast. replace (Z.to_nat (Z.of_nat (length s) - 1)) with (pred (length s)) by lia.
  rewrite Hlast. done.
Qed.

(** The same with the decomposition as an equation. *)
Section Decompositions.
Context (D : list Z).

Lemma byte_at_eq pre x rest k :
  D = pre ++ x :: rest -> k = Z.of_nat (length pre) -> byte_at D k = Some x.
Proof. intros ->. apply byte_at_app. Qed.

Lemma half_at_eq pre n rest k :
  D = pre ++ be16 n ++ rest -> k = Z.of_nat (length pre) -> 0 <= n < 65536 -> half_at D k = Some n.
Proof. intros ->. apply half_at_app. Qed.

Lemma magic_loop_eq pre n rest k :
  D = pre ++ magic_bytes n 0 ++ rest -> k = Z.of_nat (length pre) ->
  magic_loop D n 0 k = Some (inr (k + Z.of_nat n)).
Proof. intros ->. by apply magic_loop_bytes. Qed.

Lemma parse_name_eq pre tag s rest k :
  D = pre ++ enc_name tag s ++ rest -> k = Z.of_nat (length pre) -> name_ok s ->
  parse_name D tag true k = Some (Name s (k + 3 + Z.of_nat (length s))).
Proof. intros ->. apply parse_name_enc. Qed.
End Decompositions.

Lemma length_enc_name tag s : length (enc_name tag s) = (3 + length s)%nat.
Proof. unfold enc_name. cbn [length]. rewrite length_app. done. Qed.

Lemma length_magic_bytes n : forall i, length (magic_bytes n i) = n.
Proof. induction n as [|n IH]; intros i; cbn [magic_bytes length]; [done|]. by rewrite IH. Qed.

(** Solve the decomposition and length conditions. *)
Ltac decomposed :=
  repeat match goal with x := _ : list Z |- _ => subst x end;
  match goal with
  | |- @eq (list Z) _ _ => unfold be32; rewrite <- ?app_assoc; reflexivity
  | |- _ = Z.of_nat _ =>
      rewrite ?length_app, ?length_enc_name, ?length_magic_bytes; cbn [length be16]; lia
  | _ => done || lia
  end.



(** An empty name: the byte before the name is read. *)
Example parse_header_empty_name :
  xrt_xclbin_parse_header ([0; 1; 0; 0; 1; 97; 0; 0] ++ replicate 64 0) (true, true, true, true)
    (mk_bit_header 0 0 None None None None 0) = None.
Proof. vm_compute. reflexivity. Qed.

(** A truncated file: the length of the buffer is not looked at, and the read
    leaves it. *)
Example parse_header_truncated :
  xrt_xclbin_parse_header [0; 9; 15; 240] (true, true, true, true)
    (mk_bit_header 0 0 None None None None 0) = None.
Proof. vm_compute. reflexivity. Qed.

(** ** Lemmas on the sections *)

(** The header announces no more sections than there are, the file is as long as
    it says, and the fields are in their width. *)
Definition section_ok (s : axlf_section_header) : Prop :=
  0 <= m_sectionOffset s < 2 ^ 64 /\ 0 <= m_sectionSize s < 2 ^ 64.

Definition axlf_ok (x : axlf) : Prop :=
  0 <= m_numSections x <= Z.of_nat (length (m_sections x)) /\
  0 <= m_length x <= Z.of_nat (length (ax_bytes x)) /\ m_length x < 2 ^ 64 /\
  Forall section_ok (m_sections x).

(** The sections that are announced. *)
Definition announced (x : axlf) : list axlf_section_header :=
  take (Z.to_nat (m_numSections x)) (m_sections x).

(** The indices of the sections of a kind among [n] of them from [i]. *)
Definition kind_indices_from (x : axlf) (kind i n : Z) : list Z :=
  filter (fun j => m_sectionKind <$> m_sections x !! Z.to_nat j = Some kind) (seqZ i n).
Definition kind_indices (x : axlf) (kind : Z) : list Z := kind_indices_from x kind 0 (m_numSections x).

(** What the caller of [xrt_xclbin_get_section_hdr_next] does: from NULL until
    NULL. *)
Fixpoint walk_sections (x : axlf) (kind : Z) (fuel : nat) (cur : option Z) : option (list Z) :=
  match fuel with
  | O => None
  | S fuel =>
      r ← xrt_xclbin_get_section_hdr_next x kind cur;
      match r with
      | None => Some []
      | Some i => l ← walk_sections x kind fuel (Some i); Some (i :: l)
      end
  end.

Section Sections.
Context (x : axlf) (kind : Z).

Lemma section_at_ok i : 0 <= i < Z.of_nat (length (m_sections x)) ->
  exists s, section_at x i = Some s /\ m_sections x !! Z.to_nat i = Some s.
Proof.
  intros Hi. unfold section_at, aget_chk, aget.
  assert (in_arr (m_sections x) i = true) as -> by by apply in_arr_true.
  destruct (m_sections x !! Z.to_nat i) eqn:E; [by eexists|].
  apply lookup_ge_None in E. lia.
Qed.

Lemma check_section_hdr_spec s len : section_ok s -> 0 <= len < 2 ^ 64 ->
  xrt_xclbin_check_section_hdr s len =
  if len <? m_sectionOffset s + m_sectionSize s then - EINVAL else 0.
Proof.
  intros [Ho Hs] Hl. unfold xrt_xclbin_check_section_hdr.
  destruct (Z.ltb_spec (m_sectionOffset s + m_sectionSize s) (2 ^ 64)) as [H|H].
  - rewrite u64_small by lia. destruct (Z.ltb_spec (m_sectionOffset s + m_sectionSize s) (m_sectionOffset s)); [lia|].
    done.
  - assert (u64 (m_sectionOffset s + m_sectionSize s) = m_sectionOffset s + m_sectionSize s - 2 ^ 64) as ->.
    { unfold u64. symmetry. apply Z.mod_unique with 1; lia. }
    rewrite (proj2 (Z.ltb_lt _ (m_sectionOffset s))) by lia. cbn [orb].
    by rewrite (proj2 (Z.ltb_lt len _)) by lia.
Qed.

Lemma find_section_spec n : forall i, 0 <= i -> i + Z.of_nat n <= Z.of_nat (length (m_sections x)) ->
  find_section x kind n i =
  Some match list_find (fun s => m_sectionKind s = kind) (take n (drop (Z.to_nat i) (m_sections x))) with
       | None => None
       | Some (k, s) => if z2b (xrt_xclbin_check_section_hdr s (m_length x)) then None
                        else Some (i + Z.of_nat k)
       end.
Proof.
  induction n as [|n IH]; intros i Hi Hn; [done|]. cbn [find_section].
  destruct (section_at_ok i) as (s & -> & Hs); [lia|]. cbn [mbind option_bind].
  rewrite (drop_S _ _ _ Hs). cbn [take list_find].
  destruct (decide (m_sectionKind s = kind)) as [Hk|Hk].
  - rewrite (proj2 (Z.eqb_eq _ _) Hk). by rewrite Z.add_0_r.
  - rewrite (proj2 (Z.eqb_neq _ _) Hk), IH by lia. replace (Z.to_nat (i + 1)) with (S (Z.to_nat i)) by lia.
    destruct (list_find _ _) as [[k s']|]; cbn; [|done]. destruct (z2b _); [done|]. do 2 f_equal. lia.
Qed.

Lemma kind_indices_cons i n : 0 < n ->
  kind_indices_from x kind i n =
  if decide (m_sectionKind <$> m_sections x !! Z.to_nat i = Some kind)
  then i :: kind_indices_from x kind (i + 1) (n - 1) else kind_indices_from x kind (i + 1) (n - 1).
Proof. intros Hn. unfold kind_indices_from. rewrite seqZ_cons, filter_cons by done. done. Qed.

Lemma kind_indices_ge i n j : j ∈ kind_indices_from x kind i n -> i <= j < i + n.
Proof. unfold kind_indices_from. rewrite list_elem_of_filter, elem_of_seqZ. lia. Qed.

(** One step of a loop over the sections: the kind of section [i] decides. *)
Lemma kind_step i n : 0 <= i -> i + Z.of_nat (S n) <= Z.of_nat (length (m_sections x)) ->
  exists s, section_at x i = Some s /\
  kind_indices_from x kind i (Z.of_nat (S n)) =
  if m_sectionKind s =? kind then i :: kind_indices_from x kind (i + 1) (Z.of_nat n)
  else kind_indices_from x kind (i + 1) (Z.of_nat n).
Proof.
  intros Hi Hn. destruct (section_at_ok i) as (s & Hs & Hl); [lia|]. exists s. split; [done|].
  rewrite kind_indices_cons by lia. replace (Z.of_nat (S n) - 1) with (Z.of_nat n) by lia. rewrite Hl. cbn.
  destruct (Z.eqb_spec (m_sectionKind s) kind), (decide (Some (m_sectionKind s) = Some kind)); congruence.
Qed.

Lemma count_sections_spec n : forall i cnt, 0 <= i ->
  i + Z.of_nat n <= Z.of_nat (length (m_sections x)) ->
  count_sections x kind n i cnt =
  Some (cnt + Z.of_nat (length (kind_indices_from x kind i (Z.of_nat n)))).
Proof.
  induction n as [|n IH]; intros i cnt Hi Hn; [exact (f_equal Some (eq_sym (Z.add_0_r cnt)))|].
  cbn [count_sections].
  destruct (kind_step i n) as (s & -> & ->); [lia..|]. cbn [mbind option_bind]. rewrite IH by lia.
  destruct (_ =? _); cbn [length]; f_equal; lia.
Qed.

(** After the current section: the next of the kind. *)
Lemma next_section_after cur n : forall i, 0 <= i ->
  i + Z.of_nat n <= Z.of_nat (length (m_sections x)) ->
  next_section x kind cur n i true (-1) = Some (head (kind_indices_from x kind i (Z.of_nat n))).
Proof.
  induction n as [|n IH]; intros i Hi Hn; [done|]. cbn [next_section].
  destruct (kind_step i n) as (s & -> & ->); [lia..|]. cbn [mbind option_bind].
  destruct (_ =? _); [done|]. apply IH; lia.
Qed.

(** From NULL: the first of the kind. *)
Lemma next_section_null n : forall i found, 0 <= i ->
  i + Z.of_nat n <= Z.of_nat (length (m_sections x)) ->
  next_section x kind None n i false found =
  Some (if found <? 0 then head (kind_indices_from x kind i (Z.of_nat n)) else Some found).
Proof.
  induction n as [|n IH]; intros i found Hi Hn; [done|]. cbn [next_section].
  destruct (kind_step i n) as (s & -> & ->); [lia..|]. cbn [mbind option_bind].
  rewrite bool_decide_eq_false_2 by done.
  destruct (_ =? _); rewrite IH by lia; [|done].
  destruct (Z.ltb_spec found 0); [by rewrite (proj2 (Z.ltb_ge i 0)) by lia|].
  by rewrite (proj2 (Z.ltb_ge found 0)) by lia.
Qed.

(** From a section of the kind: the next one. *)
Lemma next_section_from n : forall i found l1 c l2, 0 <= i ->
  i + Z.of_nat n <= Z.of_nat (length (m_sections x)) ->
  kind_indices_from x kind i (Z.of_nat n) = l1 ++ c :: l2 ->
  next_section x kind (Some c) n i false found = Some (head l2).
Proof.
  induction n as [|n IH]; intros i found l1 c l2 Hi Hn; [by destruct l1|]. cbn [next_section].
  destruct (kind_step i n) as (s & -> & ->); [lia..|]. cbn [mbind option_bind].
  destruct (_ =? _); [|by apply IH; lia]. destruct l1 as [|j l1]; cbn [app]; intros [= <- Hr].
  - rewrite bool_decide_eq_true_2 by done. rewrite next_section_after by lia. by rewrite Hr.
  - rewrite bool_decide_eq_false_2; [by eapply IH; eauto; lia|]. intros [= ->].
    assert (i ∈ kind_indices_from x kind (i + 1) (Z.of_nat n)) as Hin%kind_indices_ge; [|lia].
    rewrite Hr. set_solver.
Qed.

(** The walk goes through what is left of the indices. *)
Lemma walk_sections_from fuel : forall l1 c l2, axlf_ok x ->
  kind_indices x kind = l1 ++ c :: l2 -> (length l2 < fuel)%nat ->
  walk_sections x kind fuel (Some c) = Some l2.
Proof.
  induction fuel as [|fuel IH]; intros l1 c l2 Hok Hk Hf; [lia|]. cbn [walk_sections].
  destruct Hok as [Hn Hok]. unfold xrt_xclbin_get_section_hdr_next.
  rewrite (next_section_from _ 0 (-1) l1 c l2); [|lia|lia|by rewrite Z2Nat.id by lia]. cbn [mbind option_bind].
  destruct l2 as [|d l2]; [done|]. cbn [head]. cbn [length] in Hf.
  rewrite (IH (l1 ++ [c]) d l2); [done|done|by rewrite <- app_assoc|lia].
Qed.
End Sections.

(** [xrt_xclbin_get_section] on a file that is as long as its header says
    returns exactly the bytes of the first announced section of the kind when
    that section lies inside the file, and an error otherwise: the sum of offset
    and size may wrap around, and no byte outside the file is read. *)
Theorem xrt_xclbin_get_section_spec x kind alloc : axlf_ok x ->
  xrt_xclbin_get_section x kind alloc =
  Some (if XCLBIN_MAX_NUM_SECTION <? m_numSections x then inl (- EINVAL)
        else match list_find (fun s => m_sectionKind s = kind) (announced x) with
             | None => inl (- EINVAL)
             | Some (_, s) =>
                 if m_length x <? m_sectionOffset s + m_sectionSize s then inl (- EINVAL)
                 else if alloc
                 then inr (take (Z.to_nat (m_sectionSize s)) (drop (Z.to_nat (m_sectionOffset s)) (ax_bytes x)))
                 else inl (- ENOMEM)
             end).
Proof.
  intros (Hn & Hl & Hl64 & Hs). unfold xrt_xclbin_get_section, xrt_xclbin_section_info, xrt_xclbin_get_section_hdr.
  destruct (_ <? _); [done|]. rewrite find_section_spec by lia. cbn [drop Z.to_nat mbind option_bind]. fold (announced x).
  destruct (list_find _ _) as [[k s]|] eqn:Ef; [|done].
  apply list_find_Some in Ef as (Hlk & _ & _). apply lookup_take_Some in Hlk as [Hlk Hk].
  change (drop (Z.to_nat 0) (m_sections x)) with (m_sections x) in Hlk.
  assert (section_ok s) as Hsok by by eapply Forall_lookup_1.
  rewrite check_section_hdr_spec by lia || done.
  destruct (Z.ltb_spec (m_length x) (m_sectionOffset s + m_sectionSize s)) as [Hlt|Hge]; [done|].
  change (z2b 0) with false. cbn [mbind option_bind].
  destruct (section_at_ok x (Z.of_nat k)) as (s' & Es & Hs').
  { apply lookup_lt_Some in Hlk. lia. }
  rewrite Nat2Z.id, Hlk in Hs'. injection Hs' as <-. rewrite Z.add_0_l, Es. cbn [mbind option_bind].
  rewrite check_section_hdr_spec by lia || done. rewrite (proj2 (Z.ltb_ge _ _) Hge).
  change (z2b 0) with false. cbn [negb mbind option_bind].
  destruct alloc; [|done]. cbn [negb]. destruct Hsok. rewrite copy_out_ok by lia. done.
Qed.

(** Going through the sections of a kind with
    [xrt_xclbin_get_section_hdr_next], from NULL until it returns NULL, visits
    every announced section of that kind once, in the order of the file, and
    ends; [xrt_xclbin_get_section_num] is how many there are. *)
Theorem xrt_xclbin_walk_sections x kind : axlf_ok x ->
  walk_sections x kind (S (length (kind_indices x kind))) None = Some (kind_indices x kind) /\
  xrt_xclbin_get_section_num x kind = Some (Z.of_nat (length (kind_indices x kind))).
Proof.
  intros Hok. assert (Hn := proj1 Hok). split.
  - cbn [walk_sections]. unfold xrt_xclbin_get_section_hdr_next.
    rewrite next_section_null by lia. rewrite Z2Nat.id by lia. fold (kind_indices x kind). cbn [Z.ltb Z.compare mbind option_bind].
    destruct (kind_indices x kind) as [|c l] eqn:E; [done|]. cbn [head length].
    rewrite (walk_sections_from x kind _ [] c l); [done|done|done|lia].
  - unfold xrt_xclbin_get_section_num. rewrite count_sections_spec by lia.
    rewrite Z2Nat.id by lia. done.
Qed.

(** Three sections, the last one beyond the end by a wrap-around. *)
Definition ex_axlf : axlf :=
  mk_axlf 4 8 [mk_section 6 0 2; mk_section 8 2 3; mk_section 6 5 3; mk_section 9 (2 ^ 64 - 1) 5]
    [10; 11; 12; 13; 14; 15; 16; 17].

Lemma ex_axlf_ok : axlf_ok ex_axlf.
Proof.
  unfold axlf_ok, ex_axlf. cbn [m_numSections m_length m_sections ax_bytes length].
  split_and!; try lia. repeat apply Forall_cons_2; try apply Forall_nil_2; unfold section_ok; cbn [m_sectionOffset m_sectionSize]; lia.
Qed.

Lemma xrt_xclbin_get_section_spec_witness :
  xrt_xclbin_get_section ex_axlf 8 true = Some (inr [12; 13; 14]) /\
  xrt_xclbin_get_section ex_axlf 9 true = Some (inl (- EINVAL)) /\
  xrt_xclbin_get_section ex_axlf 7 true = Some (inl (- EINVAL)) /\
  xrt_xclbin_get_section ex_axlf 6 false = Some (inl (- ENOMEM)).
Proof.
  rewrite !xrt_xclbin_get_section_spec by apply ex_axlf_ok. vm_compute. repeat split.
Defined.

Lemma xrt_xclbin_walk_sections_witness :
  walk_sections ex_axlf 6 3 None = Some [0; 2] /\ xrt_xclbin_get_section_num ex_axlf 6 = Some 2.
Proof.
  assert (kind_indices ex_axlf 6 = [0; 2]) as E by (vm_compute; reflexivity).
  destruct (xrt_xclbin_walk_sections ex_axlf 6 ex_axlf_ok) as [H1 H2]. rewrite E in H1, H2. by split.
Defined.
