(* ===== verification/ErtCu.v ===== *)
(** * Embedded scheduler: commands and CUs

    [ert/scheduler] of the runtime: the firmware at the other end of an XGQ.
    [sched_cmd.h], [sched_cu.h] and [xgq_cu.c]: the command in hand, the status
    of a CU, and the handler of one queue with its CU.

    A register address is cut to 32 bits ([reg_read], [reg_write]).  The command
    queue memory and the interrupt registers are one map ([shared]); the
    registers of the CUs are behind other addresses and are any device ([Mmio]).
    Two arguments describe the build and the moment: [echo] is the echo mode of
    a developer build; [polls] is what the host does to the shared memory each
    time the firmware finds the completion ring full. *)
From S2P Require Import Prelude KdsCommand CuCore Xgq XoclXgq.

Definition XGQ_CMD_OP_INIT_CUIDX_KV : Z := 0x106.
Definition ENOTTY : Z := 25.

(** The build of [xgq_mb_plat.h]. *)
Definition mb_build : xgq_build := mk_build true false true false.

Definition reg_read (m : shared) (addr : Z) : Z := Xgq.ioread32 m (u32 addr).
Definition reg_write (m : shared) (addr val : Z) : shared := Xgq.iowrite32 m (u32 addr) val.

(** ** [sched_cmd.h] *)

Record sched_cmd := mk_sched_cmd {
  cc_addr : Z;
  cc_cached : bool;
  cc_header0 : Z;
  cc_header1 : Z;
}.
#[export] Instance eta_sched_cmd : Eta sched_cmd := fun c =>
  mk_sched_cmd (cc_addr c) (cc_cached c) (cc_header0 c) (cc_header1 c).

Definition cmd_load_header (m : shared) (cmd : sched_cmd) : sched_cmd :=
  cmd <| cc_header0 := reg_read m (cc_addr cmd) |>.
Definition cmd_clear_header (m : shared) (cmd : sched_cmd) (write_back : bool) : sched_cmd * shared :=
  (cmd <| cc_header0 := 0 |>, if write_back then reg_write m (cc_addr cmd) 0 else m).
Definition cmd_payload_size (cmd : sched_cmd) : Z := field (cc_header0 cmd) 16 15.
Definition cmd_op_code (cmd : sched_cmd) : Z := field (cc_header0 cmd) 0 16.
Definition cmd_set_addr (cmd : sched_cmd) (addr : Z) : sched_cmd := cmd <| cc_addr := addr |>.
Definition cmd_is_valid (cmd : sched_cmd) : bool := z2b (field (cc_header0 cmd) 31 1).

(** Address and size of the arguments; [struct xgq_cmd_start_cuidx] and
    [struct xgq_cmd_start_cuidx_kv] are a header of 8 bytes and the first word. *)
Definition cmd_args (cmd : sched_cmd) : Z * Z := (u64 (cc_addr cmd + 8), u32 (cmd_payload_size cmd - (12 - 8 - 4))).
Definition cmd_kv_args (cmd : sched_cmd) : Z * Z := (u64 (cc_addr cmd + 8), u32 (cmd_payload_size cmd - (12 - 8 - 4))).

Definition cmd_load_cu_index (m : shared) (cmd : sched_cmd) : Z * sched_cmd :=
  let cmd := if negb (cc_cached cmd)
             then cmd <| cc_header1 := reg_read m (u64 (cc_addr cmd + 4)) |> <| cc_cached := true |>
             else cmd in
  (field (cc_header1 cmd) 16 12, cmd).

(** ** [sched_cu.h] *)

Definition SCHED_AP_START : Z := Z.shiftl 1 0.
Definition SCHED_AP_DONE : Z := Z.shiftl 1 1.
Definition SCHED_AP_IDLE : Z := Z.shiftl 1 2.
Definition SCHED_AP_READY : Z := Z.shiftl 1 3.
Definition SCHED_AP_CONTINUE : Z := Z.shiftl 1 4.
Definition SCHED_AP_WAIT_FOR_INPUT : Z := Z.lor SCHED_AP_READY SCHED_AP_IDLE.
Definition SCHED_CU_ARG_OFFSET : Z := 0x10.

Record sched_cu := mk_sched_cu {
  cu_addr : Z;
  cu_status : Z;
}.
#[export] Instance eta_sched_cu : Eta sched_cu := fun c => mk_sched_cu (cu_addr c) (cu_status c).

Definition cu_set_status (cu : sched_cu) (flags : Z) : sched_cu :=
  cu <| cu_status := Z.lor (cu_status cu) flags |>.
Definition cu_clear_status (cu : sched_cu) (flags : Z) : sched_cu :=
  cu <| cu_status := Z.ldiff (cu_status cu) flags |>.
Definition cu_has_status (cu : sched_cu) (flags : Z) : bool := z2b (Z.land (cu_status cu) flags).
Definition cu_set_addr (cu : sched_cu) (addr : Z) : sched_cu := cu <| cu_addr := addr |>.

Section Firmware.
Context {H : Type} `{Mmio H}.

(** Registers of the CUs. *)
Definition cu_reg_read (hw : H) (addr : Z) : Z * H := CuCore.ioread32 hw (u32 addr).
Definition cu_reg_write (hw : H) (addr val : Z) : H := CuCore.iowrite32 hw (u32 addr) val.

Definition cu_load_status (hw : H) (cu : sched_cu) : Z * sched_cu * H :=
  let '(v, hw) := cu_reg_read hw (cu_addr cu) in
  let v := if cu_has_status cu SCHED_AP_START && negb (z2b (Z.land v SCHED_AP_START))
           then Z.lor v SCHED_AP_READY else v in
  (v, cu_set_status cu v, hw).

Definition cu_init (hw : H) (cu : sched_cu) (addr : Z) : sched_cu * H :=
  let '(_, cu, hw) := cu_load_status hw (mk_sched_cu addr 0) in (cu, hw).

(** [n] words from [src] on to the registers from [dst] on. *)
Fixpoint save_args (m : shared) (hw : H) (dst src : Z) (n : nat) : H :=
  match n with
  | O => hw
  | S n => save_args m (cu_reg_write hw dst (reg_read m src)) (u64 (dst + 4)) (u64 (src + 4)) n
  end.

Definition cu_start (m : shared) (hw : H) (cu : sched_cu) (cmd : sched_cmd) : Z * sched_cu * H :=
  let dst := u64 (cu_addr cu + SCHED_CU_ARG_OFFSET) in
  let '(src, arg_sz) := cmd_args cmd in
  if z2b (Z.land arg_sz (4 - 1)) then (- EINVAL, cu, hw)
  else
    let hw := save_args m hw dst src (Z.to_nat (arg_sz / 4)) in
    let hw := cu_reg_write hw (cu_addr cu) SCHED_AP_START in
    (0, cu_clear_status (cu_set_status cu SCHED_AP_START) SCHED_AP_WAIT_FOR_INPUT, hw).

(** [n] pairs of offset and value. *)
Fixpoint save_kv_args (m : shared) (hw : H) (dst src : Z) (n : nat) : H :=
  match n with
  | O => hw
  | S n =>
      save_kv_args m (cu_reg_write hw (u64 (dst + reg_read m src)) (reg_read m (u64 (src + 4)))) dst
        (u64 (src + 8)) n
  end.

Definition cu_init_kv (m : shared) (hw : H) (cu : sched_cu) (cmd : sched_cmd) : Z * H :=
  let '(src, arg_sz) := cmd_kv_args cmd in
  if z2b (Z.land arg_sz (4 * 2 - 1)) then (- EINVAL, hw)
  else (0, save_kv_args m hw (cu_addr cu) src (Z.to_nat (arg_sz / 8))).

Definition cu_start_kv (m : shared) (hw : H) (cu : sched_cu) (cmd : sched_cmd) : Z * sched_cu * H :=
  let '(ret, hw) := cu_init_kv m hw cu cmd in
  if z2b ret then (ret, cu, hw)
  else
    let hw := cu_reg_write hw (cu_addr cu) SCHED_AP_START in
    (0, cu_clear_status (cu_set_status cu SCHED_AP_START) SCHED_AP_WAIT_FOR_INPUT, hw).

Definition cu_done (hw : H) (cu : sched_cu) : sched_cu * H :=
  (cu_clear_status cu SCHED_AP_DONE, cu_reg_write hw (cu_addr cu) SCHED_AP_CONTINUE).

(** ** [xgq_cu.c] *)

(** The handler with the queue and the CU its pointers lead to. *)
Record xgq_cu := mk_xgq_cu {
  xc_q : xgq;
  xc_cu : sched_cu;
  xc_cmd : sched_cmd;
  xc_cmd_running : Z;
  xc_offset : Z;
  xc_xgq_id : Z;
  xc_csr_reg : Z;
}.
#[export] Instance eta_xgq_cu : Eta xgq_cu := fun x =>
  mk_xgq_cu (xc_q x) (xc_cu x) (xc_cmd x) (xc_cmd_running x) (xc_offset x) (xc_xgq_id x) (xc_csr_reg x).

Definition xgq_cu_interrupt_trigger (m : shared) (xc : xgq_cu) (xgq_id : Z) : shared :=
  reg_write m (xc_csr_reg xc) (u32 (Z.shiftl 1 xgq_id)).

Definition xgq_cu_init (xc : xgq_cu) (q : xgq) (cu : sched_cu) : xgq_cu :=
  xc <| xc_q := q |> <| xc_cu := cu_set_status cu SCHED_AP_IDLE |> <| xc_cmd_running := 0 |>
     <| xc_cmd ::= fun cmd => cmd_set_addr cmd 0 <| cc_header0 := 0 |> |>.

(** [while (xgq_produce(...)) continue]; [None]: an accessor failed, or the ring
    is still full at the end of [polls]. *)
Fixpoint wait_produce (polls : list (shared -> shared)) (m : shared) (q : xgq)
  : option (Z * xgq * shared) :=
  r ← xgq_produce mb_build m q;
  let '(_, slot, q) := r in
  match slot with
  | Some addr => Some (addr, q, m)
  | None => match polls with
            | [] => None
            | host :: polls => wait_produce polls (host m) q
            end
  end.

Definition xgq_cu_complete_cmd (polls : list (shared -> shared)) (m : shared) (xc : xgq_cu)
  : option (xgq_cu * shared) :=
  p ← wait_produce polls m (xc_q xc);
  let '(_, q, m) := p in
  let xc := xc <| xc_q := q |> in
  let m := xgq_notify_peer_produced mb_build m (xc_q xc) in
  let m := xgq_cu_interrupt_trigger m xc (xc_xgq_id xc) in
  Some (xc <| xc_cmd_running := u32 (xc_cmd_running xc - 1) |>, m).

(** Taking the next command into the empty hand. *)
Definition take_cmd (m : shared) (xc : xgq_cu) : option (xgq_cu * shared) :=
  if cmd_is_valid (xc_cmd xc) then Some (xc, m)
  else
    r ← xgq_consume mb_build m (xc_q xc);
    let '(_, slot, q, m) := r in
    let xc := xc <| xc_q := q |> in
    Some (match slot with
          | Some addr => xc <| xc_cmd ::= fun cmd => cmd_load_header m (cmd_set_addr cmd addr) |>
          | None => xc
          end, m).

(** Looking at the CU, and answering when it is done. *)
Definition poll_cu (echo : bool) (polls : list (shared -> shared)) (m : shared) (hw : H) (xc : xgq_cu)
  : option (xgq_cu * shared * H) :=
  if z2b (xc_cmd_running xc) ||
     (cmd_is_valid (xc_cmd xc) && negb (cu_has_status (xc_cu xc) SCHED_AP_WAIT_FOR_INPUT))
  then
    let '(cu, hw) :=
      if negb echo then let '(_, cu, hw) := cu_load_status hw (xc_cu xc) in (cu, hw)
      else (cu_set_status (cu_set_status (xc_cu xc) SCHED_AP_DONE) SCHED_AP_WAIT_FOR_INPUT, hw) in
    if cu_has_status cu SCHED_AP_DONE then
      let '(cu, hw) := if negb echo then cu_done hw cu else (cu_clear_status cu SCHED_AP_DONE, hw) in
      r ← xgq_cu_complete_cmd polls m (xc <| xc_cu := cu |>); Some (r.1, r.2, hw)
    else Some (xc <| xc_cu := cu |>, m, hw)
  else Some (xc, m, hw).

(** Starting the CU with the command in hand: return code, CU, registers. *)
Definition start_cmd (echo : bool) (m : shared) (hw : H) (cu : sched_cu) (cmd : sched_cmd)
  : Z * sched_cu * H :=
  let started := (0, cu_clear_status (cu_set_status cu SCHED_AP_START) SCHED_AP_WAIT_FOR_INPUT, hw) in
  if cmd_op_code cmd =? XGQ_CMD_OP_START_CUIDX then
    if negb echo then cu_start m hw cu cmd else started
  else if cmd_op_code cmd =? XGQ_CMD_OP_START_CUIDX_KV then
    if negb echo then cu_start_kv m hw cu cmd else started
  else if cmd_op_code cmd =? XGQ_CMD_OP_INIT_CUIDX_KV then
    if negb echo then let '(rc, hw) := cu_init_kv m hw cu cmd in (rc, cu, hw) else (0, cu, hw)
  else (- ENOTTY, cu, hw).

(** Return code, handler, memory, registers; [polls1] and [polls2] are for the
    answer to a command that has run and to one that has failed.  In echo mode
    [rc] keeps the result of [xgq_consume] for [XGQ_CMD_OP_INIT_CUIDX_KV]; it is
    0 there. *)
Definition xgq_cu_process (echo : bool) (polls1 polls2 : list (shared -> shared)) (m : shared) (hw : H)
  (xc : xgq_cu) : option (Z * xgq_cu * shared * H) :=
  t ← take_cmd m xc;
  let '(xc, m) := t in
  p ← poll_cu echo polls1 m hw xc;
  let '(xc, m, hw) := p in
  if negb (cmd_is_valid (xc_cmd xc)) || negb (cu_has_status (xc_cu xc) SCHED_AP_WAIT_FOR_INPUT)
  then Some (- EBUSY, xc, m, hw)
  else
    let '(rc, cu, hw) := start_cmd echo m hw (xc_cu xc) (xc_cmd xc) in
    let m := xgq_notify_peer_consumed mb_build m (xc_q xc) in
    let xc := xc <| xc_cu := cu |> <| xc_cmd ::= fun cmd => (cmd_clear_header m cmd false).1 |> in
    if rc =? 0 then Some (rc, xc <| xc_cmd_running := u32 (xc_cmd_running xc + 1) |>, m, hw)
    else r ← xgq_cu_complete_cmd polls2 m xc; Some (rc, r.1, r.2, hw).
End Firmware.
