(* ===== verification/ErtCuProof.v ===== *)
(** * Embedded scheduler: the handler of a CU queue

    Between the queue and a CU of the chain protocol: the counter of running
    commands is the number of tasks on the CU, and what has been taken from the
    queue and not been answered is running or in hand. *)
From S2P Require Import Prelude KdsCommand CuCore CuHls Xgq XoclXgq ErtCu.

(** ** The CU

    What the firmware relies on of a CU with the [ap_ctrl_chain] protocol at
    address [base]: [ch_flight] tasks have been started and not been
    acknowledged, [ch_start] says that the start bit is set, [ch_done] that the
    done bit is.  The CU moves by itself ([ch_step]), also while it is read. *)
Class ApCtrlChain (H : Type) `{Mmio H} (base : Z) := {
  ch_flight : H -> Z;
  ch_start : H -> bool;
  ch_done : H -> bool;
  ch_step : H -> H -> Prop;
  ch_flight_bound h : 0 <= ch_flight h < 2 ^ 32 - 1;
  ch_done_flight h : ch_done h = true -> 1 <= ch_flight h;
  ch_step_ok h h' : ch_step h h' ->
    ch_flight h' = ch_flight h /\ (ch_start h = false -> ch_start h' = false) /\
    (ch_done h = true -> ch_done h' = true);
  ch_read h v h' : CuCore.ioread32 h base = (v, h') ->
    ch_flight h' = ch_flight h /\ (ch_start h = false -> ch_start h' = false) /\
    (z2b (Z.land v SCHED_AP_START) = false \/ z2b (Z.land v SCHED_AP_WAIT_FOR_INPUT) = true ->
     ch_start h' = false) /\
    (z2b (Z.land v SCHED_AP_DONE) = true -> ch_done h' = true);
  ch_write_start h : ch_start h = false ->
    ch_flight (CuCore.iowrite32 h base SCHED_AP_START) = ch_flight h + 1;
  ch_write_continue h : ch_done h = true ->
    ch_flight (CuCore.iowrite32 h base SCHED_AP_CONTINUE) = ch_flight h - 1 /\
    (ch_start h = false -> ch_start (CuCore.iowrite32 h base SCHED_AP_CONTINUE) = false);
  ch_write_other h a v : a <> base ->
    ch_flight (CuCore.iowrite32 h a v) = ch_flight h /\
    (ch_start h = false -> ch_start (CuCore.iowrite32 h a v) = false);
}.

(** ** Pointers of the queue *)

(** What the firmware has taken from the submission ring and has put into the
    completion ring, modulo [2 ^ 32]. *)
Definition taken (q : xgq) : Z := xr_consumed (cons_ring mb_build q).
Definition answered (q : xgq) : Z := xr_produced (prod_ring mb_build q).

Lemma consume_ptrs m q ret slot q' m' : xgq_consume mb_build m q = Some (ret, slot, q', m') ->
  m' = m /\ answered q' = answered q /\
  taken q' = match slot with Some _ => u32 (taken q + 1) | None => taken q end.
Proof.
  unfold xgq_consume, xgq_can_consume. intros E.
  destruct (negb (xgq_ring_empty _)); cbn [mbind option_bind negb] in E.
  { by injection E as <- <- <- <-. }
  destruct (xgq_ring_read_produced _ _ _ _) as [r|] eqn:Er; [|done]. cbn [mbind option_bind] in E.
  unfold xgq_ring_read_produced in Er. apply bind_Some in Er as (v & _ & [= <-]).
  destruct (negb (xgq_ring_empty _)); cbn [negb mbind option_bind] in E; by injection E as <- <- <- <-.
Qed.

Lemma produce_ptrs m q ret slot q' : xgq_produce mb_build m q = Some (ret, slot, q') ->
  taken q' = taken q /\
  answered q' = match slot with Some _ => u32 (answered q + 1) | None => answered q end.
Proof.
  unfold xgq_produce, xgq_can_produce. intros E.
  destruct (negb (xgq_ring_full _)); cbn [mbind option_bind negb] in E.
  { by injection E as <- <- <-. }
  destruct (xgq_ring_read_consumed _ _ _ _) as [r|] eqn:Er; [|done]. cbn [mbind option_bind] in E.
  unfold xgq_ring_read_consumed in Er. apply bind_Some in Er as (v & _ & [= <-]).
  destruct (negb (xgq_ring_full _)); cbn [negb] in E; by injection E as <- <- <-.
Qed.

Lemma wait_produce_ptrs polls : forall m q addr q' m', wait_produce polls m q = Some (addr, q', m') ->
  taken q' = taken q /\ answered q' = u32 (answered q + 1).
Proof.
  induction polls as [|host polls IH]; intros m q addr q' m' E; cbn [wait_produce] in E;
    apply bind_Some in E as ([[r slot] q1] & Hp & E); apply produce_ptrs in Hp as [H1 H2];
    destruct slot as [a|]; try done; try (injection E as <- <- <-; by rewrite H1, H2).
  apply IH in E as [E1 E2]. by rewrite E1, E2, H1, H2.
Qed.

(** ** Status bits *)

Lemma has_set cu f g : cu_has_status (cu_set_status cu f) g = cu_has_status cu g || z2b (Z.land f g).
Proof.
  unfold cu_has_status, cu_set_status. rproj. rewrite Z.land_lor_distr_l. unfold z2b.
  destruct (Z.eqb_spec (Z.land (cu_status cu) g) 0) as [E|E], (Z.eqb_spec (Z.land f g) 0) as [E'|E'];
    cbn [negb orb]; destruct (Z.eqb_spec (Z.lor (Z.land (cu_status cu) g) (Z.land f g)) 0) as [E2|E2];
    try done; [by rewrite E, E' in E2|apply Z.lor_eq_0_iff in E2; tauto..].
Qed.

Lemma has_clear_same cu f : cu_has_status (cu_clear_status cu f) f = false.
Proof.
  unfold cu_has_status, cu_clear_status. rproj.
  assert (Z.land (Z.ldiff (cu_status cu) f) f = 0) as ->; [|done]. apply Z.bits_inj_0. intros i.
  rewrite Z.land_spec, Z.ldiff_spec. by destruct (Z.testbit f i); rewrite ?andb_false_r.
Qed.

Lemma has_clear_other cu f g : Z.land f g = 0 ->
  cu_has_status (cu_clear_status cu f) g = cu_has_status cu g.
Proof.
  intros E. unfold cu_has_status, cu_clear_status. rproj. f_equal. apply Z.bits_inj. intros i.
  rewrite !Z.land_spec, Z.ldiff_spec. apply (f_equal (fun z => Z.testbit z i)) in E.
  rewrite Z.land_spec, Z.bits_0 in E. destruct (Z.testbit f i), (Z.testbit g i); try done;
    by rewrite ?andb_true_r, ?andb_false_r.
Qed.

Section Handler.
Context {H : Type} `{Mmio H} (base : Z) {L : ApCtrlChain H base}.
Implicit Types (hw : H) (xc : xgq_cu) (m : shared).

(** A command that starts the CU with a block of words. *)
Definition start_cmd_good (cmd : sched_cmd) : Prop :=
  cmd_op_code cmd = XGQ_CMD_OP_START_CUIDX /\ Z.land (cmd_payload_size cmd) 3 = 0.

Record handler_inv hw xc : Prop := {
  hi_running : xc_cmd_running xc = ch_flight hw;
  hi_wait : cu_has_status (xc_cu xc) SCHED_AP_WAIT_FOR_INPUT = true -> ch_start hw = false;
  hi_done : cu_has_status (xc_cu xc) SCHED_AP_DONE = false;
  hi_base : u32 (cu_addr (xc_cu xc)) = base;
  hi_hand : cmd_is_valid (xc_cmd xc) = true -> start_cmd_good (xc_cmd xc);
  hi_count : u32 (taken (xc_q xc) - answered (xc_q xc)) =
             u32 (xc_cmd_running xc + b2z (cmd_is_valid (xc_cmd xc)));
}.

(** The entry at the head of the submission ring is such a command. *)
Definition slot_good m xc : Prop :=
  forall ret addr q' m', xgq_consume mb_build m (xc_q xc) = Some (ret, Some addr, q', m') ->
  let cmd := cmd_load_header m (cmd_set_addr (xc_cmd xc) addr) in
  cmd_is_valid cmd = true /\ start_cmd_good cmd.

Lemma u32_count_succ a b c d : u32 (a - b) = u32 (c + d) ->
  u32 (u32 (a + 1) - b) = u32 (c + (d + 1)) /\ u32 (a - u32 (b + 1)) = u32 (c - 1 + d).
Proof.
  unfold u32. intros E. rewrite Zminus_mod_idemp_l, Zminus_mod_idemp_r. split.
  - replace (a + 1 - b) with (a - b + 1) by lia. replace (c + (d + 1)) with (c + d + 1) by lia.
    by rewrite <- Zplus_mod_idemp_l, E, Zplus_mod_idemp_l.
  - replace (a - (b + 1)) with (a - b - 1) by lia. replace (c - 1 + d) with (c + d - 1) by lia.
    by rewrite <- Zminus_mod_idemp_l, E, Zminus_mod_idemp_l.
Qed.

Lemma take_cmd_inv hw m xc xc' m' : take_cmd m xc = Some (xc', m') -> slot_good m xc ->
  handler_inv hw xc -> handler_inv hw xc' /\ m' = m.
Proof.
  unfold take_cmd. intros E Hs I. destruct (cmd_is_valid (xc_cmd xc)) eqn:Hv; [by injection E as <- <-|].
  apply bind_Some in E as ([[[r slot] q] m1] & Hc & E). pose proof (Hs r) as Hs'.
  pose proof (consume_ptrs _ _ _ _ _ _ Hc) as (-> & Ha & Ht). destruct I. rewrite Hv in hi_count0.
  destruct slot as [addr|]; injection E as <- <-; (split; [|done]).
  - destruct (Hs' _ _ _ Hc) as [Hv' Hg]. split; rproj; try done.
    rewrite Ha, Ht, Hv'. by apply (u32_count_succ _ _ _ (b2z false)).
  - split; rproj; try done; by rewrite ?Ha, ?Ht, ?Hv.
Qed.

Lemma complete_inv polls m xc xc' m' :
  xgq_cu_complete_cmd polls m xc = Some (xc', m') ->
  xc_cu xc' = xc_cu xc /\ xc_cmd xc' = xc_cmd xc /\
  xc_cmd_running xc' = u32 (xc_cmd_running xc - 1) /\
  taken (xc_q xc') = taken (xc_q xc) /\ answered (xc_q xc') = u32 (answered (xc_q xc) + 1).
Proof.
  unfold xgq_cu_complete_cmd. intros E. apply bind_Some in E as ([[a q] m1] & Hp & E).
  injection E as <- <-. apply wait_produce_ptrs in Hp as [H1 H2]. rproj. done.
Qed.

Lemma load_status_inv hw xc v cu hw' : cu_load_status hw (xc_cu xc) = (v, cu, hw') ->
  handler_inv hw xc ->
  ch_flight hw' = ch_flight hw /\ cu_addr cu = cu_addr (xc_cu xc) /\
  (cu_has_status cu SCHED_AP_WAIT_FOR_INPUT = true -> ch_start hw' = false) /\
  (cu_has_status cu SCHED_AP_DONE = true -> ch_done hw' = true).
Proof.
  intros E I. destruct I. unfold cu_load_status, cu_reg_read in E. rewrite hi_base0 in E.
  destruct (CuCore.ioread32 hw base) as [r h] eqn:Er. destruct (ch_read hw r h Er) as (Hf & Hs & Hw & Hd).
  injection E as <- <- <-. split; [done|]. split; [done|]. rewrite !has_set, hi_done0. cbn [orb].
  set (b := cu_has_status (xc_cu xc) SCHED_AP_START && _).
  assert (b = true -> z2b (Z.land r SCHED_AP_START) = false) as Hb.
  { subst b. intros Eb. apply andb_true_iff in Eb as [_ Eb]. by apply negb_true_iff in Eb. }
  split.
  - intros [Hc|Hc]%orb_true_iff; [auto|]. apply Hw. destruct b; [left; by apply Hb|by right].
  - intros Hc. apply Hd. destruct b; [|done]. rewrite Z.land_lor_distr_l in Hc.
    change (Z.land SCHED_AP_READY SCHED_AP_DONE) with 0 in Hc. by rewrite Z.lor_0_r in Hc.
Qed.

Lemma poll_cu_inv polls m hw xc xc' m' hw' :
  poll_cu false polls m hw xc = Some (xc', m', hw') -> handler_inv hw xc -> handler_inv hw' xc'.
Proof.
  intros E I. unfold poll_cu in E. destruct (_ || _); [|by injection E as <- <- <-].
  cbn [negb] in E. destruct (cu_load_status hw (xc_cu xc)) as [[v cu] h] eqn:El.
  destruct (load_status_inv _ _ _ _ _ El I) as (Hf & Hadr & Hw & Hd). destruct I.
  destruct (cu_has_status cu SCHED_AP_DONE) eqn:Ed; cbn [negb] in E.
  - unfold cu_done in E. apply bind_Some in E as ([xc1 m1] & Hc & E). injection E as <- <- <-.
    apply complete_inv in Hc as (Hcu & Hcmd & Hr & Ht & Ha). rproj.
    specialize (Hd eq_refl). pose proof (ch_done_flight h Hd). pose proof (ch_flight_bound h).
    unfold cu_reg_write. rewrite Hadr, hi_base0. destruct (ch_write_continue h Hd) as [Hf' Hs'].
    split; rewrite ?Hcu, ?Hcmd; try done.
    + rewrite Hr, hi_running0, Hf', Hf. apply u32_small. lia.
    + intros Hb. apply Hs', Hw. by rewrite has_clear_other in Hb.
    + apply has_clear_same.
    + by rewrite <- hi_base0, <- Hadr.
    + rewrite Hr, Ht, Ha, hi_running0, <- Hf. rewrite (u32_small (ch_flight h - 1)) by lia.
      apply u32_count_succ. by rewrite hi_count0, hi_running0, Hf.
  - injection E as <- <- <-. split; rproj; try done; [congruence|]. by rewrite Hadr.
Qed.

(** Writing arguments leaves the control register alone. *)
Lemma u32_u64 z : u32 (u64 z) = u32 z.
Proof.
  unfold u32, u64. change (2 ^ 64) with (2 ^ 32 * 2 ^ 32). rewrite Z.rem_mul_r by lia.
  by rewrite (Z.mul_comm (2 ^ 32)), Z.mod_add, Z.mod_mod by lia.
Qed.

Lemma save_args_inv m n : forall hw dst src off,
  u32 dst = u32 (base + off) -> 0 < off -> off + 4 * Z.of_nat n <= 2 ^ 32 -> 0 <= base < 2 ^ 32 ->
  ch_flight (save_args m hw dst src n) = ch_flight hw /\
  (ch_start hw = false -> ch_start (save_args m hw dst src n) = false).
Proof.
  induction n as [|n IH]; intros hw dst src off Hd Hoff Hb Hbase; cbn [save_args]; [done|].
  assert (u32 dst <> base) as Hne.
  { rewrite Hd. unfold u32. intros E. destruct (Z.ltb_spec (base + off) (2 ^ 32)).
    - rewrite Z.mod_small in E; lia.
    - rewrite <- (Z.mod_unique (base + off) (2 ^ 32) 1 (base + off - 2 ^ 32)) in E; lia. }
  destruct (ch_write_other hw _ (reg_read m src) Hne) as [H1 H2].
  destruct (IH (CuCore.iowrite32 hw (u32 dst) (reg_read m src)) (u64 (dst + 4)) (u64 (src + 4)) (off + 4))
    as [H3 H4]; [|lia|lia|lia|].
  - rewrite u32_u64. unfold u32 in *. rewrite <- Zplus_mod_idemp_l, Hd, Zplus_mod_idemp_l. f_equal. lia.
  - unfold cu_reg_write. rewrite H3, H1. auto.
Qed.

Lemma payload_range cmd : 0 <= cmd_payload_size cmd < 2 ^ 15.
Proof. unfold cmd_payload_size. by apply field_range. Qed.

(** Starting a good command on a CU that waits for input. *)
Lemma cu_start_inv m hw cu cmd : start_cmd_good cmd -> u32 (cu_addr cu) = base -> ch_start hw = false ->
  exists hw', start_cmd false m hw cu cmd =
    (0, cu_clear_status (cu_set_status cu SCHED_AP_START) SCHED_AP_WAIT_FOR_INPUT, hw') /\
    ch_flight hw' = ch_flight hw + 1.
Proof.
  intros [Ho Hs] Hb Hst. pose proof (payload_range cmd) as Hp. unfold start_cmd. rewrite Ho, Z.eqb_refl.
  cbn [negb]. unfold cu_start, cmd_args. rewrite Z.sub_0_r, (u32_small (cmd_payload_size cmd)) by lia.
  change (4 - 1) with 3. rewrite Hs. change (z2b 0) with false. eexists. split; [reflexivity|].
  destruct (save_args_inv m (Z.to_nat (cmd_payload_size cmd / 4)) hw (u64 (cu_addr cu + SCHED_CU_ARG_OFFSET))
    (u64 (cc_addr cmd + 8)) SCHED_CU_ARG_OFFSET) as [H1 H2].
  - rewrite u32_u64. rewrite <- Hb. unfold u32. by rewrite Zplus_mod_idemp_l.
  - done.
  - pose proof (Z.mul_div_le (cmd_payload_size cmd) 4). pose proof (Z.div_pos (cmd_payload_size cmd) 4).
    change SCHED_CU_ARG_OFFSET with 16. lia.
  - rewrite <- Hb. apply u32_range.
  - unfold cu_reg_write. rewrite Hb, ch_write_start by auto. by rewrite H1.
Qed.

Lemma process_inv polls1 polls2 m hw xc rc xc' m' hw' :
  xgq_cu_process false polls1 polls2 m hw xc = Some (rc, xc', m', hw') ->
  slot_good m xc -> handler_inv hw xc -> handler_inv hw' xc' /\ (rc = 0 \/ rc = - EBUSY).
Proof.
  intros E Hg I. unfold xgq_cu_process in E. apply bind_Some in E as ([xc1 m1] & Ht & E).
  destruct (take_cmd_inv hw m xc xc1 m1 Ht Hg I) as [I1 _].
  apply bind_Some in E as ([[xc2 m2] hw2] & Hp & E). pose proof (poll_cu_inv _ _ _ _ _ _ _ Hp I1) as I2.
  destruct (negb _ || negb _) eqn:Eb; [injection E as <- <- <- <-; auto|].
  apply orb_false_iff in Eb as [Hv Hw]. apply negb_false_iff in Hv, Hw.
  destruct (cu_start_inv m2 hw2 (xc_cu xc2) (xc_cmd xc2)) as (hw3 & Es & Hf);
    [by apply I2|apply I2|by apply I2|]. rewrite Es in E. cbn [Z.eqb] in E. injection E as <- <- <- <-.
  split; [|by left]. pose proof (ch_flight_bound hw3) as Hb3. destruct I2. rewrite Hv in hi_count0.
  split; rproj.
  - rewrite hi_running0, Hf. apply u32_small. lia.
  - intros Hc. by rewrite has_clear_same in Hc.
  - rewrite has_clear_other by done. by rewrite has_set, hi_done0.
  - done.
  - intros Hc. discriminate Hc.
  - rewrite hi_count0, hi_running0. unfold u32. rewrite Zplus_mod_idemp_l. f_equal.
    change (b2z (cmd_is_valid _)) with 0. change (b2z true) with 1. lia.
Qed.
End Handler.

(** ** Executions *)

Section Trace.
Context {H : Type} `{Mmio H} (base : Z) {L : ApCtrlChain H base}.

(** A call of the handler, a move of the CU, or anything the host does to the
    shared memory. *)
Inductive handler_step : shared * H * xgq_cu -> shared * H * xgq_cu -> Prop :=
| hs_process polls1 polls2 m hw xc rc xc' m' hw' :
    xgq_cu_process false polls1 polls2 m hw xc = Some (rc, xc', m', hw') -> slot_good m xc ->
    handler_step (m, hw, xc) (m', hw', xc')
| hs_cu m hw hw' xc : ch_step hw hw' -> handler_step (m, hw, xc) (m, hw', xc)
| hs_host m m' hw xc : handler_step (m, hw, xc) (m', hw, xc).

Lemma handler_step_inv s s' : handler_step s s' ->
  handler_inv base s.1.2 s.2 -> handler_inv base s'.1.2 s'.2.
Proof.
  destruct 1 as [polls1 polls2 m hw xc rc xc' m' hw' E Hg|m hw hw' xc Hc|m m' hw xc]; cbn [fst snd]; intros I.
  - by destruct (process_inv base polls1 polls2 m hw xc rc xc' m' hw' E Hg I).
  - destruct (ch_step_ok hw hw' Hc) as (H1 & H2 & _). destruct I. split; try done; [congruence|auto].
  - done.
Qed.

Lemma init_inv hw xc q cu : ch_flight hw = 0 -> ch_start hw = false ->
  cu_has_status cu SCHED_AP_DONE = false -> u32 (cu_addr cu) = base -> taken q = answered q ->
  handler_inv base hw (xgq_cu_init xc q cu).
Proof.
  intros Hf Hs Hd Hb Hq. unfold xgq_cu_init. split; rproj.
  - done.
  - done.
  - by rewrite has_set, Hd.
  - done.
  - intros Hv. discriminate Hv.
  - by rewrite Hq, Z.sub_diag.
Qed.

Lemma handler_trace_inv s s' : rtc handler_step s s' ->
  handler_inv base s.1.2 s.2 -> handler_inv base s'.1.2 s'.2.
Proof. induction 1; [done|]. eauto using handler_step_inv. Qed.
End Trace.

(** C4. The handler of a CU queue, with a host that sends start commands and a CU
    of the chain protocol: at any time the counter of running commands is the
    number of tasks started on the CU and not acknowledged, and the commands
    taken from the queue and not answered are the running ones and the one in
    hand.  So every command is answered at most once, and all are answered when
    the CU has no task and the hand is empty. *)
Theorem xgq_cu_answers {H} `{Mmio H} base {L : ApCtrlChain H base} hw xc q cu m m' hw' xc' :
  ch_flight hw = 0 -> ch_start hw = false -> cu_has_status cu SCHED_AP_DONE = false ->
  u32 (cu_addr cu) = base -> taken q = answered q ->
  rtc (handler_step base) (m, hw, xgq_cu_init xc q cu) (m', hw', xc') ->
  xc_cmd_running xc' = ch_flight hw' /\
  u32 (taken (xc_q xc') - answered (xc_q xc')) =
    u32 (ch_flight hw' + b2z (cmd_is_valid (xc_cmd xc'))).
Proof.
  intros Hf Hs Hd Hb Hq T.
  pose proof (handler_trace_inv base _ _ T (init_inv base hw xc q cu Hf Hs Hd Hb Hq)) as I.
  destruct I. cbn [fst snd] in *. by rewrite <- hi_running0.
Qed.

(** ** A CU *)

(** One task can wait for the input, one run and one wait to be acknowledged. *)
Record chain_cu := mk_chain { cn_start : bool; cn_exec : bool; cn_done : bool; cn_regs : gmap Z Z }.

Definition chain_ctrl (c : chain_cu) : Z :=
  b2z (cn_start c) + 2 * b2z (cn_done c) + 4 * b2z (negb (cn_start c || cn_exec c || cn_done c)).

#[export] Instance chain_mmio : Mmio chain_cu := {
  ioread32 c a := if a =? 0x8000 then (chain_ctrl c, c) else (default 0 (cn_regs c !! a), c);
  iowrite32 c a v :=
    if a =? 0x8000 then
      mk_chain (cn_start c || z2b (Z.land v SCHED_AP_START)) (cn_exec c)
        (cn_done c && negb (z2b (Z.land v SCHED_AP_CONTINUE))) (cn_regs c)
    else mk_chain (cn_start c) (cn_exec c) (cn_done c) (<[a := v]> (cn_regs c));
}.

(** The CU takes the input, or finishes. *)
Definition chain_step (c c' : chain_cu) : Prop :=
  (cn_start c = true /\ cn_exec c = false /\ c' = mk_chain false true (cn_done c) (cn_regs c)) \/
  (cn_exec c = true /\ cn_done c = false /\ c' = mk_chain (cn_start c) false true (cn_regs c)).

#[export] Program Instance chain_ap : ApCtrlChain chain_cu 0x8000 := {|
  ch_flight c := b2z (cn_start c) + b2z (cn_exec c) + b2z (cn_done c);
  ch_start := cn_start;
  ch_done := cn_done;
  ch_step := chain_step |}.
Next Obligation. intros [[] [] [] ?]; cbn; lia. Qed.
Next Obligation. intros [[] [] [] ?]; cbn; lia. Qed.
Next Obligation.
  intros [[] [] [] r] c' [(? & ? & ->)|(? & ? & ->)]; cbn in *; try done.
Qed.
Next Obligation.
  intros [[] [] [] r] v c' [= <- <-]; cbn; split_and!; try done; by intros [].
Qed.
Next Obligation. intros [[] [] [] r]; cbn; done. Qed.
Next Obligation. intros [[] [] [] r]; cbn; done. Qed.
Next Obligation.
  intros [s e d r] a v Ha. cbn. by rewrite (proj2 (Z.eqb_neq _ _) Ha).
Qed.

(** A queue with one start command of two words. *)
Definition demo_fw_q : xgq :=
  mk_xgq 0 0 (mk_xgq_ring 2 16 0 0 0x100 0x104 0x200) (mk_xgq_ring 2 16 0 0 0x108 0x10c 0x300).
Definition demo_fw_mem (op : Z) : shared :=
  list_to_map [(0x100, 1); (0x200, 2 ^ 31 + 8 * 2 ^ 16 + op); (0x208, 0xaa); (0x20c, 0xbb)].
Definition demo_chain : chain_cu := mk_chain false false false ∅.
Definition demo_fw : xgq_cu :=
  xgq_cu_init (mk_xgq_cu demo_fw_q (mk_sched_cu 0 0) (mk_sched_cmd 0 false 0 0) 0 0 0 0x7000)
    demo_fw_q (mk_sched_cu 0x8000 0).

(** The command is started; the CU finishes; the command is answered. *)
Lemma demo_fw_trace : exists m hw xc,
  rtc (handler_step 0x8000) (demo_fw_mem 0x100, demo_chain, demo_fw) (m, hw, xc) /\
  taken (xc_q xc) = 1 /\ answered (xc_q xc) = 1 /\ cn_regs hw !! 0x8014 = Some 0xbb.
Proof.
  eexists _, _, _. split.
  - eapply rtc_l.
    { eapply (hs_process 0x8000 [] []); [vm_compute; reflexivity|].
      intros r a q m E. vm_compute in E. injection E as <- <- <- <-. repeat split. }
    eapply rtc_l; [apply hs_cu; left; split_and!; reflexivity|].
    eapply rtc_l; [apply hs_cu; right; split_and!; reflexivity|].
    eapply rtc_l.
    { eapply (hs_process 0x8000 [] []); [vm_compute; reflexivity|].
      intros r a q m E. vm_compute in E. discriminate E. }
    apply rtc_refl.
  - split_and!; reflexivity.
Qed.

Lemma xgq_cu_answers_witness : exists m hw xc,
  rtc (handler_step 0x8000) (demo_fw_mem 0x100, demo_chain, demo_fw) (m, hw, xc) /\
  xc_cmd_running xc = ch_flight hw /\ ch_flight hw + b2z (cmd_is_valid (xc_cmd xc)) = 0.
Proof.
  destruct demo_fw_trace as (m & hw & xc & T & Ht & Ha & _). exists m, hw, xc. split; [exact T|].
  destruct (xgq_cu_answers 0x8000 demo_chain
    (mk_xgq_cu demo_fw_q (mk_sched_cu 0 0) (mk_sched_cmd 0 false 0 0) 0 0 0 0x7000) demo_fw_q
    (mk_sched_cu 0x8000 0) (demo_fw_mem 0x100) m hw xc) as [Hr Hc]; [reflexivity..|exact T|].
  split; [exact Hr|]. rewrite Ht, Ha in Hc. change (u32 (1 - 1)) with 0 in Hc.
  pose proof (ch_flight_bound hw) as B. rewrite u32_small in Hc; [done|].
  destruct (cmd_is_valid (xc_cmd xc)); cbn [b2z]; lia.
Defined.

(** An unknown command is answered without having been counted: the counter of
    running commands wraps around. *)
Example xgq_cu_unknown_cmd :
  match xgq_cu_process false [] [] (demo_fw_mem 0x1ff) demo_chain demo_fw with
  | Some (rc, xc, _, hw) => rc = - ENOTTY /\ xc_cmd_running xc = 2 ^ 32 - 1 /\ ch_flight hw = 0
  | None => False
  end.
Proof. vm_compute. repeat split. Qed.

(** A command that only initialises the CU is counted as running although nothing
    has been started: no done bit will ever answer it. *)
Example xgq_cu_init_cmd :
  match xgq_cu_process false [] [] (demo_fw_mem XGQ_CMD_OP_INIT_CUIDX_KV) demo_chain demo_fw with
  | Some (rc, xc, _, hw) =>
      rc = 0 /\ xc_cmd_running xc = 1 /\ ch_flight hw = 0 /\ answered (xc_q xc) = 0
  | None => False
  end.
Proof. vm_compute. repeat split. Qed.

(** ** From the packet to the registers *)

Section Args.
Context {H : Type} `{Mmio H}.

(** The words of the slot, in order, to the argument registers. *)
Lemma save_args_writes (m : shared) vaddr n : forall (hw : H) k src (data : list Z),
  0 <= vaddr -> vaddr + (ARGS + 4 * (k + Z.of_nat n)) <= 2 ^ 32 -> 0 <= k ->
  0 <= src -> src + 4 * Z.of_nat n <= 2 ^ 32 ->
  (forall i, 0 <= i < Z.of_nat n -> reg_read m (src + 4 * i) = aget 0 data (k + i)) ->
  save_args m hw (vaddr + (ARGS + 4 * k)) src n =
  io_writes hw ((fun j => (vaddr + (ARGS + 4 * j), aget 0 data j)) <$> seqZ k (Z.of_nat n)).
Proof.
  induction n as [|n IH]; intros hw k src data Hv Hb Hk Hs Hsb Hd; [done|]. cbn [save_args].
  rewrite seqZ_cons by lia. replace (Z.pred (Z.of_nat (S n))) with (Z.of_nat n) by lia.
  rewrite fmap_cons. change (io_writes hw (?x :: ?l)) with (io_writes (CuCore.iowrite32 hw x.1 x.2) l).
  unfold cu_reg_write. unfold ARGS in *. rewrite (u32_small (vaddr + (16 + 4 * k))) by lia.
  rewrite !u64_small by lia. cbn [fst snd]. specialize (Hd 0) as Hd0.
  rewrite Z.mul_0_r, !Z.add_0_r in Hd0. rewrite Hd0 by lia.
  replace (vaddr + (16 + 4 * k) + 4) with (vaddr + (16 + 4 * Z.succ k)) by lia.
  apply IH; try lia. intros i Hi. replace (src + 4 + 4 * i) with (src + 4 * (i + 1)) by lia.
  rewrite Hd by lia. f_equal. lia.
Qed.
End Args.

(** C33. A start packet sent over an XGQ reaches the CU as it would without the
    embedded scheduler: when the slot holds the entry the host has converted the
    packet to (its second word, with the CID and the CU index, apart), the
    firmware writes exactly the argument words of the packet, in order, to the
    registers from 0x10 on, the same writes as [cu_hls_configure] does on the
    host, and then sets the start bit. *)
Theorem cu_start_runs_packet {H} `{Mmio H} (m : shared) (hw : H) cu cmd p buf buf' sz :
  ert_opcode p = ERT_START_CU -> ert_valid_opcode p = true ->
  ert_count p <= Z.of_nat (length (ert_words p)) -> Z.of_nat (length buf) = ert_count p ->
  xgq_exec_convert_start_cu_cmd buf p = Some (buf', sz) ->
  cc_header0 cmd = aget 0 buf' 0 ->
  (forall i, 2 <= i < sz / 4 -> reg_read m (cc_addr cmd + 4 * i) = aget 0 buf' i) ->
  0 <= cc_addr cmd -> cc_addr cmd + sz <= 2 ^ 32 -> 0 <= cu_addr cu -> cu_addr cu + sz < 2 ^ 32 - 8 ->
  let n := ert_count p - ert_extra_cu_masks p - 5 in
  let regs := take (Z.to_nat n) (drop (Z.to_nat (5 + ert_extra_cu_masks p)) (ert_words p)) in
  start_cmd false m hw cu cmd =
  (0, cu_clear_status (cu_set_status cu SCHED_AP_START) SCHED_AP_WAIT_FOR_INPUT,
   CuCore.iowrite32 (io_writes hw (regmap_writes (cu_addr cu) regs n)) (cu_addr cu) SCHED_AP_START).
Proof.
  intros Hop Hv Hlen Hbuf Hconv Hh Hslot Ha Hab Hc Hcb n regs.
  pose proof (valid_start_cu p Hop Hv) as Hv'. pose proof (ert_count_range p) as Hcnt.
  destruct (xgq_start_cu_entry p buf Hop Hv Hlen Hbuf) as (b & E & Ho & _ & Hsz & _ & Ht & Hl).
  fold n in E, Hsz, Ht. fold regs in Ht. rewrite Hconv in E. injection E as <- ->.
  assert (0 <= n < 2 ^ 13) as Hn by (subst n; pose proof (ert_extra_range p); lia).
  unfold xgq_hdr_opcode, xgq_hdr_count in *. unfold start_cmd, cmd_op_code. rewrite Hh, Ho, Z.eqb_refl. cbn [negb].
  unfold cu_start, cmd_args, cmd_payload_size. rewrite Hh, Hsz, Z.sub_0_r, u32_small by lia.
  replace (Z.land (4 * n) (4 - 1)) with 0; cycle 1.
  { change (4 - 1) with (Z.ones 2). rewrite Z.land_ones by lia. change (2 ^ 2) with 4.
    by rewrite Z.mul_comm, Z.mod_mul by lia. }
  change (z2b 0) with false. rewrite (Z.mul_comm 4 n), Z.div_mul by lia.
  rewrite !u64_small by (change SCHED_CU_ARG_OFFSET with 16; lia). unfold cu_reg_write. rewrite (u32_small (cu_addr cu)) by lia.
  do 2 f_equal. unfold regmap_writes. rewrite <- (Z2Nat.id n) at 2 by lia.
  replace (cu_addr cu + SCHED_CU_ARG_OFFSET) with (cu_addr cu + (ARGS + 4 * 0)) by (unfold SCHED_CU_ARG_OFFSET, ARGS; lia).
  apply save_args_writes; try (unfold ARGS; lia). intros i Hi.
  replace (cc_addr cmd + 8 + 4 * i) with (cc_addr cmd + 4 * (i + 2)) by lia.
  rewrite Hslot by (rewrite <- (Z.div_unique (8 + 4 * n) 4 (2 + n) 0); lia).
  unfold aget. rewrite <- Ht, lookup_take_lt, lookup_drop by lia. do 2 f_equal. lia.
Qed.

Lemma cu_start_runs_packet_witness :
  exists buf' hw, xgq_exec_convert_start_cu_cmd (replicate 8 0) demo_start_cu = Some (buf', 16) /\
    start_cmd false (list_to_map (zip [0x200; 0x204; 0x208; 0x20c] buf')) (∅ : gmap Z Z)
      (mk_sched_cu 0x8000 0) (mk_sched_cmd 0x200 false (aget 0 buf' 0) 0) = (0, mk_sched_cu 0x8000 1, hw) /\
    hw = io_writes ∅ [(0x8010, 0xaa); (0x8014, 0xbb); (0x8000, 1)].
Proof.
  destruct (xgq_exec_convert_start_cu_cmd (replicate 8 0) demo_start_cu) as [[buf' sz]|] eqn:E; [|discriminate E].
  assert (sz = 16 /\ buf' = default [] (fst <$> xgq_exec_convert_start_cu_cmd (replicate 8 0) demo_start_cu))
    as [-> Hb] by (rewrite E; vm_compute in E; by injection E as <- <-).
  eexists buf', _. split; [reflexivity|]. split.
  - apply (cu_start_runs_packet (list_to_map (zip [0x200; 0x204; 0x208; 0x20c] buf')) (∅ : gmap Z Z)
      (mk_sched_cu 0x8000 0) (mk_sched_cmd 0x200 false (aget 0 buf' 0) 0) demo_start_cu (replicate 8 0) buf' 16);
      try reflexivity; try done; try exact E.
    cbn [cc_addr]. intros i Hi. change (16 / 4) with 4 in Hi. assert (i = 2 \/ i = 3) as [-> | ->] by lia;
      rewrite Hb; vm_compute; reflexivity.
  - vm_compute. reflexivity.
Defined.
