(* ===== verification/ErtCtrl.v ===== *)
(** * Embedded scheduler: control queue and main loop

    [ert/scheduler/xgq_ctrl.c] and [sched.c]: the queue over which the host
    configures the firmware, the commands it understands, the set-up of one
    queue per CU, and the loop that serves the control queue and the CU queues.

    The static variables of the file are one record, [firmware].  The pointers
    of a handler lead to the elements of [xgqs] and [sched_cus] with its own
    index; a handler is therefore kept without them, with a flag that says
    whether they have been set ([hd_bound]), and [handler_at] follows them.

    What happens around a command is an argument ([ctrl_env]): what the host
    does whenever the firmware waits, and the readings of the clock counter.
    Addresses that differ between boards and the build options are in
    [ert_build].  [None] is an access outside an array, through a pointer that
    has not been set, or a wait that has not ended.  [size_t] is 64 bits wide in
    [xgq_group_alloc] of [Xgq] and 32 on this processor: the two agree for rings
    below 4 GiB. *)
From S2P Require Import Prelude KdsCommand CuCore Xgq XoclXgq ErtCu.

(** ** Constants *)

Definition XGQ_CMD_OP_CFG_START : Z := 0x108.
Definition XGQ_CMD_OP_CFG_END : Z := 0x109.
Definition XGQ_CMD_OP_CFG_CU : Z := 0x10a.
Definition XGQ_CMD_OP_QUERY_CU : Z := 0x10b.
Definition XGQ_CMD_OP_EXIT : Z := 0x10f.
Definition XGQ_CMD_OP_IDENTIFY : Z := 0x202.

Definition CTRL_XGQ_SLOT_SIZE : Z := 512.
Definition ENABLE_I2H : Z := Z.shiftl 1 13.
Definition ENABLE_I2E : Z := Z.shiftl 1 14.
Definition ENABLE_CUI : Z := Z.shiftl 1 15.
Definition CMD_QUEUE_MODE : Z := Z.shiftl 1 16.
Definition SCRATCH_MODE : Z := Z.shiftl 1 17.
Definition ECHO_MODE : Z := Z.shiftl 1 18.
Definition DMSG_ENABLE : Z := Z.shiftl 1 19.

Definition MASK_BIT_32 (n : Z) : Z := if n =? 32 then 2 ^ 32 - 1 else Z.shiftl 1 n - 1.

Definition MAX_SLOTS : Z := 128.
Definition ERT_MAX_CUS : Z := 128.
Definition MAX_XGQ_CU : Z := 32.
Definition MAJOR : Z := 1.
Definition MINOR : Z := 0.
Definition ERT_VER : Z := Z.shiftl MAJOR 16 + MINOR.
Definition CTRL_XGQ_SPACE : Z := 0x800.
Definition XGQ_CMD_FEATURE_OFFSET : Z := 0x8.
Definition XGQ_CU_CMD_LOW_ADDR : Z := 0x10.
Definition XGQ_CU_CMD_HIGH_ADDR : Z := 0x14.
Definition XGQ_CU_CMD_SLOT_SZ_OFFSET : Z := 0x18.
Definition XGQ_CU_IDX (features : Z) : Z := Z.land features (MASK_BIT_32 12).
Definition XGQ_IP_CTRL (features : Z) : Z := Z.shiftr (Z.land features (MASK_BIT_32 8)) 16.
Definition XGQ_NUM_CUS (features : Z) : Z := Z.land features (MASK_BIT_32 13).
Definition ctrl_queue_offset : Z := 0x4.
Definition user_queue_offset : Z := CTRL_XGQ_SPACE.
Definition ERT_CQ_SIZE : Z := 0x10000.
Definition HOST_RW_PATTERN : Z := 0xF0F0F0F0.
Definition DEVICE_RW_PATTERN : Z := 0x0F0F0F0F.

(** What depends on the board and the build: [eb_v30] is [ERT_BUILD_V30] and
    [eb_developer] is [ERT_DEVELOPER]. *)
Record ert_build := mk_ert_build {
  ERT_CQ_BASE_ADDR : Z;
  ERT_CSR_ADDR : Z;
  eb_v30 : bool;
  eb_developer : bool;
}.

Definition ERT_HOST_INTERRUPT_ENABLE_ADDR (b : ert_build) : Z := u32 (ERT_CSR_ADDR b + 0x100).
Definition STATUS_REGISTER_ADDR (b : ert_build) : list Z :=
  (fun i => u32 (ERT_CSR_ADDR b + i)) <$> [0; 0x4; 0x8; 0xC].

(** What happens around one control command: polls of the completion ring, the
    readings of the clock counter, the two reads of each round of the stress
    test, and what the memory becomes between the write and the read of each
    word of the slot. *)
Record ctrl_env := mk_ctrl_env {
  ce_polls : list (shared -> shared);
  ce_clock : nat -> Z;
  ce_stress : list ((shared -> shared) * (shared -> shared));
  ce_rw : nat -> shared -> shared;
}.

(** ** [xgq_ctrl.c] *)

(** The control queue, with the queue its pointer leads to. *)
Record xgq_ctrl := mk_xgq_ctrl { xt_xgq : xgq; xt_ctrl_cmd : sched_cmd }.
#[export] Instance eta_xgq_ctrl : Eta xgq_ctrl := fun c => mk_xgq_ctrl (xt_xgq c) (xt_ctrl_cmd c).

Definition xgq_ctrl_init (c : xgq_ctrl) (q : xgq) : xgq_ctrl :=
  c <| xt_xgq := q |> <| xt_ctrl_cmd ::= fun cmd => cmd_set_addr cmd 0 <| cc_header0 := 0 |> |>.

(** The words of an answer to its slot. *)
Fixpoint put_words (m : shared) (addr : Z) (resp : list Z) : shared :=
  match resp with
  | [] => m
  | w :: resp => put_words (reg_write m addr w) (u64 (addr + 4)) resp
  end.

Definition xgq_ctrl_response (polls : list (shared -> shared)) (m : shared) (c : xgq_ctrl)
  (resp : list Z) : option (xgq_ctrl * shared) :=
  let c := c <| xt_ctrl_cmd ::= fun cmd => (cmd_clear_header m cmd false).1 |> in
  let m := xgq_notify_peer_consumed mb_build m (xt_xgq c) in
  p ← wait_produce polls m (xt_xgq c);
  let '(slot_addr, q, m) := p in
  let m := put_words m slot_addr resp in
  Some (c <| xt_xgq := q |>, xgq_notify_peer_produced mb_build m q).

(** The command in hand, if there is one after looking at the queue. *)
Definition xgq_ctrl_get_cmd (m : shared) (c : xgq_ctrl) : option (bool * xgq_ctrl * shared) :=
  r ← (if negb (cmd_is_valid (xt_ctrl_cmd c)) then
         r ← xgq_consume mb_build m (xt_xgq c);
         let '(_, slot, q, m) := r in
         let c := c <| xt_xgq := q |> in
         Some (match slot with
               | Some addr => c <| xt_ctrl_cmd ::= fun cmd => cmd_load_header m (cmd_set_addr cmd addr) |>
               | None => c
               end, m)
       else Some (c, m));
  Some (cmd_is_valid (xt_ctrl_cmd r.1), r.1, r.2).

(** ** [sched.c]: state *)

Record cu_info := mk_cu_info { ci_cu_idx : Z; ci_ip_ctrl : Z; ci_slot_size : Z }.
#[export] Instance eta_cu_info : Eta cu_info := fun c =>
  mk_cu_info (ci_cu_idx c) (ci_ip_ctrl c) (ci_slot_size c).

Record handler := mk_handler {
  hd_bound : bool;
  hd_cmd : sched_cmd;
  hd_cmd_running : Z;
  hd_offset : Z;
  hd_xgq_id : Z;
  hd_csr_reg : Z;
}.

(** Variables that only hold 0 or 1 are booleans. *)
Record firmware := mk_firmware {
  fw_num_cus : Z;
  fw_ctrl_queue_size : Z;
  fw_ctrl_scratch_offset : Z;
  fw_ctrl_xgq : xgq_ctrl;
  fw_xgqs : list xgq;
  fw_cu_xgqs : list handler;
  fw_cu_slot_sizes : list Z;
  fw_sched_cus : list sched_cu;
  fw_i2h : bool;
  fw_i2e : bool;
  fw_cui : bool;
  fw_dmsg : bool;
  fw_echo : bool;
  fw_cmd_queue_mode : bool;
  fw_scratch_mode : bool;
  fw_flatten_queue : bool;
  fw_cfg_complete : bool;
  fw_cmd_queue_slot_size : Z;
  fw_cu_cfg : list cu_info;
}.
#[export] Instance eta_firmware : Eta firmware := fun f =>
  mk_firmware (fw_num_cus f) (fw_ctrl_queue_size f) (fw_ctrl_scratch_offset f) (fw_ctrl_xgq f)
    (fw_xgqs f) (fw_cu_xgqs f) (fw_cu_slot_sizes f) (fw_sched_cus f) (fw_i2h f) (fw_i2e f) (fw_cui f)
    (fw_dmsg f) (fw_echo f) (fw_cmd_queue_mode f) (fw_scratch_mode f) (fw_flatten_queue f)
    (fw_cfg_complete f) (fw_cmd_queue_slot_size f) (fw_cu_cfg f).

Definition no_cmd : sched_cmd := mk_sched_cmd 0 false 0 0.
Definition no_ring : xgq_ring := mk_xgq_ring 0 0 0 0 0 0 0.
Definition no_xgq : xgq := mk_xgq 0 0 no_ring no_ring.
Definition no_cu : sched_cu := mk_sched_cu 0 0.
Definition no_handler : handler := mk_handler false no_cmd 0 0 0 0.
Definition no_cu_info : cu_info := mk_cu_info 0 0 0.

(** The initial values. *)
Definition firmware0 : firmware :=
  mk_firmware 0 CTRL_XGQ_SPACE 0 (mk_xgq_ctrl no_xgq no_cmd) (replicate 32 no_xgq)
    (replicate 32 no_handler) (replicate 32 0) (replicate 32 no_cu) false false false false false
    false false false false 0 (replicate 128 no_cu_info).

(** The handler [i] with its queue and CU, and back. *)
Definition handler_at (fw : firmware) (i : Z) : option xgq_cu :=
  h ← aget_chk no_handler (fw_cu_xgqs fw) i;
  if hd_bound h then
    q ← aget_chk no_xgq (fw_xgqs fw) i;
    cu ← aget_chk no_cu (fw_sched_cus fw) i;
    Some (mk_xgq_cu q cu (hd_cmd h) (hd_cmd_running h) (hd_offset h) (hd_xgq_id h) (hd_csr_reg h))
  else None.

Definition put_handler (fw : firmware) (i : Z) (xc : xgq_cu) : firmware :=
  fw <| fw_xgqs ::= fun l => aset l i (xc_q xc) |>
     <| fw_sched_cus ::= fun l => aset l i (xc_cu xc) |>
     <| fw_cu_xgqs ::= fun l => aset l i (mk_handler true (xc_cmd xc) (xc_cmd_running xc) (xc_offset xc)
                                           (xc_xgq_id xc) (xc_csr_reg xc)) |>.

Section Sched.
Context {H : Type} `{Mmio H} (b : ert_build).

(** A register of the command queue or of the firmware's own hardware. *)
Definition read_reg (m : shared) (addr : Z) : Z := reg_read m addr.
Definition write_reg (m : shared) (addr val : Z) : shared := reg_write m addr val.

Definition rw_count_addr (slot_addr : Z) : Z := u32 (slot_addr + 0x8).
Definition draft_addr (slot_addr : Z) : Z := u32 (slot_addr + 0xC).
Definition XGQ_OFFSET (q : xgq) : Z := u32 (xq_header_addr q - ERT_CQ_BASE_ADDR b).

Definition respond (polls : list (shared -> shared)) (m : shared) (fw : firmware) (resp : list Z)
  : option (firmware * shared) :=
  r ← xgq_ctrl_response polls m (fw_ctrl_xgq fw) resp; Some (fw <| fw_ctrl_xgq := r.1 |>, r.2).

(** ** [sched.c]: one queue per CU *)

(** The handler [cu_idx] of the loop. *)
Definition setup_handler (fw : firmware) (cu_idx : Z) : option firmware :=
  h ← aget_chk no_handler (fw_cu_xgqs fw) cu_idx;
  q ← aget_chk no_xgq (fw_xgqs fw) cu_idx;
  cu ← aget_chk no_cu (fw_sched_cus fw) cu_idx;
  csr ← aget_chk 0 (STATUS_REGISTER_ADDR b) (Z.shiftr cu_idx 5);
  Some (put_handler fw cu_idx
    (xgq_cu_init (mk_xgq_cu q cu (hd_cmd h) (hd_cmd_running h) (XGQ_OFFSET q) cu_idx csr) q cu)).

Fixpoint setup_handlers (fw : firmware) (cu_idx : Z) (n : nat) : option firmware :=
  match n with
  | O => Some fw
  | S n => fw ← setup_handler fw cu_idx; setup_handlers fw (cu_idx + 1) n
  end.

(** The new queues at the front of the array. *)
Definition put_queues (l qs : list xgq) : list xgq := qs ++ drop (length qs) l.

Definition setup_cu_queue (m : shared) (fw : firmware) : option (Z * firmware * shared) :=
  let cu_xgq_offset := user_queue_offset in
  let cu_xgq_range := u32 (ERT_CQ_SIZE - cu_xgq_offset) in
  if fw_num_cus fw =? 0 then Some (0, fw, m)
  else if negb (fw_flatten_queue fw) then
    sizes ← copy_out (fw_cu_slot_sizes fw) 0 (fw_num_cus fw);
    r ← xgq_group_alloc mb_build XGQ_IN_MEM_PROD m (u32 (ERT_CQ_BASE_ADDR b + cu_xgq_offset))
          cu_xgq_range sizes MAX_SLOTS;
    match r with
    | inl ret => Some (ret, fw, m)
    | inr (qs, m, _) =>
        fw ← setup_handlers (fw <| fw_xgqs ::= fun l => put_queues l qs |>) 0 (Z.to_nat (fw_num_cus fw));
        Some (0, fw, m)
    end
  else Some (0, fw, m).

(** ** [sched.c]: control commands *)

Definition configure_mb (env : ctrl_env) (m : shared) (fw : firmware) : option (Z * firmware * shared) :=
  let queue_addr := u32 (cc_addr (xt_ctrl_cmd (fw_ctrl_xgq fw))) in
  let features := read_reg m (u32 (queue_addr + XGQ_CMD_FEATURE_OFFSET)) in
  let has flag := z2b (Z.land features flag) in
  let num_cus := XGQ_NUM_CUS features in
  let flatten := (MAX_XGQ_CU <? num_cus) || (has SCRATCH_MODE || has CMD_QUEUE_MODE) in
  let fw := fw <| fw_num_cus := num_cus |> <| fw_cfg_complete := false |>
               <| fw_i2h := has ENABLE_I2H |> <| fw_i2e := has ENABLE_I2E |> <| fw_cui := has ENABLE_CUI |>
               <| fw_dmsg := has DMSG_ENABLE |> <| fw_echo := has ECHO_MODE |>
               <| fw_cmd_queue_mode := has CMD_QUEUE_MODE |> <| fw_scratch_mode := has SCRATCH_MODE |>
               <| fw_flatten_queue := flatten |>
               <| fw_cmd_queue_slot_size ::= fun s => if flatten then 0 else s |> in
  r ← respond (ce_polls env) m fw [0; 1; 0; 0];
  Some (0, r.1, r.2).

Definition configure_mb_end (env : ctrl_env) (m : shared) (fw : firmware) : option (Z * firmware * shared) :=
  s ← setup_cu_queue m fw;
  let '(ret, fw, m) := s in
  let m := write_reg m (ERT_HOST_INTERRUPT_ENABLE_ADDR b) (b2z (fw_i2h fw)) in
  let fw := if ret =? 0 then fw <| fw_cfg_complete := true |> else fw in
  r ← respond (ce_polls env) m fw [0; 0; 0; u32 ret];
  Some (ret, r.1, r.2).

Definition save_cfg_cu (env : ctrl_env) (m : shared) (fw : firmware) : option (Z * firmware * shared) :=
  let queue_addr := u32 (cc_addr (xt_ctrl_cmd (fw_ctrl_xgq fw))) in
  let features := read_reg m (u32 (queue_addr + XGQ_CMD_FEATURE_OFFSET)) in
  let cu_idx := XGQ_CU_IDX features in
  if (ERT_MAX_CUS <? cu_idx) || (fw_num_cus fw <=? cu_idx) then
    r ← respond (ce_polls env) m fw [0; 0; 0; u32 (- EINVAL)];
    Some (- EINVAL, r.1, r.2)
  else
    cu ← aget_chk no_cu_info (fw_cu_cfg fw) cu_idx;
    scu ← aget_chk no_cu (fw_sched_cus fw) cu_idx;
    let addr_lo := read_reg m (u32 (queue_addr + XGQ_CU_CMD_LOW_ADDR)) in
    let addr_hi := read_reg m (u32 (queue_addr + XGQ_CU_CMD_HIGH_ADDR)) in
    let slot_size := read_reg m (u32 (queue_addr + XGQ_CU_CMD_SLOT_SZ_OFFSET)) in
    let cu := cu <| ci_ip_ctrl := XGQ_IP_CTRL features |> <| ci_slot_size := slot_size |> in
    sizes ← aset_chk (fw_cu_slot_sizes fw) cu_idx slot_size;
    let fw := fw <| fw_cu_cfg ::= fun l => aset l cu_idx cu |>
                 <| fw_sched_cus ::= fun l => aset l cu_idx (cu_set_addr scu (u64 (Z.shiftl addr_hi 32 + addr_lo))) |>
                 <| fw_cu_slot_sizes := sizes |>
                 <| fw_cmd_queue_slot_size ::= fun s =>
                      if fw_flatten_queue fw then (if slot_size <? s then s else slot_size) else s |> in
    r ← respond (ce_polls env) m fw [0; 0; 0; 0];
    Some (0, r.1, r.2).

Definition query_cu (env : ctrl_env) (m : shared) (fw : firmware) : option (Z * firmware * shared) :=
  let queue_addr := u32 (cc_addr (xt_ctrl_cmd (fw_ctrl_xgq fw))) in
  let features := read_reg m (u32 (queue_addr + XGQ_CMD_FEATURE_OFFSET)) in
  let cu_idx := XGQ_CU_IDX features in
  let ret := if ERT_MAX_CUS <? cu_idx then - EINVAL else 0 in
  offset ← (if negb (fw_flatten_queue fw)
            then h ← aget_chk no_handler (fw_cu_xgqs fw) cu_idx; Some (hd_offset h)
            else Some user_queue_offset);
  r ← respond (ce_polls env) m fw
        [0; Z.lor cu_idx (Z.shiftl (b2z (fw_flatten_queue fw)) 31); offset; u32 ret];
  Some (ret, r.1, r.2).

Definition get_clk_counter (env : ctrl_env) (m : shared) (fw : firmware) : option (Z * firmware * shared) :=
  r ← respond (ce_polls env) m fw [0; 0; ce_clock env 0; 0]; Some (0, r.1, r.2).

Definition repetition_write (m : shared) (addr : Z) (loop_cnt : nat) : shared :=
  Nat.iter loop_cnt (fun m => write_reg m addr 0) m.
(** On the registers of a CU. *)
Definition repetition_write_cu (hw : H) (addr : Z) (loop_cnt : nat) : H :=
  Nat.iter loop_cnt (fun hw => cu_reg_write hw addr 0) hw.
Definition repetition_read (hw : H) (addr : Z) (loop_cnt : nat) : H :=
  Nat.iter loop_cnt (fun hw => (cu_reg_read hw addr).2) hw.

(** Cycles per access between two readings of the clock, as a byte. *)
Definition per_access (env : ctrl_env) (i : nat) : Z :=
  u8 (u32 (ce_clock env (S i) - ce_clock env i) / 1024).

Definition validate_mb (env : ctrl_env) (m : shared) (hw : H) (fw : firmware)
  : option (Z * firmware * shared * H) :=
  let cmd_addr := u32 (cc_addr (xt_ctrl_cmd (fw_ctrl_xgq fw))) in
  let m := repetition_write m cmd_addr 1024 in
  cu ← aget_chk no_cu (fw_sched_cus fw) 0;
  let hw := repetition_read hw (cu_addr cu) 1024 in
  let hw := repetition_write_cu hw (cu_addr cu) 1024 in
  r ← respond (ce_polls env) m fw
        [0; per_access env 0 + Z.shiftl (per_access env 2) 8 + Z.shiftl (per_access env 4) 16 +
            Z.shiftl (per_access env 6) 24; 0; 0];
  Some (0, r.1, r.2, hw).

(** The stress test: the host counts down and changes the draft word. *)
Fixpoint stress_test (rounds : list ((shared -> shared) * (shared -> shared))) (m : shared) (queue_addr : Z)
  (ok : bool) : option (bool * shared) :=
  if read_reg m (rw_count_addr queue_addr) =? 0 then Some (ok, m)
  else
    match rounds with
    | [] => None
    | (before, after) :: rounds =>
        let m := before m in
        let pattern := read_reg m (draft_addr queue_addr) in
        let ok := ok && ((pattern =? 0) || (pattern =? 0xFFFFFFFF)) in
        stress_test rounds (after m) queue_addr ok
    end.

(** The words of the slot from [offset] on: access from the host, access from
    the device, memory. *)
Fixpoint rw_test (rw : nat -> shared -> shared) (m : shared) (queue_addr offset : Z) (n : nat)
  : bool * bool * shared :=
  match n with
  | O => (true, true, m)
  | S n =>
      let addr := u32 (queue_addr + offset) in
      if negb (read_reg m addr =? HOST_RW_PATTERN) then (false, true, m)
      else
        let m := rw n (write_reg m addr DEVICE_RW_PATTERN) in
        if negb (read_reg m addr =? DEVICE_RW_PATTERN) then (true, false, m)
        else rw_test rw m queue_addr (offset + 4) n
  end.

(** Whether the CUs from [i] on are idle. *)
Fixpoint cus_idle (hw : H) (fw : firmware) (i : Z) (n : nat) : option (bool * H) :=
  match n with
  | O => Some (true, hw)
  | S n =>
      cu ← aget_chk no_cu (fw_sched_cus fw) i;
      let '(val, hw) := cu_reg_read hw (cu_addr cu) in
      r ← cus_idle hw fw (i + 1) n;
      Some ((val =? 4) && r.1, r.2)
  end.

Definition data_integrity (env : ctrl_env) (m : shared) (hw : H) (fw : firmware)
  : option (Z * firmware * shared * H) :=
  let queue_addr := u32 (cc_addr (xt_ctrl_cmd (fw_ctrl_xgq fw))) in
  s ← stress_test (ce_stress env) m queue_addr true;
  let '(integrity, m) := s in
  let '(h2d, d2d, m) := rw_test (ce_rw env) m queue_addr 16 (Z.to_nat ((CTRL_XGQ_SLOT_SIZE - 16) / 4)) in
  c ← cus_idle hw fw 0 (Z.to_nat (fw_num_cus fw));
  r ← respond (ce_polls env) m fw
        [0; b2z h2d + Z.shiftl (b2z d2d) 1 + Z.shiftl (b2z c.1) 2 + Z.shiftl (b2z integrity) 3; 0];
  Some (0, r.1, r.2, c.2).

Definition exit_mb (env : ctrl_env) (m : shared) (fw : firmware) : option (firmware * shared) :=
  respond (ce_polls env) m fw [0; 0; 0; 0].

Definition identify_xgq (env : ctrl_env) (m : shared) (fw : firmware) : option (Z * firmware * shared) :=
  r ← respond (ce_polls env) m fw
        [0; MINOR + Z.shiftl MAJOR 16; if eb_v30 b then ce_clock env 0 else 0; 0];
  Some (0, r.1, r.2).

Definition with_hw (hw : H) (r : option (Z * firmware * shared)) : option (Z * firmware * shared * H) :=
  p ← r; Some (p, hw).

Definition process_ctrl_command (env : ctrl_env) (m : shared) (hw : H) (fw : firmware)
  : option (Z * firmware * shared * H) :=
  g ← xgq_ctrl_get_cmd m (fw_ctrl_xgq fw);
  let '(have, c, m) := g in
  let fw := fw <| fw_ctrl_xgq := c |> in
  if negb have then Some (- ENOENT, fw, m, hw)
  else
    let opcode := cmd_op_code (xt_ctrl_cmd c) in
    if opcode =? XGQ_CMD_OP_CFG_START then with_hw hw (configure_mb env m fw)
    else if opcode =? XGQ_CMD_OP_CFG_END then with_hw hw (configure_mb_end env m fw)
    else if opcode =? XGQ_CMD_OP_CFG_CU then with_hw hw (save_cfg_cu env m fw)
    else if opcode =? XGQ_CMD_OP_QUERY_CU then with_hw hw (query_cu env m fw)
    else if opcode =? XGQ_CMD_OP_CLOCK_CALIB then with_hw hw (get_clk_counter env m fw)
    else if opcode =? XGQ_CMD_OP_ACCESS_VALID then validate_mb env m hw fw
    else if opcode =? XGQ_CMD_OP_DATA_INTEGRITY then data_integrity env m hw fw
    else if opcode =? XGQ_CMD_OP_EXIT then r ← exit_mb env m fw; Some (0, r.1, r.2, hw)
    else if opcode =? XGQ_CMD_OP_IDENTIFY then with_hw hw (identify_xgq env m fw)
    else Some (- ENOTTY, fw, m, hw).

(** ** [sched.c]: start and main loop *)

(** A control queue that cannot be allocated is used all the same. *)
Definition setup_ctrl_queue (m : shared) (fw : firmware) : option (firmware * shared) :=
  let fw := fw <| fw_ctrl_queue_size := CTRL_XGQ_SPACE |> in
  r ← xgq_alloc mb_build XGQ_IN_MEM_PROD m (u32 (ERT_CQ_BASE_ADDR b + ctrl_queue_offset))
        (fw_ctrl_queue_size fw) CTRL_XGQ_SLOT_SIZE 0 0;
  let '(q, m, size) :=
    match r with
    | inl _ => (xt_xgq (fw_ctrl_xgq fw), m, fw_ctrl_queue_size fw)
    | inr r => r
    end in
  Some (fw <| fw_ctrl_queue_size := size |> <| fw_ctrl_scratch_offset := size |>
           <| fw_ctrl_xgq ::= fun c => xgq_ctrl_init c q |>, m).

(** The start of [_scheduler_loop], before the loop. *)
Definition scheduler_start (m : shared) : option (firmware * shared) :=
  let m := write_reg m (ERT_CQ_BASE_ADDR b) ERT_VER in
  r ← setup_ctrl_queue m firmware0;
  s ← setup_cu_queue r.2 r.1;
  let '(_, fw, m) := s in
  Some (fw, m).

(** [while (!process_ctrl_command())]: one environment per command, the last for
    the call that returns an error. *)
Fixpoint ctrl_loop (envs : list ctrl_env) (m : shared) (hw : H) (fw : firmware)
  : option (firmware * shared * H) :=
  match envs with
  | [] => None
  | env :: envs =>
      r ← process_ctrl_command env m hw fw;
      let '(ret, fw, m, hw) := r in
      if ret =? 0 then ctrl_loop envs m hw fw else Some (fw, m, hw)
  end.

Definition cu_process_at (polls : list (shared -> shared) * list (shared -> shared)) (m : shared) (hw : H)
  (fw : firmware) (slot_idx : Z) : option (Z * firmware * shared * H) :=
  xc ← handler_at fw slot_idx;
  r ← xgq_cu_process (eb_developer b && fw_echo fw) polls.1 polls.2 m hw xc;
  let '(ret, xc, m, hw) := r in
  Some (ret, put_handler fw slot_idx xc, m, hw).

(** [while (!xgq_cu_process(...))] *)
Fixpoint cu_loop (calls : list (list (shared -> shared) * list (shared -> shared))) (m : shared) (hw : H)
  (fw : firmware) (slot_idx : Z) : option (firmware * shared * H) :=
  match calls with
  | [] => None
  | polls :: calls =>
      r ← cu_process_at polls m hw fw slot_idx;
      let '(ret, fw, m, hw) := r in
      if ret =? 0 then cu_loop calls m hw fw slot_idx else Some (fw, m, hw)
  end.

Fixpoint cu_loops (calls : Z -> list (list (shared -> shared) * list (shared -> shared))) (m : shared)
  (hw : H) (fw : firmware) (slot_idx : Z) (n : nat) : option (firmware * shared * H) :=
  match n with
  | O => Some (fw, m, hw)
  | S n =>
      r ← cu_loop (calls slot_idx) m hw fw slot_idx;
      let '(fw, m, hw) := r in
      cu_loops calls m hw fw (slot_idx + 1) n
  end.

(** One round of the endless loop. *)
Definition scheduler_round (envs : list ctrl_env)
  (calls : Z -> list (list (shared -> shared) * list (shared -> shared))) (m : shared) (hw : H) (fw : firmware)
  : option (firmware * shared * H) :=
  r ← ctrl_loop envs m hw fw;
  let '(fw, m, hw) := r in
  if fw_cfg_complete fw then cu_loops calls m hw fw 0 (Z.to_nat (fw_num_cus fw))
  else Some (fw, m, hw).
End Sched.
