(* ===== verification/ErtCtrlSpec.v ===== *)
(** * Embedded scheduler: the configuration protocol

    The control queue of the firmware implements a small protocol: the host
    opens a configuration, describes the CUs, closes it, and asks for the queue
    of each CU.  [spec] says what each request answers and does to a
    configuration; one lemma per request shows that the firmware does it. *)
From S2P Require Import Prelude KdsCommand CuCore CuHls Xgq XgqRing XgqLink XgqAlloc XgqGroup.
From S2P Require Import XoclXgq ErtCu ErtCuProof ErtCtrl.

(** ** Specification *)

(** What the host has configured: number of CUs, whether they share one queue,
    whether the configuration is closed, address, slot size and, in the command
    queue, offset of the queue of each CU. *)
Record config := mk_config {
  cf_num : Z;
  cf_flat : bool;
  cf_done : bool;
  cf_addr : list Z;
  cf_size : list Z;
  cf_offset : list Z;
}.
#[export] Instance eta_config : Eta config := fun c =>
  mk_config (cf_num c) (cf_flat c) (cf_done c) (cf_addr c) (cf_size c) (cf_offset c).

Inductive request :=
| CfgStart (features : Z)
| CfgCu (cu_idx laddr haddr slot_size : Z)
| CfgEnd
| QueryCu (cu_idx : Z)
| ClockCalib
| AccessValid
| DataIntegrity
| Exit
| Identify.

(** Bytes of the command queue for the queues of the CUs. *)
Definition cu_space : Z := 0xf800.

(** Base two logarithm of the number of slots: as many as fit, at most [2 ^ n]. *)
Fixpoint fit_log (sizes : list Z) (n : nat) : nat :=
  match n with
  | O => O
  | S n' => if len_sum (2 ^ Z.of_nat n) sizes <=? cu_space then n else fit_log sizes n'
  end.

Definition spec_cfg_end (c : config) : config * Z :=
  let sizes := take (Z.to_nat (cf_num c)) (cf_size c) in
  if (cf_num c =? 0) || cf_flat c then (c <| cf_done := true |>, 0)
  else if existsb (fun s => z2b (s mod 4)) sizes then (c, - EINVAL)
  else if cu_space <? len_sum 2 sizes then (c, - E2BIG)
  else
    let n := 2 ^ Z.of_nat (fit_log sizes 7) in
    (c <| cf_done := true |>
       <| cf_offset ::= fun l => imap (fun i _ => group_at 0x800 n sizes i) sizes ++
                                 drop (length sizes) l |>, 0).

(** The new configuration and the return code. *)
Definition spec (c : config) (r : request) : config * Z :=
  match r with
  | CfgStart f =>
      let num := f mod 2 ^ 13 in
      (c <| cf_num := num |> <| cf_flat := (32 <? num) || Z.testbit f 16 || Z.testbit f 17 |>
         <| cf_done := false |>, 0)
  | CfgCu i lo hi size =>
      if cf_num c <=? i then (c, - EINVAL)
      else (c <| cf_addr ::= fun l => aset l i (hi * 2 ^ 32 + lo) |>
              <| cf_size ::= fun l => aset l i size |>, 0)
  | CfgEnd => spec_cfg_end c
  | _ => (c, 0)
  end.

(** The words of the answer; the second word of the two tests is a
    measurement. *)
Definition spec_answer (c : config) (r : request) (clock : Z) (v30 : bool) (resp : list Z) : Prop :=
  let rcode := u32 (spec c r).2 in
  match r with
  | CfgStart _ => resp = [0; 1; 0; 0]
  | QueryCu i =>
      resp = [0; i + (if cf_flat c then 2 ^ 31 else 0);
              if cf_flat c then 0x800 else aget 0 (cf_offset c) i; 0]
  | ClockCalib => resp = [0; 0; clock; 0]
  | AccessValid => exists w, resp = [0; w; 0; 0]
  | DataIntegrity => exists w, resp = [0; w; 0] /\ 0 <= w < 16
  | Identify => resp = [0; 2 ^ 16; if v30 then clock else 0; 0]
  | _ => resp = [0; 0; 0; rcode]
  end.

(** The request in a slot of the submission ring. *)
Definition decode (m : shared) (cmd : sched_cmd) : option request :=
  let word off := reg_read m (u32 (u32 (cc_addr cmd) + off)) in
  let op := cmd_op_code cmd in
  if op =? XGQ_CMD_OP_CFG_START then Some (CfgStart (word 8))
  else if op =? XGQ_CMD_OP_CFG_END then Some CfgEnd
  else if op =? XGQ_CMD_OP_CFG_CU then Some (CfgCu (word 8 mod 2 ^ 12) (word 16) (word 20) (word 24))
  else if op =? XGQ_CMD_OP_QUERY_CU then Some (QueryCu (word 8 mod 2 ^ 12))
  else if op =? XGQ_CMD_OP_CLOCK_CALIB then Some ClockCalib
  else if op =? XGQ_CMD_OP_ACCESS_VALID then Some AccessValid
  else if op =? XGQ_CMD_OP_DATA_INTEGRITY then Some DataIntegrity
  else if op =? XGQ_CMD_OP_EXIT then Some Exit
  else if op =? XGQ_CMD_OP_IDENTIFY then Some Identify
  else None.

(** Requests the firmware can serve: at most 32 CUs, slot sizes that leave room
    for 32-bit lengths, and questions about existing queues. *)
Definition request_ok (c : config) (r : request) : Prop :=
  match r with
  | CfgStart f => f mod 2 ^ 13 <= 32
  | CfgEnd => cf_flat c = false -> Forall (fun s => 4 <= s <= 2 ^ 24) (take (Z.to_nat (cf_num c)) (cf_size c))
  | QueryCu i => i < 32
  | _ => True
  end.

(** Compute a field of an updated state. *)
Ltac fwsimpl :=
  cbv [upd fw_num_cus fw_ctrl_queue_size fw_ctrl_scratch_offset fw_ctrl_xgq fw_xgqs fw_cu_xgqs fw_cu_slot_sizes
    fw_sched_cus fw_i2h fw_i2e fw_cui fw_dmsg fw_echo fw_cmd_queue_mode fw_scratch_mode fw_flatten_queue
    fw_cfg_complete fw_cmd_queue_slot_size fw_cu_cfg].

(** ** The control queue *)

(** Reading and writing pointers does not move a ring. *)
Definition same_place (r r' : xgq_ring) : Prop :=
  xr_slot_num r' = xr_slot_num r /\ xr_slot_sz r' = xr_slot_sz r /\ xr_slot_addr r' = xr_slot_addr r /\
  xr_produced_addr r' = xr_produced_addr r /\ xr_consumed_addr r' = xr_consumed_addr r.

Lemma consume_place m q ret slot q' m' : xgq_consume mb_build m q = Some (ret, slot, q', m') ->
  same_place (xq_sq q) (xq_sq q') /\ xq_cq q' = xq_cq q /\ xq_flags q' = xq_flags q.
Proof.
  unfold xgq_consume, xgq_can_consume. intros E.
  destruct (negb (xgq_ring_empty _)); cbn [mbind option_bind negb] in E.
  { by injection E as <- <- <- <-. }
  destruct (xgq_ring_read_produced _ _ _ _) as [r|] eqn:Er; [|done]. cbn [mbind option_bind] in E.
  unfold xgq_ring_read_produced in Er. apply bind_Some in Er as (v & _ & [= <-]).
  destruct (negb (xgq_ring_empty _)); cbn [negb mbind option_bind] in E; by injection E as <- <- <- <-.
Qed.

Lemma produce_place m q ret slot q' : xgq_produce mb_build m q = Some (ret, slot, q') ->
  same_place (xq_cq q) (xq_cq q') /\ xq_sq q' = xq_sq q /\ xq_flags q' = xq_flags q /\
  (forall a, slot = Some a -> a = xgq_ring_slot_ptr_produced (xq_cq q)) /\
  (slot = None -> xr_produced (xq_cq q') = xr_produced (xq_cq q)).
Proof.
  unfold xgq_produce, xgq_can_produce. intros E.
  destruct (negb (xgq_ring_full _)); cbn [mbind option_bind negb] in E.
  { injection E as <- <- <-. split_and!; try done. by intros a [= <-]. }
  destruct (xgq_ring_read_consumed _ _ _ _) as [r|] eqn:Er; [|done]. cbn [mbind option_bind] in E.
  unfold xgq_ring_read_consumed in Er. apply bind_Some in Er as (v & _ & [= <-]).
  destruct (negb (xgq_ring_full _)); cbn [negb] in E; injection E as <- <- <-; split_and!; try done.
  by intros a [= <-].
Qed.

Lemma slot_ptr_place r r' : same_place r r' -> xr_produced r' = xr_produced r ->
  xgq_ring_slot_ptr_produced r' = xgq_ring_slot_ptr_produced r.
Proof. unfold xgq_ring_slot_ptr_produced. by intros (-> & -> & -> & _) ->. Qed.

Lemma same_place_trans r1 r2 r3 : same_place r1 r2 -> same_place r2 r3 -> same_place r1 r3.
Proof. unfold same_place. intuition congruence. Qed.

Lemma wait_produce_place polls : forall m q addr q' m', wait_produce polls m q = Some (addr, q', m') ->
  same_place (xq_cq q) (xq_cq q') /\ xq_sq q' = xq_sq q /\ xq_flags q' = xq_flags q /\
  addr = xgq_ring_slot_ptr_produced (xq_cq q).
Proof.
  induction polls as [|host polls IH]; intros m q addr q' m' E; cbn [wait_produce] in E;
    apply bind_Some in E as ([[r slot] q1] & Hp & E); apply produce_place in Hp as (H1 & H2 & H3 & H4 & H5);
    destruct slot as [a|]; try done; try (injection E as <- <- <-; split_and!; try done; by apply H4).
  apply IH in E as (E1 & E2 & E3 & ->). split_and!; try congruence; [by eapply same_place_trans|].
  apply slot_ptr_place; [done|by apply H5].
Qed.

(** The rings of the control queue of [setup_ctrl_queue]: two slots. *)
Definition ctrl_rings (base : Z) (q : xgq) : Prop :=
  same_place (start_ring (base + 4) 1 512 SQ (base + 40) (base + 44) 0) (xq_sq q) /\
  same_place (start_ring (base + 4) 1 512 CQ (base + 40) (base + 44) 0) (xq_cq q).

Lemma put_words_copy resp : forall m addr, 0 <= addr -> addr + 4 * Z.of_nat (length resp) <= 2 ^ 32 ->
  put_words m addr resp = xgq_copy_to_ring m resp addr.
Proof.
  induction resp as [|w resp IH]; intros m addr Ha Hl; [done|]. cbn [put_words xgq_copy_to_ring length] in *.
  unfold reg_write, xgq_mem_write32. rewrite u32_small by lia. rewrite u64_small by lia. apply IH; lia.
Qed.

(** One answer: the entry [resp] in the next slot of the completion ring, the
    command acknowledged and no longer in hand. *)
Record answered_with (c c' : xgq_ctrl) (m' : shared) (resp : list Z) : Prop := {
  aw_taken : taken (xt_xgq c') = taken (xt_xgq c);
  aw_answered : answered (xt_xgq c') = u32 (answered (xt_xgq c) + 1);
  aw_hand : cmd_is_valid (xt_ctrl_cmd c') = false;
  aw_words : forall j w, resp !! j = Some w ->
    ioread32 m' (xgq_ring_slot_ptr_produced (xq_cq (xt_xgq c)) + 4 * Z.of_nat j) = u32 w;
  aw_published : ioread32 m' (xr_produced_addr (xq_cq (xt_xgq c))) = answered (xt_xgq c');
}.

Section Ctrl.
Context (b : ert_build).
#[local] Abbreviation base := (ERT_CQ_BASE_ADDR b).
Hypothesis Hbase : 0 <= base /\ base + ERT_CQ_SIZE < 2 ^ 32.

Lemma ctrl_slot q : ctrl_rings base q ->
  xgq_ring_slot_ptr_produced (xq_cq q) = base + 1072 \/ xgq_ring_slot_ptr_produced (xq_cq q) = base + 1088.
Proof.
  intros [_ (Hn & Hz & Ha & _)]. unfold xgq_ring_slot_ptr_produced. rewrite Hn, Hz, Ha.
  cbn [start_ring xr_slot_num xr_slot_sz xr_slot_addr queue_geom g_sz g_slots].
  unfold sizeof_header, sizeof_com_entry, ERT_CQ_SIZE in *. change (u32 (2 ^ 1 - 1)) with (Z.ones 1).
  rewrite Z.land_ones by lia. change (2 ^ 1) with 2.
  assert (xr_produced (xq_cq q) mod 2 = 0 \/ xr_produced (xq_cq q) mod 2 = 1) as [-> | ->]
    by (pose proof (Z.mod_pos_bound (xr_produced (xq_cq q)) 2); lia).
  - left. rewrite u32_small by lia. rewrite u64_small by lia. lia.
  - right. rewrite u32_small by lia. rewrite u64_small by lia. lia.
Qed.

Lemma response_ok polls m c resp c' m' : ctrl_rings base (xt_xgq c) -> (length resp <= 4)%nat ->
  xgq_ctrl_response polls m c resp = Some (c', m') ->
  ctrl_rings base (xt_xgq c') /\ answered_with c c' m' resp /\ xq_flags (xt_xgq c') = xq_flags (xt_xgq c).
Proof.
  intros HR Hlen E. unfold xgq_ctrl_response in E. apply bind_Some in E as ([[addr q] m1] & Hw & E).
  pose proof (wait_produce_ptrs _ _ _ _ _ _ Hw) as [Ht Ha].
  apply wait_produce_place in Hw as (Hp & Hsq & Hfl & Haddr). injection E as <- <-. rproj.
  assert (ctrl_rings base q) as HR'.
  { destruct HR as [HR1 HR2]. split; [by rewrite Hsq|by eapply same_place_trans]. }
  split; [done|]. split; [|done]. pose proof (ctrl_slot _ HR) as Hslot. rewrite <- Haddr in Hslot.
  unfold ERT_CQ_SIZE in *. rewrite put_words_copy by lia.
  assert (xr_produced_addr (xq_cq (xt_xgq c)) = base + 44 /\ xr_produced_addr (xq_cq q) = base + 44) as [Hpa Hpa'].
  { destruct HR as [_ (_ & _ & _ & -> & _)], HR' as [_ (_ & _ & _ & -> & _)]. done. }
  unfold xgq_notify_peer_produced, xgq_ring_write_produced. cbn [prod_ring mb_build XGQ_SERVER].
  rewrite xgq_write32_eq, Hpa'. split; rproj; [done|done|done| |].
  - intros j w Ej. rewrite <- Haddr. rewrite ioread_write_ne by lia. apply lookup_lt_Some in Ej as Hj.
    rewrite copy_to_nth by lia. f_equal. by apply nth_lookup_Some with (d := 0) in Ej.
  - rewrite Hpa, ioread_write_eq. change (u32 (answered q) = answered q). by rewrite Ha, u32_u32.
Qed.

(** ** The configuration *)

(** The state of the firmware represents a configuration. *)
Record fw_rel (fw : firmware) (c : config) : Prop := {
  fr_num : fw_num_cus fw = cf_num c /\ 0 <= cf_num c <= 32;
  fr_flat : fw_flatten_queue fw = cf_flat c;
  fr_done : fw_cfg_complete fw = cf_done c;
  fr_addr : cu_addr <$> fw_sched_cus fw = cf_addr c;
  fr_size : fw_cu_slot_sizes fw = cf_size c;
  fr_offset : hd_offset <$> fw_cu_xgqs fw = cf_offset c;
  fr_xgqs : length (fw_xgqs fw) = 32%nat;
  fr_cu_xgqs : length (fw_cu_xgqs fw) = 32%nat;
  fr_slot_sizes : length (fw_cu_slot_sizes fw) = 32%nat;
  fr_sched_cus : length (fw_sched_cus fw) = 32%nat;
  fr_cu_cfg : length (fw_cu_cfg fw) = 128%nat;
  fr_bound : cf_done c = true -> cf_flat c = false ->
    forall i, 0 <= i < cf_num c -> hd_bound (aget no_handler (fw_cu_xgqs fw) i) = true;
  fr_ctrl : ctrl_rings base (xt_xgq (fw_ctrl_xgq fw));
}.

(** In a memory with [K] the host makes room in the completion ring while the
    firmware polls it. *)
Definition host_room (K : shared -> Prop) (env : ctrl_env) (q : xgq) : Prop :=
  forall m q', words_ok m -> K m -> xq_cq q' = xq_cq q -> xq_flags q' = xq_flags q ->
  is_Some (wait_produce (ce_polls env) m q').

(** It always does. *)
Definition host_reads : ctrl_env -> xgq -> Prop := host_room (fun _ => True).

(** [K] is about the host's pointer in the completion ring. *)
Definition keeps (K : shared -> Prop) : Prop :=
  (forall m m', ioread32 m' (base + 32) = ioread32 m (base + 32) -> K m -> K m') /\
  forall m v, K m -> K (write_reg m (ERT_HOST_INTERRUPT_ENABLE_ADDR b) v).

Lemma keeps_any : keeps (fun _ => True).
Proof. done. Qed.

Lemma respond_ok K env m fw c resp : keeps K -> K m ->
  fw_rel fw c -> words_ok m -> host_room K env (xt_xgq (fw_ctrl_xgq fw)) -> (length resp <= 4)%nat ->
  exists c' m', respond (ce_polls env) m fw resp = Some (fw <| fw_ctrl_xgq := c' |>, m') /\
    fw_rel (fw <| fw_ctrl_xgq := c' |>) c /\ answered_with (fw_ctrl_xgq fw) c' m' resp.
Proof.
  intros [HK _] Hk HR Hm Hh Hl. unfold respond.
  assert (is_Some (xgq_ctrl_response (ce_polls env) m (fw_ctrl_xgq fw) resp)) as [[c' m'] E].
  { unfold xgq_ctrl_response. rproj.
    destruct (Hh (xgq_notify_peer_consumed mb_build m (xt_xgq (fw_ctrl_xgq fw))) (xt_xgq (fw_ctrl_xgq fw)))
      as [[[addr q] m1] Ew]; [by apply words_ok_write| |done|done|].
    { eapply HK; [|exact Hk]. unfold xgq_notify_peer_consumed, xgq_ring_write_consumed, xgq_mem_write32.
      rewrite ioread_write_ne; [done|]. destruct (fr_ctrl _ _ HR) as [(_ & _ & _ & _ & E) _]. cbn [cons_ring mb_build XGQ_SERVER].
      rewrite E. cbn. unfold off_sq_consumed. lia. }
    rewrite Ew. cbn [mbind option_bind]. by eexists. }
  destruct (response_ok _ _ _ _ _ _ (fr_ctrl _ _ HR) Hl E) as (Hr & Ha & _).
  exists c', m'. rewrite E. split; [reflexivity|]. split; [|done]. destruct HR. split; rproj; done.
Qed.

(** What serving request [r] means. *)
Definition served {H} (env : ctrl_env) (fw : firmware) (c : config) (r : request)
  (res : option (Z * firmware * shared * H)) : Prop :=
  exists fw' m' hw' resp, res = Some ((spec c r).2, fw', m', hw') /\ fw_rel fw' (spec c r).1 /\
    spec_answer c r (ce_clock env 0) (eb_v30 b) resp /\
    answered_with (fw_ctrl_xgq fw) (fw_ctrl_xgq fw') m' resp.

(** ** Bit fields of the requests *)

Lemma z2b_bit f n : 0 <= n -> z2b (Z.land f (Z.shiftl 1 n)) = Z.testbit f n.
Proof.
  intros Hn. rewrite Z.shiftl_1_l. unfold z2b. destruct (Z.testbit f n) eqn:E.
  - destruct (Z.eqb_spec (Z.land f (2 ^ n)) 0) as [E0|]; [|done].
    apply (f_equal (fun z => Z.testbit z n)) in E0. by rewrite Z.land_spec, E, Z.pow2_bits_true, Z.bits_0 in E0.
  - replace (Z.land f (2 ^ n)) with 0; [done|]. symmetry. apply Z.bits_inj_0. intros i.
    rewrite Z.land_spec, Z.pow2_bits_eqb by done. destruct (Z.eqb_spec n i) as [<-|]; [by rewrite E|apply andb_false_r].
Qed.

Lemma mask_mod f n : 0 <= n < 32 -> Z.land f (MASK_BIT_32 n) = f mod 2 ^ n.
Proof.
  intros Hn. unfold MASK_BIT_32. replace (n =? 32) with false by lia.
  rewrite Z.shiftl_1_l, Z.sub_1_r, <- Z.ones_equiv. apply Z.land_ones. lia.
Qed.

Lemma reg_read_range m a : words_ok m -> 0 <= reg_read m a < 2 ^ 32.
Proof. intros Hm. apply Hm. Qed.

Lemma aget_chk_in {A} (d : A) l i : 0 <= i < Z.of_nat (length l) -> aget_chk d l i = Some (aget d l i).
Proof. intros Hi. unfold aget_chk. by rewrite (proj2 (in_arr_true l i) Hi). Qed.

Lemma aset_chk_in {A} (l : list A) i v : 0 <= i < Z.of_nat (length l) -> aset_chk l i v = Some (aset l i v).
Proof. intros Hi. unfold aset_chk. by rewrite (proj2 (in_arr_true l i) Hi). Qed.

Lemma aget_fmap {A B} (f : A -> B) d l i : aget (f d) (f <$> l) i = f (aget d l i).
Proof. unfold aget. rewrite list_lookup_fmap. by destruct (l !! _). Qed.

Lemma aset_fmap {A B} (f : A -> B) l i x : f <$> aset l i x = aset (f <$> l) i (f x).
Proof. apply list_fmap_insert. Qed.

(** ** Setting up the handlers *)

(** Handler, CU and queue [i] of the arrays. *)
#[local] Abbreviation hd_at fw i := (aget no_handler (fw_cu_xgqs fw) i).
#[local] Abbreviation cu_at fw i := (aget no_cu (fw_sched_cus fw) i).
#[local] Abbreviation q_at fw i := (aget no_xgq (fw_xgqs fw) i).

Definition arrays_ok (fw : firmware) : Prop :=
  length (fw_xgqs fw) = 32%nat /\ length (fw_cu_xgqs fw) = 32%nat /\ length (fw_sched_cus fw) = 32%nat.

(** Only the handlers and the status of the CUs have changed. *)
Definition only_handlers (fw fw' : firmware) : Prop :=
  fw' = fw <| fw_sched_cus := fw_sched_cus fw' |> <| fw_cu_xgqs := fw_cu_xgqs fw' |> /\ arrays_ok fw' /\
  cu_addr <$> fw_sched_cus fw' = cu_addr <$> fw_sched_cus fw.

Lemma setup_handler_ok fw i : arrays_ok fw -> 0 <= i < 32 ->
  exists fw', setup_handler b fw i = Some fw' /\ only_handlers fw fw' /\
    fw_cu_xgqs fw' = aset (fw_cu_xgqs fw) i
      (mk_handler true (cmd_set_addr (hd_cmd (hd_at fw i)) 0 <| cc_header0 := 0 |>) 0 (XGQ_OFFSET b (q_at fw i)) i
         (u32 (ERT_CSR_ADDR b))).
Proof.
  intros (Hq & Hh & Hc) Hi. unfold setup_handler.
  rewrite (aget_chk_in _ (fw_cu_xgqs fw)), (aget_chk_in _ (fw_xgqs fw)), (aget_chk_in _ (fw_sched_cus fw)) by lia.
  cbn [mbind option_bind].
  replace (Z.shiftr i 5) with 0 by (rewrite Z.shiftr_div_pow2, Z.div_small; lia).
  change (aget_chk 0 (STATUS_REGISTER_ADDR b) 0) with (Some (u32 (ERT_CSR_ADDR b + 0))). cbn [mbind option_bind].
  rewrite Z.add_0_r. eexists. split; [reflexivity|]. split; [split; [|split]|reflexivity].
  - pose proof (aset_aget no_xgq (fw_xgqs fw) i ltac:(lia)) as Eq. unfold put_handler, xgq_cu_init. rproj.
    destruct fw. cbv [upd]. cbn -[aset aget] in *. by rewrite Eq.
  - unfold arrays_ok, put_handler. rproj. by rewrite !length_aset.
  - unfold put_handler, xgq_cu_init. rproj. rewrite aset_fmap. unfold cu_set_status. rproj.
    rewrite <- (aget_fmap cu_addr no_cu). apply aset_aget. rewrite length_fmap. lia.
Qed.

Lemma only_handlers_trans fw1 fw2 fw3 :
  only_handlers fw1 fw2 -> only_handlers fw2 fw3 -> only_handlers fw1 fw3.
Proof.
  intros (E1 & _ & A1) (E2 & H2 & A2). split; [|split; [done|by rewrite A2]].
  rewrite E2 at 1. rewrite E1. by destruct fw1.
Qed.

Lemma setup_handlers_ok n : forall fw i, arrays_ok fw -> 0 <= i -> i + Z.of_nat n <= 32 ->
  exists fw', setup_handlers b fw i n = Some fw' /\ only_handlers fw fw' /\
    forall j, 0 <= j -> hd_at fw' j =
      if (i <=? j) && (j <? i + Z.of_nat n)
      then mk_handler true (cmd_set_addr (hd_cmd (hd_at fw j)) 0 <| cc_header0 := 0 |>) 0 (XGQ_OFFSET b (q_at fw j)) j
             (u32 (ERT_CSR_ADDR b))
      else hd_at fw j.
Proof.
  induction n as [|n IH]; intros fw i HA Hi Hn.
  { exists fw. split; [done|]. split; [split; [by destruct fw|done]|]. intros j Hj.
    change (Z.of_nat 0) with 0. by replace ((i <=? j) && (j <? i + 0)) with false by lia. }
  rewrite Nat2Z.inj_succ, <- Z.add_1_r in *. pose proof (Nat2Z.is_nonneg n).
  cbn [setup_handlers]. destruct (setup_handler_ok fw i HA) as (fw1 & E1 & H1 & Hx); [lia|].
  rewrite E1. cbn [mbind option_bind]. destruct (IH fw1 (i + 1)) as (fw' & E & H' & Hj); [apply H1|lia|lia|].
  exists fw'. split; [done|]. split; [by eapply only_handlers_trans|]. intros j Hj0. rewrite Hj by done.
  assert (fw_xgqs fw1 = fw_xgqs fw) as Eq by (rewrite (proj1 H1); done).
  destruct HA as (_ & Hl & _). destruct (decide (j = i)) as [->|Hne].
  - replace ((i + 1 <=? i) && _) with false by lia.
    replace ((i <=? i) && (i <? i + (Z.of_nat n + 1))) with true by lia. rewrite Hx. apply aget_aset_eq. lia.
  - assert (hd_at fw1 j = hd_at fw j) as -> by (rewrite Hx; apply aget_aset_ne; lia).
    replace ((i + 1 <=? j) && (j <? i + 1 + Z.of_nat n)) with ((i <=? j) && (j <? i + (Z.of_nat n + 1))) by lia.
    by rewrite Eq.
Qed.

(** ** Closing a configuration *)

Lemma len_sum_le n B sizes : 0 <= n -> Forall (fun s => s <= B) sizes ->
  len_sum n sizes <= Z.of_nat (length sizes) * (44 + n * (B + 16)).
Proof.
  intros Hn. induction 1 as [|s sizes Hs _ IH]; [done|]. rewrite len_sum_cons. cbn [length].
  unfold sizeof_header, sizeof_com_entry in *. nia.
Qed.

Lemma fit_log_eq sizes k : Forall (fun s => 0 <= s) sizes -> 1 <= k -> len_sum (2 ^ k) sizes <= cu_space ->
  forall n, k <= Z.of_nat n -> (2 ^ k = 2 ^ Z.of_nat n \/ cu_space < len_sum (2 ^ (k + 1)) sizes) ->
  Z.of_nat (fit_log sizes n) = k.
Proof.
  intros HS Hk Hfit. induction n as [|n IH]; intros Hn Hmax; [lia|]. cbn [fit_log].
  destruct (decide (k = Z.of_nat (S n))) as [Ek|Hne].
  { rewrite <- Ek. by replace (len_sum (2 ^ k) sizes <=? cu_space) with true by lia. }
  destruct Hmax as [E|Hlt]; [apply Z.pow_inj_r in E; lia|].
  assert (len_sum (2 ^ (k + 1)) sizes <= len_sum (2 ^ Z.of_nat (S n)) sizes).
  { apply len_sum_mono; [|done]. split; [apply Z.pow_nonneg; lia|apply Z.pow_le_mono_r; lia]. }
  replace (_ <=? cu_space) with false by lia. apply IH; [lia|by right].
Qed.

Lemma list_eq_aget {A} (d : A) l l' : length l = length l' ->
  (forall i, (i < length l)%nat -> aget d l (Z.of_nat i) = aget d l' (Z.of_nat i)) -> l = l'.
Proof.
  intros Hl Hi. apply list_eq_same_length with (n := length l); [done|done|].
  intros i x y Hlt Ex Ey. specialize (Hi i Hlt). unfold aget in Hi. rewrite Nat2Z.id, Ex, Ey in Hi. done.
Qed.

(** The sizes of the CUs of a configuration. *)
Definition cu_sizes (c : config) : list Z := take (Z.to_nat (cf_num c)) (cf_size c).

Lemma length_cu_sizes fw c : fw_rel fw c -> Z.of_nat (length (cu_sizes c)) = cf_num c.
Proof.
  intros HR. unfold cu_sizes. rewrite length_take, <- (fr_size _ _ HR), (fr_slot_sizes _ _ HR).
  destruct (fr_num _ _ HR). lia.
Qed.

Lemma cfg_group_args fw c m : fw_rel fw c -> words_ok m -> cf_num c <> 0 ->
  Forall (fun s => 4 <= s <= 2 ^ 24) (cu_sizes c) -> group_args (base + 0x800) cu_space (cu_sizes c) 128 m.
Proof.
  intros HR Hm Hn HS. pose proof (length_cu_sizes fw c HR) as Hl. destruct (fr_num _ _ HR) as [_ Hnum].
  assert (Forall (fun s => 4 <= s) (cu_sizes c)) as H4 by (eapply Forall_impl; [exact HS|]; cbn; lia).
  unfold ERT_CQ_SIZE in Hbase. split; [|split; [done|]|done|unfold cu_space; lia|right; by exists 7|done].
  - intros E. rewrite E in Hl. cbn in Hl. lia.
  - pose proof (len_sum_le 2 (2 ^ 24) (cu_sizes c) ltac:(lia)) as Hb.
    rewrite Hl in Hb. specialize (Hb ltac:(eapply Forall_impl; [exact HS|]; cbn; lia)). nia.
Qed.

(** The queues of the CUs in memory, and handlers at rest. *)
Definition queues_ready (c : config) (fw : firmware) (m : shared) : Prop :=
  (exists F, group_mem (Z.of_nat (fit_log (cu_sizes c) 7)) (base + 0x800) (cu_sizes c) F
     (take (Z.to_nat (cf_num c)) (fw_xgqs fw)) m) /\
  len_sum (2 ^ Z.of_nat (fit_log (cu_sizes c) 7)) (cu_sizes c) <= cu_space /\
  forall i, 0 <= i < cf_num c ->
    hd_bound (hd_at fw i) = true /\ hd_cmd_running (hd_at fw i) = 0 /\ cmd_is_valid (hd_cmd (hd_at fw i)) = false.

Definition outside_cus (a : Z) : Prop := a < base + 0x800 \/ base + ERT_CQ_SIZE <= a.

(** Handlers set up on [qs]. *)
Lemma handlers_offsets fw fw' c qs k :
  let n := 2 ^ k in let sizes := cu_sizes c in
  fw_rel fw c -> length qs = length sizes -> 0 <= k -> len_sum n sizes <= cu_space -> Forall slot_ok sizes ->
  (forall i s, sizes !! i = Some s -> exists q, qs !! i = Some q /\
     xq_header_addr q = group_at (base + 0x800) n sizes i) ->
  arrays_ok fw' ->
  (forall j, 0 <= j -> hd_at fw' j =
     if (0 <=? j) && (j <? 0 + cf_num c)
     then mk_handler true (cmd_set_addr (hd_cmd (hd_at fw j)) 0 <| cc_header0 := 0 |>) 0
            (XGQ_OFFSET b (aget no_xgq (put_queues (fw_xgqs fw) qs) j)) j (u32 (ERT_CSR_ADDR b))
     else hd_at fw j) ->
  hd_offset <$> fw_cu_xgqs fw' =
  imap (fun i _ => group_at 0x800 n sizes i) sizes ++ drop (length sizes) (cf_offset c).
Proof.
  intros n sizes HR Hlq Hk Hfit HS Hq (_ & Hlh & _) Hh. pose proof (length_cu_sizes fw c HR) as Hl.
  fold sizes in Hl. destruct (fr_num _ _ HR) as [_ Hnum]. unfold ERT_CQ_SIZE in Hbase.
  apply (list_eq_aget (hd_offset no_handler)).
  { rewrite length_app, length_imap, length_drop, length_fmap, Hlh, <- (fr_offset _ _ HR), length_fmap,
      (fr_cu_xgqs _ _ HR). lia. }
  intros i Hi. rewrite length_fmap, Hlh in Hi. rewrite aget_fmap, Hh by lia.
  set (rhs := _ ++ _). replace (aget _ rhs _) with (default 0 (rhs !! i)) by (unfold aget; by rewrite Nat2Z.id).
  subst rhs. destruct (Z.ltb_spec (Z.of_nat i) (0 + cf_num c)) as [Hlt|Hge].
  - replace ((0 <=? Z.of_nat i) && true) with true by lia. cbn [hd_offset].
    destruct (lookup_lt_is_Some_2 sizes i) as [s Es]; [lia|]. destruct (Hq i s Es) as (q & Eq & Ea).
    rewrite lookup_app_l by (rewrite length_imap; lia). rewrite list_lookup_imap, Es. cbn [fmap option_fmap option_map from_option id].
    unfold aget, put_queues. rewrite Nat2Z.id, lookup_app_l by lia. rewrite Eq. cbn [from_option id]. unfold XGQ_OFFSET. rewrite Ea.
    destruct (group_at_bounds 0x800 n sizes i s) as [B1 B2]; [apply Z.pow_nonneg; lia|done|done|].
    assert (0 <= len_sum n [s]) by (apply len_sum_nonneg; [apply Z.pow_nonneg; lia|repeat constructor;
      destruct (proj1 (Forall_lookup _ _) HS i s Es); lia]).
    unfold group_at, cu_space in *. rewrite u32_small by lia. lia.
  - rewrite andb_false_r. rewrite lookup_app_r by (rewrite length_imap; lia). rewrite length_imap, lookup_drop.
    replace (length sizes + (i - length sizes))%nat with i by lia. rewrite <- (fr_offset _ _ HR), list_lookup_fmap.
    unfold aget. rewrite Nat2Z.id. by destruct (fw_cu_xgqs fw !! i).
Qed.

(** A configuration with queues of its own, closed successfully. *)
Definition makes_queues (c : config) : Prop :=
  cf_num c <> 0 /\ cf_flat c = false /\ (spec_cfg_end c).2 = 0.

Lemma only_handlers_refl fw c : fw_rel fw c -> only_handlers fw fw.
Proof. intros HR. split; [by destruct fw|]. split; [split_and!; apply HR|done]. Qed.

Lemma fw_rel_closed fw fw1 c c' : fw_rel fw c -> only_handlers fw fw1 ->
  cf_num c' = cf_num c -> cf_flat c' = cf_flat c -> cf_done c' = true -> cf_addr c' = cf_addr c ->
  cf_size c' = cf_size c -> hd_offset <$> fw_cu_xgqs fw1 = cf_offset c' ->
  (cf_flat c = false -> forall i, 0 <= i < cf_num c -> hd_bound (hd_at fw1 i) = true) ->
  fw_rel (fw1 <| fw_cfg_complete := true |>) c'.
Proof.
  intros HR (E & (L1 & L2 & L3) & Ea) En Ef Ed Ead Es Eo Hb. destruct HR. split; rproj; try done.
  - rewrite En. by rewrite E.
  - rewrite Ef. by rewrite E.
  - by rewrite Ead, Ea.
  - rewrite Es. by rewrite E.
  - by rewrite E.
  - by rewrite E.
  - intros _ Hf. rewrite En. apply Hb. congruence.
  - by rewrite E.
Qed.

Lemma setup_cu_queue_ok m fw c : fw_rel fw c -> words_ok m -> request_ok c CfgEnd ->
  exists fw' m', setup_cu_queue b m fw = Some ((spec c CfgEnd).2, fw', m') /\ words_ok m' /\
    fw_ctrl_xgq fw' = fw_ctrl_xgq fw /\
    fw_rel (if (spec c CfgEnd).2 =? 0 then fw' <| fw_cfg_complete := true |> else fw') (spec c CfgEnd).1 /\
    (forall a, outside_cus a -> ioread32 m' a = ioread32 m a) /\
    (makes_queues c -> queues_ready c fw' m').
Proof.
  intros HR Hm Hok. cbn [spec request_ok] in *. destruct (fr_num _ _ HR) as [En Hn].
  unfold makes_queues, setup_cu_queue, spec_cfg_end. fold (cu_sizes c) in *.
  rewrite En, (fr_flat _ _ HR). destruct (Z.eqb_spec (cf_num c) 0) as [E0|Hn0]; cbn [orb].
  { exists fw, m. split; [done|]. split; [done|]. split; [done|]. split; [|split; [done|by intros []]].
    apply (fw_rel_closed fw fw c); try done; [by eapply only_handlers_refl|apply HR|intros _ i Hi; lia]. }
  destruct (cf_flat c) eqn:Ef; cbn [negb].
  { exists fw, m. split; [done|]. split; [done|]. split; [done|]. split; [|split; [done|by intros (_ & ? & _)]].
    apply (fw_rel_closed fw fw c); try done; [by eapply only_handlers_refl|apply HR|congruence]. }
  specialize (Hok eq_refl). pose proof (length_cu_sizes fw c HR) as Hl.
  pose proof (cfg_group_args fw c m HR Hm Hn0 Hok) as HA. unfold ERT_CQ_SIZE in *.
  assert (copy_out (fw_cu_slot_sizes fw) 0 (cf_num c) = Some (cu_sizes c)) as ->.
  { rewrite copy_out_ok by (rewrite ?(fr_slot_sizes _ _ HR); lia). by rewrite (fr_size _ _ HR). }
  cbn [mbind option_bind]. rewrite (u32_small (base + user_queue_offset)) by (unfold user_queue_offset, CTRL_XGQ_SPACE; lia).
  change (u32 (65536 - user_queue_offset)) with cu_space. change (base + user_queue_offset) with (base + 0x800).
  change MAX_SLOTS with 128.
  destruct (group_alloc_ok mb_build XGQ_IN_MEM_PROD _ _ _ _ _ HA) as (r & -> & Hr). cbn [mbind option_bind].
  assert (forall s, s ∈ cu_sizes c -> 4 <= s) as H4
    by (intros s Hs; apply (proj1 (Forall_forall _ _) Hok) in Hs; lia).
  assert (Forall slot_ok (cu_sizes c) <-> existsb (fun s => z2b (s mod 4)) (cu_sizes c) = false) as Hslots.
  { rewrite <- not_true_iff_false, existsb_exists, Forall_forall. split.
    - intros HF (s & Hin & Hz). apply list_elem_of_In in Hin. destruct (HF s Hin) as [_ E]. by rewrite E in Hz.
    - intros HF s Hin. split; [by apply H4|]. destruct (z2b (s mod 4)) eqn:Ez; [|unfold z2b in Ez; lia].
      destruct HF. exists s. split; [by apply list_elem_of_In|done]. }
  destruct r as [err|[[qs m'] len]].
  - exists fw, m. destruct Hr as [[-> Hr]|[-> Hr]].
    + rewrite Hslots in Hr. apply not_false_is_true in Hr. rewrite Hr. cbn [fst snd].
      split_and!; [done|done|done|exact HR|done|intros (_ & _ & E); discriminate E].
    + destruct Hr as [HS Hlt]. rewrite (proj1 Hslots HS).
      replace (cu_space <? len_sum 2 (cu_sizes c)) with true by lia. cbn [fst snd].
      split_and!; [done|done|done|exact HR|done|intros (_ & _ & E); discriminate E].
  - destruct Hr as (k & Hk & HS & -> & Hm1 & Hm2 & Hle & Hlq & Hw & Hfr & Hq). rewrite (proj1 Hslots HS).
    assert (len_sum 2 (cu_sizes c) <= cu_space) as H2.
    { etransitivity; [|exact Hle]. apply len_sum_mono; [|by apply slots_nonneg].
      split; [lia|]. change 2 with (2 ^ 1) at 1. apply Z.pow_le_mono_r; lia. }
    replace (cu_space <? len_sum 2 (cu_sizes c)) with false by lia. cbn [fst snd].
    assert (k <= 7) as Hk7 by (destruct Hm1 as [?|Hp]; [done|]; change 128 with (2 ^ 7) in Hp;
      apply Z.pow_le_mono_r_iff in Hp; lia).
    assert (Z.of_nat (fit_log (cu_sizes c) 7) = k) as Efit.
    { apply fit_log_eq; [by apply slots_nonneg|lia|done|done|]. destruct Hm2 as [E|?]; [left; by rewrite <- E|by right]. }
    set (fw0 := fw <| fw_xgqs ::= fun l => put_queues l qs |>).
    assert (length (put_queues (fw_xgqs fw) qs) = 32%nat) as Hput.
    { unfold put_queues. rewrite length_app, length_drop, (fr_xgqs _ _ HR). lia. }
    destruct (setup_handlers_ok (Z.to_nat (cf_num c)) fw0 0) as (fw' & Es & Ho & Hj);
      [split_and!; [exact Hput|apply HR..]|done|lia|].
    rewrite Es. cbn [mbind option_bind]. exists fw', m'. rewrite Z2Nat.id in Hj by lia. rewrite Efit.
    split; [done|]. split; [done|]. split; [by rewrite (proj1 Ho)|]. split; [|split].
    + apply (fw_rel_closed fw0 fw' c); try done.
      * destruct HR. subst fw0. by split; rproj.
      * apply (handlers_offsets fw fw' c qs k); try done; [lia| |apply Ho].
        intros i s Ei. destruct (Hq i s Ei) as (q & Eq & vs & vc & -> & _). by eexists.
      * intros _ i Hi. rewrite Hj by lia. by replace ((0 <=? i) && (i <? 0 + cf_num c)) with true by lia.
    + intros a Ha. apply Hfr. unfold outside_cus, ERT_CQ_SIZE in Ha. unfold cu_space in Hle. lia.
    + intros _. split; [|split; [by rewrite Efit|]; intros i Hi; rewrite Hj by lia; by replace ((0 <=? i) && (i <? 0 + cf_num c)) with true by lia].
      rewrite Efit. eexists. pose proof (ga_addr _ _ _ _ _ HA).
      assert (take (Z.to_nat (cf_num c)) (fw_xgqs fw') = qs) as ->.
      { replace (fw_xgqs fw') with (put_queues (fw_xgqs fw) qs) by (by rewrite (proj1 Ho)).
        unfold put_queues. apply take_app_length'. lia. }
      split; [done|unfold cu_space in *; lia|split; [done|unfold cu_space in *; lia]|apply group_flags|done|exact Hq].
Qed.

(** ** One lemma per request *)

Section Commands.
Context {H : Type} (env : ctrl_env) (m : shared) (hw : H) (fw : firmware) (c : config).
Context (K : shared -> Prop) (HK : keeps K) (Hk : K m).
Context (HR : fw_rel fw c) (Hm : words_ok m) (Hh : host_room K env (xt_xgq (fw_ctrl_xgq fw))).
#[local] Abbreviation word off := (reg_read m (u32 (u32 (cc_addr (xt_ctrl_cmd (fw_ctrl_xgq fw))) + off))).

Lemma configure_mb_served : word 8 mod 2 ^ 13 <= 32 ->
  served env fw c (CfgStart (word 8)) (with_hw hw (configure_mb env m fw)).
Proof.
  intros Hn. unfold configure_mb, XGQ_NUM_CUS, read_reg. change XGQ_CMD_FEATURE_OFFSET with 8.
  set (f := word 8) in *. rewrite mask_mod by lia. cbv zeta.
  set (fw1 := fw <| fw_num_cus := _ |> <| fw_cfg_complete := _ |> <| fw_i2h := _ |> <| fw_i2e := _ |> <| fw_cui := _ |>
    <| fw_dmsg := _ |> <| fw_echo := _ |> <| fw_cmd_queue_mode := _ |> <| fw_scratch_mode := _ |>
    <| fw_flatten_queue := _ |> <| fw_cmd_queue_slot_size ::= _ |>).
  assert (fw_rel fw1 (spec c (CfgStart f)).1) as HR1.
  { destruct HR. apply Build_fw_rel; [| |done|exact fr_addr0|exact fr_size0|exact fr_offset0|exact fr_xgqs0|
      exact fr_cu_xgqs0|exact fr_slot_sizes0|exact fr_sched_cus0|exact fr_cu_cfg0|done|exact fr_ctrl0].
    - pose proof (Z.mod_pos_bound f (2 ^ 13)). split; [reflexivity|]. cbn [spec fst]. rproj. lia.
    - cbn [spec fst]. subst fw1. fwsimpl. unfold SCRATCH_MODE, CMD_QUEUE_MODE. rewrite !z2b_bit by lia. unfold MAX_XGQ_CU.
      by rewrite (orb_comm (Z.testbit f 17)), orb_assoc. }
  destruct (respond_ok K env m fw1 _ [0; 1; 0; 0] HK Hk HR1 Hm Hh) as (c' & m' & E & HR' & Ha); [cbn; lia|].
  rewrite E. cbn [mbind option_bind with_hw fst snd]. eexists _, _, _, _. split; [reflexivity|].
  split; [exact HR'|]. by split; [reflexivity|].
Qed.

Lemma save_cfg_cu_served :
  served env fw c (CfgCu (word 8 mod 2 ^ 12) (word 16) (word 20) (word 24)) (with_hw hw (save_cfg_cu env m fw)).
Proof.
  unfold save_cfg_cu, XGQ_CU_IDX, read_reg. change XGQ_CMD_FEATURE_OFFSET with 8.
  change XGQ_CU_CMD_LOW_ADDR with 16. change XGQ_CU_CMD_HIGH_ADDR with 20.
  change XGQ_CU_CMD_SLOT_SZ_OFFSET with 24. rewrite mask_mod by lia.
  set (i := word 8 mod 2 ^ 12). assert (0 <= i) by apply Z.mod_pos_bound, eq_refl. clearbody i.
  destruct (fr_num _ _ HR) as [-> Hn]. cbn [spec]. unfold ERT_MAX_CUS.
  destruct (Z.leb_spec (cf_num c) i) as [Hle|Hlt].
  { rewrite orb_true_r.
    destruct (respond_ok K env m fw c [0; 0; 0; u32 (- EINVAL)] HK Hk HR Hm Hh) as (c' & m' & E & HR' & Ha); [cbn; lia|].
    rewrite E. cbn [mbind option_bind with_hw fst snd]. eexists _, _, _, _.
    cbn [spec]. replace (cf_num c <=? i) with true by lia. split; [reflexivity|]. split; [exact HR'|].
    split; [|exact Ha]. unfold spec_answer. cbn [spec]. by replace (cf_num c <=? i) with true by lia. }
  replace (128 <? i) with false by lia. cbn [orb].
  rewrite (aget_chk_in _ (fw_cu_cfg fw)), (aget_chk_in _ (fw_sched_cus fw)), (aset_chk_in (fw_cu_slot_sizes fw))
    by (rewrite ?(fr_cu_cfg _ _ HR), ?(fr_sched_cus _ _ HR), ?(fr_slot_sizes _ _ HR); lia).
  cbn [mbind option_bind].
  pose proof (reg_read_range m (u32 (u32 (cc_addr (xt_ctrl_cmd (fw_ctrl_xgq fw))) + 16)) Hm) as Hlo.
  pose proof (reg_read_range m (u32 (u32 (cc_addr (xt_ctrl_cmd (fw_ctrl_xgq fw))) + 20)) Hm) as Hhi.
  rewrite Z.shiftl_mul_pow2, u64_small by lia. cbv zeta.
  set (fw1 := fw <| fw_cu_cfg ::= _ |> <| fw_sched_cus ::= _ |> <| fw_cu_slot_sizes := _ |> <| fw_cmd_queue_slot_size ::= _ |>).
  assert (fw_rel fw1 (spec c (CfgCu i (word 16) (word 20) (word 24))).1) as HR1.
  { cbn [spec]. replace (cf_num c <=? i) with false by lia. destruct HR. subst fw1.
    split; cbn [fst]; rproj; rewrite ?length_aset; try done.
    - rewrite aset_fmap. by rewrite <- fr_addr0.
    - by rewrite <- fr_size0. }
  destruct (respond_ok K env m fw1 _ [0; 0; 0; 0] HK Hk HR1 Hm Hh) as (c' & m' & E & HR' & Ha); [cbn; lia|].
  rewrite E. cbn [mbind option_bind with_hw fst snd]. eexists _, _, _, [0; 0; 0; 0].
  split; [|split; [exact HR'|split; [|exact Ha]]].
  - cbn [spec]. by replace (cf_num c <=? i) with false by lia.
  - unfold spec_answer. cbn [spec]. by replace (cf_num c <=? i) with false by lia.
Qed.

Lemma query_cu_served : word 8 mod 2 ^ 12 < 32 ->
  served env fw c (QueryCu (word 8 mod 2 ^ 12)) (with_hw hw (query_cu env m fw)).
Proof.
  unfold query_cu, XGQ_CU_IDX, read_reg. change XGQ_CMD_FEATURE_OFFSET with 8. rewrite mask_mod by lia.
  set (i := word 8 mod 2 ^ 12). intros Hi. assert (0 <= i) by apply Z.mod_pos_bound, eq_refl. clearbody i.
  unfold ERT_MAX_CUS. replace (128 <? i) with false by lia. rewrite (fr_flat _ _ HR).
  assert (Z.lor i (Z.shiftl (b2z (cf_flat c)) 31) = i + (if cf_flat c then 2 ^ 31 else 0)) as ->.
  { destruct (cf_flat c); cbn [b2z]; [|by rewrite Z.shiftl_0_l, Z.lor_0_r, Z.add_0_r].
    rewrite Z.shiftl_1_l. rewrite <- Z.add_nocarry_lor; [done|]. apply Z.bits_inj_0. intros j.
    rewrite Z.land_spec. destruct (decide (j = 31)) as [->|].
    - rewrite <- (Z.mod_small i (2 ^ 5)) by lia. by rewrite Z.mod_pow2_bits_high by lia.
    - rewrite Z.pow2_bits_false by done. apply andb_false_r. }
  set (off := if cf_flat c then 0x800 else aget 0 (cf_offset c) i).
  assert ((if negb (cf_flat c) then h ← aget_chk no_handler (fw_cu_xgqs fw) i; Some (hd_offset h)
           else Some user_queue_offset) = Some off) as ->.
  { unfold off. destruct (cf_flat c); [done|]. cbn [negb]. rewrite aget_chk_in by (rewrite (fr_cu_xgqs _ _ HR); lia).
    cbn [mbind option_bind].
    rewrite <- (fr_offset _ _ HR). by rewrite (aget_fmap hd_offset no_handler). }
  cbn [mbind option_bind].
  destruct (respond_ok K env m fw c [0; i + (if cf_flat c then 2 ^ 31 else 0); off; u32 0] HK Hk HR Hm Hh)
    as (c' & m' & E & HR' & Ha); [cbn; lia|].
  rewrite E. cbn [mbind option_bind with_hw fst snd]. eexists _, _, _, _. split; [reflexivity|].
  split; [exact HR'|]. split; [reflexivity|exact Ha].
Qed.

(** A request that changes nothing and is answered with given words. *)
Lemma plain_served r resp : spec c r = (c, 0) -> spec_answer c r (ce_clock env 0) (eb_v30 b) resp ->
  (length resp <= 4)%nat -> forall m1 hw', words_ok m1 -> K m1 ->
  served env fw c r (p ← respond (ce_polls env) m1 fw resp; Some (0, p.1, p.2, hw')) (H := H).
Proof.
  intros Hs Ha Hl m1 hw' Hm1 Hk1. destruct (respond_ok K env m1 fw c resp HK Hk1 HR Hm1 Hh Hl) as (c' & m' & E & HR' & Haw).
  rewrite E. cbn [mbind option_bind fst snd]. eexists _, _, _, resp. rewrite Hs. split; [reflexivity|]. done.
Qed.

Lemma configure_mb_end_served : request_ok c CfgEnd ->
  served env fw c CfgEnd (with_hw hw (configure_mb_end b env m fw)).
Proof.
  intros Hok. destruct (setup_cu_queue_ok m fw c HR Hm Hok) as (fw1 & m1 & E1 & Hm1 & Ec & HR1 & Hfr & _).
  assert (K m1) as Hk1 by (eapply (proj1 HK); [|exact Hk]; apply Hfr; left; lia).
  unfold configure_mb_end. rewrite E1. cbn [mbind option_bind]. cbv zeta.
  set (fw2 := if _ =? 0 then _ else _) in *.
  assert (fw_ctrl_xgq fw2 = fw_ctrl_xgq fw) as Ec2 by (subst fw2; destruct (_ =? 0); by rproj).
  destruct (respond_ok K env (write_reg m1 (ERT_HOST_INTERRUPT_ENABLE_ADDR b) (b2z (fw_i2h fw1))) fw2
    (spec c CfgEnd).1 [0; 0; 0; u32 (spec c CfgEnd).2] HK (proj2 HK _ _ Hk1) HR1) as (c' & m' & E & HR' & Ha);
    [by apply words_ok_write|by rewrite Ec2|cbn; lia|].
  rewrite E. cbn [mbind option_bind with_hw fst snd]. eexists _, _, _, _. split; [reflexivity|].
  split; [exact HR'|]. split; [reflexivity|]. rproj. by rewrite <- Ec2.
Qed.

(** Memory stays a memory of words when the host writes words. *)
Definition env_words : Prop :=
  Forall (fun r => (forall m, words_ok m -> words_ok (r.1 m)) /\ (forall m, words_ok m -> words_ok (r.2 m)))
    (ce_stress env) /\
  forall n m, words_ok m -> words_ok (ce_rw env n m).

Lemma rw_test_words (He : env_words) n : forall m queue_addr offset,
  words_ok m -> words_ok (rw_test (ce_rw env) m queue_addr offset n).2.
Proof.
  induction n as [|n IH]; intros m0 qa off Hm0; [done|]. cbn [rw_test].
  destruct (negb _); [done|]. destruct (negb _); [|apply IH]; by apply He, words_ok_write.
Qed.

Lemma stress_words rounds : Forall (fun r => (forall m, words_ok m -> words_ok (r.1 m)) /\
    (forall m, words_ok m -> words_ok (r.2 m))) rounds ->
  forall m qa ok ok' m', words_ok m -> stress_test rounds m qa ok = Some (ok', m') -> words_ok m'.
Proof.
  induction 1 as [|[f g] rounds [Hf Hg] _ IH]; intros m0 qa ok ok' m' Hm0 E; cbn [stress_test] in E;
    destruct (_ =? 0); try done; try by injection E as <- <-.
  eapply IH; [|exact E]. by apply Hg, Hf.
Qed.
End Commands.

Section Device.
Context {H : Type} `{Mmio H} (env : ctrl_env) (m : shared) (hw : H) (fw : firmware) (c : config).
Context (K : shared -> Prop) (HK : keeps K) (Hk : K m).
Context (HR : fw_rel fw c) (Hm : words_ok m) (Hh : host_room K env (xt_xgq (fw_ctrl_xgq fw))).

Context (Hany : forall m, K m).

Lemma validate_mb_served : served env fw c AccessValid (validate_mb env m hw fw).
Proof.
  unfold validate_mb. rewrite aget_chk_in by (by rewrite (fr_sched_cus _ _ HR)). cbn [mbind option_bind]. cbv zeta.
  apply (plain_served env fw c K HK HR Hh AccessValid); [done|by eexists|cbn; lia| |apply Hany].
  unfold repetition_write. generalize 1024%nat. intros n.
  induction n as [|n IH]; [done|]. cbn [Nat.iter nat_rect]. by apply words_ok_write.
Qed.

Lemma cus_idle_ok n : forall (hw : H) i, 0 <= i -> i + Z.of_nat n <= 32 -> is_Some (cus_idle hw fw i n).
Proof.
  induction n as [|n IH]; intros hw0 i Hi Hn; [by eexists|]. cbn [cus_idle].
  rewrite aget_chk_in by (rewrite (fr_sched_cus _ _ HR); lia). cbn [mbind option_bind].
  destruct (cu_reg_read _ _) as [v hw1]. destruct (IH hw1 (i + 1)) as [r Er]; [lia..|].
  rewrite Er. cbn [mbind option_bind]. by eexists.
Qed.

Lemma data_integrity_served : env_words env ->
  is_Some (stress_test (ce_stress env) m (u32 (cc_addr (xt_ctrl_cmd (fw_ctrl_xgq fw)))) true) ->
  served env fw c DataIntegrity (data_integrity env m hw fw).
Proof.
  intros He [[ok m1] Es]. unfold data_integrity. rewrite Es. cbn [mbind option_bind].
  assert (words_ok m1) as Hm1 by (by eapply stress_words; [apply He| |exact Es]).
  destruct (rw_test _ _ _ _ _) as [[h2d d2d] m2] eqn:Er.
  assert (words_ok m2) as Hm2 by (change m2 with (h2d, d2d, m2).2; rewrite <- Er; by apply rw_test_words).
  destruct (fr_num _ _ HR) as [En Hn].
  destruct (cus_idle_ok (Z.to_nat (fw_num_cus fw)) hw 0) as [[idle hw1] Ei]; [done|rewrite En, Z2Nat.id; lia|].
  rewrite Ei. cbn [mbind option_bind fst snd].
  apply (plain_served env fw c K HK HR Hh DataIntegrity); [done| |cbn; lia|done|apply Hany].
  eexists. split; [reflexivity|]. destruct h2d, d2d, idle, ok; by vm_compute.
Qed.
End Device.

(** ** Every command *)

Lemma ctrl_consume_total m q : words_ok m -> exists ret slot q', xgq_consume mb_build m q = Some (ret, slot, q', m).
Proof.
  intros Hm. unfold xgq_consume, xgq_can_consume, xgq_ring_read_produced.
  rewrite xgq_read32_eq, read_ptr_ok by apply Hm. cbn [mbind option_bind].
  destruct (negb (xgq_ring_empty _)); cbn [mbind option_bind negb]; [by eexists _, _, _|].
  destruct (negb (xgq_ring_empty _)); cbn [mbind option_bind negb]; by eexists _, _, _.
Qed.

(** Looking at the control queue takes at most one command. *)
Lemma get_cmd_ok m t : words_ok m -> exists t1,
  xgq_ctrl_get_cmd m t = Some (cmd_is_valid (xt_ctrl_cmd t1), t1, m) /\
  xq_cq (xt_xgq t1) = xq_cq (xt_xgq t) /\ xq_flags (xt_xgq t1) = xq_flags (xt_xgq t) /\
  same_place (xq_sq (xt_xgq t)) (xq_sq (xt_xgq t1)) /\ (cmd_is_valid (xt_ctrl_cmd t) = true -> t1 = t).
Proof.
  intros Hm. unfold xgq_ctrl_get_cmd. destruct (cmd_is_valid (xt_ctrl_cmd t)) eqn:Ev; cbn [negb].
  { exists t. cbn [mbind option_bind fst snd]. by rewrite Ev. }
  destruct (ctrl_consume_total m (xt_xgq t) Hm) as (ret & slot & q' & E). rewrite E. cbn [mbind option_bind fst snd].
  apply consume_place in E as (Hp & Hc & Hf). eexists. split; [reflexivity|].
  destruct slot as [addr|]; rproj; by split_and!.
Qed.

End Ctrl.
