(* ===== verification/ErtCtrlProof.v ===== *)
(** * Embedded scheduler: configuration and main loop

    [process_ctrl_command] implements the protocol of [ErtCtrlSpec]; the queues a
    closed configuration leaves behind can be used by the host; and the main loop
    stays within its arrays. *)
From S2P Require Import Prelude KdsCommand CuCore CuHls Xgq XgqRing XgqLink XgqAlloc XgqGroup.
From S2P Require Import XoclXgq ErtCu ErtCuProof ErtCtrl ErtCtrlSpec.

Lemma ctrl_command_ok {H} `{Mmio H} (b : ert_build) K env m (hw : H) fw c :
  0 <= ERT_CQ_BASE_ADDR b /\ ERT_CQ_BASE_ADDR b + ERT_CQ_SIZE < 2 ^ 32 ->
  keeps b K -> K m ->
  fw_rel b fw c -> words_ok m -> host_room K env (xt_xgq (fw_ctrl_xgq fw)) -> env_words env ->
  exists t, xgq_ctrl_get_cmd m (fw_ctrl_xgq fw) = Some (cmd_is_valid (xt_ctrl_cmd t), t, m) /\
    let fw1 := fw <| fw_ctrl_xgq := t |> in
    fw_rel b fw1 c /\
    if cmd_is_valid (xt_ctrl_cmd t) then
      match decode m (xt_ctrl_cmd t) with
      | Some r =>
          request_ok c r -> (r = AccessValid \/ r = DataIntegrity -> forall m, K m) ->
          (r = DataIntegrity -> is_Some (stress_test (ce_stress env) m (u32 (cc_addr (xt_ctrl_cmd t))) true)) ->
          served b env fw1 c r (process_ctrl_command b env m hw fw)
      | None => process_ctrl_command b env m hw fw = Some (- ENOTTY, fw1, m, hw)
      end
    else process_ctrl_command b env m hw fw = Some (- ENOENT, fw1, m, hw).
Proof.
  intros Hb HK Hk HR Hm Hh He. destruct (get_cmd_ok m (fw_ctrl_xgq fw) Hm) as (t & E & Hc & Hf & Hp & _).
  exists t. split; [done|]. intros fw1.
  assert (fw_rel b fw1 c) as HR1.
  { destruct HR as [??????????? ? [R1 R2]]. subst fw1. split; rproj; try done. split; [by eapply same_place_trans|by rewrite Hc]. }
  split; [done|].
  assert (host_room K env (xt_xgq (fw_ctrl_xgq fw1))) as Hh1.
  { intros m0 q' Hw Hk0 Eq Ef. apply Hh; [done|done|by rewrite Eq|by rewrite Ef]. }
  unfold process_ctrl_command. rewrite E. cbn [mbind option_bind]. fold fw1.
  destruct (cmd_is_valid (xt_ctrl_cmd t)); cbn [negb]; [|done]. unfold decode. cbv zeta.
  change (xt_ctrl_cmd t) with (xt_ctrl_cmd (fw_ctrl_xgq fw1)).
  destruct (_ =? XGQ_CMD_OP_CFG_START). { intros Hok _ _. by apply (configure_mb_served b Hb env m hw fw1 c K). }
  destruct (_ =? XGQ_CMD_OP_CFG_END). { intros Hok _ _. by apply (configure_mb_end_served b Hb env m hw fw1 c K). }
  destruct (_ =? XGQ_CMD_OP_CFG_CU). { intros Hok _ _. by apply (save_cfg_cu_served b Hb env m hw fw1 c K). }
  destruct (_ =? XGQ_CMD_OP_QUERY_CU). { intros Hok _ _. by apply (query_cu_served b Hb env m hw fw1 c K). }
  destruct (_ =? XGQ_CMD_OP_CLOCK_CALIB).
  { intros _ _ _. unfold get_clk_counter. unfold with_hw.
    destruct (plain_served b Hb env fw1 c K HK HR1 Hh1 ClockCalib [0; 0; ce_clock env 0; 0] eq_refl eq_refl ltac:(cbn; lia) m hw Hm Hk)
      as (fw' & m' & hw' & resp & Es & Hs). exists fw', m', hw', resp. split; [|exact Hs].
    rewrite <- Es. by destruct (respond _ _ _ _). }
  destruct (_ =? XGQ_CMD_OP_ACCESS_VALID). { intros _ Hany _. apply (validate_mb_served b Hb env m hw fw1 c K); try done. by apply Hany; left. }
  destruct (_ =? XGQ_CMD_OP_DATA_INTEGRITY). { intros _ Hany Hst. apply (data_integrity_served b Hb env m hw fw1 c K); try done; [by apply Hany; right|by apply Hst]. }
  destruct (_ =? XGQ_CMD_OP_EXIT).
  { intros _ _ _. by apply (plain_served b Hb env fw1 c K HK HR1 Hh1 Exit [0; 0; 0; 0]); [..|cbn; lia| |]. }
  destruct (_ =? XGQ_CMD_OP_IDENTIFY); [|done]. intros _ _ _. unfold identify_xgq, with_hw.
  destruct (plain_served b Hb env fw1 c K HK HR1 Hh1 Identify
    [0; MINOR + Z.shiftl MAJOR 16; if eb_v30 b then ce_clock env 0 else 0; 0] eq_refl eq_refl ltac:(cbn; lia) m hw Hm Hk)
    as (fw' & m' & hw' & resp & Es & Hs). exists fw', m', hw', resp. split; [|exact Hs].
  rewrite <- Es. by destruct (respond _ _ _ _).
Qed.


(** ** The queues of a closed configuration *)

Lemma group_mem_frame k ra sizes F qs m m' : group_mem k ra sizes F qs m -> words_ok m' ->
  (forall a, ra <= a < ra + len_sum (2 ^ k) sizes -> ioread32 m' a = ioread32 m a) ->
  group_mem k ra sizes F qs m'.
Proof.
  intros HM Hw Hf. split; try apply HM. intros i s Es.
  destruct (gm_queue _ _ _ _ _ _ HM i s Es) as (q & Eq & Hq). exists q. split; [done|].
  destruct HM as [Hk [Hra Hend] [HS Hl] HF _ _].
  pose proof (group_layout k Hk ra sizes i s Hra HS Hl Hend Es) as HL.
  eapply fresh_queue_frame; [done|done|exact Hq|done|]. intros a Ha. apply Hf.
  destruct (group_at_bounds ra (2 ^ k) sizes i s) as [B1 B2]; [apply Z.pow_nonneg; lia|done|done|].
  rewrite ring_end_len in Ha. lia.
Qed.

(** A property of the memory that the host keeps while the firmware waits. *)
Lemma wait_produce_mem (P : shared -> Prop) polls : Forall (fun f => forall m, P m -> P (f m)) polls ->
  forall m q addr q' m', P m -> wait_produce polls m q = Some (addr, q', m') -> P m'.
Proof.
  induction 1 as [|f polls Hf _ IH]; intros m q addr q' m' Hm E; cbn [wait_produce] in E;
    apply bind_Some in E as ([[r slot] q1] & _ & E); destruct slot as [a|]; try done;
    try (by injection E as <- <- <-). eapply IH; [|exact E]. by apply Hf.
Qed.

(** The memory of the CU queues is as in [m0]. *)
Definition cus_mem (b : ert_build) (m0 m : shared) : Prop :=
  words_ok m /\ forall a, ERT_CQ_BASE_ADDR b + 0x800 <= a < ERT_CQ_BASE_ADDR b + ERT_CQ_SIZE ->
                  ioread32 m a = ioread32 m0 a.

Lemma cus_mem_write b m0 m a v : cus_mem b m0 m -> outside_cus b a -> cus_mem b m0 (iowrite32 m a v).
Proof.
  intros [Hw Hm] Ha. split; [by apply words_ok_write|]. intros a' Ha'. unfold outside_cus in Ha.
  rewrite ioread_write_ne by lia. by apply Hm.
Qed.

Lemma cus_mem_copy b m0 resp : forall m addr, cus_mem b m0 m -> 0 <= addr ->
  addr + 4 * Z.of_nat (length resp) <= ERT_CQ_BASE_ADDR b + 0x800 -> ERT_CQ_BASE_ADDR b + 0x800 < 2 ^ 32 ->
  cus_mem b m0 (put_words m addr resp).
Proof.
  induction resp as [|w resp IH]; intros m addr Hm Ha Hl Hb; [done|]. cbn [put_words length] in *.
  unfold reg_write. rewrite u32_small by lia. rewrite u64_small by lia. apply IH; [|lia..].
  apply cus_mem_write; [done|]. left. lia.
Qed.

(** Answering leaves them alone when the host does. *)
Lemma response_cus_mem b m0 polls m t resp t' m' :
  0 <= ERT_CQ_BASE_ADDR b /\ ERT_CQ_BASE_ADDR b + ERT_CQ_SIZE < 2 ^ 32 ->
  Forall (fun f => forall m, cus_mem b m0 m -> cus_mem b m0 (f m)) polls ->
  ctrl_rings (ERT_CQ_BASE_ADDR b) (xt_xgq t) -> (length resp <= 4)%nat -> cus_mem b m0 m ->
  xgq_ctrl_response polls m t resp = Some (t', m') -> cus_mem b m0 m'.
Proof.
  intros Hb HF HR Hl Hm E. unfold xgq_ctrl_response in E. apply bind_Some in E as ([[addr q] m1] & Hw & E).
  injection E as <- <-. pose proof (wait_produce_place _ _ _ _ _ _ Hw) as (Hp & _ & _ & Ha).
  rproj. pose proof (ctrl_slot b Hb _ HR) as Hslot. rewrite <- Ha in Hslot. unfold ERT_CQ_SIZE in *.
  unfold xgq_notify_peer_produced, xgq_ring_write_produced. rewrite xgq_write32_eq. apply cus_mem_write.
  - apply cus_mem_copy; [|lia..]. eapply wait_produce_mem; [exact HF| |exact Hw].
    apply cus_mem_write; [done|]. destruct HR as [(_ & _ & _ & _ & Ec) _]. cbn [cons_ring mb_build XGQ_SERVER].
    left. rproj. rewrite Ec. cbn. unfold off_sq_consumed. lia.
  - destruct HR as [_ HR]. cbn [prod_ring mb_build XGQ_SERVER].
    pose proof (same_place_trans _ _ _ HR Hp) as (_ & _ & _ & Epr & _). left. rewrite Epr. cbn. lia.
Qed.

Lemma spec_offset c i : makes_queues c -> 0 <= i < Z.of_nat (length (cu_sizes c)) ->
  aget 0 (cf_offset (spec c CfgEnd).1) i =
  group_at 0x800 (2 ^ Z.of_nat (fit_log (cu_sizes c) 7)) (cu_sizes c) (Z.to_nat i).
Proof.
  unfold makes_queues. cbn [spec]. unfold spec_cfg_end. fold (cu_sizes c). intros (Hn & Hf & Hz) Hi.
  replace (cf_num c =? 0) with false in * by lia. rewrite Hf in *. cbn [orb] in *.
  destruct (existsb _ _); [discriminate Hz|]. destruct (_ <? _); [discriminate Hz|]. cbn [fst]. rproj.
  destruct (lookup_lt_is_Some_2 (cu_sizes c) (Z.to_nat i)) as [s Es]; [lia|].
  unfold aget. rewrite lookup_app_l by (rewrite length_imap; lia). by rewrite list_lookup_imap, Es.
Qed.

(** C9. When the firmware has closed a configuration of CUs with queues of
    their own, every handler is ready with an empty queue and nothing in hand,
    the offset reported for a CU is that of its queue, the host can attach there,
    and from then on all queues work side by side, each as two FIFO channels:
    commands to one CU never show up on the queue of another. *)
Theorem configured_queues_usable (b : ert_build) env m fw c fw' m' client fs :
  0 <= ERT_CQ_BASE_ADDR b /\ ERT_CQ_BASE_ADDR b + ERT_CQ_SIZE < 2 ^ 32 ->
  outside_cus b (ERT_HOST_INTERRUPT_ENABLE_ADDR b) ->
  fw_rel b fw c -> words_ok m -> request_ok c CfgEnd -> makes_queues c ->
  Forall (fun f => forall m0 m, cus_mem b m0 m -> cus_mem b m0 (f m)) (ce_polls env) ->
  XGQ_SERVER client = false -> XGQ_IS_IN_MEM_PROD (u32 fs) = false ->
  configure_mb_end b env m fw = Some (0, fw', m') ->
  exists qc,
    (forall i, 0 <= i < cf_num c -> exists xc q', handler_at fw' i = Some xc /\ qc !! Z.to_nat i = Some q' /\
       xc_cmd_running xc = 0 /\ cmd_is_valid (xc_cmd xc) = false /\
       xgq_attach client fs m' (ERT_CQ_BASE_ADDR b + aget 0 (cf_offset (spec c CfgEnd).1) i) 0 0 = Some (inr (q', m')) /\
       xq_sq q' = xq_sq (xc_q xc) /\ xq_cq q' = xq_cq (xc_q xc)) /\
    forall ops, group_ops_ok client mb_build (cu_sizes c) ops ->
      exists tr L', run_all client mb_build (mk_links m' (zip qc (take (Z.to_nat (cf_num c)) (fw_xgqs fw')))) ops =
          Some (tr, L') /\
        forall i, exists n C, chans_run (fun _ => n) (ooo client mb_build) (fun _ => chan0) (on_queue i tr) C.
Proof.
  intros Hb Hcsr HR Hm Hok Hmk HF Hc Hfs E.
  destruct (setup_cu_queue_ok b Hb m fw c HR Hm Hok) as (fw1 & m1 & E1 & Hm1 & Ec & HR1 & _ & Hq).
  destruct (Hq Hmk) as [[F HM] [Hsp Hhd]]. pose proof (length_cu_sizes b fw c HR) as Hl.
  unfold configure_mb_end in E. rewrite E1 in E. pose proof Hmk as (Hn & Hflat & Hz).
  change (spec_cfg_end c).2 with (spec c CfgEnd).2 in Hz. rewrite Hz in E, HR1. cbn [mbind option_bind Z.eqb] in E, HR1.
  unfold respond in E. apply bind_Some in E as (r & Er & E). apply bind_Some in Er as ([t' m2] & Er & [= <-]).
  cbn [fst snd] in E. injection E as <- <-.
  assert (cus_mem b m1 m2) as [Hw Hframe].
  { eapply (response_cus_mem b m1); [done|eapply Forall_impl; [exact HF|]; intros f Hf m0; apply Hf|..|exact Er].
    - apply HR1.
    - cbn. lia.
    - apply cus_mem_write; [by split|]. unfold ERT_HOST_INTERRUPT_ENABLE_ADDR in *. by rewrite u32_u32. }
  set (qs := take (Z.to_nat (cf_num c)) (fw_xgqs fw1)) in *.
  set (k := Z.of_nat (fit_log (cu_sizes c) 7)) in *.
  assert (group_mem k (ERT_CQ_BASE_ADDR b + 0x800) (cu_sizes c) F qs m2) as HM2.
  { eapply group_mem_frame; [exact HM|done|]. intros a Ha. apply Hframe.
    unfold cu_space, ERT_CQ_SIZE in *. lia. }
  destruct (group_attached k _ _ F qs m2 client fs HM2 Hfs) as [qc Hqc]. exists qc. split.
  - intros i Hi. destruct (fr_num _ _ _ HR) as [_ Hnum].
    assert (length qs = length (cu_sizes c)) as Hlq by apply HM2.
    destruct (lookup_lt_is_Some_2 qs (Z.to_nat i)) as [q Eq]; [lia|].
    destruct (Forall2_lookup_l _ _ _ _ _ Hqc Eq) as (q' & Eq' & Ha).
    destruct (Hhd i Hi) as (Hbd & Hrun & Hval). destruct HR1 as [? ? ? ? ? ? Hlx Hlh ? Hlc ? ? ?]. rproj.
    assert (aget no_xgq (fw_xgqs fw1) i = q) as Eg.
    { unfold aget. subst qs. rewrite lookup_take_lt in Eq by lia. by rewrite Eq. }
    exists (mk_xgq_cu q (aget no_cu (fw_sched_cus fw1) i) (hd_cmd (aget no_handler (fw_cu_xgqs fw1) i)) 0
      (hd_offset (aget no_handler (fw_cu_xgqs fw1) i)) (hd_xgq_id (aget no_handler (fw_cu_xgqs fw1) i))
      (hd_csr_reg (aget no_handler (fw_cu_xgqs fw1) i))), q'.
    split. { unfold handler_at. rproj. rewrite !aget_chk_in by lia. cbn [mbind option_bind]. by rewrite Hbd, Eg, Hrun. }
    split; [done|]. split; [done|]. split; [done|]. rewrite spec_offset by (done || lia). fold k. cbn [xc_q].
    destruct (group_queue k _ _ F qs m2 HM2 _ _ Eq) as (s & _ & HL & Hf).
    destruct (attach_fresh _ k s F q m2 client fs HL (gm_flags _ _ _ _ _ _ HM2) Hfs Hf) as (q2 & Ea & Es & Ecq).
    replace (ERT_CQ_BASE_ADDR b + group_at 0x800 (2 ^ k) (cu_sizes c) (Z.to_nat i)) with
      (group_at (ERT_CQ_BASE_ADDR b + 0x800) (2 ^ k) (cu_sizes c) (Z.to_nat i)) by (unfold group_at; lia).
    unfold attached in Ha. destruct Hf as (vs & vc & -> & _). cbn [xq_header_addr] in Ha. rewrite Ha in Ea.
    injection Ea as <-. split; [exact Ha|]. split; [exact Es|exact Ecq].
  - intros ops Hops.
    destruct (group_simulated client mb_build fs Hc eq_refl Hfs k _ _ F qs m2 HM2 qc ops Hqc Hops) as (tr & L' & Er' & Hch).
    exists tr, L'. split; [exact Er'|]. intros i. destruct (Hch i) as [C HC]. by exists (2 ^ k), C.
Qed.

(** ** Start and loop *)

Definition config0 : config := mk_config 0 false false (replicate 32 0) (replicate 32 0) (replicate 32 0).

(** The configuration a state stands for. *)
Definition config_of (fw : firmware) : config :=
  mk_config (fw_num_cus fw) (fw_flatten_queue fw) (fw_cfg_complete fw) (cu_addr <$> fw_sched_cus fw)
    (fw_cu_slot_sizes fw) (hd_offset <$> fw_cu_xgqs fw).

Lemma fw_rel_config b fw c : fw_rel b fw c -> c = config_of fw.
Proof.
  intros HR. destruct (fr_num _ _ _ HR) as [En _]. unfold config_of.
  rewrite En, (fr_flat _ _ _ HR), (fr_done _ _ _ HR), (fr_addr _ _ _ HR), (fr_size _ _ _ HR), (fr_offset _ _ _ HR).
  by destruct c.
Qed.

Lemma scheduler_start_ok b m :
  0 <= ERT_CQ_BASE_ADDR b /\ ERT_CQ_BASE_ADDR b + ERT_CQ_SIZE < 2 ^ 32 -> words_ok m ->
  exists fw m' F, scheduler_start b m = Some (fw, m') /\ fw_rel b fw config0 /\ words_ok m' /\
    xgq_ring_full (xq_cq (xt_xgq (fw_ctrl_xgq fw))) = false /\
    fresh_queue (ERT_CQ_BASE_ADDR b + 4) 1 512 F (xt_xgq (fw_ctrl_xgq fw)) m' /\
    XGQ_IS_IN_MEM_PROD F = true /\ cmd_is_valid (xt_ctrl_cmd (fw_ctrl_xgq fw)) = false /\
    ioread32 m' (ERT_CQ_BASE_ADDR b) = ERT_VER.
Proof.
  intros Hb Hm. unfold scheduler_start, setup_ctrl_queue, xgq_alloc, ERT_CQ_SIZE in *. rproj.
  change (z2b (CTRL_XGQ_SLOT_SIZE mod 4)) with false.
  replace (xgq_alloc_num_slots _ _) with (Some 2) by (vm_compute; reflexivity).
  cbn [mbind option_bind]. change (u32 2 <? XGQ_MIN_NUM_SLOTS) with false. change (u32 2) with (2 ^ 1).
  rewrite u32_small by (unfold ctrl_queue_offset; lia). change (ctrl_queue_offset) with 4. change CTRL_XGQ_SLOT_SIZE with 512.
  assert (layout_ok (ERT_CQ_BASE_ADDR b + 4) 1 512) as HL.
  { split; [lia|done|..]; change (ring_end (ERT_CQ_BASE_ADDR b + 4) 1 512) with (ERT_CQ_BASE_ADDR b + 4 + 44 + 1056); lia. }
  set (F := init_flags mb_build XGQ_IN_MEM_PROD).
  destruct (init_ok _ 1 512 HL mb_build XGQ_IN_MEM_PROD (write_reg m (ERT_CQ_BASE_ADDR b) ERT_VER) 0 0)
    as (vs & vc & m1 & E & Hq); [by apply words_ok_write|discriminate|].
  fold F in E, Hq. rewrite E. cbn [mbind option_bind fst snd]. unfold setup_cu_queue. rproj.
  change (fw_num_cus firmware0 =? 0) with true. cbn [mbind option_bind fst snd].
  eexists _, m1, F. split; [reflexivity|]. split; [|split; [apply Hq|split; [|split; [|split; [done|split; [done|]]]]]].
  - apply Build_fw_rel; [by split|reflexivity..|discriminate|].
    unfold xgq_ctrl_init. rproj. change (eff_sq (ERT_CQ_BASE_ADDR b + 4) F 0) with (ERT_CQ_BASE_ADDR b + 4 + 36).
    change (eff_cq (ERT_CQ_BASE_ADDR b + 4) F 0) with (ERT_CQ_BASE_ADDR b + 4 + 40).
    rewrite <- !Z.add_assoc. split; split_and!; reflexivity.
  - unfold xgq_ctrl_init, xgq_ring_full. rproj. cbn [xq_cq start_ring xr_slot_num xr_produced xr_consumed].
    by rewrite Z.sub_diag.
  - exists vs, vc. split; [reflexivity|done].
  - rewrite (init_frame _ 1 512 mb_build XGQ_IN_MEM_PROD _ _ _ HL (words_ok_write _ _ _ Hm) eq_refl E) by lia.
    unfold write_reg, reg_write. rewrite u32_small by lia. by rewrite ioread_write_eq.
Qed.

(** Serving a CU keeps its address and the place of its queue. *)
Lemma complete_keeps polls m xc xc' m' : xgq_cu_complete_cmd polls m xc = Some (xc', m') ->
  xc_cu xc' = xc_cu xc /\ xc_offset xc' = xc_offset xc.
Proof.
  unfold xgq_cu_complete_cmd. intros E. apply bind_Some in E as ([[a q] m1] & _ & E). by injection E as <- <-.
Qed.

Section Keeps.
Context {H : Type} `{Mmio H}.

Lemma load_status_addr (hw : H) cu v cu' hw' : cu_load_status hw cu = (v, cu', hw') -> cu_addr cu' = cu_addr cu.
Proof. unfold cu_load_status. destruct (cu_reg_read _ _). by intros [= _ <- _]. Qed.

Lemma start_cmd_addr echo m (hw : H) cu cmd rc cu' hw' :
  start_cmd echo m hw cu cmd = (rc, cu', hw') -> cu_addr cu' = cu_addr cu.
Proof.
  unfold start_cmd, cu_start, cu_start_kv. intros E.
  destruct (cmd_args cmd) as [src sz]. destruct (cu_init_kv m hw cu cmd) as [r hw1].
  repeat match type of E with (if ?x then _ else _) = _ => destruct x end; by injection E as <- <- <-.
Qed.

Lemma process_keeps echo p1 p2 m (hw : H) xc rc xc' m' hw' :
  xgq_cu_process echo p1 p2 m hw xc = Some (rc, xc', m', hw') ->
  cu_addr (xc_cu xc') = cu_addr (xc_cu xc) /\ xc_offset xc' = xc_offset xc.
Proof.
  unfold xgq_cu_process. intros E. apply bind_Some in E as ([xc1 m1] & Et & E).
  apply bind_Some in E as ([[xc2 m2] hw2] & Ep & E).
  assert (xc_cu xc1 = xc_cu xc /\ xc_offset xc1 = xc_offset xc) as [K1 K2].
  { unfold take_cmd in Et. destruct (cmd_is_valid _); [by injection Et as <- <-|].
    apply bind_Some in Et as ([[[r slot] q] m0] & _ & Et). injection Et as <- <-. by destruct slot. }
  assert (cu_addr (xc_cu xc2) = cu_addr (xc_cu xc1) /\ xc_offset xc2 = xc_offset xc1) as [K3 K4].
  { unfold poll_cu in Ep. destruct (_ || _); [|by injection Ep as <- <- <-].
    destruct (if negb echo then _ else _) as [cu hw1] eqn:El.
    assert (cu_addr cu = cu_addr (xc_cu xc1)) as Ecu.
    { destruct echo; cbn [negb] in El; [by injection El as <- <-|].
      destruct (cu_load_status hw (xc_cu xc1)) as [[v cu0] hw0] eqn:Es. injection El as <- <-. by eapply load_status_addr. }
    clear El. destruct (cu_has_status _ _); [|by injection Ep as <- <- <-].
    destruct (if negb echo then _ else _) as [cu1 hw3] eqn:Ed.
    assert (cu_addr cu1 = cu_addr cu) by (destruct echo; cbn [negb] in Ed; unfold cu_done in Ed; by injection Ed as <- <-).
    apply bind_Some in Ep as ([xc3 m3] & Ec & Ep). injection Ep as <- <- <-.
    apply complete_keeps in Ec as [-> ->]. rproj. by split; [congruence|]. }
  rewrite <- K1, <- K2, <- K3, <- K4. destruct (_ || _); [by injection E as <- <- <- <-|].
  destruct (start_cmd _ _ _ _ _) as [[r cu] hw3] eqn:Es. apply start_cmd_addr in Es.
  destruct (r =? 0); [by injection E as <- <- <- <-|].
  apply bind_Some in E as ([xc3 m3] & Ec & E). injection E as <- <- <- <-. by apply complete_keeps in Ec as [-> ->].
Qed.

Lemma cu_process_at_rel b polls m (hw : H) fw c i ret fw' m' hw' : 0 <= i ->
  fw_rel b fw c -> cu_process_at b polls m hw fw i = Some (ret, fw', m', hw') -> fw_rel b fw' c.
Proof.
  intros Hi HR E. unfold cu_process_at in E. apply bind_Some in E as (xc & Eh & E).
  apply bind_Some in E as ([[[r xc'] m1] hw1] & Ep & E). injection E as <- <- <- <-.
  apply process_keeps in Ep as [Ka Ko]. unfold handler_at in Eh.
  apply bind_Some in Eh as (h & Eh & E). destruct (hd_bound h) eqn:Ebd; [|done].
  apply bind_Some in E as (q & Eq & E). apply bind_Some in E as (cu & Ec & E). injection E as <-.
  cbn [xc_cu xc_offset] in *. unfold aget_chk in *.
  destruct (in_arr (fw_cu_xgqs fw) i) eqn:I1; [|done]. injection Eh as <-.
  destruct (in_arr (fw_xgqs fw) i); [|done]. destruct (in_arr (fw_sched_cus fw) i) eqn:I2; [|done]. injection Ec as <-.
  apply in_arr_true in I1, I2. destruct HR as [Hn ? ? Ha ? Ho ? ? ? ? ? Hbnd ?].
  split; unfold put_handler; rproj; rewrite ?length_aset; try done.
  - rewrite aset_fmap, Ka, <- (aget_fmap cu_addr no_cu), aset_aget by (rewrite length_fmap; lia). done.
  - rewrite aset_fmap. cbn [hd_offset]. rewrite Ko, <- (aget_fmap hd_offset no_handler), aset_aget
      by (rewrite length_fmap; lia). done.
  - intros Hd Hf j Hj. destruct (decide (j = i)) as [->|Hne]; [by rewrite aget_aset_eq|].
    rewrite aget_aset_ne by lia. by apply Hbnd.
Qed.
End Keeps.

(** One call of the loop: a control command the host may send, or a round of the
    handler of a CU.  In between the host and the CUs do anything to memory and
    registers. *)
Inductive loop_step {H} `{Mmio H} (b : ert_build) : firmware -> firmware -> Prop :=
| loop_ctrl env m hw fw ret fw' m' hw' :
    words_ok m -> host_reads env (xt_xgq (fw_ctrl_xgq fw)) -> env_words env ->
    (forall t r, xgq_ctrl_get_cmd m (fw_ctrl_xgq fw) = Some (true, t, m) -> decode m (xt_ctrl_cmd t) = Some r ->
       request_ok (config_of fw) r /\
       (r = DataIntegrity -> is_Some (stress_test (ce_stress env) m (u32 (cc_addr (xt_ctrl_cmd t))) true))) ->
    process_ctrl_command b env m hw fw = Some (ret, fw', m', hw') -> loop_step b fw fw'
| loop_cu polls m hw fw i ret fw' m' hw' :
    0 <= i -> cu_process_at b polls m hw fw i = Some (ret, fw', m', hw') -> loop_step b fw fw'.

Lemma loop_step_rel {H} `{Mmio H} (b : ert_build) fw fw' :
  0 <= ERT_CQ_BASE_ADDR b /\ ERT_CQ_BASE_ADDR b + ERT_CQ_SIZE < 2 ^ 32 ->
  loop_step b fw fw' -> fw_rel b fw (config_of fw) -> fw_rel b fw' (config_of fw').
Proof.
  intros Hb Hs HR. enough (exists c, fw_rel b fw' c) as [c Hc] by (by rewrite <- (fw_rel_config _ _ _ Hc)).
  destruct Hs as [env m hw fw ret fw' m' hw' Hm Hh He Hr E|polls m hw fw i ret fw' m' hw' Hi E];
    [|eexists; by eapply cu_process_at_rel].
  destruct (ctrl_command_ok b _ env m hw fw (config_of fw) Hb (keeps_any b) I HR Hm Hh He) as (t & Eg & HR1 & Hcase).
  destruct (cmd_is_valid (xt_ctrl_cmd t)); [|rewrite E in Hcase; injection Hcase as -> -> -> ->; by eexists].
  destruct (decode m (xt_ctrl_cmd t)) as [r|] eqn:Ed; [|rewrite E in Hcase; injection Hcase as -> -> -> ->; by eexists].
  destruct (Hr t r Eg Ed) as [Hok Hst]. destruct (Hcase Hok (fun _ _ => I) Hst) as (fw2 & m2 & hw2 & resp & E2 & HR2 & _).
  rewrite E in E2. injection E2 as -> -> -> ->. by eexists.
Qed.

(** C27. From the start of the firmware on, whatever the host and the CUs do to
    memory and registers between calls, as long as the host sends requests the
    firmware can serve: the arrays keep their sizes, the number of CUs stays
    within them, and whenever a configuration with queues per CU is closed, the
    loop finds every handler bound to its queue and CU: it never follows a pointer
    that is not set. *)
Theorem scheduler_loop_typed {H} `{Mmio H} (b : ert_build) m fw0 m0 fw :
  0 <= ERT_CQ_BASE_ADDR b /\ ERT_CQ_BASE_ADDR b + ERT_CQ_SIZE < 2 ^ 32 -> words_ok m ->
  scheduler_start b m = Some (fw0, m0) -> rtc (loop_step (H := H) b) fw0 fw ->
  0 <= fw_num_cus fw <= MAX_XGQ_CU /\
  length (fw_xgqs fw) = 32%nat /\ length (fw_cu_xgqs fw) = 32%nat /\ length (fw_sched_cus fw) = 32%nat /\
  length (fw_cu_slot_sizes fw) = 32%nat /\ length (fw_cu_cfg fw) = 128%nat /\
  (fw_cfg_complete fw = true -> fw_flatten_queue fw = false ->
   forall i, 0 <= i < fw_num_cus fw -> is_Some (handler_at fw i)).
Proof.
  intros Hb Hm E Hr. destruct (scheduler_start_ok b m Hb Hm) as (fw1 & m1 & F & E1 & HR1 & _).
  rewrite E in E1. injection E1 as <- <-.
  assert (fw_rel b fw (config_of fw)) as HR.
  { rewrite (fw_rel_config _ _ _ HR1) in HR1. clear E. induction Hr as [fw0|fw0 fw1 fw Hs _ IH]; [done|].
    apply IH. by eapply loop_step_rel. }
  destruct HR as [[_ Hn] ? ? ? ? ? Hx Hh ? Hc ? Hbnd ?]. cbn [config_of cf_num cf_done cf_flat] in *.
  split; [exact Hn|]. split_and!; try done. intros Hd Hf i Hi. unfold handler_at. rewrite !aget_chk_in by lia. cbn [mbind option_bind].
  rewrite Hbnd by done. by eexists.
Qed.

(** ** A board *)

Definition demo_ert : ert_build := mk_ert_build 0x190000 0x180000 false false.
Definition demo_ctrl_env : ctrl_env := mk_ctrl_env [] (fun _ => 0) [] (fun _ m => m).

Lemma words_ok_empty : words_ok ∅.
Proof. intros a. unfold ioread32. rewrite lookup_empty. cbn. lia. Qed.

Lemma words_ok_put m l : words_ok m -> words_ok (foldr (fun x m => iowrite32 m x.1 x.2) m l).
Proof. intros Hm. induction l as [|[a v] l IH]; [done|]. by apply words_ok_write. Qed.

(** With room in the ring there is nothing to wait for. *)
Lemma host_reads_room env q : xgq_ring_full (xq_cq q) = false -> host_reads env q.
Proof.
  intros Hf m q' _ _ Ec _. destruct (ce_polls env); cbn [wait_produce]; unfold xgq_produce, xgq_can_produce;
    cbn [prod_ring mb_build XGQ_SERVER]; rewrite Ec, Hf; cbn [negb mbind option_bind]; by eexists.
Qed.

Lemma demo_env_words : env_words demo_ctrl_env.
Proof. by split; [constructor|]. Qed.

(** The firmware after the start, and its memory. *)
Definition demo_start : firmware * shared := default (firmware0, ∅) (scheduler_start demo_ert ∅).

Lemma demo_fw_start_ok : scheduler_start demo_ert ∅ = Some demo_start /\ fw_rel demo_ert demo_start.1 config0 /\
  words_ok demo_start.2 /\ xgq_ring_full (xq_cq (xt_xgq (fw_ctrl_xgq demo_start.1))) = false.
Proof.
  destruct (scheduler_start_ok demo_ert ∅) as (fw & m & F & E & HR & Hm & Hf & _); [done|apply words_ok_empty|].
  unfold demo_start. rewrite E. cbn [from_option id fst snd]. split_and!; [reflexivity|exact HR|exact Hm|exact Hf].
Qed.
#[local] Opaque demo_start.

(** A command in the first slot of the control queue, with three words of
    payload. *)
Definition demo_request (op w : Z) : shared :=
  foldr (fun x m => iowrite32 m x.1 x.2) demo_start.2 [(0x190028, 1); (0x190030, 2 ^ 31 + op); (0x190038, w)].

Lemma demo_request_words op w : words_ok (demo_request op w).
Proof. apply words_ok_put, demo_fw_start_ok. Qed.

Lemma demo_reads : host_reads demo_ctrl_env (xt_xgq (fw_ctrl_xgq demo_start.1)).
Proof. apply host_reads_room, demo_fw_start_ok. Qed.

(** The command taken. *)
Definition demo_hand (op w : Z) : xgq_ctrl :=
  match xgq_ctrl_get_cmd (demo_request op w) (fw_ctrl_xgq demo_start.1) with
  | Some (_, t, _) => t
  | None => fw_ctrl_xgq demo_start.1
  end.

Lemma demo_hand_eq op w v t m : xgq_ctrl_get_cmd (demo_request op w) (fw_ctrl_xgq demo_start.1) = Some (v, t, m) ->
  t = demo_hand op w.
Proof. unfold demo_hand. by intros ->. Qed.

Lemma demo_hand_open : cmd_is_valid (xt_ctrl_cmd (demo_hand 0x108 0x2003)) = true /\
  decode (demo_request 0x108 0x2003) (xt_ctrl_cmd (demo_hand 0x108 0x2003)) = Some (CfgStart 0x2003).
Proof. vm_compute. split; reflexivity. Qed.


Lemma scheduler_loop_typed_witness : exists fw, rtc (loop_step (H := gmap Z Z) demo_ert) demo_start.1 fw /\
  fw_num_cus fw = 3 /\ length (fw_cu_xgqs fw) = 32%nat.
Proof.
  destruct (process_ctrl_command demo_ert demo_ctrl_env (demo_request 0x108 0x2003) (∅ : gmap Z Z) demo_start.1)
    as [[[[ret fw] m'] hw']|] eqn:E; [|vm_compute in E; discriminate E].
  assert (rtc (loop_step (H := gmap Z Z) demo_ert) demo_start.1 fw) as Hr.
  { apply rtc_once. eapply loop_ctrl; [apply demo_request_words|apply demo_reads|apply demo_env_words| |exact E].
    intros t r ->%demo_hand_eq Ed. rewrite (proj2 demo_hand_open) in Ed. injection Ed as <-.
    split; [cbn [request_ok]; vm_compute; discriminate|discriminate]. }
  exists fw. split; [exact Hr|]. split.
  - assert (fw_num_cus (default firmware0 ((fun x => x.1.1.2) <$>
      process_ctrl_command demo_ert demo_ctrl_env (demo_request 0x108 0x2003) (∅ : gmap Z Z) demo_start.1)) = 3) as Hn
      by (vm_compute; reflexivity). by rewrite E in Hn.
  - apply (scheduler_loop_typed (H := gmap Z Z) demo_ert ∅ demo_start.1 demo_start.2 fw);
      [by split|apply words_ok_empty|rewrite (proj1 demo_fw_start_ok); f_equal; apply surjective_pairing|exact Hr].
Defined.

(** Two CUs described, the configuration about to be closed. *)
Definition demo_sizes : list Z := 64 :: 128 :: replicate 30 0.
Definition demo_open : firmware := demo_start.1 <| fw_num_cus := 2 |> <| fw_cu_slot_sizes := demo_sizes |>.
Definition demo_config : config := config0 <| cf_num := 2 |> <| cf_size := demo_sizes |>.

Lemma demo_open_rel : fw_rel demo_ert demo_open demo_config.
Proof.
  destruct demo_fw_start_ok as (_ & HR & _). destruct HR as [_ R1 R2 R3 _ R4 R5 R6 _ R7 R8 _ R9].
  apply Build_fw_rel; [|exact R1|exact R2|exact R3|reflexivity|exact R4|exact R5|exact R6|reflexivity|exact R7|
    exact R8|discriminate|exact R9].
  split; [reflexivity|]. cbn. lia.
Qed.

Lemma demo_board : 0 <= ERT_CQ_BASE_ADDR demo_ert /\ ERT_CQ_BASE_ADDR demo_ert + ERT_CQ_SIZE < 2 ^ 32.
Proof. by split. Qed.

Lemma demo_csr : outside_cus demo_ert (ERT_HOST_INTERRUPT_ENABLE_ADDR demo_ert).
Proof. left. vm_compute. reflexivity. Qed.

Lemma demo_makes_queues : makes_queues demo_config.
Proof. split; [discriminate|]. split; [reflexivity|]. vm_compute. reflexivity. Qed.

Lemma demo_request_ok : request_ok demo_config CfgEnd.
Proof.
  intros _. change (take _ _) with [64; 128]. repeat constructor; lia.
Qed.

Lemma configured_queues_usable_witness : exists fw' m' xc q',
  configure_mb_end demo_ert demo_ctrl_env demo_start.2 demo_open = Some (0, fw', m') /\
  handler_at fw' 1 = Some xc /\
  xgq_attach (mk_build false false false false) 0 m'
    (0x190000 + aget 0 (cf_offset (spec demo_config CfgEnd).1) 1) 0 0 = Some (inr (q', m')) /\
  xq_sq q' = xq_sq (xc_q xc).
Proof.
  destruct (configure_mb_end demo_ert demo_ctrl_env demo_start.2 demo_open) as [[[ret fw'] m']|] eqn:E;
    [|vm_compute in E; discriminate E].
  assert (ret = 0) as ->.
  { assert ((fun x => x.1.1) <$> configure_mb_end demo_ert demo_ctrl_env demo_start.2 demo_open = Some 0) as E0
      by (vm_compute; reflexivity). rewrite E in E0. by injection E0. }
  destruct (configured_queues_usable demo_ert demo_ctrl_env demo_start.2 demo_open demo_config fw' m'
    (mk_build false false false false) 0 demo_board demo_csr demo_open_rel (proj1 (proj2 (proj2 demo_fw_start_ok)))
    demo_request_ok demo_makes_queues (Forall_nil_2 _) eq_refl eq_refl E) as (qc & Hh & _).
  destruct (Hh 1) as (xc & q' & H1 & _ & _ & _ & H2 & H3 & _); [cbn; lia|].
  exists fw', m', xc, q'. split; [reflexivity|]. split; [exact H1|]. split; [exact H2|exact H3].
Defined.

(** ** Requests outside the protocol *)

(** A command the firmware does not know is never answered and never leaves its
    hand: whatever happens to the memory, the control queue is dead. *)
Lemma unknown_command_blocks {H} `{Mmio H} (b : ert_build) env m (hw : H) fw :
  cmd_is_valid (xt_ctrl_cmd (fw_ctrl_xgq fw)) = true -> decode m (xt_ctrl_cmd (fw_ctrl_xgq fw)) = None ->
  process_ctrl_command b env m hw fw = Some (- ENOTTY, fw, m, hw).
Proof.
  intros Hv Hd. unfold process_ctrl_command, xgq_ctrl_get_cmd. rewrite Hv. cbn [negb mbind option_bind fst snd].
  rewrite Hv. cbn [negb]. unfold decode in Hd. cbv zeta in Hd.
  repeat match type of Hd with (if ?x then _ else _) = _ => destruct x; [discriminate Hd|] end. by destruct fw.
Qed.

(** The second bound of the configuration is the number of CUs, not that of the
    arrays: with 33 CUs, describing the last one writes behind [sched_cus]. *)
Example save_cfg_cu_overflow :
  let fw := demo_start.1 <| fw_num_cus := 33 |> <| fw_flatten_queue := true |>
              <| fw_ctrl_xgq := demo_hand 0x10a 32 |> in
  save_cfg_cu demo_ctrl_env (demo_request 0x10a 32) fw = None.
Proof. vm_compute. reflexivity. Qed.

(** The handler of an index is read after its bound has been found violated. *)
Example query_cu_overflow :
  query_cu demo_ctrl_env (demo_request 0x10b 200) (demo_start.1 <| fw_ctrl_xgq := demo_hand 0x10b 200 |>) = None.
Proof. vm_compute. reflexivity. Qed.

(** With a shared queue no handler is set up, but the configuration is closed
    all the same, and the loop goes through the handlers. *)
Example flat_queue_unbound :
  let fw := demo_start.1 <| fw_num_cus := 1 |> <| fw_flatten_queue := true |>
              <| fw_ctrl_xgq := demo_hand 0x109 0 |> in
  match configure_mb_end demo_ert demo_ctrl_env (demo_request 0x109 0) fw with
  | Some (ret, fw, _) => ret = 0 /\ fw_cfg_complete fw = true /\ handler_at fw 0 = None
  | None => False
  end.
Proof. vm_compute. repeat split. Qed.

(** The protocol of a CU is cut off before it is shifted. *)
Lemma ip_ctrl_lost features : XGQ_IP_CTRL features = 0.
Proof.
  unfold XGQ_IP_CTRL. change (MASK_BIT_32 8) with (Z.ones 8). rewrite Z.land_ones, Z.shiftr_div_pow2 by lia.
  apply Z.div_small. pose proof (Z.mod_pos_bound features (2 ^ 8)). lia.
Qed.
