(* ===== verification/XoclErtCtrl.v ===== *)
(** * The control queue on the host

    [xocl/subdev/ert_ctrl.c]: the driver's end of the firmware's control queue.
    It finds the queue, sends one command at a time and polls for the answer,
    and hands out the queues of the CUs, counting their users.

    [D] is the state of the device.  The device runs while the driver sleeps:
    the waiting loop takes the list of what happens in its sleeps, and the list
    ends when the timeout of eight seconds has passed.  The queues that
    [xocl_xgq_init] allocates are in a heap by address; the arrays of the driver
    and of its callers hold addresses, [None] being NULL.  Registrations of
    interrupt handlers are kept as a list of calls.  The driver maps the command
    queue at [ec_cq_base]; memory is addressed as on the device.  [None] as a
    result is a [BUG_ON], an access outside an array or through a bad pointer. *)
From S2P Require Import Prelude KdsCommand CuCore KdsHwctx KdsSched KdsConfig Xgq XgqAlloc XoclXgq ErtCu ErtCtrl.

Definition ERT_CTRL_VER_OFFSET : Z := 0x0.
Definition ERT_CTRL_XGQ_VER1 : Z := 0x00010000.
Definition ERT_CTRL_ADD_NUM_ERT_XGQ : Z := 4.
Definition CQ_STATUS_ADDR : Z := 0x58.
Definition XGQ_SQ_REG : Z := 0x0.
Definition XGQ_CQ_REG : Z := 0x100.
Definition MAX_CU_XGQ : Z := 256.

Record ert_ctrl_xgq_cu := mk_xgq_ip { ecxc_xgq_irq : Z; ecxc_xgq_base : Z }.

(** [ec_exgq] is the array of queues; its length is [ec_exgq_capacity]. *)
Record ert_ctrl := mk_ert_ctrl {
  ec_cq_base : Z;
  ec_version : Z;
  ec_connected : bool;
  ec_ctrl_xgq : xgq;
  ec_xgq_ips : option (list ert_ctrl_xgq_cu);
  ec_exgq : list (option Z);
  ec_timestamp : Z;
  ec_cq_read_single : Z;
  ec_cq_write_single : Z;
  ec_cu_read_single : Z;
  ec_cu_write_single : Z;
  ec_h2h_access : Z;
  ec_d2h_access : Z;
  ec_h2d_access : Z;
  ec_d2d_access : Z;
  ec_d2cu_access : Z;
  ec_data_integrity : Z;
}.
#[export] Instance eta_ert_ctrl : Eta ert_ctrl := fun c =>
  mk_ert_ctrl (ec_cq_base c) (ec_version c) (ec_connected c) (ec_ctrl_xgq c) (ec_xgq_ips c) (ec_exgq c)
    (ec_timestamp c) (ec_cq_read_single c) (ec_cq_write_single c) (ec_cu_read_single c)
    (ec_cu_write_single c) (ec_h2h_access c) (ec_d2h_access c) (ec_h2d_access c) (ec_d2d_access c)
    (ec_d2cu_access c) (ec_data_integrity c).

Definition ec_exgq_capacity (ec : ert_ctrl) : Z := Z.of_nat (length (ec_exgq ec)).
Definition ec_num_xgq_ips (ec : ert_ctrl) : Z :=
  match ec_xgq_ips ec with Some l => Z.of_nat (length l) | None => 0 end.
Definition SHELL_NOT_SUPP_LEGACY (ec : ert_ctrl) : bool := if ec_xgq_ips ec then true else false.

(** Calls to the interrupt controller; a handler is given by its argument. *)
Inductive irq_call :=
| user_interrupt_reg (irq : Z) (arg : option Z)
| user_interrupt_config (irq : Z) (on : bool)
| intc_ert_request (id : Z) (arg : option Z)
| intc_ert_config (id : Z) (on : bool).

(** The driver and what it shares with others. *)
Record ert_host (D : Type) := mk_ert_host {
  eh_dev : D;
  eh_mem : shared;
  g_ctrl_xgq_cid : Z;
  eh_ec : ert_ctrl;
  eh_xgqs : gmap Z xocl_xgq;
  eh_irqs : list irq_call;
}.
Arguments mk_ert_host {D}. Arguments eh_dev {D}. Arguments eh_mem {D}. Arguments g_ctrl_xgq_cid {D}.
Arguments eh_ec {D}. Arguments eh_xgqs {D}. Arguments eh_irqs {D}.
#[export] Instance eta_ert_host D : Eta (ert_host D) := fun h =>
  mk_ert_host (eh_dev h) (eh_mem h) (g_ctrl_xgq_cid h) (eh_ec h) (eh_xgqs h) (eh_irqs h).

(** ** Tests around a command *)

Definition sizeof_data_integrity : Z := 16.

Definition ert_ctrl_init_access_test (ec : ert_ctrl) : ert_ctrl :=
  ec <| ec_h2h_access := 1 |> <| ec_d2h_access := 1 |> <| ec_h2d_access := 1 |> <| ec_d2d_access := 1 |>
     <| ec_d2cu_access := 1 |> <| ec_data_integrity := 1 |>.

(** Write and read back the words of a slot from [offset] on; [racing] is what
    the device does between the write and the read. *)
Fixpoint pattern_test (racing : nat -> shared -> shared) (pattern : Z) (m : shared) (slot_addr offset : Z)
  (n : nat) : bool * shared :=
  match n with
  | O => (true, m)
  | S n =>
      let addr := u64 (slot_addr + offset) in
      let m := racing n (iowrite32 m addr pattern) in
      if negb (ioread32 m addr =? pattern) then (false, m)
      else pattern_test racing pattern m slot_addr (offset + 4) n
  end.

Definition slot_words : nat := Z.to_nat ((CTRL_XGQ_SLOT_SIZE - sizeof_data_integrity) / 4).

Definition ert_ctrl_pre_process (racing : nat -> shared -> shared) (ec : ert_ctrl) (opcode : Z) (m : shared)
  (slot_addr : Z) : ert_ctrl * shared :=
  if opcode =? XGQ_CMD_OP_DATA_INTEGRITY then
    let ec := ert_ctrl_init_access_test ec in
    let '(ok, m) := pattern_test racing HOST_RW_PATTERN m slot_addr sizeof_data_integrity slot_words in
    let ec := if ok then ec else ec <| ec_h2h_access := 0 |> in
    let m := iowrite32 m (u64 (slot_addr + 12)) 0 in
    (ec, iowrite32 m (u64 (slot_addr + 8)) 10000000)
  else (ec, m).

(** [resp] has the four words of a completion entry. *)
Definition ert_ctrl_post_process (ec : ert_ctrl) (opcode : Z) (resp : list Z) : ert_ctrl :=
  let result := nth 1 resp 0 in
  if opcode =? XGQ_CMD_OP_CLOCK_CALIB then ec <| ec_timestamp := nth 2 resp 0 |>
  else if opcode =? XGQ_CMD_OP_ACCESS_VALID then
    ec <| ec_cq_read_single := field result 0 8 |> <| ec_cq_write_single := field result 8 8 |>
       <| ec_cu_read_single := field result 16 8 |> <| ec_cu_write_single := field result 24 8 |>
  else if opcode =? XGQ_CMD_OP_DATA_INTEGRITY then
    ec <| ec_h2d_access := field result 0 1 |> <| ec_d2d_access := field result 1 1 |>
       <| ec_d2cu_access := field result 2 1 |> <| ec_data_integrity := field result 3 1 |>
  else ec.

Section Host.
Context {D : Type}.
#[local] Abbreviation host := (ert_host D).
#[local] Abbreviation step := (D * shared -> D * shared).

(** [cnt] writes to the draft word; the device runs after each. *)
Fixpoint integrity_writes (racing : nat -> step) (s : D * shared) (slot_addr : Z) (cnt : nat) : D * shared :=
  match cnt with
  | O => s
  | S n =>
      let pattern := if Nat.odd cnt then 0xFFFFFFFF else 0 in
      integrity_writes racing (racing n (s.1, iowrite32 s.2 (u64 (slot_addr + 12)) pattern)) slot_addr n
  end.

Definition ert_ctrl_queue_integrity_test (racing : nat -> step) (s : D * shared) (slot_addr : Z) : D * shared :=
  let s := integrity_writes racing s slot_addr (Z.to_nat 9999999) in
  (s.1, iowrite32 s.2 (u64 (slot_addr + 8)) 0).

Definition ert_ctrl_device_to_host_integrity_test (racing : nat -> shared -> shared) (ec : ert_ctrl) (m : shared)
  (slot_addr : Z) : ert_ctrl * shared :=
  let '(ok, m) := pattern_test racing DEVICE_RW_PATTERN m slot_addr sizeof_data_integrity slot_words in
  (if ok then ec else ec <| ec_d2h_access := 0 |>, m).

(** ** Sending a command *)

(** What happens around one command: in each sleep until the timeout, and during
    the data integrity tests. *)
Record host_env := mk_host_env {
  he_sleeps : list step;
  he_pre : nat -> shared -> shared;
  he_stress : nat -> step;
  he_post : nat -> shared -> shared;
}.

(** The polling loop: error number, slot of the answer, the answer. *)
Fixpoint wait_answer (sleeps : list step) (s : D * shared) (q : xgq)
  : option (Z * option (Z * list Z) * xgq * (D * shared)) :=
  match sleeps with
  | [] => None
  | sleep :: sleeps =>
      let s := sleep s in
      c ← xgq_consume xocl_build s.2 q;
      let '(ret, slot, q, m) := c in
      match slot with
      | Some addr =>
          let resp := xgq_copy_from_ring m addr 4 in
          Some (0, Some (addr, resp), q, (s.1, xgq_notify_peer_consumed xocl_build m q))
      | None =>
          match sleeps with
          | [] => Some (- ETIMEDOUT, None, q, (s.1, m))
          | _ => wait_answer sleeps (s.1, m) q
          end
      end
  end.

(** [req] is the command in words.  Result: error number and, when an answer has
    been read, its words; a caller copies as many as fit its buffer. *)
Definition __ert_ctrl_submit (env : host_env) (h : host) (req : list Z) : option (Z * option (list Z) * host) :=
  p ← xgq_produce xocl_build (eh_mem h) (ec_ctrl_xgq (eh_ec h));
  let '(ret, slot, q) := p in
  let h := h <| eh_ec ::= fun ec => ec <| ec_ctrl_xgq := q |> |> in
  match slot with
  | None => Some (ret, None, h)
  | Some slot_addr =>
      req ← put_cid (g_ctrl_xgq_cid h) req;
      let opcode := xgq_hdr_opcode req in
      let '(ec, m) := ert_ctrl_pre_process (he_pre env) (eh_ec h) opcode (eh_mem h) slot_addr in
      let m := xgq_copy_to_ring m req slot_addr in
      let m := xgq_notify_peer_produced xocl_build m q in
      let s := (eh_dev h, m) in
      let s := if opcode =? XGQ_CMD_OP_DATA_INTEGRITY
               then ert_ctrl_queue_integrity_test (he_stress env) s slot_addr else s in
      r ← wait_answer (he_sleeps env) s q;
      let '(ret, ans, q, s) := r in
      let '(ec, m) := if opcode =? XGQ_CMD_OP_DATA_INTEGRITY
                      then ert_ctrl_device_to_host_integrity_test (he_post env) ec s.2
                             (match ans with Some a => a.1 | None => slot_addr end)
                      else (ec, s.2) in
      let ec := match ans with Some a => ert_ctrl_post_process ec opcode a.2 | None => ec end in
      Some (ret, snd <$> ans,
            h <| eh_dev := s.1 |> <| eh_mem := m |> <| g_ctrl_xgq_cid := u16 (g_ctrl_xgq_cid h + 1) |>
              <| eh_ec := ec <| ec_ctrl_xgq := q |> |>)
  end.

(** The status with which the command goes back to KDS; a command whose error is
    neither of the two keeps the one it had. *)
Definition ert_ctrl_submit (env : host_env) (h : host) (xcmd : kds_command)
  : option (kds_status * option (list Z) * host) :=
  info ← xcmd_info xcmd;
  r ← __ert_ctrl_submit env h info;
  let '(ret, resp, h) := r in
  Some (if ret =? 0 then KDS_COMPLETED
        else if ret =? - ETIMEDOUT then KDS_TIMEOUT
        else if ret =? - ENOSPC then KDS_ERROR
        else xcmd_status xcmd, resp, h).

(** The count and the second word of the header are not initialised: [junk]. *)
Definition ert_ctrl_submit_exit_cmd (env : host_env) (junk : list Z) (h : host) : option host :=
  let hdr := set_field (set_field (nth 0 junk 0) 0 16 XGQ_CMD_OP_EXIT) 31 1 1 in
  r ← __ert_ctrl_submit env h [hdr; nth 1 junk 0]; Some r.2.

(** ** The queues of the CUs *)

(** [alloc]: whether the allocation succeeds. *)
Definition ert_ctrl_alloc_ert_xgq (alloc : bool) (ec : ert_ctrl) (num : Z) : Z * ert_ctrl :=
  if num <=? ec_exgq_capacity ec then (0, ec)
  else if MAX_CU_XGQ <? num then (- EINVAL, ec)
  else if negb alloc then (- ENOMEM, ec)
  else (0, ec <| ec_exgq ::= fun l => l ++ replicate (Z.to_nat num - length l) None |>).

(** Interrupts of queue [id] on or off; [arg] is the argument of the handler. *)
Definition xgq_irq_on (ec : ert_ctrl) (id : Z) (arg : Z) : option (list irq_call) :=
  match ec_xgq_ips ec with
  | Some ips =>
      ip ← aget_chk (mk_xgq_ip 0 0) ips id;
      Some [user_interrupt_reg (ecxc_xgq_irq ip) (Some arg); user_interrupt_config (ecxc_xgq_irq ip) true]
  | None => Some [intc_ert_request id (Some arg); intc_ert_config id true]
  end.

(** Where queue [id] is: the pointers are registers of an IP or in memory, and
    then the firmware is told by an interrupt register. *)
Definition setup_info (ec : ert_ctrl) (csr id offset : Z) : option xocl_xgq_info :=
  let addr := u64 (ec_cq_base ec + offset) in
  match ec_xgq_ips ec with
  | Some ips =>
      ip ← aget_chk (mk_xgq_ip 0 0) ips id;
      Some (mk_xgq_info id addr (u64 (ecxc_xgq_base ip + XGQ_SQ_REG)) None (u64 (ecxc_xgq_base ip + XGQ_CQ_REG)))
  | None => Some (mk_xgq_info id addr 0 (Some (u64 (csr + CQ_STATUS_ADDR))) 0)
  end.

(** [alloc] are the results of the two allocations, of the array and of the
    queue; [csr] the base of the interrupt controller.  Result: an error number
    or the queue. *)
Definition ert_ctrl_setup_xgq (alloc : bool * option Z) (csr : Z) (h : host) (id offset : Z)
  : option ((Z + Z) * host) :=
  let '(ret, ec) := if ec_exgq_capacity (eh_ec h) <=? id
                    then ert_ctrl_alloc_ert_xgq alloc.1 (eh_ec h) (id + ERT_CTRL_ADD_NUM_ERT_XGQ)
                    else (0, eh_ec h) in
  let h := h <| eh_ec := ec |> in
  if z2b ret then Some (inl ret, h)
  else
    let done_ p h :=
      x ← eh_xgqs h !! p;
      x ← (xocl_incr_xgq_ref_cnt (Some x)).2;
      Some (inr p, h <| eh_xgqs ::= insert p x |>) in
    e ← aget_chk None (ec_exgq ec) id;
    match e with
    | Some p => done_ p h
    | None =>
        info ← setup_info ec csr id offset;
        r ← xocl_xgq_init (if alloc.2 then true else false) (eh_mem h) info;
        match r, alloc.2 with
        | inr (x, m), Some p =>
            irqs ← xgq_irq_on ec id p;
            done_ p (h <| eh_mem := m |> <| eh_ec ::= fun ec => ec <| ec_exgq ::= fun l => aset l id (Some p) |> |>
                       <| eh_xgqs ::= insert p x |> <| eh_irqs ::= fun l => l ++ irqs |>)
        | inl err, _ => Some (inl err, h)
        | inr _, None => None
        end
    end.

Definition ert_ctrl_unset_xgq (h : host) (xgq_handle : option Z) : option host :=
  let xgq_id := xocl_get_xgq_id (xgq_handle ≫= fun p => eh_xgqs h !! p) in
  if xgq_id =? - EINVAL then None
  else
    let ec := eh_ec h in
    e ← aget_chk None (ec_exgq ec) xgq_id;
    x ← (match e with Some p => x ← eh_xgqs h !! p; Some (Some x) | None => Some None end);
    let '(cnt, x) := xocl_decr_xgq_ref_cnt x in
    let h := match e, x with
             | Some p, Some x => h <| eh_xgqs ::= insert p x |>
             | _, _ => h
             end in
    if negb (cnt =? 0) then Some h
    else
      off ← (if xgq_id <? ec_num_xgq_ips ec then
               ips ← ec_xgq_ips ec;
               ip ← aget_chk (mk_xgq_ip 0 0) ips xgq_id;
               Some [user_interrupt_config (ecxc_xgq_irq ip) false; user_interrupt_reg (ecxc_xgq_irq ip) None]
             else Some []);
      match e with
      | None => Some (h <| eh_irqs ::= fun l => l ++ off |>)
      | Some _ =>
          let off := off ++ match ec_xgq_ips ec with
                            | None => [intc_ert_config xgq_id false; intc_ert_request xgq_id None]
                            | Some _ => []
                            end in
          Some (h <| eh_irqs ::= fun l => l ++ off |>
                  <| eh_ec ::= fun ec => ec <| ec_exgq ::= fun l => aset l xgq_id None |> |>)
      end.

(** ** Connection *)

Section Connect.
Context {C : Type}.
#[local] Abbreviation sched := (kds_sched C).

Definition ert_ctrl_xgq_init (h : host) (kds : sched) : option (Z * host * sched) :=
  r ← xgq_attach xocl_build 0 (eh_mem h) (u64 (ec_cq_base (eh_ec h) + 4)) 0 0;
  match r with
  | inl ret => Some (ret, h, kds)
  | inr (q, m) =>
      Some (0, h <| eh_mem := m |> <| eh_ec ::= fun ec => ec <| ec_ctrl_xgq := q |> |>,
            (kds_init_ert kds (mk_kds_ert true)).2)
  end.

(** The references to the queues are dropped one by one. *)
Fixpoint drop_queues (xgqs : gmap Z xocl_xgq) (ps : list (option Z)) : option (gmap Z xocl_xgq) :=
  match ps with
  | [] => Some xgqs
  | None :: ps => drop_queues xgqs ps
  | Some p :: ps =>
      x ← xgqs !! p;
      x ← (xocl_decr_xgq_ref_cnt (Some x)).2;
      drop_queues (<[p := x]> xgqs) ps
  end.

Definition ert_ctrl_xgq_fini (h : host) (kds : sched) : option (host * sched) :=
  xgqs ← drop_queues (eh_xgqs h) (ec_exgq (eh_ec h));
  Some (h <| eh_xgqs := xgqs |> <| eh_ec ::= fun ec => ec <| ec_exgq ::= fmap (fun _ => None) |> |>,
        (kds_fini_ert kds).2).

(** [legacy]: the result of creating the legacy command queue device. *)
Definition ert_ctrl_connect (legacy : Z) (h : host) (kds : sched) : option (Z * host * sched) :=
  if ec_connected (eh_ec h) then Some (0, h, kds)
  else
    let version := ioread32 (eh_mem h) (ec_cq_base (eh_ec h) + ERT_CTRL_VER_OFFSET) in
    let h := h <| eh_ec ::= fun ec => ec <| ec_version := version |> |> in
    r ← (if version =? ERT_CTRL_XGQ_VER1 then ert_ctrl_xgq_init h kds
         else if SHELL_NOT_SUPP_LEGACY (eh_ec h) then Some (- ENODEV, h, kds)
         else Some (legacy, h, kds));
    let '(err, h, kds) := r in
    if z2b err then Some (err, h, kds)
    else Some (0, h <| eh_ec ::= fun ec => ec <| ec_connected := true |> |>, kds).

Definition ert_ctrl_disconnect (h : host) (kds : sched) : option (host * sched) :=
  if negb (ec_connected (eh_ec h)) then Some (h, kds)
  else
    r ← (if ec_version (eh_ec h) =? ERT_CTRL_XGQ_VER1 then ert_ctrl_xgq_fini h kds else Some (h, kds));
    Some (r.1 <| eh_ec ::= fun ec => ec <| ec_connected := false |> |>, r.2).

Definition ert_ctrl_remove (h : host) (kds : sched) : option (host * sched) :=
  let off := concat ((fun ip => [user_interrupt_config (ecxc_xgq_irq ip) false;
                                 user_interrupt_reg (ecxc_xgq_irq ip) None]) <$>
                     default [] (ec_xgq_ips (eh_ec h))) in
  ert_ctrl_disconnect (h <| eh_irqs ::= fun l => l ++ off |>) kds.
End Connect.

Definition ert_ctrl_is_version (h : host) (major minor : Z) : bool :=
  ec_version (eh_ec h) =? u32 (Z.shiftl (Z.land major 0xFFFF) 16 + Z.land minor 0xFFFF).

Definition ert_ctrl_get_base (h : host) : Z := ec_cq_base (eh_ec h).

(** What the attribute [data_integrity] shows. *)
Definition data_integrity_show (ec : ert_ctrl) : Z :=
  foldl Z.land 1 [ec_h2h_access ec; ec_d2h_access ec; ec_h2d_access ec; ec_d2d_access ec; ec_d2cu_access ec;
                  ec_data_integrity ec].
End Host.
