(* ===== verification/XoclRefs.v ===== *)
(** * Users of the CU queues

    [ert_ctrl_setup_xgq] and [ert_ctrl_unset_xgq] of [ert_ctrl.c]: several CUs
    may share a queue.  The first user attaches to it and turns its interrupt on,
    later users get the same queue, and the last one turns the interrupt off and
    forgets it.  The specification is a map from queue numbers to the queue
    object and the number of its users. *)
From S2P Require Import Prelude KdsCommand CuCore KdsHwctx KdsSched KdsConfig Xgq XgqRing XgqAlloc XoclXgq ErtCu ErtCtrl.
From S2P Require Import ErtCtrlSpec XoclErtCtrl.

(** ** Attaching always ends *)

Lemma fast_forward_total b f m r : words_ok m -> is_Some (xgq_fast_forward b f m r).
Proof.
  intros Hm. unfold xgq_fast_forward, xgq_ring_read_produced, xgq_ring_read_consumed, xgq_mem_read32.
  repeat (rewrite ?xgq_read32_eq, read_ptr_ok by apply Hm; cbn [mbind option_bind]). by eexists.
Qed.

Lemma attach_total b f m ra sqp cqp : words_ok m -> exists r, xgq_attach b f m ra sqp cqp = Some r /\
  match r with inr (_, m') => words_ok m' | inl _ => True end.
Proof.
  intros Hm. unfold xgq_attach. destruct (negb _); [by eexists|]. destruct (negb _); [by eexists|].
  destruct (_ || _); [by eexists|]. set (F := Z.lor _ _). unfold producer_addrs.
  assert (words_ok (if XGQ_IS_IN_MEM_PROD F then m else xgq_reg_write32 m (u64 (sqp + XGQ_INTR_ENABLE_OFFSET)) 1)) as Hm'.
  { destruct (XGQ_IS_IN_MEM_PROD F); [done|]. by apply words_ok_write. }
  destruct (XGQ_IS_IN_MEM_PROD F);
    (match goal with |- context [xgq_fast_forward b F ?m' ?sq] => destruct (fast_forward_total b F m' sq Hm') as [sq' Es] end;
     rewrite Es; cbn [mbind option_bind];
     match goal with |- context [xgq_fast_forward b F ?m' ?cq] => destruct (fast_forward_total b F m' cq Hm') as [cq' Ec] end;
     rewrite Ec; cbn [mbind option_bind]; by eexists).
Qed.

(** ** Interrupts *)

(** The interrupt of a queue: an interrupt of the board, or one of the
    interrupts of the firmware by the number of the queue. *)
#[local] Abbreviation line := (Z + Z)%type.

Definition irq_line (ec : ert_ctrl) (id : Z) : line :=
  match ec_xgq_ips ec with Some ips => inl (ecxc_xgq_irq (aget (mk_xgq_ip 0 0) ips id)) | None => inr id end.

Definition irq_effect (l : line) (on : bool) (c : irq_call) : bool :=
  match c with
  | user_interrupt_config irq v => if decide (l = inl irq) then v else on
  | intc_ert_config id v => if decide (l = inr id) then v else on
  | _ => on
  end.

(** Whether [l] is on after the calls. *)
Definition irq_enabled (calls : list irq_call) (l : line) : bool := foldl (irq_effect l) false calls.

Lemma irq_enabled_app calls new l : irq_enabled (calls ++ new) l = foldl (irq_effect l) (irq_enabled calls l) new.
Proof. apply foldl_app. Qed.

Section Users.
Context {D : Type}.
#[local] Abbreviation host := (ert_host D).

(** ** The specification *)

Inductive queue_op := Setup (alloc : bool * option Z) (csr id offset : Z) | Unset (p : Z).

(** A call of the driver; the result is an error number, or the queue. *)
Definition queue_call (h : host) (op : queue_op) : option ((Z + Z) * host) :=
  match op with
  | Setup alloc csr id offset => ert_ctrl_setup_xgq alloc csr h id offset
  | Unset p => h ← ert_ctrl_unset_xgq h (Some p); Some (inr p, h)
  end.

(** The queues in use: their objects and the number of their users. *)
#[local] Abbreviation users := (gmap Z (Z * Z)).

Inductive users_step (a : users) : queue_op -> Z + Z -> users -> Prop :=
| users_join alloc csr id off p n : a !! id = Some (p, n) ->
    users_step a (Setup alloc csr id off) (inr p) (<[id := (p, n + 1)]> a)
| users_first alloc csr id off p : a !! id = None -> alloc.2 = Some p ->
    users_step a (Setup alloc csr id off) (inr p) (<[id := (p, 1)]> a)
| users_fail alloc csr id off err : a !! id = None -> err < 0 ->
    users_step a (Setup alloc csr id off) (inl err) a
| users_leave id p n : a !! id = Some (p, n) -> 1 < n ->
    users_step a (Unset p) (inr p) (<[id := (p, n - 1)]> a)
| users_last id p : a !! id = Some (p, 1) -> users_step a (Unset p) (inr p) (delete id a).

(** ** The driver *)

(** Queues by number: those of the board's IPs, or any. *)
Definition queue_id (ec : ert_ctrl) (id : Z) : Prop :=
  0 <= id /\ match ec_xgq_ips ec with Some ips => id < Z.of_nat (length ips) | None => True end.

Record queues (h : host) (a : users) : Prop := {
  qs_words : words_ok (eh_mem h);
  qs_irqs : match ec_xgq_ips (eh_ec h) with Some ips => NoDup (ecxc_xgq_irq <$> ips) | None => True end;
  qs_table : forall id, queue_id (eh_ec h) id -> aget None (ec_exgq (eh_ec h)) id = fst <$> a !! id;
  qs_users : forall id p n, a !! id = Some (p, n) -> queue_id (eh_ec h) id /\ 1 <= n /\
    exists x, eh_xgqs h !! p = Some x /\ xx_id x = id /\ xx_ref_cnt x = n;
  qs_enabled : forall id, queue_id (eh_ec h) id ->
    irq_enabled (eh_irqs h) (irq_line (eh_ec h) id) = bool_decide (is_Some (a !! id));
}.

(** Calls: memory handed out is not in use, a queue is left by one of its users,
    and there are fewer users than the counter can hold. *)
Definition op_ok (h : host) (a : users) (op : queue_op) : Prop :=
  match op with
  | Setup alloc _ id _ => queue_id (eh_ec h) id /\ (forall p, alloc.2 = Some p -> eh_xgqs h !! p = None) /\
      forall p n, a !! id = Some (p, n) -> n + 1 < 2 ^ 31
  | Unset p => exists id n, a !! id = Some (p, n) /\ n < 2 ^ 31
  end.

Lemma irq_line_inj ec id1 id2 : match ec_xgq_ips ec with Some ips => NoDup (ecxc_xgq_irq <$> ips) | None => True end ->
  queue_id ec id1 -> queue_id ec id2 -> irq_line ec id1 = irq_line ec id2 -> id1 = id2.
Proof.
  unfold queue_id, irq_line. destruct (ec_xgq_ips ec) as [ips|]; [|by intros _ _ _ [= ->]].
  intros Hn [H1 H1'] [H2 H2'] [= E].
  destruct (lookup_lt_is_Some_2 ips (Z.to_nat id1)) as [x1 E1]; [lia|].
  destruct (lookup_lt_is_Some_2 ips (Z.to_nat id2)) as [x2 E2]; [lia|].
  unfold aget in E. rewrite E1, E2 in E. cbn in E.
  assert (Z.to_nat id1 = Z.to_nat id2); [|lia].
  eapply (NoDup_lookup _ _ _ (ecxc_xgq_irq x1) Hn); rewrite list_lookup_fmap; [by rewrite E1|by rewrite E2, E].
Qed.

(** Growing the array keeps what it holds. *)
Lemma grow_get ec id v n : 0 <= id -> aget None (ec_exgq ec) id = v ->
  aget None (ec_exgq (ec <| ec_exgq ::= fun l => l ++ replicate n None |>)) id = v.
Proof.
  intros Hid <-. rproj. unfold aget. destruct (ec_exgq ec !! Z.to_nat id) eqn:E.
  - by rewrite (lookup_app_l_Some _ _ _ _ E).
  - rewrite lookup_app_r by (by apply lookup_ge_None_1).
    by destruct (replicate _ _ !! _) as [[]|] eqn:Er; [apply lookup_replicate in Er as [? _]|..].
Qed.

Lemma queues_ptr_inj (h : host) a id1 id2 p n1 n2 : queues h a -> a !! id1 = Some (p, n1) -> a !! id2 = Some (p, n2) -> id1 = id2.
Proof.
  intros HQ E1 E2. destruct (qs_users _ _ HQ _ _ _ E1) as (_ & _ & x1 & X1 & <- & _).
  destruct (qs_users _ _ HQ _ _ _ E2) as (_ & _ & x2 & X2 & <- & _). congruence.
Qed.

(** A change at one queue. *)
Lemma queues_update (h h' : host) a id v : queues h a -> queue_id (eh_ec h) id ->
  ec_xgq_ips (eh_ec h') = ec_xgq_ips (eh_ec h) -> words_ok (eh_mem h') ->
  aget None (ec_exgq (eh_ec h')) id = fst <$> v ->
  (forall j, 0 <= j -> j <> id -> aget None (ec_exgq (eh_ec h')) j = aget None (ec_exgq (eh_ec h)) j) ->
  (forall j p n, j <> id -> a !! j = Some (p, n) -> eh_xgqs h' !! p = eh_xgqs h !! p) ->
  (forall p n, v = Some (p, n) -> 1 <= n /\ exists x, eh_xgqs h' !! p = Some x /\ xx_id x = id /\ xx_ref_cnt x = n) ->
  (forall l, irq_enabled (eh_irqs h') l =
     if decide (l = irq_line (eh_ec h) id) then bool_decide (is_Some v) else irq_enabled (eh_irqs h) l) ->
  queues h' (partial_alter (fun _ => v) id a).
Proof.
  intros [Q1 Q2 Q3 Q4 Q5] Hid Ei Hw Ht Hto Hh Hv Hirq.
  assert (forall j, queue_id (eh_ec h') j <-> queue_id (eh_ec h) j) as Eid by (intros j; unfold queue_id; by rewrite Ei).
  assert (forall j, irq_line (eh_ec h') j = irq_line (eh_ec h) j) as El by (intros j; unfold irq_line; by rewrite Ei).
  split.
  - done.
  - by rewrite Ei.
  - intros j Hj%Eid. destruct (decide (j = id)) as [->|Hne]; [by rewrite lookup_partial_alter_eq|].
    rewrite lookup_partial_alter_ne by done. rewrite Hto by (done || apply Hj). by apply Q3.
  - intros j p n Ej. rewrite Eid. destruct (decide (j = id)) as [->|Hne].
    + rewrite lookup_partial_alter_eq in Ej. split; [done|]. by apply Hv.
    + rewrite lookup_partial_alter_ne in Ej by done. rewrite (Hh _ _ _ Hne Ej). by apply Q4.
  - intros j Hj%Eid. rewrite El, Hirq. destruct (decide (j = id)) as [->|Hne].
    + by rewrite decide_True, lookup_partial_alter_eq by done.
    + rewrite decide_False by (intros E; apply Hne; by apply (irq_line_inj (eh_ec h))).
      rewrite lookup_partial_alter_ne by done. by apply Q5.
Qed.

(** Making room for queue [id]. *)
Lemma setup_grow alloc (h : host) a id : queues h a -> queue_id (eh_ec h) id ->
  exists ret ec, (if ec_exgq_capacity (eh_ec h) <=? id
    then ert_ctrl_alloc_ert_xgq alloc (eh_ec h) (id + ERT_CTRL_ADD_NUM_ERT_XGQ) else (0, eh_ec h)) = (ret, ec) /\
    queues (h <| eh_ec := ec |>) a /\ ec_xgq_ips ec = ec_xgq_ips (eh_ec h) /\
    (ret = 0 /\ id < ec_exgq_capacity ec \/ ret < 0 /\ a !! id = None).
Proof.
  intros HQ [Hid Hips]. assert (h = h <| eh_ec := eh_ec h |>) as Eh by (by destruct h).
  destruct (Z.leb_spec (ec_exgq_capacity (eh_ec h)) id) as [Hc|Hc].
  2: { exists 0, (eh_ec h). rewrite <- Eh. split_and!; try done. by left. }
  assert (a !! id = None) as Hn.
  { pose proof (qs_table _ _ HQ id ltac:(by split)) as E. unfold aget in E. unfold ec_exgq_capacity in Hc.
    rewrite lookup_ge_None_2 in E by lia. by destruct (a !! id). }
  unfold ert_ctrl_alloc_ert_xgq, ERT_CTRL_ADD_NUM_ERT_XGQ.
  replace (id + 4 <=? ec_exgq_capacity (eh_ec h)) with false by lia.
  destruct (MAX_CU_XGQ <? id + 4). { exists (- EINVAL), (eh_ec h). rewrite <- Eh. split_and!; try done. by right. }
  destruct alloc; cbn [negb]. 2: { exists (- ENOMEM), (eh_ec h). rewrite <- Eh. split_and!; try done. by right. }
  eexists 0, _. split; [reflexivity|]. split; [|split; [done|left; split; [done|]]].
  - destruct HQ as [Q1 Q2 Q3 Q4 Q5]. split; rproj; try done. intros j Hj. apply (grow_get (eh_ec h)); [apply Hj|by apply Q3].
  - unfold ec_exgq_capacity in *. rproj. rewrite length_app, length_replicate. lia.
Qed.

Lemma setup_info_total ec csr id off : queue_id ec id ->
  exists info, setup_info ec csr id off = Some info /\ xi_id info = id.
Proof.
  intros [H1 H2]. unfold setup_info. destruct (ec_xgq_ips ec); [|by eexists].
  rewrite aget_chk_in by lia. cbn [mbind option_bind]. by eexists.
Qed.

Lemma irq_on_ok ec id p calls : queue_id ec id -> exists irqs, xgq_irq_on ec id p = Some irqs /\
  forall l, irq_enabled (calls ++ irqs) l = if decide (l = irq_line ec id) then true else irq_enabled calls l.
Proof.
  intros [H1 H2]. unfold xgq_irq_on, irq_line. destruct (ec_xgq_ips ec) as [ips|].
  - rewrite aget_chk_in by lia. cbn [mbind option_bind]. eexists. split; [reflexivity|]. intros l. by rewrite irq_enabled_app.
  - eexists. split; [reflexivity|]. intros l. by rewrite irq_enabled_app.
Qed.

(** A further user of a queue. *)
Lemma setup_join (h : host) a id p n : queues h a -> a !! id = Some (p, n) -> n + 1 < 2 ^ 31 ->
  exists x, eh_xgqs h !! p = Some x /\ (xocl_incr_xgq_ref_cnt (Some x)).2 = Some (x <| xx_ref_cnt := n + 1 |>) /\
    queues (h <| eh_xgqs ::= insert p (x <| xx_ref_cnt := n + 1 |>) |>) (<[id := (p, n + 1)]> a).
Proof.
  intros HQ Ea Hn. destruct (qs_users _ _ HQ _ _ _ Ea) as (Hid & Hn1 & x & Ex & Exi & Exn).
  exists x. split; [done|]. split; [cbn; by rewrite Exn, s32_small by lia|].
  apply (queues_update h _ a id (Some (p, n + 1)) HQ Hid); rproj; try done.
  - apply HQ.
  - rewrite (qs_table _ _ HQ id Hid), Ea. done.
  - intros j p' n' Hne Ej. rewrite lookup_insert_ne; [done|]. intros <-. by apply Hne, (queues_ptr_inj h a j id p n' n).
  - intros ? ? [= <- <-]. split; [lia|]. eexists. by rewrite lookup_insert_eq.
  - intros l. case_decide as E; [|done]. rewrite E, (qs_enabled _ _ HQ id Hid), Ea. done.
Qed.

(** Its first user. *)
Lemma setup_first (h : host) a id p info q m irqs : queues h a -> queue_id (eh_ec h) id -> id < ec_exgq_capacity (eh_ec h) ->
  a !! id = None -> eh_xgqs h !! p = None -> xi_id info = id -> words_ok m ->
  (forall l, irq_enabled (eh_irqs h ++ irqs) l = if decide (l = irq_line (eh_ec h) id) then true else irq_enabled (eh_irqs h) l) ->
  let x := mk_xocl_xgq q (xi_id info) 0 (xi_addr info) (replicate (Z.to_nat MAX_CLIENTS) xclient0) 0 (xi_sq_prod_int info) in
  let h' := h <| eh_mem := m |> <| eh_ec ::= fun ec => ec <| ec_exgq ::= fun l => aset l id (Some p) |> |>
              <| eh_xgqs ::= insert p x |> <| eh_irqs ::= fun l => l ++ irqs |> in
  queues (h' <| eh_xgqs ::= insert p (x <| xx_ref_cnt := 1 |>) |>) (<[id := (p, 1)]> a).
Proof.
  intros HQ Hid Hc Ea Ep Ei Hm Hirq x h'. subst h'. unfold ec_exgq_capacity in Hc. pose proof Hid as [Hid0 _].
  apply (queues_update h _ a id (Some (p, 1)) HQ Hid); rproj; try done.
  - by rewrite aget_aset_eq by lia.
  - intros j Hj Hne. by rewrite aget_aset_ne by lia.
  - intros j p' n' Hne Ej. assert (p <> p') as Hp; [|by rewrite !lookup_insert_ne by done].
    intros <-. destruct (qs_users _ _ HQ _ _ _ Ej) as (_ & _ & y & Ey & _). congruence.
  - intros ? ? [= <- <-]. split; [lia|]. eexists. by rewrite lookup_insert_eq.
Qed.

Lemma setup_call (h : host) a alloc csr id off : queues h a -> op_ok h a (Setup alloc csr id off) ->
  exists r h' a', queue_call h (Setup alloc csr id off) = Some (r, h') /\
    users_step a (Setup alloc csr id off) r a' /\ queues h' a'.
Proof.
  intros HQ (Hid & Hfresh & Hcnt). cbn [queue_call]. unfold ert_ctrl_setup_xgq.
  destruct (setup_grow alloc.1 h a id HQ Hid) as (ret & ec & -> & HQ1 & Ei & Hret).
  set (h1 := h <| eh_ec := ec |>) in *.
  assert (queue_id (eh_ec h1) id) as Hid1 by (subst h1; rproj; unfold queue_id; by rewrite Ei).
  destruct Hret as [[-> Hc]|[Hr Hn]].
  2: { replace (z2b ret) with true by (unfold z2b; lia). exists (inl ret), h1, a. split_and!; [done|by constructor|done]. }
  change (z2b 0) with false. cbv iota beta zeta. pose proof (qs_table _ _ HQ1 id Hid1) as Et. pose proof Hid1 as [Hid0 _].
  change (eh_ec h1) with ec in *. rewrite aget_chk_in by (unfold ec_exgq_capacity in Hc; lia). rewrite Et. cbn [mbind option_bind].
  destruct (a !! id) as [[p n]|] eqn:Ea; cbn [fmap option_fmap option_map fst].
  { destruct (setup_join h1 a id p n HQ1 Ea (Hcnt _ _ eq_refl)) as (x & Ex & Ei' & HQ2).
    rewrite Ex. cbn [mbind option_bind]. rewrite Ei'. cbn [mbind option_bind].
    eexists _, _, _. split; [reflexivity|]. split; [by constructor|exact HQ2]. }
  destruct (setup_info_total ec csr id off Hid1) as (info & -> & Einfo). cbn [mbind option_bind]. unfold xocl_xgq_init.
  destruct (alloc.2) as [p|] eqn:Eal; cbn [negb mbind option_bind].
  2: { exists (inl (- ENOMEM)), h1, a. split_and!; [done|by constructor|done]. }
  destruct (attach_total xocl_build 0 (eh_mem h1) (xi_addr info) (xi_sq_prod info) (xi_cq_prod info) (qs_words _ _ HQ1))
    as ([err|[q m]] & -> & Hm); cbn [mbind option_bind].
  { exists (inl (- ENODEV)), h1, a. split_and!; [done|by constructor|done]. }
  destruct (irq_on_ok ec id p (eh_irqs h1) Hid1) as (irqs & -> & Hirq). cbn [mbind option_bind]. rproj. rewrite lookup_insert_eq.
  cbn [mbind option_bind xocl_incr_xgq_ref_cnt snd].
  pose proof (setup_first h1 a id p info q m irqs HQ1 Hid1 Hc Ea (Hfresh p eq_refl) Einfo Hm Hirq) as HQ2. cbv zeta in HQ2.
  eexists _, _, _. split; [reflexivity|]. split; [by apply (users_first _ _ _ _ _ p)|exact HQ2].
Qed.

Lemma irq_off_ok ec id calls : queue_id ec id -> exists off,
  (if id <? ec_num_xgq_ips ec then ips ← ec_xgq_ips ec; ip ← aget_chk (mk_xgq_ip 0 0) ips id;
     Some [user_interrupt_config (ecxc_xgq_irq ip) false; user_interrupt_reg (ecxc_xgq_irq ip) None] else Some []) = Some off /\
  forall l, irq_enabled (calls ++ off ++ match ec_xgq_ips ec with
    | None => [intc_ert_config id false; intc_ert_request id None] | Some _ => [] end) l =
    if decide (l = irq_line ec id) then false else irq_enabled calls l.
Proof.
  intros [Hid Hips]. unfold ec_num_xgq_ips, irq_line. destruct (ec_xgq_ips ec) as [ips|].
  - replace (id <? _) with true by lia. cbn [mbind option_bind]. rewrite aget_chk_in by lia. cbn [mbind option_bind].
    eexists. split; [reflexivity|]. intros l. by rewrite irq_enabled_app.
  - replace (id <? 0) with false by lia. eexists. split; [reflexivity|]. intros l. by rewrite irq_enabled_app.
Qed.

Lemma unset_call (h : host) a p : queues h a -> op_ok h a (Unset p) ->
  exists r h' a', queue_call h (Unset p) = Some (r, h') /\ users_step a (Unset p) r a' /\ queues h' a'.
Proof.
  intros HQ (id & n & Ea & Hn). destruct (qs_users _ _ HQ _ _ _ Ea) as (Hid & Hn1 & x & Ex & Exi & Exn).
  cbn [queue_call]. unfold ert_ctrl_unset_xgq. cbn [mbind option_bind]. rewrite Ex. cbn [xocl_get_xgq_id]. rewrite Exi.
  pose proof Hid as [Hid0 Hips]. replace (id =? - EINVAL) with false by (unfold EINVAL; lia).
  pose proof (qs_table _ _ HQ id Hid) as Et. rewrite Ea in Et. cbn in Et.
  assert (id < Z.of_nat (length (ec_exgq (eh_ec h)))) as Hlen.
  { unfold aget in Et. destruct (ec_exgq (eh_ec h) !! Z.to_nat id) eqn:El; [|discriminate Et]. apply lookup_lt_Some in El. lia. }
  rewrite aget_chk_in, Et by lia. cbn [mbind option_bind]. rewrite Ex. cbn [mbind option_bind xocl_decr_xgq_ref_cnt].
  rewrite Exn, s32_small by lia.
  assert (forall j p' n', j <> id -> a !! j = Some (p', n') -> forall y, <[p := y]> (eh_xgqs h) !! p' = eh_xgqs h !! p') as Hne.
  { intros j p' n' Hne Ej y. rewrite lookup_insert_ne; [done|]. intros <-. by apply Hne, (queues_ptr_inj h a j id p n' n). }
  destruct (Z.eqb_spec (n - 1) 0) as [En|En]; cbn [negb].
  - assert (n = 1) as -> by lia. rproj.
    destruct (irq_off_ok (eh_ec h) id (eh_irqs h) Hid) as (off & -> & Hirq).
    cbn [mbind option_bind]. eexists _, _, _. split; [reflexivity|]. split; [by apply (users_last _ id)|].
    apply (queues_update h _ a id None HQ Hid); rproj; try done.
    + apply HQ.
    + by rewrite aget_aset_eq by lia.
    + intros j Hj Hjn. by rewrite aget_aset_ne by lia.
    + intros j p' n' Hj Ej. by eapply Hne.
  - eexists _, _, _. split; [reflexivity|]. split; [apply (users_leave _ id p n); [done|lia]|].
    apply (queues_update h _ a id (Some (p, n - 1)) HQ Hid); rproj; try done.
    + apply HQ.
    + intros j p' n' Hj Ej. by eapply Hne.
    + intros ? ? [= <- <-]. split; [lia|]. eexists. rewrite lookup_insert_eq. by split_and!.
    + intros l. case_decide as E; [|done]. rewrite E, (qs_enabled _ _ HQ id Hid), Ea. done.
Qed.

(** C7. The driver's table of CU queues implements a map that counts users:
    from a driver whose table stands for [a], every call of
    [ert_ctrl_setup_xgq] or [ert_ctrl_unset_xgq] ends, returns what the
    specification allows (the queue other users have, a new one, or an error that
    changes nothing) and leaves a table that stands for the new map.  In every such
    state the interrupt of a queue is on exactly while the queue has users. *)
Theorem ert_ctrl_queues_refine (h : host) a op : queues h a -> op_ok h a op ->
  exists r h' a', queue_call h op = Some (r, h') /\ users_step a op r a' /\ queues h' a' /\
    forall id, queue_id (eh_ec h') id -> irq_enabled (eh_irqs h') (irq_line (eh_ec h') id) = bool_decide (is_Some (a' !! id)).
Proof.
  intros HQ Hop.
  assert (exists r h' a', queue_call h op = Some (r, h') /\ users_step a op r a' /\ queues h' a') as (r & h' & a' & E & Hs & HQ')
    by (destruct op; [by apply setup_call|by apply unset_call]).
  exists r, h', a'. split; [done|]. split; [done|]. split; [done|]. apply HQ'.
Qed.
End Users.

(** ** Two users of a queue *)

Definition demo_queue_mem : shared :=
  match xgq_alloc mb_build XGQ_IN_MEM_PROD ∅ 0x1000 4096 512 0 0 with Some (inr (_, m, _)) => m | _ => ∅ end.
Definition demo_queues : ert_host unit :=
  mk_ert_host tt demo_queue_mem 0 (mk_ert_ctrl 0 0 true no_xgq None [] 0 0 0 0 0 0 0 0 0 0 0) ∅ [].

Lemma demo_queues_ok : queues demo_queues ∅.
Proof.
  split; cbn [eh_ec eh_mem eh_irqs demo_queues ec_xgq_ips ec_exgq irq_enabled foldl]; try done.
  unfold demo_queue_mem, xgq_alloc. change (z2b (512 mod 4)) with false.
  replace (xgq_alloc_num_slots 4096 [512]) with (Some 4) by (vm_compute; reflexivity). cbn [mbind option_bind].
  change (u32 4 <? XGQ_MIN_NUM_SLOTS) with false. change (u32 4) with (2 ^ 2).
  assert (layout_ok 0x1000 2 512) as HL
    by (split; vm_compute; try split; done).
  assert (words_ok ∅) as Hm by (intros a; unfold ioread32; rewrite lookup_empty; cbn; lia).
  destruct (init_ok 0x1000 2 512 HL mb_build XGQ_IN_MEM_PROD ∅ 0 0 Hm) as (vs & vc & m & E & Hq); [discriminate|].
  rewrite E. cbn [mbind option_bind fst snd]. apply Hq.
Qed.

Lemma ert_ctrl_queues_refine_witness : exists h1 h2 h3, queue_call demo_queues (Setup (true, Some 7) 0 0 0x1000) = Some (inr 7, h1) /\
  queue_call h1 (Setup (true, None) 0 0 0x1000) = Some (inr 7, h2) /\ queue_call h2 (Unset 7) = Some (inr 7, h3) /\
  queues h3 {[0 := (7, 1)]}.
Proof.
  assert ((fun r => r.1) <$> queue_call demo_queues (Setup (true, Some 7) 0 0 0x1000) = Some (inr 7)) as R1
    by (vm_compute; reflexivity).
  destruct (ert_ctrl_queues_refine demo_queues ∅ (Setup (true, Some 7) 0 0 0x1000) demo_queues_ok)
    as (r & h1 & a & E1 & S1 & Q1 & _).
  { split; [by split|]. split; [intros; apply lookup_empty|]. intros p n E. by rewrite lookup_empty in E. }
  rewrite E1 in R1. injection R1 as ->. inversion S1 as [? ? ? ? ? ? Hp|? ? ? ? ? _ Hp| | |]; [by rewrite lookup_empty in Hp|]. subst a.
  destruct (ert_ctrl_queues_refine h1 _ (Setup (true, None) 0 0 0x1000) Q1) as (r & h2 & a & E2 & S2 & Q2 & _).
  { split; [|split; [done|]]. - destruct (qs_users _ _ Q1 0 7 1) as [Hid _]; [apply lookup_insert_eq|exact Hid].
    - intros p' n' E. rewrite lookup_insert_eq in E. injection E as <- <-. lia. }
  inversion S2 as [? ? ? ? p2 n2 Hp2|? ? ? ? ? Hp2|? ? ? ? ? Hp2| |]; rewrite lookup_insert_eq in Hp2; [|discriminate..].
  injection Hp2 as <- <-. subst r a. rewrite insert_insert_eq in Q2.
  destruct (ert_ctrl_queues_refine h2 _ (Unset 7) Q2) as (r & h3 & a & E3 & S3 & Q3 & _).
  { exists 0, 2. split; [apply lookup_insert_eq|lia]. }
  exists h1, h2, h3. split; [exact E1|]. split; [exact E2|].
  inversion S3 as [| | |id' ? n3 Hp3|id' ? Hp3]; subst.
  - destruct (decide (id' = 0)) as [->|Hne]; [|by rewrite lookup_insert_ne, lookup_empty in Hp3 by done].
    rewrite lookup_insert_eq in Hp3. injection Hp3 as <-. split; [exact E3|]. by rewrite insert_insert_eq in Q3.
  - destruct (decide (id' = 0)) as [->|Hne]; [by rewrite lookup_insert_eq in Hp3|by rewrite lookup_insert_ne, lookup_empty in Hp3 by done].
Defined.
