(* ===== verification/XoclKds.v ===== *)
(** * Configuration of the scheduler by the xocl driver

    The part of [xocl/userpf/xocl_kds.c] that tells the firmware about the CUs
    of an xclbin: the control commands, the descriptions of the CUs they carry,
    the reservation and creation of CU devices ([xocl_subdev.c]), and the
    functions that register and unregister the CUs of a slot.

    The driver's state is [xocl_dev]: the scheduler of [KdsSched], the control
    queue of [XoclErtCtrl], and the tables of CU devices.  A control command goes
    the way of the code, through [kds_submit_cmd_and_wait], [kds_submit_ert] and
    [ert_ctrl_submit], which completes it before it returns, so the wait ends at
    once.  [xocl_env] is what happens around: allocations and times, indexed by
    the number of commands sent so far; the kernels of the xclbin; and the
    probing of a device, which belongs to the bus.  Instance numbers of the bus
    are never exhausted. *)
From S2P Require Import Prelude KdsCommand CuInfo IpLayout CuCore XrtCu KdsHwctx KdsSched KdsConfig KdsLife.
From S2P Require Import Xgq XgqAlloc XoclXgq ErtCu ErtCtrl XoclErtCtrl.

(** ** Control commands as words *)

Definition XGQ_CMD_OP_UNCFG_CU : Z := 0x110.
Definition XGQ_CMD_OP_QUERY_MEM : Z := 0x111.
Definition XGQ_CMD_OP_TIMESET : Z := 0x204.
Definition XGQ_CMD_STATE_COMPLETED : Z := 0.
Definition XGQ_CMD_STATE_ABORTED : Z := 1.
Definition XGQ_CMD_QUERY_CU_CONFIG : Z := 0.
Definition XGQ_CMD_QUERY_MEM_ADDR : Z := 0.
Definition XGQ_CMD_QUERY_MEM_SIZE : Z := 1.
Definition MAX_CQ_SLOT_SIZE : Z := 4096.
Definition KRNL_SW_RESET : Z := Z.shiftl 1 0.
Definition XOCL_SUBDEV_MAX_INST : Z := 64.

(** Fields side by side, the first in the low bits. *)
Fixpoint pack_fields (fs : list (Z * Z)) : Z :=
  match fs with
  | [] => 0
  | (w, v) :: fs => Z.lor (Z.land v (Z.ones w)) (Z.shiftl (pack_fields fs) w)
  end.

(** [struct xgq_cmd_sq_hdr] of a new command. *)
Definition xgq_cmd_sq_hdr (opcode count : Z) : list Z := [pack_fields [(16, opcode); (15, count); (1, 1)]; 0].

Definition xgq_cmd_identify : list Z := xgq_cmd_sq_hdr XGQ_CMD_OP_IDENTIFY 0.
Definition xgq_cmd_timeset (ts : Z) : list Z :=
  xgq_cmd_sq_hdr XGQ_CMD_OP_TIMESET 12 ++ [u32 ts; u32 (Z.shiftr ts 32)].
Definition xgq_cmd_config_start (num_cus num_scus : Z) : list Z :=
  xgq_cmd_sq_hdr XGQ_CMD_OP_CFG_START 8 ++
  [pack_fields [(13, num_cus); (1, 1); (1, 1); (1, 1); (2, 0); (1, 0); (1, 0)]; u32 num_scus].
Definition xgq_cmd_config_end : list Z := xgq_cmd_sq_hdr XGQ_CMD_OP_CFG_END 0.
Definition xgq_cmd_uncfg_cu (cu_idx cu_domain : Z) (full_reset : bool) : list Z :=
  xgq_cmd_sq_hdr XGQ_CMD_OP_UNCFG_CU 4 ++ [pack_fields [(12, cu_idx); (4, cu_domain); (1, b2z full_reset)]].
Definition xgq_cmd_query_cu (cu_idx cu_domain : Z) : list Z :=
  xgq_cmd_sq_hdr XGQ_CMD_OP_QUERY_CU 4 ++ [pack_fields [(12, cu_idx); (4, cu_domain); (4, XGQ_CMD_QUERY_CU_CONFIG)]].
Definition xgq_cmd_query_mem (type : Z) : list Z :=
  xgq_cmd_sq_hdr XGQ_CMD_OP_QUERY_MEM 4 ++ [pack_fields [(1, type)]].

(** Bytes as little-endian words. *)
Fixpoint bytes_words (l : list Z) : list Z :=
  match l with
  | a :: b :: c :: d :: l => pack_fields [(8, a); (8, b); (8, c); (8, d)] :: bytes_words l
  | _ => []
  end.

(** The name of a CU in its 64 bytes. *)
Definition cu_name (info : xrt_cu_info) : list Z :=
  let s := take 63 (info_kname info ++ [58] ++ info_iname info) in
  s ++ replicate (64 - length s) 0.

Definition xgq_cmd_config_cu (domain : Z) (intr : bool) (info : xrt_cu_info) (payload_size : Z) (uuid : list Z)
  : list Z :=
  xgq_cmd_sq_hdr XGQ_CMD_OP_CFG_CU 100 ++
  [pack_fields [(12, info_inst_idx info); (4, domain); (8, info_protocol info);
                (7, if intr then info_intr_id info else 0); (1, if intr then b2z (info_intr_enable info) else 0)];
   u32 (info_size info); u32 (info_addr info); u32 (Z.shiftr (info_addr info) 32); payload_size] ++
  bytes_words (cu_name info) ++ bytes_words uuid.

(** The largest offset of the arguments, and the index of the first with it. *)
Fixpoint max_offset (args : list xrt_cu_arg) (j max_off_idx : nat) (max_off : Z) : nat * Z :=
  match args with
  | [] => (max_off_idx, max_off)
  | a :: args => if max_off <? arg_offset a then max_offset args (S j) j (arg_offset a)
                 else max_offset args (S j) max_off_idx max_off
  end.

(** Fields of an answer. *)
Definition resp_cstate (resp : list Z) : Z := field (nth 0 resp 0) 16 14.
Definition resp_minor (resp : list Z) : Z := field (nth 1 resp 0) 0 16.
Definition resp_major (resp : list Z) : Z := field (nth 1 resp 0) 16 16.
Definition resp_xgq_id (resp : list Z) : Z := field (nth 1 resp 0) 0 12.
Definition resp_offset (resp : list Z) : Z := nth 2 resp 0.
Definition resp_mem_info (resp : list Z) : Z := Z.lor (Z.shiftl (nth 2 resp 0) 32) (nth 1 resp 0).

Definition resp0 : list Z := [0; 0; 0; 0].

(** [xocl_kds_xgq_notify]: the answer the caller finds. *)
Definition xocl_kds_xgq_notify (resp : list Z) (status : kds_status) : list Z :=
  let resp := if negb (status_ix status =? status_ix KDS_COMPLETED)
              then aset resp 0 (set_field (nth 0 resp 0) 16 14 XGQ_CMD_STATE_ABORTED) else resp in
  if status_ix status =? status_ix KDS_ERROR then aset resp 3 (u32 (- ENOSPC))
  else if status_ix status =? status_ix KDS_TIMEOUT then aset resp 3 (u32 (- ETIMEDOUT)) else resp.

(** ** Devices of the CUs ([xocl_subdev.c]) *)

Inductive subdev_state := XOCL_SUBDEV_STATE_UNINIT | XOCL_SUBDEV_STATE_INIT | XOCL_SUBDEV_STATE_ADDED
| XOCL_SUBDEV_STATE_ATTACHED | XOCL_SUBDEV_STATE_OFFLINE | XOCL_SUBDEV_STATE_ACTIVE.
#[export] Instance subdev_state_eq_dec : EqDecision subdev_state.
Proof. solve_decision. Defined.

(** A device of a kind with several instances: the first unused entry. *)
Definition xocl_subdev_reserve (t : list subdev_state) : Z * list subdev_state :=
  match list_find (fun s => s = XOCL_SUBDEV_STATE_UNINIT) t with
  | Some (i, _) => (Z.of_nat i, <[i := XOCL_SUBDEV_STATE_INIT]> t)
  | None => (- ENOENT, t)
  end.

(** A description and the queue of a CU. *)
Record cu_desc := mk_cu_desc { cd_info : xrt_cu_info; cd_xgq : option Z }.
#[export] Instance eta_cu_desc : Eta cu_desc := fun d => mk_cu_desc (cd_info d) (cd_xgq d).

(** [probed] is the result of adding and probing the device. *)
Definition xocl_subdev_create (probed : Z) (t : list subdev_state) (override_idx : Z) : Z * list subdev_state :=
  if negb ((0 <=? override_idx) && (override_idx <? XOCL_SUBDEV_MAX_INST)) then (- ENOENT, t)
  else
    let s := aget XOCL_SUBDEV_STATE_UNINIT t override_idx in
    if negb (bool_decide (s = XOCL_SUBDEV_STATE_UNINIT \/ s = XOCL_SUBDEV_STATE_INIT)) then (- EEXIST, t)
    else if probed =? 0 then (0, aset t override_idx XOCL_SUBDEV_STATE_ACTIVE)
    else if probed =? - EAGAIN then (- EAGAIN, aset t override_idx XOCL_SUBDEV_STATE_ADDED)
    else (probed, aset t override_idx XOCL_SUBDEV_STATE_UNINIT).

(** ** The driver *)

Record drm_xocl_kds := mk_kds_cfg { cfg_ert : bool; cfg_polling : bool; cfg_rw_shared : bool }.
Record kernel_info := mk_kernel_info { ki_range : Z; ki_features : Z; ki_args : list xrt_cu_arg }.
Record mem_data := mk_mem_data { md_base_address : Z; md_size : Z; md_used : bool }.
#[export] Instance eta_mem_data : Eta mem_data := fun d =>
  mk_mem_data (md_base_address d) (md_size d) (md_used d).

(** [xd_cus], [xd_scus] are the device tables, [xd_created] the devices created,
    in order, [xd_sent] the number of control commands sent. *)
Record xocl_dev (C D : Type) := mk_xocl_dev {
  xd_kds : kds_sched C;
  xd_client : kds_client;
  xd_ert : ert_host D;
  xd_has_ctrl : bool;
  xd_cus : list subdev_state;
  xd_scus : list subdev_state;
  xd_created : list cu_desc;
  xd_reset_ert_cus : bool;
  xd_ps_mem : mem_data;
  xd_sent : nat;
}.
Arguments mk_xocl_dev {C D}. Arguments xd_kds {C D}. Arguments xd_client {C D}. Arguments xd_ert {C D}.
Arguments xd_has_ctrl {C D}. Arguments xd_cus {C D}. Arguments xd_scus {C D}. Arguments xd_created {C D}.
Arguments xd_reset_ert_cus {C D}. Arguments xd_ps_mem {C D}. Arguments xd_sent {C D}.
#[export] Instance eta_xocl_dev C D : Eta (xocl_dev C D) := fun x =>
  mk_xocl_dev (xd_kds x) (xd_client x) (xd_ert x) (xd_has_ctrl x) (xd_cus x) (xd_scus x) (xd_created x)
    (xd_reset_ert_cus x) (xd_ps_mem x) (xd_sent x).

Record xocl_env (C D : Type) := mk_xocl_env {
  xe_alloc : nat -> bool * bool;
  xe_now : nat -> Z;
  xe_time : nat -> Z;
  xe_host : nat -> @host_env D;
  xe_answer : Z -> kds_sched C -> kds_command -> kds_sched C * kds_command;
  xe_info_alloc : bool * bool;
  xe_query_kernel : list Z -> Z -> option kernel_info;
  xe_xgq_alloc : Z -> bool * option Z;
  xe_csr : Z;
  xe_probe : cu_desc -> kds_sched C -> Z * kds_sched C;
  xe_legacy : Z;
}.
Arguments xe_alloc {C D}. Arguments xe_now {C D}. Arguments xe_time {C D}. Arguments xe_host {C D}.
Arguments xe_answer {C D}. Arguments xe_info_alloc {C D}. Arguments xe_query_kernel {C D}.
Arguments xe_xgq_alloc {C D}. Arguments xe_csr {C D}. Arguments xe_probe {C D}. Arguments xe_legacy {C D}.

Section Driver.
Context {C D : Type} (e : xocl_env C D).
#[local] Abbreviation dev := (xocl_dev C D).

(** ** Sending a control command *)

(** The part all senders share: allocate, fill in, submit and wait.  [resp] is
    the buffer of the caller. *)
Definition xgq_command (x : dev) (req resp : list Z) : option (Z * list Z * dev) :=
  let n := xd_sent x in
  match kds_alloc_command (xe_alloc e n) (Z.of_nat n) (cl_pid (xd_client x)) (4 * Z.of_nat (length req)) with
  | None => Some (- ENOMEM, resp, x)
  | Some xcmd =>
      let x := x <| xd_sent := S n |> in
      let xcmd := xcmd <| xcmd_info := Some req |> <| xcmd_type := KDS_ERT |> <| xcmd_opcode := OP_CONFIG |> in
      s ← kds_submit_cmd_and_wait (xe_answer e) (xe_now e n) true None (xd_kds x) (xd_client x) xcmd [] [];
      let '(ret, ev, kds, c) := s in
      let x := x <| xd_kds := kds |> <| xd_client := c |> in
      if z2b ret then Some (ret, resp, x)
      else
        match ev, kds_ert_ kds with
        | [KErtSubmit xcmd], Some _ =>
            r ← ert_ctrl_submit (xe_host e n) (xd_ert x) xcmd;
            let '(status, ans, h) := r in
            Some (0, xocl_kds_xgq_notify (default resp ans) status, x <| xd_ert := h |>)
        | _, _ => None
        end
  end.

(** The result of a sender, from the state in the answer. *)
Definition checked (r : option (Z * list Z * dev)) : option (Z * list Z * dev) :=
  p ← r;
  let '(ret, resp, x) := p in
  if z2b ret then Some (ret, resp, x)
  else if negb (resp_cstate resp =? XGQ_CMD_STATE_COMPLETED) then Some (- EINVAL, resp, x)
  else Some (0, resp, x).
Definition drop_resp (r : option (Z * list Z * dev)) : option (Z * dev) := p ← r; Some (p.1.1, p.2).

(** Error number, major and minor version, which are 0 unless it answers. *)
Definition xocl_kds_xgq_identify (x : dev) : option (Z * Z * Z * dev) :=
  p ← checked (xgq_command x xgq_cmd_identify resp0);
  let '(ret, resp, x) := p in
  if z2b ret then Some (ret, 0, 0, x) else Some (0, resp_major resp, resp_minor resp, x).

Definition xocl_kds_xgq_set_timestamp (x : dev) : option (Z * dev) :=
  drop_resp (checked (xgq_command x (xgq_cmd_timeset (xe_time e (xd_sent x))) resp0)).

Definition xocl_kds_xgq_cfg_start (x : dev) (num_cus num_scus : Z) : option (Z * dev) :=
  drop_resp (checked (xgq_command x (xgq_cmd_config_start num_cus num_scus) resp0)).

Definition xocl_kds_xgq_cfg_end (x : dev) : option (Z * dev) :=
  drop_resp (checked (xgq_command x xgq_cmd_config_end resp0)).

Definition xocl_kds_xgq_uncfg_cu (x : dev) (cu_idx cu_domain : Z) (full_reset : bool) : option (Z * dev) :=
  drop_resp (checked (xgq_command x (xgq_cmd_uncfg_cu cu_idx cu_domain full_reset) resp0)).

Definition xocl_kds_xgq_query_cu (x : dev) (cu_idx cu_domain : Z) (resp : list Z) : option (Z * list Z * dev) :=
  checked (xgq_command x (xgq_cmd_query_cu cu_idx cu_domain) resp).

Definition __xocl_kds_xgq_query_mem (x : dev) (type : Z) (resp : list Z) : option (Z * list Z * dev) :=
  checked (xgq_command x (xgq_cmd_query_mem type) resp).

(** [junk] is the answer buffer, which the first query does not initialise. *)
Definition xocl_kds_xgq_query_mem (junk : list Z) (x : dev) : option (Z * dev) :=
  p ← __xocl_kds_xgq_query_mem x XGQ_CMD_QUERY_MEM_ADDR junk;
  let '(ret, resp, x) := p in
  if z2b ret then Some (ret, x)
  else
    let x := x <| xd_ps_mem ::= fun d => d <| md_base_address := resp_mem_info resp |> |> in
    p ← __xocl_kds_xgq_query_mem x XGQ_CMD_QUERY_MEM_SIZE resp0;
    let '(ret, resp, x) := p in
    if z2b ret then Some (ret, x)
    else Some (0, x <| xd_ps_mem ::= fun d => d <| md_size := resp_mem_info resp |> <| md_used := true |> |>).

(** ** Descriptions of the CUs *)

(** The slot size a CU asks for, or an error. *)
Definition cu_payload_size (info : xrt_cu_info) : Z + Z :=
  let '(max_off_idx, max_off) := max_offset (info_args info) 0 0 0 in
  let max_off_arg_size := match info_args info !! max_off_idx with Some a => arg_size a | None => 0 end in
  let payload_size := u32 (max_off + max_off_arg_size + 8) in
  if MAX_CQ_SLOT_SIZE <? payload_size then inl (- ENOMEM)
  else
    let payload_size := u32 (payload_size * 2) in
    inr (if MAX_CQ_SLOT_SIZE <? payload_size then MAX_CQ_SLOT_SIZE else payload_size).

(** [alloc] comes first: a command that turns out too large is freed again. *)
Fixpoint cfg_cus_loop (x : dev) (uuid : list Z) (infos : list xrt_cu_info) (ret : Z) (resp : list Z)
  : option (Z * dev) :=
  match infos with
  | [] => Some (ret, x)
  | info :: infos =>
      if info_protocol info =? CTRL_NONE then cfg_cus_loop x uuid infos ret resp
      else
        match cu_payload_size info with
        | inl err =>
            match kds_alloc_command (xe_alloc e (xd_sent x)) (Z.of_nat (xd_sent x)) (cl_pid (xd_client x)) 108 with
            | None => Some (- ENOMEM, x)
            | Some _ => Some (err, x <| xd_sent ::= S |>)
            end
        | inr size =>
            p ← checked (xgq_command x (xgq_cmd_config_cu DOMAIN_PL true info size uuid) resp);
            let '(ret, resp, x) := p in
            if z2b ret then Some (ret, x) else cfg_cus_loop x uuid infos ret resp
        end
  end.

Definition xocl_kds_xgq_cfg_cus (x : dev) (uuid : list Z) (infos : list xrt_cu_info) : option (Z * dev) :=
  cfg_cus_loop x uuid infos 0 resp0.

(** The size is read from the argument found even when there is none. *)
Fixpoint cfg_scus_loop (x : dev) (uuid : list Z) (infos : list xrt_cu_info) (ret : Z) (resp : list Z)
  : option (Z * dev) :=
  match infos with
  | [] => Some (ret, x)
  | info :: infos =>
      let '(max_off_idx, max_off) := max_offset (info_args info) 0 0 0 in
      match kds_alloc_command (xe_alloc e (xd_sent x)) (Z.of_nat (xd_sent x)) (cl_pid (xd_client x)) 108 with
      | None => Some (- ENOMEM, x)
      | Some _ =>
          a ← info_args info !! max_off_idx;
          let size := u32 (max_off + arg_size a) in
          p ← checked (xgq_command x (xgq_cmd_config_cu DOMAIN_PS false info size uuid) resp);
          let '(ret, resp, x) := p in
          if z2b ret then Some (ret, x) else cfg_scus_loop x uuid infos ret resp
      end
  end.

Definition xocl_kds_xgq_cfg_scus (x : dev) (uuid : list Z) (infos : list xrt_cu_info) : option (Z * dev) :=
  cfg_scus_loop x uuid infos 0 resp0.

(** What the metadata of a kernel adds. *)
Definition add_kernel_info (slot_hdl domain num_res : Z) (k : kernel_info) (info : xrt_cu_info) : xrt_cu_info :=
  info <| info_slot_idx := slot_hdl |> <| info_size := ki_range k |>
       <| info_sw_reset := z2b (Z.land (ki_features k) KRNL_SW_RESET) |>
       <| info_cu_domain := domain |> <| info_num_res := num_res |> <| info_args := ki_args k |>.

(** The CUs with metadata, moved together. *)
Definition xocl_kds_fill_cu_info (slot_hdl : Z) (ip_layout : option (list ip_data)) : option (list xrt_cu_info) :=
  match ip_layout with
  | None => Some []
  | Some ips =>
      r ← kds_ip_layout2cu_info ips (replicate MAX_CUS info_zero);
      Some (omap (fun info =>
        k ← xe_query_kernel e (info_kname info) slot_hdl;
        Some (add_kernel_info slot_hdl DOMAIN_PL 1 k (info <| info_model := XCU_AUTO |>)))
        (take r.2 r.1))
  end.

(** Soft CUs without metadata keep defaults. *)
Definition fill_scu (slot_hdl : Z) (info : xrt_cu_info) : xrt_cu_info :=
  let info := info <| info_model := XCU_AUTO |> <| info_size := 0x1000 |> <| info_sw_reset := false |>
                   <| info_num_res := 0 |> <| info_args := [] |> <| info_slot_idx := slot_hdl |> in
  match xe_query_kernel e (info_kname info) slot_hdl with
  | None => info
  | Some k => add_kernel_info slot_hdl DOMAIN_PS 0 k info
  end.

Definition xocl_kds_fill_scu_info (slot_hdl : Z) (ip_layout : option (list ip_data)) : option (list xrt_cu_info) :=
  match ip_layout with
  | None => Some []
  | Some ips =>
      r ← kds_ip_layout2scu_info ips (replicate MAX_CUS info_zero);
      Some (fill_scu slot_hdl <$> take r.2 r.1)
  end.

(** ** Reservation and creation *)

(** A failed reservation leaves the error number as the instance. *)
Fixpoint reserve_subdevices (t : list subdev_state) (infos : list xrt_cu_info) (put : Z -> xrt_cu_info -> xrt_cu_info)
  : list xrt_cu_info * list subdev_state :=
  match infos with
  | [] => ([], t)
  | info :: infos =>
      let '(retval, t) := xocl_subdev_reserve t in
      let '(infos, t) := reserve_subdevices t infos put in
      (put retval info :: infos, t)
  end.

Definition xocl_kds_reserve_cu_subdevices (x : dev) (infos : list xrt_cu_info) : list xrt_cu_info * dev :=
  let '(infos, t) := reserve_subdevices (xd_cus x) infos (fun i info => info <| info_inst_idx := i |>) in
  (infos, x <| xd_cus := t |>).
Definition xocl_kds_reserve_scu_subdevices (x : dev) (infos : list xrt_cu_info) : list xrt_cu_info * dev :=
  let '(infos, t) := reserve_subdevices (xd_scus x) infos
                       (fun i info => info <| info_inst_idx := i |> <| info_cu_idx := i |>) in
  (infos, x <| xd_scus := t |>).

(** Probing happens only for a device that could be reserved. *)
Definition create_device (x : dev) (scu : bool) (d : cu_desc) : dev :=
  let t := if scu then xd_scus x else xd_cus x in
  let put t x := if scu then x <| xd_scus := t |> else x <| xd_cus := t |> in
  let idx := info_inst_idx (cd_info d) in
  if (xocl_subdev_create 0 t idx).1 =? 0 then
    let '(probed, kds) := xe_probe e d (xd_kds x) in
    let '(ret, t) := xocl_subdev_create probed t idx in
    let x := put t x <| xd_kds := kds |> in
    if ret =? 0 then x <| xd_created ::= fun l => l ++ [d] |> else x
  else x.

Definition xocl_kds_create_cus (x : dev) (ds : list cu_desc) : dev :=
  foldl (fun x d => create_device x false d) x ds.
Definition xocl_kds_create_scus (x : dev) (ds : list cu_desc) : dev :=
  foldl (fun x d => create_device x true d) x ds.

(** ** Registration *)

Definition xocl_ert_ctrl_connect (x : dev) : option (Z * dev) :=
  if xd_has_ctrl x then
    r ← ert_ctrl_connect (xe_legacy e) (xd_ert x) (xd_kds x);
    let '(ret, h, kds) := r in
    Some (ret, x <| xd_ert := h |> <| xd_kds := kds |>)
  else Some (- ENODEV, x).

(** Without a control device the answer is an error number, which is not 0. *)
Definition xocl_ert_ctrl_is_version (x : dev) (major minor : Z) : bool :=
  negb (xd_has_ctrl x) || ert_ctrl_is_version (xd_ert x) major minor.

(** Without a control device the queue is NULL, which is no error. *)
Definition xocl_ert_ctrl_setup_xgq (x : dev) (id offset : Z) : option ((Z + option Z) * dev) :=
  if xd_has_ctrl x then
    r ← ert_ctrl_setup_xgq (xe_xgq_alloc e id) (xe_csr e) (xd_ert x) id offset;
    Some (match r.1 with inl err => inl err | inr p => inr (Some p) end, x <| xd_ert := r.2 |>)
  else Some (inr None, x).

Definition xocl_ert_ctrl_unset_xgq (x : dev) (xgq : option Z) : option dev :=
  if xd_has_ctrl x then h ← ert_ctrl_unset_xgq (xd_ert x) xgq; Some (x <| xd_ert := h |>) else Some x.

(** Query the queue of each CU and attach to it.  [junk] is the answer buffer of
    an iteration, which is not initialised. *)
Fixpoint attach_queues (junk : list Z) (x : dev) (domain : Z) (infos : list xrt_cu_info)
  : option (Z * list cu_desc * dev) :=
  match infos with
  | [] => Some (0, [], x)
  | info :: rest =>
      p ← xocl_kds_xgq_query_cu x (info_cu_idx info) domain junk;
      let '(ret, resp, x) := p in
      if z2b ret then Some (ret, (fun i => mk_cu_desc i None) <$> infos, x)
      else
        s ← xocl_ert_ctrl_setup_xgq x (resp_xgq_id resp) (resp_offset resp);
        let '(xgq, x) := s in
        match xgq with
        | inl err => Some (err, (fun i => mk_cu_desc i None) <$> infos, x)
        | inr xgq =>
            r ← attach_queues junk x domain rest;
            let '(ret, ds, x) := r in
            Some (ret, mk_cu_desc (info <| info_model := XCU_XGQ |>) xgq :: ds, x)
        end
  end.

Definition set_xgq_enable (b : bool) (x : dev) : dev := x <| xd_kds ::= fun k => k <| kds_xgq_enable := b |> |>.

(** The label [create_regular_cu]: CUs that the driver runs itself. *)
Definition create_regular_cu (x : dev) (ret : Z) (ds : list cu_desc) : Z * dev :=
  let '(infos, x) := xocl_kds_reserve_cu_subdevices x (cd_info <$> ds) in
  let ds := zip_with (fun i d => d <| cd_info := i |>) infos ds in
  (ret, set_xgq_enable false (xocl_kds_create_cus x ds)).

(** [junk]: the answer buffers on the stack. *)
Definition xocl_kds_update_xgq (junk : list Z) (x : dev) (slot_hdl : Z) (uuid : list Z) (cfg : drm_xocl_kds)
  (ip_layout : option (list ip_data)) : option (Z * dev) :=
  if negb (xe_info_alloc e).1 then Some (- ENOMEM, x)
  else
    cus ← xocl_kds_fill_cu_info slot_hdl ip_layout;
    let regular cus := (fun i => mk_cu_desc i None) <$> cus in
    if 64 <? Z.of_nat (length cus) then Some (- EINVAL, x)
    else
      let x := x <| xd_kds ::= fun k => k <| kds_cu_mgmt_ ::= fun m => m <| m_rw_shared := cfg_rw_shared cfg |> |> |> in
      match kds_ert_ (xd_kds x) with
      | None => Some (create_regular_cu x 0 (regular cus))
      | Some _ =>
          if negb (cfg_ert cfg)
          then Some (create_regular_cu (x <| xd_kds ::= fun k => k <| kds_ert_disable := true |> |>) 0 (regular cus))
          else
            let x := x <| xd_kds ::= fun k => k <| kds_ert_disable := false |> |> in
            if negb (xe_info_alloc e).2 then Some (- ENOMEM, x)
            else
              scus ← xocl_kds_fill_scu_info slot_hdl ip_layout;
              i ← xocl_kds_xgq_identify x;
              let '(_, major, minor, x) := i in
              if (negb (major =? 1) && negb (major =? 2)) && negb (minor =? 0) then Some (- ENOTSUPP, x)
              else
                t ← (if negb (major =? 1) then xocl_kds_xgq_set_timestamp x else Some (0, x));
                s ← xocl_kds_xgq_cfg_start t.2 (Z.of_nat (length cus)) (Z.of_nat (length scus));
                let '(ret, x) := s in
                if z2b ret then Some (create_regular_cu x ret (regular cus))
                else
                  let '(cus, x) := xocl_kds_reserve_cu_subdevices x cus in
                  s ← xocl_kds_xgq_cfg_cus x uuid cus;
                  let '(ret, x) := s in
                  if z2b ret then Some (create_regular_cu x ret (regular cus))
                  else
                    let '(scus, x) := xocl_kds_reserve_scu_subdevices x scus in
                    s ← xocl_kds_xgq_cfg_scus x uuid scus;
                    let '(ret, x) := s in
                    if z2b ret then Some (ret, x)
                    else
                      s ← xocl_kds_xgq_cfg_end x;
                      let '(ret, x) := s in
                      if z2b ret then Some (ret, x)
                      else
                        q ← attach_queues junk x DOMAIN_PL cus;
                        let '(ret, ds, x) := q in
                        if z2b ret then Some (create_regular_cu x ret ds)
                        else
                          let x := xocl_kds_create_cus x ds in
                          q ← attach_queues junk x DOMAIN_PS scus;
                          let '(ret, sds, x) := q in
                          if z2b ret then Some (create_regular_cu x ret ds)
                          else
                            Some (0, set_xgq_enable (cfg_ert cfg) (xocl_kds_create_scus x sds))
      end.

(** [update_legacy] configures a firmware without XGQ. *)
Definition xocl_kds_register_cus (junk : list Z) (update_legacy : dev -> option (Z * dev)) (x : dev) (slot_hdl : Z)
  (uuid : list Z) (cfg : drm_xocl_kds) (ip_layout : option (list ip_data)) : option (Z * dev) :=
  let x := set_xgq_enable false x in
  c ← xocl_ert_ctrl_connect x;
  let '(ret, x) := c in
  let out (r : Z * dev) : Z * dev :=
    (r.1, if z2b r.1 then r.2 <| xd_kds ::= fun k => k <| kds_bad_state := true |> |> else r.2) in
  let x := if ret =? - ENODEV then x <| xd_kds ::= fun k => k <| kds_ert_disable := true |> |> else x in
  if negb (ret =? - ENODEV) && (ret <? 0) then Some (out (- EINVAL, x))
  else if negb (xocl_ert_ctrl_is_version x 1 0) then
    if z2b slot_hdl then Some (out (- EINVAL, x))
    else r ← update_legacy x; Some (out r)
  else
    r ← xocl_kds_update_xgq junk x slot_hdl uuid cfg ip_layout; Some (out r).

(** ** Unregistration *)

(** The CUs of a table with their queues ([xcu->info.xgq]); [None]: a dangling
    entry. *)
Definition slot_cus (x : dev) (xgq_of : Z -> option Z) (m : kds_cu_mgmt) (slot_hdl : Z)
  : option (list (Z * option Z)) :=
  foldr (fun p acc =>
    l ← acc;
    match p with
    | None => Some l
    | Some p =>
        xcu ← kds_heap (xd_kds x) !! p;
        if negb (info_slot_idx (XrtCu.cu_info xcu) =? slot_hdl) then Some l
        else Some ((info_inst_idx (XrtCu.cu_info xcu), xgq_of p) :: l)
    end) (Some []) (take MAX_CUS (m_xcus m)).

Fixpoint unconfigure (x : dev) (domain : Z) (v2 : bool) (l : list (Z * option Z)) : option (Z * dev) :=
  match l with
  | [] => Some (0, x)
  | (inst_idx, xgq) :: l =>
      r ← (if v2 then xocl_kds_xgq_uncfg_cu x inst_idx domain false else Some (0, x));
      if z2b r.1 then Some r
      else x ← xocl_ert_ctrl_unset_xgq r.2 xgq; unconfigure x domain v2 l
  end.

(** [xgq_of p] is the queue of the CU at [p]; [stopped] is what the polling thread
    does until it has ended. *)
Definition xocl_kds_unregister_cus (junk : list Z) (xgq_of : Z -> option Z) (stopped : kds_sched C -> kds_sched C)
  (x : dev) (slot_hdl : Z) : option (Z * dev) :=
  let x := set_xgq_enable false x in
  c ← xocl_ert_ctrl_connect x;
  let '(ret, x) := c in
  if z2b ret then Some (ret, x <| xd_kds ::= fun k => k <| kds_ert_disable := true |> |>)
  else if kds_ert_disable (xd_kds x) then Some (ret, x)
  else if negb (xocl_ert_ctrl_is_version x 1 0) then Some (ret, x)
  else
    let out (r : Z * dev) : Z * dev :=
      (r.1, r.2 <| xd_kds ::= fun k => if z2b r.1 then k <| kds_bad_state := true |> else kds_reset stopped k |>) in
    i ← xocl_kds_xgq_identify x;
    let '(_, major, minor, x) := i in
    let v2 := (major =? 2) && (minor =? 0) in
    s ← xocl_kds_xgq_cfg_start x 0 0;
    if z2b s.1 then Some (out s)
    else
      let x := s.2 in
      u ← (if v2 && xd_reset_ert_cus x then
             u ← xocl_kds_xgq_uncfg_cu x 0 DOMAIN_PL true;
             if z2b u.1 then Some u
             else
               q ← xocl_kds_xgq_query_mem junk u.2;
               Some (0, q.2 <| xd_reset_ert_cus := false |>)
           else Some (0, x));
      if z2b u.1 then Some (out u)
      else
        let x := u.2 in
        scus ← slot_cus x xgq_of (kds_scu_mgmt (xd_kds x)) slot_hdl;
        u ← unconfigure x DOMAIN_PS v2 scus;
        if z2b u.1 then Some (out u)
        else
          let x := u.2 in
          cus ← slot_cus x xgq_of (kds_cu_mgmt_ (xd_kds x)) slot_hdl;
          u ← unconfigure x DOMAIN_PL v2 cus;
          if z2b u.1 then Some (out u)
          else r ← xocl_kds_xgq_cfg_end u.2; Some (out r).
End Driver.
