(* ===== verification/XoclConfig.v ===== *)
(** * The driver and the firmware together

    A command sent over the control queue by [__ert_ctrl_submit] is served by
    [process_ctrl_command] on the same memory: the sequence of the two is a
    remote procedure call of the protocol of [ErtCtrlSpec].  On top of it, the
    configuration of the CUs by [xocl_kds_update_xgq] leaves each CU with the
    queue on which the firmware serves it. *)
From S2P Require Import Prelude KdsCommand CuInfo IpLayout CuCore CuHls KdsHwctx KdsSched KdsConfig KdsLife.
From S2P Require Import Xgq XgqRing XgqLink XgqAlloc XgqGroup XoclXgq ErtCu ErtCuProof ErtCtrl ErtCtrlSpec ErtCtrlProof.
From S2P Require Import XoclErtCtrl XoclKds.

#[export] Instance request_eq_dec : EqDecision request.
Proof. solve_decision. Defined.

(** ** Rings without backlog *)

Section Ring.
Context (bd : xgq_build) (m : shared) (q : xgq).
Context (Hm : words_ok m).

(** The peer has taken everything: there is room. *)
Lemma produce_room : 0 < xr_slot_num (prod_ring bd q) ->
  ioread32 m (xr_consumed_addr (prod_ring bd q)) = xr_produced (prod_ring bd q) ->
  exists r, xgq_produce bd m q = Some (0, Some (xgq_ring_slot_ptr_produced (prod_ring bd q)), set_prod_ring bd q r) /\
    same_place (prod_ring bd q) r /\ xr_produced r = u32 (xr_produced (prod_ring bd q) + 1).
Proof.
  intros Hn Hc. unfold xgq_produce, xgq_can_produce, xgq_ring_read_consumed.
  destruct (xgq_ring_full _); cbn [negb mbind option_bind].
  - unfold xgq_mem_read32. rewrite read_ptr_ok, Hc by apply Hm.
    cbn [mbind option_bind]. unfold xgq_ring_full. rproj. rewrite Z.sub_diag. change (u32 0) with 0.
    replace (_ <=? 0) with false by lia. cbn [negb]. rewrite prod_set.
    exists (prod_ring bd q <| xr_consumed := xr_produced (prod_ring bd q) |>
              <| xr_produced := u32 (xr_produced (prod_ring bd q) + 1) |>).
    split; [|split; [by split_and!|done]]. destruct bd as [[] ? ? ?]; reflexivity.
  - eexists. split; [reflexivity|]. split; [by split_and!|done].
Qed.

Context (Hooo : XGQ_OUT_OF_ORDER_WRITE bd = false).
Context (He : xr_produced (cons_ring bd q) = xr_consumed (cons_ring bd q)).

(** The peer has published an entry. *)
Lemma consume_new v : ioread32 m (xr_produced_addr (cons_ring bd q)) = v -> v <> xr_consumed (cons_ring bd q) ->
  exists r, xgq_consume bd m q = Some (0, Some (xgq_ring_slot_ptr_consumed (cons_ring bd q)), set_cons_ring bd q r, m) /\
    same_place (cons_ring bd q) r /\ xr_produced r = v /\ xr_consumed r = u32 (xr_consumed (cons_ring bd q) + 1).
Proof.
  intros Hv Hne. unfold xgq_consume, xgq_can_consume, xgq_ring_read_produced, xgq_ring_empty.
  rewrite He, Z.eqb_refl. cbn [negb mbind option_bind].
  rewrite xgq_read32_eq, read_ptr_ok, Hv by apply Hm. cbn [mbind option_bind]. rproj.
  replace (v =? _) with false by lia. cbn [negb]. rewrite Hooo, cons_set. cbn [mbind option_bind].
  exists (cons_ring bd q <| xr_produced := v |> <| xr_consumed := u32 (xr_consumed (cons_ring bd q) + 1) |>).
  split; [|by split_and!]. destruct bd as [[] ? ? ?]; reflexivity.
Qed.

(** It has not. *)
Lemma consume_nothing : ioread32 m (xr_produced_addr (cons_ring bd q)) = xr_consumed (cons_ring bd q) ->
  xgq_consume bd m q = Some (- ENOENT, None, q, m).
Proof.
  intros Hv. unfold xgq_consume, xgq_can_consume, xgq_ring_read_produced, xgq_ring_empty.
  rewrite He, Z.eqb_refl. cbn [negb mbind option_bind].
  rewrite xgq_read32_eq, read_ptr_ok, Hv by apply Hm. cbn [mbind option_bind]. rproj.
  rewrite Z.eqb_refl. cbn [negb]. repeat f_equal. rewrite <- He.
  destruct bd as [[] ? ? ?], q as [? ? [] []]; reflexivity.
Qed.
End Ring.

Lemma u32_next_ne p : u32 (p + 1) <> p.
Proof.
  unfold u32. intros E. pose proof (Z.mod_pos_bound (p + 1) (2 ^ 32) ltac:(lia)) as Hb. rewrite E in Hb.
  destruct (decide (p + 1 = 2 ^ 32)) as [E1|]; [rewrite E1, Z_mod_same_full in E; lia|].
  rewrite Z.mod_small in E by lia. lia.
Qed.

Lemma set_field_range h lo w v : 0 <= lo /\ 0 <= w /\ lo + w <= 32 -> 0 <= h < 2 ^ 32 -> 0 <= set_field h lo w v < 2 ^ 32.
Proof.
  intros Hlo Hh. assert (set_field h lo w v = set_field h lo w v mod 2 ^ 32) as ->; [|apply Z.mod_pos_bound; lia].
  rewrite <- Z.land_ones by lia. apply Z.bits_inj'. intros i Hi. rewrite Z.land_spec, Z.testbit_ones_nonneg by lia.
  destruct (Z.ltb_spec i 32); [by rewrite andb_true_r|]. rewrite andb_false_r. unfold set_field.
  rewrite Z.lor_spec, Z.ldiff_spec, !Z.shiftl_spec by lia. rewrite <- (Z.mod_small h (2 ^ 32)) by lia.
  rewrite Z.mod_pow2_bits_high by lia. rewrite Z.land_spec, Z.testbit_ones_nonneg by lia.
  replace (i - lo <? w) with false by lia. by rewrite andb_false_r.
Qed.

(** ** The control queue, step by step *)

Section Link.
Context (b : ert_build).
#[local] Abbreviation base := (ERT_CQ_BASE_ADDR b).
Hypothesis Hbase : 0 <= base /\ base + ERT_CQ_SIZE < 2 ^ 32.

Definition sq_slot (p : Z) : Z := base + 48 + 512 * (p mod 2).
Definition cq_slot (p : Z) : Z := base + 1072 + 16 * (p mod 2).

(** Memory outside the control queue. *)
Definition same_outside (m m' : shared) : Prop :=
  forall a, a < base + 4 \/ base + 0x800 <= a -> ioread32 m' a = ioread32 m a.

Lemma mod2 p : p mod 2 = 0 \/ p mod 2 = 1.
Proof. pose proof (Z.mod_pos_bound p 2). lia. Qed.

Lemma ctrl_places q : ctrl_rings base q ->
  (xr_slot_num (xq_sq q) = 2 /\ xr_produced_addr (xq_sq q) = base + 40 /\ xr_consumed_addr (xq_sq q) = base + 28) /\
  (xr_slot_num (xq_cq q) = 2 /\ xr_produced_addr (xq_cq q) = base + 44 /\ xr_consumed_addr (xq_cq q) = base + 32).
Proof.
  intros [(S1 & _ & _ & S2 & S3) (C1 & _ & _ & C2 & C3)]. rewrite S1, S2, S3, C1, C2, C3. cbn.
  unfold off_sq_consumed, off_cq_consumed. lia.
Qed.

(** Slots by pointer, whichever of the two pointers it is. *)
Lemma ctrl_slot_ptr slots sz p : slots + sz * 2 <= base + 0x800 -> 0 <= slots -> 0 <= sz ->
  u64 (slots + u32 (sz * Z.land p (u32 (2 - 1)))) = slots + sz * (p mod 2).
Proof.
  unfold ERT_CQ_SIZE in Hbase. intros H1 H2 H3. change (u32 (2 - 1)) with (Z.ones 1). rewrite Z.land_ones by lia.
  change (2 ^ 1) with 2. destruct (mod2 p) as [-> | ->]; rewrite u32_small by lia; rewrite u64_small by lia; lia.
Qed.

Lemma sq_ptr q : ctrl_rings base q ->
  xgq_ring_slot_ptr_produced (xq_sq q) = sq_slot (xr_produced (xq_sq q)) /\
  xgq_ring_slot_ptr_consumed (xq_sq q) = sq_slot (xr_consumed (xq_sq q)).
Proof.
  intros [(S1 & S2 & S3 & _) _]. unfold xgq_ring_slot_ptr_produced, xgq_ring_slot_ptr_consumed, sq_slot.
  rewrite S1, S2, S3. cbn [start_ring queue_geom xr_slot_num xr_slot_sz xr_slot_addr g_sz g_slots]. unfold sizeof_header.
  change (2 ^ 1) with 2. rewrite !ctrl_slot_ptr by lia. lia.
Qed.

Lemma cq_ptr q : ctrl_rings base q ->
  xgq_ring_slot_ptr_produced (xq_cq q) = cq_slot (xr_produced (xq_cq q)) /\
  xgq_ring_slot_ptr_consumed (xq_cq q) = cq_slot (xr_consumed (xq_cq q)).
Proof.
  intros [_ (S1 & S2 & S3 & _)]. unfold xgq_ring_slot_ptr_produced, xgq_ring_slot_ptr_consumed, cq_slot.
  rewrite S1, S2, S3. cbn [start_ring queue_geom xr_slot_num xr_slot_sz xr_slot_addr g_sz g_slots].
  unfold sizeof_header, sizeof_com_entry. change (2 ^ 1) with 2. rewrite !ctrl_slot_ptr by lia. lia.
Qed.

(** Both ends of the queue and the memory between them: [host] is the driver's
    view, [t] the firmware's; [sent] commands have been published and [taken_]
    acknowledged, [put] answers published and [got] acknowledged. *)
Record link (host : xgq) (t : xgq_ctrl) (m : shared) (sent taken_ put got : Z) : Prop := {
  lk_words : words_ok m;
  lk_host : ctrl_rings base host;
  lk_fw : ctrl_rings base (xt_xgq t);
  lk_host_sq : xr_produced (xq_sq host) = sent;
  lk_host_cq : xr_produced (xq_cq host) = got /\ xr_consumed (xq_cq host) = got;
  lk_fw_cq : xr_produced (xq_cq (xt_xgq t)) = put;
  lk_sq_mem : ioread32 m (base + 40) = sent /\ ioread32 m (base + 28) = taken_;
  lk_cq_mem : ioread32 m (base + 44) = put /\ ioread32 m (base + 32) = got;
}.

(** Nothing under way: the firmware has seen and taken all commands and has none
    in hand. *)
Definition idle (host : xgq) (t : xgq_ctrl) (m : shared) (p q : Z) : Prop :=
  link host t m p p q q /\ cmd_is_valid (xt_ctrl_cmd t) = false /\
  xr_produced (xq_sq (xt_xgq t)) = p /\ xr_consumed (xq_sq (xt_xgq t)) = p.

(** The words of a command or an answer in its slot. *)
Definition at_slot (m : shared) (addr : Z) (ws : list Z) : Prop :=
  forall j w, ws !! j = Some w -> ioread32 m (addr + 4 * Z.of_nat j) = w.

Lemma copy_at_slot m addr ws : 0 <= addr -> addr + 4 * Z.of_nat (length ws) <= 2 ^ 64 ->
  at_slot (xgq_copy_to_ring m ws addr) addr (u32 <$> ws).
Proof.
  intros Ha Hl j w Ej. rewrite list_lookup_fmap in Ej. apply fmap_Some in Ej as (v & Ev & ->).
  rewrite copy_to_nth by (first [done|by eapply lookup_lt_Some]). by rewrite (nth_lookup_Some _ _ _ _ Ev).
Qed.

Lemma copy_elsewhere m addr ws a : 0 <= addr -> addr + 4 * Z.of_nat (length ws) <= 2 ^ 64 ->
  a < addr \/ addr + 4 * Z.of_nat (length ws) <= a -> ioread32 (xgq_copy_to_ring m ws addr) a = ioread32 m a.
Proof. intros Ha Hl Hout. apply copy_to_outside; [done|done|]. unfold in_words. intros (j & Hj & ->). lia. Qed.

Lemma at_slot_write m addr ws a v : at_slot m addr ws ->
  a < addr \/ addr + 4 * Z.of_nat (length ws) <= a -> at_slot (iowrite32 m a v) addr ws.
Proof.
  intros Hs Ha j w Ej. pose proof (lookup_lt_Some _ _ _ Ej). rewrite ioread_write_ne by lia. by apply Hs.
Qed.

Lemma idle_range host t m p q : idle host t m p q -> 0 <= p < 2 ^ 32 /\ 0 <= q < 2 ^ 32.
Proof. intros [[Hw _ _ _ _ _ [<- _] [<- _]] _]. split; apply Hw. Qed.

(** The driver writes a command into the next slot and publishes it. *)
Lemma host_sends host t m p q req : idle host t m p q -> (length req <= 128)%nat ->
  Forall (fun w => 0 <= w < 2 ^ 32) req ->
  exists host1, xgq_produce xocl_build m host = Some (0, Some (sq_slot p), host1) /\
    let m1 := xgq_notify_peer_produced xocl_build (xgq_copy_to_ring m req (sq_slot p)) host1 in
    link host1 t m1 (u32 (p + 1)) p q q /\ at_slot m1 (sq_slot p) req /\ same_outside m m1.
Proof.
  unfold ERT_CQ_SIZE in Hbase. intros [[Hw Hh Hf Hs [Hc1 Hc2] Hfc [M1 M2] [M3 M4]] _] Hl Hr.
  destruct (ctrl_places _ Hh) as [(P1 & P2 & P3) _].
  destruct (produce_room xocl_build m host Hw) as (r & E & Hp & Er); cbn [prod_ring xocl_build XGQ_SERVER] in *;
    [lia|by rewrite P3, Hs|]. rewrite Hs in Er. rewrite (proj1 (sq_ptr _ Hh)), Hs in E.
  exists (host <| xq_sq := r |>). split; [exact E|].
  assert (xgq_notify_peer_produced xocl_build (xgq_copy_to_ring m req (sq_slot p)) (host <| xq_sq := r |>) =
    iowrite32 (xgq_copy_to_ring m req (sq_slot p)) (base + 40) (u32 (p + 1))) as ->.
  { unfold xgq_notify_peer_produced, xgq_ring_write_produced. rewrite xgq_write32_eq. cbn [prod_ring xocl_build XGQ_SERVER]. rproj.
    destruct Hp as (_ & _ & _ & Ep & _). by rewrite Ep, P2, Er. }
  assert (base + 48 <= sq_slot p /\ sq_slot p + 512 <= base + 1072) as Hsl
    by (unfold sq_slot; destruct (mod2 p) as [-> | ->]; lia).
  split; [split|split].
  - by apply words_ok_write, words_ok_copy.
  - destruct Hh as [Hh1 Hh2]. split; rproj; [by eapply same_place_trans|done].
  - done.
  - rproj. done.
  - rproj. done.
  - done.
  - rewrite ioread_write_eq, u32_u32. split; [done|]. rewrite ioread_write_ne by lia. by rewrite copy_elsewhere by lia.
  - rewrite !ioread_write_ne by lia. by rewrite !copy_elsewhere by lia.
  - apply at_slot_write; [|lia]. rewrite <- (fmap_u32_id req Hr) at 2. apply copy_at_slot; lia.
  - intros a Ha. rewrite ioread_write_ne by lia. apply copy_elsewhere; lia.
Qed.

(** The firmware finds it. *)
Lemma fw_takes host t m p q req w0 : link host t m (u32 (p + 1)) p q q -> cmd_is_valid (xt_ctrl_cmd t) = false ->
  xr_produced (xq_sq (xt_xgq t)) = p -> xr_consumed (xq_sq (xt_xgq t)) = p ->
  at_slot m (sq_slot p) req -> req !! 0%nat = Some w0 -> field w0 31 1 = 1 ->
  exists t1, xgq_ctrl_get_cmd m t = Some (true, t1, m) /\ link host t1 m (u32 (p + 1)) p q q /\
    xr_produced (xq_sq (xt_xgq t1)) = u32 (p + 1) /\ xr_consumed (xq_sq (xt_xgq t1)) = u32 (p + 1) /\
    cc_addr (xt_ctrl_cmd t1) = sq_slot p /\ cc_header0 (xt_ctrl_cmd t1) = w0.
Proof.
  unfold ERT_CQ_SIZE in Hbase. intros [Hw Hh Hf Hs Hc Hfc Ms Mc] Hv E1 E2 Hr E0 Hb.
  destruct (ctrl_places _ Hf) as [(P1 & P2 & P3) _]. unfold xgq_ctrl_get_cmd. rewrite Hv. cbn [negb].
  destruct (consume_new mb_build m (xt_xgq t) Hw eq_refl) with (v := u32 (p + 1)) as (r & E & Hp & R1 & R2);
    cbn [cons_ring mb_build XGQ_SERVER] in *; [congruence|by rewrite P2; apply Ms|rewrite E2; apply u32_next_ne|].
  rewrite (proj2 (sq_ptr _ Hf)), E2 in E. rewrite E2 in R2. rewrite E. cbn [mbind option_bind fst snd set_cons_ring mb_build XGQ_SERVER].
  assert (reg_read m (sq_slot p) = w0) as Ew.
  { unfold reg_read. specialize (Hr 0%nat w0 E0). rewrite Z.add_0_r in Hr.
    rewrite u32_small; [done|]. unfold sq_slot. destruct (mod2 p) as [-> | ->]; lia. }
  set (t1 := t <| xt_xgq := _ |> <| xt_ctrl_cmd ::= _ |>).
  assert (cc_header0 (xt_ctrl_cmd t1) = w0) as Eh by exact Ew.
  exists t1. split; [unfold cmd_is_valid, z2b; by rewrite Eh, Hb|]. split; [|subst t1; rproj; by split_and!].
  destruct Hf as [Hf1 Hf2]. subst t1.
  split; rproj; try done. split; rproj; [by eapply same_place_trans|done].
Qed.

(** It answers at once: the driver has read all earlier answers. *)
Lemma fw_answers polls host t m p q resp : link host t m (u32 (p + 1)) p q q ->
  xr_consumed (xq_sq (xt_xgq t)) = u32 (p + 1) ->
  (length resp <= 4)%nat ->
  exists t2 m2, xgq_ctrl_response polls m t resp = Some (t2, m2) /\
    link host t2 m2 (u32 (p + 1)) (u32 (p + 1)) (u32 (q + 1)) q /\ cmd_is_valid (xt_ctrl_cmd t2) = false /\
    xq_sq (xt_xgq t2) = xq_sq (xt_xgq t) /\ at_slot m2 (cq_slot q) (u32 <$> resp) /\ same_outside m m2.
Proof.
  unfold ERT_CQ_SIZE in Hbase. intros [Hw Hh Hf Hs Hc Hfc Ms Mc] Ec Hl.
  destruct (ctrl_places _ Hf) as [(P1 & P2 & P3) (C1 & C2 & C3)]. unfold xgq_ctrl_response. rproj.
  assert (xgq_notify_peer_consumed mb_build m (xt_xgq t) = iowrite32 m (base + 28) (u32 (p + 1))) as ->.
  { unfold xgq_notify_peer_consumed, xgq_ring_write_consumed, xgq_mem_write32. cbn [cons_ring mb_build XGQ_SERVER].
    by rewrite P3, Ec. }
  set (m1 := iowrite32 m _ _). assert (words_ok m1) as Hw1 by (by apply words_ok_write).
  destruct (produce_room mb_build m1 (xt_xgq t) Hw1) as (r & E & Hp & Er); cbn [prod_ring mb_build XGQ_SERVER] in *;
    [lia| |].
  { rewrite C3, Hfc. subst m1. rewrite ioread_write_ne by lia. apply Mc. }
  rewrite (proj1 (cq_ptr _ Hf)), Hfc in E. rewrite Hfc in Er.
  assert (wait_produce polls m1 (xt_xgq t) = Some (cq_slot q, xt_xgq t <| xq_cq := r |>, m1)) as ->.
  { destruct polls; cbn [wait_produce]; by rewrite E. }
  cbn [mbind option_bind]. assert (base + 1072 <= cq_slot q /\ cq_slot q + 16 <= base + 1104) as Hsl
    by (unfold cq_slot; destruct (mod2 q) as [-> | ->]; lia).
  rewrite put_words_copy by lia. eexists _, _. split; [reflexivity|]. rproj.
  assert (forall m', xgq_notify_peer_produced mb_build m' (xt_xgq t <| xq_cq := r |>) =
    iowrite32 m' (base + 44) (u32 (q + 1))) as ->.
  { intros m'. unfold xgq_notify_peer_produced, xgq_ring_write_produced. rewrite xgq_write32_eq.
    cbn [prod_ring mb_build XGQ_SERVER]. rproj. destruct Hp as (_ & _ & _ & Ep & _). by rewrite Ep, C2, Er. }
  split; [split|split; [reflexivity|split; [reflexivity|split]]]; rproj.
  - by apply words_ok_write, words_ok_copy.
  - done.
  - destruct Hf as [Hf1 Hf2]. split; rproj; [done|by eapply same_place_trans].
  - done.
  - done.
  - done.
  - rewrite !ioread_write_ne by lia. rewrite !copy_elsewhere by lia. subst m1.
    rewrite ioread_write_eq, u32_u32, ioread_write_ne by lia. split; [apply Ms|done].
  - rewrite ioread_write_eq, u32_u32. split; [done|]. rewrite ioread_write_ne by lia.
    rewrite copy_elsewhere by lia. subst m1. rewrite ioread_write_ne by lia. apply Mc.
  - apply at_slot_write; [|rewrite length_fmap; lia]. apply copy_at_slot; lia.
  - intros a Ha. rewrite ioread_write_ne by lia. rewrite copy_elsewhere by lia. subst m1. rewrite ioread_write_ne by lia. done.
Qed.

(** The driver reads the answer. *)
Lemma host_receives host t m p q resp : link host t m p p (u32 (q + 1)) q ->
  at_slot m (cq_slot q) resp -> length resp = 4%nat ->
  cmd_is_valid (xt_ctrl_cmd t) = false -> xr_produced (xq_sq (xt_xgq t)) = p -> xr_consumed (xq_sq (xt_xgq t)) = p ->
  exists host2, xgq_consume xocl_build m host = Some (0, Some (cq_slot q), host2, m) /\
    xgq_copy_from_ring m (cq_slot q) 4 = resp /\
    let m' := xgq_notify_peer_consumed xocl_build m host2 in
    idle host2 t m' p (u32 (q + 1)) /\ same_outside m m'.
Proof.
  unfold ERT_CQ_SIZE in Hbase. intros [Hw Hh Hf Hs [Hc1 Hc2] Hfc Ms [M3 M4]] Hr Hl Hv E1 E2.
  destruct (ctrl_places _ Hh) as [_ (C1 & C2 & C3)].
  destruct (consume_new xocl_build m host Hw eq_refl) with (v := u32 (q + 1)) as (r & E & Hp & R1 & R2);
    cbn [cons_ring xocl_build XGQ_SERVER] in *; [congruence|by rewrite C2|rewrite Hc2; apply u32_next_ne|].
  rewrite (proj2 (cq_ptr _ Hh)), Hc2 in E. rewrite Hc2 in R2. exists (host <| xq_cq := r |>). split; [exact E|].
  assert (base + 1072 <= cq_slot q /\ cq_slot q + 16 <= base + 1104) as Hsl
    by (unfold cq_slot; destruct (mod2 q) as [-> | ->]; lia).
  split.
  { apply (list_eq_aget 0); [by rewrite length_copy_from|]. intros i Hi. rewrite length_copy_from in Hi.
    unfold aget. rewrite Nat2Z.id. destruct (lookup_lt_is_Some_2 resp i) as [w Ew]; [lia|].
    rewrite Ew, <- nth_lookup, copy_from_nth by lia. by apply Hr. }
  assert (xgq_notify_peer_consumed xocl_build m (host <| xq_cq := r |>) = iowrite32 m (base + 32) (u32 (q + 1))) as ->.
  { unfold xgq_notify_peer_consumed, xgq_ring_write_consumed, xgq_mem_write32. cbn [cons_ring xocl_build XGQ_SERVER]. rproj.
    destruct Hp as (_ & _ & _ & _ & Ep). by rewrite Ep, C3, R2. }
  split; [split; [split|done]|]; rproj.
  - by apply words_ok_write.
  - destruct Hh as [Hh1 Hh2]. split; rproj; [done|by eapply same_place_trans].
  - done.
  - done.
  - by rewrite R1, R2.
  - done.
  - by rewrite !ioread_write_ne by lia.
  - rewrite ioread_write_ne, ioread_write_eq, u32_u32 by lia. done.
  - intros a Ha. by rewrite ioread_write_ne by lia.
Qed.

(** ** Serving a command *)

(** The requests of a configuration. *)
Definition config_request (r : request) : bool :=
  match r with CfgStart _ | CfgCu _ _ _ _ | CfgEnd | QueryCu _ | Identify => true | _ => false end.

(** The request in the words of a command. *)
Definition decode_words (req : list Z) : option request :=
  w0 ← req !! 0%nat;
  let op := field w0 0 16 in
  if negb (field w0 31 1 =? 1) then None
  else if op =? XGQ_CMD_OP_CFG_START then w ← req !! 2%nat; Some (CfgStart w)
  else if op =? XGQ_CMD_OP_CFG_END then Some CfgEnd
  else if op =? XGQ_CMD_OP_CFG_CU then
    w ← req !! 2%nat; lo ← req !! 4%nat; hi ← req !! 5%nat; size ← req !! 6%nat;
    Some (CfgCu (w mod 2 ^ 12) lo hi size)
  else if op =? XGQ_CMD_OP_QUERY_CU then w ← req !! 2%nat; Some (QueryCu (w mod 2 ^ 12))
  else if op =? XGQ_CMD_OP_IDENTIFY then Some Identify
  else None.

(** Opcodes without further work for the driver. *)
Definition config_op (op : Z) : bool :=
  negb ((op =? XGQ_CMD_OP_CLOCK_CALIB) || (op =? XGQ_CMD_OP_ACCESS_VALID) || (op =? XGQ_CMD_OP_DATA_INTEGRITY)).

Lemma config_op_ne op : config_op op = true -> (op =? XGQ_CMD_OP_CLOCK_CALIB) = false /\
  (op =? XGQ_CMD_OP_ACCESS_VALID) = false /\ (op =? XGQ_CMD_OP_DATA_INTEGRITY) = false.
Proof. unfold config_op. destruct (_ =? _), (_ =? _), (_ =? _); done. Qed.

Lemma slot_word m p req j w off : at_slot m (sq_slot p) req -> req !! j = Some w -> (j < 128)%nat ->
  off = 4 * Z.of_nat j -> reg_read m (u32 (u32 (sq_slot p) + off)) = w.
Proof.
  unfold ERT_CQ_SIZE in Hbase. intros Hr E Hj ->. unfold reg_read.
  assert (base + 48 <= sq_slot p /\ sq_slot p + 512 <= base + 1072) as Hsl
    by (unfold sq_slot; destruct (mod2 p) as [-> | ->]; lia).
  rewrite (u32_small (sq_slot p)), !u32_small by (rewrite ?u32_small; lia). by apply Hr.
Qed.

Lemma decode_slot m p req cmd r : at_slot m (sq_slot p) req -> decode_words req = Some r ->
  cc_addr cmd = sq_slot p -> req !! 0%nat = Some (cc_header0 cmd) -> decode m cmd = Some r /\ config_request r = true.
Proof.
  intros Hr E Ea E0. unfold decode_words in E. rewrite E0 in E. cbn [mbind option_bind] in E.
  unfold decode, cmd_op_code. rewrite Ea. cbv zeta in *. destruct (negb _); [done|].
  pose proof (fun j w off H1 H2 => slot_word m p req j w off Hr H1 H2) as Hw.
  destruct (_ =? XGQ_CMD_OP_CFG_START).
  { apply bind_Some in E as (w & Ew & [= <-]). by rewrite (Hw 2%nat w 8 Ew) by lia. }
  destruct (_ =? XGQ_CMD_OP_CFG_END); [by injection E as <-|].
  destruct (_ =? XGQ_CMD_OP_CFG_CU).
  { apply bind_Some in E as (w & Ew & E). apply bind_Some in E as (lo & Elo & E).
    apply bind_Some in E as (hi & Ehi & E). apply bind_Some in E as (size & Esz & [= <-]).
    by rewrite (Hw 2%nat w 8 Ew), (Hw 4%nat lo 16 Elo), (Hw 5%nat hi 20 Ehi), (Hw 6%nat size 24 Esz) by lia. }
  destruct (_ =? XGQ_CMD_OP_QUERY_CU).
  { apply bind_Some in E as (w & Ew & [= <-]). by rewrite (Hw 2%nat w 8 Ew) by lia. }
  destruct (Z.eqb_spec (field (cc_header0 cmd) 0 16) XGQ_CMD_OP_IDENTIFY) as [->|]; [|done].
  by injection E as <-.
Qed.

Hypothesis Hcsr : ERT_HOST_INTERRUPT_ENABLE_ADDR b < base \/ base + ERT_CQ_SIZE <= ERT_HOST_INTERRUPT_ENABLE_ADDR b.

Section Serve.
Context {H : Type} `{Mmio H} (cenv : ctrl_env).

(** What a request does before it is answered: only the end of a configuration
    touches memory, and not that of the control queue. *)
Definition prepared (c : config) (m : shared) (fw fw' : firmware) (r : request) (m1 : shared) : Prop :=
  words_ok m1 /\ (forall a, base <= a < base + 0x800 -> ioread32 m1 a = ioread32 m a) /\
  match r with
  | CfgEnd => makes_queues c -> queues_ready b c fw' m1
  | _ => m1 = m /\ fw_xgqs fw' = fw_xgqs fw /\ fw_cu_xgqs fw' = fw_cu_xgqs fw
  end.

Lemma queues_ready_frame c fw fw' m m' : queues_ready b c fw m -> words_ok m' ->
  (forall a, base + 0x800 <= a < base + ERT_CQ_SIZE -> ioread32 m' a = ioread32 m a) ->
  fw_xgqs fw' = fw_xgqs fw -> fw_cu_xgqs fw' = fw_cu_xgqs fw -> queues_ready b c fw' m'.
Proof.
  intros [[F HM] [Hl Hh]] Hw Hf E1 E2. unfold queues_ready. rewrite E1, E2. split; [|done]. exists F.
  eapply group_mem_frame; [exact HM|done|]. intros a Ha. apply Hf. unfold cu_space, ERT_CQ_SIZE in *. lia.
Qed.

Lemma respond_inv polls m fw resp r : respond polls m fw resp = Some r ->
  exists t', xgq_ctrl_response polls m (fw_ctrl_xgq fw) resp = Some (t', r.2) /\ r.1 = fw <| fw_ctrl_xgq := t' |>.
Proof. unfold respond. intros ([t' m'] & E & [= <-])%bind_Some. by exists t'. Qed.

(** An answer after which the queues are those of [fw1]. *)
Lemma answer_prepared c m (hw : H) fw r fw1 m1 resp (ret : Z) res : length resp = 4%nat ->
  (p ← respond (ce_polls cenv) m1 fw1 resp; Some (ret, p.1, p.2)) = Some res ->
  (forall t', prepared c m fw (fw1 <| fw_ctrl_xgq := t' |>) r m1) -> fw_ctrl_xgq fw1 = fw_ctrl_xgq fw ->
  exists fw' m' m1 resp, (res, hw) = (ret, fw', m', hw) /\ prepared c m fw fw' r m1 /\
    length resp = 4%nat /\ xgq_ctrl_response (ce_polls cenv) m1 (fw_ctrl_xgq fw) resp = Some (fw_ctrl_xgq fw', m').
Proof.
  intros Hl (p & E & [= <-])%bind_Some Hp Ec. apply respond_inv in E as (t' & E & ->). rewrite Ec in E.
  by exists (fw1 <| fw_ctrl_xgq := t' |>), p.2, m1, resp.
Qed.

Lemma cfg_end_prepared c m fw fw1 m1 ret v : fw_rel b fw c -> words_ok m -> request_ok c CfgEnd ->
  setup_cu_queue b m fw = Some (ret, fw1, m1) ->
  fw_ctrl_xgq fw1 = fw_ctrl_xgq fw /\
  forall fw', fw_xgqs fw' = fw_xgqs fw1 -> fw_cu_xgqs fw' = fw_cu_xgqs fw1 ->
    prepared c m fw fw' CfgEnd (write_reg m1 (ERT_HOST_INTERRUPT_ENABLE_ADDR b) v).
Proof.
  intros HR Hm Hok Es. destruct (setup_cu_queue_ok b Hbase m fw c HR Hm Hok) as (f & m2 & E & Hw & Ec & _ & Hfr & Hq).
  rewrite Es in E. injection E as _ <- <-. split; [done|]. intros fw' E1 E2.
  assert (words_ok (write_reg m1 (ERT_HOST_INTERRUPT_ENABLE_ADDR b) v)) as Hw' by (by apply words_ok_write).
  assert (u32 (ERT_HOST_INTERRUPT_ENABLE_ADDR b) = ERT_HOST_INTERRUPT_ENABLE_ADDR b) as Eu by apply u32_u32.
  unfold ERT_CQ_SIZE in *. split; [done|]. unfold write_reg, reg_write in *. rewrite Eu in *. split.
  - intros a Ha. rewrite ioread_write_ne by lia. apply Hfr. left. lia.
  - intros Hmk. eapply queues_ready_frame; [by apply Hq|done| |done|done]. intros a Ha.
    unfold ERT_CQ_SIZE in Ha. by rewrite ioread_write_ne by lia.
Qed.

Lemma process_answer c m (hw : H) fw t r res : fw_rel b (fw <| fw_ctrl_xgq := t |>) c -> words_ok m -> request_ok c r ->
  xgq_ctrl_get_cmd m (fw_ctrl_xgq fw) = Some (true, t, m) ->
  decode m (xt_ctrl_cmd t) = Some r -> config_request r = true -> process_ctrl_command b cenv m hw fw = Some res ->
  exists ret fw' m' m1 resp, res = (ret, fw', m', hw) /\ prepared c m (fw <| fw_ctrl_xgq := t |>) fw' r m1 /\
    length resp = 4%nat /\ xgq_ctrl_response (ce_polls cenv) m1 t resp = Some (fw_ctrl_xgq fw', m').
Proof.
  intros HR Hm Hok Eg Ed Hc E. unfold process_ctrl_command in E. rewrite Eg in E. cbn [mbind option_bind negb] in E.
  set (fw1 := fw <| fw_ctrl_xgq := t |>) in *. change t with (fw_ctrl_xgq fw1) in Ed |- *.
  change (xt_ctrl_cmd t) with (xt_ctrl_cmd (fw_ctrl_xgq fw1)) in E.
  unfold decode in Ed. cbv zeta in Ed. unfold with_hw in E.
  destruct (_ =? XGQ_CMD_OP_CFG_START).
  { apply bind_Some in E as (p & E & [= <-]). injection Ed as <-.
    eexists. by eapply answer_prepared; [| exact E|..]. }
  destruct (_ =? XGQ_CMD_OP_CFG_END).
  { apply bind_Some in E as (p & E & [= <-]). injection Ed as <-. unfold configure_mb_end in E.
    apply bind_Some in E as ([[ret fw2] m2] & Es & E).
    destruct (cfg_end_prepared c m fw1 fw2 m2 ret (b2z (fw_i2h fw2)) HR Hm Hok Es) as [Ec Hp].
    eexists. eapply answer_prepared; [|exact E|..]; [done| |].
    - intros t'. destruct (ret =? 0); by apply Hp.
    - by destruct (ret =? 0). }
  destruct (_ =? XGQ_CMD_OP_CFG_CU).
  { apply bind_Some in E as (p & E & [= <-]). injection Ed as <-. unfold save_cfg_cu in E.
    destruct (_ || _); [eexists; by eapply answer_prepared; [|exact E|..]|].
    apply bind_Some in E as (cu & _ & E). apply bind_Some in E as (scu & _ & E). apply bind_Some in E as (sizes & _ & E).
    eexists. by eapply answer_prepared; [|exact E|..]. }
  destruct (_ =? XGQ_CMD_OP_QUERY_CU).
  { apply bind_Some in E as (p & E & [= <-]). injection Ed as <-. unfold query_cu in E.
    apply bind_Some in E as (off & _ & E). eexists. by eapply answer_prepared; [|exact E|..]. }
  repeat (destruct (_ =? _); [by injection Ed as <-|]).
  destruct (_ =? XGQ_CMD_OP_IDENTIFY); [|done]. apply bind_Some in E as (p & E & [= <-]). injection Ed as <-.
  eexists. by eapply answer_prepared; [|exact E|..].
Qed.

(** Everything the firmware does with a command of a configuration that the
    driver has published. *)
Record serves (c : config) (host : xgq) (fw : firmware) (m : shared) (p q : Z) (r : request)
  (fw' : firmware) (m' : shared) (resp : list Z) : Prop := {
  sv_rel : fw_rel b fw' (spec c r).1;
  sv_answer : exists ws, spec_answer c r (ce_clock cenv 0) (eb_v30 b) ws /\ resp = u32 <$> ws;
  sv_link : link host (fw_ctrl_xgq fw') m' (u32 (p + 1)) (u32 (p + 1)) (u32 (q + 1)) q;
  sv_hand : cmd_is_valid (xt_ctrl_cmd (fw_ctrl_xgq fw')) = false;
  sv_sq : xr_produced (xq_sq (xt_xgq (fw_ctrl_xgq fw'))) = u32 (p + 1) /\
          xr_consumed (xq_sq (xt_xgq (fw_ctrl_xgq fw'))) = u32 (p + 1);
  sv_slot : at_slot m' (cq_slot q) resp;
  sv_queues : if decide (r = CfgEnd) then makes_queues c -> queues_ready b c fw' m'
              else same_outside m m' /\ fw_xgqs fw' = fw_xgqs fw /\ fw_cu_xgqs fw' = fw_cu_xgqs fw;
}.

Lemma answer_length c r clock v30 resp : config_request r = true -> spec_answer c r clock v30 resp -> length resp = 4%nat.
Proof. destruct r; try done; cbn; by intros _ ->. Qed.

Lemma link_frame host t m m' s tk pu g : link host t m s tk pu g -> words_ok m' ->
  (forall a, base <= a < base + 0x800 -> ioread32 m' a = ioread32 m a) -> link host t m' s tk pu g.
Proof.
  intros [] Hw Hf. split; try done; rewrite !Hf by lia; done.
Qed.

Lemma fw_serves host fw (hw : H) m p q req r c : fw_rel b fw c -> env_words cenv ->
  link host (fw_ctrl_xgq fw) m (u32 (p + 1)) p q q -> cmd_is_valid (xt_ctrl_cmd (fw_ctrl_xgq fw)) = false ->
  xr_produced (xq_sq (xt_xgq (fw_ctrl_xgq fw))) = p -> xr_consumed (xq_sq (xt_xgq (fw_ctrl_xgq fw))) = p ->
  at_slot m (sq_slot p) req -> decode_words req = Some r -> request_ok c r ->
  exists ret fw' m' resp, process_ctrl_command b cenv m hw fw = Some (ret, fw', m', hw) /\
    serves c host fw m p q r fw' m' resp /\ length resp = 4%nat.
Proof.
  intros HR He HL Hv E1 E2 Hr Ed Hok.
  assert (exists w0, req !! 0%nat = Some w0 /\ field w0 31 1 = 1) as (w0 & E0 & Hb).
  { unfold decode_words in Ed. apply bind_Some in Ed as (w0 & E0 & Ed). exists w0. split; [done|].
    destruct (Z.eqb_spec (field w0 31 1) 1); [done|discriminate Ed]. }
  destruct (fw_takes host (fw_ctrl_xgq fw) m p q req w0 HL Hv E1 E2 Hr E0 Hb) as (t1 & Eg & HL1 & S1 & S2 & Ea & Eh).
  rewrite <- Eh in E0. destruct (decode_slot m p req (xt_ctrl_cmd t1) r Hr Ed Ea E0) as [Hdec Hcfg].
  set (K := fun m' : shared => ioread32 m' (base + 32) = q).
  assert (keeps b K) as HK.
  { split; [intros m0 m'; unfold K; congruence|]. intros m0 v. unfold K, write_reg, reg_write.
    rewrite (u32_u32 (ERT_CSR_ADDR b + 0x100) : u32 (ERT_HOST_INTERRUPT_ENABLE_ADDR b) = ERT_HOST_INTERRUPT_ENABLE_ADDR b).
    unfold ERT_CQ_SIZE in *. by rewrite ioread_write_ne by lia. }
  assert (host_room K cenv (xt_xgq (fw_ctrl_xgq fw))) as Hroom.
  { intros m0 q' Hw Hk Eq Ef. unfold K in Hk.
    destruct (ctrl_places _ (lk_fw _ _ _ _ _ _ _ HL)) as [_ (C1 & C2 & C3)].
    destruct (produce_room mb_build m0 q' Hw) as (r0 & E & _); cbn [prod_ring mb_build XGQ_SERVER] in *; rewrite ?Eq in *.
    + lia.
    + rewrite C3, Hk. symmetry. apply HL.
    + destruct (ce_polls cenv); cbn [wait_produce]; rewrite E; cbn [mbind option_bind]; by eexists. }
  destruct (ctrl_command_ok b K cenv m hw fw c Hbase HK (proj2 (lk_cq_mem _ _ _ _ _ _ _ HL)) HR
    (lk_words _ _ _ _ _ _ _ HL) Hroom He) as (t & Eg' & HR1 & Hcase).
  rewrite Eg in Eg'. injection Eg' as Ev <-. rewrite <- Ev, Hdec in Hcase.
  destruct Hcase as (fw' & m' & hw' & ws & Ep & HR' & Hans & Haw); [done|by intros [-> | ->]|by intros ->|].
  destruct (process_answer c m hw fw t1 r _ HR1 (lk_words _ _ _ _ _ _ _ HL) Hok Eg Hdec Hcfg Ep)
    as (ret & fw2 & m2 & m1 & resp & Eres & (Hw1 & Hf1 & Hprep) & Hlen & Eresp).
  injection Eres as _ <- <- ->.
  destruct (fw_answers (ce_polls cenv) host t1 m1 p q resp) as (t2 & m3 & E3 & HL3 & Hv3 & Esq & Hs3 & Ho3);
    [by eapply link_frame|done|lia|]. rewrite Eresp in E3. injection E3 as <- <-.
  assert (u32 <$> ws = u32 <$> resp) as Ews.
  { apply (list_eq_aget (u32 0)); rewrite !length_fmap, (answer_length _ _ _ _ _ Hcfg Hans); [done|].
    intros i Hi. rewrite !aget_fmap. unfold aget. rewrite !Nat2Z.id.
    destruct (lookup_lt_is_Some_2 ws i) as [w Ew]; [by rewrite (answer_length _ _ _ _ _ Hcfg Hans)|].
    destruct (lookup_lt_is_Some_2 resp i) as [w' Ew']; [by rewrite Hlen|].
    rewrite Ew, Ew'. cbn [default from_option id]. rewrite <- (aw_words _ _ _ _ Haw i w Ew). rproj.
    rewrite (proj1 (cq_ptr _ (lk_fw _ _ _ _ _ _ _ HL1))), (lk_fw_cq _ _ _ _ _ _ _ HL1).
    apply Hs3. by rewrite list_lookup_fmap, Ew'. }
  eexists _, fw', m', (u32 <$> resp). split; [exact Ep|]. rewrite length_fmap. split; [|done].
  split; [exact HR'|by exists ws|exact HL3|exact Hv3|by rewrite Esq|exact Hs3|].
  destruct (decide (r = CfgEnd)) as [->|Hne].
  + intros Hmk. eapply queues_ready_frame; [by apply Hprep|apply HL3| |done|done].
    intros a Ha. apply Ho3. lia.
  + assert (m1 = m /\ fw_xgqs fw' = fw_xgqs fw /\ fw_cu_xgqs fw' = fw_cu_xgqs fw) as (-> & Ex & Eh').
    { destruct r; try done; exact Hprep. }
    done.
Qed.

(** ** A remote procedure call *)

(** One look of the firmware at its control queue; it hangs where the model has
    no result. *)
Definition fw_step (s : firmware * H * shared) : firmware * H * shared :=
  match process_ctrl_command b cenv s.2 s.1.2 s.1.1 with
  | Some (_, fw, m, hw) => (fw, hw, m)
  | None => s
  end.
(** It looks [k] times while the driver sleeps. *)
Definition fw_sleep (k : nat) (s : firmware * H * shared) : firmware * H * shared := Nat.iter k fw_step s.

Lemma fw_step_idle host fw (hw : H) m s pu g : link host (fw_ctrl_xgq fw) m s s pu g ->
  cmd_is_valid (xt_ctrl_cmd (fw_ctrl_xgq fw)) = false ->
  xr_produced (xq_sq (xt_xgq (fw_ctrl_xgq fw))) = s -> xr_consumed (xq_sq (xt_xgq (fw_ctrl_xgq fw))) = s ->
  fw_step (fw, hw, m) = (fw, hw, m).
Proof.
  intros HL Hv E1 E2. destruct (ctrl_places _ (lk_fw _ _ _ _ _ _ _ HL)) as [(_ & P2 & _) _].
  assert (xgq_ctrl_get_cmd m (fw_ctrl_xgq fw) = Some (false, fw_ctrl_xgq fw, m)) as E.
  { unfold xgq_ctrl_get_cmd. rewrite Hv. cbn [negb].
    rewrite consume_nothing; [|apply HL|done|cbn [cons_ring mb_build XGQ_SERVER]; by rewrite E1, E2|
      cbn [cons_ring mb_build XGQ_SERVER]; rewrite P2, E2; apply HL].
    cbn [mbind option_bind fst snd]. rproj. rewrite Hv. by destruct (fw_ctrl_xgq fw). }
  unfold fw_step, process_ctrl_command. cbn [fst snd]. rewrite E. cbn [mbind option_bind negb]. by destruct fw.
Qed.

Lemma fw_sleep_idle k host fw (hw : H) m s pu g : link host (fw_ctrl_xgq fw) m s s pu g ->
  cmd_is_valid (xt_ctrl_cmd (fw_ctrl_xgq fw)) = false ->
  xr_produced (xq_sq (xt_xgq (fw_ctrl_xgq fw))) = s -> xr_consumed (xq_sq (xt_xgq (fw_ctrl_xgq fw))) = s ->
  fw_sleep k (fw, hw, m) = (fw, hw, m).
Proof.
  intros HL Hv E1 E2. unfold fw_sleep. induction k as [|k IH]; [done|]. rewrite Nat.iter_succ, IH.
  by eapply fw_step_idle.
Qed.

Lemma wait_answer_ok ks host fw (hw : H) m p q req r c : fw_rel b fw c -> env_words cenv ->
  link host (fw_ctrl_xgq fw) m (u32 (p + 1)) p q q -> cmd_is_valid (xt_ctrl_cmd (fw_ctrl_xgq fw)) = false ->
  xr_produced (xq_sq (xt_xgq (fw_ctrl_xgq fw))) = p -> xr_consumed (xq_sq (xt_xgq (fw_ctrl_xgq fw))) = p ->
  at_slot m (sq_slot p) req -> decode_words req = Some r -> request_ok c r ->
  Exists (fun k => (0 < k)%nat) ks ->
  exists fw' m' resp host2 m2, serves c host fw m p q r fw' m' resp /\
    wait_answer (fw_sleep <$> ks) (fw, hw, m) host = Some (0, Some (cq_slot q, resp), host2, (fw', hw, m2)) /\
    idle host2 (fw_ctrl_xgq fw') m2 (u32 (p + 1)) (u32 (q + 1)) /\ same_outside m' m2.
Proof.
  intros HR He HL Hv E1 E2 Hr Ed Hok Hks.
  assert (forall k, (0 < k)%nat -> forall ks, exists fw' m' resp host2 m2, serves c host fw m p q r fw' m' resp /\
    wait_answer (fw_sleep <$> (k :: ks)) (fw, hw, m) host = Some (0, Some (cq_slot q, resp), host2, (fw', hw, m2)) /\
    idle host2 (fw_ctrl_xgq fw') m2 (u32 (p + 1)) (u32 (q + 1)) /\ same_outside m' m2) as Hnow.
  { intros k Hk ks0.
    destruct (fw_serves host fw hw m p q req r c HR He HL Hv E1 E2 Hr Ed Hok) as (ret & fw' & m' & resp & Ep & Hs & Hlen).
    pose proof (sv_link _ _ _ _ _ _ _ _ _ _ Hs) as HL'. pose proof (sv_hand _ _ _ _ _ _ _ _ _ _ Hs) as Hv'.
    destruct (sv_sq _ _ _ _ _ _ _ _ _ _ Hs) as [S1 S2]. cbn [fmap list_fmap wait_answer].
    assert (fw_sleep k (fw, hw, m) = (fw', hw, m')) as ->.
    { destruct k as [|k]; [lia|]. unfold fw_sleep. rewrite Nat.iter_succ_r.
      replace (fw_step (fw, hw, m)) with (fw', hw, m') by (unfold fw_step; cbn [fst snd]; by rewrite Ep).
      by eapply fw_sleep_idle. }
    destruct (host_receives host (fw_ctrl_xgq fw') m' (u32 (p + 1)) q resp HL' (sv_slot _ _ _ _ _ _ _ _ _ _ Hs) Hlen Hv' S1 S2)
      as (host2 & Ec & Ew & Hi & Ho).
    cbv zeta. cbn [fst snd]. rewrite Ec. cbn [mbind option_bind]. rewrite Ew. by eexists fw', m', resp, host2, _. }
  induction Hks as [k ks Hk|k ks Hks IH]; [by apply Hnow|].
  destruct k as [|k]; [|apply Hnow; lia]. cbn [fmap list_fmap wait_answer].
  change (fw_sleep 0 (fw, hw, m)) with (fw, hw, m). cbv zeta. cbn [fst snd].
  destruct (ctrl_places _ (lk_host _ _ _ _ _ _ _ HL)) as [_ (C1 & C2 & C3)].
  destruct (lk_host_cq _ _ _ _ _ _ _ HL) as [H1 H2].
  rewrite consume_nothing; [|apply HL|done|cbn [cons_ring xocl_build XGQ_SERVER]; congruence|
    cbn [cons_ring xocl_build XGQ_SERVER]; rewrite C2, H2; apply HL].
  cbn [mbind option_bind]. destruct ks; [by apply Exists_nil in Hks|]. exact IH.
Qed.

(** The driver is connected to a firmware that waits for its next command and
    has configuration [c]. *)
Record connected (h : ert_host (firmware * H)) (c : config) : Prop := {
  cn_rel : fw_rel b (eh_dev h).1 c;
  cn_idle : exists p q, idle (ec_ctrl_xgq (eh_ec h)) (fw_ctrl_xgq (eh_dev h).1) (eh_mem h) p q;
}.

(** Sleeps in which the firmware looks at its queue at least once. *)
Definition awake (env : @host_env (firmware * H)) : Prop :=
  exists ks, he_sleeps env = fw_sleep <$> ks /\ Exists (fun k => (0 < k)%nat) ks.

(** Only the control queue and the memory move. *)
Definition same_driver (h h' : ert_host (firmware * H)) : Prop :=
  h' = h <| eh_dev := eh_dev h' |> <| eh_mem := eh_mem h' |> <| g_ctrl_xgq_cid := g_ctrl_xgq_cid h' |>
         <| eh_ec := eh_ec h <| ec_ctrl_xgq := ec_ctrl_xgq (eh_ec h') |> |>.

Lemma put_cid_decode cid req r : (2 <= length req)%nat -> Forall (fun w => 0 <= w < 2 ^ 32) req ->
  decode_words req = Some r ->
  exists req', put_cid cid req = Some req' /\ length req' = length req /\ Forall (fun w => 0 <= w < 2 ^ 32) req' /\
    decode_words req' = Some r /\ config_op (xgq_hdr_opcode req') = true.
Proof.
  intros Hl Hw Ed. destruct req as [|w0 [|w1 req]]; cbn [length] in Hl; try lia.
  unfold put_cid. rewrite aget_chk_in by (cbn; lia). cbn [mbind option_bind].
  rewrite aset_chk_in by (cbn; lia). eexists. split; [reflexivity|]. split; [done|]. split; [|split; [exact Ed|]].
  - apply Forall_cons in Hw as [Hw0 Hw]. apply Forall_cons in Hw as [Hw1 Hw]. constructor; [done|]. constructor; [|done].
    apply set_field_range; [lia|done].
  - unfold decode_words in Ed. cbn [lookup list_lookup mbind option_bind] in Ed. cbv zeta in Ed.
    change (config_op (field w0 0 16) = true). destruct (negb _); [done|].
    repeat match type of Ed with context [field w0 0 16 =? ?k] =>
      destruct (Z.eqb_spec (field w0 0 16) k) as [->|_]; [reflexivity|] end. done.
Qed.

Lemma submit_rpc env h c req r : connected h c -> env_words cenv -> awake env ->
  decode_words req = Some r -> request_ok c r -> (2 <= length req <= 128)%nat ->
  Forall (fun w => 0 <= w < 2 ^ 32) req ->
  exists resp h', __ert_ctrl_submit env h req = Some (0, Some resp, h') /\ connected h' (spec c r).1 /\ same_driver h h' /\
    (exists ws, spec_answer c r (ce_clock cenv 0) (eb_v30 b) ws /\ resp = u32 <$> ws) /\
    if decide (r = CfgEnd) then makes_queues c -> queues_ready b c (eh_dev h').1 (eh_mem h')
    else same_outside (eh_mem h) (eh_mem h') /\ fw_xgqs (eh_dev h').1 = fw_xgqs (eh_dev h).1 /\
         fw_cu_xgqs (eh_dev h').1 = fw_cu_xgqs (eh_dev h).1.
Proof.
  intros [HR (p & q & Hi)] He (ks & Eks & Hks) Ed Hok Hl Hw.
  destruct (put_cid_decode (g_ctrl_xgq_cid h) req r) as (req' & Ep & Hl' & Hw' & Ed' & Hop); [lia|done|done|].
  destruct (host_sends _ _ _ _ _ req' Hi) as (host1 & E1 & HL & Hs & Ho); [lia|done|]. cbv zeta in HL, Hs, Ho.
  destruct Hi as (_ & Hv & S1 & S2).
  set (m1 := xgq_notify_peer_produced _ _ _) in *. destruct (eh_dev h) as [fw hw] eqn:Edev. cbn [fst] in *.
  destruct (wait_answer_ok ks host1 fw hw m1 p q req' r c HR He HL Hv S1 S2 Hs Ed' Hok Hks)
    as (fw' & m' & resp & host2 & m2 & Hsv & Ew & Hi2 & Ho2).
  unfold __ert_ctrl_submit. rewrite E1. cbn [mbind option_bind]. rproj. rewrite Ep. cbn [mbind option_bind].
  destruct (config_op_ne _ Hop) as (Hcc & Hav & Hdi).
  unfold ert_ctrl_pre_process. rewrite Hdi. cbn [fst snd]. fold m1. rewrite Eks, Edev, Ew.
  cbn [mbind option_bind fst snd]. unfold ert_ctrl_post_process. rewrite Hcc, Hav, Hdi.
  cbn [fmap option_fmap option_map snd].
  eexists _, _. split; [reflexivity|]. rproj. split; [split; [apply Hsv|by eexists _, _]|].
  split; [by unfold same_driver; rproj; destruct h as [? ? ? [] ? ?]|]. split; [apply Hsv|].
  pose proof (sv_queues _ _ _ _ _ _ _ _ _ _ Hsv) as Hq. destruct (decide (r = CfgEnd)) as [->|Hne].
  - intros Hmk. eapply queues_ready_frame; [by apply Hq|apply Hi2| |done|done]. intros a Ha. apply Ho2. lia.
  - destruct Hq as (Q1 & Q2 & Q3). cbn [fst]. split; [|done]. intros a Ha.
    by rewrite Ho2, Q1, Ho by done.
Qed.
(** ** Connecting *)

Lemma fresh_idle host t m F : fresh_queue (base + 4) 1 512 F (xt_xgq t) m -> XGQ_IS_IN_MEM_PROD F = true ->
  ctrl_rings base (xt_xgq t) -> cmd_is_valid (xt_ctrl_cmd t) = false ->
  xq_sq host = xq_sq (xt_xgq t) -> xq_cq host = xq_cq (xt_xgq t) -> exists p q, idle host t m p q.
Proof.
  intros (vs & vc & Eq & Hq) HF Hr Hv Es Ec. exists vs, vc.
  pose proof (qm_header _ _ _ _ _ _ _ _ _ Hq 6%nat ltac:(lia)) as M6. pose proof (qm_header _ _ _ _ _ _ _ _ _ Hq 7%nat ltac:(lia)) as M7.
  pose proof (qm_sq _ _ _ _ _ _ _ _ _ Hq) as Ms. pose proof (qm_cq _ _ _ _ _ _ _ _ _ Hq) as Mc.
  unfold eff_sq, eff_cq in Ms, Mc. rewrite HF in Ms, Mc. cbn [nth] in M6, M7.
  replace (base + 4 + 4 * Z.of_nat 6) with (base + 28) in M6 by lia.
  replace (base + 4 + 4 * Z.of_nat 7) with (base + 32) in M7 by lia.
  split; [split|split; [done|]].
  - apply Hq.
  - unfold ctrl_rings. by rewrite Es, Ec.
  - done.
  - by rewrite Es, Eq.
  - by rewrite Ec, Eq.
  - by rewrite Eq.
  - split; [|done]. rewrite <- Ms at 1. f_equal. unfold off_sq_produced. lia.
  - split; [|done]. rewrite <- Mc at 1. f_equal. unfold off_cq_produced. lia.
  - by rewrite Eq.
Qed.

(** The driver finds the control queue of a firmware that has started. *)
Lemma connect_ok {C} legacy (h : ert_host (firmware * H)) (kds : kds_sched C) m0 fw hw : words_ok m0 ->
  scheduler_start b m0 = Some (fw, eh_mem h) -> eh_dev h = (fw, hw) -> ec_connected (eh_ec h) = false ->
  ec_cq_base (eh_ec h) = base ->
  exists q, let h' := h <| eh_ec := eh_ec h <| ec_version := ERT_CTRL_XGQ_VER1 |> <| ec_ctrl_xgq := q |> <| ec_connected := true |> |> in
    ert_ctrl_connect legacy h kds = Some (0, h', (kds_init_ert kds (mk_kds_ert true)).2) /\ connected h' config0.
Proof.
  intros Hm E Hd Hc Hb. destruct (scheduler_start_ok b m0 Hbase Hm) as (fw1 & m1 & F & E1 & HR & Hw & _ & Hf & HF & Hv & Hver).
  rewrite E in E1. injection E1 as <- <-. unfold ERT_CQ_SIZE in *.
  assert (layout_ok (base + 4) 1 512) as HL.
  { split; [lia|done|..]; change (ring_end (base + 4) 1 512) with (base + 4 + 44 + 1056); lia. }
  destruct (attach_fresh _ 1 512 F _ _ xocl_build 0 HL HF eq_refl Hf) as (q & Ea & Es & Ec).
  exists q. cbv zeta. unfold ert_ctrl_connect. rewrite Hc. unfold ERT_CTRL_VER_OFFSET. rewrite Hb, Z.add_0_r, Hver.
  change (ERT_VER =? ERT_CTRL_XGQ_VER1) with true. cbv iota. unfold ert_ctrl_xgq_init. rproj. rewrite Hb, u64_small by lia.
  rewrite Ea. cbn [mbind option_bind]. change (z2b 0) with false. cbv iota beta. split.
  - by destruct h as [? ? ? [] ? ?].
  - split; rproj; rewrite Hd; [done|]. eapply fresh_idle; try done. apply HR.
Qed.
End Serve.
End Link.
