(* ===== verification/XoclUpdate.v ===== *)
(** * Configuring the CUs of an xclbin

    [xocl_kds_update_xgq] of the driver against the firmware: each command is a
    remote procedure call ([XoclConfig]), the commands together configure every
    CU, and the driver ends up with the queues on which the firmware serves
    them. *)
From S2P Require Import Prelude KdsCommand CuInfo IpLayout CuCore CuHls KdsHwctx KdsSched KdsConfig KdsLife.
From S2P Require Import Xgq XgqRing XgqLink XgqAlloc XgqGroup XoclXgq ErtCu ErtCuProof ErtCtrl ErtCtrlSpec ErtCtrlProof.
From S2P Require Import XoclErtCtrl XoclKds XoclConfig.

(** ** Commands as words *)

Lemma pack_low w v fs : 0 <= w -> pack_fields ((w, v) :: fs) mod 2 ^ w = v mod 2 ^ w.
Proof.
  intros Hw. cbn [pack_fields]. rewrite <- !Z.land_ones by lia. apply Z.bits_inj'. intros i Hi.
  rewrite !Z.land_spec, Z.lor_spec, Z.land_spec, Z.shiftl_spec, Z.testbit_ones_nonneg by lia.
  destruct (Z.ltb_spec i w); [|by rewrite !andb_false_r]. rewrite (Z.testbit_neg_r _ (i - w)) by lia.
  by rewrite !andb_true_r, orb_false_r.
Qed.

Definition widths (fs : list (Z * Z)) : Z := foldr (fun f n => f.1 + n) 0 fs.

Lemma pack_range fs : Forall (fun f => 0 <= f.1) fs -> 0 <= widths fs /\ 0 <= pack_fields fs < 2 ^ widths fs.
Proof.
  induction 1 as [|[w v] fs Hw _ [IH1 IH2]]; cbn [pack_fields widths foldr fst] in *; [cbn; lia|].
  fold (widths fs) in *. split; [lia|]. rewrite Z.land_ones, Z.shiftl_mul_pow2 by lia.
  pose proof (Z.mod_pos_bound v (2 ^ w) ltac:(apply Z.pow_pos_nonneg; lia)) as Hm.
  rewrite Z.lor_comm, Z.pow_add_r by lia.
  assert (Z.lor (pack_fields fs * 2 ^ w) (v mod 2 ^ w) = pack_fields fs * 2 ^ w + v mod 2 ^ w) as ->.
  { symmetry. apply Z.add_nocarry_lor. rewrite <- Z.shiftl_mul_pow2 by lia. apply Z.bits_inj'. intros i Hi.
    rewrite Z.land_spec, Z.shiftl_spec, Z.bits_0 by lia. destruct (Z.ltb_spec i w).
    - by rewrite (Z.testbit_neg_r _ (i - w)) by lia.
    - rewrite Z.mod_pow2_bits_high by lia. apply andb_false_r. }
  nia.
Qed.

Lemma pack_word fs : Forall (fun f => 0 <= f.1) fs -> widths fs <= 32 -> 0 <= pack_fields fs < 2 ^ 32.
Proof.
  intros Hf Hw. destruct (pack_range fs Hf) as [H1 H2]. split; [lia|]. eapply Z.lt_le_trans; [apply H2|].
  apply Z.pow_le_mono_r; lia.
Qed.

Lemma bytes_words_ok l : Forall (fun w => 0 <= w < 2 ^ 32) (bytes_words l) /\ (4 * length (bytes_words l) <= length l)%nat.
Proof.
  assert (forall n l, (length l <= n)%nat ->
    Forall (fun w => 0 <= w < 2 ^ 32) (bytes_words l) /\ (4 * length (bytes_words l) <= length l)%nat) as Hn; [|by apply (Hn (length l))].
  clear l. induction n as [|n IH]; intros l Hl; destruct l as [|a [|b [|c [|d l]]]]; cbn [length bytes_words] in *;
    try (split; [constructor|lia]); try lia.
  destruct (IH l) as [H1 H2]; [lia|]. split; [|lia]. constructor; [|done]. apply pack_word; [repeat constructor; done|done].
Qed.

(** The commands of a configuration, as the firmware reads them. *)
Definition command_for (req : list Z) (r : request) : Prop :=
  decode_words req = Some r /\ (2 <= length req <= 128)%nat /\ Forall (fun w => 0 <= w < 2 ^ 32) req.

Ltac command_words :=
  repeat match goal with
  | |- Forall _ (_ :: _) => apply Forall_cons; split
  | |- Forall _ [] => apply Forall_nil
  | |- 0 <= pack_fields _ < 2 ^ 32 => apply pack_word; [repeat constructor; done|done]
  | |- 0 <= u32 _ < 2 ^ 32 => apply u32_range
  end.

Lemma identify_command : command_for xgq_cmd_identify Identify.
Proof. split; [reflexivity|]. split; [cbn; lia|]. unfold xgq_cmd_identify, xgq_cmd_sq_hdr. by command_words. Qed.

Lemma config_end_command : command_for xgq_cmd_config_end CfgEnd.
Proof. split; [reflexivity|]. split; [cbn; lia|]. unfold xgq_cmd_config_end, xgq_cmd_sq_hdr. by command_words. Qed.

Lemma config_start_command n s : 0 <= n < 2 ^ 13 ->
  exists f, command_for (xgq_cmd_config_start n s) (CfgStart f) /\ f mod 2 ^ 13 = n /\
    Z.testbit f 16 = false /\ Z.testbit f 17 = false.
Proof.
  intros Hn. eexists. split; [split; [reflexivity|split]|].
  - cbn. lia.
  - unfold xgq_cmd_config_start, xgq_cmd_sq_hdr. cbn [app]. command_words; done.
  - split; [rewrite pack_low, Z.mod_small by lia; done|].
    assert (forall i, 16 <= i < 18 -> Z.testbit (pack_fields [(13, n); (1, 1); (1, 1); (1, 1); (2, 0); (1, 0); (1, 0)]) i = false) as Hb.
    { intros i Hi. remember [(1, 1); (1, 1); (1, 1); (2, 0); (1, 0); (1, 0)] as fs eqn:Ef. cbn [pack_fields]. rewrite Ef.
      rewrite Z.lor_spec, Z.land_spec, Z.testbit_ones_nonneg, Z.shiftl_spec by lia.
      replace (i <? 13) with false by lia. rewrite andb_false_r. change (pack_fields _) with 7.
      assert (i - 13 = 3 \/ i - 13 = 4) as [-> | ->] by lia; done. }
    split; apply Hb; lia.
Qed.

Lemma query_command i d : 0 <= i < 2 ^ 12 -> command_for (xgq_cmd_query_cu i d) (QueryCu i).
Proof.
  intros Hi. split; [|split].
  - unfold xgq_cmd_query_cu, xgq_cmd_sq_hdr. cbn [app]. unfold decode_words. cbn [lookup list_lookup mbind option_bind]. cbv zeta.
    match goal with |- context [field ?w 0 16] => let v := eval vm_compute in (field w 0 16) in change (field w 0 16) with v end.
    cbn -[pack_fields]. by rewrite pack_low, Z.mod_small by lia.
  - cbn. lia.
  - unfold xgq_cmd_query_cu, xgq_cmd_sq_hdr. cbn [app]. command_words; done.
Qed.

Lemma config_cu_command d intr info size uuid : 0 <= info_inst_idx info < 2 ^ 12 -> 0 <= size < 2 ^ 32 -> length uuid = 16%nat ->
  command_for (xgq_cmd_config_cu d intr info size uuid)
    (CfgCu (info_inst_idx info) (u32 (info_addr info)) (u32 (Z.shiftr (info_addr info) 32)) size).
Proof.
  intros Hi Hs Hu. destruct (bytes_words_ok (cu_name info)) as [N1 N2]. destruct (bytes_words_ok uuid) as [U1 U2].
  assert (length (cu_name info) = 64%nat) as Hn.
  { unfold cu_name. rewrite length_app, length_replicate. pose proof (length_take_le (info_kname info ++ [58] ++ info_iname info) 63).
    rewrite length_take. lia. }
  unfold xgq_cmd_config_cu, xgq_cmd_sq_hdr. cbn [app]. split; [|split].
  - unfold decode_words. cbn [lookup list_lookup mbind option_bind]. cbv zeta.
    match goal with |- context [field ?w 0 16] => let v := eval vm_compute in (field w 0 16) in change (field w 0 16) with v end.
    cbn -[pack_fields u32 Z.shiftr]. by rewrite pack_low, Z.mod_small by lia.
  - cbn [length]. rewrite length_app. lia.
  - command_words; try done. by apply Forall_app.
Qed.

(** ** Sequences of commands *)

Section Protocol.
Context {H : Type} `{Mmio H} (b : ert_build) (cenv : ctrl_env).
#[local] Abbreviation base := (ERT_CQ_BASE_ADDR b).
#[local] Abbreviation host := (ert_host (firmware * H)).
Hypothesis Hbase : 0 <= base /\ base + ERT_CQ_SIZE < 2 ^ 32.
Hypothesis Hcsr : ERT_HOST_INTERRUPT_ENABLE_ADDR b < base \/ base + ERT_CQ_SIZE <= ERT_HOST_INTERRUPT_ENABLE_ADDR b.
Hypothesis Henv : env_words cenv.

(** Commands sent one after the other: the answers, while all succeed. *)
Fixpoint send_all (envs : list host_env) (h : host) (reqs : list (list Z)) : option (list (list Z) * host) :=
  match envs, reqs with
  | env :: envs, req :: reqs =>
      r ← __ert_ctrl_submit env h req;
      let '(ret, resp, h) := r in
      match ret, resp with
      | 0, Some resp => p ← send_all envs h reqs; Some (resp :: p.1, p.2)
      | _, _ => None
      end
  | _, _ => Some ([], h)
  end.

(** Requests that the specification serves one after the other, and answers it
    allows. *)
Fixpoint requests_ok (c : config) (rs : list request) : Prop :=
  match rs with [] => True | r :: rs => request_ok c r /\ requests_ok (spec c r).1 rs end.

Fixpoint spec_answers (c : config) (rs : list request) (answers : list (list Z)) : Prop :=
  match rs, answers with
  | [], [] => True
  | r :: rs, ans :: answers =>
      (exists ws, spec_answer c r (ce_clock cenv 0) (eb_v30 b) ws /\ ans = u32 <$> ws) /\ spec_answers (spec c r).1 rs answers
  | _, _ => False
  end.

Definition spec_run (c : config) (rs : list request) : config := foldl (fun c r => (spec c r).1) c rs.

Lemma send_all_ok envs reqs rs : Forall (awake b cenv) envs -> length envs = length reqs -> Forall2 command_for reqs rs ->
  forall (h : host) c, connected b h c -> requests_ok c rs ->
  exists answers h', send_all envs h reqs = Some (answers, h') /\ spec_answers c rs answers /\ connected b h' (spec_run c rs).
Proof.
  intros Ha Hl Hr. revert envs Ha Hl. induction Hr as [|req r reqs rs (Hd & Hlen & Hw) Hr IH]; intros envs Ha Hl h c Hc Hok.
  { destruct envs; [|discriminate Hl]. by exists [], h. }
  destruct envs as [|env envs]; [discriminate Hl|]. apply Forall_cons in Ha as [Ha Has]. destruct Hok as [Hok Hoks].
  destruct (submit_rpc b Hbase Hcsr cenv env h c req r Hc Henv Ha Hd Hok Hlen Hw) as (ans & h1 & E & Hc1 & _ & Hans & _).
  destruct (IH envs Has ltac:(cbn in Hl; lia) h1 _ Hc1 Hoks) as (answers & h' & Es & Hs & Hc').
  exists (ans :: answers), h'. cbn [send_all]. rewrite E. cbn [mbind option_bind]. rewrite Es. by split_and!.
Qed.

End Protocol.

(** ** The configuration of a list of CUs *)

Definition payload (info : xrt_cu_info) : Z := match cu_payload_size info with inr s => s | inl _ => 0 end.

Definition cfg_request (info : xrt_cu_info) : request :=
  CfgCu (info_inst_idx info) (u32 (info_addr info)) (u32 (Z.shiftr (info_addr info) 32)) (payload info).

(** CUs the firmware can serve: with a handshake, arguments that make slots of
    whole words, and an address of 64 bits. *)
Definition cu_ok (info : xrt_cu_info) : Prop :=
  info_protocol info <> CTRL_NONE /\ (exists s, cu_payload_size info = inr s /\ 4 <= s /\ s mod 4 = 0) /\
  0 <= info_addr info < 2 ^ 64.

Definition configured (c : config) (infos : list xrt_cu_info) : config :=
  foldl (fun c info => (spec c (cfg_request info)).1) c infos.

Lemma slot_payload_range info : 0 <= payload info <= MAX_CQ_SLOT_SIZE.
Proof.
  unfold payload, cu_payload_size, MAX_CQ_SLOT_SIZE. destruct (max_offset _ _ _ _) as [j off].
  destruct (_ <? _); [lia|]. pose proof (u32_range (u32 (off + match info_args info !! j with Some a => arg_size a | None => 0 end + 8) * 2)).
  destruct (Z.ltb_spec 4096 (u32 (u32 (off + match info_args info !! j with Some a => arg_size a | None => 0 end + 8) * 2))); lia.
Qed.

Lemma addr_halves a : 0 <= a < 2 ^ 64 -> u32 (Z.shiftr a 32) * 2 ^ 32 + u32 a = a.
Proof.
  intros Ha. rewrite Z.shiftr_div_pow2 by lia. rewrite (u32_small (a / _)) by (split; [apply Z.div_pos|apply Z.div_lt_upper_bound]; lia).
  unfold u32. pose proof (Z.div_mod a (2 ^ 32)). lia.
Qed.

(** CU [i] of the list has the instance number [i0 + i]. *)
Definition numbered (i0 : nat) (infos : list xrt_cu_info) : Prop :=
  forall j info, infos !! j = Some info -> info_inst_idx info = Z.of_nat (i0 + j).

Lemma numbered_cons i0 info infos : numbered i0 (info :: infos) ->
  info_inst_idx info = Z.of_nat i0 /\ numbered (S i0) infos.
Proof.
  intros Hn. split; [rewrite (Hn 0%nat info eq_refl); f_equal; lia|]. intros j i Ej. rewrite (Hn (S j) i Ej). f_equal. lia.
Qed.

Lemma configured_ok infos : forall c i0, numbered i0 infos -> Forall cu_ok infos ->
  Z.of_nat (i0 + length infos) <= cf_num c -> length (cf_size c) = 32%nat -> length (cf_addr c) = 32%nat -> cf_num c <= 32 ->
  let c' := configured c infos in
  cf_num c' = cf_num c /\ cf_flat c' = cf_flat c /\ cf_done c' = cf_done c /\ cf_offset c' = cf_offset c /\
  length (cf_size c') = 32%nat /\ length (cf_addr c') = 32%nat /\
  (forall j info, infos !! j = Some info ->
     cf_size c' !! (i0 + j)%nat = Some (payload info) /\ cf_addr c' !! (i0 + j)%nat = Some (info_addr info)) /\
  (forall j, (j < i0)%nat -> cf_size c' !! j = cf_size c !! j /\ cf_addr c' !! j = cf_addr c !! j).
Proof.
  induction infos as [|info infos IH]; intros c i0 Hn Hok Hnum Hs Ha H32; [by split_and!|].
  apply numbered_cons in Hn as [Ei Hn]. apply Forall_cons in Hok as [(_ & _ & Haddr) Hok]. cbn [length] in Hnum.
  cbn [configured foldl]. fold (configured (spec c (cfg_request info)).1 infos). cbv zeta.
  assert ((spec c (cfg_request info)).1 = c <| cf_addr ::= fun l => aset l (Z.of_nat i0) (info_addr info) |>
    <| cf_size ::= fun l => aset l (Z.of_nat i0) (payload info) |>) as ->.
  { unfold cfg_request. cbn [spec]. rewrite Ei. replace (cf_num c <=? Z.of_nat i0) with false by lia.
    cbn [fst]. by rewrite (addr_halves _ Haddr). }
  destruct (IH (c <| cf_addr ::= fun l => aset l (Z.of_nat i0) (info_addr info) |>
    <| cf_size ::= fun l => aset l (Z.of_nat i0) (payload info) |>) (S i0)) as (R1 & R2 & R3 & R4 & R5 & R6 & R7 & R8);
    rproj; rewrite ?length_aset; [done|done|lia|done|done|done|]. rproj.
  assert (forall A (l : list A) v, length l = 32%nat -> aset l (Z.of_nat i0) v !! i0 = Some v) as Hself.
  { intros A l v Hl. unfold aset. rewrite Nat2Z.id. apply list_lookup_insert_eq. lia. }
  split_and!; try done.
  - intros j i Ej. destruct j as [|j].
    + injection Ej as <-. rewrite Nat.add_0_r. destruct (R8 i0) as [-> ->]; [lia|]. rproj. by rewrite !Hself.
    + replace (i0 + S j)%nat with (S i0 + j)%nat by lia. by apply R7.
  - intros j Hj. destruct (R8 j) as [-> ->]; [lia|]. rproj. unfold aset. rewrite Nat2Z.id.
    by rewrite !list_lookup_insert_ne by lia.
Qed.

(** The instance numbers of a fresh table. *)
Definition instances (infos : list xrt_cu_info) : list xrt_cu_info :=
  imap (fun j info => info <| info_inst_idx := Z.of_nat j |>) infos.

(** A configuration that has been opened for as many CUs. *)
Definition opened (c : config) (n : nat) : Prop :=
  cf_num c = Z.of_nat n /\ cf_flat c = false /\ length (cf_size c) = 32%nat /\ length (cf_addr c) = 32%nat.

Lemma end_config c : makes_queues c -> exists off, (spec c CfgEnd).1 = c <| cf_done := true |> <| cf_offset := off |>.
Proof.
  intros (Hn & Hf & Hz). cbn [spec]. unfold spec_cfg_end in *. fold (cu_sizes c) in *. rewrite Hf in *.
  replace (cf_num c =? 0) with false in * by lia. cbn [orb] in *.
  destruct (existsb _ _); [discriminate Hz|]. destruct (_ <? _); [discriminate Hz|]. by eexists.
Qed.

Lemma configured_closes c infos : opened c (length infos) -> (1 <= length infos <= 32)%nat -> Forall cu_ok infos ->
  len_sum 2 (payload <$> infos) <= cu_space ->
  let c' := configured c (instances infos) in
  request_ok c' CfgEnd /\ makes_queues c' /\ cu_sizes c' = payload <$> infos /\ cf_num c' = cf_num c /\
  forall j info, infos !! j = Some info -> cf_addr c' !! j = Some (info_addr info).
Proof.
  intros (Hn & Hf & Hs & Ha) Hlen Hok Hsum c'.
  assert (length (instances infos) = length infos) as Hli by apply length_imap.
  assert (forall j info, instances infos !! j = Some info -> exists i, infos !! j = Some i /\ info = i <| info_inst_idx := Z.of_nat j |>) as Hinst.
  { intros j info E. unfold instances in E. rewrite list_lookup_imap in E. apply fmap_Some in E as (i & Ei & ->). by exists i. }
  assert (Forall cu_ok (instances infos)) as Hok'.
  { apply Forall_lookup. intros j info E. destruct (Hinst j info E) as (i & Ei & ->). exact (Forall_lookup_1 _ _ _ _ Hok Ei). }
  destruct (configured_ok (instances infos) c 0) as (R1 & R2 & R3 & R4 & R5 & R6 & R7 & _); try lia; try done.
  { intros j info E. by destruct (Hinst j info E) as (i & Ei & ->). }
  fold c' in R1, R2, R3, R4, R5, R6, R7.
  assert (forall j info, infos !! j = Some info -> cf_size c' !! j = Some (payload info) /\ cf_addr c' !! j = Some (info_addr info)) as Hj.
  { intros j info E. destruct (R7 j (info <| info_inst_idx := Z.of_nat j |>)) as [Rs Ra]; [|by split].
    unfold instances. by rewrite list_lookup_imap, E. }
  assert (cu_sizes c' = payload <$> infos) as Hsz.
  { unfold cu_sizes. apply list_eq. intros j. rewrite list_lookup_fmap. destruct (infos !! j) as [info|] eqn:E.
    - rewrite lookup_take_lt by (apply lookup_lt_Some in E; lia). by apply Hj.
    - apply lookup_ge_None in E. apply lookup_ge_None_2. rewrite length_take. lia. }
  assert (Forall (fun s => 4 <= s <= MAX_CQ_SLOT_SIZE /\ s mod 4 = 0) (payload <$> infos)) as Hpay.
  { apply Forall_fmap. eapply Forall_impl; [exact Hok|]. intros info (_ & (s & Es & H4 & Hz) & _). cbn.
    pose proof (slot_payload_range info). unfold payload in *. rewrite Es in *. lia. }
  split_and!.
  - intros _. fold (cu_sizes c'). rewrite Hsz. eapply Forall_impl; [exact Hpay|]. cbn. unfold MAX_CQ_SLOT_SIZE. intros s Hs'. lia.
  - split_and!; [lia|congruence|]. unfold spec_cfg_end. fold (cu_sizes c'). rewrite Hsz, R2, Hf. replace (cf_num c' =? 0) with false by lia.
    cbn [orb]. replace (existsb _ _) with false. 2: { symmetry. apply not_true_iff_false. intros E%existsb_exists.
      destruct E as (s & Hin & Hz). apply list_elem_of_In in Hin. apply (proj1 (Forall_forall _ _) Hpay) in Hin as [_ E]. by rewrite E in Hz. }
    by replace (cu_space <? _) with false by lia.
  - done.
  - done.
  - intros j info E. by apply Hj.
Qed.

(** ** Reservation and creation of devices *)

Lemma reserve_fresh put infos : forall l m, Forall (fun s => s <> XOCL_SUBDEV_STATE_UNINIT) l -> (length infos <= m)%nat ->
  reserve_subdevices (l ++ replicate m XOCL_SUBDEV_STATE_UNINIT) infos put =
  (imap (fun j => put (Z.of_nat (length l + j))) infos,
   l ++ replicate (length infos) XOCL_SUBDEV_STATE_INIT ++ replicate (m - length infos) XOCL_SUBDEV_STATE_UNINIT).
Proof.
  induction infos as [|info infos IH]; intros l m Hl Hm; cbn [reserve_subdevices length] in *.
  { by rewrite Nat.sub_0_r. }
  destruct m as [|m]; [lia|]. cbn [replicate].
  assert (xocl_subdev_reserve (l ++ XOCL_SUBDEV_STATE_UNINIT :: replicate m XOCL_SUBDEV_STATE_UNINIT) =
    (Z.of_nat (length l), (l ++ [XOCL_SUBDEV_STATE_INIT]) ++ replicate m XOCL_SUBDEV_STATE_UNINIT)) as ->.
  { unfold xocl_subdev_reserve. rewrite list_find_app_r by (by apply list_find_None). cbn [list_find].
    rewrite decide_True by done. cbn [fmap option_fmap option_map prod_map fst snd]. rewrite Nat.add_0_l.
    rewrite <- app_assoc. cbn [app]. f_equal. rewrite insert_app_r_alt by lia. by rewrite Nat.sub_diag. }
  rewrite IH by (try apply Forall_app; try split; (done || by constructor || lia)). rewrite length_app. cbn [length].
  rewrite imap_cons, Nat.add_0_r. f_equal.
  - f_equal. apply imap_ext. intros j i _. cbn. do 2 f_equal. lia.
  - by rewrite <- app_assoc.
Qed.

(** ** Control commands of the driver *)

Section Update.
Context {C H : Type} `{Mmio H} (b : ert_build) (cenv : ctrl_env).
#[local] Abbreviation base := (ERT_CQ_BASE_ADDR b).
#[local] Abbreviation dev := (xocl_dev C (firmware * H)).
Context (e : xocl_env C (firmware * H)).
Hypothesis Hbase : 0 <= base /\ base + ERT_CQ_SIZE < 2 ^ 32.
Hypothesis Hcsr : ERT_HOST_INTERRUPT_ENABLE_ADDR b < base \/ base + ERT_CQ_SIZE <= ERT_HOST_INTERRUPT_ENABLE_ADDR b.
Hypothesis Henv : env_words cenv.

(** Memory is not exhausted and the firmware runs while the driver sleeps. *)
Hypothesis Halloc : forall n, xe_alloc e n = (true, true).
Hypothesis Hawake : forall n, awake b cenv (xe_host e n).

#[local] Abbreviation fw x := (eh_dev (xd_ert x)).1.
#[local] Abbreviation mem x := (eh_mem (xd_ert x)).

(** The driver's state apart from the command counter and the firmware. *)
Definition same_but_ert (x x' : dev) : Prop :=
  x' = x <| xd_ert := xd_ert x' |> <| xd_sent := xd_sent x' |>.

Lemma same_but_ert_trans x1 x2 x3 : same_but_ert x1 x2 -> same_but_ert x2 x3 -> same_but_ert x1 x3.
Proof. unfold same_but_ert. intros E1 E2. rewrite E2, E1. by destruct x1, x2, x3. Qed.

Lemma submit_config answer now (kds : kds_sched C) cl xcmd : xcmd_type xcmd = KDS_ERT -> xcmd_opcode xcmd = OP_CONFIG ->
  xcmd_timestamp_enabled xcmd = false ->
  kds_submit_cmd_and_wait answer now true None kds cl xcmd [] [] = Some (0, [KErtSubmit xcmd], kds, cl).
Proof.
  intros Et Eo Es. unfold kds_submit_cmd_and_wait, kds_add_command, kds_submit_ert, set_xcmd_timestamp.
  by rewrite Et, Eo, Es.
Qed.

(** Every answer says "completed". *)
Lemma answer_completed c r clock v30 ws : spec_answer c r clock v30 ws -> exists ws', ws = 0 :: ws'.
Proof.
  destruct r; cbn; try (intros ->; by eexists); [by intros [w ->]; eexists|by intros (w & -> & _); eexists].
Qed.

(** A command of the protocol is answered as specified, with state "completed"
    whatever its return code. *)
Lemma xgq_command_rpc (x : dev) c req resp r ert : connected b (xd_ert x) c -> kds_ert_ (xd_kds x) = Some ert ->
  command_for req r -> request_ok c r ->
  exists ans x', checked (xgq_command e x req resp) = Some (0, ans, x') /\ connected b (xd_ert x') (spec c r).1 /\
    same_but_ert x x' /\ same_driver (xd_ert x) (xd_ert x') /\
    (exists ws, spec_answer c r (ce_clock cenv 0) (eb_v30 b) ws /\ ans = u32 <$> ws) /\
    if decide (r = CfgEnd) then makes_queues c -> queues_ready b c (fw x') (mem x')
    else same_outside b (mem x) (mem x') /\ fw_xgqs (fw x') = fw_xgqs (fw x) /\ fw_cu_xgqs (fw x') = fw_cu_xgqs (fw x).
Proof.
  intros Hc Hert (Hd & Hl & Hw) Hok.
  destruct (submit_rpc b Hbase Hcsr cenv (xe_host e (xd_sent x)) (xd_ert x) c req r Hc Henv (Hawake _) Hd Hok Hl Hw)
    as (ans & h' & Es & Hc' & Hsd & Hans & Hq).
  exists ans, (x <| xd_sent := S (xd_sent x) |> <| xd_ert := h' |>). rproj.
  split; [|by split_and!]. unfold xgq_command, kds_alloc_command. rewrite Halloc. cbn [fst snd negb].
  replace (4 * Z.of_nat (length req) =? 0) with false by lia.
  cbv iota beta zeta. rewrite submit_config by reflexivity. cbn [mbind option_bind]. rproj. rewrite Hert.
  change (z2b 0) with false. cbv iota beta. unfold ert_ctrl_submit. rproj. cbn [mbind option_bind].
  rewrite Es. cbn [mbind option_bind]. change (0 =? 0) with true. cbv iota beta.
  unfold checked. cbn [mbind option_bind default from_option id].
  change (xocl_kds_xgq_notify ans KDS_COMPLETED) with ans. change (z2b 0) with false. cbv iota beta.
  assert (resp_cstate ans = 0) as ->.
  { destruct Hans as (ws & Ha & ->). by apply answer_completed in Ha as (ws' & ->). }
  reflexivity.
Qed.

Lemma same_driver_trans (h1 h2 h3 : ert_host (firmware * H)) : same_driver h1 h2 -> same_driver h2 h3 -> same_driver h1 h3.
Proof. unfold same_driver. intros E1 E2. rewrite E2, E1. by destruct h1 as [? ? ? [] ? ?], h2 as [? ? ? [] ? ?], h3 as [? ? ? [] ? ?]. Qed.

Lemma same_but_ert_kds (x x' : dev) : same_but_ert x x' -> xd_kds x' = xd_kds x /\ xd_cus x' = xd_cus x /\
  xd_scus x' = xd_scus x /\ xd_created x' = xd_created x /\ xd_has_ctrl x' = xd_has_ctrl x /\ xd_client x' = xd_client x.
Proof. intros ->. by rproj. Qed.

Lemma cfg_cus_rpc uuid infos : length uuid = 16%nat -> forall (x : dev) c resp ert, connected b (xd_ert x) c ->
  kds_ert_ (xd_kds x) = Some ert -> Forall cu_ok infos -> Forall (fun i => 0 <= info_inst_idx i < 2 ^ 12) infos ->
  exists x', cfg_cus_loop e x uuid infos 0 resp = Some (0, x') /\ connected b (xd_ert x') (configured c infos) /\
    same_but_ert x x' /\ same_driver (xd_ert x) (xd_ert x').
Proof.
  intros Hu. induction infos as [|info infos IH]; intros x c resp ert Hc Hert Hok Hi.
  { exists x. split; [done|]. split; [done|]. split; [by destruct x|]. by destruct (xd_ert x) as [? ? ? [] ? ?]. }
  apply Forall_cons in Hok as [(Hp & (s & Es & _) & Ha) Hok]. apply Forall_cons in Hi as [Hi0 Hi].
  assert (payload info = s) as Ep by (unfold payload; by rewrite Es). pose proof (slot_payload_range info) as Hpr.
  unfold MAX_CQ_SLOT_SIZE in Hpr. cbn [cfg_cus_loop]. replace (info_protocol info =? CTRL_NONE) with false by lia. rewrite Es.
  destruct (xgq_command_rpc x c _ resp _ ert Hc Hert (config_cu_command DOMAIN_PL true info s uuid Hi0 ltac:(lia) Hu) I)
    as (ans & x1 & E & Hc1 & Hs1 & Hd1 & _). rewrite E. cbn [mbind option_bind]. change (z2b 0) with false. cbv iota beta.
  destruct (IH x1 (spec c (cfg_request info)).1 ans ert) as (x' & E' & Hc' & Hs' & Hd');
    [unfold cfg_request; by rewrite Ep|by rewrite (proj1 (same_but_ert_kds _ _ Hs1))|done|done|].
  exists x'. split; [done|]. split; [exact Hc'|]. split; [by eapply same_but_ert_trans|by eapply same_driver_trans].
Qed.

(** Devices of different instances are created when they are probed. *)
Lemma create_all (Hprobe : forall d k, (xe_probe e d k).1 = 0) ds : forall x : dev,
  NoDup (info_inst_idx ∘ cd_info <$> ds) -> length (xd_cus x) = 64%nat ->
  Forall (fun d => 0 <= info_inst_idx (cd_info d) < 64 /\
    aget XOCL_SUBDEV_STATE_UNINIT (xd_cus x) (info_inst_idx (cd_info d)) = XOCL_SUBDEV_STATE_INIT) ds ->
  xd_created (xocl_kds_create_cus e x ds) = xd_created x ++ ds /\ xd_ert (xocl_kds_create_cus e x ds) = xd_ert x.
Proof.
  induction ds as [|d ds IH]; intros x Hnd Hl HF; [by rewrite app_nil_r|].
  apply Forall_cons in HF as [[Hi Hs] HF]. rewrite fmap_cons in Hnd. apply NoDup_cons in Hnd as [Hni Hnd].
  cbn [xocl_kds_create_cus foldl]. fold (xocl_kds_create_cus e (create_device e x false d) ds).
  assert (exists kds, create_device e x false d = x <| xd_cus := aset (xd_cus x) (info_inst_idx (cd_info d)) XOCL_SUBDEV_STATE_ACTIVE |>
    <| xd_kds := kds |> <| xd_created ::= fun l => l ++ [d] |>) as [kds ->].
  { unfold create_device, xocl_subdev_create, XOCL_SUBDEV_MAX_INST. cbv zeta. rewrite Hs.
    replace (negb ((0 <=? _) && (_ <? 64))) with false by lia.
    rewrite bool_decide_true by (by right). cbn [negb Z.eqb fst].
    specialize (Hprobe d (xd_kds x)). destruct (xe_probe e d (xd_kds x)) as [r kds]. cbn in Hprobe. subst r.
    cbn [Z.eqb]. by exists kds. }
  destruct (IH (x <| xd_cus := aset (xd_cus x) (info_inst_idx (cd_info d)) XOCL_SUBDEV_STATE_ACTIVE |>
    <| xd_kds := kds |> <| xd_created ::= fun l => l ++ [d] |>)) as [-> ->]; rproj; [done|by rewrite length_aset| |].
  - apply Forall_forall. intros d' Hd'. pose proof (proj1 (Forall_forall _ _) HF d' Hd') as [Hi' Hs']. split; [done|].
    rewrite aget_aset_ne; [done|lia|lia|]. intros E. apply Hni. apply list_elem_of_fmap. by exists d'.
  - by rewrite <- app_assoc.
Qed.

(** ** Attaching to the queues *)

Lemma ready_attach c (f : firmware) m i : fw_rel b f c -> queues_ready b c f m -> 0 <= i < cf_num c ->
  exists q, xgq_attach xocl_build 0 m
      (base + group_at 0x800 (2 ^ Z.of_nat (fit_log (cu_sizes c) 7)) (cu_sizes c) (Z.to_nat i)) 0 0 = Some (inr (q, m)) /\
    xq_sq q = xq_sq (aget no_xgq (fw_xgqs f) i) /\ xq_cq q = xq_cq (aget no_xgq (fw_xgqs f) i).
Proof.
  intros HR [[F HM] _] Hi. pose proof (length_cu_sizes b f c HR) as Hl. destruct (fr_num _ _ _ HR) as [_ Hn].
  set (k := Z.of_nat (fit_log (cu_sizes c) 7)) in *. set (qs := take (Z.to_nat (cf_num c)) (fw_xgqs f)) in *.
  destruct (lookup_lt_is_Some_2 qs (Z.to_nat i)) as [q Eq]; [rewrite (gm_len _ _ _ _ _ _ HM); lia|].
  destruct (group_queue k _ _ F qs m HM _ _ Eq) as (s & _ & HL & Hf).
  destruct (attach_fresh _ k s F q m xocl_build 0 HL (gm_flags _ _ _ _ _ _ HM) eq_refl Hf) as (q2 & Ea & Es & Ec).
  replace (base + group_at 0x800 (2 ^ k) (cu_sizes c) (Z.to_nat i)) with
    (group_at (base + 0x800) (2 ^ k) (cu_sizes c) (Z.to_nat i)) by (unfold group_at; lia).
  exists q2. split; [exact Ea|]. replace (aget no_xgq (fw_xgqs f) i) with q; [done|].
  unfold aget. subst qs. rewrite lookup_take_lt in Eq by lia. by rewrite Eq.
Qed.

(** A queue that nobody has set up yet. *)
Lemma setup_fresh csr (h : ert_host (firmware * H)) i off p q : ec_xgq_ips (eh_ec h) = None ->
  aget None (ec_exgq (eh_ec h)) i = None -> 0 <= i -> i + 4 <= 256 ->
  xgq_attach xocl_build 0 (eh_mem h) (u64 (ec_cq_base (eh_ec h) + off)) 0 0 = Some (inr (q, eh_mem h)) ->
  exists h' xx, ert_ctrl_setup_xgq (true, Some p) csr h i off = Some (inr p, h') /\
    eh_dev h' = eh_dev h /\ eh_mem h' = eh_mem h /\ ec_ctrl_xgq (eh_ec h') = ec_ctrl_xgq (eh_ec h) /\
    ec_xgq_ips (eh_ec h') = None /\ ec_cq_base (eh_ec h') = ec_cq_base (eh_ec h) /\
    (forall j, 0 <= j -> j <> i -> aget None (ec_exgq (eh_ec h')) j = aget None (ec_exgq (eh_ec h)) j) /\
    eh_xgqs h' = <[p := xx]> (eh_xgqs h) /\ xx_xgq xx = q /\ xx_id xx = i /\ xx_ref_cnt xx = 1.
Proof.
  intros Hips Hi Hi0 H256 Ha. unfold ert_ctrl_setup_xgq.
  set (ec := if ec_exgq_capacity (eh_ec h) <=? i
             then eh_ec h <| ec_exgq ::= fun l => l ++ replicate (Z.to_nat (i + 4) - length l) None |> else eh_ec h).
  assert ((if ec_exgq_capacity (eh_ec h) <=? i then ert_ctrl_alloc_ert_xgq true (eh_ec h) (i + ERT_CTRL_ADD_NUM_ERT_XGQ)
           else (0, eh_ec h)) = (0, ec)) as Eec.
  { subst ec. unfold ert_ctrl_alloc_ert_xgq, ERT_CTRL_ADD_NUM_ERT_XGQ, MAX_CU_XGQ.
    destruct (Z.leb_spec (ec_exgq_capacity (eh_ec h)) i); [|done].
    replace (i + 4 <=? _) with false by lia. by replace (256 <? i + 4) with false by lia. }
  cbn [fst snd]. rewrite Eec. change (z2b 0) with false. cbv iota beta zeta.
  assert (forall j, 0 <= j -> aget None (ec_exgq ec) j = aget None (ec_exgq (eh_ec h)) j) as Hget.
  { intros j Hj. subst ec. destruct (_ <=? i); [|done]. rproj. unfold aget.
    destruct (ec_exgq (eh_ec h) !! Z.to_nat j) eqn:Ej; [by rewrite (lookup_app_l_Some _ _ _ _ Ej)|].
    rewrite lookup_app_r by (by apply lookup_ge_None_1). by destruct (replicate _ _ !! _) as [[]|] eqn:Er;
      [apply lookup_replicate in Er as [? _]|..]. }
  assert (0 <= i < Z.of_nat (length (ec_exgq ec))) as Hin.
  { subst ec. unfold ec_exgq_capacity. destruct (Z.leb_spec (Z.of_nat (length (ec_exgq (eh_ec h)))) i); rproj; [|lia].
    rewrite length_app, length_replicate. lia. }
  assert (ec_xgq_ips ec = None /\ ec_cq_base ec = ec_cq_base (eh_ec h) /\ ec_ctrl_xgq ec = ec_ctrl_xgq (eh_ec h)) as (Ei & Eb & Eq).
  { subst ec. by destruct (_ <=? i). }
  rewrite aget_chk_in by done. rewrite Hget, Hi by done. cbn [mbind option_bind]. unfold setup_info. rewrite Ei, Eb. cbn [mbind option_bind].
  unfold xocl_xgq_init. cbn [negb xi_addr xi_sq_prod xi_cq_prod xi_id xi_sq_prod_int]. rproj. rewrite Ha. cbn [mbind option_bind].
  unfold xgq_irq_on. rewrite Ei. cbn [mbind option_bind]. rproj. rewrite lookup_insert_eq.
  cbn [mbind option_bind xocl_incr_xgq_ref_cnt snd]. rproj. eexists _, _. split; [reflexivity|]. rproj.
  rewrite insert_insert_eq. split_and!; try done. intros j Hj Hne. rewrite aget_aset_ne by lia. by apply Hget.
Qed.

(** A closed configuration whose queues are in memory, and a driver that has set
    up none of the queues from [k] on. *)
Record ready (x : dev) (c : config) (k : Z) : Prop := {
  rd_connected : connected b (xd_ert x) c;
  rd_queues : queues_ready b c (fw x) (mem x);
  rd_flat : cf_flat c = false;
  rd_offset : forall i, 0 <= i < cf_num c -> aget 0 (cf_offset c) i =
    group_at 0x800 (2 ^ Z.of_nat (fit_log (cu_sizes c) 7)) (cu_sizes c) (Z.to_nat i);
  rd_base : ec_cq_base (eh_ec (xd_ert x)) = base;
  rd_ips : ec_xgq_ips (eh_ec (xd_ert x)) = None;
  rd_unset : forall i, k <= i < cf_num c -> aget None (ec_exgq (eh_ec (xd_ert x))) i = None;
  rd_ctrl : xd_has_ctrl x = true;
}.

Lemma ready_offset_range x c k i : ready x c k -> 0 <= i < cf_num c ->
  0 <= aget 0 (cf_offset c) i < ERT_CQ_SIZE.
Proof.
  intros HR Hi. rewrite (rd_offset _ _ _ HR) by done. destruct (rd_queues _ _ _ HR) as ([F HM] & Hl & _).
  pose proof (length_cu_sizes b _ c (cn_rel _ _ _ (rd_connected _ _ _ HR))) as Hn.
  destruct (lookup_lt_is_Some_2 (cu_sizes c) (Z.to_nat i)) as [s Es]; [lia|].
  destruct (gm_sizes _ _ _ _ _ _ HM) as [HS _].
  assert (Forall (fun s => 0 <= s) (cu_sizes c)) as Hnn by (by apply slots_nonneg).
  destruct (group_at_bounds 0x800 (2 ^ Z.of_nat (fit_log (cu_sizes c) 7)) (cu_sizes c) (Z.to_nat i) s) as [B1 B2];
    [apply Z.pow_nonneg; lia|done|done|].
  assert (0 < len_sum (2 ^ Z.of_nat (fit_log (cu_sizes c) 7)) [s]).
  { cbn [len_sum foldr]. unfold sizeof_header, sizeof_com_entry.
    assert (0 < 2 ^ Z.of_nat (fit_log (cu_sizes c) 7)) as Hp by (apply Z.pow_pos_nonneg; lia).
    pose proof (Forall_lookup_1 _ _ _ _ Hnn Es) as Hs. cbn in Hs. nia. }
  unfold ERT_CQ_SIZE, cu_space in *. lia.
Qed.

(** One CU: the driver asks for its queue and attaches to it. *)
Lemma attach_one x c k junk domain info ptr ert : ready x c k -> kds_ert_ (xd_kds x) = Some ert ->
  0 <= k < cf_num c -> info_cu_idx info = k -> xe_xgq_alloc e k = (true, Some ptr) ->
  exists ans x1 x2 xx, xocl_kds_xgq_query_cu e x (info_cu_idx info) domain junk = Some (0, ans, x1) /\
    xocl_ert_ctrl_setup_xgq e x1 (resp_xgq_id ans) (resp_offset ans) = Some (inr (Some ptr), x2) /\
    ready x2 c (k + 1) /\ same_but_ert x x2 /\ fw_xgqs (fw x2) = fw_xgqs (fw x) /\
    eh_xgqs (xd_ert x2) = <[ptr := xx]> (eh_xgqs (xd_ert x)) /\ xx_id xx = k /\ xx_ref_cnt xx = 1 /\
    xq_sq (xx_xgq xx) = xq_sq (aget no_xgq (fw_xgqs (fw x)) k) /\ xq_cq (xx_xgq xx) = xq_cq (aget no_xgq (fw_xgqs (fw x)) k).
Proof.
  intros HR Hert Hk Ei Hal. pose proof (ready_offset_range x c k k HR Hk) as Hoff. unfold ERT_CQ_SIZE in *.
  destruct (fr_num _ _ _ (cn_rel _ _ _ (rd_connected _ _ _ HR))) as [_ Hnum].
  destruct (xgq_command_rpc x c _ junk _ ert (rd_connected _ _ _ HR) Hert (query_command k domain ltac:(lia))) as
    (ans & x1 & E1 & Hc1 & Hs1 & Hd1 & (ws & Hws & ->) & Hq1); [cbn; lia|]. cbn [spec fst] in Hc1.
  rewrite decide_False in Hq1 by done. destruct Hq1 as (Ho & Ex & Ech).
  cbn [spec_answer] in Hws. rewrite (rd_flat _ _ _ HR) in Hws. subst ws. rewrite Z.add_0_r in *. cbn [fmap list_fmap] in *.
  rewrite (rd_offset _ _ _ HR) in Hoff by done.
  destruct (same_but_ert_kds _ _ Hs1) as (K1 & K2 & K3 & K4 & K5 & K6).
  assert (queues_ready b c (fw x1) (mem x1)) as Hqr.
  { eapply (queues_ready_frame b c (fw x)); [apply HR| | |done|done].
    - destruct (cn_idle _ _ _ Hc1) as (p & q & [HL _]). apply HL.
    - intros a Ha. apply Ho. lia. }
  assert (eh_ec (xd_ert x1) = eh_ec (xd_ert x) <| ec_ctrl_xgq := ec_ctrl_xgq (eh_ec (xd_ert x1)) |> /\
          eh_xgqs (xd_ert x1) = eh_xgqs (xd_ert x)) as [Eec Exg] by (rewrite Hd1; by rproj).
  destruct (ready_attach c (fw x1) (mem x1) k (cn_rel _ _ _ Hc1) Hqr Hk) as (q & Ea & Esq & Ecq).
  destruct (setup_fresh (xe_csr e) (xd_ert x1) k (aget 0 (cf_offset c) k) ptr q)
    as (h2 & xx & E2 & D1 & D2 & D3 & D4 & D5 & D6 & D7 & D8 & D9 & D10).
  { rewrite Eec. by rproj; apply HR. }
  { rewrite Eec. rproj. apply HR. lia. }
  { lia. }
  { lia. }
  { rewrite Eec. rproj. rewrite (rd_base _ _ _ HR), (rd_offset _ _ _ HR) by done. by rewrite u64_small by lia. }
  exists [u32 0; u32 k; u32 (aget 0 (cf_offset c) k); u32 0], x1, (x1 <| xd_ert := h2 |>), xx. rproj.
  split; [rewrite Ei; exact E1|]. split.
  { unfold xocl_ert_ctrl_setup_xgq. rewrite K5, (rd_ctrl _ _ _ HR).
    assert (resp_xgq_id [u32 0; u32 k; u32 (aget 0 (cf_offset c) k); u32 0] = k) as ->.
    { unfold resp_xgq_id, field. cbn [nth]. rewrite Z.shiftr_0_r, Z.land_ones, u32_small, Z.mod_small by lia. done. }
    unfold resp_offset. cbn [nth]. rewrite (u32_small (aget _ _ _)) by (rewrite (rd_offset _ _ _ HR) by done; lia).
    rewrite Hal, E2. done. }
  split; [|split; [|split; [congruence|split; [congruence|split; [done|split; [done|]]]]]].
  - destruct HR as [R1 R2 R3 R4 R5 R6 R7 R8]. split; rproj; try done.
    + destruct Hc1 as [C1 (p & q0 & C2)]. split; [by rewrite D1|]. exists p, q0. by rewrite D1, D2, D3.
    + by rewrite D1, D2.
    + rewrite D5, Eec. by rproj.
    + intros i Hi. rewrite D6 by lia. rewrite Eec. rproj. apply R7. lia.
    + congruence.
  - unfold same_but_ert in *. rewrite Hs1. by rproj; destruct x.
  - rewrite D8, <- Ex. done.
Qed.

(** The addresses of the queue objects. *)
Context (ptr : Z -> Z) (Hinj : forall i j, ptr i = ptr j -> i = j).

(** The object at [ptr i] is the driver's end of the queue on which the firmware
    serves CU [i]; one user holds it. *)
Definition own_queue (x : dev) (f : firmware) (i : Z) : Prop :=
  exists xx, eh_xgqs (xd_ert x) !! ptr i = Some xx /\ xx_id xx = i /\ xx_ref_cnt xx = 1 /\
    xq_sq (xx_xgq xx) = xq_sq (aget no_xgq (fw_xgqs f) i) /\ xq_cq (xx_xgq xx) = xq_cq (aget no_xgq (fw_xgqs f) i).

(** CU [j] of the list with its queue. *)
Definition with_queue (k : Z) (j : nat) (info : xrt_cu_info) : cu_desc :=
  mk_cu_desc (info <| info_model := XCU_XGQ |>) (Some (ptr (k + Z.of_nat j))).

Lemma attach_all junk domain infos : forall x c k ert, ready x c k -> kds_ert_ (xd_kds x) = Some ert -> 0 <= k ->
  (forall j info, infos !! j = Some info -> info_cu_idx info = k + Z.of_nat j) -> k + Z.of_nat (length infos) <= cf_num c ->
  (forall i, xe_xgq_alloc e i = (true, Some (ptr i))) ->
  exists x', attach_queues e junk x domain infos = Some (0, imap (with_queue k) infos, x') /\
    ready x' c (k + Z.of_nat (length infos)) /\ same_but_ert x x' /\ fw_xgqs (fw x') = fw_xgqs (fw x) /\
    (forall i, k <= i < k + Z.of_nat (length infos) -> own_queue x' (fw x) i) /\
    (forall p, (forall i, k <= i -> p <> ptr i) -> eh_xgqs (xd_ert x') !! p = eh_xgqs (xd_ert x) !! p).
Proof.
  induction infos as [|info infos IH]; intros x c k ert HR Hert Hk Hidx Hlen Hal.
  { exists x. cbn [attach_queues imap length]. rewrite Z.add_0_r. split; [done|]. split; [done|].
    split; [by destruct x|]. split; [done|]. split; [intros i Hi; lia|done]. }
  cbn [length] in Hlen. rewrite Nat2Z.inj_succ, <- Z.add_1_r in Hlen.
  destruct (attach_one x c k junk domain info (ptr k) ert HR Hert) as (ans & x1 & x2 & xx & E1 & E2 & HR2 & Hs2 & Ef & Eh & O1 & O2 & O3 & O4);
    [lia|by rewrite (Hidx 0%nat info eq_refl), Z.add_0_r|apply Hal|].
  destruct (IH x2 c (k + 1) ert HR2) as (x' & E' & HR' & Hs' & Ef' & Hown & Hother);
    [by rewrite (proj1 (same_but_ert_kds _ _ Hs2))|lia| |lia|done|].
  { intros j i Ej. rewrite (Hidx (S j) i Ej). lia. }
  exists x'. cbn [attach_queues]. rewrite E1. cbn [mbind option_bind]. change (z2b 0) with false. cbv iota beta.
  rewrite E2. cbn [mbind option_bind]. rewrite E'. cbn [mbind option_bind length].
  rewrite Nat2Z.inj_succ, <- Z.add_1_r. split; [|split; [|split; [|split; [congruence|split]]]].
  - do 3 f_equal. rewrite imap_cons. f_equal; [unfold with_queue; by rewrite Z.add_0_r|].
    apply imap_ext. intros j i _. unfold with_queue. cbn. do 3 f_equal. lia.
  - by replace (k + (Z.of_nat (length infos) + 1)) with (k + 1 + Z.of_nat (length infos)) by lia.
  - by eapply same_but_ert_trans.
  - intros i Hi. destruct (decide (i = k)) as [->|Hne].
    + exists xx. split; [|done]. rewrite Hother, Eh; [apply lookup_insert_eq|]. intros j Hj E. apply Hinj in E. lia.
    + destruct (Hown i) as (xx' & Hx); [lia|]. exists xx'. by rewrite Ef in Hx.
  - intros p Hp. rewrite Hother, Eh by (intros i Hi; apply Hp; lia). apply lookup_insert_ne. by apply not_eq_sym, Hp.
Qed.

(** ** The whole update *)

(** A driver before the first xclbin. *)
Record driver_fresh (x : dev) (c : config) : Prop := {
  df_connected : connected b (xd_ert x) c;
  df_ert : exists ert, kds_ert_ (xd_kds x) = Some ert;
  df_ctrl : xd_has_ctrl x = true;
  df_base : ec_cq_base (eh_ec (xd_ert x)) = base;
  df_ips : ec_xgq_ips (eh_ec (xd_ert x)) = None;
  df_unset : forall i, 0 <= i < 32 -> aget None (ec_exgq (eh_ec (xd_ert x))) i = None;
  df_devices : xd_cus x = replicate 64 XOCL_SUBDEV_STATE_UNINIT;
}.

(** Up to 32 CUs that the firmware can serve and whose queues fit. *)
Record cus_fit (cus : list xrt_cu_info) : Prop := {
  cf_count : (1 <= length cus <= 32)%nat;
  cf_ok : Forall cu_ok cus;
  cf_index : forall j info, cus !! j = Some info -> info_cu_idx info = Z.of_nat j;
  cf_room : len_sum 2 (payload <$> cus) <= cu_space;
}.

(** The handler of a CU. *)
Lemma ready_handler x c k i : ready x c k -> 0 <= i < cf_num c -> exists xc, handler_at (fw x) i = Some xc /\
  xc_q xc = aget no_xgq (fw_xgqs (fw x)) i /\ cu_addr (xc_cu xc) = aget 0 (cf_addr c) i /\
  xc_cmd_running xc = 0 /\ cmd_is_valid (xc_cmd xc) = false.
Proof.
  intros HR Hi. destruct (rd_queues _ _ _ HR) as (_ & _ & Hh). destruct (Hh i Hi) as (Hb & Hr & Hv).
  pose proof (cn_rel _ _ _ (rd_connected _ _ _ HR)) as HF. destruct (fr_num _ _ _ HF) as [_ Hn].
  unfold handler_at. rewrite !aget_chk_in by (rewrite ?(fr_xgqs _ _ _ HF), ?(fr_cu_xgqs _ _ _ HF), ?(fr_sched_cus _ _ _ HF); lia).
  cbn [mbind option_bind]. rewrite Hb.
  cbn [mbind option_bind]. eexists. split; [reflexivity|]. cbn [xc_q xc_cu xc_cmd_running xc_cmd].
  rewrite <- (fr_addr _ _ _ HF), (aget_fmap cu_addr no_cu). done.
Qed.

(** Opening the configuration. *)
Lemma start_rpc x c cus ert : connected b (xd_ert x) c -> kds_ert_ (xd_kds x) = Some ert -> cus_fit cus ->
  exists x1 c1, xocl_kds_xgq_cfg_start e x (Z.of_nat (length cus)) 0 = Some (0, x1) /\ same_but_ert x x1 /\
    connected b (xd_ert x1) c1 /\ same_driver (xd_ert x) (xd_ert x1) /\ opened c1 (length cus).
Proof.
  intros Hc Hert [Hn Hok Hidx Hroom].
  destruct (config_start_command (Z.of_nat (length cus)) 0) as (f & Hcmd & Hf & B1 & B2); [lia|].
  destruct (xgq_command_rpc x c _ resp0 _ ert Hc Hert Hcmd) as (ans & x1 & E & Hc1 & Hs1 & Hd1 & _); [cbn [request_ok]; lia|].
  exists x1, (spec c (CfgStart f)).1. unfold xocl_kds_xgq_cfg_start. rewrite E. split_and!; try done.
  cbn [spec fst]. rewrite Hf, B1, B2. pose proof (cn_rel _ _ _ Hc) as HF. unfold opened. rproj. split_and!; [done| |..].
  - by replace (32 <? Z.of_nat (length cus)) with false by lia.
  - rewrite <- (fr_size _ _ _ HF). apply HF.
  - rewrite <- (fr_addr _ _ _ HF), length_fmap. apply HF.
Qed.

(** Describing the CUs and closing it. *)
Lemma describe_rpc x c uuid cus ert : connected b (xd_ert x) c -> kds_ert_ (xd_kds x) = Some ert -> length uuid = 16%nat ->
  cus_fit cus -> opened c (length cus) -> xd_has_ctrl x = true -> ec_cq_base (eh_ec (xd_ert x)) = base ->
  ec_xgq_ips (eh_ec (xd_ert x)) = None -> (forall i, 0 <= i < 32 -> aget None (ec_exgq (eh_ec (xd_ert x))) i = None) ->
  exists x1 x2 c2, xocl_kds_xgq_cfg_cus e x uuid (instances cus) = Some (0, x1) /\ same_but_ert x x1 /\
    xocl_kds_xgq_cfg_end e x1 = Some (0, x2) /\ same_but_ert x1 x2 /\ ready x2 c2 0 /\
    cf_num c2 = Z.of_nat (length cus) /\ forall j info, cus !! j = Some info -> cf_addr c2 !! j = Some (info_addr info).
Proof.
  intros Hc Hert Hu [Hn Hok Hidx Hroom] Hop Hctrl Hb Hips Hun.
  destruct (cfg_cus_rpc uuid (instances cus) Hu x c resp0 ert Hc Hert) as (x1 & E1 & Hc1 & Hs1 & Hd1).
  { apply Forall_lookup. intros j info E. unfold instances in E. rewrite list_lookup_imap in E.
    apply fmap_Some in E as (i & Ei & ->). exact (Forall_lookup_1 _ _ _ _ Hok Ei). }
  { apply Forall_lookup. intros j info E. unfold instances in E. rewrite list_lookup_imap in E.
    apply fmap_Some in E as (i & Ei & ->). apply lookup_lt_Some in Ei. cbn [info_inst_idx upd]. rproj. lia. }
  destruct (configured_closes c cus Hop Hn Hok Hroom) as (Hrq & Hmk & Hsz & Hnum & Haddr).
  set (c1 := configured c (instances cus)) in *. destruct (same_but_ert_kds _ _ Hs1) as (K1 & _ & _ & _ & K5 & _).
  destruct (xgq_command_rpc x1 c1 _ resp0 _ ert Hc1 ltac:(congruence) config_end_command Hrq)
    as (ans & x2 & E2 & Hc2 & Hs2 & Hd2 & _ & Hq). rewrite decide_True in Hq by done. specialize (Hq Hmk).
  pose proof Hop as (Hop1 & Hop2 & _).
  assert (forall i, 0 <= i < cf_num c1 -> aget 0 (cf_offset (spec c1 CfgEnd).1) i =
    group_at 0x800 (2 ^ Z.of_nat (fit_log (cu_sizes c1) 7)) (cu_sizes c1) (Z.to_nat i)) as Hoff.
  { intros i Hi. apply spec_offset; [done|]. rewrite Hsz, length_fmap. lia. }
  destruct (end_config c1 Hmk) as [off Ec]. rewrite Ec in Hc2, Hoff.
  exists x1, x2, (c1 <| cf_done := true |> <| cf_offset := off |>). unfold xocl_kds_xgq_cfg_cus, xocl_kds_xgq_cfg_end.
  rewrite E2. split_and!; try done.
  - destruct (same_but_ert_kds _ _ Hs2) as (_ & _ & _ & _ & K5' & _).
    pose proof (same_driver_trans _ _ _ Hd1 Hd2) as Hd.
    assert (eh_ec (xd_ert x2) = eh_ec (xd_ert x) <| ec_ctrl_xgq := ec_ctrl_xgq (eh_ec (xd_ert x2)) |>) as Eec by (rewrite Hd; by rproj).
    split; rproj; try done; try (rewrite Eec; by rproj).
    + destruct Hmk as (_ & Hfl & _). exact Hfl.
    + rewrite Eec. rproj. intros i Hi. apply Hun. lia.
    + congruence.
  - rproj. congruence.
Qed.

Lemma identify_rpc x c ert : connected b (xd_ert x) c -> kds_ert_ (xd_kds x) = Some ert ->
  exists x1, xocl_kds_xgq_identify e x = Some (0, 1, 0, x1) /\ connected b (xd_ert x1) c /\ same_but_ert x x1 /\
    same_driver (xd_ert x) (xd_ert x1).
Proof.
  intros Hc Hert. destruct (xgq_command_rpc x c _ resp0 _ ert Hc Hert identify_command I)
    as (ans & x1 & E & Hc1 & Hs1 & Hd1 & (ws & Hws & ->) & _).
  exists x1. unfold xocl_kds_xgq_identify. rewrite E. cbn [mbind option_bind]. change (z2b 0) with false. cbv iota beta.
  cbn [spec_answer] in Hws. subst ws. by split_and!.
Qed.

(** The devices of the CUs. *)
Lemma create_instances (Hprobe : forall d k, (xe_probe e d k).1 = 0) x cus : (length cus <= 64)%nat ->
  xd_cus x = replicate (length cus) XOCL_SUBDEV_STATE_INIT ++ replicate (64 - length cus) XOCL_SUBDEV_STATE_UNINIT ->
  let x' := xocl_kds_create_cus e x (imap (with_queue 0) (instances cus)) in
  xd_created x' = xd_created x ++ imap (with_queue 0) (instances cus) /\ xd_ert x' = xd_ert x.
Proof.
  intros Hl Et.
  assert (forall j d, imap (with_queue 0) (instances cus) !! j = Some d -> info_inst_idx (cd_info d) = Z.of_nat j /\ (j < length cus)%nat) as Hd.
  { intros j d E. unfold instances in E. rewrite !list_lookup_imap in E. apply fmap_Some in E as (i & E & ->).
    apply fmap_Some in E as (i0 & E & ->). split; [done|by eapply lookup_lt_Some]. }
  apply create_all; [done| | |].
  - apply NoDup_alt. intros j1 j2 z E1 E2. rewrite list_lookup_fmap in E1, E2.
    apply fmap_Some in E1 as (d1 & E1 & ->). apply fmap_Some in E2 as (d2 & E2 & E). cbn in E.
    destruct (Hd _ _ E1) as [Ez1 _], (Hd _ _ E2) as [Ez2 _]. lia.
  - rewrite Et, length_app, !length_replicate. lia.
  - apply Forall_lookup. intros j d E. destruct (Hd _ _ E) as [-> Hj]. split; [lia|].
    unfold aget. rewrite Nat2Z.id, Et, lookup_app_l by (rewrite length_replicate; lia).
    rewrite lookup_replicate_2 by done. done.
Qed.

Lemma reserve_instances (x : dev) cus : (length cus <= 64)%nat -> xd_cus x = replicate 64 XOCL_SUBDEV_STATE_UNINIT ->
  xocl_kds_reserve_cu_subdevices x cus = (instances cus, x <| xd_cus :=
    replicate (length cus) XOCL_SUBDEV_STATE_INIT ++ replicate (64 - length cus) XOCL_SUBDEV_STATE_UNINIT |>).
Proof.
  intros Hl Et. unfold xocl_kds_reserve_cu_subdevices. rewrite Et.
  change (replicate 64 XOCL_SUBDEV_STATE_UNINIT) with ([] ++ replicate 64 XOCL_SUBDEV_STATE_UNINIT).
  by rewrite (reserve_fresh _ cus [] 64 (Forall_nil_2 _) Hl).
Qed.

(** Driver and firmware agree on CU [j]: the [n]-th device created has a queue
    object whose rings are those of the firmware's handler [j], and the handler
    drives the registers of the CU and has no command. *)
Definition cu_linked (x : dev) (n j : nat) (info : xrt_cu_info) : Prop := exists xx xc,
  xd_created x !! n =
    Some (mk_cu_desc (info <| info_inst_idx := Z.of_nat j |> <| info_model := XCU_XGQ |>) (Some (ptr (Z.of_nat j)))) /\
  eh_xgqs (xd_ert x) !! ptr (Z.of_nat j) = Some xx /\ xx_ref_cnt xx = 1 /\
  handler_at (fw x) (Z.of_nat j) = Some xc /\
  xq_sq (xx_xgq xx) = xq_sq (xc_q xc) /\ xq_cq (xx_xgq xx) = xq_cq (xc_q xc) /\
  cu_addr (xc_cu xc) = info_addr info /\ xc_cmd_running xc = 0 /\ cmd_is_valid (xc_cmd xc) = false.

Lemma created_linked x x' c l cus : ready x c (Z.of_nat (length cus)) -> cf_num c = Z.of_nat (length cus) ->
  (forall j info, cus !! j = Some info -> cf_addr c !! j = Some (info_addr info)) ->
  (forall i, 0 <= i < Z.of_nat (length cus) -> own_queue x (fw x) i) -> xd_ert x' = xd_ert x ->
  xd_created x' = l ++ imap (with_queue 0) (instances cus) ->
  forall j info, cus !! j = Some info -> cu_linked x' (length l + j) j info.
Proof.
  intros HR Hn Ha Hown Eert Ecr j info Ej. pose proof (lookup_lt_Some _ _ _ Ej) as Hj.
  destruct (Hown (Z.of_nat j)) as (xx & O1 & O2 & O3 & O4 & O5); [lia|].
  destruct (ready_handler x c _ (Z.of_nat j) HR) as (xc & X1 & X2 & X3 & X4 & X5); [lia|].
  exists xx, xc. rewrite Eert, Ecr. split.
  { rewrite lookup_app_r by lia. replace (length l + j - length l)%nat with j by lia.
    unfold instances. rewrite !list_lookup_imap, Ej. done. }
  split; [done|]. split; [done|]. split; [done|]. rewrite X2. split; [done|]. split; [done|]. split; [|done].
  rewrite X3. unfold aget. rewrite Nat2Z.id. by rewrite (Ha j info Ej).
Qed.


(** The driver does not see that a configuration has failed: when the
    firmware refuses to close it, for instance because the queues do not fit, the
    return code of its answer says so, but [xocl_kds_xgq_cfg_end] looks at the
    state of the answer only and returns 0, with the configuration still open. *)
Theorem xocl_kds_xgq_cfg_end_misses_failure (x : dev) c ert : connected b (xd_ert x) c -> kds_ert_ (xd_kds x) = Some ert ->
  request_ok c CfgEnd -> (spec c CfgEnd).2 <> 0 -> cf_done c = false ->
  exists x', xocl_kds_xgq_cfg_end e x = Some (0, x') /\ connected b (xd_ert x') c /\ fw_cfg_complete (fw x') = false.
Proof.
  intros Hc Hert Hok Hf Hd. destruct (xgq_command_rpc x c _ resp0 _ ert Hc Hert config_end_command Hok) as (ans & x1 & E & Hc1 & _).
  assert ((spec c CfgEnd).1 = c) as Ec.
  { cbn [spec] in *. unfold spec_cfg_end in *. destruct (_ || _); [done|]. destruct (existsb _ _); [done|]. by destruct (_ <? _). }
  rewrite Ec in Hc1. exists x1. unfold xocl_kds_xgq_cfg_end. rewrite E. split; [done|]. split; [done|].
  by rewrite (fr_done _ _ _ (cn_rel _ _ _ Hc1)).
Qed.
End Update.

(** ** A board with two CUs *)

Definition demo_no_cus : kds_cu_mgmt :=
  mk_cu_mgmt (replicate MAX_CUS None) 0 0 (replicate MAX_CUS 0) (replicate MAX_CUS 0) (replicate MAX_CUS 0) false.
Definition demo_host_kds : kds_sched unit :=
  mk_kds_sched ∅ [] 0 false demo_no_cus demo_no_cus None false 0 (mk_cmdmem false 0 0 0 0)
    false true false 0 false false [] 0 0 0.
Definition demo_ert_ctrl : ert_ctrl := mk_ert_ctrl 0x190000 0 false no_xgq None [] 0 0 0 0 0 0 0 0 0 0 0.
Definition demo_ert_host : ert_host (firmware * gmap Z Z) :=
  mk_ert_host (demo_start.1, ∅) demo_start.2 0 demo_ert_ctrl ∅ [].
Definition demo_host_env (ks : list nat) : @host_env (firmware * gmap Z Z) :=
  mk_host_env (fw_sleep demo_ert demo_ctrl_env <$> ks) (fun _ m => m) (fun _ s => s) (fun _ m => m).
Definition demo_kernel : kernel_info := mk_kernel_info 0x1000 0 [mk_xrt_cu_arg [] 16 8 1].
Definition demo_xocl_env : xocl_env unit (firmware * gmap Z Z) :=
  mk_xocl_env unit _ (fun _ => (true, true)) (fun _ => 0) (fun _ => 0) (fun _ => demo_host_env [0; 1]%nat) (fun _ k c => (k, c))
    (true, true) (fun _ _ => Some demo_kernel) (fun i => (true, Some (0x1000 + i))) 0 (fun _ k => (0, k)) 0.
Definition demo_layout : list ip_data := [demo_ip 1 0 0x20000; demo_ip 1 0 0x10000].
Definition demo_xocl_dev (h : ert_host (firmware * gmap Z Z)) : xocl_dev unit (firmware * gmap Z Z) :=
  mk_xocl_dev (kds_init_ert demo_host_kds (mk_kds_ert true)).2 (mk_client 0 0 None [] [] 0 None) h true
    (replicate 64 XOCL_SUBDEV_STATE_UNINIT) (replicate 64 XOCL_SUBDEV_STATE_UNINIT) [] false (mk_mem_data 0 0 false) 0.

Definition demo_cus : list xrt_cu_info :=
  default [] (xocl_kds_fill_cu_info demo_xocl_env 0 (Some demo_layout)).

Lemma demo_cus_ok : xocl_kds_fill_cu_info demo_xocl_env 0 (Some demo_layout) = Some demo_cus /\
  xocl_kds_fill_scu_info demo_xocl_env 0 (Some demo_layout) = Some [] /\ info_addr <$> demo_cus = [0x10000; 0x20000] /\
  info_cu_idx <$> demo_cus = [0; 1] /\ (cu_payload_size <$> demo_cus) = [inr 64; inr 64] /\
  info_protocol <$> demo_cus = [0; 0].
Proof. vm_compute. split_and!; reflexivity. Qed.

#[local] Opaque demo_start demo_cus.

Lemma demo_cus_fit : cus_fit demo_cus.
Proof.
  destruct demo_cus_ok as (_ & _ & Ha & Hi & Hp & Hpr).
  assert (forall {A} (f : xrt_cu_info -> A) j info v, demo_cus !! j = Some info -> (f <$> demo_cus) !! j = Some v -> f info = v) as Hget.
  { intros A f j info v Ej E. rewrite list_lookup_fmap, Ej in E. by injection E. }
  assert (length demo_cus = 2%nat) as Hl by (by rewrite <- (length_fmap info_addr), Ha).
  assert (forall j info, demo_cus !! j = Some info -> j = 0%nat \/ j = 1%nat) as Hj
    by (intros j info Ej%lookup_lt_Some; lia).
  split.
  - lia.
  - apply Forall_lookup. intros j info Ej. unfold cu_ok. unfold CTRL_NONE.
    destruct (Hj _ _ Ej) as [-> | ->]; rewrite (Hget _ info_protocol _ _ 0 Ej) by (by rewrite Hpr);
      rewrite (Hget _ cu_payload_size _ _ (inr 64) Ej) by (by rewrite Hp);
      [rewrite (Hget _ info_addr _ _ 0x10000 Ej) by (by rewrite Ha)|rewrite (Hget _ info_addr _ _ 0x20000 Ej) by (by rewrite Ha)];
      (split; [done|split; [by exists 64|lia]]).
  - intros j info Ej. destruct (Hj _ _ Ej) as [-> | ->]; by apply (Hget _ info_cu_idx _ _ _ Ej); rewrite Hi.
  - assert (payload <$> demo_cus = [64; 64]) as ->; [|by vm_compute].
    transitivity ((fun r : Z + Z => match r with inr s => s | inl _ => 0 end) <$> (cu_payload_size <$> demo_cus)).
    + by rewrite <- list_fmap_compose.
    + by rewrite Hp.
Qed.

Lemma demo_awake n : awake demo_ert demo_ctrl_env (xe_host demo_xocl_env n).
Proof. exists [0; 1]%nat. split; [reflexivity|]. apply Exists_cons_tl, Exists_cons_hd, Nat.lt_0_succ. Qed.

Lemma demo_csr_out : ERT_HOST_INTERRUPT_ENABLE_ADDR demo_ert < ERT_CQ_BASE_ADDR demo_ert \/
  ERT_CQ_BASE_ADDR demo_ert + ERT_CQ_SIZE <= ERT_HOST_INTERRUPT_ENABLE_ADDR demo_ert.
Proof. by left. Qed.


(** Eight CUs with the largest slots do not fit. *)
Definition demo_large : list Z := replicate 8 4096 ++ replicate 24 0.

Lemma xocl_kds_xgq_cfg_end_misses_failure_witness : exists h c x', connected demo_ert h c /\ (spec c CfgEnd).2 = - E2BIG /\
  xocl_kds_xgq_cfg_end demo_xocl_env (demo_xocl_dev h) = Some (0, x') /\ fw_cfg_complete (eh_dev (xd_ert x')).1 = false.
Proof.
  destruct demo_fw_start_ok as (Es & _).
  destruct (connect_ok demo_ert demo_board 0 demo_ert_host demo_host_kds ∅ demo_start.1 ∅ words_ok_empty) as (q & _ & [HR Hi]);
    [rewrite Es; f_equal; by destruct demo_start|done..|].
  set (h := demo_ert_host <| eh_ec := _ |>) in *.
  set (c := config0 <| cf_num := 8 |> <| cf_size := demo_large |>).
  set (h2 := h <| eh_dev := (demo_start.1 <| fw_num_cus := 8 |> <| fw_cu_slot_sizes := demo_large |>, ∅) |>).
  assert (connected demo_ert h2 c) as Hc.
  { split; [|exact Hi]. destruct HR as [_ R1 R2 R3 _ R4 R5 R6 _ R7 R8 _ R9].
    apply Build_fw_rel; [|exact R1|exact R2|exact R3|reflexivity|exact R4|exact R5|exact R6|reflexivity|exact R7|
      exact R8|discriminate|exact R9]. split; [reflexivity|]. cbn. lia. }
  assert ((spec c CfgEnd).2 = - E2BIG) as Ef by (vm_compute; reflexivity).
  assert (request_ok c CfgEnd) as Hok.
  { intros _. change (take _ _) with (replicate 8 4096). apply Forall_replicate. lia. }
  destruct (xocl_kds_xgq_cfg_end_misses_failure demo_ert demo_ctrl_env demo_xocl_env demo_board demo_csr_out demo_env_words
    (fun _ => eq_refl) demo_awake (demo_xocl_dev h2) c (mk_kds_ert true) Hc eq_refl Hok
    ltac:(rewrite Ef; discriminate) eq_refl) as (x' & E & _ & Hd).
  exists h2, c, x'. split; [exact Hc|]. split; [exact Ef|]. split; [exact E|exact Hd].
Defined.

(** An answer that comes after the timeout is taken for the answer to the next
    command: here the driver asks for the version, gives up before the firmware
    has looked, and then gets the version as the answer to its next command. *)
Definition demo_late : option (list Z) :=
  c ← ert_ctrl_connect 0 demo_ert_host demo_host_kds;
  r1 ← __ert_ctrl_submit (demo_host_env [0]%nat) c.1.2 xgq_cmd_identify;
  r2 ← __ert_ctrl_submit (demo_host_env [1]%nat) r1.2 xgq_cmd_config_end;
  if (r1.1.1 =? - ETIMEDOUT) && (r2.1.1 =? 0) then r2.1.2 else None.

Example late_answer_taken : demo_late = Some [0; 2 ^ 16; 0; 0] /\
  ~ spec_answer config0 CfgEnd 0 false [0; 2 ^ 16; 0; 0].
Proof. split; [vm_compute; reflexivity|cbn; discriminate]. Qed.

