(* ===== verification/XoclExec.v ===== *)
(** * Command buffers of the xocl driver

    The execbuf half of [xocl/userpf/xocl_kds.c]: a command buffer is looked up,
    copied, validated and turned into a KDS command ([xocl_command_ioctl]), and
    when the command is done its state and time stamps are written back to the
    buffer of the user ([notify_execbuf], [notify_execbuf_xgq]).

    Buffer objects live in a heap by address and are designated by handles; an
    object counts the references the driver holds.  An exec buffer is a packet
    (its header word and the words after it).  [io_cmds] has what a command
    refers to besides the fields of [kds_command], by the address of the command:
    the kernel copy of the packet, the buffer object, the callback.  [None] as a
    result is an access outside a buffer or an array, or through a bad
    pointer. *)
From S2P Require Import Prelude KdsCommand CuInfo CuCore XrtCu KdsHwctx KdsSched.

(** ** Packets ([ert.h]) *)

Definition ert_state_num (s : ert_cmd_state) : Z :=
  match s with
  | ERT_CMD_STATE_NEW => 1 | ERT_CMD_STATE_QUEUED => 2 | ERT_CMD_STATE_RUNNING => 3
  | ERT_CMD_STATE_COMPLETED => 4 | ERT_CMD_STATE_ERROR => 5 | ERT_CMD_STATE_ABORT => 6
  | ERT_CMD_STATE_SUBMITTED => 7 | ERT_CMD_STATE_TIMEOUT => 8 | ERT_CMD_STATE_NORESPONSE => 9
  | ERT_CMD_STATE_SKERROR => 10 | ERT_CMD_STATE_SKCRASHED => 11 | ERT_CMD_STATE_MAX => 12
  end.

Definition set_ert_state (v : Z) (p : ert_packet) : ert_packet :=
  p <| ert_header ::= fun h => set_field h 0 4 v |>.
Definition set_ert_count (v : Z) (p : ert_packet) : ert_packet :=
  p <| ert_header ::= fun h => set_field h 12 11 v |>.
Definition set_ert_opcode (v : Z) (p : ert_packet) : ert_packet :=
  p <| ert_header ::= fun h => set_field h 23 5 v |>.
Definition set_ert_extra (v : Z) (p : ert_packet) : ert_packet :=
  p <| ert_header ::= fun h => set_field h 10 2 v |>.

(** The time stamps follow the payload, on the next multiple of eight bytes. *)
Definition ert_start_kernel_timestamps (p : ert_packet) : Z := (ert_count p * 4 + 4 + 7) / 8 * 8.
Definition sizeof_timestamps : Z := 96.

Definition get_size_with_timestamps_or_zero (p : ert_packet) : Z :=
  let op := ert_opcode p in
  if (op =? ERT_START_CU) || (op =? ERT_EXEC_WRITE) || (op =? ERT_START_FA) || (op =? ERT_SK_START)
  then if z2b (ert_stat_enabled p) then ert_start_kernel_timestamps p + sizeof_timestamps else 0
  else 0.

(** Store [v], of 64 bits, at byte [off] of the packet, a multiple of eight. *)
Definition put_u64 (p : ert_packet) (off v : Z) : option ert_packet :=
  ws ← aset_chk (ert_words p) (off / 4 - 1) (u32 v);
  ws ← aset_chk ws (off / 4) (u32 (Z.shiftr v 32));
  Some (p <| ert_words := ws |>).

Definition ert_write_return_code (p : ert_packet) (value : Z) : option ert_packet :=
  let end_idx := ert_count p - 1 - ert_extra_cu_masks p in
  ws ← aset_chk (ert_words p) (kecmd_data_off + end_idx) (u32 value);
  Some (p <| ert_words := ws |>).

Definition KDMA_BLOCK_SIZE : Z := 64.
Definition ERT_DEFAULT : Z := 0.

(** Words of [ert_start_copybo_cmd] after the header. *)
Definition copybo_src_addr_lo : Z := 8.
Definition copybo_src_bo_hdl : Z := 10.
Definition copybo_dst_addr_lo : Z := 11.
Definition copybo_dst_bo_hdl : Z := 13.
Definition copybo_size : Z := 14.
Definition copybo_arg : Z := 17.

Definition ert_copybo_offset (p : ert_packet) (lo : Z) : Z :=
  Z.lor (Z.shiftl (aget 0 (ert_words p) (lo + 1)) 32) (aget 0 (ert_words p) lo).
Definition ert_copybo_size (p : ert_packet) : Z := aget 0 (ert_words p) copybo_size.

(** [ws] with each pair of an index and a value stored. *)
Definition put_all (ws : list Z) (vs : list (Z * Z)) : option (list Z) :=
  foldl (fun ws v => ws ← ws; aset_chk ws v.1 v.2) (Some ws) vs.

Definition ert_fill_copybo_cmd (p : ert_packet) (src_bo dst_bo src_offset dst_offset size : Z) : option ert_packet :=
  ws ← put_all (ert_words p) ([(0, 0); (1, 0); (2, 0); (3, 0);
    (copybo_src_addr_lo, u32 src_offset); (copybo_src_addr_lo + 1, u32 (Z.shiftr src_offset 32)); (copybo_src_bo_hdl, src_bo);
    (copybo_dst_addr_lo, u32 dst_offset); (copybo_dst_addr_lo + 1, u32 (Z.shiftr dst_offset 32)); (copybo_dst_bo_hdl, dst_bo);
    (copybo_size, u32 size); (copybo_size + 1, 0); (copybo_arg, 0); (copybo_arg + 1, 0)]);
  Some (set_ert_type ERT_DEFAULT (set_ert_opcode ERT_START_COPYBO (set_ert_count 16 (set_ert_extra 3
         (set_ert_state (ert_state_num ERT_CMD_STATE_NEW) (p <| ert_words := ws |>)))))).

(** ** State *)

(** [bo_mm]: the device address of a buffer in the memory of the board;
    [bo_refs]: the references the driver holds. *)
Record drm_xocl_bo := mk_bo {
  bo_size : Z;
  bo_exec : bool;
  bo_mm : option Z;
  bo_refs : Z;
  bo_pkt : ert_packet;
}.
#[export] Instance eta_bo : Eta drm_xocl_bo := fun b => mk_bo (bo_size b) (bo_exec b) (bo_mm b) (bo_refs b) (bo_pkt b).

(** [cp_xgq]: whether the command calls back [notify_execbuf_xgq] or
    [notify_execbuf]; [cp_cb]: the data of the callback of a caller in the
    kernel. *)
Record cmd_priv := mk_cmd_priv {
  cp_execbuf : ert_packet;
  cp_obj : Z;
  cp_xgq : bool;
  cp_cb : option Z;
}.
#[export] Instance eta_cmd_priv : Eta cmd_priv := fun p =>
  mk_cmd_priv (cp_execbuf p) (cp_obj p) (cp_xgq p) (cp_cb p).

(** The state of an open file and its device: [io_event] is [client->event],
    [io_called] the calls of in-kernel callbacks (data and error), [io_ert] the
    commands handed to the remote scheduler, [io_slot_size] its slot size. *)
Record xocl_io (C : Type) := mk_io {
  io_kds : kds_sched C;
  io_client : kds_client;
  io_event : Z;
  io_handles : gmap Z Z;
  io_objs : gmap Z drm_xocl_bo;
  io_cmds : gmap Z cmd_priv;
  io_called : list (Z * Z);
  io_ert : list kds_command;
  io_slot_size : Z;
}.
Arguments mk_io {C}. Arguments io_kds {C}. Arguments io_client {C}. Arguments io_event {C}.
Arguments io_handles {C}. Arguments io_objs {C}. Arguments io_cmds {C}. Arguments io_called {C}.
Arguments io_ert {C}. Arguments io_slot_size {C}.
#[export] Instance eta_io C : Eta (xocl_io C) := fun s =>
  mk_io (io_kds s) (io_client s) (io_event s) (io_handles s) (io_objs s) (io_cmds s) (io_called s)
    (io_ert s) (io_slot_size s).

(** What happens around a call: allocations (of the command, of the packet copy
    and of the in-kernel callback), the address of the new command, the clock,
    the other threads, the result of a peer to peer copy. *)
Record io_env (C : Type) := mk_io_env {
  ie_alloc : bool * bool;
  ie_ecmd_alloc : bool;
  ie_cb_alloc : bool;
  ie_id : Z;
  ie_now : Z;
  ie_answer : Z -> kds_sched C -> kds_command -> kds_sched C * kds_command;
  ie_closes : list (kds_client -> kds_client);
  ie_copy_import : Z;
  ie_ps_sched : bool;
}.
Arguments ie_alloc {C}. Arguments ie_ecmd_alloc {C}. Arguments ie_cb_alloc {C}. Arguments ie_id {C}. Arguments ie_now {C}.
Arguments ie_answer {C}. Arguments ie_closes {C}. Arguments ie_copy_import {C}. Arguments ie_ps_sched {C}.

Section Exec.
Context {C : Type} (env : io_env C).
#[local] Abbreviation io := (xocl_io C).

(** [xocl_gem_object_lookup] takes a reference. *)
Definition gem_lookup (s : io) (handle : Z) : option (Z * drm_xocl_bo * io) :=
  a ← io_handles s !! handle;
  b ← io_objs s !! a;
  let b := b <| bo_refs ::= fun n => n + 1 |> in
  Some (a, b, s <| io_objs ::= insert a b |>).

Definition gem_put (s : io) (a : Z) : io :=
  s <| io_objs ::= alter (fun b => b <| bo_refs ::= fun n => n - 1 |>) a |>.

Definition get_bo_paddr (s : io) (bo_hdl off size : Z) : Z + Z :=
  match io_handles s !! bo_hdl ≫= fun a => io_objs s !! a with
  | None => inl (- ENOENT)
  | Some xobj =>
      match bo_mm xobj with
      | None => inl (- EADDRNOTAVAIL)
      | Some start =>
          if (bo_size xobj <=? off) || (bo_size xobj <? u64 (off + size)) then inl (- EINVAL)
          else inr (u64 (start + off))
      end
  end.

Definition set_cu_mask (ws : list Z) (i : Z) : option (list Z) :=
  w ← aget_chk 0 ws (i / 32); aset_chk ws (i / 32) (Z.lor w (Z.shiftl 1 (i mod 32))).

(** Result: 1 after a peer to peer copy, 0 when a CU is to do the copy. *)
Definition copybo_ecmd2xcmd (s : io) (ecmd : ert_packet) (xcmd : kds_command)
  : option (Z * ert_packet * kds_command) :=
  let m := kds_cu_mgmt_ (io_kds s) in
  let sz := ert_copybo_size ecmd in
  let word i := aget 0 (ert_words ecmd) i in
  let src_off := ert_copybo_offset ecmd copybo_src_addr_lo in
  let dst_off := ert_copybo_offset ecmd copybo_dst_addr_lo in
  match get_bo_paddr s (word copybo_src_bo_hdl) src_off sz, get_bo_paddr s (word copybo_dst_bo_hdl) dst_off sz with
  | inl e, r =>
      if negb (e =? - EADDRNOTAVAIL) then Some (e, ecmd, xcmd)
      else match r with
           | inl e => if negb (e =? - EADDRNOTAVAIL) then Some (e, ecmd, xcmd) else Some (- EINVAL, ecmd, xcmd)
           | inr _ => Some (if ie_copy_import env <? 0 then ie_copy_import env else 1, ecmd, xcmd)
           end
  | inr _, inl e =>
      if negb (e =? - EADDRNOTAVAIL) then Some (e, ecmd, xcmd)
      else Some (if ie_copy_import env <? 0 then ie_copy_import env else 1, ecmd, xcmd)
  | inr src_addr, inr dst_addr =>
      if m_num_cdma m =? 0 then Some (- EINVAL, ecmd, xcmd)
      else if z2b (u64 (dst_addr + dst_off) mod KDMA_BLOCK_SIZE) || z2b (u64 (src_addr + src_off) mod KDMA_BLOCK_SIZE)
              || z2b (sz mod KDMA_BLOCK_SIZE) then Some (- EINVAL, ecmd, xcmd)
      else
        ecmd ← ert_fill_copybo_cmd ecmd 0 0 src_addr dst_addr (sz / KDMA_BLOCK_SIZE);
        ws ← foldl (fun ws i => ws ← ws; set_cu_mask ws i) (Some (ert_words ecmd))
               (seqZ (m_num_cus m - m_num_cdma m) (m_num_cdma m));
        let ecmd := set_ert_type ERT_CU (set_ert_opcode ERT_START_CU (ecmd <| ert_words := ws |>)) in
        r ← start_krnl_ecmd2xcmd (ie_now env) ecmd xcmd;
        Some (0, r.1, r.2)
  end.

Definition sk_ecmd2xcmd (s : io) (ecmd : ert_packet) (xcmd : kds_command) : option (Z * ert_packet * kds_command) :=
  if kds_ert_disable (io_kds s) then Some (- EINVAL, ecmd, xcmd)
  else if ert_opcode ecmd =? ERT_SK_START then
    r ← start_skrnl_ecmd2xcmd (ie_now env) ecmd xcmd; Some (0, r.1, r.2)
  else Some (0, set_ert_type ERT_CTRL ecmd, xcmd <| xcmd_opcode := OP_CONFIG_SK |>).

(** ** Notification *)

(** [client_stat_inc] on an index that may be outside the array. *)
Definition stat_inc_chk (c : kds_client) (hw_ctx : Z) (f : stat_field) (i : Z) : option kds_client :=
  if existsb (fun h => (hw_ctx_idx h =? hw_ctx) && negb (in_arr (stat_get f (hw_stats h)) i)) (cl_hw_ctx_list c) then None
  else Some (client_stat_inc c hw_ctx f i).

Definition read_ert_stat (kds : kds_sched C) (p : ert_packet) : option (kds_sched C) :=
  let data i := aget_chk 0 (ert_words p) i in
  d0 ← data 0;
  if negb (d0 =? 0x51a10000) then Some kds
  else
    let num_cu := m_num_cus (kds_cu_mgmt_ kds) in
    let num_scu := m_num_cus (kds_scu_mgmt kds) in
    usage ← foldl (fun u i => u ← u; v ← data (4 + num_cu + i); aset_chk u i v)
              (Some (m_usage (kds_scu_mgmt kds))) (seqZ 0 num_scu);
    let kds := kds <| kds_scu_mgmt ::= fun m => m <| m_usage := usage |> |> in
    let off_idx := 4 + num_cu + (num_scu + num_cu) in
    foldl (fun k i =>
      k ← k;
      v ← data (off_idx + i);
      p ← aget_chk None (m_xcus (kds_scu_mgmt k)) i;
      p ← p;
      xcu ← kds_heap k !! p;
      let status := if v =? 1 then CU_AP_START else if v =? 0 then CU_AP_IDLE
                    else if s32 v =? -1 then CU_AP_CRASHED else 0 in
      Some (k <| kds_heap ::= insert p (xcu <| cu_status := status |>) |>)) (Some kds) (seqZ 0 num_scu).

(** The time stamps; the last one is stored under the state in the packet. *)
Definition write_timestamps (xcmd : kds_command) (status : kds_status) (p : ert_packet) : option ert_packet :=
  if negb (xcmd_timestamp_enabled xcmd) then Some p
  else
    let ts := ert_start_kernel_timestamps p in
    let stamp s := aget 0 (xcmd_timestamp xcmd) (status_ix s) in
    p ← put_u64 p (ts + 8 * ert_state_num ERT_CMD_STATE_NEW) (stamp KDS_NEW);
    p ← put_u64 p (ts + 8 * ert_state_num ERT_CMD_STATE_QUEUED) (stamp KDS_QUEUED);
    p ← put_u64 p (ts + 8 * ert_state_num ERT_CMD_STATE_RUNNING) (stamp KDS_RUNNING);
    put_u64 p (ts + 8 * ert_state p) (stamp status).

(** The end both callbacks share: the buffer is let go and the caller told. *)
Definition notify_done (s : io) (p : cmd_priv) (status : kds_status) : io :=
  match cp_cb p with
  | Some data => s <| io_called ::= fun l => l ++ [(data, if bool_decide (status = KDS_COMPLETED) then 0 else - EFAULT)] |>
  | None => s <| io_event ::= fun n => n + 1 |>
  end.

Definition put_pkt (s : io) (a : Z) (pkt : ert_packet) : io :=
  s <| io_objs ::= alter (fun b => b <| bo_pkt := pkt |>) a |>.

Definition notify_execbuf (s : io) (xcmd : kds_command) (status : kds_status) : option io :=
  p ← io_cmds s !! xcmd_id xcmd;
  obj ← io_objs s !! cp_obj p;
  let ecmd := bo_pkt obj in
  r ← (if bool_decide (xcmd_opcode xcmd = OP_START_SK) then
         if ert_state ecmd <? ert_state_num ERT_CMD_STATE_COMPLETED
         then e ← ert_write_return_code ecmd (- ENODATA); Some (io_kds s, e)
         else Some (io_kds s, ecmd)
       else
         k ← (if bool_decide (xcmd_opcode xcmd = OP_GET_STAT) then read_ert_stat (io_kds s) ecmd else Some (io_kds s));
         Some (k, set_ert_state (ert_state_num (kds_ert_table status)) ecmd));
  ecmd ← write_timestamps xcmd status r.2;
  let s := gem_put (put_pkt (s <| io_kds := r.1 |>) (cp_obj p) ecmd) (cp_obj p) in
  c ← (if 0 <=? xcmd_cu_idx xcmd then stat_inc_chk (io_client s) (xcmd_hw_ctx_id xcmd) C_CNT (xcmd_cu_idx xcmd)
       else Some (io_client s));
  Some (notify_done (s <| io_client := c |>) p status).

Definition notify_execbuf_xgq (s : io) (xcmd : kds_command) (status : kds_status) : option io :=
  p ← io_cmds s !! xcmd_id xcmd;
  obj ← io_objs s !! cp_obj p;
  let ecmd := bo_pkt obj in
  k ← (if bool_decide (xcmd_opcode xcmd = OP_GET_STAT) then read_ert_stat (io_kds s) ecmd else Some (io_kds s));
  r ← (if bool_decide (xcmd_opcode xcmd = OP_START_SK) then
         e ← ert_write_return_code ecmd (xcmd_rcode xcmd);
         c ← stat_inc_chk (io_client s) (xcmd_hw_ctx_id xcmd) SCU_C_CNT (xcmd_cu_idx xcmd);
         Some (e, c)
       else Some (ecmd, io_client s));
  ecmd ← write_timestamps xcmd status (set_ert_state (ert_state_num (kds_ert_table status)) r.1);
  let s := gem_put (put_pkt (s <| io_kds := k |>) (cp_obj p) ecmd) (cp_obj p) in
  c ← (if bool_decide (xcmd_opcode xcmd = OP_START)
       then stat_inc_chk r.2 (xcmd_hw_ctx_id xcmd) C_CNT (xcmd_cu_idx xcmd) else Some r.2);
  Some (notify_done (s <| io_client := c |>) p status).

(** [xcmd->cb.notify_host] *)
Definition notify_host (s : io) (xcmd : kds_command) (status : kds_status) : option io :=
  p ← io_cmds s !! xcmd_id xcmd;
  if cp_xgq p then notify_execbuf_xgq s xcmd status else notify_execbuf s xcmd status.

(** ** From the buffer to the command *)

(** Whether the packet is accepted, the buffer with its state reset, and the
    copy; the copy has the size of the buffer and the rest of it is zero. *)
Definition copy_and_validate_execbuf (s : io) (xobj : drm_xocl_bo) : bool * drm_xocl_bo * ert_packet :=
  let orig := set_ert_state (ert_state_num ERT_CMD_STATE_NEW) (bo_pkt xobj) in
  let xobj := xobj <| bo_pkt := orig |> in
  let count := Z.to_nat (ert_count orig) in
  let zero := mk_ert_packet (ert_header orig) (replicate (Z.to_nat (bo_size xobj / 4 - 1)) 0) in
  let pkg_size := 4 + ert_count orig * 4 in
  if bo_size xobj <? pkg_size then (false, xobj, zero)
  else
    let ecmd := zero <| ert_words ::= fun z => take count (ert_words orig) ++ drop count z |> in
    (if negb (ert_valid_opcode ecmd) then false
     else if bo_size xobj <? get_size_with_timestamps_or_zero ecmd then false
     else if kds_xgq_enable (io_kds s) then true
     else match kds_ert_ (io_kds s) with
          | Some _ => negb ((0 <? io_slot_size s) && (io_slot_size s <? pkg_size))
          | None => true
          end, xobj, ecmd).

(** [data[i] = data[i + 6]] for [n] words from [i] on. *)
Fixpoint shift_words (ws : list Z) (i : Z) (n : nat) : option (list Z) :=
  match n with
  | O => Some ws
  | S n => w ← aget_chk 0 ws (kecmd_data_off + i + 6); ws ← aset_chk ws (kecmd_data_off + i) w; shift_words ws (i + 1) n
  end.

Definition convert_exec_write2key_val (ecmd : ert_packet) : option ert_packet :=
  let end_ := ert_count ecmd - 7 in
  ws ← shift_words (ert_words ecmd) (ert_extra_cu_masks ecmd) (Z.to_nat (end_ - ert_extra_cu_masks ecmd));
  Some (set_ert_count (ert_count ecmd - 6) (ecmd <| ert_words := ws |>)).

(** The part the start commands share. *)
Definition fill_start (type : Z) (op : kds_opcode) (convert : list Z -> ert_packet -> option (list Z * Z))
  (ecmd : ert_packet) (xcmd : kds_command) : option kds_command :=
  let xcmd := if z2b (ert_stat_enabled ecmd) then xcmd <| xcmd_timestamp_enabled := true |> else xcmd in
  let xcmd := xcmd <| xcmd_type := type |> <| xcmd_opcode := op |> in
  m0 ← aget_chk 0 (ert_words ecmd) 0;
  masks ← copy_out (ert_words ecmd) kecmd_data_off (ert_extra_cu_masks ecmd);
  cu_mask ← copy_in (aset (xcmd_cu_mask xcmd) 0 m0) 1 masks;
  info ← xcmd_info xcmd;
  r ← convert info ecmd;
  Some (xcmd <| xcmd_cu_mask := cu_mask |> <| xcmd_num_mask := 1 + ert_extra_cu_masks ecmd |>
             <| xcmd_info := Some r.1 |> <| xcmd_isize := r.2 |>).

(** A command to the firmware itself. *)
Definition fill_ert (op : kds_opcode) (convert : list Z -> ert_packet -> option (list Z * Z))
  (ecmd : ert_packet) (xcmd : kds_command) : option kds_command :=
  info ← xcmd_info xcmd;
  r ← convert info ecmd;
  Some (xcmd <| xcmd_opcode := op |> <| xcmd_type := KDS_ERT |> <| xcmd_info := Some r.1 |> <| xcmd_isize := r.2 |>).

Definition put_execbuf (s : io) (xcmd : kds_command) (ecmd : ert_packet) : io :=
  s <| io_cmds ::= alter (fun p => p <| cp_execbuf := ecmd |>) (xcmd_id xcmd) |>.

Definition complete_now (s : io) (xcmd : kds_command) : option (io * kds_command) :=
  let xcmd := xcmd <| xcmd_status := KDS_COMPLETED |> in
  s ← notify_host s xcmd KDS_COMPLETED;
  Some (s, xcmd).

(** Result 1: the command is to be submitted; 0: there is nothing to submit. *)
Definition xocl_fill_payload_xgq (s : io) (ecmd : ert_packet) (xcmd : kds_command) : option (Z * io * kds_command) :=
  let op := ert_opcode ecmd in
  let submit r := x ← r; Some (1, s, x) in
  if (op =? ERT_CONFIGURE) || (op =? ERT_SK_CONFIG) then r ← complete_now s xcmd; Some (0, r.1, r.2)
  else if op =? ERT_SK_START then submit (fill_start KDS_SCU OP_START_SK xgq_exec_convert_start_scu_cmd ecmd xcmd)
  else if op =? ERT_START_CU then submit (fill_start KDS_CU OP_START xgq_exec_convert_start_cu_cmd ecmd xcmd)
  else if op =? ERT_CLK_CALIB then submit (fill_ert OP_CLK_CALIB xgq_exec_convert_clock_calib_cmd ecmd xcmd)
  else if op =? ERT_ACCESS_TEST_C then submit (fill_ert OP_VALIDATE xgq_exec_convert_data_integrity_cmd ecmd xcmd)
  else if op =? ERT_MB_VALIDATE then submit (fill_ert OP_VALIDATE xgq_exec_convert_accessible_cmd ecmd xcmd)
  else if (op =? ERT_EXEC_WRITE) || (op =? ERT_START_KEY_VAL) then
    ecmd ← (if negb (ie_ps_sched env) && (op =? ERT_EXEC_WRITE) then convert_exec_write2key_val ecmd else Some ecmd);
    x ← fill_start KDS_CU OP_START xgq_exec_convert_start_kv_cu_cmd ecmd xcmd;
    Some (1, put_execbuf s xcmd ecmd, x)
  else if op =? ERT_START_COPYBO then
    r ← copybo_ecmd2xcmd s ecmd xcmd;
    let '(ret, ecmd, xcmd) := r in
    let s := put_execbuf s xcmd ecmd in
    if 0 <? ret then r ← complete_now s xcmd; Some (0, r.1, r.2) else Some (ret, s, xcmd)
  else Some (- EINVAL, s, xcmd).

(** The same without XGQ; [inl]: the result of the call, nothing is submitted. *)
Definition fill_payload (s : io) (ecmd : ert_packet) (xcmd : kds_command) : option ((Z + unit) * io * kds_command) :=
  let op := ert_opcode ecmd in
  let go r := r ← r; Some (inr tt, put_execbuf s xcmd r.1, r.2) in
  if (op =? ERT_CONFIGURE) || (op =? ERT_SK_CONFIG) then r ← complete_now s xcmd; Some (inl 0, r.1, r.2)
  else if op =? ERT_START_CU then go (start_krnl_ecmd2xcmd (ie_now env) ecmd xcmd)
  else if op =? ERT_EXEC_WRITE then
    ecmd ← (if negb (ie_ps_sched env) then convert_exec_write2key_val ecmd else Some ecmd);
    go (start_krnl_kv_ecmd2xcmd (ie_now env) ecmd xcmd)
  else if op =? ERT_START_KEY_VAL then go (start_krnl_kv_ecmd2xcmd (ie_now env) ecmd xcmd)
  else if op =? ERT_START_FA then
    r ← start_fa_ecmd2xcmd (ie_now env) ecmd xcmd;
    Some (inr tt, put_execbuf s xcmd r.1, r.2 <| xcmd_type := KDS_CU |>)
  else if op =? ERT_START_COPYBO then
    r ← copybo_ecmd2xcmd s ecmd xcmd;
    let '(ret, ecmd, xcmd) := r in
    let s := put_execbuf s xcmd ecmd in
    if 0 <? ret then r ← complete_now s xcmd; Some (inl 0, r.1, r.2)
    else Some (if ret <? 0 then inl ret else inr tt, s, xcmd)
  else if op =? ERT_SK_START then
    r ← sk_ecmd2xcmd s ecmd xcmd;
    let '(ret, ecmd, xcmd) := r in
    Some (if z2b ret then inl ret else inr tt, put_execbuf s xcmd ecmd, xcmd)
  else if op =? ERT_CLK_CALIB then Some (inr tt, s, xcmd <| xcmd_opcode := OP_CLK_CALIB |>)
  else if op =? ERT_MB_VALIDATE then Some (inr tt, s, xcmd <| xcmd_opcode := OP_VALIDATE |>)
  else if op =? ERT_ACCESS_TEST_C then Some (inr tt, s, xcmd <| xcmd_opcode := OP_VALIDATE |>)
  else if op =? ERT_CU_STAT then Some (inr tt, s, xcmd <| xcmd_opcode := OP_GET_STAT |>)
  else if op =? ERT_ABORT then x ← abort_ecmd2xcmd ecmd xcmd; Some (inr tt, s, x)
  else Some (inl (- EINVAL), s, xcmd).

(** ** Submission *)

(** The command as the callbacks of a submission find it: the selection of a CU
    has stored its index. *)
Definition after_acquire (s : io) (xcmd : kds_command) : kds_command :=
  let acquire domain :=
    match acquire_loop (io_kds s) (get_mgmt (io_kds s) domain) (io_client s) domain xcmd (ie_closes env) with
    | Some (_, _, _, x) => x
    | None => xcmd
    end in
  match xcmd_opcode xcmd with
  | OP_START => if xcmd_type xcmd =? KDS_SCU then acquire DOMAIN_PS else acquire DOMAIN_PL
  | OP_START_SK => if xcmd_type xcmd =? KDS_CU then acquire DOMAIN_PL
                   else if xcmd_type xcmd =? KDS_SCU then acquire DOMAIN_PS else xcmd
  | _ => xcmd
  end.

(** The callbacks and the hand-over that [kds_add_command] leaves to do. *)
Definition run_event (xcmd : kds_command) (s : option io) (ev : kds_event) : option io :=
  s ← s;
  match ev with
  | KNotify _ status => notify_host s xcmd status
  | KFree id => Some (s <| io_cmds ::= delete id |>)
  | KErtSubmit x => Some (s <| io_ert ::= fun l => l ++ [x] |>)
  end.

Definition submit (s : io) (xcmd : kds_command) : option (Z * io) :=
  let seen := after_acquire s xcmd in
  r ← kds_add_command (ie_answer env) (ie_now env) (io_kds s) (io_client s) xcmd (ie_closes env) [];
  let '(ret, evs, kds, c) := r in
  s ← foldl (run_event seen) (Some (s <| io_kds := kds |> <| io_client := c |>)) evs;
  Some (ret, s).

(** The end of the ioctl: an error gives the buffer back. *)
Definition ioctl_out (obj ret : Z) (s : io) : option (Z * io) :=
  Some (ret, if ret <? 0 then gem_put s obj else s).

(** The ioctl from the new command on; [cb]: the callback of a caller in the
    kernel. *)
Definition fill_and_submit (s : io) (obj : Z) (ecmd : ert_packet) (xcmd : kds_command) (cb : option Z) : option (Z * io) :=
  let xgq := kds_xgq_enable (io_kds s) in
  let s := s <| io_cmds ::= insert (xcmd_id xcmd) (mk_cmd_priv ecmd obj xgq None) |> in
  let out1 ret (s : io) (xcmd : kds_command) := ioctl_out obj ret (s <| io_cmds ::= delete (xcmd_id xcmd) |>) in
  r ← (if xgq then
         r ← xocl_fill_payload_xgq s ecmd xcmd;
         let '(ret, s, xcmd) := r in
         Some (if 0 <? ret then inr tt else inl ret, s, xcmd)
       else
         fill_payload s ecmd (xcmd <| xcmd_type := if kds_ert_disable (io_kds s) then KDS_CU else KDS_ERT |>));
  let '(go, s, xcmd) := r in
  match go, cb with
  | inl ret, _ => out1 ret s xcmd
  | inr _, None => submit s xcmd
  | inr _, Some data =>
      if negb (ie_cb_alloc env) then out1 (- ENOMEM) s xcmd
      else submit (s <| io_cmds ::= alter (fun p => p <| cp_cb := Some data |>) (xcmd_id xcmd) |>) xcmd
  end.

Definition xocl_command_ioctl (s : io) (handle ctx_id : Z) (cb : option Z) : option (Z * io) :=
  if negb (bool_decide (is_Some (cl_ctx (io_client s)))) && bool_decide (cl_hw_ctx_list (io_client s) = [])
  then Some (- EINVAL, s)
  else if kds_bad_state (io_kds s) then Some (- EDEADLK, s)
  else
    match gem_lookup s handle with
    | None => Some (- ENOENT, s)
    | Some (obj, xobj, s) =>
        if negb (bo_exec xobj) then Some (0, s)
        else if bo_size xobj <? 4096 then ioctl_out obj (- EINVAL) s
        else if negb (ie_ecmd_alloc env) then ioctl_out obj (- ENOMEM) s
        else
          let '(ok, xobj, ecmd) := copy_and_validate_execbuf s xobj in
          let s := s <| io_objs ::= insert obj xobj |> in
          if negb ok then ioctl_out obj (- EINVAL) s
          else
            match kds_alloc_command (ie_alloc env) (ie_id env) (cl_addr (io_client s)) (ert_count ecmd * 4) with
            | None => ioctl_out obj (- ENOMEM) s
            | Some xcmd =>
                fill_and_submit s obj ecmd (xcmd <| xcmd_exec_bo_handle := handle |> <| xcmd_hw_ctx_id := ctx_id |>) cb
            end
    end.
End Exec.

(** [xocl_poll_client]: whether there is an event, which is taken. *)
Definition xocl_poll_client {C} (s : xocl_io C) : bool * xocl_io C :=
  if 0 <? io_event s then (true, s <| io_event ::= fun n => n - 1 |>) else (false, s).
