(* ===== verification/XoclExecProof.v ===== *)
(** * Command buffers: what the driver keeps true

    The references to buffer objects, the fate of a submission and what the
    user finds in the buffer, for the operations of [XoclExec]. *)
From S2P Require Import Prelude KdsCommand CuInfo CuCore XrtCu KdsHwctx KdsSched KdsRefs KdsDispatch XoclExec.

(** ** Counting the commands that hold a buffer *)

Definition buffer_users (cmds : gmap Z cmd_priv) (a : Z) : Z :=
  Z.of_nat (size (filter (fun kp : Z * cmd_priv => cp_obj kp.2 = a) cmds)).

Lemma buffer_users_insert cmds i p a :
  cmds !! i = None -> buffer_users (<[i := p]> cmds) a = buffer_users cmds a + b2z (cp_obj p =? a).
Proof.
  intros Hi. unfold buffer_users. rewrite map_filter_insert. cbn [snd].
  destruct (decide (cp_obj p = a)) as [E|E].
  - rewrite map_size_insert_None by (apply map_lookup_filter_None; by left).
    rewrite E, Z.eqb_refl. unfold b2z. lia.
  - rewrite delete_id by done. destruct (Z.eqb_spec (cp_obj p) a); [done|]. unfold b2z. lia.
Qed.

Lemma buffer_users_delete cmds i p a :
  cmds !! i = Some p -> buffer_users (delete i cmds) a = buffer_users cmds a - b2z (cp_obj p =? a).
Proof.
  intros Hi. rewrite <- (insert_delete_id cmds i p Hi) at 2.
  rewrite buffer_users_insert by apply lookup_delete_eq. lia.
Qed.

Lemma buffer_users_alter cmds f i a :
  (forall p, cp_obj (f p) = cp_obj p) -> buffer_users (alter f i cmds) a = buffer_users cmds a.
Proof.
  intros Hf. destruct (cmds !! i) as [p|] eqn:Hi.
  - rewrite <- (insert_delete_id cmds i p Hi), fin_maps.alter_insert_eq, !buffer_users_insert by apply lookup_delete_eq.
    by rewrite Hf.
  - by rewrite alter_id by (intros ? Hx; rewrite Hi in Hx; done).
Qed.

Section Balance.
Context {C : Type} (env : io_env C).
Implicit Types s : xocl_io C.

(** The driver holds as many references to a buffer as there are commands on
    it. *)
Definition refs_balanced s : Prop :=
  forall a b, io_objs s !! a = Some b -> bo_refs b = buffer_users (io_cmds s) a.

(** The same with [k] more references to the buffer [a]. *)
Definition owed s (a k : Z) : Prop :=
  forall a' b, io_objs s !! a' = Some b -> bo_refs b = buffer_users (io_cmds s) a' + if a' =? a then k else 0.

Lemma owed_balanced s a : owed s a 0 <-> refs_balanced s.
Proof.
  split; intros H a' b Hb; specialize (H a' b Hb); destruct (a' =? a); lia.
Qed.

(** [owed] only depends on the objects and the commands. *)
Lemma owed_ext s s' a k : io_objs s' = io_objs s -> io_cmds s' = io_cmds s -> owed s a k -> owed s' a k.
Proof. unfold owed. by intros -> ->. Qed.

Lemma owed_put s a k : owed s a k -> owed (gem_put s a) a (k - 1).
Proof.
  intros H a' b. unfold gem_put. rproj. rewrite lookup_alter.
  destruct (decide (a = a')) as [<-|Hn].
  - intros Hb. destruct (io_objs s !! a) as [b0|] eqn:E; [|done]. injection Hb as <-.
    rsimpl. specialize (H a b0 E). rewrite Z.eqb_refl in *. lia.
  - intros Hb. specialize (H a' b Hb). destruct (Z.eqb_spec a' a); lia.
Qed.

Lemma owed_pkt s a a' k f : (forall b, bo_refs (f b) = bo_refs b) ->
  owed s a k -> owed (s <| io_objs ::= alter f a' |>) a k.
Proof.
  intros Hf H a1 b. rproj. rewrite lookup_alter. destruct (decide (a' = a1)) as [<-|Hn]; [|apply H].
  destruct (io_objs s !! a') as [b0|] eqn:E; [|done]. intros [= <-]. rewrite Hf. by apply H.
Qed.

Lemma owed_set s a k b b' : io_objs s !! a = Some b -> bo_refs b' = bo_refs b ->
  owed s a k -> owed (s <| io_objs ::= insert a b' |>) a k.
Proof.
  intros Hb Hr H a1 b1. rproj. rewrite lookup_insert. destruct (decide (a = a1)) as [<-|Hn]; [|apply H].
  intros [= <-]. rewrite Hr. by apply H.
Qed.

Lemma owed_new s a k i p : io_cmds s !! i = None -> cp_obj p = a ->
  owed s a k -> owed (s <| io_cmds ::= insert i p |>) a (k - 1).
Proof.
  intros Hi Hp H a' b Hb. rproj. specialize (H a' b Hb). rewrite buffer_users_insert, Hp by done.
  destruct (Z.eqb_spec a' a), (Z.eqb_spec a a'); try done; cbn; lia.
Qed.

(** Command [i] is on the buffer [a]. *)
Definition on_buffer s (i a : Z) : Prop := exists p, io_cmds s !! i = Some p /\ cp_obj p = a.

Lemma owed_free s a k i : on_buffer s i a -> owed s a k -> owed (s <| io_cmds ::= delete i |>) a (k + 1).
Proof.
  intros (p & Hi & Hp) H a' b Hb. rproj. specialize (H a' b Hb). rewrite (buffer_users_delete _ _ _ _ Hi), Hp.
  destruct (Z.eqb_spec a' a), (Z.eqb_spec a a'); try done; cbn; lia.
Qed.

Lemma owed_alter_cmd s a k i f : (forall p, cp_obj (f p) = cp_obj p) ->
  owed s a k -> owed (s <| io_cmds ::= alter f i |>) a k.
Proof. intros Hf H a' b Hb. rproj. rewrite buffer_users_alter by done. by apply H. Qed.

Lemma on_buffer_alter s i j a f : (forall p, cp_obj (f p) = cp_obj p) ->
  on_buffer s i a -> on_buffer (s <| io_cmds ::= alter f j |>) i a.
Proof.
  intros Hf (p & Hi & Hp). unfold on_buffer. rproj. rewrite lookup_alter.
  destruct (decide (j = i)) as [->|]; [|by exists p]. rewrite Hi. exists (f p). by rewrite Hf.
Qed.

Lemma gem_lookup_owed s h a b s' : refs_balanced s -> gem_lookup s h = Some (a, b, s') ->
  owed s' a 1 /\ io_objs s' !! a = Some b /\ io_cmds s' = io_cmds s /\ io_kds s' = io_kds s /\
  exists b0, io_handles s !! h = Some a /\ io_objs s !! a = Some b0 /\ b = b0 <| bo_refs ::= fun n => n + 1 |>.
Proof.
  intros H E. unfold gem_lookup in E. apply bind_Some in E as (a0 & Ha & E).
  apply bind_Some in E as (b0 & Hb & E). injection E as <- <- <-.
  split_and!; [|rproj; apply lookup_insert_eq|done|done|by exists b0].
  intros a' b. rproj. rewrite lookup_insert. destruct (decide (a0 = a')) as [<-|Hn].
  - intros [= <-]. rewrite Z.eqb_refl. rproj. rewrite (H _ _ Hb). lia.
  - intros Hb'. rewrite (H _ _ Hb'). destruct (Z.eqb_spec a' a0); [by subst|lia].
Qed.

(** ** A notification lets go of one reference *)

Lemma notify_done_owed s p st a k : owed s a k -> owed (notify_done s p st) a k.
Proof. intros H. unfold notify_done. destruct (cp_cb p); by apply owed_ext with s. Qed.
Lemma notify_done_cmds s p st : io_cmds (notify_done s p st) = io_cmds s.
Proof. unfold notify_done. by destruct (cp_cb p). Qed.

Lemma notify_host_owed s xcmd st s' a k :
  on_buffer s (xcmd_id xcmd) a -> owed s a k -> notify_host s xcmd st = Some s' ->
  owed s' a (k - 1) /\ io_cmds s' = io_cmds s.
Proof.
  intros (p & Hi & Hp) H E. unfold notify_host in E. rewrite Hi in E. cbn [mbind option_bind] in E.
  assert (forall kd c ecmd, owed (notify_done (gem_put (put_pkt (s <| io_kds := kd |>) a ecmd) a <| io_client := c |>) p st) a (k - 1)
          /\ io_cmds (notify_done (gem_put (put_pkt (s <| io_kds := kd |>) a ecmd) a <| io_client := c |>) p st) = io_cmds s) as Hend.
  { intros kd c ecmd. split; [|by rewrite notify_done_cmds].
    apply notify_done_owed. eapply owed_ext; [reflexivity|reflexivity|]. apply owed_put.
    unfold put_pkt. apply owed_pkt; [done|]. by apply owed_ext with s. }
  destruct (cp_xgq p).
  - unfold notify_execbuf_xgq in E. rewrite Hi in E. cbn [mbind option_bind] in E. rewrite Hp in E.
    apply bind_Some in E as (obj & _ & E). apply bind_Some in E as (kd & _ & E).
    apply bind_Some in E as (r & _ & E). apply bind_Some in E as (ecmd & _ & E).
    apply bind_Some in E as (c & _ & E). injection E as <-. apply Hend.
  - unfold notify_execbuf in E. rewrite Hi in E. cbn [mbind option_bind] in E. rewrite Hp in E.
    apply bind_Some in E as (obj & _ & E). apply bind_Some in E as (r & _ & E).
    apply bind_Some in E as (ecmd & _ & E). apply bind_Some in E as (c & _ & E). injection E as <-. apply Hend.
Qed.

(** ** The conversions keep the command and its buffer *)

Lemma copy_payload_id p x off n x' : copy_payload p x off n = Some x' -> xcmd_id x' = xcmd_id x.
Proof.
  unfold copy_payload. intros E. repeat (apply bind_Some in E as (? & _ & E)). by injection E as <-.
Qed.

Lemma start_common_id now op p x x' : start_common now op p x = Some x' -> xcmd_id x' = xcmd_id x.
Proof.
  unfold start_common. intros E. repeat (apply bind_Some in E as (? & _ & E)). injection E as <-. rproj.
  by destruct (z2b _).
Qed.

Lemma start_id now op skip p x x0 x1 :
  start_common now op p x = Some x0 -> start_payload skip p x0 = Some x1 -> xcmd_id x1 = xcmd_id x.
Proof.
  intros E0 E1. apply start_common_id in E0. unfold start_payload in E1. apply copy_payload_id in E1. by rewrite E1.
Qed.

(** The conversions of the start commands end in one of these. *)
Definition keeps_id (conv : ert_packet -> kds_command -> option (ert_packet * kds_command)) : Prop :=
  forall p x r, conv p x = Some r -> xcmd_id r.2 = xcmd_id x.

Ltac conv_id :=
  intros p x r E; apply bind_Some in E as (x0 & E0 & E); apply bind_Some in E as (x1 & E1 & E);
  injection E as <-; exact (start_id _ _ _ _ _ _ _ E0 E1).

Lemma start_krnl_id now : keeps_id (start_krnl_ecmd2xcmd now).
Proof. unfold start_krnl_ecmd2xcmd. conv_id. Qed.
Lemma start_kv_id now : keeps_id (start_krnl_kv_ecmd2xcmd now).
Proof. unfold start_krnl_kv_ecmd2xcmd. conv_id. Qed.
Lemma start_fa_id now : keeps_id (start_fa_ecmd2xcmd now).
Proof. unfold start_fa_ecmd2xcmd. conv_id. Qed.
Lemma start_sk_id now : keeps_id (start_skrnl_ecmd2xcmd now).
Proof. unfold start_skrnl_ecmd2xcmd. conv_id. Qed.

Lemma copybo_id s ecmd x ret e' x' :
  copybo_ecmd2xcmd env s ecmd x = Some (ret, e', x') -> xcmd_id x' = xcmd_id x.
Proof.
  unfold copybo_ecmd2xcmd. cbv zeta.
  destruct (get_bo_paddr _ _ _ _) as [e|src], (get_bo_paddr _ _ _ _) as [e2|dst];
    repeat match goal with |- (if ?b then _ else _) = _ -> _ => destruct b end; try (intros [= <- <- <-]; done).
  intros E. apply bind_Some in E as (e1 & _ & E). apply bind_Some in E as (ws & _ & E).
  apply bind_Some in E as (r & Er & E). injection E as <- <- <-. by apply (start_krnl_id _ _ _ _ Er).
Qed.

Lemma sk_id s ecmd x ret e' x' :
  sk_ecmd2xcmd env s ecmd x = Some (ret, e', x') -> xcmd_id x' = xcmd_id x.
Proof.
  unfold sk_ecmd2xcmd. destruct (kds_ert_disable _); [by intros [= <- <- <-]|].
  destruct (ert_opcode ecmd =? ERT_SK_START); [|by intros [= <- <- <-]].
  intros E. apply bind_Some in E as (r & Er & E). injection E as <- <- <-. by apply (start_sk_id _ _ _ _ Er).
Qed.

Lemma fill_start_id ty op conv ecmd x x' : fill_start ty op conv ecmd x = Some x' -> xcmd_id x' = xcmd_id x.
Proof.
  unfold fill_start. intros E. repeat (apply bind_Some in E as (? & _ & E)). injection E as <-. rproj.
  by destruct (z2b _).
Qed.
Lemma fill_ert_id op conv ecmd x x' : fill_ert op conv ecmd x = Some x' -> xcmd_id x' = xcmd_id x.
Proof. unfold fill_ert. intros E. repeat (apply bind_Some in E as (? & _ & E)). by injection E as <-. Qed.

(** What filling in a command leaves: the command with [i] is on the buffer
    [a], to which there are [k] references too many. *)
Definition filled s (x : kds_command) (i a k : Z) : Prop :=
  xcmd_id x = i /\ on_buffer s i a /\ owed s a k.

Lemma filled_put s x x0 i a k ecmd : filled s x i a k -> filled (put_execbuf s x0 ecmd) x i a k.
Proof.
  intros (Hx & Hb & Ho). unfold put_execbuf.
  split_and!; [done|by apply on_buffer_alter|by apply owed_alter_cmd].
Qed.
Lemma filled_cmd s x x' i a k : xcmd_id x' = xcmd_id x -> filled s x i a k -> filled s x' i a k.
Proof. intros E (Hx & Hb & Ho). split_and!; [congruence|done|done]. Qed.

Lemma complete_now_filled s x s' x' i a k :
  filled s x i a k -> complete_now s x = Some (s', x') -> filled s' x' i a (k - 1).
Proof.
  intros (Hx & Hb & Ho) E. unfold complete_now in E. apply bind_Some in E as (s1 & E1 & E). injection E as <- <-.
  rewrite <- Hx in Hb. edestruct notify_host_owed as [H1 H2]; [| |exact E1|]; [exact Hb|exact Ho|].
  split_and!; [done| |done]. unfold on_buffer. rewrite H2, <- Hx. exact Hb.
Qed.

(** The references that are missing or too many after a result that is not
    submitted. *)
Definition settled (go : Z + unit) : Z :=
  match go with inl r => if r <? 0 then 0 else -1 | inr _ => 0 end.

Lemma fill_payload_filled s ecmd x go s' x' i a :
  filled s x i a 0 -> fill_payload env s ecmd x = Some (go, s', x') -> filled s' x' i a (settled go).
Proof.
  intros Hf. unfold fill_payload. cbv zeta.
  assert (forall r, (r ← r; Some (inr tt, put_execbuf s x r.1, r.2)) = Some (go, s', x') ->
    (forall e, r = Some e -> xcmd_id e.2 = xcmd_id x) -> filled s' x' i a (settled go)) as Hgo.
  { intros r E Hr. apply bind_Some in E as (e & Er & E). injection E as <- <- <-.
    eapply filled_cmd; [by apply Hr|]. by apply filled_put. }
  destruct (_ || _).
  { intros E. apply bind_Some in E as ([s1 x1] & E1 & E). injection E as <- <- <-.
    by apply (complete_now_filled _ _ _ _ _ _ _ Hf E1). }
  destruct (_ =? ERT_START_CU); [intros E; apply Hgo in E; [done|]; apply start_krnl_id|].
  destruct (_ =? ERT_EXEC_WRITE).
  { intros E. apply bind_Some in E as (e1 & _ & E). apply Hgo in E; [done|]. apply start_kv_id. }
  destruct (_ =? ERT_START_KEY_VAL); [intros E; apply Hgo in E; [done|]; apply start_kv_id|].
  destruct (_ =? ERT_START_FA).
  { intros E. apply bind_Some in E as (r & Er & E). injection E as <- <- <-.
    apply filled_cmd with x; [by apply (start_fa_id _ _ _ _ Er)|]. by apply filled_put. }
  destruct (_ =? ERT_START_COPYBO).
  { intros E. apply bind_Some in E as ([[ret e1] x1] & Er & E). apply copybo_id in Er.
    assert (filled (put_execbuf s x1 e1) x1 i a 0) as Hf1.
    { apply filled_put. by apply filled_cmd with x. }
    destruct (0 <? ret).
    - apply bind_Some in E as ([s2 x2] & E2 & E). injection E as <- <- <-.
      by apply (complete_now_filled _ _ _ _ _ _ _ Hf1 E2).
    - injection E as <- <- <-. destruct (Z.ltb_spec ret 0); [|done]. cbn [settled].
      replace (ret <? 0) with true by lia. done. }
  destruct (_ =? ERT_SK_START).
  { intros E. apply bind_Some in E as ([[ret e1] x1] & Er & E). injection E as <- <- <-.
    assert (ret <= 0 /\ (ret = 0 \/ ret < 0)) as Hret.
    { revert Er. unfold sk_ecmd2xcmd. destruct (kds_ert_disable _); [intros [= <- _ _]; unfold EINVAL; lia|].
      destruct (ert_opcode ecmd =? ERT_SK_START); [|intros [= <- _ _]; lia].
      intros E. apply bind_Some in E as (r & _ & E). injection E as <- _ _. lia. }
    apply sk_id in Er. apply filled_put. apply filled_cmd with x; [done|]. unfold z2b.
    destruct (Z.eqb_spec ret 0); [done|]. cbn [negb settled]. replace (ret <? 0) with true by lia. done. }
  destruct (_ =? ERT_CLK_CALIB); [by intros [= <- <- <-]|].
  destruct (_ =? ERT_MB_VALIDATE); [by intros [= <- <- <-]|].
  destruct (_ =? ERT_ACCESS_TEST_C); [by intros [= <- <- <-]|].
  destruct (_ =? ERT_CU_STAT); [by intros [= <- <- <-]|].
  destruct (_ =? ERT_ABORT); [|by intros [= <- <- <-]].
  intros E. apply bind_Some in E as (x1 & Ex & E). injection E as <- <- <-.
  apply filled_cmd with x; [|done]. unfold abort_ecmd2xcmd in Ex.
  repeat (apply bind_Some in Ex as (? & _ & Ex)). by injection Ex as <-.
Qed.

Lemma fill_payload_xgq_filled s ecmd x ret s' x' i a :
  ert_opcode ecmd <> ERT_START_COPYBO ->
  filled s x i a 0 -> xocl_fill_payload_xgq env s ecmd x = Some (ret, s', x') ->
  filled s' x' i a (settled (if 0 <? ret then inr tt else inl ret)).
Proof.
  intros Hop Hf. unfold xocl_fill_payload_xgq. cbv zeta.
  assert (forall r, (r ← r; Some (1, s, r)) = Some (ret, s', x') ->
    (forall e, r = Some e -> xcmd_id e = xcmd_id x) -> filled s' x' i a (settled (if 0 <? ret then inr tt else inl ret))) as Hgo.
  { intros r E Hr. apply bind_Some in E as (e & Er & E). injection E as <- <- <-.
    eapply filled_cmd; [by apply Hr|]. done. }
  destruct (_ || _).
  { intros E. apply bind_Some in E as ([s1 x1] & E1 & E). injection E as <- <- <-.
    by apply (complete_now_filled _ _ _ _ _ _ _ Hf E1). }
  destruct (_ =? ERT_SK_START); [intros E; apply Hgo in E; [done|]; apply fill_start_id|].
  destruct (_ =? ERT_START_CU); [intros E; apply Hgo in E; [done|]; apply fill_start_id|].
  destruct (_ =? ERT_CLK_CALIB); [intros E; apply Hgo in E; [done|]; apply fill_ert_id|].
  destruct (_ =? ERT_ACCESS_TEST_C); [intros E; apply Hgo in E; [done|]; apply fill_ert_id|].
  destruct (_ =? ERT_MB_VALIDATE); [intros E; apply Hgo in E; [done|]; apply fill_ert_id|].
  destruct (_ || _).
  { intros E. apply bind_Some in E as (e1 & _ & E). apply bind_Some in E as (x1 & Ex & E). injection E as <- <- <-.
    apply filled_put. apply filled_cmd with x; [by apply fill_start_id in Ex|done]. }
  destruct (Z.eqb_spec (ert_opcode ecmd) ERT_START_COPYBO); [done|]. by intros [= <- <- <-].
Qed.

(** ** Submission *)

Lemma acquire_cu_idx_id kds m c d x f r m' c' x' :
  acquire_cu_idx (C := C) kds m c d x f = Some (r, m', c', x') -> xcmd_id x' = xcmd_id x.
Proof.
  unfold acquire_cu_idx. destruct (choose_cu m c d x); [by intros [= _ _ _ <-]|].
  intros E. apply bind_Some in E as (xcu & _ & E).
  repeat match type of E with (if ?b then _ else _) = _ => destruct b end; by injection E as _ _ _ <-.
Qed.

Lemma acquire_loop_id kds d closes : forall m c x r m' c' x',
  acquire_loop (C := C) kds m c d x closes = Some (r, m', c', x') -> xcmd_id x' = xcmd_id x.
Proof.
  induction closes as [|f closes IH]; intros m c x r m' c' x' E; cbn [acquire_loop] in E.
  { by apply acquire_cu_idx_id in E. }
  apply bind_Some in E as ([[[r1 m1] c1] x1] & E1 & E). apply acquire_cu_idx_id in E1.
  destruct (r1 =? - EAGAIN); [apply IH in E|injection E as _ _ _ <-]; congruence.
Qed.

Lemma after_acquire_id s x : xcmd_id (after_acquire env s x) = xcmd_id x.
Proof.
  unfold after_acquire. cbv zeta.
  assert (forall d, xcmd_id (match acquire_loop (io_kds s) (get_mgmt (io_kds s) d) (io_client s) d x (ie_closes env) with
    | Some (_, _, _, x) => x | None => x end) = xcmd_id x) as H.
  { intros d. destruct (acquire_loop _ _ _ _ _ _) as [[[[r m] c] x1]|] eqn:E; [by apply acquire_loop_id in E|done]. }
  destruct (xcmd_opcode x); try done; repeat (case_match; [apply H || done|]); apply H || done.
Qed.

(** What a submission leaves to do: nothing, the callbacks of the command, or
    the hand-over to the remote scheduler. *)
Inductive to_do (x : kds_command) : list kds_event -> Prop :=
| to_do_nothing : to_do x []
| to_do_notify st : to_do x (notify_free x st)
| to_do_remote x' : to_do x [KErtSubmit x'].
Hint Constructors to_do : core.

Lemma kds_submit_cu_events answer now kds c d x closes err ev kds' c' :
  answers_ok (C := C) answer -> kds_submit_cu answer now kds c d x closes = Some (err, ev, kds', c') ->
  to_do x ev /\ (err <> 0 -> ev = []).
Proof.
  intros Ha. unfold kds_submit_cu. destruct (xcmd_opcode x) eqn:Eo; try (intros [= <- <- _ _]; done || by split);
    try (intros E; apply bind_Some in E as ([[ret k1] c1] & _ & E); injection E as <- <- _ _; by split).
  destruct (kds_cu_abort_cmd_fate answer d kds x Ha) as [st Hst].
  destruct (kds_cu_abort_cmd answer kds d x) as [ev1 k1]. cbn [fst] in Hst. subst ev1.
  intros [= <- <- _ _]. by split.
Qed.

Lemma kds_submit_ert_events now kds c x closes images err ev kds' c' :
  kds_submit_ert (C := C) now kds c x closes images = Some (err, ev, kds', c') ->
  to_do x ev /\ (err <> 0 -> ev = []).
Proof.
  unfold kds_submit_ert. destruct (xcmd_opcode x); try (intros [= <- <- _ _]; by split).
  - intros E. apply bind_Some in E as ([[[r m] c1] x1] & _ & E). destruct (r <? 0); injection E as <- <- _ _; by split.
  - intros E. apply bind_Some in E as (m & _ & E). injection E as <- <- _ _. by split.
  - destruct (_ =? 0); intros [= <- <- _ _]; by split.
Qed.

Lemma kds_add_command_events answer now kds c x closes images err ev kds' c' :
  answers_ok (C := C) answer -> kds_add_command answer now kds c x closes images = Some (err, ev, kds', c') -> to_do x ev.
Proof.
  intros Ha E. unfold kds_add_command in E. apply bind_Some in E as ([[[e1 ev1] k1] c1] & E1 & E).
  injection E as <- <- _ _.
  assert (to_do x ev1 /\ (e1 <> 0 -> ev1 = [])) as [H1 H2].
  { destruct (_ =? KDS_CU); [by apply kds_submit_cu_events in E1|].
    destruct (_ =? KDS_SCU); [by apply kds_submit_cu_events in E1|].
    destruct (_ =? KDS_ERT); [by apply kds_submit_ert_events in E1|]. injection E1 as <- <- _ _. by split. }
  unfold z2b. destruct (Z.eqb_spec e1 0); cbn [negb]; [done|]. rewrite H2 by done. constructor.
Qed.

Lemma submit_balanced s x i a ret s' :
  answers_ok (ie_answer env) -> filled s x i a 0 -> submit env s x = Some (ret, s') -> refs_balanced s'.
Proof.
  intros Ha (Hx & Hb & Ho) E. unfold submit in E. apply bind_Some in E as ([[[err ev] k1] c1] & Ek & E).
  apply bind_Some in E as (s1 & Es & E). injection E as <- <-.
  apply kds_add_command_events in Ek; [|done].
  set (s0 := s <| io_kds := k1 |> <| io_client := c1 |>) in Es.
  assert (owed s0 a 0) as Ho0 by (by apply owed_ext with s).
  assert (on_buffer s0 i a) as Hb0 by exact Hb. clearbody s0.
  destruct Ek as [|st|x']; cbn [foldl run_event mbind option_bind notify_free] in Es.
  - injection Es as <-. by apply owed_balanced in Ho0.
  - destruct (notify_host s0 _ st) as [s2|] eqn:En; [|done]. cbn [mbind option_bind] in Es. injection Es as <-.
    edestruct notify_host_owed as [H1 H2]; [| |exact En|]; [rewrite after_acquire_id, Hx; exact Hb0|exact Ho0|].
    apply (owed_balanced _ a). change 0 with (0 - 1 + 1). apply owed_free; [|done].
    unfold on_buffer. rewrite H2, Hx. exact Hb0.
  - injection Es as <-. by apply owed_balanced in Ho0.
Qed.

(** ** The packet as the driver copies it *)

Lemma set_state_fields v p :
  ert_opcode (set_ert_state v p) = ert_opcode p /\ ert_count (set_ert_state v p) = ert_count p /\
  ert_extra_cu_masks (set_ert_state v p) = ert_extra_cu_masks p /\
  ert_stat_enabled (set_ert_state v p) = ert_stat_enabled p.
Proof.
  unfold ert_opcode, ert_count, ert_extra_cu_masks, ert_stat_enabled, set_ert_state. rproj.
  split_and!; apply field_set_other; lia.
Qed.

Lemma validate_copy s b ok b' ecmd : copy_and_validate_execbuf s b = (ok, b', ecmd) ->
  b' = b <| bo_pkt := set_ert_state (ert_state_num ERT_CMD_STATE_NEW) (bo_pkt b) |> /\
  ert_header ecmd = ert_header (bo_pkt b').
Proof.
  unfold copy_and_validate_execbuf. cbv zeta. destruct (bo_size _ <? _); intros H; apply pair_eq in H as [H <-]; apply pair_eq in H as [_ <-];
    split; rproj; reflexivity.
Qed.

(** ** The request *)

(** A buffer the driver accounts for: an exec buffer and, with XGQ, not a copy
    command. *)
Definition exec_request s (handle : Z) : Prop :=
  forall a b, io_handles s !! handle = Some a -> io_objs s !! a = Some b ->
  bo_exec b = true /\ (kds_xgq_enable (io_kds s) = true -> ert_opcode (bo_pkt b) <> ERT_START_COPYBO).

Lemma ioctl_out_balanced s a r ret s' :
  owed s a (if r <? 0 then 1 else 0) -> ioctl_out a r s = Some (ret, s') -> refs_balanced s'.
Proof.
  intros H [= _ <-]. apply (owed_balanced _ a). destruct (r <? 0); [|done]. by apply owed_put in H.
Qed.

Lemma fill_and_submit_balanced s a ecmd x cb ret s' :
  answers_ok (ie_answer env) -> io_cmds s !! xcmd_id x = None ->
  (kds_xgq_enable (io_kds s) = true -> ert_opcode ecmd <> ERT_START_COPYBO) ->
  owed s a 1 -> fill_and_submit env s a ecmd x cb = Some (ret, s') -> refs_balanced s'.
Proof.
  intros Ha Hid Hcp Ho. unfold fill_and_submit. cbv zeta.
  set (p := mk_cmd_priv ecmd a (kds_xgq_enable (io_kds s)) None).
  assert (forall x', xcmd_id x' = xcmd_id x -> filled (s <| io_cmds ::= insert (xcmd_id x) p |>) x' (xcmd_id x) a 0) as Hf.
  { intros x' Hx'. split_and!; [done| |by apply (owed_new _ _ 1)]. exists p. rproj. split; [apply lookup_insert_eq|done]. }
  remember (xcmd_id x) as i eqn:Ei in *. set (s3 := s <| io_cmds ::= insert i p |>) in *.
  intros E. apply bind_Some in E as ([[go s4] x4] & Ef & E).
  assert (filled s4 x4 i a (settled go)) as (X4 & B4 & O4).
  { destruct (kds_xgq_enable (io_kds s)).
    - apply bind_Some in Ef as ([[r1 s5] x5] & Ef & E5). injection E5 as <- <- <-.
      eapply fill_payload_xgq_filled; [exact (Hcp eq_refl)| |exact Ef]. by apply Hf.
    - eapply fill_payload_filled; [|exact Ef]. apply Hf. rproj. by rewrite Ei. }
  assert (forall r, owed s4 a (settled (inl r)) ->
    ioctl_out a r (s4 <| io_cmds ::= delete (xcmd_id x4) |>) = Some (ret, s') -> refs_balanced s') as Hout1.
  { intros r H4. apply ioctl_out_balanced.
    replace (if r <? 0 then 1 else 0) with (settled (inl r) + 1) by (cbn [settled]; destruct (r <? 0); done).
    apply owed_free; [by rewrite X4|done]. }
  destruct go as [r|[]]; [exact (Hout1 r O4 E)|].
  destruct cb as [data|]; [|by apply (submit_balanced _ _ i a _ _ Ha) in E].
  destruct (ie_cb_alloc env); cbn [negb] in E; [|exact (Hout1 (- ENOMEM) O4 E)].
  apply (submit_balanced _ _ i a _ _ Ha) in E; [done|].
  split_and!; [done|by apply on_buffer_alter|by apply owed_alter_cmd].
Qed.

Lemma ioctl_balanced s h ctx cb ret s' :
  answers_ok (ie_answer env) -> io_cmds s !! ie_id env = None -> exec_request s h ->
  refs_balanced s -> xocl_command_ioctl env s h ctx cb = Some (ret, s') -> refs_balanced s'.
Proof.
  intros Ha Hid Hrq Hs. unfold xocl_command_ioctl.
  destruct (_ && _); [by intros [= _ <-]|]. destruct (kds_bad_state _); [by intros [= _ <-]|].
  destruct (gem_lookup s h) as [[[a b] s1]|] eqn:El; [|by intros [= _ <-]].
  destruct (gem_lookup_owed _ _ _ _ _ Hs El) as (Ho & Hb & Hc & Hk & b0 & Hh & Hb0 & Eb).
  destruct (Hrq a b0 Hh Hb0) as [Hex Hcp].
  replace (bo_exec b) with true by (by subst b; rproj). cbn [negb].
  destruct (bo_size b <? 4096); [apply ioctl_out_balanced; exact Ho|].
  destruct (ie_ecmd_alloc env); cbn [negb]; [|apply ioctl_out_balanced; exact Ho].
  destruct (copy_and_validate_execbuf s1 b) as [[ok b1] ecmd] eqn:Ev.
  apply validate_copy in Ev as [Eb1 Ehd]. cbv zeta.
  assert (owed (s1 <| io_objs ::= insert a b1 |>) a 1) as Ho1.
  { apply (owed_set _ _ _ b); [done|by subst b1|done]. }
  assert (ert_opcode ecmd = ert_opcode (bo_pkt b0)) as Hop.
  { destruct (set_state_fields (ert_state_num ERT_CMD_STATE_NEW) (bo_pkt b)) as [E _].
    unfold ert_opcode in *. rewrite Ehd. subst b1. rproj. rewrite E. by subst b. }
  destruct ok; cbn [negb]; [|apply ioctl_out_balanced; exact Ho1].
  destruct (kds_alloc_command _ _ _ _) as [x|] eqn:Ex; [|apply ioctl_out_balanced; exact Ho1].
  assert (xcmd_id x = ie_id env) as Exi.
  { revert Ex. unfold kds_alloc_command. repeat case_match; by intros [= <-]. }
  apply fill_and_submit_balanced; [done| | |done]; rproj.
  - by rewrite Exi, Hc.
  - rewrite Hk, Hop. exact Hcp.
Qed.
End Balance.

(** ** The file over time

    Steps of an open file: a request, the completion of a command (by whatever
    thread has it), the event taken by [poll], and a store of the application
    to a buffer, which stays mapped. *)
Inductive io_step {C} : xocl_io C -> xocl_io C -> Prop :=
| step_ioctl env s h ctx cb ret s' :
    answers_ok (ie_answer env) -> io_cmds s !! ie_id env = None -> exec_request s h ->
    xocl_command_ioctl env s h ctx cb = Some (ret, s') -> io_step s s'
| step_complete s xcmd st s' :
    is_Some (io_cmds s !! xcmd_id xcmd) -> notify_host s xcmd st = Some s' ->
    io_step s (s' <| io_cmds ::= delete (xcmd_id xcmd) |>)
| step_poll s : io_step s (xocl_poll_client s).2
| step_user s a pkt : io_step s (put_pkt s a pkt).

Lemma io_step_balanced {C} (s s' : xocl_io C) : io_step s s' -> refs_balanced s -> refs_balanced s'.
Proof.
  intros [env s1 h ctx cb ret s2 Ha Hid Hrq E|s1 xcmd st s2 [p Hp] E|s1|s1 a pkt] Hs.
  - exact (ioctl_balanced env s1 h ctx cb ret s2 Ha Hid Hrq Hs E).
  - assert (on_buffer s1 (xcmd_id xcmd) (cp_obj p)) as Hb by (by exists p).
    apply (owed_balanced _ (cp_obj p)) in Hs. destruct (notify_host_owed _ _ _ _ _ _ Hb Hs E) as [Ho Hc].
    apply (owed_balanced _ (cp_obj p)). change 0 with (0 - 1 + 1). apply owed_free; [|done].
    unfold on_buffer. by rewrite Hc.
  - unfold xocl_poll_client. by destruct (0 <? io_event s1).
  - apply (owed_balanced _ a). apply owed_pkt; [done|]. by apply (owed_balanced _ a).
Qed.
