(* ===== verification/XoclStart.v ===== *)
(** * A start command from the buffer to the CU and back

    [xocl_command_ioctl] on a start command of a CU in XGQ mode, and the
    notification when it is done: what reaches the CU is what the application
    wrote into the buffer, and what the application finds there is the result. *)
From S2P Require Import Prelude KdsCommand CuInfo CuCore XrtCu KdsHwctx KdsSched KdsRefs KdsDispatch XoclExec XoclExecProof.

(** The CU masks of a start packet. *)
Definition packet_mask (p : ert_packet) : list Z :=
  take (Z.to_nat (1 + ert_extra_cu_masks p)) (ert_words p) ++ replicate (Z.to_nat (3 - ert_extra_cu_masks p)) 0.

(** Words [data[extra_cu_masks + 4]] on: the register map of the CU. *)
Definition packet_regmap (p : ert_packet) : list Z :=
  take (Z.to_nat (ert_count p - ert_extra_cu_masks p - 5)) (drop (Z.to_nat (5 + ert_extra_cu_masks p)) (ert_words p)).

Section Start.
Context {C : Type} (env : io_env C).
Implicit Types s : xocl_io C.

(** A well-formed start command in the buffer [b], which the client may submit. *)
Record start_request s (h a : Z) (b : drm_xocl_bo) : Prop := {
  sr_open : cl_hw_ctx_list (io_client s) <> [];
  sr_good : kds_bad_state (io_kds s) = false;
  sr_xgq : kds_xgq_enable (io_kds s) = true;
  sr_handle : io_handles s !! h = Some a;
  sr_obj : io_objs s !! a = Some b;
  sr_exec : bo_exec b = true;
  sr_size : 4096 <= bo_size b;
  sr_words : Z.of_nat (length (ert_words (bo_pkt b))) = bo_size b / 4 - 1;
  sr_range : Forall (fun w => 0 <= w < 2 ^ 32) (ert_words (bo_pkt b));
  sr_op : ert_opcode (bo_pkt b) = ERT_START_CU;
  sr_valid : ert_valid_opcode (bo_pkt b) = true;
  sr_count : 4 + ert_count (bo_pkt b) * 4 <= bo_size b;
  sr_stamps : ert_stat_enabled (bo_pkt b) <> 0 ->
    ert_start_kernel_timestamps (bo_pkt b) + sizeof_timestamps <= bo_size b;
}.

(** The allocations succeed and nobody closes the context meanwhile. *)
Record quiet_env : Prop := {
  qe_alloc : ie_alloc env = (true, true);
  qe_ecmd : ie_ecmd_alloc env = true;
  qe_closes : ie_closes env = [];
}.

(** ** The copy *)

Lemma valid_opcode_start p : ert_opcode p = ERT_START_CU ->
  ert_valid_opcode p = (ert_extra_cu_masks p + 1 + 4 <=? ert_count p).
Proof. intros E. unfold ert_valid_opcode. by rewrite E. Qed.

(** The packet as copied into the kernel. *)
Definition copied (b : drm_xocl_bo) (ecmd : ert_packet) : Prop :=
  ert_opcode ecmd = ert_opcode (bo_pkt b) /\ ert_count ecmd = ert_count (bo_pkt b) /\
  ert_extra_cu_masks ecmd = ert_extra_cu_masks (bo_pkt b) /\
  ert_stat_enabled ecmd = ert_stat_enabled (bo_pkt b) /\
  length (ert_words ecmd) = length (ert_words (bo_pkt b)) /\
  take (Z.to_nat (ert_count (bo_pkt b))) (ert_words ecmd) = take (Z.to_nat (ert_count (bo_pkt b))) (ert_words (bo_pkt b)).

Definition new_state (b : drm_xocl_bo) : drm_xocl_bo :=
  b <| bo_pkt := set_ert_state (ert_state_num ERT_CMD_STATE_NEW) (bo_pkt b) |>.

Lemma validate_start s h a b b1 :
  start_request s h a b -> b1 = b <| bo_refs ::= fun n => n + 1 |> ->
  forall s1, io_kds s1 = io_kds s -> exists ecmd,
  copy_and_validate_execbuf s1 b1 = (true, new_state b1, ecmd) /\ copied b ecmd.
Proof.
  intros R -> s1 Hk. unfold copy_and_validate_execbuf. cbv zeta.
  destruct (set_state_fields (ert_state_num ERT_CMD_STATE_NEW) (bo_pkt b)) as (E1 & E2 & E3 & E4).
  destruct R. set (ecmd := upd ert_words _ _). rproj. rewrite E2, Hk.
  assert ((bo_size b <? 4 + ert_count (bo_pkt b) * 4) = false) as -> by lia.
  pose proof (ert_count_range (bo_pkt b)).
  assert (1 + ert_count (bo_pkt b) <= bo_size b / 4) by (apply Z.div_le_lower_bound; lia).
  assert (copied b ecmd) as Hcp.
  { subst ecmd. unfold copied.
    unfold ert_opcode, ert_count, ert_extra_cu_masks, ert_stat_enabled in *. rproj. rewrite ?E2.
    cbn [ert_words ert_header].
    change (ert_words (set_ert_state _ _)) with (ert_words (bo_pkt b)). split_and!; try done.
    - rewrite length_app, length_take, length_drop, length_replicate. lia.
    - rewrite take_app_le by (rewrite length_take; lia). by rewrite take_take, Nat.min_id. }
  exists ecmd. split; [|done]. destruct Hcp as (C1 & C2 & C3 & C4 & _).
  assert (ert_valid_opcode ecmd = true) as ->.
  { rewrite valid_opcode_start in * by congruence. by rewrite C2, C3. }
  assert ((bo_size b <? get_size_with_timestamps_or_zero ecmd) = false) as ->.
  { unfold get_size_with_timestamps_or_zero, ert_start_kernel_timestamps. rewrite C1, C2, C4, sr_op0. cbn [Z.eqb orb].
    unfold ert_start_kernel_timestamps in sr_stamps0. unfold z2b. destruct (Z.eqb_spec (ert_stat_enabled (bo_pkt b)) 0); cbn [negb]; [cbn; lia|].
    replace ((ERT_START_CU =? ERT_START_CU) || _ || _ || _) with true by reflexivity. lia. }
  rewrite sr_xgq0. reflexivity.
Qed.

(** ** The command *)

(** The command built from the packet [p]. *)
Record start_command (p : ert_packet) (x : kds_command) : Prop := {
  sc_op : xcmd_opcode x = OP_START;
  sc_type : xcmd_type x = KDS_CU;
  sc_mask : xcmd_cu_mask x = packet_mask p;
  sc_num_mask : xcmd_num_mask x = 1 + ert_extra_cu_masks p;
  sc_stamps : xcmd_timestamp_enabled x = z2b (ert_stat_enabled p);
  sc_info : exists info, xcmd_info x = Some info /\
    xgq_hdr_opcode info = XGQ_CMD_OP_START_CUIDX /\ xgq_hdr_state info = 1 /\
    xgq_hdr_count info = 4 * (ert_count p - ert_extra_cu_masks p - 5) /\ xgq_hdr_cu_domain info = DOMAIN_PL /\
    take (Z.to_nat (ert_count p - ert_extra_cu_masks p - 5)) (drop 2 info) = packet_regmap p;
}.

Lemma take_of_take {A} (n m : nat) (l l' : list A) : (n <= m)%nat -> take m l = take m l' -> take n l = take n l'.
Proof. intros H E. rewrite <- (Nat.min_l n m), <- !take_take, E by done. done. Qed.

Lemma packet_mask_ext p q : ert_extra_cu_masks p = ert_extra_cu_masks q ->
  take (Z.to_nat (1 + ert_extra_cu_masks q)) (ert_words p) = take (Z.to_nat (1 + ert_extra_cu_masks q)) (ert_words q) ->
  packet_mask p = packet_mask q.
Proof. intros E H. unfold packet_mask. by rewrite E, H. Qed.

Lemma fill_start_masks p :
  1 + ert_extra_cu_masks p <= Z.of_nat (length (ert_words p)) -> exists m0 masks,
  aget_chk 0 (ert_words p) 0 = Some m0 /\ copy_out (ert_words p) kecmd_data_off (ert_extra_cu_masks p) = Some masks /\
  copy_in (aset (replicate 4 0) 0 m0) 1 masks = Some (packet_mask p).
Proof.
  intros Hw. pose proof (ert_extra_range p) as Hx.
  destruct (ert_words p) as [|m0 ws] eqn:Ews; cbn [length] in Hw; [lia|].
  exists m0, (take (Z.to_nat (ert_extra_cu_masks p)) ws). split_and!.
  - unfold aget_chk. by assert (in_arr (m0 :: ws) 0 = true) as -> by (apply in_arr_true; cbn [length]; lia).
  - unfold kecmd_data_off. rewrite copy_out_ok by (cbn [length]; lia). done.
  - unfold packet_mask. rewrite Ews.
    assert (exists n, ert_extra_cu_masks p = Z.of_nat n /\ (n < 4)%nat) as (n & En & Hn).
    { exists (Z.to_nat (ert_extra_cu_masks p)). lia. }
    rewrite En in *.
    rewrite copy_in_ok; [|lia|rewrite length_take, length_aset, length_replicate; lia].
    rewrite length_take, Nat.min_l, Nat2Z.id by lia.
    replace (Z.to_nat (1 + Z.of_nat n)) with (S n) by lia. replace (Z.to_nat (3 - Z.of_nat n)) with (3 - n)%nat by lia.
    by destruct n as [|[|[|[|n]]]]; [..|lia].
Qed.

Lemma fill_start_ok p x :
  ert_opcode p = ERT_START_CU -> ert_valid_opcode p = true ->
  ert_count p <= Z.of_nat (length (ert_words p)) ->
  xcmd_cu_mask x = replicate 4 0 -> xcmd_info x = Some (replicate (Z.to_nat (ert_count p)) 0) ->
  xcmd_timestamp_enabled x = false ->
  exists x', fill_start KDS_CU OP_START xgq_exec_convert_start_cu_cmd p x = Some x' /\ start_command p x' /\
    xcmd_id x' = xcmd_id x /\ xcmd_hw_ctx_id x' = xcmd_hw_ctx_id x /\ xcmd_cu_idx x' = xcmd_cu_idx x.
Proof.
  intros Hop Hv Hlen Hm Hi Ht. pose proof (ert_extra_range p) as Hx. pose proof (valid_start_cu p Hop Hv) as Hc.
  destruct (fill_start_masks p) as (m0 & masks & E0 & E1 & E2); [lia|].
  destruct (xgq_start_cu_entry p (replicate (Z.to_nat (ert_count p)) 0)) as (info & Ei & I1 & I2 & I3 & I4 & I5 & I6);
    [done|done|done|rewrite length_replicate; pose proof (ert_count_range p); lia|].
  unfold fill_start. cbv zeta. rewrite E0, E1. cbn [mbind option_bind]. set (x0 := if z2b (ert_stat_enabled p) then _ else x).
  assert (xcmd_cu_mask x0 = replicate 4 0 /\ xcmd_info x0 = xcmd_info x /\ xcmd_id x0 = xcmd_id x /\
          xcmd_hw_ctx_id x0 = xcmd_hw_ctx_id x /\ xcmd_cu_idx x0 = xcmd_cu_idx x /\
          xcmd_timestamp_enabled x0 = z2b (ert_stat_enabled p)) as (X1 & X2 & X3 & X4 & X6 & X5).
  { subst x0. destruct (z2b (ert_stat_enabled p)); by split_and!. }
  clearbody x0. rproj. rewrite X1, E2, X2, Hi. cbn [mbind option_bind]. rewrite Ei. cbn [mbind option_bind fst snd].
  eexists. split; [reflexivity|]. split; [|by rproj]. constructor; rproj; try done.
  exists info. by split_and!.
Qed.

(** ** Submission *)

(** CU [i] is marked in the packet and open in the client's context. *)
Definition offered (c : kds_client) (p : ert_packet) (i : Z) : Prop :=
  0 <= i < 32 * (1 + ert_extra_cu_masks p) /\ mask_bit (packet_mask p) i = true /\ 0 < cl_ref DOMAIN_PL i c.

(** The lowest numbered of the least used CUs that are offered. *)
Definition chosen (m : kds_cu_mgmt) (c : kds_client) (p : ert_packet) (i : Z) : Prop :=
  offered c p i /\ forall j, offered c p j -> usage_of m i <= usage_of m j /\ (j < i -> usage_of m i < usage_of m j).

(** The client can have the command scheduled. *)
Record may_start s (p : ert_packet) : Prop := {
  ms_client : client_ok (io_client s);
  ms_held : held_present (io_kds s) (kds_cu_mgmt_ (io_kds s)) (io_client s) DOMAIN_PL;
  ms_number : Z.of_nat (length (marked_cus (packet_mask p) (1 + ert_extra_cu_masks p))) <= m_num_cus (kds_cu_mgmt_ (io_kds s));
  ms_offered : exists i, offered (io_client s) p i;
  ms_sched : forall i, offered (io_client s) p i -> schedulable (io_kds s) (kds_cu_mgmt_ (io_kds s)) i;
}.

Lemma packet_mask_wf p : 1 + ert_extra_cu_masks p <= Z.of_nat (length (ert_words p)) ->
  Forall (fun w => 0 <= w < 2 ^ 32) (ert_words p) -> masks_wf (packet_mask p).
Proof.
  intros Hl HF. pose proof (ert_extra_range p). split.
  - unfold packet_mask. rewrite length_app, length_take, length_replicate. lia.
  - unfold packet_mask. apply Forall_app. split; [by apply Forall_take|]. apply Forall_replicate. lia.
Qed.

Lemma start_candidate c p x i : start_command p x -> candidate c DOMAIN_PL x i <-> offered c p i.
Proof. intros []. unfold candidate, offered. by rewrite sc_mask0, sc_num_mask0. Qed.

(** The submission appends the command, with the index of the CU, to the queue
    of the chosen CU and counts it. *)
Lemma submit_start s p x :
  ie_closes env = [] -> start_command p x -> masks_wf (packet_mask p) -> may_start s p ->
  kds_xgq_enable (io_kds s) = true ->
  exists i q xcu kds', chosen (kds_cu_mgmt_ (io_kds s)) (io_client s) p i /\
    aget None (m_xcus (kds_cu_mgmt_ (io_kds s))) i = Some q /\ kds_heap (io_kds s) !! q = Some xcu /\
    kds_heap kds' = <[q := xrt_cu_submit xcu (set_xcmd_timestamp (ie_now env) (x <| xcmd_cu_idx := i |>) KDS_QUEUED)]> (kds_heap (io_kds s)) /\
    submit env s x = Some (0, s <| io_kds := kds' |>
      <| io_client := client_stat_inc (io_client s) (xcmd_hw_ctx_id x) S_CNT i |>).
Proof.
  intros Hcl Hx Hwf [M1 M2 M3 M4 M5] Hxgq.
  assert (cmd_ok x) as Hok.
  { split; [by rewrite (sc_mask _ _ Hx)|]. rewrite (sc_num_mask _ _ Hx). pose proof (ert_extra_range p). lia. }
  assert (Z.of_nat (length (cu_mask_to_cu_idx x)) <= m_num_cus (kds_cu_mgmt_ (io_kds s))) as Hnum.
  { rewrite cu_mask_to_cu_idx_marked by apply Hok. by rewrite (sc_mask _ _ Hx), (sc_num_mask _ _ Hx). }
  destruct (acquire_cu_idx_cases (io_kds s) _ _ DOMAIN_PL x id M1 close_ok_id (or_introl eq_refl) Hok M2)
    as [(e & He & Hwhy & E)|(i & Ech & [Hc Hl] & Hs & E)].
  { exfalso. destruct M4 as [j Hj].
    destruct He as [-> | ->].
    - destruct (Hwhy eq_refl) as [H|[H|(i & [Hi _] & H)]]; [lia|exact (H j (proj2 (start_candidate _ p x j Hx) Hj))|].
      apply H, M5. exact (proj1 (start_candidate _ p x i Hx) Hi).
    - clear Hwhy. unfold acquire_cu_idx in E.
      pose proof (choose_cu_cases (kds_cu_mgmt_ (io_kds s)) (io_client s) DOMAIN_PL x M1 (or_introl eq_refl) (proj1 Hok) (proj2 Hok)) as Hch.
      destruct (choose_cu _ _ _ _) as [e|i]; [destruct Hch as [-> _]; discriminate E|].
      destruct (M5 i) as (xcu & Ex & _ & Eu); [exact (proj1 (start_candidate _ p x i Hx) (proj1 Hch))|].
      rewrite Ex in E. cbn [mbind option_bind] in E. rewrite Eu in E.
      destruct (_ =? CTRL_NONE); [discriminate E|]. destruct (_ <? 0); [discriminate E|].
      destruct (_ =? 0); [discriminate E|]. assert (i = - EBUSY) as -> by congruence.
      pose proof (candidate_range _ _ _ _ Hok (proj1 Hch)) as Hr. unfold cu_range, EBUSY in Hr. lia. }
  pose proof (candidate_range _ _ _ _ Hok Hc) as Hr.
  assert ((cl_ref DOMAIN_PL i (id (io_client s)) =? 0) = false) as Hz.
  { destruct Hc as (_ & _ & Hc). unfold id. lia. }
  rewrite Hz in E. destruct Hs as (xcu & Ex & Hp & Hu).
  pose proof Ex as Ex'. unfold get_xcu in Ex'. destruct (aget None _ i) as [q|] eqn:Eq; [|done].
  cbn [mbind option_bind] in Ex'. unfold id in E.
  assert (acquire_loop (io_kds s) (kds_cu_mgmt_ (io_kds s)) (io_client s) DOMAIN_PL x (ie_closes env) =
    Some (i, bump_usage (kds_cu_mgmt_ (io_kds s)) i, client_stat_inc (io_client s) (xcmd_hw_ctx_id x) S_CNT i,
      x <| xcmd_cu_idx := i |>)) as El by (rewrite Hcl; exact E).
  unfold submit. unfold kds_add_command, kds_submit_cu, kds_cu_dispatch.
  rewrite (sc_type _ _ Hx), (sc_op _ _ Hx). cbn [Z.eqb KDS_CU].
  change (get_mgmt (io_kds s) DOMAIN_PL) with (kds_cu_mgmt_ (io_kds s)).
  exists i, q, xcu. rewrite El. cbn [mbind option_bind].
  assert ((i <? 0) = false) as -> by (unfold cu_range in Hr; lia).
  assert (get_xcu (put_mgmt (io_kds s) DOMAIN_PL (bump_usage (kds_cu_mgmt_ (io_kds s)) i))
            (bump_usage (kds_cu_mgmt_ (io_kds s)) i) i = Some xcu) as -> by exact Ex.
  cbn [mbind option_bind]. eexists. split.
  { split; [exact (proj1 (start_candidate _ p x i Hx) Hc)|]. intros j Hj. apply Hl. exact (proj2 (start_candidate _ p x j Hx) Hj). }
  split; [done|]. split; [done|]. split; [|reflexivity].
  assert (forall (b : bool) k, kds_heap (if b then k <| kds_polling_start := 1 |> else k) = kds_heap (C := C) k) as -> by (by intros []).
  unfold upd_xcu. change (m_xcus (bump_usage (kds_cu_mgmt_ (io_kds s)) i)) with (m_xcus (kds_cu_mgmt_ (io_kds s))).
  rewrite Eq. rproj. by rewrite heap_put_mgmt, (alter_insert_eq _ _ _ xcu).
Qed.

(** ** The request *)

Lemma start_command_copied b ecmd x :
  ert_extra_cu_masks (bo_pkt b) + 1 + 4 <= ert_count (bo_pkt b) -> copied b ecmd ->
  start_command ecmd x -> start_command (bo_pkt b) x /\ packet_mask ecmd = packet_mask (bo_pkt b).
Proof.
  intros Hc (C1 & C2 & C3 & C4 & C5 & C6) []. pose proof (ert_extra_range (bo_pkt b)).
  assert (packet_mask ecmd = packet_mask (bo_pkt b)) as Em.
  { apply packet_mask_ext; [done|]. eapply take_of_take; [|exact C6]. lia. }
  assert (packet_regmap ecmd = packet_regmap (bo_pkt b)) as Er.
  { unfold packet_regmap. rewrite C2, C3, !take_drop_commute.
    replace (_ + _)%nat with (Z.to_nat (ert_count (bo_pkt b))) by lia. by rewrite C6. }
  rewrite Em, C2, C3, C4, Er in *. split; [|done]. by constructor.
Qed.

(** The state in which the command is submitted. *)
Definition to_submit s (a : Z) (b : drm_xocl_bo) (ecmd : ert_packet) : xocl_io C :=
  s <| io_objs := <[a := new_state (b <| bo_refs ::= fun n => n + 1 |>)]> (io_objs s) |>
    <| io_cmds := <[ie_id env := mk_cmd_priv ecmd a true None]> (io_cmds s) |>.

Lemma start_request_submits s h a b ctx : quiet_env -> start_request s h a b ->
  exists ecmd x, copied b ecmd /\ start_command (bo_pkt b) x /\
    xcmd_id x = ie_id env /\ xcmd_hw_ctx_id x = ctx /\ xcmd_cu_idx x = NO_INDEX /\
    xocl_command_ioctl env s h ctx None = submit env (to_submit s a b ecmd) x.
Proof.
  intros [Q1 Q2 Q3] R. pose proof R as []. pose proof (valid_start_cu _ sr_op0 sr_valid0) as Hv.
  set (s1 := s <| io_objs ::= insert a (b <| bo_refs ::= fun n => n + 1 |>) |>).
  destruct (validate_start s h a b _ R eq_refl s1 eq_refl) as (ecmd & Ev & Hcp).
  pose proof Hcp as (C1 & C2 & C3 & C4 & C5 & _).
  assert (1 + ert_count (bo_pkt b) <= bo_size b / 4) as Hfit by (apply Z.div_le_lower_bound; lia).
  assert (0 < ert_count ecmd) as Hpos by (rewrite C2; pose proof (ert_extra_range (bo_pkt b)); lia).
  destruct (kds_alloc_command (true, true) (ie_id env) (cl_addr (io_client s)) (ert_count ecmd * 4)) as [x0|] eqn:Ex0.
  2: { exfalso. revert Ex0. unfold kds_alloc_command. cbn [negb fst snd]. by destruct (_ =? 0). }
  assert (xcmd_id x0 = ie_id env /\ xcmd_cu_mask x0 = replicate 4 0 /\ xcmd_timestamp_enabled x0 = false /\
          xcmd_cu_idx x0 = NO_INDEX /\ xcmd_info x0 = Some (replicate (Z.to_nat (ert_count ecmd)) 0)) as (X1 & X2 & X3 & X5 & X4).
  { pose proof (kds_alloc_command_ok _ _ _ _ Hpos Ex0) as (_ & Hi & _).
    split_and!; [..|exact Hi]; revert Ex0; unfold kds_alloc_command; cbn [negb fst snd];
      by destruct (_ =? 0); intros [= <-]. }
  destruct (fill_start_ok ecmd (x0 <| xcmd_exec_bo_handle := h |> <| xcmd_hw_ctx_id := ctx |>))
    as (x & Ef & Hx & I1 & I2 & I3); [congruence| |lia|done|done|done|].
  { rewrite valid_opcode_start in * by congruence. by rewrite C2, C3. }
  destruct (start_command_copied b ecmd x Hv Hcp Hx) as [Hxb Hm]. rproj.
  exists ecmd, x. split; [done|]. split; [done|]. split; [congruence|]. split; [congruence|]. split; [congruence|].
  unfold xocl_command_ioctl. rewrite sr_good0. rewrite (bool_decide_eq_false_2 (cl_hw_ctx_list _ = [])), andb_false_r by done.
  unfold gem_lookup. rewrite sr_handle0. cbn [mbind option_bind]. rewrite sr_obj0. cbn [mbind option_bind]. fold s1.
  change (bo_exec (b <| bo_refs ::= _ |>)) with (bo_exec b). change (bo_size (b <| bo_refs ::= _ |>)) with (bo_size b).
  rewrite sr_exec0, Q2, Ev. cbn [negb]. assert ((bo_size b <? 4096) = false) as -> by lia.
  rewrite Q1. change (cl_addr (io_client (s1 <| io_objs ::= _ |>))) with (cl_addr (io_client s)). rewrite Ex0.
  unfold fill_and_submit. rproj. change (io_kds s1) with (io_kds s). rewrite sr_xgq0, X1.
  unfold xocl_fill_payload_xgq. rewrite C1, sr_op0. cbn [Z.eqb orb ERT_START_CU ERT_CONFIGURE ERT_SK_CONFIG ERT_SK_START Pos.eqb].
  rewrite Ef. cbn [mbind option_bind]. f_equal.
  unfold to_submit, s1. destruct s. unfold upd. cbn. by rewrite insert_insert_eq.
Qed.

Lemma start_request_wf s h a b : start_request s h a b -> masks_wf (packet_mask (bo_pkt b)).
Proof.
  intros []. pose proof (valid_start_cu _ sr_op0 sr_valid0) as Hv.
  assert (1 + ert_count (bo_pkt b) <= bo_size b / 4) as Hfit by (apply Z.div_le_lower_bound; lia).
  apply packet_mask_wf; [|done]. pose proof (ert_extra_range (bo_pkt b)). lia.
Qed.
End Start.

(** ** Completion *)

(** A packet [q] that differs from [p] only behind word [n]. *)
Definition same_upto (n : Z) (p q : ert_packet) : Prop :=
  ert_header q = ert_header p /\ length (ert_words q) = length (ert_words p) /\
  take (Z.to_nat n) (ert_words q) = take (Z.to_nat n) (ert_words p).

Lemma same_upto_refl n p : same_upto n p p.
Proof. done. Qed.
Lemma same_upto_trans n p q r : same_upto n p q -> same_upto n q r -> same_upto n p r.
Proof. intros (A1 & A2 & A3) (B1 & B2 & B3). split_and!; congruence. Qed.

Lemma take_aset n (l : list Z) i v : Z.of_nat n <= i -> take n (aset l i v) = take n l.
Proof. intros Hi. unfold aset. rewrite take_insert_ge by lia. done. Qed.

(** The 64 bits stored at byte [off]. *)
Definition get_u64 (p : ert_packet) (off : Z) : Z :=
  aget 0 (ert_words p) (off / 4 - 1) + 2 ^ 32 * aget 0 (ert_words p) (off / 4).

Lemma u64_halves v : 0 <= v < 2 ^ 64 -> u32 v + 2 ^ 32 * u32 (Z.shiftr v 32) = v.
Proof.
  intros Hv. unfold u32. rewrite Z.shiftr_div_pow2 by lia.
  rewrite (Z.mod_small (v / 2 ^ 32)) by (split; [apply Z.div_pos; lia|apply Z.div_lt_upper_bound; lia]).
  pose proof (Z.div_mod v (2 ^ 32) ltac:(lia)). lia.
Qed.

Lemma put_u64_ok n p j v : 1 <= j -> 0 <= n <= 2 * j - 1 -> 2 * j < Z.of_nat (length (ert_words p)) ->
  exists q, put_u64 p (8 * j) v = Some q /\ same_upto n p q /\ (0 <= v < 2 ^ 64 -> get_u64 q (8 * j) = v).
Proof.
  intros Hj Hn Hl. unfold put_u64, get_u64. replace (8 * j / 4) with (2 * j) by (rewrite <- (Z.div_mul (2 * j) 4); [f_equal|]; lia).
  unfold aset_chk. assert (in_arr (ert_words p) (2 * j - 1) = true) as -> by (apply in_arr_true; lia).
  cbn [mbind option_bind]. assert (in_arr (aset (ert_words p) (2 * j - 1) (u32 v)) (2 * j) = true) as ->
    by (apply in_arr_true; rewrite length_aset; lia).
  eexists. split; [reflexivity|]. split.
  - split_and!; rproj; [done|by rewrite !length_aset|]. rewrite !take_aset by lia. done.
  - intros Hv. rproj. rewrite aget_aset_ne, !aget_aset_eq by (rewrite ?length_aset; lia). by apply u64_halves.
Qed.

Lemma state_num_range st : st <> KDS_STAT_MAX -> 1 <= ert_state_num (kds_ert_table st) < 12.
Proof. by destruct st; cbn; intros; lia || done. Qed.

Lemma ert_state_set v p : 0 <= v < 16 -> ert_state (set_ert_state v p) = v.
Proof. intros H. unfold ert_state, set_ert_state. rproj. rewrite field_set_same by lia. by apply Z.mod_small. Qed.

(** The room for the time stamps behind the payload of a packet. *)
Definition stamps_fit (p : ert_packet) : Prop :=
  ert_start_kernel_timestamps p + sizeof_timestamps <= 4 + 4 * Z.of_nat (length (ert_words p)).

Lemma write_timestamps_ok x st p :
  st <> KDS_STAT_MAX -> 1 <= ert_state p < 12 -> (xcmd_timestamp_enabled x = true -> stamps_fit p) ->
  exists q, write_timestamps x st p = Some q /\ same_upto (ert_count p) p q /\
    (xcmd_timestamp_enabled x = true -> 0 <= aget 0 (xcmd_timestamp x) (status_ix st) < 2 ^ 64 ->
     get_u64 q (ert_start_kernel_timestamps q + 8 * ert_state q) = aget 0 (xcmd_timestamp x) (status_ix st)).
Proof.
  intros Hst Hs Hfit. unfold write_timestamps. destruct (xcmd_timestamp_enabled x); cbn [negb].
  2: { exists p. by split_and!; [| apply same_upto_refl|]. }
  specialize (Hfit eq_refl). unfold stamps_fit, ert_start_kernel_timestamps, sizeof_timestamps in *.
  pose proof (ert_count_range p) as Hc.
  set (t := (ert_count p * 4 + 4 + 7) / 8) in *.
  assert (ert_count p + 1 <= 2 * t) as Ht by (subst t; pose proof (Z.div_mod (ert_count p * 4 + 4 + 7) 8 ltac:(lia)); pose proof (Z.mod_pos_bound (ert_count p * 4 + 4 + 7) 8 ltac:(lia)); lia).
  set (stamp := fun s => aget 0 (xcmd_timestamp x) (status_ix s)).
  assert (forall q k v, same_upto (ert_count p) p q -> 1 <= k < 12 -> exists q', put_u64 q (t * 8 + 8 * k) v = Some q' /\
    same_upto (ert_count p) p q' /\ (0 <= v < 2 ^ 64 -> get_u64 q' (t * 8 + 8 * k) = v)) as Hput.
  { intros q k v Hq Hk. replace (t * 8 + 8 * k) with (8 * (t + k)) by lia.
    destruct (put_u64_ok (ert_count p) q (t + k) v) as (q' & E & Hq' & Hv); [lia|lia|destruct Hq as (_ & -> & _); lia|].
    exists q'. split; [done|]. split; [by apply same_upto_trans with q|done]. }
  destruct (Hput p (ert_state_num ERT_CMD_STATE_NEW) (stamp KDS_NEW)) as (q1 & E1 & H1 & _); [apply same_upto_refl|cbn; lia|].
  destruct (Hput q1 (ert_state_num ERT_CMD_STATE_QUEUED) (stamp KDS_QUEUED)) as (q2 & E2 & H2 & _); [done|cbn; lia|].
  destruct (Hput q2 (ert_state_num ERT_CMD_STATE_RUNNING) (stamp KDS_RUNNING)) as (q3 & E3 & H3 & _); [done|cbn; lia|].
  destruct (Hput q3 (ert_state p) (stamp st)) as (q4 & E4 & H4 & G4); [done|done|].
  cbv zeta. subst stamp. cbv beta in *. rewrite E1. cbn [mbind option_bind]. rewrite E2. cbn [mbind option_bind]. rewrite E3.
  cbn [mbind option_bind]. replace (ert_state q3) with (ert_state p) by (unfold ert_state; by destruct H3 as (-> & _)).
  exists q4. split; [done|]. split; [done|]. intros _ Hv. unfold ert_count, ert_state. destruct H4 as (-> & _). by apply G4.
Qed.

(** The counters of completed commands have an entry for each CU. *)
Definition stats_wf (c : kds_client) : Prop :=
  Forall (fun h => length (c_cnt (hw_stats h)) = MAX_CUS) (cl_hw_ctx_list c).

Lemma stat_inc_chk_ok c hw i : stats_wf c -> cu_range i ->
  stat_inc_chk c hw C_CNT i = Some (client_stat_inc c hw C_CNT i).
Proof.
  intros Hw Hi. unfold stat_inc_chk.
  destruct (existsb _ _) eqn:H; [exfalso|done]. apply existsb_exists in H as (h & Hin & H).
  apply list_elem_of_In in Hin. eapply Forall_forall in Hin; [|exact Hw]. cbn [stat_get] in H.
  unfold in_arr in H. rewrite Hin in H. unfold cu_range in Hi. lia.
Qed.

Lemma stats_wf_inc c hw i : stats_wf c -> stats_wf (client_stat_inc c hw S_CNT i).
Proof.
  unfold stats_wf, client_stat_inc, client_stat_add. rproj. intros Hw. apply Forall_fmap, (Forall_impl _ _ _ Hw).
  intros h Hh. unfold compose. by destruct (_ =? _).
Qed.

Lemma alter_at {A} (m : gmap Z A) i f x : m !! i = Some x -> alter f i m = <[i := f x]> m.
Proof.
  intros Hi. apply map_eq. intros j. destruct (decide (j = i)) as [->|Hn].
  - by rewrite lookup_alter_eq, lookup_insert_eq, Hi.
  - by rewrite lookup_alter_ne, lookup_insert_ne.
Qed.

(** What the application finds after the completion of [x] on the packet [p]. *)
Definition written_back (x : kds_command) (st : kds_status) (p q : ert_packet) : Prop :=
  same_upto (ert_count p) (set_ert_state (ert_state_num (kds_ert_table st)) p) q /\
  ert_state q = ert_state_num (kds_ert_table st) /\
  (xcmd_timestamp_enabled x = true -> 0 <= aget 0 (xcmd_timestamp x) (status_ix st) < 2 ^ 64 ->
   get_u64 q (ert_start_kernel_timestamps q + 8 * ert_state q) = aget 0 (xcmd_timestamp x) (status_ix st)).

Lemma notify_start_ok {C} (s : xocl_io C) x st p b :
  io_cmds s !! xcmd_id x = Some p -> cp_xgq p = true -> cp_cb p = None -> io_objs s !! cp_obj p = Some b ->
  xcmd_opcode x = OP_START -> st <> KDS_STAT_MAX -> stats_wf (io_client s) -> cu_range (xcmd_cu_idx x) ->
  (xcmd_timestamp_enabled x = true -> stamps_fit (bo_pkt b)) ->
  exists q s', notify_host s x st = Some s' /\ written_back x st (bo_pkt b) q /\
    io_objs s' = <[cp_obj p := b <| bo_pkt := q |> <| bo_refs ::= fun n => n - 1 |>]> (io_objs s) /\
    io_cmds s' = io_cmds s /\ io_event s' = io_event s + 1 /\
    io_client s' = client_stat_inc (io_client s) (xcmd_hw_ctx_id x) C_CNT (xcmd_cu_idx x).
Proof.
  intros Hp Hx Hcb Hb Hop Hst Hw Hi Hfit. pose proof (state_num_range st Hst) as Hr.
  set (v := ert_state_num (kds_ert_table st)) in *.
  destruct (set_state_fields v (bo_pkt b)) as (_ & F2 & _).
  assert (ert_state (set_ert_state v (bo_pkt b)) = v) as Hv by (apply ert_state_set; lia).
  destruct (write_timestamps_ok x st (set_ert_state v (bo_pkt b)) Hst) as (q & Eq & Hq & Hg).
  { by rewrite Hv. }
  { intros Ht. specialize (Hfit Ht). unfold stamps_fit, ert_start_kernel_timestamps in *. by rewrite F2. }
  rewrite F2 in Hq. exists q. unfold notify_host. rewrite Hp. cbn [mbind option_bind]. rewrite Hx.
  unfold notify_execbuf_xgq. rewrite Hp. cbn [mbind option_bind]. rewrite Hb. cbn [mbind option_bind]. rewrite Hop.
  rewrite (bool_decide_eq_false_2 (OP_START = OP_GET_STAT)), (bool_decide_eq_false_2 (OP_START = OP_START_SK)) by done.
  rewrite bool_decide_eq_true_2 by done. cbn [mbind option_bind fst snd]. fold v. rewrite Eq. cbn [mbind option_bind].
  rewrite stat_inc_chk_ok by done. cbn [mbind option_bind].
  eexists. split; [reflexivity|]. split.
  { split; [done|]. split; [|done]. unfold ert_state in *. by destruct Hq as (-> & _). }
  unfold notify_done. rewrite Hcb. unfold gem_put, put_pkt. rproj. split_and!; try done.
  rewrite (alter_at (io_objs s) _ _ b Hb), (alter_at _ _ _ _ (lookup_insert_eq _ _ _)). by rewrite insert_insert_eq.
Qed.

(** C10. A start command of an application that has a context, in a well-formed
    exec buffer which marks CUs that are open and take commands, reaches
    exactly one CU: the lowest numbered of the least used ones gets, at the end
    of its queue, an XGQ entry (a new START_CUIDX command of the PL domain with
    the size of the payload) whose payload is the register map the application
    wrote; the buffer has the state NEW and is held.  When the command is done
    with any status, the buffer has that state and is held no longer, the rest
    of the packet and its payload are as the application wrote them, the time
    stamp of the status is stored when asked for, the command is counted as
    completed on that CU, and the application is told once. *)
Theorem start_cu_round_trip {C} (env : io_env C) s h a b ctx :
  quiet_env env -> start_request s h a b -> may_start s (bo_pkt b) -> stats_wf (io_client s) ->
  exists s1 x i q xcu,
    xocl_command_ioctl env s h ctx None = Some (0, s1) /\
    chosen (kds_cu_mgmt_ (io_kds s)) (io_client s) (bo_pkt b) i /\
    start_command (bo_pkt b) x /\ xcmd_id x = ie_id env /\ xcmd_cu_idx x = i /\ xcmd_hw_ctx_id x = ctx /\
    aget None (m_xcus (kds_cu_mgmt_ (io_kds s))) i = Some q /\ kds_heap (io_kds s) !! q = Some xcu /\
    kds_heap (io_kds s1) = <[q := xrt_cu_submit xcu x]> (kds_heap (io_kds s)) /\
    io_objs s1 !! a = Some (new_state (b <| bo_refs ::= fun n => n + 1 |>)) /\
    forall x' st, xcmd_id x' = xcmd_id x -> xcmd_opcode x' = OP_START -> xcmd_cu_idx x' = i ->
      xcmd_hw_ctx_id x' = ctx -> xcmd_timestamp_enabled x' = xcmd_timestamp_enabled x -> st <> KDS_STAT_MAX ->
      exists s2 b2, notify_host s1 x' st = Some s2 /\ io_objs s2 !! a = Some b2 /\ bo_refs b2 = bo_refs b /\
        written_back x' st (bo_pkt (new_state b)) (bo_pkt b2) /\ io_event s2 = io_event s + 1 /\
        io_client s2 = client_stat_inc (client_stat_inc (io_client s) ctx S_CNT i) ctx C_CNT i.
Proof.
  intros Q R M W. destruct (start_request_submits env s h a b ctx Q R) as (ecmd & x & Hcp & Hx & X1 & X2 & _ & E).
  assert (may_start (to_submit env s a b ecmd) (bo_pkt b)) as M2 by (by destruct M).
  destruct (submit_start env (to_submit env s a b ecmd) (bo_pkt b) x (qe_closes _ Q) Hx (start_request_wf s h a b R) M2 (sr_xgq _ _ _ _ R))
    as (i & q & xcu & kds' & Hch & Hq & Hxcu & Hheap & Es).
  rewrite Es, X2 in E.
  eexists _, (set_xcmd_timestamp (ie_now env) (x <| xcmd_cu_idx := i |>) KDS_QUEUED), i, q, xcu. split; [exact E|].
  split; [done|].
  assert (forall y, start_command (bo_pkt b) y -> start_command (bo_pkt b) (y <| xcmd_cu_idx := i |>)) as Hidx by (by intros y []).
  assert (forall y, start_command (bo_pkt b) y -> start_command (bo_pkt b) (set_xcmd_timestamp (ie_now env) y KDS_QUEUED)
    /\ xcmd_id (set_xcmd_timestamp (ie_now env) y KDS_QUEUED) = xcmd_id y /\ xcmd_cu_idx (set_xcmd_timestamp (ie_now env) y KDS_QUEUED) = xcmd_cu_idx y
    /\ xcmd_hw_ctx_id (set_xcmd_timestamp (ie_now env) y KDS_QUEUED) = xcmd_hw_ctx_id y) as Hts.
  { intros y Hy. unfold set_xcmd_timestamp. destruct (negb _); [by split_and!|]. split_and!; [by destruct Hy|done..]. }
  destruct (Hts (x <| xcmd_cu_idx := i |>) (Hidx x Hx)) as (T1 & T2 & T3 & T4).
  split; [done|]. split; [by rewrite T2|]. split; [by rewrite T3|]. split; [by rewrite T4|].
  split; [done|]. split; [done|]. split; [by rproj|]. split; [unfold to_submit; rproj; apply lookup_insert_eq|].
  intros x' st Y1 Y2 Y3 Y4 Y5 Hst.
  edestruct (notify_start_ok (to_submit env s a b ecmd <| io_kds := kds' |> <| io_client := client_stat_inc (io_client s) ctx S_CNT i |>) x' st (mk_cmd_priv ecmd a true None))
    as (p2 & s2 & E2 & Hw & Ho & _ & Hev & Hcl); [..|exists s2; eexists; split; [exact E2|]].
  - unfold to_submit. rproj. rewrite Y1, T2. rproj. rewrite X1. apply lookup_insert_eq.
  - done.
  - done.
  - unfold to_submit. rproj. apply lookup_insert_eq.
  - done.
  - done.
  - rproj. by apply stats_wf_inc.
  - rewrite Y3. destruct Hch as [(H1 & _) _]. unfold cu_range, MAX_CUS. pose proof (ert_extra_range (bo_pkt b)). lia.
  - rewrite Y5, (sc_stamps _ _ T1). intros Ht. destruct R. unfold z2b in Ht.
    destruct (set_state_fields (ert_state_num ERT_CMD_STATE_NEW) (bo_pkt b)) as (_ & F2 & _).
    unfold stamps_fit, ert_start_kernel_timestamps in *. unfold new_state. rproj. rewrite F2.
    change (ert_words (set_ert_state _ _)) with (ert_words (bo_pkt b)). rewrite sr_words0.
    assert (ert_stat_enabled (bo_pkt b) <> 0) as Hne by lia. specialize (sr_stamps0 Hne).
    pose proof (Z.div_mod (bo_size b) 4 ltac:(lia)). unfold sizeof_timestamps in *.
    pose proof (Z.mod_pos_bound (bo_size b) 4 ltac:(lia)). lia.
  - rewrite Ho. split; [apply lookup_insert_eq|]. rproj. rewrite Y3, Y4 in Hcl. split; [unfold new_state; rproj; lia|]. done.
Qed.

(** ** A refused start command *)

Lemma submit_refused {C} (env : io_env C) s p x hw :
  ie_closes env = [] -> start_command p x -> masks_wf (packet_mask p) -> client_ok (io_client s) ->
  (forall i, ~ offered (io_client s) p i) -> io_cmds s !! xcmd_id x <> None -> xcmd_cu_idx x = NO_INDEX ->
  (forall pr, io_cmds s !! xcmd_id x = Some pr -> cp_xgq pr = true) ->
  hw ∈ cl_hw_ctx_list (io_client s) -> hw_ctx_idx hw = xcmd_hw_ctx_id x -> submit env s x = None.
Proof.
  intros Hcl Hx Hwf Hc Hno Hcmd Hidx Hxgq Hin Hhw.
  assert (acquire_loop (io_kds s) (kds_cu_mgmt_ (io_kds s)) (io_client s) DOMAIN_PL x (ie_closes env) =
    Some (- EINVAL, kds_cu_mgmt_ (io_kds s), io_client s, x)) as El.
  { rewrite Hcl. cbn [acquire_loop]. unfold acquire_cu_idx.
    pose proof (choose_cu_cases (kds_cu_mgmt_ (io_kds s)) (io_client s) DOMAIN_PL x Hc (or_introl eq_refl)) as Hch.
    rewrite (sc_mask _ _ Hx), (sc_num_mask _ _ Hx) in Hch. pose proof (ert_extra_range p).
    specialize (Hch Hwf ltac:(lia)). destruct (choose_cu _ _ _ _) as [e|i]; [by destruct Hch as [-> _]|].
    exfalso. apply (Hno i). exact (proj1 (start_candidate _ p x i Hx) (proj1 Hch)). }
  unfold submit, kds_add_command, kds_submit_cu, kds_cu_dispatch, after_acquire.
  rewrite (sc_type _ _ Hx), (sc_op _ _ Hx). cbn [Z.eqb KDS_CU KDS_SCU Pos.eqb].
  change (get_mgmt (io_kds s) DOMAIN_PL) with (kds_cu_mgmt_ (io_kds s)). rewrite El. cbn [mbind option_bind].
  change (- EINVAL <? 0) with true. cbn [mbind option_bind]. change (z2b (- EINVAL)) with true.
  cbn [app notify_free foldl run_event mbind option_bind].
  match goal with |- context [notify_host ?s0 x KDS_ERROR] => set (s1 := s0); assert (notify_host s1 x KDS_ERROR = None) as -> end; [|done].
  unfold notify_host. change (io_cmds s1) with (io_cmds s). destruct (io_cmds s !! xcmd_id x) as [pr|] eqn:Ep; [|done].
  cbn [mbind option_bind]. rewrite (Hxgq pr eq_refl). unfold notify_execbuf_xgq. change (io_cmds s1) with (io_cmds s). rewrite Ep.
  cbn [mbind option_bind]. destruct (io_objs s1 !! cp_obj pr) as [obj|]; [|done]. cbn [mbind option_bind].
  rewrite (sc_op _ _ Hx).
  rewrite (bool_decide_eq_false_2 (OP_START = OP_GET_STAT)), (bool_decide_eq_false_2 (OP_START = OP_START_SK)) by done.
  rewrite bool_decide_eq_true_2 by done. cbn [mbind option_bind fst snd].
  destruct (write_timestamps _ _ _) as [q|]; [|done]. cbn [mbind option_bind]. change (io_client s1) with (io_client s).
  assert (stat_inc_chk (io_client s) (xcmd_hw_ctx_id x) C_CNT (xcmd_cu_idx x) = None) as ->; [|done].
  unfold stat_inc_chk. assert (existsb (fun h => (hw_ctx_idx h =? xcmd_hw_ctx_id x) &&
    negb (in_arr (stat_get C_CNT (hw_stats h)) (xcmd_cu_idx x))) (cl_hw_ctx_list (io_client s)) = true) as ->; [|done].
  apply existsb_exists. exists hw. split; [by apply list_elem_of_In|]. by rewrite Hhw, Z.eqb_refl, Hidx.
Qed.


(** ** Instances of the theorems *)

(** A start command of CU 0 with two register words and time stamps, in a buffer
    of a page; the client holds CU 0 in its hardware context 1. *)
Definition demo_packet : ert_packet :=
  mk_ert_packet (set_field (set_field 1 4 1 1) 12 11 7) ([1; 0; 0; 0; 0; 0xaa; 0xbb] ++ replicate 1016 0).
Definition demo_bo : drm_xocl_bo := mk_bo 4096 true None 0 demo_packet.
Definition demo_io : xocl_io unit :=
  mk_io (demo_held <| kds_xgq_enable := true |>)
    (demo_holder <| cl_hw_ctx_list := [mk_hw_ctx 1 5 0 [] [] stats_zero] |>) 0
    {[ 3 := 30 ]} {[ 30 := demo_bo ]} empty [] [] 0.
Definition demo_env : io_env unit := mk_io_env _ (true, true) true true 9 100 (fun _ k x => (k, x)) [] 0 false.

(** The same with a client that has no CU open. *)
Definition demo_io_none : xocl_io unit :=
  demo_io <| io_client := demo_client 7 <| cl_hw_ctx_list := [mk_hw_ctx 1 5 0 [] [] stats_zero] |> |>.

Lemma demo_quiet : quiet_env demo_env.
Proof. by constructor. Qed.

Lemma demo_request (s : xocl_io unit) : io_client s = io_client demo_io \/ io_client s = io_client demo_io_none ->
  io_kds s = io_kds demo_io -> io_handles s = io_handles demo_io -> io_objs s = io_objs demo_io ->
  start_request s 3 30 demo_bo.
Proof.
  intros Hc Hk Hh Ho. constructor.
  - by destruct Hc as [-> | ->].
  - rewrite Hk. vm_compute. reflexivity.
  - rewrite Hk. vm_compute. reflexivity.
  - rewrite Hh. reflexivity.
  - rewrite Ho. reflexivity.
  - reflexivity.
  - cbn [demo_bo bo_size]. lia.
  - vm_compute. reflexivity.
  - cbn [demo_bo bo_pkt demo_packet ert_words]. apply Forall_app. split; [|apply Forall_replicate; lia].
    repeat constructor; lia.
  - reflexivity.
  - reflexivity.
  - vm_compute. congruence.
  - intros _. vm_compute. congruence.
Qed.

Lemma demo_offered c i : offered c demo_packet i -> i = 0.
Proof.
  intros (Hi & Hb & _). change (32 * (1 + ert_extra_cu_masks demo_packet)) with 32 in Hi.
  assert (exists n, i = Z.of_nat n /\ (n < 32)%nat) as (n & -> & Hn) by (exists (Z.to_nat i); lia).
  do 32 (destruct n as [|n]; [vm_compute in Hb; (reflexivity || discriminate Hb)|]). lia.
Qed.

Lemma demo_may_start : may_start demo_io demo_packet.
Proof.
  constructor.
  - exact demo_holder_ok.
  - apply held_presentb_ok. vm_compute. reflexivity.
  - vm_compute. congruence.
  - exists 0. unfold offered. vm_compute. split_and!; congruence.
  - intros i ->%demo_offered. eexists. split; [reflexivity|]. split; [vm_compute; congruence|reflexivity].
Qed.

Lemma start_cu_round_trip_witness :
  exists s1, xocl_command_ioctl demo_env demo_io 3 1 None = Some (0, s1) /\
    bo_refs <$> io_objs s1 !! 30 = Some 1.
Proof.
  destruct (start_cu_round_trip demo_env demo_io 3 30 demo_bo 1 demo_quiet) as (s1 & x & i & q & xcu & E & H).
  - apply demo_request; [by left|done..].
  - exact demo_may_start.
  - repeat constructor.
  - exists s1. split; [exact E|]. destruct H as (_ & _ & _ & _ & _ & _ & _ & _ & -> & _). reflexivity.
Defined.


(** ** The references to the buffers *)


(** A file on which the command is submitted and completed, with the buffer
    overwritten by the application in between. *)
Definition demo_started : xocl_io unit :=
  match xocl_command_ioctl demo_env demo_io 3 1 None with Some (_, s) => s | None => demo_io end.
Definition demo_done : kds_command :=
  mk_kds_command 9 7 KDS_COMPLETED 0 0 1 KDS_CU OP_START true REGMAP None 0 true [1; 2; 3; 4; 0; 0; 0; 0] [1; 0; 0; 0] 1 3.
Definition demo_notified : xocl_io unit :=
  match notify_host (put_pkt demo_started 30 (set_ert_state 12 demo_packet)) demo_done KDS_COMPLETED with
  | Some s => s | None => demo_io end.
Definition demo_finished : xocl_io unit := demo_notified <| io_cmds ::= delete (xcmd_id demo_done) |>.


(** With XGQ a copy between two buffers in the memory of the board is filled in
    for a CU and then dropped: the call succeeds, the command is freed without a
    submission or a notification, and the buffer stays held. *)
Definition demo_copy : ert_packet :=
  mk_ert_packet (set_field (set_field 1 12 11 16) 23 5 ERT_START_COPYBO)
    (replicate 10 0 ++ [4; 0; 0; 4; 64] ++ replicate 1008 0).
Definition demo_io_copy : xocl_io unit :=
  demo_io <| io_handles := {[ 3 := 30; 4 := 40 ]} |>
          <| io_objs := {[ 30 := mk_bo 4096 true None 0 demo_copy; 40 := mk_bo 4096 false (Some 0) 0 demo_copy ]} |>.

Example xgq_copy_dropped : exists s', xocl_command_ioctl demo_env demo_io_copy 3 1 None = Some (0, s') /\
  io_cmds s' = empty /\ io_event s' = 0 /\ bo_refs <$> io_objs s' !! 30 = Some 1 /\
  kds_heap (io_kds s') = kds_heap (io_kds demo_io_copy).
Proof.
  eexists. split; [vm_compute; reflexivity|]. split; [vm_compute; reflexivity|]. split; [reflexivity|].
  split; vm_compute; reflexivity.
Qed.
