(* ===== verification/XoclIcap.v ===== *)
(** * Locks on the loaded bitstreams

    The slots of [xocl/subdev/icap.c] as the users of a bitstream see them: a
    slot counts the contexts that need its bitstream ([icap_bitstream_ref]) and
    the readers of its metadata, and is busy while a bitstream is loaded.

    UUIDs live in a heap by address, since other components keep pointers to
    them: the UUID of a slot is a field of the slot, which is freed when the
    slot is initialised again.  [None] as a result is an access through NULL or
    to freed memory, outside the table, or a [BUG_ON]. *)
From S2P Require Import Prelude.

Definition MAX_SLOT_SUPPORT : nat := 128.
Definition uuid_null : Z := 0.
Definition XCLBIN_UUID : Z := 41.

(** [is_uuid]: the address of [icap_bitstream_uuid]; [is_meta]: the sections of
    the xclbin, by kind. *)
Record islot_info := mk_islot {
  is_uuid : Z;
  is_ref : Z;
  is_busy : Z;
  is_reader : Z;
  is_meta : gmap Z Z;
}.
#[export] Instance eta_islot : Eta islot_info := fun i => mk_islot (is_uuid i) (is_ref i) (is_busy i) (is_reader i) (is_meta i).

Record icap := mk_icap { ic_slots : list (option islot_info); ic_uuids : gmap Z Z }.
#[export] Instance eta_icap : Eta icap := fun i => mk_icap (ic_slots i) (ic_uuids i).

(** [icap->slot_info[slot_id]] *)
Definition slot_info (ic : icap) (slot : Z) : option (option islot_info) := aget_chk None (ic_slots ic) slot.
(** The same, dereferenced. *)
Definition islot_at (ic : icap) (slot : Z) : option islot_info := p ← slot_info ic slot; p.
Definition put_islot (ic : icap) (slot : Z) (i : option islot_info) : icap := ic <| ic_slots ::= fun l => aset l slot i |>.

(** The slot is freed, and [addr] is the address of the UUID in the new one. *)
Definition icap_slot_init (alloc : bool) (addr : Z) (ic : icap) (slot : Z) : option (Z * icap) :=
  p ← slot_info ic slot;
  let ic := match p with
            | Some i => put_islot ic slot None <| ic_uuids ::= delete (is_uuid i) |>
            | None => ic
            end in
  if negb alloc then Some (- ENOMEM, ic)
  else Some (0, put_islot ic slot (Some (mk_islot addr 0 0 0 empty)) <| ic_uuids ::= insert addr uuid_null |>).

(** [wait]: what the wait for the readers returns; [leave]: what they do
    meanwhile. *)
Definition icap_xclbin_wr_lock (pid wait : Z) (leave : islot_info -> islot_info) (ic : icap) (slot : Z) : option (Z * icap) :=
  i ← islot_at ic slot;
  if z2b (is_busy i) then Some (- EBUSY, ic)
  else
    let i := leave (i <| is_busy := pid |>) in
    let ic := put_islot ic slot (Some i) in
    if z2b wait then Some (wait, ic)
    else if z2b (is_reader i) then None
    else Some (0, ic).

Definition icap_xclbin_wr_unlock (pid : Z) (ic : icap) (slot : Z) : option icap :=
  i ← islot_at ic slot;
  if negb (is_busy i =? pid) then None else Some (put_islot ic slot (Some (i <| is_busy := 0 |>))).

Definition icap_xclbin_rd_lock (ic : icap) (slot : Z) : option (Z * icap) :=
  i ← islot_at ic slot;
  if z2b (is_busy i) then Some (- EBUSY, ic)
  else Some (0, put_islot ic slot (Some (i <| is_reader ::= fun n => n + 1 |>))).

Definition icap_xclbin_rd_unlock (ic : icap) (slot : Z) : option icap :=
  i ← islot_at ic slot;
  if is_reader i =? 0 then None
  else Some (put_islot ic slot (Some (i <| is_reader ::= fun n => n - 1 |>))).

Definition icap_bitstream_in_use (ic : icap) (slot : Z) : option bool :=
  i ← islot_at ic slot;
  if is_ref i <? 0 then None else Some (z2b (is_ref i)).

(** The part of lock and unlock under the reader lock. *)
Definition with_rd_lock (ic : icap) (slot : Z) (f : islot_info -> Z -> Z * islot_info) : option (Z * icap) :=
  r ← icap_xclbin_rd_lock ic slot;
  let '(err, ic) := r in
  if z2b err then Some (err, ic)
  else
    i ← islot_at ic slot;
    on_slot ← ic_uuids ic !! is_uuid i;
    let '(err, i) := f i on_slot in
    ic ← icap_xclbin_rd_unlock (put_islot ic slot (Some i)) slot;
    Some (err, ic).

(** [id]: the UUID given, [None] when the pointer to it is NULL. *)
Definition icap_lock_bitstream (ic : icap) (id : option Z) (slot : Z) : option (Z * icap) :=
  p ← slot_info ic slot;
  match p with
  | None => Some (- EINVAL, ic)
  | Some _ =>
      id ← id;
      if id =? uuid_null then Some (- EINVAL, ic)
      else with_rd_lock ic slot (fun i on_slot =>
        if negb (id =? on_slot) then (- EBUSY, i) else (0, i <| is_ref ::= fun n => n + 1 |>))
  end.

Definition icap_unlock_bitstream (ic : icap) (id : option Z) (slot : Z) : option (Z * icap) :=
  let id := default uuid_null id in
  with_rd_lock ic slot (fun i on_slot =>
    if id =? uuid_null then (0, i <| is_ref := 0 |>)
    else if id =? on_slot then (0, i <| is_ref ::= fun n => n - 1 |>)
    else (- EINVAL, i)).

Definition icap_bitstream_is_locked (ic : icap) (slot : Z) : option bool :=
  p ← slot_info ic slot;
  match p with None => Some false | Some _ => icap_bitstream_in_use ic slot end.

(** The UUID at an address; NULL has none. *)
Definition deref_uuid (ic : icap) (p : Z) : option (option Z) :=
  if p =? 0 then Some None else u ← ic_uuids ic !! p; Some (Some u).

(** The pointer to a section: [None] when it is left as it was. *)
Definition icap_get_xclbin_metadata (ic : icap) (kind slot : Z) : option (Z * option Z * icap) :=
  p ← slot_info ic slot;
  match p with
  | None => Some (0, None, ic)
  | Some _ =>
      r ← icap_xclbin_rd_lock ic slot;
      let '(err, ic) := r in
      if z2b err then Some (err, None, ic)
      else i ← islot_at ic slot;
           Some (0, if kind =? XCLBIN_UUID then Some (is_uuid i) else is_meta i !! kind, ic)
  end.

Definition icap_put_xclbin_metadata (ic : icap) (slot : Z) : option icap :=
  p ← slot_info ic slot;
  match p with None => Some ic | Some _ => icap_xclbin_rd_unlock ic slot end.

(** ** Lemmas *)

Lemma put_islot_at ic slot i i' : islot_at ic slot = Some i -> islot_at (put_islot ic slot (Some i')) slot = Some i'.
Proof.
  unfold islot_at, slot_info, put_islot, aget_chk. rproj. unfold in_arr. rewrite length_aset.
  intros H. destruct (_ && _) eqn:E; [|done]. cbn [mbind option_bind]. by rewrite aget_aset_eq by lia.
Qed.

Lemma put_islot_other ic slot slot' i i' : islot_at ic slot = Some i -> slot' <> slot -> 0 <= slot' ->
  islot_at (put_islot ic slot i') slot' = islot_at ic slot'.
Proof.
  unfold islot_at, slot_info, put_islot, aget_chk. rproj. unfold in_arr. rewrite length_aset.
  intros H Hn H0. destruct (_ && _) eqn:E; [|done]. destruct (_ && _) eqn:E'; [|done]. cbn [mbind option_bind].
  by rewrite aget_aset_ne by lia.
Qed.

Lemma put_islot_put ic slot i i' : put_islot (put_islot ic slot i) slot i' = put_islot ic slot i'.
Proof. unfold put_islot. destruct ic. unfold upd. cbn -[aset]. by rewrite aset_aset. Qed.

Lemma islot_slot_info ic slot i : islot_at ic slot = Some i -> slot_info ic slot = Some (Some i).
Proof. unfold islot_at. destruct (slot_info ic slot) as [p|]; cbn [mbind option_bind]; [by intros ->|done]. Qed.

(** On a slot that is not busy the reader lock is taken and given back. *)
Lemma with_rd_lock_free ic slot f i u :
  islot_at ic slot = Some i -> is_busy i = 0 -> 0 <= is_reader i -> ic_uuids ic !! is_uuid i = Some u ->
  (forall i0, is_uuid (f i0 u).2 = is_uuid i0 /\ is_reader (f i0 u).2 = is_reader i0) ->
  let r := f (i <| is_reader ::= fun n => n + 1 |>) u in
  with_rd_lock ic slot f = Some (r.1, put_islot ic slot (Some (r.2 <| is_reader := is_reader i |>))).
Proof.
  intros Hi Hb Hr Hu Hf r. unfold with_rd_lock, icap_xclbin_rd_lock. rewrite Hi. cbn [mbind option_bind]. rewrite Hb.
  cbn [z2b Z.eqb negb mbind option_bind]. rewrite (put_islot_at ic slot i) by done. cbn [mbind option_bind].
  change (ic_uuids (put_islot ic slot (Some (i <| is_reader ::= fun n => n + 1 |>)))) with (ic_uuids ic).
  change (is_uuid (i <| is_reader ::= fun n => n + 1 |>)) with (is_uuid i). rewrite Hu. cbn [mbind option_bind].
  subst r. destruct (Hf (i <| is_reader ::= fun n => n + 1 |>)) as [_ Hrd].
  destruct (f (i <| is_reader ::= fun n => n + 1 |>) u) as [err i2]. cbn [fst snd] in *.
  rewrite put_islot_put. unfold icap_xclbin_rd_unlock. rewrite (put_islot_at ic slot i) by done. cbn [mbind option_bind].
  rewrite Hrd. rproj. assert ((is_reader i + 1 =? 0) = false) as -> by lia. cbn [mbind option_bind].
  rewrite put_islot_put. do 4 f_equal. destruct i2. unfold upd. cbn in *. f_equal. lia.
Qed.
