(* ===== verification/XoclCtx.v ===== *)
(** * Contexts of the xocl driver

    The contexts an application opens before it submits commands:
    [xocl/userpf/xocl_hwctx.c] (hardware contexts and the CUs opened in them) and
    the context half of [xocl/userpf/xocl_kds.c] (the older contexts on CUs, the
    life of a client).  Both lock the bitstream of a slot while it is in use.

    [None] as a result is an access through NULL or to freed memory, or a
    [BUG_ON]. *)
From S2P Require Import Prelude KdsCommand CuInfo CuCore XrtCu KdsHwctx KdsSched KdsLife XoclExec XoclIcap.

Definition DEFAULT_PL_PS_SLOT : Z := 0.
Definition XOCL_CTX_EXCLUSIVE : Z := 1.
Definition CU_NAME_MAX_LEN : Z := 64.

(** Arguments of the ioctls. *)
Inductive drm_xocl_ctx_code := XOCL_CTX_OP_ALLOC_CTX | XOCL_CTX_OP_FREE_CTX | XOCL_CTX_OP_OPEN_UCU_FD.
Record drm_xocl_ctx := mk_drm_ctx { dc_op : option drm_xocl_ctx_code; dc_xclbin_id : Z; dc_cu_index : Z; dc_flags : Z }.
Record drm_xocl_open_cu_ctx := mk_open_cu { oc_hw_context : Z; oc_cu_name : list Z; oc_flags : Z }.
Record drm_xocl_close_cu_ctx := mk_close_cu { xc_hw_context : Z; xc_cu_index : Z }.

(** An open file and its device: [fl_ctx_uuid] is [client->ctx->xclbin_id], an
    address, zero when NULL. *)
Record xocl_file (C : Type) := mk_file { fl_io : xocl_io C; fl_ctx_uuid : Z; fl_icap : icap }.
Arguments mk_file {C}. Arguments fl_io {C}. Arguments fl_ctx_uuid {C}. Arguments fl_icap {C}.
#[export] Instance eta_file C : Eta (xocl_file C) := fun s => mk_file (fl_io s) (fl_ctx_uuid s) (fl_icap s).

(** What happens around a call: the allocations (of the context, of the UUID at
    [fe_uuid_addr], of a hardware context, of a CU context), the wait for
    commands when a CU is closed, and the opening of a user managed CU. *)
Record file_env (C : Type) := mk_file_env {
  fe_ctx_alloc : bool;
  fe_uuid_alloc : bool;
  fe_uuid_addr : Z;
  fe_hw_alloc : bool * bool;
  fe_cu_alloc : bool;
  fe_rounds : list (env_step (C := C));
  fe_ert_call : env_step (C := C);
  fe_ert_bad : bool;
  fe_between : kds_client -> kds_client;
  fe_irq : option (xrt_cu C -> bool -> Z * xrt_cu C);
  fe_fd : Z;
  fe_ert_disable : kds_sched C -> kds_sched C;
}.
Arguments fe_ctx_alloc {C}. Arguments fe_uuid_alloc {C}. Arguments fe_uuid_addr {C}. Arguments fe_hw_alloc {C}.
Arguments fe_cu_alloc {C}. Arguments fe_rounds {C}. Arguments fe_ert_call {C}. Arguments fe_ert_bad {C}.
Arguments fe_between {C}. Arguments fe_irq {C}. Arguments fe_fd {C}. Arguments fe_ert_disable {C}.

Section Ctx.
Context {C : Type} (env : file_env C).
#[local] Abbreviation file := (xocl_file C).

Definition fl_kds (s : file) : kds_sched C := io_kds (fl_io s).
Definition fl_client (s : file) : kds_client := io_client (fl_io s).
Definition put_kds (s : file) (k : kds_sched C) : file := s <| fl_io ::= fun i => i <| io_kds := k |> |>.
Definition put_client (s : file) (c : kds_client) : file := s <| fl_io ::= fun i => i <| io_client := c |> |>.

(** [client->ctx = NULL] *)
Definition no_ctx (s : file) : file := put_client s (fl_client s <| cl_ctx := None |>).

(** ** Contexts on CUs *)

Definition xocl_ctx_to_info (args : drm_xocl_ctx) : kds_client_cu_info :=
  mk_cu_info (get_domain_idx (dc_cu_index args)) (get_domain (dc_cu_index args))
    (if dc_flags args =? XOCL_CTX_EXCLUSIVE then CU_CTX_EXCLUSIVE else CU_CTX_SHARED) 0.

(** The free of the UUID and the unlock of a failed [xocl_add_context]. *)
Definition drop_ctx (locked : bool) (args : drm_xocl_ctx) (s : file) : option file :=
  let s := s <| fl_icap ::= fun ic => ic <| ic_uuids ::= delete (fl_ctx_uuid s) |> |> <| fl_ctx_uuid := 0 |> in
  s ← (if locked then r ← icap_unlock_bitstream (fl_icap s) (Some (dc_xclbin_id args)) DEFAULT_PL_PS_SLOT;
                      Some (s <| fl_icap := r.2 |>)
       else Some s);
  Some (no_ctx s).

(** The first part: a client without a context gets one, with its hardware
    context 0, and the bitstream is locked.  [inl]: the call ends here. *)
Definition first_context (s : file) (args : drm_xocl_ctx) : option ((Z + bool) * file) :=
  if bool_decide (is_Some (cl_ctx (fl_client s))) then Some (inr false, s)
  else if negb (fe_ctx_alloc env) then Some (inl (- ENOMEM), s)
  else
    r ← icap_lock_bitstream (fl_icap s) (Some (dc_xclbin_id args)) DEFAULT_PL_PS_SLOT;
    let '(ret, ic) := r in
    let s := s <| fl_icap := ic |> in
    if z2b ret then Some (inl ret, s)
    else if negb (fe_uuid_alloc env) then Some (inl (- ENOMEM), s)
    else
      let s := s <| fl_icap ::= fun ic => ic <| ic_uuids ::= insert (fe_uuid_addr env) (dc_xclbin_id args) |> |>
                 <| fl_ctx_uuid := fe_uuid_addr env |> in
      let c := fl_client s <| cl_ctx := Some (mk_client_ctx 0 []) |> <| cl_next_hw_ctx_id := 0 |> in
      let '(hw, c) := kds_alloc_hw_ctx (fe_hw_alloc env) c (fe_uuid_addr env) DEFAULT_PL_PS_SLOT in
      let s := put_client s c in
      match hw with
      | None => s ← drop_ctx true args s; Some (inl (- EINVAL), s)
      | Some _ => Some (inr true, s)
      end.

(** Store the CU contexts of the client's context. *)
Definition put_cu_ctxs (c : kds_client) (l : list kds_client_cu_ctx) : kds_client :=
  c <| cl_ctx ::= fmap (fun x => x <| ctx_cu_ctx_list := l |>) |>.

Definition cu_ctxs (c : kds_client) : list kds_client_cu_ctx := default [] (ctx_cu_ctx_list <$> cl_ctx c).

(** A failure after the CU context [p] is found frees it when nobody has it
    open, and then reads its hardware context. *)
Definition undo_open (locked : bool) (args : drm_xocl_ctx) (ret : Z) (s : file) (p : nat) (hw : option nat) : option (Z * file) :=
  cc ← cu_ctxs (fl_client s) !! p;
  if cc_ref_cnt cc =? 0 then None
  else
    hw ← hw;
    let s := put_client s (kds_free_hw_ctx (fl_client s) (Some hw)).2 in
    s ← drop_ctx locked args s;
    Some (ret, s).

Definition xocl_add_context (s : file) (args : drm_xocl_ctx) : option (Z * file) :=
  r ← first_context s args;
  let '(first, s) := r in
  match first with
  | inl ret => Some (ret, s)
  | inr locked =>
      let c := fl_client s in
      let '(p, ctx) := kds_alloc_cu_ctx (fe_cu_alloc env) c (cl_ctx c) (xocl_ctx_to_info args) in
      let s := put_client s (c <| cl_ctx := ctx |>) in
      p ← p;
      match kds_get_hw_ctx_by_id (fl_client s) DEFAULT_HW_CTX_ID with
      | None => undo_open locked args (- EINVAL) s p None
      | Some hw =>
          cc ← cu_ctxs (fl_client s) !! p;
          let cc := cc <| cc_hw_ctx := DEFAULT_HW_CTX_ID |> in
          let '(ret, kds, c, cc) := kds_add_context (fl_kds s) (fl_client s) cc in
          let s := put_client (put_kds s kds) (put_cu_ctxs c (<[p := cc]> (cu_ctxs c))) in
          if z2b ret then undo_open locked args ret s p (Some hw) else Some (ret, s)
      end
  end.

Definition xocl_del_context (s : file) (args : drm_xocl_ctx) : option (Z * file) :=
  ctx ← cl_ctx (fl_client s);
  if fl_ctx_uuid s =? 0 then Some (- EINVAL, s)
  else
    uuid ← ic_uuids (fl_icap s) !! fl_ctx_uuid s;
    if negb (uuid =? dc_xclbin_id args) then Some (- EBUSY, s)
    else
      match kds_get_cu_ctx (Some ctx) (xocl_ctx_to_info args) with
      | inl _ | inr None => Some (- EINVAL, s)
      | inr (Some p) =>
          cc ← ctx_cu_ctx_list ctx !! p;
          r ← kds_del_context (fe_rounds env) (fe_ert_call env) (fe_ert_bad env) (fl_kds s) (fl_client s) cc;
          let '(ret, kds, c, cc) := r in
          let l := <[p := cc]> (cu_ctxs c) in
          let s := put_client (put_kds s kds) (put_cu_ctxs c l) in
          if z2b ret then Some (ret, s)
          else
            let '(ret, l) := kds_free_cu_ctx l (Some p) in
            let s := put_client s (put_cu_ctxs (fl_client s) l) in
            if z2b ret then Some (ret, s)
            else if negb (bool_decide (l = [])) then Some (0, s)
            else
              let s := put_client s (kds_free_hw_ctx (fl_client s) (kds_get_hw_ctx_by_id (fl_client s) DEFAULT_HW_CTX_ID)).2 in
              let s := s <| fl_icap ::= fun ic => ic <| ic_uuids ::= delete (fl_ctx_uuid s) |> |> <| fl_ctx_uuid := 0 |> in
              r ← icap_unlock_bitstream (fl_icap s) (Some (dc_xclbin_id args)) (ctx_slot_idx ctx);
              Some (0, no_ctx (s <| fl_icap := r.2 |>))
      end.

Definition xocl_open_ucu (s : file) (args : drm_xocl_ctx) : option (Z * file) :=
  if kds_cu_intr_cap (fl_kds s) =? 0 then Some (- EOPNOTSUPP, s)
  else
    r ← kds_open_ucu (fe_between env) (fe_hw_alloc env) (fe_irq env) (fe_fd env) (fl_kds s) (fl_client s) (dc_cu_index args);
    let '(ret, kds, c) := r in
    let s := put_client (put_kds s kds) c in
    Some (ret, if ret <? 0 then s else put_kds s (fe_ert_disable env (fl_kds s))).

Definition xocl_context_ioctl (s : file) (args : drm_xocl_ctx) : option (Z * file) :=
  match dc_op args with
  | Some XOCL_CTX_OP_ALLOC_CTX => xocl_add_context s args
  | Some XOCL_CTX_OP_FREE_CTX => xocl_del_context s args
  | Some XOCL_CTX_OP_OPEN_UCU_FD => xocl_open_ucu s args
  | None => Some (- EINVAL, s)
  end.

(** ** Hardware contexts *)

Definition xocl_get_slot_id_by_hw_ctx_id (is_legacy_ctx : bool) (s : file) (hw_ctx_id : Z) : Z :=
  if is_legacy_ctx then DEFAULT_PL_PS_SLOT
  else
    match kds_get_hw_ctx_by_id (fl_client s) hw_ctx_id ≫= fun p => cl_hw_ctx_list (fl_client s) !! p with
    | None => 0
    | Some hw => hw_slot_idx hw
    end.

(** The second result is the number of the context. *)
Definition xocl_create_hw_context (s : file) (slot_id : Z) : option (Z * Z * file) :=
  r ← icap_get_xclbin_metadata (fl_icap s) XCLBIN_UUID slot_id;
  let '(ret, xclbin_id, ic) := r in
  let s := s <| fl_icap := ic |> in
  if z2b ret then Some (ret, 0, s)
  else
    let ptr := default 0 xclbin_id in
    let '(hw, c) := kds_alloc_hw_ctx (fe_hw_alloc env) (fl_client s) ptr slot_id in
    r ← match hw with
        | None => Some (- EINVAL, 0, s)
        | Some p =>
            let s := put_client s c in
            id ← deref_uuid (fl_icap s) ptr;
            r ← icap_lock_bitstream (fl_icap s) id slot_id;
            let '(ret, ic) := r in
            let s := s <| fl_icap := ic |> in
            if z2b ret then Some (- EINVAL, 0, put_client s (kds_free_hw_ctx (fl_client s) (Some p)).2)
            else h ← cl_hw_ctx_list c !! p; Some (0, hw_ctx_idx h, s)
        end;
    let '(ret, id, s) := r in
    ic ← icap_put_xclbin_metadata (fl_icap s) slot_id;
    Some (ret, id, s <| fl_icap := ic |>).

Definition xocl_destroy_hw_context (s : file) (hw_context : Z) : option (Z * file) :=
  match kds_get_hw_ctx_by_id (fl_client s) hw_context with
  | None => Some (- EINVAL, s)
  | Some p =>
      hw ← cl_hw_ctx_list (fl_client s) !! p;
      id ← deref_uuid (fl_icap s) (hw_xclbin_id hw);
      r ← icap_unlock_bitstream (fl_icap s) id (hw_slot_idx hw);
      let s := s <| fl_icap := r.2 |> in
      let '(ret, c) := kds_free_hw_ctx (fl_client s) (Some p) in
      Some (ret, put_client s c)
  end.

(** [strsep] with ":" (58); the rest is NULL after the last field. *)
Fixpoint strsep (l : list Z) : list Z * option (list Z) :=
  match l with
  | [] => ([], None)
  | ch :: l => if ch =? 58 then ([], Some l) else let '(f, r) := strsep l in (ch :: f, r)
  end.

(** [strcpy] into a name of [CU_NAME_MAX_LEN] bytes. *)
Definition copy_name (l : list Z) : option (list Z) :=
  if Z.of_nat (length l) <? CU_NAME_MAX_LEN then Some l else None.

(** First CU of the slot with this kernel and instance name. *)
Definition named_cu (kds : kds_sched C) (m : kds_cu_mgmt) (slot : Z) (kname iname : list Z) : option Z :=
  first_index (fun i => match get_xcu kds m i with
                        | None => false
                        | Some xcu => (info_slot_idx (cu_info xcu) =? slot) && bool_decide (info_kname (cu_info xcu) = kname)
                                      && bool_decide (info_iname (cu_info xcu) = iname)
                        end) (seqZ 0 (Z.of_nat MAX_CUS)) 0.

Definition xocl_cu_ctx_to_info (kds : kds_sched C) (args : drm_xocl_open_cu_ctx) (hw : kds_client_hw_ctx)
  : option (Z + kds_client_cu_info) :=
  let '(kname, rest) := strsep (oc_cu_name args) in
  kname ← copy_name kname;
  rest ← rest;
  iname ← copy_name (strsep rest).1;
  let info domain i := inr (mk_cu_info i domain
    (if oc_flags args =? XOCL_CTX_EXCLUSIVE then CU_CTX_EXCLUSIVE else CU_CTX_SHARED) (hw_ctx_idx hw)) in
  Some (match named_cu kds (kds_cu_mgmt_ kds) (hw_slot_idx hw) kname iname with
        | Some i => info DOMAIN_PL i
        | None =>
            match named_cu kds (kds_scu_mgmt kds) (hw_slot_idx hw) kname iname with
            | Some i => info DOMAIN_PS i
            | None => inl (- EINVAL)
            end
        end).

Definition xocl_close_cu_ctx_to_info (args : drm_xocl_close_cu_ctx) : kds_client_cu_info :=
  mk_cu_info (get_domain_idx (xc_cu_index args)) (get_domain (xc_cu_index args)) 0 0.

(** Store the CU contexts of the hardware context at position [p]. *)
Definition put_hw_cus (c : kds_client) (p : nat) (l : list kds_client_cu_ctx) : kds_client :=
  c <| cl_hw_ctx_list ::= alter (fun h => h <| hw_cu_ctx_list := l |>) p |>.

(** The second result is the encoded index of the CU. *)
Definition xocl_open_cu_context (s : file) (args : drm_xocl_open_cu_ctx) : option (Z * Z * file) :=
  match kds_get_hw_ctx_by_id (fl_client s) (oc_hw_context args) with
  | None => Some (- EINVAL, 0, s)
  | Some p =>
      hw ← cl_hw_ctx_list (fl_client s) !! p;
      info ← xocl_cu_ctx_to_info (fl_kds s) args hw;
      match info with
      | inl ret => Some (ret, 0, s)
      | inr info =>
          match kds_alloc_cu_hw_ctx (fe_cu_alloc env) (Some hw) info with
          | (Some q, Some hw) =>
              cc ← hw_cu_ctx_list hw !! q;
              let s := put_client s (put_hw_cus (fl_client s) p (hw_cu_ctx_list hw)) in
              let '(ret, kds, c, cc) := kds_add_context (fl_kds s) (fl_client s) cc in
              let l := <[q := cc]> (hw_cu_ctx_list hw) in
              let l := if z2b ret then (kds_free_cu_ctx l (Some q)).2 else l in
              let s := put_client (put_kds s kds) (put_hw_cus c p l) in
              Some (ret, if z2b ret then 0 else set_domain (cc_cu_domain cc) (cc_cu_idx cc), s)
          | _ => Some (- EINVAL, 0, s)
          end
      end
  end.

Definition xocl_close_cu_context (s : file) (args : drm_xocl_close_cu_ctx) : option (Z * file) :=
  match kds_get_hw_ctx_by_id (fl_client s) (xc_hw_context args) with
  | None => Some (- EINVAL, s)
  | Some p =>
      hw ← cl_hw_ctx_list (fl_client s) !! p;
      match kds_get_cu_hw_ctx (Some hw) (xocl_close_cu_ctx_to_info args) with
      | inl _ | inr None => Some (- EINVAL, s)
      | inr (Some q) =>
          cc ← hw_cu_ctx_list hw !! q;
          r ← kds_del_context (fe_rounds env) (fe_ert_call env) (fe_ert_bad env) (fl_kds s) (fl_client s) cc;
          let '(ret, kds, c, cc) := r in
          let l := <[q := cc]> (hw_cu_ctx_list hw) in
          let '(ret, l) := if z2b ret then (ret, l) else kds_free_cu_ctx l (Some q) in
          Some (ret, put_client (put_kds s kds) (put_hw_cus c p l))
      end
  end.

Definition xocl_hw_ctx_command (ie : io_env C) (s : file) (hw_ctx_id exec_bo_handle : Z) : option (Z * file) :=
  r ← xocl_command_ioctl ie (fl_io s) exec_bo_handle hw_ctx_id None;
  Some (r.1, s <| fl_io := r.2 |>).

(** ** Clients *)

Definition xocl_create_client (alloc refcnt_alloc : bool) (addr pid : Z) (kds : kds_sched C) : Z * kds_sched C * option kds_client :=
  if negb alloc then (- ENOMEM, kds, None)
  else
    let '(ret, kds, c) := kds_init_client refcnt_alloc pid kds (mk_client addr 0 None [] [] 0 None) in
    if z2b ret then (ret, kds, None) else (0, kds, Some c).

(** The unlock and the free of each hardware context of [l]; [k] of the list of
    the client before them could not be freed. *)
Fixpoint release_hw_ctxs (l : list kds_client_hw_ctx) (k : nat) (s : file) : option file :=
  match l with
  | [] => Some s
  | hw :: l =>
      id ← deref_uuid (fl_icap s) (hw_xclbin_id hw);
      r ← icap_unlock_bitstream (fl_icap s) id (hw_slot_idx hw);
      let s := s <| fl_icap := r.2 |> in
      let '(ret, c) := kds_free_hw_ctx (fl_client s) (Some k) in
      release_hw_ctxs l (if z2b ret then S k else k) (put_client s c)
  end.

(** [ci]: the position of the client in the list of the scheduler. *)
Definition xocl_destroy_client (ci : nat) (s : file) : option file :=
  r ← kds_fini_client (fe_rounds env) (fe_ert_call env) (fe_ert_bad env) ci (fl_kds s) (fl_client s);
  let s := put_client (put_kds s r.1) r.2 in
  s ← match cl_ctx (fl_client s) with
      | Some ctx =>
          if fl_ctx_uuid s =? 0 then Some s
          else
            uuid ← ic_uuids (fl_icap s) !! fl_ctx_uuid s;
            r ← icap_unlock_bitstream (fl_icap s) (Some uuid) (ctx_slot_idx ctx);
            Some (s <| fl_icap := r.2 <| ic_uuids ::= delete (fl_ctx_uuid s) |> |>)
      | None => Some s
      end;
  release_hw_ctxs (cl_hw_ctx_list (fl_client s)) 0 s.

(** ** The ioctls of a client *)

Inductive client_op := DRM_XOCL_CTX (args : drm_xocl_ctx) | DRM_XOCL_EXECBUF (handle ctx_id : Z)
| DRM_XOCL_EXECBUF_CB (handle ctx_id : Z) (cb : option Z) | DRM_XOCL_OTHER.

Definition xocl_client_ioctl (ie : io_env C) (s : file) (op : client_op) : option (Z * file) :=
  let command handle ctx_id cb := r ← xocl_command_ioctl ie (fl_io s) handle ctx_id cb; Some (r.1, s <| fl_io := r.2 |>) in
  match op with
  | DRM_XOCL_CTX args => xocl_context_ioctl s args
  | DRM_XOCL_EXECBUF handle ctx_id => command handle ctx_id None
  | DRM_XOCL_EXECBUF_CB handle ctx_id cb => command handle ctx_id cb
  | DRM_XOCL_OTHER => Some (- EINVAL, s)
  end.

(** ** The scheduler of the device *)

Definition xocl_kds_fa_clear (kds : kds_sched C) : kds_sched C :=
  if cm_bo (kds_cmdmem kds) then kds <| kds_cmdmem := mk_cmdmem false 0 0 0 0 |> else kds.

Definition xocl_kds_reset (kds : kds_sched C) : Z * kds_sched C := (0, xocl_kds_fa_clear kds <| kds_bad_state := false |>).

(** [anon]: the address of the client of the scheduler itself. *)
Definition xocl_init_sched (alloc : bool * bool) (client_alloc refcnt_alloc : bool) (anon pid : Z) (kds : kds_sched C)
  : Z * kds_sched C * option kds_client :=
  let '(ret, kds) := kds_init_sched alloc kds in
  if z2b ret then (ret, kds, None) else xocl_create_client client_alloc refcnt_alloc anon pid kds.

Definition xocl_cu_map_addr (s : file) (cu_idx : Z) : option (Z + Z) := kds_map_cu_addr (fl_kds s) (fl_client s) cu_idx.
End Ctx.
