(* ===== verification/XoclCtxProof.v ===== *)
(** * Contexts: the bitstream stays locked while it is in use

    Theorems on the hardware contexts of [XoclCtx] and the locks of
    [XoclIcap]. *)
From S2P Require Import Prelude KdsCommand CuInfo CuCore CircLog XrtCu KdsHwctx KdsSched KdsRefs KdsDispatch KdsLife XoclExec XoclIcap XoclCtx.

(** Number of the contexts on a slot. *)
Definition on_slot (slot : Z) (l : list kds_client_hw_ctx) : Z :=
  Z.of_nat (countb (fun hw => hw_slot_idx hw =? slot) l).

Lemma on_slot_app slot l l' : on_slot slot (l ++ l') = on_slot slot l + on_slot slot l'.
Proof.
  unfold on_slot. rewrite countb_app. lia.
Qed.

Lemma on_slot_delete slot l p hw : l !! p = Some hw ->
  on_slot slot (delete p l) = on_slot slot l - b2z (hw_slot_idx hw =? slot).
Proof.
  intros Hp. unfold on_slot. rewrite delete_take_drop.
  assert (countb (fun hw => hw_slot_idx hw =? slot) l = countb (fun hw => hw_slot_idx hw =? slot) (take p l ++ hw :: drop (S p) l)) as ->
    by (by rewrite take_drop_middle).
  rewrite !countb_app. cbn [countb]. unfold b2z. destruct (hw_slot_idx hw =? slot); lia.
Qed.

Section Locks.
Context {C : Type}.
Implicit Types s : xocl_file C.

(** [base]: the locks of the other clients.  Every context points to the UUID of
    its slot, where a bitstream is loaded, and a slot is locked once for each
    context on it. *)
Record locks_inv (base : Z -> Z) s : Prop := {
  li_ctx : Forall (fun hw => 0 <= hw_slot_idx hw /\ exists i u, islot_at (fl_icap s) (hw_slot_idx hw) = Some i /\
    hw_xclbin_id hw = is_uuid i /\ ic_uuids (fl_icap s) !! is_uuid i = Some u /\ u <> uuid_null) (cl_hw_ctx_list (fl_client s));
  li_slot : forall slot i, 0 <= slot -> islot_at (fl_icap s) slot = Some i ->
    is_uuid i <> 0 /\ is_Some (ic_uuids (fl_icap s) !! is_uuid i) /\ is_busy i = 0 /\ 0 <= is_reader i /\
    is_ref i = base slot + on_slot slot (cl_hw_ctx_list (fl_client s));
}.

(** ** Locking and unlocking a free slot *)

Lemma lock_free ic slot i u : islot_at ic slot = Some i -> is_busy i = 0 -> 0 <= is_reader i ->
  ic_uuids ic !! is_uuid i = Some u -> u <> uuid_null ->
  icap_lock_bitstream ic (Some u) slot = Some (0, put_islot ic slot (Some (i <| is_ref ::= fun n => n + 1 |>))).
Proof.
  intros Hi Hb Hr Hu Hn. unfold icap_lock_bitstream. rewrite (islot_slot_info ic slot i Hi). cbn [mbind option_bind].
  destruct (Z.eqb_spec u uuid_null); [done|]. rewrite (with_rd_lock_free ic slot _ i u) by (done || by intros; rewrite Z.eqb_refl).
  rewrite Z.eqb_refl. cbn [negb fst snd]. by destruct i.
Qed.

Lemma unlock_free ic slot i u : islot_at ic slot = Some i -> is_busy i = 0 -> 0 <= is_reader i ->
  ic_uuids ic !! is_uuid i = Some u -> u <> uuid_null ->
  icap_unlock_bitstream ic (Some u) slot = Some (0, put_islot ic slot (Some (i <| is_ref ::= fun n => n - 1 |>))).
Proof.
  intros Hi Hb Hr Hu Hn. unfold icap_unlock_bitstream. cbn [default from_option id].
  rewrite (with_rd_lock_free ic slot _ i u); try done.
  - destruct (Z.eqb_spec u uuid_null); [done|]. rewrite Z.eqb_refl. cbn [fst snd]. by destruct i.
  - intros i0. destruct (Z.eqb_spec u uuid_null); [done|]. by rewrite Z.eqb_refl.
Qed.

Lemma deref_slot ic i u : is_uuid i <> 0 -> ic_uuids ic !! is_uuid i = Some u -> deref_uuid ic (is_uuid i) = Some (Some u).
Proof. intros Hn Hu. unfold deref_uuid. destruct (Z.eqb_spec (is_uuid i) 0); [done|]. by rewrite Hu. Qed.

Lemma in_list_at hw (l : list kds_client_hw_ctx) p : l !! p = Some hw -> hw ∈ l.
Proof. apply list_elem_of_lookup_2. Qed.

(** ** The operations keep the locks *)

(** Moving a slot's count together with the list of contexts. *)
Lemma locks_inv_slot base s slot i l d :
  locks_inv base s -> 0 <= slot -> islot_at (fl_icap s) slot = Some i ->
  Forall (fun hw => 0 <= hw_slot_idx hw /\ exists i u, islot_at (fl_icap s) (hw_slot_idx hw) = Some i /\
    hw_xclbin_id hw = is_uuid i /\ ic_uuids (fl_icap s) !! is_uuid i = Some u /\ u <> uuid_null) l ->
  (forall slot', on_slot slot' l = on_slot slot' (cl_hw_ctx_list (fl_client s)) + if slot' =? slot then d else 0) ->
  forall c ic, cl_hw_ctx_list c = l -> ic = put_islot (fl_icap s) slot (Some (i <| is_ref ::= fun n => n + d |>)) ->
  locks_inv base (put_client (s <| fl_icap := ic |>) c).
Proof.
  intros [I1 I2] H0 Hi HF Hl c ic <- ->. unfold put_client, fl_client in *. split; rproj.
  - eapply Forall_impl; [exact HF|]. intros hw (Hs & i1 & u & E1 & E2 & E3 & E4). split; [done|].
    destruct (decide (hw_slot_idx hw = slot)) as [Eq|Hn]; [rewrite Eq in *|].
    + exists (i <| is_ref ::= fun n => n + d |>), u. rewrite (put_islot_at _ _ i) by done.
      assert (i1 = i) as -> by congruence. done.
    + exists i1, u. rewrite (put_islot_other _ _ _ i) by done. done.
  - intros slot' i' Hs'. destruct (decide (slot' = slot)) as [->|Hn].
    + rewrite (put_islot_at _ _ i) by done. intros [= <-]. destruct (I2 slot i Hs' Hi) as (B1 & B2 & B3 & B4 & B5).
      rproj. split_and!; try done. rewrite Hl, Z.eqb_refl. lia.
    + rewrite (put_islot_other _ _ _ i) by done. intros Hi'. destruct (I2 slot' i' Hs' Hi') as (B1 & B2 & B3 & B4 & B5).
      split_and!; try done. rewrite Hl. destruct (Z.eqb_spec slot' slot); [done|]. lia.
Qed.

(** The context can be destroyed: nothing is open in it. *)
Definition ctx_idle s (id : Z) : Prop :=
  forall p hw, kds_get_hw_ctx_by_id (fl_client s) id = Some p -> cl_hw_ctx_list (fl_client s) !! p = Some hw ->
  hw_cu_ctx_list hw = [] /\ hw_graph_ctx_list hw = [].

Lemma destroy_unlocks base s id p hw : locks_inv base s ->
  kds_get_hw_ctx_by_id (fl_client s) id = Some p -> cl_hw_ctx_list (fl_client s) !! p = Some hw ->
  exists i, islot_at (fl_icap s) (hw_slot_idx hw) = Some i /\ 0 <= hw_slot_idx hw /\
    xocl_destroy_hw_context s id =
      let s1 := s <| fl_icap := put_islot (fl_icap s) (hw_slot_idx hw) (Some (i <| is_ref ::= fun n => n - 1 |>)) |> in
      let '(ret, c) := kds_free_hw_ctx (fl_client s) (Some p) in Some (ret, put_client s1 c).
Proof.
  intros [I1 I2] Hp Hhw. pose proof (Forall_lookup_1 _ _ _ _ I1 Hhw) as (Hs & i & u & Hi & Hx & Hu & Hn).
  destruct (I2 _ _ Hs Hi) as (B1 & B2 & B3 & B4 & B5). exists i. split; [done|]. split; [done|].
  unfold xocl_destroy_hw_context. rewrite Hp, Hhw. cbn [mbind option_bind]. rewrite Hx, (deref_slot _ _ u) by done.
  cbn [mbind option_bind]. by rewrite (unlock_free _ _ i u).
Qed.

Lemma destroy_locks base s id : locks_inv base s -> ctx_idle s id ->
  exists ret s', xocl_destroy_hw_context s id = Some (ret, s') /\ locks_inv base s'.
Proof.
  intros I Hid. destruct (kds_get_hw_ctx_by_id (fl_client s) id) as [p|] eqn:Hp.
  2: { unfold xocl_destroy_hw_context. rewrite Hp. by eexists _, _. }
  destruct (find_pos_Some _ _ _ Hp) as (hw & Hhw & _). destruct (Hid p hw Hp Hhw) as [Hcu Hgr].
  destruct (destroy_unlocks base s id p hw I Hp Hhw) as (i & Hi & Hs & ->). cbv zeta.
  unfold kds_free_hw_ctx. rewrite Hhw, !bool_decide_eq_true_2 by done. cbn [negb]. eexists _, _. split; [reflexivity|].
  eapply (locks_inv_slot base s (hw_slot_idx hw) i (delete p (cl_hw_ctx_list (fl_client s))) (-1)); try done.
  - apply Forall_delete. apply I.
  - intros slot'. rewrite (on_slot_delete _ _ _ _ Hhw). unfold b2z. rewrite Z.eqb_sym. destruct (slot' =? hw_slot_idx hw); lia.
Qed.

Lemma put_client_icap s c : fl_icap (put_client s c) = fl_icap s.
Proof. reflexivity. Qed.

Lemma locks_inv_ext base s s' : fl_icap s' = fl_icap s -> cl_hw_ctx_list (fl_client s') = cl_hw_ctx_list (fl_client s) ->
  locks_inv base s -> locks_inv base s'.
Proof. intros E1 E2 [I1 I2]. split; rewrite E1, E2; done. Qed.

Lemma alloc_hw_ctx_cases alloc c ptr slot :
  kds_alloc_hw_ctx alloc c ptr slot = (None, c) \/
  exists c' h, kds_alloc_hw_ctx alloc c ptr slot = (Some (length (cl_hw_ctx_list c)), c') /\
    cl_hw_ctx_list c' = cl_hw_ctx_list c ++ [h] /\ hw_slot_idx h = slot /\ hw_xclbin_id h = ptr /\
    hw_cu_ctx_list h = [] /\ hw_graph_ctx_list h = [].
Proof.
  unfold kds_alloc_hw_ctx. destruct (alloc.1), (alloc.2); cbn [negb]; [right|by left..].
  eexists _, _. split; [reflexivity|]. rproj. split; [reflexivity|]. done.
Qed.

(** Taking back a context that was just added. *)
Lemma free_last c h l : cl_hw_ctx_list c = l ++ [h] -> hw_cu_ctx_list h = [] -> hw_graph_ctx_list h = [] ->
  cl_hw_ctx_list (kds_free_hw_ctx c (Some (length l))).2 = l.
Proof.
  intros E H1 H2. unfold kds_free_hw_ctx. rewrite E, list_lookup_middle by done.
  rewrite !bool_decide_eq_true_2 by done. cbn [negb snd]. rproj. by rewrite delete_middle, app_nil_r.
Qed.

(** The reader lock taken for the metadata and given back. *)
Lemma metadata_back ic slot i d : islot_at ic slot = Some i -> 0 <= is_reader i ->
  icap_put_xclbin_metadata (put_islot ic slot (Some (i <| is_reader ::= fun n => n + 1 |> <| is_ref ::= fun n => n + d |>))) slot =
  Some (put_islot ic slot (Some (i <| is_ref ::= fun n => n + d |>))).
Proof.
  intros Hi Hr. unfold icap_put_xclbin_metadata, icap_xclbin_rd_unlock.
  rewrite (islot_slot_info _ _ _ (put_islot_at ic slot i _ Hi)). cbn [mbind option_bind]. rewrite (put_islot_at ic slot i _ Hi).
  cbn [mbind option_bind]. rproj. assert ((is_reader i + 1 =? 0) = false) as -> by lia. rewrite put_islot_put.
  do 3 f_equal. destruct i. unfold upd. cbn. f_equal. lia.
Qed.

Lemma create_locks env base s slot : locks_inv base s -> 0 <= slot < Z.of_nat (length (ic_slots (fl_icap s))) ->
  exists ret id s', xocl_create_hw_context env s slot = Some (ret, id, s') /\ locks_inv base s'.
Proof.
  intros I Hs. unfold xocl_create_hw_context, icap_get_xclbin_metadata.
  assert (slot_info (fl_icap s) slot = Some (aget None (ic_slots (fl_icap s)) slot)) as Ep.
  { unfold slot_info, aget_chk. by assert (in_arr (ic_slots (fl_icap s)) slot = true) as -> by (apply in_arr_true; lia). }
  destruct (aget None (ic_slots (fl_icap s)) slot) as [i|]; rewrite Ep; cbn [mbind option_bind].
  - assert (islot_at (fl_icap s) slot = Some i) as Hi by (unfold islot_at; by rewrite Ep).
    pose proof I as [I1 I2]. destruct (I2 slot i (proj1 Hs) Hi) as (B1 & [u Hu] & B3 & B4 & B5).
    unfold icap_xclbin_rd_lock. rewrite Hi. cbn [mbind option_bind]. rewrite B3. cbn [z2b Z.eqb negb mbind option_bind].
    rewrite (put_islot_at _ _ i _ Hi). cbn [mbind option_bind]. rewrite Z.eqb_refl. cbn [default from_option Datatypes.id z2b Z.eqb negb].
    set (i1 := i <| is_reader ::= fun n => n + 1 |>). change (is_uuid i1) with (is_uuid i).
    set (s1 := s <| fl_icap := put_islot (fl_icap s) slot (Some i1) |>).
    assert (forall c d, Forall (fun hw => 0 <= hw_slot_idx hw /\ exists i u, islot_at (fl_icap s) (hw_slot_idx hw) = Some i /\
       hw_xclbin_id hw = is_uuid i /\ ic_uuids (fl_icap s) !! is_uuid i = Some u /\ u <> uuid_null) (cl_hw_ctx_list c) ->
      (forall slot', on_slot slot' (cl_hw_ctx_list c) = on_slot slot' (cl_hw_ctx_list (fl_client s)) + if slot' =? slot then d else 0) ->
      locks_inv base (put_client (s <| fl_icap := put_islot (fl_icap s) slot (Some (i <| is_ref ::= fun n => n + d |>)) |>) c)) as Hkeep.
    { intros c d HF Hl. by apply (locks_inv_slot base s slot i (cl_hw_ctx_list c) d I (proj1 Hs) Hi HF Hl). }
    assert (forall c, cl_hw_ctx_list c = cl_hw_ctx_list (fl_client s) ->
      locks_inv base (put_client (s <| fl_icap := put_islot (fl_icap s) slot (Some (i <| is_ref ::= fun n => n + 0 |>)) |>) c)) as Hsame.
    { intros c Ec. apply Hkeep; rewrite Ec; [done|]. intros slot'. destruct (slot' =? slot); lia. }
    assert (i1 = i <| is_reader ::= fun n => n + 1 |> <| is_ref ::= fun n => n + 0 |>) as Ei1.
    { subst i1. destruct i. unfold upd. cbn. f_equal. lia. }
    destruct (alloc_hw_ctx_cases (fe_hw_alloc env) (fl_client s1) (is_uuid i) slot) as [E|(c & h & E & Ec & Eh1 & Eh2 & Eh3 & Eh4)];
      rewrite E; cbn [mbind option_bind].
    + eexists _, _, _. change (fl_icap s1) with (put_islot (fl_icap s) slot (Some i1)).
      rewrite Ei1, (metadata_back _ _ _ _ Hi B4). cbn [mbind option_bind]. split; [reflexivity|].
      eapply locks_inv_ext; [| |apply (Hsame (fl_client s)); done]; reflexivity.
    + change (fl_icap (put_client s1 c)) with (put_islot (fl_icap s) slot (Some i1)).
      assert (deref_uuid (put_islot (fl_icap s) slot (Some i1)) (is_uuid i) = Some (Some u)) as ->.
      { apply (deref_slot _ i1); done. }
      cbn [mbind option_bind]. destruct (decide (u = uuid_null)) as [->|Hn].
      * unfold icap_lock_bitstream. rewrite (islot_slot_info _ _ _ (put_islot_at _ slot i i1 Hi)). cbn [mbind option_bind].
        rewrite Z.eqb_refl. cbn [mbind option_bind]. change (z2b (- EINVAL)) with true. cbn [mbind option_bind].
        eexists _, _, _. rewrite ?put_client_icap. rproj. rewrite Ei1, (metadata_back _ _ _ _ Hi B4). cbn [mbind option_bind].
        split; [reflexivity|].
        eapply locks_inv_ext; [| |apply (Hsame (fl_client s)); done]; [reflexivity|]. exact (free_last c h _ Ec Eh3 Eh4).
      * rewrite (lock_free _ _ i1 u) by (done || exact (put_islot_at _ slot i i1 Hi) || (subst i1; rproj; lia)).
        rewrite put_islot_put. cbn [mbind option_bind]. change (z2b 0) with false. cbn [mbind option_bind].
        rewrite Ec, list_lookup_middle by done. cbn [mbind option_bind].
        eexists _, _, _. rewrite ?put_client_icap. rproj. subst i1. rewrite (metadata_back _ _ _ 1 Hi B4). cbn [mbind option_bind].
        split; [reflexivity|].
        eapply locks_inv_ext; [| |apply (Hkeep c 1)]; [reflexivity|reflexivity|rewrite Ec; apply Forall_app; split; [done|]|].
        -- apply Forall_singleton. rewrite Eh1. split; [lia|]. by exists i, u.
        -- intros slot'. rewrite Ec, on_slot_app. change (fl_client s1) with (fl_client s). unfold on_slot at 2. cbn [countb].
           rewrite Eh1, Z.eqb_sym. destruct (slot' =? slot); lia.
  - cbn [default from_option Datatypes.id]. set (s1 := s <| fl_icap := fl_icap s |>).
    destruct (alloc_hw_ctx_cases (fe_hw_alloc env) (fl_client s1) 0 slot) as [E|(c & h & E & Ec & Eh1 & Eh2 & Eh3 & Eh4)];
      rewrite E; cbn [z2b Z.eqb negb mbind option_bind].
    + eexists _, _, _. unfold icap_put_xclbin_metadata. change (fl_icap s1) with (fl_icap s). rewrite Ep. cbn [mbind option_bind].
      split; [reflexivity|]. by apply (locks_inv_ext base s).
    + change (fl_icap (put_client s1 c)) with (fl_icap s). cbn [deref_uuid Z.eqb mbind option_bind].
      unfold icap_lock_bitstream. rewrite Ep. cbn [mbind option_bind]. cbn [mbind option_bind]. change (z2b (- EINVAL)) with true. cbn [mbind option_bind].
      eexists _, _, _. rewrite ?put_client_icap. rproj. unfold icap_put_xclbin_metadata. rewrite Ep. cbn [mbind option_bind].
      split; [reflexivity|]. apply (locks_inv_ext base s); [done| |done]. exact (free_last c h _ Ec Eh3 Eh4).
Qed.

(** ** Opening and closing a CU leaves the contexts where they are *)

Definition hw_key (hw : kds_client_hw_ctx) : Z * Z := (hw_slot_idx hw, hw_xclbin_id hw).
Definition hw_keys (c : kds_client) : list (Z * Z) := hw_key <$> cl_hw_ctx_list c.

Lemma on_slot_keys slot l l' : hw_key <$> l = hw_key <$> l' -> on_slot slot l = on_slot slot l'.
Proof.
  unfold on_slot. revert l'. induction l as [|x l IH]; intros [|x' l'] E; try done. cbn [fmap list_fmap] in E.
  injection E as E1 E2 E3. cbn [countb]. rewrite E1. specialize (IH l' E3). lia.
Qed.

Lemma locks_inv_keys base s s' : fl_icap s' = fl_icap s -> hw_keys (fl_client s') = hw_keys (fl_client s) ->
  locks_inv base s -> locks_inv base s'.
Proof.
  unfold hw_keys. intros E1 E2 [I1 I2]. split.
  - rewrite E1. apply Forall_lookup_2. intros n hw' Hn.
    assert ((hw_key <$> cl_hw_ctx_list (fl_client s)) !! n = Some (hw_key hw')) as Hk by (by rewrite <- E2, list_lookup_fmap, Hn).
    rewrite list_lookup_fmap in Hk. destruct (cl_hw_ctx_list (fl_client s) !! n) as [hw|] eqn:Eh; [|done].
    pose proof (Forall_lookup_1 _ _ _ _ I1 Eh) as H. injection Hk as Hk1 Hk2. by rewrite <- Hk1, <- Hk2.
  - intros slot i Hs Hi. rewrite E1 in *. rewrite (on_slot_keys _ _ _ E2). by apply I2.
Qed.

Lemma put_hw_cus_keys c p l : hw_keys (put_hw_cus c p l) = hw_keys c.
Proof.
  unfold hw_keys, put_hw_cus. rproj. apply list_eq. intros n. rewrite !list_lookup_fmap, list_lookup_alter.
  destruct (decide (p = n)) as [->|]; [|done]. by destruct (cl_hw_ctx_list c !! n).
Qed.

Lemma add_cu_context_hw kds c cc : cl_hw_ctx_list (kds_add_cu_context (C := C) kds c cc).2 = cl_hw_ctx_list c.
Proof.
  unfold kds_add_cu_context. destruct (_ || _); [done|].
  pose proof (refcnt_incr_hw c (cc_cu_domain cc) (cc_cu_idx cc)) as H.
  destruct (kds_test_and_refcnt_incr c _ _) as [cs c1]. cbn [snd] in H. destruct (cs <? 0); [done|].
  pose proof (refcnt_decr_hw c1 (cc_cu_domain cc) (cc_cu_idx cc)) as H2.
  destruct (kds_test_and_refcnt_decr c1 _ _) as [r c2]. cbn [snd] in H2. cbv zeta.
  destruct (z2b (Z.land _ _)); [cbn [snd]; congruence|]. destruct (_ && _); [cbn [snd]; congruence|done].
Qed.

Lemma add_context_hw kds c cc : cl_hw_ctx_list (kds_add_context (C := C) kds c cc).1.2 = cl_hw_ctx_list c.
Proof.
  unfold kds_add_context. cbv zeta. destruct (_ =? DOMAIN_VIRT).
  - destruct (negb _); [done|]. destruct (_ && _); [|done].
    pose proof (refcnt_incr_hw c DOMAIN_PL (virt_cu kds)) as H. destruct (kds_test_and_refcnt_incr c _ _) as [r c1].
    cbn [snd] in H. by destruct (r <? 0).
  - destruct (_ || _); [|done]. pose proof (add_cu_context_hw kds c cc) as H.
    destruct (kds_add_cu_context kds c cc) as [[r k] c1]. cbn [snd] in H. by destruct (z2b r).
Qed.

(** The other threads do not touch the list of contexts of the client, which
    its lock protects. *)
Definition keeps_ctxs (f : env_step (C := C)) : Prop := forall st, hw_keys (f st).2 = hw_keys st.2.

Lemma wait_completed_keys hw d i rounds : Forall keeps_ctxs rounds -> forall st st',
  wait_completed rounds hw d i st = Some st' -> hw_keys st'.2 = hw_keys st.2.
Proof.
  intros HF. induction HF as [|f rounds Hf HF IH]; intros st st'; cbn [wait_completed]; [done|].
  destruct (outstanding (f st).2 hw d i); [|by intros [= <-]]. intros H. rewrite (IH _ _ H). apply Hf.
Qed.

Lemma wait_bounded_keys hw d i rounds : Forall keeps_ctxs rounds -> forall n st,
  hw_keys (wait_bounded n rounds hw d i st).2 = hw_keys st.2.
Proof.
  intros HF. induction HF as [|f rounds Hf HF IH]; intros [|n] st; cbn [wait_bounded]; try done.
  destruct (outstanding (f st).2 hw d i); [rewrite IH|]; apply Hf.
Qed.

Lemma wait_outstanding_keys rounds call bad kds c hw d i k' c' :
  Forall keeps_ctxs rounds -> keeps_ctxs call ->
  wait_outstanding rounds call bad kds c hw d i = Some (k', c') -> hw_keys c' = hw_keys c.
Proof.
  intros HF Hc. unfold wait_outstanding. destruct (negb _); [by intros [= _ <-]|]. destruct (_ || _).
  - intros E. apply bind_Some in E as ([k1 c1] & E1 & E). apply bind_Some in E as (x & _ & E). injection E as _ <-.
    by apply wait_completed_keys in E1.
  - intros E. apply bind_Some in E as (ert & _ & E). destruct (negb _).
    + apply bind_Some in E as ([k1 c1] & E1 & E). injection E as _ <-. apply wait_completed_keys in E1; [|done].
      cbn [snd] in E1. rewrite E1. apply Hc.
    + apply (inj Some), (f_equal snd) in E. cbn [snd] in E. subst c'. destruct (outstanding _ _ _ _).
      * rewrite (Hc _). by apply (wait_bounded_keys _ _ _ _ HF _ (kds, c)).
      * by apply (wait_bounded_keys _ _ _ _ HF _ (kds, c)).
Qed.

Lemma del_cu_context_keys rounds call bad kds c cc r k' c' :
  Forall keeps_ctxs rounds -> keeps_ctxs call ->
  kds_del_cu_context rounds call bad kds c cc = Some (r, k', c') -> hw_keys c' = hw_keys c.
Proof.
  intros HF Hc. unfold kds_del_cu_context. cbv zeta. destruct (_ || _); [by intros [= _ _ <-]|].
  pose proof (refcnt_decr_hw c (cc_cu_domain cc) (cc_cu_idx cc)) as H.
  destruct (kds_test_and_refcnt_decr c _ _) as [cs c1]. cbn [snd] in H.
  assert (hw_keys c1 = hw_keys c) as H1 by (unfold hw_keys; by rewrite H).
  destruct (cs <? 0); [by intros [= _ _ <-]|]. destruct (cs =? 0); [by intros [= _ _ <-]|].
  intros E. apply bind_Some in E as ([k2 c2] & E2 & E). injection E as _ _ <-. by rewrite (wait_outstanding_keys _ _ _ _ _ _ _ _ _ _ HF Hc E2).
Qed.

Lemma del_context_keys rounds call bad kds c cc r k' c' cc' :
  Forall keeps_ctxs rounds -> keeps_ctxs call ->
  kds_del_context rounds call bad kds c cc = Some (r, k', c', cc') -> hw_keys c' = hw_keys c.
Proof.
  intros HF Hc. unfold kds_del_context. cbv zeta. destruct (_ =? 0); [by intros [= _ _ <- _]|].
  destruct (z2b _); [by intros [= _ _ <- _]|]. destruct (_ =? DOMAIN_VIRT).
  - destruct (_ && _); [|by intros [= _ _ <- _]].
    pose proof (refcnt_decr_hw c DOMAIN_PL (virt_cu kds)) as H. destruct (kds_test_and_refcnt_decr c _ _) as [r1 c1].
    cbn [snd] in H. destruct (r1 <? 0); [intros [= _ _ <- _]; unfold hw_keys; by rewrite H|].
    pose proof (refcnt_decr_hw c1 DOMAIN_PL (virt_cu kds)) as H2. destruct (kds_test_and_refcnt_decr c1 _ _) as [r2 c2].
    cbn [snd] in H2. destruct (r2 =? 0); intros [= _ _ <- _]; unfold hw_keys; by rewrite H2, H.
  - destruct (_ || _); [|by intros [= _ _ <- _]]. intros E. apply bind_Some in E as ([[r1 k1] c1] & E1 & E).
    injection E as _ _ <- _. by apply del_cu_context_keys in E1.
Qed.

Lemma open_cu_locks env base s args ret idx s' :
  locks_inv base s -> xocl_open_cu_context env s args = Some (ret, idx, s') -> locks_inv base s'.
Proof.
  intros I. unfold xocl_open_cu_context. destruct (kds_get_hw_ctx_by_id _ _) as [p|]; [|by intros [= _ _ <-]].
  intros E. apply bind_Some in E as (hw & _ & E). apply bind_Some in E as ([r|info] & _ & E); [by injection E as _ _ <-|].
  destruct (kds_alloc_cu_hw_ctx _ _ _) as [[q|] [hw1|]]; try (by injection E as _ _ <-).
  apply bind_Some in E as (cc & _ & E). cbv zeta in E.
  set (c1 := put_hw_cus (fl_client s) p (hw_cu_ctx_list hw1)) in E.
  change (fl_client (put_client s c1)) with c1 in E. change (fl_kds (put_client s c1)) with (fl_kds s) in E.
  pose proof (add_context_hw (fl_kds s) c1 cc) as H.
  destruct (kds_add_context (fl_kds s) c1 cc) as [[[r k] c2] cc2]. cbn [fst snd] in H. injection E as _ _ <-.
  apply (locks_inv_keys base s); [done| |done]. change (fl_client (put_client _ ?c)) with c.
  rewrite put_hw_cus_keys. unfold hw_keys. rewrite H. apply put_hw_cus_keys.
Qed.

Lemma close_cu_locks env base s args ret s' :
  Forall keeps_ctxs (fe_rounds env) -> keeps_ctxs (fe_ert_call env) ->
  locks_inv base s -> xocl_close_cu_context env s args = Some (ret, s') -> locks_inv base s'.
Proof.
  intros HF Hc I. unfold xocl_close_cu_context. destruct (kds_get_hw_ctx_by_id _ _) as [p|]; [|by intros [= _ <-]].
  intros E. apply bind_Some in E as (hw & _ & E). destruct (kds_get_cu_hw_ctx _ _) as [r|[q|]]; try (by injection E as _ <-).
  apply bind_Some in E as (cc & _ & E). apply bind_Some in E as ([[[r k] c1] cc1] & E1 & E).
  apply (del_context_keys _ _ _ _ _ _ _ _ _ _ HF Hc) in E1. cbv zeta in E.
  destruct (if z2b r then _ else _) as [r1 l]. injection E as _ <-.
  apply (locks_inv_keys base s); [done| |done]. change (fl_client (put_client _ ?c)) with c.
  by rewrite put_hw_cus_keys.
Qed.
End Locks.

(** ** The file over time *)

(** Steps of a client with hardware contexts; a context is destroyed only when
    nothing is open in it. *)
Inductive ctx_step {C} : xocl_file C -> xocl_file C -> Prop :=
| step_create env s slot ret id s' : 0 <= slot < Z.of_nat (length (ic_slots (fl_icap s))) ->
    xocl_create_hw_context env s slot = Some (ret, id, s') -> ctx_step s s'
| step_destroy s id ret s' : ctx_idle s id -> xocl_destroy_hw_context s id = Some (ret, s') -> ctx_step s s'
| step_open env s args ret idx s' : xocl_open_cu_context env s args = Some (ret, idx, s') -> ctx_step s s'
| step_close env s args ret s' : Forall keeps_ctxs (fe_rounds env) -> keeps_ctxs (fe_ert_call env) ->
    xocl_close_cu_context env s args = Some (ret, s') -> ctx_step s s'.

Lemma ctx_step_locks {C} base (s s' : xocl_file C) : ctx_step s s' -> locks_inv base s -> locks_inv base s'.
Proof.
  intros [env s1 slot ret id s2 Hs E|s1 id ret s2 Hid E|env s1 args ret idx s2 E|env s1 args ret s2 HF Hc E] I.
  - destruct (create_locks env base s1 slot I Hs) as (r & i & s3 & E3 & H). congruence.
  - destruct (destroy_locks base s1 id I Hid) as (r & s3 & E3 & H). congruence.
  - by apply (open_cu_locks env base s1 args ret idx s2).
  - by apply (close_cu_locks env base s1 args ret s2).
Qed.

(** C12. The bitstream of a slot is locked exactly while a context uses it: after
    any sequence of creating and destroying hardware contexts (also failing
    ones) and opening and closing CUs in them, where a context is destroyed only
    when no CU is open in it, the lock count of a slot is the number of the
    contexts of the client on it plus the locks of the other clients, and the
    question whether the slot is locked is answered accordingly. *)
Theorem bitstream_locked_while_used {C} base (s s' : xocl_file C) slot i :
  rtc ctx_step s s' -> locks_inv base s -> 0 <= base slot -> 0 <= slot -> islot_at (fl_icap s') slot = Some i ->
  is_ref i = base slot + on_slot slot (cl_hw_ctx_list (fl_client s')) /\
  icap_bitstream_is_locked (fl_icap s') slot = Some (negb (base slot + on_slot slot (cl_hw_ctx_list (fl_client s')) =? 0)).
Proof.
  intros Hr I Hb Hs Hi. assert (locks_inv base s') as I'.
  { induction Hr as [|s s1 s' H1 Hr IH]; [done|]. apply IH; [by apply (ctx_step_locks _ _ _ H1)|done]. }
  destruct (li_slot _ _ I' slot i Hs Hi) as (_ & _ & _ & _ & Href). split; [done|].
  unfold icap_bitstream_is_locked, icap_bitstream_in_use. rewrite (islot_slot_info _ _ _ Hi). cbn [mbind option_bind].
  rewrite Hi. cbn [mbind option_bind]. rewrite Href.
  assert ((base slot + on_slot slot (cl_hw_ctx_list (fl_client s')) <? 0) = false) as -> by (apply Z.ltb_ge; unfold on_slot; lia). done.
Qed.

(** C37. Destroying a hardware context unlocks the bitstream before it finds
    that a CU is still open in the context and refuses: a client that asks twice
    is refused twice, the count of the locks, one for its only context, falls
    below zero, and the next question whether the bitstream is locked is a
    [BUG_ON]. *)
Theorem refused_destroy_unlocks {C} base (s : xocl_file C) id p hw i :
  locks_inv base s -> base (hw_slot_idx hw) = 0 -> on_slot (hw_slot_idx hw) (cl_hw_ctx_list (fl_client s)) = 1 ->
  kds_get_hw_ctx_by_id (fl_client s) id = Some p -> cl_hw_ctx_list (fl_client s) !! p = Some hw ->
  hw_cu_ctx_list hw <> [] -> islot_at (fl_icap s) (hw_slot_idx hw) = Some i ->
  exists s1 s2, xocl_destroy_hw_context s id = Some (- EINVAL, s1) /\ fl_client s1 = fl_client s /\
    icap_bitstream_is_locked (fl_icap s1) (hw_slot_idx hw) = Some false /\
    xocl_destroy_hw_context s1 id = Some (- EINVAL, s2) /\
    icap_bitstream_is_locked (fl_icap s2) (hw_slot_idx hw) = None.
Proof.
  intros I Hb Hone Hp Hhw Hcu Hi.
  pose proof (Forall_lookup_1 _ _ _ _ (li_ctx _ _ I) Hhw) as (Hs & i' & u & Hi' & Hx & Hu & Hn).
  assert (i' = i) as -> by congruence.
  destruct (li_slot _ _ I _ _ Hs Hi) as (B1 & B2 & B3 & B4 & B5).
  assert (forall n ic, islot_at ic (hw_slot_idx hw) = Some (i <| is_ref := n |>) -> ic_uuids ic = ic_uuids (fl_icap s) ->
    xocl_destroy_hw_context (s <| fl_icap := ic |>) id =
      Some (- EINVAL, s <| fl_icap := put_islot ic (hw_slot_idx hw) (Some (i <| is_ref := n - 1 |>)) |>)) as Hd.
  { intros n ic Hic Hue. unfold xocl_destroy_hw_context. change (fl_client (s <| fl_icap := ic |>)) with (fl_client s).
    rewrite Hp, Hhw. cbn [mbind option_bind]. rproj. rewrite Hx.
    assert (deref_uuid ic (is_uuid i) = Some (Some u)) as -> by (apply deref_slot; [done|by rewrite Hue]).
    cbn [mbind option_bind]. rewrite (unlock_free ic _ (i <| is_ref := n |>) u); rproj; try done; [|by rewrite Hue].
    cbn [mbind option_bind snd]. change (fl_client (s <| fl_icap := _ |> <| fl_icap := _ |>)) with (fl_client s).
    unfold kds_free_hw_ctx. rewrite Hhw, bool_decide_eq_false_2 by done. cbn [negb]. by destruct s as [[] ? ?]. }
  assert (forall n ic, islot_at ic (hw_slot_idx hw) = Some (i <| is_ref := n |>) ->
    icap_bitstream_is_locked ic (hw_slot_idx hw) = if n <? 0 then None else Some (z2b n)) as Hlk.
  { intros n ic Hic. unfold icap_bitstream_is_locked, icap_bitstream_in_use. rewrite (islot_slot_info _ _ _ Hic).
    cbn [mbind option_bind]. rewrite Hic. done. }
  pose proof (Hd (is_ref i) (fl_icap s)) as H1. replace (s <| fl_icap := fl_icap s |>) with s in H1 by (by destruct s).
  specialize (H1 ltac:(rewrite Hi; by destruct i) eq_refl). rewrite B5, Hb, Hone in H1. cbn [Z.add Z.sub Z.opp Z.pos_sub] in H1.
  eexists _, _. split; [exact H1|]. split; [done|].
  split; [rproj; rewrite (Hlk 0); [done|exact (put_islot_at _ _ _ _ Hi)]|].
  split; [exact (Hd 0 _ (put_islot_at _ _ _ _ Hi) eq_refl)|]. rproj. rewrite put_islot_put.
  rewrite (Hlk (-1)); [done|exact (put_islot_at _ _ _ _ Hi)].
Qed.

(** ** Opening a CU and closing it again *)

Lemma put_mgmt_put {C} (kds : kds_sched C) d m m' : put_mgmt (put_mgmt kds d m) d m' = put_mgmt kds d m'.
Proof. unfold put_mgmt. destruct (d =? DOMAIN_PL); by destruct kds. Qed.

Lemma put_mgmt_same {C} (kds : kds_sched C) d : put_mgmt kds d (get_mgmt kds d) = kds.
Proof. unfold put_mgmt, get_mgmt. destruct (d =? DOMAIN_PL); by destruct kds. Qed.

(** A CU that is free for the client: nobody has it exclusively, and when it is
    asked for exclusively nobody has it at all. *)
Record cu_free {C} (kds : kds_sched C) (c : kds_client) (cc : kds_client_cu_ctx) : Prop := {
  cf_domain : hw_domain (cc_cu_domain cc);
  cf_range : cu_range (cc_cu_idx cc);
  cf_set : xcu_set (get_mgmt kds (cc_cu_domain cc)) (cc_cu_idx cc) = true;
  cf_new : cl_ref (cc_cu_domain cc) (cc_cu_idx cc) c = 0;
  cf_refs : 0 <= cu_ref kds (cc_cu_domain cc) (cc_cu_idx cc) < 2 ^ 31 - 1;
  cf_excl : is_exclusive cc = true -> cu_ref kds (cc_cu_domain cc) (cc_cu_idx cc) = 0;
  cf_table : length (m_cu_refs (get_mgmt kds (cc_cu_domain cc))) = MAX_CUS;
}.

Lemma find_pos_alter {A} (f : A -> bool) (g : A -> A) l p : (forall x, f (g x) = f x) -> find_pos f (alter g p l) = find_pos f l.
Proof.
  intros Hg. revert p. induction l as [|x l IH]; intros [|p]; cbn; try done.
  - by rewrite Hg.
  - change (list_alter g p l) with (alter g p l). by rewrite IH.
Qed.

Lemma hw_ctx_by_id_put c p l id : kds_get_hw_ctx_by_id (put_hw_cus c p l) id = kds_get_hw_ctx_by_id c id.
Proof. unfold kds_get_hw_ctx_by_id, put_hw_cus. rproj. by apply find_pos_alter. Qed.

Lemma stat_read_put c p l hw f i : client_stat_read (put_hw_cus c p l) hw f i = client_stat_read c hw f i.
Proof.
  unfold client_stat_read, put_hw_cus. rproj. set (g := fun h => h <| hw_cu_ctx_list := l |>).
  set (k := fun (res : Z) h => if hw_ctx_idx h =? hw then aget 0 (stat_get f (hw_stats h)) i else res).
  assert (forall xs p z, foldl k z (alter g p xs) = foldl k z xs) as H; [|apply H].
  induction xs as [|x xs IH]; intros [|q] z; [done|done|done|].
  change (alter g (S q) (x :: xs)) with (x :: alter g q xs). cbn [foldl]. apply IH.
Qed.

Lemma put_hw_cus_twice c p l l' r : put_hw_cus (put_hw_cus c p l <| cl_refcnt := r |>) p l' = put_hw_cus c p l' <| cl_refcnt := r |>.
Proof.
  unfold put_hw_cus. destruct c as [a0 a1 a2 a3 hs a5 a6]. unfold upd. cbn [cl_hw_ctx_list]. cbn. f_equal.
  revert p. induction hs as [|h hs IH]; intros [|p]; [done|done|done|]. cbn. f_equal. apply IH.
Qed.

Lemma put_hw_cus_put c p l l' : put_hw_cus (put_hw_cus c p l) p l' = put_hw_cus c p l'.
Proof.
  unfold put_hw_cus. destruct c as [a0 a1 a2 a3 hs a5 a6]. unfold upd. cbn. f_equal.
  revert p. induction hs as [|h hs IH]; intros [|p]; [done|done|done|]. cbn. f_equal. apply IH.
Qed.

Lemma put_hw_cus_same c p hw : cl_hw_ctx_list c !! p = Some hw -> put_hw_cus c p (hw_cu_ctx_list hw) = c.
Proof.
  unfold put_hw_cus. destruct c as [a0 a1 a2 a3 hs a5 a6]. unfold upd. cbn. intros Hp. f_equal.
  revert p Hp. induction hs as [|h hs IH]; intros [|p] Hp; [done|done|injection Hp as ->; by destruct hw|].
  cbn. f_equal. by apply IH.
Qed.

Lemma refcnt_decr_put c p l d i r c' : kds_test_and_refcnt_decr c d i = (r, c') ->
  kds_test_and_refcnt_decr (put_hw_cus c p l) d i = (r, put_hw_cus c' p l).
Proof.
  unfold kds_test_and_refcnt_decr. change (kds_client_domain_refcnt (put_hw_cus c p l) d) with (kds_client_domain_refcnt c d).
  destruct (kds_client_domain_refcnt c d); [|by intros [= <- <-]]. cbv zeta. intros H. apply pair_eq in H as [<- <-].
  by destruct (0 <? _).
Qed.

Lemma insert_last {A} (l : list A) x y : <[length l := y]> (l ++ [x]) = l ++ [y].
Proof. rewrite insert_app_r_alt, Nat.sub_diag by lia. done. Qed.

Lemma add_del_context {C} (kds : kds_sched C) c cc rounds call bad :
  client_ok c -> cu_free kds c cc -> cc_ref_cnt cc = 0 ->
  outstanding c (cc_hw_ctx cc) (cc_cu_domain cc) (cc_cu_idx cc) = false ->
  exists k1 c1, kds_add_context kds c cc = (0, k1, c1, cc <| cc_ref_cnt := 1 |>) /\
    cl_ref (cc_cu_domain cc) (cc_cu_idx cc) c1 = 1 /\ (exists r, c1 = c <| cl_refcnt := r |>) /\
    forall p l, kds_del_context rounds call bad k1 (put_hw_cus c1 p l) (cc <| cc_ref_cnt := 1 |>) =
      Some (0, kds, put_hw_cus c p l, cc).
Proof.
  intros Hc [F1 F2 F3 F4 F5 F6 F7] Hz Ho. set (d := cc_cu_domain cc) in *. set (i := cc_cu_idx cc) in *.
  destruct (add_cu_context_eq kds c cc) as [[H _]|(_ & _ & c1 & E1 & E)]; fold d i; try done.
  { unfold cu_range in F2. lia. }
  { lia. }
  { exfalso. apply H. unfold add_result. fold d i. rewrite F3, land_exclu by lia.
    assert ((Z.of_nat MAX_CUS <=? i) = false) as -> by (apply Z.leb_gt; unfold cu_range in F2; lia). cbn [negb orb].
    change (z2b 0) with false. destruct (is_exclusive cc) eqn:Ex; [|done]. by rewrite (F6 eq_refl). }
  fold d i in E1, E. rewrite F4 in E1.
  destruct (refcnt_incr_decr c d i Hc F1 F2 ltac:(lia)) as (c1' & E1' & E2). rewrite F4 in E1', E2.
  assert (c1' = c1) as -> by congruence.
  destruct (refcnt_incr_ok c d i Hc F1 F2 ltac:(lia)) as (c1' & E3 & _ & Href). rewrite F4 in E3, Href.
  assert (c1' = c1) as -> by congruence. specialize (Href d i F1 F2). rewrite !Z.eqb_refl in Href. cbn in Href.
  destruct (hw_domain_tests d F1) as [T1 T2].
  eexists _, c1. split; [unfold kds_add_context; fold d; rewrite T1, T2, E, Hz; reflexivity|]. split; [done|].
  split. { unfold kds_test_and_refcnt_incr in E1. destruct (kds_client_domain_refcnt c d); [|discriminate E1].
    injection E1 as _ <-. unfold put_domain_refcnt. eexists. reflexivity. }
  intros p l. apply (refcnt_decr_put _ p l) in E2. change (0 + 1) with 1 in E2.
  unfold kds_del_context, kds_del_cu_context, wait_outstanding. rproj. fold d i.
  change (1 =? 0) with false. change (1 - 1) with 0. change (z2b 0) with false. cbv iota.
  rewrite T1, T2, get_put_mgmt, Z.eqb_refl by done.
  assert ((Z.of_nat MAX_CUS <=? i) = false) as -> by (apply Z.leb_gt; unfold cu_range in F2; lia). cbn [orb].
  change (xcu_set (get_mgmt kds d <| m_cu_refs := ?x |>) i) with (xcu_set (get_mgmt kds d) i). rewrite F3, E2.
  cbn [negb Z.add Z.ltb Z.eqb Z.compare Pos.eqb].
  assert (outstanding (put_hw_cus c p l) (cc_hw_ctx cc) d i = false) as -> by (unfold outstanding; rewrite !stat_read_put; exact Ho).
  cbn [negb mbind option_bind].
  rewrite get_put_mgmt, Z.eqb_refl by done. rproj. rewrite aget_aset_eq by (rewrite F7; unfold cu_range in F2; lia).
  rewrite put_mgmt_put, aset_aset.
  set (v := if z2b _ then 0 else _). assert (v = cu_ref kds d i) as ->.
  { subst v. destruct (is_exclusive cc) eqn:Ex.
    - by rewrite (F6 eq_refl).
    - rewrite F4. change (0 =? 0) with true. cbv iota. rewrite u32_small, land_exclu by lia.
      change (z2b 0) with false. change (0 + 1 =? 1) with true. cbv iota. rewrite u32_small by lia. lia. }
  assert (get_mgmt kds d <| m_cu_refs := aset (m_cu_refs (get_mgmt kds d)) i (cu_ref kds d i) |> = get_mgmt kds d) as ->.
  { unfold cu_ref. rewrite aset_aget by (rewrite F7; unfold cu_range in F2; lia). by destruct (get_mgmt kds d). }
  rewrite put_mgmt_same. change (z2b 0) with false. cbv iota. do 2 f_equal. destruct cc. unfold upd. cbn in *. by subst.
Qed.

Lemma first_index_at {A} (f : A -> bool) l j i : first_index f l j = Some i ->
  exists x, j <= i < j + Z.of_nat (length l) /\ l !! Z.to_nat (i - j) = Some x /\ f x = true.
Proof.
  revert j. induction l as [|x l IH]; intros j; cbn [first_index length]; [done|].
  destruct (f x) eqn:Ex.
  - intros [= <-]. exists x. rewrite Z.sub_diag. split; [lia|done].
  - intros H. destruct (IH _ H) as (y & Hr & Hl & Hy). exists y. split; [lia|]. split; [|done].
    replace (Z.to_nat (i - j)) with (S (Z.to_nat (i - (j + 1)))) by lia. done.
Qed.

Lemma named_cu_set {C} (kds : kds_sched C) m slot kname iname i :
  named_cu kds m slot kname iname = Some i -> cu_range i /\ xcu_set m i = true.
Proof.
  unfold named_cu. intros H. apply first_index_at in H as (x & Hr & Hx & Hf).
  rewrite length_seqZ in Hr. rewrite lookup_seqZ_lt in Hx by lia. injection Hx as Hx.
  assert (x = i) as -> by lia. split; [unfold cu_range; lia|].
  unfold xcu_set, get_xcu in *. apply bool_decide_eq_true. by destruct (aget None (m_xcus m) i).
Qed.

(** The CU of a name: in the table of its domain. *)
Lemma to_info_ok {C} (kds : kds_sched C) args hw info : xocl_cu_ctx_to_info kds args hw = Some (inr info) ->
  hw_domain (ci_cu_domain info) /\ cu_range (ci_cu_idx info) /\
  xcu_set (get_mgmt kds (ci_cu_domain info)) (ci_cu_idx info) = true /\ ci_ctx info = hw_ctx_idx hw.
Proof.
  unfold xocl_cu_ctx_to_info. destruct (strsep _) as [kn rest]. intros E. apply bind_Some in E as (kn' & _ & E).
  apply bind_Some in E as (rest' & _ & E). apply bind_Some in E as (iname & _ & E). cbv zeta in E. injection E as E.
  destruct (named_cu kds (kds_cu_mgmt_ kds) _ _ _) as [i|] eqn:E1.
  - injection E as <-. apply named_cu_set in E1 as [H1 H2]. by split_and!; [left|..].
  - destruct (named_cu kds (kds_scu_mgmt kds) _ _ _) as [i|] eqn:E2; [|done].
    injection E as <-. apply named_cu_set in E2 as [H1 H2]. by split_and!; [right|..].
Qed.

Lemma domain_round_trip d i : hw_domain d -> cu_range i -> get_domain (set_domain d i) = d /\ get_domain_idx (set_domain d i) = i.
Proof.
  intros Hd Hi. assert (0 <= i < 2 ^ 16) as Hr by (unfold cu_range, MAX_CUS in Hi; lia). unfold get_domain, get_domain_idx, set_domain.
  change 0xFFFF0000 with (Z.shiftl (Z.ones 16) 16). change 0x0000FFFF with (Z.ones 16).
  rewrite Z.shiftr_land, Z.shiftr_shiftl_l, !Z.land_ones, Z.shiftr_div_pow2, Z.shiftl_mul_pow2 by lia.
  change (Z.shiftl (Z.ones 16) (16 - 16)) with (Z.ones 16). rewrite Z.land_ones by lia.
  rewrite Z.div_add_l, (Z.div_small i), Z.add_0_r by lia. rewrite (Z.add_comm _ i), Z.mod_add, (Z.mod_small i) by lia.
  split; [|done]. by destruct Hd as [-> | ->].
Qed.

(** C13. Opening a CU by name in a hardware context and closing it under the
    index that was returned is an exact round trip: when the name is that of a
    CU of the slot which the client may have and does not have open, the open
    succeeds, returns the domain and the number of the CU in one index and
    reserves the CU for the client, and the close with this index succeeds and
    leaves the scheduler and the client as they were. *)
Theorem open_close_cu_round_trip {C} (env : file_env C) s args p hw info :
  kds_get_hw_ctx_by_id (fl_client s) (oc_hw_context args) = Some p -> cl_hw_ctx_list (fl_client s) !! p = Some hw ->
  xocl_cu_ctx_to_info (fl_kds s) args hw = Some (inr info) ->
  find_pos (cu_ctx_match info) (hw_cu_ctx_list hw) = None -> fe_cu_alloc env = true -> client_ok (fl_client s) ->
  cu_free (fl_kds s) (fl_client s) (kds_initialize_cu_hw_ctx info) ->
  outstanding (fl_client s) (hw_ctx_idx hw) (ci_cu_domain info) (ci_cu_idx info) = false ->
  let index := set_domain (ci_cu_domain info) (ci_cu_idx info) in
  exists s1, xocl_open_cu_context env s args = Some (0, index, s1) /\
    cl_ref (ci_cu_domain info) (ci_cu_idx info) (fl_client s1) = 1 /\
    xocl_close_cu_context env s1 (mk_close_cu (oc_hw_context args) index) = Some (0, s).
Proof.
  intros Hp Hhw Hinfo Hnew Hal Hc Hfree Ho index.
  destruct (to_info_ok _ _ _ _ Hinfo) as (Hd & Hi & Hset & Hctx).
  set (cc := kds_initialize_cu_hw_ctx info) in *.
  set (l0 := hw_cu_ctx_list hw). set (l1 := l0 ++ [cc]). set (c1 := put_hw_cus (fl_client s) p l1).
  assert (client_ok c1) as Hc1 by exact Hc.
  assert (l1 !! length l0 = Some cc) as Hl1 by (by apply list_lookup_middle).
  assert (cu_free (fl_kds s) c1 cc) as Hfree1 by (by destruct Hfree).
  assert (outstanding c1 (cc_hw_ctx cc) (cc_cu_domain cc) (cc_cu_idx cc) = false) as Ho1.
  { unfold outstanding. change (cc_hw_ctx cc) with (ci_ctx info). rewrite Hctx. unfold c1. rewrite !stat_read_put. exact Ho. }
  destruct (add_del_context (fl_kds s) c1 cc (fe_rounds env) (fe_ert_call env) (fe_ert_bad env) Hc1 Hfree1 eq_refl Ho1)
    as (k2 & c2 & Ea & Href & [r Er] & Ed).
  set (cc1 := cc <| cc_ref_cnt := 1 |>) in *.
  set (s1 := put_client (put_kds (put_client s c1) k2) (put_hw_cus c2 p (l0 ++ [cc1]))).
  exists s1. split; [|split].
  - unfold xocl_open_cu_context. rewrite Hp, Hhw. cbn [mbind option_bind]. rewrite Hinfo. cbn [mbind option_bind].
    unfold kds_alloc_cu_hw_ctx, kds_get_cu_hw_ctx. rewrite Hnew, Hal. cbn [negb]. rproj. fold cc l0 l1.
    rewrite Hl1. cbn [mbind option_bind].
    change (fl_kds (put_client s (put_hw_cus (fl_client s) p l1))) with (fl_kds s).
    change (fl_client (put_client s (put_hw_cus (fl_client s) p l1))) with c1. rewrite Ea. cbv beta iota zeta.
    change (z2b 0) with false. cbv iota. unfold s1, index. do 3 f_equal. unfold l1.
    by rewrite insert_last.
  - exact Href.
  - set (cl := put_hw_cus (fl_client s) p (l0 ++ [cc1]) <| cl_refcnt := r |>).
    assert (fl_client s1 = cl) as Hcl.
    { change (fl_client s1) with (put_hw_cus c2 p (l0 ++ [cc1])). rewrite Er. apply put_hw_cus_twice. }
    assert (kds_get_hw_ctx_by_id cl (oc_hw_context args) = Some p) as Hid.
    { rewrite <- Hp, <- (hw_ctx_by_id_put (fl_client s) p (l0 ++ [cc1])). reflexivity. }
    unfold xocl_close_cu_context. rewrite Hcl. cbn [xc_hw_context]. rewrite Hid.
    assert (cl_hw_ctx_list cl !! p =
      Some (hw <| hw_cu_ctx_list := l0 ++ [cc1] |>)) as ->.
    { unfold cl, put_hw_cus. rproj. by rewrite list_lookup_alter, decide_True, Hhw by done. }
    cbn [mbind option_bind]. unfold kds_get_cu_hw_ctx. rproj.
    assert (find_pos (cu_ctx_match (xocl_close_cu_ctx_to_info (mk_close_cu (oc_hw_context args) index))) (l0 ++ [cc1]) = Some (length l0)) as ->.
    { destruct (domain_round_trip _ _ Hd Hi) as [D1 D2].
      assert (forall x, cu_ctx_match (xocl_close_cu_ctx_to_info (mk_close_cu (oc_hw_context args) index)) x = cu_ctx_match info x) as Hm.
      { intros x. unfold cu_ctx_match, xocl_close_cu_ctx_to_info. cbn [ci_cu_idx ci_cu_domain xc_cu_index]. unfold index. by rewrite D1, D2. }
      apply find_pos_app; [|rewrite Hm; unfold cu_ctx_match, cc1; rproj; unfold cc; cbn; by rewrite !Z.eqb_refl].
      rewrite <- Hnew. fold l0. clear -Hm. induction l0 as [|x l IH]; [done|]. cbn [find_pos]. by rewrite Hm, IH. }
    rewrite list_lookup_middle by done. cbn [mbind option_bind].
    specialize (Ed p (l0 ++ [cc1])). rewrite Er in Ed. unfold c1 at 1 in Ed. rewrite put_hw_cus_twice in Ed. fold cl in Ed.
    change (fl_kds s1) with k2. rewrite Ed. cbn [mbind option_bind]. cbv zeta. change (z2b 0) with false. cbv iota.
    unfold kds_free_cu_ctx. rewrite insert_last, list_lookup_middle by done. change (cc_ref_cnt cc =? 0) with true. cbv iota.
    rewrite delete_middle, app_nil_r. do 2 f_equal. unfold c1. rewrite !put_hw_cus_put. unfold l0. rewrite (put_hw_cus_same _ p hw Hhw).
    unfold s1, put_client, put_kds, fl_client, fl_kds. by destruct s as [[] ? ?].
Qed.

(** ** A refused context on a CU *)

(** Opening a context on a CU that is not there, in a client that already
    has a context, is refused by the scheduler; the error path frees the new CU
    context and then reads its hardware context: an access to freed memory. *)
Theorem refused_context_use_after_free {C} (env : file_env C) s args ctx hw :
  let d := get_domain (dc_cu_index args) in let i := get_domain_idx (dc_cu_index args) in
  cl_ctx (fl_client s) = Some ctx -> kds_get_hw_ctx_by_id (fl_client s) DEFAULT_HW_CTX_ID = Some hw ->
  fe_cu_alloc env = true -> hw_domain d -> xcu_set (get_mgmt (fl_kds s) d) i = false ->
  find_pos (cu_ctx_match (xocl_ctx_to_info args)) (ctx_cu_ctx_list ctx) = None ->
  xocl_add_context env s args = None.
Proof.
  intros d i Hctx Hhw Hal Hd Hset Hnew. unfold xocl_add_context, first_context. rewrite Hctx.
  rewrite bool_decide_eq_true_2 by done. cbn [mbind option_bind].
  unfold kds_alloc_cu_ctx, kds_get_cu_ctx. rewrite Hctx, Hnew, Hal. cbn [negb mbind option_bind].
  set (cc := kds_initialize_cu_ctx (fl_client s) (xocl_ctx_to_info args)).
  set (c := fl_client s <| cl_ctx := _ |>). change (fl_client (put_client s c)) with c. change (fl_kds (put_client s c)) with (fl_kds s).
  change (kds_get_hw_ctx_by_id c) with (kds_get_hw_ctx_by_id (fl_client s)). rewrite Hhw.
  assert (cu_ctxs c = ctx_cu_ctx_list ctx ++ [cc]) as Hl by reflexivity.
  rewrite Hl, list_lookup_middle by done. cbn [mbind option_bind].
  unfold kds_add_context, kds_add_cu_context. change (cc_cu_domain (cc <| cc_hw_ctx := _ |>)) with d. change (cc_cu_idx (cc <| cc_hw_ctx := _ |>)) with i.
  destruct (hw_domain_tests d Hd) as [-> ->]. rewrite Hset, orb_true_r. change (z2b (- EINVAL)) with true. cbv beta iota zeta.
  unfold undo_open. change (z2b (- EINVAL)) with true. cbv iota.
  change (cu_ctxs (fl_client (put_client ?a (put_cu_ctxs c ?l)))) with l. rewrite Hl, insert_last, list_lookup_middle by done. done.
Qed.

(** ** Instances of the theorems *)

(** A bitstream (UUID 77) in slot 0, and the scheduler with one CU. *)
Definition demo_icap (ref : Z) : icap :=
  mk_icap (Some (mk_islot 50 ref 0 0 empty) :: replicate 127 None) {[ 50 := 77 ]}.
Definition demo_file_of (ref : Z) (c : kds_client) : xocl_file unit :=
  mk_file (mk_io demo_kds c 0 empty empty empty [] [] 0) 0 (demo_icap ref).
Definition demo_file : xocl_file unit := demo_file_of 0 (demo_client 7).
Definition demo_file_env : file_env unit :=
  mk_file_env _ true true 60 (true, true) true [] id false id None 0 id.
(** "k:i" with the empty names of that CU. *)
Definition demo_open : drm_xocl_open_cu_ctx := mk_open_cu 0 [58] 0.

Lemma demo_slots ref slot i : 0 <= slot -> islot_at (demo_icap ref) slot = Some i -> slot = 0 /\ i = mk_islot 50 ref 0 0 empty.
Proof.
  intros Hs. unfold islot_at, slot_info, aget_chk. destruct (in_arr _ slot); [|done]. cbn [mbind option_bind].
  unfold aget, demo_icap. cbn [ic_slots]. destruct (Z.to_nat slot) as [|n] eqn:En; cbn [lookup list_lookup].
  - intros [= <-]. split; [lia|done].
  - destruct (replicate 127 (None : option islot_info) !! n) as [x|] eqn:Ex; [|done].
    apply lookup_replicate in Ex as [-> _]. done.
Qed.

Lemma demo_locks c : Forall (fun hw => hw_slot_idx hw = 0 /\ hw_xclbin_id hw = 50) (cl_hw_ctx_list c) ->
  locks_inv (fun _ => 0) (demo_file_of (on_slot 0 (cl_hw_ctx_list c)) c).
Proof.
  intros HF. split.
  - eapply Forall_impl; [exact HF|]. intros hw [E1 E2]. rewrite E1, E2. split; [lia|].
    exists (mk_islot 50 (on_slot 0 (cl_hw_ctx_list c)) 0 0 empty), 77. by split_and!.
  - intros slot i Hs Hi. apply demo_slots in Hi as [-> ->]; [|done]. cbn [is_uuid is_busy is_reader is_ref].
    split_and!; [lia|by eexists|done|lia|]. done.
Qed.

Definition demo_created : xocl_file unit :=
  match xocl_create_hw_context demo_file_env demo_file 0 with Some (_, _, s) => s | None => demo_file end.
Definition demo_opened : xocl_file unit :=
  match xocl_open_cu_context demo_file_env demo_created demo_open with Some (_, _, s) => s | None => demo_file end.

Lemma bitstream_locked_while_used_witness : icap_bitstream_is_locked (fl_icap demo_opened) 0 = Some true.
Proof.
  destruct (bitstream_locked_while_used (fun _ => 0) demo_file demo_opened 0 (mk_islot 50 1 0 0 empty)) as [_ H].
  - eapply rtc_l; [|eapply rtc_l; [|apply rtc_refl]].
    + apply (step_create demo_file_env demo_file 0 0 0 demo_created); [vm_compute; split; congruence|vm_compute; reflexivity].
    + apply (step_open demo_file_env demo_created demo_open 0 0 demo_opened). vm_compute. reflexivity.
  - exact (demo_locks (demo_client 7) (Forall_nil_2 _)).
  - done.
  - done.
  - vm_compute. reflexivity.
  - rewrite H. vm_compute. reflexivity.
Defined.

(** A client with a CU open in its only context. *)
Definition demo_user : kds_client :=
  demo_client 7 <| cl_hw_ctx_list := [mk_hw_ctx 0 50 0 [mk_cu_ctx 0 DOMAIN_PL CU_CTX_SHARED 1 0 0] [] stats_zero] |>.

Lemma refused_destroy_unlocks_witness : exists s1 s2,
  xocl_destroy_hw_context (demo_file_of 1 demo_user) 0 = Some (- EINVAL, s1) /\
  xocl_destroy_hw_context s1 0 = Some (- EINVAL, s2) /\ icap_bitstream_is_locked (fl_icap s2) 0 = None.
Proof.
  destruct (refused_destroy_unlocks (fun _ => 0) (demo_file_of 1 demo_user) 0 0
    (mk_hw_ctx 0 50 0 [mk_cu_ctx 0 DOMAIN_PL CU_CTX_SHARED 1 0 0] [] stats_zero) (mk_islot 50 1 0 0 empty))
    as (s1 & s2 & E1 & _ & _ & E2 & E3).
  - apply (demo_locks demo_user). by repeat constructor.
  - reflexivity.
  - reflexivity.
  - reflexivity.
  - reflexivity.
  - discriminate.
  - reflexivity.
  - exists s1, s2. split; [exact E1|]. split; [exact E2|exact E3].
Defined.

(** The same client with nothing open. *)
Definition demo_idle : kds_client := demo_client 7 <| cl_hw_ctx_list := [mk_hw_ctx 0 50 0 [] [] stats_zero] |>.

Lemma open_close_cu_round_trip_witness : exists s1,
  xocl_open_cu_context demo_file_env (demo_file_of 1 demo_idle) demo_open = Some (0, 0, s1) /\
  xocl_close_cu_context demo_file_env s1 (mk_close_cu 0 0) = Some (0, demo_file_of 1 demo_idle).
Proof.
  destruct (open_close_cu_round_trip demo_file_env (demo_file_of 1 demo_idle) demo_open 0
    (mk_hw_ctx 0 50 0 [] [] stats_zero) (mk_cu_info 0 DOMAIN_PL CU_CTX_SHARED 0)) as (s1 & E1 & _ & E2).
  - reflexivity.
  - reflexivity.
  - vm_compute. reflexivity.
  - reflexivity.
  - reflexivity.
  - apply demo_client_ok.
  - constructor; [by left| | | | | |]; try (vm_compute; reflexivity); vm_compute; (split; congruence).
  - vm_compute. reflexivity.
  - exists s1. split; [exact E1|exact E2].
Defined.

(** A context on CU 5, which is not there, in a client with a context. *)
Definition demo_legacy : kds_client := demo_idle <| cl_ctx := Some (mk_client_ctx 0 []) |>.

Lemma refused_context_use_after_free_witness :
  xocl_add_context demo_file_env (demo_file_of 1 demo_legacy) (mk_drm_ctx (Some XOCL_CTX_OP_ALLOC_CTX) 77 5 0) = None.
Proof.
  apply (refused_context_use_after_free demo_file_env (demo_file_of 1 demo_legacy) _ (mk_client_ctx 0 []) 0).
  - reflexivity.
  - reflexivity.
  - reflexivity.
  - by left.
  - vm_compute. reflexivity.
  - reflexivity.
Defined.
