(* ===== verification/CmdQueue.v ===== *)
(** * The command queue of the legacy scheduler

    [xocl/subdev/command_queue.c]: commands to a firmware without XGQ are written
    into slots of a memory shared with it, and the firmware reports the slots that
    are done by an interrupt per slot, by a mailbox (Versal) or in status
    registers that the host polls.  The functions are called by the scheduler of
    [ErtUser] through the table [xrt_ert_queue_funcs] of [xrt_ert.h].

    A command is passed by value and known by its address [ec_id]; the table
    [submit_queue] has addresses.  The memory is a list of words.  Calls of
    [cb.notify] are counted in the results, commands handed to [cb.complete] are
    returned in order.  [None] is an access outside an array or the memory,
    through a dangling pointer, or a [BUG_ON].  Counters of list elements are
    not wrapped. *)
From S2P Require Import Prelude KdsCommand.

Definition ERT_ACCESS_TEST : Z := 17.
Definition HOST_RW_PATTERN : Z := 0xF0F0F0F0.
Definition ERT_MAX_SLOTS : Z := 128.
Definition CTRL_SLOT : Z := 0.
Definition CQ_STATUS_OFFSET : Z := 0x58.
Definition no_index : Z := 2 ^ 32 - 1.

(** Words of [ert_access_valid_cmd]. *)
Definition sizeof_access_valid : Z := 32.
Definition access_h2h : Z := 1.
Definition access_wr_count : Z := 6.
Definition access_wr_test : Z := 7.

(** [struct xrt_ert_command].  [ec_xcmd]: the command of KDS, NULL for those of
    the scheduler itself; [ec_exit]: whether [cb.complete] is that of the exit
    command; [ec_own_payload]: whether [cb.free_payload] is set. *)
Record xrt_ert_command := mk_ecmd {
  ec_id : Z;
  ec_xcmd : option kds_command;
  ec_handle : Z;
  ec_client : Z;
  ec_exit : bool;
  ec_own_payload : bool;
  ec_payload : ert_packet;
  ec_payload_size : Z;
  ec_cu_idx : Z;
  ec_cstate : kds_status;
  ec_response_size : Z;
  ec_response : list Z;
}.
#[export] Instance eta_ecmd : Eta xrt_ert_command := fun e =>
  mk_ecmd (ec_id e) (ec_xcmd e) (ec_handle e) (ec_client e) (ec_exit e) (ec_own_payload e) (ec_payload e)
    (ec_payload_size e) (ec_cu_idx e) (ec_cstate e) (ec_response_size e) (ec_response e).

(** [cmdq_doorbells]: the writes to the status registers of the firmware, mask
    and offset; [cmdq_irqs]: the slots whose interrupt is on, [cmdq_mailbox] the
    same for the mailbox. *)
Record command_queue := mk_cmdq {
  cmdq_mem : list Z;
  cmdq_range : Z;
  cmdq_polling : bool;
  cmdq_num_slots : Z;
  cmdq_slot_size : Z;
  cmdq_sq : list xrt_ert_command;
  cmdq_sq_num : Z;
  cmdq_slot_status : list bool;
  cmdq_submit_queue : list (option Z);
  cmdq_doorbells : list (Z * Z);
  cmdq_irqs : list bool;
  cmdq_mailbox : bool;
}.
#[export] Instance eta_cmdq : Eta command_queue := fun q =>
  mk_cmdq (cmdq_mem q) (cmdq_range q) (cmdq_polling q) (cmdq_num_slots q) (cmdq_slot_size q) (cmdq_sq q)
    (cmdq_sq_num q) (cmdq_slot_status q) (cmdq_submit_queue q) (cmdq_doorbells q) (cmdq_irqs q) (cmdq_mailbox q).

(** The commands that go to slot 0. *)
Definition ctrl_opcode (op : Z) : bool :=
  (op =? ERT_EXIT) || (op =? ERT_CONFIGURE) || (op =? ERT_SK_CONFIG) || (op =? ERT_CU_STAT)
  || (op =? ERT_CLK_CALIB) || (op =? ERT_MB_VALIDATE) || (op =? ERT_ACCESS_TEST_C).

(** The commands that start a CU. *)
Definition start_opcode (op : Z) : bool :=
  (op =? ERT_START_CU) || (op =? ERT_EXEC_WRITE) || (op =? ERT_START_KEY_VAL).

Definition access_opcode (op : Z) : bool := (op =? ERT_ACCESS_TEST) || (op =? ERT_ACCESS_TEST_C).

Definition ec_opcode (e : xrt_ert_command) : Z := ert_opcode (ec_payload e).
Definition is_special_cmd (e : xrt_ert_command) : bool := ctrl_opcode (ec_opcode e).

(** ** Slots *)

Definition cmd_queue_reset (q : command_queue) : command_queue :=
  q <| cmdq_slot_status := true :: replicate 127 false |>.

Definition command_queue_release_slot_idx (q : command_queue) (slot : Z) : command_queue :=
  q <| cmdq_slot_status ::= fun l => aset l slot false |>.

Definition command_queue_release (e : xrt_ert_command) (q : command_queue) : xrt_ert_command * command_queue :=
  if ec_handle e =? no_index then (e, q)
  else (e <| ec_handle := no_index |>,
        if is_special_cmd e then q else command_queue_release_slot_idx q (ec_handle e)).

(** [find_first_zero_bit] *)
Fixpoint first_zero (l : list bool) : Z :=
  match l with
  | [] => 0
  | b :: l => if b then 1 + first_zero l else 0
  end.

Definition command_queue_acquire_slot_idx (q : command_queue) : option (Z * command_queue) :=
  let idx := first_zero (cmdq_slot_status q) in
  if idx <? cmdq_num_slots q then
    l ← aset_chk (cmdq_slot_status q) idx true; Some (idx, q <| cmdq_slot_status := l |>)
  else Some (no_index, q).

Definition command_queue_acquire (e : xrt_ert_command) (q : command_queue) : option (Z * command_queue) :=
  if is_special_cmd e then Some (CTRL_SLOT, q <| cmdq_slot_status ::= fun l => aset l CTRL_SLOT true |>)
  else command_queue_acquire_slot_idx q.

(** ** Completion *)

Definition command_queue_get_return (q : command_queue) (e : xrt_ert_command) : option xrt_ert_command :=
  if ec_response_size e =? 0 then Some e
  else if z2b (Z.land (ec_response_size e) 3) then None
  else
    let slot_addr := u32 (ec_handle e * cmdq_slot_size q) in
    ws ← copy_out (cmdq_mem q) (slot_addr / 4) (ec_response_size e / 4);
    Some (e <| ec_response := ws |>).

Definition command_queue_complete (e : xrt_ert_command) (q : command_queue) : option (xrt_ert_command * command_queue) :=
  e ← command_queue_get_return q e;
  t ← aset_chk (cmdq_submit_queue q) (ec_handle e) None;
  Some (command_queue_release e (q <| cmdq_submit_queue := t |>)).

(** Walk the submitted commands [l] and complete those [sel] picks (and may
    change): the completed ones, those that stay, and the queue. *)
Fixpoint complete_cmds (sel : xrt_ert_command -> option xrt_ert_command) (l : list xrt_ert_command) (q : command_queue)
  : option (list xrt_ert_command * list xrt_ert_command * command_queue) :=
  match l with
  | [] => Some ([], [], q)
  | e :: l =>
      match sel e with
      | None => r ← complete_cmds sel l q; let '(d, k, q) := r in Some (d, e :: k, q)
      | Some e =>
          c ← command_queue_complete e (q <| cmdq_sq_num ::= fun n => n - 1 |>);
          r ← complete_cmds sel l c.2;
          let '(d, k, q) := r in Some (c.1 :: d, k, q)
      end
  end.

(** [ecmd->complete_entry.hdr.cstate = KDS_COMPLETED] for the command at [id]. *)
Definition mark_completed (id : Z) (q : command_queue) : option command_queue :=
  if existsb (fun e => ec_id e =? id) (cmdq_sq q)
  then Some (q <| cmdq_sq ::= fmap (fun e => if ec_id e =? id then e <| ec_cstate := KDS_COMPLETED |> else e) |>)
  else None.

(** What the three ways of completion have in common: the command in [slot] is
    marked and the scheduler notified; a slot that is not in use is ignored. *)
Definition slot_done (slot : Z) (q : command_queue) : option (Z * command_queue) :=
  p ← aget_chk None (cmdq_submit_queue q) slot;
  match p with
  | None => Some (0, q)
  | Some id => q ← mark_completed id q; Some (1, q)
  end.

(** The bits of one status register, from slot [idx] on. *)
Fixpoint csr_bits (n : nat) (mask idx : Z) (q : command_queue) : option (Z * command_queue) :=
  match n with
  | O => Some (0, q)
  | S n =>
      if mask =? 0 then Some (0, q)
      else
        r ← (if Z.land mask 1 =? 0 then Some (0, q) else slot_done idx q);
        s ← csr_bits n (Z.shiftr mask 1) (idx + 1) r.2;
        Some (r.1 + s.1, s.2)
  end.

(** [csr i]: what the status register [i] reads. *)
Definition command_queue_check_csr (csr : Z -> Z) (q : command_queue) : option (Z * command_queue) :=
  foldl (fun r i => r ← r; s ← csr_bits 32 (csr i) (Z.shiftl i 5) r.2; Some (r.1 + s.1, s.2)) (Some (0, q)) [0; 1; 2; 3].

Definition poll_sel (e : xrt_ert_command) : option xrt_ert_command :=
  if bool_decide (ec_cstate e = KDS_COMPLETED) then Some e else None.

(** The completed commands, the number of notifications, and the queue. *)
Definition command_queue_poll (csr : Z -> Z) (q : command_queue) : option (list xrt_ert_command * Z * command_queue) :=
  if cmdq_sq_num q =? 0 then Some ([], 0, q)
  else
    r ← (if cmdq_polling q then command_queue_check_csr csr q else Some (0, q));
    s ← complete_cmds poll_sel (cmdq_sq r.2) r.2;
    let '(done, kept, q) := s in
    Some (done, r.1, q <| cmdq_sq := kept |>).

Definition abort_sel (client : Z) (e : xrt_ert_command) : option xrt_ert_command :=
  if negb (ec_client e =? client) then None
  else Some (if bool_decide (ec_cstate e = KDS_COMPLETED) then e else e <| ec_cstate := KDS_TIMEOUT |>).

Definition command_queue_abort (client : Z) (q : command_queue) : option (list xrt_ert_command * command_queue) :=
  s ← complete_cmds (abort_sel client) (cmdq_sq q) q;
  let '(done, kept, q) := s in
  Some (done, q <| cmdq_sq := kept |>).

Definition cmd_queue_isr (irq : Z) (q : command_queue) : option (Z * command_queue) :=
  if ERT_MAX_SLOTS <=? irq then None else slot_done irq q.

(** [slots]: what the mailbox holds; more than [ERT_MAX_SLOTS] overrun the array. *)
Definition cmd_queue_versal_isr (slots : list Z) (q : command_queue) : option (Z * command_queue) :=
  if ERT_MAX_SLOTS <? Z.of_nat (length slots) then None
  else foldl (fun r slot => r ← r; s ← slot_done slot r.2; Some (r.1 + s.1, s.2)) (Some (0, q)) slots.

(** ** Submission *)

(** The data test on the words from [w + 8] to the end of the slot, [n] of them:
    whether every word reads back. *)
Fixpoint h2h_test (mem : list Z) (i : Z) (n : nat) : option (bool * list Z) :=
  match n with
  | O => Some (true, mem)
  | S n =>
      mem ← aset_chk mem i HOST_RW_PATTERN;
      val ← aget_chk 0 mem i;
      if negb (val =? HOST_RW_PATTERN) then Some (false, mem) else h2h_test mem (i + 1) n
  end.

(** [while (--cnt)] *)
Fixpoint write_patterns (mem : list Z) (i : Z) (cnt : nat) : option (list Z) :=
  match cnt with
  | O => Some mem
  | S n => mem ← aset_chk mem i (if Nat.odd cnt then 0xFFFFFFFF else 0); write_patterns mem i n
  end.

Definition test_count : Z := 10000000.

(** The packet in the slot that starts at word [w]. *)
Definition write_packet (mem : list Z) (w slot_size : Z) (e : xrt_ert_command) : option (list Z) :=
  let op := ec_opcode e in
  mem ← (if start_opcode op then
           mem ← aset_chk mem (w + 1) (ec_cu_idx e);
           ws ← copy_out (ert_words (ec_payload e)) 1 (u32 (ec_payload_size e - 2));
           copy_in mem (w + 2) ws
         else if access_opcode op then
           r ← h2h_test mem (w + sizeof_access_valid / 4) (Z.to_nat (slot_size / 4 - sizeof_access_valid / 4));
           mem ← aset_chk r.2 (w + access_h2h) (b2z r.1);
           aset_chk mem (w + access_wr_count) test_count
         else
           ws ← copy_out (ert_words (ec_payload e)) 0 (u32 (ec_payload_size e - 1));
           copy_in mem (w + 1) ws);
  mem ← aset_chk mem w (ert_header (ec_payload e));
  if access_opcode op then
    mem ← write_patterns mem (w + access_wr_test) (Z.to_nat (test_count - 1));
    aset_chk mem (w + access_wr_count) 0
  else Some mem.

Definition mask_idx32 (idx : Z) : Z := Z.shiftr idx 5.
Definition idx_in_mask32 (idx mask_idx : Z) : Z := u32 (idx - Z.shiftl mask_idx 5).

(** Result, the command with its slot, the number of notifications, the queue. *)
Definition command_queue_submit (kds_echo : bool) (e : xrt_ert_command) (q : command_queue)
  : option (Z * xrt_ert_command * Z * command_queue) :=
  a ← command_queue_acquire e q;
  let '(h, q) := a in
  let e := e <| ec_handle := h |> in
  if h =? no_index then Some (- EBUSY, e, 0, q)
  else
    let slot_addr := u32 (h * cmdq_slot_size q) in
    t ← aset_chk (cmdq_submit_queue q) h (Some (ec_id e));
    let q := q <| cmdq_submit_queue := t |> <| cmdq_sq_num ::= fun n => n + 1 |> in
    let add e := q <| cmdq_sq ::= fun l => l ++ [e] |> in
    if kds_echo then
      let e := e <| ec_cstate := KDS_COMPLETED |> in Some (0, e, 1, add e)
    else
      mem ← write_packet (cmdq_mem q) (slot_addr / 4) (cmdq_slot_size q) e;
      let mask_idx := mask_idx32 h in
      Some (0, e, 0, add e <| cmdq_mem := mem |>
        <| cmdq_doorbells ::= fun l => l ++ [(Z.shiftl 1 (idx_in_mask32 h mask_idx), CQ_STATUS_OFFSET + Z.shiftl mask_idx 2)] |>).

(** ** Configuration *)

Definition command_queue_config (slot_size : Z) (polling : bool) (q : command_queue) : Z * command_queue :=
  if (cmdq_range q =? 0) || (slot_size =? 0) then (- EINVAL, q)
  else if z2b (Z.land slot_size 3) then (- EINVAL, q)
  else if slot_size <? cmdq_range q / ERT_MAX_SLOTS then (- EINVAL, q)
  else (0, cmd_queue_reset (q <| cmdq_num_slots := u32 (cmdq_range q / slot_size) |>
                              <| cmdq_slot_size := slot_size |> <| cmdq_polling := polling |>)).

Definition command_queue_max_slot_num : Z := ERT_MAX_SLOTS.

Definition command_queue_intc_config (versal enable : bool) (q : command_queue) : command_queue :=
  if versal then q <| cmdq_mailbox := enable |>
  else q <| cmdq_irqs ::= fun l => foldl (fun l i => aset l i enable) l (seqZ 0 (cmdq_num_slots q)) |>.

(** The queue [command_queue_probe] sets up over [range] bytes of memory. *)
Definition command_queue_probe (mem : list Z) (range : Z) : command_queue :=
  mk_cmdq mem range false ERT_MAX_SLOTS 0 [] 0 (replicate 128 false) (replicate 128 None) [] (replicate 128 false) false.

(** ** The interface to the scheduler ([xrt_ert.h]) *)

(** [struct xrt_ert_queue_funcs] with the size of [struct ert_queue]; the polling
    gets what the status registers read. *)
Record xrt_ert_queue_funcs (Q : Type) := mk_queue_funcs {
  q_poll : (Z -> Z) -> Q -> option (list xrt_ert_command * Z * Q);
  q_submit : xrt_ert_command -> Q -> option (Z * xrt_ert_command * Z * Q);
  q_config : Z -> bool -> Q -> Z * Q;
  q_max_slot_num : Z;
  q_abort : Z -> Q -> option (list xrt_ert_command * Q);
  q_intc_config : bool -> Q -> Q;
  q_size : Q -> Z;
}.
Arguments q_poll {Q}. Arguments q_submit {Q}. Arguments q_config {Q}. Arguments q_max_slot_num {Q}.
Arguments q_abort {Q}. Arguments q_intc_config {Q}. Arguments q_size {Q}.

Definition command_queue_func (kds_echo versal : bool) : xrt_ert_queue_funcs command_queue :=
  mk_queue_funcs _ command_queue_poll (command_queue_submit kds_echo) command_queue_config command_queue_max_slot_num
    command_queue_abort (command_queue_intc_config versal) cmdq_range.
