(* ===== verification/CmdQueueProof.v ===== *)
(** * Slots of the command queue

    The invariant of [CmdQueue]: a slot belongs to one command from its
    submission to its completion, and holds its packet all that time. *)
From S2P Require Import Prelude KdsCommand CmdQueue.

(** ** Writes to the memory *)

(** [m'] differs from [m] at most in the words from [lo] on and below [hi]. *)
Definition within (lo hi : Z) (m m' : list Z) : Prop :=
  length m' = length m /\ forall j, (Z.of_nat j < lo \/ hi <= Z.of_nat j) -> m' !! j = m !! j.

Lemma within_refl lo hi m : within lo hi m m.
Proof. by split. Qed.

Lemma within_trans lo hi m1 m2 m3 : within lo hi m1 m2 -> within lo hi m2 m3 -> within lo hi m1 m3.
Proof. intros [L1 H1] [L2 H2]. split; [congruence|]. intros j Hj. rewrite H2, H1; done. Qed.

Lemma within_mono lo hi lo' hi' m m' : lo' <= lo -> hi <= hi' -> within lo hi m m' -> within lo' hi' m m'.
Proof. intros Hl Hh [L H]. split; [done|]. intros j Hj. apply H. lia. Qed.

Lemma aset_chk_within {A : Type} (l l' : list A) i v : aset_chk l i v = Some l' ->
  0 <= i < Z.of_nat (length l) /\ length l' = length l /\ l' !! Z.to_nat i = Some v /\
  forall j, Z.of_nat j <> i -> l' !! j = l !! j.
Proof.
  unfold aset_chk. destruct (in_arr l i) eqn:E; [|done]. intros [= <-]. apply in_arr_true in E. unfold aset.
  split; [done|]. split; [apply length_insert|]. split; [apply list_lookup_insert_eq; lia|].
  intros j Hj. apply list_lookup_insert_ne. lia.
Qed.

Lemma aset_within (l l' : list Z) i v lo hi : lo <= i < hi -> aset_chk l i v = Some l' -> within lo hi l l'.
Proof. intros Hi E. destruct (aset_chk_within l l' i v E) as (_ & L & _ & H). split; [done|]. intros j Hj. apply H. lia. Qed.

Lemma copy_in_lookup {A} (dst dst' : list A) off ws : copy_in dst off ws = Some dst' ->
  0 <= off /\ off + Z.of_nat (length ws) <= Z.of_nat (length dst) /\ length dst' = length dst /\
  (forall j, (j < length ws)%nat -> dst' !! (Z.to_nat off + j)%nat = ws !! j) /\
  (forall j, (Z.of_nat j < off \/ off + Z.of_nat (length ws) <= Z.of_nat j) -> dst' !! j = dst !! j).
Proof.
  unfold copy_in. destruct (_ && _) eqn:E; [|done]. intros [= <-]. apply andb_prop in E as [E1%Z.leb_le E2%Z.leb_le].
  assert (length (take (Z.to_nat off) dst) = Z.to_nat off) as Lt by (rewrite length_take; lia).
  split; [lia|]. split; [lia|]. split; [rewrite !length_app, length_take, length_drop; lia|]. split.
  - intros j Hj. rewrite lookup_app_r by lia. rewrite Lt. replace (Z.to_nat off + j - Z.to_nat off)%nat with j by lia.
    by apply lookup_app_l.
  - intros j [Hj|Hj].
    + rewrite lookup_app_l by lia. apply lookup_take_lt. lia.
    + rewrite lookup_app_r by lia. rewrite lookup_app_r by lia. rewrite Lt, lookup_drop. f_equal. lia.
Qed.

Lemma copy_in_within (m m' : list Z) off ws lo hi :
  lo <= off -> off + Z.of_nat (length ws) <= hi -> copy_in m off ws = Some m' -> within lo hi m m'.
Proof.
  intros Hl Hh E. destruct (copy_in_lookup _ _ _ _ E) as (_ & _ & L & _ & H). split; [done|]. intros j Hj. apply H. lia.
Qed.

Lemma h2h_test_within lo hi n : forall m i ok m', lo <= i -> i + Z.of_nat n <= hi ->
  h2h_test m i n = Some (ok, m') -> within lo hi m m'.
Proof.
  induction n as [|n IH]; intros m i ok m' Hl Hh E; cbn [h2h_test] in E; [injection E as _ <-; apply within_refl|].
  apply bind_Some in E as (m1 & E1 & E). apply bind_Some in E as (v & _ & E).
  apply (aset_within _ _ _ _ lo hi) in E1; [|lia]. destruct (negb _); [by injection E as _ <-|].
  apply (within_trans _ _ _ m1); [done|]. apply (IH m1 (i + 1) ok); [lia|lia|done].
Qed.

Lemma write_patterns_within lo hi n : forall m i m', lo <= i < hi -> write_patterns m i n = Some m' -> within lo hi m m'.
Proof.
  induction n as [|n IH]; intros m i m' Hi E; cbn [write_patterns] in E; [injection E as <-; apply within_refl|].
  apply bind_Some in E as (m1 & E1 & E). apply (within_trans _ _ _ m1); [by apply (aset_within _ _ _ _ _ _ Hi) in E1|].
  by apply (IH m1 i).
Qed.

(** ** Packets *)

(** The words a command puts into its slot (the data tests apart). *)
Definition packet_words (e : xrt_ert_command) : list Z :=
  let ws := ert_words (ec_payload e) in
  ert_header (ec_payload e) ::
    (if start_opcode (ec_opcode e) then ec_cu_idx e :: take (Z.to_nat (ec_payload_size e - 2)) (drop 1 ws)
     else take (Z.to_nat (ec_payload_size e - 1)) ws).

(** A command whose packet and answer fit into a slot of [size] bytes. *)
Record cmd_fits (size : Z) (e : xrt_ert_command) : Prop := {
  cf_min : 2 <= ec_payload_size e;
  cf_size : 4 * ec_payload_size e <= size;
  cf_words : ec_payload_size e <= Z.of_nat (length (ert_words (ec_payload e))) + 1;
  cf_test : access_opcode (ec_opcode e) = true -> sizeof_access_valid <= size;
  cf_response : 0 <= ec_response_size e <= size;
  cf_aligned : Z.land (ec_response_size e) 3 = 0;
}.

(** [ws] at word [w] of the memory. *)
Definition words_at (m : list Z) (w : Z) (ws : list Z) : Prop :=
  forall j, (j < length ws)%nat -> m !! (Z.to_nat w + j)%nat = ws !! j.

Lemma words_at_within lo hi m m' w ws : within lo hi m m' -> 0 <= w ->
  w + Z.of_nat (length ws) <= lo \/ hi <= w -> words_at m w ws -> words_at m' w ws.
Proof. intros [_ H] Hw Hd Hm j Hj. rewrite H by lia. by apply Hm. Qed.

Lemma words_at_cons m w x ws : 0 <= w -> m !! Z.to_nat w = Some x -> words_at m (w + 1) ws -> words_at m w (x :: ws).
Proof.
  intros Hw Hx H [|j] Hj; cbn [length] in Hj; [by rewrite Nat.add_0_r|]. cbn [lookup list_lookup].
  rewrite <- H by lia. f_equal. lia.
Qed.

Lemma write_packet_ok m w size e : cmd_fits size e -> 0 <= w -> w + size / 4 <= Z.of_nat (length m) -> 0 <= size < 2 ^ 32 ->
  forall m', write_packet m w size e = Some m' ->
  within w (w + size / 4) m m' /\ (access_opcode (ec_opcode e) = false -> words_at m' w (packet_words e)).
Proof.
  intros F Hw Hm Hs m' E. destruct F as [F1 F2 F3 F4 _ _].
  assert (ec_payload_size e <= size / 4) as Hz by (apply Z.div_le_lower_bound; lia).
  assert (u32 (ec_payload_size e - 2) = ec_payload_size e - 2) as U2.
  { apply u32_small. lia. }
  assert (u32 (ec_payload_size e - 1) = ec_payload_size e - 1) as U1.
  { apply u32_small. lia. }
  unfold write_packet in E. cbv zeta in E. apply bind_Some in E as (m1 & E1 & E). apply bind_Some in E as (m2 & E2 & E).
  pose proof (aset_chk_within _ _ _ _ E2) as (_ & _ & H2 & H2').
  apply (aset_within _ _ _ _ w (w + size / 4)) in E2; [|lia].
  unfold packet_words. destruct (start_opcode (ec_opcode e)) eqn:Es.
  - assert (access_opcode (ec_opcode e) = false) as Ea.
    { unfold start_opcode, access_opcode, ERT_START_CU, ERT_EXEC_WRITE, ERT_START_KEY_VAL, ERT_ACCESS_TEST, ERT_ACCESS_TEST_C in *. lia. }
    rewrite Ea in E. injection E as <-.
    apply bind_Some in E1 as (ma & A1 & A2). apply bind_Some in A2 as (ws & A2 & A3). rewrite U2 in A2.
    rewrite copy_out_ok in A2 by lia. injection A2 as <-.
    pose proof (aset_chk_within _ _ _ _ A1) as (_ & _ & H1 & _). apply (aset_within _ _ _ _ w (w + size / 4)) in A1; [|lia].
    pose proof (copy_in_lookup _ _ _ _ A3) as (_ & _ & _ & H3 & H3').
    apply (copy_in_within _ _ _ _ w (w + size / 4)) in A3; [|lia|rewrite length_take, length_drop; lia].
    split; [by apply (within_trans _ _ _ ma), (within_trans _ _ _ m1)|]. intros _.
    apply words_at_cons; [done|done|]. apply words_at_cons; [lia| |].
    + rewrite H2' by lia. rewrite H3' by lia. done.
    + intros j Hj. rewrite H2' by lia. replace (Z.to_nat (w + 1 + 1)) with (Z.to_nat (w + 2)) by lia. by apply H3.
  - destruct (access_opcode (ec_opcode e)) eqn:Ea.
    + assert (sizeof_access_valid / 4 = 8) as E8 by reflexivity. specialize (F4 eq_refl). unfold sizeof_access_valid in F4.
      assert (8 <= size / 4) by (apply Z.div_le_lower_bound; lia).
      unfold access_h2h, access_wr_count, access_wr_test in *.
      apply bind_Some in E1 as ([ok mh] & A1 & A2). apply bind_Some in A2 as (ma & A2 & A3). cbn [fst snd] in A2.
      apply (h2h_test_within w (w + size / 4)) in A1; [|lia|rewrite E8; lia].
      apply (aset_within _ _ _ _ w (w + size / 4)) in A2, A3; [|lia|lia].
      apply bind_Some in E as (mp & B1 & B2). apply (write_patterns_within w (w + size / 4)) in B1; [|lia].
      apply (aset_within _ _ _ _ w (w + size / 4)) in B2; [|lia]. split; [|done].
      apply (within_trans _ _ _ mh); [done|]. apply (within_trans _ _ _ ma); [done|]. apply (within_trans _ _ _ m1); [done|].
      apply (within_trans _ _ _ m2); [done|]. by apply (within_trans _ _ _ mp).
    + injection E as <-. apply bind_Some in E1 as (ws & A2 & A3). rewrite U1 in A2.
      rewrite copy_out_ok in A2 by lia. injection A2 as <-. rewrite drop_0 in A3.
      pose proof (copy_in_lookup _ _ _ _ A3) as (_ & _ & _ & H3 & H3').
      apply (copy_in_within _ _ _ _ w (w + size / 4)) in A3; [|lia|rewrite length_take; lia].
      split; [by apply (within_trans _ _ _ m1)|]. intros _. apply words_at_cons; [done|done|].
      intros j Hj. rewrite H2' by lia. by apply H3.
Qed.

(** ** The invariant *)

Record cmdq_wf (q : command_queue) : Prop := {
  qw_status : length (cmdq_slot_status q) = 128%nat;
  qw_table : length (cmdq_submit_queue q) = 128%nat;
  qw_mem : 4 * Z.of_nat (length (cmdq_mem q)) = cmdq_range q;
  qw_range : cmdq_range q < 2 ^ 32;
  qw_slots : 0 < cmdq_num_slots q <= ERT_MAX_SLOTS;
  qw_size : 0 < cmdq_slot_size q;
  qw_aligned : cmdq_slot_size q mod 4 = 0;
  qw_fit : cmdq_num_slots q * cmdq_slot_size q <= cmdq_range q;
}.

(** The first word of a slot. *)
Definition slot_word (q : command_queue) (h : Z) : Z := h * cmdq_slot_size q / 4.

Definition table_at (q : command_queue) (h : Z) : option Z := aget None (cmdq_submit_queue q) h.

(** [l]: the commands in flight. *)
Record slots_inv (l : list xrt_ert_command) (q : command_queue) : Prop := {
  si_wf : cmdq_wf q;
  si_num : cmdq_sq_num q = Z.of_nat (length l);
  si_ids : NoDup (ec_id <$> l);
  si_cmd : Forall (fun e => 0 <= ec_handle e < cmdq_num_slots q /\ (is_special_cmd e = true <-> ec_handle e = 0) /\
                            table_at q (ec_handle e) = Some (ec_id e) /\ cmd_fits (cmdq_slot_size q) e) l;
  si_table : forall h id, 0 <= h < ERT_MAX_SLOTS -> table_at q h = Some id -> exists e, e ∈ l /\ ec_id e = id /\ ec_handle e = h;
  si_status : forall h, 0 < h < ERT_MAX_SLOTS ->
    aget false (cmdq_slot_status q) h = bool_decide (is_Some (table_at q h));
  si_zero : aget false (cmdq_slot_status q) 0 = true;
}.

Definition slots_ok (q : command_queue) : Prop := slots_inv (cmdq_sq q) q.

(** Two views of a command that are the same for its slot. *)
Definition same_slot (e e' : xrt_ert_command) : Prop :=
  ec_id e' = ec_id e /\ ec_handle e' = ec_handle e /\ ec_payload e' = ec_payload e /\ ec_cu_idx e' = ec_cu_idx e /\
  ec_payload_size e' = ec_payload_size e /\ ec_response_size e' = ec_response_size e.

Lemma same_slot_refl e : same_slot e e.
Proof. by repeat split. Qed.

Lemma same_slot_fits e e' size : same_slot e e' -> cmd_fits size e -> cmd_fits size e'.
Proof. intros (_ & _ & E1 & _ & E2 & E3) []. constructor; unfold ec_opcode in *; rewrite ?E1, ?E2, ?E3; done. Qed.

Lemma same_slot_special e e' : same_slot e e' -> is_special_cmd e' = is_special_cmd e.
Proof. intros (_ & _ & E & _). unfold is_special_cmd, ec_opcode. by rewrite E. Qed.

Lemma same_slot_packet e e' : same_slot e e' -> packet_words e' = packet_words e.
Proof. intros (_ & _ & E1 & E2 & E3 & _). unfold packet_words, ec_opcode. by rewrite E1, E2, E3. Qed.

Lemma same_ids l l' : Forall2 same_slot l l' -> ec_id <$> l' = ec_id <$> l.
Proof. induction 1 as [|e e' l l' (E & _) _ IH]; [done|]. cbn. by rewrite E, IH. Qed.

Lemma slots_inv_same l l' q : Forall2 same_slot l l' -> slots_inv l q -> slots_inv l' q.
Proof.
  intros HF [W N I Hc T S Z0]. constructor; try done.
  - by rewrite <- (Forall2_length _ _ _ HF).
  - by rewrite (same_ids _ _ HF).
  - clear - HF Hc. induction HF as [|e e' l l' He HF IH]; [constructor|]. inversion Hc as [|x y (H1 & H2 & H3 & H4) Hl]; subst.
    constructor; [|by apply IH]. pose proof He as (E1 & E2 & _). rewrite E1, E2, (same_slot_special _ _ He). split_and!; try done; try lia.
    by apply (same_slot_fits e).
  - intros h id Hh Hid. destruct (T h id Hh Hid) as (e & He & E1 & E2). apply list_elem_of_lookup in He as [i Hi].
    destruct (Forall2_lookup_l _ _ _ _ _ HF Hi) as (e' & Hi' & F1 & F2 & _). exists e'.
    split; [by apply list_elem_of_lookup_2 in Hi'|]. by rewrite F1, F2.
Qed.

(** The fields the invariant does not mention. *)
Lemma slots_inv_fields l q sq irqs mbx bells pol :
  slots_inv l q -> slots_inv l (q <| cmdq_sq := sq |> <| cmdq_irqs := irqs |> <| cmdq_mailbox := mbx |>
    <| cmdq_doorbells := bells |> <| cmdq_polling := pol |>).
Proof. intros [[] ? ? ? ? ? ?]. constructor; [by constructor|done..]. Qed.

Lemma slots_inv_sq l q sq : slots_inv l q -> slots_inv l (q <| cmdq_sq := sq |>).
Proof. intros [[] ? ? ? ? ? ?]. constructor; [by constructor|done..]. Qed.

(** Slots lie in the memory and do not overlap. *)
Lemma slot_word_bounds q h : cmdq_wf q -> 0 <= h < cmdq_num_slots q ->
  u32 (h * cmdq_slot_size q) / 4 = slot_word q h /\ 0 <= slot_word q h /\
  slot_word q h + cmdq_slot_size q / 4 <= Z.of_nat (length (cmdq_mem q)).
Proof.
  intros [W1 W2 W3 W4 W5 W6 W7 W8] Hh. unfold slot_word. assert (0 <= h * cmdq_slot_size q) by nia.
  assert ((h + 1) * cmdq_slot_size q <= cmdq_range q) by nia.
  rewrite u32_small by nia. split; [done|].
  assert (exists k, cmdq_slot_size q = 4 * k) as [k Ek].
  { exists (cmdq_slot_size q / 4). pose proof (Z.div_mod (cmdq_slot_size q) 4 ltac:(lia)). lia. }
  rewrite Ek in *. replace (h * (4 * k)) with (h * k * 4) by lia. rewrite Z.div_mul by lia.
  replace (4 * k) with (k * 4) by lia. rewrite Z.div_mul by lia. split; nia.
Qed.

Lemma slot_words_disjoint q h h' : cmdq_wf q -> 0 <= h -> 0 <= h' -> h <> h' ->
  slot_word q h + cmdq_slot_size q / 4 <= slot_word q h' \/ slot_word q h' + cmdq_slot_size q / 4 <= slot_word q h.
Proof.
  intros [W1 W2 W3 W4 W5 W6 W7 W8] Hh Hh' Hn. unfold slot_word.
  assert (exists k, cmdq_slot_size q = 4 * k) as [k Ek].
  { exists (cmdq_slot_size q / 4). pose proof (Z.div_mod (cmdq_slot_size q) 4 ltac:(lia)). lia. }
  rewrite Ek in *. rewrite !(Z.mul_comm _ (4 * k)), <- !Z.mul_assoc, !(Z.mul_comm 4), !Z.div_mul by lia. nia.
Qed.

(** ** Completion of one command *)

(** The command as it is handed back, with the answer from its slot. *)
Definition answered (q : command_queue) (e : xrt_ert_command) : xrt_ert_command :=
  (if ec_response_size e =? 0 then e
   else e <| ec_response := take (Z.to_nat (ec_response_size e / 4)) (drop (Z.to_nat (slot_word q (ec_handle e))) (cmdq_mem q)) |>)
  <| ec_handle := no_index |>.

(** The parts of the queue a completion does not touch. *)
Definition same_layout (q q' : command_queue) : Prop :=
  cmdq_mem q' = cmdq_mem q /\ cmdq_slot_size q' = cmdq_slot_size q /\ cmdq_num_slots q' = cmdq_num_slots q.

Lemma answered_layout q q' e : same_layout q q' -> answered q' e = answered q e.
Proof. intros (E1 & E2 & _). unfold answered, slot_word. by rewrite E1, E2. Qed.

Lemma get_return_ok q e : cmdq_wf q -> 0 <= ec_handle e < cmdq_num_slots q -> cmd_fits (cmdq_slot_size q) e ->
  exists e1, command_queue_get_return q e = Some e1 /\ same_slot e e1 /\ e1 <| ec_handle := no_index |> = answered q e.
Proof.
  intros W Hh [F1 F2 F3 F4 F5 F6]. unfold command_queue_get_return, answered.
  destruct (ec_response_size e =? 0) eqn:E0; [exists e; by repeat split|]. rewrite F6. cbn [z2b Z.eqb negb].
  destruct (slot_word_bounds q (ec_handle e) W Hh) as (-> & B1 & B2).
  assert (ec_response_size e / 4 <= cmdq_slot_size q / 4) by (apply Z.div_le_mono; lia).
  assert (0 <= ec_response_size e / 4) by (apply Z.div_pos; lia).
  rewrite copy_out_ok by lia. cbn [mbind option_bind]. eexists. by repeat split.
Qed.

Lemma no_index_slot q h : cmdq_wf q -> 0 <= h < cmdq_num_slots q -> (h =? no_index) = false.
Proof. intros [] Hh. unfold no_index, ERT_MAX_SLOTS in *. lia. Qed.

Lemma table_in_range (q : command_queue) h : cmdq_wf q -> 0 <= h < ERT_MAX_SLOTS -> in_arr (cmdq_submit_queue q) h = true.
Proof. intros [] Hh. apply in_arr_true. rewrite qw_table0. unfold ERT_MAX_SLOTS in Hh. lia. Qed.

(** The queue without the command of slot [h]. *)
Definition without (special : bool) (h : Z) (q : command_queue) : command_queue :=
  let q := q <| cmdq_sq_num ::= fun n => n - 1 |> <| cmdq_submit_queue ::= fun t => aset t h None |> in
  if special then q else q <| cmdq_slot_status ::= fun l => aset l h false |>.

Lemma without_table sp h q h' : cmdq_wf q -> 0 <= h < ERT_MAX_SLOTS -> 0 <= h' < ERT_MAX_SLOTS ->
  table_at (without sp h q) h' = if h' =? h then None else table_at q h'.
Proof.
  intros [] Hh Hh'. unfold table_at, without, ERT_MAX_SLOTS in *.
  assert (cmdq_submit_queue (if sp then q <| cmdq_sq_num ::= fun n => n - 1 |> <| cmdq_submit_queue ::= fun t => aset t h None |>
    else q <| cmdq_sq_num ::= fun n => n - 1 |> <| cmdq_submit_queue ::= fun t => aset t h None |>
           <| cmdq_slot_status ::= fun l => aset l h false |>) = aset (cmdq_submit_queue q) h None) as -> by (by destruct sp).
  destruct (Z.eqb_spec h' h) as [->|Hn]; [apply aget_aset_eq; lia|apply aget_aset_ne; lia].
Qed.

Lemma without_wf sp h q : cmdq_wf q -> cmdq_wf (without sp h q).
Proof. intros []. unfold without. destruct sp; constructor; rproj; rewrite ?length_aset; done. Qed.

Lemma without_inv pre e l q : slots_inv (pre ++ e :: l) q -> slots_inv (pre ++ l) (without (is_special_cmd e) (ec_handle e) q).
Proof.
  intros [W N I Hc T S Z0]. pose proof (qw_slots q W) as Hns.
  assert (Hc' := Hc). apply Forall_app in Hc' as [Hpre Hel]. inversion Hel as [|x y (H1 & H2 & H3 & H4) Hl]; subst. clear Hel.
  assert (forall e', e' ∈ pre ++ l -> ec_id e' <> ec_id e) as Hid.
  { rewrite fmap_app, fmap_cons in I. apply NoDup_app in I as (_ & I1 & I2). apply NoDup_cons in I2 as [I2 _].
    intros e' [He|He]%elem_of_app Heq; apply (list_elem_of_fmap_2 ec_id) in He; rewrite Heq in He; [by apply (I1 _ He); left|done]. }
  assert (0 <= ec_handle e < ERT_MAX_SLOTS) as Hh by lia.
  constructor.
  - by apply without_wf.
  - rewrite !length_app in *. cbn [length] in N. unfold without. destruct (is_special_cmd e); rproj; lia.
  - rewrite fmap_app in *. cbn [fmap list_fmap] in I. apply NoDup_app in I as (I0 & I1 & I2). apply NoDup_cons in I2 as [I2 I3].
    apply NoDup_app. split_and!; try done. intros x Hx Hx2. apply (I1 x Hx). by right.
  - apply Forall_forall. intros e' He'. assert (e' ∈ pre ++ e :: l) as Hin by (apply elem_of_app in He'; apply elem_of_app; destruct He'; [by left|right; by right]).
    pose proof (proj1 (Forall_forall _ _) Hc e' Hin) as (G1 & G2 & G3 & G4).
    assert (cmdq_num_slots (without (is_special_cmd e) (ec_handle e) q) = cmdq_num_slots q) as -> by (unfold without; by destruct (is_special_cmd e)).
    assert (cmdq_slot_size (without (is_special_cmd e) (ec_handle e) q) = cmdq_slot_size q) as -> by (unfold without; by destruct (is_special_cmd e)).
    split; [done|]. split; [done|]. split; [|done]. rewrite without_table by (done || lia).
    destruct (Z.eqb_spec (ec_handle e') (ec_handle e)) as [Eh|]; [|done]. exfalso. apply (Hid e' He'). rewrite Eh, H3 in G3. by injection G3.
  - intros h id Hr Hid'. rewrite without_table in Hid' by done. destruct (Z.eqb_spec h (ec_handle e)) as [|Hne]; [done|].
    destruct (T h id Hr Hid') as (e' & He' & E1 & E2). exists e'. split; [|done]. apply elem_of_app in He' as [He'|He']; apply elem_of_app; [by left|].
    apply elem_of_cons in He' as [->|He']; [by rewrite E2 in Hne|by right].
  - intros h Hr. rewrite without_table by (done || lia).
    assert (aget false (cmdq_slot_status (without (is_special_cmd e) (ec_handle e) q)) h =
      if is_special_cmd e then aget false (cmdq_slot_status q) h
      else if h =? ec_handle e then false else aget false (cmdq_slot_status q) h) as ->.
    { unfold without. destruct (is_special_cmd e); [done|]. rproj. pose proof (qw_status q W).
      unfold ERT_MAX_SLOTS in *. destruct (Z.eqb_spec h (ec_handle e)) as [->|Hn]; [apply aget_aset_eq; lia|apply aget_aset_ne; lia]. }
    rewrite (S h Hr). destruct (Z.eqb_spec h (ec_handle e)) as [->|]; [|by destruct (is_special_cmd e)].
    destruct (is_special_cmd e) eqn:Es; [assert (ec_handle e = 0) by (by apply H2); lia|]. by rewrite bool_decide_eq_false_2 by (by intros []).
  - unfold without. destruct (is_special_cmd e) eqn:Es; [done|]. rproj. rewrite aget_aset_ne; [done|lia|lia|].
    intros E. apply H2 in E. done.
Qed.

Lemma complete_one pre e l q : slots_inv (pre ++ e :: l) q ->
  command_queue_complete e (q <| cmdq_sq_num ::= fun n => n - 1 |>) =
    Some (answered q e, without (is_special_cmd e) (ec_handle e) q).
Proof.
  intros Inv. pose proof (si_wf _ _ Inv) as W. pose proof (si_cmd _ _ Inv) as Hc. apply Forall_app in Hc as [_ Hel].
  inversion Hel as [|x y (H1 & H2 & H3 & H4) _]; subst. clear Hel. unfold command_queue_complete.
  set (q0 := q <| cmdq_sq_num ::= fun n => n - 1 |>).
  assert (cmdq_wf q0) as W0 by (by destruct W). destruct (get_return_ok q0 e W0 H1 H4) as (e1 & -> & He & Ea). cbn [mbind option_bind].
  pose proof He as (E1 & E2 & _). pose proof (qw_slots q W). unfold aset_chk. rewrite (table_in_range q0) by (done || lia). cbn [mbind option_bind].
  unfold command_queue_release. rewrite E2, (no_index_slot q) by (done || lia). f_equal. f_equal; [done|].
  rewrite (same_slot_special _ _ He). unfold without, command_queue_release_slot_idx. destruct (is_special_cmd e); done.
Qed.

Lemma without_layout sp h q : same_layout q (without sp h q).
Proof. unfold without. by destruct sp. Qed.

(** A selection that only changes the state of commands. *)
Definition sel_ok (sel : xrt_ert_command -> option xrt_ert_command) : Prop := forall e e', sel e = Some e' -> same_slot e e'.

Definition unselected (sel : xrt_ert_command -> option xrt_ert_command) (e : xrt_ert_command) : Prop := sel e = None.
#[export] Instance unselected_dec sel e : Decision (unselected sel e).
Proof. unfold unselected. destruct (sel e); [right|left]; congruence. Defined.

Lemma complete_cmds_ok sel : sel_ok sel -> forall l pre q, slots_inv (pre ++ l) q -> exists q',
  complete_cmds sel l q = Some (answered q <$> omap sel l, filter (unselected sel) l, q') /\
  slots_inv (pre ++ filter (unselected sel) l) q' /\ same_layout q q' /\ cmdq_sq q' = cmdq_sq q.
Proof.
  intros Hsel l. induction l as [|e l IH]; intros pre q Inv; cbn [complete_cmds]; [by exists q|].
  destruct (sel e) as [e'|] eqn:Es.
  - pose proof (Hsel e e' Es) as He. assert (slots_inv (pre ++ e' :: l) q) as Inv'.
    { apply (slots_inv_same (pre ++ e :: l)); [|done]. apply Forall2_app; [apply Forall_Forall2_diag, Forall_forall; intros; apply same_slot_refl|].
      constructor; [done|]. apply Forall_Forall2_diag, Forall_forall. intros. apply same_slot_refl. }
    rewrite (complete_one pre) with (l := l) by done. cbn [mbind option_bind fst snd].
    destruct (IH pre (without (is_special_cmd e') (ec_handle e') q)) as (q' & -> & I' & (L1 & L2 & L3) & Hsq); [by apply without_inv|].
    pose proof (without_layout (is_special_cmd e') (ec_handle e') q) as (M1 & M2 & M3). exists q'. cbn [mbind option_bind].
    split.
    + rewrite filter_cons_False by (unfold unselected; congruence). cbn [omap list_omap]. rewrite Es. cbn [fmap list_fmap].
      f_equal. f_equal. f_equal. f_equal. apply list_fmap_ext. intros i x _. by apply answered_layout.
    + rewrite filter_cons_False by (unfold unselected; congruence). split; [done|]. split; [repeat split; congruence|].
      rewrite Hsq. unfold without. by destruct (is_special_cmd e').
  - destruct (IH (pre ++ [e]) q) as (q' & -> & I' & L & Hsq); [by rewrite <- app_assoc|]. exists q'. cbn [mbind option_bind].
    rewrite filter_cons_True by done. cbn [omap list_omap]. rewrite Es. rewrite <- app_assoc in I'. done.
Qed.

(** ** Reports of the firmware *)

(** A step that only marks commands as completed. *)
Definition marked (q q' : command_queue) : Prop :=
  slots_ok q' /\ same_layout q q' /\ Forall2 same_slot (cmdq_sq q) (cmdq_sq q') /\ cmdq_sq_num q' = cmdq_sq_num q.

Lemma Forall2_same_refl l : Forall2 same_slot l l.
Proof. apply Forall_Forall2_diag, Forall_forall. intros. apply same_slot_refl. Qed.

Lemma marked_refl q : slots_ok q -> marked q q.
Proof. intros H. split; [done|]. split; [done|]. split; [apply Forall2_same_refl|done]. Qed.

Lemma same_slot_trans e1 e2 e3 : same_slot e1 e2 -> same_slot e2 e3 -> same_slot e1 e3.
Proof. intros (A1 & A2 & A3 & A4 & A5 & A6) (B1 & B2 & B3 & B4 & B5 & B6). repeat split; congruence. Qed.

Lemma marked_trans q1 q2 q3 : marked q1 q2 -> marked q2 q3 -> marked q1 q3.
Proof.
  intros (A1 & (A2 & A3 & A4) & A5 & A6) (B1 & (B2 & B3 & B4) & B5 & B6). split; [done|].
  split; [repeat split; congruence|]. split; [|congruence].
  revert B5. generalize (cmdq_sq q3). induction A5 as [|x y l k H _ IH]; intros l3 H3; inversion H3; subst; constructor.
  - by apply (same_slot_trans x y).
  - by apply IH.
Qed.

Lemma mark_completed_ok id q : slots_ok q -> (exists e, e ∈ cmdq_sq q /\ ec_id e = id) ->
  exists q', mark_completed id q = Some q' /\ marked q q'.
Proof.
  intros Inv (e & He & Hid). unfold mark_completed.
  assert (existsb (fun e => ec_id e =? id) (cmdq_sq q) = true) as ->.
  { apply existsb_exists. exists e. split; [by apply list_elem_of_In|lia]. }
  eexists. split; [done|].
  assert (Forall2 same_slot (cmdq_sq q) ((fun e => if ec_id e =? id then e <| ec_cstate := KDS_COMPLETED |> else e) <$> cmdq_sq q)) as HF.
  { apply Forall2_fmap_r, Forall_Forall2_diag, Forall_forall. intros x _. unfold compose; destruct (ec_id x =? id); [by repeat split|apply same_slot_refl]. }
  split; [|done]. unfold slots_ok. rproj. apply slots_inv_sq. by apply (slots_inv_same (cmdq_sq q)).
Qed.

Lemma slot_done_ok slot q : slots_ok q -> 0 <= slot < ERT_MAX_SLOTS -> exists n q', slot_done slot q = Some (n, q') /\ marked q q'.
Proof.
  intros Inv Hs. unfold slot_done, aget_chk. rewrite (table_in_range q) by (try done; apply Inv). cbn [mbind option_bind].
  destruct (aget None (cmdq_submit_queue q) slot) as [id|] eqn:Et; [|exists 0, q; split; [done|by apply marked_refl]].
  destruct (si_table _ _ Inv slot id Hs Et) as (e & He & Hid & _).
  destruct (mark_completed_ok id q Inv) as (q' & -> & H); [by exists e|]. by exists 1, q'.
Qed.

Lemma csr_bits_ok n : forall mask idx q, slots_ok q -> 0 <= idx -> idx + Z.of_nat n <= ERT_MAX_SLOTS ->
  exists k q', csr_bits n mask idx q = Some (k, q') /\ marked q q'.
Proof.
  induction n as [|n IH]; intros mask idx q Inv H0 Hn; cbn [csr_bits]; [exists 0, q; split; [done|by apply marked_refl]|].
  destruct (mask =? 0); [exists 0, q; split; [done|by apply marked_refl]|].
  assert (exists k q1, (if Z.land mask 1 =? 0 then Some (0, q) else slot_done idx q) = Some (k, q1) /\ marked q q1) as (k & q1 & -> & M1).
  { destruct (Z.land mask 1 =? 0); [exists 0, q; split; [done|by apply marked_refl]|]. apply slot_done_ok; [done|lia]. }
  cbn [mbind option_bind fst snd]. destruct (IH (Z.shiftr mask 1) (idx + 1) q1) as (k2 & q2 & -> & M2); [apply M1|lia|lia|].
  eexists _, q2. split; [done|]. by apply (marked_trans q q1).
Qed.

Lemma check_csr_ok csr q : slots_ok q -> exists k q', command_queue_check_csr csr q = Some (k, q') /\ marked q q'.
Proof.
  intros Inv. unfold command_queue_check_csr. set (F := fun r i => _).
  assert (forall l k q1, Forall (fun i => 0 <= i < 4) l -> marked q q1 ->
    exists k' q', foldl F (Some (k, q1)) l = Some (k', q') /\ marked q q') as H; [|apply (H _ 0 q); [repeat constructor; lia|by apply marked_refl]].
  induction l as [|i l IH]; intros k q1 HF M; [by exists k, q1|]. inversion HF; subst. cbn [foldl].
  assert (exists k2 q2, F (Some (k, q1)) i = Some (k2, q2) /\ marked q q2) as (k2 & q2 & -> & M2); [|by apply IH].
  unfold F. cbn [mbind option_bind fst snd].
  assert (Z.shiftl i 5 = 32 * i) as -> by (rewrite Z.shiftl_mul_pow2 by lia; lia).
  destruct (csr_bits_ok 32 (csr i) (32 * i) q1) as (k2 & q2 & -> & M2); [apply M|lia|unfold ERT_MAX_SLOTS; lia|].
  eexists _, q2. split; [done|]. by apply (marked_trans q q1).
Qed.

Lemma versal_isr_ok slots q : slots_ok q -> Z.of_nat (length slots) <= ERT_MAX_SLOTS -> Forall (fun s => 0 <= s < ERT_MAX_SLOTS) slots ->
  exists k q', cmd_queue_versal_isr slots q = Some (k, q') /\ marked q q'.
Proof.
  intros Inv Hl HF. unfold cmd_queue_versal_isr. assert ((ERT_MAX_SLOTS <? Z.of_nat (length slots)) = false) as -> by lia. clear Hl.
  set (F := fun r slot => _).
  assert (forall l k q1, Forall (fun i => 0 <= i < ERT_MAX_SLOTS) l -> marked q q1 ->
    exists k' q', foldl F (Some (k, q1)) l = Some (k', q') /\ marked q q') as H; [|apply (H _ 0 q); [done|by apply marked_refl]].
  clear HF. induction l as [|i l IH]; intros k q1 HF M; [by exists k, q1|]. inversion HF; subst. cbn [foldl].
  assert (exists k2 q2, F (Some (k, q1)) i = Some (k2, q2) /\ marked q q2) as (k2 & q2 & -> & M2); [|by apply IH].
  unfold F. cbn [mbind option_bind fst snd]. destruct (slot_done_ok i q1) as (k2 & q2 & -> & M2); [apply M|lia|].
  eexists _, q2. split; [done|]. by apply (marked_trans q q1).
Qed.

(** ** Polling and aborting *)

Lemma poll_sel_ok : sel_ok poll_sel.
Proof. intros e e'. unfold poll_sel. destruct (bool_decide _); [|done]. intros [= <-]. apply same_slot_refl. Qed.

Lemma abort_sel_ok client : sel_ok (abort_sel client).
Proof. intros e e'. unfold abort_sel. destruct (negb _); [done|]. intros [= <-]. destruct (bool_decide _); by repeat split. Qed.

(** The queue [q'] is [q] with the commands [sel] picks handed back as [done]. *)
Definition handed_back (sel : xrt_ert_command -> option xrt_ert_command) (q : command_queue) (done : list xrt_ert_command)
  (q' : command_queue) : Prop :=
  slots_ok q' /\ same_layout q q' /\ done = answered q <$> omap sel (cmdq_sq q) /\
  cmdq_sq q' = filter (unselected sel) (cmdq_sq q).

Lemma handed_back_ok sel q : sel_ok sel -> slots_ok q -> exists done q1,
  complete_cmds sel (cmdq_sq q) q = Some (done, filter (unselected sel) (cmdq_sq q), q1) /\
  handed_back sel q done (q1 <| cmdq_sq := filter (unselected sel) (cmdq_sq q) |>).
Proof.
  intros Hs Inv. destruct (complete_cmds_ok sel Hs (cmdq_sq q) [] q Inv) as (q1 & E & I1 & L & _).
  eexists _, q1. split; [exact E|]. split; [|done]. by apply slots_inv_sq.
Qed.

Lemma poll_ok csr q : slots_ok q -> exists done ups q1 q',
  command_queue_poll csr q = Some (done, ups, q') /\ marked q q1 /\ handed_back poll_sel q1 done q'.
Proof.
  intros Inv. unfold command_queue_poll. destruct (cmdq_sq_num q =? 0) eqn:En.
  { exists [], 0, q, q. split; [done|]. split; [by apply marked_refl|]. split; [done|]. split; [done|].
    pose proof (si_num _ _ Inv). assert (cmdq_sq q = []) as -> by (apply length_zero_iff_nil; lia). done. }
  assert (exists k q1, (if cmdq_polling q then command_queue_check_csr csr q else Some (0, q)) = Some (k, q1) /\ marked q q1) as (k & q1 & -> & M).
  { destruct (cmdq_polling q); [by apply check_csr_ok|]. exists 0, q. split; [done|by apply marked_refl]. }
  cbn [mbind option_bind fst snd]. destruct (handed_back_ok poll_sel q1 poll_sel_ok) as (done & q2 & -> & H); [apply M|].
  cbn [mbind option_bind]. eexists _, _, q1, _. done.
Qed.

Lemma abort_ok client q : slots_ok q -> exists done q',
  command_queue_abort client q = Some (done, q') /\ handed_back (abort_sel client) q done q'.
Proof.
  intros Inv. unfold command_queue_abort. destruct (handed_back_ok _ q (abort_sel_ok client) Inv) as (done & q1 & -> & H).
  cbn [mbind option_bind]. eexists _, _. done.
Qed.

(** ** Submission *)

Lemma first_zero_spec l : 0 <= first_zero l <= Z.of_nat (length l) /\
  (forall j, 0 <= j < first_zero l -> aget false l j = true) /\
  (first_zero l < Z.of_nat (length l) -> aget false l (first_zero l) = false).
Proof.
  induction l as [|[] l (H1 & H2 & H3)]; cbn [first_zero length].
  - split; [lia|]. split; [lia|lia].
  - split; [lia|]. split.
    + intros j Hj. destruct (Z.eqb_spec j 0) as [->|]; [done|]. etransitivity; [|apply (H2 (j - 1)); lia]. unfold aget.
      replace (Z.to_nat j) with (S (Z.to_nat (j - 1))) by lia. done.
    + intros Hl. etransitivity; [|apply H3; lia]. unfold aget. replace (Z.to_nat (1 + first_zero l)) with (S (Z.to_nat (first_zero l))) by lia. done.
  - split; [lia|]. split; [lia|done].
Qed.

Lemma h2h_test_some n : forall m i, 0 <= i -> i + Z.of_nat n <= Z.of_nat (length m) -> exists m', h2h_test m i n = Some (true, m').
Proof.
  induction n as [|n IH]; intros m i H0 Hn; cbn [h2h_test]; [by eexists|].
  unfold aset_chk. rewrite (proj2 (in_arr_true m i)) by lia. cbn [mbind option_bind].
  unfold aget_chk, in_arr. rewrite length_aset. replace (_ && _) with true by lia. cbn [mbind option_bind].
  rewrite aget_aset_eq, Z.eqb_refl by lia. apply IH; rewrite ?length_aset; lia.
Qed.

Lemma write_patterns_some n : forall m i, 0 <= i < Z.of_nat (length m) -> exists m', write_patterns m i n = Some m' /\ length m' = length m.
Proof.
  induction n as [|n IH]; intros m i Hi; cbn [write_patterns]; [by exists m|].
  unfold aset_chk. rewrite (proj2 (in_arr_true m i)) by lia. cbn [mbind option_bind].
  destruct (IH (aset m i (if Nat.odd (S n) then 0xFFFFFFFF else 0)) i) as (m' & E & L); [rewrite length_aset; lia|].
  exists m'. split; [exact E|]. by rewrite L, length_aset.
Qed.

Lemma aset_chk_some {A : Type} (m : list A) i v : 0 <= i < Z.of_nat (length m) -> aset_chk m i v = Some (aset m i v).
Proof. intros Hi. unfold aset_chk. by rewrite (proj2 (in_arr_true m i)). Qed.

Lemma write_packet_some m w size e : cmd_fits size e -> 0 <= w -> w + size / 4 <= Z.of_nat (length m) -> 0 <= size < 2 ^ 32 ->
  exists m', write_packet m w size e = Some m'.
Proof.
  intros [F1 F2 F3 F4 _ _] Hw Hm Hs.
  assert (ec_payload_size e <= size / 4) as Hz by (apply Z.div_le_lower_bound; lia).
  unfold write_packet. cbv zeta.
  assert (exists m1, (if start_opcode (ec_opcode e) then
           mem ← aset_chk m (w + 1) (ec_cu_idx e);
           ws ← copy_out (ert_words (ec_payload e)) 1 (u32 (ec_payload_size e - 2));
           copy_in mem (w + 2) ws
         else if access_opcode (ec_opcode e) then
           r ← h2h_test m (w + sizeof_access_valid / 4) (Z.to_nat (size / 4 - sizeof_access_valid / 4));
           mem ← aset_chk r.2 (w + access_h2h) (b2z r.1);
           aset_chk mem (w + access_wr_count) test_count
         else
           ws ← copy_out (ert_words (ec_payload e)) 0 (u32 (ec_payload_size e - 1));
           copy_in m (w + 1) ws) = Some m1 /\ length m1 = length m) as (m1 & -> & L1).
  { destruct (start_opcode _).
    - rewrite aset_chk_some by lia. cbn [mbind option_bind]. rewrite u32_small, copy_out_ok by lia. cbn [mbind option_bind].
      eexists. rewrite copy_in_ok by (rewrite ?length_aset, ?length_take, ?length_drop; lia). split; [done|].
      rewrite !length_app, !length_take, !length_drop, !length_aset. lia.
    - destruct (access_opcode _) eqn:Ea.
      + specialize (F4 eq_refl). change (sizeof_access_valid / 4) with 8. unfold sizeof_access_valid in F4.
        assert (8 <= size / 4) by (apply Z.div_le_lower_bound; lia). unfold access_h2h, access_wr_count.
        destruct (h2h_test_some (Z.to_nat (size / 4 - 8)) m (w + 8)) as [m' E]; [lia|lia|]. rewrite E. cbn [mbind option_bind fst snd].
        apply (h2h_test_within 0 (Z.of_nat (length m))) in E as [L _]; [|lia|lia].
        rewrite aset_chk_some by lia. cbn [mbind option_bind]. rewrite aset_chk_some by (rewrite length_aset; lia).
        eexists. split; [done|]. by rewrite !length_aset.
      + rewrite u32_small, copy_out_ok by lia. cbn [mbind option_bind]. rewrite drop_0.
        eexists. rewrite copy_in_ok by (rewrite ?length_take; lia). split; [done|].
        rewrite !length_app, !length_take, !length_drop. lia. }
  cbn [mbind option_bind]. rewrite aset_chk_some by lia. cbn [mbind option_bind].
  destruct (access_opcode _) eqn:Ea; [|by eexists]. specialize (F4 eq_refl). unfold sizeof_access_valid in F4.
  assert (8 <= size / 4) by (apply Z.div_le_lower_bound; lia). unfold access_wr_test, access_wr_count.
  destruct (write_patterns_some (Z.to_nat (test_count - 1)) (aset m1 w (ert_header (ec_payload e))) (w + 7)) as (m' & -> & L');
    [rewrite length_aset; lia|]. cbn [mbind option_bind]. rewrite aset_chk_some; [by eexists|]. rewrite L', length_aset. lia.
Qed.

(** A command that may be submitted: it is new, it fits, and a control command
    finds slot 0 free. *)
Record may_submit (e : xrt_ert_command) (q : command_queue) : Prop := {
  my_new : ec_id e ∉ (ec_id <$> cmdq_sq q);
  my_fits : cmd_fits (cmdq_slot_size q) e;
  my_ctrl : is_special_cmd e = true -> table_at q 0 = None;
}.

(** The queue [q'] is [q] with [e], in slot [h], added. *)
Record added (e : xrt_ert_command) (h : Z) (q q' : command_queue) : Prop := {
  ad_slot : 0 <= h < cmdq_num_slots q /\ table_at q h = None /\ (is_special_cmd e = true <-> h = 0);
  ad_sq : cmdq_sq q' = cmdq_sq q ++ [e];
  ad_size : cmdq_slot_size q' = cmdq_slot_size q /\ cmdq_num_slots q' = cmdq_num_slots q;
  ad_mem : within (slot_word q h) (slot_word q h + cmdq_slot_size q / 4) (cmdq_mem q) (cmdq_mem q');
}.

Lemma acquire_cases e q : slots_ok q -> may_submit e q ->
  (command_queue_acquire e q = Some (no_index, q) /\ is_special_cmd e = false /\
   forall h, 0 < h < cmdq_num_slots q -> table_at q h <> None) \/
  (exists h, command_queue_acquire e q = Some (h, q <| cmdq_slot_status ::= fun l => aset l h true |>) /\
     0 <= h < cmdq_num_slots q /\ table_at q h = None /\ (is_special_cmd e = true <-> h = 0)).
Proof.
  intros Inv [M1 M2 M3]. pose proof (si_wf _ _ Inv) as W. pose proof (qw_slots q W) as Hn. unfold command_queue_acquire.
  destruct (is_special_cmd e) eqn:Es.
  { right. exists 0. split; [done|]. split; [lia|]. split; [by apply M3|done]. }
  unfold command_queue_acquire_slot_idx. destruct (first_zero_spec (cmdq_slot_status q)) as (F1 & F2 & F3).
  set (h := first_zero (cmdq_slot_status q)) in *. rewrite (qw_status q W) in *.
  assert (forall j, 0 < j < ERT_MAX_SLOTS -> aget false (cmdq_slot_status q) j = true -> table_at q j <> None) as Hst.
  { intros j Hj Hs E. rewrite (si_status _ _ Inv j Hj), bool_decide_eq_true, E in Hs. by destruct Hs. }
  destruct (Z.ltb_spec h (cmdq_num_slots q)) as [Hlt|Hge].
  - right. exists h. unfold ERT_MAX_SLOTS in *. rewrite aset_chk_some by (rewrite qw_status by done; lia). cbn [mbind option_bind].
    split; [done|]. split; [lia|]. assert (aget false (cmdq_slot_status q) h = false) as Hf by (apply F3; lia).
    assert (h <> 0) as H0 by (intros ->; rewrite (si_zero _ _ Inv) in Hf; done).
    split; [|split; [done|lia]]. rewrite (si_status _ _ Inv h) in Hf by (unfold ERT_MAX_SLOTS; lia).
    apply bool_decide_eq_false in Hf. destruct (table_at q h); [|done]. exfalso. apply Hf. by eexists.
  - left. split; [done|]. split; [done|]. intros j Hj. unfold ERT_MAX_SLOTS in *. apply Hst; [lia|]. apply F2. lia.
Qed.

Lemma added_inv e h q mem bells :
  slots_ok q -> may_submit e q -> 0 <= h < cmdq_num_slots q -> table_at q h = None -> (is_special_cmd e = true <-> h = 0) ->
  ec_handle e = h -> length mem = length (cmdq_mem q) ->
  slots_ok (q <| cmdq_slot_status ::= fun l => aset l h true |> <| cmdq_submit_queue ::= fun t => aset t h (Some (ec_id e)) |>
              <| cmdq_sq_num ::= fun n => n + 1 |> <| cmdq_sq ::= fun l => l ++ [e] |> <| cmdq_mem := mem |> <| cmdq_doorbells := bells |>).
Proof.
  intros [W N I Hc T S Z0] [M1 M2 M3] Hh Ht Hs He Lm. pose proof (qw_slots q W) as Hn. unfold slots_ok. rproj.
  assert (forall h', 0 <= h' < ERT_MAX_SLOTS -> aget None (aset (cmdq_submit_queue q) h (Some (ec_id e))) h' =
    if h' =? h then Some (ec_id e) else table_at q h') as Htab.
  { intros h' Hr. pose proof (qw_table q W). unfold table_at, ERT_MAX_SLOTS in *.
    destruct (Z.eqb_spec h' h) as [->|]; [apply aget_aset_eq; lia|apply aget_aset_ne; lia]. }
  constructor; unfold table_at in *; rproj.
  - destruct W. constructor; rproj; rewrite ?length_aset, ?Lm; done.
  - rewrite length_app. cbn [length]. lia.
  - rewrite fmap_app. apply NoDup_app. split; [done|]. split; [|apply NoDup_singleton]. intros x Hx ->%list_elem_of_singleton. done.
  - apply Forall_app. split.
    + apply (Forall_impl _ _ _ Hc). intros e' (G1 & G2 & G3 & G4). split; [done|]. split; [done|]. split; [|done].
      rewrite Htab by lia. destruct (Z.eqb_spec (ec_handle e') h) as [E|]; [|done]. rewrite E, Ht in G3. done.
    + constructor; [|constructor]. rewrite He. split; [done|]. split; [done|]. split; [|done]. rewrite Htab, Z.eqb_refl by lia. done.
  - intros h' id Hr. rewrite Htab by done. destruct (Z.eqb_spec h' h) as [->|].
    + intros [= <-]. exists e. split; [apply elem_of_app; right; by left|done].
    + intros E. destruct (T h' id Hr E) as (e' & He' & F). exists e'. split; [apply elem_of_app; by left|done].
  - intros h' Hr. rewrite Htab by lia. pose proof (qw_status q W). unfold ERT_MAX_SLOTS in *.
    destruct (Z.eqb_spec h' h) as [->|]; [rewrite aget_aset_eq by lia; by rewrite bool_decide_eq_true_2|].
    rewrite aget_aset_ne by lia. by apply S.
  - pose proof (qw_status q W). unfold ERT_MAX_SLOTS in *.
    destruct (Z.eqb_spec 0 h) as [<-|]; [apply aget_aset_eq; lia|rewrite aget_aset_ne by lia; done].
Qed.

Lemma may_submit_handle e q h cs : may_submit e q -> may_submit (e <| ec_handle := h |> <| ec_cstate := cs |>) q.
Proof. intros [M1 [] M3]. constructor; [done|by constructor|done]. Qed.

Lemma submit_ok kds_echo e q : slots_ok q -> may_submit e q ->
  (command_queue_submit kds_echo e q = Some (- EBUSY, e <| ec_handle := no_index |>, 0, q) /\ is_special_cmd e = false /\
   forall h, 0 < h < cmdq_num_slots q -> table_at q h <> None) \/
  (exists h cs ups q', command_queue_submit kds_echo e q = Some (0, e <| ec_handle := h |> <| ec_cstate := cs |>, ups, q') /\
     slots_ok q' /\ added (e <| ec_handle := h |> <| ec_cstate := cs |>) h q q' /\
     (kds_echo = false -> access_opcode (ec_opcode e) = false -> words_at (cmdq_mem q') (slot_word q h) (packet_words e))).
Proof.
  intros Inv M. pose proof (si_wf _ _ Inv) as W. unfold command_queue_submit.
  destruct (acquire_cases e q Inv M) as [(-> & Hs & Hfull)|(h & -> & Hh & Ht & Hs)]; cbn [mbind option_bind].
  { left. rewrite Z.eqb_refl. done. }
  right. rewrite (no_index_slot q) by done. pose proof (qw_slots q W) as Hn. rproj.
  unfold aset_chk at 1. rewrite (table_in_range q) by (done || lia). cbn [mbind option_bind].
  destruct (slot_word_bounds q h W Hh) as (Ew & B1 & B2). destruct kds_echo.
  - exists h, KDS_COMPLETED, 1. eexists. split; [done|]. split; [|split; [|done]].
    + pose proof (added_inv (e <| ec_handle := h |> <| ec_cstate := KDS_COMPLETED |>) h q (cmdq_mem q) (cmdq_doorbells q) Inv
        (may_submit_handle e q h KDS_COMPLETED M) Hh Ht Hs eq_refl eq_refl) as H. by destruct q.
    + by constructor.
  - exists h, (ec_cstate e), 0. set (e1 := e <| ec_handle := h |>).
    assert (e1 <| ec_cstate := ec_cstate e |> = e1) as Ee by (by destruct e). rewrite Ee.
    assert (may_submit e1 q) as M1 by (rewrite <- Ee; by apply may_submit_handle).
    destruct W as [W1 W2 W3 W4 W5 W6 W7 W8]. assert (cmdq_slot_size q < 2 ^ 32) by nia.
    destruct (write_packet_some (cmdq_mem q) (slot_word q h) (cmdq_slot_size q) e1) as [m' Em]; [apply M1|done|done|lia|].
    rproj. rewrite Ew, Em. cbn [mbind option_bind].
    destruct (write_packet_ok (cmdq_mem q) (slot_word q h) (cmdq_slot_size q) e1 (my_fits _ _ M1) B1 B2 ltac:(lia) m' Em) as [Wi Pk].
    eexists. split; [done|]. split; [|split].
    + pose proof (added_inv e1 h q m' (cmdq_doorbells q ++ [(Z.shiftl 1 (idx_in_mask32 h (mask_idx32 h)), CQ_STATUS_OFFSET + Z.shiftl (mask_idx32 h) 2)])
        Inv M1 Hh Ht Hs eq_refl (proj1 Wi)) as H'. by destruct q.
    + by constructor.
    + intros _ Ha. exact (Pk Ha).
Qed.

(** ** The queue over time *)

(** Steps of the scheduler and reports of the firmware. *)
Inductive queue_step (kds_echo : bool) : command_queue -> command_queue -> Prop :=
| qs_submit e ret e' ups q q' : may_submit e q -> command_queue_submit kds_echo e q = Some (ret, e', ups, q') -> queue_step kds_echo q q'
| qs_poll csr done ups q q' : command_queue_poll csr q = Some (done, ups, q') -> queue_step kds_echo q q'
| qs_abort client done q q' : command_queue_abort client q = Some (done, q') -> queue_step kds_echo q q'
| qs_isr irq ups q q' : 0 <= irq -> cmd_queue_isr irq q = Some (ups, q') -> queue_step kds_echo q q'
| qs_versal slots ups q q' : Forall (fun s => 0 <= s < ERT_MAX_SLOTS) slots ->
    cmd_queue_versal_isr slots q = Some (ups, q') -> queue_step kds_echo q q'.

(** Every command in flight (the data tests apart) has its packet in its slot. *)
Definition packets_ok (q : command_queue) : Prop :=
  Forall (fun e => access_opcode (ec_opcode e) = false -> words_at (cmdq_mem q) (slot_word q (ec_handle e)) (packet_words e)) (cmdq_sq q).

Lemma packets_marked q q' : marked q q' -> packets_ok q -> packets_ok q'.
Proof.
  intros (_ & (E1 & E2 & _) & HF & _). unfold packets_ok, slot_word. rewrite E1, E2. induction HF as [|e e' l l' He _ IH]; [done|].
  intros H. inversion H as [|x y Hx Hl]; subst. constructor; [|by apply IH].
  rewrite (same_slot_packet _ _ He). pose proof He as (_ & -> & Ep & _). unfold ec_opcode in *. rewrite Ep. exact Hx.
Qed.

Lemma packets_handed_back sel q done q' : handed_back sel q done q' -> packets_ok q -> packets_ok q'.
Proof.
  intros (_ & (E1 & E2 & _) & _ & Es) H. unfold packets_ok, slot_word in *. rewrite E1, E2, Es. by apply Forall_filter_sub.
Qed.

Lemma packets_added e h q q' : slots_ok q -> added e h q q' -> cmd_fits (cmdq_slot_size q) e -> ec_handle e = h ->
  (access_opcode (ec_opcode e) = false -> words_at (cmdq_mem q') (slot_word q h) (packet_words e)) ->
  packets_ok q -> packets_ok q'.
Proof.
  intros Inv [(Hh & Ht & _) Es [E2 _] Wi] F He Hw Hp. unfold packets_ok, slot_word in *. rewrite Es, E2. apply Forall_app. split.
  - apply Forall_forall. intros e' He' Ha. pose proof (proj1 (Forall_forall _ _) Hp e' He' Ha) as H'.
    pose proof (proj1 (Forall_forall _ _) (si_cmd _ _ Inv) e' He') as (G1 & _ & G3 & G4).
    assert (ec_handle e' <> h) as Hn by (intros E; rewrite E, Ht in G3; done).
    apply (words_at_within _ _ _ _ _ _ Wi); [apply (slot_word_bounds q); [apply Inv|done]| |done].
    assert (Z.of_nat (length (packet_words e')) <= cmdq_slot_size q / 4) as Hl.
    { destruct G4. apply Z.div_le_lower_bound; [lia|]. unfold packet_words. cbn [length].
      destruct (start_opcode _); cbn [length]; rewrite length_take; lia. }
    destruct (slot_words_disjoint q (ec_handle e') h) as [D|D]; [apply Inv|lia|lia|done| |]; unfold slot_word in *; lia.
  - constructor; [|constructor]. by rewrite He.
Qed.

Lemma queue_step_ok q q' : queue_step false q q' -> slots_ok q -> packets_ok q -> slots_ok q' /\ packets_ok q'.
Proof.
  intros [e ret e' ups q1 q2 M E|csr done ups q1 q2 E|client done q1 q2 E|irq ups q1 q2 Hi E|slots ups q1 q2 HF E] Inv Hp.
  - destruct (submit_ok false e q1 Inv M) as [(E1 & _)|(h & cs & u & q3 & E1 & I3 & A & Hw)]; rewrite E1 in E; injection E as <- <- <- <-; [done|].
    split; [done|]. apply (packets_added (e <| ec_handle := h |> <| ec_cstate := cs |>) h q1); try done.
    + apply (may_submit_handle e q1 h cs M).
    + intros Ha. exact (Hw eq_refl Ha).
  - destruct (poll_ok csr q1 Inv) as (d & u & q3 & q4 & E1 & Mk & H). rewrite E1 in E. injection E as <- <- <-.
    split; [apply H|]. apply (packets_handed_back _ _ _ _ H). by apply (packets_marked q1).
  - destruct (abort_ok client q1 Inv) as (d & q3 & E1 & H). rewrite E1 in E. injection E as <- <-.
    split; [apply H|]. by apply (packets_handed_back _ _ _ _ H).
  - unfold cmd_queue_isr in E. destruct (Z.leb_spec ERT_MAX_SLOTS irq); [done|].
    destruct (slot_done_ok irq q1 Inv) as (n & q3 & E1 & Mk); [lia|]. rewrite E1 in E. injection E as <- <-.
    split; [apply Mk|by apply (packets_marked q1)].
  - unfold cmd_queue_versal_isr in E. destruct (Z.ltb_spec ERT_MAX_SLOTS (Z.of_nat (length slots))); [done|].
    destruct (versal_isr_ok slots q1 Inv) as (n & q3 & E1 & Mk); [lia|done|]. unfold cmd_queue_versal_isr in E1.
    replace (ERT_MAX_SLOTS <? Z.of_nat (length slots)) with false in E1 by lia. rewrite E1 in E. injection E as <- <-.
    split; [apply Mk|by apply (packets_marked q1)].
Qed.

(** A freshly configured queue. *)
Lemma config_ok slot_size polling q : cmdq_sq q = [] -> cmdq_sq_num q = 0 -> cmdq_submit_queue q = replicate 128 None ->
  4 * Z.of_nat (length (cmdq_mem q)) = cmdq_range q -> 0 < cmdq_range q < 2 ^ 32 -> cmdq_range q mod 128 = 0 ->
  0 < slot_size <= cmdq_range q -> slot_size mod 4 = 0 -> cmdq_range q / 128 <= slot_size ->
  exists q', command_queue_config slot_size polling q = (0, q') /\ slots_ok q' /\ packets_ok q' /\ cmdq_sq q' = [].
Proof.
  intros H1 H2 H3 H4 H5 H6 H7 H8 H9. unfold command_queue_config, ERT_MAX_SLOTS.
  replace ((cmdq_range q =? 0) || (slot_size =? 0)) with false by lia.
  assert (Z.land slot_size 3 = 0) as ->. { change 3 with (Z.ones 2). rewrite Z.land_ones by lia. exact H8. }
  cbn [z2b Z.eqb negb]. replace (slot_size <? cmdq_range q / 128) with false by lia. eexists. split; [done|].
  assert (cmdq_range q = 128 * (cmdq_range q / 128)) as Hr by (pose proof (Z.div_mod (cmdq_range q) 128 ltac:(lia)); lia).
  assert (0 < cmdq_range q / slot_size <= 128) as Hn.
  { split; [apply Z.div_str_pos; lia|]. apply Z.lt_succ_r, Z.div_lt_upper_bound; nia. }
  pose proof (Z.mul_div_le (cmdq_range q) slot_size ltac:(lia)).
  assert (forall h, 0 <= h -> aget None (replicate 128 (@None Z)) h = None) as Hnone.
  { intros h Hh. unfold aget. destruct (replicate 128 None !! Z.to_nat h) as [x|] eqn:E; [|done]. apply lookup_replicate in E as [-> _]. done. }
  split; [|split]; unfold cmd_queue_reset, slots_ok, packets_ok; rproj; rewrite ?H1; [|constructor|done].
  constructor; unfold table_at; rproj; rewrite ?H3; try done.
  - constructor; unfold ERT_MAX_SLOTS; rproj; rewrite ?H3, ?u32_small by lia; try done; lia.
  - constructor.
  - intros h id Hh. by rewrite Hnone by lia.
  - intros h Hh. unfold ERT_MAX_SLOTS in Hh. rewrite Hnone by lia. rewrite bool_decide_eq_false_2 by (by intros []).
    unfold aget. replace (Z.to_nat h) with (S (Z.to_nat (h - 1))) by lia. cbn [lookup list_lookup].
    destruct (replicate 127 false !! Z.to_nat (h - 1)) as [x|] eqn:E; [|done]. by apply lookup_replicate in E as [-> _].
Qed.


(** ** A control command that has lost its slot *)

(** [e] is in flight and not done, and no slot leads to it. *)
Definition stranded (e : xrt_ert_command) (q : command_queue) : Prop :=
  e ∈ cmdq_sq q /\ ec_cstate e <> KDS_COMPLETED /\ forall id, Some id ∈ cmdq_submit_queue q -> id <> ec_id e.

Lemma elem_of_aset {A} (l : list A) i v x : x ∈ aset l i v -> x = v \/ x ∈ l.
Proof.
  unfold aset. intros H. apply list_elem_of_lookup in H as [j Hj]. destruct (decide (j = Z.to_nat i)) as [->|Hn].
  - left. apply list_lookup_insert_Some in Hj as [(_ & -> & _)|(? & _)]; done.
  - right. rewrite list_lookup_insert_ne in Hj by done. by apply list_elem_of_lookup_2 in Hj.
Qed.

Lemma stranded_slot_done e slot q n q' : slot_done slot q = Some (n, q') -> stranded e q -> stranded e q'.
Proof.
  intros E (H1 & H2 & H3). unfold slot_done, aget_chk in E. destruct (in_arr (cmdq_submit_queue q) slot) eqn:Ei; [|done].
  cbn [mbind option_bind] in E. destruct (aget None (cmdq_submit_queue q) slot) as [id|] eqn:Et; [|by injection E as _ <-].
  apply bind_Some in E as (q1 & E1 & E). injection E as _ <-. unfold mark_completed in E1. destruct (existsb _ _); [|done].
  injection E1 as <-. split; [|done]. rproj. apply list_elem_of_fmap. exists e. split; [|done].
  assert (id <> ec_id e) as Hn.
  { apply H3. apply in_arr_true in Ei. unfold aget in Et. destruct (cmdq_submit_queue q !! Z.to_nat slot) eqn:El; cbn in Et; [|done].
    subst. by apply list_elem_of_lookup_2 in El. }
  by assert ((ec_id e =? id) = false) as -> by lia.
Qed.

Lemma stranded_csr e n : forall mask idx q k q', csr_bits n mask idx q = Some (k, q') -> stranded e q -> stranded e q'.
Proof.
  induction n as [|n IH]; intros mask idx q k q' E H; cbn [csr_bits] in E; [by injection E as _ <-|].
  destruct (mask =? 0); [by injection E as _ <-|]. apply bind_Some in E as ([k1 q1] & E1 & E).
  apply bind_Some in E as ([k2 q2] & E2 & E). injection E as _ <-. cbn [snd] in *. apply (IH _ _ _ _ _ E2).
  destruct (Z.land mask 1 =? 0); [by injection E1 as _ <-|]. by apply (stranded_slot_done e _ _ _ _ E1).
Qed.

Lemma foldl_bind_None {A B} (f : A -> B -> option A) (l : list B) : foldl (fun r i => r ← r; f r i) None l = None.
Proof. by induction l. Qed.

Lemma foldl_bind_inv {A B} (f : A -> B -> option A) (P : A -> Prop) (l : list B) a a' :
  (forall a i a', f a i = Some a' -> P a -> P a') -> foldl (fun r i => r ← r; f r i) (Some a) l = Some a' -> P a -> P a'.
Proof.
  intros Hf. revert a. induction l as [|i l IH]; intros a; cbn [foldl mbind option_bind]; [by intros [= <-]|].
  destruct (f a i) as [b|] eqn:E; [|by rewrite foldl_bind_None]. intros H Ha. apply (IH b H). by apply (Hf a i).
Qed.

Lemma stranded_check_csr e csr q k q' : command_queue_check_csr csr q = Some (k, q') -> stranded e q -> stranded e q'.
Proof.
  unfold command_queue_check_csr. intros E H.
  apply (foldl_bind_inv (fun r i => s ← csr_bits 32 (csr i) (Z.shiftl i 5) r.2; Some (r.1 + s.1, s.2)) (fun r => stranded e r.2) _ _ _) in E; [done| |done].
  intros a i a' Ea Ha. apply bind_Some in Ea as ([k1 q1] & E1 & Ea). injection Ea as <-. by apply (stranded_csr e _ _ _ _ _ _ E1).
Qed.

Lemma stranded_versal e slots q k q' : cmd_queue_versal_isr slots q = Some (k, q') -> stranded e q -> stranded e q'.
Proof.
  unfold cmd_queue_versal_isr. destruct (_ <? _); [done|]. intros E H.
  apply (foldl_bind_inv (fun r slot => s ← slot_done slot r.2; Some (r.1 + s.1, s.2)) (fun r => stranded e r.2) _ _ _) in E; [done| |done].
  intros a i a' Ea Ha. apply bind_Some in Ea as ([k1 q1] & E1 & Ea). injection Ea as <-. by apply (stranded_slot_done e _ _ _ _ E1).
Qed.

Lemma complete_cmds_frame sel : forall l q d k q', complete_cmds sel l q = Some (d, k, q') ->
  (forall e, e ∈ l -> sel e = None -> e ∈ k) /\ (forall p, Some p ∈ cmdq_submit_queue q' -> Some p ∈ cmdq_submit_queue q).
Proof.
  induction l as [|e l IH]; intros q d k q' E; cbn [complete_cmds] in E; [by injection E as _ <- <-|].
  destruct (sel e) as [e1|] eqn:Es.
  - apply bind_Some in E as ([e2 q1] & E1 & E). apply bind_Some in E as ([[d2 k2] q2] & E2 & E). injection E as _ <- <-.
    destruct (IH _ _ _ _ E2) as [H1 H2]. split.
    + intros x [->|Hx]%elem_of_cons Hs; [congruence|by apply H1].
    + intros p Hp. apply H2 in Hp. cbn [snd] in Hp. unfold command_queue_complete in E1.
      apply bind_Some in E1 as (e3 & _ & E1). apply bind_Some in E1 as (t & Et & E1). apply (inj Some) in E1.
      unfold aset_chk in Et. destruct (in_arr _ _); [|done]. injection Et as <-.
      assert (cmdq_submit_queue q1 = aset (cmdq_submit_queue q) (ec_handle e3) None) as Eq.
      { unfold command_queue_release in E1. destruct (ec_handle e3 =? no_index); apply pair_eq in E1 as [_ <-]; [done|by destruct (is_special_cmd e3)]. }
      rewrite Eq in Hp. apply elem_of_aset in Hp as [|]; done.
  - apply bind_Some in E as ([[d2 k2] q2] & E2 & E). injection E as _ <- <-. destruct (IH _ _ _ _ E2) as [H1 H2]. split; [|done].
    intros x [->|Hx]%elem_of_cons Hs; [by left|right; by apply H1].
Qed.

Lemma stranded_poll e csr q d u q' : command_queue_poll csr q = Some (d, u, q') -> stranded e q -> stranded e q'.
Proof.
  unfold command_queue_poll. destruct (_ =? 0); [by intros [= _ _ <-]|]. intros E H. apply bind_Some in E as ([k1 q1] & E1 & E).
  assert (stranded e q1) as (H1 & H2 & H3) by (destruct (cmdq_polling q); [by apply (stranded_check_csr _ _ _ _ _ E1)|by injection E1 as _ <-]).
  apply bind_Some in E as ([[d2 k2] q2] & E2 & E). injection E as _ _ <-. cbn [snd] in E2.
  destruct (complete_cmds_frame _ _ _ _ _ _ E2) as [F1 F2]. split; [|split; [done|]]; rproj.
  - apply F1; [done|]. unfold poll_sel. by rewrite bool_decide_eq_false_2.
  - intros id Hid. apply H3. by apply F2.
Qed.

Lemma stranded_abort e c q d q' : c <> ec_client e -> command_queue_abort c q = Some (d, q') -> stranded e q -> stranded e q'.
Proof.
  unfold command_queue_abort. intros Hc E (H1 & H2 & H3). apply bind_Some in E as ([[d2 k2] q2] & E2 & E). injection E as _ <-.
  destruct (complete_cmds_frame _ _ _ _ _ _ E2) as [F1 F2]. split; [|split; [done|]]; rproj.
  - apply F1; [done|]. unfold abort_sel. by assert ((ec_client e =? c) = false) as -> by lia.
  - intros id Hid. apply H3. by apply F2.
Qed.

Lemma stranded_submit e kds_echo e' q ret e2 ups q' : ec_id e' <> ec_id e ->
  command_queue_submit kds_echo e' q = Some (ret, e2, ups, q') -> stranded e q -> stranded e q'.
Proof.
  unfold command_queue_submit. intros Hn E (H1 & H2 & H3). apply bind_Some in E as ([h q1] & E1 & E).
  assert (cmdq_sq q1 = cmdq_sq q /\ cmdq_submit_queue q1 = cmdq_submit_queue q) as [K1 K2].
  { unfold command_queue_acquire, command_queue_acquire_slot_idx in E1. destruct (is_special_cmd e'); [by injection E1 as _ <-|].
    destruct (_ <? _); [|by injection E1 as _ <-]. apply bind_Some in E1 as (l & _ & E1). by injection E1 as _ <-. }
  cbv zeta in E. destruct (h =? no_index); [injection E as _ _ _ <-; split; [by rewrite K1|split; [done|by rewrite K2]]|].
  apply bind_Some in E as (t & Et & E). unfold aset_chk in Et. destruct (in_arr _ _); [|done]. injection Et as <-.
  assert (cmdq_sq q' = cmdq_sq q ++ [e2] /\ cmdq_submit_queue q' = aset (cmdq_submit_queue q) h (Some (ec_id e'))) as [E0 E2].
  { destruct kds_echo; [injection E as _ <- _ <-|apply bind_Some in E as (m & _ & E); injection E as _ <- _ <-]; rproj; by rewrite K1, K2. }
  split; [rewrite E0; apply elem_of_app; by left|]. split; [done|]. intros id Hid. rewrite E2 in Hid. apply elem_of_aset in Hid as [[= ->]|Hid]; [done|by apply H3].
Qed.

(** What may happen to the queue while the client of [e] is not aborted. *)
Inductive queue_later (kds_echo : bool) (e : xrt_ert_command) : command_queue -> command_queue -> Prop :=
| ql_submit e' ret e2 ups q q' : ec_id e' <> ec_id e -> command_queue_submit kds_echo e' q = Some (ret, e2, ups, q') -> queue_later kds_echo e q q'
| ql_poll csr done ups q q' : command_queue_poll csr q = Some (done, ups, q') -> queue_later kds_echo e q q'
| ql_abort c done q q' : c <> ec_client e -> command_queue_abort c q = Some (done, q') -> queue_later kds_echo e q q'
| ql_isr irq ups q q' : cmd_queue_isr irq q = Some (ups, q') -> queue_later kds_echo e q q'
| ql_versal slots ups q q' : cmd_queue_versal_isr slots q = Some (ups, q') -> queue_later kds_echo e q q'.

Lemma stranded_later kds_echo e q q' : queue_later kds_echo e q q' -> stranded e q -> stranded e q'.
Proof.
  intros [e' ret e2 ups q1 q2 Hn E|csr d ups q1 q2 E|c d q1 q2 Hc E|irq ups q1 q2 E|slots ups q1 q2 E] H.
  - by apply (stranded_submit e kds_echo e' q1 ret e2 ups).
  - by apply (stranded_poll e csr q1 d ups).
  - by apply (stranded_abort e c q1 d).
  - unfold cmd_queue_isr in E. destruct (_ <=? _); [done|]. by apply (stranded_slot_done e irq q1 ups).
  - by apply (stranded_versal e slots q1 ups).
Qed.

Lemma stranded_forever kds_echo e q q' : rtc (queue_later kds_echo e) q q' -> stranded e q -> stranded e q'.
Proof. induction 1 as [|q q1 q' H1 _ IH]; [done|]. intros H. apply IH. by apply (stranded_later kds_echo e q q1). Qed.

(** A control command takes slot 0 whether or not it is free. *)
Lemma submit_special e q : cmdq_wf q -> is_special_cmd e = true -> cmd_fits (cmdq_slot_size q) e -> exists q',
  command_queue_submit false e q = Some (0, e <| ec_handle := CTRL_SLOT |>, 0, q') /\
  cmdq_sq q' = cmdq_sq q ++ [e <| ec_handle := CTRL_SLOT |>] /\
  cmdq_submit_queue q' = aset (cmdq_submit_queue q) CTRL_SLOT (Some (ec_id e)) /\
  cmdq_slot_size q' = cmdq_slot_size q /\ cmdq_wf q'.
Proof.
  intros W Hs Hf. pose proof (qw_slots q W) as Hn. unfold command_queue_submit, command_queue_acquire. rewrite Hs. cbn [mbind option_bind].
  change (CTRL_SLOT =? no_index) with false. cbv iota. rproj. unfold aset_chk at 1.
  rewrite (table_in_range q) by (done || unfold CTRL_SLOT, ERT_MAX_SLOTS; lia). cbn [mbind option_bind].
  destruct (slot_word_bounds q CTRL_SLOT W) as (Ew & B1 & B2); [unfold CTRL_SLOT; lia|].
  assert (cmdq_slot_size q < 2 ^ 32) by (destruct W; nia). pose proof (qw_size q W).
  assert (cmd_fits (cmdq_slot_size q) (e <| ec_handle := CTRL_SLOT |>)) as Hf' by (by destruct Hf).
  destruct (write_packet_some (cmdq_mem q) (slot_word q CTRL_SLOT) (cmdq_slot_size q) (e <| ec_handle := CTRL_SLOT |>)) as [m Em]; [done|done|done|lia|].
  rproj. rewrite ?Ew, Em. cbn [mbind option_bind]. eexists. split; [done|]. rproj. split; [done|]. split; [done|]. split; [done|].
  destruct (write_packet_ok _ _ _ _ Hf' B1 B2 ltac:(lia) m Em) as [[L _] _].
  destruct W. constructor; rproj; rewrite ?length_aset, ?L; done.
Qed.

(** ** An instance of the theorem *)

(** A queue of 64 slots of 64 bytes, and a start command. *)
Definition demo_q : command_queue := (command_queue_config 64 false (command_queue_probe (replicate 1024 0) 4096)).2.
Definition demo_epkt (op : Z) : ert_packet := mk_ert_packet (set_field (set_field 1 12 11 5) 23 5 op) [1; 0; 0; 0; 9].
Definition demo_xcmd (id client : Z) : kds_command :=
  mk_kds_command id client KDS_NEW 0 0 1 KDS_ERT OP_START false REGMAP None 0 false (replicate 8 0) [1; 0; 0; 0] 1 3.
Definition demo_ecmd (id client op : Z) : xrt_ert_command :=
  mk_ecmd id (Some (demo_xcmd (100 + id) client)) 0 client false false (demo_epkt op) 6 0 KDS_NEW 0 [].

Lemma demo_q_ok : slots_ok demo_q /\ packets_ok demo_q.
Proof.
  unfold demo_q. destruct (config_ok 64 false (command_queue_probe (replicate 1024 0) 4096)) as (q' & -> & H1 & H2 & _);
    [reflexivity|reflexivity|reflexivity|vm_compute; reflexivity|cbn; lia|reflexivity|cbn; lia|reflexivity|vm_compute; congruence|done].
Qed.

Lemma demo_fits id client op : access_opcode (ert_opcode (demo_epkt op)) = false -> cmd_fits 64 (demo_ecmd id client op).
Proof. intros H. constructor; [cbn; lia|cbn; lia|cbn; lia| |cbn; lia|reflexivity]. unfold ec_opcode. cbn [demo_ecmd ec_payload]. by rewrite H. Qed.

Definition demo_q1 : command_queue :=
  match command_queue_submit false (demo_ecmd 1 5 ERT_START_CU) demo_q with Some r => r.2 | None => demo_q end.
Definition demo_q2 : command_queue := match cmd_queue_isr 1 demo_q1 with Some r => r.2 | None => demo_q end.

