(* ===== verification/ErtUser.v ===== *)
(** * The scheduler of the legacy firmware

    [xocl/subdev/ert_user.c]: the remote scheduler of [KdsSched] when the firmware
    has no XGQ.  Commands wait in a pending queue, are moved to a run queue by a
    thread, are handed to the command queue ([CmdQueue]) and come back from it
    when they are done; control commands have queues of their own.

    The state is [xocl_ert_user]; a queue [ert_user_queue] is its list and its
    counter.  The command queue is used through [xrt_ert_queue_funcs] only.  What
    is outside is recorded: the commands of KDS that are notified and freed, with
    their status, and the words copied to the buffer of the user.  [None] is an
    access outside an array, through NULL, or a [BUG_ON]. *)
From S2P Require Import Prelude KdsCommand KdsHwctx CmdQueue.

Definition DEVICE_RW_PATTERN : Z := 0x0F0F0F0F.
Definition ERT_NO_SLEEP_THRESHOLD : Z := 16.
Definition sizeof_ert_validate_cmd : Z := 24.

Record ert_user_queue := mk_uq { uq_list : list xrt_ert_command; uq_num : Z }.
#[export] Instance eta_uq : Eta ert_user_queue := fun q => mk_uq (uq_list q) (uq_num q).
Definition uq_empty : ert_user_queue := mk_uq [] 0.
Definition uq_add (e : xrt_ert_command) (q : ert_user_queue) : ert_user_queue := mk_uq (uq_list q ++ [e]) (uq_num q + 1).

Record ert_cu_stat := mk_cu_stat { cs_usage : Z; cs_inflight : Z }.
#[export] Instance eta_cu_stat : Eta ert_cu_stat := fun c => mk_cu_stat (cs_usage c) (cs_inflight c).
Definition cu_stat0 : ert_cu_stat := mk_cu_stat 0 0.

(** The flags of [struct ert_access_valid_cmd]. *)
Record ert_access := mk_access { av_h2h : Z; av_h2d : Z; av_d2h : Z; av_d2d : Z; av_d2cu : Z; av_wr_test : Z }.

(** [eu_events]: the clients with a pending abort; [eu_comp]: the completions of
    the exit command; [eu_notified] and [eu_user_writes] the calls and copies to
    the outside; [eu_locked]: whether [lock] is held. *)
Record xocl_ert_user (Q : Type) := mk_eu {
  eu_queue : option Q;
  eu_polling_mode : bool;
  eu_num_slots : Z;
  eu_slot_size : Z;
  eu_is_configured : bool;
  eu_ctrl_busy : bool;
  eu_pq : ert_user_queue;
  eu_pq_ctrl : ert_user_queue;
  eu_rq : ert_user_queue;
  eu_rq_ctrl : ert_user_queue;
  eu_sq_num : Z;
  eu_cq : ert_user_queue;
  eu_sem : Z;
  eu_bad_state : bool;
  eu_events : list Z;
  eu_settings : Z * Z * Z;
  eu_cu_stat : list ert_cu_stat;
  eu_num_cus : Z;
  eu_valid : list Z;
  eu_access : ert_access;
  eu_no_sleep_cnt : Z;
  eu_comp : Z;
  eu_locked : bool;
  eu_notified : list (kds_command * kds_status);
  eu_user_writes : list (Z * list Z);
}.
Arguments mk_eu {Q}. Arguments eu_queue {Q}. Arguments eu_polling_mode {Q}. Arguments eu_num_slots {Q}. Arguments eu_slot_size {Q}.
Arguments eu_is_configured {Q}. Arguments eu_ctrl_busy {Q}. Arguments eu_pq {Q}. Arguments eu_pq_ctrl {Q}. Arguments eu_rq {Q}.
Arguments eu_rq_ctrl {Q}. Arguments eu_sq_num {Q}. Arguments eu_cq {Q}. Arguments eu_sem {Q}. Arguments eu_bad_state {Q}.
Arguments eu_events {Q}. Arguments eu_settings {Q}. Arguments eu_cu_stat {Q}. Arguments eu_num_cus {Q}. Arguments eu_valid {Q}.
Arguments eu_access {Q}. Arguments eu_no_sleep_cnt {Q}. Arguments eu_comp {Q}. Arguments eu_locked {Q}. Arguments eu_notified {Q}.
Arguments eu_user_writes {Q}.
#[export] Instance eta_eu Q : Eta (xocl_ert_user Q) := fun u =>
  mk_eu (eu_queue u) (eu_polling_mode u) (eu_num_slots u) (eu_slot_size u) (eu_is_configured u) (eu_ctrl_busy u) (eu_pq u)
    (eu_pq_ctrl u) (eu_rq u) (eu_rq_ctrl u) (eu_sq_num u) (eu_cq u) (eu_sem u) (eu_bad_state u) (eu_events u) (eu_settings u)
    (eu_cu_stat u) (eu_num_cus u) (eu_valid u) (eu_access u) (eu_no_sleep_cnt u) (eu_comp u) (eu_locked u) (eu_notified u)
    (eu_user_writes u).

(** What happens around a call: the status registers of the command queue, the
    addresses of the data test commands ([None]: an allocation fails), the clock;
    and the platform: its private data, whether CU DMA is off, whether there is a
    CDMA. *)
Record ert_env := mk_ert_env {
  ue_csr : Z -> Z;
  ue_alloc : nat -> option Z;
  ue_now : Z;
  ue_dsa : Z;
  ue_major : Z;
  ue_cudma_off : bool;
  ue_cdma : bool;
}.

(** Words and bits of [ert_configure_cmd] after the header. *)
Definition cfg_slot_size (p : ert_packet) : option Z := aget_chk 0 (ert_words p) 0.
Definition cfg_feature (p : ert_packet) (bit : Z) : bool := z2b (field (aget 0 (ert_words p) cfg_features_off) bit 1).
Definition cfg_bit_polling : Z := 1.
Definition cfg_bit_cu_dma : Z := 2.
Definition cfg_bit_cdma : Z := 5.
Definition cfg_bit_dataflow : Z := 6.
Definition cfg_bit_dmsg : Z := 9.
Definition cfg_bit_echo : Z := 10.
Definition cfg_bit_intr : Z := 11.
Definition cfg_bit_dsa52 : Z := 31.
Definition set_cfg_bits (bits : list (Z * Z)) (w : Z) : Z := foldl (fun w b => set_field w b.1 1 b.2) w bits.

Section User.
Context {Q : Type} (F : xrt_ert_queue_funcs Q) (env : ert_env).
#[local] Abbreviation user := (xocl_ert_user Q).

(** ** The command queue *)

(** [up(&ert_user->sem)], [n] times. *)
Definition ert_user_cmd_notify (n : Z) (u : user) : user := u <| eu_sem ::= fun s => s + n |>.

Definition ert_user_cmd_complete (e : xrt_ert_command) (u : user) : user :=
  u <| eu_cq ::= uq_add e |> <| eu_sq_num ::= fun n => n - 1 |>.
Definition ert_user_exit_cmd_complete (e : xrt_ert_command) (u : user) : user :=
  ert_user_cmd_complete e (u <| eu_comp ::= fun n => n + 1 |>).
(** [ecmd->cb.complete] of each command handed back, in order. *)
Definition cb_complete (es : list xrt_ert_command) (u : user) : user :=
  foldl (fun u e => if ec_exit e then ert_user_exit_cmd_complete e u else ert_user_cmd_complete e u) u es.

Definition ert_queue_poll (u : user) : option user :=
  match eu_queue u with
  | None => Some u
  | Some q => r ← q_poll F (ue_csr env) q;
              let '(done, ups, q) := r in
              Some (cb_complete done (ert_user_cmd_notify ups (u <| eu_queue := Some q |>)))
  end.

(** Result and the command as the queue leaves it. *)
Definition ert_queue_submit (e : xrt_ert_command) (u : user) : option (Z * xrt_ert_command * user) :=
  match eu_queue u with
  | None => Some (- ENODEV, e, u)
  | Some q => r ← q_submit F e q;
              let '(ret, e, ups, q) := r in
              Some (ret, e, ert_user_cmd_notify ups (u <| eu_queue := Some q |>))
  end.

Definition ert_queue_intc_config (enable : bool) (u : user) : user := u <| eu_queue ::= fmap (q_intc_config F enable) |>.

Definition ert_config_queue (slot_size : Z) (polling : bool) (u : user) : Z * user :=
  match eu_queue u with
  | None => (- ENODEV, u)
  | Some q => let '(ret, q) := q_config F slot_size polling q in (ret, u <| eu_queue := Some q |>)
  end.

Definition ert_queue_max_slot_num (u : user) : Z := match eu_queue u with Some _ => q_max_slot_num F | None => 0 end.

Definition ert_queue_abort (client : Z) (u : user) : option user :=
  match eu_queue u with
  | None => Some u
  | Some q => r ← q_abort F client q; Some (cb_complete r.1 (u <| eu_queue := Some r.2 |>))
  end.

Definition ert_user_init_queue (q : Q) (u : user) : user :=
  let u := u <| eu_queue := Some q |> in u <| eu_num_slots := ert_queue_max_slot_num u |>.

(** ** Commands of the scheduler *)

Definition epkt_cmd_opcode (p : ert_packet) : Z := ert_opcode p.
Definition cmd_opcode (e : xrt_ert_command) : Z := epkt_cmd_opcode (ec_payload e).

(** [size] is in bytes; a packet of size zero cannot be written to. *)
Definition ert_user_alloc_epkt (opcode size : Z) : option ert_packet :=
  if size <? 4 then None
  else Some (mk_ert_packet (set_field (set_field 0 23 5 opcode) 0 4 1) (replicate (Z.to_nat (size / 4 - 1)) 0)).

Definition ert_user_alloc_ecmd (id : Z) (payload : ert_packet) (size response_size : Z) : xrt_ert_command :=
  mk_ecmd id None 0 0 false false payload (size / 4) 0 KDS_NEW response_size (replicate (Z.to_nat (response_size / 4)) 0).

Definition ert_user_cmd_submit (e : xrt_ert_command) (u : user) : user :=
  let op := cmd_opcode e in
  let u := if start_opcode op || (op =? ERT_ACCESS_TEST) || (op =? ERT_SK_START)
           then u <| eu_pq ::= uq_add e |> else u <| eu_pq_ctrl ::= uq_add e |> in
  if uq_num (eu_pq u) + uq_num (eu_pq_ctrl u) =? 1 then ert_user_cmd_notify 1 u else u.

(** [alloc]: the address of the command, [None] when an allocation fails. *)
Definition ert_submit_exit_cmd (alloc : option Z) (u : user) : option user :=
  match alloc with
  | None => Some u
  | Some id =>
      p ← ert_user_alloc_epkt ERT_EXIT (eu_slot_size u);
      let e := ert_user_alloc_ecmd id p (eu_slot_size u) 0 in
      Some (ert_user_cmd_submit (e <| ec_exit := true |> <| ec_own_payload := true |>) u)
  end.

Definition ert_submit_data_cmd (alloc : option Z) (u : user) : option user :=
  match alloc with
  | None => Some u
  | Some id =>
      p ← ert_user_alloc_epkt ERT_ACCESS_TEST (eu_slot_size u);
      let e := ert_user_alloc_ecmd id p (eu_slot_size u) (eu_slot_size u) in
      Some (ert_user_cmd_submit (e <| ec_own_payload := true |>) u)
  end.

Definition ert_submit_data_cmds (u : user) : option user :=
  foldl (fun u i => u ← u; ert_submit_data_cmd (ue_alloc env i) u) (Some u) (seq 1 (Z.to_nat (eu_num_slots u) - 1)).

(** [submit] of the remote scheduler: [pkt] is the packet of the command, [alloc]
    the address of the new one.  Without memory the command is dropped. *)
Definition ert_user_submit (alloc : option Z) (pkt : ert_packet) (xcmd : kds_command) (u : user) : user :=
  let op := epkt_cmd_opcode pkt in
  let response_size :=
    if (op =? ERT_CU_STAT) || access_opcode op then eu_slot_size u
    else if op =? ERT_SK_START then 8
    else if (op =? ERT_MB_VALIDATE) || (op =? ERT_CLK_CALIB) then sizeof_ert_validate_cmd else 0 in
  let cu_idx := if start_opcode op then u32 (xcmd_cu_idx xcmd) else 0 in
  match alloc with
  | None => u
  | Some id =>
      let e := ert_user_alloc_ecmd id pkt ((ert_count pkt + 1) * 4) response_size in
      ert_user_cmd_submit (e <| ec_xcmd := Some xcmd |> <| ec_cu_idx := cu_idx |> <| ec_client := xcmd_client xcmd |>) u
  end.

(** ** Configuration *)

Definition ert_ctrl_slot_cmd (e : xrt_ert_command) : bool := ctrl_opcode (cmd_opcode e).

(** The slot size the queue is configured with, from the one asked for. *)
Definition cfg_size (range max_slot_num slot_size : Z) (dataflow cu_dma : bool) : Z :=
  let slot_size := if slot_size <? range / max_slot_num then u32 (range / max_slot_num) else slot_size in
  let ert_num_slots := u32 (range / slot_size) in
  if negb dataflow && cu_dma && (32 <? ert_num_slots) then u32 (range / 32) else slot_size.

(** The result, and the command with the packet filled in. *)
Definition ert_cfg_cmd (e : xrt_ert_command) (u : user) : option (Z * xrt_ert_command) :=
  _ ← ec_xcmd e;
  q ← eu_queue u;
  let p := ec_payload e in
  let cq_range := q_size F q in
  if negb (cmd_opcode e =? ERT_CONFIGURE) then Some (- EINVAL, e)
  else if 3 <? ue_major env then Some (- EINVAL, e)
  else
    slot_size ← cfg_slot_size p;
    if (cq_range =? 0) || (slot_size =? 0) then Some (- EINVAL, e)
    else if z2b (Z.land slot_size 3) then Some (- EINVAL, e)
    else
      let size := cfg_size cq_range (ert_queue_max_slot_num u) slot_size
                    (cfg_feature p cfg_bit_dataflow) (cfg_feature p cfg_bit_cu_dma) in
      ws ← aset_chk (ert_words p) 0 size;
      w ← aget_chk 0 ws cfg_features_off;
      let w := if ue_cudma_off env then set_field w cfg_bit_cu_dma 1 0 else w in
      let '(dmsg, echo, intr) := eu_settings u in
      let w := set_cfg_bits [(cfg_bit_dsa52, ue_dsa env); (cfg_bit_cdma, b2z (ue_cdma env)); (cfg_bit_dmsg, dmsg);
                             (cfg_bit_echo, echo); (cfg_bit_intr, intr)] w in
      ws ← aset_chk ws cfg_features_off w;
      Some (0, e <| ec_payload := p <| ert_words := ws |> |>).

Definition ert_cfg_host (e : xrt_ert_command) (u : user) : option (Z * user) :=
  let p := ec_payload e in
  if negb (cmd_opcode e =? ERT_CONFIGURE) then None
  else
    slot_size ← cfg_slot_size p;
    let polling := cfg_feature p cfg_bit_polling in
    let '(ret, u) := ert_config_queue slot_size polling u in
    if z2b ret then Some (ret, u)
    else
      q ← eu_queue u;
      if slot_size =? 0 then None
      else
        let u := u <| eu_slot_size := slot_size |> <| eu_num_slots := u32 (q_size F q / slot_size) |> <| eu_polling_mode := polling |> in
        let u := ert_queue_intc_config (negb polling) u in
        let num_cus := cfg_num_cus p in
        if Z.of_nat (length (eu_cu_stat u)) <? num_cus then None
        else Some (0, u <| eu_cu_stat ::= fun l => replicate (Z.to_nat num_cus) cu_stat0 ++ drop (Z.to_nat num_cus) l |>
                        <| eu_num_cus := num_cus |>).

(** ** Before and after *)

Definition ert_special_cmd (e : xrt_ert_command) : bool :=
  ert_ctrl_slot_cmd e || (cmd_opcode e =? ERT_ACCESS_TEST) || (cmd_opcode e =? ERT_SK_START).

(** Whether the bytes from [sizeof_access_valid] to the end of the slot are the
    pattern of the device; the loop goes byte by byte and reads words. *)
Fixpoint d2h_test (resp : list Z) (offset : Z) (n : nat) : option bool :=
  match n with
  | O => Some true
  | S n => val ← aget_chk 0 resp (offset / 4);
           if negb (val =? DEVICE_RW_PATTERN) then Some false else d2h_test resp (offset + 1) n
  end.

Definition ert_post_process (e : xrt_ert_command) (u : user) : option user :=
  let op := cmd_opcode e in
  let resp := ec_response e in
  if negb (ert_special_cmd e) then Some u
  else if op =? ERT_CONFIGURE then Some (u <| eu_is_configured := true |>)
  else if (op =? ERT_MB_VALIDATE) || (op =? ERT_CLK_CALIB) then
    v ← copy_in (eu_valid u) 0 (take (Z.to_nat (ec_response_size e / 4)) resp); Some (u <| eu_valid := v |>)
  else if access_opcode op then
    ok ← d2h_test resp sizeof_access_valid (Z.to_nat (eu_slot_size u - sizeof_access_valid));
    h2h ← aget_chk 0 resp 1; h2d ← aget_chk 0 resp 2; d2h ← aget_chk 0 resp 3;
    d2d ← aget_chk 0 resp 4; d2cu ← aget_chk 0 resp 5; wr_test ← aget_chk 0 resp 7;
    let d2h := if (ok : bool) then d2h else 0 in
    Some (u <| eu_access ::= fun a =>
      mk_access (Z.land (av_h2h a) h2h) (Z.land (av_h2d a) h2d) (Z.land (av_d2h a) d2h) (Z.land (av_d2d a) d2d)
        (Z.land (av_d2cu a) d2cu) (Z.land (av_wr_test a) wr_test) |>)
  else if (op =? ERT_CU_STAT) || (op =? ERT_SK_START) then
    xcmd ← ec_xcmd e;
    Some (u <| eu_user_writes ::= fun l => l ++ [(xcmd_id xcmd, take (Z.to_nat (ec_response_size e / 4)) resp)] |>)
  else Some u.

Definition ert_init_access_test (u : user) : user := u <| eu_access := mk_access 1 1 1 1 1 1 |>.

(** Whether the command is bad, the command, the state. *)
Definition ert_pre_process (e : xrt_ert_command) (u : user) : option (bool * xrt_ert_command * user) :=
  let op := cmd_opcode e in
  if start_opcode op || (op =? ERT_SK_START) then
    if eu_ctrl_busy u || negb (eu_is_configured u) then None else Some (false, e, u)
  else if (op =? ERT_CLK_CALIB) || (op =? ERT_SK_CONFIG) || (op =? ERT_CU_STAT) || (op =? ERT_MB_VALIDATE) || (op =? ERT_ACCESS_TEST) then
    if negb (eu_is_configured u) then None else Some (false, e, u)
  else if op =? ERT_ACCESS_TEST_C then
    if negb (eu_is_configured u) then None
    else u ← ert_submit_data_cmds (ert_init_access_test u); Some (false, e, u)
  else if op =? ERT_CONFIGURE then
    r ← ert_cfg_cmd e u; Some (z2b r.1, r.2, u)
  else if op =? ERT_EXIT then Some (false, e, u)
  else Some (true, e, u).

(** ** The queues *)

(** The first command of the completed queue. *)
Definition ert_complete_one (u : user) : option user :=
  match uq_list (eu_cq u) with
  | [] => None
  | e :: l =>
      let u := u <| eu_cq ::= fun q => q <| uq_list := l |> |> in
      let u : user := if ert_ctrl_slot_cmd e then u <| eu_ctrl_busy := false |> else u in
      u ← ert_post_process e u;
      u ← match ec_xcmd e return option user with
          | None => Some u
          | Some xcmd =>
              u ← (if start_opcode (cmd_opcode e) && bool_decide (ec_cstate e = KDS_COMPLETED) then
                     c ← aget_chk cu_stat0 (eu_cu_stat u) (xcmd_cu_idx xcmd);
                     Some (u <| eu_cu_stat ::= fun l => aset l (xcmd_cu_idx xcmd)
                            (c <| cs_inflight ::= fun n => u32 (n - 1) |> <| cs_usage ::= fun n => u64 (n + 1) |>) |>)
                   else Some u);
              let xcmd := set_xcmd_timestamp (ue_now env) xcmd (ec_cstate e) in
              Some (u <| eu_notified ::= fun l => l ++ [(xcmd, ec_cstate e)] |>)
          end;
      Some (u <| eu_cq ::= fun q => q <| uq_num ::= fun n => n - 1 |> |>)
  end.

(** [while (ert_user->cq.num)] *)
Fixpoint ert_cq_loop (n : nat) (u : user) : option user :=
  match n with
  | O => Some u
  | S n => u ← ert_complete_one u; ert_cq_loop n u
  end.

Definition process_ert_cq (u : user) : option user := ert_cq_loop (Z.to_nat (uq_num (eu_cq u))) u.

Definition process_ert_sq (ev : option Z) (u : user) : option user :=
  if eu_sq_num u =? 0 then Some u
  else
    u ← ert_queue_poll u;
    match ev with None => Some u | Some client => ert_queue_abort client u end.

Definition upd_rq (ctrl : bool) (f : ert_user_queue -> ert_user_queue) (u : user) : user :=
  if ctrl then u <| eu_rq_ctrl ::= f |> else u <| eu_rq ::= f |>.
Definition get_rq (ctrl : bool) (u : user) : ert_user_queue := if ctrl then eu_rq_ctrl u else eu_rq u.
(** Store the list of the run queue. *)
Definition put_rq (ctrl : bool) (l : list xrt_ert_command) (u : user) : user := upd_rq ctrl (fun q => q <| uq_list := l |>) u.

(** [cu_stat[xcmd->cu_idx].inflight++] of a start command *)
Definition count_inflight (e : xrt_ert_command) (xcmd : kds_command) (u : user) : option user :=
  if start_opcode (cmd_opcode e) then
    c ← aget_chk cu_stat0 (eu_cu_stat u) (xcmd_cu_idx xcmd);
    Some (u <| eu_cu_stat ::= fun l => aset l (xcmd_cu_idx xcmd) (c <| cs_inflight ::= fun n => u32 (n + 1) |>) |>)
  else Some u.

(** Submission of the good command [e], the first of [e :: l]; [Some 0] ends the
    walk with result 0.  The time stamp of the start is set on the command as it
    is handed over, and a command that is refused goes back without it. *)
Definition rq_submit (ctrl : bool) (e : xrt_ert_command) (l : list xrt_ert_command) (u : user) : option (option Z * user) :=
  let op := cmd_opcode e in
  if ert_ctrl_slot_cmd e && eu_ctrl_busy u then Some (Some 0, put_rq ctrl (e :: l) u)
  else
    let u := if ert_ctrl_slot_cmd e && negb (op =? ERT_CU_STAT) then u <| eu_ctrl_busy := true |> else u in
    h ← (if op =? ERT_CONFIGURE then ert_cfg_host e u else Some (0, u));
    let '(ret, u) := h in
    if z2b ret then Some (Some 0, put_rq ctrl (e :: l) (u <| eu_ctrl_busy := false |>))
    else
      let u := upd_rq ctrl (fun q => q <| uq_num ::= fun n => n - 1 |>) u <| eu_sq_num ::= fun n => n + 1 |> in
      let stamped := e <| ec_xcmd ::= fmap (fun x => set_xcmd_timestamp (ue_now env) x KDS_RUNNING) |> in
      s ← ert_queue_submit stamped u;
      let '(ret, e', u) := s in
      if z2b ret then
        Some (Some 0, put_rq ctrl (e <| ec_handle := ec_handle e' |> :: l)
          (upd_rq ctrl (fun q => q <| uq_num ::= fun n => n + 1 |>) u <| eu_sq_num ::= fun n => n - 1 |>))
      else
        u ← match ec_xcmd e with None => Some u | Some xcmd => count_inflight e xcmd u end;
        Some (None, u).

(** The walk through the run queue; [bad_cmd] is set once and for all. *)
Fixpoint rq_loop (ctrl : bool) (ev : option Z) (l : list xrt_ert_command) (bad_cmd : bool) (u : user) : option (Z * user) :=
  match l with
  | [] => Some (1, put_rq ctrl [] u)
  | e :: l =>
      let aborted := eu_bad_state u || match ec_xcmd e, ev with Some x, Some c => c =? xcmd_client x | _, _ => false end in
      let e := if aborted then e <| ec_cstate := KDS_ABORT |> else e in
      p ← ert_pre_process e u;
      let '(bad, e, u) := (p : bool * xrt_ert_command * user) in
      let e := if bad then e <| ec_cstate := KDS_ABORT |> else e in
      let bad_cmd := bad_cmd || aborted || bad in
      if bad_cmd then
        rq_loop ctrl ev l bad_cmd
          (upd_rq ctrl (fun q => q <| uq_num ::= fun n => n - 1 |>) (u <| eu_cq ::= uq_add e |>))
      else
        r ← rq_submit ctrl e l u;
        match r with
        | (Some ret, u) => Some (ret, u)
        | (None, u) => rq_loop ctrl ev l bad_cmd u
        end
  end.

(** Result 1: the run queue has been emptied. *)
Definition process_ert_rq (ctrl : bool) (ev : option Z) (u : user) : option (Z * user) :=
  if uq_num (get_rq ctrl u) =? 0 then Some (0, u) else rq_loop ctrl ev (uq_list (get_rq ctrl u)) false u.

Definition uq_splice (pq rq : ert_user_queue) : ert_user_queue := mk_uq (uq_list rq ++ uq_list pq) (uq_num rq + uq_num pq).

Definition process_ert_pq (ctrl : bool) (u : user) : user :=
  let pq := if ctrl then eu_pq_ctrl u else eu_pq u in
  if uq_num pq =? 0 then u
  else upd_rq ctrl (uq_splice pq) (if ctrl then u <| eu_pq_ctrl := uq_empty |> else u <| eu_pq := uq_empty |>).

(** ** The thread *)

Definition first_event_client_or_null (u : user) : option Z := head (eu_events u).

Definition ert_user_thread_sleep_condition (u : user) : bool :=
  let none q := uq_num q =? 0 in
  let no_completed_cmd := none (eu_cq u) in
  let cant_submit_start := none (eu_rq u) || (eu_sq_num u =? u32 (eu_num_slots u - 1)) in
  let cant_submit_ctrl := none (eu_rq_ctrl u) || (eu_sq_num u =? 1) in
  let cant_submit := cant_submit_start && cant_submit_ctrl in
  let no_need_to_fetch_start_cmd := negb (none (eu_rq u)) || none (eu_pq u) in
  let no_need_to_fetch_ctrl_cmd := negb (none (eu_rq_ctrl u)) || none (eu_pq_ctrl u) in
  let no_need_to_fetch_new_cmd := no_need_to_fetch_ctrl_cmd && no_need_to_fetch_start_cmd in
  let no_submmited_cmd := eu_sq_num u =? 0 in
  let polling_sleep := no_completed_cmd && no_need_to_fetch_new_cmd && no_submmited_cmd in
  let intr_sleep := no_completed_cmd && no_need_to_fetch_new_cmd && cant_submit in
  let no_event := negb (bool_decide (is_Some (first_event_client_or_null u))) in
  no_event && (if eu_polling_mode u then polling_sleep else intr_sleep).

Definition xocl_ert_user_remove_event (client : Z) (u : user) : user :=
  u <| eu_events ::= fun l => match list_find (fun c => c = client) l with Some (i, _) => delete i l | None => l end |>.

(** A round up to the sleep; [true]: the thread starts over at once. *)
Definition ert_thread_work (u : user) : option (bool * user) :=
  let ev := first_event_client_or_null u in
  r ← process_ert_rq true ev u;
  if z2b r.1 then Some (true, r.2)
  else
    r ← process_ert_rq false ev r.2;
    if z2b r.1 then Some (true, r.2)
    else
      u ← process_ert_sq ev r.2;
      u ← process_ert_cq u;
      Some (false, match ev with None => u | Some c => xocl_ert_user_remove_event c u end).

(** After the sleep, or without it. *)
Definition ert_thread_awake (slept : bool) (u : user) : user :=
  let u := if slept then u <| eu_no_sleep_cnt := 0 |> else u <| eu_no_sleep_cnt ::= fun n => u32 (n + 1) |> in
  if eu_no_sleep_cnt u =? ERT_NO_SLEEP_THRESHOLD then u <| eu_no_sleep_cnt := 0 |> else u.

Definition ert_thread_fetch (u : user) : user := process_ert_pq true (process_ert_pq false u).

(** ** Aborts *)

(** [alloc]: whether the event can be allocated. *)
Definition xocl_ert_user_abort (alloc : bool) (client : Z) (u : user) : user :=
  if bool_decide (client ∈ eu_events u) then u
  else if negb alloc then u
  else ert_user_cmd_notify 1 (u <| eu_events ::= fun l => l ++ [client] |>).

Definition xocl_ert_user_abort_done (client : Z) (u : user) : bool * user :=
  (eu_bad_state u, xocl_ert_user_remove_event client u).

(** [wait]: what the thread does until it has taken the event. *)
Definition xocl_ert_user_abort_sync (alloc : bool) (wait : user -> user) (client : Z) (u : user) : bool * user :=
  if bool_decide (client ∈ eu_events u) then (eu_bad_state u, u)
  else if negb alloc then (eu_bad_state u, u)
  else let u := wait (ert_user_cmd_notify 1 (u <| eu_events ::= fun l => l ++ [client] |>)) in (eu_bad_state u, u).

(** ** Control from outside *)

(** Configured, and whether CUs can interrupt the host ([gpio]: the answer of the
    GPIO device). *)
Definition ert_user_bulletin (gpio : Z) (u : user) : Z * (bool * bool) :=
  (0, (eu_is_configured u, negb (gpio =? - ENODEV))).

(** [wait]: what happens until the exit command is done; [None]: it never is. *)
Definition ert_user_enable (alloc : option Z) (wait : user -> option user) (enable : bool) (u : user) : option (Z * user) :=
  if enable then Some (0, ert_queue_intc_config true u)
  else
    u ← ert_submit_exit_cmd alloc u;
    u ← wait u;
    Some (0, ert_queue_intc_config false u).

(** The sysfs files that set [ert_dmsg], [ert_echo] and [ert_intr]: [parsed] is the
    result of the parser and the value; a wrong value leaves with the lock held.
    [None]: the lock is never given back. *)
Definition store_setting (put : Z -> Z * Z * Z -> Z * Z * Z) (parsed : Z * Z) (count : Z) (u : user) : option (Z * user) :=
  if eu_locked u then None
  else if (parsed.1 =? - EINVAL) || (2 <? parsed.2) then Some (- EINVAL, u <| eu_locked := true |>)
  else Some (count, u <| eu_settings ::= put parsed.2 |>).
Definition ert_dmsg_store := store_setting (fun v '(_, echo, intr) => (v, echo, intr)).
Definition ert_echo_store := store_setting (fun v '(dmsg, _, intr) => (dmsg, v, intr)).
Definition ert_intr_store := store_setting (fun v '(dmsg, echo, _) => (dmsg, echo, v)).

Definition mb_sleep_store (alloc : option Z) (parsed : Z * Z) (count : Z) (u : user) : option (Z * user) :=
  if (parsed.1 =? - EINVAL) || (2 <? parsed.2) then Some (- EINVAL, u)
  else if z2b parsed.2 then u ← ert_submit_exit_cmd alloc u; Some (count, u)
  else Some (count, u).

Definition data_integrity_show (u : user) : Z :=
  let a := eu_access u in
  foldl Z.land 1 [av_h2h a; av_d2h a; av_h2d a; av_d2d a; av_d2cu a; av_wr_test a].
End User.

(** The state [ert_user_probe] sets up. *)
Definition ert_user_probe {Q} : xocl_ert_user Q :=
  mk_eu None false 0 0 false false uq_empty uq_empty uq_empty uq_empty 0 uq_empty 0 false [] (0, 0, 0)
    (replicate MAX_CUS cu_stat0) 0 (replicate 6 0) (mk_access 0 0 0 0 0 0) 0 0 false [] [].
