(* ===== verification/ErtUserProof.v ===== *)
(** * The scheduler of the legacy firmware: conservation and wake-ups

    The theorems about [ErtUser] are proved for every command queue that keeps
    the laws [QueueLaws]; the queue of [CmdQueue] does. *)
From S2P Require Import Prelude KdsCommand KdsHwctx CmdQueue CmdQueueProof ErtUser.

(** ** What the scheduler relies on *)

(** [q_held]: the commands in the queue; [q_ok]: its counters agree with it;
    [q_reported]: it has a command that is done and not yet handed back;
    [q_report q n q']: the firmware reports, with [n] notifications. *)
Class QueueLaws {Q} (F : xrt_ert_queue_funcs Q) := {
  q_held : Q -> list xrt_ert_command;
  q_ok : Q -> Prop;
  q_reported : Q -> bool;
  q_report : Q -> Z -> Q -> Prop;
  law_submit e q ret e' ups q' : q_ok q -> q_submit F e q = Some (ret, e', ups, q') ->
    q_ok q' /\ ec_xcmd <$> q_held q' = (ec_xcmd <$> q_held q) ++ (if ret =? 0 then [ec_xcmd e] else []);
  law_poll csr q done ups q' : q_ok q -> q_poll F csr q = Some (done, ups, q') ->
    q_ok q' /\ q_reported q' = false /\ ec_xcmd <$> (done ++ q_held q') ≡ₚ ec_xcmd <$> q_held q;
  law_abort c q done q' : q_ok q -> q_abort F c q = Some (done, q') ->
    q_ok q' /\ (q_reported q = false -> q_reported q' = false) /\ ec_xcmd <$> (done ++ q_held q') ≡ₚ ec_xcmd <$> q_held q;
  law_config s p q ret q' : q_ok q -> q_config F s p q = (ret, q') -> q_ok q' /\ q_held q' = q_held q;
  law_intc b q : q_ok q -> q_ok (q_intc_config F b q) /\ q_held (q_intc_config F b q) = q_held q;
  law_report q n q' : q_ok q -> q_report q n q' ->
    q_ok q' /\ 0 <= n /\ ec_xcmd <$> q_held q' = ec_xcmd <$> q_held q /\ (q_reported q' = true -> q_reported q = true \/ 0 < n);
  law_reported q : q_reported q = true -> q_held q <> [];
  law_submit_ups e q ret e' ups q' : q_submit F e q = Some (ret, e', ups, q') -> 0 <= ups;
  law_poll_ups csr q done ups q' : q_poll F csr q = Some (done, ups, q') -> 0 <= ups;
}.

(** ** The command queue keeps them *)

Definition cmdq_count_ok (q : command_queue) : Prop := cmdq_sq_num q = Z.of_nat (length (cmdq_sq q)).
Definition cmdq_reported (q : command_queue) : bool := existsb (fun e => bool_decide (ec_cstate e = KDS_COMPLETED)) (cmdq_sq q).
(** A slot interrupt or the mailbox. *)
Definition cmdq_report (q : command_queue) (n : Z) (q' : command_queue) : Prop :=
  (exists irq, cmd_queue_isr irq q = Some (n, q')) \/ (exists slots, cmd_queue_versal_isr slots q = Some (n, q')).

(** A step that marks commands, with [n] notifications. *)
Definition marks (q : command_queue) (n : Z) (q' : command_queue) : Prop :=
  0 <= n /\ cmdq_sq_num q' = cmdq_sq_num q /\ length (cmdq_sq q') = length (cmdq_sq q) /\
  ec_xcmd <$> cmdq_sq q' = ec_xcmd <$> cmdq_sq q /\ (cmdq_reported q' = true -> cmdq_reported q = true \/ 0 < n).

Lemma marks_refl q : marks q 0 q.
Proof. split; [done|]. do 3 (split; [done|]). by left. Qed.

Lemma marks_trans q1 n1 q2 n2 q3 : marks q1 n1 q2 -> marks q2 n2 q3 -> marks q1 (n1 + n2) q3.
Proof.
  intros (A1 & A2 & A3 & A4 & A5) (B1 & B2 & B3 & B4 & B5). split; [lia|]. split; [congruence|]. split; [congruence|]. split; [congruence|].
  intros H. destruct (B5 H) as [H1|]; [|right; lia]. destruct (A5 H1); [by left|right; lia].
Qed.

Lemma slot_done_marks slot q n q' : slot_done slot q = Some (n, q') -> marks q n q'.
Proof.
  unfold slot_done. intros E. apply bind_Some in E as ([id|] & _ & E); [|injection E as <- <-; apply marks_refl].
  apply bind_Some in E as (q1 & E1 & E). injection E as <- <-. unfold mark_completed in E1. destruct (existsb _ _); [|done]. injection E1 as <-.
  split; [done|]. rproj. split; [done|]. split; [apply length_fmap|]. split; [|right; lia].
  rewrite <- list_fmap_compose. apply list_fmap_ext. intros i x _. unfold compose. by destruct (ec_id x =? id).
Qed.

Lemma csr_bits_marks n : forall mask idx q k q', csr_bits n mask idx q = Some (k, q') -> marks q k q'.
Proof.
  induction n as [|n IH]; intros mask idx q k q' E; cbn [csr_bits] in E; [injection E as <- <-; apply marks_refl|].
  destruct (mask =? 0); [injection E as <- <-; apply marks_refl|]. apply bind_Some in E as ([k1 q1] & E1 & E).
  apply bind_Some in E as ([k2 q2] & E2 & E). injection E as <- <-. cbn [fst snd] in *. apply (marks_trans q k1 q1); [|by apply IH in E2].
  destruct (Z.land mask 1 =? 0); [injection E1 as <- <-; apply marks_refl|by apply slot_done_marks in E1].
Qed.

Lemma check_csr_marks csr q k q' : command_queue_check_csr csr q = Some (k, q') -> marks q k q'.
Proof.
  unfold command_queue_check_csr. intros E.
  apply (foldl_bind_inv (fun r i => s ← csr_bits 32 (csr i) (Z.shiftl i 5) r.2; Some (r.1 + s.1, s.2)) (fun r => marks q r.1 r.2) _ _ _) in E;
    [done| |apply marks_refl].
  intros a i a' Ea Ha. apply bind_Some in Ea as ([k1 q1] & E1 & Ea). injection Ea as <-. apply (marks_trans _ _ _ _ _ Ha).
  by apply csr_bits_marks in E1.
Qed.

Lemma report_marks q n q' : cmdq_report q n q' -> marks q n q'.
Proof.
  intros [[irq E]|[slots E]].
  - unfold cmd_queue_isr in E. destruct (_ <=? _); [done|]. by apply slot_done_marks in E.
  - unfold cmd_queue_versal_isr in E. destruct (_ <? _); [done|].
    apply (foldl_bind_inv (fun r slot => s ← slot_done slot r.2; Some (r.1 + s.1, s.2)) (fun r => marks q r.1 r.2) _ _ _) in E;
      [done| |apply marks_refl].
    intros a i a' Ea Ha. apply bind_Some in Ea as ([k1 q1] & E1 & Ea). injection Ea as <-. apply (marks_trans _ _ _ _ _ Ha).
    by apply slot_done_marks in E1.
Qed.

Lemma get_return_xcmd q e e' : command_queue_get_return q e = Some e' -> ec_xcmd e' = ec_xcmd e.
Proof.
  unfold command_queue_get_return. destruct (_ =? 0); [by intros [= <-]|]. destruct (z2b _); [done|].
  intros E. apply bind_Some in E as (ws & _ & E). by injection E as <-.
Qed.

Lemma ert_complete_keeps e q e' q' : command_queue_complete e q = Some (e', q') ->
  ec_xcmd e' = ec_xcmd e /\ cmdq_sq_num q' = cmdq_sq_num q.
Proof.
  unfold command_queue_complete. intros E. apply bind_Some in E as (e1 & E1 & E). apply get_return_xcmd in E1.
  apply bind_Some in E as (t & _ & E). apply (inj Some) in E. unfold command_queue_release in E.
  destruct (_ =? no_index); apply pair_eq in E as [<- <-]; [done|]. split; [done|]. by destruct (is_special_cmd e1).
Qed.

Definition keeps_xcmd (sel : xrt_ert_command -> option xrt_ert_command) : Prop := forall e e', sel e = Some e' -> ec_xcmd e' = ec_xcmd e.

Lemma complete_cmds_partition sel : keeps_xcmd sel -> forall l q d k q', complete_cmds sel l q = Some (d, k, q') ->
  ec_xcmd <$> (d ++ k) ≡ₚ ec_xcmd <$> l /\ Forall (fun e => sel e = None /\ e ∈ l) k /\
  cmdq_sq_num q' - Z.of_nat (length k) = cmdq_sq_num q - Z.of_nat (length l).
Proof.
  intros Hs. induction l as [|e l IH]; intros q d k q' E; cbn [complete_cmds] in E; [injection E as <- <- <-; by split_and!|].
  destruct (sel e) as [e1|] eqn:Es.
  - apply bind_Some in E as ([e2 q1] & E1 & E). apply bind_Some in E as ([[d2 k2] q2] & E2 & E). injection E as <- <- <-.
    destruct (IH _ _ _ _ E2) as (P & HF & N). apply ert_complete_keeps in E1 as [X1 X2]. cbn [fst snd] in *. rproj.
    split; [|split].
    + cbn. rewrite X1, (Hs e e1 Es). by apply Permutation_skip.
    + apply (Forall_impl _ _ _ HF). intros x [H1 H2]. split; [done|by right].
    + cbn [length]. lia.
  - apply bind_Some in E as ([[d2 k2] q2] & E2 & E). injection E as <- <- <-. destruct (IH _ _ _ _ E2) as (P & HF & N). split; [|split].
    + rewrite fmap_app in *. cbn. rewrite <- Permutation_middle. by apply Permutation_skip.
    + constructor; [split; [done|by left]|]. apply (Forall_impl _ _ _ HF). intros x [H1 H2]. split; [done|by right].
    + cbn [length]. lia.
Qed.

Lemma poll_sel_xcmd : keeps_xcmd poll_sel.
Proof. intros e e'. unfold poll_sel. destruct (bool_decide _); [|done]. by intros [= <-]. Qed.
Lemma abort_sel_xcmd c : keeps_xcmd (abort_sel c).
Proof. intros e e'. unfold abort_sel. destruct (negb _); [done|]. intros [= <-]. by destruct (bool_decide _). Qed.

Lemma acquire_keeps e q h q' : command_queue_acquire e q = Some (h, q') -> cmdq_sq q' = cmdq_sq q /\ cmdq_sq_num q' = cmdq_sq_num q.
Proof.
  unfold command_queue_acquire, command_queue_acquire_slot_idx. destruct (is_special_cmd e); [by intros [= _ <-]|].
  destruct (_ <? _); [|by intros [= _ <-]]. intros E. apply bind_Some in E as (l & _ & E). by injection E as _ <-.
Qed.

Lemma submit_keeps kds_echo e q ret e' ups q' : cmdq_count_ok q -> command_queue_submit kds_echo e q = Some (ret, e', ups, q') ->
  cmdq_count_ok q' /\ ec_xcmd <$> cmdq_sq q' = (ec_xcmd <$> cmdq_sq q) ++ (if ret =? 0 then [ec_xcmd e] else []).
Proof.
  unfold cmdq_count_ok, command_queue_submit. intros H E. apply bind_Some in E as ([h q1] & E1 & E). apply acquire_keeps in E1 as [K1 K2].
  cbv zeta in E. destruct (h =? no_index).
  { injection E as <- <- <- <-. rewrite app_nil_r, K1, K2. done. }
  apply bind_Some in E as (t & _ & E). destruct kds_echo.
  - injection E as <- <- <- <-. rproj. rewrite K1, K2, length_app, fmap_app. split; [cbn [length]; lia|done].
  - apply bind_Some in E as (m & _ & E). injection E as <- <- <- <-. rproj. rewrite K1, K2, length_app, fmap_app. split; [cbn [length]; lia|done].
Qed.

Lemma not_reported q : Forall (fun e => ec_cstate e <> KDS_COMPLETED) (cmdq_sq q) -> cmdq_reported q = false.
Proof.
  intros HF. unfold cmdq_reported. destruct (existsb _ _) eqn:E; [|done]. apply existsb_exists in E as (e & He & Hb).
  apply list_elem_of_In in He. pose proof (proj1 (Forall_forall _ _) HF e He) as Hn. by apply bool_decide_eq_true in Hb.
Qed.

Lemma reported_Forall q : cmdq_reported q = false -> Forall (fun e => ec_cstate e <> KDS_COMPLETED) (cmdq_sq q).
Proof.
  intros E. apply Forall_forall. intros e He Hc. assert (cmdq_reported q = true) as Ht; [|congruence].
  apply existsb_exists. exists e. split; [by apply list_elem_of_In|by rewrite bool_decide_eq_true_2].
Qed.

Lemma poll_keeps csr q done ups q' : cmdq_count_ok q -> command_queue_poll csr q = Some (done, ups, q') ->
  cmdq_count_ok q' /\ cmdq_reported q' = false /\ ec_xcmd <$> (done ++ cmdq_sq q') ≡ₚ ec_xcmd <$> cmdq_sq q.
Proof.
  unfold cmdq_count_ok, command_queue_poll. intros H. destruct (Z.eqb_spec (cmdq_sq_num q) 0) as [E0|E0].
  { intros [= <- <- <-]. assert (cmdq_sq q = []) as E by (apply length_zero_iff_nil; lia). unfold cmdq_reported. rewrite E0, E. done. }
  intros E. apply bind_Some in E as ([n q1] & E1 & E).
  assert (marks q n q1) as (_ & M2 & M3 & M4 & _).
  { destruct (cmdq_polling q); [by apply check_csr_marks in E1|injection E1 as <- <-; apply marks_refl]. }
  apply bind_Some in E as ([[d k] q2] & E2 & E). injection E as <- <- <-. cbn [fst snd] in E2.
  destruct (complete_cmds_partition poll_sel poll_sel_xcmd _ _ _ _ _ E2) as (P & HF & N). rproj.
  split; [lia|]. split; [|by rewrite <- M4].
  apply not_reported. rproj. apply (Forall_impl _ _ _ HF). intros x [Hx _]. unfold poll_sel in Hx.
  destruct (bool_decide _) eqn:Eb; [done|]. by apply bool_decide_eq_false in Eb.
Qed.

Lemma abort_keeps c q done q' : cmdq_count_ok q -> command_queue_abort c q = Some (done, q') ->
  cmdq_count_ok q' /\ (cmdq_reported q = false -> cmdq_reported q' = false) /\ ec_xcmd <$> (done ++ cmdq_sq q') ≡ₚ ec_xcmd <$> cmdq_sq q.
Proof.
  unfold cmdq_count_ok, command_queue_abort. intros H E. apply bind_Some in E as ([[d k] q2] & E2 & E). injection E as <- <-.
  destruct (complete_cmds_partition (abort_sel c) (abort_sel_xcmd c) _ _ _ _ _ E2) as (P & HF & N). rproj.
  split; [lia|]. split; [|done]. intros Hr. apply not_reported. rproj. apply reported_Forall in Hr.
  apply (Forall_impl _ _ _ HF). intros x [_ Hx]. exact (proj1 (Forall_forall _ _) Hr x Hx).
Qed.

#[export] Instance command_queue_laws kds_echo versal : QueueLaws (command_queue_func kds_echo versal).
Proof.
  refine {| q_held := cmdq_sq; q_ok := cmdq_count_ok; q_reported := cmdq_reported; q_report := cmdq_report |}.
  - intros e q ret e' ups q' H E. exact (submit_keeps kds_echo e q ret e' ups q' H E).
  - intros csr q done ups q' H E. exact (poll_keeps csr q done ups q' H E).
  - intros c q done q' H E. exact (abort_keeps c q done q' H E).
  - intros s p q ret q' H E. cbn in E. unfold command_queue_config in E. repeat (case_match; [by injection E as _ <-|]). by injection E as _ <-.
  - intros b q H. cbn. unfold command_queue_intc_config. by destruct versal.
  - intros q n q' H (A1 & A2 & A3 & A4 & A5)%report_marks. split; [unfold cmdq_count_ok in *; lia|]. done.
  - intros q. unfold cmdq_reported. by destruct (cmdq_sq q).
  - intros e q ret e' ups q' E. cbn in E. unfold command_queue_submit in E. apply bind_Some in E as ([h q1] & _ & E). cbv zeta in E.
    destruct (h =? no_index); [by injection E as _ _ <- _|]. apply bind_Some in E as (t & _ & E).
    destruct kds_echo; [by injection E as _ _ <- _|]. apply bind_Some in E as (m & _ & E). by injection E as _ _ <- _.
  - intros csr q done ups q' E. cbn in E. unfold command_queue_poll in E. destruct (_ =? 0); [by injection E as _ <- _|].
    apply bind_Some in E as ([n q1] & E1 & E). apply bind_Some in E as ([[d k] q2] & _ & E). injection E as _ <- _. cbn [fst].
    destruct (cmdq_polling q); [by apply check_csr_marks in E1 as [H _]|by injection E1 as <- _].
Defined.

(** ** Where a command is *)

Definition is_xcmd (i : Z) (x : option kds_command) : bool := bool_decide (xcmd_id <$> x = Some i).

(** How often the command of KDS at address [i] is in [l]. *)
Definition cnt (i : Z) (l : list xrt_ert_command) : nat := countb (is_xcmd i) (ec_xcmd <$> l).

Lemma countb_perm {A} (p : A -> bool) l k : l ≡ₚ k -> countb p l = countb p k.
Proof. induction 1; cbn [countb]; [done|lia|lia|lia]. Qed.

Lemma cnt_app i l k : cnt i (l ++ k) = (cnt i l + cnt i k)%nat.
Proof. unfold cnt. by rewrite fmap_app, countb_app. Qed.
Lemma cnt_cons i e l : cnt i (e :: l) = (cnt i [e] + cnt i l)%nat.
Proof. apply (cnt_app i [e] l). Qed.
Lemma cnt_one i e e' : ec_xcmd e' = ec_xcmd e -> cnt i [e'] = cnt i [e].
Proof. intros E. unfold cnt. cbn. by rewrite E. Qed.

Lemma cnt_nil i : cnt i [] = 0%nat.
Proof. done. Qed.
Lemma cnt_none i e : ec_xcmd e = None -> cnt i [e] = 0%nat.
Proof. intros E. unfold cnt. cbn. rewrite E. unfold is_xcmd. by rewrite bool_decide_eq_false_2. Qed.

Section Conserve.
Context {Q : Type} (F : xrt_ert_queue_funcs Q) `{!QueueLaws F}.
#[local] Abbreviation user := (xocl_ert_user Q).

Definition held (u : user) : list xrt_ert_command := match eu_queue u with Some q => q_held q | None => [] end.
Definition notified_cnt (i : Z) (u : user) : nat := countb (fun p => xcmd_id p.1 =? i) (eu_notified u).

(** Everywhere but in the run queue [ctrl]. *)
Definition elsewhere (i : Z) (ctrl : bool) (u : user) : nat :=
  (cnt i (uq_list (eu_pq u)) + cnt i (uq_list (eu_pq_ctrl u)) + cnt i (uq_list (get_rq (negb ctrl) u)) + cnt i (held u) +
   cnt i (uq_list (eu_cq u)) + notified_cnt i u)%nat.

(** The number of places the command at [i] is found: a queue of the scheduler,
    the command queue, or the notified ones. *)
Definition places (i : Z) (u : user) : nat := (cnt i (uq_list (eu_rq u)) + elsewhere i false u)%nat.

Lemma places_ctrl i ctrl u : places i u = (cnt i (uq_list (get_rq ctrl u)) + elsewhere i ctrl u)%nat.
Proof. destruct ctrl; [|done]. unfold places, elsewhere. cbn [negb get_rq]. lia. Qed.

(** Counters agree with the lists. *)
Definition uq_ok (q : ert_user_queue) : Prop := uq_num q = Z.of_nat (length (uq_list q)).
Definition rest_ok (ctrl : bool) (u : user) : Prop :=
  uq_ok (eu_pq u) /\ uq_ok (eu_pq_ctrl u) /\ uq_ok (get_rq (negb ctrl) u) /\ uq_ok (eu_cq u) /\
  eu_sq_num u = Z.of_nat (length (held u)) /\ (forall q, eu_queue u = Some q -> q_ok q).
Definition eu_ok (u : user) : Prop := uq_ok (eu_rq u) /\ rest_ok false u.

Lemma eu_ok_ctrl ctrl u : eu_ok u <-> uq_ok (get_rq ctrl u) /\ rest_ok ctrl u.
Proof. destruct ctrl; [|done]. unfold eu_ok, rest_ok. cbn [negb get_rq]. tauto. Qed.

Lemma uq_add_ok e q : uq_ok q -> uq_ok (uq_add e q).
Proof. unfold uq_ok, uq_add. cbn. rewrite length_app. cbn. lia. Qed.
Lemma cnt_uq_add i e q : cnt i (uq_list (uq_add e q)) = (cnt i (uq_list q) + cnt i [e])%nat.
Proof. apply cnt_app. Qed.

(** A change that moves no command of KDS. *)
Definition stays (ctrl : bool) (u u' : user) : Prop :=
  rest_ok ctrl u -> rest_ok ctrl u' /\ (forall i, elsewhere i ctrl u' = elsewhere i ctrl u) /\ get_rq ctrl u' = get_rq ctrl u.

Lemma stays_refl ctrl u : stays ctrl u u.
Proof. intros H. by split_and!. Qed.
Lemma stays_trans ctrl u1 u2 u3 : stays ctrl u1 u2 -> stays ctrl u2 u3 -> stays ctrl u1 u3.
Proof.
  intros HA HB H. destruct (HA H) as (A1 & A2 & A3). destruct (HB A1) as (B1 & B2 & B3). split; [done|]. split; [|congruence].
  intros i. by rewrite B2.
Qed.

Ltac parts := unfold rest_ok, elsewhere, held, notified_cnt, get_rq, ert_user_cmd_notify, upd_rq in *.

Lemma cmd_submit_elsewhere ctrl e u : rest_ok ctrl u -> rest_ok ctrl (ert_user_cmd_submit e u) /\
  (forall i, elsewhere i ctrl (ert_user_cmd_submit e u) = (elsewhere i ctrl u + cnt i [e])%nat) /\
  get_rq (Q := Q) ctrl (ert_user_cmd_submit e u) = get_rq ctrl u.
Proof.
  intros (R1 & R2 & R3 & R4 & R5). unfold ert_user_cmd_submit.
  set (u1 := if _ || _ || _ then _ else _). assert (rest_ok ctrl u1 /\ (forall i, elsewhere i ctrl u1 = (elsewhere i ctrl u + cnt i [e])%nat) /\
    get_rq ctrl u1 = get_rq ctrl u) as (A1 & A2 & A3); [|destruct (_ =? 1); by destruct ctrl].
  subst u1. destruct (_ || _ || _).
  - split; [|split; [|by destruct ctrl]].
    + split; [rproj; by apply uq_add_ok|]. by destruct ctrl.
    + intros i. parts. rproj. rewrite cnt_uq_add. destruct ctrl; lia.
  - split; [|split; [|by destruct ctrl]].
    + split; [done|]. split; [rproj; by apply uq_add_ok|]. by destruct ctrl.
    + intros i. parts. rproj. rewrite cnt_uq_add. destruct ctrl; lia.
Qed.

Lemma stays_internal ctrl e u : ec_xcmd e = None -> stays ctrl u (ert_user_cmd_submit e u).
Proof.
  intros He H. destruct (cmd_submit_elsewhere ctrl e u H) as (A1 & A2 & A3). split; [done|]. split; [|done].
  intros i. rewrite A2, (cnt_none i e He). lia.
Qed.

Lemma stays_data_cmds env ctrl u u' : ert_submit_data_cmds env u = Some u' -> stays ctrl u u'.
Proof.
  unfold ert_submit_data_cmds. intros E.
  apply (foldl_bind_inv (fun u i => ert_submit_data_cmd (ue_alloc env i) u) (stays ctrl u) _ _ _) in E; [done| |apply stays_refl].
  intros a i a' Ea Ha. apply (stays_trans _ _ a); [done|]. unfold ert_submit_data_cmd in Ea.
  destruct (ue_alloc env i); [|injection Ea as <-; apply stays_refl]. apply bind_Some in Ea as (p & _ & Ea). injection Ea as <-.
  by apply stays_internal.
Qed.

Lemma cfg_cmd_xcmd env e u r e' : ert_cfg_cmd F env e u = Some (r, e') -> ec_xcmd e' = ec_xcmd e.
Proof.
  unfold ert_cfg_cmd. intros E. apply bind_Some in E as (x & _ & E). apply bind_Some in E as (q & _ & E).
  destruct (negb _); [by injection E as _ <-|]. destruct (_ <? _); [by injection E as _ <-|].
  apply bind_Some in E as (s & _ & E). destruct (_ || _); [by injection E as _ <-|]. destruct (z2b _); [by injection E as _ <-|].
  apply bind_Some in E as (ws & _ & E). apply bind_Some in E as (w & _ & E). destruct (eu_settings u) as [[a b] c].
  apply bind_Some in E as (ws2 & _ & E). by injection E as _ <-.
Qed.

Lemma pre_process_stays env ctrl e u bad e' u' : ert_pre_process F env e u = Some (bad, e', u') ->
  stays ctrl u u' /\ ec_xcmd e' = ec_xcmd e.
Proof.
  unfold ert_pre_process. intros E. destruct (_ || _).
  { destruct (_ || _); [done|]. injection E as _ <- <-. split; [apply stays_refl|done]. }
  destruct (_ || _ || _ || _ || _).
  { destruct (negb _); [done|]. injection E as _ <- <-. split; [apply stays_refl|done]. }
  destruct (_ =? ERT_ACCESS_TEST_C).
  { destruct (negb _); [done|]. apply bind_Some in E as (u1 & E1 & E). injection E as _ <- <-. split; [|done].
    apply (stays_data_cmds _ ctrl) in E1. apply (stays_trans _ _ (ert_init_access_test u)); [|done]. intros H. by destruct ctrl. }
  destruct (_ =? ERT_CONFIGURE).
  { apply bind_Some in E as ([r e1] & E1 & E). injection E as _ <- <-. split; [apply stays_refl|by apply cfg_cmd_xcmd in E1]. }
  destruct (_ =? ERT_EXIT); injection E as _ <- <-; (split; [apply stays_refl|done]).
Qed.

(** The command queue is replaced by one that holds the same. *)
Lemma stays_queue ctrl u q q' : eu_queue u = Some q -> (q_ok q -> q_ok q' /\ q_held q' = q_held q) -> stays ctrl u (u <| eu_queue := Some q' |>).
Proof.
  intros Hq HQ (R1 & R2 & R3 & R4 & R5 & R6). destruct (HQ (R6 q Hq)) as [K1 K2]. unfold held in R5. rewrite Hq in R5. split.
  - split; [done|]. split; [done|]. split; [by destruct ctrl|]. split; [done|].
    change (held (u <| eu_queue := Some q' |>)) with (q_held q'). rewrite K2. split; [done|]. by intros ? [= <-].
  - split; [|by destruct ctrl]. intros i. unfold elsewhere. change (held (u <| eu_queue := Some q' |>)) with (q_held q').
    rewrite K2. unfold held. rewrite Hq. by destruct ctrl.
Qed.

Lemma stays_intc ctrl b u : stays ctrl u (ert_queue_intc_config F b u).
Proof.
  unfold ert_queue_intc_config. destruct (eu_queue u) as [q|] eqn:Eq.
  - pose proof (stays_queue ctrl u q (q_intc_config F b q) Eq (law_intc b q)) as H. unfold upd in *. cbn in *. by rewrite Eq.
  - intros H. assert (u <| eu_queue ::= fmap (q_intc_config F b) |> = u) as -> by (destruct u; cbn in *; by subst). by apply stays_refl.
Qed.

Lemma config_queue_stays ctrl s p u r u' : ert_config_queue F s p u = (r, u') -> stays ctrl u u'.
Proof.
  unfold ert_config_queue. destruct (eu_queue u) as [q|] eqn:Eq; [|intros [= _ <-]; apply stays_refl].
  destruct (q_config F s p q) as [r1 q1] eqn:Ec. intros [= _ <-]. apply (stays_queue ctrl u q); [done|]. intros H. by apply (law_config s p q r1).
Qed.

Lemma cfg_host_stays ctrl e u r u' : ert_cfg_host F e u = Some (r, u') -> stays ctrl u u'.
Proof.
  unfold ert_cfg_host. destruct (negb _); [done|]. intros E. apply bind_Some in E as (s & _ & E).
  destruct (ert_config_queue F s _ u) as [r1 u1] eqn:E1. apply (config_queue_stays ctrl) in E1.
  destruct (z2b r1); [by injection E as _ <-|]. apply bind_Some in E as (q & _ & E). destruct (_ =? 0); [done|].
  destruct (_ <? _); [done|]. injection E as _ <-.
  set (u2 := u1 <| eu_slot_size := s |> <| eu_num_slots := u32 (q_size F q / s) |> <| eu_polling_mode := cfg_feature (ec_payload e) cfg_bit_polling |>).
  apply (stays_trans ctrl u u1); [done|]. assert (stays ctrl u1 u2) as H12 by (intros H; by destruct ctrl).
  apply (stays_trans ctrl u1 u2); [done|]. apply (stays_trans ctrl u2 (ert_queue_intc_config F (negb (cfg_feature (ec_payload e) cfg_bit_polling)) u2)); [apply stays_intc|].
  intros H. by destruct ctrl.
Qed.
(** ** The run queues *)

Lemma queue_submit_elsewhere ctrl e u ret e' u' : rest_ok ctrl u -> ert_queue_submit F e u = Some (ret, e', u') ->
  rest_ok ctrl (u' <| eu_sq_num ::= fun n => if ret =? 0 then n + 1 else n |>) /\
  (forall i, elsewhere i ctrl u' = (elsewhere i ctrl u + if (ret =? 0)%Z then cnt i [e] else 0)%nat) /\ get_rq ctrl u' = get_rq ctrl u /\
  eu_sq_num u' = eu_sq_num u.
Proof.
  intros (R1 & R2 & R3 & R4 & R5 & R6) E. unfold ert_queue_submit in E. destruct (eu_queue u) as [q|] eqn:Eq.
  - apply bind_Some in E as ([[[r1 e1] n] q'] & E1 & E). injection E as <- <- <-.
    destruct (law_submit e q r1 e1 n q' (R6 q eq_refl) E1) as [K1 K2]. unfold held in R5. rewrite Eq in R5.
    assert (Z.of_nat (length (q_held q')) = Z.of_nat (length (q_held q)) + (if r1 =? 0 then 1 else 0)) as L.
    { rewrite <- (length_fmap ec_xcmd (q_held q')), K2, length_app, length_fmap. destruct (r1 =? 0); cbn [length]; lia. }
    split; [|split; [|split; [by destruct ctrl|done]]].
    + split; [done|]. split; [done|]. split; [by destruct ctrl|]. split; [done|]. split; [|by intros ? [= <-]].
      unfold ert_user_cmd_notify. rproj. change (held _) with (q_held q'). destruct (r1 =? 0); lia.
    + intros i. unfold elsewhere. unfold ert_user_cmd_notify. change (held (upd eu_sem _ _)) with (q_held q'). unfold held. rewrite Eq.
      assert (cnt i (q_held q') = (cnt i (q_held q) + if (r1 =? 0)%Z then cnt i [e] else 0)%nat) as ->.
      { unfold cnt. rewrite K2, countb_app. destruct (r1 =? 0); cbn; lia. }
      destruct ctrl; cbn [get_rq negb]; unfold notified_cnt; rproj; lia.
  - injection E as <- <- <-. change (- ENODEV =? 0) with false. split; [|by split_and!].
    split; [done|]. split; [done|]. split; [by destruct ctrl|]. split; [done|]. split; [exact R5|].
    intros q Hq. rproj. congruence.
Qed.

Lemma count_inflight_stays ctrl e x u u' : count_inflight e x u = Some u' -> stays ctrl u u'.
Proof.
  unfold count_inflight. destruct (start_opcode _); [|intros [= <-]; apply stays_refl]. intros E. apply bind_Some in E as (c & _ & E).
  injection E as <-. intros H. by destruct ctrl.
Qed.

(** The loop's view: the run queue is [l] though its list is stored at the end. *)
Definition walking (ctrl : bool) (l : list xrt_ert_command) (u : user) : Prop :=
  rest_ok ctrl u /\ uq_num (get_rq ctrl u) = Z.of_nat (length l).

Lemma put_rq_ok ctrl l u : walking ctrl l u -> eu_ok (put_rq ctrl l u) /\
  forall i, places i (put_rq ctrl l u) = (cnt i l + elsewhere i ctrl u)%nat.
Proof.
  intros [R N]. split.
  - apply (eu_ok_ctrl ctrl). destruct ctrl; (split; [exact N|exact R]).
  - intros i. rewrite (places_ctrl i ctrl). by destruct ctrl.
Qed.

Lemma stays_walking ctrl l u u' : stays ctrl u u' -> walking ctrl l u ->
  walking ctrl l u' /\ forall i, elsewhere i ctrl u' = elsewhere i ctrl u.
Proof. intros HS [R N]. destruct (HS R) as (A1 & A2 & A3). split; [|done]. split; [done|]. by rewrite A3. Qed.

Lemma rq_submit_ok env ctrl e l u o u' : walking ctrl (e :: l) u -> rq_submit F env ctrl e l u = Some (o, u') ->
  match o with
  | Some _ => eu_ok u' /\ forall i, places i u' = (cnt i (e :: l) + elsewhere i ctrl u)%nat
  | None => walking ctrl l u' /\ forall i, elsewhere i ctrl u' = (elsewhere i ctrl u + cnt i [e])%nat
  end.
Proof.
  intros Hw E. unfold rq_submit in E. cbv zeta in E. destruct (_ && _).
  { injection E as <- <-. by apply put_rq_ok. }
  set (u1 := if _ && _ then _ else u) in E. assert (stays ctrl u u1) as S1 by (subst u1; destruct (_ && _); intros H; by destruct ctrl).
  destruct (stays_walking _ _ _ _ S1 Hw) as [Hw1 E1]. clearbody u1. clear S1.
  apply bind_Some in E as ([r u2] & Eh & E).
  assert (stays ctrl u1 u2) as S2 by (destruct (_ =? ERT_CONFIGURE); [by apply (cfg_host_stays ctrl) in Eh|injection Eh as _ <-; apply stays_refl]).
  destruct (stays_walking _ _ _ _ S2 Hw1) as [Hw2 E2]. clear S2 Eh.
  destruct (z2b r).
  { injection E as <- <-. assert (stays ctrl u2 (u2 <| eu_ctrl_busy := false |>)) as S3 by (intros H; by destruct ctrl).
    destruct (stays_walking _ _ _ _ S3 Hw2) as [Hw3 E3]. destruct (put_rq_ok ctrl (e :: l) _ Hw3) as [K1 K2]. split; [done|].
    intros i. rewrite K2, E3, E2, E1. done. }
  destruct Hw2 as [R2 N2]. apply bind_Some in E as ([[ret e'] u4] & Es & E).
  set (u3 := upd_rq ctrl (fun q => q <| uq_num ::= fun n => n - 1 |>) u2 <| eu_sq_num ::= fun n => n + 1 |>) in Es.
  set (u3' := upd_rq ctrl (fun q => q <| uq_num ::= fun n => n - 1 |>) u2).
  assert (rest_ok ctrl u3') as R3 by (by destruct ctrl).
  assert (forall i, elsewhere i ctrl u3' = elsewhere i ctrl u2) as X3 by (intros i; by destruct ctrl).
  assert (uq_num (get_rq ctrl u3') = Z.of_nat (length l)) as N3.
  { subst u3'. unfold upd_rq, get_rq in *. cbn [length] in N2. destruct ctrl; rproj; lia. }
  assert (exists u4', ert_queue_submit F (e <| ec_xcmd ::= fmap (fun x => set_xcmd_timestamp (ue_now env) x KDS_RUNNING) |>) u3' = Some (ret, e', u4') /\
    u4 = u4' <| eu_sq_num ::= fun n => n + 1 |>) as (u4' & Es' & ->).
  { subst u3 u3'. revert Es. unfold ert_queue_submit, ert_user_cmd_notify, upd_rq.
    destruct ctrl; rproj; destruct (eu_queue u2) as [q|]; cbn [mbind option_bind];
      [destruct (q_submit F _ q) as [[[[? ?] ?] ?]|]; cbn [mbind option_bind]; [|done]|
      |destruct (q_submit F _ q) as [[[[? ?] ?] ?]|]; cbn [mbind option_bind]; [|done]|];
      (intros [= <- <- <-]; eexists; split; [reflexivity|reflexivity]). }
  destruct (queue_submit_elsewhere _ _ _ _ _ _ R3 Es') as (R4 & X4 & G4 & S4). unfold z2b in E. destruct (ret =? 0) eqn:Er; cbn [negb] in E.
  - apply bind_Some in E as (u5 & E5 & E). injection E as <- <-.
    assert (stays ctrl (u4' <| eu_sq_num ::= fun n => n + 1 |>) u5) as S5.
    { destruct (ec_xcmd e) as [x|]; [by apply (count_inflight_stays ctrl) in E5|injection E5 as <-; apply stays_refl]. }
    destruct (stays_walking ctrl l _ _ S5) as [Hw5 E5']; [split; [done|]; by rewrite <- N3, <- G4; destruct ctrl|]. split; [done|].
    intros i. rewrite E5'. assert (elsewhere i ctrl (u4' <| eu_sq_num ::= fun n => n + 1 |>) = elsewhere i ctrl u4') as -> by (by destruct ctrl).
    rewrite X4, X3, E2, E1. f_equal. unfold cnt. cbn. unfold is_xcmd. destruct (ec_xcmd e) as [x|]; [|done]. cbn.
    unfold set_xcmd_timestamp. by destruct (negb _).
  - injection E as <- <-.
    set (u5 := upd_rq ctrl _ _ <| eu_sq_num ::= _ |>).
    assert (walking ctrl (e <| ec_handle := ec_handle e' |> :: l) u5 /\ forall i, elsewhere i ctrl u5 = elsewhere i ctrl u4') as [Hw5 E5].
    { split; [|intros i; by destruct ctrl]. split.
      - destruct R4 as (P1 & P2 & P3 & P4 & P5 & P6). split; [by destruct ctrl|]. split; [by destruct ctrl|]. split; [by destruct ctrl|].
        split; [by destruct ctrl|]. split; [|by destruct ctrl]. subst u5. unfold upd_rq, held in *. destruct ctrl; rproj; lia.
      - rewrite <- G4 in N3. subst u5. unfold upd_rq, get_rq in *. cbn [length]. destruct ctrl; rproj; lia. }
    destruct (put_rq_ok ctrl _ u5 Hw5) as [K1 K2]. split; [done|]. intros i.
    rewrite K2, E5, X4, X3, E2, E1, cnt_cons, (cnt_cons i e), (cnt_one i e); [lia|done].
Qed.

Lemma rq_loop_ok env ctrl ev l : forall bad u r u', walking ctrl l u -> rq_loop F env ctrl ev l bad u = Some (r, u') ->
  eu_ok u' /\ forall i, places i u' = (cnt i l + elsewhere i ctrl u)%nat.
Proof.
  induction l as [|e l IH]; intros bad u r u' Hw E; cbn [rq_loop] in E.
  { injection E as _ <-. by apply put_rq_ok. }
  set (ab := eu_bad_state u || _) in E. clearbody ab. cbv zeta in E.
  set (e0 := if ab then _ else e) in E. assert (ec_xcmd e0 = ec_xcmd e) as X0 by (subst e0; by destruct ab). clearbody e0.
  apply bind_Some in E as ([[b e1] u1] & Ep & E). destruct (pre_process_stays _ ctrl _ _ _ _ _ Ep) as [S1 X1].
  destruct (stays_walking _ _ _ _ S1 Hw) as [Hw1 E1]. set (e2 := if b then _ else e1) in E.
  assert (ec_xcmd e2 = ec_xcmd e) as X2 by (subst e2; destruct b; rproj; congruence). clearbody e2.
  destruct (bad || ab || b).
  - destruct Hw1 as [(R1 & R2 & R3 & R4 & R5 & R6) N1].
    apply IH in E as [K1 K2].
    + split; [done|]. intros i. rewrite K2, (cnt_cons i e). 
      assert (elsewhere i ctrl (upd_rq ctrl (fun q => q <| uq_num ::= fun n => n - 1 |>) (u1 <| eu_cq ::= uq_add e2 |>)) =
        (elsewhere i ctrl u1 + cnt i [e])%nat) as ->; [|rewrite E1; lia].
      parts. rewrite <- (cnt_one i e e2 X2). destruct ctrl; cbn [negb]; rproj; rewrite cnt_uq_add; lia.
    + split.
      * split; [by destruct ctrl|]. split; [by destruct ctrl|]. split; [by destruct ctrl|].
        split; [unfold upd_rq; destruct ctrl; rproj; by apply uq_add_ok|]. split; by destruct ctrl.
      * unfold upd_rq, get_rq in *. cbn [length] in N1. destruct ctrl; rproj; lia.
  - apply bind_Some in E as ([o u2] & Es & E).
    assert (walking ctrl (e2 :: l) u1) as Hw2 by (exact Hw1).
    pose proof (rq_submit_ok _ _ _ _ _ _ _ Hw2 Es) as H. destruct o as [ret|].
    + injection E as _ <-. destruct H as [K1 K2]. split; [done|]. intros i. rewrite K2, E1, cnt_cons, (cnt_cons i e), (cnt_one i e e2 X2). done.
    + destruct H as [Hw3 E3]. apply IH in E as [K1 K2]; [|done]. split; [done|]. intros i.
      rewrite K2, E3, E1, (cnt_cons i e), (cnt_one i e e2 X2). lia.
Qed.

Lemma ert_rq_ok env ctrl ev u r u' : eu_ok u -> process_ert_rq F env ctrl ev u = Some (r, u') ->
  eu_ok u' /\ forall i, places i u' = places i u.
Proof.
  intros H E. unfold process_ert_rq in E. destruct (_ =? 0); [by injection E as _ <-|].
  apply (eu_ok_ctrl ctrl) in H as [H1 H2]. apply rq_loop_ok in E as [K1 K2]; [|by split]. split; [done|].
  intros i. by rewrite K2, (places_ctrl i ctrl).
Qed.
(** ** Completion *)

(** The queues and what has been notified are untouched. *)
Definition frame (u u' : user) : Prop :=
  eu_queue u' = eu_queue u /\ eu_pq u' = eu_pq u /\ eu_pq_ctrl u' = eu_pq_ctrl u /\ eu_rq u' = eu_rq u /\ eu_rq_ctrl u' = eu_rq_ctrl u /\
  eu_sq_num u' = eu_sq_num u /\ eu_cq u' = eu_cq u /\ eu_notified u' = eu_notified u.

Lemma frame_ok u u' : frame u u' -> (eu_ok u <-> eu_ok u') /\ forall i, places i u' = places i u.
Proof.
  intros (E1 & E2 & E3 & E4 & E5 & E6 & E7 & E8). unfold eu_ok, places. parts. cbn [negb] in *. by rewrite E1, E2, E3, E4, E5, E6, E7, E8.
Qed.

Lemma post_process_frame e u u' : ert_post_process e u = Some u' -> frame u u'.
Proof.
  unfold ert_post_process. cbv zeta. destruct (negb _); [by intros [= <-]|]. destruct (_ =? ERT_CONFIGURE); [by intros [= <-]|].
  destruct (_ || _).
  { intros E. apply bind_Some in E as (v & _ & E). by injection E as <-. }
  destruct (access_opcode _).
  { intros E. do 7 (apply bind_Some in E as (? & _ & E)). by injection E as <-. }
  destruct (_ || _); [|by intros [= <-]]. intros E. apply bind_Some in E as (x & _ & E). by injection E as <-.
Qed.

Lemma cb_complete_eq es : forall u : user, let u' := cb_complete es u in
  eu_cq u' = mk_uq (uq_list (eu_cq u) ++ es) (uq_num (eu_cq u) + Z.of_nat (length es)) /\
  eu_sq_num u' = eu_sq_num u - Z.of_nat (length es) /\
  eu_queue u' = eu_queue u /\ eu_pq u' = eu_pq u /\ eu_pq_ctrl u' = eu_pq_ctrl u /\ eu_rq u' = eu_rq u /\ eu_rq_ctrl u' = eu_rq_ctrl u /\
  eu_notified u' = eu_notified u.
Proof.
  induction es as [|e es IH]; intros u u'; subst u'; cbn [cb_complete foldl].
  { rewrite app_nil_r, Z.add_0_r, Z.sub_0_r. split_and!; try done. by destruct (eu_cq u). }
  set (u1 := if ec_exit e then _ else _). destruct (IH u1) as (A1 & A2 & A3 & A4 & A5 & A6 & A7 & A8). unfold cb_complete in *.
  rewrite A1, A2, A3, A4, A5, A6, A7, A8.
  assert (eu_cq u1 = uq_add e (eu_cq u) /\ eu_sq_num u1 = eu_sq_num u - 1) as [-> ->] by (subst u1; by destruct (ec_exit e)).
  cbn [length uq_add uq_list uq_num]. rewrite <- app_assoc. split; [f_equal; lia|]. split; [lia|]. subst u1. by destruct (ec_exit e).
Qed.

(** [done] has left the command queue. *)
Lemma cb_complete_ok done u q' : eu_ok u -> (forall q, eu_queue u = Some q -> q_ok q' /\ ec_xcmd <$> (done ++ q_held q') ≡ₚ ec_xcmd <$> q_held q) ->
  is_Some (eu_queue u) ->
  eu_ok (cb_complete done (u <| eu_queue := Some q' |>)) /\ forall i, places i (cb_complete done (u <| eu_queue := Some q' |>)) = places i u.
Proof.
  intros H HQ [q Hq]. destruct (HQ q Hq) as [K1 K2].
  destruct (cb_complete_eq done (u <| eu_queue := Some q' |>)) as (A1 & A2 & A3 & A4 & A5 & A6 & A7 & A8).
  set (u' := cb_complete done _) in *. clearbody u'. rproj.
  assert (length done + length (q_held q') = length (q_held q))%nat as L.
  { rewrite <- (length_fmap ec_xcmd (q_held q)), <- K2, length_fmap, length_app. done. }
  destruct H as (R0 & R1 & R2 & R3 & R4 & R5 & R6). unfold held in R5. rewrite Hq in R5. split.
  - unfold eu_ok, rest_ok, held. cbn [negb get_rq] in *. rewrite A1, A2, A3, A4, A5, A6, A7. split; [done|]. split; [done|]. split; [done|].
    split; [done|]. split; [unfold uq_ok in *; cbn; rewrite length_app; lia|]. split; [lia|by intros ? [= <-]].
  - intros i. unfold places. parts. cbn [negb]. rewrite A1, A3, A4, A5, A6, A7, A8, Hq. cbn [uq_list]. rewrite cnt_app.
    assert (cnt i (q_held q) = cnt i done + cnt i (q_held q'))%nat as Hc.
    { unfold cnt. rewrite <- countb_app, <- fmap_app. symmetry. by apply countb_perm. }
    lia.
Qed.
Definition reported (u : user) : bool := match eu_queue u with Some q => q_reported q | None => false end.

Lemma frame_notify n u : frame u (ert_user_cmd_notify n u).
Proof. by repeat split. Qed.

Lemma poll_user_ok env u u' : eu_ok u -> ert_queue_poll F env u = Some u' ->
  eu_ok u' /\ (forall i, places i u' = places i u) /\ reported u' = false.
Proof.
  intros H E. unfold ert_queue_poll in E. destruct (eu_queue u) as [q|] eqn:Eq; [|injection E as <-; unfold reported; by rewrite Eq].
  apply bind_Some in E as ([[d n] q'] & E1 & E). injection E as <-.
  assert (q_ok q) as Hq by (by apply H).
  destruct (law_poll (ue_csr env) q d n q' Hq E1) as (K1 & K2 & K3).
  destruct (frame_ok u (ert_user_cmd_notify n u) (frame_notify n u)) as [Fo Fp].
  destruct (cb_complete_ok d (ert_user_cmd_notify n u) q') as [A1 A2]; [by apply Fo| |unfold ert_user_cmd_notify; rproj; by rewrite Eq|].
  { intros q0. unfold ert_user_cmd_notify. rproj. rewrite Eq. by intros [= <-]. }
  split; [exact A1|]. split; [intros i; rewrite <- Fp; exact (A2 i)|].
  unfold reported. destruct (cb_complete_eq d (ert_user_cmd_notify n (u <| eu_queue := Some q' |>))) as (_ & _ & -> & _). done.
Qed.

Lemma abort_user_ok c u u' : eu_ok u -> ert_queue_abort F c u = Some u' ->
  eu_ok u' /\ (forall i, places i u' = places i u) /\ (reported u = false -> reported u' = false).
Proof.
  intros H E. unfold ert_queue_abort in E. destruct (eu_queue u) as [q|] eqn:Eq; [|by injection E as <-].
  apply bind_Some in E as ([d q'] & E1 & E). injection E as <-. assert (q_ok q) as Hq by (by apply H).
  destruct (law_abort c q d q' Hq E1) as (K1 & K2 & K3).
  destruct (cb_complete_ok d u q') as [A1 A2]; [done| |by rewrite Eq|].
  { intros q0. rewrite Eq. by intros [= <-]. }
  split; [done|]. split; [done|]. unfold reported. cbn [snd fst].
  destruct (cb_complete_eq d (u <| eu_queue := Some q' |>)) as (_ & _ & -> & _). by rewrite Eq.
Qed.

Lemma ert_sq_ok env ev u u' : eu_ok u -> process_ert_sq F env ev u = Some u' ->
  eu_ok u' /\ (forall i, places i u' = places i u) /\ reported u' = false.
Proof.
  intros H E. unfold process_ert_sq in E. destruct (Z.eqb_spec (eu_sq_num u) 0) as [E0|_].
  { injection E as <-. split; [done|]. split; [done|]. destruct H as (_ & _ & _ & _ & _ & Hn & _). unfold reported, held in *.
    destruct (eu_queue u) as [q|]; [|done]. destruct (q_reported q) eqn:Er; [|done]. apply law_reported in Er.
    destruct (q_held q); [done|cbn [length] in Hn; lia]. }
  apply bind_Some in E as (u1 & E1 & E). destruct (poll_user_ok _ _ _ H E1) as (A1 & A2 & A3).
  destruct ev as [c|]; [|by injection E as <-]. destruct (abort_user_ok _ _ _ A1 E) as (B1 & B2 & B3).
  split; [done|]. split; [intros i; by rewrite B2|by apply B3].
Qed.

Lemma complete_one_ok env u u' : eu_ok u -> ert_complete_one env u = Some u' ->
  eu_ok u' /\ (forall i, places i u' = places i u) /\ eu_queue u' = eu_queue u.
Proof.
  intros H E. unfold ert_complete_one in E. destruct (uq_list (eu_cq u)) as [|e l] eqn:El; [done|].
  set (u1 := if ert_ctrl_slot_cmd e then _ else _) in E.
  assert (frame (u <| eu_cq ::= fun q => q <| uq_list := l |> |>) u1) as F1 by (subst u1; by destruct (ert_ctrl_slot_cmd e)).
  apply bind_Some in E as (u2 & E2 & E). apply post_process_frame in E2. apply bind_Some in E as (u3 & E3 & E). injection E as <-.
  destruct F1 as (F1 & F2 & F3 & F4 & F5 & F6 & F7 & F8). destruct E2 as (G1 & G2 & G3 & G4 & G5 & G6 & G7 & G8).
  assert (exists n, eu_notified u3 = eu_notified u ++ n /\ (forall i, countb (fun p => xcmd_id p.1 =? i) n = cnt i [e]) /\
    eu_queue u3 = eu_queue u2 /\ eu_pq u3 = eu_pq u2 /\ eu_pq_ctrl u3 = eu_pq_ctrl u2 /\ eu_rq u3 = eu_rq u2 /\ eu_rq_ctrl u3 = eu_rq_ctrl u2 /\
    eu_sq_num u3 = eu_sq_num u2 /\ eu_cq u3 = eu_cq u2) as (n & N1 & N2 & N3 & N4 & N5 & N6 & N7 & N8 & N9).
  { destruct (ec_xcmd e) as [x|] eqn:Ex.
    - apply bind_Some in E3 as (u4 & E4 & E3). injection E3 as <-.
      assert (frame u2 u4) as (P1 & P2 & P3 & P4 & P5 & P6 & P7 & P8).
      { destruct (_ && _); [|by injection E4 as <-]. apply bind_Some in E4 as (c & _ & E4). by injection E4 as <-. }
      eexists. rproj. rewrite P8, G8, F8. rproj. split; [done|]. split; [|by split_and!]. intros i. unfold cnt. cbn. rewrite Ex. unfold is_xcmd. cbn.
      assert (xcmd_id (set_xcmd_timestamp (ue_now env) x (ec_cstate e)) = xcmd_id x) as -> by (unfold set_xcmd_timestamp; by destruct (negb _)).
      destruct (Z.eqb_spec (xcmd_id x) i) as [->|Hn]; [by rewrite bool_decide_eq_true_2|rewrite bool_decide_eq_false_2; [done|congruence]].
    - injection E3 as <-. exists []. rewrite app_nil_r, G8, F8. split; [done|]. split; [|by split_and!]. intros i. by rewrite cnt_none. }
  rproj. destruct H as (R0 & R1 & R2 & R3 & R4 & R5 & R6). cbn [negb get_rq] in *. split; [|split].
  - unfold eu_ok, rest_ok, held, uq_ok in *. cbn [negb get_rq] in *. rproj. rewrite N3, N4, N5, N6, N7, N8, N9, G1, G2, G3, G4, G5, G6, G7, F1, F2, F3, F4, F5, F6, F7. rproj.
    rewrite El in R4. cbn [length] in R4. split_and!; try done. lia.
  - intros i. unfold places. parts. cbn [negb]. rproj. rewrite N1, N3, N4, N5, N6, N7, N9, G1, G2, G3, G4, G5, G7, F1, F2, F3, F4, F5, F7. rproj.
    rewrite El, countb_app, N2, (cnt_cons i e l). lia.
  - by rewrite N3, G1, F1.
Qed.

Lemma cq_loop_ok env n : forall u u', eu_ok u -> ert_cq_loop env n u = Some u' ->
  eu_ok u' /\ (forall i, places i u' = places i u) /\ eu_queue u' = eu_queue u.
Proof.
  induction n as [|n IH]; intros u u' H E; cbn [ert_cq_loop] in E; [by injection E as <-|].
  apply bind_Some in E as (u1 & E1 & E). destruct (complete_one_ok _ _ _ H E1) as (A1 & A2 & A3).
  destruct (IH _ _ A1 E) as (B1 & B2 & B3). split; [done|]. split; [intros i; by rewrite B2|congruence].
Qed.

(** One round: nothing is lost, and when the thread goes on to its sleep every
    command reported before has been handed back. *)
Lemma thread_work_ok env u b u' : eu_ok u -> ert_thread_work F env u = Some (b, u') ->
  eu_ok u' /\ (forall i, places i u' = places i u) /\ (b = false -> reported u' = false).
Proof.
  intros H E. unfold ert_thread_work in E. apply bind_Some in E as ([r1 u1] & E1 & E). destruct (ert_rq_ok _ _ _ _ _ _ H E1) as [A1 A2].
  cbn [fst snd] in E. destruct (z2b r1); [by injection E as <- <-|].
  apply bind_Some in E as ([r2 u2] & E2 & E). destruct (ert_rq_ok _ _ _ _ _ _ A1 E2) as [B1 B2].
  cbn [fst snd] in E. destruct (z2b r2); [injection E as <- <-; split; [done|]; split; [intros i; by rewrite B2|done]|].
  apply bind_Some in E as (u3 & E3 & E). destruct (ert_sq_ok _ _ _ _ B1 E3) as (C1 & C2 & C3).
  apply bind_Some in E as (u4 & E4 & E). destruct (cq_loop_ok _ _ _ _ C1 E4) as (D1 & D2 & D3). injection E as <- <-.
  set (u5 := match first_event_client_or_null u with Some c => _ | None => _ end).
  assert (frame u4 u5) as Fr by (subst u5; by destruct (first_event_client_or_null u)).
  destruct (frame_ok u4 u5 Fr) as [G1 G2]. split; [by apply G1|]. split; [intros i; by rewrite G2, D2, C2, B2|]. intros _.
  destruct Fr as (Fq & _). unfold reported in *. by rewrite Fq, D3.
Qed.

Lemma process_pq_ok ctrl u : eu_ok u -> eu_ok (process_ert_pq (Q := Q) ctrl u) /\ forall i, places i (process_ert_pq ctrl u) = places i u.
Proof.
  intros (R0 & R1 & R2 & R3 & R4 & R5). unfold process_ert_pq. cbn [negb get_rq] in *. destruct ctrl.
  - destruct (_ =? 0); [by split|]. unfold upd_rq. split.
    + split; [done|]. split; [done|]. split; [done|]. split; [|done]. cbn [negb get_rq]. unfold uq_ok, uq_splice in *. rproj. cbn. rewrite length_app. lia.
    + intros i. unfold places. parts. cbn [negb]. rproj. unfold uq_splice, uq_empty. cbn [uq_list]. rewrite cnt_app, cnt_nil. lia.
  - destruct (_ =? 0); [by split|]. unfold upd_rq. split.
    + split; [|done]. unfold uq_ok, uq_splice in *. rproj. cbn. rewrite length_app. lia.
    + intros i. unfold places. parts. cbn [negb]. rproj. unfold uq_splice, uq_empty. cbn [uq_list]. rewrite cnt_app, cnt_nil. lia.
Qed.
(** ** The semaphore only grows while the thread works *)

Lemma sem_cmd_submit e (u : user) : eu_sem u <= eu_sem (ert_user_cmd_submit e u).
Proof. unfold ert_user_cmd_submit, ert_user_cmd_notify. destruct (_ || _ || _); destruct (_ =? 1); rproj; lia. Qed.

Lemma sem_pre_process env e u b e' u' : ert_pre_process F env e u = Some (b, e', u') -> eu_sem u <= eu_sem u'.
Proof.
  unfold ert_pre_process. destruct (_ || _); [destruct (_ || _); [done|intros [= _ _ <-]; lia]|].
  destruct (_ || _ || _ || _ || _); [destruct (negb _); [done|intros [= _ _ <-]; lia]|].
  destruct (_ =? ERT_ACCESS_TEST_C).
  { destruct (negb _); [done|]. intros E. apply bind_Some in E as (u1 & E1 & E). injection E as _ _ <-. unfold ert_submit_data_cmds in E1.
    apply (foldl_bind_inv (fun u i => ert_submit_data_cmd (ue_alloc env i) u) (fun x => eu_sem u <= eu_sem x) _ _ _) in E1;
      [done| |unfold ert_init_access_test; rproj; lia].
    intros a i a' Ea Ha. unfold ert_submit_data_cmd in Ea. destruct (ue_alloc env i); [|by injection Ea as <-].
    apply bind_Some in Ea as (p & _ & Ea). injection Ea as <-. etransitivity; [exact Ha|apply sem_cmd_submit]. }
  destruct (_ =? ERT_CONFIGURE); [intros E; apply bind_Some in E as (r & _ & E); injection E as _ _ <-; lia|].
  destruct (_ =? ERT_EXIT); intros [= _ _ <-]; lia.
Qed.

Lemma sem_cfg_host e u r u' : ert_cfg_host F e u = Some (r, u') -> eu_sem u' = eu_sem u.
Proof.
  unfold ert_cfg_host. destruct (negb _); [done|]. intros E. apply bind_Some in E as (s & _ & E).
  destruct (ert_config_queue F s _ u) as [r1 u1] eqn:E1.
  assert (eu_sem u1 = eu_sem u) as H1.
  { unfold ert_config_queue in E1. destruct (eu_queue u); [|by injection E1 as _ <-]. destruct (q_config F s _ _). by injection E1 as _ <-. }
  destruct (z2b r1); [by injection E as _ <-|]. apply bind_Some in E as (q & _ & E). destruct (_ =? 0); [done|].
  destruct (_ <? _); [done|]. injection E as _ <-. exact H1.
Qed.

Lemma sem_rq_submit env ctrl e l u o u' : rq_submit F env ctrl e l u = Some (o, u') -> eu_sem u <= eu_sem u'.
Proof.
  unfold rq_submit. cbv zeta. destruct (_ && _); [intros [= _ <-]; destruct ctrl; unfold put_rq, upd_rq; rproj; lia|].
  set (u1 := if _ && _ then _ else u). assert (eu_sem u1 = eu_sem u) as <- by (subst u1; by destruct (_ && _)). clearbody u1.
  intros E. apply bind_Some in E as ([r u2] & E2 & E).
  assert (eu_sem u2 = eu_sem u1) as <- by (destruct (_ =? ERT_CONFIGURE); [by apply sem_cfg_host in E2|by injection E2 as _ <-]).
  destruct (z2b r); [injection E as _ <-; destruct ctrl; unfold put_rq, upd_rq; rproj; lia|].
  apply bind_Some in E as ([[ret e'] u3] & E3 & E).
  assert (eu_sem u2 <= eu_sem u3) as H3.
  { unfold ert_queue_submit in E3. destruct (eu_queue _); [|injection E3 as _ _ <-; destruct ctrl; unfold upd_rq; rproj; lia].
    apply bind_Some in E3 as ([[[? ?] n] ?] & Es & E3). apply law_submit_ups in Es. injection E3 as _ _ <-. unfold ert_user_cmd_notify, upd_rq.
    destruct ctrl; rproj; lia. }
  destruct (z2b ret); [injection E as _ <-; unfold put_rq, upd_rq; destruct ctrl; rproj; lia|].
  apply bind_Some in E as (u4 & E4 & E). injection E as _ <-. etransitivity; [exact H3|]. destruct (ec_xcmd e) as [x|]; [|by injection E4 as <-].
  unfold count_inflight in E4. destruct (start_opcode _); [|by injection E4 as <-]. apply bind_Some in E4 as (c & _ & E4). by injection E4 as <-.
Qed.

Lemma sem_rq_loop env ctrl ev l : forall bad u r u', rq_loop F env ctrl ev l bad u = Some (r, u') -> eu_sem u <= eu_sem u'.
Proof.
  induction l as [|e l IH]; intros bad u r u' E; cbn [rq_loop] in E.
  { injection E as _ <-. unfold put_rq, upd_rq. destruct ctrl; rproj; lia. }
  apply bind_Some in E as ([[b e1] u1] & Ep & E). apply sem_pre_process in Ep. destruct (_ || _ || _).
  - apply IH in E. unfold upd_rq in E. destruct ctrl; rproj; lia.
  - apply bind_Some in E as ([o u2] & Es & E). apply sem_rq_submit in Es. destruct o; [injection E as _ <-; lia|]. apply IH in E. lia.
Qed.

Lemma sem_cb_complete es : forall u : user, eu_sem (cb_complete es u) = eu_sem u.
Proof. induction es as [|e es IH]; intros u; [done|]. cbn [cb_complete foldl]. unfold cb_complete in IH. rewrite IH. by destruct (ec_exit e). Qed.

Lemma sem_post_process e (u u' : user) : ert_post_process e u = Some u' -> eu_sem u' = eu_sem u.
Proof.
  unfold ert_post_process. cbv zeta. destruct (negb _); [by intros [= <-]|]. destruct (_ =? ERT_CONFIGURE); [by intros [= <-]|].
  destruct (_ || _).
  { intros E. apply bind_Some in E as (v & _ & E). by injection E as <-. }
  destruct (access_opcode _).
  { intros E. do 7 (apply bind_Some in E as (? & _ & E)). by injection E as <-. }
  destruct (_ || _); [|by intros [= <-]]. intros E. apply bind_Some in E as (x & _ & E). by injection E as <-.
Qed.

Lemma sem_cq_loop env n : forall u u' : user, ert_cq_loop env n u = Some u' -> eu_sem u' = eu_sem u.
Proof.
  induction n as [|n IH]; intros u u' E; cbn [ert_cq_loop] in E; [by injection E as <-|].
  apply bind_Some in E as (u1 & E1 & E). rewrite (IH _ _ E). unfold ert_complete_one in E1. destruct (uq_list _) as [|e l]; [done|].
  apply bind_Some in E1 as (u2 & E2 & E1). apply bind_Some in E1 as (u3 & E3 & E1). injection E1 as <-. rproj.
  assert (eu_sem u3 = eu_sem u2) as ->.
  { destruct (ec_xcmd e); [|by injection E3 as <-]. apply bind_Some in E3 as (u4 & E4 & E3). injection E3 as <-. rproj.
    destruct (_ && _); [|by injection E4 as <-]. apply bind_Some in E4 as (c & _ & E4). by injection E4 as <-. }
  apply sem_post_process in E2. rewrite E2. by destruct (ert_ctrl_slot_cmd e).
Qed.

Lemma sem_thread_work env u b u' : ert_thread_work F env u = Some (b, u') -> eu_sem u <= eu_sem u'.
Proof.
  assert (forall ctrl ev u r u', process_ert_rq F env ctrl ev u = Some (r, u') -> eu_sem u <= eu_sem u') as Hrq.
  { intros ctrl ev u0 r u0' E. unfold process_ert_rq in E. destruct (_ =? 0); [injection E as _ <-; lia|by apply sem_rq_loop in E]. }
  unfold ert_thread_work. intros E. apply bind_Some in E as ([r1 u1] & E1 & E). apply Hrq in E1. cbn [fst snd] in E.
  destruct (z2b r1); [by injection E as _ <-|]. apply bind_Some in E as ([r2 u2] & E2 & E). apply Hrq in E2. cbn [fst snd] in E.
  destruct (z2b r2); [injection E as _ <-; lia|]. apply bind_Some in E as (u3 & E3 & E). apply bind_Some in E as (u4 & E4 & E).
  injection E as _ <-. apply sem_cq_loop in E4.
  assert (eu_sem u2 <= eu_sem u3) as H3.
  { unfold process_ert_sq in E3. destruct (_ =? 0); [injection E3 as <-; lia|]. apply bind_Some in E3 as (u5 & E5 & E3).
    assert (eu_sem u2 <= eu_sem u5) as H5.
    { unfold ert_queue_poll in E5. destruct (eu_queue u2) as [q0|]; [|injection E5 as <-; lia]. apply bind_Some in E5 as ([[d n] q] & Ep & E5).
      apply law_poll_ups in Ep. injection E5 as <-. rewrite sem_cb_complete. unfold ert_user_cmd_notify. rproj. lia. }
    etransitivity; [exact H5|]. destruct (first_event_client_or_null u) as [c|]; [|injection E3 as <-; lia].
    unfold ert_queue_abort in E3. destruct (eu_queue u5) as [q0|]; [|injection E3 as <-; lia]. apply bind_Some in E3 as ([d q] & _ & E3).
    injection E3 as <-. rewrite sem_cb_complete. rproj. lia. }
  destruct (first_event_client_or_null u); unfold xocl_ert_user_remove_event; rproj; lia.
Qed.
End Conserve.
