(* ===== verification/ErtUserRun.v ===== *)
(** * The scheduler of the legacy firmware over time

    The thread of [ErtUser] interleaved with submitters, aborts and reports of
    the firmware: nothing is lost, the thread does not sleep over work, and what
    goes wrong when a control command is in flight or a client is aborted. *)
From S2P Require Import Prelude KdsCommand KdsHwctx CmdQueue CmdQueueProof ErtUser ErtUserProof.

(** ** Interleavings *)

(** Where the thread is in its round: at work, before the test for sleep, at
    [down_interruptible], before each of the two fetches. *)
Inductive thread_phase := T_work | T_check | T_sleep | T_fetch | T_fetch_ctrl.

Section Run.
Context {Q : Type} (F : xrt_ert_queue_funcs Q) `{!QueueLaws F}.
#[local] Abbreviation user := (xocl_ert_user Q).

(** A step, with the commands of KDS it brings in. *)
Inductive ert_step : thread_phase * user -> list Z -> thread_phase * user -> Prop :=
| st_again env u u' : ert_thread_work F env u = Some (true, u') -> ert_step (T_work, u) [] (T_work, u')
| st_work env u u' : ert_thread_work F env u = Some (false, u') -> ert_step (T_work, u) [] (T_check, u')
| st_go u : ert_user_thread_sleep_condition u = false -> ert_step (T_check, u) [] (T_fetch, ert_thread_awake false u)
| st_down u : ert_user_thread_sleep_condition u = true -> ert_step (T_check, u) [] (T_sleep, u)
| st_wake u : 0 < eu_sem u -> ert_step (T_sleep, u) [] (T_fetch, ert_thread_awake true (u <| eu_sem ::= fun n => n - 1 |>))
| st_fetch u : ert_step (T_fetch, u) [] (T_fetch_ctrl, process_ert_pq false u)
| st_fetch_ctrl u : ert_step (T_fetch_ctrl, u) [] (T_work, process_ert_pq true u)
| st_submit ph id pkt xcmd u : ert_step (ph, u) [xcmd_id xcmd] (ph, ert_user_submit (Some id) pkt xcmd u)
| st_report ph q n q' u : eu_queue u = Some q -> q_report q n q' ->
    ert_step (ph, u) [] (ph, ert_user_cmd_notify n (u <| eu_queue := Some q' |>))
| st_abort ph alloc c u : ert_step (ph, u) [] (ph, xocl_ert_user_abort alloc c u)
| st_exit ph alloc u u' : ert_submit_exit_cmd alloc u = Some u' -> ert_step (ph, u) [] (ph, u').

Inductive ert_run : thread_phase * user -> list Z -> thread_phase * user -> Prop :=
| run_nil s : ert_run s [] s
| run_step s ids s' ids' s'' : ert_step s ids s' -> ert_run s' ids' s'' -> ert_run s (ids ++ ids') s''.

Definition occurs (i : Z) (ids : list Z) : nat := countb (fun j => j =? i) ids.

Lemma frame_awake b (u : user) : frame u (ert_thread_awake b u).
Proof. unfold ert_thread_awake. cbv zeta. destruct b; destruct (_ =? ERT_NO_SLEEP_THRESHOLD); by repeat split. Qed.

Lemma frame_abort alloc c (u : user) : frame u (xocl_ert_user_abort alloc c u).
Proof. unfold xocl_ert_user_abort. destruct (bool_decide _); [by repeat split|]. destruct (negb _); by repeat split. Qed.

Lemma cmd_submit_ok e (u : user) : eu_ok F u -> eu_ok F (ert_user_cmd_submit e u) /\
  forall i, places F i (ert_user_cmd_submit e u) = (places F i u + cnt i [e])%nat.
Proof.
  intros [H1 H2]. destruct (cmd_submit_elsewhere F false e u H2) as (A1 & A2 & A3). cbn [get_rq] in A3.
  split; [split; [by rewrite A3|done]|]. intros i. unfold places. rewrite A3, A2. lia.
Qed.

Lemma report_ok q n q' (u : user) : eu_queue u = Some q -> q_report q n q' -> eu_ok F u ->
  eu_ok F (ert_user_cmd_notify n (u <| eu_queue := Some q' |>)) /\
  forall i, places F i (ert_user_cmd_notify n (u <| eu_queue := Some q' |>)) = places F i u.
Proof.
  intros Hq Hr H. assert (q_ok q) as Hok by (by apply H). destruct (law_report q n q' Hok Hr) as (K1 & K2 & K3 & K4).
  assert (eu_ok F (u <| eu_queue := Some q' |>) /\ forall i, places F i (u <| eu_queue := Some q' |>) = places F i u) as [A1 A2].
  { destruct H as (R0 & R1 & R2 & R3 & R4 & R5 & R6). split.
    - split; [done|]. split; [done|]. split; [done|]. split; [done|]. split; [done|]. split; [|by intros ? [= <-]].
      change (held F (u <| eu_queue := Some q' |>)) with (q_held q'). rproj. rewrite R5. unfold held. rewrite Hq.
      by rewrite <- (length_fmap ec_xcmd (q_held q')), K3, length_fmap.
    - intros i. unfold places, elsewhere. change (held F (u <| eu_queue := Some q' |>)) with (q_held q'). unfold held. rewrite Hq.
      unfold cnt. rewrite K3. done. }
  destruct (frame_ok F _ _ (frame_notify n (u <| eu_queue := Some q' |>))) as [B1 B2]. split; [by apply B1|]. intros i. by rewrite B2.
Qed.

Lemma ert_step_ok s ids s' : ert_step s ids s' -> eu_ok F s.2 ->
  eu_ok F s'.2 /\ forall i, places F i s'.2 = (places F i s.2 + occurs i ids)%nat.
Proof.
  assert (forall u u' : user, frame u u' -> eu_ok F u -> eu_ok F u' /\ forall i, places F i u' = (places F i u + occurs i [])%nat) as HF.
  { intros u u' Hf Hu. destruct (frame_ok F u u' Hf) as [A1 A2]. split; [by apply A1|]. intros i. rewrite A2. cbn. lia. }
  assert (forall u u' : user, (eu_ok F u' /\ forall i, places F i u' = places F i u) -> eu_ok F u' /\ forall i, places F i u' = (places F i u + occurs i [])%nat) as HP.
  { intros u u' [A1 A2]. split; [done|]. intros i. rewrite A2. cbn. lia. }
  intros [env u u' E|env u u' E|u _|u _|u _|u|u|ph id pkt xcmd u|ph q n q' u Hq Hr|ph alloc c u|ph alloc u u' E] H; cbn [fst snd] in *.
  - apply HP. destruct (thread_work_ok F _ _ _ _ H E) as (A1 & A2 & _). done.
  - apply HP. destruct (thread_work_ok F _ _ _ _ H E) as (A1 & A2 & _). done.
  - apply HF; [apply frame_awake|done].
  - by apply HP.
  - apply HF; [|done]. pose proof (frame_awake true (u <| eu_sem ::= fun n => n - 1 |>)) as Hf. exact Hf.
  - by apply HP, process_pq_ok.
  - by apply HP, process_pq_ok.
  - unfold ert_user_submit. cbv zeta. destruct (cmd_submit_ok (ert_user_alloc_ecmd id pkt ((ert_count pkt + 1) * 4)
      (if (epkt_cmd_opcode pkt =? ERT_CU_STAT) || access_opcode (epkt_cmd_opcode pkt) then eu_slot_size u
       else if epkt_cmd_opcode pkt =? ERT_SK_START then 8
       else if (epkt_cmd_opcode pkt =? ERT_MB_VALIDATE) || (epkt_cmd_opcode pkt =? ERT_CLK_CALIB) then sizeof_ert_validate_cmd else 0)
      <| ec_xcmd := Some xcmd |> <| ec_cu_idx := if start_opcode (epkt_cmd_opcode pkt) then u32 (xcmd_cu_idx xcmd) else 0 |>
      <| ec_client := xcmd_client xcmd |>) u H) as [A1 A2]. split; [exact A1|]. intros i. rewrite A2. f_equal.
    unfold cnt, occurs. cbn. unfold is_xcmd. cbn. destruct (Z.eqb_spec (xcmd_id xcmd) i) as [->|Hn];
      [by rewrite bool_decide_eq_true_2|rewrite bool_decide_eq_false_2; [done|congruence]].
  - by apply HP, (report_ok q).
  - apply HF; [apply frame_abort|done].
  - apply HP. unfold ert_submit_exit_cmd in E. destruct alloc as [id|]; [|by injection E as <-]. apply bind_Some in E as (p & _ & E). injection E as <-.
    match goal with |- eu_ok F (ert_user_cmd_submit ?e _) /\ _ => destruct (cmd_submit_ok e u H) as [A1 A2] end. split; [exact A1|].
    intros i. rewrite A2, cnt_none by done. lia.
Qed.

(** ** Sleeping *)

Definition nothing_waits (u : user) : Prop :=
  uq_num (eu_pq u) = 0 /\ uq_num (eu_pq_ctrl u) = 0 /\ uq_num (eu_rq u) = 0 /\ uq_num (eu_rq_ctrl u) = 0.

(** What holds while the thread sleeps. *)
Record sleeping (u : user) : Prop := {
  sl_reported : reported F u = true -> 0 < eu_sem u;
  sl_events : eu_events u <> [] -> 0 < eu_sem u;
  sl_cq : uq_num (eu_cq u) = 0;
  sl_waits : eu_polling_mode u = false -> 2 <= eu_num_slots u < 2 ^ 32 -> 0 < eu_sem u \/ nothing_waits u \/ 0 < eu_sq_num u;
}.

Definition wake_inv (s : thread_phase * user) : Prop :=
  0 <= eu_sem s.2 /\
  match s.1 with T_check => reported F s.2 = true -> 0 < eu_sem s.2 | T_sleep => sleeping s.2 | _ => True end.

Lemma sleep_condition_sleeping u : ert_user_thread_sleep_condition u = true -> (reported F u = true -> 0 < eu_sem u) -> sleeping u.
Proof.
  unfold ert_user_thread_sleep_condition. cbv zeta. intros H Hr. apply andb_prop in H as [He H].
  assert (eu_events u = []) as Hev.
  { unfold first_event_client_or_null in He. destruct (eu_events u); [done|]. by rewrite bool_decide_eq_true_2 in He by (by eexists). }
  constructor; [done|by rewrite Hev| |].
  - destruct (eu_polling_mode u); lia.
  - intros Hp Hn. rewrite Hp in H. cbv iota in H. rewrite u32_small in H by lia. unfold nothing_waits. right.
    destruct (Z.eqb_spec (uq_num (eu_rq u)) 0); destruct (Z.eqb_spec (uq_num (eu_rq_ctrl u)) 0); cbn [orb andb negb] in H;
      [left; lia|right; lia..].
Qed.

Lemma wake_cmd_submit e ph u : wake_inv (ph, u) -> wake_inv (ph, ert_user_cmd_submit e u).
Proof.
  intros [H0 H]. cbn [fst snd] in *. pose proof (sem_cmd_submit e u) as Hs. split; [cbn [snd]; lia|]. cbn [fst snd].
  assert (reported F (ert_user_cmd_submit e u) = reported F u) as Hr.
  { unfold ert_user_cmd_submit. by destruct (_ || _ || _), (_ =? 1). }
  destruct ph; try done.
  - rewrite Hr. intros H1. specialize (H H1). lia.
  - destruct H as [S1 S2 S3 S4]. constructor.
    + rewrite Hr. intros H1. specialize (S1 H1). lia.
    + assert (eu_events (ert_user_cmd_submit e u) = eu_events u) as -> by (unfold ert_user_cmd_submit; by destruct (_ || _ || _), (_ =? 1)).
      intros H1. specialize (S2 H1). lia.
    + assert (eu_cq (ert_user_cmd_submit e u) = eu_cq u) as -> by (unfold ert_user_cmd_submit; by destruct (_ || _ || _), (_ =? 1)). done.
    + assert (eu_polling_mode (ert_user_cmd_submit e u) = eu_polling_mode u /\ eu_num_slots (ert_user_cmd_submit e u) = eu_num_slots u /\
        eu_sq_num (ert_user_cmd_submit e u) = eu_sq_num u) as (-> & -> & ->) by (unfold ert_user_cmd_submit; by destruct (_ || _ || _), (_ =? 1)).
      intros Hp Hn. destruct (S4 Hp Hn) as [H1|[(W1 & W2 & W3 & W4)|H1]]; [left; lia| |by right; right].
      left. unfold ert_user_cmd_submit, ert_user_cmd_notify, uq_add.
      destruct (_ || _ || _); destruct (_ =? 1) eqn:Hne; rproj; cbn [uq_num] in *; lia.
Qed.

Lemma wake_step s ids s' : ert_step s ids s' -> eu_ok F s.2 -> wake_inv s -> wake_inv s'.
Proof.
  intros [env u u' E|env u u' E|u _|u Hc|u Hs|u|u|ph id pkt xcmd u|ph q n q' u Hq Hr|ph alloc c u|ph alloc u u' E] Hok [H0 H]; cbn [fst snd] in *.
  - split; [|done]. cbn [snd]. pose proof (sem_thread_work F _ _ _ _ E). lia.
  - pose proof (sem_thread_work F _ _ _ _ E). destruct (thread_work_ok F _ _ _ _ Hok E) as (_ & _ & A3). split; [cbn [snd]; lia|].
    cbn [fst snd]. by rewrite A3.
  - split; [|done]. cbn [snd]. unfold ert_thread_awake. cbv zeta. destruct (_ =? _); rproj; lia.
  - split; [done|]. cbn [fst snd]. by apply sleep_condition_sleeping.
  - split; [|done]. cbn [snd]. unfold ert_thread_awake. cbv zeta. destruct (_ =? _); rproj; lia.
  - split; [|done]. cbn [snd]. unfold process_ert_pq, upd_rq. destruct (_ =? 0); rproj; lia.
  - split; [|done]. cbn [snd]. unfold process_ert_pq, upd_rq. destruct (_ =? 0); rproj; lia.
  - unfold ert_user_submit. cbv zeta. by apply wake_cmd_submit.
  - assert (q_ok q) as Hqo by (by apply Hok). destruct (law_report q n q' Hqo Hr) as (_ & K2 & _ & K4). unfold ert_user_cmd_notify.
    assert (reported F (u <| eu_queue := Some q' |> <| eu_sem ::= fun s => s + n |>) = q_reported q') as Hrep by done.
    assert (reported F u = q_reported q) as Hru by (unfold reported; by rewrite Hq).
    split; [cbn [snd]; rproj; lia|]. cbn [fst snd] in *. destruct ph; try done.
    + rewrite Hrep. intros H1. rproj. destruct (K4 H1) as [H2|]; [rewrite <- Hru in H2; specialize (H H2); lia|lia].
    + destruct H as [S1 S2 S3 S4]. constructor; rewrite ?Hrep; rproj; try done.
      * intros H1. destruct (K4 H1) as [H2|]; [rewrite <- Hru in H2; specialize (S1 H2); lia|lia].
      * intros H1. specialize (S2 H1). lia.
      * intros Hp Hn. destruct (S4 Hp Hn) as [|[|]]; [left; lia|right; by left|right; by right].
  - unfold xocl_ert_user_abort. destruct (bool_decide _); [done|]. destruct (negb alloc); [done|]. unfold ert_user_cmd_notify.
    split; [cbn [snd]; rproj; lia|]. cbn [fst snd] in *. destruct ph; try done; [rproj; lia|].
    destruct H as [S1 S2 S3 S4]. constructor; rproj; try done; try lia.
  - unfold ert_submit_exit_cmd in E. destruct alloc as [id|]; [|by injection E as <-]. apply bind_Some in E as (p & _ & E). injection E as <-.
    by apply wake_cmd_submit.
Qed.

(** C16. The thread of the legacy scheduler does not sleep over work: when it is
    blocked (asleep with the semaphore at zero), no abort is pending, every
    command the firmware has reported done has been handed back and notified, and
    if commands wait in a pending or run queue (in interrupt mode, with at least
    two slots) then a command is in flight, whose completion wakes the thread. *)
Theorem blocked_thread_has_no_work u ids u' :
  ert_run (T_work, u) ids (T_sleep, u') -> eu_ok F u -> 0 <= eu_sem u -> eu_sem u' = 0 ->
  eu_events u' = [] /\ reported F u' = false /\ uq_list (eu_cq u') = [] /\
  (eu_polling_mode u' = false -> 2 <= eu_num_slots u' < 2 ^ 32 ->
   uq_list (eu_pq u') ++ uq_list (eu_pq_ctrl u') ++ uq_list (eu_rq u') ++ uq_list (eu_rq_ctrl u') <> [] -> held F u' <> []).
Proof.
  intros Hr Hok H0 Hz.
  assert (forall s ids s', ert_run s ids s' -> eu_ok F s.2 -> wake_inv s -> eu_ok F s'.2 /\ wake_inv s') as Hrun.
  { intros s l s' R. induction R as [s|s l s1 l' s' H1 R IH]; intros A B; [done|]. apply IH; [by apply (ert_step_ok s l s1)|by apply (wake_step s l s1)]. }
  destruct (Hrun _ _ _ Hr Hok (conj H0 I)) as [(R0 & R1 & R2 & R3 & R4 & R5 & R6) [_ [S1 S2 S3 S4]]]. cbn [fst snd] in *.
  unfold uq_ok in *. cbn [negb get_rq] in *. split; [destruct (eu_events u'); [done|]; exfalso; assert (0 < eu_sem u') by (by apply S2); lia|].
  split; [destruct (reported F u'); [|done]; exfalso; assert (0 < eu_sem u') by (by apply S1); lia|].
  split; [apply length_zero_iff_nil; lia|]. intros Hp Hn Hne Hh. destruct (S4 Hp Hn) as [|[(W1 & W2 & W3 & W4)|]]; [lia| |rewrite Hh in R5; cbn in R5; lia].
  apply Hne. apply length_zero_iff_nil. rewrite !length_app. lia.
Qed.
End Run.

(** ** Defects *)

Section Defects.
Context {Q : Type} (F : xrt_ert_queue_funcs Q).
#[local] Abbreviation user := (xocl_ert_user Q).

Definition of_client (c : Z) (e : xrt_ert_command) : bool := match ec_xcmd e with Some x => c =? xcmd_client x | None => false end.

(** The command as the walk leaves it. *)
Definition walked (c : Z) (e : xrt_ert_command) : xrt_ert_command := if of_client c e then e <| ec_cstate := KDS_ABORT |> else e.

Definition starts (l : list xrt_ert_command) : Prop := Forall (fun e => start_opcode (cmd_opcode e) = true) l.

(** A scheduler that is ready for start commands. *)
Definition ready (u : user) : Prop := eu_bad_state u = false /\ eu_ctrl_busy u = false /\ eu_is_configured u = true.

Lemma pre_process_start env e (u : user) : ready u -> start_opcode (cmd_opcode e) = true -> ert_pre_process F env e u = Some (false, e, u).
Proof. intros (_ & H1 & H2) Hs. unfold ert_pre_process. by rewrite Hs, H1, H2. Qed.

Lemma rq_loop_bad env c l : forall u : user, ready u -> starts l -> exists u',
  rq_loop F env false (Some c) l true u = Some (1, u') /\ uq_list (eu_rq u') = [] /\ eu_queue u' = eu_queue u /\
  uq_list (eu_cq u') = uq_list (eu_cq u) ++ (walked c <$> l).
Proof.
  induction l as [|e l IH]; intros u Hr Hs; cbn [rq_loop].
  { eexists. split; [done|]. unfold put_rq, upd_rq. rproj. by rewrite app_nil_r. }
  inversion Hs as [|? ? H1 H2]; subst. pose proof Hr as (Hb & _). rewrite Hb. cbn [orb].
  set (ab := match ec_xcmd e with Some x => c =? xcmd_client x | None => false end).
  assert ((if ab then e <| ec_cstate := KDS_ABORT |> else e) = walked c e) as Ew by done. rewrite Ew.
  rewrite pre_process_start; [|done|unfold walked; by destruct (of_client c e)]. cbn [mbind option_bind orb].
  destruct (IH (upd_rq false (fun q => q <| uq_num ::= fun n => n - 1 |>) (u <| eu_cq ::= uq_add (walked c e) |>))) as (u' & E & A1 & A2 & A3);
    [done|done|]. exists u'. split; [exact E|]. split; [done|]. split; [done|]. rewrite A3. unfold upd_rq. rproj. cbn [uq_add uq_list].
  by rewrite <- app_assoc.
Qed.


(** The control commands that occupy the scheduler (the configuration, the exit
    and the tests apart). *)
Definition plain_ctrl (op : Z) : bool := (op =? ERT_CLK_CALIB) || (op =? ERT_MB_VALIDATE) || (op =? ERT_SK_CONFIG).

(** C39. While a control command of an application (a clock calibration, say) is
    in flight, a start command in the run queue stops the kernel: the round that
    submits the control command succeeds, and the next one runs into the
    [BUG_ON(ert_user->ctrl_busy)] of [ert_pre_process]. *)
Theorem start_during_control_stops env env' (u : user) q e s l e' ups q' :
  ready u -> eu_queue u = Some q -> eu_events u = [] ->
  eu_rq_ctrl u = mk_uq [e] 1 -> plain_ctrl (cmd_opcode e) = true ->
  uq_list (eu_rq u) = s :: l -> uq_num (eu_rq u) <> 0 -> start_opcode (cmd_opcode s) = true ->
  q_submit F (e <| ec_xcmd ::= fmap (fun x => set_xcmd_timestamp (ue_now env) x KDS_RUNNING) |>) q = Some (0, e', ups, q') ->
  exists u', ert_thread_work F env u = Some (true, u') /\ ert_thread_work F env' u' = None.
Proof.
  intros (Hb & Hc & Hg) Hq Hev Hrc Hop Hrq Hn Hs Hsub.
  assert (ert_pre_process F env e u = Some (false, e, u)) as Hpre.
  { unfold ert_pre_process. rewrite Hg. unfold plain_ctrl, start_opcode, ERT_CLK_CALIB, ERT_MB_VALIDATE, ERT_SK_CONFIG, ERT_START_CU, ERT_EXEC_WRITE,
      ERT_START_KEY_VAL, ERT_SK_START, ERT_CU_STAT, ERT_ACCESS_TEST in *.
    replace (_ || _ || _ || _) with false by lia. replace (_ || _ || _ || _ || _) with true by lia. done. }
  assert (ert_ctrl_slot_cmd e = true /\ (cmd_opcode e =? ERT_CU_STAT) = false /\ (cmd_opcode e =? ERT_CONFIGURE) = false /\
    start_opcode (cmd_opcode e) = false) as (C1 & C2 & C3 & C4).
  { unfold plain_ctrl, ert_ctrl_slot_cmd, ctrl_opcode, start_opcode, ERT_CLK_CALIB, ERT_MB_VALIDATE, ERT_SK_CONFIG, ERT_START_CU, ERT_EXEC_WRITE,
      ERT_START_KEY_VAL, ERT_CU_STAT, ERT_CONFIGURE, ERT_EXIT, ERT_ACCESS_TEST_C in *. lia. }
  unfold ert_thread_work, first_event_client_or_null. rewrite Hev. cbn [head]. unfold process_ert_rq. cbn [get_rq]. rewrite Hrc. cbn [uq_num uq_list].
  change (1 =? 0) with false. cbv iota. cbn [rq_loop]. rewrite Hb. cbn [orb].
  assert (match ec_xcmd e with Some _ => false | None => false end = false) as -> by (by destruct (ec_xcmd e)).
  rewrite Hpre. cbn [mbind option_bind orb]. unfold rq_submit. rewrite C1, Hc, C2, C3. cbn [andb negb mbind option_bind]. cbv zeta.
  change (z2b 0) with false. cbv iota. unfold ert_queue_submit, upd_rq. rproj. rewrite Hq, Hsub. cbn [mbind option_bind].
  change (z2b 0) with false. cbv iota.
  set (u1 := ert_user_cmd_notify ups _).
  assert ((match ec_xcmd e with Some xcmd => count_inflight e xcmd u1 | None => Some u1 end) = Some u1) as ->.
  { unfold count_inflight. rewrite C4. by destruct (ec_xcmd e). }
  cbn [mbind option_bind]. change (z2b (1, put_rq true [] u1).1) with true. cbv iota. eexists. split; [reflexivity|].
  cbn [snd]. set (u2 := put_rq true [] u1).
  assert (eu_rq u2 = eu_rq u /\ eu_ctrl_busy u2 = true /\ uq_num (eu_rq_ctrl u2) = 0 /\ eu_bad_state u2 = false /\ eu_events u2 = []) as (D1 & D2 & D3 & D4 & D5).
  { subst u2 u1. unfold put_rq, upd_rq, ert_user_cmd_notify. rproj. by rewrite Hrc. }
  clearbody u2. rewrite D5. cbn [head]. unfold process_ert_rq. cbn [get_rq]. rewrite D3. cbn [Z.eqb mbind option_bind fst snd].
  change (z2b 0) with false. cbv iota. rewrite D1. destruct (Z.eqb_spec (uq_num (eu_rq u)) 0); [done|]. rewrite Hrq. cbn [rq_loop]. rewrite D4. cbn [orb].
  assert (match ec_xcmd s with Some _ => false | None => false end = false) as -> by (by destruct (ec_xcmd s)).
  unfold ert_pre_process at 1. rewrite Hs, D2. done.
Qed.
End Defects.

(** ** Two status commands *)

Section Status.
Context (versal : bool).
#[local] Abbreviation F := (command_queue_func false versal).
#[local] Abbreviation user := (xocl_ert_user command_queue).

Definition stamped (env : ert_env) (e : xrt_ert_command) : xrt_ert_command :=
  e <| ec_xcmd ::= fmap (fun x => set_xcmd_timestamp (ue_now env) x KDS_RUNNING) |>.

Lemma rq_submit_status env e l (u : user) q : ready u -> eu_queue u = Some q -> cmd_opcode e = ERT_CU_STAT -> cmdq_wf q ->
  cmd_fits (cmdq_slot_size q) e -> exists q' u',
  rq_submit F env true e l u = Some (None, u') /\ ready u' /\ eu_queue u' = Some q' /\
  cmdq_sq q' = cmdq_sq q ++ [stamped env e <| ec_handle := CTRL_SLOT |>] /\
  cmdq_submit_queue q' = aset (cmdq_submit_queue q) CTRL_SLOT (Some (ec_id e)) /\ cmdq_slot_size q' = cmdq_slot_size q /\ cmdq_wf q'.
Proof.
  intros (R1 & R2 & R3) Hq Hop W Hf.
  assert (cmd_fits (cmdq_slot_size q) (stamped env e)) as Hf' by (by destruct Hf).
  assert (is_special_cmd (stamped env e) = true) as Hs.
  { unfold is_special_cmd. change (ec_opcode (stamped env e)) with (cmd_opcode e). by rewrite Hop. }
  destruct (submit_special (stamped env e) q W Hs Hf') as (q' & E & A1 & A2 & A3 & A4). exists q'.
  unfold rq_submit, ert_ctrl_slot_cmd. rewrite Hop, R2. change (ctrl_opcode ERT_CU_STAT) with true. change (ERT_CU_STAT =? ERT_CU_STAT) with true.
  change (ERT_CU_STAT =? ERT_CONFIGURE) with false. cbn [andb negb mbind option_bind]. cbv zeta. change (z2b 0) with false. cbv iota.
  unfold ert_queue_submit, upd_rq. rproj. rewrite Hq. fold (stamped env e). cbn [q_submit command_queue_func]. rewrite E. cbn [mbind option_bind].
  change (z2b 0) with false. cbv iota. set (u1 := ert_user_cmd_notify 0 _).
  assert ((match ec_xcmd e with Some xcmd => count_inflight e xcmd u1 | None => Some u1 end) = Some u1) as ->.
  { unfold count_inflight. rewrite Hop. change (start_opcode ERT_CU_STAT) with false. by destruct (ec_xcmd e). }
  cbn [mbind option_bind]. exists u1. split; [done|]. by split_and!.
Qed.

Lemma pre_process_status env e (u : user) : ready u -> cmd_opcode e = ERT_CU_STAT -> ert_pre_process F env e u = Some (false, e, u).
Proof. intros (_ & _ & H) Hop. unfold ert_pre_process. by rewrite Hop, H. Qed.

Lemma rq_loop_status env e l (u : user) : ready u -> cmd_opcode e = ERT_CU_STAT ->
  rq_loop F env true None (e :: l) false u =
    (r ← rq_submit F env true e l u; match r with (Some ret, u) => Some (ret, u) | (None, u) => rq_loop F env true None l false u end).
Proof.
  intros Hr Hop. cbn [rq_loop]. pose proof Hr as (Hb & _). rewrite Hb. cbn [orb].
  assert (match ec_xcmd e with Some _ => false | None => false end = false) as -> by (by destruct (ec_xcmd e)).
  rewrite pre_process_status by done. done.
Qed.

(** C40. Status commands go to slot 0 but do not mark it busy.  When two of them
    are in the run queue both are submitted in one round; the second takes over
    the slot, and the first is never completed, whatever the firmware reports and
    the driver polls, submits or aborts for others: the application waits until
    its own client is aborted. *)
Theorem status_command_loses_slot env (u : user) q a b :
  ready u -> eu_queue u = Some q -> slots_ok q -> eu_events u = [] -> eu_rq_ctrl u = mk_uq [a; b] 2 ->
  cmd_opcode a = ERT_CU_STAT -> cmd_opcode b = ERT_CU_STAT ->
  cmd_fits (cmdq_slot_size q) a -> cmd_fits (cmdq_slot_size q) b ->
  ec_id a ∉ (ec_id <$> cmdq_sq q) -> ec_id b <> ec_id a -> ec_cstate a <> KDS_COMPLETED ->
  exists u' q', ert_thread_work F env u = Some (true, u') /\ eu_queue u' = Some q' /\
    let a' := stamped env a <| ec_handle := CTRL_SLOT |> in
    forall q'', rtc (queue_later false a') q' q'' -> a' ∈ cmdq_sq q''.
Proof.
  intros Hr Hq Inv Hev Hrc Ha Hb Fa Fb Hna Hid Hcs. set (a' := stamped env a <| ec_handle := CTRL_SLOT |>).
  destruct (rq_submit_status env a [b] u q Hr Hq Ha (si_wf _ _ Inv) Fa) as (q1 & u1 & E1 & R1 & Q1 & S1 & T1 & Z1 & W1).
  destruct (rq_submit_status env b [] u1 q1 R1 Q1 Hb W1) as (q2 & u2 & E2 & R2 & Q2 & S2 & T2 & Z2 & W2); [by rewrite Z1|].
  exists (put_rq true [] u2), q2. split.
  { unfold ert_thread_work, first_event_client_or_null. rewrite Hev. cbn [head]. unfold process_ert_rq. cbn [get_rq]. rewrite Hrc. cbn [uq_num uq_list].
    change (2 =? 0) with false. cbv iota. rewrite rq_loop_status, E1 by done. cbn [mbind option_bind]. rewrite rq_loop_status, E2 by done.
    cbn [mbind option_bind rq_loop fst snd]. done. }
  split; [done|]. intros a0 q'' Hrun. subst a0. fold a' in Hrun |- *.
  enough (stranded a' q2) as Hst by (by apply (stranded_forever false a' q2 q'' Hrun) in Hst as [Hst _]).
  split; [rewrite S2, S1; apply elem_of_app; left; apply elem_of_app; right; by left|].
  split; [done|]. intros id Hin. rewrite T2, T1, aset_aset in Hin. apply elem_of_aset in Hin as [[= ->]|Hin]; [done|]. intros ->. apply Hna.
  apply list_elem_of_lookup in Hin as [h Hh]. pose proof (qw_table _ (si_wf _ _ Inv)) as L. apply lookup_lt_Some in Hh as Hlt.
  destruct (si_table _ _ Inv (Z.of_nat h) (ec_id a)) as (e & He & <- & _).
  - unfold ERT_MAX_SLOTS. lia.
  - unfold table_at, aget. rewrite Nat2Z.id, Hh. done.
  - by apply (list_elem_of_fmap_2 ec_id).
Qed.
End Status.

(** ** Instances of the theorems *)

(** A configured scheduler on the queue [demo_q]. *)
Definition demo_eu : xocl_ert_user command_queue :=
  ert_user_probe <| eu_queue := Some demo_q |> <| eu_is_configured := true |> <| eu_slot_size := 64 |> <| eu_num_slots := 64 |>
    <| eu_num_cus := 1 |>.
Definition demo_uenv : ert_env := mk_ert_env (fun _ => 0) (fun _ => None) 7 0 3 false false.

Lemma demo_eu_ok : eu_ok (command_queue_func false false) demo_eu.
Proof. repeat split. intros q [= <-]. vm_compute. reflexivity. Qed.

(** A start command is submitted, fetched and handed to the firmware. *)
Definition demo_fetched : xocl_ert_user command_queue :=
  process_ert_pq true (process_ert_pq false (ert_user_submit (Some 1) (demo_epkt ERT_START_CU) (demo_xcmd 11 5) demo_eu)).
Definition demo_worked : xocl_ert_user command_queue :=
  match ert_thread_work (command_queue_func false false) demo_uenv demo_fetched with Some (_, u) => u | None => demo_eu end.

Lemma demo_work : ert_thread_work (command_queue_func false false) demo_uenv demo_fetched = Some (true, demo_worked).
Proof. vm_compute. reflexivity. Qed.

Definition demo_start : thread_phase * xocl_ert_user command_queue := (T_fetch, demo_eu).
Definition demo_end : thread_phase * xocl_ert_user command_queue := (T_work, demo_worked).

Lemma demo_run : ert_run (command_queue_func false false) demo_start [11] demo_end.
Proof.
  unfold demo_start, demo_end. set (u1 := ert_user_submit (Some 1) (demo_epkt ERT_START_CU) (demo_xcmd 11 5) demo_eu).
  apply (run_step _ (T_fetch, demo_eu) [11] (T_fetch, u1) [] _ (st_submit _ T_fetch 1 _ (demo_xcmd 11 5) demo_eu)).
  apply (run_step _ (T_fetch, u1) [] (T_fetch_ctrl, process_ert_pq false u1) [] _ (st_fetch _ u1)).
  apply (run_step _ (T_fetch_ctrl, process_ert_pq false u1) [] (T_work, demo_fetched) [] _ (st_fetch_ctrl _ (process_ert_pq false u1))).
  apply (run_step _ (T_work, demo_fetched) [] (T_work, demo_worked) [] _ (st_again _ demo_uenv demo_fetched demo_worked demo_work)).
  apply run_nil.
Qed.

Lemma demo_run_start_ok : eu_ok (command_queue_func false false) demo_start.2.
Proof. exact demo_eu_ok. Qed.

Lemma demo_placed : Nat.add (places (command_queue_func false false) 11 demo_start.2) (occurs 11 [11]) = 1%nat.
Proof. vm_compute. reflexivity. Qed.


Lemma blocked_thread_has_no_work_witness : reported (command_queue_func false false) demo_eu = false.
Proof.
  destruct (blocked_thread_has_no_work (command_queue_func false false) demo_eu [] demo_eu) as (_ & H & _).
  - apply (run_step _ _ [] (T_check, demo_eu) []); [apply (st_work _ demo_uenv); vm_compute; reflexivity|].
    apply (run_step _ _ [] (T_sleep, demo_eu) []); [apply st_down; vm_compute; reflexivity|apply run_nil].
  - exact demo_eu_ok.
  - reflexivity.
  - reflexivity.
  - exact H.
Defined.

Definition demo_abort : xocl_ert_user command_queue :=
  demo_eu <| eu_rq := mk_uq [demo_ecmd 1 5 ERT_START_CU; demo_ecmd 2 6 ERT_START_CU] 2 |>.


Definition demo_calib : xocl_ert_user command_queue :=
  demo_eu <| eu_rq_ctrl := mk_uq [demo_ecmd 1 5 ERT_CLK_CALIB] 1 |> <| eu_rq := mk_uq [demo_ecmd 2 6 ERT_START_CU] 1 |>.

Lemma start_during_control_stops_witness : exists u',
  ert_thread_work (command_queue_func false false) demo_uenv demo_calib = Some (true, u') /\
  ert_thread_work (command_queue_func false false) demo_uenv u' = None.
Proof.
  apply (start_during_control_stops (command_queue_func false false) demo_uenv demo_uenv demo_calib demo_q (demo_ecmd 1 5 ERT_CLK_CALIB)
    (demo_ecmd 2 6 ERT_START_CU) [] (demo_ecmd 1 5 ERT_CLK_CALIB) 0
    (match command_queue_submit false (demo_ecmd 1 5 ERT_CLK_CALIB) demo_q with Some r => r.2 | None => demo_q end));
    [by repeat split|reflexivity|reflexivity|reflexivity|reflexivity|reflexivity|cbn; lia|reflexivity|vm_compute; reflexivity].
Defined.

Definition demo_stats : xocl_ert_user command_queue :=
  demo_eu <| eu_rq_ctrl := mk_uq [demo_ecmd 1 5 ERT_CU_STAT; demo_ecmd 2 6 ERT_CU_STAT] 2 |>.

Lemma status_command_loses_slot_witness : exists u' q',
  ert_thread_work (command_queue_func false false) demo_uenv demo_stats = Some (true, u') /\ eu_queue u' = Some q' /\
  demo_ecmd 1 5 ERT_CU_STAT ∈ cmdq_sq q'.
Proof.
  destruct (status_command_loses_slot false demo_uenv demo_stats demo_q (demo_ecmd 1 5 ERT_CU_STAT) (demo_ecmd 2 6 ERT_CU_STAT)) as (u' & q' & E & Eq & H);
    [by repeat split|reflexivity|apply demo_q_ok|reflexivity|reflexivity|reflexivity|reflexivity|apply demo_fits; reflexivity|apply demo_fits; reflexivity
    |vm_compute; intros Hx; inversion Hx|done|done|].
  exists u', q'. split; [exact E|]. split; [exact Eq|]. exact (H q' (rtc_refl _ _)).
Defined.
